(* ===== verification/_CoqProject ===== *)
-Q . S2P
Prelude.v
Crc16.v
Layer2.v
Layer3.v
Ring.v
TQueue.v
TBuffer.v
BuffersPool.v
HalBase.v
Protocol.v
MasterTx.v
ProtocolApp.v
TDataBuffer.v
DataBuffers.v
SlavePoll.v
DeviceParameters.v
Device.v
UdpIo.v
Supervisor.v
Phy.v
NetTasks.v
HalUarts.v
System.v
DataIOLt.v
Putx.v
Console.v
Main.v
LwipDef.v
InetChksum.v
IpAddr.v
Timers.v
Pbuf.v
PbufOps.v
PbufData.v
NetState.v
NetMem.v
Etharp.v
EtharpOps.v
ArpTable.v
IpOut.v
Icmp.v
Raw.v
Udp.v
UdpPorts.v
UdpSend.v
IpReass.v
IpIn.v
IpRecv.v
Reassembly.v
ReassOrder.v
UdpRecv.v
IcmpEcho.v
ArpInput.v
Netif.v
StackInv.v
StackApp.v
Emac.v
EmacRing.v
EmacInput.v
EmacStart.v
DataIO1.v
DataIO2.v
MovAvg.v
