(* ===== verification/Prelude.v ===== *)
(** * KS3 data concentrator: verification library (root file)

    The program is the firmware of a data concentrator on an LPC43xx
    controller.  A host talks to it over UDP (or a serial line) with the
    messages of the DataIO protocol; slave devices answer it over RS485.  It
    reads and writes its registers for the host, polls the slaves for blocks
    of data, stores the blocks for the host, and follows the state of its Ethernet link.  Everything runs in one
    loop of cooperative tasks; interrupts only move bytes and count the ticks.

    ** The parts and their files

    Data and arithmetic
    - [Prelude]: machine words with their wrap-around, the monad [outcome],
      arrays with checked access, little-endian fields, reachability.
    - [Crc16]: the CRC of the packets ([src/comm/CRC16.C]).
    - [HalBase]: differences of the tick counter ([inc/port/hal_base.h]).
    - [Ring], [TQueue], [TBuffer], [BuffersPool]: queue, ring buffers and pool
      ([inc/comm/tqueue.h], [tbuffer.h], [tbuffer_t.h],
      [inc/udp_io/tbufferspool.h]).
    - [Putx]: printing of numbers ([src/comm/putx.c]).
    - [MovAvg]: the moving average ([inc/comm/tmavrgfilt.h]), not used by the
      program.

    The protocol
    - [Layer2], [Layer3]: packets and messages ([inc/dataio/dataio3.h],
      [dataio_types.h]).
    - [DataIOLt]: the short packets ([inc/dataio/dataio_lt.h]).
    - [DataIO1], [DataIO2]: the older packet layers ([inc/dataio/dataio.h],
      [dataio2.h]), which no file of the program includes.
    - [Protocol]: an end of a link, from bytes to messages and back
      ([src/protocol_app], [inc/protocol_app], [inc/protocol]).
    - [MasterTx]: requests to the slaves ([src/protocol/p_tmastertx.cpp]).
    - [ProtocolApp]: the module that owns the links
      ([src/protocol/protocol.cpp]).

    The application
    - [TDataBuffer], [DataBuffers]: blocks of data and their storage
      ([inc/dataio/tdatabuffer.h], [inc/tdatabufferscontainer.h],
      [src/data_buffers.cpp]).
    - [SlavePoll]: polling of the slaves ([inc/p_slave_poll.h],
      [src/p_slave_data_io.cpp]).
    - [DeviceParameters]: the registers ([src/device_parameters.cpp]).
    - [Device]: the handlers of all messages over the state of the device
      ([src/protocol/p_slavemsghandlers_*.cpp], [src/p_*.cpp]).
    - [Console]: the console on the serial line ([src/comm/constrinput.c],
      [src/coninput.cpp]).

    The network and the tasks
    - [UdpIo]: reception, queue and sending of UDP blocks ([src/udp_io]).
    - [Phy]: the Ethernet transceiver ([src/lpc_phy_smsc87x0.c]).
    - [HalUarts]: the serial links ([src/hal_uarts.cpp]).
    - [Supervisor]: the scheduler ([src/supervisor]).
    - [NetTasks]: the four tasks and the main loop ([src/tasks.cpp],
      [src/ts_*.cpp], [src/emac_app.cpp]).
    - [System]: all of it put together under the tasks.
    - [Main]: the loop of [main] ([src/main.cpp], [src/hal.cpp]).

    The network stack ([src/lwip], as configured by [inc/lwipopts.h])
    - [LwipDef]: byte order and assertions ([core/def.c], [lwip/debug.h]).
    - [InetChksum]: the Internet checksum ([core/ipv4/inet_chksum.c]).
    - [IpAddr]: addresses and masks ([core/ipv4/ip_addr.c]).
    - [Timers]: the list of timers ([core/timers.c]).
    - [Pbuf], [PbufOps], [PbufData]: packet buffers, the definitions and
      allocation; links, headers and resizing; contents ([core/pbuf.c]).
    - [NetState], [NetMem]: the state of the stack (packets, interfaces, table
      of ARP, blocks of UDP and raw, datagrams in reassembly) and the laws of
      reading and writing headers in it.
    - [Etharp], [EtharpOps], [ArpTable], [ArpInput]: ARP and Ethernet headers;
      what a packet to a known station becomes; the table over time; received
      ARP packets ([netif/etharp.c]).
    - [IpOut], [IpIn]: sending with routes and fragments, receiving
      ([core/ipv4/ip.c], [ip_frag.c], [netif/etharp.c]).
    - [IpReass]: reassembly ([core/ipv4/ip_frag.c]); [Reassembly]: where a
      fragment goes and when a datagram is complete; [ReassOrder]: all the
      fragments of a datagram.
    - [Icmp], [Raw], [Udp]: the protocols ([core/ipv4/icmp.c], [core/raw.c],
      [core/udp.c]); [UdpPorts]: the blocks of UDP over time; [UdpSend],
      [IpRecv], [UdpRecv]: a datagram from the block that sends it to the frame
      on the link, and from the frame to the receiver; [IcmpEcho]: from an echo
      request to its reply.
    - [Netif]: the interfaces ([core/netif.c]).
    - [StackInv]: the stack under any order of frames, calls and timers;
      [StackApp]: the same with the receivers of [UdpIo].
    - [Emac]: the Ethernet driver ([arch/lpc18xx_43xx_emac.c]); [EmacRing]: its
      rings of descriptors; [EmacInput], [EmacStart]: driver and stack together,
      as [emac_app] runs them ([src/emac_app.cpp]).

    ** How the code is modelled

    A function of the code is a function on records of its variables; the
    fields keep the names of the code, an integer is a [Z] with the wrap of
    its type written out ([u8], [u16], [u32], [s16], [s32]).  A pointer that
    the program only passes on is an address or an index; memory that is shared
    through pointers (the packets of the network stack, the buffers of the
    pool) is a finite map.  An access outside an array is [Fault], a failed
    assertion or a loop that runs out of its fuel [Spin]; a theorem says that
    the result is [Ret], or which of the others it is and when.

    Hardware and the code below the program are classes: [Layer1Tx] and [Uarts]
    (serial drivers of the chip), [UdpStack] and [NetStack] (lwIP), [Mii] (the
    bus of the transceiver), [Board] (what the tasks call; [System] implements
    it).  Their laws ([UartLaws], [UdpLog], [UdpPeers], [NetLog]) state what
    the documentation of these parts promises.  What the tasks rely on is
    [BoardKeeps], which [System] proves for the modules themselves; [BoardLaws]
    adds that every call comes back, and is assumed where a theorem speaks of one
    good pass ([NetTasks.link_return]).  Each theorem that uses a class has a
    witness with a concrete instance.  Memory that is not initialised is an
    argument, usually called [junk].

    The packet buffers of the network stack live in a heap: a finite map from
    addresses to their structures and one to their data, with [malloc] of the
    C library as a class ([Malloc], [MallocLaws]).  An assertion of the network
    stack that fails stays in a loop for ever: it is [Spin].

    The functions of the network stack work on one state, [NetState.Net], that
    holds this heap and the variables of all its files; [Net E] has room for
    the state of what lies around it.  The functions that are called through
    pointers are classes: [LinkDriver] (the output of an interface), [UdpApp]
    and [RawApp] (the receivers), [EnetChip] and [EnetBits] (the registers of
    the Ethernet block and the functions of the chip library).  A header is
    read and written at its offset in the memory of its packet; a field of
    more than one byte is in the order of the processor, which is little
    endian, and [lwip_htons] turns it around as the code does.

    ** What is shown

    - Transport: a packet or a message that is built and sent arrives and
      nothing else does ([Layer2.layer2_roundtrip], [Layer3.layer3_roundtrip],
      [Protocol.processInputData_packet], [DataIOLt.lt_roundtrip]); any bytes
      leave the receivers in a well-formed state ([Layer2.rxHandler_safety],
      [DataIOLt.lt_rx_safe]); the CRC is the polynomial division it stands for
      ([Crc16.calcBlockCRC16i_correct]).
    - The older receiver delivers what the newer one does
      ([DataIO1.receivers_agree], [DataIO1.older_roundtrip]).
    - The moving average is the mean of the last values
      ([MovAvg.filter_means]).
    - Containers refine lists ([TQueue.tqueue_refines_fifo],
      [TBuffer.tbuffer_refines_fifo]: but for three calls, which break the
      buffer).
    - Requests: those to the slaves leave in order, grouped by address, and all
      of them leave ([MasterTx]); those of the host are carried out in order
      and answered in one block to the address they came from
      ([System.request_to_answer]).
    - Data blocks: storage and choice by time stamp, what the counters do
      ([DataBuffers]); a block of a slave is stored once and never again
      ([Device.slave_block]); none of them reaches the host, which is always
      told that there is no data ([Device.stored_never_served]).
    - Network: the blocks sent are the blocks accepted, in order
      ([UdpIo.udp_tx_fifo]); link changes stop and start the exchange
      ([NetTasks.link_loss], [link_return], [System.link_status_follows]); the
      loop stops only where a module below it does, else it comes back in order
      ([NetTasks.main_loop_runs]); the initialisation of the transceiver is
      bounded ([Phy.lpc_phy_init_bounded]).
    - Network stack: the three checksum routines agree, over any division of
      the data into buffers, and a packet checks against its own checksum
      ([InetChksum]); texts of addresses and masks ([IpAddr]); the list of
      timers is the ordered list of due times, and checking it ends unless a
      function it calls stops or there is no memory to arm it again ([Timers]);
      a packet buffer is a
      list of bytes whatever its division, for allocation, headers, cutting,
      chaining, copying and search; freeing restores the memory, and null is
      returned only when the C library refused a block
      ([Pbuf.pbuf_alloc_free], [PbufOps], [PbufData]).
    - UDP over IP over Ethernet: what is sent is one frame with the right
      headers and checksums ([UdpSend.udp_frame_sent]); such a frame comes
      through the checks of the receiving side to the receiver of its block
      with exactly its data ([UdpRecv.udp_frame_received]); blocks and ports
      ([Udp.udp_bind_alone], [Udp.udp_demux]).
    - Fragments that come in order give their datagram
      ([ReassOrder.datagram_reassembled]); a fragment put behind a gap gives one
      with a hole, and one behind the last fragment stops the device when the
      gap is closed ([ReassOrder.reassembly_defects]).
    - The rings of the Ethernet driver are queues, for sending and receiving
      ([EmacRing.tx_ring_queue], [EmacRing.rx_ring_queue]).
    - Echo requests are answered in place, from the receive ring to the transmit
      ring ([IcmpEcho.echo_answered], [EmacInput.ping_answered]); the start sets
      everything up for it, unless the transceiver fails
      ([EmacStart.net_started]).
    - ARP: requests are answered, packets that wait leave with the answer,
      entries and waiting packets do not stay for ever ([ArpInput],
      [ArpTable]); whatever frames, calls and timers come in whatever order, the
      table and the blocks of UDP stay in order, but for one failing call of
      [udp_bind] ([StackApp.stack_stays_ok]).
    - Console: whatever is typed stays within the arrays, and the command of a
      line is carried out once ([Console.console_safe]); the commands do what they say, from the
      serial line to the register ([Main.console_write_turn]).
    - Defects: theorems that state what the code does where that is not what
      it means to do ([Layer2.rx_zero_size_overflow],
      [Layer3.get_messages_spin], [Device.read_block_overflow],
      [SlavePoll.poll_first_only], [DataBuffers.getDataReadyInfo_never],
      [HalUarts.uarts_process_loses], [Console.console_full],
      [PbufData.memfind_misses]).

    ** Bounds and fuel

    Loops over lists are structural.  The loops with fuel are: the extraction
    of messages ([get_messages], fuel the size of the data: each message takes
    at least one byte unless its size is zero, which is the defect shown), the
    loops of the queues of messages (fuel the capacity of the queue), the
    decimal digits (ten for 32 bits, more than the array holds), the search for
    a command (the length of the list of commands), the waits of the
    transceiver (the time-outs of the code in milliseconds), the loops over
    chains of packet buffers (one more than there are buffers in memory:
    [chain_fuel]; a chain that does not come back to itself is shorter), the
    allocation of a chain (its length in bytes), the search in a packet (the
    65536 offsets), the timers ([check_loop]).

    ** Not modelled

    Start-up code, clocks, pins and LEDs, the interrupt handlers, the
    redirection of the C library; of lwIP what the configuration leaves out
    (TCP, DHCP, DNS, the sockets and the other interfaces that need an
    operating system) and its allocators, which the C library replaces; the
    tasks of the firmware reach the stack through [UdpStack] and [NetStack], and
    are not put together with it ([EmacInput] and [EmacStart] are the functions
    that they call, without the timers, and [StackApp] gives it the receivers of
    the program); the parts under
    symbols that are not defined ([LINK_ID_EXTERNAL], the debug output);
    [rprintfFloat], which is not called. *)

From Stdlib Require Export ZArith Lia Bool.
From stdpp Require Export base tactics numbers option list list_numbers.

#[global] Open Scope Z_scope.

(** ** Machine words

    A [w]-bit integer of the C code is a [Z]; assignment to a variable of the
    type is the wrap-around written out. *)

Definition u8 (z : Z) : Z := z mod 256.
Definition u16 (z : Z) : Z := z mod 65536.
Definition u32 (z : Z) : Z := z mod 4294967296.
Definition s16 (z : Z) : Z := (z + 32768) mod 65536 - 32768.
Definition s32 (z : Z) : Z := (z + 2147483648) mod 4294967296 - 2147483648.

Definition is_u8 (z : Z) : Prop := 0 <= z < 256.
Definition is_u16 (z : Z) : Prop := 0 <= z < 65536.
Definition is_u32 (z : Z) : Prop := 0 <= z < 4294967296.

#[export] Instance is_u8_dec z : Decision (is_u8 z).
Proof. unfold is_u8. apply _. Defined.
#[export] Instance is_u16_dec z : Decision (is_u16 z).
Proof. unfold is_u16. apply _. Defined.
#[export] Instance is_u32_dec z : Decision (is_u32 z).
Proof. unfold is_u32. apply _. Defined.

Create HintDb words discriminated.

Lemma u8_range z : is_u8 (u8 z).
Proof. apply Z.mod_pos_bound. lia. Qed.
Lemma u16_range z : is_u16 (u16 z).
Proof. apply Z.mod_pos_bound. lia. Qed.
Lemma u32_range z : is_u32 (u32 z).
Proof. apply Z.mod_pos_bound. lia. Qed.
#[export] Hint Resolve u8_range u16_range u32_range : words.

Lemma u8_id z : is_u8 z -> u8 z = z.
Proof. apply Z.mod_small. Qed.
Lemma u16_id z : is_u16 z -> u16 z = z.
Proof. apply Z.mod_small. Qed.
Lemma u32_id z : is_u32 z -> u32 z = z.
Proof. apply Z.mod_small. Qed.

(** [unw] unfolds the width predicates so that [lia] can use them; [word_lia]
    also turns each wrap-around into its quotient and remainder. *)
Ltac unw := unfold is_u8, is_u16, is_u32 in *.
Ltac word_lia :=
  unfold u8, u16, u32, s16, s32 in *; unw;
  Z.to_euclidean_division_equations; lia.

Lemma s16_id z : -32768 <= z < 32768 -> s16 z = z.
Proof. word_lia. Qed.
Lemma s32_id z : -2147483648 <= z < 2147483648 -> s32 z = z.
Proof. word_lia. Qed.

(** Fields packed into one word: a value above [n] bits that are free. *)
Lemma lor_low n a b : 0 <= n -> 0 <= b < 2 ^ n -> Z.lor (a * 2 ^ n) b = a * 2 ^ n + b.
Proof.
  intros Hn Hb. assert (Z.land (a * 2 ^ n) b = 0) as Hz.
  { apply Z.bits_inj'. intros i Hi. rewrite Z.land_spec, Z.bits_0.
    destruct (Z.ltb_spec i n); [by rewrite Z.mul_pow2_bits_low|].
    destruct (Z.eq_dec b 0) as [->|]; [by rewrite Z.bits_0, andb_false_r|].
    rewrite (Z.bits_above_log2 b); [apply andb_false_r|lia|].
    assert (Z.log2 b < n) by (apply Z.log2_lt_pow2; lia). lia. }
  rewrite <-Z.lxor_lor by done. symmetry. by apply Z.add_nocarry_lxor.
Qed.

(** ** Outcomes

    [Ret]: the code returns.  [Fault]: the code performs an access outside the
    array it addresses (undefined behaviour in C).  [Spin]: the fuel given to
    a loop ran out. *)

Inductive outcome (A : Type) : Type :=
  | Ret (a : A)
  | Fault
  | Spin.
Arguments Ret {A} a.
Arguments Fault {A}.
Arguments Spin {A}.

#[export] Instance outcome_ret : MRet outcome := @Ret.
#[export] Instance outcome_bind : MBind outcome := fun A B f m =>
  match m with Ret a => f a | Fault => Fault | Spin => Spin end.
#[export] Instance outcome_fmap : FMap outcome := fun A B f m =>
  match m with Ret a => Ret (f a) | Fault => Fault | Spin => Spin end.

#[export] Instance outcome_eq_dec {A} `{EqDecision A} : EqDecision (outcome A).
Proof. solve_decision. Defined.

Lemma bind_Ret {A B} (f : A -> outcome B) (m : outcome A) (b : B) :
  m ≫= f = Ret b <-> exists a, m = Ret a /\ f a = Ret b.
Proof. destruct m; naive_solver. Qed.

Lemma bind_assoc_outcome {A B C} (m : outcome A) (f : A -> outcome B) (g : B -> outcome C) :
  (m ≫= f) ≫= g = m ≫= (fun a => f a ≫= g).
Proof. by destruct m. Qed.

(** An access that is [None] outside the array becomes [Fault]. *)
Definition checked {A} (o : option A) : outcome A :=
  match o with Some a => Ret a | None => Fault end.

Lemma checked_Ret {A} (o : option A) a : checked o = Ret a <-> o = Some a.
Proof. destruct o; naive_solver. Qed.

(** Splits the monadic binds of a hypothesis [_ = Ret _]. *)
Ltac inv_ret :=
  repeat match goal with
  | H : _ ≫= _ = Ret _ |- _ =>
      let x := fresh "x" in let Hx := fresh "Hx" in
      apply bind_Ret in H as (x & Hx & H)
  | H : checked _ = Ret _ |- _ => apply checked_Ret in H
  | H : Ret _ = Ret _ |- _ => injection H as H
  | H : Fault = Ret _ |- _ => discriminate H
  | H : Spin = Ret _ |- _ => discriminate H
  end; simplify_eq/=.

(** ** Arrays

    A C array is a list of fixed length, an array of bytes a [list Z]; an index
    is a [Z]. *)

Definition bytes (l : list Z) : Prop := Forall is_u8 l.

Definition rd {A} (m : list A) (i : Z) : option A :=
  if bool_decide (0 <= i) then m !! Z.to_nat i else None.

Definition wr {A} (m : list A) (i : Z) (v : A) : option (list A) :=
  if bool_decide (0 <= i < Z.of_nat (length m))
  then Some (<[Z.to_nat i := v]> m) else None.

(** [memcpy (m + off) src |src|]. *)
Definition blit {A} (m : list A) (off : Z) (src : list A) : option (list A) :=
  if bool_decide (0 <= off /\ off + Z.of_nat (length src) <= Z.of_nat (length m))
  then Some (take (Z.to_nat off) m ++ src ++
             drop (Z.to_nat off + length src) m)
  else None.

(** The [n] bytes at [m + off]. *)
Definition slice {A} (m : list A) (off n : Z) : option (list A) :=
  if bool_decide (0 <= off /\ 0 <= n /\ off + n <= Z.of_nat (length m))
  then Some (take (Z.to_nat n) (drop (Z.to_nat off) m)) else None.

(** Little-endian fields (the target is a little-endian Cortex-M). *)
Definition le2 (v : Z) : list Z := [v mod 256; v / 256 mod 256].
Definition le4 (v : Z) : list Z :=
  [v mod 256; v / 256 mod 256; v / 65536 mod 256; v / 16777216 mod 256].

Definition of_le2 (b0 b1 : Z) : Z := b0 + 256 * b1.
Definition of_le4 (b0 b1 b2 b3 : Z) : Z :=
  b0 + 256 * b1 + 65536 * b2 + 16777216 * b3.

Definition rd16 (m : list Z) (i : Z) : option Z :=
  b0 ← rd m i; b1 ← rd m (i + 1); Some (of_le2 b0 b1).
Definition rd32 (m : list Z) (i : Z) : option Z :=
  b0 ← rd m i; b1 ← rd m (i + 1); b2 ← rd m (i + 2); b3 ← rd m (i + 3);
  Some (of_le4 b0 b1 b2 b3).

Lemma of_le2_le2 v : is_u16 v -> of_le2 (v mod 256) (v / 256 mod 256) = v.
Proof. unfold of_le2. word_lia. Qed.

Lemma of_le2_range b0 b1 : is_u8 b0 -> is_u8 b1 -> is_u16 (of_le2 b0 b1).
Proof. unfold of_le2. unw. lia. Qed.

Lemma le2_bytes v : bytes (le2 v).
Proof. unfold le2, bytes. repeat constructor; word_lia. Qed.
Lemma le4_bytes v : bytes (le4 v).
Proof. unfold le4, bytes. repeat constructor; word_lia. Qed.
#[export] Hint Resolve le2_bytes le4_bytes : words.

Lemma rd_Some {A} (m : list A) i v :
  rd m i = Some v <-> 0 <= i /\ m !! Z.to_nat i = Some v.
Proof. unfold rd. case_bool_decide; naive_solver. Qed.

Lemma rd_nat {A} (m : list A) (i : nat) : rd m (Z.of_nat i) = m !! i.
Proof. unfold rd. rewrite bool_decide_true by lia. by rewrite Nat2Z.id. Qed.

Lemma wr_Some {A} (m : list A) i v m' :
  wr m i v = Some m' <->
  0 <= i < Z.of_nat (length m) /\ m' = <[Z.to_nat i := v]> m.
Proof. unfold wr. case_bool_decide; naive_solver. Qed.

Lemma wr_nat {A} (m : list A) (i : nat) v :
  (i < length m)%nat -> wr m (Z.of_nat i) v = Some (<[i := v]> m).
Proof. intros. unfold wr. rewrite bool_decide_true by lia. by rewrite Nat2Z.id. Qed.

Lemma wr_length {A} (m : list A) i v m' : wr m i v = Some m' -> length m' = length m.
Proof. intros [_ ->]%wr_Some. apply length_insert. Qed.

Lemma wr_bytes m i v m' : bytes m -> is_u8 v -> wr m i v = Some m' -> bytes m'.
Proof. intros ? ? [_ ->]%wr_Some. by apply Forall_insert. Qed.

Lemma blit_length {A} (m : list A) off src m' : blit m off src = Some m' -> length m' = length m.
Proof.
  unfold blit. case_bool_decide; [|done]. intros [= <-].
  rewrite !length_app, length_take, length_drop. lia.
Qed.

Lemma blit_lookup {A} (m : list A) off src m' (i : nat) :
  blit m off src = Some m' ->
  m' !! i = if bool_decide (Z.to_nat off <= i < Z.to_nat off + length src)%nat
            then src !! (i - Z.to_nat off)%nat else m !! i.
Proof.
  unfold blit. case_bool_decide as H; [|done]. intros [= <-]. case_bool_decide as Hi.
  - rewrite lookup_app_r; rewrite length_take; [|lia]. rewrite lookup_app_l by lia. f_equal. lia.
  - destruct (decide (i < Z.to_nat off)%nat).
    + rewrite lookup_app_l by (rewrite length_take; lia). by rewrite lookup_take_lt by lia.
    + rewrite lookup_app_r by (rewrite length_take; lia).
      rewrite lookup_app_r by (rewrite length_take; lia).
      rewrite lookup_drop, length_take. f_equal. lia.
Qed.

Lemma blit_ok {A} (m : list A) off src :
  0 <= off -> off + Z.of_nat (length src) <= Z.of_nat (length m) -> exists m', blit m off src = Some m'.
Proof. intros. unfold blit. rewrite bool_decide_true by lia. eauto. Qed.

Lemma slice_ok {A} (m : list A) off n :
  0 <= off -> 0 <= n -> off + n <= Z.of_nat (length m) ->
  slice m off n = Some (take (Z.to_nat n) (drop (Z.to_nat off) m)).
Proof. intros. unfold slice. by rewrite bool_decide_true by lia. Qed.

Lemma blit_bytes m off src m' :
  bytes m -> bytes src -> blit m off src = Some m' -> bytes m'.
Proof.
  unfold blit. case_bool_decide; [|done]. intros ? ? [= <-].
  repeat apply Forall_app_2; auto using Forall_take, Forall_drop.
Qed.

Lemma blit_here {A} (pre old rest src : list A) off :
  off = Z.of_nat (length pre) -> length old = length src ->
  blit (pre ++ old ++ rest) off src = Some (pre ++ src ++ rest).
Proof.
  intros -> Hl. unfold blit. rewrite bool_decide_true by (rewrite !length_app; lia).
  rewrite Nat2Z.id, take_app_length, <-Hl, <-length_app, (app_assoc pre old), drop_app_length. done.
Qed.

(** The same on a buffer that is only convertible to the shape. *)
Lemma blit_at {A} (pre old rest m src : list A) off :
  m = pre ++ old ++ rest -> off = Z.of_nat (length pre) -> length old = length src ->
  blit m off src = Some (pre ++ src ++ rest).
Proof. intros ->. apply blit_here. Qed.

Lemma wr_at {A} pre (x : A) rest m i b :
  m = pre ++ x :: rest -> i = Z.of_nat (length pre) -> wr m i b = Some (pre ++ b :: rest).
Proof.
  intros -> ->. rewrite wr_nat by (rewrite length_app; simpl; lia).
  by rewrite insert_app_r_alt, Nat.sub_diag by lia.
Qed.

Lemma rd_bytes m i v : bytes m -> rd m i = Some v -> is_u8 v.
Proof. intros ? [_ ?]%rd_Some. by eapply Forall_lookup_1. Qed.


(** The facts on array accesses are used forwards, from the access itself. *)
#[export] Hint Extern 1 (bytes ?p) =>
  match goal with
  | H : wr _ _ _ = Some p |- _ => eapply wr_bytes; [| |exact H]
  | H : blit _ _ _ = Some p |- _ => eapply blit_bytes; [| |exact H]
  end : words.
#[export] Hint Extern 1 (is_u8 ?v) =>
  match goal with H : rd _ _ = Some v |- _ => eapply rd_bytes; [|exact H] end : words.

Lemma rd_total {A} (m : list A) i : 0 <= i < Z.of_nat (length m) -> exists v, rd m i = Some v.
Proof.
  intros H. unfold rd. rewrite bool_decide_true by lia.
  apply lookup_lt_is_Some_2. lia.
Qed.

Lemma rd16_total m i : 0 <= i -> i + 1 < Z.of_nat (length m) -> exists v, rd16 m i = Some v.
Proof.
  intros. destruct (rd_total m i) as [a Ha]; [lia|]. destruct (rd_total m (i + 1)) as [b Hb]; [lia|].
  exists (of_le2 a b). unfold rd16. by rewrite Ha; simpl; rewrite Hb.
Qed.

Lemma rd16_bytes m i v : bytes m -> rd16 m i = Some v -> is_u16 v.
Proof.
  intros Hm. unfold rd16. destruct (rd m i) as [a|] eqn:Ha; [|done]. simpl.
  destruct (rd m (i + 1)) as [b|] eqn:Hb; [|done]. simpl. intros [= <-].
  apply of_le2_range; eauto with words.
Qed.

Lemma rd_wr_ne {A} (m : list A) i j v m' : wr m i v = Some m' -> i <> j -> rd m' j = rd m j.
Proof.
  intros [Hi ->]%wr_Some Hne. unfold rd. case_bool_decide; [|done].
  apply list_lookup_insert_ne. lia.
Qed.

Lemma rd16_wr_ne m i j v m' :
  wr m i v = Some m' -> i <> j -> i <> j + 1 -> rd16 m' j = rd16 m j.
Proof. intros. unfold rd16. by rewrite !(rd_wr_ne _ _ _ _ _ H) by done. Qed.

Lemma wr_total {A} (m : list A) i v : 0 <= i < Z.of_nat (length m) -> exists m', wr m i v = Some m'.
Proof. intros. unfold wr. rewrite bool_decide_true by lia. eauto. Qed.

Lemma rd_app_l {A} (got rest : list A) i : i < Z.of_nat (length got) -> rd (got ++ rest) i = rd got i.
Proof. intros. unfold rd. case_bool_decide; [|done]. apply lookup_app_l. lia. Qed.

Lemma rd16_app_l (got rest : list Z) i :
  i + 1 < Z.of_nat (length got) -> rd16 (got ++ rest) i = rd16 got i.
Proof. intros. unfold rd16. by rewrite !rd_app_l by lia. Qed.

Lemma rd_here {A} (got rest : list A) b i :
  i = Z.of_nat (length got) -> rd (got ++ b :: rest) i = Some b.
Proof. intros ->. rewrite rd_nat. by apply list_lookup_middle. Qed.

Lemma rd16_here (got rest : list Z) b0 b1 i :
  i = Z.of_nat (length got) -> rd16 (got ++ b0 :: b1 :: rest) i = Some (of_le2 b0 b1).
Proof.
  intros ->. unfold rd16. rewrite (rd_here got (b1 :: rest) b0 (Z.of_nat (length got))) by done. simpl.
  rewrite cons_middle, app_assoc, rd_here; [done|]. rewrite length_app. simpl. lia.
Qed.

Lemma le2_u16 v : is_u16 v -> exists b0 b1, le2 v = [b0; b1] /\ is_u8 b0 /\ is_u8 b1 /\ of_le2 b0 b1 = v.
Proof.
  intros Hv. exists (v mod 256), (v / 256 mod 256). split_and!; [done|apply u8_range..|].
  by apply of_le2_le2.
Qed.

Lemma of_le2_inj b0 b1 c0 c1 :
  is_u8 b0 -> is_u8 b1 -> is_u8 c0 -> is_u8 c1 -> of_le2 b0 b1 = of_le2 c0 c1 -> b0 = c0 /\ b1 = c1.
Proof. unfold of_le2. unw. lia. Qed.

Lemma of_le4_le4 v : is_u32 v -> of_le4 (v mod 256) (v / 256 mod 256) (v / 65536 mod 256) (v / 16777216 mod 256) = v.
Proof. unfold of_le4. word_lia. Qed.

Lemma rd16_le2 (pre rest : list Z) v i :
  is_u16 v -> i = Z.of_nat (length pre) -> rd16 (pre ++ le2 v ++ rest) i = Some v.
Proof. intros Hv ->. rewrite <-(of_le2_le2 v Hv) at 2. by apply rd16_here. Qed.

Lemma rd32_le4 (pre rest : list Z) v i :
  is_u32 v -> i = Z.of_nat (length pre) -> rd32 (pre ++ le4 v ++ rest) i = Some v.
Proof.
  intros Hv ->. rewrite <-(of_le4_le4 v Hv) at 2. unfold rd32, le4. cbn [app].
  assert (forall (k : nat) x, ([v mod 256; v / 256 mod 256; v / 65536 mod 256; v / 16777216 mod 256] ++ rest) !! k = Some x ->
    rd (pre ++ [v mod 256; v / 256 mod 256; v / 65536 mod 256; v / 16777216 mod 256] ++ rest)
       (Z.of_nat (length pre) + Z.of_nat k) = Some x) as Hrd.
  { intros k x Hk. rewrite <-Nat2Z.inj_add, rd_nat, lookup_app_r by lia. by replace (_ + k - _)%nat with k by lia. }
  cbn [app] in Hrd. pose proof (Hrd 0%nat _ eq_refl) as H0. rewrite Z.add_0_r in H0.
  pose proof (Hrd 1%nat _ eq_refl) as H1. pose proof (Hrd 2%nat _ eq_refl) as H2. pose proof (Hrd 3%nat _ eq_refl) as H3.
  change (Z.of_nat 1) with 1 in H1. change (Z.of_nat 2) with 2 in H2. change (Z.of_nat 3) with 3 in H3.
  by rewrite H0; cbn [mbind option_bind]; rewrite H1; cbn [mbind option_bind]; rewrite H2;
    cbn [mbind option_bind]; rewrite H3.
Qed.

(** ** Reachability *)

Inductive star {S : Type} (step : S -> S -> Prop) : S -> S -> Prop :=
  | star_refl s : star step s s
  | star_step s1 s2 s3 : step s1 s2 -> star step s2 s3 -> star step s1 s3.

Lemma star_invariant {S} (step : S -> S -> Prop) (I : S -> Prop) :
  (forall s s', I s -> step s s' -> I s') ->
  forall s s', star step s s' -> I s -> I s'.
Proof. intros Hpres s s' H. induction H; eauto. Qed.

Lemma star_trans {S} (step : S -> S -> Prop) s1 s2 s3 :
  star step s1 s2 -> star step s2 s3 -> star step s1 s3.
Proof. induction 1; eauto using star. Qed.
