(* ===== verification/Crc16.v ===== *)
(** * CRC-16 of the DataIO protocol ([src/comm/CRC16.C], [inc/comm/crc16.h])

    The table, the update macro and the block function as the code has them;
    then the division of polynomials over GF(2) they compute, and the error
    detection that follows. *)

From S2P Require Import Prelude.

(** ** The code *)

Definition Crc16Table : list Z := [
   0x0000; 0x1021; 0x2042; 0x3063; 0x4084; 0x50a5; 0x60c6; 0x70e7;
   0x8108; 0x9129; 0xa14a; 0xb16b; 0xc18c; 0xd1ad; 0xe1ce; 0xf1ef;
   0x1231; 0x0210; 0x3273; 0x2252; 0x52b5; 0x4294; 0x72f7; 0x62d6;
   0x9339; 0x8318; 0xb37b; 0xa35a; 0xd3bd; 0xc39c; 0xf3ff; 0xe3de;
   0x2462; 0x3443; 0x0420; 0x1401; 0x64e6; 0x74c7; 0x44a4; 0x5485;
   0xa56a; 0xb54b; 0x8528; 0x9509; 0xe5ee; 0xf5cf; 0xc5ac; 0xd58d;
   0x3653; 0x2672; 0x1611; 0x0630; 0x76d7; 0x66f6; 0x5695; 0x46b4;
   0xb75b; 0xa77a; 0x9719; 0x8738; 0xf7df; 0xe7fe; 0xd79d; 0xc7bc;
   0x48c4; 0x58e5; 0x6886; 0x78a7; 0x0840; 0x1861; 0x2802; 0x3823;
   0xc9cc; 0xd9ed; 0xe98e; 0xf9af; 0x8948; 0x9969; 0xa90a; 0xb92b;
   0x5af5; 0x4ad4; 0x7ab7; 0x6a96; 0x1a71; 0x0a50; 0x3a33; 0x2a12;
   0xdbfd; 0xcbdc; 0xfbbf; 0xeb9e; 0x9b79; 0x8b58; 0xbb3b; 0xab1a;
   0x6ca6; 0x7c87; 0x4ce4; 0x5cc5; 0x2c22; 0x3c03; 0x0c60; 0x1c41;
   0xedae; 0xfd8f; 0xcdec; 0xddcd; 0xad2a; 0xbd0b; 0x8d68; 0x9d49;
   0x7e97; 0x6eb6; 0x5ed5; 0x4ef4; 0x3e13; 0x2e32; 0x1e51; 0x0e70;
   0xff9f; 0xefbe; 0xdfdd; 0xcffc; 0xbf1b; 0xaf3a; 0x9f59; 0x8f78;
   0x9188; 0x81a9; 0xb1ca; 0xa1eb; 0xd10c; 0xc12d; 0xf14e; 0xe16f;
   0x1080; 0x00a1; 0x30c2; 0x20e3; 0x5004; 0x4025; 0x7046; 0x6067;
   0x83b9; 0x9398; 0xa3fb; 0xb3da; 0xc33d; 0xd31c; 0xe37f; 0xf35e;
   0x02b1; 0x1290; 0x22f3; 0x32d2; 0x4235; 0x5214; 0x6277; 0x7256;
   0xb5ea; 0xa5cb; 0x95a8; 0x8589; 0xf56e; 0xe54f; 0xd52c; 0xc50d;
   0x34e2; 0x24c3; 0x14a0; 0x0481; 0x7466; 0x6447; 0x5424; 0x4405;
   0xa7db; 0xb7fa; 0x8799; 0x97b8; 0xe75f; 0xf77e; 0xc71d; 0xd73c;
   0x26d3; 0x36f2; 0x0691; 0x16b0; 0x6657; 0x7676; 0x4615; 0x5634;
   0xd94c; 0xc96d; 0xf90e; 0xe92f; 0x99c8; 0x89e9; 0xb98a; 0xa9ab;
   0x5844; 0x4865; 0x7806; 0x6827; 0x18c0; 0x08e1; 0x3882; 0x28a3;
   0xcb7d; 0xdb5c; 0xeb3f; 0xfb1e; 0x8bf9; 0x9bd8; 0xabbb; 0xbb9a;
   0x4a75; 0x5a54; 0x6a37; 0x7a16; 0x0af1; 0x1ad0; 0x2ab3; 0x3a92;
   0xfd2e; 0xed0f; 0xdd6c; 0xcd4d; 0xbdaa; 0xad8b; 0x9de8; 0x8dc9;
   0x7c26; 0x6c07; 0x5c64; 0x4c45; 0x3ca2; 0x2c83; 0x1ce0; 0x0cc1;
   0xef1f; 0xff3e; 0xcf5d; 0xdf7c; 0xaf9b; 0xbfba; 0x8fd9; 0x9ff8;
   0x6e17; 0x7e36; 0x4e55; 0x5e74; 0x2e93; 0x3eb2; 0x0ed1; 0x1ef0 ].

Definition crc_table (i : Z) : Z := nth (Z.to_nat i) Crc16Table 0.

(** The macro [UPDATE_CRC16(Octet, CRC)], assigned to a [uint16_t]. *)
Definition UPDATE_CRC16 (Octet CRC : Z) : Z :=
  u16 (Z.lxor (Z.lxor (crc_table (Z.land (Z.shiftr CRC 8) 255)) (Z.shiftl CRC 8)) Octet).

(** The function of the same formula. *)
Definition UpdateCRC16 (Octet CRC : Z) : Z :=
  u16 (Z.lxor (Z.lxor (crc_table (Z.land (Z.shiftr CRC 8) 255)) (Z.shiftl CRC 8)) Octet).

(** The "augmented" variant; the callers of this repository do not use it. *)
Definition UpdateCRC (Octet CRC : Z) : Z :=
  u16 (Z.lxor (Z.shiftl CRC 8) (crc_table (Z.lxor (Z.shiftr CRC 8) Octet))).

(** The loop over [sz] bytes at [data]; reading past the array is a fault. *)
Fixpoint calcBlockCRC16i_loop (data : list Z) (sz : nat) (crc : Z) {struct sz} : outcome Z :=
  match sz with
  | O => Ret crc
  | S sz' =>
      match data with
      | [] => Fault
      | b :: data' =>
          calcBlockCRC16i_loop data' sz'
            (u16 (Z.lxor (Z.lxor (crc_table (Z.land (Z.shiftr crc 8) 255)) (Z.shiftl crc 8)) b))
      end
  end.

Definition calcBlockCRC16i (data : list Z) (sz initCRC : Z) : outcome Z :=
  calcBlockCRC16i_loop data (Z.to_nat sz) initCRC.

(** ** Reference: a bit-serial divider by x^16 + x^12 + x^5 + 1 *)

Definition crc_poly : Z := 0x11021.

(** Shift one message bit into the 16-bit remainder. *)
Definition crc_bit (crc : Z) (bit : bool) : Z :=
  let r := Z.lxor (Z.shiftl crc 1) (Z.b2z bit) in
  if Z.testbit r 16 then Z.lxor r crc_poly else r.

(** The bits of a byte, most significant first. *)
Definition byte_bits (b : Z) : list bool := Z.testbit b <$> [7; 6; 5; 4; 3; 2; 1; 0].

Definition crc_byte (crc b : Z) : Z := fold_left crc_bit (byte_bits b) crc.

Definition crc_ref (init : Z) (data : list Z) : Z := fold_left crc_byte data init.

(** The block CRC as a fold of the table step. *)
Definition crc_fold (init : Z) (data : list Z) : Z :=
  fold_left (fun c b => UPDATE_CRC16 b c) data init.

#[global] Arguments UPDATE_CRC16 : simpl never.
#[global] Arguments crc_table : simpl never.

(** ** The block function is the fold *)

Lemma calcBlockCRC16i_loop_app data tail crc :
  calcBlockCRC16i_loop (data ++ tail) (length data) crc = Ret (crc_fold crc data).
Proof. revert crc. induction data; intros; simpl; [done|]. apply IHdata. Qed.

Lemma calcBlockCRC16i_app data tail init :
  calcBlockCRC16i (data ++ tail) (Z.of_nat (length data)) init = Ret (crc_fold init data).
Proof. unfold calcBlockCRC16i. rewrite Nat2Z.id. apply calcBlockCRC16i_loop_app. Qed.

Lemma UPDATE_CRC16_range b c : is_u16 (UPDATE_CRC16 b c).
Proof. apply u16_range. Qed.
#[export] Hint Resolve UPDATE_CRC16_range : words.

Lemma crc_fold_range init data : is_u16 init -> is_u16 (crc_fold init data).
Proof.
  revert init. induction data; intros; simpl; [done|]. apply IHdata, UPDATE_CRC16_range.
Qed.

Lemma crc_fold_nil init : crc_fold init [] = init.
Proof. done. Qed.
Lemma crc_fold_cons init b data : crc_fold init (b :: data) = crc_fold (UPDATE_CRC16 b init) data.
Proof. done. Qed.
Lemma crc_fold_app init d1 d2 : crc_fold init (d1 ++ d2) = crc_fold (crc_fold init d1) d2.
Proof. apply fold_left_app. Qed.

(** ** The step in terms of high and low byte *)

Lemma crc_table_range i : is_u16 (crc_table i).
Proof.
  unfold crc_table.
  assert (Forall is_u16 Crc16Table) as HF.
  { apply (bool_decide_unpack _). vm_compute. exact I. }
  destruct (nth_in_or_default (Z.to_nat i) Crc16Table 0) as [Hin | ->]; [|unw; lia].
  rewrite Forall_forall in HF. apply HF. by apply list_elem_of_In.
Qed.

(** A 16-bit word as its two bytes. *)
Definition word (h l : Z) : Z := 256 * h + l.

Lemma word_testbit h l n :
  is_u8 l -> 0 <= n ->
  Z.testbit (word h l) n = if bool_decide (n < 8) then Z.testbit l n else Z.testbit h (n - 8).
Proof.
  intros Hl Hn. unfold word. case_bool_decide.
  - rewrite <-(Z.mod_pow2_bits_low _ 8) by lia. f_equal. change (2 ^ 8) with 256. word_lia.
  - replace n with (n - 8 + 8) at 1 by lia. rewrite <-Z.div_pow2_bits by lia.
    f_equal. change (2 ^ 8) with 256. word_lia.
Qed.

Lemma testbit_u16 z n : 0 <= n -> Z.testbit (u16 z) n = (bool_decide (n < 16) && Z.testbit z n)%bool.
Proof.
  intros. unfold u16. change 65536 with (2 ^ 16). case_bool_decide.
  - by rewrite Z.mod_pow2_bits_low.
  - apply Z.mod_pow2_bits_high. lia.
Qed.

Lemma testbit_u8 z n : is_u8 z -> 8 <= n -> Z.testbit z n = false.
Proof.
  intros. rewrite <-(Z.mod_small z (2 ^ 8)) by (change (2 ^ 8) with 256; done).
  apply Z.mod_pow2_bits_high. lia.
Qed.

Lemma lxor_u8 x y : is_u8 x -> is_u8 y -> is_u8 (Z.lxor x y).
Proof.
  intros Hx Hy.
  assert (0 <= Z.lxor x y) by (apply Z.lxor_nonneg; unw; lia).
  enough (Z.lxor x y = Z.lxor x y mod 2 ^ 8) as ->.
  { change (2 ^ 8) with 256. apply Z.mod_pos_bound. lia. }
  apply Z.bits_inj'. intros n Hn. destruct (decide (n < 8)).
  - by rewrite Z.mod_pow2_bits_low.
  - rewrite Z.mod_pow2_bits_high, Z.lxor_spec, !testbit_u8 by (done || lia). done.
Qed.
#[export] Hint Resolve lxor_u8 : words.

(** The update moves the low byte up and brings the octet in below:
    the table entry of the old high byte is added to both. *)
Lemma UPDATE_CRC16_word h l b :
  is_u8 h -> is_u8 l -> is_u8 b ->
  UPDATE_CRC16 b (word h l) =
  word (Z.lxor (crc_table h / 256) l) (Z.lxor (crc_table h mod 256) b).
Proof.
  intros Hh Hl Hb. unfold UPDATE_CRC16.
  assert (Z.land (Z.shiftr (word h l) 8) 255 = h) as ->.
  { rewrite Z.shiftr_div_pow2 by lia. change 255 with (Z.ones 8). rewrite Z.land_ones by lia.
    unfold word. change (2 ^ 8) with 256. word_lia. }
  pose proof (crc_table_range h) as Ht.
  assert (is_u8 (crc_table h mod 256)) by apply u8_range.
  apply Z.bits_inj'. intros n Hn.
  rewrite word_testbit by auto with words.
  rewrite testbit_u16, !Z.lxor_spec by done.
  rewrite Z.shiftl_spec by done.
  change 256 with (2 ^ 8). repeat case_bool_decide; simpl; try lia.
  - rewrite Z.mod_pow2_bits_low, (Z.testbit_neg_r (word h l)) by lia. by rewrite xorb_false_r.
  - rewrite Z.div_pow2_bits by lia.
    rewrite word_testbit, bool_decide_true by (done || lia).
    rewrite (testbit_u8 b) by (done || lia). rewrite xorb_false_r.
    by replace (n - 8 + 8) with n by lia.
  - rewrite !testbit_u8; [done|done|lia| |lia].
    change (2 ^ 8) with 256. word_lia.
Qed.

Lemma word_split c : is_u16 c -> is_u8 (c / 256) /\ is_u8 (c mod 256) /\ c = word (c / 256) (c mod 256).
Proof. unfold word. word_lia. Qed.

Lemma word_inj h l h' l' : is_u8 l -> is_u8 l' -> word h l = word h' l' -> h = h' /\ l = l'.
Proof. unfold word. unw. lia. Qed.

Lemma lxor_inj_l x y z : Z.lxor x y = Z.lxor x z -> y = z.
Proof.
  intros H. apply (f_equal (Z.lxor x)) in H.
  by rewrite <-!Z.lxor_assoc, Z.lxor_nilpotent, !Z.lxor_0_l in H.
Qed.

(** ** The update is injective in the register and in the octet *)

Lemma crc_table_low_inj h h' :
  is_u8 h -> is_u8 h' -> crc_table h mod 256 = crc_table h' mod 256 -> h = h'.
Proof.
  intros Hh Hh' Heq.
  assert (NoDup ((fun t => t mod 256) <$> Crc16Table)) as Hnd.
  { apply (bool_decide_unpack _). vm_compute. exact I. }
  assert (forall i, is_u8 i ->
    ((fun t => t mod 256) <$> Crc16Table) !! Z.to_nat i = Some (crc_table i mod 256)) as Hl.
  { intros i Hi. rewrite list_lookup_fmap.
    destruct (lookup_lt_is_Some_2 Crc16Table (Z.to_nat i)) as [x Hx].
    { change (length Crc16Table) with 256%nat. unw. lia. }
    rewrite Hx. simpl. unfold crc_table. by rewrite (nth_lookup_Some _ _ _ _ Hx). }
  enough (Z.to_nat h = Z.to_nat h') by (unw; lia).
  eapply NoDup_lookup; [exact Hnd|by apply Hl|]. rewrite Heq. by apply Hl.
Qed.

Lemma UPDATE_CRC16_inj_crc b c c' :
  is_u8 b -> is_u16 c -> is_u16 c' -> UPDATE_CRC16 b c = UPDATE_CRC16 b c' -> c = c'.
Proof.
  intros Hb (Hh & Hl & ->)%word_split (Hh' & Hl' & ->)%word_split.
  rewrite !UPDATE_CRC16_word by done. intros [E1 E2]%word_inj;
    try (apply lxor_u8; [apply u8_range|done]).
  rewrite !(Z.lxor_comm _ b) in E2. apply lxor_inj_l, crc_table_low_inj in E2; [|done..].
  rewrite E2 in E1. apply lxor_inj_l in E1. by rewrite E2, E1.
Qed.

Lemma crc_fold_inj_init c c' data :
  bytes data -> is_u16 c -> is_u16 c' -> crc_fold c data = crc_fold c' data -> c = c'.
Proof.
  intros Hd. revert c c'. induction Hd as [|b data Hb _ IH]; intros c c' Hc Hc'; simpl; [done|].
  intros ?%IH; auto with words. by eapply UPDATE_CRC16_inj_crc.
Qed.

(** Two octets in a row reach the register through disjoint bytes. *)
Lemma UPDATE_CRC16_2_inj c b1 b2 b1' b2' :
  is_u16 c -> bytes [b1; b2; b1'; b2'] ->
  UPDATE_CRC16 b2 (UPDATE_CRC16 b1 c) = UPDATE_CRC16 b2' (UPDATE_CRC16 b1' c) ->
  b1 = b1' /\ b2 = b2'.
Proof.
  intros (Hh & Hl & ->)%word_split Hb. unfold bytes in Hb. rewrite !Forall_cons in Hb.
  destruct Hb as (H1 & H2 & H1' & H2' & _).
  set (t := crc_table ((c / 256))). set (l := c mod 256) in *.
  assert (is_u8 (t / 256)) by (pose proof (crc_table_range (c / 256)); subst t; word_lia).
  assert (is_u8 (t mod 256)) by apply u8_range.
  rewrite !(UPDATE_CRC16_word (c / 256) l) by done. fold t.
  rewrite !UPDATE_CRC16_word by auto with words.
  set (t' := crc_table (Z.lxor (t / 256) l)).
  assert (is_u8 (t' mod 256)) by apply u8_range.
  intros [E1 E2]%word_inj; auto with words.
  apply lxor_inj_l in E1, E2. by apply lxor_inj_l in E1.
Qed.

(** ** The update is eight steps of the bit-serial divider *)

Lemma crc_bit_lxor x y p q :
  crc_bit (Z.lxor x y) (xorb p q) = Z.lxor (crc_bit x p) (crc_bit y q).
Proof.
  unfold crc_bit.
  assert (forall x y p q, Z.lxor (Z.shiftl (Z.lxor x y) 1) (Z.b2z (xorb p q)) =
    Z.lxor (Z.lxor (Z.shiftl x 1) (Z.b2z p)) (Z.lxor (Z.shiftl y 1) (Z.b2z q))) as ->.
  { intros. rewrite Z.shiftl_lxor.
    assert (Z.b2z (xorb p0 q0) = Z.lxor (Z.b2z p0) (Z.b2z q0)) as -> by (by destruct p0, q0).
    apply Z.bits_inj'. intros n Hn. rewrite !Z.lxor_spec.
    destruct (Z.testbit _ n), (Z.testbit _ n), (Z.testbit _ n), (Z.testbit _ n); done. }
  rewrite Z.lxor_spec.
  set (a := Z.lxor (Z.shiftl x 1) (Z.b2z p)). set (b := Z.lxor (Z.shiftl y 1) (Z.b2z q)).
  apply Z.bits_inj'. intros n Hn.
  destruct (Z.testbit a 16), (Z.testbit b 16); simpl; rewrite ?Z.lxor_spec;
    destruct (Z.testbit a n), (Z.testbit b n), (Z.testbit crc_poly n); done.
Qed.

Lemma crc_byte_lxor x y a b :
  crc_byte (Z.lxor x y) (Z.lxor a b) = Z.lxor (crc_byte x a) (crc_byte y b).
Proof.
  unfold crc_byte, byte_bits. cbn [fmap list_fmap fold_left].
  by rewrite !Z.lxor_spec, !crc_bit_lxor.
Qed.

(** The three generators, each over the 256 values of a byte. *)
Definition byte_range : list Z := seqZ 0 256.

Lemma byte_range_forall (P : Z -> bool) :
  forallb P byte_range = true -> forall b, is_u8 b -> P b = true.
Proof.
  intros HP b Hb. rewrite forallb_forall in HP. apply HP.
  apply list_elem_of_In, elem_of_seqZ. unw. lia.
Qed.

Lemma crc_byte_table h : is_u8 h -> crc_byte (word h 0) 0 = crc_table h.
Proof.
  intros Hh. apply Z.eqb_eq.
  apply (byte_range_forall (fun h => crc_byte (word h 0) 0 =? crc_table h)); [|done].
  vm_compute. reflexivity.
Qed.

Lemma crc_byte_low l : is_u8 l -> crc_byte l 0 = word l 0.
Proof.
  intros Hh. apply Z.eqb_eq.
  apply (byte_range_forall (fun l => crc_byte l 0 =? word l 0)); [|done].
  vm_compute. reflexivity.
Qed.

Lemma crc_byte_in b : is_u8 b -> crc_byte 0 b = b.
Proof.
  intros Hh. apply Z.eqb_eq.
  apply (byte_range_forall (fun b => crc_byte 0 b =? b)); [|done].
  vm_compute. reflexivity.
Qed.

Lemma word_lxor h l h' l' :
  is_u8 l -> is_u8 l' -> Z.lxor (word h l) (word h' l') = word (Z.lxor h h') (Z.lxor l l').
Proof.
  intros. apply Z.bits_inj'. intros n Hn.
  rewrite Z.lxor_spec, !word_testbit by auto with words.
  case_bool_decide; by rewrite Z.lxor_spec.
Qed.

Lemma is_u8_0 : is_u8 0.
Proof. unw. lia. Qed.
#[export] Hint Resolve is_u8_0 : words.

Lemma UPDATE_CRC16_crc_byte c b : is_u16 c -> is_u8 b -> UPDATE_CRC16 b c = crc_byte c b.
Proof.
  intros (Hh & Hl & ->)%word_split Hb.
  set (h := c / 256) in *. set (l := c mod 256) in *.
  pose proof (crc_table_range h) as (Hth & Htl & Ht)%word_split.
  rewrite UPDATE_CRC16_word by done.
  replace (word h l) with (Z.lxor (word h 0) (Z.lxor (word 0 l) 0)).
  2: { rewrite Z.lxor_0_r, word_lxor, Z.lxor_0_r, Z.lxor_0_l by auto with words. done. }
  replace (crc_byte _ b) with (crc_byte (Z.lxor (word h 0) (Z.lxor (word 0 l) 0))
    (Z.lxor 0 (Z.lxor 0 b))) by (by rewrite !Z.lxor_0_l).
  rewrite !crc_byte_lxor, crc_byte_table, crc_byte_in by done.
  change (word 0 l) with l. rewrite crc_byte_low by done.
  rewrite Ht at 3. replace b with (word 0 b) at 2 by done.
  rewrite !word_lxor, Z.lxor_0_r, Z.lxor_0_l by auto with words. done.
Qed.

Lemma crc_fold_crc_ref init data :
  is_u16 init -> bytes data -> crc_fold init data = crc_ref init data.
Proof.
  intros Hi Hd. revert init Hi. induction Hd as [|b data Hb _ IH]; intros; simpl; [done|].
  rewrite <-UPDATE_CRC16_crc_byte by done. apply IH. auto with words.
Qed.

(** ** Properties *)

(** C32: The table-driven block function is the bit-serial divider by
    x^16 + x^12 + x^5 + 1: for every start value and every block of bytes, it
    returns the remainder that divider leaves, whatever follows the block in
    memory. *)
Theorem calcBlockCRC16i_correct (init : Z) (data tail : list Z) :
  is_u16 init -> bytes data ->
  calcBlockCRC16i (data ++ tail) (Z.of_nat (length data)) init = Ret (crc_ref init data).
Proof. intros. by rewrite calcBlockCRC16i_app, crc_fold_crc_ref. Qed.

Lemma calcBlockCRC16i_correct_witness :
  calcBlockCRC16i [0xAA; 0x55; 7] 2 0xffff = Ret 0xB75A /\
  calcBlockCRC16i [0xAA; 0x55; 7] 2 0xffff = Ret (crc_ref 0xffff [0xAA; 0x55]).
Proof.
  split; [reflexivity|].
  apply (calcBlockCRC16i_correct 0xffff [0xAA; 0x55] [7]).
  - apply (bool_decide_unpack _). vm_compute. exact I.
  - apply (bool_decide_unpack _). vm_compute. exact I.
Defined.

(** Error detection.  Two blocks of the same length that differ, and
    differ only inside a window of two adjacent bytes (every burst of at most
    nine bits, every one- or two-byte corruption), have different checksums. *)
Theorem calcBlockCRC16i_detects (init : Z) (pre post : list Z) (b1 b2 b1' b2' : Z) :
  is_u16 init -> bytes pre -> bytes post -> bytes [b1; b2; b1'; b2'] ->
  (b1, b2) <> (b1', b2') ->
  calcBlockCRC16i (pre ++ b1 :: b2 :: post) (Z.of_nat (length pre + S (S (length post)))) init <>
  calcBlockCRC16i (pre ++ b1' :: b2' :: post) (Z.of_nat (length pre + S (S (length post)))) init.
Proof.
  intros Hi Hpre Hpost Hb Hne Heq. apply Hne.
  assert (forall x y, calcBlockCRC16i (pre ++ x :: y :: post)
    (Z.of_nat (length pre + S (S (length post)))) init =
    Ret (crc_fold (UPDATE_CRC16 y (UPDATE_CRC16 x (crc_fold init pre))) post)) as Hcalc.
  { intros x y. rewrite <-(app_nil_r (pre ++ x :: y :: post)).
    replace (length pre + S (S (length post)))%nat with (length (pre ++ x :: y :: post))
      by (rewrite length_app; done).
    rewrite calcBlockCRC16i_app, crc_fold_app. done. }
  rewrite !Hcalc in Heq. injection Heq as Heq.
  apply crc_fold_inj_init in Heq; auto with words.
  apply UPDATE_CRC16_2_inj in Heq as [-> ->]; auto. by apply crc_fold_range.
Qed.

Lemma calcBlockCRC16i_detects_witness :
  calcBlockCRC16i [1; 2; 3; 4] 4 0xffff <> calcBlockCRC16i [1; 2; 7; 4] 4 0xffff.
Proof.
  apply (calcBlockCRC16i_detects 0xffff [1] [4] 2 3 2 7);
    (apply (bool_decide_unpack _); vm_compute; exact I).
Defined.

(** The other files use the lemmas above; [vm_compute] still evaluates. *)
#[global] Opaque UPDATE_CRC16 crc_fold calcBlockCRC16i calcBlockCRC16i_loop.
