(* ===== verification/Layer2.v ===== *)
(** * Link and network layer of DataIO ([DataIOLayer2] of [inc/dataio/dataio3.h])

    The receiver [rxHandler], a state machine fed one byte at a time, and the
    transmitter [finishTxPacket].  The packet buffer is the array [bytes] of
    the union [LR2_PACKET]; the fields of the header are read from it at their
    offsets. *)

From S2P Require Import Prelude Crc16.

(** ** Constants and layout *)

Definition MaxLayer2DataSize : Z := 244.
Definition Layer2Preamble : Z := 0x55AA.
Definition Layer2PreambleB0 : Z := 0xAA.
Definition Layer2PreambleB1 : Z := 0x55.
Definition Layer2PreambleCRC16 : Z := 0xB75A.
Definition DataIOLtPreambleB1 : Z := 0x99.

(** [LR2_HEADER]: preamble at 0, destAddress at 2, srcAddress at 3, dataSize
    at 4, crc16 at 6; then crc16 of the data at 8 and the data at 10. *)
Definition sizeof_LR2_HEADER : Z := 8.
Definition sizeof_LR2_PACKET : Z := sizeof_LR2_HEADER + MaxLayer2DataSize + 2.
Definition off_destAddress : Z := 2.
Definition off_srcAddress : Z := 3.
Definition off_dataSize : Z := 4.
Definition off_header_crc16 : Z := 6.
Definition off_crc16 : Z := 8.
Definition off_data : Z := 10.

(** [TErrors], as far as [DataIOLayer2] counts them. *)
Inductive TErrors :=
  errorRxDataCRC | errorRxHeaderCRC | errorRxTimeout | errorLossRxPacket
| errorTxFrame | errorUnknownMsgId.

#[export] Instance TErrors_eq_dec : EqDecision TErrors.
Proof. solve_decision. Defined.

Definition error_index (e : TErrors) : Z :=
  match e with
  | errorRxDataCRC => 0 | errorRxHeaderCRC => 1 | errorRxTimeout => 2
  | errorLossRxPacket => 3 | errorTxFrame => 4 | errorUnknownMsgId => 5
  end.

Inductive TRxState :=
  stWait | stPreamble2 | stRxHeader | stCRC0 | stCRC1 | stRxData | stPacketReady.

#[export] Instance TRxState_eq_dec : EqDecision TRxState.
Proof. solve_decision. Defined.

(** ** State *)

Record Layer2 := mkLayer2 {
  l2_errors : list Z;             (* uint16_t errors[errorTxFrame+1] *)
  l2_packet : list Z;             (* packet.bytes *)
  l2_state : TRxState;
  l2_rxCrc16 : Z;
  l2_index : Z;
  l2_selfAddress : Z;             (* uint8_t *)
  l2_broadcastAddress : Z;        (* uint8_t *)
  l2_enableDataIOLt : bool;
}.

Definition set_errors e (s : Layer2) : Layer2 :=
  mkLayer2 e (l2_packet s) (l2_state s) (l2_rxCrc16 s) (l2_index s)
    (l2_selfAddress s) (l2_broadcastAddress s) (l2_enableDataIOLt s).
Definition set_packet p (s : Layer2) : Layer2 :=
  mkLayer2 (l2_errors s) p (l2_state s) (l2_rxCrc16 s) (l2_index s)
    (l2_selfAddress s) (l2_broadcastAddress s) (l2_enableDataIOLt s).
Definition set_state st (s : Layer2) : Layer2 :=
  mkLayer2 (l2_errors s) (l2_packet s) st (l2_rxCrc16 s) (l2_index s)
    (l2_selfAddress s) (l2_broadcastAddress s) (l2_enableDataIOLt s).
Definition set_rxCrc16 c (s : Layer2) : Layer2 :=
  mkLayer2 (l2_errors s) (l2_packet s) (l2_state s) c (l2_index s)
    (l2_selfAddress s) (l2_broadcastAddress s) (l2_enableDataIOLt s).
Definition set_index i (s : Layer2) : Layer2 :=
  mkLayer2 (l2_errors s) (l2_packet s) (l2_state s) (l2_rxCrc16 s) i
    (l2_selfAddress s) (l2_broadcastAddress s) (l2_enableDataIOLt s).

(** [configure]: the [uint16_t] arguments are stored in [uint8_t] fields. *)
Definition configure (aselfAddress abroadcastAddress : Z) (s : Layer2) : Layer2 :=
  mkLayer2 (l2_errors s) (l2_packet s) (l2_state s) (l2_rxCrc16 s) (l2_index s)
    (u8 aselfAddress) (u8 abroadcastAddress) (l2_enableDataIOLt s).

Definition startRx (s : Layer2) : Layer2 := set_state stWait (set_index 0 s).

Definition getErrors (i : TErrors) (s : Layer2) : outcome Z :=
  if bool_decide (error_index i <= error_index errorTxFrame)
  then checked (rd (l2_errors s) (error_index i)) else Ret 0.

Definition clearErrors (s : Layer2) : Layer2 := set_errors (replicate 5 0) s.

Definition enableDataIOLt_PreambleProcess (v : bool) (s : Layer2) : Layer2 :=
  mkLayer2 (l2_errors s) (l2_packet s) (l2_state s) (l2_rxCrc16 s) (l2_index s)
    (l2_selfAddress s) (l2_broadcastAddress s) v.

Definition setPreambleRecieved (s : Layer2) : Layer2 :=
  set_state stRxHeader (set_rxCrc16 Layer2PreambleCRC16 (set_index 2 s)).

(** The constructor; [mem], [crc], [a1], [a2] are what the members it does not
    initialise hold (zero for the static objects of the program). *)
Definition DataIOLayer2 (mem : list Z) (crc a1 a2 : Z) : Layer2 :=
  clearErrors (startRx (mkLayer2 [] mem stWait crc 0 a1 a2 false)).

(** [errors\[e\]++] *)
Definition count_error (e : TErrors) (s : Layer2) : outcome Layer2 :=
  n ← checked (rd (l2_errors s) (error_index e));
  es ← checked (wr (l2_errors s) (error_index e) (u16 (n + 1)));
  Ret (set_errors es s).

(** [packet.bytes\[index++\] = b] *)
Definition store_byte (b : Z) (s : Layer2) : outcome Layer2 :=
  p ← checked (wr (l2_packet s) (l2_index s) b);
  Ret (set_index (u16 (l2_index s + 1)) (set_packet p s)).

(** ** Reception of one byte *)

Definition rx_data (b : Z) (s : Layer2) : outcome (Layer2 * Z) :=
  s ← store_byte b s;
  let s := set_rxCrc16 (UPDATE_CRC16 b (l2_rxCrc16 s)) s in
  dataSize ← checked (rd16 (l2_packet s) off_dataSize);
  if bool_decide (l2_index s = dataSize + sizeof_LR2_HEADER + 2) then
    crc ← checked (rd16 (l2_packet s) off_crc16);
    if bool_decide (crc = l2_rxCrc16 s) then Ret (set_state stPacketReady s, 2)
    else s ← count_error errorRxDataCRC s; Ret (startRx s, -1)
  else Ret (s, 1).

Definition rx_wait (b : Z) (s : Layer2) : outcome (Layer2 * Z) :=
  if bool_decide (b = Layer2PreambleB0) then
    p ← checked (wr (l2_packet s) 0 b);
    Ret (set_state stPreamble2 (set_packet p s), 0)
  else Ret (s, 0).

Definition rx_preamble2 (b : Z) (s : Layer2) : outcome (Layer2 * Z) :=
  if bool_decide (b = Layer2PreambleB1) then
    p ← checked (wr (l2_packet s) 1 b);
    Ret (set_state stRxHeader (set_rxCrc16 Layer2PreambleCRC16 (set_index 2 (set_packet p s))), 1)
  else
    let s := startRx s in
    if l2_enableDataIOLt s && bool_decide (b = DataIOLtPreambleB1)
    then Ret (s, 3) else Ret (s, 1).

(** [stRxHeader]: store the byte, account it in the header CRC unless it
    belongs to the field crc16 itself, advance. *)
Definition rx_header_take (b : Z) (s : Layer2) : outcome Layer2 :=
  p ← checked (wr (l2_packet s) (l2_index s) b);
  let s := set_packet p s in
  let s := if bool_decide (l2_index s < sizeof_LR2_HEADER - 2)
           then set_rxCrc16 (UPDATE_CRC16 b (l2_rxCrc16 s)) s else s in
  Ret (set_index (u16 (l2_index s + 1)) s).

(** The header is complete: check size, CRC and destination. *)
Definition rx_header_check (s : Layer2) : outcome (Layer2 * Z) :=
  dataSize ← checked (rd16 (l2_packet s) off_dataSize);
  if bool_decide (dataSize > MaxLayer2DataSize) then Ret (startRx s, -2)
  else
    address ← checked (rd (l2_packet s) off_destAddress);
    crc ← checked (rd16 (l2_packet s) off_header_crc16);
    if bool_decide (l2_rxCrc16 s = crc) then
      if bool_decide (address = l2_selfAddress s) || bool_decide (address = l2_broadcastAddress s)
      then Ret (set_state stCRC0 s, 1)
      else Ret (startRx s, -3)
    else s ← count_error errorRxHeaderCRC s; Ret (startRx s, -4).

Definition rx_header (b : Z) (s : Layer2) : outcome (Layer2 * Z) :=
  s ← rx_header_take b s;
  if bool_decide (l2_index s = sizeof_LR2_HEADER) then rx_header_check s else Ret (s, 1).

Definition rx_crc0 (b : Z) (s : Layer2) : outcome (Layer2 * Z) :=
  s ← store_byte b s; Ret (set_state stCRC1 s, 1).

Definition rx_crc1 (b : Z) (s : Layer2) : outcome (Layer2 * Z) :=
  s ← store_byte b s; Ret (set_rxCrc16 0xFFFF (set_state stRxData s), 1).

Definition rxHandler (b : Z) (s : Layer2) : outcome (Layer2 * Z) :=
  match l2_state s with
  | stPacketReady => Ret (s, 2)
  | stRxData => rx_data b s
  | stWait => rx_wait b s
  | stPreamble2 => rx_preamble2 b s
  | stRxHeader => rx_header b s
  | stCRC0 => rx_crc0 b s
  | stCRC1 => rx_crc1 b s
  end.

(** Feeding a run of bytes; the return codes in order. *)
Fixpoint rx_feed (bs : list Z) (s : Layer2) : outcome (Layer2 * list Z) :=
  match bs with
  | [] => Ret (s, [])
  | b :: bs =>
      '(s, r) ← rxHandler b s;
      '(s, rs) ← rx_feed bs s;
      Ret (s, r :: rs)
  end.

(** ** Reading the received packet *)

Definition getRxDataSize (s : Layer2) : Z :=
  if bool_decide (l2_state s = stPacketReady) then l2_index s else 0.

Definition getRxIndex (s : Layer2) : Z := l2_index s.

(** [getRxData]: the copying variant is a stub that returns 0. *)
Definition getRxData (s : Layer2) : Z := 0.

(** [getRxDataPtr]: the size, and, when a packet is ready, destAddress,
    srcAddress and the contents of the buffer from [Packet.data] on (the
    pointer the code hands out). *)
Definition getRxDataPtr (s : Layer2) : outcome (Z * option (Z * Z * list Z)) :=
  if bool_decide (l2_state s = stPacketReady) then
    dest ← checked (rd (l2_packet s) off_destAddress);
    src ← checked (rd (l2_packet s) off_srcAddress);
    size ← checked (rd16 (l2_packet s) off_dataSize);
    Ret (size, Some (dest, src, drop (Z.to_nat off_data) (l2_packet s)))
  else Ret (0, None).

(** ** Transmission *)

(** [finishTxPacket]: [p2] is the buffer of the packet, with [header.dataSize]
    and the data already in it. *)
Definition finishTxPacket (destAddress : Z) (p2 : list Z) (s : Layer2) : outcome (list Z) :=
  p2 ← checked (blit p2 0 (le2 Layer2Preamble));
  p2 ← checked (wr p2 off_srcAddress (l2_selfAddress s));
  p2 ← checked (wr p2 off_destAddress (u8 destAddress));
  hcrc ← calcBlockCRC16i p2 (sizeof_LR2_HEADER - 2) 0xffff;
  p2 ← checked (blit p2 off_header_crc16 (le2 hcrc));
  dataSize ← checked (rd16 p2 off_dataSize);
  dcrc ← calcBlockCRC16i (drop (Z.to_nat off_data) p2) dataSize 0xffff;
  checked (blit p2 off_crc16 (le2 dcrc)).

(** ** Facts on the packet buffer *)

Lemma wr_here (got rest : list Z) (x b i : Z) :
  i = Z.of_nat (length got) -> wr (got ++ x :: rest) i b = Some (got ++ b :: rest).
Proof. by apply (wr_at _ x). Qed.

Lemma store_byte_here got x rest b s :
  l2_packet s = got ++ x :: rest -> l2_index s = Z.of_nat (length got) ->
  (length got < 1000)%nat ->
  store_byte b s =
    Ret (set_index (Z.of_nat (length (got ++ [b]))) (set_packet (got ++ b :: rest) s)).
Proof.
  intros Hp Hi Hl. unfold store_byte. rewrite Hp, wr_here by done. simpl.
  do 2 f_equal. rewrite Hi, length_app, u16_id; [simpl; lia|]. unw. lia.
Qed.

(** ** The invariant of the receiver

    The fields have their widths, and in each state the index is where the
    state says it is.  In [stRxData] with an announced size of zero the index
    has run past the end of the packet and keeps growing. *)

Definition rx_size (s : Layer2) : Z := default 0 (rd16 (l2_packet s) off_dataSize).

Definition rx_position (s : Layer2) : Prop :=
  match l2_state s with
  | stWait | stPreamble2 => True
  | stRxHeader => 2 <= l2_index s < 8
  | stCRC0 => l2_index s = 8 /\ rx_size s <= MaxLayer2DataSize
  | stCRC1 => l2_index s = 9 /\ rx_size s <= MaxLayer2DataSize
  | stRxData => rx_size s <= MaxLayer2DataSize /\
      (10 <= l2_index s < rx_size s + 10 \/ rx_size s = 0 /\ 10 <= l2_index s <= 254)
  | stPacketReady => rx_size s <= MaxLayer2DataSize /\ l2_index s = rx_size s + 10
  end.

Record rx_inv (s : Layer2) : Prop := {
  inv_packet_len : length (l2_packet s) = 254%nat;
  inv_packet : bytes (l2_packet s);
  inv_errors : length (l2_errors s) = 5%nat;
  inv_crc : is_u16 (l2_rxCrc16 s);
  inv_position : rx_position s;
}.

Lemma count_error_ok e s :
  length (l2_errors s) = 5%nat -> error_index e <= 4 ->
  exists es, count_error e s = Ret (set_errors es s) /\ length es = 5%nat.
Proof.
  intros Hl He.
  assert (0 <= error_index e < Z.of_nat (length (l2_errors s))) as Hr
    by (rewrite Hl; destruct e; simpl in *; lia).
  unfold count_error. destruct (rd_total _ _ Hr) as [n Hn]. rewrite Hn. simpl.
  destruct (wr_total _ _ (u16 (n + 1)) Hr) as [es Hes]. rewrite Hes. simpl.
  exists es. split; [done|]. by rewrite (wr_length _ _ _ _ Hes).
Qed.

Lemma startRx_inv s :
  length (l2_packet s) = 254%nat -> bytes (l2_packet s) -> length (l2_errors s) = 5%nat ->
  is_u16 (l2_rxCrc16 s) -> rx_inv (startRx s).
Proof. intros. by constructor. Qed.
#[export] Hint Resolve startRx_inv : words.

(** The cases of one step: the step keeps the invariant, or it is the write
    past the end of the buffer. *)
Definition step_ok (r : outcome (Layer2 * Z)) : Prop := exists s' rc, r = Ret (s', rc) /\ rx_inv s'.

Lemma rx_data_step b s :
  rx_inv s -> l2_state s = stRxData -> is_u8 b -> l2_index s < 254 -> step_ok (rx_data b s).
Proof.
  intros [Hlen Hby Her Hcrc Hpos] Hst Hb Hi. unfold rx_position in Hpos. rewrite Hst in Hpos.
  destruct (wr_total (l2_packet s) (l2_index s) b) as [p Hp]; [lia|].
  destruct (rd16_total p off_dataSize) as [n Hn];
    [done|rewrite (wr_length _ _ _ _ Hp), Hlen; done|].
  destruct (rd16_total p off_crc16) as [c Hc];
    [done|rewrite (wr_length _ _ _ _ Hp), Hlen; done|].
  assert (rx_size s = n) as Hsz.
  { unfold rx_size. by rewrite <-(rd16_wr_ne _ _ _ _ _ Hp), Hn by (unfold off_dataSize; lia). }
  assert (u16 (l2_index s + 1) = l2_index s + 1) as Hu by (apply u16_id; unw; lia).
  assert (length p = 254%nat) as Hpl by (by rewrite (wr_length _ _ _ _ Hp)).
  assert (bytes p) by eauto with words.
  unfold rx_data, store_byte. rewrite Hp. simpl. rewrite Hn. simpl.
  rewrite Hu. unfold sizeof_LR2_HEADER, MaxLayer2DataSize in *.
  case_bool_decide as Hend; [rewrite Hc; simpl; case_bool_decide|].
  - eexists _, _. split; [done|]. constructor; simpl; auto with words.
    unfold rx_position, rx_size. simpl. rewrite Hn. simpl. unfold MaxLayer2DataSize. lia.
  - edestruct (count_error_ok errorRxDataCRC) as (es & -> & Hes); [|done|]; [done|].
    eexists _, _. split; [done|]. apply startRx_inv; simpl; auto with words.
  - eexists _, _. split; [done|]. constructor; simpl; auto with words.
    unfold rx_position, rx_size. simpl. rewrite Hst, Hn. simpl. unfold MaxLayer2DataSize. lia.
Qed.

Lemma rx_header_take_ok b s :
  rx_inv s -> l2_state s = stRxHeader -> is_u8 b ->
  exists p c, rx_header_take b s = Ret (set_index (l2_index s + 1) (set_rxCrc16 c (set_packet p s))) /\
    length p = 254%nat /\ bytes p /\ is_u16 c.
Proof.
  intros [Hlen Hby Her Hcrc Hpos] Hst Hb. unfold rx_position in Hpos. rewrite Hst in Hpos.
  destruct (wr_total (l2_packet s) (l2_index s) b) as [p Hp]; [lia|].
  unfold rx_header_take. rewrite Hp. simpl.
  exists p, (if bool_decide (l2_index s < 6) then UPDATE_CRC16 b (l2_rxCrc16 s) else l2_rxCrc16 s).
  split_and!.
  - destruct s. unfold sizeof_LR2_HEADER. simpl in *. rewrite <-(u16_id (l2_index0 + 1)) by (unw; lia).
    change (8 - 2) with 6. by case_bool_decide.
  - by rewrite (wr_length _ _ _ _ Hp).
  - eauto with words.
  - case_bool_decide; [apply UPDATE_CRC16_range|apply Hcrc].
Qed.

Lemma rx_header_check_ok s :
  length (l2_packet s) = 254%nat -> bytes (l2_packet s) -> length (l2_errors s) = 5%nat ->
  is_u16 (l2_rxCrc16 s) -> l2_index s = 8 -> step_ok (rx_header_check s).
Proof.
  intros Hlen Hby Her Hcrc Hi.
  destruct (rd16_total (l2_packet s) off_dataSize) as [n Hn]; [done|by rewrite Hlen|].
  destruct (rd16_total (l2_packet s) off_header_crc16) as [c Hc]; [done|by rewrite Hlen|].
  destruct (rd_total (l2_packet s) off_destAddress) as [d Hd]; [by rewrite Hlen|].
  unfold rx_header_check. rewrite Hn, Hd, Hc. simpl.
  case_bool_decide; [eexists _, _; eauto with words|].
  case_bool_decide.
  2: { edestruct (count_error_ok errorRxHeaderCRC) as (es & -> & Hes); [done|done|].
       eexists _, _. split; [done|]. by apply startRx_inv. }
  destruct (_ || _); eexists _, _; (split; [done|]); [|by apply startRx_inv].
  constructor; auto. unfold rx_position, rx_size. simpl. rewrite Hn. simpl. lia.
Qed.

Lemma rx_header_step b s :
  rx_inv s -> l2_state s = stRxHeader -> is_u8 b -> step_ok (rx_header b s).
Proof.
  intros Hinv Hst Hb. destruct (rx_header_take_ok b s) as (p & c & Ht & Hlen & Hby & Hc); [done..|].
  destruct Hinv as [_ _ Her _ Hpos]. unfold rx_position in Hpos. rewrite Hst in Hpos.
  unfold rx_header. rewrite Ht. simpl. case_bool_decide as Hi; [by apply rx_header_check_ok|].
  eexists _, _. split; [done|]. constructor; auto.
  unfold rx_position. simpl. rewrite Hst. unfold sizeof_LR2_HEADER in Hi. lia.
Qed.

Lemma rx_other_step b s :
  rx_inv s -> l2_state s <> stRxData -> l2_state s <> stRxHeader -> is_u8 b ->
  step_ok (rxHandler b s).
Proof.
  intros Hinv Hn1 Hn2 Hb. pose proof Hinv as [Hlen Hby Her Hcrc Hpos].
  unfold rx_position in Hpos. unfold rxHandler.
  destruct (l2_state s) eqn:Hst; try done.
  - unfold rx_wait. case_bool_decide; [|eexists _, _; eauto].
    destruct (wr_total (l2_packet s) 0 b) as [p Hp]; [lia|]. rewrite Hp. simpl.
    eexists _, _. split; [done|]. constructor; simpl; eauto with words.
    by rewrite (wr_length _ _ _ _ Hp).
  - unfold rx_preamble2. case_bool_decide.
    + destruct (wr_total (l2_packet s) 1 b) as [p Hp]; [lia|]. rewrite Hp. simpl.
      eexists _, _. split; [done|]. constructor; simpl; eauto with words.
      * by rewrite (wr_length _ _ _ _ Hp).
      * apply (bool_decide_unpack _). vm_compute. exact I.
      * unfold rx_position. simpl. lia.
    + destruct (_ && _); eexists _, _; (split; [done|]); by apply startRx_inv.
  - unfold rx_crc0, store_byte. destruct Hpos as [-> Hsz].
    destruct (wr_total (l2_packet s) 8 b) as [p Hp]; [lia|]. rewrite Hp. simpl.
    eexists _, _. split; [done|]. constructor; simpl; eauto with words.
    + by rewrite (wr_length _ _ _ _ Hp).
    + unfold rx_position, rx_size in *. simpl.
      by rewrite (rd16_wr_ne _ _ _ _ _ Hp) by done.
  - unfold rx_crc1, store_byte. destruct Hpos as [-> Hsz].
    destruct (wr_total (l2_packet s) 9 b) as [p Hp]; [lia|]. rewrite Hp. simpl.
    eexists _, _. split; [done|]. constructor; simpl; eauto with words.
    + by rewrite (wr_length _ _ _ _ Hp).
    + apply (bool_decide_unpack _). vm_compute. exact I.
    + unfold rx_position, rx_size in *. simpl.
      rewrite (rd16_wr_ne _ _ _ _ _ Hp) by done. change (u16 (9 + 1)) with 10.
      pose proof (rd16_bytes (l2_packet s) off_dataSize) as Hr.
      destruct (rd16 _ _) as [n|]; simpl in *; [specialize (Hr n Hby eq_refl); unw|]; lia.
  - eexists _, _. split; [done|]. by constructor; try (unfold rx_position; rewrite Hst).
Qed.

Lemma rxHandler_cases s b :
  rx_inv s -> is_u8 b ->
  rxHandler b s = Fault /\ l2_state s = stRxData /\ rx_size s = 0 /\ l2_index s = 254 \/
  step_ok (rxHandler b s) /\ ~ (l2_state s = stRxData /\ rx_size s = 0 /\ l2_index s = 254).
Proof.
  intros Hinv Hb. destruct (decide (l2_state s = stRxData)) as [Hst|Hst].
  - pose proof (inv_position _ Hinv) as Hpos. unfold rx_position in Hpos. rewrite Hst in Hpos.
    unfold rxHandler. rewrite Hst. unfold MaxLayer2DataSize in Hpos.
    destruct (decide (l2_index s = 254)) as [Hi|Hi].
    + left. split; [|split_and!; [done|lia|done]].
      unfold rx_data, store_byte, wr. rewrite Hi, (inv_packet_len _ Hinv). done.
    + right. split; [apply rx_data_step; auto; lia|naive_solver].
  - right. split; [|naive_solver]. destruct (decide (l2_state s = stRxHeader)) as [Hh|Hh].
    + unfold rxHandler. rewrite Hh. by apply rx_header_step.
    + by apply rx_other_step.
Qed.

Lemma rxHandler_inv s b s' rc :
  rx_inv s -> is_u8 b -> rxHandler b s = Ret (s', rc) -> rx_inv s'.
Proof.
  intros Hinv Hb H. destruct (rxHandler_cases s b Hinv Hb) as [[HF _]|[(s1 & rc1 & Hs & Hi) _]];
    rewrite H in *; by simplify_eq.
Qed.

Lemma rx_feed_inv bs s s' rcs :
  rx_inv s -> bytes bs -> rx_feed bs s = Ret (s', rcs) -> rx_inv s'.
Proof.
  intros Hinv Hb. revert s rcs Hinv. induction Hb as [|b bs Hb _ IH]; intros s rcs Hinv H; simpl in H.
  { inv_ret. done. }
  apply bind_Ret in H as ([s1 r] & H1 & H). apply bind_Ret in H as ([s2 rs] & H2 & H).
  injection H as <- _. eapply IH; [|exact H2]. by eapply rxHandler_inv.
Qed.

(** C33: Memory safety of the receiver.  From a state satisfying the invariant
    (the initial one does), a byte keeps the invariant and stays inside the
    buffers, except in one case: the machine is receiving data, the announced
    size is zero, and 244 bytes were already stored; then the write is past
    the end of the packet buffer. *)
Theorem rxHandler_safety (s : Layer2) (b : Z) :
  rx_inv s -> is_u8 b ->
  (rxHandler b s = Fault <-> l2_state s = stRxData /\ rx_size s = 0 /\ l2_index s = 254) /\
  (rxHandler b s <> Fault -> exists s' rc, rxHandler b s = Ret (s', rc) /\ rx_inv s').
Proof.
  intros Hinv Hb. destruct (rxHandler_cases s b Hinv Hb) as [(HF & H)|[(s' & rc & Hs & ?) Hn]].
  - by rewrite HF.
  - rewrite Hs. split; [|eauto]. split; [done|]. intros Hc. by destruct Hn.
Qed.

Definition l2_initial : Layer2 :=
  configure 9 0xff (DataIOLayer2 (replicate 254 0) 0 0 0).

Lemma l2_initial_inv : rx_inv l2_initial.
Proof. by constructor; try (apply (bool_decide_unpack _); vm_compute). Qed.

Lemma rxHandler_safety_witness :
  exists s' rc, rxHandler 0xAA l2_initial = Ret (s', rc) /\ rx_inv s'.
Proof.
  apply (rxHandler_safety l2_initial 0xAA l2_initial_inv).
  - unw. lia.
  - vm_compute. discriminate.
Defined.

(** ** Runs *)

Lemma rx_feed_app bs1 bs2 s :
  rx_feed (bs1 ++ bs2) s =
  '(s1, r1) ← rx_feed bs1 s; '(s2, r2) ← rx_feed bs2 s1; Ret (s2, r1 ++ r2).
Proof.
  revert s. induction bs1 as [|b bs1 IH]; intros s; simpl.
  - by destruct (rx_feed bs2 s) as [[? ?]| |].
  - destruct (rxHandler b s) as [[s1 r]| |]; simpl; [|done|done]. rewrite IH.
    destruct (rx_feed bs1 s1) as [[s2 r2]| |]; simpl; [|done|done].
    by destruct (rx_feed bs2 s2) as [[? ?]| |].
Qed.

Lemma rx_feed_cons b bs s :
  rx_feed (b :: bs) s = '(s, r) ← rxHandler b s; '(s, rs) ← rx_feed bs s; Ret (s, r :: rs).
Proof. done. Qed.

(** The first six bytes of a header, and a whole header. *)
Definition header6 (dest src size : Z) : list Z := le2 Layer2Preamble ++ [dest; src] ++ le2 size.
Definition frame_header (dest src size : Z) : list Z :=
  header6 dest src size ++ le2 (crc_fold 0xffff (header6 dest src size)).
Definition frame (dest src : Z) (data : list Z) : list Z :=
  frame_header dest src (Z.of_nat (length data)) ++ le2 (crc_fold 0xffff data) ++ data.

(** What the header verdict must be, from the bytes of the header alone. *)
Definition header_verdict (s : Layer2) (dest src s0 s1 c0 c1 : Z) : Z :=
  if bool_decide (of_le2 s0 s1 > MaxLayer2DataSize) then -2
  else if bool_decide (crc_fold 0xffff [0xAA; 0x55; dest; src; s0; s1] = of_le2 c0 c1) then
    if bool_decide (dest = l2_selfAddress s) || bool_decide (dest = l2_broadcastAddress s)
    then 1 else -3
  else -4.

Lemma packet_split (p : list Z) :
  length p = 254%nat ->
  exists p0 p1 p2 p3 p4 p5 p6 p7 rest,
    p = p0 :: p1 :: p2 :: p3 :: p4 :: p5 :: p6 :: p7 :: rest /\ length rest = 246%nat.
Proof.
  intros H. do 8 (destruct p as [|? p]; [discriminate H|]). simpl in H.
  do 9 eexists. split; [done|]. lia.
Qed.

(** The state in which the verdict on a header is taken. *)
Definition header_complete (s : Layer2) (rest : list Z) (dest src s0 s1 c0 c1 : Z) : Layer2 :=
  mkLayer2 (l2_errors s) (0xAA :: 0x55 :: dest :: src :: s0 :: s1 :: c0 :: c1 :: rest) stRxHeader
    (crc_fold 0xffff [0xAA; 0x55; dest; src; s0; s1]) 8
    (l2_selfAddress s) (l2_broadcastAddress s) (l2_enableDataIOLt s).

(** Brings a state built by the setters from a record back to a record. *)
Ltac l2_norm :=
  cbv beta iota delta [set_errors set_packet set_state set_rxCrc16 set_index startRx
       l2_errors l2_packet l2_state l2_rxCrc16 l2_index l2_selfAddress
       l2_broadcastAddress l2_enableDataIOLt].

Ltac step_bind := cbn [mbind outcome_bind].

Lemma rx_header_take_here got x rest b s :
  l2_packet s = got ++ x :: rest -> l2_index s = Z.of_nat (length got) ->
  (length got < 1000)%nat ->
  rx_header_take b s =
    Ret (set_index (Z.of_nat (length got) + 1)
      (set_rxCrc16 (if bool_decide (Z.of_nat (length got) < 6)
                    then UPDATE_CRC16 b (l2_rxCrc16 s) else l2_rxCrc16 s)
        (set_packet (got ++ b :: rest) s))).
Proof.
  intros Hp Hi Hl. unfold rx_header_take. rewrite Hp, wr_here by done. simpl.
  change (sizeof_LR2_HEADER - 2) with 6. rewrite Hi. destruct s; simpl in *; subst.
  rewrite <-(u16_id (Z.of_nat (length got) + 1)) by (unw; lia). by case_bool_decide.
Qed.

(** A header byte before the last one, and the last one. *)
Lemma rx_header_mid got x rest b s c :
  l2_state s = stRxHeader ->
  l2_packet s = got ++ x :: rest -> l2_index s = Z.of_nat (length got) ->
  (length got < 7)%nat ->
  c = (if bool_decide (length got < 6)%nat then UPDATE_CRC16 b (l2_rxCrc16 s) else l2_rxCrc16 s) ->
  rxHandler b s =
    Ret (set_index (Z.of_nat (length got) + 1) (set_rxCrc16 c (set_packet (got ++ b :: rest) s)), 1).
Proof.
  intros Hst Hp Hi Hl ->. unfold rxHandler, rx_header. rewrite Hst.
  rewrite (rx_header_take_here _ _ _ _ _ Hp Hi) by lia. simpl.
  rewrite bool_decide_false by (unfold sizeof_LR2_HEADER; lia).
  by rewrite (bool_decide_ext (Z.of_nat (length got) < 6) (length got < 6)%nat) by lia.
Qed.

Lemma rx_header_last got x rest b s :
  l2_state s = stRxHeader ->
  l2_packet s = got ++ x :: rest -> l2_index s = Z.of_nat (length got) ->
  length got = 7%nat ->
  rxHandler b s = rx_header_check (set_index 8 (set_packet (got ++ b :: rest) s)).
Proof.
  intros Hst Hp Hi Hl. unfold rxHandler, rx_header. rewrite Hst.
  rewrite (rx_header_take_here _ _ _ _ _ Hp Hi) by lia. rewrite Hl. simpl.
  by destruct s.
Qed.

Lemma rx_feed_preamble s p0 p1 rest :
  l2_state s = stWait -> l2_packet s = p0 :: p1 :: rest ->
  rx_feed [0xAA; 0x55] s =
    Ret (set_state stRxHeader (set_rxCrc16 Layer2PreambleCRC16 (set_index 2
      (set_packet (0xAA :: 0x55 :: rest) s))), [0; 1]).
Proof.
  intros Hst Hp. destruct s; simpl in *; subst. simpl. unfold rxHandler. simpl.
  unfold rx_wait. simpl. unfold rx_preamble2. simpl.
  unfold wr. simpl. rewrite bool_decide_true by lia. done.
Qed.

(** The eight bytes of a header, up to the verdict. *)
Lemma rx_feed_header s dest src s0 s1 c0 c1 :
  l2_state s = stWait -> length (l2_packet s) = 254%nat ->
  rx_feed [0xAA; 0x55; dest; src; s0; s1; c0; c1] s =
  '(s', rc) ← rx_header_check (header_complete s (drop 8 (l2_packet s)) dest src s0 s1 c0 c1);
  Ret (s', [0; 1; 1; 1; 1; 1; 1; rc]).
Proof.
  intros Hst Hlen.
  destruct (packet_split _ Hlen) as (p0 & p1 & p2 & p3 & p4 & p5 & p6 & p7 & rest & Hp & Hrest).
  change [0xAA; 0x55; dest; src; s0; s1; c0; c1] with ([0xAA; 0x55] ++ [dest; src; s0; s1; c0; c1]).
  rewrite rx_feed_app, (rx_feed_preamble _ p0 p1 (p2 :: p3 :: p4 :: p5 :: p6 :: p7 :: rest)) by done.
  rewrite Hp. destruct s as [es pk st cr ix sa ba en]; simpl in *; subst. simpl. l2_norm.
  erewrite (rx_header_mid [0xAA; 0x55] p2 (p3 :: p4 :: p5 :: p6 :: p7 :: rest)); [|done|done|done|simpl; lia|done]. l2_norm. step_bind.
  erewrite (rx_header_mid [0xAA; 0x55; dest] p3 (p4 :: p5 :: p6 :: p7 :: rest)); [|done|done|done|simpl; lia|done]. l2_norm. step_bind.
  erewrite (rx_header_mid [0xAA; 0x55; dest; src] p4 (p5 :: p6 :: p7 :: rest)); [|done|done|done|simpl; lia|done]. l2_norm. step_bind.
  erewrite (rx_header_mid [0xAA; 0x55; dest; src; s0] p5 (p6 :: p7 :: rest)); [|done|done|done|simpl; lia|done]. l2_norm. step_bind.
  erewrite (rx_header_mid [0xAA; 0x55; dest; src; s0; s1] p6 (p7 :: rest)); [|done|done|done|simpl; lia|done]. l2_norm. step_bind.
  rewrite (rx_header_last [0xAA; 0x55; dest; src; s0; s1; c0] p7 (rest)) by done. l2_norm.
  unfold header_complete. simpl.
  rewrite !crc_fold_cons, crc_fold_nil.
  replace (UPDATE_CRC16 85 (UPDATE_CRC16 170 65535)) with Layer2PreambleCRC16 by (vm_compute; done).
  rewrite drop_0.
  match goal with |- context [rx_header_check ?x] => generalize (rx_header_check x) end.
  by intros [[? ?]| |].
Qed.

(** The error counters after a verdict: [errorRxHeaderCRC] counts the -4's. *)
Definition header_errors (es : list Z) (v : Z) : list Z :=
  if bool_decide (v = -4) then <[1%nat := u16 (default 0 (es !! 1%nat) + 1)]> es else es.

Lemma count_error_eq e es s :
  l2_errors s = es -> length es = 5%nat -> error_index e <= 4 ->
  count_error e s =
    Ret (set_errors (<[Z.to_nat (error_index e) :=
           u16 (default 0 (es !! Z.to_nat (error_index e)) + 1)]> es) s).
Proof.
  intros <- Hl He. unfold count_error, rd, wr. rewrite Hl.
  destruct (lookup_lt_is_Some_2 (l2_errors s) (Z.to_nat (error_index e))) as [n Hn].
  { rewrite Hl. destruct e; simpl in *; lia. }
  rewrite !bool_decide_true by (destruct e; simpl in *; lia). by rewrite Hn.
Qed.

Lemma rx_feed_header_verdict (s : Layer2) (dest src s0 s1 c0 c1 : Z) :
  rx_inv s -> l2_state s = stWait ->
  let v := header_verdict s dest src s0 s1 c0 c1 in
  let s' := set_errors (header_errors (l2_errors s) v)
              (header_complete s (drop 8 (l2_packet s)) dest src s0 s1 c0 c1) in
  rx_feed [0xAA; 0x55; dest; src; s0; s1; c0; c1] s =
  Ret (if bool_decide (v = 1) then set_state stCRC0 s' else startRx s', [0; 1; 1; 1; 1; 1; 1; v]).
Proof.
  intros Hinv Hst v s'. rewrite rx_feed_header by (apply Hinv || done). subst v s'.
  pose proof (inv_errors _ Hinv) as He.
  unfold rx_header_check, header_verdict, header_errors, header_complete.
  generalize (crc_fold 0xffff [0xAA; 0x55; dest; src; s0; s1]). intros C.
  destruct s as [es pk st cr ix sa ba en].
  cbn [l2_errors l2_packet l2_state l2_rxCrc16 l2_index l2_selfAddress l2_broadcastAddress
       l2_enableDataIOLt] in *.
  set (p := 0xAA :: _).
  assert (rd16 p off_dataSize = Some (of_le2 s0 s1)) as -> by reflexivity.
  assert (rd16 p off_header_crc16 = Some (of_le2 c0 c1)) as -> by reflexivity.
  assert (rd p off_destAddress = Some dest) as -> by reflexivity.
  cbn [checked mbind outcome_bind].
  case_bool_decide; [reflexivity|].
  case_bool_decide; [by destruct (_ || _)|].
  rewrite (count_error_eq _ es) by done. reflexivity.
Qed.

(** The verdict on a header.  Fed the eight bytes of any header, a waiting
    receiver answers 0 1 1 1 1 1 1 and then: -2 when the size exceeds 244; -4
    when the header CRC is wrong, counting the error; -3 when the packet is
    for another address; each time going back to waiting; and 1, going on to
    the data CRC, exactly when the size is in range, the CRC is the CRC of
    preamble, addresses and size, and the destination is this device or the
    broadcast address. *)
Theorem rx_header_verdict (s : Layer2) (dest src s0 s1 c0 c1 : Z) :
  rx_inv s -> l2_state s = stWait ->
  let v := header_verdict s dest src s0 s1 c0 c1 in
  let s' := set_errors (header_errors (l2_errors s) v)
              (header_complete s (drop 8 (l2_packet s)) dest src s0 s1 c0 c1) in
  rx_feed [0xAA; 0x55; dest; src; s0; s1; c0; c1] s =
  Ret (if bool_decide (v = 1) then set_state stCRC0 s' else startRx s', [0; 1; 1; 1; 1; 1; 1; v]).
Proof. apply rx_feed_header_verdict. Qed.

Lemma rx_header_verdict_witness :
  rx_feed [0xAA; 0x55; 7; 0; 1; 0; 0; 0] l2_initial =
  Ret (startRx (set_errors [0; 1; 0; 0; 0] (header_complete l2_initial (replicate 246 0) 7 0 1 0 0 0)),
       [0; 1; 1; 1; 1; 1; 1; -4]).
Proof. apply (rx_header_verdict l2_initial 7 0 1 0 0 0 l2_initial_inv eq_refl). Defined.

(** ** The data block *)

(** The state after a data byte that does not complete the packet. *)
Definition data_stored (got : list Z) (rest : list Z) (crc : Z) (s : Layer2) : Layer2 :=
  set_rxCrc16 crc (set_index (Z.of_nat (length got)) (set_packet (got ++ rest) s)).

Lemma rx_data_mid got x rest b s size :
  l2_packet s = got ++ x :: rest -> l2_index s = Z.of_nat (length got) ->
  (10 <= length got < 300)%nat -> rd16 got off_dataSize = Some size ->
  Z.of_nat (length got) + 1 <> size + 10 ->
  rx_data b s = Ret (data_stored (got ++ [b]) rest (UPDATE_CRC16 b (l2_rxCrc16 s)) s, 1).
Proof.
  intros Hp Hi Hl Hsz Hne. unfold rx_data, data_stored.
  rewrite (store_byte_here _ _ _ _ _ Hp Hi) by lia. cbn [mbind outcome_bind].
  destruct s as [es pk st cr ix sa ba en]. cbn [l2_packet l2_index l2_rxCrc16] in *. l2_norm.
  rewrite !rd16_app_l, Hsz by (unfold off_dataSize, off_crc16; lia). cbn [checked mbind outcome_bind].
  rewrite bool_decide_false.
  2: { rewrite length_app. unfold sizeof_LR2_HEADER. simpl. lia. }
  by rewrite <-app_assoc.
Qed.

(** The byte that completes the packet. *)
Lemma rx_data_last got x rest b s size crc :
  l2_packet s = got ++ x :: rest -> l2_index s = Z.of_nat (length got) ->
  (10 <= length got < 300)%nat -> rd16 got off_dataSize = Some size ->
  rd16 got off_crc16 = Some crc -> length (l2_errors s) = 5%nat ->
  Z.of_nat (length got) + 1 = size + 10 ->
  let s' := data_stored (got ++ [b]) rest (UPDATE_CRC16 b (l2_rxCrc16 s)) s in
  rx_data b s =
    if bool_decide (crc = UPDATE_CRC16 b (l2_rxCrc16 s)) then Ret (set_state stPacketReady s', 2)
    else Ret (startRx (set_errors
      (<[0%nat := u16 (default 0 (l2_errors s !! 0%nat) + 1)]> (l2_errors s)) s'), -1).
Proof.
  intros Hp Hi Hl Hsz Hcrc He Heq s'. subst s'. unfold rx_data, data_stored.
  rewrite (store_byte_here _ _ _ _ _ Hp Hi) by lia. cbn [mbind outcome_bind].
  destruct s as [es pk st cr ix sa ba en]. cbn [l2_packet l2_index l2_rxCrc16 l2_errors] in *. l2_norm.
  rewrite !rd16_app_l, Hsz, Hcrc by (unfold off_dataSize, off_crc16; lia).
  cbn [checked mbind outcome_bind].
  rewrite bool_decide_true by (rewrite length_app; unfold sizeof_LR2_HEADER; simpl; lia).
  rewrite <-app_assoc. case_bool_decide; [done|].
  rewrite (count_error_eq _ es) by done. reflexivity.
Qed.

Lemma rx_feed_data bs got rest s size :
  l2_state s = stRxData -> l2_packet s = got ++ rest -> l2_index s = Z.of_nat (length got) ->
  (10 <= length got)%nat -> (length got + length bs < 300)%nat ->
  rd16 got off_dataSize = Some size -> (length bs <= length rest)%nat ->
  size + 10 <= Z.of_nat (length got) \/ Z.of_nat (length got + length bs) < size + 10 ->
  rx_feed bs s =
    Ret (data_stored (got ++ bs) (drop (length bs) rest) (crc_fold (l2_rxCrc16 s) bs) s,
         replicate (length bs) 1).
Proof.
  revert got rest s. induction bs as [|b bs IH]; intros got rest s Hst Hp Hi Hl Hl2 Hsz Hr Hno.
  - unfold data_stored. rewrite app_nil_r, drop_0. destruct s; simpl in *. by subst.
  - destruct rest as [|x rest]; [simpl in Hr; lia|]. simpl in Hr, Hl2, Hno.
    rewrite rx_feed_cons. unfold rxHandler. rewrite Hst.
    rewrite (rx_data_mid got x rest b s size) by (done || lia). cbn [mbind outcome_bind].
    rewrite (IH (got ++ [b]) rest).
    + cbn [mbind outcome_bind]. rewrite <-app_assoc. by destruct s.
    + done.
    + done.
    + done.
    + rewrite length_app. lia.
    + rewrite length_app. simpl. lia.
    + by rewrite rd16_app_l by (unfold off_dataSize; lia).
    + lia.
    + rewrite length_app. simpl. lia.
Qed.

(** ** Whole packets *)

(** The two bytes of the data CRC. *)
Lemma rx_feed_crc s hdr p0 p1 rest c0 c1 :
  l2_state s = stCRC0 -> l2_packet s = hdr ++ p0 :: p1 :: rest -> length hdr = 8%nat ->
  l2_index s = 8 ->
  rx_feed [c0; c1] s =
    Ret (set_rxCrc16 0xFFFF (set_state stRxData (set_index 10
           (set_packet (hdr ++ c0 :: c1 :: rest) s))), [1; 1]).
Proof.
  intros Hst Hp Hl Hi. destruct s as [es pk st cr ix sa ba en].
  cbn [l2_state l2_packet l2_index] in *. subst.
  rewrite rx_feed_cons. unfold rxHandler at 1. cbn [l2_state]. unfold rx_crc0.
  rewrite (store_byte_here hdr p0 (p1 :: rest)) by (cbn [l2_index]; rewrite ?Hl; done || lia).
  step_bind. l2_norm. rewrite rx_feed_cons. unfold rxHandler. cbn [l2_state]. unfold rx_crc1.
  rewrite (store_byte_here (hdr ++ [c0]) p1 rest).
  - step_bind. l2_norm. by rewrite !length_app, Hl, <-!app_assoc.
  - cbn [l2_packet]. by rewrite <-app_assoc.
  - done.
  - rewrite length_app, Hl. simpl. lia.
Qed.

(** The final state of the receiver after a complete packet. *)
Definition received (dest src : Z) (data : list Z) (s : Layer2) : Layer2 :=
  mkLayer2 (l2_errors s) (frame dest src data ++ drop (10 + length data) (l2_packet s)) stPacketReady
    (crc_fold 0xffff data) (10 + Z.of_nat (length data))
    (l2_selfAddress s) (l2_broadcastAddress s) (l2_enableDataIOLt s).

Lemma header_verdict_frame s dest src n :
  is_u8 dest -> is_u8 src -> 0 <= n <= 244 ->
  (dest = l2_selfAddress s \/ dest = l2_broadcastAddress s) ->
  exists s0 s1 c0 c1,
    frame_header dest src n = [0xAA; 0x55; dest; src; s0; s1; c0; c1] /\
    of_le2 s0 s1 = n /\ header_verdict s dest src s0 s1 c0 c1 = 1.
Proof.
  intros Hd Hs Hn Hdest.
  destruct (le2_u16 n) as (s0 & s1 & Hle & Hs0 & Hs1 & Hof); [unw; lia|].
  set (h6 := header6 dest src n).
  destruct (le2_u16 (crc_fold 0xffff h6)) as (c0 & c1 & Hlec & Hc0 & Hc1 & Hofc).
  { apply crc_fold_range. unw. lia. }
  assert (h6 = [0xAA; 0x55; dest; src; s0; s1]) as E6.
  { subst h6. unfold header6. rewrite Hle. reflexivity. }
  exists s0, s1, c0, c1. split_and!; [|done|].
  - unfold frame_header. fold h6. by rewrite Hlec, E6.
  - unfold header_verdict. rewrite Hof, bool_decide_false by (unfold MaxLayer2DataSize; lia).
    rewrite Hofc, <-E6, bool_decide_true by done.
    destruct Hdest.
    + by rewrite (bool_decide_true (dest = l2_selfAddress s)) by done.
    + by rewrite (bool_decide_true (dest = l2_broadcastAddress s)), orb_true_r by done.
Qed.

(** After the header of an acceptable packet. *)
Lemma rx_feed_accepted s dest src n :
  rx_inv s -> l2_state s = stWait -> is_u8 dest -> is_u8 src -> 0 <= n <= 244 ->
  (dest = l2_selfAddress s \/ dest = l2_broadcastAddress s) ->
  rx_feed (frame_header dest src n) s =
    Ret (mkLayer2 (l2_errors s) (frame_header dest src n ++ drop 8 (l2_packet s)) stCRC0
      (crc_fold 0xffff (header6 dest src n)) 8 (l2_selfAddress s) (l2_broadcastAddress s)
      (l2_enableDataIOLt s), [0; 1; 1; 1; 1; 1; 1; 1]) /\
  rd16 (frame_header dest src n) off_dataSize = Some n.
Proof.
  intros Hinv Hst Hd Hs Hn Hdest.
  destruct (header_verdict_frame s dest src n) as (s0 & s1 & c0 & c1 & Hf & Hof & Hv); [done..|].
  rewrite Hf. split; [|unfold rd16, rd; simpl; by rewrite Hof].
  pose proof (rx_feed_header_verdict s dest src s0 s1 c0 c1 Hinv Hst) as H. cbv zeta in H.
  rewrite H, Hv, bool_decide_true by done. unfold header_errors. rewrite bool_decide_false by done.
  assert (header6 dest src n = [0xAA; 0x55; dest; src; s0; s1]) as E6.
  { unfold frame_header in Hf. destruct (le2_u16 n) as (x0 & x1 & Hle & _); [unw; lia|].
    unfold header6 in *. rewrite Hle in *. simpl in Hf. by injection Hf as -> ->. }
  rewrite E6. by destruct s.
Qed.

(** The header and the data CRC; the receiver is at the first data byte. *)
Definition data_start (dest src n c0 c1 : Z) (s : Layer2) : Layer2 :=
  mkLayer2 (l2_errors s) (frame_header dest src n ++ c0 :: c1 :: drop 10 (l2_packet s)) stRxData
    0xFFFF 10 (l2_selfAddress s) (l2_broadcastAddress s) (l2_enableDataIOLt s).

Lemma frame_header_length dest src n : length (frame_header dest src n) = 8%nat.
Proof. reflexivity. Qed.

Lemma rx_feed_to_data s dest src n c0 c1 :
  rx_inv s -> l2_state s = stWait -> is_u8 dest -> is_u8 src -> 0 <= n <= 244 ->
  (dest = l2_selfAddress s \/ dest = l2_broadcastAddress s) ->
  rx_feed (frame_header dest src n ++ [c0; c1]) s =
    Ret (data_start dest src n c0 c1 s, [0; 1; 1; 1; 1; 1; 1; 1; 1; 1]).
Proof.
  intros Hinv Hst Hd Hs Hn Hdest.
  destruct (rx_feed_accepted s dest src n) as [Ha _]; [done..|].
  rewrite rx_feed_app, Ha. step_bind. unfold data_start.
  destruct (packet_split _ (inv_packet_len _ Hinv)) as (p0 & p1 & p2 & p3 & p4 & p5 & p6 & p7 & r & Hp & Hr).
  destruct r as [|p8 [|p9 r]]; [done..|]. rewrite Hp. cbn [drop]. rewrite drop_0.
  rewrite (rx_feed_crc _ (frame_header dest src n) p8 p9 r); try reflexivity.
Qed.

(** The receiver after all the data of a packet, whatever the data CRC. *)
Definition data_complete (dest src c0 c1 : Z) (data : list Z) (s : Layer2) : Layer2 :=
  mkLayer2 (l2_errors s)
    (frame_header dest src (Z.of_nat (length data)) ++ c0 :: c1 :: data ++
       drop (10 + length data) (l2_packet s))
    stRxData (crc_fold 0xffff data) (10 + Z.of_nat (length data))
    (l2_selfAddress s) (l2_broadcastAddress s) (l2_enableDataIOLt s).

Lemma rx_feed_body s dest src c0 c1 data b :
  rx_inv s -> l2_state s = stWait -> is_u8 dest -> is_u8 src -> (length data < 244)%nat ->
  (dest = l2_selfAddress s \/ dest = l2_broadcastAddress s) ->
  let all := data ++ [b] in
  let s' := data_complete dest src c0 c1 all s in
  rx_feed (frame_header dest src (Z.of_nat (length all)) ++ [c0; c1] ++ all) s =
    let codes r := [0; 1; 1; 1; 1; 1; 1; 1; 1; 1] ++ replicate (length data) 1 ++ [r] in
    if bool_decide (of_le2 c0 c1 = crc_fold 0xffff all)
    then Ret (set_state stPacketReady s', codes 2)
    else Ret (startRx (set_errors
      (<[0%nat := u16 (default 0 (l2_errors s !! 0%nat) + 1)]> (l2_errors s)) s'), codes (-1)).
Proof.
  intros Hinv Hst Hd Hs Hn Hdest all s'. subst s'.
  assert (length all = S (length data)) as Hall by (subst all; rewrite length_app; simpl; lia).
  assert (rd16 (frame_header dest src (Z.of_nat (length all))) off_dataSize =
    Some (Z.of_nat (length all))) as Hsz by (eapply rx_feed_accepted; done || lia).
  assert (length (drop 10 (l2_packet s)) = 244%nat) as Hrest
    by (rewrite length_drop, (inv_packet_len _ Hinv); done).
  set (F := frame_header dest src (Z.of_nat (length all))) in *.
  assert (length F = 8%nat) as HF by apply frame_header_length.
  assert (rd16 (F ++ c0 :: c1 :: data) off_dataSize = Some (Z.of_nat (length all))) as Hsz'
    by (rewrite rd16_app_l; [done|rewrite HF; done]).
  assert (rd16 (F ++ c0 :: c1 :: data) off_crc16 = Some (of_le2 c0 c1)) as Hcrc'.
  { apply rd16_here. by rewrite HF. }
  pose proof (rx_feed_to_data s dest src (Z.of_nat (length all)) c0 c1 Hinv Hst Hd Hs ltac:(lia) Hdest) as Hto.
  fold F in Hto. rewrite app_assoc, rx_feed_app, Hto. step_bind.
  unfold all at 1. rewrite rx_feed_app, (rx_feed_data data (F ++ [c0; c1]) (drop 10 (l2_packet s)) _
    (Z.of_nat (length all))).
  2: done.
  2: by unfold data_start; fold F; rewrite <-app_assoc.
  5: by rewrite rd16_app_l by (rewrite HF; done).
  2-6: rewrite ?length_app, ?HF, ?Hrest; cbn [length data_start l2_index]; lia.
  destruct (drop (length data) (drop 10 (l2_packet s))) as [|x R] eqn:HR.
  { apply (f_equal length) in HR. rewrite length_drop, Hrest in HR. simpl in HR. lia. }
  assert (drop (10 + length all) (l2_packet s) = R) as HR'.
  { rewrite drop_drop in HR. replace (10 + length all)%nat with ((10 + length data) + 1)%nat by lia.
    by rewrite <-drop_drop, HR. }
  unfold data_start, data_complete. rewrite HR'. fold F.
  pose proof (inv_errors _ Hinv) as Her. clear Hto Hinv HR HR' Hrest Hdest.
  destruct s as [es pk st cr ix sa ba en]. cbn [l2_errors l2_state l2_packet l2_selfAddress
    l2_broadcastAddress l2_enableDataIOLt] in *. step_bind. rewrite rx_feed_cons.
  unfold rxHandler, data_stored. l2_norm.
  rewrite (rx_data_last (F ++ c0 :: c1 :: data) x R b _ (Z.of_nat (length all)) (of_le2 c0 c1)).
  2: by cbn [l2_packet]; rewrite <-!app_assoc.
  2: cbn [l2_index]; rewrite !length_app, HF; simpl; lia.
  2: rewrite length_app, HF; simpl; lia.
  2-4: done.
  2: rewrite length_app, HF; simpl; lia.
  unfold data_stored. l2_norm.
  assert (UPDATE_CRC16 b (crc_fold 65535 data) = crc_fold 65535 all) as ->
    by (subst all; by rewrite crc_fold_app, crc_fold_cons, crc_fold_nil).
  replace (Z.of_nat (length ((F ++ c0 :: c1 :: data) ++ [b]))) with (10 + Z.of_nat (length all))
    by (rewrite !length_app, HF; simpl; lia).
  subst all. rewrite <-!app_assoc. cbn [app]. rewrite <-?app_assoc. case_bool_decide; step_bind;
    cbn [app]; rewrite <-?app_assoc; reflexivity.
Qed.

(** [finishTxPacket] on a buffer that holds the size and the data makes the
    packet, and leaves what follows it in the buffer. *)
Lemma finishTxPacket_frame h0 h1 h2 h3 h6 h7 h8 h9 data rest destAddress s :
  Z.of_nat (length data) < 65536 ->
  finishTxPacket destAddress
    ([h0; h1; h2; h3] ++ le2 (Z.of_nat (length data)) ++ [h6; h7; h8; h9] ++ data ++ rest) s =
  Ret (frame (u8 destAddress) (l2_selfAddress s) data ++ rest).
Proof.
  intros Hl. set (n := Z.of_nat (length data)).
  destruct (le2_u16 n) as (s0 & s1 & Hle & _ & _ & Hof); [subst n; unw; lia|].
  assert (header6 (u8 destAddress) (l2_selfAddress s) n =
    [0xAA; 0x55; u8 destAddress; l2_selfAddress s; s0; s1]) as E6 by (unfold header6; by rewrite Hle).
  unfold frame, frame_header. fold n. rewrite E6. unfold finishTxPacket. rewrite Hle.
  pose proof calcBlockCRC16i_app as Hcalc. revert Hcalc. generalize calcBlockCRC16i. intros calc Hcalc.
  erewrite (blit_at [] [h0; h1]) by reflexivity. cbn [app checked mbind outcome_bind le2].
  set (p0 := Layer2Preamble mod 256). set (p1 := Layer2Preamble / 256 mod 256).
  erewrite (wr_at [p0; p1; h2] h3) by reflexivity. cbn [app checked mbind outcome_bind].
  erewrite (wr_at [p0; p1] h2) by reflexivity. cbn [app checked mbind outcome_bind].
  change p0 with 0xAA. change p1 with 0x55. clear p0 p1.
  set (H := [0xAA; 0x55; u8 destAddress; l2_selfAddress s; s0; s1]).
  rewrite (Hcalc H (h6 :: h7 :: h8 :: h9 :: data ++ rest)).
  cbn [mbind outcome_bind]. set (HC := crc_fold 65535 H).
  assert (is_u16 HC) as HHC by (apply crc_fold_range; unw; lia). clearbody HC.
  erewrite (blit_at H [h6; h7]) by reflexivity. cbn [checked mbind outcome_bind].
  destruct (le2_u16 HC HHC) as (k0 & k1 & Ek & _). rewrite Ek.
  change (rd16 _ off_dataSize) with (Some (of_le2 s0 s1)). cbn [checked mbind outcome_bind].
  rewrite Hof. change (drop _ _) with (data ++ rest). rewrite Hcalc.
  cbn [mbind outcome_bind]. generalize (crc_fold 65535 data). intros DC.
  erewrite (blit_at (H ++ [k0; k1]) [h8; h9]) by reflexivity.
  injection Ek as <- <-. reflexivity.
Qed.

(** A frame is received by a receiver that waits. *)
Lemma rx_feed_frame rx dest src data :
  rx_inv rx -> l2_state rx = stWait -> is_u8 dest -> is_u8 src -> (0 < length data <= 244)%nat ->
  (dest = l2_selfAddress rx \/ dest = l2_broadcastAddress rx) ->
  exists rx',
    rx_feed (frame dest src data) rx = Ret (rx', 0 :: replicate (length data + 8) 1 ++ [2]) /\
    getRxDataPtr rx' = Ret (Z.of_nat (length data),
      Some (dest, src, data ++ drop (10 + length data) (l2_packet rx))) /\
    l2_state rx' = stPacketReady /\ l2_selfAddress rx' = l2_selfAddress rx /\
    l2_broadcastAddress rx' = l2_broadcastAddress rx /\ l2_errors rx' = l2_errors rx.
Proof.
  intros Hinv Hst Hd8 Hs8 Hl Hd.
  destruct data as [|b data] using rev_ind; [simpl in Hl; lia|clear IHdata].
  rewrite length_app in Hl. simpl in Hl.
  set (all := data ++ [b]).
  assert (length all = S (length data)) as Hall by (subst all; rewrite length_app; simpl; lia).
  assert (is_u16 (crc_fold 0xffff all)) as Hcr by (apply crc_fold_range; unw; lia).
  destruct (le2_u16 (crc_fold 0xffff all)) as (c0 & c1 & Hle & Hc0 & Hc1 & Hof); [done|].
  pose proof (rx_feed_body rx dest src c0 c1 data b Hinv Hst
    Hd8 Hs8 ltac:(lia) Hd) as Hfeed. cbv zeta in Hfeed. fold all in Hfeed.
  rewrite bool_decide_true in Hfeed by done.
  destruct (rx_feed_accepted rx dest src (Z.of_nat (length all))) as [_ Hsz]; [done..|lia|done|].
  eexists. split_and!.
  - unfold frame. rewrite Hle.
    replace (replicate (length all + 8) 1) with (replicate 9 1 ++ replicate (length data) 1).
    2: { rewrite <-replicate_add. f_equal. lia. }
    exact Hfeed.
  - unfold getRxDataPtr, data_complete, set_state. cbn [l2_state l2_packet].
    rewrite rd16_app_l by done. rewrite Hsz. reflexivity.
  - done.
  - done.
  - done.
  - done.
Qed.

(** C2: Round trip of a packet.  Take any buffer of a packet whose size field
    holds the number of data bytes and whose data lie at their place; what
    [finishTxPacket] makes of it, sent byte by byte to a receiver that waits
    (whatever packet it held before) and that has the destination address as
    its own or as its broadcast address, is answered 1 up to the last byte and
    2 on the last byte, and [getRxDataPtr] then yields the size, the two
    addresses, and a buffer that starts with the data. *)
Theorem layer2_roundtrip (tx rx : Layer2) (destAddress : Z) (h t : list Z) (data rest : list Z) :
  rx_inv rx -> l2_state rx = stWait -> is_u8 (l2_selfAddress tx) ->
  length h = 4%nat -> length t = 4%nat -> (0 < length data <= 244)%nat ->
  (u8 destAddress = l2_selfAddress rx \/ u8 destAddress = l2_broadcastAddress rx) ->
  exists p rx',
    finishTxPacket destAddress (h ++ le2 (Z.of_nat (length data)) ++ t ++ data ++ rest) tx =
      Ret (p ++ rest) /\
    rx_feed p rx = Ret (rx', 0 :: replicate (length data + 8) 1 ++ [2]) /\
    exists after, getRxDataPtr rx' =
      Ret (Z.of_nat (length data), Some (u8 destAddress, l2_selfAddress tx, data ++ after)).
Proof.
  intros Hinv Hst Ha Hh Ht Hl Hd.
  destruct h as [|h0 [|h1 [|h2 [|h3 [|? ?]]]]]; try done.
  destruct t as [|h6 [|h7 [|h8 [|h9 [|? ?]]]]]; try done.
  destruct (rx_feed_frame rx (u8 destAddress) (l2_selfAddress tx) data) as (rx' & Hf & Hget & _);
    [done..|apply u8_range|done|done|done|].
  exists (frame (u8 destAddress) (l2_selfAddress tx) data), rx'.
  rewrite finishTxPacket_frame by lia. split_and!; [done|done|eauto].
Qed.

Lemma layer2_roundtrip_witness :
  exists p rx',
    finishTxPacket 9 [0; 0; 0; 0; 3; 0; 0; 0; 0; 0; 11; 22; 33; 99] l2_initial = Ret (p ++ [99]) /\
    rx_feed p l2_initial = Ret (rx', [0; 1; 1; 1; 1; 1; 1; 1; 1; 1; 1; 1; 2]) /\
    exists after, getRxDataPtr rx' = Ret (3, Some (9, 9, [11; 22; 33] ++ after)).
Proof.
  apply (layer2_roundtrip l2_initial l2_initial 9 [0; 0; 0; 0] [0; 0; 0; 0] [11; 22; 33] [99] l2_initial_inv);
    try reflexivity.
  - by apply (bool_decide_unpack _).
  - simpl. lia.
  - by left.
Defined.

(** The verdict on a packet.  After the header of an acceptable packet and
    any two bytes for the data CRC, the data bytes are answered 1 up to the
    last; on the last byte the packet is ready (answer 2) exactly when the two
    bytes are the CRC of the data; otherwise the answer is -1, the error
    [errorRxDataCRC] is counted and the receiver is back to waiting with index
    0. *)
Theorem rx_packet_verdict (s : Layer2) (dest src c0 c1 : Z) (data : list Z) :
  rx_inv s -> l2_state s = stWait -> is_u8 dest -> is_u8 src -> (0 < length data <= 244)%nat ->
  (dest = l2_selfAddress s \/ dest = l2_broadcastAddress s) ->
  exists s' last,
    rx_feed (frame_header dest src (Z.of_nat (length data)) ++ [c0; c1] ++ data) s =
      Ret (s', 0 :: replicate (length data + 8) 1 ++ [last]) /\
    if bool_decide (of_le2 c0 c1 = crc_fold 0xffff data)
    then last = 2 /\ l2_state s' = stPacketReady /\ l2_errors s' = l2_errors s
    else last = -1 /\ l2_state s' = stWait /\ l2_index s' = 0 /\
         l2_errors s' = <[0%nat := u16 (default 0 (l2_errors s !! 0%nat) + 1)]> (l2_errors s).
Proof.
  intros Hinv Hst Hd Hs Hl Hdest.
  destruct data as [|b data] using rev_ind; [simpl in Hl; lia|clear IHdata].
  rewrite length_app in Hl. simpl in Hl.
  pose proof (rx_feed_body s dest src c0 c1 data b Hinv Hst Hd Hs ltac:(lia) Hdest) as Hf.
  cbv zeta in Hf. rewrite Hf.
  replace (replicate (length (data ++ [b]) + 8) 1) with (replicate 9 1 ++ replicate (length data) 1).
  2: { rewrite <-replicate_add. f_equal. rewrite length_app. simpl. lia. }
  case_bool_decide; eexists _, _; (split; [reflexivity|]); done.
Qed.

Lemma rx_packet_verdict_witness :
  exists s', rx_feed (frame_header 9 1 2 ++ [0; 0] ++ [5; 6]) l2_initial =
    Ret (s', [0; 1; 1; 1; 1; 1; 1; 1; 1; 1; 1; -1]) /\ l2_errors s' = [1; 0; 0; 0; 0].
Proof.
  destruct (rx_packet_verdict l2_initial 9 1 0 0 [5; 6] l2_initial_inv eq_refl) as (s' & last & Hf & H).
  - by apply (bool_decide_unpack _).
  - by apply (bool_decide_unpack _).
  - simpl. lia.
  - by left.
  - exists s'. vm_compute in H. destruct H as (-> & _ & _ & He). split; [exact Hf|exact He].
Defined.

(** C37: An announced size of zero.  The code compares the index with
    dataSize + 10 only after the increment, so the packet never ends: the 244
    bytes after the two bytes of the data CRC are stored and answered 1
    whatever they are, and the next one is written past the end of the packet
    buffer. *)
Theorem rx_zero_size_overflow (s : Layer2) (dest src c0 c1 b : Z) (junk : list Z) :
  rx_inv s -> l2_state s = stWait -> is_u8 dest -> is_u8 src ->
  (dest = l2_selfAddress s \/ dest = l2_broadcastAddress s) ->
  length junk = 244%nat ->
  (exists s', rx_feed (frame_header dest src 0 ++ [c0; c1] ++ junk) s =
                Ret (s', 0 :: replicate 253 1)) /\
  rx_feed (frame_header dest src 0 ++ [c0; c1] ++ junk ++ [b]) s = Fault.
Proof.
  intros Hinv Hst Hd Hs Hdest Hj.
  pose proof (rx_feed_to_data s dest src 0 c0 c1 Hinv Hst Hd Hs ltac:(lia) Hdest) as Hto.
  assert (length (drop 10 (l2_packet s)) = 244%nat) as Hrest
    by (rewrite length_drop, (inv_packet_len _ Hinv); done).
  destruct (rx_feed_accepted s dest src 0) as [_ Hsz]; [done..|lia|done|].
  assert (length (frame_header dest src 0) = 8%nat) as HF by apply frame_header_length.
  pose proof (rx_feed_data junk (frame_header dest src 0 ++ [c0; c1]) (drop 10 (l2_packet s))
    (data_start dest src 0 c0 c1 s) 0) as Hfeed.
  set (F := frame_header dest src 0) in *.
  assert (length (F ++ [c0; c1]) = 10%nat) as HF2 by (rewrite length_app, HF; done).
  rewrite HF2, Hj, Hrest in Hfeed.
  assert (data_start dest src 0 c0 c1 s = mkLayer2 (l2_errors s) ((F ++ [c0; c1]) ++ drop 10 (l2_packet s))
    stRxData 0xFFFF 10 (l2_selfAddress s) (l2_broadcastAddress s) (l2_enableDataIOLt s)) as Hds.
  { unfold data_start. fold F. by rewrite <-app_assoc. }
  rewrite Hds in *. cbn [l2_state l2_packet l2_index] in Hfeed.
  specialize (Hfeed eq_refl eq_refl eq_refl ltac:(lia) ltac:(lia)
    ltac:(by rewrite rd16_app_l by (rewrite HF; done)) ltac:(lia) ltac:(lia)).
  clearbody F. remember (drop 10 (l2_packet s)) as D eqn:HD. clear HD Hds.
  split.
  - eexists. rewrite app_assoc, rx_feed_app, Hto. step_bind. rewrite Hfeed. reflexivity.
  - rewrite app_assoc, rx_feed_app, Hto. step_bind. rewrite rx_feed_app, Hfeed. step_bind.
    rewrite rx_feed_cons. unfold rxHandler, data_stored. l2_norm.
    unfold rx_data, store_byte, wr. cbn [l2_packet l2_index].
    rewrite bool_decide_false; [done|]. rewrite !length_app, HF, length_drop, Hrest, Hj. simpl. lia.
Qed.

Lemma rx_zero_size_overflow_witness :
  rx_feed (frame_header 9 1 0 ++ [0xFF; 0xFF] ++ replicate 244 0x11 ++ [0x11]) l2_initial = Fault.
Proof.
  apply (rx_zero_size_overflow l2_initial 9 1 0xFF 0xFF 0x11 (replicate 244 0x11) l2_initial_inv);
    try reflexivity; try (by apply (bool_decide_unpack _)).
Defined.
