(* ===== verification/Layer3.v ===== *)
(** * Data representation layer of DataIO ([DataIOLayer3] of [inc/dataio/dataio3.h])

    Messages of [inc/dataio/dataio_types.h] are collected in the buffer of an
    outgoing packet ([addMessage], [finishTxPacket]) and taken one by one from
    the data of an incoming one ([readPacket], [setRxAppData],
    [getMessagePtr]). *)

From S2P Require Import Prelude Crc16 Layer2.

(** ** Messages ([inc/dataio/dataio_types.h]) *)

Definition MsgParameterWrite : Z := 0x10.
Definition MsgParameterRead : Z := 0x11.
Definition MsgParameterValue : Z := 0x12.
Definition MsgReadBlock : Z := 0x13.
Definition MsgAppType : Z := 0x80.

Definition ResultOk : Z := 0.
Definition ResultBadParameter : Z := -1.
Definition ResultBadValue : Z := -2.
Definition ResultOperationError : Z := -3.

(** The sizes of the packed structures. *)
Definition sizeof_TMsgParameterWrite : Z := 8.
Definition sizeof_TMsgParameterRead : Z := 4.
Definition sizeof_TMsgReadBlock : Z := 6.
Definition sizeof_TMsgParameterValue : Z := 12.
Definition sizeof_TMsgAppTypeHeader : Z := 6.

(** Offset of [dataSize] in [TMsgAppTypeHeader]. *)
Definition off_app_dataSize : Z := 4.

(** The size of the messages of fixed size. *)
Definition fixed_size (id : Z) : option Z :=
  if bool_decide (id = MsgParameterWrite) then Some sizeof_TMsgParameterWrite
  else if bool_decide (id = MsgParameterRead) then Some sizeof_TMsgParameterRead
  else if bool_decide (id = MsgParameterValue) then Some sizeof_TMsgParameterValue
  else if bool_decide (id = MsgReadBlock) then Some sizeof_TMsgReadBlock
  else None.

(** ** State

    [l3_txPacket]: the packet buffer handed to [startTxPacket].
    [l3_rxData]: the memory from [rxDataPtr] to the end of its buffer. *)

Record Layer3 := mkLayer3 {
  l3_txPacket : list Z;
  l3_txIndex : Z;             (* uint16_t *)
  l3_rxData : list Z;
  l3_rxIndex : Z;             (* uint16_t *)
  l3_rxSize : Z;              (* uint16_t *)
  l3_maxTxAppSize : Z;        (* uint16_t *)
}.

(** The constructors; only [maxTxAppSize] is initialised. *)
Definition DataIOLayer3 (s : Layer3) : Layer3 :=
  mkLayer3 (l3_txPacket s) (l3_txIndex s) (l3_rxData s) (l3_rxIndex s) (l3_rxSize s) MaxLayer2DataSize.

Definition setTxAppSize (sz : Z) (s : Layer3) : Layer3 :=
  mkLayer3 (l3_txPacket s) (l3_txIndex s) (l3_rxData s) (l3_rxIndex s) (l3_rxSize s) (u16 sz).

Definition getTxAppSize (s : Layer3) : Z := l3_maxTxAppSize s.

Definition getTxBufferFree (s : Layer3) : Z := u16 (l3_maxTxAppSize s - l3_txIndex s).

Definition getTxDataSize (s : Layer3) : Z := l3_txIndex s.

Definition set_tx (p : list Z) (i : Z) (s : Layer3) : Layer3 :=
  mkLayer3 p i (l3_rxData s) (l3_rxIndex s) (l3_rxSize s) (l3_maxTxAppSize s).

Definition set_rx (d : list Z) (i n : Z) (s : Layer3) : Layer3 :=
  mkLayer3 (l3_txPacket s) (l3_txIndex s) d i n (l3_maxTxAppSize s).

Definition startTxPacket (buffer : list Z) (s : Layer3) : Layer3 := set_tx buffer 0 s.

(** [memcpy(txPacket->Packet.data + txIndex, src, |src|); txIndex += |src|] *)
Definition tx_append (src : list Z) (s : Layer3) : outcome Layer3 :=
  p ← checked (blit (l3_txPacket s) (off_data + l3_txIndex s) src);
  Ret (set_tx p (u16 (l3_txIndex s + Z.of_nat (length src))) s).

(** [addMessage]: [msg] is the memory at [msgPtr], [data] the memory at
    [data]. *)
Definition addMessage (msg data : list Z) (s : Layer3) : outcome (Layer3 * Z) :=
  id ← checked (rd msg 0);
  if bool_decide (id = MsgAppType) then
    dataSize ← checked (rd16 msg off_app_dataSize);
    let size := u16 (sizeof_TMsgAppTypeHeader + dataSize) in
    if bool_decide (size > getTxBufferFree s) then Ret (s, -1)
    else
      header ← checked (slice msg 0 sizeof_TMsgAppTypeHeader);
      s ← tx_append header s;
      if bool_decide (dataSize <> 0) then
        block ← checked (slice data 0 dataSize);
        s ← tx_append block s;
        Ret (s, 0)
      else Ret (s, 0)
  else
    match fixed_size id with
    | None => Ret (s, -2)
    | Some size =>
        if bool_decide (size > getTxBufferFree s) then Ret (s, -1)
        else
          m ← checked (slice msg 0 size);
          s ← tx_append m s;
          Ret (s, 0)
    end.

(** [finishTxPacket]: the size of the whole packet, 0 when it has no message. *)
Definition l3_finishTxPacket (destAddress : Z) (l2 : Layer2) (s : Layer3) : outcome (Layer3 * Z) :=
  if bool_decide (l3_txIndex s <> 0) then
    p ← checked (blit (l3_txPacket s) off_dataSize (le2 (l3_txIndex s)));
    p ← finishTxPacket destAddress p l2;
    dataSize ← checked (rd16 p off_dataSize);
    Ret (set_tx p 0 s, u16 (sizeof_LR2_HEADER + 2 + dataSize))
  else Ret (s, 0).

(** [readPacket]: the size, and the addresses when there is a packet. *)
Definition readPacket (l2 : Layer2) (s : Layer3) : outcome (Layer3 * Z * option (Z * Z)) :=
  r ← getRxDataPtr l2;
  match r with
  | (n, Some (dest, src, d)) => Ret (set_rx d 0 n s, n, Some (dest, src))
  | (n, None) => Ret (set_rx (l3_rxData s) 0 n s, n, None)
  end.

Definition rxDataSize (s : Layer3) : Z :=
  if bool_decide (l3_rxSize s > l3_rxIndex s) then u16 (l3_rxSize s - l3_rxIndex s) else 0.

(** [getMessagePtr]: the code and, with code 0, the identifier and the memory
    from the start of the message on. *)
Definition getMessagePtr (s : Layer3) : outcome (Layer3 * Z * option (Z * list Z)) :=
  let ds := rxDataSize s in
  if bool_decide (ds = 0) then Ret (s, -1, None)
  else
    id ← checked (rd (l3_rxData s) (l3_rxIndex s));
    sz ← (if bool_decide (id = MsgAppType)
          then dataSize ← checked (rd16 (l3_rxData s) (l3_rxIndex s + off_app_dataSize));
               Ret (Some (u16 (sizeof_TMsgAppTypeHeader + dataSize)))
          else Ret (fixed_size id));
    match sz with
    | None => Ret (s, -2, None)
    | Some size =>
        if bool_decide (size > ds) then Ret (s, -3, None)
        else Ret (set_rx (l3_rxData s) (u16 (l3_rxIndex s + size)) (l3_rxSize s) s, 0,
                  Some (id, drop (Z.to_nat (l3_rxIndex s)) (l3_rxData s)))
    end.

Definition setRxAppData (buffer : list Z) (n : Z) (s : Layer3) : Layer3 := set_rx buffer 0 (u16 n) s.

(** ** Reference messages

    What a message is, and its bytes: the header structure and, for an
    application message, the block of data that follows it. *)

Inductive message :=
  | MParameterWrite (sequenceNumber parameterNumber parameterValue : Z)
  | MParameterRead (sequenceNumber parameterNumber : Z)
  | MParameterValue (sequenceNumber parameterNumber parameterValue result reserved : Z)
  | MReadBlock (sequenceNumber base size reserved : Z)
  | MAppType (sequenceNumber type : Z) (data : list Z).

Definition message_id (m : message) : Z :=
  match m with
  | MParameterWrite _ _ _ => MsgParameterWrite
  | MParameterRead _ _ => MsgParameterRead
  | MParameterValue _ _ _ _ _ => MsgParameterValue
  | MReadBlock _ _ _ _ => MsgReadBlock
  | MAppType _ _ _ => MsgAppType
  end.

Definition message_header (m : message) : list Z :=
  message_id m ::
  match m with
  | MParameterWrite sn pn v => u8 sn :: le2 (u16 pn) ++ le4 (u32 v)
  | MParameterRead sn pn => u8 sn :: le2 (u16 pn)
  | MParameterValue sn pn v r x => u8 sn :: le2 (u16 pn) ++ le4 (u32 v) ++ le2 (u16 r) ++ le2 (u16 x)
  | MReadBlock sn base size x => u8 sn :: le2 (u16 base) ++ [u8 size; u8 x]
  | MAppType sn type data => u8 sn :: le2 (u16 type) ++ le2 (Z.of_nat (length data))
  end.

Definition message_body (m : message) : list Z :=
  match m with MAppType _ _ data => data | _ => [] end.

Definition message_bytes (m : message) : list Z := message_header m ++ message_body m.

(** The largest data block whose total size still fits [uint16_t]. *)
Definition message_ok (m : message) : Prop :=
  bytes (message_body m) /\ Z.of_nat (length (message_body m)) <= 65529.

#[export] Instance message_ok_dec m : Decision (message_ok m).
Proof. unfold message_ok, bytes. apply _. Defined.

Lemma message_bytes_length m :
  Z.of_nat (length (message_bytes m)) = Z.of_nat (length (message_header m)) + Z.of_nat (length (message_body m)).
Proof. unfold message_bytes. rewrite length_app. lia. Qed.

Lemma message_bytes_bytes m : message_ok m -> bytes (message_bytes m).
Proof.
  intros [Hb _]. apply Forall_app_2; [|done].
  destruct m; unfold message_header, message_id, MsgParameterWrite, MsgParameterRead,
    MsgParameterValue, MsgReadBlock, MsgAppType; repeat (constructor || apply Forall_app_2);
    word_lia.
Qed.

(** ** The outgoing packet *)

Record tx_inv (s : Layer3) : Prop := {
  inv_txIndex : 0 <= l3_txIndex s <= l3_maxTxAppSize s;
  inv_maxTx : is_u16 (l3_maxTxAppSize s);
  inv_txPacket : off_data + l3_maxTxAppSize s <= Z.of_nat (length (l3_txPacket s));
}.

(** The data collected so far. *)
Definition tx_contents (s : Layer3) : list Z :=
  take (Z.to_nat (l3_txIndex s)) (drop (Z.to_nat off_data) (l3_txPacket s)).

Lemma tx_contents_length s : tx_inv s -> Z.of_nat (length (tx_contents s)) = l3_txIndex s.
Proof.
  intros [Hi Hm Hp]. unfold tx_contents, off_data in *. rewrite length_take, length_drop. lia.
Qed.

Lemma getTxBufferFree_eq s : tx_inv s -> getTxBufferFree s = l3_maxTxAppSize s - l3_txIndex s.
Proof. intros [Hi Hm _]. unfold getTxBufferFree. apply u16_id. unw. lia. Qed.

Lemma tx_append_ok src s :
  tx_inv s -> l3_txIndex s + Z.of_nat (length src) <= l3_maxTxAppSize s ->
  exists p, tx_append src s = Ret (set_tx p (l3_txIndex s + Z.of_nat (length src)) s) /\
    let s' := set_tx p (l3_txIndex s + Z.of_nat (length src)) s in
    tx_inv s' /\ tx_contents s' = tx_contents s ++ src /\ length p = length (l3_txPacket s).
Proof.
  intros [Hi Hm Hp] Hfit. unfold tx_append, blit, off_data in *. unw.
  rewrite bool_decide_true by lia. cbn [checked mbind outcome_bind].
  rewrite (u16_id (_ + _)) by (unw; lia). eexists. split; [done|].
  set (p := _ ++ _). assert (length p = length (l3_txPacket s)) as Hl.
  { subst p. rewrite !length_app, length_take, length_drop. lia. }
  split_and!; [| |done].
  - constructor; cbn; [lia|unw; lia|unfold off_data; lia].
  - unfold tx_contents. cbn. unfold off_data. subst p.
    rewrite Z2Nat.inj_add, Z2Nat.inj_add, Nat2Z.id by lia.
    rewrite drop_app_le by (rewrite length_take; change (Z.to_nat 10) with 10%nat; lia).
    rewrite <-take_drop_commute, app_assoc, take_app_le.
    + rewrite take_ge; [done|]. rewrite length_app, length_take, length_drop. lia.
    + rewrite length_app, length_take, length_drop. lia.
Qed.

Lemma slice_prefix {A} (pre rest : list A) : slice (pre ++ rest) 0 (Z.of_nat (length pre)) = Some pre.
Proof.
  unfold slice. rewrite bool_decide_true by (rewrite length_app; lia).
  by rewrite Nat2Z.id, drop_0, take_app_length.
Qed.

(** What [addMessage] must do with a message that needs [n] bytes. *)
Definition added (m : message) (s : Layer3) (r : outcome (Layer3 * Z)) : Prop :=
  let n := Z.of_nat (length (message_bytes m)) in
  if bool_decide (l3_txIndex s + n <= l3_maxTxAppSize s) then
    exists p, let s' := set_tx p (l3_txIndex s + n) s in
      r = Ret (s', 0) /\ tx_inv s' /\ tx_contents s' = tx_contents s ++ message_bytes m /\
      length p = length (l3_txPacket s)
  else r = Ret (s, -1).

(** The receive side and the limit are not touched. *)
Definition same_rx (s s' : Layer3) : Prop :=
  (l3_rxData s', l3_rxIndex s', l3_rxSize s', l3_maxTxAppSize s') =
  (l3_rxData s, l3_rxIndex s, l3_rxSize s, l3_maxTxAppSize s).

Lemma same_rx_trans s1 s2 s3 : same_rx s1 s2 -> same_rx s2 s3 -> same_rx s1 s3.
Proof. unfold same_rx. congruence. Qed.

Lemma tx_append_rx src s s' : tx_append src s = Ret s' -> same_rx s s'.
Proof. unfold tx_append. intros H. inv_ret. reflexivity. Qed.

Lemma addMessage_rx msg data s s' rc : addMessage msg data s = Ret (s', rc) -> same_rx s s'.
Proof.
  unfold addMessage. intros H. apply bind_Ret in H as (id & _ & H). case_bool_decide.
  - apply bind_Ret in H as (n & _ & H). case_bool_decide; [injection H as <- _; done|].
    apply bind_Ret in H as (h & _ & H). apply bind_Ret in H as (s1 & Hx1%tx_append_rx & H).
    case_bool_decide; [|injection H as <- _; done].
    apply bind_Ret in H as (b & _ & H). apply bind_Ret in H as (s2 & Hx2%tx_append_rx & H).
    injection H as <- _. by eapply same_rx_trans.
  - destruct (fixed_size id); [|injection H as <- _; done].
    case_bool_decide; [injection H as <- _; done|].
    apply bind_Ret in H as (h & _ & H). apply bind_Ret in H as (s1 & Hx1%tx_append_rx & H).
    injection H as <- _. done.
Qed.

Lemma l3_finishTxPacket_rx dest l2 s s' n : l3_finishTxPacket dest l2 s = Ret (s', n) -> same_rx s s'.
Proof. unfold l3_finishTxPacket. intros Hx; case_bool_decide; inv_ret; reflexivity. Qed.

Lemma addMessage_fixed m s junk data size :
  tx_inv s -> message_body m = [] -> fixed_size (message_id m) = Some size ->
  size = Z.of_nat (length (message_header m)) -> message_id m <> MsgAppType ->
  added m s (addMessage (message_header m ++ junk) data s).
Proof.
  intros Hinv Hb Hf Hs Hid. unfold added. rewrite message_bytes_length, Hb.
  unfold message_bytes. rewrite Hb, app_nil_r. change (Z.of_nat (length [])) with 0. rewrite Z.add_0_r.
  unfold addMessage. assert (rd (message_header m ++ junk) 0 = Some (message_id m)) as -> by reflexivity.
  cbn [checked mbind outcome_bind]. rewrite (bool_decide_false (message_id m = _)) by done.
  rewrite Hf, getTxBufferFree_eq by done. subst size.
  do 2 case_bool_decide; try lia; [|done].
  rewrite slice_prefix. cbn [checked mbind outcome_bind].
  destruct (tx_append_ok (message_header m) s) as (p & -> & Hp1 & Hp2 & Hp3); [done..|].
  cbn [mbind outcome_bind]. eauto.
Qed.

Lemma addMessage_app sn type data s junk junk2 :
  tx_inv s -> message_ok (MAppType sn type data) ->
  added (MAppType sn type data) s
    (addMessage (message_header (MAppType sn type data) ++ junk) (data ++ junk2) s).
Proof.
  intros Hinv [_ Hok]. cbn [message_body] in Hok. set (m := MAppType sn type data).
  unfold added. rewrite message_bytes_length. cbn [message_body m]. fold m.
  assert (length (message_header m) = 6%nat) as Hh by done. rewrite Hh.
  unfold addMessage. assert (rd (message_header m ++ junk) 0 = Some MsgAppType) as -> by reflexivity.
  cbn [checked mbind outcome_bind]. rewrite (bool_decide_true (MsgAppType = _)) by done.
  assert (rd16 (message_header m ++ junk) off_app_dataSize = Some (Z.of_nat (length data))) as ->.
  { rewrite rd16_app_l by (rewrite Hh; done). subst m. unfold rd16, rd. simpl.
    by rewrite of_le2_le2 by (unw; lia). }
  cbn [checked mbind outcome_bind]. unfold sizeof_TMsgAppTypeHeader.
  rewrite (u16_id (6 + _)) by (unw; lia). rewrite getTxBufferFree_eq by done.
  do 2 case_bool_decide; try lia; [|done].
  assert (slice (message_header m ++ junk) 0 6 = Some (message_header m)) as ->
    by (apply (slice_prefix (message_header m))).
  cbn [checked mbind outcome_bind].
  destruct (tx_append_ok (message_header m) s) as (p & -> & Hp1 & Hp2 & Hp3); [done|lia|].
  cbn [mbind outcome_bind]. rewrite Hh in *. change (Z.of_nat 6) with 6 in *. cbv zeta in Hp1, Hp2.
  destruct (decide (data = [])) as [->|Hne].
  { change (Z.of_nat (length [])) with 0. rewrite bool_decide_false by lia. exists p. cbv zeta.
    unfold message_bytes. cbn [message_body m]. by rewrite app_nil_r. }
  rewrite bool_decide_true by (destruct data; done || (simpl; lia)).
  rewrite slice_prefix. cbn [checked mbind outcome_bind].
  destruct (tx_append_ok data _ Hp1) as (q & -> & Hq1 & Hq2 & Hq3); [cbn; lia|].
  rewrite Hp2 in Hq2. unfold set_tx in *. cbn [l3_txIndex l3_txPacket l3_rxData l3_rxIndex l3_rxSize
    l3_maxTxAppSize] in *. rewrite <-Z.add_assoc in *.
  exists q. cbv zeta. unfold message_bytes. rewrite app_assoc. split_and!; [done..|lia].
Qed.

Lemma addMessage_added m s junk junk2 :
  tx_inv s -> message_ok m ->
  added m s (addMessage (message_header m ++ junk) (message_body m ++ junk2) s).
Proof.
  intros Hinv Hok. destruct m as [| | | |sn type data].
  5: by apply addMessage_app.
  all: eapply addMessage_fixed; try done; reflexivity.
Qed.

(** ** The incoming packet *)

Definition rx_at (s : Layer3) (m : message) (rest : list Z) : Prop :=
  drop (Z.to_nat (l3_rxIndex s)) (l3_rxData s) = message_bytes m ++ rest.

Record l3_rx_inv (s : Layer3) : Prop := {
  inv_rxIndex : 0 <= l3_rxIndex s <= l3_rxSize s;
  inv_rxSize : is_u16 (l3_rxSize s);
}.

Lemma rd_drop {A} (l : list A) i j : 0 <= i -> 0 <= j -> rd l (i + j) = rd (drop (Z.to_nat i) l) j.
Proof.
  intros. unfold rd. rewrite !bool_decide_true by lia. rewrite lookup_drop. f_equal. lia.
Qed.

Lemma rd16_drop (l : list Z) i j : 0 <= i -> 0 <= j -> rd16 l (i + j) = rd16 (drop (Z.to_nat i) l) j.
Proof. intros. unfold rd16. by rewrite <-Z.add_assoc, !rd_drop by lia. Qed.

Lemma rxDataSize_eq s : l3_rx_inv s -> rxDataSize s = l3_rxSize s - l3_rxIndex s.
Proof.
  intros [Hi Hs]. unfold rxDataSize. case_bool_decide; [|lia]. apply u16_id. unw. lia.
Qed.

(** The size [getMessagePtr] computes for a message. *)
Definition message_size (d : list Z) : outcome (option Z) :=
  id ← checked (rd d 0);
  if bool_decide (id = MsgAppType)
  then dataSize ← checked (rd16 d off_app_dataSize);
       Ret (Some (u16 (sizeof_TMsgAppTypeHeader + dataSize)))
  else Ret (fixed_size id).

Lemma getMessagePtr_size s :
  l3_rx_inv s -> l3_rxIndex s < l3_rxSize s ->
  let d := drop (Z.to_nat (l3_rxIndex s)) (l3_rxData s) in
  getMessagePtr s =
    id ← checked (rd d 0);
    sz ← message_size d;
    match sz with
    | None => Ret (s, -2, None)
    | Some size =>
        if bool_decide (size > l3_rxSize s - l3_rxIndex s) then Ret (s, -3, None)
        else Ret (set_rx (l3_rxData s) (u16 (l3_rxIndex s + size)) (l3_rxSize s) s, 0, Some (id, d))
    end.
Proof.
  intros Hinv Hlt d. pose proof Hinv as [Hi _]. unfold getMessagePtr, message_size.
  rewrite rxDataSize_eq by done. rewrite bool_decide_false by lia.
  rewrite <-(Z.add_0_r (l3_rxIndex s)) at 1. rewrite rd_drop, rd16_drop by (done || lia). fold d.
  by destruct (rd d 0).
Qed.

Lemma message_size_app m rest :
  message_ok m ->
  message_size (message_bytes m ++ rest) = Ret (Some (Z.of_nat (length (message_bytes m)))) /\
  rd (message_bytes m ++ rest) 0 = Some (message_id m).
Proof.
  intros [_ Hok]. split; [|done]. destruct m as [sn pn v|sn pn|sn pn v r x|sn b sz x|sn type data]; [done..|].
  cbn [message_body] in Hok. unfold message_size.
  assert (rd (message_bytes (MAppType sn type data) ++ rest) 0 = Some MsgAppType) as -> by done.
  cbn [checked mbind outcome_bind]. rewrite bool_decide_true by done.
  unfold message_bytes. rewrite <-app_assoc, rd16_app_l by done.
  assert (rd16 (message_header (MAppType sn type data)) off_app_dataSize = Some (Z.of_nat (length data))) as ->.
  { unfold rd16, rd. simpl. by rewrite of_le2_le2 by (unw; lia). }
  cbn [checked mbind outcome_bind message_body]. unfold sizeof_TMsgAppTypeHeader.
  rewrite u16_id by (unw; lia). rewrite length_app. do 2 f_equal.
  assert (length (message_header (MAppType sn type data)) = 6%nat) as -> by done. lia.
Qed.

(** A message that lies at the read position and inside the data is returned,
    and the read position moves past it. *)
Lemma getMessagePtr_message s m rest :
  l3_rx_inv s -> rx_at s m rest -> message_ok m ->
  let n := Z.of_nat (length (message_bytes m)) in
  l3_rxIndex s + n <= l3_rxSize s ->
  let s' := set_rx (l3_rxData s) (l3_rxIndex s + n) (l3_rxSize s) s in
  getMessagePtr s = Ret (s', 0, Some (message_id m, message_bytes m ++ rest)) /\
  l3_rx_inv s' /\ drop (Z.to_nat (l3_rxIndex s')) (l3_rxData s') = rest.
Proof.
  intros Hinv Hat Hok n Hn s'. pose proof Hinv as [Hi Hs]. unfold rx_at in Hat.
  assert (0 < n) as Hpos by (subst n; unfold message_bytes, message_header; simpl; lia).
  pose proof (getMessagePtr_size s Hinv ltac:(lia)) as Heq. cbv zeta in Heq.
  rewrite Heq, Hat. destruct (message_size_app m rest Hok) as [-> ->].
  cbn [checked mbind outcome_bind]. fold n. rewrite bool_decide_false by lia.
  rewrite u16_id by (unw; lia). split_and!; [done|constructor; cbn; unw; lia|].
  subst s'. cbn. rewrite Z2Nat.inj_add by lia. rewrite <-drop_drop, Hat. subst n.
  by rewrite Nat2Z.id, drop_app_length.
Qed.

(** ** Runs of messages *)

(** Adding messages one after the other; the codes in order. *)
Fixpoint add_messages (ms : list (list Z * list Z)) (s : Layer3) : outcome (Layer3 * list Z) :=
  match ms with
  | [] => Ret (s, [])
  | (msg, data) :: ms =>
      '(s, r) ← addMessage msg data s;
      '(s, rs) ← add_messages ms s;
      Ret (s, r :: rs)
  end.

(** [while((rc = getMessagePtr(&id, &ptr)) == 0) ...]: the messages taken and
    the code that ends the loop. *)
Fixpoint get_messages (fuel : nat) (s : Layer3) : outcome (Layer3 * Z * list (Z * list Z)) :=
  match fuel with
  | O => Spin
  | S fuel =>
      r ← getMessagePtr s;
      match r with
      | (s, rc, Some m) => '(s, rc, l) ← get_messages fuel s; Ret (s, rc, m :: l)
      | (s, rc, None) => Ret (s, rc, [])
      end
  end.

Lemma get_messages_S fuel s :
  get_messages (S fuel) s =
    (r ← getMessagePtr s;
     match r with
     | (s, rc, Some m) => '(s, rc, l) ← get_messages fuel s; Ret (s, rc, m :: l)
     | (s, rc, None) => Ret (s, rc, [])
     end).
Proof. reflexivity. Qed.

Definition messages_bytes (ms : list message) : list Z := concat (message_bytes <$> ms).

(** The two memory blocks handed to [addMessage]. *)
Definition message_parts (m : message) : list Z * list Z := (message_header m, message_body m).

Lemma add_messages_ok ms s :
  tx_inv s -> Forall message_ok ms ->
  l3_txIndex s + Z.of_nat (length (messages_bytes ms)) <= l3_maxTxAppSize s ->
  exists p, let s' := set_tx p (l3_txIndex s + Z.of_nat (length (messages_bytes ms))) s in
    add_messages (map message_parts ms) s = Ret (s', replicate (length ms) 0) /\
    tx_inv s' /\ tx_contents s' = tx_contents s ++ messages_bytes ms /\
    length p = length (l3_txPacket s).
Proof.
  intros Hinv Hok. revert s Hinv. induction Hok as [|m ms Hm _ IH]; intros s Hinv Hfit.
  { exists (l3_txPacket s). cbn. rewrite Z.add_0_r, app_nil_r. by destruct s, Hinv. }
  change (messages_bytes (m :: ms)) with (message_bytes m ++ messages_bytes ms) in *.
  rewrite length_app, Nat2Z.inj_add in *. cbn [map message_parts add_messages].
  pose proof (addMessage_added m s [] [] Hinv Hm) as Hadd. rewrite !app_nil_r in Hadd.
  unfold added in Hadd. rewrite bool_decide_true in Hadd by lia.
  destruct Hadd as (p & -> & Hp1 & Hp2 & Hp3). cbn [mbind outcome_bind].
  destruct (IH _ Hp1) as (q & Hq & Hq1 & Hq2 & Hq3); [cbn [l3_txIndex set_tx l3_maxTxAppSize]; lia|].
  cbv zeta in *. unfold set_tx in *. cbn [l3_txIndex l3_txPacket l3_rxData l3_rxIndex l3_rxSize
    l3_maxTxAppSize] in *. rewrite <-!Z.add_assoc in *. exists q.
  rewrite Hq, Hq2, Hp2, <-app_assoc. split_and!; done || congruence.
Qed.

Lemma tx_shape s :
  tx_inv s -> exists h x0 x1 t rest, l3_txPacket s = h ++ [x0; x1] ++ t ++ tx_contents s ++ rest /\
    length h = 4%nat /\ length t = 4%nat.
Proof.
  intros [Hi Hm Hp]. unfold tx_contents, off_data in *.
  destruct (l3_txPacket s) as [|b0 [|b1 [|b2 [|b3 [|b4 [|b5 [|b6 [|b7 [|b8 [|b9 r]]]]]]]]]];
    simpl in Hp; try lia.
  exists [b0; b1; b2; b3], b4, b5, [b6; b7; b8; b9], (drop (Z.to_nat (l3_txIndex s)) r).
  change (drop (Z.to_nat 10) _) with r. by rewrite take_drop.
Qed.

Lemma l3_finishTxPacket_frame destAddress l2 s :
  tx_inv s -> tx_contents s <> [] -> l3_txIndex s <= 65525 ->
  exists rest, l3_finishTxPacket destAddress l2 s =
    Ret (set_tx (frame (u8 destAddress) (l2_selfAddress l2) (tx_contents s) ++ rest) 0 s,
         10 + l3_txIndex s) /\
    length (frame (u8 destAddress) (l2_selfAddress l2) (tx_contents s) ++ rest) = length (l3_txPacket s).
Proof.
  intros Hinv Hne Hmax. destruct (tx_shape s Hinv) as (h & x0 & x1 & t & rest & Hp & Hh & Ht).
  pose proof (tx_contents_length s Hinv) as Hlen. exists rest. split.
  2: { rewrite Hp. unfold frame. rewrite !length_app, frame_header_length, Hh, Ht.
       change (length (le2 _)) with 2%nat. simpl. lia. }
  unfold l3_finishTxPacket. rewrite bool_decide_true.
  2: { intros H0. rewrite H0 in Hlen. by destruct (tx_contents s). }
  erewrite (blit_at h [x0; x1]) by (done || by rewrite Hh). cbn [checked mbind outcome_bind].
  destruct h as [|h0 [|h1 [|h2 [|h3 [|? ?]]]]]; try done.
  destruct t as [|h6 [|h7 [|h8 [|h9 [|? ?]]]]]; try done.
  rewrite <-Hlen. rewrite finishTxPacket_frame by lia. cbn [mbind outcome_bind].
  unfold frame. rewrite <-app_assoc, rd16_app_l by done.
  assert (rd16 (frame_header (u8 destAddress) (l2_selfAddress l2) (Z.of_nat (length (tx_contents s))))
    off_dataSize = Some (Z.of_nat (length (tx_contents s)))) as ->.
  { unfold rd16, rd. simpl. by rewrite of_le2_le2 by (unw; lia). }
  cbn [checked mbind outcome_bind]. unfold sizeof_LR2_HEADER. change (8 + 2) with 10.
  rewrite u16_id by (unw; lia). done.
Qed.

Lemma get_messages_ok ms s junk :
  l3_rx_inv s -> Forall message_ok ms ->
  drop (Z.to_nat (l3_rxIndex s)) (l3_rxData s) = messages_bytes ms ++ junk ->
  l3_rxSize s = l3_rxIndex s + Z.of_nat (length (messages_bytes ms)) ->
  exists s' out, get_messages (S (length ms)) s = Ret (s', -1, out) /\
    Forall2 (fun m r => r.1 = message_id m /\ exists rest, r.2 = message_bytes m ++ rest) ms out /\
    rxDataSize s' = 0.
Proof.
  intros Hinv Hok. revert s Hinv. induction Hok as [|m ms Hm _ IH]; intros s Hinv Hat Hsz.
  { exists s, []. simpl in Hsz. assert (rxDataSize s = 0) as H0 by (rewrite rxDataSize_eq by done; lia).
    split_and!; [|constructor|done]. simpl. unfold getMessagePtr. rewrite H0. done. }
  change (messages_bytes (m :: ms)) with (message_bytes m ++ messages_bytes ms) in *.
  rewrite length_app in Hsz. rewrite <-app_assoc in Hat.
  destruct (getMessagePtr_message s m _ Hinv Hat Hm) as (Hg & Hinv' & Hd); [lia|].
  destruct (IH _ Hinv' Hd) as (s' & out & Ho & HF & H0); [cbn [l3_rxIndex l3_rxSize set_rx]; lia|].
  exists s', ((message_id m, message_bytes m ++ messages_bytes ms ++ junk) :: out).
  split_and!; [|constructor; [simpl; eauto|done]|done].
  change (length (m :: ms)) with (S (length ms)). rewrite get_messages_S.
  rewrite Hg. cbn [mbind outcome_bind]. rewrite Ho. done.
Qed.

(** The header of an application message whose total size, taken modulo
    2^16, is zero: dataSize = 65530. *)
Definition zero_size_header (d : list Z) : bool :=
  bool_decide (rd d 0 = Some MsgAppType) && bool_decide (rd16 d off_app_dataSize = Some 65530).

Lemma message_size_pos d size :
  bytes d -> message_size d = Ret (Some size) ->
  0 <= size < 65536 /\ (size = 0 <-> zero_size_header d = true).
Proof.
  intros Hd. unfold message_size, zero_size_header. destruct (rd d 0) as [id|] eqn:Hid; [|done].
  cbn [checked mbind outcome_bind]. case_bool_decide as Happ.
  - subst id. destruct (rd16 d off_app_dataSize) as [n|] eqn:Hn; [|done].
    apply rd16_bytes in Hn as Hr; [|done]. cbn [checked mbind outcome_bind]. intros [= <-].
    unfold sizeof_TMsgAppTypeHeader. rewrite bool_decide_true by done. simpl.
    rewrite bool_decide_eq_true. split; [word_lia|]. split; [intros; f_equal; word_lia|].
    intros [= ->]. done.
  - unfold fixed_size. rewrite (bool_decide_false (Some id = _)) by congruence. simpl.
    repeat case_bool_decide; intros [= <-]; done.
Qed.

(** One call of [getMessagePtr] on any data. *)
Lemma getMessagePtr_cases s s' rc r :
  l3_rx_inv s -> bytes (l3_rxData s) -> getMessagePtr s = Ret (s', rc, r) ->
  rc <> 0 /\ s' = s /\ r = None \/
  rc = 0 /\ l3_rx_inv s' /\ s' = set_rx (l3_rxData s) (l3_rxIndex s') (l3_rxSize s) s /\
  l3_rxIndex s <= l3_rxIndex s' /\ l3_rxIndex s < l3_rxSize s /\
  (l3_rxIndex s' = l3_rxIndex s <-> zero_size_header (drop (Z.to_nat (l3_rxIndex s)) (l3_rxData s)) = true) /\
  exists id, r = Some (id, drop (Z.to_nat (l3_rxIndex s)) (l3_rxData s)).
Proof.
  intros Hinv Hb H. pose proof Hinv as [Hi Hs].
  destruct (decide (l3_rxIndex s = l3_rxSize s)) as [He|He].
  { unfold getMessagePtr in H. rewrite rxDataSize_eq, bool_decide_true in H by (done || lia). inv_ret. by left. }
  rewrite (getMessagePtr_size s Hinv) in H by lia. cbv zeta in H.
  set (d := drop _ _) in *. assert (bytes d) as Hd by (by apply Forall_drop).
  apply bind_Ret in H as (id & Hid & H). apply bind_Ret in H as (sz & Hsz & H).
  destruct sz as [size|]; [|inv_ret; left; done].
  destruct (message_size_pos d size Hd Hsz) as [Hr Hz].
  case_bool_decide; [inv_ret; by left|]. rewrite u16_id in H by (unw; lia).
  injection H as <- <- <-. right. cbn. split_and!; try done; try lia; [constructor; cbn; unw; lia| |eauto].
  rewrite <-Hz. lia.
Qed.

(** The loop that takes the messages of a packet terminates on any data
    in which no message header carries dataSize = 65530 ... *)
Theorem get_messages_terminates (s : Layer3) :
  l3_rx_inv s -> bytes (l3_rxData s) ->
  (forall i, l3_rxIndex s <= i < l3_rxSize s ->
             zero_size_header (drop (Z.to_nat i) (l3_rxData s)) = false) ->
  get_messages (S (Z.to_nat (rxDataSize s))) s <> Spin.
Proof.
  intros Hinv Hb Hno. rewrite rxDataSize_eq by done.
  remember (Z.to_nat (l3_rxSize s - l3_rxIndex s)) as k eqn:Hk.
  assert (Z.of_nat k >= l3_rxSize s - l3_rxIndex s) as Hk' by lia. clear Hk.
  revert s Hinv Hb Hno Hk'. induction k as [|k IH]; intros s Hinv Hb Hno Hk.
  - simpl. pose proof Hinv as [Hi _]. unfold getMessagePtr.
    rewrite rxDataSize_eq, bool_decide_true by (done || lia). done.
  - rewrite get_messages_S. destruct (getMessagePtr s) as [[[s' rc] r]| |] eqn:Hg; [|done|].
    2: { exfalso. revert Hg. unfold getMessagePtr. case_bool_decide; [done|].
         destruct (rd _ _); [|done]. cbn [checked mbind outcome_bind].
         destruct (bool_decide _); [destruct (rd16 _ _); [|done]|]; cbn [checked mbind outcome_bind].
         - by case_bool_decide.
         - destruct (fixed_size _); [|done]. by case_bool_decide. }
    cbn [mbind outcome_bind].
    destruct (getMessagePtr_cases _ _ _ _ Hinv Hb Hg)
      as [(_ & _ & ->)|(_ & Hinv' & Hs' & Hle & Hlt & Hz & id & ->)]; [done|].
    rewrite Hno in Hz by lia.
    assert (l3_rxIndex s' <> l3_rxIndex s) as Hne by (intros He; by apply Hz in He).
    assert (get_messages (S k) s' <> Spin) as Hrec.
    { rewrite Hs'. apply IH; cbn [l3_rxIndex l3_rxData l3_rxSize set_rx].
      - by rewrite <-Hs'.
      - done.
      - intros i Hi. apply Hno. lia.
      - lia. }
    destruct (get_messages (S k) s') as [[[? ?] ?]| |]; done.
Qed.

Lemma get_messages_terminates_witness :
  get_messages 9 (set_rx [0x11; 1; 2; 0; 0x11; 2; 3; 0] 0 8 (mkLayer3 [] 0 [] 0 0 244)) <> Spin.
Proof.
  apply (get_messages_terminates (set_rx [0x11; 1; 2; 0; 0x11; 2; 3; 0] 0 8 (mkLayer3 [] 0 [] 0 0 244))).
  - constructor; cbn; unw; lia.
  - by apply (bool_decide_unpack _).
  - intros i Hi. cbn in Hi. assert (i < 8) as Hi8 by lia.
    assert (forall j : nat, (j < 8)%nat -> zero_size_header (drop j [0x11; 1; 2; 0; 0x11; 2; 3; 0]) = false)
      as Hj by (intros j Hj; do 8 (destruct j; [done|]); lia).
    apply Hj. lia.
Defined.

(** ... and does not terminate when it meets one: the code adds 6 to
    dataSize in a [uint16_t], the message has size 0, is accepted and the read
    position stays. *)
Theorem get_messages_spin (s : Layer3) (fuel : nat) :
  l3_rx_inv s -> l3_rxIndex s < l3_rxSize s ->
  zero_size_header (drop (Z.to_nat (l3_rxIndex s)) (l3_rxData s)) = true ->
  get_messages fuel s = Spin.
Proof.
  intros Hinv Hlt Hz. pose proof Hinv as [Hi Hs].
  assert (getMessagePtr s = Ret (s, 0, Some (MsgAppType, drop (Z.to_nat (l3_rxIndex s)) (l3_rxData s)))) as Hg.
  { rewrite (getMessagePtr_size s Hinv Hlt). set (d := drop _ _) in *.
    unfold zero_size_header in Hz. apply andb_true_iff in Hz as [H1%bool_decide_eq_true H2%bool_decide_eq_true].
    unfold message_size. rewrite H1, H2. cbn [checked mbind outcome_bind].
    rewrite bool_decide_true by done. cbn [mbind outcome_bind]. change (u16 (sizeof_TMsgAppTypeHeader + 65530)) with 0.
    rewrite bool_decide_false by lia. rewrite Z.add_0_r, u16_id by (unw; lia). by destruct s. }
  induction fuel as [|fuel IH]; [done|]. cbn [get_messages]. rewrite Hg. cbn [mbind outcome_bind].
  by rewrite IH.
Qed.

Lemma get_messages_spin_witness :
  get_messages 50 (set_rx [0x80; 1; 0; 0; 0xFA; 0xFF] 0 6 (mkLayer3 [] 0 [] 0 0 244)) = Spin.
Proof.
  apply get_messages_spin.
  - constructor; cbn; unw; lia.
  - cbn. lia.
  - reflexivity.
Defined.

(** [addMessage] of any message.  When the message fits what is left of
    the application size, it is answered 0, the message's header and data are
    appended to the contents of the packet and nothing else changes; otherwise
    it is answered -1 and the state is unchanged. *)
Theorem addMessage_spec (m : message) (s : Layer3) (junk junk2 : list Z) :
  tx_inv s -> message_ok m ->
  let n := Z.of_nat (length (message_bytes m)) in
  let r := addMessage (message_header m ++ junk) (message_body m ++ junk2) s in
  if bool_decide (l3_txIndex s + n <= l3_maxTxAppSize s) then
    exists p, let s' := set_tx p (l3_txIndex s + n) s in
      r = Ret (s', 0) /\ tx_inv s' /\ tx_contents s' = tx_contents s ++ message_bytes m /\
      length p = length (l3_txPacket s)
  else r = Ret (s, -1).
Proof. apply addMessage_added. Qed.

Definition l3_initial : Layer3 := startTxPacket (replicate 254 0) (mkLayer3 [] 0 [] 0 0 244).

Lemma l3_initial_inv : tx_inv l3_initial.
Proof. constructor; cbn; unfold off_data; unw; lia. Qed.

Lemma addMessage_spec_witness :
  let m := MAppType 5 0x12 [7; 8] in
  exists p, let s' := set_tx p 8 l3_initial in
    addMessage (message_header m ++ [99]) (message_body m ++ []) l3_initial = Ret (s', 0) /\ tx_inv s' /\
    tx_contents s' = [] ++ message_bytes m /\ length p = 254%nat.
Proof.
  apply (addMessage_spec (MAppType 5 0x12 [7; 8]) l3_initial [99] [] l3_initial_inv).
  by apply (bool_decide_unpack _).
Defined.

(** C1: End to end.  Any non-empty run of messages whose total size is within
    the application size (at most 244) is accepted message by message;
    [finishTxPacket] makes a packet of total size + 10 bytes; a waiting
    receiver with the right address accepts exactly those bytes;
    [readPacket] gives the total size and the two addresses; and the loop over
    [getMessagePtr] yields exactly the messages sent, in order, each at a
    pointer to its own bytes, and then ends with -1. *)
Theorem layer3_roundtrip (tx rx : Layer2) (s r : Layer3) (buf : list Z) (ms : list message) (destAddress : Z) :
  rx_inv rx -> l2_state rx = stWait -> is_u8 (l2_selfAddress tx) ->
  (u8 destAddress = l2_selfAddress rx \/ u8 destAddress = l2_broadcastAddress rx) ->
  0 <= l3_maxTxAppSize s <= 244 -> off_data + l3_maxTxAppSize s <= Z.of_nat (length buf) ->
  ms <> [] -> Forall message_ok ms ->
  let total := Z.of_nat (length (messages_bytes ms)) in
  total <= l3_maxTxAppSize s ->
  exists s1 s2 rx' r1 r2 out,
    add_messages (map message_parts ms) (startTxPacket buf s) = Ret (s1, replicate (length ms) 0) /\
    l3_finishTxPacket destAddress tx s1 = Ret (s2, total + 10) /\
    rx_feed (take (Z.to_nat (total + 10)) (l3_txPacket s2)) rx =
      Ret (rx', 0 :: replicate (Z.to_nat total + 8) 1 ++ [2]) /\
    readPacket rx' r = Ret (r1, total, Some (u8 destAddress, l2_selfAddress tx)) /\
    get_messages (S (length ms)) r1 = Ret (r2, -1, out) /\
    Forall2 (fun m o => o.1 = message_id m /\ exists rest, o.2 = message_bytes m ++ rest) ms out.
Proof.
  intros Hinv Hst Ha Hd Hmax Hbuf Hne Hok total Htot.
  assert (tx_inv (startTxPacket buf s)) as Htx by (constructor; cbn in *; unw; lia).
  destruct (add_messages_ok ms _ Htx Hok) as (p & Hadd & Htx' & Hc & Hlp); [cbn; lia|].
  cbv zeta in *. rewrite Z.add_0_l in *. fold total in Hadd, Htx', Hc.
  change (tx_contents (startTxPacket buf s)) with (@nil Z) in Hc. rewrite app_nil_l in Hc.
  set (s1 := set_tx p total (startTxPacket buf s)) in *.
  assert (0 < total) as Hpos.
  { subst total. destruct ms as [|m ms]; [done|].
    change (messages_bytes (m :: ms)) with (message_bytes m ++ messages_bytes ms).
    rewrite length_app. unfold message_bytes, message_header. simpl. lia. }
  destruct (l3_finishTxPacket_frame destAddress tx s1 Htx') as (rest & Hfin & _).
  { rewrite Hc. intros H0. subst total. rewrite H0 in Hpos. done. }
  { subst s1. cbn [l3_txIndex set_tx]. lia. }
  rewrite Hc in Hfin. set (F := frame _ _ _) in Hfin.
  assert (length F = Z.to_nat (total + 10)) as HF.
  { subst F. unfold frame. rewrite !length_app, frame_header_length. simpl. lia. }
  destruct (rx_feed_frame rx (u8 destAddress) (l2_selfAddress tx) (messages_bytes ms))
    as (rx' & Hf & Hget & _); [done|done|apply u8_range|done|lia|done|]. fold F in Hf.
  set (after := drop _ _) in Hget.
  destruct (get_messages_ok ms (set_rx (messages_bytes ms ++ after) 0 total r) after) as (r2 & out & Ho & HF2 & _).
  { constructor; cbn [l3_rxIndex l3_rxSize set_rx]; unw; lia. }
  { done. } { done. } { done. }
  eexists s1, _, rx', _, r2, out. split_and!.
  - exact Hadd.
  - rewrite Hfin. subst s1. cbn [l3_txIndex set_tx]. do 2 f_equal. lia.
  - cbn [l3_txPacket set_tx]. rewrite <-HF, take_app_length.
    replace (Z.to_nat total + 8)%nat with (length (messages_bytes ms) + 8)%nat by lia. exact Hf.
  - unfold readPacket. rewrite Hget. reflexivity.
  - exact Ho.
  - exact HF2.
Qed.

Lemma layer3_roundtrip_witness :
  let ms := [MParameterRead 1 14; MAppType 5 0x12 [7; 8]] in
  exists s1 s2 rx' r1 r2 out,
    add_messages (map message_parts ms) (startTxPacket (replicate 254 0) l3_initial) = Ret (s1, [0; 0]) /\
    l3_finishTxPacket 9 l2_initial s1 = Ret (s2, 22) /\
    rx_feed (take 22 (l3_txPacket s2)) l2_initial = Ret (rx', 0 :: replicate 20 1 ++ [2]) /\
    readPacket rx' l3_initial = Ret (r1, 12, Some (9, 9)) /\
    get_messages 3 r1 = Ret (r2, -1, out) /\
    Forall2 (fun m o => o.1 = message_id m /\ exists rest, o.2 = message_bytes m ++ rest) ms out.
Proof.
  apply (layer3_roundtrip l2_initial l2_initial l3_initial l3_initial (replicate 254 0)
    [MParameterRead 1 14; MAppType 5 0x12 [7; 8]] 9 l2_initial_inv); try reflexivity;
    try (by apply (bool_decide_unpack _)); try done.
Defined.
