(* ===== verification/Ring.v ===== *)
(** * Lists seen as rings

    The logical contents of a ring buffer: [n] elements of the array [l] from
    position [r] on, going round at the end.  Shared by the queue and the byte
    buffer. *)

From S2P Require Import Prelude.

Section Ring.
Context {A : Type}.
Implicit Types (l src : list A) (r n i j : nat).

(** The array position of the [j]-th element. *)
Definition ring_pos (size r j : nat) : nat := if bool_decide (r + j < size)%nat then (r + j)%nat else (r + j - size)%nat.

Definition ring l r n : list A := take n (drop r l ++ take r l).

Lemma ring_length l r n : (r <= length l)%nat -> (n <= length l)%nat -> length (ring l r n) = n.
Proof. intros. unfold ring. rewrite length_take, length_app, length_drop, length_take. lia. Qed.

Lemma ring_pos_lt size r j : (r < size)%nat -> (j < size)%nat -> (ring_pos size r j < size)%nat.
Proof. unfold ring_pos. case_bool_decide; lia. Qed.

Lemma ring_pos_inj size r i j :
  (r < size)%nat -> (i < size)%nat -> (j < size)%nat -> ring_pos size r i = ring_pos size r j -> i = j.
Proof. unfold ring_pos. do 2 case_bool_decide; lia. Qed.

Lemma ring_lookup l r n j :
  (r < length l)%nat -> (j < n)%nat -> (n <= length l)%nat ->
  ring l r n !! j = l !! ring_pos (length l) r j.
Proof.
  intros Hr Hj Hn. unfold ring, ring_pos. rewrite lookup_take_lt by done.
  case_bool_decide as H.
  - rewrite lookup_app_l by (rewrite length_drop; lia). by rewrite lookup_drop.
  - rewrite lookup_app_r by (rewrite length_drop; lia). rewrite length_drop.
    rewrite lookup_take_lt by lia. f_equal. lia.
Qed.

(** Two rings are equal when they agree position by position. *)
Lemma ring_ext l r n l2 :
  (r < length l)%nat -> (n <= length l)%nat -> length l2 = n ->
  (forall j, (j < n)%nat -> l !! ring_pos (length l) r j = l2 !! j) -> ring l r n = l2.
Proof.
  intros Hr Hn Hl H. apply (list_eq_same_length _ _ n); [done|apply ring_length; lia|].
  intros j x y Hj Hx Hy. rewrite ring_lookup, H in Hx by done. congruence.
Qed.

Lemma ring_nil l r : ring l r 0 = [].
Proof. reflexivity. Qed.

(** Writing the element after the last. *)
Lemma ring_push l r n c :
  (r < length l)%nat -> (n < length l)%nat ->
  ring (<[ring_pos (length l) r n := c]> l) r (S n) = ring l r n ++ [c].
Proof.
  intros Hr Hn. apply ring_ext; rewrite ?length_insert; [done|lia| |].
  { rewrite length_app, ring_length by lia. simpl. lia. }
  intros j Hj. destruct (decide (j = n)) as [->|Hne].
  - rewrite list_lookup_insert_eq by (by apply ring_pos_lt).
    rewrite lookup_app_r; rewrite ring_length by lia; [|lia]. by rewrite Nat.sub_diag.
  - rewrite list_lookup_insert_ne.
    2: { intros He. apply ring_pos_inj in He; lia. }
    rewrite lookup_app_l by (rewrite ring_length; lia). by rewrite ring_lookup by lia.
Qed.

(** Dropping the first element. *)
Lemma ring_pop l r n :
  (r < length l)%nat -> (S n <= length l)%nat ->
  exists c, l !! r = Some c /\ ring l r (S n) = c :: ring l (ring_pos (length l) r 1) n.
Proof.
  intros Hr Hn. destruct (lookup_lt_is_Some_2 l r Hr) as [c Hc]. exists c. split; [done|].
  assert (ring_pos (length l) r 1 < length l)%nat by (unfold ring_pos; case_bool_decide; lia).
  apply ring_ext; [done|lia|simpl; rewrite ring_length; lia|].
  intros [|j] Hj.
  - simpl. rewrite <-Hc. f_equal. unfold ring_pos. case_bool_decide; lia.
  - simpl. rewrite ring_lookup by lia. f_equal. unfold ring_pos. repeat case_bool_decide; lia.
Qed.

Lemma ring_pos_add size r i j :
  (r < size)%nat -> (i < size)%nat -> (i + j < size)%nat ->
  ring_pos size (ring_pos size r i) j = ring_pos size r (i + j).
Proof. intros. unfold ring_pos. repeat case_bool_decide; lia. Qed.

(** Dropping a block from the front; a block of all [length l] elements comes
    back to the same position. *)
Lemma ring_drop l r n k :
  (r < length l)%nat -> (n <= length l)%nat -> (k <= n)%nat ->
  ring l (ring_pos (length l) r k) (n - k) = drop k (ring l r n).
Proof.
  intros Hr Hn Hk. destruct (decide (k = length l)) as [->|Hkl].
  { replace (n - length l)%nat with 0%nat by lia. rewrite drop_ge; [done|]. rewrite ring_length; lia. }
  apply ring_ext.
  - apply ring_pos_lt; lia.
  - lia.
  - rewrite length_drop, ring_length; lia.
  - intros j Hj. rewrite ring_pos_add by lia. rewrite lookup_drop, ring_lookup by lia. f_equal.
Qed.

(** The first elements, without and with going round the end. *)
Lemma ring_take l r n k :
  (r < length l)%nat -> (n <= length l)%nat -> (k <= n)%nat ->
  take k (ring l r n) =
    if bool_decide (r + k < length l)%nat then take k (drop r l) else drop r l ++ take (k - (length l - r)) l.
Proof.
  intros Hr Hn Hk. unfold ring. rewrite take_take, Nat.min_l by lia. case_bool_decide.
  - rewrite take_app_le; [done|]. rewrite length_drop. lia.
  - rewrite take_app_ge by (rewrite length_drop; lia). f_equal. rewrite length_drop, take_take. f_equal. lia.
Qed.

End Ring.
