(* ===== verification/TQueue.v ===== *)
(** * Bounded queue ([TQueue] of [inc/comm/tqueue.h])

    The operations on the ring, and the proof that every run of operations
    behaves as a bounded FIFO that drops what is pushed when it is full. *)

From S2P Require Import Prelude Ring.

Section TQueue.
Context {A : Type}.

(** [TIndex] is [unsigned short]. *)
Record TQueue := mkTQueue {
  tq_msgBufferSize : Z;
  tq_begin : Z;
  tq_end : Z;
  tq_msgBuffer : list A;
  tq_isFull : bool;
  tq_isEmpty : bool;
}.

(** The constructor: [bufSize] is a [short]. *)
Definition TQueue_new (buffer : list A) (bufSize : Z) : TQueue :=
  mkTQueue (u16 bufSize) 0 0 buffer false true.

Definition clear (q : TQueue) : TQueue :=
  mkTQueue (tq_msgBufferSize q) (tq_begin q) (tq_begin q) (tq_msgBuffer q) false true.

Definition empty (q : TQueue) : bool := tq_isEmpty q.
Definition full (q : TQueue) : bool := tq_isFull q.

Definition size (q : TQueue) : Z :=
  if empty q then 0
  else if bool_decide (tq_end q > tq_begin q) then tq_end q - tq_begin q
  else tq_msgBufferSize q - tq_begin q + tq_end q.

Definition push (msg : A) (q : TQueue) : outcome TQueue :=
  if full q then Ret q
  else
    b ← checked (wr (tq_msgBuffer q) (tq_end q) msg);
    let e := u16 (tq_end q + 1) in
    let e := if bool_decide (e = tq_msgBufferSize q) then 0 else e in
    Ret (mkTQueue (tq_msgBufferSize q) (tq_begin q) e b
           (if bool_decide (e = tq_begin q) then true else tq_isFull q) false).

(** [front]: the element at [begin] (the code returns its address), or null. *)
Definition front (q : TQueue) : outcome (option A) :=
  if empty q then Ret None
  else a ← checked (rd (tq_msgBuffer q) (tq_begin q)); Ret (Some a).

Definition pop (q : TQueue) : TQueue :=
  if empty q then
    mkTQueue (tq_msgBufferSize q) (tq_begin q) (tq_end q) (tq_msgBuffer q) false (tq_isEmpty q)
  else
    let b := u16 (tq_begin q + 1) in
    let b := if bool_decide (b = tq_msgBufferSize q) then 0 else b in
    mkTQueue (tq_msgBufferSize q) b (tq_end q) (tq_msgBuffer q) false
      (if bool_decide (tq_end q = b) then true else tq_isEmpty q).

(** ** Abstraction *)

(** The number of elements, from the flags and the indices. *)
Definition count (q : TQueue) : nat := Z.to_nat (size q).

Definition contents (q : TQueue) : list A := ring (tq_msgBuffer q) (Z.to_nat (tq_begin q)) (count q).

Record tq_inv (q : TQueue) : Prop := {
  tq_inv_size : 0 < tq_msgBufferSize q < 65536;
  tq_inv_buffer : Z.of_nat (length (tq_msgBuffer q)) = tq_msgBufferSize q;
  tq_inv_begin : 0 <= tq_begin q < tq_msgBufferSize q;
  tq_inv_end : 0 <= tq_end q < tq_msgBufferSize q;
  tq_inv_empty : tq_isEmpty q = true -> tq_begin q = tq_end q /\ tq_isFull q = false;
  tq_inv_full : tq_begin q = tq_end q -> tq_isEmpty q = false -> tq_isFull q = true;
  tq_inv_full' : tq_isFull q = true -> tq_begin q = tq_end q;
}.

(** [tq_rep q l]: the queue [q] holds the elements [l], oldest first. *)
Definition tq_rep (q : TQueue) (l : list A) : Prop := tq_inv q /\ contents q = l.

Lemma size_range q :
  tq_inv q -> 0 <= size q <= tq_msgBufferSize q /\
  (tq_isEmpty q = true <-> size q = 0) /\ (tq_isFull q = true <-> size q = tq_msgBufferSize q).
Proof.
  intros [Hs Hb Hbe He Hem Hfu Hfu']. unfold size, empty.
  destruct (tq_isEmpty q) eqn:E.
  - destruct (Hem eq_refl) as [_ ->]. split_and!; [lia|lia|done|]. split; [done|lia].
  - destruct (decide (tq_begin q = tq_end q)) as [Heq|Hne].
    + rewrite (Hfu Heq eq_refl), bool_decide_false by lia. split_and!; [lia|lia|..]; split; intros; done || lia.
    + assert (tq_isFull q = false) as -> by (destruct (tq_isFull q); naive_solver).
      case_bool_decide; split_and!; try lia; split; done || lia.
Qed.

Lemma tq_contents_length q : tq_inv q -> Z.of_nat (length (contents q)) = size q.
Proof.
  intros Hi. destruct (size_range q Hi) as [Hs _]. destruct Hi as [? ? ? ? _ _ _].
  unfold contents, count. rewrite ring_length; lia.
Qed.

Lemma push_full q a : full q = true -> push a q = Ret q.
Proof. unfold push. by intros ->. Qed.

Lemma ring_end q :
  tq_inv q -> tq_isFull q = false ->
  Z.to_nat (tq_end q) = ring_pos (length (tq_msgBuffer q)) (Z.to_nat (tq_begin q)) (count q).
Proof.
  intros [Hs Hb Hbe He Hem Hfu Hfu'] Hf. unfold count, size, empty, ring_pos.
  destruct (tq_isEmpty q) eqn:E; [destruct (Hem eq_refl)|];
    repeat case_bool_decide; try lia; destruct (decide (tq_begin q = tq_end q)); naive_solver lia.
Qed.

Lemma push_rep q l a :
  tq_rep q l -> full q = false -> exists q', push a q = Ret q' /\ tq_rep q' (l ++ [a]) /\
    tq_msgBufferSize q' = tq_msgBufferSize q.
Proof.
  intros [Hi <-] Hf. pose proof (ring_end q Hi Hf) as Hend.
  destruct (size_range q Hi) as (Hsz & Hse & Hsf). destruct Hi as [Hs Hb Hbe He Hem Hfu Hfu'].
  unfold push. rewrite Hf. unfold wr. rewrite (bool_decide_true (0 <= tq_end q < _)) by lia. cbn [checked mbind outcome_bind].
  rewrite u16_id by (unw; lia).
  assert (size q < tq_msgBufferSize q) as Hlt.
  { destruct (decide (size q = tq_msgBufferSize q)) as [E|]; [apply Hsf in E; unfold full in Hf; congruence|lia]. }
  set (e := if bool_decide (tq_end q + 1 = _) then 0 else _).
  set (q' := mkTQueue _ _ _ _ _ _). exists q'.
  assert (size q' = size q + 1) as Hsz'.
  { subst q' e. unfold size, empty. cbn. unfold full in Hf.
    destruct (tq_isEmpty q) eqn:E; [destruct (Hem eq_refl)|]; repeat case_bool_decide; try lia;
    destruct (decide (tq_begin q = tq_end q)); naive_solver lia. }
  split_and!; [done| |done]. split.
  - constructor; cbn; rewrite ?length_insert; try done.
    + subst e. case_bool_decide; lia.
    + intros ->. by rewrite bool_decide_true.
    + case_bool_decide; [done|]. unfold full in Hf. congruence.
  - unfold contents, count. cbn [tq_msgBuffer tq_begin q']. rewrite Hsz'.
    replace (Z.to_nat (size q + 1)) with (S (count q)) by (unfold count; lia).
    rewrite Hend. apply ring_push; unfold count; lia.
Qed.

Lemma front_rep q l : tq_rep q l -> front q = Ret (head l).
Proof.
  intros [Hi <-]. destruct (size_range q Hi) as (Hsz & Hse & Hsf). destruct Hi as [Hs Hb Hbe He Hem Hfu Hfu'].
  unfold front, empty, contents, count. destruct (tq_isEmpty q) eqn:E.
  - destruct Hse as [-> _]; done.
  - assert (size q <> 0) as Hnz by (intros H0; apply Hse in H0; congruence).
    destruct (Z.to_nat (size q)) as [|n] eqn:En; [lia|].
    destruct (ring_pop (tq_msgBuffer q) (Z.to_nat (tq_begin q)) n) as (c & Hc & ->); [lia..|].
    unfold rd. rewrite bool_decide_true by lia. by rewrite Hc.
Qed.

Lemma pop_rep q l :
  tq_rep q l -> tq_rep (pop q) (tail l) /\ tq_msgBufferSize (pop q) = tq_msgBufferSize q.
Proof.
  intros [Hi <-]. destruct (size_range q Hi) as (Hsz & Hse & Hsf). pose proof Hi as [Hs Hb Hbe He Hem Hfu Hfu'].
  unfold pop, empty. destruct (tq_isEmpty q) eqn:E.
  - destruct (Hem eq_refl) as [H1 H2]. split; [|done]. rewrite <-H2, <-E.
    unfold contents, count. destruct Hse as [-> _]; [|done]. split; [by destruct q|].
    unfold contents, count, size, empty. cbn. by rewrite E.
  - assert (size q <> 0) as Hnz by (intros H0; apply Hse in H0; congruence).
    rewrite u16_id by (unw; lia). set (b := if bool_decide (tq_begin q + 1 = _) then 0 else _).
    set (q' := mkTQueue _ _ _ _ _ _).
    assert (size q' = size q - 1) as Hsz'.
    { subst q' b. unfold size, empty. cbn. rewrite E. repeat case_bool_decide; try lia. }
    split; [|done]. split.
    + constructor; cbn; try done.
      * subst b. case_bool_decide; lia.
      * case_bool_decide; naive_solver.
      * intros ->. by rewrite bool_decide_true.
    + unfold contents, count. cbn [tq_msgBuffer tq_begin q']. rewrite Hsz'.
      destruct (ring_pop (tq_msgBuffer q) (Z.to_nat (tq_begin q)) (Z.to_nat (size q - 1))) as (c & Hc & Hr); [lia..|].
      replace (Z.to_nat (size q)) with (S (Z.to_nat (size q - 1))) by lia. rewrite Hr. simpl.
      f_equal. subst b. unfold ring_pos. repeat case_bool_decide; lia.
Qed.

(** ** Refinement

    A run of operations and its outputs, in the code and in the
    specification: a bounded FIFO of capacity [cap]. *)

Inductive op := OpPush (a : A) | OpPop | OpFront | OpClear | OpEmpty | OpFull | OpSize.
Inductive output := OutUnit | OutFront (a : option A) | OutBool (b : bool) | OutSize (n : Z).

Definition run_op (o : op) (q : TQueue) : outcome (TQueue * output) :=
  match o with
  | OpPush a => q ← push a q; Ret (q, OutUnit)
  | OpPop => Ret (pop q, OutUnit)
  | OpFront => a ← front q; Ret (q, OutFront a)
  | OpClear => Ret (clear q, OutUnit)
  | OpEmpty => Ret (q, OutBool (empty q))
  | OpFull => Ret (q, OutBool (full q))
  | OpSize => Ret (q, OutSize (size q))
  end.

Definition spec_op (cap : Z) (o : op) (l : list A) : list A * output :=
  let n := Z.of_nat (length l) in
  match o with
  | OpPush a => (if bool_decide (n < cap) then l ++ [a] else l, OutUnit)
  | OpPop => (tail l, OutUnit)
  | OpFront => (l, OutFront (head l))
  | OpClear => ([], OutUnit)
  | OpEmpty => (l, OutBool (bool_decide (n = 0)))
  | OpFull => (l, OutBool (bool_decide (n = cap)))
  | OpSize => (l, OutSize n)
  end.

Fixpoint run (os : list op) (q : TQueue) : outcome (TQueue * list output) :=
  match os with
  | [] => Ret (q, [])
  | o :: os => '(q, x) ← run_op o q; '(q, xs) ← run os q; Ret (q, x :: xs)
  end.

Fixpoint spec_run (cap : Z) (os : list op) (l : list A) : list A * list output :=
  match os with
  | [] => (l, [])
  | o :: os => let '(l, x) := spec_op cap o l in let '(l, xs) := spec_run cap os l in (l, x :: xs)
  end.

Lemma tq_run_op_refines o q l :
  tq_rep q l -> exists q', run_op o q = Ret (q', (spec_op (tq_msgBufferSize q) o l).2) /\
    tq_rep q' (spec_op (tq_msgBufferSize q) o l).1 /\ tq_msgBufferSize q' = tq_msgBufferSize q.
Proof.
  intros Hr. pose proof Hr as [Hi Hc]. destruct (size_range q Hi) as (Hsz & Hse & Hsf).
  pose proof (tq_contents_length q Hi) as Hl. rewrite Hc in Hl.
  destruct o as [a| | | | | |]; cbn [run_op spec_op fst snd].
  - case_bool_decide as Hlt.
    + destruct (push_rep q l a Hr) as (q' & -> & Hq' & Hs').
      { unfold full. destruct (tq_isFull q); [|done]. destruct Hsf as [Hsf _]. rewrite Hsf in Hl by done. lia. }
      eexists. split; [done|]. done.
    + rewrite push_full. { eexists. split; [done|]. done. }
      apply Hsf. lia.
  - eexists. split; [done|]. by apply pop_rep.
  - rewrite (front_rep _ _ Hr). eexists. split; [done|]. done.
  - eexists. split; [done|]. split; [|done]. destruct Hi. split; [by constructor|done].
  - assert (empty q = bool_decide (Z.of_nat (length l) = 0)) as ->; [|by eexists].
    unfold empty. rewrite Hl. case_bool_decide as H0; [by apply Hse|].
    destruct (tq_isEmpty q); [by destruct H0; apply Hse|done].
  - assert (full q = bool_decide (Z.of_nat (length l) = tq_msgBufferSize q)) as ->; [|by eexists].
    unfold full. rewrite Hl. case_bool_decide as H0; [by apply Hsf|].
    destruct (tq_isFull q); [by destruct H0; apply Hsf|done].
  - rewrite Hl. by eexists.
Qed.

Lemma TQueue_new_rep buffer bufSize :
  0 < bufSize < 32768 -> Z.of_nat (length buffer) = bufSize -> tq_rep (TQueue_new buffer bufSize) [].
Proof.
  intros Hs Hl. unfold TQueue_new. rewrite u16_id by (unw; lia). split; [|done].
  constructor; cbn; done || lia.
Qed.

(** Every run of operations on a new queue, in any order, pops on an empty
    queue and pushes on a full one included, stays inside the buffer and gives
    the outputs of a FIFO that holds at most [bufSize] elements and ignores
    what is pushed beyond. *)
Theorem tqueue_refines_fifo (buffer : list A) (bufSize : Z) (os : list op) :
  0 < bufSize < 32768 -> Z.of_nat (length buffer) = bufSize ->
  exists q, run os (TQueue_new buffer bufSize) = Ret (q, (spec_run bufSize os []).2) /\
    tq_rep q (spec_run bufSize os []).1.
Proof.
  intros Hs Hl. pose proof (TQueue_new_rep buffer bufSize Hs Hl) as Hr.
  assert (tq_msgBufferSize (TQueue_new buffer bufSize) = bufSize) as Hsz by (cbn; apply u16_id; unw; lia).
  revert Hr Hsz. generalize (TQueue_new buffer bufSize) (@nil A).
  induction os as [|o os IH]; intros q l Hr Hsz; cbn [run spec_run].
  { by eexists. }
  destruct (tq_run_op_refines o q l Hr) as (q1 & -> & Hr1 & Hs1). rewrite Hsz in *.
  cbn [mbind outcome_bind]. destruct (spec_op bufSize o l) as [l1 x]. cbn [fst snd] in *.
  destruct (IH q1 l1 Hr1 Hs1) as (q2 & -> & Hr2). destruct (spec_run bufSize os l1) as [l2 xs].
  by exists q2.
Qed.


End TQueue.
Arguments TQueue A : clear implicits.

Lemma tqueue_refines_fifo_witness :
  exists q, run [OpPush 1; OpPush 2; OpPush 3; OpFront; OpPop; OpPush 4; OpPop; OpFront; OpSize]
      (TQueue_new [0; 0] 2) =
    Ret (q, [OutUnit; OutUnit; OutUnit; OutFront (Some 1); OutUnit; OutUnit; OutUnit; OutFront (Some 4); OutSize 1]) /\
    tq_rep q [4].
Proof.
  apply (tqueue_refines_fifo [0; 0] 2
    [OpPush 1; OpPush 2; OpPush 3; OpFront; OpPop; OpPush 4; OpPop; OpFront; OpSize]); done.
Defined.
