(* ===== verification/TBuffer.v ===== *)
(** * Ring buffers ([TBuffer] of [inc/comm/tbuffer.h], [TBuffer_T] of [inc/comm/tbuffer_t.h])

    The two classes have the same operations over indices of different widths:
    the byte buffer uses [int16_t] indices and [uint16_t] counts, the template
    [int32_t] and [uint32_t]; and [TBuffer_T::write(c)] does not look whether the
    buffer is full.  The class [IndexWidth] states in what the two differ and
    what the operations need of it; they are written once against it. *)

From S2P Require Import Prelude Ring.

Class IndexWidth := {
  idx : Z -> Z;       (* conversion to the type of iread, iwrite and size *)
  cnt : Z -> Z;       (* conversion to the result type of free and dataSize *)
  rdn : Z -> Z;       (* conversion to the type of the local n1 of read *)
  cap : Z;            (* the largest size *)
  guarded : bool;     (* write(c) looks whether the buffer is full *)
  cap_u16 : cap < 65536;
  idx_id z : 0 <= z <= cap -> idx z = z;
  cnt_id z : 0 <= z <= cap -> cnt z = z;
  rdn_id z : 0 <= z <= cap -> rdn z = z;
}.

Lemma s16_index z : 0 <= z <= 32767 -> s16 z = z.
Proof. word_lia. Qed.
Lemma s32_index z : 0 <= z <= 65535 -> s32 z = z.
Proof. word_lia. Qed.
Lemma u16_index z : 0 <= z <= 32767 -> u16 z = z.
Proof. word_lia. Qed.
Lemma u32_index z : 0 <= z <= 65535 -> u32 z = z.
Proof. word_lia. Qed.

(** [TBuffer]: [int16_t], [uint16_t]. *)
#[export] Instance width_TBuffer : IndexWidth :=
  {| idx := s16; cnt := u16; rdn := u16; cap := 32767; guarded := true; cap_u16 := eq_refl;
     idx_id := s16_index; cnt_id := u16_index; rdn_id := u16_index |}.

(** [TBuffer_T]: [int32_t], [uint32_t]; the size argument is [uint16_t]. *)
Definition width_TBuffer_T : IndexWidth :=
  {| idx := s32; cnt := u32; rdn := s32; cap := 65535; guarded := false; cap_u16 := eq_refl;
     idx_id := s32_index; cnt_id := u32_index; rdn_id := s32_index |}.

Section TBuffer.
Context {A : Type} {W : IndexWidth}.

Record TBuffer := mkTBuffer {
  tb_buffer : list A;
  tb_size : Z;
  tb_iread : Z;
  tb_iwrite : Z;
  tb_full : bool;
}.

Definition incrementIRead (b : TBuffer) : TBuffer :=
  let r := idx (tb_iread b + 1) in
  let r := if bool_decide (r >= tb_size b) then 0 else r in
  mkTBuffer (tb_buffer b) (tb_size b) r (tb_iwrite b) false.

Definition incrementIWrite (b : TBuffer) : TBuffer :=
  let w := idx (tb_iwrite b + 1) in
  let w := if bool_decide (w >= tb_size b) then 0 else w in
  mkTBuffer (tb_buffer b) (tb_size b) (tb_iread b) w
    (if bool_decide (w = tb_iread b) then true else tb_full b).

Definition TBuffer_new (abuffer : list A) (asize : Z) : TBuffer :=
  mkTBuffer abuffer (idx asize) 0 0 false.

Definition TBuffer_len (abuffer : list A) (asize len : Z) : TBuffer :=
  mkTBuffer abuffer (idx asize) 0 (idx len) (bool_decide (len = asize)).

Definition flush (b : TBuffer) : TBuffer := mkTBuffer (tb_buffer b) (tb_size b) 0 0 false.

Definition free (b : TBuffer) : Z :=
  if tb_full b then 0
  else if bool_decide (tb_iread b > tb_iwrite b) then cnt (tb_iread b - tb_iwrite b - 1)
  else cnt (tb_size b + tb_iread b - tb_iwrite b - 1).

Definition dataSize (b : TBuffer) : Z :=
  if tb_full b then cnt (tb_size b)
  else if bool_decide (tb_iread b <= tb_iwrite b) then cnt (tb_iwrite b - tb_iread b)
  else cnt (tb_size b + tb_iwrite b - tb_iread b).

(** [buffer\[iwrite\] = c; incrementIWrite();] *)
Definition write_wo_check (c : A) (b : TBuffer) : outcome TBuffer :=
  m ← checked (wr (tb_buffer b) (tb_iwrite b) c);
  Ret (incrementIWrite (mkTBuffer m (tb_size b) (tb_iread b) (tb_iwrite b) (tb_full b))).

(** [write(c)]: [TBuffer] refuses when full, [TBuffer_T] does not look. *)
Definition write1 (c : A) (b : TBuffer) : outcome (TBuffer * Z) :=
  if tb_full b then Ret (b, 0) else b ← write_wo_check c b; Ret (b, 1).

Definition write1_T (c : A) (b : TBuffer) : outcome (TBuffer * Z) :=
  b ← write_wo_check c b; Ret (b, 1).

(** [write(c)] of the class. *)
Definition write_c (c : A) (b : TBuffer) : outcome (TBuffer * Z) :=
  if guarded then write1 c b else write1_T c b.

(** The copying part of [write(buf, n)] and the new [iwrite]. *)
Definition write_mem (buf : list A) (n1 : Z) (b : TBuffer) : outcome (list A * Z) :=
  if bool_decide (tb_iwrite b + n1 < tb_size b) then
    src ← checked (slice buf 0 n1);
    m ← checked (blit (tb_buffer b) (tb_iwrite b) src);
    Ret (m, idx (tb_iwrite b + n1))
  else
    let d := u16 (tb_size b - tb_iwrite b) in
    s1 ← checked (slice buf 0 d);
    m ← checked (blit (tb_buffer b) (tb_iwrite b) s1);
    s2 ← checked (slice buf d (n1 - d));
    m ← checked (blit m 0 s2);
    Ret (m, idx (n1 - d)).

(** [write(buf, n)] *)
Definition write (buf : list A) (n : Z) (b : TBuffer) : outcome (TBuffer * Z) :=
  let n1 := if bool_decide (free b > n) then n else u16 (free b) in
  '(m, w) ← write_mem buf n1 b;
  Ret (mkTBuffer m (tb_size b) (tb_iread b) w (if bool_decide (w = tb_iread b) then true else tb_full b), n1).

(** [read_wo_check()] *)
Definition read_wo_check (b : TBuffer) : outcome (TBuffer * A) :=
  c ← checked (rd (tb_buffer b) (tb_iread b));
  Ret (incrementIRead b, c).

(** [read()]; [zero] is the value 0 of the element type. *)
Definition read1 (zero : A) (b : TBuffer) : outcome (TBuffer * A) :=
  if bool_decide (dataSize b <> 0) then read_wo_check b else Ret (b, zero).

(** [read(buf, n)]: the elements stored at [buf]. *)
Definition read (n : Z) (b : TBuffer) : outcome (TBuffer * list A) :=
  let n1 := rdn (if bool_decide (dataSize b > n) then n else dataSize b) in
  '(out, r) ←
    (if bool_decide (tb_iread b + n1 < tb_size b) then
       o ← checked (slice (tb_buffer b) (tb_iread b) n1);
       Ret (o, idx (tb_iread b + n1))
     else
       let d := u16 (tb_size b - tb_iread b) in
       o1 ← checked (slice (tb_buffer b) (tb_iread b) d);
       o2 ← checked (slice (tb_buffer b) 0 (n1 - d));
       Ret (o1 ++ o2, idx (n1 - d)));
  Ret (mkTBuffer (tb_buffer b) (tb_size b) r (tb_iwrite b) false, out).

(** [TBufferWRandomAccess::get]: the element written [index] writes before
    the last one. *)
Definition get (index : Z) (b : TBuffer) : outcome A :=
  if bool_decide (tb_iwrite b >= index + 1)
  then checked (rd (tb_buffer b) (tb_iwrite b - index - 1))
  else checked (rd (tb_buffer b) (tb_size b - 1 - index + tb_iwrite b)).

(** ** Abstraction *)

Record tb_inv (b : TBuffer) : Prop := {
  tb_inv_size : 0 < tb_size b <= cap;
  tb_inv_buffer : Z.of_nat (length (tb_buffer b)) = tb_size b;
  tb_inv_iread : 0 <= tb_iread b < tb_size b;
  tb_inv_iwrite : 0 <= tb_iwrite b < tb_size b;
  tb_inv_full : tb_full b = true -> tb_iread b = tb_iwrite b;
}.

Definition contents (b : TBuffer) : list A :=
  ring (tb_buffer b) (Z.to_nat (tb_iread b)) (Z.to_nat (dataSize b)).

Definition tb_rep (b : TBuffer) (l : list A) : Prop := tb_inv b /\ contents b = l.

Lemma dataSize_range b :
  tb_inv b -> 0 <= dataSize b <= tb_size b /\ (dataSize b = tb_size b <-> tb_full b = true) /\
  dataSize b = (if tb_full b then tb_size b
                else if bool_decide (tb_iread b <= tb_iwrite b) then tb_iwrite b - tb_iread b
                else tb_size b + tb_iwrite b - tb_iread b).
Proof.
  intros [Hs Hb Hr Hw Hf]. unfold dataSize. destruct (tb_full b).
  - rewrite cnt_id by lia. split_and!; [lia|lia|tauto|done].
  - case_bool_decide; rewrite cnt_id by lia; (split_and!; [lia|lia| |done]; split; [lia|done]).
Qed.

Lemma free_eq b :
  tb_inv b -> free b = if tb_full b then 0 else tb_size b - dataSize b - 1.
Proof.
  intros Hi. destruct (dataSize_range b Hi) as (_ & _ & ->). destruct Hi as [Hs Hb Hr Hw Hf].
  unfold free. destruct (tb_full b); [done|]. repeat case_bool_decide; rewrite cnt_id by lia; lia.
Qed.

Lemma contents_length b : tb_inv b -> Z.of_nat (length (contents b)) = dataSize b.
Proof.
  intros Hi. destruct (dataSize_range b Hi) as (Hd & _). destruct Hi as [Hs Hb Hr Hw Hf].
  unfold contents. rewrite ring_length; lia.
Qed.

(** The write position is the ring position after the last element. *)
Lemma iwrite_pos b :
  tb_inv b -> tb_full b = false ->
  Z.to_nat (tb_iwrite b) = ring_pos (length (tb_buffer b)) (Z.to_nat (tb_iread b)) (Z.to_nat (dataSize b)).
Proof.
  intros Hi Hf. destruct (dataSize_range b Hi) as (_ & _ & ->). destruct Hi as [Hs Hb Hr Hw _].
  rewrite Hf. unfold ring_pos. repeat case_bool_decide; lia.
Qed.

Lemma write_wo_check_rep b l c :
  tb_rep b l -> tb_full b = false ->
  exists b', write_wo_check c b = Ret b' /\ tb_rep b' (l ++ [c]) /\ tb_size b' = tb_size b.
Proof.
  intros [Hi <-] Hf. pose proof (iwrite_pos b Hi Hf) as Hpos.
  destruct (dataSize_range b Hi) as (Hd & Hdf & Heq). pose proof Hi as [Hs Hb Hr Hw Hff].
  assert (dataSize b < tb_size b) as Hlt.
  { destruct (decide (dataSize b = tb_size b)) as [E|]; [apply Hdf in E; congruence|lia]. }
  unfold write_wo_check, wr. rewrite bool_decide_true by lia. cbn [checked mbind outcome_bind].
  set (b' := incrementIWrite _). exists b'.
  assert (tb_inv b') as Hi'.
  { subst b'. unfold incrementIWrite. cbn. rewrite idx_id by lia.
    constructor; cbn [tb_size tb_buffer tb_iread tb_iwrite tb_full]; try done.
    - by rewrite length_insert.
    - repeat case_bool_decide; lia.
    - clear Heq. case_bool_decide as E; congruence. }
  assert (dataSize b' = dataSize b + 1) as Hd'.
  { destruct (dataSize_range b' Hi') as (_ & _ & ->). rewrite Heq. subst b'. unfold incrementIWrite. cbn.
    rewrite idx_id by lia. rewrite Hf. clear Hpos Hdf Hlt Heq Hd. repeat case_bool_decide; lia. }
  split_and!; [done| |done]. split; [done|]. unfold contents. rewrite Hd'.
  cbn [tb_buffer tb_iread b' incrementIWrite].
  replace (Z.to_nat (dataSize b + 1)) with (S (Z.to_nat (dataSize b))) by lia.
  rewrite Hpos. apply ring_push; lia.
Qed.

Lemma write1_rep b l c :
  tb_rep b l -> exists b', write1 c b = Ret (b', if tb_full b then 0 else 1) /\
    tb_rep b' (if tb_full b then l else l ++ [c]) /\ tb_size b' = tb_size b.
Proof.
  intros Hr. unfold write1. destruct (tb_full b) eqn:Hf; [eauto|].
  destruct (write_wo_check_rep b l c Hr Hf) as (b' & -> & Hb'). eexists. split; [done|]. done.
Qed.

Lemma read1_rep b l zero :
  tb_rep b l -> exists b', read1 zero b = Ret (b', default zero (head l)) /\ tb_rep b' (tail l) /\
    tb_size b' = tb_size b.
Proof.
  intros [Hi <-]. destruct (dataSize_range b Hi) as (Hd & _ & _). pose proof Hi as [Hs Hb Hr Hw Hff].
  unfold read1. case_bool_decide as H0.
  - destruct (ring_pop (tb_buffer b) (Z.to_nat (tb_iread b)) (Z.to_nat (dataSize b - 1))) as (c & Hc & Hrest); [lia..|].
    unfold contents at 1 2. replace (Z.to_nat (dataSize b)) with (S (Z.to_nat (dataSize b - 1))) by lia.
    rewrite Hrest. unfold read_wo_check, rd. rewrite bool_decide_true by lia. rewrite Hc.
    cbn [checked mbind outcome_bind]. eexists. split; [done|]. split; [|done].
    assert (tb_inv (incrementIRead b)) as Hi'.
    { unfold incrementIRead. rewrite idx_id by lia. constructor; cbn; try done; case_bool_decide; lia. }
    split; [done|]. unfold contents. destruct (dataSize_range _ Hi') as (_ & _ & ->).
    unfold incrementIRead. cbn. rewrite idx_id by lia. f_equal.
    + unfold ring_pos. repeat case_bool_decide; lia.
    + destruct (dataSize_range b Hi) as (_ & _ & Heq). rewrite Heq in H0 |- *. clear Heq Hd. destruct (tb_full b); [specialize (Hff eq_refl)|]; repeat case_bool_decide; lia.
  - exists b. assert (contents b = []) as ->.
    { apply nil_length_inv. pose proof (contents_length b Hi). lia. }
    split; [done|]. split; [|done]. split; [done|].
    apply nil_length_inv. pose proof (contents_length b Hi). lia.
Qed.

Lemma write_mem_ok buf n1 b :
  tb_inv b -> 0 <= n1 < tb_size b -> n1 <= Z.of_nat (length buf) ->
  exists m w, write_mem buf n1 b = Ret (m, w) /\ length m = length (tb_buffer b) /\
    w = (if bool_decide (tb_iwrite b + n1 < tb_size b) then tb_iwrite b + n1
         else tb_iwrite b + n1 - tb_size b) /\
    (forall j : nat, (j < Z.to_nat n1)%nat ->
      m !! ring_pos (length (tb_buffer b)) (Z.to_nat (tb_iwrite b)) j = buf !! j) /\
    (forall i : nat, (i < length (tb_buffer b))%nat ->
      (forall j : nat, (j < Z.to_nat n1)%nat ->
         ring_pos (length (tb_buffer b)) (Z.to_nat (tb_iwrite b)) j <> i) ->
      m !! i = tb_buffer b !! i).
Proof.
  intros [Hs Hb Hr Hw _] Hn Hbuf. pose proof cap_u16. unfold write_mem. case_bool_decide as Hc.
  - rewrite slice_ok by lia. cbn [checked mbind outcome_bind]. rewrite drop_0.
    assert (length (take (Z.to_nat n1) buf) = Z.to_nat n1) as Hl by (rewrite length_take; lia).
    destruct (blit_ok (tb_buffer b) (tb_iwrite b) (take (Z.to_nat n1) buf)) as [m Hm]; [lia..|].
    rewrite Hm. cbn [checked mbind outcome_bind]. rewrite idx_id by lia. exists m, (tb_iwrite b + n1).
    split_and!; [done|by eapply blit_length|done|..].
    + intros j Hj. rewrite (blit_lookup _ _ _ _ _ Hm), Hl. unfold ring_pos.
      rewrite (bool_decide_true (_ < length _)%nat) by lia. rewrite bool_decide_true by lia.
      rewrite lookup_take_lt by lia. f_equal. lia.
    + intros i Hi Hne. rewrite (blit_lookup _ _ _ _ _ Hm), Hl. rewrite bool_decide_false; [done|].
      intros Hin. apply (Hne (i - Z.to_nat (tb_iwrite b))%nat); [lia|]. unfold ring_pos.
      case_bool_decide; lia.
  - rewrite u16_id by (unw; lia). set (d := tb_size b - tb_iwrite b).
    rewrite !slice_ok by lia. cbn [checked mbind outcome_bind]. rewrite drop_0.
    assert (length (take (Z.to_nat d) buf) = Z.to_nat d) as Hl by (rewrite length_take; lia).
    destruct (blit_ok (tb_buffer b) (tb_iwrite b) (take (Z.to_nat d) buf)) as [m1 Hm1]; [lia..|].
    rewrite Hm1. cbn [checked mbind outcome_bind]. pose proof (blit_length _ _ _ _ Hm1) as Hl1.
    set (s2 := take _ (drop _ buf)).
    assert (length s2 = Z.to_nat (n1 - d)) as Hl2 by (subst s2; rewrite length_take, length_drop; lia).
    destruct (blit_ok m1 0 s2) as [m Hm]; [lia..|].
    rewrite Hm. cbn [checked mbind outcome_bind]. pose proof (blit_length _ _ _ _ Hm).
    rewrite idx_id by lia. exists m, (n1 - d). split_and!; [done|lia|lia|..].
    + intros j Hj. rewrite (blit_lookup _ _ _ _ _ Hm), (blit_lookup _ _ _ _ _ Hm1), Hl, Hl2. unfold ring_pos.
      destruct (decide (Z.to_nat (tb_iwrite b) + j < length (tb_buffer b))%nat) as [Hj1|Hj1];
        [rewrite (bool_decide_true _ Hj1)|rewrite (bool_decide_false _ Hj1)].
      * rewrite bool_decide_false, bool_decide_true by lia. rewrite lookup_take_lt by lia. f_equal. lia.
      * rewrite bool_decide_true by lia. subst s2. rewrite lookup_take_lt by lia. rewrite lookup_drop. f_equal. lia.
    + intros i Hi Hne. rewrite (blit_lookup _ _ _ _ _ Hm), (blit_lookup _ _ _ _ _ Hm1), Hl, Hl2.
      assert (forall j, (j < Z.to_nat n1)%nat ->
        (if bool_decide (Z.to_nat (tb_iwrite b) + j < length (tb_buffer b))%nat then (Z.to_nat (tb_iwrite b) + j)%nat
         else (Z.to_nat (tb_iwrite b) + j - length (tb_buffer b))%nat) <> i) as Hne' by apply Hne.
      rewrite bool_decide_false.
      2: { intros Hin. apply (Hne' (i + Z.to_nat d)%nat); [lia|]. case_bool_decide; lia. }
      rewrite bool_decide_false; [done|].
      intros Hin. apply (Hne' (i - Z.to_nat (tb_iwrite b))%nat); [lia|]. case_bool_decide; lia.
Qed.

(** What a run of [read_wo_check] yields, whatever the flags and [iwrite]. *)
Record readable (b : TBuffer) (l : list A) : Prop := {
  rdb_size : 0 < tb_size b <= cap;
  rdb_buffer : Z.of_nat (length (tb_buffer b)) = tb_size b;
  rdb_iread : 0 <= tb_iread b < tb_size b;
  rdb_length : Z.of_nat (length l) <= tb_size b;
  rdb_ring : ring (tb_buffer b) (Z.to_nat (tb_iread b)) (length l) = l;
}.

Lemma read_wo_check_readable b c l :
  readable b (c :: l) -> exists b', read_wo_check b = Ret (b', c) /\ readable b' l.
Proof.
  intros [Hs Hb Hr Hl Hring]. cbn [length] in *.
  destruct (ring_pop (tb_buffer b) (Z.to_nat (tb_iread b)) (length l)) as (c' & Hc & Hpop); [lia..|].
  rewrite Hpop in Hring. injection Hring as -> Hring.
  unfold read_wo_check, rd. rewrite bool_decide_true by lia. rewrite Hc. cbn [checked mbind outcome_bind].
  eexists. split; [done|]. unfold incrementIRead. rewrite idx_id by lia.
  constructor; cbn [tb_size tb_buffer tb_iread]; try done; try lia.
  - case_bool_decide; lia.
  - rewrite <-Hring at 2. f_equal. unfold ring_pos. repeat case_bool_decide; lia.
Qed.

Lemma readable_rep b l : tb_rep b l -> readable b l.
Proof.
  intros [Hi Hc]. pose proof (contents_length b Hi) as Hl. rewrite Hc in Hl.
  destruct (dataSize_range b Hi) as (Hd & _). destruct Hi as [Hs Hb Hr Hw Hf].
  constructor; try done; [lia|]. unfold contents in Hc. by rewrite <-Hl, Nat2Z.id in Hc.
Qed.

(** A buffer made over an array of data by the two-argument constructor. *)
Lemma readable_new data :
  0 < Z.of_nat (length data) <= cap -> readable (TBuffer_new data (Z.of_nat (length data))) data.
Proof.
  intros Hl. unfold TBuffer_new. rewrite idx_id by lia. constructor; cbn [tb_size tb_buffer tb_iread]; try lia.
  unfold ring. rewrite drop_0, take_0, app_nil_r. by apply take_ge.
Qed.

(** [write(buf, n)]: as many elements as [free] allows; [n1] of them.  With
    [n1 = 0] on an empty buffer the flag [full] is set. *)
Lemma write_rep b l buf n :
  tb_rep b l -> 0 <= n <= Z.of_nat (length buf) -> n < 65536 ->
  let n1 := Z.min n (free b) in
  exists b', write buf n b = Ret (b', n1) /\ tb_inv b' /\ tb_size b' = tb_size b /\
    if bool_decide (n1 = 0 /\ l = []) then tb_full b' = true
    else tb_rep b' (l ++ take (Z.to_nat n1) buf).
Proof.
  intros [Hi <-] Hn Hn16 n1. pose proof (contents_length b Hi) as Hlen.
  pose proof (free_eq b Hi) as Hfree. pose proof (dataSize_range b Hi) as (Hd & Hdf & Heq).
  pose proof (cap_u16) as Hcap. pose proof Hi as [Hs Hb Hr Hw Hff].
  assert (0 <= free b < tb_size b) as Hfr.
  { rewrite Hfree. destruct (tb_full b) eqn:F; [lia|].
    assert (dataSize b <> tb_size b) by (intros E; apply Hdf in E; congruence). lia. }
  unfold write. replace (if bool_decide (free b > n) then n else u16 (free b)) with n1.
  2: { subst n1. rewrite u16_id by (unw; lia). clear Heq. case_bool_decide; lia. }
  destruct (write_mem_ok buf n1 b Hi) as (m & w & -> & Hm & Hwv & Hin & Hout); [lia..|].
  cbn [mbind outcome_bind]. set (b' := mkTBuffer _ _ _ _ _). exists b'.
  assert (tb_inv b') as Hi'.
  { subst b'. clear Heq. constructor; cbn [tb_size tb_buffer tb_iread tb_iwrite tb_full]; try done; [lia| |].
    - subst w. case_bool_decide; lia.
    - destruct (decide (w = tb_iread b)) as [E|E]; [by rewrite E|rewrite (bool_decide_false _ E)]. intros F. rewrite F in Hfree. specialize (Hff F).
      assert (n1 = 0) by lia. subst w. rewrite bool_decide_true in * by lia. lia. }
  split_and!; [done|done|done|].
  assert (contents b = [] <-> dataSize b = 0) as Hnil.
  { split; [intros E; rewrite E in Hlen; simpl in Hlen; lia|intros E; apply nil_length_inv; lia]. }
  destruct (decide (n1 = 0 /\ contents b = [])) as [[H1 H2]|Hne].
  { rewrite bool_decide_true by done. subst b'. cbn. apply Hnil in H2. rewrite H2 in Heq.
    rewrite bool_decide_true; [done|]. subst w. destruct (tb_full b); repeat case_bool_decide; lia. }
  rewrite bool_decide_false by done. split; [done|].
  assert (dataSize b' = dataSize b + n1) as Hd'.
  { destruct (dataSize_range b' Hi') as (_ & _ & ->). subst b'. cbn. rewrite Hnil in Hne. clear Hnil Hdf Hout Hin Hi'.
    destruct (tb_full b) eqn:F.
    - specialize (Hff eq_refl). assert (n1 = 0) as E by lia. rewrite E in *.
      assert (w = tb_iread b) as Ew by (subst w; rewrite bool_decide_true by lia; lia).
      rewrite Ew, bool_decide_true by done. lia.
    - repeat case_bool_decide; lia. }
  unfold contents. rewrite Hd'. cbn [tb_buffer tb_iread b'].
  apply ring_ext.
  - lia.
  - destruct (dataSize_range b' Hi') as ([_ ?] & _). rewrite Hd' in *. cbn in *. lia.
  - rewrite length_app, ring_length, length_take by lia. lia.
  - intros j Hj. rewrite Hm. destruct (tb_full b) eqn:F.
    { assert (n1 = 0) as E by lia. rewrite E, take_0, app_nil_r. rewrite ring_lookup by lia.
      rewrite Hout; [done|apply ring_pos_lt; lia|rewrite E; lia]. }
    pose proof (iwrite_pos b Hi F) as Hpos.
    destruct (decide (j < Z.to_nat (dataSize b))%nat) as [Hjd|Hjd].
    + rewrite lookup_app_l by (rewrite ring_length; lia). rewrite ring_lookup by lia.
      apply Hout; [apply ring_pos_lt; lia|]. intros k Hk Hcontra. rewrite Hpos, ring_pos_add in Hcontra by lia.
      apply ring_pos_inj in Hcontra; lia.
    + rewrite lookup_app_r; rewrite ring_length by lia; [|lia].
      rewrite lookup_take_lt by lia. rewrite <-Hin by lia. rewrite Hpos, ring_pos_add by lia. do 2 f_equal. lia.
Qed.

(** [read(buf, n)]: as many elements as there are.  On a full buffer a read of
    zero elements clears the flag [full]. *)
Lemma read_rep b l n :
  tb_rep b l -> 0 <= n <= cap ->
  let n1 := Z.min n (dataSize b) in
  exists b', read n b = Ret (b', take (Z.to_nat n1) l) /\ tb_inv b' /\ tb_size b' = tb_size b /\
    if bool_decide (n = 0 /\ tb_full b = true) then contents b' = []
    else tb_rep b' (drop (Z.to_nat n1) l).
Proof.
  intros [Hi <-] Hn n1. pose proof (contents_length b Hi) as Hlen.
  pose proof (dataSize_range b Hi) as (Hd & Hdf & Heq).
  pose proof (cap_u16) as Hcap. pose proof Hi as [Hs Hb Hr Hw Hff].
  unfold read. replace (if bool_decide (dataSize b > n) then n else dataSize b) with n1.
  2: { subst n1. clear Heq. case_bool_decide; lia. }
  rewrite rdn_id by lia.
  set (r := if bool_decide (tb_iread b + n1 < tb_size b) then tb_iread b + n1 else tb_iread b + n1 - tb_size b).
  assert (forall X (f : list A -> Z -> outcome X),
    ('(out, r) ← (if bool_decide (tb_iread b + n1 < tb_size b) then
       o ← checked (slice (tb_buffer b) (tb_iread b) n1); Ret (o, idx (tb_iread b + n1))
     else
       let d := u16 (tb_size b - tb_iread b) in
       o1 ← checked (slice (tb_buffer b) (tb_iread b) d);
       o2 ← checked (slice (tb_buffer b) 0 (n1 - d));
       Ret (o1 ++ o2, idx (n1 - d))); f out r) = f (take (Z.to_nat n1) (contents b)) r) as ->.
  { intros X f. unfold contents, r. rewrite ring_take by lia. clear Heq.
    destruct (decide (tb_iread b + n1 < tb_size b)) as [Hc|Hc].
    - rewrite !bool_decide_true by lia. rewrite slice_ok by lia. cbn [checked mbind outcome_bind].
      rewrite idx_id by lia. done.
    - rewrite !bool_decide_false by lia. rewrite u16_id by (unw; lia). rewrite !slice_ok by lia.
      cbn [checked mbind outcome_bind]. rewrite idx_id, drop_0 by lia. f_equal; [|lia].
      rewrite take_ge by (rewrite length_drop; lia). do 2 f_equal. lia. }
  set (b' := mkTBuffer _ _ _ _ _). exists b'.
  assert (tb_inv b') as Hi'.
  { subst b' r. clear Heq. constructor; cbn; try done. case_bool_decide; lia. }
  split_and!; [done|done|done|].
  assert (Z.to_nat r = ring_pos (length (tb_buffer b)) (Z.to_nat (tb_iread b)) (Z.to_nat n1)) as Hrp.
  { subst r. clear Heq. unfold ring_pos. repeat case_bool_decide; lia. }
  assert (dataSize b' = (if bool_decide (n = 0 /\ tb_full b = true) then 0 else dataSize b - n1)) as Hd'.
  { destruct (dataSize_range b' Hi') as (_ & _ & ->). subst b'. cbn. clear Hrp Hi' Hdf.
    destruct (tb_full b) eqn:F.
    - specialize (Hff eq_refl). rewrite Heq in *. destruct (decide (n = 0)) as [->|Hn0].
      + rewrite (bool_decide_true (0 = 0 /\ _)) by done. subst r n1. repeat case_bool_decide; lia.
      + rewrite (bool_decide_false (n = 0 /\ _)) by naive_solver. subst r n1. repeat case_bool_decide; lia.
    - rewrite (bool_decide_false (n = 0 /\ _)) by naive_solver. subst r n1. repeat case_bool_decide; lia. }
  case_bool_decide as Hz.
  - unfold contents. by rewrite Hd'.
  - split; [done|]. unfold contents. rewrite Hd'. cbn [tb_buffer tb_iread b']. rewrite Hrp.
    rewrite <-ring_drop by lia. f_equal. lia.
Qed.

Lemma flush_rep b l : tb_rep b l -> tb_rep (flush b) [] /\ tb_size (flush b) = tb_size b.
Proof.
  intros [[Hs Hb Hr Hw _] _]. split; [|done].
  assert (tb_inv (flush b)) as Hi by (constructor; cbn; lia || done).
  split; [done|]. unfold contents. destruct (dataSize_range _ Hi) as (_ & _ & ->). done.
Qed.

Lemma TBuffer_new_rep buf size :
  0 < size <= cap -> Z.of_nat (length buf) = size -> tb_rep (TBuffer_new buf size) [].
Proof.
  intros Hs Hl. assert (tb_inv (TBuffer_new buf size)) as Hi.
  { unfold TBuffer_new. rewrite idx_id by lia. constructor; cbn; lia || done. }
  split; [done|]. unfold contents. destruct (dataSize_range _ Hi) as (_ & _ & ->). done.
Qed.

(** ** Refinement

    Runs of operations, against a FIFO of [size] elements that keeps one
    element free in block writes. *)

Inductive op :=
  OpWrite (c : A) | OpWriteBlock (buf : list A) (n : Z) | OpRead | OpReadBlock (n : Z) | OpFlush
| OpFree | OpDataSize.
Inductive output := OutN (n : Z) | OutElem (c : A) | OutBlock (l : list A) | OutUnit.

Variable zero : A.

Definition run_op (o : op) (b : TBuffer) : outcome (TBuffer * output) :=
  match o with
  | OpWrite c => '(b, n) ← write_c c b; Ret (b, OutN n)
  | OpWriteBlock buf n => '(b, n) ← write buf n b; Ret (b, OutN n)
  | OpRead => '(b, c) ← read1 zero b; Ret (b, OutElem c)
  | OpReadBlock n => '(b, l) ← read n b; Ret (b, OutBlock l)
  | OpFlush => Ret (flush b, OutUnit)
  | OpFree => Ret (b, OutN (free b))
  | OpDataSize => Ret (b, OutN (dataSize b))
  end.

Definition spec_free (size : Z) (l : list A) : Z := Z.max 0 (size - Z.of_nat (length l) - 1).

Definition spec_op (size : Z) (o : op) (l : list A) : list A * output :=
  let len := Z.of_nat (length l) in
  match o with
  | OpWrite c => if bool_decide (len < size) then (l ++ [c], OutN 1) else (l, OutN 0)
  | OpWriteBlock buf n =>
      let n1 := Z.min n (spec_free size l) in (l ++ take (Z.to_nat n1) buf, OutN n1)
  | OpRead => (tail l, OutElem (default zero (head l)))
  | OpReadBlock n => (drop (Z.to_nat n) l, OutBlock (take (Z.to_nat n) l))
  | OpFlush => ([], OutUnit)
  | OpFree => (l, OutN (spec_free size l))
  | OpDataSize => (l, OutN len)
  end.

(** The arguments are in range, no transfer of zero elements happens on an
    empty buffer (write) or a full one (read), and [TBuffer_T::write(c)] is not
    called on a full one. *)
Definition op_ok (size : Z) (o : op) (l : list A) : Prop :=
  match o with
  | OpWrite _ => guarded = true \/ Z.of_nat (length l) < size
  | OpWriteBlock buf n => 0 <= n <= Z.of_nat (length buf) /\ n < 65536 /\
      (l = [] -> 0 < n /\ 1 < size)
  | OpReadBlock n => 0 <= n <= cap /\ (Z.of_nat (length l) = size -> 0 < n)
  | _ => True
  end.

Fixpoint run (os : list op) (b : TBuffer) : outcome (TBuffer * list output) :=
  match os with
  | [] => Ret (b, [])
  | o :: os => '(b, x) ← run_op o b; '(b, xs) ← run os b; Ret (b, x :: xs)
  end.

Fixpoint spec_run (size : Z) (os : list op) (l : list A) : list A * list output :=
  match os with
  | [] => (l, [])
  | o :: os =>
      let '(l, x) := spec_op size o l in let '(l, xs) := spec_run size os l in (l, x :: xs)
  end.

Fixpoint run_ok (size : Z) (os : list op) (l : list A) : Prop :=
  match os with
  | [] => True
  | o :: os => op_ok size o l /\ run_ok size os (spec_op size o l).1
  end.

Lemma run_op_refines o b l :
  tb_rep b l -> op_ok (tb_size b) o l ->
  exists b', run_op o b = Ret (b', (spec_op (tb_size b) o l).2) /\
    tb_rep b' (spec_op (tb_size b) o l).1 /\ tb_size b' = tb_size b.
Proof.
  intros Hr Hok. pose proof Hr as [Hi Hc]. pose proof (contents_length b Hi) as Hlen. rewrite Hc in Hlen.
  destruct (dataSize_range b Hi) as (Hd & Hdf & _). pose proof (tb_inv_size b Hi) as Hs.
  assert (free b = spec_free (tb_size b) l) as Hfree.
  { rewrite (free_eq b Hi). unfold spec_free. destruct (tb_full b) eqn:F; [destruct Hdf as [_ Hdf]; specialize (Hdf eq_refl); lia|].
    assert (dataSize b <> tb_size b) by (intros E; apply Hdf in E; congruence). lia. }
  destruct o as [c|buf n| |n| | |]; cbn [run_op spec_op op_ok fst snd] in *.
  - destruct (write1_rep b l c Hr) as (b' & Ew & Hb' & Hs').
    assert (write_c c b = write1 c b) as ->.
    { unfold write_c. destruct guarded; [done|]. destruct Hok as [?|Hok]; [done|]. unfold write1, write1_T.
      destruct (tb_full b); [|done]. destruct Hdf as [_ Hdf]; specialize (Hdf eq_refl). lia. }
    rewrite Ew. exists b'. cbn [mbind outcome_bind]. destruct (tb_full b) eqn:F.
    + rewrite bool_decide_false by (destruct Hdf as [_ Hdf]; specialize (Hdf eq_refl); lia). done.
    + rewrite bool_decide_true; [done|].
      assert (dataSize b <> tb_size b) by (intros E; apply Hdf in E; congruence). lia.
  - destruct Hok as (Hn & Hn16 & Hne). destruct (write_rep b l buf n Hr Hn Hn16) as (b' & -> & Hi' & Hs' & Hb').
    exists b'. cbn [mbind outcome_bind]. rewrite Hfree in *. split_and!; [done| |done].
    rewrite bool_decide_false in Hb'; [done|]. intros [H0 ->]. destruct Hne as [? ?]; [done|].
    unfold spec_free in H0. cbn in H0. lia.
  - destruct (read1_rep b l zero Hr) as (b' & -> & Hb' & Hs'). exists b'. done.
  - destruct Hok as (Hn & Hnz). destruct (read_rep b l n Hr Hn) as (b' & -> & Hi' & Hs' & Hb').
    exists b'. cbn [mbind outcome_bind]. rewrite bool_decide_false in Hb'.
    2: { intros [-> F]. apply Hdf in F. lia. }
    destruct (decide (n <= dataSize b)) as [Hle|Hle].
    + rewrite Z.min_l in * by lia. done.
    + rewrite Z.min_r in Hb' by lia. rewrite drop_ge in Hb' by lia.
      rewrite Z.min_r, !(take_ge l), (drop_ge l) by lia. done.
  - exists (flush b). split; [done|]. by apply (flush_rep b l).
  - exists b. by rewrite Hfree.
  - exists b. by rewrite Hlen.
Qed.

Lemma run_refines os b l :
  tb_rep b l -> run_ok (tb_size b) os l ->
  exists b', run os b = Ret (b', (spec_run (tb_size b) os l).2) /\ tb_rep b' (spec_run (tb_size b) os l).1 /\ tb_size b' = tb_size b.
Proof.
  revert b l. induction os as [|o os IH]; intros b l Hr Hok; cbn [run spec_run].
  { by exists b. }
  destruct Hok as [Ho Hos]. destruct (run_op_refines o b l Hr Ho) as (b1 & -> & Hr1 & Hs1).
  cbn [mbind outcome_bind]. destruct (spec_op (tb_size b) o l) as [l1 x]. cbn [fst snd] in *.
  rewrite <-Hs1 in *. destruct (IH b1 l1 Hr1 Hos) as (b2 & -> & Hr2 & Hs2).
  destruct (spec_run (tb_size b1) os l1) as [l2 xs]. by exists b2.
Qed.

(** What [TBuffer_T::write(c)] makes of a full buffer: [c] takes the place of
    the oldest element and comes out first, and with it everything behind it is
    lost. *)
Lemma write_full b l c : tb_rep b l -> Z.of_nat (length l) = tb_size b -> 1 < tb_size b ->
  exists b1 b2, write1_T c b = Ret (b1, 1) /\ dataSize b1 = tb_size b /\ read1 zero b1 = Ret (b2, c) /\ dataSize b2 = 0.
Proof.
  intros [Hi Hc] Hl Hs1. pose proof (contents_length b Hi) as Hlen. rewrite Hc in Hlen.
  destruct (dataSize_range b Hi) as (Hd & Hdf & _). assert (tb_full b = true) as Hf by (apply Hdf; lia).
  destruct Hi as [Hs Hb Hr Hw Hff]. specialize (Hff Hf). unfold write1_T, write_wo_check, wr.
  rewrite bool_decide_true by lia. cbn [checked mbind outcome_bind]. unfold incrementIWrite. cbn [tb_iwrite tb_size tb_iread tb_full tb_buffer].
  rewrite idx_id by lia. set (w := if bool_decide (tb_iwrite b + 1 >= tb_size b) then 0 else tb_iwrite b + 1).
  assert (w <> tb_iread b) as Hne by (subst w; case_bool_decide; lia). rewrite (bool_decide_false (w = _)) by done.
  set (b1 := mkTBuffer _ _ _ _ _). assert (dataSize b1 = tb_size b) as Hd1.
  { subst b1. unfold dataSize. cbn. rewrite Hf. apply cnt_id. lia. }
  exists b1. eexists. split; [done|]. split; [done|]. unfold read1. rewrite Hd1, (bool_decide_true (tb_size b <> 0)) by lia.
  unfold read_wo_check, rd. subst b1. cbn [tb_buffer tb_iread]. rewrite bool_decide_true, Hff by lia.
  rewrite list_lookup_insert_eq by lia. cbn [checked mbind outcome_bind]. split; [done|].
  unfold incrementIRead, dataSize. cbn [tb_buffer tb_iread tb_size tb_iwrite tb_full]. rewrite idx_id by lia. fold w.
  rewrite bool_decide_true, Z.sub_diag by lia. apply cnt_id. lia.
Qed.

(** What the calls that [op_ok] excludes make of a buffer that holds [l]:
    a block write that takes no element makes an empty buffer full, a block read
    of no element makes a full one empty, and [TBuffer_T::write(c)] on a full
    one loses all its elements. *)
Definition breaks (b : TBuffer) (l : list A) : Prop :=
  (l = [] -> forall src n, 0 <= n <= Z.of_nat (length src) -> n < 65536 -> n = 0 \/ tb_size b = 1 ->
     exists b', write src n b = Ret (b', 0) /\ dataSize b' = tb_size b /\ free b' = 0) /\
  (Z.of_nat (length l) = tb_size b -> exists b', read 0 b = Ret (b', []) /\ dataSize b' = 0) /\
  (Z.of_nat (length l) = tb_size b -> guarded = false -> 1 < tb_size b -> forall c, exists b1 b2,
     write_c c b = Ret (b1, 1) /\ dataSize b1 = tb_size b /\ read1 zero b1 = Ret (b2, c) /\ dataSize b2 = 0).

Lemma zero_write_full (b : TBuffer) (buf : list A) (n : Z) :
  tb_rep b [] -> 0 <= n <= Z.of_nat (length buf) -> n < 65536 -> n = 0 \/ tb_size b = 1 ->
  exists b', write buf n b = Ret (b', 0) /\ dataSize b' = tb_size b /\ free b' = 0 /\ tb_full b' = true.
Proof.
  intros Hr Hn Hn16 H0. pose proof Hr as [Hi Hc]. pose proof (tb_inv_size b Hi) as Hs.
  pose proof (contents_length b Hi) as Hlen. rewrite Hc in Hlen.
  assert (free b = tb_size b - 1) as Hf.
  { rewrite (free_eq b Hi). destruct (dataSize_range b Hi) as (Hd & Hdf & _). cbn in Hlen. destruct (tb_full b); [|lia].
    destruct Hdf as [_ Hdf]. specialize (Hdf eq_refl). lia. }
  destruct (write_rep b [] buf n Hr Hn Hn16) as (b' & Hw & Hi' & Hs' & Hb'). rewrite Hf in *.
  assert (Z.min n (tb_size b - 1) = 0) as E by lia. rewrite E in *. rewrite bool_decide_true in Hb' by done.
  exists b'. split; [done|]. destruct (dataSize_range b' Hi') as (_ & _ & Heq). rewrite Hb' in Heq.
  split_and!; [congruence|by rewrite (free_eq b' Hi'), Hb'|done].
Qed.

Lemma zero_read_empty (b : TBuffer) (l : list A) :
  tb_rep b l -> Z.of_nat (length l) = tb_size b -> exists b', read 0 b = Ret (b', []) /\ dataSize b' = 0.
Proof.
  intros Hr Hl. pose proof Hr as [Hi Hc]. pose proof (tb_inv_size b Hi) as Hs. pose proof cap_u16.
  destruct (read_rep b l 0 Hr) as (b' & Hrd & Hi' & Hs' & Hb'); [lia|].
  pose proof (contents_length b Hi) as Hlen. rewrite Hc in Hlen.
  rewrite Z.min_l in * by lia. rewrite bool_decide_true in Hb'.
  2: { split; [done|]. apply (dataSize_range b Hi). lia. }
  exists b'. split; [done|]. pose proof (contents_length b' Hi') as Hlen'. rewrite Hb' in Hlen'. done.
Qed.

Lemma rep_breaks b l : tb_rep b l -> breaks b l.
Proof.
  intros Hr. split_and!.
  - intros -> src n Hn Hn16 H0. destruct (zero_write_full b src n Hr Hn Hn16 H0) as (b' & ? & ? & ? & _). eauto.
  - by apply zero_read_empty.
  - intros Hl Hg Hs c. unfold write_c. rewrite Hg. by apply (write_full b l).
Qed.

(** C34: Runs of operations on a new buffer, of either class and of any size up
    to the largest, stay inside the array and give the outputs of a FIFO: single
    writes fill it to the last element, block writes leave one element free,
    reads take the oldest elements.  Three calls are outside the contract, and
    [run_ok] excludes them: a block write of which no element is taken on an
    empty buffer, a block read of no element on a full one, and the single
    write of [TBuffer_T], which has no check, on a full one.  After any such run
    each of them breaks the buffer: the first makes it full, the second empty,
    and with the third the new element comes out first and all others are
    lost. *)
Theorem tbuffer_refines_fifo (buf : list A) (size : Z) (os : list op) :
  0 < size <= cap -> Z.of_nat (length buf) = size -> run_ok size os [] ->
  exists b, run os (TBuffer_new buf size) = Ret (b, (spec_run size os []).2) /\
    tb_rep b (spec_run size os []).1 /\ tb_size b = size /\ breaks b (spec_run size os []).1.
Proof.
  intros Hs Hl Hok. assert (tb_size (TBuffer_new buf size) = size) as Hsz by (cbn; by apply idx_id; lia).
  pose proof (run_refines os (TBuffer_new buf size) [] (TBuffer_new_rep buf size Hs Hl)) as H.
  rewrite Hsz in H. destruct (H Hok) as (b & E & Hr & Hb). exists b. split_and!; try done. by apply rep_breaks.
Qed.

End TBuffer.
Arguments TBuffer A : clear implicits.

Definition buffer4 : TBuffer Z := TBuffer_new [0; 0; 0; 0] 4.

Definition some_ops : list (op (A := Z)) :=
  [OpWriteBlock [1; 2; 3; 4] 4; OpRead; OpWriteBlock [5; 6] 2; OpWrite 7; OpWrite 8; OpReadBlock 3; OpDataSize].
Definition some_ops_T : list (op (A := Z)) := [OpWriteBlock [1; 2; 3; 4] 4; OpWrite 7].

(** A run of each class; the write to the full [TBuffer_T] that follows the
    second loses what it holds. *)
Lemma tbuffer_refines_fifo_witness :
  (exists b, run 0 some_ops buffer4 =
    Ret (b, [OutN 3; OutElem 1; OutN 1; OutN 1; OutN 0; OutBlock [2; 3; 5]; OutN 1]) /\ tb_rep b [7]) /\
  exists b b1 b2, run (W := width_TBuffer_T) 0 some_ops_T (TBuffer_new (W := width_TBuffer_T) [0; 0; 0; 0] 4) = Ret (b, [OutN 3; OutN 1]) /\
    write_c (W := width_TBuffer_T) 8 b = Ret (b1, 1) /\ read1 (W := width_TBuffer_T) 0 b1 = Ret (b2, 8) /\ dataSize (W := width_TBuffer_T) b2 = 0.
Proof.
  split.
  - destruct (tbuffer_refines_fifo 0 [0; 0; 0; 0] 4 some_ops) as (b & E & Hr & _); [done|done| |exists b; split; [exact E|exact Hr]].
    cbn. repeat split; try lia; try done; by left.
  - destruct (tbuffer_refines_fifo (W := width_TBuffer_T) 0 [0; 0; 0; 0] 4 some_ops_T) as (b & E & _ & Hs & _ & _ & Hb); [done|done| |].
    { cbn. repeat split; try lia; try done; by right. }
    destruct (Hb ltac:(by rewrite Hs) ltac:(done) ltac:(by rewrite Hs) 8) as (b1 & b2 & W1 & _ & W2 & W3).
    exists b, b1, b2. split; [exact E|]. by split_and!.
Defined.
