(* ===== verification/BuffersPool.v ===== *)
(** * Pool of static buffers ([TBuffersPool] of [inc/udp_io/tbufferspool.h])

    A buffer is named by its address. *)

From S2P Require Import Prelude.

Definition kStFree : Z := 0.
Definition kStBusy : Z := 1.

Record TBuffersPool := mkPool {
  pool_buffers : list Z;    (* the addresses *)
  pool_state : list Z;      (* uint8_t per buffer *)
  pool_freeN : Z;           (* uint16_t *)
}.

(** [size] is the length of the two arrays. *)
Definition pool_size (p : TBuffersPool) : Z := Z.of_nat (length (pool_buffers p)).

Definition reset (p : TBuffersPool) : TBuffersPool :=
  mkPool (pool_buffers p) (replicate (length (pool_buffers p)) kStFree) (u16 (pool_size p)).

Definition TBuffersPool_new (abuffers : list Z) : TBuffersPool := reset (mkPool abuffers [] 0).

Definition free (p : TBuffersPool) : Z := pool_freeN p.
Definition capacity (p : TBuffersPool) : Z := pool_size p.

(** The loop of [get]: the first index whose state is free. *)
Fixpoint find_free (state : list Z) (i : nat) : option nat :=
  match state with
  | [] => None
  | s :: state => if bool_decide (s = kStFree) then Some i else find_free state (S i)
  end.

(** [get]: the address, or null. *)
Definition get (p : TBuffersPool) : outcome (TBuffersPool * option Z) :=
  if bool_decide (pool_freeN p = 0) then Ret (p, None)
  else
    match find_free (pool_state p) 0 with
    | Some i =>
        st ← checked (wr (pool_state p) (Z.of_nat i) kStBusy);
        b ← checked (rd (pool_buffers p) (Z.of_nat i));
        Ret (mkPool (pool_buffers p) st (u16 (pool_freeN p - 1)), Some b)
    | None => Ret (mkPool (pool_buffers p) (pool_state p) 0, None)
    end.

(** The loop of [release]: the first index that holds the address. *)
Fixpoint find_buffer (buffers : list Z) (b : Z) (i : nat) : option nat :=
  match buffers with
  | [] => None
  | x :: buffers => if bool_decide (x = b) then Some i else find_buffer buffers b (S i)
  end.

Definition release (b : Z) (p : TBuffersPool) : outcome TBuffersPool :=
  match find_buffer (pool_buffers p) b 0 with
  | Some i =>
      st ← checked (wr (pool_state p) (Z.of_nat i) kStFree);
      Ret (mkPool (pool_buffers p) st
        (if bool_decide (pool_freeN p < pool_size p) then u16 (pool_freeN p + 1) else pool_freeN p))
  | None => Ret p
  end.

(** ** Invariant

    The counter may exceed the number of free buffers (a release of a buffer
    that is already free counts once more) but never falls below it. *)

Definition is_free (p : TBuffersPool) (b : Z) : Prop :=
  exists i : nat, pool_buffers p !! i = Some b /\ pool_state p !! i = Some kStFree.

Definition free_count (st : list Z) : nat := length (filter (fun s => s = kStFree) st).
#[local] Arguments free_count : simpl never.

Record pool_inv (p : TBuffersPool) : Prop := {
  pi_nodup : NoDup (pool_buffers p);
  pi_state : length (pool_state p) = length (pool_buffers p);
  pi_size : pool_size p < 65536;
  pi_states : Forall (fun s => s = kStFree \/ s = kStBusy) (pool_state p);
  pi_freeN : Z.of_nat (free_count (pool_state p)) <= pool_freeN p <= pool_size p;
}.

Lemma find_free_spec st k :
  match find_free st k with
  | Some i => exists j, i = (k + j)%nat /\ st !! j = Some kStFree /\ forall j', (j' < j)%nat -> st !! j' <> Some kStFree
  | None => Forall (fun s => s <> kStFree) st
  end.
Proof.
  revert k. induction st as [|s st IH]; intros k; simpl; [done|].
  case_bool_decide as Hs.
  - exists 0%nat. split_and!; [lia|by subst|lia].
  - specialize (IH (S k)). destruct (find_free st (S k)) as [i|].
    + destruct IH as (j & -> & Hj & Hmin). exists (S j). split_and!; [lia|done|].
      intros [|j'] Hlt; simpl; [congruence|]. apply Hmin. lia.
    + by constructor.
Qed.

Lemma find_buffer_spec bs b k :
  NoDup bs ->
  match find_buffer bs b k with
  | Some i => exists j, i = (k + j)%nat /\ bs !! j = Some b
  | None => b ∉ bs
  end.
Proof.
  intros Hnd. revert k. induction Hnd as [|x bs Hx Hnd IH]; intros k; simpl; [apply not_elem_of_nil|].
  case_bool_decide as Hs.
  - exists 0%nat. split; [lia|by subst].
  - specialize (IH (S k)). destruct (find_buffer bs b (S k)) as [i|].
    + destruct IH as (j & -> & Hj). exists (S j). split; [lia|done].
    + apply not_elem_of_cons. split; [congruence|done].
Qed.

Lemma free_count_insert st i s :
  (i < length st)%nat -> s = kStFree \/ s = kStBusy -> Forall (fun s => s = kStFree \/ s = kStBusy) st ->
  Z.of_nat (free_count (<[i := s]> st)) =
    Z.of_nat (free_count st) + (if bool_decide (s = kStFree) then 1 else 0)
      - (if bool_decide (st !! i = Some kStFree) then 1 else 0).
Proof.
  intros Hi _ _. unfold free_count. revert i Hi. induction st as [|x st IH]; intros i Hi; simpl in *; [lia|].
  destruct i as [|i]; simpl.
  - rewrite !filter_cons. repeat case_bool_decide; repeat case_decide; simpl; try lia; naive_solver.
  - specialize (IH i ltac:(lia)). rewrite !filter_cons. destruct (decide (x = kStFree)); cbn [length]; rewrite ?Nat2Z.inj_succ; lia.
Qed.

Lemma free_count_zero st : free_count st = 0%nat -> Forall (fun s => s <> kStFree) st.
Proof.
  unfold free_count. induction st as [|x st IH]; intros H; [done|]. rewrite filter_cons in H.
  case_decide; [done|]. constructor; auto.
Qed.

Lemma free_count_none st : Forall (fun s => s <> kStFree) st -> free_count st = 0%nat.
Proof.
  unfold free_count. induction 1 as [|x st Hx _ IH]; [done|]. rewrite filter_cons. by case_decide.
Qed.

Lemma free_count_le st : (free_count st <= length st)%nat.
Proof. unfold free_count. apply length_filter. Qed.

Lemma TBuffersPool_new_inv bs : NoDup bs -> Z.of_nat (length bs) < 65536 -> pool_inv (TBuffersPool_new bs).
Proof.
  intros Hnd Hs. constructor; cbn; rewrite ?length_replicate; try done.
  - apply Forall_replicate. by left.
  - unfold pool_size. cbn. rewrite u16_id by (unw; lia).
    pose proof (free_count_le (replicate (length bs) kStFree)). rewrite length_replicate in *. unfold free_count in *. lia.
Qed.

(** The pool hands out each buffer once and never misses one.  [get]
    answers null exactly when no buffer is free; otherwise it answers a free
    buffer, which is then the only one whose state changed, to busy. *)
Theorem get_complete (p : TBuffersPool) :
  pool_inv p -> exists p' r, get p = Ret (p', r) /\ pool_inv p' /\ pool_buffers p' = pool_buffers p /\
    match r with
    | None => (forall b, ~ is_free p b) /\ (forall b, ~ is_free p' b)
    | Some b => is_free p b /\ ~ is_free p' b /\ forall b', b' <> b -> is_free p' b' <-> is_free p b'
    end.
Proof.
  intros Hi. pose proof Hi as [Hnd Hst Hsz Hsts Hn]. unfold pool_size in *.
  assert (Forall (fun s => s <> kStFree) (pool_state p) -> forall b, ~ is_free p b) as Hnone.
  { intros HF b (i & _ & Hs). rewrite Forall_lookup in HF. by eapply HF. }
  unfold get. case_bool_decide as H0.
  { exists p, None. assert (forall b, ~ is_free p b) by (apply Hnone, free_count_zero; lia). done. }
  pose proof (find_free_spec (pool_state p) 0) as Hf. destruct (find_free (pool_state p) 0) as [i|].
  - destruct Hf as (j & -> & Hj & _). change (0 + j)%nat with j.
    pose proof (lookup_lt_Some _ _ _ Hj) as Hlt.
    destruct (lookup_lt_is_Some_2 (pool_buffers p) j) as [b Hb]; [lia|].
    rewrite wr_nat, rd_nat, Hb by lia. cbn [checked mbind outcome_bind].
    pose proof (free_count_insert (pool_state p) j kStBusy Hlt (or_intror eq_refl) Hsts) as Hc.
    rewrite (bool_decide_true _ Hj), bool_decide_false in Hc by done.
    eexists _, (Some b). split; [done|]. split; [|split; [done|]].
    + constructor; cbn; rewrite ?length_insert; try done.
      * apply Forall_insert; auto.
      * unfold pool_size. cbn. rewrite u16_id by (unw; lia). lia.
    + split_and!.
      * by exists j.
      * intros (i & Hi1 & Hi2). cbn in *. assert (i = j) as -> by (by eapply NoDup_lookup).
        by rewrite list_lookup_insert_eq in Hi2 by lia.
      * intros b' Hne. unfold is_free. cbn. split; intros (i & Hi1 & Hi2); exists i; (split; [done|]).
        -- rewrite list_lookup_insert_ne in Hi2; [done|]. intros ->. congruence.
        -- rewrite list_lookup_insert_ne; [done|]. intros ->. congruence.
  - eexists _, None. split; [done|]. split; [|split; [done|]].
    + constructor; cbn; try done. unfold pool_size. cbn.
      rewrite (free_count_none _ Hf). lia.
    + pose proof (Hnone Hf) as Hn'. split; [done|]. intros b (i & Hi1 & Hi2). apply (Hn' b). by exists i.
Qed.

Definition pool3 : TBuffersPool := TBuffersPool_new [0x1000; 0x2000; 0x3000].

Lemma get_complete_witness : exists p' r, get pool3 = Ret (p', r) /\ pool_inv p' /\ pool_buffers p' = [0x1000; 0x2000; 0x3000] /\
  match r with
  | None => (forall b, ~ is_free pool3 b) /\ (forall b, ~ is_free p' b)
  | Some b => is_free pool3 b /\ ~ is_free p' b /\ forall b', b' <> b -> is_free p' b' <-> is_free pool3 b'
  end.
Proof.
  apply (get_complete pool3). apply TBuffersPool_new_inv; [|done].
  by apply (bool_decide_unpack _).
Defined.

(** [release] of a buffer of the pool makes it free and changes the
    state of no other; of any other address it changes nothing.  The counter
    [freeN] stays at or above the number of free buffers; it is equal to it
    afterwards when it was before and the buffer was busy. *)
Theorem release_spec (p : TBuffersPool) (b : Z) :
  pool_inv p ->
  exists p', release b p = Ret p' /\ pool_inv p' /\ pool_buffers p' = pool_buffers p /\
    (b ∉ pool_buffers p -> p' = p) /\
    (b ∈ pool_buffers p -> is_free p' b /\ (forall b', b' <> b -> is_free p' b' <-> is_free p b') /\
       (~ is_free p b -> free p = Z.of_nat (free_count (pool_state p)) ->
        free p' = Z.of_nat (free_count (pool_state p')) /\ free p' = free p + 1)).
Proof.
  intros Hi. pose proof Hi as [Hnd Hst Hsz Hsts Hn]. unfold pool_size in *.
  unfold release. pose proof (find_buffer_spec (pool_buffers p) b 0 Hnd) as Hf.
  destruct (find_buffer (pool_buffers p) b 0) as [i|]; [|by exists p].
  destruct Hf as (j & -> & Hj). change (0 + j)%nat with j.
  pose proof (lookup_lt_Some _ _ _ Hj) as Hlt. pose proof (list_elem_of_lookup_2 _ _ _ Hj) as Hin.
  rewrite wr_nat by lia. cbn [checked mbind outcome_bind].
  assert (j < length (pool_state p))%nat as Hlt' by lia.
  pose proof (free_count_insert (pool_state p) j kStFree Hlt' (or_introl eq_refl) Hsts) as Hc.
  rewrite bool_decide_true in Hc by done.
  pose proof (free_count_le (<[j := kStFree]> (pool_state p))) as Hle. rewrite length_insert in Hle.
  eexists. split; [done|]. split; [|split; [done|split; [done|]]].
  - constructor; cbn; rewrite ?length_insert; try done.
    + apply Forall_insert; auto.
    + unfold pool_size. cbn. repeat case_bool_decide; rewrite ?u16_id by (unw; lia); lia.
  - intros _. split_and!.
    + exists j. cbn. split; [done|]. by apply list_lookup_insert_eq.
    + intros b' Hne. unfold is_free. cbn. split; intros (i & Hi1 & Hi2); exists i; (split; [done|]).
      * rewrite list_lookup_insert_ne in Hi2; [done|]. intros ->. congruence.
      * rewrite list_lookup_insert_ne; [done|]. intros ->. congruence.
    + intros Hnf Hfree. unfold free in *. cbn. unfold pool_size.
      rewrite bool_decide_false in Hc by (intros E; apply Hnf; by exists j).
      rewrite bool_decide_true by lia. rewrite u16_id by (unw; lia). lia.
Qed.

Lemma release_spec_witness :
  exists p', release 0x9999 pool3 = Ret p' /\ pool_inv p' /\ pool_buffers p' = pool_buffers pool3.
Proof.
  assert (pool_inv pool3) as Hi.
  { apply TBuffersPool_new_inv; [by apply (bool_decide_unpack _)|done]. }
  destruct (release_spec pool3 0x9999 Hi) as (p' & H & H1 & H2 & _). by exists p'.
Defined.
