(* ===== verification/HalBase.v ===== *)
(** * Tick arithmetic ([inc/port/hal_base.h])

    The millisecond counter [hal::ticks] is a [uint32_t] that wraps around;
    the current value ([now]) is an argument of the operations that read it. *)

From S2P Require Import Prelude.

(** [hal::difftime] *)
Definition difftime (ticks1 ticks2 : Z) : Z :=
  if bool_decide (ticks2 >= ticks1) then u32 (ticks2 - ticks1)
  else u32 (ticks2 + u32 (0xffffffff - ticks1)).

(** [TIMEOUT(timer, msec)] *)
Definition TIMEOUT (timer msec now : Z) : bool := bool_decide (difftime timer now >= msec).

(** The time that has really passed is the difference modulo 2^32. *)
Definition elapsed (ticks1 ticks2 : Z) : Z := u32 (ticks2 - ticks1).

Lemma difftime_range t1 t2 : is_u32 (difftime t1 t2).
Proof. unfold difftime. case_bool_decide; auto with words. Qed.

Lemma difftime_eq t1 t2 :
  is_u32 t1 -> is_u32 t2 ->
  difftime t1 t2 = elapsed t1 t2 - (if bool_decide (t2 >= t1) then 0 else 1).
Proof. intros. unfold difftime, elapsed. case_bool_decide; word_lia. Qed.

(** Time differences across the wrap of the counter.  While the counter
    has not wrapped since the timer was set, [difftime] is the time that has
    passed; once it has wrapped, it is one tick less (0xffffffff is used in
    place of 2^32), so that a timeout is detected exactly at its time before
    the wrap, and one tick late after it, but never early. *)
Theorem difftime_elapsed (timer msec dt : Z) :
  is_u32 timer -> is_u32 dt -> is_u32 msec ->
  let now := u32 (timer + dt) in
  difftime timer now = (if bool_decide (timer + dt < 4294967296) then dt else dt - 1) /\
  (TIMEOUT timer msec now = true -> dt >= msec) /\
  (dt >= msec + 1 -> TIMEOUT timer msec now = true).
Proof.
  intros Ht Hd Hm now.
  assert (difftime timer now = (if bool_decide (timer + dt < 4294967296) then dt else dt - 1)) as E.
  { subst now. rewrite difftime_eq by auto with words. unfold elapsed.
    repeat case_bool_decide; word_lia. }
  split; [done|]. unfold TIMEOUT. rewrite E. rewrite bool_decide_eq_true.
  unw. case_bool_decide; lia.
Qed.

Lemma difftime_elapsed_witness :
  difftime 0xFFFFFFFE 3 = 4 /\ TIMEOUT 0xFFFFFFFE 5 3 = false.
Proof.
  assert (is_u32 0xFFFFFFFE) as H1 by (unw; lia). assert (is_u32 5) as H2 by (unw; lia).
  destruct (difftime_elapsed 0xFFFFFFFE 5 5 H1 H2 H2) as [H _]. split; [exact H|reflexivity].
Defined.
