(* ===== verification/Protocol.v ===== *)
(** * Packet processing ([TProtocol], [TProtocolInstance], [TProtocolInstance_AppPackets])

    The layer between the packet parser and the application: the bytes of a
    link go to [DataIOLayer2], the messages of a received packet to a handler
    one by one, and the answers are collected in one outgoing packet that is
    sent when it is full and when the packet has been processed.
    Files: [src/protocol_app/p_tprotocol.cpp], [p_tprotocolinst.cpp],
    [inc/protocol_app/*.h], [inc/protocol/p_tapprotocol_app_packets.h] and the
    dispatch of [src/protocol/protocol.cpp].

    The link to the outside ([TLayer1TxInterface], the callback for packets
    without header) is the class [Layer1Tx]; the application (the message
    handler and the state around the protocol) is a parameter of the section
    [Host]. *)

From S2P Require Import Prelude Crc16 Layer2 Layer3 TBuffer HalBase.

(** ** The link *)

(** [TLayer1TxInterface]: [getTxFree(num)], [write(num, buffer, size, true)]. *)
Class Layer1Tx (L : Type) := {
  getTxFree : Z -> L -> Z;
  l1_write : Z -> list Z -> L -> L * Z;
}.

(** ** The instance *)

Definition LINK_ID_0 : Z := 0.
Definition LINK_ID_1 : Z := 1.
Definition LINK_ID_HI_IO : Z := 3.
Definition LINK_ID_LOCAL : Z := 1.
Definition MaxPacketPayload : Z := MaxLayer2DataSize.
Definition MAX_TX_APP_SIZE_DATAIO_APP : Z := 1472.

(** The class of the object: [TProtocolInstance] or its derived class
    [TProtocolInstance_AppPackets]. *)
Inductive InstClass := TProtocolInstance | TProtocolInstance_AppPackets.

#[export] Instance InstClass_eq_dec : EqDecision InstClass.
Proof. solve_decision. Defined.

Section Instances.
Context {L : Type} `{Layer1Tx L}.

(** One protocol instance with the objects it owns: [layer2], [layer3],
    [protocol] (the fields of [TProtocol]) and the link.  The outgoing packet
    buffer is [txBuffer], the only buffer ever given to [startTxPacket]; its
    memory is [l3_txPacket]. *)
Record Inst := mkInst {
  pi_class : InstClass;
  pi_layer2 : Layer2;
  pi_layer3 : Layer3;
  pi_rxTimeout : Z;               (* uint32_t *)
  pi_rxTicks : Z;                 (* uint32_t *)
  pi_broadcastAddress : Z;        (* uint16_t *)
  pi_srcAddress : Z;              (* uint16_t *)
  pi_layer1Number : Z;
  pi_linkID : Z;
  pi_processTxAppData : option (list Z -> L -> L * Z);
  pi_link : L;
}.

Definition set_layer2 l2 (p : Inst) : Inst :=
  mkInst (pi_class p) l2 (pi_layer3 p) (pi_rxTimeout p) (pi_rxTicks p) (pi_broadcastAddress p)
    (pi_srcAddress p) (pi_layer1Number p) (pi_linkID p) (pi_processTxAppData p) (pi_link p).
Definition set_layer3 l3 (p : Inst) : Inst :=
  mkInst (pi_class p) (pi_layer2 p) l3 (pi_rxTimeout p) (pi_rxTicks p) (pi_broadcastAddress p)
    (pi_srcAddress p) (pi_layer1Number p) (pi_linkID p) (pi_processTxAppData p) (pi_link p).
Definition set_rxTicks t (p : Inst) : Inst :=
  mkInst (pi_class p) (pi_layer2 p) (pi_layer3 p) (pi_rxTimeout p) t (pi_broadcastAddress p)
    (pi_srcAddress p) (pi_layer1Number p) (pi_linkID p) (pi_processTxAppData p) (pi_link p).
Definition set_srcAddress a (p : Inst) : Inst :=
  mkInst (pi_class p) (pi_layer2 p) (pi_layer3 p) (pi_rxTimeout p) (pi_rxTicks p) (pi_broadcastAddress p)
    a (pi_layer1Number p) (pi_linkID p) (pi_processTxAppData p) (pi_link p).
Definition set_link l (p : Inst) : Inst :=
  mkInst (pi_class p) (pi_layer2 p) (pi_layer3 p) (pi_rxTimeout p) (pi_rxTicks p) (pi_broadcastAddress p)
    (pi_srcAddress p) (pi_layer1Number p) (pi_linkID p) (pi_processTxAppData p) l.

(** [TProtocolInstance::configure], [TProtocol::configure] *)
Definition configure_inst (aselfAddress abroadcastAddress arxTimeout : Z) (p : Inst) : Inst :=
  mkInst (pi_class p) (configure aselfAddress abroadcastAddress (pi_layer2 p)) (pi_layer3 p)
    arxTimeout (pi_rxTicks p) (u16 abroadcastAddress) (pi_srcAddress p) (pi_layer1Number p)
    (pi_linkID p) (pi_processTxAppData p) (pi_link p).

(** [TProtocolInstance_AppPackets::setLinkID] *)
Definition setLinkID (id : Z) (p : Inst) : Inst :=
  mkInst (pi_class p) (pi_layer2 p) (pi_layer3 p) (pi_rxTimeout p) (pi_rxTicks p) (pi_broadcastAddress p)
    (pi_srcAddress p) (pi_layer1Number p) id (pi_processTxAppData p) (pi_link p).

(** [TProtocolInstance_AppPackets::setAppTxHandler] *)
Definition setAppTxHandler (h : option (list Z -> L -> L * Z)) (p : Inst) : Inst :=
  mkInst (pi_class p) (pi_layer2 p) (pi_layer3 p) (pi_rxTimeout p) (pi_rxTicks p) (pi_broadcastAddress p)
    (pi_srcAddress p) (pi_layer1Number p) (pi_linkID p) h (pi_link p).

Definition setPayload (size : Z) (p : Inst) : Inst := set_layer3 (setTxAppSize size (pi_layer3 p)) p.

(** [startTxPacket(txBuffer)] *)
Definition inst_startTxPacket (p : Inst) : Inst :=
  set_layer3 (startTxPacket (l3_txPacket (pi_layer3 p)) (pi_layer3 p)) p.

Definition inst_getTxDataSize (p : Inst) : Z := getTxDataSize (pi_layer3 p).

Definition resetErrors (p : Inst) : Inst := set_layer2 (clearErrors (pi_layer2 p)) p.
Definition inst_getErrors (code : TErrors) (p : Inst) : outcome Z := getErrors code (pi_layer2 p).

(** [TProtocol::finishTxPacket] with an address, and with the source of the
    last packet. *)
Definition inst_finishTxPacket (dest : Z) (p : Inst) : outcome (Inst * Z) :=
  let a := if bool_decide (dest = -1) then pi_srcAddress p else u16 dest in
  '(l3, n) ← l3_finishTxPacket a (pi_layer2 p) (pi_layer3 p);
  Ret (set_layer3 l3 p, n).

(** [TProtocolInstance::sendPacket] *)
Definition sendPacket_base (dest : Z) (p : Inst) : outcome (Inst * Z) :=
  '(p, n) ← inst_finishTxPacket dest p;
  if bool_decide (n <> 0) && bool_decide (getTxFree (pi_layer1Number p) (pi_link p) > n) then
    data ← checked (slice (l3_txPacket (pi_layer3 p)) 0 n);
    let '(l, k) := l1_write (pi_layer1Number p) data (pi_link p) in
    Ret (set_link l p, u16 k)
  else Ret (p, 0).

(** [TProtocolInstance_AppPackets::sendPacket] *)
Definition sendPacket_app (dest : Z) (p : Inst) : outcome (Inst * Z) :=
  if bool_decide (pi_linkID p = LINK_ID_0) then sendPacket_base dest p
  else
    match pi_processTxAppData p with
    | Some h =>
        if bool_decide (inst_getTxDataSize p <> 0) then
          data ← checked (slice (l3_txPacket (pi_layer3 p)) off_data (inst_getTxDataSize p));
          let '(l, rc2) := h data (pi_link p) in
          let p := inst_startTxPacket (set_link l p) in
          Ret (p, if bool_decide (rc2 > 0) then u16 rc2 else 0)
        else Ret (p, 0)
    | None => Ret (p, 0)
    end.

Definition sendPacket (dest : Z) (p : Inst) : outcome (Inst * Z) :=
  match pi_class p with
  | TProtocolInstance => sendPacket_base dest p
  | TProtocolInstance_AppPackets => sendPacket_app dest p
  end.

(** *** [TPacketHandlersInst], [TPacketHandlersInst_AppPackets] *)

Definition onBeginRxPacketProcess (p : Inst) : Inst := inst_startTxPacket p.

Definition onEndRxPacketProcess (p : Inst) : outcome Inst :=
  if bool_decide (inst_getTxDataSize p <> 0) then '(p, _) ← sendPacket (-1) p; Ret p else Ret p.

Definition onTxBufferFull (p : Inst) : outcome Inst :=
  if bool_decide (inst_getTxDataSize p <> 0) then '(p, _) ← sendPacket (-1) p; Ret p else Ret p.

(** [TProtocol::addMessage] *)
Definition inst_addMessage (msg data : list Z) (p : Inst) : outcome (Inst * Z) :=
  '(l3, rc) ← addMessage msg data (pi_layer3 p);
  let p := set_layer3 l3 p in
  if bool_decide (rc = -1) then
    p ← onTxBufferFull p;
    '(l3, rc) ← addMessage msg data (pi_layer3 p);
    Ret (set_layer3 l3 p, rc)
  else Ret (p, rc).

(** *** The transmit side *)

Lemma sendPacket_rx dest p p' n :
  sendPacket dest p = Ret (p', n) -> same_rx (pi_layer3 p) (pi_layer3 p').
Proof.
  assert (forall p p' n, sendPacket_base dest p = Ret (p', n) -> same_rx (pi_layer3 p) (pi_layer3 p')) as Hbase.
  { clear. intros p p' n. unfold sendPacket_base, inst_finishTxPacket. intros Hs.
    apply bind_Ret in Hs as ([p1 n1] & H1 & Hs). apply bind_Ret in H1 as ([l3 n2] & H2%l3_finishTxPacket_rx & H1).
    injection H1 as <- <-. destruct (_ && _).
    - apply bind_Ret in Hs as (d & _ & Hs). destruct (l1_write _ _ _). by injection Hs as <- _.
    - by injection Hs as <- _. }
  unfold sendPacket. destruct (pi_class p); [apply Hbase|]. unfold sendPacket_app.
  case_bool_decide; [apply Hbase|]. destruct (pi_processTxAppData p) as [h|].
  - case_bool_decide; [|by intros [= <- _]]. intros Hs. apply bind_Ret in Hs as (d & _ & Hs).
    destruct (h d (pi_link p)). injection Hs as <- _. done.
  - by intros [= <- _].
Qed.

Lemma onTxBufferFull_rx p p' : onTxBufferFull p = Ret p' -> same_rx (pi_layer3 p) (pi_layer3 p').
Proof.
  unfold onTxBufferFull. case_bool_decide; [|by intros [= <-]]. intros Hs.
  apply bind_Ret in Hs as ([p1 n] & H1%sendPacket_rx & Hs). by injection Hs as <-.
Qed.

Lemma inst_addMessage_rx msg data p p' rc :
  inst_addMessage msg data p = Ret (p', rc) -> same_rx (pi_layer3 p) (pi_layer3 p').
Proof.
  unfold inst_addMessage. intros Hs. apply bind_Ret in Hs as ([l3 r] & H1%addMessage_rx & Hs).
  case_bool_decide; [|by injection Hs as <- _].
  apply bind_Ret in Hs as (p1 & H2%onTxBufferFull_rx & Hs).
  apply bind_Ret in Hs as ([l3' r'] & H3%addMessage_rx & Hs). injection Hs as <- _.
  eapply same_rx_trans; [exact H1|]. by eapply same_rx_trans.
Qed.

(** The address a packet is closed with: -1 stands for the source of the last
    packet. *)
Definition packet_dest (dest : Z) (p : Inst) : Z :=
  u8 (if bool_decide (dest = -1) then pi_srcAddress p else u16 dest).

(** What the link becomes when it is offered a packet: it takes it if it has
    more room than the packet's size, else the packet is lost. *)
Definition link_after (packet : list Z) (p : Inst) : L :=
  if bool_decide (getTxFree (pi_layer1Number p) (pi_link p) > Z.of_nat (length packet))
  then (l1_write (pi_layer1Number p) packet (pi_link p)).1 else pi_link p.

(** What [TProtocolInstance::sendPacket] does with a pending packet: it is
    closed with its addresses and CRCs and given to the link if the link has
    more room than its size; either way it is gone. *)
Lemma sendPacket_base_pending dest p :
  tx_inv (pi_layer3 p) -> l3_txIndex (pi_layer3 p) <> 0 -> l3_maxTxAppSize (pi_layer3 p) <= 65525 ->
  let packet := frame (packet_dest dest p) (l2_selfAddress (pi_layer2 p)) (tx_contents (pi_layer3 p)) in
  exists q k, sendPacket_base dest p =
      Ret (set_link (link_after packet p) (set_layer3 (set_tx q 0 (pi_layer3 p)) p), k) /\
    tx_inv (set_tx q 0 (pi_layer3 p)).
Proof.
  intros Hinv Hidx Hmax packet.
  pose proof (tx_contents_length _ Hinv) as Hlen. pose proof Hinv as [Hi Hm Hp].
  assert (tx_contents (pi_layer3 p) <> []) as Hne by (intros E; rewrite E in Hlen; simpl in Hlen; lia).
  set (a := if bool_decide (dest = -1) then pi_srcAddress p else u16 dest).
  destruct (l3_finishTxPacket_frame a (pi_layer2 p) (pi_layer3 p) Hinv Hne) as (rest & Hf & Hll); [lia|].
  change (u8 a) with (packet_dest dest p) in Hf, Hll. fold packet in Hf, Hll.
  set (n := Z.of_nat (length packet)).
  assert (n = 10 + l3_txIndex (pi_layer3 p)) as Hn.
  { subst n packet. unfold frame. rewrite !length_app, frame_header_length.
    change (length (le2 _)) with 2%nat. lia. }
  unfold sendPacket_base, inst_finishTxPacket. fold a. rewrite Hf.
  cbn [mbind outcome_bind]. rewrite <-Hn. rewrite (bool_decide_true (n <> 0)) by lia. cbn [andb].
  exists (packet ++ rest). unfold link_after. fold n.
  cbn [pi_layer1Number set_layer3 pi_link pi_layer3 l3_txPacket set_tx].
  assert (tx_inv (set_tx (packet ++ rest) 0 (pi_layer3 p))) as Hinv'.
  { constructor; cbn [l3_txIndex l3_maxTxAppSize l3_txPacket set_tx]; [lia|done|rewrite Hll; done]. }
  case_bool_decide.
  - assert (slice (packet ++ rest) 0 n = Some packet) as -> by (apply slice_prefix).
    cbn [checked mbind outcome_bind]. destruct (l1_write _ _ _) as [l k]. by eexists.
  - by eexists.
Qed.

Lemma sendPacket_pending p :
  tx_inv (pi_layer3 p) -> l3_txIndex (pi_layer3 p) <> 0 -> l3_maxTxAppSize (pi_layer3 p) <= 65525 ->
  pi_class p = TProtocolInstance \/ pi_linkID p = LINK_ID_0 ->
  let packet := frame (u8 (pi_srcAddress p)) (l2_selfAddress (pi_layer2 p)) (tx_contents (pi_layer3 p)) in
  let n := Z.of_nat (length packet) in
  exists p' k, sendPacket (-1) p = Ret (p', k) /\
    tx_inv (pi_layer3 p') /\ l3_txIndex (pi_layer3 p') = 0 /\
    l3_maxTxAppSize (pi_layer3 p') = l3_maxTxAppSize (pi_layer3 p) /\
    pi_link p' = (if bool_decide (getTxFree (pi_layer1Number p) (pi_link p) > n)
                  then (l1_write (pi_layer1Number p) packet (pi_link p)).1 else pi_link p).
Proof.
  intros Hinv Hidx Hmax Hlink packet n.
  assert (sendPacket (-1) p = sendPacket_base (-1) p) as ->.
  { unfold sendPacket, sendPacket_app. destruct (pi_class p), Hlink as [Hc|Hl]; try done.
    by rewrite bool_decide_true. }
  destruct (sendPacket_base_pending (-1) p Hinv Hidx Hmax) as (q & k & -> & Hq).
  eexists _, _. split; [done|]. split_and!; done.
Qed.

(** A message that does not fit the pending packet.  The pending packet
    is closed and sent to the source of the last request (or lost, if the link
    has no room for it), and the message starts the next packet; the answer is
    0 although a packet may have been lost. *)
Theorem inst_addMessage_flush (p : Inst) (m : message) (junk junk2 : list Z) :
  tx_inv (pi_layer3 p) -> l3_maxTxAppSize (pi_layer3 p) <= 65525 -> message_ok m ->
  pi_class p = TProtocolInstance \/ pi_linkID p = LINK_ID_0 ->
  let n := Z.of_nat (length (message_bytes m)) in
  let packet := frame (u8 (pi_srcAddress p)) (l2_selfAddress (pi_layer2 p)) (tx_contents (pi_layer3 p)) in
  l3_txIndex (pi_layer3 p) + n > l3_maxTxAppSize (pi_layer3 p) ->
  l3_txIndex (pi_layer3 p) <> 0 -> n <= l3_maxTxAppSize (pi_layer3 p) ->
  exists p', inst_addMessage (message_header m ++ junk) (message_body m ++ junk2) p = Ret (p', 0) /\
    tx_contents (pi_layer3 p') = message_bytes m /\ tx_inv (pi_layer3 p') /\
    pi_link p' =
      (if bool_decide (getTxFree (pi_layer1Number p) (pi_link p) > Z.of_nat (length packet))
       then (l1_write (pi_layer1Number p) packet (pi_link p)).1 else pi_link p).
Proof.
  intros Hinv Hmax Hok Hlink n packet Hover Hidx Hfit.
  pose proof (addMessage_added m (pi_layer3 p) junk junk2 Hinv Hok) as Hadd. unfold added in Hadd.
  rewrite bool_decide_false in Hadd by (subst n; lia).
  unfold inst_addMessage. rewrite Hadd. cbn [mbind outcome_bind]. rewrite bool_decide_true by done.
  assert (set_layer3 (pi_layer3 p) p = p) as -> by (by destruct p).
  destruct (sendPacket_pending p Hinv Hidx Hmax Hlink) as (p1 & k & Hs & Hinv1 & Hi1 & Hm1 & Hl1).
  unfold onTxBufferFull, inst_getTxDataSize, getTxDataSize. rewrite bool_decide_true by done.
  rewrite Hs. cbn [mbind outcome_bind].
  pose proof (addMessage_added m (pi_layer3 p1) junk junk2 Hinv1 Hok) as Hadd1. unfold added in Hadd1.
  rewrite bool_decide_true in Hadd1 by (rewrite Hi1, Hm1; subst n; lia).
  destruct Hadd1 as (q & -> & Hq1 & Hq2 & _). cbn [mbind outcome_bind].
  eexists. split; [done|]. cbn [pi_layer3 set_layer3 pi_link].
  split_and!; [|done|done]. rewrite Hq2. unfold tx_contents. by rewrite Hi1.
Qed.

End Instances.
Arguments Inst L : clear implicits.

(** ** Processing of received data *)

Section Host.
Context {L St : Type} `{Layer1Tx L}.

(** The state [St] around the instance, the message handler
    ([TRxMessageHandler::processRxMessage], given the memory from the message
    on) and what a derived [onEndRxPacketProcess] does before the common
    part. *)
Variable inst : St -> Inst L.
Variable upd : Inst L -> St -> St.
Variable processRxMessage : list Z -> Z -> Z -> St -> outcome St.
Variable onEndHook : Z -> St -> St.

Definition modify (f : Inst L -> Inst L) (s : St) : St := upd (f (inst s)) s.

Definition host_onEndRxPacketProcess (src : Z) (s : St) : outcome St :=
  let s := onEndHook src s in
  p ← onEndRxPacketProcess (inst s);
  Ret (upd p s).

(** [while(layer3->getMessagePtr(&msgId, &rxDataBuffer) == 0)
    processRxMessage(rxDataBuffer, dest, src)]; counts the messages. *)
Fixpoint rx_messages (fuel : nat) (dest src : Z) (counter : Z) (s : St) : outcome (St * Z) :=
  match fuel with
  | O => Spin
  | S fuel =>
      r ← getMessagePtr (pi_layer3 (inst s));
      match r with
      | (l3, rc, Some (id, msg)) =>
          s ← processRxMessage msg dest src (modify (set_layer3 l3) s);
          rx_messages fuel dest src (s16 (counter + 1)) s
      | (l3, rc, None) => Ret (modify (set_layer3 l3) s, counter)
      end
  end.

(** Enough for any data of which no message has size zero. *)
Definition rx_fuel (s : St) : nat := S (Z.to_nat (rxDataSize (pi_layer3 (inst s)))).

(** What [TProtocol::processInputData] does with a complete packet. *)
Definition process_packet (s : St) : outcome St :=
  r ← readPacket (pi_layer2 (inst s)) (pi_layer3 (inst s));
  let '(l3, n, a) := r in
  '(dest, src) ← checked a;
  let s := modify (fun p => set_srcAddress src (set_layer3 l3 p)) s in
  let s := modify onBeginRxPacketProcess s in
  '(s, _) ← rx_messages (rx_fuel s) dest src 0 s;
  s ← host_onEndRxPacketProcess src s;
  Ret (modify (fun p => set_layer2 (startRx (pi_layer2 p)) p) s).

(** The loop of [TProtocol::processInputData] over [n] bytes. *)
Fixpoint process_bytes (n : nat) (buffer : TBuffer Z) (rc : Z) (s : St) : outcome (St * TBuffer Z * Z) :=
  match n with
  | O => Ret (s, buffer, rc)
  | S n =>
      '(buffer, b) ← read_wo_check buffer;
      '(l2, r) ← rxHandler b (pi_layer2 (inst s));
      let s := modify (set_layer2 l2) s in
      if bool_decide (r = 2) then
        s ← process_packet s;
        process_bytes n buffer 2 s
      else if bool_decide (r = 3) then Ret (s, buffer, 3)
      else process_bytes n buffer rc s
  end.

Definition processInputData (now : Z) (buffer : TBuffer Z) (n : Z) (preambleRecieved : bool) (s : St)
    : outcome (St * TBuffer Z * Z) :=
  let p := inst s in
  let p := if bool_decide (difftime (pi_rxTicks p) now >= pi_rxTimeout p)
           then set_layer2 (startRx (pi_layer2 p)) p else p in
  let p := set_rxTicks now p in
  let p := if preambleRecieved then set_layer2 (setPreambleRecieved (pi_layer2 p)) p else p in
  process_bytes (Z.to_nat n) buffer 0 (upd p s).

(** [TProtocol::processInputAppData] *)
Definition processInputAppData (buffer : list Z) (n dest src : Z) (s : St) : outcome (St * Z) :=
  let s := modify (set_srcAddress src) s in
  let s := modify onBeginRxPacketProcess s in
  let s := modify (fun p => set_layer3 (setRxAppData buffer n (pi_layer3 p)) p) s in
  '(s, counter) ← rx_messages (rx_fuel s) dest src 0 s;
  s ← host_onEndRxPacketProcess src s;
  Ret (s, counter).

(** [TProtocolInstance_AppPackets::processInputData], [processInputAppData]:
    the link of the answer is chosen before the packet is processed. *)
Definition app_processInputData (now : Z) (buffer : TBuffer Z) (n : Z) (s : St) : outcome (St * TBuffer Z * Z) :=
  processInputData now buffer n false (modify (setLinkID LINK_ID_0) s).

Definition app_processInputAppData (buffer : list Z) (n dest src : Z) (s : St) : outcome (St * Z) :=
  processInputAppData buffer n dest src (modify (setLinkID LINK_ID_1) s).

(** *** Dispatch of the messages

    The reference: the messages handled in order, each at the memory from its
    own first byte on, with the read position past it. *)

Definition set_rx_at (off : Z) (p : Inst L) : Inst L :=
  let l3 := pi_layer3 p in set_layer3 (set_rx (l3_rxData l3) off (l3_rxSize l3) l3) p.

Fixpoint dispatch (ms : list message) (mem : list Z) (off dest src : Z) (s : St) : outcome St :=
  match ms with
  | [] => Ret s
  | m :: ms =>
      let off' := off + Z.of_nat (length (message_bytes m)) in
      s ← processRxMessage (drop (Z.to_nat off) mem) dest src (modify (set_rx_at off') s);
      dispatch ms mem off' dest src s
  end.

(** The receive side of layer 3. *)
Definition rx_side (s : St) : list Z * Z * Z :=
  let l3 := pi_layer3 (inst s) in (l3_rxData l3, l3_rxIndex l3, l3_rxSize l3).

Hypothesis inst_upd : forall p s, inst (upd p s) = p.
Hypothesis upd_upd : forall p q s, upd p (upd q s) = upd p s.
Hypothesis upd_inst : forall s, upd (inst s) s = s.

(** The handler answers through the transmit side only. *)
Hypothesis handler_rx : forall msg dest src s s',
  processRxMessage msg dest src s = Ret s' -> rx_side s' = rx_side s.

Lemma message_bytes_min m : (4 <= length (message_bytes m))%nat.
Proof. unfold message_bytes, message_header. destruct m; simpl; lia. Qed.

Lemma messages_bytes_min ms : (4 * length ms <= length (messages_bytes ms))%nat.
Proof.
  induction ms as [|m ms IH]; [simpl; lia|].
  change (messages_bytes (m :: ms)) with (message_bytes m ++ messages_bytes ms).
  rewrite length_app. pose proof (message_bytes_min m). cbn [length]. lia.
Qed.

Lemma rx_messages_dispatch ms fuel dest src counter s mem off n junk :
  rx_side s = (mem, off, n) -> 0 <= off -> is_u16 n -> Forall message_ok ms ->
  drop (Z.to_nat off) mem = messages_bytes ms ++ junk ->
  n = off + Z.of_nat (length (messages_bytes ms)) ->
  0 <= counter -> counter + Z.of_nat (length ms) < 32768 -> (length ms < fuel)%nat ->
  rx_messages fuel dest src counter s =
    s' ← dispatch ms mem off dest src s; Ret (s', counter + Z.of_nat (length ms)).
Proof.
  intros Hside Ho Hn Hok. revert fuel counter s off Hside Ho.
  induction Hok as [|m ms Hm _ IH]; intros fuel counter s off Hside Ho Hat Hsz Hc Hcl Hf;
    (destruct fuel as [|fuel]; [lia|]); injection Hside as H1 H2 H3.
  - cbn [rx_messages dispatch mbind outcome_bind length]. simpl in Hsz. unfold getMessagePtr.
    assert (rxDataSize (pi_layer3 (inst s)) = 0) as ->
      by (unfold rxDataSize; rewrite bool_decide_false by lia; done).
    rewrite bool_decide_true by done.
    cbn [mbind outcome_bind]. unfold modify. rewrite Z.add_0_r.
    destruct (inst s) as [c l2 l3 rt rk ba sa ln li pr lk] eqn:E. cbn [pi_layer3 set_layer3].
    unfold set_layer3. cbn. rewrite <-E, upd_inst. done.
  - change (messages_bytes (m :: ms)) with (message_bytes m ++ messages_bytes ms) in *.
    rewrite length_app in Hsz. rewrite <-app_assoc in Hat.
    assert (l3_rx_inv (pi_layer3 (inst s))) as Hinv by (constructor; rewrite ?H2, ?H3; unw; lia).
    assert (rx_at (pi_layer3 (inst s)) m (messages_bytes ms ++ junk)) as Hrx by (unfold rx_at; by rewrite H1, H2).
    destruct (getMessagePtr_message _ m _ Hinv Hrx Hm) as (Hg & Hinv' & Hd); [rewrite H2, H3; lia|].
    cbn [rx_messages dispatch]. rewrite Hg. cbn [mbind outcome_bind].
    assert (drop (Z.to_nat off) mem = message_bytes m ++ messages_bytes ms ++ junk) as Hat' by done.
    rewrite <-Hat'. unfold set_rx_at. rewrite H2.
    unfold modify at 1. unfold modify at 1.
    set (s1 := upd _ s).
    destruct (processRxMessage (drop (Z.to_nat off) mem) dest src s1) as [s2| |] eqn:Hh;
      cbn [mbind outcome_bind]; [|done|done].
    apply handler_rx in Hh. unfold rx_side in Hh at 2. subst s1. rewrite inst_upd in Hh.
    cbn in Hh. rewrite H1, H3 in Hh.
    assert (s16 (counter + 1) = counter + 1) as -> by (apply s16_id; cbn in Hcl; lia).
    rewrite (IH fuel (counter + 1) s2 (off + Z.of_nat (length (message_bytes m)))); try done; try lia.
    + cbn [length]. replace (counter + 1 + Z.of_nat (length ms)) with (counter + Z.of_nat (S (length ms))) by lia. done.
    + cbn in Hd. by rewrite H1, H2 in Hd.
    + cbn in Hcl. lia.
    + cbn in Hf. lia.
Qed.

Lemma rx_messages_all ms dest src s mem junk :
  rx_side s = (mem, 0, Z.of_nat (length (messages_bytes ms))) ->
  Z.of_nat (length (messages_bytes ms)) < 65536 -> Forall message_ok ms ->
  mem = messages_bytes ms ++ junk ->
  rx_messages (rx_fuel s) dest src 0 s =
    s' ← dispatch ms mem 0 dest src s; Ret (s', Z.of_nat (length ms)).
Proof.
  intros Hside Hn Hok ->. pose proof (messages_bytes_min ms) as Hmin.
  rewrite (rx_messages_dispatch ms (rx_fuel s) dest src 0 s (messages_bytes ms ++ junk) 0
    (Z.of_nat (length (messages_bytes ms))) junk Hside); try done; try lia; [unw; lia|].
  unfold rx_fuel. injection Hside as _ H2 H3. unfold rxDataSize. rewrite H2, H3.
  case_bool_decide; [rewrite u16_id by (unw; lia)|]; lia.
Qed.

(** The state in which the first message is handled. *)
Definition app_begin (buffer : list Z) (n src : Z) (s : St) : St :=
  modify (fun p => set_layer3 (setRxAppData buffer n (pi_layer3 p)) p)
    (modify onBeginRxPacketProcess (modify (set_srcAddress src) s)).

(** A block of messages without packet header.  When the block holds
    exactly the messages [ms] (followed in memory by anything), each is handed
    to the handler once, in order, at its own first byte, with the addresses
    given; the outgoing packet is restarted before the first and flushed after
    the last; and the result is the number of messages.  This holds for every
    handler that answers through the transmit side of the protocol. *)
Theorem processInputAppData_dispatch (ms : list message) (junk : list Z) (dest src : Z) (s : St) :
  Forall message_ok ms -> Z.of_nat (length (messages_bytes ms)) < 65536 ->
  let buffer := messages_bytes ms ++ junk in
  let n := Z.of_nat (length (messages_bytes ms)) in
  processInputAppData buffer n dest src s =
    s1 ← dispatch ms buffer 0 dest src (app_begin buffer n src s);
    s2 ← host_onEndRxPacketProcess src s1;
    Ret (s2, Z.of_nat (length ms)).
Proof.
  intros Hok Hn buffer n. unfold processInputAppData. fold (app_begin buffer n src s).
  rewrite (rx_messages_all ms dest src (app_begin buffer n src s) buffer junk); try done.
  - by destruct (dispatch _ _ _ _ _ _).
  - unfold rx_side, app_begin, modify. rewrite !inst_upd. cbn. by rewrite u16_id by (unw; lia).
Qed.

(** *** Whole packets *)

Lemma process_bytes_cons n buffer rc s :
  process_bytes (S n) buffer rc s =
    '(buffer, b) ← read_wo_check buffer;
    '(l2, r) ← rxHandler b (pi_layer2 (inst s));
    let s := modify (set_layer2 l2) s in
    if bool_decide (r = 2) then
      s ← process_packet s;
      process_bytes n buffer 2 s
    else if bool_decide (r = 3) then Ret (s, buffer, 3)
    else process_bytes n buffer rc s.
Proof. reflexivity. Qed.

(** The bytes that do not complete a packet go to layer 2 alone. *)
Lemma process_bytes_feed bs k buffer rest rc s l2 rcs :
  rx_feed bs (pi_layer2 (inst s)) = Ret (l2, rcs) -> Forall (fun r => r <> 2 /\ r <> 3) rcs ->
  readable buffer (bs ++ rest) ->
  exists buffer', readable buffer' rest /\
    process_bytes (length bs + k) buffer rc s =
    process_bytes k buffer' rc (modify (set_layer2 l2) s).
Proof.
  revert buffer s rcs. induction bs as [|b bs IH]; intros buffer s rcs Hf Hr Hb.
  - simpl in Hf. injection Hf as <- <-. exists buffer. split; [done|].
    unfold modify. destruct (inst s) as [c l2' l3 rt rk ba sa ln li pr lk] eqn:E.
    unfold set_layer2. cbn. by rewrite <-E, upd_inst.
  - rewrite rx_feed_cons in Hf. apply bind_Ret in Hf as ([l2a r] & Hh & Hf).
    apply bind_Ret in Hf as ([l2b rs] & Hfeed & Hf). injection Hf as <- <-.
    apply Forall_cons in Hr as [[Hr2 Hr3] Hr].
    destruct (read_wo_check_readable buffer b (bs ++ rest) Hb) as (buffer1 & Hrd & Hb1).
    change (length (b :: bs) + k)%nat with (S (length bs + k)). rewrite process_bytes_cons, Hrd.
    cbn [mbind outcome_bind]. rewrite Hh. cbn [mbind outcome_bind].
    rewrite !bool_decide_false by done.
    destruct (IH buffer1 (modify (set_layer2 l2a) s) rs) as (buffer' & Hb' & Heq);
      [unfold modify; by rewrite inst_upd|done|done|].
    exists buffer'. split; [done|]. rewrite Heq. unfold modify. rewrite inst_upd, upd_upd. done.
Qed.

(** The state in which the first message of a packet is handled. *)
Definition packet_begin (l2 : Layer2) (data : list Z) (n src : Z) (s : St) : St :=
  modify onBeginRxPacketProcess
    (modify (fun p => set_srcAddress src (set_layer3 (set_rx data 0 n (pi_layer3 p)) p))
      (modify (set_layer2 l2) s)).

Lemma process_packet_dispatch s ms dest src after :
  getRxDataPtr (pi_layer2 (inst s)) =
    Ret (Z.of_nat (length (messages_bytes ms)), Some (dest, src, messages_bytes ms ++ after)) ->
  Forall message_ok ms -> Z.of_nat (length (messages_bytes ms)) < 65536 ->
  process_packet s =
    s1 ← dispatch ms (messages_bytes ms ++ after) 0 dest src
           (packet_begin (pi_layer2 (inst s)) (messages_bytes ms ++ after)
              (Z.of_nat (length (messages_bytes ms))) src s);
    s2 ← host_onEndRxPacketProcess src s1;
    Ret (modify (fun p => set_layer2 (startRx (pi_layer2 p)) p) s2).
Proof.
  intros Hget Hok Hn. unfold process_packet, readPacket. rewrite Hget. cbn [checked mbind outcome_bind].
  set (data := messages_bytes ms ++ after) in *. set (n := Z.of_nat (length (messages_bytes ms))) in *.
  set (s0 := modify onBeginRxPacketProcess _).
  assert (s0 = packet_begin (pi_layer2 (inst s)) data n src s) as <-.
  { subst s0. unfold packet_begin, modify. rewrite !inst_upd, !upd_upd. reflexivity. }
  rewrite (rx_messages_all ms dest src s0 data after); try done.
  - by destruct (dispatch _ _ _ _ _ _).
  - subst s0. unfold rx_side, modify. by rewrite !inst_upd.
Qed.

(** C4: A packet on the wire.  A device whose receiver waits is fed, from
    its receive buffer, the bytes of a packet addressed to it that carries the
    messages [ms] (followed in the buffer by [rest]).  Whatever the time since
    the previous bytes, the whole packet is consumed and nothing of [rest];
    each message is handed to the handler once and in order, with the
    addresses of the packet header; the answers are flushed; the receiver
    waits for the next packet; and the result is 2. *)
Theorem processInputData_packet (now dest src : Z) (ms : list message) (b : TBuffer Z) (rest : list Z) (s : St) :
  rx_inv (pi_layer2 (inst s)) -> l2_state (pi_layer2 (inst s)) = stWait ->
  is_u8 dest -> is_u8 src ->
  (dest = l2_selfAddress (pi_layer2 (inst s)) \/ dest = l2_broadcastAddress (pi_layer2 (inst s))) ->
  ms <> [] -> Forall message_ok ms -> (length (messages_bytes ms) <= 244)%nat ->
  let packet := frame dest src (messages_bytes ms) in
  readable b (packet ++ rest) ->
  exists b' l2 after,
    readable b' rest /\ l2_state l2 = stPacketReady /\
    processInputData now b (Z.of_nat (length packet)) false s =
      s1 ← dispatch ms (messages_bytes ms ++ after) 0 dest src
             (packet_begin l2 (messages_bytes ms ++ after) (Z.of_nat (length (messages_bytes ms))) src
                (modify (set_rxTicks now) s));
      s2 ← host_onEndRxPacketProcess src s1;
      Ret (modify (fun p => set_layer2 (startRx (pi_layer2 p)) p) s2, b', 2).
Proof.
  intros Hinv Hst Hd8 Hs8 Hd Hne Hok Hlen packet Hb. unfold processInputData. cbv zeta iota.
  set (p1 := if bool_decide _ then _ else inst s).
  assert (pi_layer2 p1 = pi_layer2 (inst s) \/ pi_layer2 p1 = startRx (pi_layer2 (inst s))) as Hp1
    by (subst p1; case_bool_decide; auto).
  assert (exists l2, set_rxTicks now p1 = set_layer2 l2 (set_rxTicks now (inst s)) /\ rx_inv l2 /\
    l2_state l2 = stWait /\ l2_selfAddress l2 = l2_selfAddress (pi_layer2 (inst s)) /\
    l2_broadcastAddress l2 = l2_broadcastAddress (pi_layer2 (inst s)))
    as (l2 & -> & Hinv2 & Hst2 & Hself & Hbr).
  { subst p1. case_bool_decide.
    - exists (startRx (pi_layer2 (inst s))). split; [by destruct (inst s)|]. split_and!; try done.
      apply startRx_inv; apply Hinv.
    - exists (pi_layer2 (inst s)). split; [by destruct (inst s)|]. done. }
  clear Hp1 p1. rewrite <-Hself, <-Hbr in Hd.
  assert (0 < length (messages_bytes ms))%nat as Hpos.
  { pose proof (messages_bytes_min ms). destruct ms; [done|]. simpl in *. lia. }
  destruct (rx_feed_frame l2 dest src (messages_bytes ms)) as (l2f & Hfeed & Hget & Hready & _); [done..|lia|done|].
  fold packet in Hfeed. set (after := drop _ (l2_packet l2)) in *.
  assert (exists bs x, packet = bs ++ [x]) as (bs & x & Hpk).
  { destruct (exists_last (l:=packet)) as (bs & x & E); [|eauto]. intros E.
    apply (f_equal length) in E. subst packet. unfold frame in E. rewrite !length_app in E. simpl in E. lia. }
  rewrite Hpk in Hfeed, Hb |- *. rewrite rx_feed_app in Hfeed.
  apply bind_Ret in Hfeed as ([l2a r1] & Ha & Hfeed). apply bind_Ret in Hfeed as ([l2b r2] & Hx & Hfeed).
  injection Hfeed as <- Hcodes.
  rewrite rx_feed_cons in Hx. apply bind_Ret in Hx as ([l2c r] & Hxh & Hx). simpl in Hx. injection Hx as <- <-.
  change (0 :: replicate (length (messages_bytes ms) + 8) 1 ++ [2]) with
    ((0 :: replicate (length (messages_bytes ms) + 8) 1) ++ [2]) in Hcodes.
  apply app_inj_tail in Hcodes as [-> ->].
  rewrite length_app, Nat2Z.id. change (length [x]) with 1%nat. rewrite <-app_assoc in Hb.
  set (s0 := upd (set_layer2 l2 (set_rxTicks now (inst s))) s).
  destruct (process_bytes_feed bs 1 b ([x] ++ rest) 0 s0 l2a (0 :: replicate (length (messages_bytes ms) + 8) 1))
    as (b1 & Hb1 & ->).
  - subst s0. rewrite inst_upd. exact Ha.
  - constructor; [done|]. by apply Forall_replicate.
  - done.
  - destruct (read_wo_check_readable b1 x rest Hb1) as (b2 & Hrd & Hb2).
    rewrite process_bytes_cons, Hrd. cbn [mbind outcome_bind].
    assert (pi_layer2 (inst (modify (set_layer2 l2a) s0)) = l2a) as -> by (unfold modify; by rewrite inst_upd).
    rewrite Hxh. subst s0.
    cbn [mbind outcome_bind]. rewrite bool_decide_true by done.
    exists b2, l2c, after. split_and!; [done|done|].
    set (sx := modify (set_layer2 l2c) _).
    assert (pi_layer2 (inst sx) = l2c) as Hl2 by (subst sx; unfold modify; by rewrite inst_upd).
    rewrite (process_packet_dispatch sx ms dest src after); [|by rewrite Hl2|done|lia].
    assert (packet_begin (pi_layer2 (inst sx)) (messages_bytes ms ++ after) (Z.of_nat (length (messages_bytes ms))) src sx =
      packet_begin l2c (messages_bytes ms ++ after) (Z.of_nat (length (messages_bytes ms))) src
        (modify (set_rxTicks now) s)) as ->.
    { rewrite Hl2. subst sx. unfold packet_begin, modify. rewrite !inst_upd, !upd_upd. reflexivity. }
    destruct (dispatch _ _ _ _ _ _) as [s1| |]; cbn [mbind outcome_bind]; [|done|done].
    by destruct (host_onEndRxPacketProcess _ _).
Qed.

End Host.

(** ** Witnesses

    A link that records the packets and has room for 256 bytes in all, and a
    handler that answers every message with itself. *)

Definition demo_link : Layer1Tx (list (list Z)) :=
  {| getTxFree _ l := 256 - Z.of_nat (length (concat l));
     l1_write _ d l := (l ++ [d], Z.of_nat (length d)) |}.
#[local] Existing Instance demo_link.

Definition demo_inst : Inst (list (list Z)) :=
  mkInst TProtocolInstance l2_initial l3_initial 5 0 255 3 1 0 None [].

Definition demo_echo (msg : list Z) (dest src : Z) (p : Inst (list (list Z))) : outcome (Inst (list (list Z))) :=
  '(p, _) ← inst_addMessage msg [] p; Ret p.

Definition demo_messages : list message := [MParameterRead 1 14; MParameterRead 2 15].

Lemma demo_echo_rx msg dest src s s' :
  demo_echo msg dest src s = Ret s' -> rx_side id s' = rx_side id s.
Proof.
  unfold demo_echo. intros H. apply bind_Ret in H as ([p rc] & H%inst_addMessage_rx & Hp).
  injection Hp as <-. unfold rx_side, id. unfold same_rx in H. congruence.
Qed.

Lemma processInputAppData_dispatch_witness :
  let buffer := messages_bytes demo_messages ++ [0xFF] in
  processInputAppData id (fun p _ => p) demo_echo (fun _ s => s) buffer 8 9 3 demo_inst =
    s1 ← dispatch id (fun p _ => p) demo_echo demo_messages buffer 0 9 3
           (app_begin id (fun p _ => p) buffer 8 3 demo_inst);
    s2 ← host_onEndRxPacketProcess id (fun p _ => p) (fun _ s => s) 3 s1;
    Ret (s2, 2).
Proof.
  apply (processInputAppData_dispatch id (fun p _ => p) demo_echo (fun _ s => s)
    ltac:(done) ltac:(done) demo_echo_rx demo_messages [0xFF] 9 3 demo_inst).
  - by apply (bool_decide_unpack _).
  - done.
Defined.

Definition demo_packet : list Z := frame 9 3 (messages_bytes demo_messages).

Lemma processInputData_packet_witness :
  exists b' l2 after,
    readable b' [0xAA] /\ l2_state l2 = stPacketReady /\
    processInputData id (fun p _ => p) demo_echo (fun _ s => s) 100
      (TBuffer_new (demo_packet ++ [0xAA]) 19) 18 false demo_inst =
      s1 ← dispatch id (fun p _ => p) demo_echo demo_messages (messages_bytes demo_messages ++ after) 0 9 3
             (packet_begin id (fun p _ => p) l2 (messages_bytes demo_messages ++ after) 8 3
               (set_rxTicks 100 demo_inst));
      s2 ← host_onEndRxPacketProcess id (fun p _ => p) (fun _ s => s) 3 s1;
      Ret (set_layer2 (startRx (pi_layer2 s2)) s2, b', 2).
Proof.
  apply (processInputData_packet id (fun p _ => p) demo_echo (fun _ s => s)
    ltac:(done) ltac:(done) ltac:(done) demo_echo_rx 100 9 3 demo_messages
    (TBuffer_new (demo_packet ++ [0xAA]) 19) [0xAA] demo_inst).
  - exact l2_initial_inv.
  - done.
  - by apply (bool_decide_unpack _).
  - by apply (bool_decide_unpack _).
  - by left.
  - done.
  - by apply (bool_decide_unpack _).
  - simpl. lia.
  - apply (readable_new (demo_packet ++ [0xAA])). done.
Defined.

Lemma inst_addMessage_flush_witness :
  let p := setPayload 6 (set_layer3 (set_tx (replicate 254 0) 4 l3_initial) demo_inst) in
  exists p', inst_addMessage (message_header (MParameterRead 1 14)) [] p = Ret (p', 0) /\
    tx_contents (pi_layer3 p') = message_bytes (MParameterRead 1 14) /\ tx_inv (pi_layer3 p') /\
    pi_link p' = [frame 3 9 [0; 0; 0; 0]].
Proof.
  destruct (inst_addMessage_flush (setPayload 6 (set_layer3 (set_tx (replicate 254 0) 4 l3_initial) demo_inst))
    (MParameterRead 1 14) [] []) as (p' & H1 & H2 & H3 & H4).
  - constructor; by apply (bool_decide_unpack _).
  - by apply (bool_decide_unpack _).
  - by apply (bool_decide_unpack _).
  - by left.
  - done.
  - done.
  - done.
  - exists p'. split_and!; [exact H1|exact H2|exact H3|]. rewrite H4. vm_compute. reflexivity.
Defined.
