(* ===== verification/MasterTx.v ===== *)
(** * Requests to the slaves ([TMasterTx])

    Files: [inc/protocol/p_tmastertx.h], [src/protocol/p_tmastertx.cpp].
    Requests wait in a queue; the state machine takes those that go to one
    address, sends them as one packet, and waits for the answer or for a
    timeout. *)

From S2P Require Import Prelude Crc16 Layer2 Layer3 Ring TQueue TBuffer HalBase Protocol.

(** ** Requests *)

Definition FRqAnswer : Z := 1.
Definition FBreakPacket : Z := 2.
Definition MaxTxSize : Z := 128.

Record TTxRequest := mkRequest {
  rq_type : Z;            (* uint16_t *)
  rq_address : Z;         (* uint16_t *)
  rq_parameter0 : Z;      (* uint32_t *)
  rq_parameter1 : Z;      (* uint32_t *)
  rq_flags : Z;           (* uint32_t *)
}.

#[export] Instance TTxRequest_eq_dec : EqDecision TTxRequest.
Proof. solve_decision. Defined.

(** The constructor [TTxRequest(t, a, p0, p1, f)]. *)
Definition TTxRequest_new (t a p0 p1 f : Z) : TTxRequest := mkRequest (u16 t) (u16 a) (u32 p0) (u32 p1) (u32 f).

Definition rq_answer (rq : TTxRequest) : bool := bool_decide (Z.land (rq_flags rq) FRqAnswer <> 0).
Definition rq_break (rq : TTxRequest) : bool := bool_decide (Z.land (rq_flags rq) FBreakPacket <> 0).

(** ** State *)

Inductive TState := stReadyToTx | stWaitAnswer | stWaitRxComplete.

#[export] Instance TState_eq_dec : EqDecision TState.
Proof. solve_decision. Defined.

Section MasterTx.
Context {L : Type} `{Layer1Tx L}.

(** [reserved]: the byte of [TMsgReadBlock] that the code leaves unset. *)
Variable reserved : Z.

Record TMasterTx := mkMaster {
  mt_sn : Z;                       (* uint8_t *)
  mt_id : Z;                       (* uint8_t *)
  mt_txSize : Z;                   (* uint16_t *)
  mt_state : TState;
  mt_address : Z;                  (* uint16_t *)
  mt_timer : Z;                    (* uint32_t *)
  mt_timeoutSlaveAnswer : Z;
  mt_timeoutEndPacket : Z;
  mt_protocol : Inst L;
  mt_txQueue : TQueue TTxRequest;
}.

Definition mt_set_protocol p (m : TMasterTx) : TMasterTx :=
  mkMaster (mt_sn m) (mt_id m) (mt_txSize m) (mt_state m) (mt_address m) (mt_timer m)
    (mt_timeoutSlaveAnswer m) (mt_timeoutEndPacket m) p (mt_txQueue m).
Definition mt_set_queue q (m : TMasterTx) : TMasterTx :=
  mkMaster (mt_sn m) (mt_id m) (mt_txSize m) (mt_state m) (mt_address m) (mt_timer m)
    (mt_timeoutSlaveAnswer m) (mt_timeoutEndPacket m) (mt_protocol m) q.
Definition mt_set_sn n (m : TMasterTx) : TMasterTx :=
  mkMaster n (mt_id m) (mt_txSize m) (mt_state m) (mt_address m) (mt_timer m)
    (mt_timeoutSlaveAnswer m) (mt_timeoutEndPacket m) (mt_protocol m) (mt_txQueue m).
Definition mt_set_txSize n (m : TMasterTx) : TMasterTx :=
  mkMaster (mt_sn m) (mt_id m) n (mt_state m) (mt_address m) (mt_timer m)
    (mt_timeoutSlaveAnswer m) (mt_timeoutEndPacket m) (mt_protocol m) (mt_txQueue m).
Definition mt_set_address a (m : TMasterTx) : TMasterTx :=
  mkMaster (mt_sn m) (mt_id m) (mt_txSize m) (mt_state m) a (mt_timer m)
    (mt_timeoutSlaveAnswer m) (mt_timeoutEndPacket m) (mt_protocol m) (mt_txQueue m).
(** [state = st; timer = now] *)
Definition mt_goto st now (m : TMasterTx) : TMasterTx :=
  mkMaster (mt_sn m) (mt_id m) (mt_txSize m) st (mt_address m) now
    (mt_timeoutSlaveAnswer m) (mt_timeoutEndPacket m) (mt_protocol m) (mt_txQueue m).

(** The constructor; [address] is not initialised. *)
Definition TMasterTx_new (aid : Z) (p : Inst L) (q : TQueue TTxRequest) (t1 t2 address0 : Z) : TMasterTx :=
  mkMaster 0 aid 0 stReadyToTx address0 0 t1 t2 p q.

Definition getSeqNumber (m : TMasterTx) : TMasterTx * Z :=
  let s := mt_sn m in
  (mt_set_sn (if bool_decide (s >= 254) then 0 else u8 (s + 1)) m, s).

(** [sendPacket] of the class: [txSize] is cleared before it is used. *)
Definition mt_sendPacket (m : TMasterTx) : outcome (TMasterTx * bool) :=
  if bool_decide (mt_txSize m <> 0) then
    let m := mt_set_txSize 0 m in
    data ← checked (slice (l3_txPacket (pi_layer3 (mt_protocol m))) 0 (mt_txSize m));
    let '(l, k) := l1_write (mt_id m) data (pi_link (mt_protocol m)) in
    Ret (mt_set_protocol (set_link l (mt_protocol m)) m, bool_decide (k = mt_txSize m))
  else Ret (m, false).

Definition onRxSlaveData (now : Z) (m : TMasterTx) : TMasterTx :=
  if bool_decide (mt_state m = stReadyToTx) || bool_decide (mt_state m = stWaitRxComplete)
  then mt_goto stWaitRxComplete now m else m.

Definition onRxSlavePacket (now address : Z) (m : TMasterTx) : TMasterTx :=
  if bool_decide (mt_state m = stWaitAnswer) then mt_goto stWaitRxComplete now m else m.

Definition idle (m : TMasterTx) : bool := bool_decide (mt_state m = stReadyToTx).

(** The message of a request. *)
Definition request_message (sn : Z) (rq : TTxRequest) : option message :=
  let p0 := rq_parameter0 rq in let p1 := rq_parameter1 rq in
  if bool_decide (rq_type rq = MsgParameterWrite) then Some (MParameterWrite sn p0 p1)
  else if bool_decide (rq_type rq = MsgParameterRead) then Some (MParameterRead sn p0)
  else if bool_decide (rq_type rq = MsgReadBlock) then Some (MReadBlock sn p0 p1 reserved)
  else None.

(** The bytes given to the protocol: the message structure and, for an
    application message, the four bytes of the variable [data]. *)
Definition request_bytes (sn : Z) (rq : TTxRequest) : option (list Z * list Z) :=
  if bool_decide (rq_type rq = MsgAppType) then
    Some ([MsgAppType; u8 sn] ++ le2 (u16 (Z.shiftr (rq_parameter0 rq) 16)) ++
            le2 (Z.land (rq_parameter0 rq) 0xFFFF), le4 (rq_parameter1 rq))
  else
    m ← request_message sn rq; Some (message_header m, []).

(** [addMessage(rq, rqAnswer)]; the result of the protocol is ignored. *)
Definition mt_addMessage (rq : TTxRequest) (rqAnswer : bool) (m : TMasterTx) : outcome TMasterTx :=
  match request_bytes 0 rq with
  | None => Ret m
  | Some _ =>
      let '(m, sn) := if rqAnswer then getSeqNumber m else (m, 0xff) in
      '(msg, data) ← checked (request_bytes sn rq);
      '(p, _) ← inst_addMessage msg data (mt_protocol m);
      Ret (mt_set_txSize (inst_getTxDataSize p) (mt_set_protocol p m))
  end.

(** The loop that takes the following requests to the same address. *)
Fixpoint process_group (fuel : nat) (rqAnswer : bool) (m : TMasterTx) : outcome (TMasterTx * bool) :=
  match fuel with
  | O => Spin
  | S fuel =>
      r ← front (mt_txQueue m);
      match r with
      | None => Ret (m, rqAnswer)
      | Some rq =>
          if bool_decide (mt_address m = rq_address rq) then
            m ← mt_addMessage rq (rq_answer rq) m;
            let m := mt_set_queue (pop (mt_txQueue m)) m in
            let rqAnswer := rqAnswer || rq_answer rq in
            if negb (rq_break rq) && bool_decide (mt_txSize m < MaxTxSize)
            then process_group fuel rqAnswer m
            else Ret (m, rqAnswer)
          else Ret (m, rqAnswer)
      end
  end.

(** [process], in state [stReadyToTx]. *)
Definition process_ready (now : Z) (m : TMasterTx) : outcome TMasterTx :=
  if bool_decide (getTxFree (mt_id m) (pi_link (mt_protocol m)) <> 0) then
    r ← front (mt_txQueue m);
    match r with
    | None => Ret m
    | Some rq =>
        let m := mt_set_address (rq_address rq) m in
        let m := mt_set_protocol (inst_startTxPacket (mt_protocol m)) m in
        m ← mt_addMessage rq (rq_answer rq) m;
        let m := mt_set_queue (pop (mt_txQueue m)) m in
        g ← (if rq_break rq then Ret (m, rq_answer rq)
             else process_group (S (Z.to_nat (size (mt_txQueue m)))) (rq_answer rq) m);
        let m := fst g in let rqAnswer : bool := snd g in
        '(p, n) ← sendPacket_base (s16 (mt_address m)) (mt_protocol m);
        let m := mt_set_txSize n (mt_set_protocol p m) in
        Ret (if rqAnswer then mt_goto stWaitAnswer now m else m)
    end
  else Ret m.

Definition process (now : Z) (m : TMasterTx) : outcome TMasterTx :=
  match mt_state m with
  | stReadyToTx => process_ready now m
  | stWaitAnswer =>
      Ret (if TIMEOUT (mt_timer m) (mt_timeoutSlaveAnswer m) now then mt_goto stReadyToTx now m else m)
  | stWaitRxComplete =>
      Ret (if TIMEOUT (mt_timer m) (mt_timeoutEndPacket m) now then mt_goto stReadyToTx now m else m)
  end.

(** ** Specification *)

(** A request the program can queue: a known type; at most four bytes of
    application data ([addTxMsgApp] checks it). *)
Definition app_size (rq : TTxRequest) : Z := Z.land (rq_parameter0 rq) 0xFFFF.

Definition rq_ok (rq : TTxRequest) : bool :=
  bool_decide (rq_type rq = MsgParameterWrite) || bool_decide (rq_type rq = MsgParameterRead) ||
  bool_decide (rq_type rq = MsgReadBlock) ||
  (bool_decide (rq_type rq = MsgAppType) && bool_decide (app_size rq <= 4)).

(** The message a request stands for. *)
Definition message_of (sn : Z) (rq : TTxRequest) : message :=
  let p0 := rq_parameter0 rq in let p1 := rq_parameter1 rq in
  if bool_decide (rq_type rq = MsgAppType)
  then MAppType sn (Z.shiftr p0 16) (take (Z.to_nat (app_size rq)) (le4 p1))
  else default (MParameterRead sn p0) (request_message sn rq).

Definition request_size (rq : TTxRequest) : Z := Z.of_nat (length (message_bytes (message_of 0 rq))).

(** Sequence numbers: each answered request takes the next one. *)
Definition next_sn (sn : Z) : Z := if bool_decide (sn >= 254) then 0 else u8 (sn + 1).

Fixpoint messages_of (sn : Z) (rqs : list TTxRequest) : list message * Z :=
  match rqs with
  | [] => ([], sn)
  | rq :: rqs =>
      let m := message_of (if rq_answer rq then sn else 0xff) rq in
      let '(ms, sn') := messages_of (if rq_answer rq then next_sn sn else sn) rqs in
      (m :: ms, sn')
  end.

(** The requests that follow one of [size] bytes in all in the same packet,
    and the rest of the queue. *)
Fixpoint group (address size : Z) (q : list TTxRequest) : list TTxRequest * list TTxRequest :=
  match q with
  | [] => ([], [])
  | rq :: q' =>
      if bool_decide (address = rq_address rq) then
        if negb (rq_break rq) && bool_decide (size + request_size rq < MaxTxSize)
        then let '(g, rest) := group address (size + request_size rq) q' in (rq :: g, rest)
        else ([rq], q')
      else ([], q)
  end.

Definition first_group (rq : TTxRequest) (q : list TTxRequest) : list TTxRequest * list TTxRequest :=
  let '(g, rest) := if rq_break rq then ([], q) else group (rq_address rq) (request_size rq) q in
  (rq :: g, rest).

Lemma group_app address size q : q = (group address size q).1 ++ (group address size q).2.
Proof.
  revert size. induction q as [|rq q IH]; intros size; [done|]. simpl.
  case_bool_decide; [|done]. destruct (_ && _); [|done].
  specialize (IH (size + request_size rq)). destruct (group address _ q). simpl in *. by f_equal.
Qed.

(** *** One message *)

Lemma land_u16 z : 0 <= Z.land z 0xFFFF < 65536.
Proof. change 0xFFFF with (Z.ones 16). rewrite Z.land_ones by lia. apply Z.mod_pos_bound. lia. Qed.

Lemma rq_ok_cases rq :
  rq_ok rq = true ->
  rq_type rq = MsgAppType /\ 0 <= app_size rq <= 4 \/
  rq_type rq = MsgParameterWrite \/ rq_type rq = MsgParameterRead \/ rq_type rq = MsgReadBlock.
Proof.
  unfold rq_ok, app_size. pose proof (land_u16 (rq_parameter0 rq)). intros Hok.
  repeat (apply orb_true_iff in Hok as [Hok|Hok]); rewrite ?andb_true_iff, ?bool_decide_eq_true in Hok; auto.
  left. lia.
Qed.

(** Takes the four types of a well-formed request apart. *)
Ltac request_cases :=
  match goal with H : rq_ok ?rq = true |- _ =>
    apply rq_ok_cases in H as [[H ?]|[H|[H|H]]]; rewrite ?H
  end.

Lemma app_data_length rq : 0 <= app_size rq <= 4 ->
  length (take (Z.to_nat (app_size rq)) (le4 (rq_parameter1 rq))) = Z.to_nat (app_size rq).
Proof. intros. rewrite length_take. change (length (le4 _)) with 4%nat. lia. Qed.

(** The messages of fixed size have no data; an application message has its
    data in the variable. *)
Lemma message_of_fixed sn rq m :
  rq_type rq <> MsgAppType -> request_message sn rq = Some m ->
  message_of sn rq = m /\ message_body m = [] /\ 4 <= Z.of_nat (length (message_header m)) <= 8 /\
  request_bytes sn rq = Some (message_header m, []).
Proof.
  intros Hne Hm. unfold message_of, request_bytes. rewrite bool_decide_false by done. rewrite Hm.
  split_and!; [done| | | |done]; unfold request_message in Hm;
    repeat case_bool_decide; simplify_eq; cbn; done || lia.
Qed.

Lemma request_message_ok sn rq :
  rq_ok rq = true -> rq_type rq <> MsgAppType -> is_Some (request_message sn rq).
Proof. intros Hok Hne. unfold request_message. request_cases; [done|eauto..]. Qed.

Lemma message_of_app sn rq :
  rq_type rq = MsgAppType -> 0 <= app_size rq <= 4 ->
  let m := MAppType sn (Z.shiftr (rq_parameter0 rq) 16) (take (Z.to_nat (app_size rq)) (le4 (rq_parameter1 rq))) in
  message_of sn rq = m /\ Z.of_nat (length (message_body m)) = app_size rq /\ length (message_header m) = 6%nat /\
  request_bytes sn rq = Some (message_header m, le4 (rq_parameter1 rq)).
Proof.
  intros Ht Ha m. unfold message_of, request_bytes. rewrite !bool_decide_true by done.
  assert (Z.of_nat (length (message_body m)) = app_size rq) as Hl
    by (cbn [m message_body]; rewrite app_data_length by done; lia).
  split_and!; [done|done|done|]. subst m. unfold message_header, message_id. cbn [message_body] in Hl.
  rewrite Hl. done.
Qed.

Lemma request_size_bounds sn rq :
  rq_ok rq = true -> message_ok (message_of sn rq) /\ 4 <= Z.of_nat (length (message_bytes (message_of sn rq))) <= 10.
Proof.
  intros Hok. destruct (decide (rq_type rq = MsgAppType)) as [Ht|Hne].
  - assert (0 <= app_size rq <= 4) as Ha by (request_cases; [done|rewrite Ht in *; discriminate..]).
    destruct (message_of_app sn rq Ht Ha) as (-> & Hb & Hh & _). set (m := MAppType _ _ _) in *.
    rewrite message_bytes_length, Hb, Hh. split; [|lia]. split; [apply Forall_take, le4_bytes|lia].
  - destruct (request_message_ok sn rq Hok Hne) as [m Hm].
    destruct (message_of_fixed sn rq m Hne Hm) as (-> & Hb & Hh & _).
    rewrite message_bytes_length. unfold message_ok. rewrite Hb. cbn [length].
    split; [split; [constructor|lia]|lia].
Qed.

(** The size does not depend on the sequence number. *)
Lemma request_size_sn sn rq : Z.of_nat (length (message_bytes (message_of sn rq))) = request_size rq.
Proof.
  unfold request_size, message_of, request_message. destruct (bool_decide (rq_type rq = MsgAppType)); [done|].
  repeat (destruct (bool_decide _); [done|]). done.
Qed.

Lemma request_bytes_message sn rq :
  rq_ok rq = true -> exists junk, request_bytes sn rq =
    Some (message_header (message_of sn rq), message_body (message_of sn rq) ++ junk).
Proof.
  intros Hok. destruct (decide (rq_type rq = MsgAppType)) as [Ht|Hne].
  - assert (0 <= app_size rq <= 4) as Ha by (request_cases; [done|rewrite Ht in *; discriminate..]).
    destruct (message_of_app sn rq Ht Ha) as (-> & _ & _ & ->).
    exists (drop (Z.to_nat (app_size rq)) (le4 (rq_parameter1 rq))). cbn [message_body]. by rewrite take_drop.
  - destruct (request_message_ok sn rq Hok Hne) as [m Hm].
    destruct (message_of_fixed sn rq m Hne Hm) as (-> & -> & _ & ->). by exists [].
Qed.

(** [m'] is [m] after the messages [ms] were added to the outgoing packet. *)
Record extended (m m' : TMasterTx) (ms : list message) : Prop := {
  ext_fields : (mt_id m', mt_state m', mt_address m', mt_timer m', mt_timeoutSlaveAnswer m', mt_timeoutEndPacket m') =
    (mt_id m, mt_state m, mt_address m, mt_timer m, mt_timeoutSlaveAnswer m, mt_timeoutEndPacket m);
  ext_protocol : exists p i, mt_protocol m' = set_layer3 (set_tx p i (pi_layer3 (mt_protocol m))) (mt_protocol m);
  ext_tx : tx_inv (pi_layer3 (mt_protocol m'));
  ext_contents : tx_contents (pi_layer3 (mt_protocol m')) = tx_contents (pi_layer3 (mt_protocol m)) ++ messages_bytes ms;
  ext_txSize : mt_txSize m' = l3_txIndex (pi_layer3 (mt_protocol m'));
}.

Lemma messages_bytes_app ms1 ms2 : messages_bytes (ms1 ++ ms2) = messages_bytes ms1 ++ messages_bytes ms2.
Proof. unfold messages_bytes. by rewrite fmap_app, concat_app. Qed.

Lemma extended_trans m1 m2 m3 ms1 ms2 :
  extended m1 m2 ms1 -> extended m2 m3 ms2 -> extended m1 m3 (ms1 ++ ms2).
Proof.
  intros [F1 (p1 & i1 & P1) T1 C1 S1] [F2 (p2 & i2 & P2) T2 C2 S2].
  constructor; [congruence| |done| |done].
  - exists p2, i2. rewrite P2, P1. by destruct (mt_protocol m1).
  - by rewrite C2, C1, messages_bytes_app, app_assoc.
Qed.

Lemma extended_max m m' ms :
  extended m m' ms -> l3_maxTxAppSize (pi_layer3 (mt_protocol m')) = l3_maxTxAppSize (pi_layer3 (mt_protocol m)).
Proof. intros [_ (p & i & ->) _ _ _]. done. Qed.

Lemma mt_addMessage_ok rq m :
  rq_ok rq = true -> tx_inv (pi_layer3 (mt_protocol m)) ->
  l3_txIndex (pi_layer3 (mt_protocol m)) + 10 <= l3_maxTxAppSize (pi_layer3 (mt_protocol m)) ->
  exists m', mt_addMessage rq (rq_answer rq) m = Ret m' /\
    extended m m' [message_of (if rq_answer rq then mt_sn m else 0xff) rq] /\
    mt_txQueue m' = mt_txQueue m /\ mt_sn m' = (if rq_answer rq then next_sn (mt_sn m) else mt_sn m) /\
    mt_txSize m' = l3_txIndex (pi_layer3 (mt_protocol m)) + request_size rq.
Proof.
  intros Hok Htx Hroom. unfold mt_addMessage.
  destruct (request_bytes_message 0 rq Hok) as (j0 & ->).
  set (m1 := if rq_answer rq then mt_set_sn (next_sn (mt_sn m)) m else m).
  set (sn := if rq_answer rq then mt_sn m else 0xff).
  assert ((if rq_answer rq then getSeqNumber m else (m, 0xff)) = (m1, sn)) as ->
    by (subst m1 sn; by destruct (rq_answer rq)).
  destruct (request_bytes_message sn rq Hok) as (j & ->). cbn [checked mbind outcome_bind].
  destruct (request_size_bounds sn rq Hok) as (Hmok & Hb). pose proof (request_size_sn sn rq) as Hsz.
  assert (mt_protocol m1 = mt_protocol m) as -> by (subst m1; by destruct (rq_answer rq)).
  pose proof (addMessage_added (message_of sn rq) (pi_layer3 (mt_protocol m)) [] j Htx Hmok) as Hadd.
  unfold added in Hadd. rewrite bool_decide_true in Hadd by lia. rewrite app_nil_r in Hadd.
  destruct Hadd as (p & Hadd & Hp1 & Hp2 & Hp3). unfold inst_addMessage. rewrite Hadd.
  cbn [mbind outcome_bind]. rewrite bool_decide_false by done. cbn [mbind outcome_bind].
  eexists. split; [done|]. split_and!.
  - constructor; cbn [mt_protocol mt_set_txSize mt_set_protocol pi_layer3 set_layer3]; try done.
    + subst m1. by destruct (rq_answer rq).
    + eauto.
    + rewrite Hp2. unfold messages_bytes. cbn. by rewrite app_nil_r.
  - subst m1. by destruct (rq_answer rq).
  - subst m1. by destruct (rq_answer rq).
  - rewrite <-Hsz. reflexivity.
Qed.

(** *** The group *)

Lemma process_group_ok q fuel ans m :
  tq_rep (mt_txQueue m) q -> forallb rq_ok q = true -> (length q < fuel)%nat ->
  tx_inv (pi_layer3 (mt_protocol m)) -> l3_maxTxAppSize (pi_layer3 (mt_protocol m)) = 244 ->
  mt_txSize m = l3_txIndex (pi_layer3 (mt_protocol m)) -> mt_txSize m <= 137 ->
  let '(g, rest) := group (mt_address m) (mt_txSize m) q in
  let '(ms, sn') := messages_of (mt_sn m) g in
  exists m', process_group fuel ans m = Ret (m', ans || existsb rq_answer g) /\
    extended m m' ms /\ tq_rep (mt_txQueue m') rest /\ mt_sn m' = sn' /\ mt_txSize m' <= 147.
Proof.
  revert fuel ans m. induction q as [|rq q IH]; intros fuel ans m Hq Hok Hfuel Htx Hmax Hsz Hle;
    (destruct fuel as [|fuel]; [simpl in Hfuel; lia|]); cbn [process_group].
  - rewrite (front_rep _ _ Hq). simpl. exists m. rewrite orb_false_r. split; [done|].
    split; [|split_and!; [done|done|lia]]. constructor; try done; [|by rewrite app_nil_r].
    exists (l3_txPacket (pi_layer3 (mt_protocol m))), (l3_txIndex (pi_layer3 (mt_protocol m))).
    destruct (mt_protocol m) as [? ? []]. done.
  - rewrite (front_rep _ _ Hq). cbn [head mbind outcome_bind group].
    cbn [forallb] in Hok. apply andb_true_iff in Hok as [Hrq Hok].
    case_bool_decide as Haddr.
    2: { exists m. rewrite orb_false_r. split; [done|]. split; [|split_and!; [done|done|lia]].
         constructor; try done; [|by rewrite app_nil_r].
         exists (l3_txPacket (pi_layer3 (mt_protocol m))), (l3_txIndex (pi_layer3 (mt_protocol m))).
         destruct (mt_protocol m) as [? ? []]. done. }
    destruct (mt_addMessage_ok rq m Hrq Htx) as (m1 & -> & Hext & Hq1 & Hsn1 & Hsz1); [lia|].
    destruct (request_size_bounds 0 rq Hrq) as (_ & Hb). rewrite request_size_sn in Hb.
    cbn [mbind outcome_bind]. destruct (pop_rep _ _ Hq) as [Hpop _]. cbn [tail] in Hpop.
    set (m2 := mt_set_queue (pop (mt_txQueue m1)) m1).
    assert (tq_rep (mt_txQueue m2) q) as Hq2 by (cbn; by rewrite Hq1).
    assert (extended m m2 [message_of (if rq_answer rq then mt_sn m else 0xff) rq]) as Hext2
      by (destruct Hext; by constructor).
    rewrite <-Hsz in Hsz1. change (mt_txSize m2) with (mt_txSize m1). rewrite Hsz1.
    change (size (mt_txQueue m1)) with (size (mt_txQueue m1)).
    destruct (negb (rq_break rq) && bool_decide (mt_txSize m + request_size rq < MaxTxSize)) eqn:Hmore.
    + apply andb_true_iff in Hmore as [_ Hmore%bool_decide_eq_true]. unfold MaxTxSize in Hmore.
      specialize (IH fuel (ans || rq_answer rq) m2 Hq2 Hok).
      assert (mt_address m2 = mt_address m) as Ha by (pose proof (ext_fields _ _ _ Hext2); congruence).
      assert (mt_txSize m2 = mt_txSize m + request_size rq) as Hs2 by (cbn; done).
      assert (mt_sn m2 = (if rq_answer rq then next_sn (mt_sn m) else mt_sn m)) as Hn2 by (cbn; done).
      rewrite Ha, Hs2, Hn2 in IH.
      assert (forall X : Prop, ((length q < fuel)%nat -> tx_inv (pi_layer3 (mt_protocol m2)) ->
        l3_maxTxAppSize (pi_layer3 (mt_protocol m2)) = 244 ->
        mt_txSize m + request_size rq = l3_txIndex (pi_layer3 (mt_protocol m2)) ->
        mt_txSize m + request_size rq <= 137 -> X) -> X) as Hside.
      { intros X HX. apply HX; [simpl in Hfuel; lia|apply Hext2|rewrite (extended_max _ _ _ Hext2); done| |lia].
        rewrite <-Hs2. apply Hext2. }
      apply (Hside _) in IH. clear Hside.
      destruct (group (mt_address m) (mt_txSize m + request_size rq) q) as [g rest]. cbn [messages_of].
      destruct (messages_of _ g) as [ms sn']. destruct IH as (m' & -> & He & Hr & Hn & Hs').
      exists m'. cbn [existsb]. rewrite orb_assoc. split; [done|].
      split; [|done]. by apply (extended_trans m m2 m' [_] ms).
    + exists m2. cbn [messages_of existsb]. rewrite orb_false_r. split; [done|].
      split_and!; [done|done|done|]. change (mt_txSize m2) with (mt_txSize m1). lia.
Qed.

(** *** One packet *)

(** The sender between two packets: an empty packet of the program's size,
    and a queue of requests it can send. *)
Record master_inv (m : TMasterTx) (q : list TTxRequest) : Prop := {
  mi_queue : tq_rep (mt_txQueue m) q;
  mi_requests : forallb rq_ok q = true;
  mi_max : l3_maxTxAppSize (pi_layer3 (mt_protocol m)) = 244;
  mi_packet : off_data + 244 <= Z.of_nat (length (l3_txPacket (pi_layer3 (mt_protocol m))));
}.

Lemma extended_length m m' ms :
  extended m m' ms -> tx_inv (pi_layer3 (mt_protocol m)) ->
  off_data + l3_maxTxAppSize (pi_layer3 (mt_protocol m)) <=
    Z.of_nat (length (l3_txPacket (pi_layer3 (mt_protocol m')))).
Proof. intros He _. rewrite <-(extended_max _ _ _ He). apply He. Qed.

Lemma first_group_app rq q : rq :: q = (first_group rq q).1 ++ (first_group rq q).2.
Proof.
  unfold first_group. destruct (rq_break rq); [done|].
  pose proof (group_app (rq_address rq) (request_size rq) q) as E. destruct (group _ _ q). simpl in *. by f_equal.
Qed.

Lemma forallb_app_r {A} (f : A -> bool) l1 l2 : forallb f (l1 ++ l2) = true -> forallb f l2 = true.
Proof. rewrite forallb_app. by intros [_ ?]%andb_true_iff. Qed.

(** The packet for the first group of the queue. *)
Definition group_packet (g : list TTxRequest) (rq : TTxRequest) (m : TMasterTx) : list Z :=
  frame (packet_dest (s16 (rq_address rq)) (mt_protocol m)) (l2_selfAddress (pi_layer2 (mt_protocol m)))
    (messages_bytes (messages_of (mt_sn m) g).1).

(** What one round of the sender does with a non-empty queue. *)
Definition sent_group (now : Z) (m : TMasterTx) (rq : TTxRequest) (q : list TTxRequest) (m' : TMasterTx) : Prop :=
  let '(g, rest) := first_group rq q in
  let answer := existsb rq_answer g in
  master_inv m' rest /\
  mt_sn m' = (messages_of (mt_sn m) g).2 /\
  mt_state m' = (if answer then stWaitAnswer else stReadyToTx) /\
  mt_timer m' = (if answer then now else mt_timer m) /\
  mt_address m' = rq_address rq /\
  pi_link (mt_protocol m') = link_after (group_packet g rq m) (mt_protocol m) /\
  (mt_id m', mt_timeoutSlaveAnswer m', mt_timeoutEndPacket m') =
    (mt_id m, mt_timeoutSlaveAnswer m, mt_timeoutEndPacket m).

Lemma mt_started_inv m q a :
  master_inv m q -> tx_inv (pi_layer3 (mt_protocol (mt_set_protocol (inst_startTxPacket (mt_protocol m)) (mt_set_address a m)))).
Proof. intros [_ _ Hm Hp]. constructor; cbn; rewrite ?Hm; unw; lia || done. Qed.

(** The messages of the first group are in the packet when it is closed. *)
Lemma process_collect m rq q :
  master_inv m (rq :: q) ->
  let '(g, rest) := first_group rq q in
  let m0 := mt_set_protocol (inst_startTxPacket (mt_protocol m)) (mt_set_address (rq_address rq) m) in
  exists m1 m2,
    mt_addMessage rq (rq_answer rq) m0 = Ret m1 /\
    (if rq_break rq then Ret (mt_set_queue (pop (mt_txQueue m1)) m1, rq_answer rq)
     else process_group (S (Z.to_nat (size (mt_txQueue (mt_set_queue (pop (mt_txQueue m1)) m1))))) (rq_answer rq)
            (mt_set_queue (pop (mt_txQueue m1)) m1)) = Ret (m2, existsb rq_answer g) /\
    extended m0 m2 (messages_of (mt_sn m) g).1 /\ tq_rep (mt_txQueue m2) rest /\
    mt_sn m2 = (messages_of (mt_sn m) g).2 /\ 0 < mt_txSize m2.
Proof.
  intros Hinv. pose proof Hinv as [Hq Hok Hmax Hpk]. cbn [forallb] in Hok.
  apply andb_true_iff in Hok as [Hrq Hok]. pose proof (mt_started_inv m _ (rq_address rq) Hinv) as Htx.
  unfold first_group. set (m0 := mt_set_protocol _ _).
  destruct (mt_addMessage_ok rq m0 Hrq Htx) as (m1 & Hadd & Hext & Hq1 & Hsn1 & Hsz1); [cbn; lia|].
  pose proof (request_size_bounds 0 rq Hrq) as [_ Hb]. rewrite request_size_sn in Hb.
  cbn [l3_txIndex pi_layer3 mt_protocol m0 mt_set_protocol] in Hsz1.
  change (l3_txIndex _) with 0 in Hsz1. rewrite Z.add_0_l in Hsz1.
  destruct (pop_rep _ _ Hq) as [Hpop _]. cbn [tail] in Hpop.
  assert (tq_rep (mt_txQueue (mt_set_queue (pop (mt_txQueue m1)) m1)) q) as Hq1' by (cbn; by rewrite Hq1).
  set (m1' := mt_set_queue _ m1) in *.
  assert (extended m0 m1' [message_of (if rq_answer rq then mt_sn m else 0xff) rq]) as Hext1
    by (destruct Hext; by constructor).
  destruct (rq_break rq).
  - exists m1, m1'. cbn [messages_of existsb fst snd]. rewrite orb_false_r.
    split_and!; [done|done|done|done|done|]. change (mt_txSize m1') with (mt_txSize m1). lia.
  - assert (mt_address m1' = rq_address rq) as Ha by (pose proof (ext_fields _ _ _ Hext1); cbn in *; congruence).
    pose proof (process_group_ok q (S (Z.to_nat (size (mt_txQueue m1')))) (rq_answer rq) m1' Hq1' Hok) as Hg.
    change (mt_txSize m1') with (mt_txSize m1) in Hg. rewrite Ha, Hsz1 in Hg.
    change (mt_sn m1') with (mt_sn m1) in Hg. rewrite Hsn1 in Hg. change (mt_sn m0) with (mt_sn m) in Hg.
    destruct (group (rq_address rq) (request_size rq) q) as [g rest]. cbn [messages_of existsb].
    destruct (messages_of _ g) as [ms sn'].
    destruct Hg as (m2 & Hg & Hext2 & Hrest & Hsn & _).
    { destruct Hq1' as [Hi <-]. rewrite <-(tq_contents_length _ Hi). lia. }
    { apply Hext1. }
    { rewrite (extended_max _ _ _ Hext1). done. }
    { rewrite <-Hsz1. apply Hext1. }
    { lia. }
    exists m1, m2. pose proof (extended_trans m0 m1' m2 [_] ms Hext1 Hext2) as Hext3.
    split_and!; [done|done|done|done|done|]. rewrite (ext_txSize _ _ _ Hext3).
    rewrite <-(tx_contents_length _ (ext_tx _ _ _ Hext3)), (ext_contents _ _ _ Hext3), messages_bytes_app, !length_app.
    unfold messages_bytes at 1. cbn [fmap list_fmap concat]. rewrite app_nil_r.
    rewrite Nat2Z.inj_add, Nat2Z.inj_add, request_size_sn. lia.
Qed.

Lemma process_ready_ok now m rq q :
  master_inv m (rq :: q) -> getTxFree (mt_id m) (pi_link (mt_protocol m)) <> 0 ->
  exists m', process_ready now m = Ret m' /\
    (mt_state m = stReadyToTx -> sent_group now m rq q m').
Proof.
  intros Hinv Hfree. pose proof (process_collect m rq q Hinv) as Hcol.
  pose proof (first_group_app rq q) as Happ. unfold sent_group.
  destruct (first_group rq q) as [g rest] eqn:Eg. cbn [fst snd] in Happ.
  destruct Hcol as (m1 & m2 & Hadd & Hgrp & Hext & Hrest & Hsn & Hpos).
  set (m0 := mt_set_protocol _ _) in *. unfold process_ready.
  rewrite bool_decide_true by done. rewrite (front_rep _ _ (mi_queue _ _ Hinv)).
  cbn [head mbind outcome_bind].
  match goal with |- context [mt_addMessage rq _ ?x] => change x with m0 end. rewrite Hadd. cbn [mbind outcome_bind].
  rewrite Hgrp. cbn [mbind outcome_bind fst snd].
  pose proof (ext_tx _ _ _ Hext) as Htx2. pose proof (extended_max _ _ _ Hext) as Hmax2.
  change (l3_maxTxAppSize (pi_layer3 (mt_protocol m0))) with (l3_maxTxAppSize (pi_layer3 (mt_protocol m))) in Hmax2.
  rewrite (mi_max _ _ Hinv) in Hmax2.
  destruct (sendPacket_base_pending (s16 (mt_address m2)) (mt_protocol m2) Htx2) as (p & k & -> & Hp).
  { rewrite <-(ext_txSize _ _ _ Hext). lia. } { rewrite Hmax2. lia. }
  cbn [mbind outcome_bind]. eexists. split; [done|]. intros Hst.
  pose proof (ext_fields _ _ _ Hext) as Hf. cbn in Hf.
  assert (mt_address m2 = rq_address rq) as Ha by congruence. rewrite Ha.
  destruct (ext_protocol _ _ _ Hext) as (b & i & Hpr). pose proof (ext_contents _ _ _ Hext) as Hc.
  change (tx_contents (pi_layer3 (mt_protocol m0))) with (@nil Z) in Hc. rewrite app_nil_l in Hc.
  assert (group_packet g rq m = frame (packet_dest (s16 (rq_address rq)) (mt_protocol m2))
    (l2_selfAddress (pi_layer2 (mt_protocol m2))) (tx_contents (pi_layer3 (mt_protocol m2)))) as ->.
  { rewrite Hc. unfold group_packet. by rewrite Hpr. }
  set (packet := frame _ _ _). set (l3 := set_tx p 0 _) in *.
  assert (link_after packet (mt_protocol m) = link_after packet (mt_protocol m2)) as -> by (by rewrite Hpr).
  split_and!.
  - constructor.
    + by destruct (existsb rq_answer g).
    + eapply (forallb_app_r rq_ok g). rewrite <-Happ. apply Hinv.
    + destruct (existsb rq_answer g); cbn; done.
    + pose proof (inv_txPacket _ Hp) as Hl. change (l3_maxTxAppSize l3) with (l3_maxTxAppSize (pi_layer3 (mt_protocol m2))) in Hl.
      rewrite Hmax2 in Hl. by destruct (existsb rq_answer g).
  - by destruct (existsb rq_answer g).
  - destruct (existsb rq_answer g); cbn; congruence.
  - destruct (existsb rq_answer g); cbn; congruence.
  - destruct (existsb rq_answer g); cbn; congruence.
  - by destruct (existsb rq_answer g).
  - destruct (existsb rq_answer g); cbn; congruence.
Qed.

Lemma group_address address size q : Forall (fun rq => rq_address rq = address) (group address size q).1.
Proof.
  revert size. induction q as [|rq q IH]; intros size; [constructor|]. simpl. case_bool_decide; [|constructor].
  destruct (_ && _); [|by repeat constructor]. specialize (IH (size + request_size rq)).
  destruct (group _ _ q). by constructor.
Qed.

Lemma first_group_address rq q : Forall (fun r => rq_address r = rq_address rq) (first_group rq q).1.
Proof.
  unfold first_group. destruct (rq_break rq); [by repeat constructor|].
  pose proof (group_address (rq_address rq) (request_size rq) q). destruct (group _ _ q). by constructor.
Qed.

(** C3: One round of the sender, with a non-empty queue and room in the
    link.  The requests taken are the longest run at the head of the queue
    that go to one address, up to the request that is marked as the last one
    or that fills the packet to 128 bytes; they leave the queue, the rest stays
    in order.  Exactly their messages, numbered from the current sequence
    number on (0xff when no answer is wanted), go out as one packet to that
    address (the link takes it if it has more room than its size, otherwise it
    is lost).  The sender then waits for an answer from now on if one of them
    asks for it, and stays ready otherwise. *)
Theorem process_sends_group (now : Z) (m : TMasterTx) (rq : TTxRequest) (q : list TTxRequest) :
  master_inv m (rq :: q) -> mt_state m = stReadyToTx ->
  getTxFree (mt_id m) (pi_link (mt_protocol m)) <> 0 ->
  let '(g, rest) := first_group rq q in
  let answer := existsb rq_answer g in
  let packet := frame (packet_dest (s16 (rq_address rq)) (mt_protocol m))
    (l2_selfAddress (pi_layer2 (mt_protocol m))) (messages_bytes (messages_of (mt_sn m) g).1) in
  rq :: q = g ++ rest /\ Forall (fun r => rq_address r = rq_address rq) g /\
  exists m', process now m = Ret m' /\ master_inv m' rest /\
    pi_link (mt_protocol m') = link_after packet (mt_protocol m) /\
    mt_sn m' = (messages_of (mt_sn m) g).2 /\ mt_address m' = rq_address rq /\
    mt_state m' = (if answer then stWaitAnswer else stReadyToTx) /\
    mt_timer m' = (if answer then now else mt_timer m).
Proof.
  intros Hinv Hst Hfree. pose proof (first_group_app rq q) as Happ. pose proof (first_group_address rq q) as Hadr.
  destruct (process_ready_ok now m rq q Hinv Hfree) as (m' & Hp & Hs). specialize (Hs Hst).
  unfold sent_group in Hs. destruct (first_group rq q) as [g rest]. cbn [fst snd] in *. destruct_and! Hs.
  split_and!; [done|done|]. exists m'. unfold process. rewrite Hst. split_and!; done.
Qed.

(** *** Progress *)

(** The loop of the program: [process] called at the given times. *)
Fixpoint process_at (times : list Z) (m : TMasterTx) : outcome TMasterTx :=
  match times with
  | [] => Ret m
  | now :: times => m ← process now m; process_at times m
  end.

(** Consecutive times are a timeout apart. *)
Fixpoint spaced (T prev : Z) (times : list Z) : Prop :=
  match times with
  | [] => True
  | now :: times => TIMEOUT prev T now = true /\ spaced T now times
  end.

Lemma first_group_shorter rq q : (length (first_group rq q).2 <= length q)%nat.
Proof.
  pose proof (first_group_app rq q) as E. apply (f_equal length) in E. rewrite length_app in E.
  cbn [length] in E. assert (1 <= length (first_group rq q).1)%nat; [|lia].
  unfold first_group. destruct (if rq_break rq then _ else _). simpl. lia.
Qed.

Lemma process_idle now m : master_inv m [] -> mt_state m = stReadyToTx -> process now m = Ret m.
Proof.
  intros Hinv Hst. unfold process, process_ready. rewrite Hst.
  case_bool_decide; [|done]. by rewrite (front_rep _ _ (mi_queue _ _ Hinv)).
Qed.

Lemma process_at_drains times prev m q :
  (forall l, getTxFree (mt_id m) l <> 0) -> master_inv m q -> spaced (mt_timeoutSlaveAnswer m) prev times ->
  (mt_state m = stReadyToTx /\ (2 * length q <= length times)%nat \/
   mt_state m = stWaitAnswer /\ mt_timer m = prev /\ (S (2 * length q) <= length times)%nat) ->
  exists m', process_at times m = Ret m' /\ master_inv m' [] /\
    (mt_state m' = stReadyToTx \/ mt_state m' = stWaitAnswer).
Proof.
  revert prev m q. induction times as [|now times IH]; intros prev m q Hfree Hinv Hsp Hst.
  { cbn [length] in Hst. destruct q; [|cbn in Hst; exfalso; destruct_and?; destruct Hst as [[? ?]|(? & ? & ?)]; lia].
    exists m. split_and!; [done|done|]. naive_solver. }
  cbn [spaced] in Hsp. destruct Hsp as [Hto Hsp]. cbn [process_at].
  destruct Hst as [[Hst Hlen]|(Hst & Htm & Hlen)]; cbn [length] in Hlen.
  - destruct q as [|rq q].
    + rewrite (process_idle now m Hinv Hst). cbn [mbind outcome_bind].
      eapply (IH now); [done|done|done|]. left. cbn. split; [done|lia].
    + destruct (process_ready_ok now m rq q Hinv (Hfree _)) as (m' & Hp & Hs). specialize (Hs Hst).
      unfold process. rewrite Hst, Hp. cbn [mbind outcome_bind]. cbn [length] in Hlen.
      pose proof (first_group_shorter rq q) as Hsh. unfold sent_group in Hs.
      destruct (first_group rq q) as [g rest]. cbn [snd] in Hsh.
      destruct Hs as (Hi' & _ & Hst' & Htm' & _ & _ & Hf). injection Hf as Hid HT _.
      apply (IH now m' rest); [by rewrite Hid|done|by rewrite HT|].
      destruct (existsb rq_answer g); [right|left]; split_and!; done || lia.
  - unfold process. rewrite Hst, Htm, Hto. cbn [mbind outcome_bind].
    apply (IH now _ q); [done| |done|].
    + destruct Hinv. by constructor.
    + left. cbn. split; [done|lia].
Qed.

(** C36: Every request is sent.  Whatever the slaves do not answer, when the
    sender is called at times at least one answer timeout apart and the link
    always has some room, then 2n + 1 calls are enough to empty a queue of n
    requests, whether the sender starts ready or waiting for an answer. *)
Theorem process_drains_queue (times : list Z) (prev : Z) (m : TMasterTx) (q : list TTxRequest) :
  (forall l, getTxFree (mt_id m) l <> 0) -> master_inv m q -> spaced (mt_timeoutSlaveAnswer m) prev times ->
  mt_state m = stReadyToTx \/ mt_state m = stWaitAnswer /\ mt_timer m = prev ->
  (S (2 * length q) <= length times)%nat ->
  exists m', process_at times m = Ret m' /\ empty (mt_txQueue m') = true.
Proof.
  intros Hfree Hinv Hsp Hst Hlen.
  destruct (process_at_drains times prev m q Hfree Hinv Hsp) as (m' & Hp & Hi & _).
  { destruct Hst as [?|[? ?]]; [left|right]; split_and!; done || lia. }
  exists m'. split; [done|]. destruct (mi_queue _ _ Hi) as [Hq Hc].
  unfold empty. apply (size_range _ Hq). rewrite <-tq_contents_length, Hc by done. done.
Qed.

(** *** Sequence numbers *)

Fixpoint seq_numbers (n : nat) (m : TMasterTx) : TMasterTx * list Z :=
  match n with
  | O => (m, [])
  | S n => let '(m, s) := getSeqNumber m in let '(m, l) := seq_numbers n m in (m, s :: l)
  end.

(** The sequence numbers run through 0, 1, .., 254 and start again: the
    i-th number after [sn] is (sn + i) mod 255.  So 0xff, which marks a
    request without answer, is never given out, and two requests share a
    number only if a multiple of 255 lies between them; 0xfe, reserved for
    messages a device sends on its own, is given out once per turn. *)
Theorem getSeqNumber_cycle (n : nat) (m : TMasterTx) :
  0 <= mt_sn m <= 254 ->
  (seq_numbers n m).2 = map (fun i => (mt_sn m + Z.of_nat i) mod 255) (seq 0 n) /\
  mt_sn (seq_numbers n m).1 = (mt_sn m + Z.of_nat n) mod 255.
Proof.
  revert m. induction n as [|n IH]; intros m Hm; cbn [seq_numbers fst snd].
  { split; [done|]. rewrite Z.mod_small; lia. }
  cbn [getSeqNumber]. set (m1 := mt_set_sn _ m).
  assert (mt_sn m1 = (mt_sn m + 1) mod 255) as H1.
  { subst m1. cbn. case_bool_decide; unfold u8; Z.to_euclidean_division_equations; lia. }
  destruct (IH m1) as [IH1 IH2]; [rewrite H1; pose proof (Z.mod_pos_bound (mt_sn m + 1) 255); lia|].
  destruct (seq_numbers n m1) as [m2 l]. cbn [fst snd] in *. rewrite IH1, IH2, H1. split.
  - cbn [seq map]. f_equal; [rewrite Z.mod_small; lia|]. rewrite <-seq_shift, map_map. apply map_ext.
    intros i. rewrite Zplus_mod_idemp_l. f_equal. lia.
  - rewrite Zplus_mod_idemp_l. f_equal. lia.
Qed.

End MasterTx.
Arguments TMasterTx L : clear implicits.


(** ** Witnesses *)

(** A link that records the packets and always has room. *)
Definition roomy_link : Layer1Tx (list (list Z)) :=
  {| getTxFree _ _ := 256; l1_write _ d l := (l ++ [d], Z.of_nat (length d)) |}.
#[local] Existing Instance roomy_link.

Definition demo_requests : list TTxRequest :=
  [TTxRequest_new MsgParameterRead 7 14 0 FRqAnswer; TTxRequest_new MsgAppType 7 0x100002 0x0201 0;
   TTxRequest_new MsgParameterWrite 8 3 1 FRqAnswer].

Definition demo_master : TMasterTx (list (list Z)) :=
  TMasterTx_new 1 demo_inst (mkTQueue 4 0 3 (demo_requests ++ [TTxRequest_new 0 0 0 0 0]) false false) 1000 5 0.

Lemma demo_master_inv : master_inv demo_master demo_requests.
Proof.
  constructor; [|by vm_compute..]. split; [|by vm_compute].
  constructor; by vm_compute.
Qed.

Lemma process_sends_group_witness :
  exists m', process 0 500 demo_master = Ret m' /\
    master_inv m' [TTxRequest_new MsgParameterWrite 8 3 1 FRqAnswer] /\
    pi_link (mt_protocol m') =
      [frame 7 9 (messages_bytes [MParameterRead 0 14; MAppType 0xff 0x10 [1; 2]])] /\
    mt_state m' = stWaitAnswer /\ mt_timer m' = 500.
Proof.
  destruct (process_sends_group 0 500 demo_master _ _ demo_master_inv) as (_ & _ & m' & H1 & H2 & H3 & _ & _ & H4 & H5);
    [done|done|].
  exists m'. split_and!; [exact H1|exact H2| |exact H4|exact H5]. rewrite H3. vm_compute. reflexivity.
Defined.

Lemma process_drains_queue_witness :
  exists m', process_at 0 [1000; 2000; 3000; 4000; 5000; 6000; 7000] demo_master = Ret m' /\
    empty (mt_txQueue m') = true.
Proof.
  apply (process_drains_queue 0 _ 0 demo_master demo_requests); [done|exact demo_master_inv| |by left|simpl; lia].
  by repeat split.
Defined.

Lemma getSeqNumber_cycle_witness :
  (seq_numbers 3 (mt_set_sn 253 demo_master)).2 = [253; 254; 0] /\
  mt_sn (seq_numbers 3 (mt_set_sn 253 demo_master)).1 = 1.
Proof. apply (getSeqNumber_cycle 3 (mt_set_sn 253 demo_master)). cbn. lia. Defined.
