(* ===== verification/ProtocolApp.v ===== *)
(** * The protocol module of the application ([src/protocol/protocol.cpp])

    The queue of requests to the slaves on the local bus, with the functions
    that fill it, and the link to the host (HI_IO): the protocol it currently
    speaks and the payload that goes with it.  The sender of the requests is
    [MasterTx], the instance behind both links is [Protocol].  The code under
    [LINK_ID_EXTERNAL] is not part of the configuration (the symbol is not
    defined), nor of the model. *)

From S2P Require Import Prelude Crc16 Layer2 Layer3 Ring TQueue TBuffer HalBase Protocol MasterTx.

Definition PROTOCOL_BROADCAST_ADDRESS : Z := 0xff.
Definition PROTOCOL_RX_TIMEOUT : Z := 5.
Definition TIMEOUT_SLAVE_ANSWER_LOC : Z := 20.
Definition TIMEOUT_END_PACKET_LOC : Z := 2.
Definition TX_RQ_N_LOC : Z := 16.
Definition MAX_TX_APP_SIZE_DATAIO : Z := MaxPacketPayload.
Definition MaxPacketSize : Z := sizeof_LR2_PACKET.

(** ** Requests to the slaves

    [txQueueLoc], and the operations on it; [id] is the identifier of the
    link. *)

Notation queue := (TQueue TTxRequest).

Definition isTxBufferFree (id : Z) (q : queue) : bool :=
  if bool_decide (id = LINK_ID_LOCAL) then (if full q then false else true) else false.

Definition isTxBufferEmpty (id : Z) (q : queue) : bool :=
  if bool_decide (id = LINK_ID_LOCAL) then empty q else false.

Definition flushTxBuffer (id : Z) (q : queue) : queue :=
  if bool_decide (id = LINK_ID_LOCAL) then clear q else q.

Definition push_request (rq : TTxRequest) (id : Z) (q : queue) : outcome queue :=
  if bool_decide (id = LINK_ID_LOCAL) then push rq q else Ret q.

Definition addTxMsgWrite (a p0 p1 f id : Z) (q : queue) : outcome queue :=
  push_request (TTxRequest_new MsgParameterWrite a p0 p1 f) id q.

Definition addTxMsgRead (a p0 f id : Z) (q : queue) : outcome queue :=
  push_request (TTxRequest_new MsgParameterRead a p0 0 f) id q.

Definition addTxMsgApp (a t sz data f id : Z) (q : queue) : outcome (queue * bool) :=
  if bool_decide (sz <= 4) then
    q ← push_request (TTxRequest_new MsgAppType a (Z.lor (u32 (Z.shiftl t 16)) sz) data f) id q;
    Ret (q, true)
  else Ret (q, false).

Definition addTxMsgReadBlock (a base size f id : Z) (q : queue) : outcome queue :=
  push_request (TTxRequest_new MsgReadBlock a base size f) id q.

(** *** What is queued *)

(** The request lands at the end of the queue, if the queue has room and the
    link is the local one. *)
Definition queued (rq : TTxRequest) (id : Z) (l : list TTxRequest) (q : queue) : list TTxRequest :=
  if bool_decide (id = LINK_ID_LOCAL) && negb (full q) then l ++ [rq] else l.

Lemma push_request_queued rq id q l :
  tq_rep q l -> exists q', push_request rq id q = Ret q' /\ tq_rep q' (queued rq id l q).
Proof.
  intros Hq. unfold push_request, queued. case_bool_decide; [|by eexists]. destruct (full q) eqn:Hf.
  - exists q. by rewrite push_full.
  - destruct (push_rep q l rq Hq Hf) as (q' & ? & ? & _). by exists q'.
Qed.

(** The words of an application request: type and size are packed into one. *)
Lemma lor_low_16 a b : 0 <= b < 65536 -> Z.lor (a * 65536) b = a * 65536 + b.
Proof. apply (lor_low 16 a b). lia. Qed.

Lemma pack_type_size t sz :
  0 <= sz <= 4 ->
  let p := u32 (Z.lor (u32 (Z.shiftl t 16)) sz) in
  Z.shiftr p 16 = u16 t /\ Z.land p 0xFFFF = sz.
Proof.
  intros Hsz p. pose proof (u16_range t) as Hr. unw.
  assert (u32 (Z.shiftl t 16) = u16 t * 65536) as Ht.
  { rewrite Z.shiftl_mul_pow2 by lia. unfold u32, u16. change (2 ^ 16) with 65536.
    change 4294967296 with (65536 * 65536). by rewrite Z.mul_mod_distr_r by lia. }
  assert (p = u16 t * 65536 + sz) as ->.
  { subst p. rewrite Ht, lor_low_16 by lia. apply u32_id. unw. lia. }
  rewrite Z.shiftr_div_pow2 by lia. change 0xFFFF with (Z.ones 16). rewrite Z.land_ones by lia.
  change (2 ^ 16) with 65536. split; Z.to_euclidean_division_equations; lia.
Qed.

(** The functions that queue requests to the slaves.  On the local link
    and while the queue has room, each appends exactly one request; otherwise
    the queue keeps its contents.  The request is one the sender can send, goes
    to the given address, keeps the flags, and stands for the message asked
    for; an application message of more than four bytes is refused, one of at
    most four carries its type and exactly its bytes. *)
Theorem addTxMsg_queued (reserved sn : Z) (l : list TTxRequest) (q : queue) (a p0 p1 f id : Z) :
  tq_rep q l ->
  let sends rq m :=
    rq_ok rq = true /\ rq_address rq = u16 a /\ rq_flags rq = u32 f /\ message_of reserved sn rq = m in
  (exists q' rq, addTxMsgWrite a p0 p1 f id q = Ret q' /\ tq_rep q' (queued rq id l q) /\
     sends rq (MParameterWrite sn (u32 p0) (u32 p1))) /\
  (exists q' rq, addTxMsgRead a p0 f id q = Ret q' /\ tq_rep q' (queued rq id l q) /\
     sends rq (MParameterRead sn (u32 p0))) /\
  (exists q' rq, addTxMsgReadBlock a p0 p1 f id q = Ret q' /\ tq_rep q' (queued rq id l q) /\
     sends rq (MReadBlock sn (u32 p0) (u32 p1) reserved)) /\
  (forall t sz, 0 <= sz ->
     if bool_decide (sz <= 4) then
       exists q' rq, addTxMsgApp a t sz p1 f id q = Ret (q', true) /\ tq_rep q' (queued rq id l q) /\
         sends rq (MAppType sn (u16 t) (take (Z.to_nat sz) (le4 (u32 p1))))
     else addTxMsgApp a t sz p1 f id q = Ret (q, false)).
Proof.
  intros Hq sends. split_and!.
  1-3: match goal with |- exists q' rq, ?op = _ /\ _ =>
      let op := eval unfold addTxMsgWrite, addTxMsgRead, addTxMsgReadBlock in op in
      match op with push_request ?rq _ _ =>
        destruct (push_request_queued rq id q l Hq) as (q' & Hp & Hr); exists q', rq end end;
    by split_and!.
  intros t sz Hsz. unfold addTxMsgApp. case_bool_decide as H4; [|done].
  set (rq := TTxRequest_new _ _ _ _ _).
  destruct (push_request_queued rq id q l Hq) as (q' & -> & Hr). cbn [mbind outcome_bind].
  exists q', rq. split; [done|]. split; [exact Hr|].
  destruct (pack_type_size t sz) as [Hp1 Hp2]; [lia|].
  assert (app_size rq = sz) as Hs by (unfold app_size; exact Hp2).
  subst sends. cbv beta. split_and!; [|done|done|].
  - unfold rq_ok. rewrite Hs, (bool_decide_true (sz <= 4)) by done. done.
  - unfold message_of. rewrite bool_decide_true by done. rewrite Hs. f_equal. exact Hp1.
Qed.

(** ** The link to the host *)

Inductive ProtocolType := kProtocolDataIO | kProtocolApp.

#[export] Instance ProtocolType_eq_dec : EqDecision ProtocolType.
Proof. solve_decision. Defined.

Section HiIO.
Context {L : Type} `{Layer1Tx L}.

Record HiIO := mkHiIO {
  hi_inst : Inst L;                          (* protocolInst_HiIO *)
  hi_protocolType : ProtocolType;
  hi_getTxFreeHandler : option (L -> Z);
}.

Definition hi_set_inst p (h : HiIO) : HiIO := mkHiIO p (hi_protocolType h) (hi_getTxFreeHandler h).

Definition setHandler_getTxFree f (h : HiIO) : HiIO := mkHiIO (hi_inst h) (hi_protocolType h) f.

Definition getMaxPacketSize (h : HiIO) : Z :=
  match hi_protocolType h with
  | kProtocolDataIO => MaxPacketSize
  | kProtocolApp => MAX_TX_APP_SIZE_DATAIO_APP
  end.

Definition hi_getTxFree (h : HiIO) : Z :=
  match hi_protocolType h with
  | kProtocolDataIO => getTxFree LINK_ID_HI_IO (pi_link (hi_inst h))
  | kProtocolApp => match hi_getTxFreeHandler h with Some f => f (pi_link (hi_inst h)) | None => 0 end
  end.

(** [init], the part of the link, and [configureHiIO]; the objects are wired
    together by construction in the model. *)
Definition configureHiIO (addrHi : Z) (h : HiIO) : HiIO :=
  hi_set_inst (configure_inst addrHi PROTOCOL_BROADCAST_ADDRESS PROTOCOL_RX_TIMEOUT (hi_inst h)) h.

Definition hi_setTxAppSize (size : Z) (h : HiIO) : HiIO := hi_set_inst (setPayload size (hi_inst h)) h.

Definition hi_setAppTxHandler (f : option (list Z -> L -> L * Z)) (h : HiIO) : HiIO :=
  hi_set_inst (setAppTxHandler f (hi_inst h)) h.

Definition hi_addMessage (msg data : list Z) (h : HiIO) : outcome (HiIO * Z) :=
  '(p, rc) ← inst_addMessage msg data (hi_inst h); Ret (hi_set_inst p h, rc).

Definition hi_getTxDataSize (h : HiIO) : Z := inst_getTxDataSize (hi_inst h).

(** [sendPacket(src)]: the [int16_t] parameter is an address or -1. *)
Definition hi_sendPacket (src : Z) (h : HiIO) : outcome (HiIO * Z) :=
  '(p, n) ← sendPacket (s16 src) (hi_inst h); Ret (hi_set_inst p h, s16 n).

Definition startTx (h : HiIO) : HiIO := hi_set_inst (onBeginRxPacketProcess (hi_inst h)) h.

(** The payload goes with the protocol of the last received data. *)
Definition switch_protocol (t : ProtocolType) (size : Z) (h : HiIO) : HiIO :=
  if bool_decide (hi_protocolType h <> t)
  then mkHiIO (setPayload size (hi_inst h)) t (hi_getTxFreeHandler h) else h.

Definition payload_of (t : ProtocolType) : Z :=
  match t with kProtocolDataIO => 244 | kProtocolApp => 1472 end.

(** The payload is the one of the current protocol, and the packet buffer
    (1536 bytes) has room for it. *)
Record hi_inv (h : HiIO) : Prop := {
  hi_inv_payload : l3_maxTxAppSize (pi_layer3 (hi_inst h)) = payload_of (hi_protocolType h);
  hi_inv_buffer : off_data + 1472 <= Z.of_nat (length (l3_txPacket (pi_layer3 (hi_inst h))));
}.

Lemma switch_protocol_inv t h :
  hi_inv h -> hi_inv (switch_protocol t (payload_of t) h) /\
  hi_protocolType (switch_protocol t (payload_of t) h) = t.
Proof.
  intros [Hp Hb]. unfold switch_protocol. case_bool_decide as Hne.
  - split; [|done]. constructor; [|done]. destruct t; reflexivity.
  - assert (hi_protocolType h = t) as Ht by (destruct (decide (hi_protocolType h = t)); [done|by destruct Hne]).
    by split; [constructor|].
Qed.

End HiIO.
Arguments HiIO L : clear implicits.

(** Processing of the data received from the host; the state around the link
    and the message handler are parameters. *)
Section HiHost.
Context {L St : Type} `{Layer1Tx L}.
Variable hi : St -> HiIO L.
Variable upd_hi : HiIO L -> St -> St.
Variable processRxMessage : list Z -> Z -> Z -> St -> outcome St.

Definition host_inst (s : St) : Inst L := hi_inst (hi s).
Definition host_upd (p : Inst L) (s : St) : St := upd_hi (hi_set_inst p (hi s)) s.

Definition hi_processInputAppData (buffer : list Z) (n dest src : Z) (s : St) : outcome (St * Z) :=
  let s := upd_hi (switch_protocol kProtocolApp MAX_TX_APP_SIZE_DATAIO_APP (hi s)) s in
  app_processInputAppData host_inst host_upd processRxMessage (fun _ s => s) buffer n dest src s.

(** [processInputData], for the link to the host. *)
Definition hi_processInputData (now : Z) (buffer : TBuffer Z) (n : Z) (s : St) : outcome (St * TBuffer Z * Z) :=
  let s := upd_hi (switch_protocol kProtocolDataIO MAX_TX_APP_SIZE_DATAIO (hi s)) s in
  app_processInputData host_inst host_upd processRxMessage (fun _ s => s) now buffer n s.

End HiHost.

(** ** The answer to the host

    What happens to the messages collected while a packet of the host was
    processed. *)

Section Answer.
Context {L : Type} `{Layer1Tx L}.

(** C26: The answer goes out on the link the request came from.  When the
    packet of the host has been processed and answers are pending, then on the
    serial link they are sent as one packet to the source of the request; on
    the application link they are handed as one block without header to the
    handler, and the packet is emptied, whether the handler took them or not.
    Without a handler nothing is sent.  When there are no answers, nothing is
    sent on either. *)
Theorem onEnd_answer (p : Inst L) :
  tx_inv (pi_layer3 p) -> pi_class p = TProtocolInstance_AppPackets -> l3_maxTxAppSize (pi_layer3 p) <= 65525 ->
  let data := tx_contents (pi_layer3 p) in
  exists p', onEndRxPacketProcess p = Ret p' /\
    (data = [] -> p' = p) /\
    (data <> [] -> pi_linkID p = LINK_ID_0 ->
       pi_link p' = link_after (frame (u8 (pi_srcAddress p)) (l2_selfAddress (pi_layer2 p)) data) p /\
       tx_contents (pi_layer3 p') = []) /\
    (data <> [] -> pi_linkID p <> LINK_ID_0 ->
       match pi_processTxAppData p with
       | Some h => pi_link p' = (h data (pi_link p)).1 /\ tx_contents (pi_layer3 p') = []
       | None => p' = p
       end).
Proof.
  intros Hinv Hcl Hmax data. pose proof (tx_contents_length _ Hinv) as Hlen. fold data in Hlen.
  unfold onEndRxPacketProcess, inst_getTxDataSize, getTxDataSize. case_bool_decide as Hidx.
  2: { assert (l3_txIndex (pi_layer3 p) = 0) as H0 by lia. exists p.
       assert (data = []) as Hd by (destruct data; [done|simpl in Hlen; lia]). by rewrite Hd. }
  assert (data <> []) as Hne by (intros Hd; rewrite Hd in Hlen; simpl in Hlen; lia).
  destruct (decide (pi_linkID p = LINK_ID_0)) as [Hl|Hl].
  - destruct (sendPacket_base_pending (-1) p Hinv Hidx Hmax) as (q & k & Hs & Hq).
    unfold sendPacket, sendPacket_app. rewrite Hcl, bool_decide_true, Hs by done. cbn [mbind outcome_bind].
    eexists. split; [done|]. split_and!; done.
  - unfold sendPacket, sendPacket_app. rewrite Hcl, bool_decide_false by done.
    destruct (pi_processTxAppData p) as [h|].
    2: { cbn [mbind outcome_bind]. exists p. done. }
    unfold inst_getTxDataSize, getTxDataSize. rewrite bool_decide_true by done.
    pose proof Hinv as [Hi Hm Hp]. unfold off_data in *.
    rewrite slice_ok by lia. cbn [checked mbind outcome_bind].
    change (take _ _) with data. destruct (h data (pi_link p)) as [l rc] eqn:Eh. cbn [mbind outcome_bind].
    eexists. split; [done|]. split_and!; [done|done|]. intros _ _. done.
Qed.

End Answer.

(** *** Witnesses *)

#[local] Existing Instance demo_link.

Definition demo_queue : queue :=
  TQueue_new (replicate 4 (TTxRequest_new 0 0 0 0 0)) 4.

Lemma addTxMsg_queued_witness :
  exists q' rq, addTxMsgApp 7 0x1234 2 0xAABB FRqAnswer 1 demo_queue = Ret (q', true) /\ tq_rep q' [rq] /\
    rq_address rq = 7 /\ message_of 0 5 rq = MAppType 5 0x1234 [0xBB; 0xAA].
Proof.
  destruct (addTxMsg_queued 0 5 [] demo_queue 7 0 0xAABB FRqAnswer 1) as (_ & _ & _ & H).
  - by apply TQueue_new_rep.
  - destruct (H 0x1234 2) as (q' & rq & H1 & H2 & H3 & H4 & H5 & H6); [done|].
    exists q', rq. split_and!; [exact H1|exact H2|exact H4|exact H6].
Defined.

Definition demo_app_inst : Inst (list (list Z)) :=
  mkInst TProtocolInstance_AppPackets l2_initial (set_tx (replicate 254 5) 4 l3_initial) 5 0 255 3 3 LINK_ID_1
    (Some (fun d l => (l ++ [d], 1))) [].

Lemma onEnd_answer_witness :
  exists p', onEndRxPacketProcess demo_app_inst = Ret p' /\ pi_link p' = [[5; 5; 5; 5]].
Proof.
  destruct (onEnd_answer demo_app_inst) as (p' & H1 & _ & _ & H2).
  - constructor; by apply (bool_decide_unpack _).
  - done.
  - done.
  - exists p'. split; [exact H1|]. apply H2; done.
Defined.
