(* ===== verification/TDataBuffer.v ===== *)
(** * Data blocks ([inc/dataio/tdatabuffer.h])

    A block of samples with its packet number and time stamp: [TDataBuffer]
    and its many-channel variant [TDataBufferEx]. *)

From S2P Require Import Prelude.

Definition MAX_DATA_BUFFER_SIZE : Z := 512.
Definition kMaxDataSize : Z := MAX_DATA_BUFFER_SIZE - 8.

Record TDataBuffer := mkDataBuffer {
  db_packet : Z;        (* uint16_t *)
  db_size : Z;          (* uint16_t, number of samples *)
  db_sync : Z;          (* uint32_t *)
  db_data : list Z;
}.

#[export] Instance TDataBuffer_eq_dec : EqDecision TDataBuffer.
Proof. solve_decision. Defined.

Definition getServiceInfoSize : Z := 2 + 2 + 4.

(** The memory of a block. *)
Definition db_bytes (d : TDataBuffer) : list Z :=
  le2 (db_packet d) ++ le2 (db_size d) ++ le4 (db_sync d) ++ db_data d.

(** ** Writing samples *)

(** [for(i = 0; i < t_size; ) data[index++] = b[i++]] *)
Fixpoint copy_sample (n : nat) (b : list Z) (i index : Z) (data : list Z) : outcome (list Z * Z) :=
  match n with
  | O => Ret (data, index)
  | S n =>
      v ← checked (rd b i);
      data ← checked (wr data index v);
      copy_sample n b (u16 (i + 1)) (u16 (index + 1)) data
  end.

(** [write(b, t_size)]: one sample. *)
Definition db_write (b : list Z) (t_size : Z) (d : TDataBuffer) : outcome TDataBuffer :=
  '(data, _) ← copy_sample (Z.to_nat t_size) b 0 (u16 (db_size d * t_size)) (db_data d);
  Ret (mkDataBuffer (db_packet d) (u16 (db_size d + 1)) (db_sync d) data).

(** [write(v)] for a value of [szT] bytes, [reinterpret_cast<T*>(data)[size++]]. *)
Definition db_write_value (v : list Z) (d : TDataBuffer) : outcome TDataBuffer :=
  data ← checked (blit (db_data d) (db_size d * Z.of_nat (length v)) v);
  Ret (mkDataBuffer (db_packet d) (u16 (db_size d + 1)) (db_sync d) data).

(** The loop of [write(b, t_size, n)]; [b] does not move between samples. *)
Fixpoint write_samples (fuel : nat) (b : list Z) (t_size n j index : Z) (d : TDataBuffer) : outcome (TDataBuffer * Z) :=
  match fuel with
  | O => Spin
  | S fuel =>
      if bool_decide (j < n) && bool_decide (u32 (kMaxDataSize - u32 (db_size d * t_size)) >= t_size) then
        '(data, index) ← copy_sample (Z.to_nat t_size) b 0 index (db_data d);
        write_samples fuel b t_size n (u16 (j + 1)) index
          (mkDataBuffer (db_packet d) (u16 (db_size d + 1)) (db_sync d) data)
      else Ret (d, j)
  end.

(** [write(b, t_size, n)]: several samples, the number written. *)
Definition db_write_n (b : list Z) (t_size n : Z) (d : TDataBuffer) : outcome (TDataBuffer * Z) :=
  write_samples (S (Z.to_nat n)) b t_size n 0 (u16 (db_size d * t_size)) d.

(** [free<T>()], [free<T>(RefT_Size)]; [szT] is [sizeof(T)]. *)
Definition db_free (szT : Z) (d : TDataBuffer) : Z := u32 (kMaxDataSize / szT - db_size d).
Definition db_free_ref (szT RefT_Size : Z) (d : TDataBuffer) : Z :=
  u32 (kMaxDataSize / szT - u32 (db_size d * RefT_Size) / szT).

(** [getCurrentDataPtr<T>], as an offset into [data]. *)
Definition getCurrentDataPtr (szT : Z) (d : TDataBuffer) : Z := db_size d * szT.
Definition getCurrentDataPtr_ref (szT RefT_Size : Z) (d : TDataBuffer) : Z := u32 (db_size d * RefT_Size) / szT * szT.

Definition dataSizeAdd (n : Z) (d : TDataBuffer) : TDataBuffer :=
  mkDataBuffer (db_packet d) (u16 (db_size d + n)) (db_sync d) (db_data d).

(** ** [TDataBufferEx] *)

Definition kMaxDataSize_Ex : Z := MAX_DATA_BUFFER_SIZE - 12.

Record TDataBufferEx := mkDataBufferEx {
  dx_packet : Z;
  dx_size : Z;
  dx_format : Z;
  dx_channels : Z;
  dx_sync : Z;
  dx_data : list Z;
}.

Definition getServiceInfoSize_Ex : Z := (2 + 2 + 2 + 2 + 4 + kMaxDataSize_Ex) - kMaxDataSize_Ex.
Definition getMaxDataSize (szOfDataT : Z) : Z := u16 (kMaxDataSize_Ex / szOfDataT).

Definition dx_write_value (v : list Z) (d : TDataBufferEx) : outcome TDataBufferEx :=
  data ← checked (blit (dx_data d) (dx_size d * Z.of_nat (length v)) v);
  Ret (mkDataBufferEx (dx_packet d) (u16 (dx_size d + 1)) (dx_format d) (dx_channels d) (dx_sync d) data).

Definition dx_write (b : list Z) (ref_t_size : Z) (d : TDataBufferEx) : outcome TDataBufferEx :=
  '(data, _) ← copy_sample (Z.to_nat ref_t_size) b 0 (u16 (dx_size d * ref_t_size)) (dx_data d);
  Ret (mkDataBufferEx (dx_packet d) (u16 (dx_size d + 1)) (dx_format d) (dx_channels d) (dx_sync d) data).

(** ** Properties *)

(** The samples of [sz] bytes in a block. *)
Definition samples (sz : Z) (d : TDataBuffer) : list Z := take (Z.to_nat (db_size d * sz)) (db_data d).

Record db_inv (sz : Z) (d : TDataBuffer) : Prop := {
  db_inv_data : Z.of_nat (length (db_data d)) = kMaxDataSize;
  db_inv_size : 0 <= db_size d;
  db_inv_fit : db_size d * sz <= kMaxDataSize;
}.

Lemma copy_sample_ok n b i index data :
  0 <= i -> 0 <= index -> i + Z.of_nat n <= Z.of_nat (length b) -> i + Z.of_nat n < 65536 ->
  index + Z.of_nat n <= Z.of_nat (length data) -> index + Z.of_nat n < 65536 ->
  copy_sample n b i index data =
    Ret (take (Z.to_nat index) data ++ take n (drop (Z.to_nat i) b) ++ drop (Z.to_nat index + n) data, index + Z.of_nat n).
Proof.
  revert i index data. induction n as [|n IH]; intros i index data Hi Hx Hb Hi' Hd Hx'.
  { cbn [copy_sample]. rewrite take_0, app_nil_l, Nat.add_0_r, take_drop. do 2 f_equal. lia. }
  cbn [copy_sample]. destruct (rd_total b i) as [v Hv]; [lia|]. rewrite Hv.
  cbn [checked mbind outcome_bind]. destruct (wr_total data index v) as [data' Hd']; [lia|]. rewrite Hd'.
  cbn [checked mbind outcome_bind]. pose proof (wr_length _ _ _ _ Hd') as Hl.
  rewrite !u16_id by (unw; lia). rewrite IH by lia. clear IH.
  apply wr_Some in Hd' as [_ ->]. apply rd_Some in Hv as [_ Hv].
  rewrite !Z2Nat.inj_add by lia. change (Z.to_nat 1) with 1%nat.
  set (k := Z.to_nat index) in *. set (m := Z.to_nat i) in *.
  assert (k < length data)%nat as Hk by (subst k; lia).
  do 2 f_equal; [|lia]. rewrite Nat.add_1_r. rewrite (take_S_r _ _ v) by (by apply list_lookup_insert_eq).
  rewrite take_insert_ge by lia. rewrite <-app_assoc. f_equal.
  rewrite drop_insert_lt by lia. rewrite (drop_S b v m) by done. cbn [take app].
  rewrite Nat.add_1_r. do 3 f_equal. lia.
Qed.

(** One sample is appended. *)
Lemma db_write_ok b sz d :
  db_inv sz d -> 0 < sz -> (db_size d + 1) * sz <= kMaxDataSize -> sz <= Z.of_nat (length b) ->
  exists d', db_write b sz d = Ret d' /\ db_inv sz d' /\ db_size d' = db_size d + 1 /\
    samples sz d' = samples sz d ++ take (Z.to_nat sz) b /\ db_packet d' = db_packet d /\ db_sync d' = db_sync d.
Proof.
  intros [Hd Hs Hf] Hsz Hfit Hb. unfold kMaxDataSize, MAX_DATA_BUFFER_SIZE in *.
  assert (db_size d <= db_size d * sz) by nia.
  assert ((db_size d + 1) * sz = db_size d * sz + sz) as Hsucc by lia. rewrite Hsucc in Hfit.
  unfold db_write. rewrite !u16_id by (unw; lia).
  rewrite copy_sample_ok by lia. cbn [mbind outcome_bind]. change (Z.to_nat 0) with 0%nat. rewrite drop_0.
  eexists. split; [done|]. cbn [db_size db_packet db_sync].
  assert (length (take (Z.to_nat (db_size d * sz)) (db_data d)) = Z.to_nat (db_size d * sz)) as Hl
    by (rewrite length_take; lia).
  assert (length (take (Z.to_nat sz) b) = Z.to_nat sz) as Hlb by (rewrite length_take; lia).
  split_and!; [|done| |done|done].
  - constructor; cbn [db_data db_size]; unfold kMaxDataSize, MAX_DATA_BUFFER_SIZE; [|lia|lia]. rewrite !length_app, Hl, Hlb, length_drop. lia.
  - unfold samples. cbn [db_size db_data]. rewrite app_assoc. apply take_app_length'.
    rewrite length_app, Hl, Hlb, Hsucc. lia.
Qed.

Lemma db_inv_zero sz d : Z.of_nat (length (db_data d)) = kMaxDataSize -> db_size d = 0 -> db_inv sz d.
Proof. intros Hd H0. constructor; rewrite ?H0; unfold kMaxDataSize, MAX_DATA_BUFFER_SIZE in *; lia. Qed.

Lemma write_samples_ok k fuel b sz n j d :
  db_inv sz d -> 0 < sz -> sz <= Z.of_nat (length b) -> 0 <= j <= n -> n < 65536 ->
  Z.of_nat k = Z.min (n - j) (kMaxDataSize / sz - db_size d) -> (k < fuel)%nat ->
  exists d', write_samples fuel b sz n j (u16 (db_size d * sz)) d = Ret (d', j + Z.of_nat k) /\ db_inv sz d' /\
    db_size d' = db_size d + Z.of_nat k /\
    samples sz d' = samples sz d ++ concat (replicate k (take (Z.to_nat sz) b)) /\
    db_packet d' = db_packet d /\ db_sync d' = db_sync d.
Proof.
  revert fuel j d. induction k as [|k IH]; intros fuel j d Hinv Hsz Hb Hj Hn Hk Hf;
    (destruct fuel as [|fuel]; [lia|]); cbn [write_samples]; pose proof Hinv as [Hd Hs Hfit];
    unfold kMaxDataSize, MAX_DATA_BUFFER_SIZE in *.
  - assert (n - j = 0 \/ (512 - 8) / sz = db_size d) as Hend.
    { assert (db_size d <= (512 - 8) / sz) by (apply Z.div_le_lower_bound; lia). lia. }
    rewrite (u32_id (db_size d * sz)) by (unw; nia). rewrite (u32_id (_ - _)) by (unw; nia).
    assert (bool_decide (j < n) && bool_decide (512 - 8 - db_size d * sz >= sz) = false) as ->.
    { destruct Hend as [He|He]; [rewrite bool_decide_false by lia; done|].
      rewrite (bool_decide_false (_ >= _)); [apply andb_false_r|].
      pose proof (Z.mul_succ_div_gt (512 - 8) sz Hsz). nia. }
    exists d. cbn [replicate concat]. rewrite app_nil_r, !Z.add_0_r. done.
  - pose proof (Z.mul_div_le (512 - 8) sz Hsz).
    rewrite (u32_id (db_size d * sz)) by (unw; nia). rewrite (u32_id (_ - _)) by (unw; nia).
    rewrite (bool_decide_true (j < n)) by lia. rewrite (bool_decide_true (_ >= _)) by nia. cbn [andb].
    destruct (db_write_ok b sz d Hinv Hsz) as (d1 & Hw & Hi1 & Hs1 & Hd1 & Hp1 & Hy1);
      [unfold kMaxDataSize, MAX_DATA_BUFFER_SIZE; nia|done|].
    unfold db_write in Hw. rewrite (u16_id (db_size d * sz)) in * by (unw; nia).
    rewrite copy_sample_ok in * by (rewrite ?Z2Nat.id; nia). cbn [mbind outcome_bind] in *.
    injection Hw as Hw. rewrite Hw. rewrite (u16_id (j + 1)) by (unw; lia).
    destruct (IH fuel (j + 1) d1) as (d2 & H1 & H2 & H3 & H4 & H5 & H6); [done..|lia|lia|rewrite Hs1; lia|lia|].
    rewrite (u16_id (db_size d1 * sz)) in H1 by (unw; rewrite Hs1; nia).
    replace (db_size d * sz + Z.of_nat (Z.to_nat sz)) with (db_size d1 * sz) by (rewrite Hs1; nia).
    rewrite H1. exists d2. cbn [replicate concat]. rewrite app_assoc, <-Hd1.
    split_and!; [f_equal; f_equal; lia|done|lia|done|congruence|congruence].
Qed.

(** Writing several samples at once.  The number written is the number
    asked for, limited by the room left, and the block never overflows; but
    every sample written is a copy of the first one: the source does not move
    from one sample to the next. *)
Theorem db_write_n_repeats (b : list Z) (sz n : Z) (d : TDataBuffer) :
  db_inv sz d -> 0 < sz -> sz <= Z.of_nat (length b) -> 0 <= n < 65536 ->
  let k := Z.min n (kMaxDataSize / sz - db_size d) in
  exists d', db_write_n b sz n d = Ret (d', k) /\ db_inv sz d' /\ db_size d' = db_size d + k /\
    samples sz d' = samples sz d ++ concat (replicate (Z.to_nat k) (take (Z.to_nat sz) b)).
Proof.
  intros Hinv Hsz Hb Hn k. pose proof Hinv as [Hd Hs Hfit].
  assert (db_size d <= kMaxDataSize / sz) by (apply Z.div_le_lower_bound; lia).
  destruct (write_samples_ok (Z.to_nat k) (S (Z.to_nat n)) b sz n 0 d) as (d' & H1 & H2 & H3 & H4 & _);
    [done..|lia|lia|lia|lia|].
  exists d'. rewrite Z2Nat.id, Z.add_0_l in * by lia. done.
Qed.

Definition demo_block : TDataBuffer := mkDataBuffer 1 0 100 (replicate 504 0).

Lemma db_write_n_repeats_witness :
  exists d', db_write_n [1; 2; 3; 4] 2 2 demo_block = Ret (d', 2) /\ samples 2 d' = [1; 2; 1; 2].
Proof.
  destruct (db_write_n_repeats [1; 2; 3; 4] 2 2 demo_block) as (d' & H1 & _ & _ & H2).
  - by apply db_inv_zero.
  - done.
  - by apply (bool_decide_unpack _).
  - done.
  - exists d'. split; [exact H1|exact H2].
Defined.
