(* ===== verification/DataBuffers.v ===== *)
(** * Storage of the data blocks ([TDataBuffersContainer], module [data_buffers])

    Blocks received from the slaves are kept in a fixed array of buffers until
    the host has asked for them and acknowledged them.
    Files: [inc/tdatabufferscontainer.h], [src/data_buffers.cpp],
    [inc/data_buffers.h], [inc/cfg/slave_io.h].

    A buffer pointer of the container is the block it points to ([None] for
    the null pointer); the blocks lie in separate parts of [rawBuffer]. *)

From S2P Require Import Prelude Crc16 Layer2 Layer3 Protocol ProtocolApp TDataBuffer.

Definition DATA_BUFFERS_N : Z := 32.
Definition kRcErr : Z := -1.
Definition kMaxSize : Z := DATA_BUFFERS_N.
Definition stFree : bool := false.
Definition stFull : bool := true.

(** ** The container *)

Record buffer_info := mkInfo {
  bi_buffer : option TDataBuffer;
  bi_state : bool;
}.

Record Container := mkContainer {
  bc_buffers : list buffer_info;
  bc_size : Z;               (* uint16_t, as the following *)
  bc_bufferCapacity : Z;
  bc_nFree : Z;
  bc_nFull : Z;
  bc_iFree : Z;
  bc_iFull : Z;
  bc_sizeofTData : Z;
}.

Definition bc_set_buffers b (c : Container) : Container :=
  mkContainer b (bc_size c) (bc_bufferCapacity c) (bc_nFree c) (bc_nFull c) (bc_iFree c) (bc_iFull c) (bc_sizeofTData c).
Definition bc_set_free nFree iFree (c : Container) : Container :=
  mkContainer (bc_buffers c) (bc_size c) (bc_bufferCapacity c) nFree (bc_nFull c) iFree (bc_iFull c) (bc_sizeofTData c).
Definition bc_set_full nFull iFull (c : Container) : Container :=
  mkContainer (bc_buffers c) (bc_size c) (bc_bufferCapacity c) (bc_nFree c) nFull (bc_iFree c) iFull (bc_sizeofTData c).

Definition TDataBuffersContainer : Container :=
  mkContainer (replicate (Z.to_nat DATA_BUFFERS_N) (mkInfo None stFree)) kMaxSize kMaxDataSize kMaxSize 0 0 0 0.

Definition getBufferCapacity (c : Container) : Z := bc_bufferCapacity c.
Definition getFreeBuffers (c : Container) : Z := bc_nFree c.
Definition getFullBuffers (c : Container) : Z := bc_nFull c.
Definition bc_capacity (c : Container) : Z := bc_size c.
Definition setDataSize (sz : Z) (c : Container) : Container :=
  mkContainer (bc_buffers c) (bc_size c) (bc_bufferCapacity c) (bc_nFree c) (bc_nFull c) (bc_iFree c) (bc_iFull c) (u16 sz).

Definition info (n : Z) (c : Container) : outcome buffer_info := checked (rd (bc_buffers c) n).

Definition isFull (n : Z) (c : Container) : outcome bool :=
  b ← info n c; Ret (bool_decide (bi_state b = stFull)).

(** [getBuffer(n)], dereferenced. *)
Definition getBuffer (n : Z) (c : Container) : outcome TDataBuffer := b ← info n c; checked (bi_buffer b).

Definition getBufferDataSize (n : Z) (c : Container) : outcome Z := b ← getBuffer n c; Ret (db_size b).

Definition set_info (n : Z) (b : buffer_info) (c : Container) : outcome Container :=
  l ← checked (wr (bc_buffers c) n b); Ret (bc_set_buffers l c).

(** Writes through the pointer of buffer [n]. *)
Definition putBuffer (n : Z) (d : TDataBuffer) (c : Container) : outcome Container :=
  b ← info n c; set_info n (mkInfo (Some d) (bi_state b)) c.

Definition bc_reset (c : Container) : Container :=
  mkContainer (map (fun x => mkInfo (bi_buffer x) stFree) (bc_buffers c))
    (bc_size c) (bc_bufferCapacity c) (bc_size c) 0 0 0 (bc_sizeofTData c).

Definition setup (n : Z) (pDataBuffer : TDataBuffer) (c : Container) : outcome Container :=
  if bool_decide (n < bc_size c) then putBuffer n pDataBuffer c else Ret c.

Definition getFreeBuffer (c : Container) : Z := if bool_decide (bc_nFree c = 0) then kRcErr else bc_iFree c.

(** [for(i = 0; i < size && buffers[i].state != stFree; i++)
       if(++index >= size) index = 0;] *)
Fixpoint scan_free (fuel : nat) (i index : Z) (c : Container) : outcome (Z * Z) :=
  match fuel with
  | O => Spin
  | S fuel =>
      if bool_decide (i < bc_size c) then
        b ← info i c;
        if bool_decide (bi_state b <> stFree)
        then scan_free fuel (u16 (i + 1)) (if bool_decide (s16 (index + 1) >= bc_size c) then 0 else s16 (index + 1)) c
        else Ret (i, index)
      else Ret (i, index)
  end.

Definition lockFreeBuffer (c : Container) : outcome (Container * Z) :=
  if bool_decide (bc_nFree c = 0) then Ret (c, kRcErr)
  else
    let index := s16 (bc_iFree c) in
    let iFree := if bool_decide (u16 (bc_iFree c + 1) >= bc_size c) then 0 else u16 (bc_iFree c + 1) in
    let c := bc_set_free (u16 (bc_nFree c - 1)) iFree c in
    '(i, index) ← scan_free (S (Z.to_nat (bc_size c))) 0 index c;
    if bool_decide (i < bc_size c) then
      d ← getBuffer index c;
      c ← set_info index (mkInfo (Some (mkDataBuffer 0 0 (db_sync d) (db_data d))) stFull) c;
      Ret (c, index)
    else Ret (c, kRcErr).

Definition releaseBuffer (n : Z) (c : Container) : outcome Container :=
  b ← info n c;
  let c := if bool_decide (bi_state b = stFull) then
             let c := bc_set_free (if bool_decide (bc_nFree c > 0) then u16 (bc_nFree c - 1) else bc_nFree c) (bc_iFree c) c in
             if bool_decide (bc_nFull c > 0)
             then bc_set_full (bc_nFull c) (if bool_decide (u16 (bc_iFull c + 1) = bc_size c) then 0 else u16 (bc_iFull c + 1)) c
             else c
           else c in
  let c := if bool_decide (bi_state b <> stFree) then
             let nFree := if bool_decide (bc_nFree c < bc_size c) then u16 (bc_nFree c + 1) else bc_nFree c in
             bc_set_free nFree (if bool_decide (nFree = 1) then n else bc_iFree c) c
           else c in
  d ← checked (bi_buffer b);
  set_info n (mkInfo (Some (mkDataBuffer 0 (db_size d) (db_sync d) (db_data d))) stFree) c.

Definition unlockBuffer (n : Z) (c : Container) : outcome Container :=
  d ← getBuffer n c;
  if bool_decide (db_size d <> 0) then
    c ← set_info n (mkInfo (Some d) stFull) c;
    let nFull := if bool_decide (bc_nFull c < bc_size c) then u16 (bc_nFull c + 1) else bc_nFull c in
    Ret (bc_set_full nFull (if bool_decide (nFull = 1) then n else bc_iFull c) c)
  else releaseBuffer n c.

(** [for(i = 0; i < size; i++) if(buffers[i].buffer->packet == pn) ...] *)
Fixpoint find_packet (fuel : nat) (i pn : Z) (c : Container) : outcome (option Z) :=
  match fuel with
  | O => Spin
  | S fuel =>
      if bool_decide (i < bc_size c) then
        d ← getBuffer i c;
        if bool_decide (db_packet d = pn) then Ret (Some i) else find_packet fuel (u16 (i + 1)) pn c
      else Ret None
  end.

Definition releaseBufferByPacketNumber (pn : Z) (c : Container) : outcome (Container * bool) :=
  r ← find_packet (S (Z.to_nat (bc_size c))) 0 pn c;
  match r with
  | Some i => c ← releaseBuffer i c; Ret (c, true)
  | None => Ret (c, false)
  end.

(** The loop of [getFullBufferSortBySync]. *)
Fixpoint find_min_sync (fuel : nat) (i syncMin index : Z) (c : Container) : outcome Z :=
  match fuel with
  | O => Spin
  | S fuel =>
      if bool_decide (i < bc_size c) then
        b ← info i c;
        if bool_decide (bi_state b = stFull) then
          d ← checked (bi_buffer b);
          if bool_decide (db_sync d < syncMin) then find_min_sync fuel (u16 (i + 1)) (db_sync d) (s16 i) c
          else find_min_sync fuel (u16 (i + 1)) syncMin index c
        else find_min_sync fuel (u16 (i + 1)) syncMin index c
      else Ret index
  end.

Definition getFullBufferSortBySync (c : Container) : outcome (Container * Z) :=
  index ← find_min_sync (S (Z.to_nat (bc_size c))) 0 0xFFFFFFFF (-1) c;
  if bool_decide (index >= 0) then Ret (bc_set_full (bc_nFull c) (u16 index) c, index) else Ret (c, kRcErr).

(** ** The module [data_buffers] *)

Definition kMinParameter : Z := 40.
Definition kMaxParameter : Z := 41.
Definition kOpWrite : Z := 0.
Definition kOpRead : Z := 1.
Definition kIsFullBuffer : Z := 2.
Definition kNoData : Z := 0.
Definition kNoBuffers : Z := -1.
Definition kIncorrectSize : Z := -2.
Definition kIncorrectId : Z := -3.
Definition MsgApp_DataInt32x3 : Z := 0x6b.
Definition kSampleSize_Int32x3 : Z := 3 * 4.
Definition kDataId : Z := MsgApp_DataInt32x3.
Definition kDataSampleSize : Z := kSampleSize_Int32x3.

(** [init]: the pointers to the parts of [rawBuffer], given as blocks. *)
Fixpoint db_init (i : Z) (raw : list TDataBuffer) (c : Container) : outcome Container :=
  match raw with
  | [] => Ret c
  | d :: raw => c ← setup i d c; db_init (i + 1) raw c
  end.

Definition db_reset (c : Container) : Container := bc_reset c.

(** The result and the value of [*v] afterwards. *)
Definition handleParameters (opCode n v : Z) (c : Container) : Z * Z :=
  if bool_decide (opCode = kOpWrite) then (ResultBadParameter, v)
  else if bool_decide (opCode = kOpRead) then
    if bool_decide (n = 40) then (ResultOk, getFullBuffers c)
    else if bool_decide (n = 41) then (ResultOk, getFreeBuffers c)
    else (ResultBadParameter, v)
  else (ResultOk, v).

Definition getDataReadyInfo (c : Container) : Z :=
  if bool_decide (getFullBuffers c > 0) then kIsFullBuffer else kNoData.

(** [writeBuffer(buffer, dataId)]: [mem] is the memory at [buffer]. *)
Definition writeBuffer (mem : list Z) (dataId : Z) (c : Container) : outcome (Container * Z) :=
  if bool_decide (dataId <> kDataId) then Ret (c, kIncorrectId)
  else
    '(c, n) ← lockFreeBuffer c;
    if bool_decide (n <> kRcErr) then
      b ← getBuffer n c;
      size ← checked (rd16 mem 2);
      let dataSize := u32 (size * kDataSampleSize) in
      if bool_decide (dataSize <= kMaxDataSize) then
        packet ← checked (rd16 mem 0);
        sync ← checked (rd32 mem 4);
        src ← checked (slice mem getServiceInfoSize dataSize);
        data ← checked (blit (db_data b) 0 src);
        c ← putBuffer n (mkDataBuffer packet size sync data) c;
        Ret (c, s16 (getServiceInfoSize + dataSize))
      else Ret (c, kIncorrectSize)
    else Ret (c, kNoBuffers).

Definition handleMsgDataAcknowledge (packetNumber : Z) (c : Container) : outcome Container :=
  '(c, _) ← releaseBufferByPacketNumber packetNumber c; Ret c.

Section Tx.
Context {L : Type} `{Layer1Tx L}.

Definition addMsgData (seqNumber : Z) (d : TDataBuffer) (h : HiIO L) : outcome (HiIO L * Z) :=
  let msg := [MsgAppType; u8 seqNumber] ++ le2 kDataId ++ le2 (u16 (getServiceInfoSize + db_size d * kDataSampleSize)) in
  '(h, result) ← hi_addMessage msg (db_bytes d) h;
  Ret (h, if bool_decide (result = 0) then 0 else -1).

Definition handleMsgRequestData (sequenceNumber : Z) (c : Container) (h : HiIO L) : outcome (Container * HiIO L) :=
  '(c, n) ← getFullBufferSortBySync c;
  if bool_decide (n <> kRcErr) then
    d ← getBuffer n c;
    '(h, _) ← addMsgData sequenceNumber d h;
    Ret (c, h)
  else Ret (c, h).

End Tx.

(** ** Invariant *)

(** Every buffer is there, with its part of the memory. *)
Definition info_ok (b : buffer_info) : Prop :=
  exists d, bi_buffer b = Some d /\ Z.of_nat (length (db_data d)) = kMaxDataSize.

Record bc_inv (c : Container) : Prop := {
  bc_inv_size : 0 < bc_size c < 32768;
  bc_inv_buffers : Z.of_nat (length (bc_buffers c)) = bc_size c;
  bc_inv_info : Forall info_ok (bc_buffers c);
  bc_inv_nFree : 0 <= bc_nFree c <= bc_size c;
  bc_inv_nFull : 0 <= bc_nFull c <= bc_size c;
  bc_inv_iFree : 0 <= bc_iFree c < bc_size c;
  bc_inv_iFull : 0 <= bc_iFull c < bc_size c;
}.

(** The state and the block of buffer [i]. *)
Definition block_at (c : Container) (i : Z) (st : bool) (d : TDataBuffer) : Prop :=
  rd (bc_buffers c) i = Some (mkInfo (Some d) st).

Lemma info_at c i : bc_inv c -> 0 <= i < bc_size c ->
  exists st d, block_at c i st d /\ Z.of_nat (length (db_data d)) = kMaxDataSize.
Proof.
  intros Hinv Hi. destruct (rd_total (bc_buffers c) i) as [[o st] Hb]; [rewrite (bc_inv_buffers _ Hinv); lia|].
  apply rd_Some in Hb as Hb'. destruct Hb' as [_ Hb'].
  destruct (Forall_lookup_1 _ _ _ _ (bc_inv_info _ Hinv) Hb') as (d & Hd & Hl). cbn in Hd. subst o.
  by exists st, d.
Qed.

Lemma block_at_info c i st d : block_at c i st d -> info i c = Ret (mkInfo (Some d) st).
Proof. unfold info. by intros ->. Qed.

Lemma block_at_getBuffer c i st d : block_at c i st d -> getBuffer i c = Ret d.
Proof. intros Hb. unfold getBuffer. by rewrite (block_at_info _ _ _ _ Hb). Qed.

Lemma block_at_range c i st d : bc_inv c -> block_at c i st d -> 0 <= i < bc_size c.
Proof.
  intros Hinv [Hi Hb]%rd_Some. apply lookup_lt_Some in Hb. pose proof (bc_inv_buffers _ Hinv). lia.
Qed.

(** The container with buffer [i] replaced. *)
Definition bc_put (i : Z) (st : bool) (d : TDataBuffer) (c : Container) : Container :=
  bc_set_buffers (<[Z.to_nat i := mkInfo (Some d) st]> (bc_buffers c)) c.

Lemma set_info_ok i st d c :
  bc_inv c -> 0 <= i < bc_size c -> set_info i (mkInfo (Some d) st) c = Ret (bc_put i st d c).
Proof.
  intros Hinv Hi. unfold set_info, wr. rewrite bool_decide_true by (rewrite (bc_inv_buffers _ Hinv); lia). done.
Qed.

Lemma bc_put_inv i st d c :
  bc_inv c -> Z.of_nat (length (db_data d)) = kMaxDataSize -> bc_inv (bc_put i st d c).
Proof.
  intros [H1 H2 H3 H4 H5 H6 H7] Hd. constructor; cbn; rewrite ?length_insert; try done.
  apply Forall_insert; [done|]. by exists d.
Qed.

Lemma bc_put_at i st d c : bc_inv c -> 0 <= i < bc_size c -> block_at (bc_put i st d c) i st d.
Proof.
  intros Hinv Hi. unfold block_at, rd. rewrite bool_decide_true by lia. cbn.
  apply list_lookup_insert_eq. pose proof (bc_inv_buffers _ Hinv). lia.
Qed.

Lemma bc_put_ne i j st d st' d' c :
  0 <= i -> i <> j -> block_at (bc_put i st d c) j st' d' <-> block_at c j st' d'.
Proof.
  intros Hi Hne. unfold block_at, rd. case_bool_decide; [|done]. cbn.
  by rewrite list_lookup_insert_ne by lia.
Qed.

Lemma bc_set_free_inv n i c : bc_inv c -> 0 <= n <= bc_size c -> 0 <= i < bc_size c -> bc_inv (bc_set_free n i c).
Proof. intros [] ? ?. by constructor. Qed.

Lemma bc_set_full_inv n i c : bc_inv c -> 0 <= n <= bc_size c -> 0 <= i < bc_size c -> bc_inv (bc_set_full n i c).
Proof. intros [] ? ?. by constructor. Qed.

(** ** The next block for the host *)

(** [i] is the first buffer of [0 .. n-1] that is full and has the smallest
    time stamp below [m]. *)
Definition is_min (c : Container) (n m i : Z) : Prop :=
  exists d, block_at c i stFull d /\ i < n /\ db_sync d < m /\
    forall j d', block_at c j stFull d' -> j < n -> db_sync d < db_sync d' \/ db_sync d = db_sync d' /\ i <= j.

Definition no_full (c : Container) (n m : Z) : Prop :=
  forall j d, block_at c j stFull d -> j < n -> m <= db_sync d.

Lemma find_min_sync_ok fuel i syncMin index c :
  bc_inv c -> 0 <= i <= bc_size c -> bc_size c - i < Z.of_nat fuel ->
  (index = -1 /\ no_full c i syncMin /\ syncMin = 0xFFFFFFFF \/
   is_min c i 0xFFFFFFFF index /\ (forall d, block_at c index stFull d -> db_sync d = syncMin)) ->
  exists r, find_min_sync fuel i syncMin index c = Ret r /\
    (r = -1 /\ no_full c (bc_size c) 0xFFFFFFFF \/ is_min c (bc_size c) 0xFFFFFFFF r).
Proof.
  intros Hinv. revert i syncMin index. induction fuel as [|fuel IH]; intros i syncMin index Hi Hf Hst; [lia|].
  cbn [find_min_sync]. case_bool_decide as Hlt.
  2: { replace i with (bc_size c) in * by lia. exists index. split; [done|].
       destruct Hst as [(-> & Hn & ->)|[Hm _]]; auto. }
  destruct (info_at c i Hinv) as (st & d & Hb & _); [lia|]. rewrite (block_at_info _ _ _ _ Hb).
  cbn [mbind outcome_bind bi_state bi_buffer checked]. pose proof (bc_inv_size _ Hinv).
  rewrite u16_id by (unw; lia).
  assert (forall j d', block_at c j stFull d' -> j < i + 1 -> j < i \/ j = i /\ st = stFull /\ d' = d) as Hsplit.
  { intros j d' Hj Hji. destruct (decide (j = i)) as [->|]; [|left; lia]. right.
    unfold block_at in *. rewrite Hb in Hj. by injection Hj as -> ->. }
  case_bool_decide as Hfull.
  2: { apply IH; [lia|lia|]. destruct Hst as [(-> & Hn & ->)|[(dm & Hm1 & Hm2 & Hm3 & Hm4) Hs]]; [left|right].
       - split_and!; [done| |done]. intros j d' Hj Hji. destruct (Hsplit j d' Hj Hji) as [?|(_ & ? & _)]; [eauto|done].
       - split; [|done]. exists dm. split_and!; [done|lia|done|]. intros j d' Hj Hji.
         destruct (Hsplit j d' Hj Hji) as [?|(_ & ? & _)]; [eauto|done]. }
  subst st. case_bool_decide as Hless.
  - apply IH; [lia|lia|]. right.
    assert (s16 i = i) as -> by (unfold s16; rewrite Z.mod_small; lia).
    assert (db_sync d < 0xFFFFFFFF) as Hlt'.
    { destruct Hst as [(_ & _ & ->)|[(dm & Hm1 & _ & Hm3 & _) Hs]]; [done|]. rewrite <-(Hs dm Hm1) in Hless. lia. }
    split; [|intros d' Hd'; unfold block_at in *; congruence].
    exists d. split_and!; [done|lia|done|]. intros j d' Hj Hji.
    destruct (Hsplit j d' Hj Hji) as [Hlt2|(-> & _ & ->)]; [|right; lia].
    destruct Hst as [(_ & Hn & ->)|[(dm & Hm1 & _ & _ & Hm4) Hs]].
    + specialize (Hn j d' Hj Hlt2). lia.
    + specialize (Hm4 j d' Hj Hlt2). rewrite (Hs dm Hm1) in Hm4. lia.
  - apply IH; [lia|lia|]. destruct Hst as [(-> & Hn & ->)|[(dm & Hm1 & Hm2 & Hm3 & Hm4) Hs]]; [left|right].
    + split_and!; [done| |done]. intros j d' Hj Hji. destruct (Hsplit j d' Hj Hji) as [?|(_ & _ & ->)]; [eauto|lia].
    + split; [|done]. exists dm. split_and!; [done|lia|done|]. intros j d' Hj Hji.
      destruct (Hsplit j d' Hj Hji) as [?|(-> & _ & ->)]; [eauto|].
      rewrite (Hs dm Hm1). lia.
Qed.

(** The choice of the block, and the state after it. *)
Lemma getFull_ok c :
  bc_inv c -> exists c' r, getFullBufferSortBySync c = Ret (c', r) /\ bc_inv c' /\
    bc_buffers c' = bc_buffers c /\ bc_nFull c' = bc_nFull c /\ bc_nFree c' = bc_nFree c /\
    (r = -1 /\ no_full c (bc_size c) 0xFFFFFFFF \/ is_min c (bc_size c) 0xFFFFFFFF r).
Proof.
  intros Hinv. pose proof (bc_inv_size _ Hinv). unfold getFullBufferSortBySync.
  destruct (find_min_sync_ok (S (Z.to_nat (bc_size c))) 0 0xFFFFFFFF (-1) c Hinv) as (r & -> & Hr); [lia|lia| |].
  { left. split_and!; [done| |done]. intros j d [Hj _]%rd_Some Hj0. lia. }
  cbn [mbind outcome_bind]. case_bool_decide as Hge.
  - destruct Hr as [[-> _]|Hr]; [done|]. exists (bc_set_full (bc_nFull c) (u16 r) c), r.
    destruct Hr as (d & Hb & Hrest). pose proof (block_at_range _ _ _ _ Hinv Hb).
    split_and!; [done| |done|done|done|right; by exists d].
    apply bc_set_full_inv; [done|apply Hinv|]. rewrite u16_id by (unw; lia). lia.
  - exists c, kRcErr. split_and!; [done..|]. destruct Hr as [[_ ?]|(d & Hb & _)]; [by left|].
    pose proof (block_at_range _ _ _ _ Hinv Hb). lia.
Qed.

(** The block offered to the host is, among the buffers in use, the
    first one with the smallest time stamp; there is none exactly when no
    buffer in use has a time stamp below 0xFFFFFFFF (a block with that very
    time stamp is never offered).  The choice changes no buffer and no
    counter. *)
Theorem getFullBufferSortBySync_spec (c : Container) :
  bc_inv c -> exists c' r, getFullBufferSortBySync c = Ret (c', r) /\
    bc_buffers c' = bc_buffers c /\ bc_nFull c' = bc_nFull c /\ bc_nFree c' = bc_nFree c /\
    (r = -1 /\ (forall j d, block_at c j stFull d -> 0xFFFFFFFF <= db_sync d) \/
     exists d, block_at c r stFull d /\ db_sync d < 0xFFFFFFFF /\
       forall j d', block_at c j stFull d' -> db_sync d < db_sync d' \/ db_sync d = db_sync d' /\ r <= j).
Proof.
  intros Hinv. destruct (getFull_ok c Hinv) as (c' & r & -> & _ & H1 & H2 & H3 & Hr).
  exists c', r. split_and!; [done..|]. destruct Hr as [[-> Hn]|(d & Hd & Hlt & Hs & Hm)]; [left|right].
  - split; [done|]. intros j d Hj. apply (Hn j d Hj). apply (block_at_range _ _ _ _ Hinv) in Hj. lia.
  - exists d. split_and!; [done..|]. intros j d' Hj. apply (Hm j d' Hj). apply (block_at_range _ _ _ _ Hinv) in Hj. lia.
Qed.

(** ** Taking a buffer *)

(** The first free buffer; [i0 = size] when there is none. *)
Definition first_free (c : Container) (i0 : Z) : Prop :=
  0 <= i0 <= bc_size c /\
  (forall j st d, block_at c j st d -> j < i0 -> st = stFull) /\
  (i0 < bc_size c -> exists d, block_at c i0 stFree d).

Lemma mod_succ index size :
  0 <= index < size -> (if bool_decide (index + 1 >= size) then 0 else index + 1) = (index + 1) mod size.
Proof.
  intros Hi. case_bool_decide; [|by rewrite Z.mod_small by lia].
  replace (index + 1) with size by lia. by rewrite Z.mod_same by lia.
Qed.

Lemma scan_free_ok fuel i index c i0 :
  bc_inv c -> first_free c i0 -> 0 <= i <= i0 -> 0 <= index < bc_size c -> i0 - i < Z.of_nat fuel ->
  scan_free fuel i index c = Ret (i0, (index + (i0 - i)) mod bc_size c).
Proof.
  intros Hinv (H0 & Hfull & Hfree). pose proof (bc_inv_size _ Hinv).
  revert i index. induction fuel as [|fuel IH]; intros i index Hi Hx Hf; [lia|]. cbn [scan_free].
  case_bool_decide as Hlt.
  2: { assert (i0 = i) as -> by lia. by rewrite Z.sub_diag, Z.add_0_r, Z.mod_small. }
  destruct (info_at c i Hinv) as (st & d & Hb & _); [lia|]. rewrite (block_at_info _ _ _ _ Hb).
  cbn [mbind outcome_bind bi_state]. destruct (decide (i = i0)) as [->|Hne].
  - destruct (Hfree Hlt) as [d' Hd']. unfold block_at in *. rewrite Hb in Hd'. injection Hd' as -> ->.
    rewrite bool_decide_false by (intros E; by apply E). by rewrite Z.sub_diag, Z.add_0_r, Z.mod_small.
  - rewrite (Hfull i st d Hb) by lia. rewrite bool_decide_true by done.
    assert (s16 (index + 1) = index + 1) as -> by (unfold s16; rewrite Z.mod_small; lia).
    rewrite u16_id by (unw; lia). rewrite mod_succ by done.
    rewrite IH; [|lia|apply Z.mod_pos_bound; lia|lia]. do 2 f_equal.
    rewrite Zplus_mod_idemp_l. f_equal. lia.
Qed.

(** The counters after a buffer is taken. *)
Definition taken (c : Container) : Container :=
  bc_set_free (bc_nFree c - 1) ((bc_iFree c + 1) mod bc_size c) c.

Lemma taken_inv c : bc_inv c -> bc_nFree c <> 0 -> bc_inv (taken c).
Proof.
  intros Hinv Hn. pose proof (bc_inv_nFree _ Hinv). pose proof (bc_inv_size _ Hinv).
  apply bc_set_free_inv; [done|lia|]. apply Z.mod_pos_bound. lia.
Qed.

Definition cleared (d : TDataBuffer) : TDataBuffer := mkDataBuffer 0 0 (db_sync d) (db_data d).

Lemma lock_ok c i0 :
  bc_inv c -> bc_nFree c <> 0 -> first_free c i0 ->
  let n := (bc_iFree c + i0) mod bc_size c in
  if bool_decide (i0 < bc_size c) then
    exists st d, block_at c n st d /\ lockFreeBuffer c = Ret (bc_put n stFull (cleared d) (taken c), n) /\
      bc_inv (bc_put n stFull (cleared d) (taken c))
  else lockFreeBuffer c = Ret (taken c, kRcErr).
Proof.
  intros Hinv Hn Hff n. pose proof (bc_inv_size _ Hinv). pose proof (bc_inv_iFree _ Hinv).
  pose proof (bc_inv_nFree _ Hinv). unfold lockFreeBuffer. rewrite (bool_decide_false (bc_nFree c = 0)) by done.
  rewrite !(u16_id (bc_iFree c + 1)) by (unw; lia). rewrite mod_succ by lia.
  rewrite (u16_id (bc_nFree c - 1)) by (unw; lia).
  assert (s16 (bc_iFree c) = bc_iFree c) as -> by (unfold s16; rewrite Z.mod_small; lia).
  change (bc_set_free (bc_nFree c - 1) _ c) with (taken c).
  pose proof (taken_inv c Hinv Hn) as Hinv'.
  rewrite (scan_free_ok _ 0 (bc_iFree c) (taken c) i0) by (try done; destruct Hff; cbn; lia).
  cbn [mbind outcome_bind]. change (bc_size (taken c)) with (bc_size c). rewrite Z.sub_0_r. fold n.
  case_bool_decide; [|done].
  assert (0 <= n < bc_size c) as Hnr by (apply Z.mod_pos_bound; lia).
  destruct (info_at c n Hinv Hnr) as (st & d & Hb & Hd). exists st, d. split; [done|].
  rewrite (block_at_getBuffer (taken c) n st d) by done. cbn [mbind outcome_bind].
  fold (cleared d). rewrite (set_info_ok n stFull (cleared d) (taken c)) by done. cbn [mbind outcome_bind].
  split; [done|]. by apply bc_put_inv.
Qed.

(** Taking a buffer for new data.  Without free buffers (by the counter)
    the answer is -1 and nothing changes.  Otherwise one buffer is counted off
    and the cursor moves on; the buffer taken is the one that lies the number
    of the first free buffer after the cursor, which is the first free buffer
    itself only when the cursor stands at 0: it may well be in use, and then
    its packet number and size are cleared all the same.  With every buffer in
    use the answer is -1. *)
Theorem lockFreeBuffer_spec (c : Container) (i0 : Z) :
  bc_inv c -> first_free c i0 ->
  (bc_nFree c = 0 -> lockFreeBuffer c = Ret (c, -1)) /\
  (bc_nFree c <> 0 -> i0 = bc_size c -> exists c', lockFreeBuffer c = Ret (c', -1) /\ bc_buffers c' = bc_buffers c) /\
  (bc_nFree c <> 0 -> i0 < bc_size c ->
     exists c' st d, let n := (bc_iFree c + i0) mod bc_size c in
       lockFreeBuffer c = Ret (c', n) /\ bc_inv c' /\ block_at c n st d /\
       block_at c' n stFull (mkDataBuffer 0 0 (db_sync d) (db_data d)) /\
       (forall j st' d', j <> n -> block_at c' j st' d' <-> block_at c j st' d') /\
       bc_nFree c' = bc_nFree c - 1 /\ bc_iFree c' = (bc_iFree c + 1) mod bc_size c).
Proof.
  intros Hinv Hff. split_and!.
  - intros H0. unfold lockFreeBuffer. by rewrite bool_decide_true.
  - intros Hn Hi. pose proof (lock_ok c i0 Hinv Hn Hff) as Hl. cbv zeta in Hl.
    rewrite bool_decide_false in Hl by lia. by eexists.
  - intros Hn Hi. pose proof (lock_ok c i0 Hinv Hn Hff) as Hl. cbv zeta in Hl.
    rewrite bool_decide_true in Hl by lia. destruct Hl as (st & d & Hb & Hl & Hinv').
    pose proof (bc_inv_size _ Hinv). set (n := (bc_iFree c + i0) mod bc_size c) in *.
    assert (0 <= n < bc_size c) by (apply Z.mod_pos_bound; lia).
    exists (bc_put n stFull (cleared d) (taken c)), st, d. split_and!; [done|done|done| | |done|done].
    + apply (bc_put_at n stFull (cleared d) (taken c)); [by apply taken_inv|done].
    + intros j st' d' Hj. rewrite bc_put_ne by (done || lia). done.
Qed.

(** *** Filling the container *)

Fixpoint lock_n (n : nat) (c : Container) : outcome (Container * list Z) :=
  match n with
  | O => Ret (c, [])
  | S n => '(c, i) ← lockFreeBuffer c; '(c, l) ← lock_n n c; Ret (c, i :: l)
  end.

(** After [k] buffers were taken from an empty container. *)
Definition filled (k : Z) (c : Container) : Prop :=
  bc_inv c /\ bc_size c = 32 /\ bc_nFree c = 32 - k /\ bc_iFree c = k mod 32 /\
  forall j st d, block_at c j st d -> st = bool_decide (j = 0 \/ 2 <= j <= k).

Lemma filled_first_free k c : 1 <= k <= 31 -> filled k c -> first_free c 1.
Proof.
  intros Hk (Hinv & Hsz & _ & _ & Hst). split_and!; [lia|lia| |].
  - intros j st d Hj Hj1. pose proof (block_at_range _ _ _ _ Hinv Hj).
    rewrite (Hst j st d Hj). by rewrite bool_decide_true by lia.
  - intros _. destruct (info_at c 1 Hinv) as (st & d & Hb & _); [lia|]. exists d.
    rewrite (Hst 1 st d Hb) in Hb. by rewrite bool_decide_false in Hb by lia.
Qed.

Lemma filled_lock k c :
  1 <= k <= 31 -> filled k c ->
  exists c', lockFreeBuffer c = Ret (c', (k + 1) mod 32) /\ filled (k + 1) c'.
Proof.
  intros Hk Hfl. pose proof (filled_first_free k c Hk Hfl) as Hff.
  destruct Hfl as (Hinv & Hsz & Hn & Hi & Hst).
  pose proof (lock_ok c 1 Hinv ltac:(lia) Hff) as Hl. cbv zeta in Hl.
  rewrite bool_decide_true in Hl by lia. rewrite Hi, Hsz, Zplus_mod_idemp_l in Hl.
  destruct Hl as (st & d & Hb & -> & Hinv'). eexists. split; [done|].
  set (n := (k + 1) mod 32) in *. assert (0 <= n < 32) by (apply Z.mod_pos_bound; lia).
  assert (n = k + 1 \/ n = 0 /\ k = 31) as Hnk.
  { destruct (decide (k = 31)) as [->|]; [by right|left]. subst n. apply Z.mod_small. lia. }
  split_and!; [done|done|cbn; lia|cbn; rewrite Hsz, Hi, Zplus_mod_idemp_l; done|].
  intros j st' d' Hj. destruct (decide (j = n)) as [->|Hne].
  - pose proof (bc_put_at n stFull (cleared d) (taken c) ltac:(by apply taken_inv; [|lia]) ltac:(cbn; lia)) as Hat.
    unfold block_at in *. rewrite Hat in Hj. injection Hj as <- <-. symmetry. apply bool_decide_true. lia.
  - apply bc_put_ne in Hj; [|lia|done]. rewrite (Hst j st' d' Hj).
    pose proof (block_at_range c j st' d' Hinv Hj). apply bool_decide_ext. lia.
Qed.

Lemma filled_lock_n n k c :
  1 <= k -> k + Z.of_nat n <= 32 -> filled k c ->
  exists c', lock_n n c = Ret (c', map (fun i => i mod 32) (seqZ (k + 1) (Z.of_nat n))) /\ filled (k + Z.of_nat n) c'.
Proof.
  revert k c. induction n as [|n IH]; intros k c Hk Hn Hf.
  { exists c. cbn [lock_n]. rewrite seqZ_nil by lia. by rewrite Z.add_0_r. }
  cbn [lock_n]. destruct (filled_lock k c) as (c1 & -> & Hf1); [lia|done|]. cbn [mbind outcome_bind].
  destruct (IH (k + 1) c1) as (c2 & -> & Hf2); [lia|lia|done|]. cbn [mbind outcome_bind].
  exists c2. rewrite (seqZ_cons (k + 1) (Z.of_nat (S n))) by lia. cbn [map].
  replace (Z.succ (k + 1)) with (k + 1 + 1) by lia. replace (Z.pred (Z.of_nat (S n))) with (Z.of_nat n) by lia.
  split; [done|]. by replace (k + Z.of_nat (S n)) with (k + 1 + Z.of_nat n) by lia.
Qed.

Lemma bc_reset_at c j st d : block_at (bc_reset c) j st d -> st = stFree.
Proof.
  intros [_ Hj]%rd_Some. cbn in Hj. apply list_lookup_fmap_Some in Hj as ([o s] & Hx & _). by injection Hx.
Qed.

Lemma bc_reset_inv c : bc_inv c -> bc_inv (bc_reset c).
Proof.
  intros [H1 H2 H3 H4 H5 H6 H7]. constructor; cbn; rewrite ?length_map; try done || lia.
  apply Forall_map. eapply Forall_impl; [exact H3|]. done.
Qed.

Lemma first_free_reset c : bc_inv c -> first_free (bc_reset c) 0.
Proof.
  intros Hinv. pose proof (bc_inv_size _ Hinv) as Hsz. pose proof (bc_reset_inv c Hinv) as Hinv'. split_and!; [done|cbn; lia| |].
  - intros j st d Hj Hj0. pose proof (block_at_range _ _ _ _ Hinv' Hj). lia.
  - intros _. destruct (info_at (bc_reset c) 0 Hinv') as (st & d & Hb & _); [cbn; lia|].
    exists d. by rewrite (bc_reset_at c 0 st d Hb) in Hb.
Qed.

(** Filling the empty container of 32 buffers without releasing any.
    The buffers taken are 0, then 2, 3, .., 31, and then 0 again: the 32nd
    block overwrites the first one, which has not been sent, and buffer 1 is
    never used. *)
Theorem lock_all_overwrites (c : Container) :
  bc_inv c -> bc_size c = 32 ->
  exists c', lock_n 32 (bc_reset c) = Ret (c', [0] ++ seqZ 2 30 ++ [0]) /\
    bc_nFree c' = 0 /\ exists d, block_at c' 1 stFree d.
Proof.
  intros Hinv Hsz. pose proof (bc_reset_inv c Hinv) as Hinv'.
  pose proof (lock_ok (bc_reset c) 0 Hinv' ltac:(cbn; lia) (first_free_reset c Hinv)) as Hl. cbv zeta in Hl.
  change (bc_size (bc_reset c)) with (bc_size c) in Hl. rewrite Hsz in Hl.
  rewrite bool_decide_true in Hl by lia. change (bc_iFree (bc_reset c)) with 0 in Hl. change ((0 + 0) mod 32) with 0 in Hl.
  destruct Hl as (st & d & Hb & Hl & Hi1). set (c1 := bc_put 0 _ _ _) in *.
  assert (filled 1 c1) as Hf.
  { split_and!; [done|done|cbn; lia|cbn; by rewrite Hsz|]. intros j st' d' Hj.
    destruct (decide (j = 0)) as [->|Hne].
    - pose proof (bc_put_at 0 stFull (cleared d) (taken (bc_reset c)) ltac:(apply taken_inv; [done|cbn; lia]) ltac:(cbn; lia)) as Hat.
      unfold block_at in *. fold c1 in Hat. rewrite Hat in Hj. by injection Hj as <- <-.
    - subst c1. apply bc_put_ne in Hj; [|lia|done]. change (block_at (bc_reset c) j st' d') in Hj.
      rewrite (bc_reset_at c j st' d' Hj). rewrite bool_decide_false by lia. done. }
  destruct (filled_lock_n 31 1 c1) as (c2 & Hl2 & Hf2); [lia|lia|done|].
  assert (lock_n 32 (bc_reset c) = ('(c', i) ← lockFreeBuffer (bc_reset c); '(c', l) ← lock_n 31 c'; Ret (c', i :: l)))
    as -> by done.
  rewrite Hl. cbn [mbind outcome_bind]. rewrite Hl2. cbn [mbind outcome_bind].
  exists c2. destruct Hf2 as (Hi2 & Hs2 & Hn2 & _ & Hst2). split_and!; [reflexivity|lia|].
  destruct (info_at c2 1 Hi2) as (st' & d' & Hb' & _); [lia|]. exists d'.
  rewrite (Hst2 1 st' d' Hb') in Hb'. by rewrite bool_decide_false in Hb' by lia.
Qed.

(** ** Giving a buffer back *)

Definition unnumbered (d : TDataBuffer) : TDataBuffer := mkDataBuffer 0 (db_size d) (db_sync d) (db_data d).

(** The counters after a buffer in use is released. *)
Definition given_back (n : Z) (c : Container) : Container :=
  let c := if bool_decide (bc_nFull c > 0) then bc_set_full (bc_nFull c) ((bc_iFull c + 1) mod bc_size c) c else c in
  bc_set_free (Z.max 1 (bc_nFree c)) (if bool_decide (Z.max 1 (bc_nFree c) = 1) then n else bc_iFree c) c.

Lemma given_back_inv n c : bc_inv c -> 0 <= n < bc_size c -> bc_inv (given_back n c).
Proof.
  intros Hinv Hn. pose proof (bc_inv_nFree _ Hinv). pose proof (bc_inv_size _ Hinv). unfold given_back.
  set (c1 := if bool_decide (bc_nFull c > 0) then _ else c).
  assert (bc_inv c1 /\ bc_size c1 = bc_size c /\ bc_nFree c1 = bc_nFree c) as (Hi1 & Hs1 & Hn1).
  { subst c1. case_bool_decide; [|done]. split; [|done]. apply bc_set_full_inv; [done|apply Hinv|].
    apply Z.mod_pos_bound. lia. }
  apply bc_set_free_inv; [done|lia|]. case_bool_decide; [lia|apply Hi1].
Qed.

Lemma given_back_buffers n c : bc_buffers (given_back n c) = bc_buffers c /\ bc_size (given_back n c) = bc_size c.
Proof. unfold given_back. by case_bool_decide. Qed.

Lemma release_full_ok c n d :
  bc_inv c -> block_at c n stFull d ->
  releaseBuffer n c = Ret (bc_put n stFree (unnumbered d) (given_back n c)) /\
  bc_inv (bc_put n stFree (unnumbered d) (given_back n c)).
Proof.
  intros Hinv Hb. pose proof (block_at_range _ _ _ _ Hinv Hb) as Hn.
  destruct (info_at c n Hinv Hn) as (st' & d' & Hb' & Hd). unfold block_at in Hb'. rewrite Hb in Hb'.
  injection Hb' as <- <-. pose proof (bc_inv_size _ Hinv). pose proof (bc_inv_nFree _ Hinv).
  pose proof (bc_inv_iFull _ Hinv).
  pose proof (given_back_inv n c Hinv Hn) as Hinv'. split; [|by apply bc_put_inv].
  unfold releaseBuffer. rewrite (block_at_info _ _ _ _ Hb). cbn [mbind outcome_bind bi_state bi_buffer checked].
  rewrite !(bool_decide_true (stFull = stFull)), (bool_decide_true (stFull <> stFree)) by done.
  match goal with |- set_info n _ ?x = _ => assert (x = given_back n c) as -> end.
  { unfold given_back. cbn [bc_set_free bc_nFull bc_nFree bc_size bc_iFree bc_iFull].
    set (m := if bool_decide (bc_nFree c > 0) then u16 (bc_nFree c - 1) else bc_nFree c).
    assert (m = bc_nFree c - 1 /\ bc_nFree c > 0 \/ m = 0 /\ bc_nFree c = 0) as Hm
      by (subst m; case_bool_decide; [left; split; [apply u16_id; unw|]; lia|right; lia]).
    assert ((if bool_decide (m < bc_size c) then u16 (m + 1) else m) = Z.max 1 (bc_nFree c)) as Hm1.
    { rewrite bool_decide_true by lia. rewrite u16_id by (unw; lia). lia. }
    destruct (bool_decide (bc_nFull c > 0)); cbn [bc_nFree bc_size bc_iFree bc_set_full bc_set_free bc_nFull bc_iFull].
    - rewrite Hm1. rewrite (u16_id (bc_iFull c + 1)) by (unw; lia).
      assert ((if bool_decide (bc_iFull c + 1 = bc_size c) then 0 else bc_iFull c + 1) = (bc_iFull c + 1) mod bc_size c) as ->.
      { destruct (decide (bc_iFull c + 1 = bc_size c)) as [E|E].
        - rewrite bool_decide_true by done. by rewrite E, Z.mod_same by lia.
        - rewrite bool_decide_false by done. by rewrite Z.mod_small by lia. }
      done.
    - rewrite Hm1. done. }
  fold (unnumbered d). apply set_info_ok; [done|]. destruct (given_back_buffers n c) as [_ ->]. done.
Qed.

Fixpoint lock_release_n (k : nat) (c : Container) : outcome Container :=
  match k with
  | O => Ret c
  | S k => '(c, i) ← lockFreeBuffer c; c ← releaseBuffer i c; lock_release_n k c
  end.

(** All buffers are free and the counter says [m]. *)
Definition idle (m : Z) (c : Container) : Prop :=
  bc_inv c /\ bc_nFree c = m /\ forall j st d, block_at c j st d -> st = stFree.

Lemma idle_first_free m c : idle m c -> first_free c 0.
Proof.
  intros (Hinv & _ & Hst). pose proof (bc_inv_size _ Hinv). split_and!; [done|lia| |].
  - intros j st d Hj Hj0. pose proof (block_at_range _ _ _ _ Hinv Hj). lia.
  - intros _. destruct (info_at c 0 Hinv) as (st & d & Hb & _); [lia|]. exists d. by rewrite (Hst 0 st d Hb) in Hb.
Qed.

Lemma idle_lock m c :
  idle m c -> 1 <= m -> exists c' n d, lockFreeBuffer c = Ret (c', n) /\ bc_inv c' /\ bc_nFree c' = m - 1 /\
    block_at c' n stFull d /\ (forall j st d, j <> n -> block_at c' j st d -> st = stFree) /\
    forall j st d, j <> n -> block_at c' j st d -> block_at c j st d.
Proof.
  intros Hid Hm. pose proof Hid as (Hinv & Hn & Hst). pose proof (bc_inv_size _ Hinv).
  pose proof (lock_ok c 0 Hinv ltac:(lia) (idle_first_free _ _ Hid)) as Hl. cbv zeta in Hl.
  rewrite bool_decide_true in Hl by lia. rewrite Z.add_0_r in Hl. set (n := bc_iFree c mod bc_size c) in *.
  assert (0 <= n < bc_size c) by (apply Z.mod_pos_bound; lia).
  destruct Hl as (st & d & Hb & -> & Hinv'). eexists _, n, (cleared d). split; [done|]. split; [done|].
  split; [cbn; lia|]. split; [apply (bc_put_at n stFull (cleared d) (taken c)); [apply taken_inv; [done|lia]|done]|].
  split; intros j st' d' Hj Hb'; (apply bc_put_ne in Hb'; [|lia|done]); [by apply (Hst j st' d')|exact Hb'].
Qed.

Lemma idle_cycle m c :
  idle m c -> 1 <= m -> exists c1 n c2, lockFreeBuffer c = Ret (c1, n) /\ releaseBuffer n c1 = Ret c2 /\
    idle (Z.max 1 (m - 1)) c2.
Proof.
  intros Hid Hm. destruct (idle_lock m c Hid Hm) as (c1 & n & d & Hl & Hi1 & Hn1 & Hb & Hst & _).
  destruct (release_full_ok c1 n d Hi1 Hb) as [Hr Hi2]. pose proof (block_at_range _ _ _ _ Hi1 Hb) as Hnr.
  destruct (given_back_buffers n c1) as [Hgb Hgs].
  exists c1, n. eexists. split; [done|]. split; [done|]. split_and!; [done| |].
  - cbn. unfold given_back. rewrite <-Hn1. by case_bool_decide.
  - intros j st d' Hj. destruct (decide (j = n)) as [->|Hne].
    + pose proof (bc_put_at n stFree (unnumbered d) (given_back n c1) ltac:(by apply given_back_inv) ltac:(by rewrite Hgs)) as Hat.
      unfold block_at in *. rewrite Hat in Hj. by injection Hj as <- <-.
    + apply bc_put_ne in Hj; [|lia|done]. unfold block_at in Hj. rewrite Hgb in Hj. by apply (Hst j st d').
Qed.

Lemma idle_cycles k m c :
  idle m c -> 1 <= m -> exists c', lock_release_n k c = Ret c' /\ idle (Z.max 1 (m - Z.of_nat k)) c'.
Proof.
  revert m c. induction k as [|k IH]; intros m c Hid Hm.
  { exists c. split; [done|]. by replace (Z.max 1 (m - Z.of_nat 0)) with m by lia. }
  destruct (idle_cycle m c Hid Hm) as (c1 & n & c2 & Hl & Hr & Hid2). cbn [lock_release_n].
  rewrite Hl. cbn [mbind outcome_bind]. rewrite Hr. cbn [mbind outcome_bind].
  destruct (IH _ _ Hid2) as (c3 & Hc3 & Hid3); [lia|]. exists c3. split; [done|].
  by replace (Z.max 1 (m - Z.of_nat (S k))) with (Z.max 1 (Z.max 1 (m - 1) - Z.of_nat k)) by lia.
Qed.

(** Releasing a buffer does not give it back to the counter of free
    buffers.  However often a buffer of the empty container is taken and
    released, each time costs one buffer of the count, down to one; then a
    single block in use makes the next request for a buffer fail, although all
    other buffers are free. *)
Theorem release_loses_capacity (c : Container) (k : nat) :
  bc_inv c ->
  exists c', lock_release_n k (bc_reset c) = Ret c' /\ bc_nFree c' = Z.max 1 (bc_size c - Z.of_nat k) /\
    (forall j st d, block_at c' j st d -> st = stFree) /\
    (bc_size c - Z.of_nat k <= 1 ->
       exists c'' n, lockFreeBuffer c' = Ret (c'', n) /\ lockFreeBuffer c'' = Ret (c'', -1) /\
         forall j st d, j <> n -> block_at c'' j st d -> st = stFree).
Proof.
  intros Hinv. pose proof (bc_inv_size _ Hinv).
  assert (idle (bc_size c) (bc_reset c)) as Hid.
  { split_and!; [by apply bc_reset_inv|done|]. intros j st d. apply bc_reset_at. }
  destruct (idle_cycles k _ _ Hid) as (c' & Hc' & Hid'); [lia|]. exists c'.
  pose proof Hid' as (Hi' & Hn' & Hst'). split_and!; [done|done|done|]. intros Hk.
  destruct (idle_lock _ _ Hid') as (c2 & n & d & Hl & Hi2 & Hn2 & _ & Hst2 & _); [lia|].
  exists c2, n. split_and!; [done| |done]. unfold lockFreeBuffer. by rewrite bool_decide_true by lia.
Qed.

(** ** Writing a block *)

(** The memory of a block of [k] samples as it comes from the bus. *)
Definition block_memory (pn k sync : Z) (data rest : list Z) : list Z :=
  le2 pn ++ le2 k ++ le4 sync ++ data ++ rest.

Definition block_header_ok (pn k sync : Z) (data : list Z) : Prop :=
  is_u16 pn /\ is_u16 k /\ is_u32 sync /\ Z.of_nat (length data) = k * kDataSampleSize.

Lemma block_memory_fields pn k sync data rest :
  block_header_ok pn k sync data ->
  rd16 (block_memory pn k sync data rest) 0 = Some pn /\ rd16 (block_memory pn k sync data rest) 2 = Some k /\
  rd32 (block_memory pn k sync data rest) 4 = Some sync /\
  slice (block_memory pn k sync data rest) getServiceInfoSize (k * kDataSampleSize) = Some data.
Proof.
  intros (Hp & Hk & Hs & Hl). unfold block_memory. split_and!.
  - by apply (rd16_le2 []).
  - by apply (rd16_le2 (le2 pn)).
  - rewrite (app_assoc (le2 pn)). by apply (rd32_le4 (le2 pn ++ le2 k)).
  - rewrite <-Hl, slice_ok by (rewrite ?length_app; change (length (le2 _)) with 2%nat;
      change (length (le4 _)) with 4%nat; unfold getServiceInfoSize; lia).
    change (Z.to_nat getServiceInfoSize) with 8%nat. rewrite Nat2Z.id.
    change (drop 8 _) with (data ++ rest). by rewrite take_app_length.
Qed.

Lemma writeBuffer_locked pn k sync data rest c n d c1 :
  block_header_ok pn k sync data -> bc_inv c1 -> lockFreeBuffer c = Ret (c1, n) -> n <> kRcErr ->
  block_at c1 n stFull d -> Z.of_nat (length (db_data d)) = kMaxDataSize ->
  writeBuffer (block_memory pn k sync data rest) kDataId c =
    if bool_decide (k * kDataSampleSize <= kMaxDataSize) then
      Ret (bc_put n stFull (mkDataBuffer pn k sync (data ++ drop (length data) (db_data d))) c1,
           8 + k * kDataSampleSize)
    else Ret (c1, kIncorrectSize).
Proof.
  intros Hok Hinv Hl Hn Hb Hd. destruct (block_memory_fields pn k sync data rest Hok) as (F0 & F2 & F4 & F8).
  destruct Hok as (Hp & Hk & Hs & Hlen). pose proof (block_at_range _ _ _ _ Hinv Hb) as Hnr.
  unfold writeBuffer. rewrite bool_decide_false by (intros E; by apply E). rewrite Hl. cbn [mbind outcome_bind].
  rewrite bool_decide_true by done. rewrite (block_at_getBuffer _ _ _ _ Hb), F2. cbn [checked mbind outcome_bind].
  rewrite u32_id by (unfold kDataSampleSize, kSampleSize_Int32x3 in *; unw; lia).
  case_bool_decide as Hfit; [|done]. rewrite F0. cbn [checked mbind outcome_bind]. rewrite F4. cbn [checked mbind outcome_bind].
  rewrite F8. cbn [checked mbind outcome_bind]. unfold blit.
  rewrite bool_decide_true by lia. cbn [checked mbind outcome_bind]. change (Z.to_nat 0) with 0%nat.
  rewrite take_0, app_nil_l, Nat.add_0_l. unfold putBuffer. rewrite (block_at_info _ _ _ _ Hb).
  cbn [mbind outcome_bind bi_state]. rewrite set_info_ok by done. cbn [mbind outcome_bind].
  do 2 f_equal. unfold kMaxDataSize, MAX_DATA_BUFFER_SIZE, getServiceInfoSize, s16 in *. rewrite Z.mod_small; lia.
Qed.

(** Storing a block.  A block of another type is refused and nothing
    changes; without free buffers the answer is -1; a block of more than 42
    samples is refused, but the buffer chosen for it stays in use, empty.
    Otherwise exactly one buffer changes: it is in use and holds the packet
    number, the size, the time stamp and the samples of the block, and the
    answer is the number of bytes stored.  In no case is anything accessed
    outside the block or the buffer. *)
Theorem writeBuffer_spec (pn k sync : Z) (data rest : list Z) (dataId : Z) (c : Container) (i0 : Z) :
  bc_inv c -> first_free c i0 -> block_header_ok pn k sync data ->
  let mem := block_memory pn k sync data rest in
  let n := (bc_iFree c + i0) mod bc_size c in
  (dataId <> kDataId -> writeBuffer mem dataId c = Ret (c, kIncorrectId)) /\
  (dataId = kDataId -> bc_nFree c = 0 -> writeBuffer mem dataId c = Ret (c, kNoBuffers)) /\
  (dataId = kDataId -> bc_nFree c <> 0 -> i0 < bc_size c -> exists c' d,
     writeBuffer mem dataId c = Ret (c', if bool_decide (k <= 42) then 8 + 12 * k else kIncorrectSize) /\ bc_inv c' /\
     block_at c' n stFull d /\ (forall j st d', j <> n -> block_at c' j st d' <-> block_at c j st d') /\
     (if bool_decide (k <= 42)
      then db_packet d = pn /\ db_size d = k /\ db_sync d = sync /\ take (length data) (db_data d) = data
      else db_packet d = 0 /\ db_size d = 0)).
Proof.
  intros Hinv Hff Hok mem n. split_and!.
  - intros Hid. unfold writeBuffer. by rewrite bool_decide_true.
  - intros -> H0. unfold writeBuffer. rewrite bool_decide_false by (intros E; by apply E).
    unfold lockFreeBuffer. by rewrite bool_decide_true.
  - intros -> Hn Hi. pose proof (lock_ok c i0 Hinv Hn Hff) as Hl. cbv zeta in Hl. rewrite bool_decide_true in Hl by done.
    fold n in Hl. destruct Hl as (st & d & Hb & Hl & Hinv'). pose proof (bc_inv_size _ Hinv).
    assert (0 <= n < bc_size c) as Hnr by (apply Z.mod_pos_bound; lia).
    destruct (info_at c n Hinv Hnr) as (st2 & d2 & Hb2 & Hd2). unfold block_at in Hb, Hb2. rewrite Hb in Hb2.
    injection Hb2 as <- <-. set (c1 := bc_put n stFull (cleared d) (taken c)) in *.
    assert (block_at c1 n stFull (cleared d)) as Hb1 by (apply bc_put_at; [by apply taken_inv|done]).
    assert (forall j st' d', j <> n -> block_at c1 j st' d' <-> block_at c j st' d') as Hne
      by (intros j st' d' Hj; apply (bc_put_ne n j stFull (cleared d) st' d' (taken c)); [lia|congruence]).
    unfold mem. rewrite (writeBuffer_locked pn k sync data rest c n (cleared d) c1) by (done || unfold kRcErr; lia).
    assert (bool_decide (k * kDataSampleSize <= kMaxDataSize) = bool_decide (k <= 42)) as ->
      by (apply bool_decide_ext; unfold kDataSampleSize, kSampleSize_Int32x3, kMaxDataSize, MAX_DATA_BUFFER_SIZE; lia).
    destruct Hok as (_ & _ & _ & Hlen). case_bool_decide as Hk.
    + set (d' := mkDataBuffer pn k sync _). exists (bc_put n stFull d' c1), d'. split_and!.
      * do 2 f_equal. unfold kDataSampleSize, kSampleSize_Int32x3. lia.
      * apply bc_put_inv; [done|]. cbn [db_data d']. rewrite length_app, length_drop.
        unfold cleared, kDataSampleSize, kSampleSize_Int32x3, kMaxDataSize, MAX_DATA_BUFFER_SIZE in *. cbn [db_data]. lia.
      * by apply bc_put_at.
      * intros j st' d0 Hj. rewrite bc_put_ne by (done || lia). by apply Hne.
      * done. * done. * done. * cbn [db_data d']. by rewrite take_app_length.
    + exists c1, (cleared d). done.
Qed.

(** ** The host is never told about the data *)

Lemma lock_nFull c c' n : lockFreeBuffer c = Ret (c', n) -> bc_nFull c' = bc_nFull c.
Proof.
  unfold lockFreeBuffer. case_bool_decide; [by intros [= <- _]|]. intros Hl.
  apply bind_Ret in Hl as ([i index] & _ & Hl). case_bool_decide; [|by injection Hl as <- _].
  apply bind_Ret in Hl as (d & _ & Hl). apply bind_Ret in Hl as (c1 & Hs & Hl). injection Hl as <- _.
  unfold set_info in Hs. apply bind_Ret in Hs as (l & _ & Hs). by injection Hs as <-.
Qed.

Lemma putBuffer_nFull n d c c' : putBuffer n d c = Ret c' -> bc_nFull c' = bc_nFull c.
Proof.
  unfold putBuffer, set_info. intros Hp. apply bind_Ret in Hp as (b & _ & Hp). apply bind_Ret in Hp as (l & _ & Hp).
  by injection Hp as <-.
Qed.

Lemma writeBuffer_nFull mem dataId c c' rc : writeBuffer mem dataId c = Ret (c', rc) -> bc_nFull c' = bc_nFull c.
Proof.
  unfold writeBuffer. case_bool_decide; [by intros [= <- _]|]. intros Hw.
  apply bind_Ret in Hw as ([c1 n] & Hl%lock_nFull & Hw). case_bool_decide; [|by injection Hw as <- _].
  apply bind_Ret in Hw as (b & _ & Hw). apply bind_Ret in Hw as (size & _ & Hw).
  case_bool_decide; [|by injection Hw as <- _].
  do 4 (apply bind_Ret in Hw as (? & _ & Hw)). apply bind_Ret in Hw as (c2 & Hp%putBuffer_nFull & Hw).
  injection Hw as <- _. congruence.
Qed.

Lemma release_nFull n c c' : releaseBuffer n c = Ret c' -> bc_nFull c' = bc_nFull c.
Proof.
  unfold releaseBuffer. intros Hr. apply bind_Ret in Hr as (b & _ & Hr). apply bind_Ret in Hr as (d & _ & Hr).
  unfold set_info in Hr. apply bind_Ret in Hr as (l & _ & Hr). injection Hr as <-. cbn [bc_set_buffers bc_nFull].
  destruct (bool_decide (bi_state b <> stFree)), (bool_decide (bi_state b = stFull)); cbn [bc_set_free bc_nFull]; try done;
    by destruct (bool_decide (bc_nFull _ > 0)).
Qed.

Lemma ack_nFull pn c c' : handleMsgDataAcknowledge pn c = Ret c' -> bc_nFull c' = bc_nFull c.
Proof.
  unfold handleMsgDataAcknowledge, releaseBufferByPacketNumber. intros Ha.
  apply bind_Ret in Ha as ([c1 b] & Hr & Ha). injection Ha as <-. apply bind_Ret in Hr as ([i|] & _ & Hr).
  - apply bind_Ret in Hr as (c2 & Hr2%release_nFull & Hr). injection Hr as <- _. done.
  - by injection Hr as <- _.
Qed.

Lemma getFull_nFull c c' n : getFullBufferSortBySync c = Ret (c', n) -> bc_nFull c' = bc_nFull c.
Proof.
  unfold getFullBufferSortBySync. intros Hg. apply bind_Ret in Hg as (i & _ & Hg).
  case_bool_decide; by injection Hg as <- _.
Qed.

Section Module_.
Context {L : Type} `{Layer1Tx L}.

(** The calls the rest of the program makes. *)
Inductive db_op :=
  | OpWriteBuffer (mem : list Z) (dataId : Z)
  | OpRequestData (sequenceNumber : Z)
  | OpAcknowledge (packetNumber : Z)
  | OpReset.

Definition db_step (o : db_op) (s : Container * HiIO L) : outcome (Container * HiIO L) :=
  let '(c, h) := s in
  match o with
  | OpWriteBuffer mem dataId => '(c, _) ← writeBuffer mem dataId c; Ret (c, h)
  | OpRequestData sn => handleMsgRequestData sn c h
  | OpAcknowledge pn => c ← handleMsgDataAcknowledge pn c; Ret (c, h)
  | OpReset => Ret (db_reset c, h)
  end.

Fixpoint db_run (os : list db_op) (s : Container * HiIO L) : outcome (Container * HiIO L) :=
  match os with
  | [] => Ret s
  | o :: os => s ← db_step o s; db_run os s
  end.

Lemma db_run_nFull (os : list db_op) (c c' : Container) (h h' : HiIO L) :
  bc_nFull c = 0 -> db_run os (c, h) = Ret (c', h') -> bc_nFull c' = 0.
Proof.
  intros H0 Hrun. revert c h H0 Hrun. induction os as [|o os IH]; intros c h H0 Hrun; cbn [db_run] in Hrun.
  { injection Hrun as <- _. done. }
  apply bind_Ret in Hrun as ([c1 h1] & Ho & Hrun). apply (IH c1 h1); [|done]. clear IH Hrun.
  destruct o as [mem id|sn|pn|]; cbn [db_step] in Ho.
  - apply bind_Ret in Ho as ([c2 rc] & Hw%writeBuffer_nFull & Ho). injection Ho as <- _. congruence.
  - unfold handleMsgRequestData in Ho. apply bind_Ret in Ho as ([c2 n] & Hg%getFull_nFull & Ho).
    case_bool_decide; [|injection Ho as <- _; congruence].
    apply bind_Ret in Ho as (d & _ & Ho). apply bind_Ret in Ho as ([h2 rc] & _ & Ho). injection Ho as <- _. congruence.
  - apply bind_Ret in Ho as (c2 & Ha%ack_nFull & Ho). injection Ho as <- _. congruence.
  - by injection Ho as <- _.
Qed.

(** The host is never told that there is data.  Whatever blocks are
    written, requested and acknowledged, [getDataReadyInfo] answers "no data":
    the counter of full buffers is only moved by [unlockBuffer], which the
    program does not call. *)
Theorem getDataReadyInfo_never (os : list db_op) (c c' : Container) (h h' : HiIO L) :
  bc_nFull c = 0 -> db_run os (c, h) = Ret (c', h') -> getDataReadyInfo c' = kNoData.
Proof.
  intros H0 Hrun. unfold getDataReadyInfo, getFullBuffers. by rewrite (db_run_nFull os c c' h h' H0 Hrun).
Qed.

(** ** From the bus to the host *)

Lemma addMsgData_ok sn pn k sync data tail (h : HiIO L) :
  block_header_ok pn k sync data -> bytes data -> k <= 42 -> tx_inv (pi_layer3 (hi_inst h)) ->
  l3_txIndex (pi_layer3 (hi_inst h)) + 6 + 8 + 12 * k <= l3_maxTxAppSize (pi_layer3 (hi_inst h)) ->
  exists h', addMsgData sn (mkDataBuffer pn k sync (data ++ tail)) h = Ret (h', 0) /\
    tx_contents (pi_layer3 (hi_inst h')) = tx_contents (pi_layer3 (hi_inst h)) ++
      message_bytes (MAppType sn kDataId (le2 pn ++ le2 k ++ le4 sync ++ data)).
Proof.
  intros Hok Hb Hk Htx Hroom. destruct Hok as (Hp & Hk' & Hs & Hlen).
  unfold kDataSampleSize, kSampleSize_Int32x3 in Hlen.
  set (m := MAppType sn kDataId (le2 pn ++ le2 k ++ le4 sync ++ data)).
  assert (Z.of_nat (length (message_body m)) = 8 + 12 * k) as Hbody.
  { cbn [m message_body]. rewrite !length_app. change (length (le2 _)) with 2%nat. change (length (le4 _)) with 4%nat. lia. }
  assert (length (message_header m) = 6%nat) as Hh by done.
  assert (message_ok m) as Hm.
  { split; [|unw; lia]. cbn [m message_body]. repeat apply Forall_app_2; first [apply le2_bytes|apply le4_bytes|done]. }
  pose proof (addMessage_added m (pi_layer3 (hi_inst h)) [] tail Htx Hm) as Ha. unfold added in Ha.
  rewrite bool_decide_true in Ha by (rewrite message_bytes_length, Hbody, Hh; lia).
  destruct Ha as (q & Ha & _ & Hc & _). unfold addMsgData, hi_addMessage, inst_addMessage.
  change (db_size (mkDataBuffer pn k sync (data ++ tail))) with k.
  assert ([MsgAppType; u8 sn] ++ le2 kDataId ++ le2 (u16 (getServiceInfoSize + k * kDataSampleSize)) =
    message_header m ++ []) as ->.
  { rewrite app_nil_r. unfold message_header. cbn [m]. change (le2 (u16 kDataId)) with (le2 kDataId).
    cbn [m message_body] in Hbody. rewrite Hbody. unfold getServiceInfoSize, kDataSampleSize, kSampleSize_Int32x3.
    rewrite u16_id by (unw; lia). cbn [message_id app]. do 5 f_equal. lia. }
  assert (db_bytes (mkDataBuffer pn k sync (data ++ tail)) = message_body m ++ tail) as ->.
  { unfold db_bytes. cbn [m message_body db_packet db_size db_sync db_data]. by rewrite <-!app_assoc. }
  rewrite Ha. cbn [mbind outcome_bind]. rewrite bool_decide_false by done. cbn [mbind outcome_bind].
  rewrite bool_decide_true by done. eexists. split; [done|]. exact Hc.
Qed.

Lemma find_packet_ok fuel i pn c n d :
  bc_inv c -> block_at c n stFull d -> db_packet d = pn ->
  (forall j st d', block_at c j st d' -> j < n -> db_packet d' <> pn) ->
  0 <= i <= n -> bc_size c - i < Z.of_nat fuel -> find_packet fuel i pn c = Ret (Some n).
Proof.
  intros Hinv Hb Hd Hother. pose proof (block_at_range _ _ _ _ Hinv Hb). pose proof (bc_inv_size _ Hinv).
  revert i. induction fuel as [|fuel IH]; intros i Hi Hf; [lia|]. cbn [find_packet].
  rewrite bool_decide_true by lia. destruct (decide (i = n)) as [->|Hne].
  - rewrite (block_at_getBuffer _ _ _ _ Hb). cbn [mbind outcome_bind]. by rewrite bool_decide_true.
  - destruct (info_at c i Hinv) as (st & d' & Hb' & _); [lia|].
    rewrite (block_at_getBuffer _ _ _ _ Hb'). cbn [mbind outcome_bind].
    rewrite bool_decide_false by (apply (Hother i st d' Hb'); lia).
    rewrite u16_id by (unw; lia). apply IH; lia.
Qed.

(** A block on its way through the functions of the store, behind the test of
    [getDataReadyInfo] that keeps the requests of the host from them
    ([Device.stored_never_served]).  When no buffer is in use, a block of at most
    42 samples written to the store is what [handleMsgRequestData] takes next:
    one message of the data type with the sequence number of the request, whose
    data are exactly the first 8 + 12 k bytes of the block (header and samples),
    appended to the outgoing packet if it fits there; and the acknowledgement of
    its packet number frees the buffer again. *)
Theorem block_to_host (pn k sync sn m : Z) (data rest : list Z) (c : Container) (h : HiIO L) :
  idle m c -> 1 <= m -> block_header_ok pn k sync data -> bytes data -> k <= 42 -> sync < 0xFFFFFFFF ->
  (forall j st d, block_at c j st d -> db_packet d <> pn) ->
  tx_inv (pi_layer3 (hi_inst h)) ->
  l3_txIndex (pi_layer3 (hi_inst h)) + 6 + 8 + 12 * k <= l3_maxTxAppSize (pi_layer3 (hi_inst h)) ->
  exists c1 c2 h2 c3,
    writeBuffer (block_memory pn k sync data rest) kDataId c = Ret (c1, 8 + 12 * k) /\
    handleMsgRequestData sn c1 h = Ret (c2, h2) /\
    tx_contents (pi_layer3 (hi_inst h2)) = tx_contents (pi_layer3 (hi_inst h)) ++
      message_bytes (MAppType sn kDataId (take (Z.to_nat (8 + 12 * k)) (block_memory pn k sync data rest))) /\
    handleMsgDataAcknowledge pn c2 = Ret c3 /\ forall j st d, block_at c3 j st d -> st = stFree.
Proof.
  intros Hid Hm Hok Hb Hk Hs Hpk Htx Hroom. pose proof Hid as (Hinv & Hn & Hst).
  assert (take (Z.to_nat (8 + 12 * k)) (block_memory pn k sync data rest) = le2 pn ++ le2 k ++ le4 sync ++ data) as Htake.
  { destruct Hok as (_ & Hk' & _ & Hlen). unfold kDataSampleSize, kSampleSize_Int32x3 in Hlen. unfold block_memory.
    rewrite !app_assoc. apply take_app_length'. rewrite !length_app.
    change (length (le2 _)) with 2%nat. change (length (le4 _)) with 4%nat. unw. lia. }
  destruct (idle_lock m c Hid Hm) as (c1 & n & d & Hl & Hi1 & _ & Hb1 & Hst1 & Hsame).
  pose proof (block_at_range _ _ _ _ Hi1 Hb1) as Hnr. destruct (info_at c1 n Hi1 Hnr) as (st2 & d2 & Hb2 & Hd2).
  unfold block_at in Hb2. rewrite Hb1 in Hb2. injection Hb2 as <- <-.
  pose proof (writeBuffer_locked pn k sync data rest c n d c1 Hok Hi1 Hl ltac:(unfold kRcErr; lia) Hb1 Hd2) as Hw.
  rewrite bool_decide_true in Hw by (unfold kDataSampleSize, kSampleSize_Int32x3, kMaxDataSize, MAX_DATA_BUFFER_SIZE; lia).
  set (d3 := mkDataBuffer pn k sync _) in *. set (c2 := bc_put n stFull d3 c1) in *.
  assert (Z.of_nat (length (db_data d3)) = kMaxDataSize) as Hd3.
  { destruct Hok as (_ & _ & _ & Hlen). cbn [db_data d3]. rewrite length_app, length_drop.
    unfold kDataSampleSize, kSampleSize_Int32x3, kMaxDataSize, MAX_DATA_BUFFER_SIZE in *. lia. }
  assert (bc_inv c2) as Hi2 by (by apply bc_put_inv).
  assert (block_at c2 n stFull d3) as Hb3 by (by apply bc_put_at).
  assert (forall j st d', j <> n -> block_at c2 j st d' -> st = stFree /\ db_packet d' <> pn) as Hoth.
  { intros j st d' Hj Hj2. apply bc_put_ne in Hj2; [|lia|done]. split; [by apply (Hst1 j st d')|].
    apply (Hpk j st). by apply (Hsame j st d'). }
  destruct (getFull_ok c2 Hi2) as (c3 & r & Hg & Hi3 & Hbs & _ & _ & Hr).
  assert (r = n) as ->.
  { destruct Hr as [[_ Hno]|(dr & Hbr & _)].
    - specialize (Hno n d3 Hb3). change (db_sync d3) with sync in Hno. pose proof (block_at_range _ _ _ _ Hi2 Hb3). lia.
    - destruct (decide (r = n)) as [|Hne]; [done|]. by destruct (Hoth r stFull dr Hne Hbr). }
  assert (forall j st d', block_at c3 j st d' <-> block_at c2 j st d') as Hsame3 by (unfold block_at; by rewrite Hbs).
  destruct (addMsgData_ok sn pn k sync data (drop (length data) (db_data d)) h Hok Hb Hk Htx Hroom) as (h2 & Hadd & Hc).
  assert (block_at c3 n stFull d3) as Hb4 by (by apply Hsame3).
  destruct (release_full_ok c3 n d3 Hi3 Hb4) as [Hrel Hi4].
  exists c2, c3, h2. eexists. split_and!.
  - rewrite Hw. do 2 f_equal. unfold kDataSampleSize, kSampleSize_Int32x3. lia.
  - unfold handleMsgRequestData. rewrite Hg. cbn [mbind outcome_bind].
    rewrite bool_decide_true by (unfold kRcErr; lia). rewrite (block_at_getBuffer _ _ _ _ Hb4). cbn [mbind outcome_bind].
    fold d3 in Hadd. by rewrite Hadd.
  - by rewrite Htake.
  - unfold handleMsgDataAcknowledge, releaseBufferByPacketNumber.
    rewrite (find_packet_ok _ 0 pn c3 n d3); [|done|done|done| |lia|lia].
    + cbn [mbind outcome_bind]. rewrite Hrel. cbn [mbind outcome_bind]. done.
    + intros j st d' Hj Hjn. apply Hsame3 in Hj. by destruct (Hoth j st d' ltac:(lia) Hj).
  - intros j st d' Hj. pose proof (given_back_inv n c3 Hi3 (block_at_range _ _ _ _ Hi3 Hb4)) as Hgi.
    destruct (given_back_buffers n c3) as [Hgb Hgs]. destruct (decide (j = n)) as [->|Hne].
    + pose proof (bc_put_at n stFree (unnumbered d3) (given_back n c3) Hgi ltac:(rewrite Hgs; by apply (block_at_range _ _ _ _ Hi3 Hb4))) as Hat.
      unfold block_at in *. rewrite Hat in Hj. by injection Hj as <- <-.
    + apply bc_put_ne in Hj; [|lia|done]. unfold block_at in Hj. rewrite Hgb in Hj.
      apply Hsame3 in Hj. by destruct (Hoth j st d' Hne Hj).
Qed.

End Module_.

(** ** Witnesses *)

Definition demo_info (x : bool * Z * Z * Z) : buffer_info :=
  let '(st, pn, k, sync) := x in mkInfo (Some (mkDataBuffer pn k sync (replicate 504 0))) st.

(** A container with the given buffers. *)
Definition demo_container (l : list (bool * Z * Z * Z)) (nFree iFree : Z) : Container :=
  mkContainer (map demo_info l) (Z.of_nat (length l)) kMaxDataSize nFree 0 iFree 0 0.

Lemma demo_container_inv l nFree iFree :
  0 < Z.of_nat (length l) < 32768 -> 0 <= nFree <= Z.of_nat (length l) -> 0 <= iFree < Z.of_nat (length l) ->
  bc_inv (demo_container l nFree iFree).
Proof.
  intros Hs Hn Hi. constructor; cbn [demo_container bc_buffers bc_size bc_nFree bc_nFull bc_iFree bc_iFull];
    rewrite ?length_map; try lia.
  apply Forall_map, Forall_forall. intros [[[st pn] k] sync] _. eexists. split; [reflexivity|].
  cbn [db_data]. by rewrite length_replicate.
Qed.

(** The blocks of a concrete container, one by one. *)
Ltac container_cases :=
  match goal with H : block_at (demo_container _ _ _) ?j ?st ?d |- _ =>
    apply rd_Some in H as [? H];
    let k := fresh "k" in remember (Z.to_nat j) as k;
    cbn [bc_buffers demo_container map demo_info replicate] in H;
    let rec go :=
      first [discriminate H
            |destruct k as [|k]; cbn [lookup list_lookup] in H; [injection H as <- <-|go]] in
    go
  end.

Definition demo_two : Container := demo_container [(stFull, 7, 2, 50); (stFull, 8, 3, 40); (stFree, 0, 0, 0)] 1 0.
Definition demo_empty : Container := demo_container (replicate 3 (stFree, 0, 0, 0)) 3 0.

Lemma demo_two_inv : bc_inv demo_two.
Proof. by apply demo_container_inv. Qed.
Lemma demo_empty_inv : bc_inv demo_empty.
Proof. by apply demo_container_inv. Qed.

Lemma demo_two_first_free : first_free demo_two 2.
Proof.
  split_and!; [done|done| |].
  - intros j st d Hj Hj2. unfold demo_two in Hj. container_cases; [done|done|lia].
  - intros _. by eexists.
Qed.

Lemma demo_empty_idle : idle 3 demo_empty.
Proof.
  split_and!; [exact demo_empty_inv|done|]. intros j st d Hj. unfold demo_empty in Hj. by container_cases.
Qed.

Lemma getFullBufferSortBySync_spec_witness :
  exists c' r, getFullBufferSortBySync demo_two = Ret (c', r) /\ bc_buffers c' = bc_buffers demo_two /\
    bc_nFull c' = 0 /\ bc_nFree c' = 1 /\
    (r = -1 /\ (forall j d, block_at demo_two j stFull d -> 0xFFFFFFFF <= db_sync d) \/
     exists d, block_at demo_two r stFull d /\ db_sync d < 0xFFFFFFFF /\
       forall j d', block_at demo_two j stFull d' -> db_sync d < db_sync d' \/ db_sync d = db_sync d' /\ r <= j).
Proof. exact (getFullBufferSortBySync_spec demo_two demo_two_inv). Defined.

Lemma lockFreeBuffer_spec_witness :
  exists c' st d, lockFreeBuffer demo_two = Ret (c', 2) /\ block_at demo_two 2 st d /\
    block_at c' 2 stFull (mkDataBuffer 0 0 (db_sync d) (db_data d)) /\ bc_nFree c' = 0.
Proof.
  destruct (lockFreeBuffer_spec demo_two 2 demo_two_inv demo_two_first_free) as (_ & _ & H).
  destruct H as (c' & st & d & H1 & _ & H2 & H3 & _ & H4 & _); [done|done|].
  exists c', st, d. split_and!; [exact H1|exact H2|exact H3|exact H4].
Defined.

Definition demo_32 : Container := demo_container (replicate 32 (stFree, 0, 0, 0)) 32 0.

Lemma lock_all_overwrites_witness :
  exists c', lock_n 32 (bc_reset demo_32) = Ret (c', [0] ++ seqZ 2 30 ++ [0]) /\
    bc_nFree c' = 0 /\ exists d, block_at c' 1 stFree d.
Proof.
  apply lock_all_overwrites; [by apply demo_container_inv|done].
Defined.

Lemma release_loses_capacity_witness :
  exists c', lock_release_n 2 (bc_reset demo_empty) = Ret c' /\ bc_nFree c' = 1 /\
    exists c'' n, lockFreeBuffer c' = Ret (c'', n) /\ lockFreeBuffer c'' = Ret (c'', -1).
Proof.
  destruct (release_loses_capacity demo_empty 2 demo_empty_inv) as (c' & H1 & H2 & _ & H3).
  destruct H3 as (c'' & n & H4 & H5 & _); [cbn; lia|].
  exists c'. split_and!; [exact H1|exact H2|]. exists c'', n. split; [exact H4|exact H5].
Defined.

Lemma demo_header_ok : block_header_ok 5 1 77 (replicate 12 9).
Proof. by apply (bool_decide_unpack (is_u16 5 /\ is_u16 1 /\ is_u32 77 /\ 12 = 1 * kDataSampleSize)). Qed.

Lemma writeBuffer_spec_witness :
  exists c' d, writeBuffer (block_memory 5 1 77 (replicate 12 9) [1]) kDataId demo_two = Ret (c', 20) /\
    block_at c' 2 stFull d /\ db_packet d = 5 /\ db_size d = 1 /\ db_sync d = 77 /\
    take 12 (db_data d) = replicate 12 9.
Proof.
  destruct (writeBuffer_spec 5 1 77 (replicate 12 9) [1] kDataId demo_two 2 demo_two_inv demo_two_first_free demo_header_ok)
    as (_ & _ & H).
  destruct H as (c' & d & H1 & _ & H2 & _ & H3 & H4 & H5 & H6); [done|done|done|].
  exists c', d. split_and!; [exact H1|exact H2|exact H3|exact H4|exact H5|exact H6].
Defined.

#[local] Existing Instance demo_link.

Definition demo_hi : HiIO (list (list Z)) := mkHiIO demo_inst kProtocolApp None.

Lemma getDataReadyInfo_never_witness :
  exists c', db_run [OpWriteBuffer (block_memory 5 1 77 (replicate 12 9) []) kDataId] (demo_empty, demo_hi) =
      Ret (c', demo_hi) /\ getDataReadyInfo c' = kNoData.
Proof.
  eexists. split; [vm_compute; reflexivity|].
  apply (getDataReadyInfo_never [OpWriteBuffer (block_memory 5 1 77 (replicate 12 9) []) kDataId] demo_empty _ demo_hi demo_hi);
    [done|]. vm_compute. reflexivity.
Defined.

Lemma block_to_host_witness :
  exists c1 c2 h2 c3,
    writeBuffer (block_memory 5 1 77 (replicate 12 9) [1]) kDataId demo_empty = Ret (c1, 20) /\
    handleMsgRequestData 3 c1 demo_hi = Ret (c2, h2) /\
    tx_contents (pi_layer3 (hi_inst h2)) =
      message_bytes (MAppType 3 kDataId (le2 5 ++ le2 1 ++ le4 77 ++ replicate 12 9)) /\
    handleMsgDataAcknowledge 5 c2 = Ret c3.
Proof.
  destruct (block_to_host 5 1 77 3 3 (replicate 12 9) [1] demo_empty demo_hi demo_empty_idle) as (c1 & c2 & h2 & c3 & H1 & H2 & H3 & H4 & _).
  - done.
  - exact demo_header_ok.
  - by apply Forall_replicate.
  - done.
  - done.
  - intros j st d Hj. unfold demo_empty in Hj. by container_cases.
  - exact l3_initial_inv.
  - done.
  - exists c1, c2, h2, c3. split_and!; [exact H1|exact H2|exact H3|exact H4].
Defined.
