(* ===== verification/SlavePoll.v ===== *)
(** * Polling of the slaves ([SlavePoll] of [inc/p_slave_poll.h], [src/p_slave_data_io.cpp])

    The state machine that asks the slaves on the local bus for data blocks
    and takes the blocks they answer with.  Requests go through the queue of
    [ProtocolApp]; the handler of the blocks is a parameter (the program
    installs [data_buffers::writeBuffer]). *)

From S2P Require Import Prelude Crc16 Layer2 Layer3 Ring TQueue HalBase Protocol MasterTx ProtocolApp TDataBuffer DataBuffers.

Definition kMaxSlaves : Z := 4.
Definition SLAVE_RQ_PERIOD : Z := 200.
Definition SLAVE_RQ_TIMEOUT : Z := 50.
Definition MsgApp_RequestData : Z := 0x10.
Definition MsgApp_DataAcknowledge : Z := 0x11.
Definition MsgApp_DataAbsence : Z := 0x12.

(** [const int16_t kPnBufferFree = 0xFFFF], stored in a [uint16_t]. *)
Definition kPnBufferFree : Z := 0xFFFF.

(** The result of the last request to a slave; [None] where nothing was stored
    yet. *)
Inductive rq_res_t := kResIdle | kResWait | kResRcvData | kResNoData | kResTimeout.

Inductive state_t :=
  | kStIdle | kStStart | kStStartPeriod | kStSendRq | kStWait | kStNext | kStWaitRqInterval | kStStop.

#[export] Instance rq_res_t_eq_dec : EqDecision rq_res_t.
Proof. solve_decision. Defined.
#[export] Instance state_t_eq_dec : EqDecision state_t.
Proof. solve_decision. Defined.

Record slave_info_t := mkSlave {
  si_address : Z;       (* uint16_t *)
  si_packet : Z;        (* uint16_t *)
  si_state : rq_res_t;
}.

Record SlavePoll := mkPoll {
  sp_state : state_t;
  sp_slaves : list slave_info_t;
  sp_rqPeriod : Z;
  sp_rqTimeout : Z;
  sp_tmPeriod : Z;
  sp_tmRq : Z;
  sp_index : Z;            (* uint16_t *)
  sp_sequenceNumber : Z;   (* uint8_t *)
  sp_rcvData : bool;
  sp_rcvNoData : bool;
}.

Definition sp_set_state st (s : SlavePoll) : SlavePoll :=
  mkPoll st (sp_slaves s) (sp_rqPeriod s) (sp_rqTimeout s) (sp_tmPeriod s) (sp_tmRq s) (sp_index s)
    (sp_sequenceNumber s) (sp_rcvData s) (sp_rcvNoData s).
Definition sp_set_slaves l (s : SlavePoll) : SlavePoll :=
  mkPoll (sp_state s) l (sp_rqPeriod s) (sp_rqTimeout s) (sp_tmPeriod s) (sp_tmRq s) (sp_index s)
    (sp_sequenceNumber s) (sp_rcvData s) (sp_rcvNoData s).
Definition sp_set_index i (s : SlavePoll) : SlavePoll :=
  mkPoll (sp_state s) (sp_slaves s) (sp_rqPeriod s) (sp_rqTimeout s) (sp_tmPeriod s) (sp_tmRq s) i
    (sp_sequenceNumber s) (sp_rcvData s) (sp_rcvNoData s).
Definition sp_set_tmPeriod t (s : SlavePoll) : SlavePoll :=
  mkPoll (sp_state s) (sp_slaves s) (sp_rqPeriod s) (sp_rqTimeout s) t (sp_tmRq s) (sp_index s)
    (sp_sequenceNumber s) (sp_rcvData s) (sp_rcvNoData s).
Definition sp_set_tmRq t (s : SlavePoll) : SlavePoll :=
  mkPoll (sp_state s) (sp_slaves s) (sp_rqPeriod s) (sp_rqTimeout s) (sp_tmPeriod s) t (sp_index s)
    (sp_sequenceNumber s) (sp_rcvData s) (sp_rcvNoData s).
Definition sp_set_sn n (s : SlavePoll) : SlavePoll :=
  mkPoll (sp_state s) (sp_slaves s) (sp_rqPeriod s) (sp_rqTimeout s) (sp_tmPeriod s) (sp_tmRq s) (sp_index s)
    n (sp_rcvData s) (sp_rcvNoData s).
Definition sp_set_rcv d n (s : SlavePoll) : SlavePoll :=
  mkPoll (sp_state s) (sp_slaves s) (sp_rqPeriod s) (sp_rqTimeout s) (sp_tmPeriod s) (sp_tmRq s) (sp_index s)
    (sp_sequenceNumber s) d n.

(** The constructor: the other fields are not initialised. *)
Definition SlavePoll_new (s : SlavePoll) : SlavePoll := sp_set_sn 0 (sp_set_index 0 (sp_set_state kStIdle s)).

Definition sp_configure (period timeout : Z) (s : SlavePoll) : SlavePoll :=
  mkPoll (sp_state s) (sp_slaves s) (u32 period) (u32 timeout) (sp_tmPeriod s) (sp_tmRq s) (sp_index s)
    (sp_sequenceNumber s) (sp_rcvData s) (sp_rcvNoData s).

Definition set_address (a : Z) (x : slave_info_t) : slave_info_t := mkSlave (u16 a) (si_packet x) (si_state x).

(** [setup]: [address] has an entry for every slave. *)
Definition sp_setup (address : list Z) (s : SlavePoll) : SlavePoll :=
  sp_set_slaves (zip_with set_address address (sp_slaves s)) s.

Definition sp_start (s : SlavePoll) : SlavePoll := sp_set_state kStStart s.
Definition sp_stop (s : SlavePoll) : SlavePoll := sp_set_state kStStop s.

Definition sp_getSeqNumber (s : SlavePoll) : SlavePoll * Z :=
  let n := sp_sequenceNumber s in (sp_set_sn (if bool_decide (n >= 254) then 0 else u8 (n + 1)) s, n).

Definition sendRequest (addr : Z) (q : queue) : outcome queue :=
  '(q, _) ← addTxMsgApp addr MsgApp_RequestData 0 0 (Z.lor FBreakPacket FRqAnswer) LINK_ID_LOCAL q; Ret q.

(** [sendDataAck(addr, pn)]: the data of the message are the variable
    [dataSize], not [pn]. *)
Definition sendDataAck (addr pn : Z) (q : queue) : outcome queue :=
  let dataSize := 2 in
  '(q, _) ← addTxMsgApp addr MsgApp_DataAcknowledge 2 dataSize (Z.lor FBreakPacket FRqAnswer) LINK_ID_LOCAL q; Ret q.

Definition slave (s : SlavePoll) : outcome slave_info_t := checked (rd (sp_slaves s) (sp_index s)).

(** [slaves\[index\] = x] *)
Definition put_slave (x : slave_info_t) (s : SlavePoll) : outcome SlavePoll :=
  l ← checked (wr (sp_slaves s) (sp_index s) x); Ret (sp_set_slaves l s).

Definition set_res (r : rq_res_t) (s : SlavePoll) : outcome SlavePoll :=
  x ← slave s; put_slave (mkSlave (si_address x) (si_packet x) r) s.

Definition sp_process (now : Z) (s : SlavePoll) (q : queue) : outcome (SlavePoll * queue) :=
  match sp_state s with
  | kStIdle => Ret (s, q)
  | kStStart =>
      let s := sp_set_slaves (map (fun x => mkSlave (si_address x) kPnBufferFree (si_state x)) (sp_slaves s)) s in
      Ret (sp_set_state kStStartPeriod (sp_set_sn 0 s), q)
  | kStStop => Ret (sp_set_state kStIdle s, q)
  | kStStartPeriod => Ret (sp_set_state kStSendRq (sp_set_tmPeriod now (sp_set_index 0 s)), q)
  | kStSendRq =>
      x ← slave s;
      if bool_decide (si_address x > 0) then
        q ← sendRequest (si_address x) q;
        s ← set_res kResWait (sp_set_rcv false false s);
        Ret (sp_set_state kStWaitRqInterval (sp_set_tmRq now s), q)
      else Ret (sp_set_state kStNext s, q)
  | kStWait =>
      if TIMEOUT (sp_tmRq s) (sp_rqTimeout s) now then
        s ← set_res kResTimeout s; Ret (sp_set_state kStNext s, q)
      else if sp_rcvData s then Ret (sp_set_state kStNext s, q)
      else if sp_rcvNoData s then Ret (sp_set_state kStNext s, q)
      else Ret (s, q)
  | kStNext =>
      let i := u16 (sp_index s + 1) in
      if bool_decide (i = kMaxSlaves) then Ret (sp_set_state kStWaitRqInterval (sp_set_index 0 s), q)
      else Ret (sp_set_state kStSendRq (sp_set_index i s), q)
  | kStWaitRqInterval =>
      Ret (if TIMEOUT (sp_tmPeriod s) (sp_rqPeriod s) now then sp_set_state kStStartPeriod s else s, q)
  end.

Section Data.
Context {D : Type}.
Variable dataHandler : list Z -> Z -> D -> outcome (D * Z).

(** [handleData(srcAddress, p, dataId)]: [mem] is the memory at [p]. *)
Definition handleData (srcAddress : Z) (mem : list Z) (dataId : Z) (s : SlavePoll) (q : queue) (d : D)
    : outcome (SlavePoll * queue * D * Z) :=
  let s := sp_set_rcv true (sp_rcvNoData s) s in
  packet ← checked (rd16 mem 0);
  q ← sendDataAck srcAddress packet q;
  x ← slave s;
  if bool_decide (srcAddress = si_address x) then
    s ← set_res kResRcvData s;
    if bool_decide (packet <> si_packet x) then
      s ← put_slave (mkSlave (si_address x) packet kResRcvData) s;
      '(d, rc) ← dataHandler mem dataId d;
      Ret (s, q, d, rc)
    else Ret (s, q, d, 0)
  else Ret (s, q, d, 0).

Definition handleNoData (srcAddress : Z) (s : SlavePoll) : outcome SlavePoll :=
  let s := sp_set_rcv (sp_rcvData s) true s in
  x ← slave s;
  if bool_decide (srcAddress = si_address x) then set_res kResNoData s else Ret s.

End Data.

(** ** The module [p_slave_data_io] *)

Definition slavesAddress : list Z := [1; 2; 0; 0].

Definition sdi_init (s : SlavePoll) : SlavePoll := sp_setup slavesAddress (sp_configure SLAVE_RQ_PERIOD SLAVE_RQ_TIMEOUT s).
Definition sdi_start (s : SlavePoll) : SlavePoll := sp_start s.
Definition sdi_stop (s : SlavePoll) : SlavePoll := sp_stop s.
Definition sdi_process (now : Z) (s : SlavePoll) (q : queue) : outcome (SlavePoll * queue) := sp_process now s q.

(** [dataHandler]; the message on the console is not modelled. *)
Definition sdi_dataHandler (mem : list Z) (dataId : Z) (c : Container) : outcome (Container * Z) :=
  writeBuffer mem dataId c.

Definition handleMessageData (srcAddress : Z) (mem : list Z) (dataId : Z) (s : SlavePoll) (q : queue) (c : Container)
    : outcome (SlavePoll * queue * Container * Z) :=
  handleData sdi_dataHandler srcAddress mem dataId s q c.

Definition handleMessageNoData (srcAddress : Z) (s : SlavePoll) : outcome SlavePoll := handleNoData srcAddress s.

(** ** Which slaves are asked *)

(** [f] is the first slave with an address, which is [a]. *)
Definition first_slave (f a : Z) (s : SlavePoll) : Prop :=
  length (sp_slaves s) = 4%nat /\ 0 <= f < kMaxSlaves /\ 0 < a /\
  (exists x, rd (sp_slaves s) f = Some x /\ si_address x = a) /\
  forall i x, rd (sp_slaves s) i = Some x -> i < f -> si_address x = 0.

(** The states the machine can be in; [kStWait] is not among them. *)
Definition poll_inv (f : Z) (s : SlavePoll) : Prop :=
  0 <= sp_index s < kMaxSlaves /\
  match sp_state s with
  | kStSendRq => sp_index s <= f
  | kStNext => sp_index s < f
  | kStWait => False
  | _ => True
  end.

Definition request_to (a : Z) (q q' : queue) : Prop := sendRequest a q = Ret q'.

Lemma sendRequest_rep a q l : tq_rep q l -> exists q' l', sendRequest a q = Ret q' /\ tq_rep q' l'.
Proof.
  intros Hq. unfold sendRequest, addTxMsgApp. rewrite bool_decide_true by done.
  set (rq := TTxRequest_new _ _ _ _ _). destruct (push_request_queued rq LINK_ID_LOCAL q l Hq) as (q' & -> & Hr).
  cbn [mbind outcome_bind]. by eexists _, _.
Qed.

Lemma first_slave_same f a s s' :
  first_slave f a s -> length (sp_slaves s') = length (sp_slaves s) ->
  (forall i x, rd (sp_slaves s') i = Some x -> exists y, rd (sp_slaves s) i = Some y /\ si_address y = si_address x) ->
  first_slave f a s'.
Proof.
  intros (Hl & Hf & Ha & (x & Hx & Hxa) & Hlow) Hlen Hsame. split_and!; [congruence|lia|lia|done| |].
  - destruct (rd_total (sp_slaves s') f) as [y Hy]; [rewrite Hlen, Hl; unfold kMaxSlaves in Hf; lia|].
    exists y. split; [done|]. destruct (Hsame f y Hy) as (z & Hz & Hzy). rewrite Hx in Hz. injection Hz as <-. congruence.
  - intros i y Hy Hi. destruct (Hsame i y Hy) as (z & Hz & <-). by apply (Hlow i z).
Qed.

Lemma put_slave_ok f a s x y :
  first_slave f a s -> rd (sp_slaves s) (sp_index s) = Some x -> si_address y = si_address x ->
  exists l, put_slave y s = Ret (sp_set_slaves l s) /\ first_slave f a (sp_set_slaves l s) /\
    rd l (sp_index s) = Some y.
Proof.
  intros Hfs Hx Hy. apply rd_Some in Hx as Hx'. destruct Hx' as [Hi Hx']. apply lookup_lt_Some in Hx' as Hlt.
  destruct (wr_total (sp_slaves s) (sp_index s) y) as [l Hl]; [lia|]. exists l. unfold put_slave. rewrite Hl.
  cbn [checked mbind outcome_bind]. split; [done|]. apply wr_Some in Hl as Hl'. destruct Hl' as [_ ->]. split.
  - apply (first_slave_same f a s); [done|cbn; apply length_insert|]. cbn. intros i z [Hi2 Hz]%rd_Some.
    destruct (decide (Z.to_nat i = Z.to_nat (sp_index s))) as [E|E].
    + rewrite E in Hz. rewrite list_lookup_insert_eq in Hz by lia. injection Hz as <-.
      exists x. split; [|done]. unfold rd. rewrite bool_decide_true by done. congruence.
    + rewrite list_lookup_insert_ne in Hz by done. exists z. split; [|done]. unfold rd. by rewrite bool_decide_true.
  - unfold rd. rewrite bool_decide_true by done. by apply list_lookup_insert_eq.
Qed.

Lemma set_res_ok f a s x r :
  first_slave f a s -> rd (sp_slaves s) (sp_index s) = Some x ->
  exists l, set_res r s = Ret (sp_set_slaves l s) /\ first_slave f a (sp_set_slaves l s) /\
    rd l (sp_index s) = Some (mkSlave (si_address x) (si_packet x) r).
Proof.
  intros Hfs Hx. unfold set_res, slave. rewrite Hx. cbn [checked mbind outcome_bind].
  by apply (put_slave_ok f a s x).
Qed.

Lemma slave_ok f a s : first_slave f a s -> 0 <= sp_index s < kMaxSlaves -> exists x, rd (sp_slaves s) (sp_index s) = Some x.
Proof. intros (Hl & _) Hi. apply rd_total. rewrite Hl. exact Hi. Qed.

Lemma first_slave_start f a s :
  first_slave f a s ->
  first_slave f a (sp_set_slaves (map (fun x => mkSlave (si_address x) kPnBufferFree (si_state x)) (sp_slaves s)) s).
Proof.
  intros Hfs. apply (first_slave_same f a s); [done|cbn; apply length_map|]. cbn. intros i x [Hi Hx]%rd_Some.
  apply list_lookup_fmap_Some in Hx as (y & -> & Hy). exists y. unfold rd. by rewrite bool_decide_true.
Qed.

(** Closes the parts of a step's conclusion that do not depend on the state. *)
Ltac poll_leaf :=
  unfold poll_inv; split_and!;
  first [done|by left|by right|by apply first_slave_start|cbn; unfold kMaxSlaves in *; lia].

Lemma process_first f a s q l now :
  first_slave f a s -> poll_inv f s -> tq_rep q l ->
  exists s' q' l', sp_process now s q = Ret (s', q') /\ first_slave f a s' /\ poll_inv f s' /\ tq_rep q' l' /\
    (q' = q \/ request_to a q q').
Proof.
  intros Hfs [Hi Hst] Hq. unfold sp_process. pose proof Hfs as (_ & Hf & _). destruct (sp_state s) eqn:Es.
  - exists s, q, l. unfold poll_inv. rewrite Es. poll_leaf.
  - eexists _, q, l. split; [done|]. poll_leaf.
  - eexists _, q, l. split; [done|]. poll_leaf.
  - destruct (slave_ok f a s Hfs Hi) as [x Hx]. unfold slave. rewrite Hx. cbn [checked mbind outcome_bind].
    pose proof Hfs as (Hl & _ & Ha & (y & Hy & Hya) & Hlow). case_bool_decide as Hax.
    + assert (sp_index s = f) as Hif.
      { destruct (decide (sp_index s < f)); [|lia]. specialize (Hlow _ _ Hx). lia. }
      assert (si_address x = a) as -> by (rewrite Hif in Hx; congruence).
      destruct (sendRequest_rep a q l Hq) as (q' & l' & Hs & Hq'). rewrite Hs. cbn [mbind outcome_bind].
      destruct (set_res_ok f a (sp_set_rcv false false s) x kResWait) as (sl & -> & Hfs' & _); [done|done|].
      cbn [mbind outcome_bind]. eexists _, q', l'. split; [done|]. poll_leaf.
    + eexists _, q, l. split; [done|].
      assert (sp_index s <> f) as Hne by (intros E; rewrite E in Hx; assert (x = y) as -> by congruence; lia).
      poll_leaf.
  - done.
  - rewrite u16_id by (unw; unfold kMaxSlaves in *; lia). rewrite bool_decide_false by (unfold kMaxSlaves in *; lia).
    eexists _, q, l. split; [done|]. poll_leaf.
  - eexists _, q, l. split; [done|]. unfold poll_inv. destruct (TIMEOUT _ _ _); [|rewrite Es]; poll_leaf.
  - eexists _, q, l. split; [done|]. poll_leaf.
Qed.

(** A run of the poller: calls of the main loop at the given times, with
    starts and stops in between. *)
Inductive poll_op := PollProcess (now : Z) | PollStart | PollStop.

Definition poll_step (o : poll_op) (s : SlavePoll) (q : queue) : outcome (SlavePoll * queue) :=
  match o with
  | PollProcess now => sdi_process now s q
  | PollStart => Ret (sdi_start s, q)
  | PollStop => Ret (sdi_stop s, q)
  end.

Fixpoint poll_run (os : list poll_op) (s : SlavePoll) (q : queue) : outcome (SlavePoll * queue) :=
  match os with
  | [] => Ret (s, q)
  | o :: os => '(s, q) ← poll_step o s q; poll_run os s q
  end.

Fixpoint requests (n : nat) (a : Z) (q : queue) : outcome queue :=
  match n with
  | O => Ret q
  | S n => q ← sendRequest a q; requests n a q
  end.

(** Only one slave is ever asked.  After the initialisation, in every
    run of the poller, started and stopped at any time, all that is queued are
    requests to the first slave with an address: once a request has been sent
    the machine goes on to wait for the end of the period, not for the answer,
    and then starts again with the first slave; the other slaves, the answer
    timeout and the state [kStWait] are never reached. *)
Theorem poll_first_only (os : list poll_op) (f a : Z) (s : SlavePoll) (q : queue) (l : list TTxRequest) :
  first_slave f a s -> sp_state s = kStIdle -> 0 <= sp_index s < kMaxSlaves -> tq_rep q l ->
  exists s' q' n, poll_run os s q = Ret (s', q') /\ requests n a q = Ret q' /\ sp_state s' <> kStWait.
Proof.
  intros Hfs Hidle Hi Hq. assert (poll_inv f s) as Hinv by (split; [done|by rewrite Hidle]).
  clear Hidle Hi. revert s q l Hfs Hinv Hq. induction os as [|o os IH]; intros s q l Hfs Hinv Hq.
  { exists s, q, 0%nat. split_and!; [done|done|]. destruct Hinv as [_ Hst]. intros E. by rewrite E in Hst. }
  cbn [poll_run]. assert (exists s1 q1 l1, poll_step o s q = Ret (s1, q1) /\ first_slave f a s1 /\ poll_inv f s1 /\
    tq_rep q1 l1 /\ (q1 = q \/ request_to a q q1)) as (s1 & q1 & l1 & -> & Hfs1 & Hinv1 & Hq1 & Hreq).
  { destruct o as [now| |]; cbn [poll_step].
    - by apply (process_first f a s q l now).
    - destruct Hinv as [Hi _]. eexists _, q, l. split; [done|]. poll_leaf.
    - destruct Hinv as [Hi _]. eexists _, q, l. split; [done|]. poll_leaf. }
  cbn [mbind outcome_bind]. destruct (IH s1 q1 l1 Hfs1 Hinv1 Hq1) as (s' & q' & n & Hr & Hn & Hst).
  destruct Hreq as [->|Hreq].
  - by exists s', q', n.
  - exists s', q', (S n). cbn [requests]. unfold request_to in Hreq. rewrite Hreq. done.
Qed.

(** ** Data from a slave *)

Section DataSpec.
Context {D : Type}.
Variable dataHandler : list Z -> Z -> D -> outcome (D * Z).

Lemma handleData_ok f a srcAddress packet dataId mem s q l d d' rc x :
  first_slave f a s -> rd (sp_slaves s) (sp_index s) = Some x -> tq_rep q l -> rd16 mem 0 = Some packet ->
  (bool_decide (srcAddress = si_address x) && bool_decide (packet <> si_packet x) = true -> dataHandler mem dataId d = Ret (d', rc)) ->
  let ack := TTxRequest_new MsgAppType srcAddress (Z.lor (u32 (Z.shiftl MsgApp_DataAcknowledge 16)) 2) 2
    (Z.lor FBreakPacket FRqAnswer) in
  let mine := bool_decide (srcAddress = si_address x) in
  let handled := mine && bool_decide (packet <> si_packet x) in
  exists s' q', handleData dataHandler srcAddress mem dataId s q d =
      Ret (s', q', (if handled then d' else d), (if handled then rc else 0)) /\
    rd (sp_slaves s') (sp_index s') = Some (if mine then mkSlave (si_address x) packet kResRcvData else x) /\
    first_slave f a s' /\ tq_rep q' (queued ack LINK_ID_LOCAL l q).
Proof.
  intros Hfs Hx Hq Hp Hh ack mine handled. fold mine in Hh.
  destruct (push_request_queued ack LINK_ID_LOCAL q l Hq) as (q' & Hpush & Hq').
  assert (sendDataAck srcAddress packet q = Ret q') as Hack.
  { unfold sendDataAck, addTxMsgApp. rewrite bool_decide_true by done. fold ack. by rewrite Hpush. }
  set (s0 := sp_set_rcv true (sp_rcvNoData s) s).
  assert (first_slave f a s0 /\ rd (sp_slaves s0) (sp_index s0) = Some x) as [Hfs0 Hx0] by done.
  unfold handleData. fold s0. rewrite Hp. cbn [checked mbind outcome_bind]. rewrite Hack. cbn [mbind outcome_bind].
  unfold slave. rewrite Hx0. cbn [checked mbind outcome_bind]. fold mine. subst handled.
  destruct mine; cbn [andb]; [|by exists s0, q'].
  destruct (set_res_ok f a s0 x kResRcvData Hfs0 Hx0) as (l1 & -> & Hf1 & Hl1). cbn [mbind outcome_bind].
  destruct (decide (packet = si_packet x)) as [Ep|Ep].
  - rewrite !(bool_decide_false (packet <> _)) by (by intros H). exists (sp_set_slaves l1 s0), q'. by rewrite Ep.
  - rewrite !(bool_decide_true (packet <> _)) by done.
    destruct (put_slave_ok f a (sp_set_slaves l1 s0) (mkSlave (si_address x) (si_packet x) kResRcvData)
      (mkSlave (si_address x) packet kResRcvData)) as (l2 & -> & Hf2 & Hl2); [done|done|done|].
    cbn [mbind outcome_bind]. rewrite Hh by (by rewrite bool_decide_true). cbn [mbind outcome_bind]. by eexists _, q'.
Qed.

(** A data block from a slave.  In every case an acknowledgement is
    queued to its sender; its two bytes are 2 and 0, the size of a packet
    number, and not the packet number.  The block is handled, once, if it
    comes from the slave being asked and its packet number differs from the
    one taken last from that slave: the answer is then the handler's.
    Otherwise the answer is 0 and the block is dropped; in particular the same
    block coming again is dropped. *)
Theorem handleData_spec (f a srcAddress packet dataId reserved sn : Z) (mem : list Z) (s : SlavePoll) (q : queue)
    (l : list TTxRequest) (d d' : D) (rc : Z) :
  first_slave f a s -> 0 <= sp_index s < kMaxSlaves -> tq_rep q l -> rd16 mem 0 = Some packet ->
  (forall d, exists d' rc, dataHandler mem dataId d = Ret (d', rc)) -> dataHandler mem dataId d = Ret (d', rc) ->
  exists x s' q' ack, slave s = Ret x /\
    let handled := bool_decide (srcAddress = si_address x) && bool_decide (packet <> si_packet x) in
    handleData dataHandler srcAddress mem dataId s q d =
      Ret (s', q', (if handled then d' else d), (if handled then rc else 0)) /\
    tq_rep q' (queued ack LINK_ID_LOCAL l q) /\ rq_address ack = u16 srcAddress /\
    message_of reserved sn ack = MAppType sn MsgApp_DataAcknowledge [2; 0] /\
    (forall q2 l2 d2, tq_rep q2 l2 ->
       exists s2 q3, handleData dataHandler srcAddress mem dataId s' q2 d2 = Ret (s2, q3, d2, 0)).
Proof.
  intros Hfs Hi Hq Hp Htot Hh. destruct (slave_ok f a s Hfs Hi) as [x Hx].
  destruct (handleData_ok f a srcAddress packet dataId mem s q l d d' rc x Hfs Hx Hq Hp (fun _ => Hh))
    as (s' & q' & Hd & Hx' & Hfs' & Hq').
  exists x, s', q'. eexists. split; [unfold slave; by rewrite Hx|]. cbv zeta. split; [exact Hd|]. split; [exact Hq'|].
  split; [done|]. split; [done|]. intros q2 l2 d2 Hq2. destruct (Htot d2) as (d3 & rc3 & Hh3).
  destruct (handleData_ok f a srcAddress packet dataId mem s' q2 l2 d2 d3 rc3 _ Hfs' Hx' Hq2 Hp (fun _ => Hh3)) as (s2 & q3 & Hd2 & _).
  exists s2, q3. rewrite Hd2. destruct (bool_decide (srcAddress = si_address x)) eqn:Em.
  - apply bool_decide_eq_true in Em. cbn [si_address si_packet].
    rewrite !(bool_decide_false (packet <> packet)) by (by intros H). by rewrite andb_false_r.
  - by rewrite Em.
Qed.

End DataSpec.

(** ** Witnesses *)

Definition demo_poll : SlavePoll :=
  sdi_init (SlavePoll_new (mkPoll kStIdle (replicate 4 (mkSlave 0 0 kResIdle)) 0 0 0 0 0 0 false false)).

Lemma demo_poll_first : first_slave 0 1 demo_poll.
Proof.
  split_and!; [done|done|done|done|by eexists|]. intros i x [Hi _]%rd_Some Hi0. lia.
Qed.

Lemma demo_queue_rep : tq_rep demo_queue [].
Proof. by apply TQueue_new_rep. Qed.

Lemma poll_first_only_witness :
  exists s' q' n, poll_run [PollStart; PollProcess 0; PollProcess 1; PollProcess 2; PollProcess 300; PollProcess 301; PollProcess 302]
      demo_poll demo_queue = Ret (s', q') /\ requests n 1 demo_queue = Ret q' /\ sp_state s' <> kStWait.
Proof.
  apply (poll_first_only _ 0 1 demo_poll demo_queue [] demo_poll_first); [done|done|exact demo_queue_rep].
Defined.

Lemma handleData_spec_witness :
  exists s' q' ack,
    handleData (fun _ _ d => Ret (S d, 20)) 1 (block_memory 5 1 77 (replicate 12 9) []) kDataId demo_poll demo_queue 0%nat =
      Ret (s', q', 1%nat, 20) /\ tq_rep q' [ack] /\ rq_address ack = 1 /\
    message_of 0 8 ack = MAppType 8 MsgApp_DataAcknowledge [2; 0].
Proof.
  destruct (handleData_spec (fun _ _ d => Ret (S d, 20)) 0 1 1 5 kDataId 0 8 (block_memory 5 1 77 (replicate 12 9) [])
    demo_poll demo_queue [] 0%nat 1%nat 20 demo_poll_first) as (x & s' & q' & ack & Hx & H1 & H2 & H3 & H4 & _).
  - done.
  - exact demo_queue_rep.
  - done.
  - intros d; by eexists _, _.
  - done.
  - injection Hx as <-. exists s', q', ack. split_and!; [exact H1|exact H2|exact H3|exact H4].
Defined.
