(* ===== verification/DeviceParameters.v ===== *)
(** * Parameters of the device ([src/device_parameters.cpp], [inc/tparameters.h])

    The numbered registers the host reads and writes. *)

From S2P Require Import Prelude Layer3 DataBuffers.

Definition DEVICE_ID : Z := 2501.
Definition DEFAULT_SERIAL_NUMBER : Z := 52975.
Definition DEFAULT_NET_ADDRESS : Z := 9.
Definition UART1_BAUD : Z := 115200.
Definition R14_MASK_WR_REG : Z := 0x10170000.

(** [inc/version.h]; [NDEBUG] tells whether the symbol is defined. *)
Definition V_FEATURE (NDEBUG : bool) : Z := if NDEBUG then 0 else 0x80.
Definition VERSION_N (NDEBUG : bool) : Z :=
  Z.lor (Z.lor (Z.lor (Z.shiftl 0 24) (Z.shiftl 0 16)) (Z.shiftl 1 8)) (V_FEATURE NDEBUG).

Record Registers := mkRegisters { R14 : Z; R15 : Z }.   (* uint32_t *)

Section Parameters.

(** [bc]: the module [data_buffers], which holds the registers 40 and 41. *)
Variable bc : Container.

(** [__write(n, v)]; the registers and whether the write is accepted. *)
Definition write_param (n v : Z) (r : Registers) : Registers * bool :=
  let rc :=
    if bool_decide (n >= kMinParameter) && bool_decide (n <= kMaxParameter)
    then bool_decide ((handleParameters kOpWrite n v bc).1 = ResultOk) else false in
  if bool_decide (n = 2) then
    if bool_decide (R14 r = Z.lor R14_MASK_WR_REG 2) then (mkRegisters 0 (R15 r), true) else (r, false)
  else if bool_decide (n = 3) then (r, true)
  else if bool_decide (n = 4) then (r, true)
  else if bool_decide (n = 14) then (mkRegisters (u32 v) (R15 r), true)
  else if bool_decide (n = 15) then (r, true)
  else if bool_decide (n = 19) then (r, true)
  else if bool_decide (n = 21) then (r, true)
  else (r, rc).

(** [__read(n, v)]: [v] is the value of the variable before. *)
Definition read_param (NDEBUG : bool) (now n v : Z) (r : Registers) : Z * bool :=
  if bool_decide (n >= kMinParameter) && bool_decide (n <= kMaxParameter) then
    let '(rc, v) := handleParameters kOpRead n v bc in (v, bool_decide (rc = ResultOk))
  else if bool_decide (n = 0) then (DEVICE_ID, true)
  else if bool_decide (n = 1) then (VERSION_N NDEBUG, true)
  else if bool_decide (n = 2) then (DEFAULT_SERIAL_NUMBER, true)
  else if bool_decide (n = 3) then (DEFAULT_NET_ADDRESS, true)
  else if bool_decide (n = 4) then (UART1_BAUD, true)
  else if bool_decide (n = 14) then (s32 (R14 r), true)
  else if bool_decide (n = 15) then (s32 (R15 r), true)
  else if bool_decide (n = 21) then (s32 now, true)
  else (v, false).

(** [Parameters.write], [Parameters.read] *)
Definition Parameters_write (n v : Z) (r : Registers) : Registers * Z :=
  let '(r, ok) := write_param n v r in (r, if ok then 0 else -1).

Definition Parameters_read (NDEBUG : bool) (now n v : Z) (r : Registers) : Z * Z :=
  let '(v, ok) := read_param NDEBUG now n v r in (v, if ok then 0 else -1).

(** ** What the registers are *)

Definition writable (n : Z) (r : Registers) : Prop :=
  n ∈ [3; 4; 14; 15; 19; 21] \/ n = 2 /\ R14 r = 0x10170002.

Definition readable_param (n : Z) : Prop := n ∈ [0; 1; 2; 3; 4; 14; 15; 21; 40; 41].

#[export] Instance writable_dec n r : Decision (writable n r).
Proof. unfold writable. apply _. Defined.
#[export] Instance readable_param_dec n : Decision (readable_param n).
Proof. unfold readable_param. apply _. Defined.

(** Splits on the register numbers the code knows. *)
Ltac registers n :=
  destruct (decide (n ∈ [0; 1; 2; 3; 4; 14; 15; 19; 21; 40; 41])) as [Hin|Hout];
  [repeat (apply elem_of_cons in Hin as [->|Hin]; [|]); [..|by apply not_elem_of_nil in Hin]
  |rewrite !not_elem_of_cons in Hout; destruct_and! Hout].

Lemma read_param_known NDEBUG now n v r :
  (read_param NDEBUG now n v r).2 = bool_decide (readable_param n) /\
  (~ readable_param n -> (read_param NDEBUG now n v r).1 = v) /\
  (readable_param n -> forall v', (read_param NDEBUG now n v' r).1 = (read_param NDEBUG now n v r).1).
Proof.
  registers n; try (split_and!; [done|intros Hn; exfalso; apply Hn; by apply (bool_decide_unpack _)|done]).
  - split_and!; [done|done|intros Hr; exfalso; revert Hr; by apply (bool_decide_unpack _)].
  - assert (~ readable_param n) as Hn by (unfold readable_param; rewrite !not_elem_of_cons; split_and!; auto using not_elem_of_nil).
    assert (read_param NDEBUG now n v r = (v, false)) as ->.
    { unfold read_param, kMinParameter, kMaxParameter.
      rewrite (bool_decide_false (n = 0)), (bool_decide_false (n = 1)), (bool_decide_false (n = 2)), (bool_decide_false (n = 3)),
        (bool_decide_false (n = 4)), (bool_decide_false (n = 14)), (bool_decide_false (n = 15)), (bool_decide_false (n = 21)) by done.
      destruct (bool_decide (n >= 40)) eqn:E1, (bool_decide (n <= 41)) eqn:E2; try done.
      apply bool_decide_eq_true in E1, E2. lia. }
    rewrite bool_decide_false by done. done.
Qed.

(** What a write does, register by register. *)
Lemma write_param_cases n v r :
  write_param n v r =
    if bool_decide (writable n r)
    then (if bool_decide (n = 2) then mkRegisters 0 (R15 r)
          else if bool_decide (n = 14) then mkRegisters (u32 v) (R15 r) else r, true)
    else (r, false).
Proof.
  destruct (decide (n = 2)) as [->|H2].
  { unfold write_param. rewrite (bool_decide_true (2 = 2)) by done.
    assert (writable 2 r <-> R14 r = Z.lor R14_MASK_WR_REG 2) as Hw.
    { change (Z.lor R14_MASK_WR_REG 2) with 0x10170002. unfold writable.
      split; [intros [Hm|[_ ?]]; [|done]|auto]. apply list_elem_of_In in Hm. simpl in Hm. lia. }
    rewrite (bool_decide_ext _ _ Hw). by case_bool_decide. }
  destruct (decide (n ∈ [3; 4; 14; 15; 19; 21])) as [Hin|Hout].
  - rewrite (bool_decide_true (writable n r)) by (by left).
    repeat (apply elem_of_cons in Hin as [->|Hin]; [done|]). by apply not_elem_of_nil in Hin.
  - rewrite (bool_decide_false (writable n r)) by (unfold writable; naive_solver).
    rewrite !not_elem_of_cons in Hout. destruct_and! Hout.
    unfold write_param, handleParameters.
    rewrite (bool_decide_false (n = 2)), (bool_decide_false (n = 3)), (bool_decide_false (n = 4)), (bool_decide_false (n = 14)),
      (bool_decide_false (n = 15)), (bool_decide_false (n = 19)), (bool_decide_false (n = 21)) by done.
    rewrite (bool_decide_true (kOpWrite = kOpWrite)) by done. by destruct (_ && _).
Qed.

End Parameters.

(** What a host that wrote [v] to register [n] reads back from the same
    register, whatever the device answered. *)
Definition read_back (bc : Container) (NDEBUG : bool) (now n v v0 : Z) (r : Registers) : Z * Z :=
  Parameters_read bc NDEBUG now n v0 (Parameters_write bc n v r).1.

Lemma read_param_R14 bc NDEBUG now n v r r' :
  n <> 14 -> R15 r = R15 r' -> read_param bc NDEBUG now n v r = read_param bc NDEBUG now n v r'.
Proof. intros Hn HR. unfold read_param. by rewrite (bool_decide_false (n = 14)), HR. Qed.

Lemma s32_u32 v : s32 (u32 v) = s32 v.
Proof. unfold s32, u32. by rewrite Z.add_mod_idemp_l. Qed.

(** A write to a register is accepted exactly for the registers 3, 4,
    14, 15, 19 and 21, and for register 2 once register 14 holds the unlock
    code 0x10170002; of these, only register 14 keeps what is written. Reading
    the register afterwards gives the value written for register 14 (as a
    signed 32 bit number), and for every other register exactly what reading it
    before the write gave: the writes to 3, 4, 15, 19 and 21 are answered as
    accepted and do nothing. *)
Theorem write_then_read bc NDEBUG now n v v0 r :
  ((Parameters_write bc n v r).2 = 0 <-> writable n r) /\
  ((Parameters_write bc n v r).2 = 0 \/ (Parameters_write bc n v r).2 = -1) /\
  (n = 14 -> read_back bc NDEBUG now n v v0 r = (s32 v, 0)) /\
  (n <> 14 -> read_back bc NDEBUG now n v v0 r = Parameters_read bc NDEBUG now n v0 r) /\
  (n <> 2 -> R14 (Parameters_write bc n v r).1 = if bool_decide (n = 14) then u32 v else R14 r) /\
  R15 (Parameters_write bc n v r).1 = R15 r.
Proof.
  assert (R15 (Parameters_write bc n v r).1 = R15 r) as H15.
  { unfold Parameters_write. rewrite write_param_cases. by repeat case_bool_decide. }
  assert (n = 14 -> (Parameters_write bc n v r).1 = mkRegisters (u32 v) (R15 r)) as H14.
  { intros ->. unfold Parameters_write. by rewrite write_param_cases. }
  split_and!; [| | | | |done].
  - unfold Parameters_write. rewrite write_param_cases. by case_bool_decide.
  - unfold Parameters_write. rewrite write_param_cases. case_bool_decide; auto.
  - intros ->. unfold read_back. rewrite H14 by done. unfold Parameters_read, read_param. cbn -[s32 u32]. by rewrite s32_u32.
  - intros Hn. unfold read_back, Parameters_read. by rewrite (read_param_R14 _ _ _ n v0 _ r Hn H15).
  - intros Hn. case_bool_decide as E; [by rewrite H14|].
    unfold Parameters_write. rewrite write_param_cases, (bool_decide_false (n = 2)), (bool_decide_false (n = 14)) by done.
    by case_bool_decide.
Qed.

Lemma write_then_read_witness :
  read_back demo_empty false 1000 14 0x10170002 0 (mkRegisters 0 0) = (0x10170002, 0) /\
  read_back demo_empty false 1000 4 9600 0 (mkRegisters 0 0) = (115200, 0) /\
  (Parameters_write demo_empty 4 9600 (mkRegisters 0 0)).2 = 0.
Proof.
  split_and!.
  - by rewrite (proj1 (proj2 (proj2 (write_then_read demo_empty false 1000 14 0x10170002 0 (mkRegisters 0 0))))).
  - by rewrite (proj1 (proj2 (proj2 (proj2 (write_then_read demo_empty false 1000 4 9600 0 (mkRegisters 0 0)))))).
  - apply (proj1 (write_then_read demo_empty false 1000 4 9600 0 (mkRegisters 0 0))). left. by apply (bool_decide_unpack _).
Defined.
