(* ===== verification/Device.v ===== *)
(** * The device: the messages of the host and of the slaves

    The handlers of the received messages and the state they share.  Files:
    [src/protocol/p_slavemsghandlers_hiio.cpp] (host),
    [src/p_extMsgAppTypeHandler.cpp] (host, application messages),
    [src/protocol/p_slavemsghandlers_local.cpp] and
    [src/p_slavemsghandlers_local_inst.cpp] (slaves), the dispatch of
    [src/protocol/protocol.cpp], the block header of
    [inc/dataio/dataio_app_types.h].

    Part by part: [handleMsg..] are the handlers, [processRxMessage] the
    dispatch, [dev_processInputAppData] and [dev_processInputData] the entry
    points of the data received on the links. *)

From S2P Require Import Prelude Crc16 Layer2 Layer3 Ring TQueue TBuffer HalBase Protocol MasterTx ProtocolApp.
From S2P Require Import TDataBuffer DataBuffers SlavePoll DeviceParameters.

Definition MsgApp_RegBlock : Z := 0x08.
Definition MaxParametersBlockSize : Z := 192.
Definition sizeof_TMsgParameterBlockHeader : Z := 12.

(** [TMsgParameterBlockHeader]; [id] and [type] are set by the constructor
    and never change. *)
Record BlockHeader := mkBlockHeader {
  bh_sequenceNumber : Z;    (* uint8_t *)
  bh_dataSize : Z;          (* uint16_t *)
  bh_base : Z;              (* uint16_t *)
  bh_size : Z;              (* uint8_t *)
  bh_errCount : Z;          (* uint8_t *)
  bh_reserved : Z;          (* uint16_t *)
}.

Definition setParameters (b sz : Z) (h : BlockHeader) : BlockHeader :=
  let size := u8 sz in
  mkBlockHeader (bh_sequenceNumber h)
    (u16 (size * 4 + sizeof_TMsgParameterBlockHeader - sizeof_TMsgAppTypeHeader))
    (u16 b) size (bh_errCount h) (bh_reserved h).

Definition block_header_bytes (h : BlockHeader) : list Z :=
  [MsgAppType; u8 (bh_sequenceNumber h)] ++ le2 MsgApp_RegBlock ++ le2 (bh_dataSize h) ++
  le2 (bh_base h) ++ [u8 (bh_size h); u8 (bh_errCount h)] ++ le2 (bh_reserved h).

Section Device.
Context {L : Type} `{Layer1Tx L}.

(** [now]: the clock; [junk]: the value of a local variable that is not
    initialised; [NDEBUG]: the build. *)
Variable now : Z.
Variable junk : Z.
Variable NDEBUG : bool.

(** The objects of the program: [protocolInst_HiIO] with [hi_io], the
    registers, the container of [data_buffers], the poll of [p_slave_data_io],
    [MasterTxLocal] with [protocolInst_Local], and [msgParameterBlock].  The
    two links are separate channels of the same interface object: each has its
    own state. *)
Record Device := mkDevice {
  dv_hi : HiIO L;
  dv_params : Registers;
  dv_buffers : Container;
  dv_poll : SlavePoll;
  dv_master : TMasterTx L;
  dv_blockHeader : BlockHeader;
  dv_blockData : list Z;          (* int32_t data[48] *)
}.

Definition dv_set_hi h (d : Device) : Device :=
  mkDevice h (dv_params d) (dv_buffers d) (dv_poll d) (dv_master d) (dv_blockHeader d) (dv_blockData d).
Definition dv_set_params r (d : Device) : Device :=
  mkDevice (dv_hi d) r (dv_buffers d) (dv_poll d) (dv_master d) (dv_blockHeader d) (dv_blockData d).
Definition dv_set_buffers c (d : Device) : Device :=
  mkDevice (dv_hi d) (dv_params d) c (dv_poll d) (dv_master d) (dv_blockHeader d) (dv_blockData d).
Definition dv_set_poll s (d : Device) : Device :=
  mkDevice (dv_hi d) (dv_params d) (dv_buffers d) s (dv_master d) (dv_blockHeader d) (dv_blockData d).
Definition dv_set_master m (d : Device) : Device :=
  mkDevice (dv_hi d) (dv_params d) (dv_buffers d) (dv_poll d) m (dv_blockHeader d) (dv_blockData d).
Definition dv_set_block h l (d : Device) : Device :=
  mkDevice (dv_hi d) (dv_params d) (dv_buffers d) (dv_poll d) (dv_master d) h l.

Definition dv_addMessage (msg data : list Z) (d : Device) : outcome Device :=
  '(h, _) ← hi_addMessage msg data (dv_hi d); Ret (dv_set_hi h d).

(** ** Messages of the host *)

Definition result_code (result : Z) : Z :=
  if bool_decide (result = 0) then ResultOk
  else if bool_decide (result = -1) then ResultBadParameter else ResultOperationError.

Definition param_value (sn pn v result : Z) : message := MParameterValue sn pn v (result_code result) junk.

Definition handleMsgPWrite (msg : list Z) (destAddress : Z) (d : Device) : outcome Device :=
  p0 ← checked (rd16 msg 4);
  p1 ← checked (rd16 msg 6);
  let v := s32 (Z.lor (Z.shiftl p1 16) p0) in
  pn ← checked (rd16 msg 2);
  let '(r, result) := Parameters_write (dv_buffers d) pn v (dv_params d) in
  let d := dv_set_params r d in
  sn ← checked (rd msg 1);
  if bool_decide (destAddress <> PROTOCOL_BROADCAST_ADDRESS) && bool_decide (sn <> 0xFF)
  then dv_addMessage (message_header (param_value sn pn v result)) [] d
  else Ret d.

Definition handleMsgPRead (msg : list Z) (d : Device) : outcome Device :=
  pn ← checked (rd16 msg 2);
  let '(v, result) := Parameters_read (dv_buffers d) NDEBUG now pn junk (dv_params d) in
  sn ← checked (rd msg 1);
  dv_addMessage (message_header (param_value sn pn v result)) [] d.

(** [for(i = 0; i < size; i++) Parameters.read(base + i, &data\[i\])]: the
    address is used only when the register can be read. *)
Fixpoint read_block (n : nat) (i base : Z) (d : Device) : outcome Device :=
  match n with
  | O => Ret d
  | S n =>
      let v0 := default junk (rd (dv_blockData d) i) in
      let '(v, result) := Parameters_read (dv_buffers d) NDEBUG now (u16 (base + i)) v0 (dv_params d) in
      d ← (if bool_decide (result = 0)
           then l ← checked (wr (dv_blockData d) i v); Ret (dv_set_block (dv_blockHeader d) l d)
           else Ret d);
      read_block n (u16 (i + 1)) base d
  end.

Definition block_data_bytes (l : list Z) : list Z := l ≫= (fun v => le4 (u32 v)).

(** The largest block that is read: [getPayload()] is the value given to the
    constructor, [MaxPacketPayload], whatever the current protocol is. *)
Definition max_block : Z := MaxPacketPayload / 4.

Definition handleMsgPReadBlock (msg : list Z) (d : Device) : outcome Device :=
  sz ← checked (rd msg 4);
  let size := if bool_decide (sz > max_block) then max_block else sz in
  sn ← checked (rd msg 1);
  base ← checked (rd16 msg 2);
  let h := setParameters base size
             (mkBlockHeader sn (bh_dataSize (dv_blockHeader d)) (bh_base (dv_blockHeader d)) (bh_size (dv_blockHeader d))
                (bh_errCount (dv_blockHeader d)) (bh_reserved (dv_blockHeader d))) in
  d ← read_block (Z.to_nat size) 0 base (dv_set_block h (dv_blockData d) d);
  let block := block_header_bytes (dv_blockHeader d) ++ block_data_bytes (dv_blockData d) in
  dv_addMessage block (drop 6 block) d.

(** [extMsgAppTypeHandler] *)
Definition extMsgAppTypeHandler (msg : list Z) (srcAddress : Z) (d : Device) : outcome Device :=
  type ← checked (rd16 msg 2);
  if bool_decide (type = MsgApp_RequestData) then
    sn ← checked (rd msg 1);
    if bool_decide (getDataReadyInfo (dv_buffers d) = kNoData) then
      d ← dv_addMessage (message_header (MAppType sn MsgApp_DataAbsence [])) [] d;
      '(h, _) ← hi_sendPacket srcAddress (dv_hi d);
      Ret (dv_set_hi h d)
    else
      '(c, h) ← handleMsgRequestData sn (dv_buffers d) (dv_hi d);
      Ret (dv_set_hi h (dv_set_buffers c d))
  else if bool_decide (type = MsgApp_DataAcknowledge) then
    pn ← checked (rd16 msg 6);
    c ← handleMsgDataAcknowledge pn (dv_buffers d);
    Ret (dv_set_buffers c d)
  else Ret d.

(** [P_SlaveMsgHandlers_HiIO::RxMessageHandler]; [handleMsgAppType] passes
    every message on. *)
Definition RxMessageHandler_HiIO (msg : list Z) (destAddress srcAddress : Z) (d : Device) : outcome Device :=
  id ← checked (rd msg 0);
  if bool_decide (id = MsgParameterWrite) then handleMsgPWrite msg destAddress d
  else if bool_decide (id = MsgParameterRead) then handleMsgPRead msg d
  else if bool_decide (id = MsgReadBlock) then handleMsgPReadBlock msg d
  else if bool_decide (id = MsgAppType) then extMsgAppTypeHandler msg srcAddress d
  else Ret d.

(** ** Messages of the slaves *)

Definition handleMsgAppType_local (msg : list Z) (srcAddress : Z) (d : Device) : outcome Device :=
  type ← checked (rd16 msg 2);
  if bool_decide (type = kDataId) then
    let p := drop 6 msg in
    '(s, q, c, rc) ← handleMessageData srcAddress p type (dv_poll d) (mt_txQueue (dv_master d)) (dv_buffers d);
    q ← (if bool_decide (rc > 0)
         then packet ← checked (rd16 p 0);
              '(q, _) ← addTxMsgApp srcAddress MsgApp_DataAcknowledge 2 packet 0 LINK_ID_LOCAL q; Ret q
         else Ret q);
    Ret (dv_set_master (mt_set_queue q (dv_master d)) (dv_set_buffers c (dv_set_poll s d)))
  else if bool_decide (type = MsgApp_DataAbsence) then
    s ← handleMessageNoData srcAddress (dv_poll d); Ret (dv_set_poll s d)
  else Ret d.

(** [P_SlaveMsgHandlers_Local::RxMessageHandler]; [handleMsgPValue] does
    nothing. *)
Definition RxMessageHandler_Local (msg : list Z) (srcAddress : Z) (d : Device) : outcome Device :=
  id ← checked (rd msg 0);
  if bool_decide (id = MsgAppType) then handleMsgAppType_local msg srcAddress d else Ret d.

(** ** The links *)

(** [TRxMessageHandlerInst::processRxMessage] *)
Definition processRxMessage (id : Z) (msg : list Z) (destAddress srcAddress : Z) (d : Device) : outcome Device :=
  if bool_decide (id = LINK_ID_HI_IO) then RxMessageHandler_HiIO msg destAddress srcAddress d
  else if bool_decide (id = LINK_ID_LOCAL) then RxMessageHandler_Local msg srcAddress d
  else Ret d.

Definition local_inst (d : Device) : Inst L := mt_protocol (dv_master d).
Definition local_upd (p : Inst L) (d : Device) : Device := dv_set_master (mt_set_protocol p (dv_master d)) d.

(** What [TPacketHandlersInstLocal::onEndRxPacketProcess] does first. *)
Definition local_hook (src : Z) (d : Device) : Device := dv_set_master (onRxSlavePacket now src (dv_master d)) d.

Definition dev_processInputAppData (buffer : list Z) (n dest src : Z) (d : Device) : outcome (Device * Z) :=
  hi_processInputAppData dv_hi dv_set_hi (processRxMessage LINK_ID_HI_IO) buffer n dest src d.

Definition dev_processInputData (buffer : TBuffer Z) (n id : Z) (d : Device) : outcome (Device * TBuffer Z * Z) :=
  if bool_decide (id = LINK_ID_HI_IO) then
    hi_processInputData dv_hi dv_set_hi (processRxMessage LINK_ID_HI_IO) now buffer n d
  else if bool_decide (id = LINK_ID_LOCAL) then
    processInputData local_inst local_upd (processRxMessage LINK_ID_LOCAL) local_hook now buffer n false
      (dv_set_master (onRxSlaveData now (dv_master d)) d)
  else Ret (d, buffer, 0).

(** ** The receive side is not touched by the handlers *)

Notation host := (host_inst dv_hi).
Notation host_set := (host_upd dv_hi dv_set_hi).

Lemma host_upd_upd p q d : host_set p (host_set q d) = host_set p d.
Proof. reflexivity. Qed.

Lemma host_upd_inst d : host_set (host d) d = d.
Proof. by destruct d as [[] ? ? ? ? ? ?]. Qed.

Lemma dv_addMessage_rx msg data d d' : dv_addMessage msg data d = Ret d' -> rx_side host d' = rx_side host d.
Proof.
  unfold dv_addMessage, hi_addMessage. intros Hs. apply bind_Ret in Hs as ([h rc] & Hs & Hd). injection Hd as <-.
  apply bind_Ret in Hs as ([p rc'] & Hs%inst_addMessage_rx & Hd). injection Hd as <- _.
  unfold rx_side, host_inst. cbn. unfold same_rx in Hs. congruence.
Qed.

Lemma hi_sendPacket_rx src (h h' : HiIO L) n :
  hi_sendPacket src h = Ret (h', n) -> same_rx (pi_layer3 (hi_inst h)) (pi_layer3 (hi_inst h')).
Proof.
  unfold hi_sendPacket. intros Hs. apply bind_Ret in Hs as ([p k] & Hs%sendPacket_rx & Hd). by injection Hd as <- _.
Qed.

Lemma handleMsgRequestData_rx sn c (h : HiIO L) c' h' :
  handleMsgRequestData sn c h = Ret (c', h') -> same_rx (pi_layer3 (hi_inst h)) (pi_layer3 (hi_inst h')).
Proof.
  unfold handleMsgRequestData. intros Hs. apply bind_Ret in Hs as ([c1 n] & _ & Hs).
  case_bool_decide; [|by injection Hs as _ <-].
  apply bind_Ret in Hs as (b & _ & Hs). apply bind_Ret in Hs as ([h1 rc] & Ha & Hs). injection Hs as _ <-.
  unfold addMsgData, hi_addMessage in Ha. apply bind_Ret in Ha as ([h2 r] & Ha & Hx). injection Hx as <- _.
  apply bind_Ret in Ha as ([p k] & Ha%inst_addMessage_rx & Hx). by injection Hx as <- _.
Qed.

Lemma read_block_host n i base d d' : read_block n i base d = Ret d' -> dv_hi d' = dv_hi d.
Proof.
  revert i d. induction n as [|n IH]; intros i d Hs; cbn [read_block] in Hs; [by injection Hs as <-|].
  destruct (Parameters_read _ _ _ _ _ _) as [v rc]. apply bind_Ret in Hs as (d1 & H1 & Hs%IH).
  rewrite Hs. case_bool_decide; inv_ret; done.
Qed.

Lemma RxMessageHandler_HiIO_rx msg dest src d d' :
  processRxMessage LINK_ID_HI_IO msg dest src d = Ret d' -> rx_side host d' = rx_side host d.
Proof.
  unfold processRxMessage. rewrite bool_decide_true by done. unfold RxMessageHandler_HiIO.
  intros Hs. apply bind_Ret in Hs as (id & _ & Hs). case_bool_decide.
  { unfold handleMsgPWrite in Hs. apply bind_Ret in Hs as (p0 & _ & Hs). apply bind_Ret in Hs as (p1 & _ & Hs).
    apply bind_Ret in Hs as (pn & _ & Hs). destruct (Parameters_write _ _ _ _) as [r rc].
    apply bind_Ret in Hs as (sn & _ & Hs). destruct (_ && _); [by apply dv_addMessage_rx in Hs|by injection Hs as <-]. }
  case_bool_decide.
  { unfold handleMsgPRead in Hs. apply bind_Ret in Hs as (pn & _ & Hs). destruct (Parameters_read _ _ _ _ _ _) as [v rc].
    apply bind_Ret in Hs as (sn & _ & Hs). by apply dv_addMessage_rx in Hs. }
  case_bool_decide.
  { unfold handleMsgPReadBlock in Hs. apply bind_Ret in Hs as (sz & _ & Hs). apply bind_Ret in Hs as (sn & _ & Hs).
    apply bind_Ret in Hs as (base & _ & Hs). apply bind_Ret in Hs as (d1 & Hblk%read_block_host & Hs%dv_addMessage_rx).
    rewrite Hs. unfold rx_side, host_inst. by rewrite Hblk. }
  case_bool_decide; [|by injection Hs as <-].
  unfold extMsgAppTypeHandler in Hs. apply bind_Ret in Hs as (ty & _ & Hs). case_bool_decide.
  - apply bind_Ret in Hs as (sn & _ & Hs). case_bool_decide.
    + apply bind_Ret in Hs as (d1 & Hadd%dv_addMessage_rx & Hs). apply bind_Ret in Hs as ([h k] & Hh%hi_sendPacket_rx & Hs).
      injection Hs as <-. rewrite <-Hadd. unfold rx_side, host_inst. cbn. unfold same_rx in Hh. congruence.
    + apply bind_Ret in Hs as ([c h] & Hh%handleMsgRequestData_rx & Hs). injection Hs as <-.
      unfold rx_side, host_inst. cbn. unfold same_rx in Hh. congruence.
  - case_bool_decide; [|by injection Hs as <-].
    apply bind_Ret in Hs as (pn & _ & Hs). apply bind_Ret in Hs as (c & _ & Hs). by injection Hs as <-.
Qed.

(** ** Requests of the host *)

(** The fields of a message in memory. *)
Lemma request_fields id sn pn rest :
  let mem := (id :: u8 sn :: le2 (u16 pn)) ++ rest in
  rd mem 0 = Some id /\ rd mem 1 = Some (u8 sn) /\ rd16 mem 2 = Some (u16 pn).
Proof.
  split_and!; [done|done|]. apply (rd16_le2 [id; u8 sn] rest (u16 pn) 2); [apply u16_range|done].
Qed.

(** The value is put together from two halves. *)
Lemma value_halves pre v rest :
  exists p0 p1, rd16 (pre ++ le4 (u32 v) ++ rest) (Z.of_nat (length pre)) = Some p0 /\
    rd16 (pre ++ le4 (u32 v) ++ rest) (Z.of_nat (length pre) + 2) = Some p1 /\
    s32 (Z.lor (Z.shiftl p1 16) p0) = s32 v.
Proof.
  exists (u32 v mod 65536), (u32 v / 65536). pose proof (u32_range v) as Hr. unw.
  assert (le4 (u32 v) = le2 (u32 v mod 65536) ++ le2 (u32 v / 65536)) as ->.
  { unfold le4, le2. cbn [app]. set (x := u32 v) in *. clearbody x.
    assert (x mod 65536 mod 256 = x mod 256) as -> by (Z.to_euclidean_division_equations; lia).
    assert (x mod 65536 / 256 mod 256 = x / 256 mod 256) as -> by (Z.to_euclidean_division_equations; lia).
    assert (x / 65536 / 256 mod 256 = x / 16777216 mod 256) as -> by (Z.to_euclidean_division_equations; lia). done. }
  rewrite <-!app_assoc. split_and!.
  - apply rd16_le2; [unw; Z.to_euclidean_division_equations; lia|done].
  - rewrite app_assoc. apply (rd16_le2 (pre ++ le2 (u32 v mod 65536))); [unw; Z.to_euclidean_division_equations; lia|].
    rewrite length_app. change (length (le2 _)) with 2%nat. lia.
  - rewrite Z.shiftl_mul_pow2, lor_low_16 by (Z.to_euclidean_division_equations; lia).
    rewrite <-(s32_u32 v). f_equal. change (2 ^ 16) with 65536. Z.to_euclidean_division_equations; lia.
Qed.

Definition is_request (m : message) : Prop :=
  match m with MParameterWrite _ _ _ | MParameterRead _ _ => True | _ => False end.

(** What a request does to the registers, and its answer. *)
Definition answer_one (c : Container) (dest : Z) (m : message) (r : Registers) : Registers * list message :=
  match m with
  | MParameterWrite sn pn v =>
      let '(r', rc) := Parameters_write c (u16 pn) (s32 v) r in
      (r', if bool_decide (dest <> PROTOCOL_BROADCAST_ADDRESS) && bool_decide (u8 sn <> 0xFF)
           then [param_value (u8 sn) (u16 pn) (s32 v) rc] else [])
  | MParameterRead sn pn =>
      let '(v, rc) := Parameters_read c NDEBUG now (u16 pn) junk r in
      (r, [param_value (u8 sn) (u16 pn) v rc])
  | _ => (r, [])
  end.

Fixpoint answers (c : Container) (dest : Z) (ms : list message) (r : Registers) : Registers * list message :=
  match ms with
  | [] => (r, [])
  | m :: ms =>
      let '(r, a) := answer_one c dest m r in
      let '(r, l) := answers c dest ms r in (r, a ++ l)
  end.

(** All the state that a request does not touch. *)
Definition kept (d : Device) :=
  let p := host d in
  (pi_class p, pi_linkID p, pi_processTxAppData p, pi_link p, pi_layer1Number p, pi_srcAddress p,
   l3_maxTxAppSize (pi_layer3 p), pi_layer2 p,
   (hi_protocolType (dv_hi d), hi_getTxFreeHandler (dv_hi d), dv_buffers d, dv_poll d, dv_master d,
    dv_blockHeader d, dv_blockData d)).

Definition host_contents (d : Device) : list Z := tx_contents (pi_layer3 (host d)).
Definition host_txInv (d : Device) : Prop := tx_inv (pi_layer3 (host d)).
Definition host_max (d : Device) : Z := l3_maxTxAppSize (pi_layer3 (host d)).

(** A message that fits is appended to the outgoing packet. *)
Lemma dv_addMessage_fits m mj dj d :
  host_txInv d -> message_ok m ->
  Z.of_nat (length (host_contents d)) + Z.of_nat (length (message_bytes m)) <= host_max d ->
  exists d', dv_addMessage (message_header m ++ mj) (message_body m ++ dj) d = Ret d' /\
    kept d' = kept d /\ dv_params d' = dv_params d /\ host_txInv d' /\
    host_contents d' = host_contents d ++ message_bytes m.
Proof.
  intros Hinv Hok Hfit. unfold host_contents in Hfit. rewrite tx_contents_length in Hfit by done.
  unfold dv_addMessage, hi_addMessage, inst_addMessage.
  pose proof (addMessage_added m (pi_layer3 (host d)) mj dj Hinv Hok) as Hadd. unfold added in Hadd.
  rewrite bool_decide_true in Hadd by exact Hfit. destruct Hadd as (p & Ha & Hp1 & Hp2 & _).
  unfold host_inst in Ha. rewrite Ha. cbn [mbind outcome_bind]. rewrite bool_decide_false by done.
  cbn [mbind outcome_bind]. eexists. split; [done|]. split_and!; [|done|exact Hp1|exact Hp2].
  reflexivity.
Qed.

Lemma param_value_ok sn pn v rc : message_ok (param_value sn pn v rc).
Proof. split; [constructor|cbn; lia]. Qed.

(** The answer to a parameter request. *)
Lemma dv_answer sn pn v rc d :
  host_txInv d -> Z.of_nat (length (host_contents d)) + 12 <= host_max d ->
  exists d', dv_addMessage (message_header (param_value sn pn v rc)) [] d = Ret d' /\
    kept d' = kept d /\ dv_params d' = dv_params d /\ host_txInv d' /\
    host_contents d' = host_contents d ++ message_bytes (param_value sn pn v rc).
Proof.
  intros Hinv Hfit.
  pose proof (dv_addMessage_fits (param_value sn pn v rc) [] [] d Hinv (param_value_ok _ _ _ _)) as Hd.
  rewrite !app_nil_r in Hd. by apply Hd.
Qed.

Lemma handle_request m rest dest src d :
  is_request m -> host_txInv d ->
  let r := answer_one (dv_buffers d) dest m (dv_params d) in
  Z.of_nat (length (host_contents d)) + Z.of_nat (length (messages_bytes r.2)) <= host_max d ->
  exists d', RxMessageHandler_HiIO (message_bytes m ++ rest) dest src d = Ret d' /\
    kept d' = kept d /\ dv_params d' = r.1 /\ host_txInv d' /\
    host_contents d' = host_contents d ++ messages_bytes r.2.
Proof.
  intros Hm Hinv r Hfit. subst r. destruct m as [sn pn v|sn pn| | |]; try done; clear Hm.
  - set (mem := message_bytes _ ++ rest).
    destruct (request_fields MsgParameterWrite sn pn (le4 (u32 v) ++ rest)) as (Hf0 & Hf1 & Hf2).
    destruct (value_halves (MsgParameterWrite :: u8 sn :: le2 (u16 pn)) v rest) as (p0 & p1 & Hp0 & Hp1 & Hv).
    change ((MsgParameterWrite :: u8 sn :: le2 (u16 pn)) ++ le4 (u32 v) ++ rest) with mem in *.
    change (Z.of_nat (length (MsgParameterWrite :: u8 sn :: le2 (u16 pn)))) with 4 in *. change (4 + 2) with 6 in *.
    unfold RxMessageHandler_HiIO. rewrite Hf0. cbn [checked mbind outcome_bind]. rewrite bool_decide_true by done.
    unfold handleMsgPWrite. rewrite Hp0. cbn [checked mbind outcome_bind]. rewrite Hp1. cbn [checked mbind outcome_bind].
    rewrite Hf2. cbn [checked mbind outcome_bind]. rewrite Hv. cbn [answer_one] in Hfit |- *.
    destruct (Parameters_write _ _ _ _) as [r' rc]. rewrite Hf1. cbn [checked mbind outcome_bind fst snd] in *.
    destruct (_ && _) eqn:E; cbn [fst snd] in *.
    + destruct (dv_answer (u8 sn) (u16 pn) (s32 v) rc (dv_set_params r' d)) as (d' & Ha & Hk & Hpar & Hi & Hc); [done|exact Hfit|].
      exists d'. split; [exact Ha|]. split_and!; [exact Hk|exact Hpar|done|].
      rewrite Hc. unfold messages_bytes. cbn [fmap list_fmap concat]. by rewrite app_nil_r.
    + eexists. split; [done|]. split_and!; [done|done|done|]. cbn. by rewrite app_nil_r.
  - destruct (request_fields MsgParameterRead sn pn rest) as (Hf0 & Hf1 & Hf2).
    change ((MsgParameterRead :: u8 sn :: le2 (u16 pn)) ++ rest) with (message_bytes (MParameterRead sn pn) ++ rest) in *.
    set (mem := message_bytes _ ++ rest) in *.
    unfold RxMessageHandler_HiIO. rewrite Hf0. cbn [checked mbind outcome_bind].
    rewrite bool_decide_false, bool_decide_true by done.
    unfold handleMsgPRead. rewrite Hf2. cbn [checked mbind outcome_bind answer_one] in *.
    destruct (Parameters_read _ _ _ _ _ _) as [v rc]. rewrite Hf1. cbn [checked mbind outcome_bind fst snd] in *.
    destruct (dv_answer (u8 sn) (u16 pn) v rc d) as (d' & Ha & Hk & Hpar & Hi & Hc); [done|exact Hfit|].
    exists d'. split; [exact Ha|]. split_and!; [exact Hk|exact Hpar|done|].
    rewrite Hc. unfold messages_bytes. cbn [fmap list_fmap concat]. by rewrite app_nil_r.
Qed.

Lemma is_request_ok m : is_request m -> message_ok m.
Proof. destruct m; try done; intros _; split; (constructor || (cbn; lia)). Qed.

Notation host_handler := (processRxMessage LINK_ID_HI_IO).

Lemma host_handler_eq msg dest src d : host_handler msg dest src d = RxMessageHandler_HiIO msg dest src d.
Proof. reflexivity. Qed.

(** Requests are handled in order, each on the registers the ones before it
    left. *)
Lemma dispatch_requests ms mem off dest src d tail :
  Forall is_request ms -> host_txInv d -> 0 <= off ->
  drop (Z.to_nat off) mem = messages_bytes ms ++ tail ->
  let r := answers (dv_buffers d) dest ms (dv_params d) in
  Z.of_nat (length (host_contents d)) + Z.of_nat (length (messages_bytes r.2)) <= host_max d ->
  exists d', dispatch host host_set host_handler ms mem off dest src d = Ret d' /\
    kept d' = kept d /\ dv_params d' = r.1 /\ host_txInv d' /\
    host_contents d' = host_contents d ++ messages_bytes r.2.
Proof.
  intros Hms. revert off d. induction Hms as [|m ms Hm _ IH]; intros off d Hinv Hoff Hmem r Hfit; subst r.
  { cbn. exists d. rewrite app_nil_r. done. }
  cbn [dispatch answers] in *. change (messages_bytes (m :: ms)) with (message_bytes m ++ messages_bytes ms) in Hmem.
  rewrite <-app_assoc in Hmem. rewrite Hmem.
  set (off' := off + Z.of_nat (length (message_bytes m))).
  set (d1 := modify host host_set (set_rx_at off') d).
  destruct (answer_one (dv_buffers d) dest m (dv_params d)) as [r1 a1] eqn:E1.
  destruct (answers (dv_buffers d) dest ms r1) as [r2 a2] eqn:E2. cbn [fst snd] in *.
  rewrite messages_bytes_app, length_app in Hfit.
  destruct (handle_request m (messages_bytes ms ++ tail) dest src d1 Hm) as (d2 & Hh & Hk & Hpar & Hi & Hc).
  { destruct Hinv. by constructor. }
  { change (answer_one (dv_buffers d1) dest m (dv_params d1)) with (answer_one (dv_buffers d) dest m (dv_params d)).
    rewrite E1. cbn [snd]. change (host_contents d1) with (host_contents d). change (host_max d1) with (host_max d). lia. }
  rewrite host_handler_eq, Hh. cbn [mbind outcome_bind].
  change (answer_one (dv_buffers d1) dest m (dv_params d1)) with (answer_one (dv_buffers d) dest m (dv_params d)) in *.
  rewrite E1 in *. cbn [fst snd] in *. change (kept d1) with (kept d) in Hk. change (host_contents d1) with (host_contents d) in Hc.
  assert (dv_buffers d2 = dv_buffers d) as Hb by (unfold kept in Hk; congruence).
  assert (host_max d2 = host_max d) as Hmx by (unfold kept in Hk; unfold host_max; congruence).
  destruct (IH off' d2 Hi) as (d3 & Hd & Hk3 & Hp3 & Hi3 & Hc3).
  - lia.
  - subst off'. rewrite Z2Nat.inj_add, <-drop_drop, Hmem, Nat2Z.id by lia. by rewrite drop_app_length.
  - rewrite Hb, Hpar, E2, Hmx. cbn [snd]. rewrite Hc, length_app. lia.
  - rewrite Hb, Hpar, E2 in Hp3, Hc3. exists d3. split; [exact Hd|]. split_and!; [congruence|done|done|].
    rewrite Hc3, Hc, messages_bytes_app. cbn [snd]. by rewrite app_assoc.
Qed.

Lemma app_switch (h : HiIO L) t : l3_maxTxAppSize (pi_layer3 (hi_inst h)) = payload_of (hi_protocolType h) ->
  l3_maxTxAppSize (pi_layer3 (hi_inst (switch_protocol t (payload_of t) h))) = payload_of t /\
  pi_class (hi_inst (switch_protocol t (payload_of t) h)) = pi_class (hi_inst h) /\
  pi_link (hi_inst (switch_protocol t (payload_of t) h)) = pi_link (hi_inst h) /\
  pi_processTxAppData (hi_inst (switch_protocol t (payload_of t) h)) = pi_processTxAppData (hi_inst h) /\
  l3_txPacket (pi_layer3 (hi_inst (switch_protocol t (payload_of t) h))) = l3_txPacket (pi_layer3 (hi_inst h)).
Proof.
  intros Hp. unfold switch_protocol. case_bool_decide as Hne; [by destruct t|].
  assert (hi_protocolType h = t) as Ht by (destruct (decide (hi_protocolType h = t)); [done|by destruct Hne]).
  split_and!; try done. by rewrite <-Ht.
Qed.

(** The state in which the first message of a block is handled. *)
Definition dev_begin (buffer : list Z) (n src : Z) (d : Device) : Device :=
  app_begin host host_set buffer n src
    (modify host host_set (setLinkID LINK_ID_1)
       (dv_set_hi (switch_protocol kProtocolApp MAX_TX_APP_SIZE_DATAIO_APP (dv_hi d)) d)).

Lemma dev_processInputAppData_dispatch ms tail dest src d :
  Forall message_ok ms -> Z.of_nat (length (messages_bytes ms)) < 65536 ->
  let buffer := messages_bytes ms ++ tail in
  let n := Z.of_nat (length (messages_bytes ms)) in
  dev_processInputAppData buffer n dest src d =
    s1 ← dispatch host host_set host_handler ms buffer 0 dest src (dev_begin buffer n src d);
    p ← onEndRxPacketProcess (host s1);
    Ret (host_set p s1, Z.of_nat (length ms)).
Proof.
  intros Hok Hn buffer n. unfold dev_processInputAppData, hi_processInputAppData, app_processInputAppData, processInputAppData.
  fold (app_begin host host_set buffer n src).
  match goal with |- context [rx_messages _ _ _ _ _ _ _ ?s] => change s with (dev_begin buffer n src d) end.
  rewrite (rx_messages_all host host_set host_handler ltac:(done) host_upd_inst
    RxMessageHandler_HiIO_rx ms dest src (dev_begin buffer n src d) buffer tail); try done.
  - destruct (dispatch _ _ _ _ _ _ _) as [s1| |]; [|done|done]. cbn [mbind outcome_bind].
    unfold host_onEndRxPacketProcess. by destruct (onEndRxPacketProcess (host s1)).
  - unfold rx_side, dev_begin, app_begin, modify. cbn. by rewrite u16_id by (unw; lia).
Qed.

(** What is true before the first message of a block. *)
Lemma dev_begin_facts buffer n src d :
  hi_inv (dv_hi d) ->
  let s := dev_begin buffer n src d in
  host_txInv s /\ host_contents s = [] /\ host_max s = 1472 /\
  kept s = (pi_class (host d), LINK_ID_1, pi_processTxAppData (host d), pi_link (host d), pi_layer1Number (host d), src,
            1472, pi_layer2 (host d),
            (kProtocolApp, hi_getTxFreeHandler (dv_hi d), dv_buffers d, dv_poll d, dv_master d,
             dv_blockHeader d, dv_blockData d)) /\
  dv_params s = dv_params d.
Proof.
  intros [Hp Hb] s. subst s. unfold dev_begin, switch_protocol. unfold off_data in Hb.
  case_bool_decide as Hne.
  - split_and!; [|done|done|done|done].
    constructor; [by apply (bool_decide_unpack _)|by apply (bool_decide_unpack _)|].
    change (10 + 1472 <= Z.of_nat (length (l3_txPacket (pi_layer3 (hi_inst (dv_hi d)))))). lia.
  - assert (hi_protocolType (dv_hi d) = kProtocolApp) as Ht
      by (destruct (decide (hi_protocolType (dv_hi d) = kProtocolApp)); [done|by destruct Hne]).
    rewrite Ht in Hp. cbn [payload_of] in Hp.
    assert (host_max (app_begin host host_set buffer n src (modify host host_set (setLinkID LINK_ID_1) (dv_set_hi (dv_hi d) d))) = 1472)
      as Hm by exact Hp.
    split_and!; [|done|exact Hm| |done].
    + constructor; cbn [l3_txIndex l3_maxTxAppSize l3_txPacket].
      * change (0 <= 0 <= l3_maxTxAppSize (pi_layer3 (hi_inst (dv_hi d)))). lia.
      * change (is_u16 (l3_maxTxAppSize (pi_layer3 (hi_inst (dv_hi d))))). rewrite Hp. unw. lia.
      * change (10 + l3_maxTxAppSize (pi_layer3 (hi_inst (dv_hi d))) <= Z.of_nat (length (l3_txPacket (pi_layer3 (hi_inst (dv_hi d)))))). lia.
    + unfold kept. unfold host_max in Hm. rewrite Hm. unfold host_inst, app_begin, modify. cbn. by rewrite Ht.
Qed.

(** The end of a block: the collected answers go to the handler. *)
Lemma onEnd_app p f :
  tx_inv (pi_layer3 p) -> pi_class p = TProtocolInstance_AppPackets -> pi_linkID p = LINK_ID_1 ->
  pi_processTxAppData p = Some f ->
  exists p', onEndRxPacketProcess p = Ret p' /\ tx_contents (pi_layer3 p') = [] /\
    pi_link p' = (if decide (tx_contents (pi_layer3 p) = []) then pi_link p
                  else (f (tx_contents (pi_layer3 p)) (pi_link p)).1) /\
    l3_maxTxAppSize (pi_layer3 p') = l3_maxTxAppSize (pi_layer3 p) /\
    l3_txPacket (pi_layer3 p') = l3_txPacket (pi_layer3 p) /\
    pi_class p' = pi_class p /\ pi_processTxAppData p' = pi_processTxAppData p.
Proof.
  intros Hinv Hcl Hl Hf. pose proof (tx_contents_length _ Hinv) as Hlen. pose proof Hinv as [Hi Hm Hp].
  unfold onEndRxPacketProcess, inst_getTxDataSize, getTxDataSize.
  destruct (decide (tx_contents (pi_layer3 p) = [])) as [He|Hne].
  - rewrite He in Hlen. rewrite bool_decide_false by (simpl in Hlen; lia). by exists p.
  - assert (l3_txIndex (pi_layer3 p) <> 0) as Hidx.
    { intros E. rewrite E in Hlen. destruct (tx_contents (pi_layer3 p)); [done|simpl in Hlen; lia]. }
    rewrite bool_decide_true by done. unfold sendPacket, sendPacket_app. rewrite Hcl, Hl, bool_decide_false, Hf by done.
    unfold inst_getTxDataSize, getTxDataSize. rewrite bool_decide_true by done. unfold off_data in Hp.
    rewrite slice_ok by (unfold off_data; lia). cbn [checked mbind outcome_bind].
    change (take _ _) with (tx_contents (pi_layer3 p)).
    destruct (f _ _) as [l rc]. cbn [mbind outcome_bind]. eexists. split; [done|]. split_and!; done.
Qed.

(** The parameter service, from the received block to the sent one.  A
    UDP block that holds read and write requests (any number, any registers) is
    answered by exactly one block: the answers in the order of the requests,
    each read seeing the registers as the writes before it left them; a write
    sent to the broadcast address or with the sequence number 0xFF is carried
    out and not answered.  Nothing is sent when there are no answers.  The
    number of handled requests is returned, the registers are those after the
    last request, and the rest of the device is as before.  The answers have to
    fit one block (1472 bytes). *)
Theorem host_requests_answered (ms : list message) (tail : list Z) (dest src : Z) (d : Device) (f : list Z -> L -> L * Z) :
  hi_inv (dv_hi d) -> pi_class (host d) = TProtocolInstance_AppPackets -> pi_processTxAppData (host d) = Some f ->
  Forall is_request ms -> Z.of_nat (length (messages_bytes ms)) < 65536 ->
  let r := answers (dv_buffers d) dest ms (dv_params d) in
  Z.of_nat (length (messages_bytes r.2)) <= 1472 ->
  exists d', dev_processInputAppData (messages_bytes ms ++ tail) (Z.of_nat (length (messages_bytes ms))) dest src d =
      Ret (d', Z.of_nat (length ms)) /\
    dv_params d' = r.1 /\
    pi_link (host d') = (if decide (r.2 = []) then pi_link (host d) else (f (messages_bytes r.2) (pi_link (host d))).1) /\
    host_contents d' = [] /\ hi_inv (dv_hi d') /\
    dv_buffers d' = dv_buffers d /\ dv_poll d' = dv_poll d /\ dv_master d' = dv_master d /\
    pi_class (host d') = pi_class (host d) /\ pi_processTxAppData (host d') = pi_processTxAppData (host d).
Proof.
  intros Hhi Hcl Hf Hms Hlen r Hfit. pose proof (Forall_impl _ _ _ Hms is_request_ok) as Hok.
  rewrite (dev_processInputAppData_dispatch ms tail dest src d Hok Hlen).
  set (buffer := messages_bytes ms ++ tail). set (n := Z.of_nat (length (messages_bytes ms))).
  destruct (dev_begin_facts buffer n src d Hhi) as (Hb1 & Hb2 & Hb3 & Hb4 & Hb5).
  set (s := dev_begin buffer n src d) in *.
  assert (dv_buffers s = dv_buffers d) as Hbuf by (unfold kept in Hb4; congruence).
  destruct (dispatch_requests ms buffer 0 dest src s tail Hms Hb1) as (d1 & Hd & Hk & Hpar & Hi & Hc); [done|done|..].
  { rewrite Hb2, Hb3, Hb5, Hbuf. simpl. fold r. lia. }
  rewrite Hb2, Hb5, Hbuf in *. fold r in Hpar, Hc |- *. cbn [app] in Hc. rewrite Hd. cbn [mbind outcome_bind].
  rewrite Hb4 in Hk. unfold kept in Hk. injection Hk as Kcl Kid Kf Klink Knum Ksrc Kmax Kl2 Kty Kgf Kb Kp Km Kh Kdt.
  destruct (onEnd_app (host d1) f Hi) as (p' & Hp & Hpc & Hpl & Hpm & Hpk & Hpcl & Hpf); [congruence|done|congruence|].
  rewrite Hp. cbn [mbind outcome_bind]. eexists. split; [done|].
  change (host (host_set p' d1)) with p'. split_and!; [exact Hpar| |exact Hpc| |exact Kb|exact Kp|exact Km|congruence|congruence].
  - rewrite Hpl. fold (host_contents d1). rewrite Hc, Klink.
    destruct (decide (messages_bytes r.2 = [])) as [E|E], (decide (r.2 = [])) as [E'|E']; try done.
    + destruct r.2 as [|m l]; [done|]. exfalso. pose proof (message_bytes_min m).
      apply (f_equal length) in E. unfold messages_bytes in E. cbn [fmap list_fmap concat] in E. rewrite length_app in E. simpl in E. lia.
    + by rewrite E' in E.
  - constructor; cbn.
    + rewrite Hpm, Kty. exact Kmax.
    + rewrite Hpk. destruct Hhi as [_ Hb]. pose proof Hi as [_ _ Hi3]. rewrite Kmax in Hi3. exact Hi3.
Qed.

(** *** Blocks of registers *)

(** The value at place [i] of the block: the register, or what was there
    before when the register cannot be read. *)
Definition block_value (base i v0 : Z) (d : Device) : Z :=
  (Parameters_read (dv_buffers d) NDEBUG now (u16 (base + i)) v0 (dv_params d)).1.

Fixpoint block_values (base i : Z) (l : list Z) (d : Device) : list Z :=
  match l with
  | [] => []
  | v :: l => block_value base i v d :: block_values base (i + 1) l d
  end.

Lemma block_values_length base i l d : length (block_values base i l d) = length l.
Proof. revert i. induction l as [|v l IH]; intros i; cbn; [done|by rewrite IH]. Qed.

Lemma block_values_set base i l h b d : block_values base i l (dv_set_block h b d) = block_values base i l d.
Proof. revert i. induction l as [|v l IH]; intros i; cbn [block_values]; [done|by rewrite IH]. Qed.

Lemma block_value_unread base i v0 d :
  (Parameters_read (dv_buffers d) NDEBUG now (u16 (base + i)) v0 (dv_params d)).2 <> 0 ->
  block_value base i v0 d = v0.
Proof.
  unfold block_value, Parameters_read.
  destruct (read_param_known (dv_buffers d) NDEBUG now (u16 (base + i)) v0 (dv_params d)) as (H2 & H3 & _).
  destruct (read_param _ _ _ _ _ _) as [v ok]. cbn [fst snd] in *. destruct ok; [done|]. intros _.
  apply H3. by eapply (proj1 (bool_decide_eq_false _)).
Qed.

(** One turn of the loop, at a place inside the array. *)
Lemma read_block_step n i base d v :
  rd (dv_blockData d) i = Some v ->
  read_block (S n) i base d =
    read_block n (u16 (i + 1)) base
      (dv_set_block (dv_blockHeader d) (<[Z.to_nat i := block_value base i v d]> (dv_blockData d)) d).
Proof.
  intros Hv. cbn [read_block]. rewrite Hv. cbn [default].
  pose proof (block_value_unread base i v d) as Hun. unfold block_value in *.
  destruct (Parameters_read _ _ _ _ _ _) as [v' rc] eqn:E. cbn [fst snd] in *.
  apply rd_Some in Hv as [Hi Hv]. pose proof (lookup_lt_Some _ _ _ Hv) as Hlt.
  case_bool_decide.
  - unfold wr. rewrite bool_decide_true by lia. done.
  - rewrite Hun, list_insert_id by done. by destruct d.
Qed.

Lemma read_block_ok mid pre post base d :
  dv_blockData d = pre ++ mid ++ post -> Z.of_nat (length (dv_blockData d)) < 65536 ->
  read_block (length mid) (Z.of_nat (length pre)) base d =
    Ret (dv_set_block (dv_blockHeader d) (pre ++ block_values base (Z.of_nat (length pre)) mid d ++ post) d).
Proof.
  revert pre d. induction mid as [|v mid IH]; intros pre d Hd Hlen.
  { cbn. cbn in Hd. rewrite <-Hd. by destruct d. }
  cbn [length]. rewrite (read_block_step _ _ _ _ v).
  2: { rewrite Hd, rd_nat, lookup_app_r, Nat.sub_diag by done. done. }
  rewrite Hd, !length_app in Hlen. cbn [length] in Hlen.
  rewrite u16_id by (unw; lia).
  replace (Z.of_nat (length pre) + 1) with (Z.of_nat (length (pre ++ [block_value base (Z.of_nat (length pre)) v d])))
    by (rewrite length_app; simpl; lia).
  rewrite IH.
  - f_equal. unfold dv_set_block. cbn [dv_blockHeader dv_hi dv_params dv_buffers dv_poll dv_master].
    f_equal. rewrite <-app_assoc. cbn [app block_values]. do 3 f_equal.
    fold (dv_set_block (dv_blockHeader d) (<[Z.to_nat (Z.of_nat (length pre)) := block_value base (Z.of_nat (length pre)) v d]> (dv_blockData d)) d).
    rewrite block_values_set. f_equal. rewrite length_app. cbn [length]. lia.
  - cbn [dv_blockData dv_set_block]. rewrite Hd, Nat2Z.id, insert_app_r_alt, Nat.sub_diag by done.
    cbn. by rewrite <-app_assoc.
  - cbn [dv_blockData dv_set_block]. rewrite length_insert, Hd, !length_app. cbn [length]. lia.
Qed.

(** Past the end of the array the loop faults or leaves the array alone. *)
Lemma read_block_any n i base d :
  Z.of_nat (length (dv_blockData d)) < 65536 -> 0 <= i ->
  read_block n i base d = Fault \/
  exists l, length l = length (dv_blockData d) /\ read_block n i base d = Ret (dv_set_block (dv_blockHeader d) l d).
Proof.
  revert i d. induction n as [|n IH]; intros i d Hlen Hi; cbn [read_block].
  { right. exists (dv_blockData d). by destruct d. }
  destruct (Parameters_read _ _ _ _ _ _) as [v rc].
  assert (0 <= u16 (i + 1)) as Hi1 by (pose proof (u16_range (i + 1)); unw; lia).
  case_bool_decide.
  - destruct (wr (dv_blockData d) i v) as [l|] eqn:Hw; [|by left]. cbn [checked mbind outcome_bind].
    apply wr_length in Hw.
    destruct (IH (u16 (i + 1)) (dv_set_block (dv_blockHeader d) l d)) as [->|(l' & Hl & ->)]; [cbn; lia|done|by left|].
    right. exists l'. cbn in Hl. rewrite Hl. done.
  - cbn [mbind outcome_bind]. apply IH; done.
Qed.

(** The header of the answer, and the message that is sent. *)
Definition answer_header (sn base size : Z) (d : Device) : BlockHeader :=
  mkBlockHeader (u8 sn) (size * 4 + 6) (u16 base) size (bh_errCount (dv_blockHeader d)) (bh_reserved (dv_blockHeader d)).

Definition block_message (sn base size : Z) (values : list Z) (d : Device) : message :=
  MAppType (u8 sn) MsgApp_RegBlock
    (le2 (u16 base) ++ [u8 size; u8 (bh_errCount (dv_blockHeader d))] ++ le2 (bh_reserved (dv_blockHeader d)) ++
     block_data_bytes values).

Lemma block_data_bytes_length l : length (block_data_bytes l) = (4 * length l)%nat.
Proof.
  induction l as [|v l IH]; [done|]. change (block_data_bytes (v :: l)) with (le4 (u32 v) ++ block_data_bytes l).
  rewrite length_app, IH. change (length (le4 _)) with 4%nat. cbn [length]. lia.
Qed.

Lemma block_data_bytes_app l1 l2 : block_data_bytes (l1 ++ l2) = block_data_bytes l1 ++ block_data_bytes l2.
Proof. apply bind_app. Qed.

Lemma block_data_bytes_bytes l : bytes (block_data_bytes l).
Proof. induction l as [|v l IH]; [constructor|]. apply Forall_app_2; [apply le4_bytes|exact IH]. Qed.

(** What [handleMsgPReadBlock] does before and after the loop. *)
Lemma handle_block sn base sz x rest dest src d :
  0 <= sz < 256 ->
  let size := if bool_decide (sz > max_block) then max_block else sz in
  RxMessageHandler_HiIO (message_bytes (MReadBlock sn base sz x) ++ rest) dest src d =
    d1 ← read_block (Z.to_nat size) 0 (u16 base) (dv_set_block (answer_header sn base size d) (dv_blockData d) d);
    let block := block_header_bytes (dv_blockHeader d1) ++ block_data_bytes (dv_blockData d1) in
    dv_addMessage block (drop 6 block) d1.
Proof.
  intros Hsz size. assert (0 <= size <= 61) as Hs.
  { subst size. change max_block with 61. case_bool_decide; lia. }
  unfold RxMessageHandler_HiIO.
  assert (rd (message_bytes (MReadBlock sn base sz x) ++ rest) 0 = Some MsgReadBlock) as -> by done.
  cbn [checked mbind outcome_bind]. rewrite bool_decide_false, bool_decide_false, bool_decide_true by done.
  unfold handleMsgPReadBlock.
  assert (rd (message_bytes (MReadBlock sn base sz x) ++ rest) 4 = Some sz) as ->.
  { change (Some (u8 sz) = Some sz). by rewrite u8_id by (unw; lia). }
  assert (rd (message_bytes (MReadBlock sn base sz x) ++ rest) 1 = Some (u8 sn)) as -> by done.
  assert (rd16 (message_bytes (MReadBlock sn base sz x) ++ rest) 2 = Some (u16 base)) as ->.
  { apply (rd16_le2 [MsgReadBlock; u8 sn] ([u8 sz; u8 x] ++ rest)); [apply u16_range|done]. }
  cbn [checked mbind outcome_bind]. fold size. do 2 f_equal. unfold answer_header, setParameters.
  cbn [bh_sequenceNumber bh_errCount bh_reserved]. rewrite (u8_id size), (u16_id (u16 base)) by (apply u16_range || (unw; lia)).
  unfold sizeof_TMsgParameterBlockHeader, sizeof_TMsgAppTypeHeader. rewrite u16_id by (unw; lia). do 2 f_equal. lia.
Qed.

(** The sent structure is the message. *)
Lemma block_bytes sn base size values tail (d : Device) :
  0 <= size < 256 -> Z.of_nat (length values) = size ->
  let block := block_header_bytes (answer_header sn base size d) ++ block_data_bytes (values ++ tail) in
  let m := block_message sn base size values d in
  block = message_header m ++ drop 6 block /\ drop 6 block = message_body m ++ block_data_bytes tail /\
  Z.of_nat (length (message_bytes m)) = 12 + 4 * size /\ message_ok m.
Proof.
  intros Hs Hl block m. subst m. unfold block_message.
  assert (Z.of_nat (length (le2 (u16 base) ++ [u8 size; u8 (bh_errCount (dv_blockHeader d))] ++
     le2 (bh_reserved (dv_blockHeader d)) ++ block_data_bytes values)) = 6 + 4 * size) as Hlen.
  { rewrite !length_app, block_data_bytes_length. cbn [length]. change (length (le2 _)) with 2%nat. 
    change (length (le2 _)) with 2%nat. lia. }
  split_and!.
  - subst block. unfold block_header_bytes, message_header, message_id, answer_header. rewrite Hlen.
    cbn [bh_sequenceNumber bh_dataSize bh_base bh_size bh_errCount bh_reserved].
    replace (size * 4 + 6) with (6 + 4 * size) by lia. rewrite !u8_id by (apply u8_range || (unw; lia)). done.
  - subst block. unfold block_header_bytes, answer_header, message_body.
    cbn [bh_sequenceNumber bh_dataSize bh_base bh_size bh_errCount bh_reserved].
    rewrite block_data_bytes_app, <-!app_assoc. done.
  - rewrite message_bytes_length. cbn [message_body]. rewrite Hlen.
    change (length (message_header _)) with 6%nat. lia.
  - split; cbn [message_body]; [|lia].
    apply Forall_app_2; [apply le2_bytes|]. apply Forall_app_2; [repeat constructor; apply u8_range|].
    apply Forall_app_2; [apply le2_bytes|apply block_data_bytes_bytes].
Qed.

(** C13: A request for a block of at most 48 registers.  The answer is one
    message [MsgApp_RegBlock] with the first register, the number of registers
    and a value for each: the register if it can be read, and otherwise what
    the place of the array held, that is, a value of an earlier block.  The
    count of errors is never set.  The registers wrap around after 0xFFFF. *)
Theorem read_block_answer (sn base sz x dest src : Z) (rest : list Z) (d : Device) :
  0 <= sz <= 48 -> length (dv_blockData d) = 48%nat -> host_txInv d ->
  Z.of_nat (length (host_contents d)) + 12 + 4 * sz <= host_max d ->
  let values := block_values (u16 base) 0 (take (Z.to_nat sz) (dv_blockData d)) d in
  exists d', RxMessageHandler_HiIO (message_bytes (MReadBlock sn base sz x) ++ rest) dest src d = Ret d' /\
    host_contents d' = host_contents d ++ message_bytes (block_message sn base sz values d) /\
    dv_blockData d' = values ++ drop (Z.to_nat sz) (dv_blockData d) /\
    bh_errCount (dv_blockHeader d') = bh_errCount (dv_blockHeader d) /\
    dv_params d' = dv_params d /\ host_txInv d'.
Proof.
  intros Hsz Hlen Hinv Hfit values. rewrite handle_block by lia.
  rewrite (bool_decide_false (sz > max_block)) by (change max_block with 61; lia). cbn zeta.
  set (d0 := dv_set_block (answer_header sn base sz d) (dv_blockData d) d).
  assert (Z.to_nat sz = length (take (Z.to_nat sz) (dv_blockData d))) as Hn by (rewrite length_take; lia).
  assert (read_block (Z.to_nat sz) 0 (u16 base) d0 =
    Ret (dv_set_block (answer_header sn base sz d) (values ++ drop (Z.to_nat sz) (dv_blockData d)) d)) as ->.
  { rewrite Hn at 1. change 0 with (Z.of_nat (length (@nil Z))).
    rewrite (read_block_ok (take (Z.to_nat sz) (dv_blockData d)) [] (drop (Z.to_nat sz) (dv_blockData d))).
    - subst d0. rewrite block_values_set. done.
    - cbn. by rewrite take_drop.
    - cbn. rewrite Hlen. lia. }
  cbn [mbind outcome_bind dv_blockHeader dv_blockData dv_set_block].
  assert (Z.of_nat (length values) = sz) as Hv by (subst values; rewrite block_values_length, <-Hn; lia).
  destruct (block_bytes sn base sz values (drop (Z.to_nat sz) (dv_blockData d)) d) as (Hb & Hb2 & Hml & Hok); [lia|done|].
  set (block := block_header_bytes _ ++ _) in *. set (m := block_message sn base sz values d) in *.
  match goal with |- exists d', dv_addMessage block (drop 6 block) ?X = _ /\ _ =>
    assert (dv_addMessage block (drop 6 block) X =
      dv_addMessage (message_header m ++ drop 6 block) (message_body m ++ block_data_bytes (drop (Z.to_nat sz) (dv_blockData d))) X)
      as -> by (f_equal; [exact Hb|exact Hb2]) end.
  destruct (dv_addMessage_fits m (drop 6 block) (block_data_bytes (drop (Z.to_nat sz) (dv_blockData d)))
    (dv_set_block (answer_header sn base sz d) (values ++ drop (Z.to_nat sz) (dv_blockData d)) d)) as (d' & Ha & Hk & Hp & Hi & Hc);
    [exact Hinv|done|rewrite Hml; exact (ltac:(lia) : Z.of_nat (length (host_contents d)) + (12 + 4 * sz) <= host_max d)|].
  exists d'. split; [exact Ha|]. unfold kept in Hk. split_and!; [exact Hc|by injection Hk| |exact Hp|exact Hi].
  injection Hk as _ _ _ _ _ _ _ _ _ _ _ _ _ Hh _. by rewrite Hh.
Qed.

(** A message whose data block is longer than the memory it is taken from. *)
Lemma addMessage_overread msg data s dataSize :
  tx_inv s -> rd msg 0 = Some MsgAppType -> rd16 msg 4 = Some dataSize -> (6 <= length msg)%nat ->
  Z.of_nat (length data) < dataSize <= 65529 -> l3_txIndex s + 6 + dataSize <= l3_maxTxAppSize s ->
  addMessage msg data s = Fault.
Proof.
  intros Hinv H0 H4 Hl Hd Hfit. unfold addMessage. rewrite H0. cbn [checked mbind outcome_bind].
  rewrite bool_decide_true by done. unfold off_app_dataSize. rewrite H4. cbn [checked mbind outcome_bind].
  unfold sizeof_TMsgAppTypeHeader. rewrite (u16_id (6 + dataSize)) by (unw; lia).
  rewrite getTxBufferFree_eq, bool_decide_false by (done || lia).
  rewrite (slice_ok msg 0 6) by lia. cbn [checked mbind outcome_bind].
  destruct (tx_append_ok (take (Z.to_nat 6) (drop (Z.to_nat 0) msg)) s) as (p & -> & _); [done| |].
  { rewrite length_take, length_drop. change (Z.to_nat 6) with 6%nat. change (Z.to_nat 0) with 0%nat. lia. }
  cbn [mbind outcome_bind]. rewrite bool_decide_true by lia. unfold slice. rewrite bool_decide_false by lia. done.
Qed.

(** A request for a block of more than 48 registers.  The limit that
    is applied (a quarter of the packet payload, 61) is larger than the array
    [msgParameterBlock.data]: whenever the outgoing packet has room for the
    answer, which it always has on the application link after a restart, such
    a request reads or writes past the end of the structure. *)
Theorem read_block_overflow (sn base sz x dest src : Z) (rest : list Z) (d : Device) :
  48 < sz < 256 -> length (dv_blockData d) = 48%nat -> host_txInv d ->
  Z.of_nat (length (host_contents d)) + 12 + 4 * Z.min sz 61 <= host_max d ->
  RxMessageHandler_HiIO (message_bytes (MReadBlock sn base sz x) ++ rest) dest src d = Fault.
Proof.
  intros Hsz Hlen Hinv Hfit. rewrite handle_block by lia. cbn zeta.
  set (size := if bool_decide (sz > max_block) then max_block else sz).
  assert (size = Z.min sz 61) as Hs by (subst size; change max_block with 61; case_bool_decide; lia). clearbody size.
  destruct (read_block_any (Z.to_nat size) 0 (u16 base) (dv_set_block (answer_header sn base size d) (dv_blockData d) d))
    as [->|(l & Hl & ->)]; [cbn; lia|done|done|].
  cbn [mbind outcome_bind dv_blockHeader dv_blockData dv_set_block]. cbn in Hl. rewrite Hlen in Hl.
  unfold dv_addMessage, hi_addMessage, inst_addMessage.
  set (block := block_header_bytes (answer_header sn base size d) ++ block_data_bytes l).
  assert (length block = 204)%nat as Hbl.
  { subst block. rewrite length_app, block_data_bytes_length, Hl. done. }
  unfold host_contents in Hfit. rewrite tx_contents_length in Hfit by done. rewrite <-Hs in Hfit.
  cbn [dv_hi].
  rewrite (addMessage_overread block (drop 6 block) _ (size * 4 + 6)); [done|exact Hinv|done| | | |].
  - subst block. unfold block_header_bytes. rewrite <-!app_assoc. cbn [app].
    apply (rd16_le2 [_; _; _; _]); [unw; cbn; lia|done].
  - lia.
  - rewrite length_drop, Hbl. lia.
  - revert Hfit. unfold host_max, host_inst. cbn [dv_hi dv_set_block]. lia.
Qed.

(** *** Requests for measured data *)

(** A request for a data block, on the application link.  While the
    count of full buffers is zero - and it is never increased - the host is
    told that there is no data, whatever the buffers hold: the messages
    collected so far and the message [MsgApp_DataAbsence] with the sequence
    number of the request go out at once as one block, the outgoing packet is
    empty, and the buffers are not touched. *)
Lemma request_data_absence (sn dest src : Z) (data rest : list Z) (d : Device) (f : list Z -> L -> L * Z) :
  bc_nFull (dv_buffers d) = 0 -> host_txInv d ->
  pi_class (host d) = TProtocolInstance_AppPackets -> pi_linkID (host d) = LINK_ID_1 ->
  pi_processTxAppData (host d) = Some f ->
  Z.of_nat (length (host_contents d)) + 6 <= host_max d ->
  exists d', RxMessageHandler_HiIO (message_bytes (MAppType sn MsgApp_RequestData data) ++ rest) dest src d = Ret d' /\
    pi_link (host d') = (f (host_contents d ++ message_bytes (MAppType (u8 sn) MsgApp_DataAbsence [])) (pi_link (host d))).1 /\
    host_contents d' = [] /\ host_txInv d' /\ dv_buffers d' = dv_buffers d /\ dv_params d' = dv_params d.
Proof.
  intros Hn Hinv Hcl Hl Hf Hfit. set (mem := message_bytes _ ++ rest).
  unfold RxMessageHandler_HiIO. assert (rd mem 0 = Some MsgAppType) as -> by done. cbn [checked mbind outcome_bind].
  do 3 rewrite bool_decide_false by done. rewrite bool_decide_true by done. unfold extMsgAppTypeHandler.
  assert (rd16 mem 2 = Some MsgApp_RequestData) as -> by done. assert (rd mem 1 = Some (u8 sn)) as -> by done.
  cbn [checked mbind outcome_bind]. rewrite bool_decide_true by done.
  unfold getDataReadyInfo, getFullBuffers. rewrite Hn. rewrite (bool_decide_false (0 > 0)), bool_decide_true by done.
  set (m := MAppType (u8 sn) MsgApp_DataAbsence []).
  destruct (dv_addMessage_fits m [] [] d Hinv) as (d1 & Ha & Hk & Hp & Hi & Hc); [split; [constructor|cbn; lia]|exact Hfit|].
  rewrite !app_nil_r in Ha. change (message_body m) with (@nil Z) in Ha. rewrite Ha. cbn [mbind outcome_bind].
  assert (host_max d1 = host_max d) as Hmx by (unfold kept in Hk; unfold host_max; congruence).
  unfold kept in Hk. injection Hk as Kcl Kid Kf Klink Knum Ksrc Kmax Kl2 Kty Kgf Kb Kpo Km Kh Kdt.
  pose proof (tx_contents_length _ Hi) as Hlen1. fold (host_contents d1) in Hlen1. rewrite Hc in Hlen1.
  assert (l3_txIndex (pi_layer3 (host d1)) <> 0) as Hidx.
  { rewrite length_app in Hlen1. pose proof (message_bytes_min m). lia. }
  unfold hi_sendPacket, sendPacket, sendPacket_app. fold (host d1). unfold host_inst in *.
  rewrite Kcl, Hcl, Kid, Hl, Kf, Hf. rewrite (bool_decide_false (LINK_ID_1 = LINK_ID_0)) by done.
  unfold inst_getTxDataSize, getTxDataSize. rewrite bool_decide_true by exact Hidx.
  pose proof Hi as [Hi1 Hi2 Hi3]. unfold off_data, host_inst in *. rewrite slice_ok by lia. cbn [checked mbind outcome_bind].
  change (take _ _) with (host_contents d1). rewrite Hc, Klink.
  destruct (f _ _) as [l rc]. cbn [mbind outcome_bind fst]. eexists. split; [done|].
  split_and!; [done|done| |exact Kb|exact Hp].
  unfold host_txInv, host_inst. cbn. constructor; cbn; unfold off_data; [unw; lia|done|done].
Qed.

(** C12: The blocks of the slaves do not reach the host.  Whatever blocks have
    been written to the store since it was set up, and whatever has been taken
    from it and acknowledged, a request of the host for data is answered at once
    with [MsgApp_DataAbsence]: the answer goes out as one block behind the
    messages collected before, under the sequence number of the request; the
    outgoing packet is then empty, and the blocks stay in their buffers. *)
Theorem stored_never_served (os : list db_op) (c : Container) (h h' : HiIO L) (sn dest src : Z) (data rest : list Z) (d : Device)
    (f : list Z -> L -> L * Z) :
  bc_nFull c = 0 -> db_run os (c, h) = Ret (dv_buffers d, h') -> host_txInv d ->
  pi_class (host d) = TProtocolInstance_AppPackets -> pi_linkID (host d) = LINK_ID_1 ->
  pi_processTxAppData (host d) = Some f ->
  Z.of_nat (length (host_contents d)) + 6 <= host_max d ->
  exists d', RxMessageHandler_HiIO (message_bytes (MAppType sn MsgApp_RequestData data) ++ rest) dest src d = Ret d' /\
    pi_link (host d') = (f (host_contents d ++ message_bytes (MAppType (u8 sn) MsgApp_DataAbsence [])) (pi_link (host d))).1 /\
    host_contents d' = [] /\ host_txInv d' /\ dv_buffers d' = dv_buffers d /\ dv_params d' = dv_params d.
Proof.
  intros H0 Hrun Hi Hc Hl Hf Hfit. apply request_data_absence; try done. by apply (db_run_nFull os c _ h h').
Qed.

(** ** Messages of the slaves *)








End Device.
Arguments Device L : clear implicits.

(** ** Witnesses *)

#[local] Existing Instance demo_link.

(** A device whose blocks for the host are recorded. *)
Definition demo_app_hi : HiIO (list (list Z)) :=
  mkHiIO (mkInst TProtocolInstance_AppPackets l2_initial
    (mkLayer3 (replicate 1536 0) 0 [] 0 0 1472) 5 0 255 3 3 LINK_ID_1 (Some (fun d l => (l ++ [d], 1))) [])
    kProtocolApp None.

Definition demo_device : Device (list (list Z)) :=
  mkDevice demo_app_hi (mkRegisters 0 0) demo_empty demo_poll
    (TMasterTx_new 1 demo_inst demo_queue TIMEOUT_SLAVE_ANSWER_LOC TIMEOUT_END_PACKET_LOC 0)
    (mkBlockHeader 0 0 0 0 0 0) (replicate 48 7).

Definition demo_requests : list message :=
  [MParameterWrite 1 14 0xABCD; MParameterRead 2 14; MParameterWrite 3 8 5; MParameterRead 4 0].

Lemma demo_device_inv : hi_inv (dv_hi demo_device).
Proof. constructor; [done|]. by apply (bool_decide_unpack _). Qed.

Lemma demo_device_tx : host_txInv demo_device.
Proof. constructor; by apply (bool_decide_unpack _). Qed.

Lemma host_requests_answered_witness :
  exists d', dev_processInputAppData 100 0 false (messages_bytes demo_requests ++ [1; 2]) 24 9 3 demo_device = Ret (d', 4) /\
    dv_params d' = mkRegisters 0xABCD 0 /\
    pi_link (hi_inst (dv_hi d')) =
      [messages_bytes [MParameterValue 1 14 0xABCD 0 0; MParameterValue 2 14 0xABCD 0 0;
                       MParameterValue 3 8 5 (-1) 0; MParameterValue 4 0 2501 0 0]].
Proof.
  destruct (host_requests_answered 100 0 false demo_requests [1; 2] 9 3 demo_device (fun d l => (l ++ [d], 1)))
    as (d' & H1 & H2 & H3 & _).
  - exact demo_device_inv.
  - done.
  - done.
  - repeat constructor.
  - by apply (bool_decide_unpack _).
  - by apply (bool_decide_unpack _).
  - exists d'. split; [exact H1|]. split; [exact H2|].
    change (hi_inst (dv_hi d')) with (host_inst dv_hi d'). rewrite H3. by vm_compute.
Defined.

Lemma read_block_answer_witness :
  exists d', RxMessageHandler_HiIO 100 0 false (message_bytes (MReadBlock 5 3 3 0) ++ []) 9 3 demo_device = Ret d' /\
    host_contents d' = message_bytes (MAppType 5 MsgApp_RegBlock
      ([3; 0; 3; 0; 0; 0] ++ le4 9 ++ le4 115200 ++ le4 7)).
Proof.
  destruct (read_block_answer 100 0 false 5 3 3 0 9 3 [] demo_device) as (d' & H1 & H2 & _).
  - lia.
  - done.
  - exact demo_device_tx.
  - by apply (bool_decide_unpack _).
  - exists d'. split; [exact H1|]. rewrite H2. by vm_compute.
Defined.

Lemma read_block_overflow_witness :
  RxMessageHandler_HiIO 100 0 false (message_bytes (MReadBlock 5 0 49 0) ++ []) 9 3 demo_device = Fault.
Proof.
  apply (read_block_overflow 100 0 false 5 0 49 0 9 3 [] demo_device).
  - lia.
  - done.
  - exact demo_device_tx.
  - by apply (bool_decide_unpack _).
Defined.

(** A block is written; it waits in its buffer, and the request that follows is
    refused. *)
Lemma stored_never_served_witness :
  exists c d', db_run [OpWriteBuffer (block_memory 5 1 77 (replicate 12 9) []) kDataId] (demo_empty, demo_app_hi) = Ret (c, demo_app_hi) /\
    bc_nFree c = 2 /\
    RxMessageHandler_HiIO 100 0 false (message_bytes (MAppType 6 MsgApp_RequestData []) ++ []) 9 3 (dv_set_buffers c demo_device) = Ret d' /\
    pi_link (hi_inst (dv_hi d')) = [[0x80; 6; 0x12; 0; 0; 0]] /\ bc_nFree (dv_buffers d') = 2.
Proof.
  assert (exists c, db_run [OpWriteBuffer (block_memory 5 1 77 (replicate 12 9) []) kDataId] (demo_empty, demo_app_hi) = Ret (c, demo_app_hi) /\
    bc_nFree c = 2) as (c & Hr & Hn) by (eexists; split; [vm_compute; reflexivity|done]).
  destruct (stored_never_served 100 0 false _ demo_empty demo_app_hi demo_app_hi 6 9 3 [] [] (dv_set_buffers c demo_device)
    (fun d l => (l ++ [d], 1)) eq_refl Hr) as (d' & H1 & H2 & _ & _ & H3 & _).
  - exact demo_device_tx.
  - done.
  - done.
  - done.
  - by apply (bool_decide_unpack _).
  - exists c, d'. split; [exact Hr|]. split; [exact Hn|]. split; [exact H1|]. split; [|by rewrite H3].
    change (hi_inst (dv_hi d')) with (host_inst dv_hi d'). rewrite H2. by vm_compute.
Defined.

