(* ===== verification/UdpIo.v ===== *)
(** * UDP exchange ([src/udp_io/udp_io.cpp], [udp_io_if.cpp], [inc/udp_io/*.h])

    Received blocks wait in a queue with the buffer of the network stack they
    are in; blocks to be sent are copied to buffers of a pool and wait in
    another queue.  The network stack below (the UDP interface of lwIP) is the
    class [UdpStack]. *)

From stdpp Require Import gmap.
From S2P Require Import Prelude Ring TQueue BuffersPool.

Definition UDP_DATA_MAX_SZ : Z := 1440.
Definition UDP_RX_Q_SIZE : Z := 4.
Definition UDP_TX_Q_SIZE : Z := 4.
Definition UDP_BUFFERS_N : Z := UDP_TX_Q_SIZE.
Definition kRcOk : Z := 0.
Definition kRcNetErr : Z := -1.
Definition kRcAllocErr : Z := -2.
Definition kRcNoConnection : Z := -3.
Definition kRcTxQueueFull : Z := -4.
Definition kRcTxBufferFull : Z := -5.

(** The functions of the stack that are called; control blocks and packet
    buffers are named by their addresses.  [udp_send] is given the contents of
    the packet buffer. *)
Class UdpStack (N : Type) := {
  pbuf_alloc : Z -> N -> N * option Z;
  pbuf_free : Z -> N -> N;
  udp_new : N -> N * option Z;
  udp_remove : Z -> N -> N;
  udp_bind : Z -> Z -> N -> N * Z;
  udp_connect : Z -> Z -> Z -> N -> N * Z;
  udp_disconnect : Z -> N -> N;
  udp_recv : Z -> Z -> N -> N;
  udp_send : Z -> Z -> list Z -> N -> N * Z;
}.

Definition ERR_OK : Z := 0.

(** The two callbacks given to [udp_recv]. *)
Definition receive_callback : Z := 1.
Definition receive_callback2 : Z := 2.

Record UdpData := mkUdpData {
  ud_buffer : Z;            (* uint8_t * *)
  ud_size : Z;              (* uint16_t *)
  ud_ex : option Z;         (* the packet buffer, or null *)
}.

#[export] Instance UdpData_eq_dec : EqDecision UdpData.
Proof. solve_decision. Defined.

(** [udp_tx_data_t] *)
Record udp_tx_data_t := mkTxData {
  tx_upcb : option Z;
  tx_pbuffer : option Z;
  tx_raddr : Z;
  tx_connected : bool;
  tx_update : bool;
}.

Definition udp_tx_data_new : udp_tx_data_t := mkTxData None None 0 false false.

Section Udp.
Context {N : Type} `{UdpStack N}.

(** The variables of the module.  [u_mem]: the memory behind the addresses of
    the pool's buffers and of the received packets. *)
Record Udp := mkUdp {
  u_lport : Z;                  (* uint16_t *)
  u_rport : Z;                  (* uint16_t *)
  u_txData : udp_tx_data_t;
  u_inited : bool;
  u_txQueue : TQueue UdpData;
  u_rxQueue : TQueue UdpData;
  u_pool : TBuffersPool;
  u_mem : gmap Z (list Z);
  u_net : N;
}.

Definition u_set_txData t (u : Udp) : Udp :=
  mkUdp (u_lport u) (u_rport u) t (u_inited u) (u_txQueue u) (u_rxQueue u) (u_pool u) (u_mem u) (u_net u).
Definition u_set_net n (u : Udp) : Udp :=
  mkUdp (u_lport u) (u_rport u) (u_txData u) (u_inited u) (u_txQueue u) (u_rxQueue u) (u_pool u) (u_mem u) n.
Definition u_set_rxQueue q (u : Udp) : Udp :=
  mkUdp (u_lport u) (u_rport u) (u_txData u) (u_inited u) (u_txQueue u) q (u_pool u) (u_mem u) (u_net u).
Definition u_set_tx q p m (u : Udp) : Udp :=
  mkUdp (u_lport u) (u_rport u) (u_txData u) (u_inited u) q (u_rxQueue u) p m (u_net u).
Definition u_set_inited b (u : Udp) : Udp :=
  mkUdp (u_lport u) (u_rport u) (u_txData u) b (u_txQueue u) (u_rxQueue u) (u_pool u) (u_mem u) (u_net u).
Definition u_set_pool p (u : Udp) : Udp := u_set_tx (u_txQueue u) p (u_mem u) u.

Definition tx_set_upcb x (t : udp_tx_data_t) := mkTxData x (tx_pbuffer t) (tx_raddr t) (tx_connected t) (tx_update t).
Definition tx_set_pbuffer x (t : udp_tx_data_t) := mkTxData (tx_upcb t) x (tx_raddr t) (tx_connected t) (tx_update t).
Definition tx_set_conn c up (t : udp_tx_data_t) := mkTxData (tx_upcb t) (tx_pbuffer t) (tx_raddr t) c up.

(** [udp_receive_callback(arg, upcb, p, addr, port)]: [p], [payload] and
    [bytes] are the packet buffer, its [payload] and what it holds ([len]
    bytes). *)
Definition udp_receive_callback (p payload : Z) (bytes : list Z) (addr : Z) (u : Udp) : outcome Udp :=
  let t := u_txData u in
  let t := if bool_decide (tx_raddr t <> addr) || negb (tx_connected t)
           then mkTxData (tx_upcb t) (tx_pbuffer t) addr (tx_connected t) true else t in
  let u := u_set_txData t (u_set_tx (u_txQueue u) (u_pool u) (<[payload := bytes]> (u_mem u)) u) in
  q ← push (mkUdpData payload (u16 (Z.of_nat (length bytes))) (Some p)) (u_rxQueue u);
  Ret (u_set_rxQueue q u).

(** [init]: [addrs] are the addresses of the parts of [udpRAW_Buffer]. *)
Definition init (addrs : list Z) (alport arport : Z) (u : Udp) : Udp * Z :=
  let pool := mkPool addrs (pool_state (u_pool u)) (pool_freeN (u_pool u)) in
  let u := mkUdp alport arport (u_txData u) false (u_txQueue u) (u_rxQueue u) pool (u_mem u) (u_net u) in
  let '(n, pb) := pbuf_alloc UDP_DATA_MAX_SZ (u_net u) in
  let u := u_set_net n (u_set_txData (tx_set_pbuffer pb (u_txData u)) u) in
  match pb with
  | None => (u, kRcAllocErr)
  | Some pb =>
      let '(n, cb) := udp_new (u_net u) in
      let u := u_set_net n (u_set_txData (tx_set_upcb cb (u_txData u)) u) in
      match cb with
      | None => (u_set_net (pbuf_free pb (u_net u)) u, kRcAllocErr)
      | Some cb =>
          let '(n, l) := udp_new (u_net u) in
          let u := u_set_net n u in
          match l with
          | None => (u, kRcAllocErr)
          | Some l =>
              let '(n, rc) := udp_bind l alport (u_net u) in
              if bool_decide (rc = ERR_OK)
              then (u_set_inited true (u_set_net (udp_recv l receive_callback n) u), kRcOk)
              else (u_set_net (udp_remove cb (pbuf_free pb (udp_remove l n))) u, kRcNetErr)
          end
      end
  end.

(** The first part of [send]: a connection to the current address; [false]
    when it failed. *)
Definition reconnect (cb : Z) (u : Udp) : Udp * bool :=
  let t := u_txData u in
  if tx_update t then
    let u := if tx_connected t
             then u_set_txData (tx_set_conn false (tx_update t) t) (u_set_net (udp_disconnect cb (u_net u)) u) else u in
    let '(n, rc) := udp_connect cb (tx_raddr t) (u_rport u) (u_net u) in
    let u := u_set_net n u in
    if bool_decide (rc <> ERR_OK) then (u, false)
    else (u_set_txData (tx_set_conn true false (u_txData u)) (u_set_net (udp_recv cb receive_callback2 (u_net u)) u), true)
  else (u, true).

(** [send(data)]; the control block and the packet buffer are there once
    [init] has succeeded, using them otherwise is an access to a null
    pointer. *)
Definition send (data : UdpData) (u : Udp) : outcome (Udp * Z) :=
  if u_inited u then
    cb ← checked (tx_upcb (u_txData u));
    let '(u, ok) := reconnect cb u in
    if ok then
      if tx_connected (u_txData u) then
        pb ← checked (tx_pbuffer (u_txData u));
        m ← checked (u_mem u !! ud_buffer data);
        bytes ← checked (slice m 0 (ud_size data));
        let '(n, rc) := udp_send cb pb bytes (u_net u) in
        let u := u_set_net n u in
        if bool_decide (rc = ERR_OK) then Ret (u, ud_size data) else Ret (u, 0)
      else Ret (u, 0)
    else Ret (u, 0)
  else Ret (u, 0).

(** ** The interface ([udp_io_if.cpp]) *)

Definition getMaxAppDataSize : Z := UDP_DATA_MAX_SZ.

Definition udp_getTxFree (u : Udp) : Z := u32 ((UDP_TX_Q_SIZE - size (u_txQueue u)) * getMaxAppDataSize).

Definition addTxData (data : list Z) (sz : Z) (u : Udp) : outcome (Udp * Z) :=
  if full (u_txQueue u) then Ret (u, kRcTxQueueFull)
  else
    '(pool, b) ← get (u_pool u);
    let u := u_set_pool pool u in
    match b with
    | Some buffer =>
        let sz := if bool_decide (sz > getMaxAppDataSize) then getMaxAppDataSize else sz in
        m ← checked (u_mem u !! buffer);
        src ← checked (slice data 0 sz);
        m ← checked (blit m 0 src);
        q ← push (mkUdpData buffer sz None) (u_txQueue u);
        Ret (u_set_tx q (u_pool u) (<[buffer := m]> (u_mem u)) u, sz)
    | None => Ret (u, kRcTxBufferFull)
    end.

(** [processTxQueue(maxPasses)] *)
Fixpoint processTxQueue (maxPasses : nat) (u : Udp) : outcome Udp :=
  match maxPasses with
  | O => Ret u
  | S n =>
      if empty (u_txQueue u) then Ret u
      else
        r ← front (u_txQueue u);
        data ← checked r;
        '(u, k) ← send data u;
        u ← (if bool_decide (k > 0)
             then p ← release (ud_buffer data) (u_pool u); Ret (u_set_tx (pop (u_txQueue u)) p (u_mem u) u)
             else Ret u);
        processTxQueue n u
  end.

End Udp.
Arguments Udp N : clear implicits.

(** [processRxQueue(processRxData, maxPasses)], over the state around the
    module; the handler is given the memory of the block. *)
Section Rx.
Context {N St : Type} `{UdpStack N}.
Variable udp : St -> Udp N.
Variable upd_udp : Udp N -> St -> St.
Variable processRxData : UdpData -> list Z -> St -> outcome St.

Fixpoint processRxQueue (maxPasses : nat) (s : St) : outcome St :=
  match maxPasses with
  | O => Ret s
  | S n =>
      if empty (u_rxQueue (udp s)) then Ret s
      else
        r ← front (u_rxQueue (udp s));
        data ← checked r;
        m ← checked (u_mem (udp s) !! ud_buffer data);
        s ← processRxData data m s;
        let u := udp s in
        let u := match ud_ex data with Some p => u_set_net (pbuf_free p (u_net u)) u | None => u end in
        p ← release (ud_buffer data) (u_pool u);
        processRxQueue n (upd_udp (u_set_rxQueue (pop (u_rxQueue u)) (u_set_pool p u)) s)
  end.

End Rx.

(** ** The transmit side

    [l]: the blocks that wait, oldest first. *)

Section TxSpec.
Context {N : Type} `{UdpStack N}.

Definition block_of (u : Udp N) (d : UdpData) : list Z :=
  take (Z.to_nat (ud_size d)) (default [] (u_mem u !! ud_buffer d)).

Definition pending (u : Udp N) (l : list UdpData) : list (list Z) := map (block_of u) l.

Definition in_use (l : list UdpData) : list Z := map ud_buffer l.

(** The buffers in use are exactly those of the queue, no two blocks share
    one, and each has its part of the memory. *)
Record tx_rep (u : Udp N) (l : list UdpData) : Prop := {
  tr_queue : tq_rep (u_txQueue u) l;
  tr_capacity : tq_msgBufferSize (u_txQueue u) = UDP_TX_Q_SIZE;
  tr_pool : pool_inv (u_pool u);
  tr_size : length (pool_buffers (u_pool u)) = 4%nat;
  tr_nodup : NoDup (in_use l);
  tr_pool_in : Forall (fun b => b ∈ pool_buffers (u_pool u)) (in_use l);
  tr_free : forall b, b ∈ pool_buffers (u_pool u) -> is_free (u_pool u) b <-> b ∉ in_use l;
  tr_mem : forall b, b ∈ pool_buffers (u_pool u) -> exists m, u_mem u !! b = Some m /\ Z.of_nat (length m) = UDP_DATA_MAX_SZ;
  tr_sizes : Forall (fun d => 0 < ud_size d <= UDP_DATA_MAX_SZ) l;
}.

Lemma tx_rep_full u l : tx_rep u l -> full (u_txQueue u) = bool_decide (length l = 4%nat).
Proof.
  intros Hr. pose proof (tr_queue _ _ Hr) as [Hi Hc]. destruct (size_range _ Hi) as (Hsz & _ & Hf).
  pose proof (tq_contents_length _ Hi) as Hl. rewrite Hc in Hl. rewrite (tr_capacity _ _ Hr) in *. unfold UDP_TX_Q_SIZE in *.
  unfold full. case_bool_decide.
  - apply Hf. lia.
  - destruct (tq_isFull (u_txQueue u)); [|done]. destruct Hf as [Hf _]. specialize (Hf eq_refl). lia.
Qed.

(** While the queue has room there is a free buffer. *)
Lemma free_buffer u l : tx_rep u l -> (length l < 4)%nat -> exists b, is_free (u_pool u) b.
Proof.
  intros Hr Hl. destruct (decide (Exists (fun b => b ∉ in_use l) (pool_buffers (u_pool u)))) as [He|Hn].
  - apply Exists_exists in He as (b & Hb & Hu). exists b. by apply (tr_free _ _ Hr).
  - exfalso. apply not_Exists_Forall in Hn; [|apply _]. rewrite Forall_forall in Hn.
    assert (pool_buffers (u_pool u) ⊆+ in_use l) as Hsub.
    { apply NoDup_submseteq; [apply (tr_pool _ _ Hr)|]. intros b Hb. specialize (Hn b Hb).
      destruct (decide (b ∈ in_use l)); [done|by destruct Hn]. }
    apply submseteq_length in Hsub. unfold in_use in Hsub. rewrite length_map, (tr_size _ _ Hr) in Hsub. lia.
Qed.

Lemma is_free_in p b : is_free p b -> b ∈ pool_buffers p.
Proof. intros (i & Hi & _). by eapply list_elem_of_lookup_2. Qed.

Lemma block_of_set_ne u d b m q p :
  ud_buffer d <> b -> block_of (u_set_tx q p (<[b := m]> (u_mem u)) u) d = block_of u d.
Proof. intros Hne. unfold block_of. cbn. by rewrite lookup_insert_ne. Qed.

Lemma pending_set u l b m q p :
  b ∉ in_use l -> pending (u_set_tx q p (<[b := m]> (u_mem u)) u) l = pending u l.
Proof.
  intros Hb. unfold pending. apply map_ext_in. intros d Hd. apply block_of_set_ne.
  intros E. apply Hb. rewrite <-E. apply list_elem_of_In, in_map, Hd.
Qed.

(** The unchanged rest. *)
Definition same_side (u u' : Udp N) : Prop :=
  u_txData u' = u_txData u /\ u_inited u' = u_inited u /\ u_rxQueue u' = u_rxQueue u /\ u_net u' = u_net u /\
  u_rport u' = u_rport u /\ pool_buffers (u_pool u') = pool_buffers (u_pool u) /\
  (forall b, b ∉ pool_buffers (u_pool u) -> u_mem u' !! b = u_mem u !! b).

Lemma addTxData_full u l data sz :
  tx_rep u l -> length l = 4%nat -> addTxData data sz u = Ret (u, kRcTxQueueFull).
Proof. intros Hr Hl. unfold addTxData. by rewrite (tx_rep_full u l), bool_decide_true. Qed.

Lemma addTxData_room u l data sz :
  tx_rep u l -> (length l < 4)%nat -> 0 < sz <= Z.of_nat (length data) ->
  let k := Z.min sz UDP_DATA_MAX_SZ in
  exists u' d, addTxData data sz u = Ret (u', k) /\ tx_rep u' (l ++ [d]) /\ same_side u u' /\
    pending u' (l ++ [d]) = pending u l ++ [take (Z.to_nat k) data].
Proof.
  intros Hr Hl Hsz k. pose proof (tx_rep_full u l Hr) as Hfull. rewrite bool_decide_false in Hfull by lia.
  unfold addTxData. rewrite Hfull.
  destruct (get_complete (u_pool u) (tr_pool _ _ Hr)) as (p & r & -> & Hpi & Hpb & Hget). cbn [mbind outcome_bind].
  destruct r as [b|].
  2: { destruct (free_buffer u l Hr Hl) as (b & Hb). by destruct Hget as [Hn _]; destruct (Hn b). }
  destruct Hget as (Hfree & Hbusy & Hother). pose proof (is_free_in _ _ Hfree) as Hbin.
  assert (b ∉ in_use l) as Hnew by (by apply (tr_free _ _ Hr)).
  destruct (tr_mem _ _ Hr b Hbin) as (m & Hm & Hml).
  assert ((if bool_decide (sz > getMaxAppDataSize) then getMaxAppDataSize else sz) = k) as ->.
  { subst k. unfold getMaxAppDataSize. case_bool_decide; lia. }
  unfold UDP_DATA_MAX_SZ in *. cbn [u_mem u_set_pool u_set_tx]. rewrite Hm. cbn [checked mbind outcome_bind].
  rewrite slice_ok by lia. cbn [checked mbind outcome_bind]. change (drop (Z.to_nat 0) data) with data.
  set (src := take (Z.to_nat k) data).
  assert (length src = Z.to_nat k) as Hsl by (subst src; rewrite length_take; lia).
  destruct (blit m 0 src) as [m'|] eqn:Hblit; [|unfold blit in Hblit; rewrite bool_decide_true in Hblit by lia; done].
  cbn [checked mbind outcome_bind]. pose proof (blit_length _ _ _ _ Hblit) as Hml'.
  destruct (push_rep (u_txQueue u) l (mkUdpData b k None) (tr_queue _ _ Hr) Hfull) as (q & Hq & Hqr & Hqs).
  cbn [u_txQueue u_set_pool u_set_tx]. rewrite Hq. cbn [mbind outcome_bind].
  eexists _, (mkUdpData b k None). split; [done|]. split; [|split].
  - pose proof Hr as [R1 R2 R3 R4 R5 R6 R7 R8 R9]. constructor; cbn; rewrite ?Hpb.
    + exact Hqr.
    + by rewrite Hqs.
    + done.
    + done.
    + unfold in_use. rewrite map_app. cbn. apply NoDup_app. split_and!; [done| |apply NoDup_singleton].
      intros x Hx Hx'%list_elem_of_singleton. by subst x.
    + unfold in_use. rewrite map_app. apply Forall_app. split; [done|]. by constructor.
    + intros b' Hb'. unfold in_use. rewrite map_app, not_elem_of_app. cbn. rewrite not_elem_of_cons.
      destruct (decide (b' = b)) as [->|Hne].
      * split; [done|naive_solver].
      * rewrite (Hother b' Hne), (R7 b' Hb'). pose proof (not_elem_of_nil b'). naive_solver.
    + intros b' Hb'. destruct (decide (b' = b)) as [->|Hne].
      * exists m'. rewrite lookup_insert_eq. split; [done|]. unfold UDP_DATA_MAX_SZ. lia.
      * rewrite lookup_insert_ne by done. by apply R8.
    + apply Forall_app. split; [done|]. constructor; [|done]. cbn. unfold UDP_DATA_MAX_SZ. lia.
  - split_and!; try done. intros b' Hb'. cbn. rewrite lookup_insert_ne; [done|]. intros ->. done.
  - unfold pending. rewrite map_app. f_equal.
    + change (u_set_tx q _ _ _) with (u_set_tx q p (<[b := m']> (u_mem u)) u). by apply (pending_set u l).
    + cbn. unfold block_of. cbn. rewrite lookup_insert_eq. cbn. f_equal.
      unfold blit in Hblit. rewrite bool_decide_true in Hblit by lia. injection Hblit as <-.
      cbn. rewrite take_app_le by lia.
      rewrite take_ge; [done|lia].
Qed.

End TxSpec.

(** What the stack promises: a block is on the wire, after those before it,
    exactly when [udp_send] answers [ERR_OK]; the other functions send
    nothing. *)
Class UdpLog (N : Type) `{UdpStack N} := {
  sent : N -> list (list Z);
  sent_udp_send : forall cb pb b n,
    sent (udp_send cb pb b n).1 = if bool_decide ((udp_send cb pb b n).2 = ERR_OK) then sent n ++ [b] else sent n;
  sent_udp_connect : forall cb a port n, sent (udp_connect cb a port n).1 = sent n;
  sent_udp_disconnect : forall cb n, sent (udp_disconnect cb n) = sent n;
  sent_udp_recv : forall cb f n, sent (udp_recv cb f n) = sent n;
  sent_pbuf_free : forall p n, sent (pbuf_free p n) = sent n;
}.

Section TxFifo.
Context {N : Type} `{UdpLog N}.

(** [init] has succeeded. *)
Definition ready (u : Udp N) : Prop :=
  u_inited u = true /\ is_Some (tx_upcb (u_txData u)) /\ is_Some (tx_pbuffer (u_txData u)).

(** What [send] does not touch. *)
Definition same_tx (u u' : Udp N) : Prop :=
  u_txQueue u' = u_txQueue u /\ u_pool u' = u_pool u /\ u_mem u' = u_mem u /\ u_rxQueue u' = u_rxQueue u /\
  u_inited u' = u_inited u /\ tx_upcb (u_txData u') = tx_upcb (u_txData u) /\
  tx_pbuffer (u_txData u') = tx_pbuffer (u_txData u).

Lemma same_tx_rep u u' l : same_tx u u' -> tx_rep u l -> tx_rep u' l.
Proof. intros (E1 & E2 & E3 & _) []. constructor; rewrite ?E1, ?E2, ?E3; done. Qed.

Lemma same_tx_pending u u' l : same_tx u u' -> pending u' l = pending u l.
Proof. intros (_ & _ & E3 & _). unfold pending, block_of. by rewrite E3. Qed.

Lemma same_tx_ready u u' : same_tx u u' -> ready u -> ready u'.
Proof. intros (_ & _ & _ & _ & E5 & E6 & E7) (R1 & R2 & R3). unfold ready. by rewrite E5, E6, E7. Qed.

Lemma same_tx_trans u1 u2 u3 : same_tx u1 u2 -> same_tx u2 u3 -> same_tx u1 u3.
Proof. unfold same_tx. intros (?&?&?&?&?&?&?) (?&?&?&?&?&?&?). split_and!; congruence. Qed.

Lemma reconnect_same cb u : same_tx u (reconnect cb u).1 /\ sent (u_net (reconnect cb u).1) = sent (u_net u).
Proof.
  unfold reconnect. destruct (tx_update (u_txData u)); [|done].
  set (u1 := if tx_connected (u_txData u) then _ else u).
  assert (same_tx u u1 /\ sent (u_net u1) = sent (u_net u)) as [Hs1 Hn1].
  { subst u1. destruct (tx_connected (u_txData u)); [|done]. split; [done|]. cbn. apply sent_udp_disconnect. }
  pose proof (sent_udp_connect cb (tx_raddr (u_txData u)) (u_rport u1) (u_net u1)) as Hc.
  destruct (udp_connect _ _ _ _) as [n rc]. cbn [fst] in Hc.
  case_bool_decide; cbn [fst]; (split; [eapply same_tx_trans; [exact Hs1|done]|]); cbn; rewrite ?sent_udp_recv; congruence.
Qed.

Lemma send_ok (u : Udp N) l d :
  tx_rep u l -> ready u -> d ∈ l ->
  exists u' k, send d u = Ret (u', k) /\ same_tx u u' /\
    (k = ud_size d /\ sent (u_net u') = sent (u_net u) ++ [block_of u d] \/ k = 0 /\ sent (u_net u') = sent (u_net u)).
Proof.
  intros Hr (R1 & [cb R2] & [pb R3]) Hd. unfold send. rewrite R1, R2. cbn [checked mbind outcome_bind].
  destruct (reconnect_same cb u) as [Hs Hn]. destruct (reconnect cb u) as [u1 ok]. cbn [fst] in Hs, Hn.
  destruct ok; [|exists u1, 0; eauto 10]. destruct (tx_connected (u_txData u1)); [|exists u1, 0; eauto 10].
  pose proof Hs as (_ & _ & Hm & _ & _ & _ & Hpb). rewrite Hpb, R3. cbn [checked mbind outcome_bind]. rewrite Hm.
  assert (ud_buffer d ∈ in_use l) as Hin by (apply list_elem_of_In, in_map, list_elem_of_In, Hd).
  pose proof (tr_pool_in _ _ Hr) as Hpool. rewrite Forall_forall in Hpool.
  destruct (tr_mem _ _ Hr _ (Hpool _ Hin)) as (m & Hmd & Hml). rewrite Hmd. cbn [checked mbind outcome_bind].
  pose proof (tr_sizes _ _ Hr) as Hsz. rewrite Forall_forall in Hsz. specialize (Hsz d Hd). cbn beta in Hsz.
  rewrite slice_ok by lia. cbn [checked mbind outcome_bind]. change (drop (Z.to_nat 0) m) with m.
  assert (take (Z.to_nat (ud_size d)) m = block_of u d) as -> by (unfold block_of; by rewrite Hmd).
  pose proof (sent_udp_send cb pb (block_of u d) (u_net u1)) as Hsend. destruct (udp_send _ _ _ _) as [n rc].
  cbn [fst snd] in Hsend. rewrite Hn in Hsend.
  case_bool_decide; (eexists _, _; split; [done|]; split; [eapply same_tx_trans; [exact Hs|done]|]); [left|right]; done.
Qed.

(** A block that was sent leaves the queue and its buffer is free again. *)
Lemma sent_popped (u : Udp N) d l :
  tx_rep u (d :: l) -> exists p, release (ud_buffer d) (u_pool u) = Ret p /\
    tx_rep (u_set_tx (pop (u_txQueue u)) p (u_mem u) u) l.
Proof.
  intros Hr. destruct (release_spec (u_pool u) (ud_buffer d) (tr_pool _ _ Hr)) as (p & Hp & Hpi & Hpb & _ & Hin).
  exists p. split; [exact Hp|]. pose proof Hr as [R1 R2 R3 R4 R5 R6 R7 R8 R9].
  destruct (pop_rep _ _ R1) as [Hq Hqs]. unfold in_use in R5, R6. cbn [map] in R5, R6.
  apply NoDup_cons in R5 as [Rd R5]. apply Forall_cons in R6 as [Rdb R6]. apply Forall_cons in R9 as [_ R9].
  destruct (Hin Rdb) as (Hfree & Hother & _).
  constructor; cbn; rewrite ?Hpb; try done.
  - by rewrite Hqs.
  - intros b Hb. destruct (decide (b = ud_buffer d)) as [->|Hne].
    + split; [done|]. intros _. exact Hfree.
    + rewrite (Hother b Hne), (R7 b Hb). unfold in_use. cbn [map]. rewrite not_elem_of_cons. naive_solver.
Qed.

Lemma processTxQueue_ok n (u : Udp N) l :
  tx_rep u l -> ready u ->
  exists u' l1 l2, processTxQueue n u = Ret u' /\ l = l1 ++ l2 /\ (length l1 <= n)%nat /\ tx_rep u' l2 /\ ready u' /\
    sent (u_net u') = sent (u_net u) ++ pending u l1 /\ pending u' l2 = pending u l2.
Proof.
  revert u l. induction n as [|n IH]; intros u l Hr Hrd; cbn [processTxQueue].
  { exists u, [], l. cbn. rewrite app_nil_r. auto 10. }
  pose proof (tr_queue _ _ Hr) as Hq. pose proof (front_rep _ _ Hq) as Hf.
  destruct l as [|d l].
  { assert (empty (u_txQueue u) = true) as ->.
    { destruct Hq as [Hi Hc]. destruct (size_range _ Hi) as (_ & He & _). pose proof (tq_contents_length _ Hi) as Hl.
      rewrite Hc in Hl. apply He. done. }
    exists u, [], []. cbn. rewrite app_nil_r. auto 10 with lia. }
  assert (empty (u_txQueue u) = false) as ->.
  { destruct Hq as [Hi Hc]. destruct (size_range _ Hi) as (_ & He & _). pose proof (tq_contents_length _ Hi) as Hl.
    rewrite Hc in Hl. unfold empty. destruct (tq_isEmpty (u_txQueue u)); [|done].
    destruct He as [He _]. rewrite (He eq_refl) in Hl. done. }
  rewrite Hf. cbn [head checked mbind outcome_bind].
  destruct (send_ok u (d :: l) d Hr Hrd) as (u1 & k & -> & Hs & Hk); [apply elem_of_cons; by left|]. cbn [mbind outcome_bind].
  pose proof (same_tx_rep _ _ _ Hs Hr) as Hr1. pose proof (same_tx_ready _ _ Hs Hrd) as Hrd1.
  pose proof (tr_sizes _ _ Hr) as Hsz. apply Forall_cons in Hsz as [Hdz _].
  destruct Hk as [[-> Hn]|[-> Hn]].
  - rewrite bool_decide_true by lia. destruct (sent_popped u1 d l Hr1) as (p & -> & Hr2). cbn [mbind outcome_bind].
    destruct (IH _ l Hr2 Hrd1) as (u' & l1 & l2 & -> & -> & Hl & Hr' & Hrd' & Hn' & Hp').
    exists u', (d :: l1), l2. split_and!; [done|done|cbn; lia|done|done| |].
    + rewrite Hn'. cbn [u_net u_set_tx]. rewrite Hn, <-app_assoc. cbn. do 2 f_equal.
      exact (same_tx_pending u u1 l1 Hs).
    + rewrite Hp'. exact (same_tx_pending u u1 l2 Hs).
  - rewrite bool_decide_false by lia. cbn [mbind outcome_bind].
    destruct (IH u1 (d :: l) Hr1 Hrd1) as (u' & l1 & l2 & -> & El & Hl & Hr' & Hrd' & Hn' & Hp').
    exists u', l1, l2. split_and!; [done|done|lia|done|done| |].
    + rewrite Hn', Hn. f_equal. exact (same_tx_pending u u1 l1 Hs).
    + rewrite Hp'. exact (same_tx_pending u u1 l2 Hs).
Qed.

(** *** Runs *)

Lemma take_block (data : list Z) :
  take (Z.to_nat (Z.min (Z.of_nat (length data)) UDP_DATA_MAX_SZ)) data = take 1440 data.
Proof.
  unfold UDP_DATA_MAX_SZ. destruct (decide (Z.of_nat (length data) <= 1440)); [rewrite !take_ge by lia; done|].
  f_equal. lia.
Qed.

Inductive tx_op := TxAdd (data : list Z) | TxProcess (maxPasses : nat).

(** The run, and the blocks that were accepted. *)
Fixpoint tx_run (os : list tx_op) (u : Udp N) : outcome (Udp N * list (list Z * Z)) :=
  match os with
  | [] => Ret (u, [])
  | TxAdd data :: os =>
      '(u, rc) ← addTxData data (Z.of_nat (length data)) u;
      '(u, rs) ← tx_run os u; Ret (u, (data, rc) :: rs)
  | TxProcess n :: os => u ← processTxQueue n u; tx_run os u
  end.

(** What the module is to do with the blocks it was given. *)
Definition accepted (rs : list (list Z * Z)) : list (list Z) :=
  map (fun x => take 1440 x.1) (filter (fun x => 0 < x.2) rs).

(** C8: The way of the blocks to the network.  Whatever blocks are added
    and however often the queue is processed, and however the stack behaves:
    nothing goes wrong; a block is refused only when four blocks wait (never
    for want of a buffer); and the blocks sent, followed by the blocks that
    wait, are the blocks accepted, in order, each exactly once and cut to 1440
    bytes.  The four buffers are never lost and never shared: those in use are
    those of the waiting blocks. *)
Theorem udp_tx_fifo (os : list tx_op) (u : Udp N) (l : list UdpData) :
  tx_rep u l -> ready u -> Forall (fun o => match o with TxAdd data => data <> [] | _ => True end) os ->
  exists u' l' rs, tx_run os u = Ret (u', rs) /\ tx_rep u' l' /\ ready u' /\
    sent (u_net u') ++ pending u' l' = sent (u_net u) ++ pending u l ++ accepted rs /\
    Forall (fun x => x.2 = Z.min (Z.of_nat (length x.1)) 1440 \/ x.2 = kRcTxQueueFull) rs.
Proof.
  intros Hr Hrd Hos. revert u l Hr Hrd. induction Hos as [|o os Ho _ IH]; intros u l Hr Hrd.
  { exists u, l, []. cbn. rewrite app_nil_r. auto 10. }
  destruct o as [data|n]; cbn [tx_run].
  - assert (0 < Z.of_nat (length data)) as Hpos by (destruct data; [done|simpl; lia]).
    destruct (decide (length l < 4)%nat) as [Hl|Hl].
    + destruct (addTxData_room u l data (Z.of_nat (length data)) Hr Hl) as (u1 & d & -> & Hr1 & Hs & Hp); [lia|].
      cbn [mbind outcome_bind]. pose proof Hs as (S1 & S2 & S3 & S4 & _).
      destruct (IH u1 (l ++ [d]) Hr1) as (u' & l' & rs & -> & Hr' & Hrd' & Hsent & Hrs).
      { unfold ready. by rewrite S1, S2. }
      cbn [mbind outcome_bind]. eexists u', l', _. split; [done|]. split_and!; [done|done| |].
      * rewrite Hsent, S4, Hp. unfold accepted. rewrite filter_cons_True by (cbn; unfold UDP_DATA_MAX_SZ; lia).
        rewrite take_block.
        cbn [map fst]. by rewrite <-!app_assoc.
      * constructor; [by left|done].
    + assert (length l = 4%nat) as Hl4.
      { pose proof (tr_queue _ _ Hr) as [Hi Hc]. destruct (size_range _ Hi) as (Hsz & _). pose proof (tq_contents_length _ Hi) as Hle.
        rewrite Hc in Hle. rewrite (tr_capacity _ _ Hr) in Hsz. unfold UDP_TX_Q_SIZE in Hsz. lia. }
      rewrite (addTxData_full u l) by done. cbn [mbind outcome_bind].
      destruct (IH u l Hr Hrd) as (u' & l' & rs & -> & Hr' & Hrd' & Hsent & Hrs). cbn [mbind outcome_bind].
      eexists u', l', _. split; [done|]. split_and!; [done|done| |].
      * rewrite Hsent. unfold accepted. by rewrite filter_cons_False by (cbn; unfold kRcTxQueueFull; lia).
      * constructor; [by right|done].
  - destruct (processTxQueue_ok n u l Hr Hrd) as (u1 & l1 & l2 & -> & -> & _ & Hr1 & Hrd1 & Hn & Hp). cbn [mbind outcome_bind].
    destruct (IH u1 l2 Hr1 Hrd1) as (u' & l' & rs & -> & Hr' & Hrd' & Hsent & Hrs).
    exists u', l', rs. split_and!; [done|done|done| |done].
    rewrite Hsent, Hn, Hp. unfold pending. rewrite map_app, <-!app_assoc. done.
Qed.

End TxFifo.

(** ** Where the blocks go

    A block that [udp_send] takes goes to the address and port the control
    block is connected to. *)
Class UdpPeers (N : Type) `{UdpLog N} := {
  sent_to : N -> list (Z * Z * list Z);
  peer : Z -> N -> Z * Z;
  sent_to_blocks : forall n, map snd (sent_to n) = sent n;
  sent_to_udp_send : forall cb pb b n, sent_to (udp_send cb pb b n).1 =
    if bool_decide ((udp_send cb pb b n).2 = ERR_OK) then sent_to n ++ [(peer cb n, b)] else sent_to n;
  sent_to_udp_connect : forall cb a port n, sent_to (udp_connect cb a port n).1 = sent_to n;
  sent_to_udp_disconnect : forall cb n, sent_to (udp_disconnect cb n) = sent_to n;
  sent_to_udp_recv : forall cb f n, sent_to (udp_recv cb f n) = sent_to n;
  sent_to_pbuf_free : forall p n, sent_to (pbuf_free p n) = sent_to n;
  peer_udp_connect : forall cb a port n, (udp_connect cb a port n).2 = ERR_OK -> peer cb (udp_connect cb a port n).1 = (a, port);
  peer_udp_recv : forall cb f c n, peer c (udp_recv cb f n) = peer c n;
  peer_udp_send : forall cb pb b c n, peer c (udp_send cb pb b n).1 = peer c n;
  peer_pbuf_free : forall p c n, peer c (pbuf_free p n) = peer c n;
}.

(** The stack takes what it is given. *)
Definition accepting (N : Type) `{UdpStack N} : Prop :=
  (forall cb a port n, (udp_connect cb a port n).2 = ERR_OK) /\ (forall cb pb b n, (udp_send cb pb b n).2 = ERR_OK).

Section TxPeers.
Context {N : Type} `{UdpPeers N}.

(** Where the module sends: to the address of the last sender, at the
    port it was given at the start. *)
Definition dest (u : Udp N) : Z * Z := (tx_raddr (u_txData u), u_rport u).

(** The control block is connected there, unless it is to be connected anew. *)
Definition pointed (u : Udp N) : Prop :=
  forall cb, tx_upcb (u_txData u) = Some cb -> tx_connected (u_txData u) = true -> tx_update (u_txData u) = false -> peer cb (u_net u) = dest u.

(** The next block is sent, unless the stack refuses. *)
Definition aimed (u : Udp N) : Prop := tx_update (u_txData u) = true \/ tx_connected (u_txData u) = true.

Lemma reconnect_peer cb u : tx_upcb (u_txData u) = Some cb -> pointed u ->
  sent_to (u_net (reconnect cb u).1) = sent_to (u_net u) /\ dest (reconnect cb u).1 = dest u /\ pointed (reconnect cb u).1 /\
  ((reconnect cb u).2 = true -> tx_connected (u_txData (reconnect cb u).1) = true -> peer cb (u_net (reconnect cb u).1) = dest u) /\
  (aimed u -> aimed (reconnect cb u).1 /\ (accepting N -> (reconnect cb u).2 = true /\ tx_connected (u_txData (reconnect cb u).1) = true)).
Proof.
  intros Hcb Hp. unfold reconnect. destruct (tx_update (u_txData u)) eqn:Hup.
  2: { cbn [fst snd]. split_and!; try done; [intros _ Hc; by apply Hp|]. unfold aimed. rewrite Hup. intros [?|Hc]; [done|]. split; [by right|done]. }
  set (u1 := if tx_connected (u_txData u) then _ else u).
  assert (sent_to (u_net u1) = sent_to (u_net u) /\ dest u1 = dest u /\ tx_upcb (u_txData u1) = Some cb /\ tx_update (u_txData u1) = true /\ u_rport u1 = u_rport u)
    as (S1 & D1 & C1 & P1 & R1).
  { subst u1. destruct (tx_connected (u_txData u)); [|done]. split_and!; try done. cbn. apply sent_to_udp_disconnect. }
  pose proof (sent_to_udp_connect cb (tx_raddr (u_txData u)) (u_rport u1) (u_net u1)) as Hs.
  pose proof (peer_udp_connect cb (tx_raddr (u_txData u)) (u_rport u1) (u_net u1)) as Hpeer.
  destruct (udp_connect _ _ _ (u_net u1)) as [n rc] eqn:E. cbn [fst snd] in Hs, Hpeer. rewrite R1 in *.
  case_bool_decide as Hrc; cbn [fst snd].
  - split_and!; try done.
    + cbn. congruence.
    + intros c _ _ Hu. cbn in Hu. congruence.
    + intros _. split; [left; exact P1|]. intros [Hacc _]. exfalso. apply Hrc. specialize (Hacc cb (tx_raddr (u_txData u)) (u_rport u) (u_net u1)). by rewrite E in Hacc.
  - specialize (Hpeer ltac:(destruct (decide (rc = ERR_OK)); [done|by destruct Hrc])).
    split_and!.
    + cbn. rewrite sent_to_udp_recv. congruence.
    + exact D1.
    + intros c Hc _ _. cbn in Hc |- *. rewrite peer_udp_recv. assert (c = cb) as -> by congruence. rewrite Hpeer. unfold dest in D1 |- *. cbn. by rewrite D1.
    + intros _ _. cbn. rewrite peer_udp_recv. exact Hpeer.
    + intros _. split; [by right|done].
Qed.

Lemma send_peer (u : Udp N) l d :
  tx_rep u l -> ready u -> d ∈ l -> pointed u ->
  exists u' k, send d u = Ret (u', k) /\ same_tx u u' /\ pointed u' /\ dest u' = dest u /\
    (k = ud_size d /\ sent_to (u_net u') = sent_to (u_net u) ++ [(dest u, block_of u d)] \/ k = 0 /\ sent_to (u_net u') = sent_to (u_net u)) /\
    (aimed u -> aimed u' /\ (accepting N -> k = ud_size d)).
Proof.
  intros Hr Hrd Hd Hpt. destruct (send_ok u l d Hr Hrd Hd) as (u' & k & Hsend & Hsame & _).
  exists u', k. split; [done|]. split; [done|]. destruct Hrd as (R1 & [cb R2] & [pb R3]). revert Hsend. unfold send. rewrite R1, R2. cbn [checked mbind outcome_bind].
  destruct (reconnect_peer cb u R2 Hpt) as (S1 & D1 & P1 & Q1 & A1). destruct (reconnect_same cb u) as [Hs _].
  destruct (reconnect cb u) as [u1 ok]. cbn [fst snd] in *.
  destruct ok; [|intros [= -> <-]; split_and!; auto; intros Ha; destruct (A1 Ha) as [? A2]; split; [done|intros Hacc; by destruct (A2 Hacc)]].
  destruct (tx_connected (u_txData u1)) eqn:Hco;
    [|intros [= -> <-]; split_and!; auto; intros Ha; destruct (A1 Ha) as [? A2]; split; [done|intros Hacc; by destruct (A2 Hacc)]].
  pose proof Hs as (_ & _ & Hm & _ & _ & _ & Hpb). rewrite Hpb, R3. cbn [checked mbind outcome_bind]. rewrite Hm.
  destruct (u_mem u !! ud_buffer d) as [m|] eqn:Hmd; [|done]. cbn [checked mbind outcome_bind].
  destruct (slice m 0 (ud_size d)) as [bs|] eqn:Hsl; [|done]. cbn [checked mbind outcome_bind].
  assert (bs = block_of u d) as ->.
  { unfold slice in Hsl. case_bool_decide; [|done]. injection Hsl as <-. unfold block_of. by rewrite Hmd, drop_0. }
  pose proof (sent_to_udp_send cb pb (block_of u d) (u_net u1)) as Ht. pose proof (fun c => peer_udp_send cb pb (block_of u d) c (u_net u1)) as Hpe.
  assert (accepting N -> (udp_send cb pb (block_of u d) (u_net u1)).2 = ERR_OK) as Hacc by (intros [_ Ha]; apply Ha).
  destruct (udp_send _ _ _ _) as [n rc]. cbn [fst snd] in *. rewrite (Q1 eq_refl eq_refl), S1 in Ht.
  assert (pointed (u_set_net n u1)) as Hpt'.
  { intros c Hc Hc1 Hc2. cbn in Hc, Hc1, Hc2. cbn [u_net u_set_net]. rewrite Hpe. by apply P1. }
  case_bool_decide as Hrc; intros [= <- <-]; split_and!; try done.
  - by left.
  - intros _. split; [by right|done].
  - by right.
  - intros _. split; [by right|]. intros Ha. by destruct (Hrc (Hacc Ha)).
Qed.

(** The blocks that are sent go to [dest]. *)
Lemma processTxQueue_peer n (u : Udp N) l :
  tx_rep u l -> ready u -> pointed u ->
  exists u' l', processTxQueue n u = Ret u' /\ tx_rep u' l' /\ ready u' /\ pointed u' /\ dest u' = dest u /\
    sent_to (u_net u') ++ map (pair (dest u)) (pending u' l') = sent_to (u_net u) ++ map (pair (dest u)) (pending u l) /\
    (aimed u -> aimed u' /\ (accepting N -> l' = skipn n l)).
Proof.
  revert u l. induction n as [|n IH]; intros u l Hr Hrd Hpt; cbn [processTxQueue].
  { exists u, l. rewrite drop_0. auto 10. }
  pose proof (tr_queue _ _ Hr) as Hq. pose proof (front_rep _ _ Hq) as Hf.
  assert (empty (u_txQueue u) = bool_decide (l = [])) as ->.
  { destruct Hq as [Hi Hc]. destruct (size_range _ Hi) as (_ & He & _). pose proof (tq_contents_length _ Hi) as Hl. rewrite Hc in Hl.
    unfold empty. apply eq_true_iff_eq. rewrite He, bool_decide_eq_true. destruct l; cbn in Hl; split; intros; try done; lia. }
  destruct l as [|d l]; [exists u, []; auto 10|]. rewrite bool_decide_false by done.
  rewrite Hf. cbn [head checked mbind outcome_bind].
  destruct (send_peer u (d :: l) d Hr Hrd) as (u1 & k & -> & Hs & Hpt1 & Hd1 & Hk & Ha); [apply elem_of_cons; by left|done|]. cbn [mbind outcome_bind].
  pose proof (same_tx_rep _ _ _ Hs Hr) as Hr1. pose proof (same_tx_ready _ _ Hs Hrd) as Hrd1.
  pose proof (tr_sizes _ _ Hr) as Hsz. apply Forall_cons in Hsz as [Hdz _].
  destruct Hk as [[-> Hn]|[-> Hn]].
  - rewrite bool_decide_true by lia. destruct (sent_popped u1 d l Hr1) as (p & -> & Hr2). cbn [mbind outcome_bind].
    set (u2 := u_set_tx (pop (u_txQueue u1)) p (u_mem u1) u1) in *.
    destruct (IH u2 l Hr2 Hrd1 Hpt1) as (u' & l' & -> & Hr' & Hrd' & Hpt' & Hd' & Hn' & Ha').
    exists u', l'. change (dest u2) with (dest u1) in *. rewrite Hd1 in *. split_and!; try done.
    + rewrite Hn'. change (u_net u2) with (u_net u1). rewrite Hn, <-app_assoc. f_equal. cbn. f_equal. f_equal. exact (same_tx_pending u u1 l Hs).
    + intros Hau. destruct (Ha Hau) as [Ha1 _]. destruct (Ha' Ha1). auto.
  - rewrite bool_decide_false by lia. cbn [mbind outcome_bind].
    destruct (IH u1 (d :: l) Hr1 Hrd1 Hpt1) as (u' & l' & -> & Hr' & Hrd' & Hpt' & Hd' & Hn' & Ha'). rewrite Hd1 in *.
    exists u', l'. split_and!; try done.
    + rewrite Hn', Hn. do 2 f_equal. exact (same_tx_pending u u1 (d :: l) Hs).
    + intros Hau. destruct (Ha Hau) as [Ha1 Hx]. destruct (Ha' Ha1) as [? _]. split; [done|]. intros Hacc. specialize (Hx Hacc). lia.
Qed.

End TxPeers.

(** ** The receive side *)

Section RxSpec.
Context {N : Type} `{UdpStack N}.

(** A received packet.  Its sender becomes the address the answers go
    to: either the sending side is connected to it already, or it is connected
    anew before the next block is sent.  While fewer than four packets wait,
    the packet is queued with the buffer it is in.  A packet that finds the
    queue full is dropped, and its buffer is given back to the stack neither
    now nor later: nothing that names it is kept, and [pbuf_free] is not
    called. *)
Theorem udp_receive_spec (p payload addr : Z) (bytes : list Z) (u : Udp N) (l : list UdpData) :
  tq_rep (u_rxQueue u) l ->
  exists u', udp_receive_callback p payload bytes addr u = Ret u' /\
    tx_raddr (u_txData u') = addr /\
    (tx_update (u_txData u') = true \/ tx_connected (u_txData u') = true /\ tx_raddr (u_txData u) = addr) /\
    tq_rep (u_rxQueue u')
      (if full (u_rxQueue u) then l else l ++ [mkUdpData payload (u16 (Z.of_nat (length bytes))) (Some p)]) /\
    u_mem u' !! payload = Some bytes /\ u_net u' = u_net u /\ u_txQueue u' = u_txQueue u /\ u_pool u' = u_pool u.
Proof.
  intros Hq. unfold udp_receive_callback.
  set (t := if bool_decide _ || _ then _ else u_txData u).
  assert (tx_raddr t = addr /\ (tx_update t = true \/ tx_connected t = true /\ tx_raddr (u_txData u) = addr)) as [Ha Hup].
  { subst t. case_bool_decide as E; cbn; [auto|]. destruct (tx_connected (u_txData u)) eqn:Ec; cbn; [|auto].
    assert (tx_raddr (u_txData u) = addr) by (destruct (decide (tx_raddr (u_txData u) = addr)); [done|by destruct E]). auto. }
  change (u_rxQueue (u_set_txData t (u_set_tx (u_txQueue u) (u_pool u) (<[payload := bytes]> (u_mem u)) u))) with (u_rxQueue u).
  destruct (full (u_rxQueue u)) eqn:Hf.
  - rewrite push_full by done. cbn [mbind outcome_bind]. eexists. split; [done|].
    split_and!; try done. cbn. by rewrite lookup_insert_eq.
  - destruct (push_rep _ _ (mkUdpData payload (u16 (Z.of_nat (length bytes))) (Some p)) Hq Hf) as (q & -> & Hq' & _).
    cbn [mbind outcome_bind]. eexists. split; [done|].
    split_and!; try done. cbn. by rewrite lookup_insert_eq.
Qed.

End RxSpec.

(** ** Witnesses

    A stack that records what it sends; the answers of [udp_send] are given. *)

Record demo_net := mkDemoNet { dn_sent : list (list Z); dn_answers : list Z }.

Definition demo_stack : UdpStack demo_net :=
  {| pbuf_alloc _ n := (n, Some 0x9000);
     pbuf_free _ n := n;
     udp_new n := (n, Some 0x8000);
     udp_remove _ n := n;
     udp_bind _ _ n := (n, 0);
     udp_connect _ _ _ n := (n, 0);
     udp_disconnect _ n := n;
     udp_recv _ _ n := n;
     udp_send _ _ b n :=
       match dn_answers n with
       | [] => (mkDemoNet (dn_sent n ++ [b]) [], 0)
       | rc :: l => (mkDemoNet (if bool_decide (rc = 0) then dn_sent n ++ [b] else dn_sent n) l, rc)
       end |}.
#[local] Existing Instance demo_stack.

Definition demo_log : UdpLog demo_net.
Proof.
  refine {| sent := dn_sent |}; try done.
  intros cb pb b [s [|rc l]]; reflexivity.
Defined.
#[local] Existing Instance demo_log.

Definition demo_addrs : list Z := [0x1000; 0x2000; 0x3000; 0x4000].

Definition demo_udp (answers : list Z) : Udp demo_net :=
  (init demo_addrs 7000 7001
    (mkUdp 0 0 (mkTxData None None 5 false true) false
      (TQueue_new (replicate 4 (mkUdpData 0 0 None)) 4) (TQueue_new (replicate 4 (mkUdpData 0 0 None)) 4)
      (TBuffersPool_new demo_addrs)
      (list_to_map (map (fun a => (a, replicate 1440 0)) demo_addrs)) (mkDemoNet [] answers))).1.

Lemma demo_udp_rep answers : tx_rep (demo_udp answers) [].
Proof.
  assert (TBuffersPool_new demo_addrs = u_pool (demo_udp answers)) as Hp by done.
  assert (NoDup demo_addrs) as Hnd by (by apply (bool_decide_unpack _)).
  constructor.
  - by apply (TQueue_new_rep (replicate 4 (mkUdpData 0 0 None)) 4).
  - done.
  - rewrite <-Hp. by apply TBuffersPool_new_inv.
  - done.
  - constructor.
  - constructor.
  - intros b Hb. split; [intros _; apply not_elem_of_nil|]. intros _.
    apply list_elem_of_lookup in Hb as [i Hi]. exists i. split; [exact Hi|].
    apply lookup_lt_Some in Hi as Hlt. rewrite <-Hp. change (i < 4)%nat in Hlt. cbn.
    do 4 (destruct i as [|i]; [done|]). lia.
  - intros b Hb. assert (b ∈ demo_addrs) as Hb' by exact Hb. unfold demo_addrs in Hb'.
    repeat (apply elem_of_cons in Hb' as [->|Hb']; [by exists (replicate 1440 0)|]). by apply not_elem_of_nil in Hb'.
  - constructor.
Qed.

Lemma udp_tx_fifo_witness :
  exists u' l' rs,
    tx_run [TxAdd [1; 2]; TxAdd [3]; TxProcess 1; TxAdd [4]; TxProcess 2] (demo_udp [-1; 0]) = Ret (u', rs) /\
    sent (u_net u') ++ pending u' l' = [[1; 2]; [3]; [4]] /\ rs = [([1; 2], 2); ([3], 1); ([4], 1)].
Proof.
  destruct (udp_tx_fifo [TxAdd [1; 2]; TxAdd [3]; TxProcess 1; TxAdd [4]; TxProcess 2] (demo_udp [-1; 0]) []
    (demo_udp_rep _)) as (u' & l' & rs & H1 & _ & _ & H2 & _).
  - split_and!; [done|by eexists|by eexists].
  - repeat constructor; done.
  - assert (rs = [([1; 2], 2); ([3], 1); ([4], 1)]) as Hrs.
    { assert (match tx_run [TxAdd [1; 2]; TxAdd [3]; TxProcess 1; TxAdd [4]; TxProcess 2] (demo_udp [-1; 0]) with
        | Ret (_, r) => r | _ => [] end = [([1; 2], 2); ([3], 1); ([4], 1)]) as E by (vm_compute; reflexivity).
      by rewrite H1 in E. }
    subst rs. exists u', l', [([1; 2], 2); ([3], 1); ([4], 1)]. split; [exact H1|]. split; [exact H2|done].
Defined.

Lemma udp_receive_spec_witness :
  exists u', udp_receive_callback 0x77 0x5000 [9; 8] 6 (demo_udp []) = Ret u' /\
    tx_raddr (u_txData u') = 6 /\ tq_rep (u_rxQueue u') [mkUdpData 0x5000 2 (Some 0x77)].
Proof.
  destruct (udp_receive_spec 0x77 0x5000 6 [9; 8] (demo_udp []) []) as (u' & H1 & H2 & _ & H3 & _).
  - by apply (TQueue_new_rep (replicate 4 (mkUdpData 0 0 None)) 4).
  - exists u'. split; [exact H1|]. split; [exact H2|exact H3].
Defined.
