(* ===== verification/Supervisor.v ===== *)
(** * Cooperative tasks and messages ([src/supervisor/supervisor.cpp], [inc/supervisor/*.h])

    The supervisor calls the active tasks in turn and gives the messages of a
    queue to the tasks that ask for their group.  The tasks are records of
    functions over the state [S] of the whole program; the queue is a part of
    that state. *)

From S2P Require Import Prelude Ring TQueue.

Record TCMessage := mkMessage {
  msgGroup : Z;      (* unsigned long *)
  msgNo : Z;         (* short *)
  Param1 : Z;
  Param2 : Z;
  discard : bool;
}.

(** The constructor. *)
Definition TCMessage_new (g no p1 p2 : Z) : TCMessage := mkMessage (u32 g) (s16 no) p1 p2 false.

(** [TBaseTask]: the virtual functions of a task.  [handleEvent] may change
    the message it is given. *)
Record TBaseTask (S : Type) := mkTask {
  tk_eventMask : Z;
  tk_active : S -> bool;
  tk_activate : S -> outcome S;
  tk_deactivate : S -> outcome S;
  tk_handleEvent : TCMessage -> S -> outcome (S * TCMessage);
  tk_process : S -> outcome S;
}.
Arguments mkTask {S}.
Arguments tk_eventMask {S}.
Arguments tk_active {S}.
Arguments tk_activate {S}.
Arguments tk_deactivate {S}.
Arguments tk_handleEvent {S}.
Arguments tk_process {S}.

Section Supervisor.
Context {S : Type}.
Variable tasks : list (TBaseTask S).
Variable msgQueue : S -> TQueue TCMessage.
Variable set_msgQueue : TQueue TCMessage -> S -> S.

Definition task (taskId : Z) : outcome (TBaseTask S) := checked (rd tasks taskId).

Definition isTaskActive (taskId : Z) (s : S) : outcome bool := t ← task taskId; Ret (tk_active t s).

Definition activateTask (taskId : Z) (s : S) : outcome S :=
  t ← task taskId; if tk_active t s then Ret s else tk_activate t s.

Definition deactivateTask (taskId : Z) (s : S) : outcome S := t ← task taskId; tk_deactivate t s.

(** The loop over the tasks, from a task on. *)
Fixpoint process_from (ts : list (TBaseTask S)) (s : S) : outcome S :=
  match ts with
  | [] => Ret s
  | t :: ts => s ← (if tk_active t s then tk_process t s else Ret s); process_from ts s
  end.

Definition processTasks (s : S) : outcome S := process_from tasks s.

(** Whether a task is interested in a message. *)
Definition wants (t : TBaseTask S) (msg : TCMessage) (s : S) : bool :=
  tk_active t s && bool_decide (Z.land (tk_eventMask t) (msgGroup msg) <> 0).

(** [for(i = 0; i < numTasks && !msg.discard; i++) ...] *)
Fixpoint deliver (ts : list (TBaseTask S)) (msg : TCMessage) (s : S) : outcome S :=
  match ts with
  | [] => Ret s
  | t :: ts =>
      if discard msg then Ret s
      else if wants t msg s then '(s, msg) ← tk_handleEvent t msg s; deliver ts msg s
      else deliver ts msg s
  end.

(** [while(!msgQueue.empty())]: a message leaves the queue after it has been
    delivered. *)
Fixpoint processMessages (fuel : nat) (s : S) : outcome S :=
  match fuel with
  | O => Spin
  | Datatypes.S fuel =>
      if empty (msgQueue s) then Ret s
      else
        r ← front (msgQueue s);
        msg ← checked r;
        s ← deliver tasks msg s;
        processMessages fuel (set_msgQueue (pop (msgQueue s)) s)
  end.

(** [sendMessage(msgGroup, msgNo, Param1, Param2)] *)
Definition sendMessage (g no p1 p2 : Z) (s : S) : outcome (S * bool) :=
  if full (msgQueue s) then Ret (s, false)
  else q ← push (TCMessage_new g no p1 p2) (msgQueue s); Ret (set_msgQueue q s, true).

(** ** Delivery *)

Hypothesis msgQueue_set : forall q s, msgQueue (set_msgQueue q s) = q.

(** Handlers that send no messages and do not look at the queue. *)
Definition quiet : Prop :=
  forall t msg s s' msg', t ∈ tasks -> tk_handleEvent t msg s = Ret (s', msg') -> msgQueue s' = msgQueue s.

Lemma deliver_quiet msg s s' : quiet -> deliver tasks msg s = Ret s' -> msgQueue s' = msgQueue s.
Proof.
  intros Hq. assert (forall ts, (forall t, t ∈ ts -> t ∈ tasks) -> forall msg s s',
    deliver ts msg s = Ret s' -> msgQueue s' = msgQueue s) as Hgen.
  { clear msg s s'. induction ts as [|t ts IH]; intros Hsub msg s s' Hd; cbn [deliver] in Hd; [by injection Hd as <-|].
    destruct (discard msg); [by injection Hd as <-|].
    assert (forall t, t ∈ ts -> t ∈ tasks) as Hsub' by (intros t' Ht'; apply Hsub; apply elem_of_cons; by right).
    destruct (wants t msg s); [|by eapply IH].
    apply bind_Ret in Hd as ([s1 m1] & Hh & Hd). apply IH in Hd; [|done].
    apply Hq in Hh; [congruence|]. apply Hsub, elem_of_cons. by left. }
  apply Hgen. done.
Qed.

(** The messages delivered one after another. *)
Fixpoint deliver_all (l : list TCMessage) (s : S) : outcome S :=
  match l with
  | [] => Ret s
  | msg :: l => s ← deliver tasks msg s; deliver_all l (set_msgQueue (pop (msgQueue s)) s)
  end.

(** The message loop.  When no handler sends messages, the loop
    delivers the messages that wait, oldest first, each once to the tasks in
    the order of their table, and comes to an end with an empty queue as soon
    as they are delivered: one turn per message is enough, and what the loop
    does is the deliveries and nothing else. *)
Theorem processMessages_delivers (l : list TCMessage) (fuel : nat) (s : S) :
  quiet -> tq_rep (msgQueue s) l -> (length l < fuel)%nat ->
  processMessages fuel s = deliver_all l s /\
  forall s', deliver_all l s = Ret s' -> tq_rep (msgQueue s') [].
Proof.
  intros Hq. revert fuel s. induction l as [|msg l IH]; intros fuel s Hr Hf; (destruct fuel as [|fuel]; [simpl in Hf; lia|]).
  - cbn [processMessages deliver_all]. assert (empty (msgQueue s) = true) as ->.
    { destruct Hr as [Hi Hc]. destruct (size_range _ Hi) as (_ & He & _). pose proof (tq_contents_length _ Hi) as Hl.
      rewrite Hc in Hl. by apply He. }
    split; [done|]. by intros s' [= <-].
  - cbn [processMessages deliver_all]. assert (empty (msgQueue s) = false) as ->.
    { destruct Hr as [Hi Hc]. destruct (size_range _ Hi) as (_ & He & _). pose proof (tq_contents_length _ Hi) as Hl.
      rewrite Hc in Hl. unfold empty. destruct (tq_isEmpty (msgQueue s)); [|done].
      destruct He as [He _]. rewrite (He eq_refl) in Hl. done. }
    rewrite (front_rep _ _ Hr). cbn [head checked mbind outcome_bind].
    destruct (deliver tasks msg s) as [s1| |] eqn:Hd; cbn [mbind outcome_bind]; [|done..].
    pose proof (deliver_quiet _ _ _ Hq Hd) as Hsame.
    apply IH; [|simpl in Hf; lia]. rewrite msgQueue_set, Hsame. by destruct (pop_rep _ _ Hr).
Qed.

End Supervisor.

(** ** Witness *)

Definition demo_counter : TBaseTask (TQueue TCMessage * list Z) :=
  mkTask 1 (fun _ => true) (fun s => Ret s) (fun s => Ret s)
    (fun msg s => Ret ((s.1, s.2 ++ [msgNo msg]), msg)) (fun s => Ret s).

Definition demo_msg (g no : Z) : TCMessage := TCMessage_new g no 0 0.

Definition demo_msgs : TQueue TCMessage :=
  mkTQueue 4 0 2 [demo_msg 1 10; demo_msg 2 11; demo_msg 0 0; demo_msg 0 0] false false.

Lemma demo_msgs_rep : tq_rep demo_msgs [demo_msg 1 10; demo_msg 2 11].
Proof. split; [constructor; cbn; done || lia|done]. Qed.

Lemma processMessages_delivers_witness :
  processMessages [demo_counter] fst (fun q s => (q, s.2)) 3 (demo_msgs, []) =
    deliver_all [demo_counter] fst (fun q s => (q, s.2)) [demo_msg 1 10; demo_msg 2 11] (demo_msgs, []).
Proof.
  apply (processMessages_delivers [demo_counter] fst (fun q s => (q, s.2)) ltac:(done)
    [demo_msg 1 10; demo_msg 2 11] 3 (demo_msgs, [])).
  - intros t msg s s' msg' Ht%list_elem_of_singleton Hh. subst t. injection Hh as <- <-. done.
  - exact demo_msgs_rep.
  - cbn. lia.
Defined.
