(* ===== verification/Phy.v ===== *)
(** * Ethernet transceiver ([src/lpc_phy_smsc87x0.c], [inc/lpc_phy.h])

    The driver of the transceiver: access to its registers over the MII bus
    with a bounded wait, the initialisation, and the state machine
    [lpcPHYStsPoll] that follows the state of the link.  The bus is the class
    [Mii] (the functions [Chip_ENET_*]). *)

From S2P Require Import Prelude.

(** ** Registers and status bits *)

Definition LAN8_BCR_REG : Z := 0.
Definition LAN8_BSR_REG : Z := 1.
Definition LAN8_PHYSPLCTL_REG : Z := 0x1F.
Definition LAN8_RESET : Z := Z.shiftl 1 15.
Definition LAN8_AUTONEG : Z := Z.shiftl 1 12.
Definition LAN8_POWER_DOWN : Z := Z.shiftl 1 11.
Definition LAN8_LINK_STATUS : Z := Z.shiftl 1 2.
Definition LAN8_SPEEDMASK : Z := Z.shiftl 7 2.
Definition LAN8_SPEED100F : Z := Z.shiftl 6 2.
Definition LAN8_SPEED10F : Z := Z.shiftl 5 2.
Definition LAN8_SPEED100H : Z := Z.shiftl 2 2.
Definition LAN8_SPEED10H : Z := Z.shiftl 1 2.

Definition PHY_LINK_ERROR : Z := Z.shiftl 1 0.
Definition PHY_LINK_BUSY : Z := Z.shiftl 1 1.
Definition PHY_LINK_CHANGED : Z := Z.shiftl 1 2.
Definition PHY_LINK_CONNECTED : Z := Z.shiftl 1 3.
Definition PHY_LINK_SPEED100 : Z := Z.shiftl 1 4.
Definition PHY_LINK_FULLDUPLX : Z := Z.shiftl 1 5.

(** [Status] of the chip library. *)
Definition ERROR : Z := 0.
Definition SUCCESS : Z := 1.

(** [Chip_ENET_StartMIIWrite], [Chip_ENET_StartMIIRead], [Chip_ENET_IsMIIBusy],
    [Chip_ENET_ReadMIIData] and the delay.  The state [B] of the bus may change
    whenever it is looked at. *)
Class Mii (B : Type) := {
  StartMIIWrite : Z -> Z -> B -> B;
  StartMIIRead : Z -> B -> B;
  IsMIIBusy : B -> B * bool;
  ReadMIIData : B -> B * Z;
  DelayMs : Z -> B -> B;
}.

(** [x &= ~m] and [x |= m] on a [uint32_t]. *)
Definition clr (m x : Z) : Z := Z.ldiff x m.
Definition set (m x : Z) : Z := Z.lor x m.
Definition has (m x : Z) : bool := bool_decide (Z.land x m <> 0).

(** The static variables of the driver; [ph_sts] is the one of
    [lpcPHYStsPoll]. *)
Record Phy := mkPhy {
  physts : Z;         (* uint32_t *)
  olddphysts : Z;     (* uint32_t *)
  phyustate : Z;      (* int32_t *)
  ph_sts : Z;         (* uint16_t *)
}.

Definition set_physts x (p : Phy) : Phy := mkPhy x (olddphysts p) (phyustate p) (ph_sts p).
Definition set_phyustate x (p : Phy) : Phy := mkPhy (physts p) (olddphysts p) x (ph_sts p).

(** The bits that are compared. *)
Definition LINK_BITS : Z := Z.lor (Z.lor PHY_LINK_SPEED100 PHY_LINK_FULLDUPLX) PHY_LINK_CONNECTED.

(** The speed and duplex bits for the value of the special register. *)
Definition speed_bits (sdsts s : Z) : Z :=
  let k := Z.land sdsts LAN8_SPEEDMASK in
  if bool_decide (k = LAN8_SPEED10F) then set PHY_LINK_FULLDUPLX (clr PHY_LINK_SPEED100 s)
  else if bool_decide (k = LAN8_SPEED100H) then clr PHY_LINK_FULLDUPLX (set PHY_LINK_SPEED100 s)
  else if bool_decide (k = LAN8_SPEED10H) then clr PHY_LINK_FULLDUPLX (clr PHY_LINK_SPEED100 s)
  else set PHY_LINK_FULLDUPLX (set PHY_LINK_SPEED100 s).

Definition smsc_update_phy_sts (linksts sdsts : Z) (p : Phy) : Phy :=
  let s := physts p in
  let s := if has LAN8_LINK_STATUS linksts then set PHY_LINK_CONNECTED s else clr PHY_LINK_CONNECTED s in
  let s := speed_bits sdsts s in
  if bool_decide (Z.land s LINK_BITS <> Z.land (olddphysts p) LINK_BITS)
  then mkPhy (set PHY_LINK_CHANGED s) s (phyustate p) (ph_sts p)
  else set_physts s p.

Section Phy.
Context {B : Type} `{Mii B}.

(** The loop that waits for the bus, with the remaining count [mst]. *)
Fixpoint mii_wait (mst : nat) (b : B) : B * Z :=
  match mst with
  | O => (b, ERROR)
  | S mst =>
      let '(b, busy) := IsMIIBusy b in
      if busy then mii_wait mst (DelayMs 1 b) else (b, SUCCESS)
  end.

Definition lpc_mii_write (reg data : Z) (b : B) : B * Z := mii_wait 250 (StartMIIWrite reg data b).

(** [*data] keeps its value when the bus stays busy. *)
Definition lpc_mii_read (reg data : Z) (b : B) : B * Z * Z :=
  let '(b, sts) := mii_wait 250 (StartMIIRead reg b) in
  if bool_decide (sts = SUCCESS) then let '(b, d) := ReadMIIData b in (b, u16 d, sts) else (b, data, sts).

(** The wait for the end of the reset: [i] reads remain. *)
Fixpoint reset_wait (i : nat) (regv : Z) (b : B) : B * bool :=
  match i with
  | O => (b, false)
  | S i =>
      let '(b, regv, sts) := lpc_mii_read LAN8_BCR_REG regv b in
      if bool_decide (sts <> SUCCESS) then (b, false)
      else if has (Z.lor LAN8_RESET LAN8_POWER_DOWN) regv then reset_wait i regv (DelayMs 1 b)
      else (b, true)
  end.

(** [lpc_phy_init] (the version without diagnostic output). *)
Definition lpc_phy_init (junk : Z) (p : Phy) (b : B) : Phy * B * Z :=
  let p := mkPhy 0 0 0 (ph_sts p) in
  let '(b, sts) := lpc_mii_write LAN8_BCR_REG LAN8_RESET b in
  if bool_decide (sts <> SUCCESS) then (p, b, ERROR)
  else
    let '(b, ok) := reset_wait 500 junk b in
    if ok then let '(b, _) := lpc_mii_write LAN8_BCR_REG LAN8_AUTONEG b in (p, b, SUCCESS)
    else (p, b, ERROR).

Definition lpcPHYStsPoll (p : Phy) (b : B) : Phy * B * Z :=
  let '(p, b) :=
    if bool_decide (phyustate p = 1) then
      let '(b, busy) := IsMIIBusy b in
      if busy then (p, b)
      else
        let '(b, d) := ReadMIIData b in
        (mkPhy (physts p) (olddphysts p) 2 (u16 d), StartMIIRead LAN8_PHYSPLCTL_REG b)
    else if bool_decide (phyustate p = 2) then
      let '(b, busy) := IsMIIBusy b in
      if busy then (p, b)
      else
        let p := set_physts (clr PHY_LINK_BUSY (physts p)) p in
        let '(b, d) := ReadMIIData b in
        (set_phyustate 0 (smsc_update_phy_sts (ph_sts p) (u16 d) p), b)
    else
      (set_phyustate 1 (set_physts (set PHY_LINK_BUSY (clr PHY_LINK_CHANGED (physts p))) p), StartMIIRead LAN8_BSR_REG b)
  in (p, b, physts p).

End Phy.

(** ** Bits *)

Lemma land_set_ne a m s : Z.land a m = 0 -> Z.land (set a s) m = Z.land s m.
Proof. intros Ha. unfold set. rewrite Z.land_lor_distr_l, Ha. apply Z.lor_0_r. Qed.

Lemma land_clr_ne a m s : Z.land a m = 0 -> Z.land (clr a s) m = Z.land s m.
Proof.
  intros Ha. unfold clr. apply Z.bits_inj'. intros n Hn. rewrite !Z.land_spec, Z.ldiff_spec.
  pose proof (f_equal (fun z => Z.testbit z n) Ha) as Hb. cbn in Hb. rewrite Z.land_spec, Z.bits_0 in Hb.
  destruct (Z.testbit s n), (Z.testbit a n), (Z.testbit m n); try done.
Qed.

Lemma has_set_ne a m s : Z.land a m = 0 -> has m (set a s) = has m s.
Proof. intros Ha. unfold has. by rewrite land_set_ne. Qed.
Lemma has_clr_ne a m s : Z.land a m = 0 -> has m (clr a s) = has m s.
Proof. intros Ha. unfold has. by rewrite land_clr_ne. Qed.

Lemma has_clr m s : has m (clr m s) = false.
Proof. unfold has, clr. by rewrite Z.land_ldiff. Qed.

Lemma has_set m s : 0 < m -> has m (set m s) = true.
Proof.
  intros Hm. unfold has, set. rewrite Z.land_lor_distr_l, Z.land_diag. apply bool_decide_true.
  intros [_ E]%Z.lor_eq_0_iff. lia.
Qed.

(** The status has six bits. *)
Definition is_status (s : Z) : Prop := 0 <= s < 64.

Lemma status_iff s : is_status s <-> 0 <= s /\ forall n, 6 <= n -> Z.testbit s n = false.
Proof.
  unfold is_status. split.
  - intros Hs. split; [lia|]. intros n Hn. apply Z.testbit_false; [lia|].
    rewrite Z.div_small; [done|]. pose proof (Z.pow_le_mono_r 2 6 n). lia.
  - intros [H0 Hb]. split; [done|]. destruct (decide (s < 64)) as [|Hge]; [done|].
    assert (6 <= Z.log2 s) as Hl by (apply (Z.log2_le_mono 64 s); lia).
    pose proof (Hb _ Hl) as Hf. rewrite Z.bit_log2 in Hf; [done|lia].
Qed.

Lemma set_status m s : is_status m -> is_status s -> is_status (set m s).
Proof.
  rewrite !status_iff. intros [Hm Hmb] [Hs Hsb]. split; [by apply Z.lor_nonneg|].
  intros n Hn. unfold set. by rewrite Z.lor_spec, Hmb, Hsb.
Qed.

Lemma clr_status m s : is_status s -> is_status (clr m s).
Proof.
  rewrite !status_iff. intros [Hs Hsb]. split; [apply Z.ldiff_nonneg; by left|].
  intros n Hn. unfold clr. by rewrite Z.ldiff_spec, Hsb.
Qed.

Create HintDb phy discriminated.
#[export] Hint Resolve set_status clr_status : phy.
#[export] Hint Extern 1 (is_status _) => solve [split; vm_compute; done || (intros; discriminate)] : phy.

Lemma speed_bits_status k s : is_status s -> is_status (speed_bits k s).
Proof. intros. unfold speed_bits. repeat case_bool_decide; auto with phy. Qed.

Lemma speed_bits_ne m k s :
  Z.land PHY_LINK_SPEED100 m = 0 -> Z.land PHY_LINK_FULLDUPLX m = 0 -> Z.land (speed_bits k s) m = Z.land s m.
Proof.
  intros H1 H2. unfold speed_bits. repeat case_bool_decide; rewrite ?land_set_ne, ?land_clr_ne by done;
    by rewrite ?land_set_ne, ?land_clr_ne by done.
Qed.

Lemma ne_self (x : Z) : bool_decide (x <> x) = false.
Proof. apply bool_decide_false. intros Hn. by apply Hn. Qed.

(** ** The state machine *)

Record phy_inv (p : Phy) : Prop := {
  phy_inv_status : is_status (physts p);
  phy_inv_old : Z.land (olddphysts p) LINK_BITS = Z.land (physts p) LINK_BITS;
  phy_inv_state : 0 <= phyustate p <= 2;
  phy_inv_changed : phyustate p <> 0 -> has PHY_LINK_CHANGED (physts p) = false;
}.

Definition connected (p : Phy) : bool := has PHY_LINK_CONNECTED (physts p).

Lemma connected_bits x y : Z.land x LINK_BITS = Z.land y LINK_BITS -> has PHY_LINK_CONNECTED x = has PHY_LINK_CONNECTED y.
Proof.
  intros He. unfold has. change PHY_LINK_CONNECTED with (Z.land LINK_BITS PHY_LINK_CONNECTED).
  by rewrite !Z.land_assoc, He.
Qed.

(** The end of a round: the new status. *)
Lemma smsc_update_spec linksts sdsts p :
  is_status (physts p) -> Z.land (olddphysts p) LINK_BITS = Z.land (physts p) LINK_BITS ->
  has PHY_LINK_CHANGED (physts p) = false ->
  let p' := smsc_update_phy_sts linksts sdsts p in
  is_status (physts p') /\ Z.land (olddphysts p') LINK_BITS = Z.land (physts p') LINK_BITS /\
  connected p' = has LAN8_LINK_STATUS linksts /\ phyustate p' = phyustate p /\
  has PHY_LINK_CHANGED (physts p') = bool_decide (Z.land (physts p') LINK_BITS <> Z.land (physts p) LINK_BITS).
Proof.
  intros Hs Ho Hc. unfold smsc_update_phy_sts. set (l := has LAN8_LINK_STATUS linksts).
  set (s1 := if l then set PHY_LINK_CONNECTED (physts p) else clr PHY_LINK_CONNECTED (physts p)).
  set (s := speed_bits sdsts s1). cbv zeta. rewrite Ho.
  assert (is_status s) as Hss by (apply speed_bits_status; subst s1; destruct l; auto with phy).
  assert (has PHY_LINK_CONNECTED s = l) as Hl.
  { subst s s1. unfold has. rewrite speed_bits_ne by done. fold (has PHY_LINK_CONNECTED (if l then set PHY_LINK_CONNECTED (physts p) else clr PHY_LINK_CONNECTED (physts p))).
    destruct l; [by apply has_set|apply has_clr]. }
  assert (has PHY_LINK_CHANGED s = false) as Hsc.
  { rewrite <-Hc. subst s s1. unfold has. rewrite speed_bits_ne by done.
    destruct l; [by rewrite land_set_ne|by rewrite land_clr_ne]. }
  case_bool_decide as Hd; unfold connected; cbn [physts olddphysts phyustate set_physts].
  - rewrite (has_set_ne PHY_LINK_CHANGED PHY_LINK_CONNECTED) by done. rewrite (land_set_ne PHY_LINK_CHANGED LINK_BITS) by done.
    rewrite (has_set PHY_LINK_CHANGED) by done. rewrite bool_decide_true by done.
    split_and!; [by auto with phy|done..].
  - assert (Z.land s LINK_BITS = Z.land (physts p) LINK_BITS) as Heq
      by (destruct (decide (Z.land s LINK_BITS = Z.land (physts p) LINK_BITS)); [done|by destruct Hd]).
    rewrite Hl, Hsc, Heq. rewrite ne_self. by split_and!.
Qed.

Section PollSpec.
Context {B : Type} `{Mii B}.

(** One call of the state machine of the link.  Whatever the bus does,
    the status keeps to its six bits and the machine to its three states; what
    is returned is the status after the call; its bit "changed" is set exactly
    when the speed, the duplex mode or the link are not what they were before
    the call - so that every change is reported, once, and with the new values
    - and the bit "connected" is the link bit of the register read last, taken
    over at the end of each round of two reads. *)
Theorem lpcPHYStsPoll_spec (p p' : Phy) (b b' : B) (r : Z) :
  phy_inv p -> lpcPHYStsPoll p b = (p', b', r) ->
  phy_inv p' /\ r = physts p' /\
  has PHY_LINK_CHANGED r = bool_decide (Z.land r LINK_BITS <> Z.land (physts p) LINK_BITS) /\
  connected p' = (if bool_decide (phyustate p = 2 /\ phyustate p' = 0)
                  then has LAN8_LINK_STATUS (ph_sts p) else connected p).
Proof.
  intros [Hs Ho Hst Hc] Hp. unfold lpcPHYStsPoll in Hp.
  case_bool_decide as E1; [|case_bool_decide as E2].
  - destruct (IsMIIBusy b) as [b1 [|]].
    + injection Hp as <- <- <-. rewrite ne_self, Hc by lia. split_and!; [done..|].
      by rewrite bool_decide_false by lia.
    + destruct (ReadMIIData b1) as [b2 d]. injection Hp as <- <- <-.
      cbn [physts]. rewrite ne_self, Hc by lia. split_and!; [|done..|].
      * constructor; cbn; [done..|lia|intros _; apply Hc; lia].
      * by rewrite bool_decide_false by (cbn; lia).
  - destruct (IsMIIBusy b) as [b1 [|]].
    + injection Hp as <- <- <-. rewrite ne_self, Hc by lia. split_and!; [done..|].
      by rewrite bool_decide_false by lia.
    + destruct (ReadMIIData b1) as [b2 d].
      set (p1 := set_physts (clr PHY_LINK_BUSY (physts p)) p) in Hp.
      destruct (smsc_update_spec (ph_sts p1) (u16 d) p1) as (U1 & U2 & U3 & U4 & U5).
      { cbn. auto with phy. }
      { cbn. by rewrite land_clr_ne. }
      { cbn. rewrite has_clr_ne by done. apply Hc. lia. }
      set (p2 := smsc_update_phy_sts _ _ _) in *. injection Hp as <- <- <-.
      cbn [physts set_phyustate phyustate]. split_and!.
      * constructor; cbn; [done..|lia|done].
      * done.
      * rewrite U5. cbn [physts set_physts p1]. by rewrite land_clr_ne.
      * rewrite bool_decide_true by done. exact U3.
  - injection Hp as <- <- <-. cbn [physts set_phyustate set_physts phyustate].
    assert (Z.land (set PHY_LINK_BUSY (clr PHY_LINK_CHANGED (physts p))) LINK_BITS = Z.land (physts p) LINK_BITS) as Hl
      by (by rewrite land_set_ne, land_clr_ne).
    split_and!.
    + constructor; cbn; [auto with phy|by rewrite Hl|lia|]. intros _. rewrite has_set_ne by done. apply has_clr.
    + done.
    + rewrite Hl, ne_self, has_set_ne by done. apply has_clr.
    + rewrite bool_decide_false by lia. unfold connected. cbn. by rewrite has_set_ne, has_clr_ne.
Qed.

End PollSpec.

(** A bus that is free and whose registers keep their values. *)
Class MiiFree (B : Type) `{Mii B} := {
  mii_reg : Z -> Z;
  mii_free : forall b, (IsMIIBusy b).2 = false;
  mii_reg_read : forall r b, (ReadMIIData (IsMIIBusy (StartMIIRead r b)).1).2 = mii_reg r;
}.

(** A round of three calls takes over the link bit. *)
Lemma poll_round {B : Type} `{MiiFree B} (p : Phy) (b : B) :
  phyustate p = 0 ->
  let '(p1, b1, _) := lpcPHYStsPoll p b in
  let '(p2, b2, _) := lpcPHYStsPoll p1 b1 in
  phyustate p1 = 1 /\ phyustate p2 = 2 /\ ph_sts p2 = u16 (mii_reg LAN8_BSR_REG) /\
  phyustate (lpcPHYStsPoll p2 b2).1.1 = 0.
Proof.
  intros Hst. unfold lpcPHYStsPoll at 1. rewrite Hst. rewrite !bool_decide_false by done.
  unfold lpcPHYStsPoll at 1. cbn [phyustate set_phyustate set_physts]. rewrite bool_decide_true by done.
  pose proof (mii_free (StartMIIRead LAN8_BSR_REG b)) as Hf. pose proof (mii_reg_read LAN8_BSR_REG b) as Hr.
  destruct (IsMIIBusy (StartMIIRead LAN8_BSR_REG b)) as [b1 busy]. cbn [fst snd] in *. subst busy.
  destruct (ReadMIIData b1) as [b2 d]. cbn [snd] in Hr. subst d. cbn [phyustate ph_sts]. split_and!; [done..|].
  unfold lpcPHYStsPoll. cbn [phyustate]. rewrite bool_decide_false, bool_decide_true by done.
  pose proof (mii_free (StartMIIRead LAN8_PHYSPLCTL_REG b2)) as Hf.
  destruct (IsMIIBusy (StartMIIRead LAN8_PHYSPLCTL_REG b2)) as [b3 busy]. cbn [snd] in Hf. subst busy.
  by destruct (ReadMIIData b3) as [b4 d].
Qed.

(** ** The waits *)

(** [waited]: the milliseconds spent in the delay function. *)
Class MiiClock (B : Type) `{Mii B} := {
  waited : B -> Z;
  waited_write : forall r d b, waited (StartMIIWrite r d b) = waited b;
  waited_read : forall r b, waited (StartMIIRead r b) = waited b;
  waited_busy : forall b, waited (IsMIIBusy b).1 = waited b;
  waited_data : forall b, waited (ReadMIIData b).1 = waited b;
  waited_delay : forall n b, waited (DelayMs n b) = waited b + n;
}.

Section Waits.
Context {B : Type} `{MiiClock B}.

Lemma mii_wait_time n b :
  waited b <= waited (mii_wait n b).1 <= waited b + Z.of_nat n /\
  ((mii_wait n b).2 = ERROR -> waited (mii_wait n b).1 = waited b + Z.of_nat n).
Proof.
  revert b. induction n as [|n IH]; intros b; cbn [mii_wait]; [cbn; lia|].
  pose proof (waited_busy b) as Hb. destruct (IsMIIBusy b) as [b1 [|]]; cbn [fst] in Hb.
  - destruct (IH (DelayMs 1 b1)) as [Hw He]. rewrite waited_delay, Hb in Hw, He. split; [lia|]. intros E. specialize (He E). lia.
  - cbn. split; [lia|discriminate].
Qed.

Lemma lpc_mii_read_time r d b :
  waited b <= waited (lpc_mii_read r d b).1.1 <= waited b + 250.
Proof.
  unfold lpc_mii_read. pose proof (mii_wait_time 250 (StartMIIRead r b)) as [Hw _]. rewrite waited_read in Hw.
  destruct (mii_wait 250 (StartMIIRead r b)) as [b1 sts]. cbn [fst] in Hw. case_bool_decide; [|cbn; lia].
  pose proof (waited_data b1) as Hd. destruct (ReadMIIData b1) as [b2 v]. cbn [fst] in *. lia.
Qed.

Lemma reset_wait_time i v b : waited b <= waited (reset_wait i v b).1 <= waited b + 251 * Z.of_nat i.
Proof.
  revert v b. induction i as [|i IH]; intros v b; cbn [reset_wait]; [cbn; lia|].
  pose proof (lpc_mii_read_time LAN8_BCR_REG v b) as Hr. destruct (lpc_mii_read LAN8_BCR_REG v b) as [[b1 v1] sts].
  cbn [fst] in Hr. case_bool_decide; [cbn; lia|]. destruct (has _ v1); [|cbn; lia].
  pose proof (IH v1 (DelayMs 1 b1)) as Hi. rewrite waited_delay in Hi. lia.
Qed.

(** The initialisation of the transceiver ends within a bounded time,
    whatever the bus does: it waits at most 126 seconds (250 ms for each of the
    two writes, and 500 times 250 + 1 ms for the reset).  It fails after 250 ms
    when the bus is never free, and it leaves the state machine of the link in
    its initial state, in which nothing is reported. *)
Theorem lpc_phy_init_bounded (junk : Z) (p p' : Phy) (b b' : B) (sts : Z) :
  lpc_phy_init junk p b = (p', b', sts) ->
  phy_inv p' /\ physts p' = 0 /\ phyustate p' = 0 /\ (sts = SUCCESS \/ sts = ERROR) /\
  waited b <= waited b' <= waited b + 126000 /\
  ((lpc_mii_write LAN8_BCR_REG LAN8_RESET b).2 = ERROR -> sts = ERROR /\ waited b' = waited b + 250).
Proof.
  unfold lpc_phy_init. intros Hi.
  assert (phy_inv (mkPhy 0 0 0 (ph_sts p))) as Hinv by (constructor; cbn; [done|done|lia|done]).
  unfold lpc_mii_write in *. pose proof (mii_wait_time 250 (StartMIIWrite LAN8_BCR_REG LAN8_RESET b)) as [Hw He].
  rewrite waited_write in Hw, He. destruct (mii_wait 250 (StartMIIWrite LAN8_BCR_REG LAN8_RESET b)) as [b1 s1].
  cbn [fst snd] in *. case_bool_decide as Hs1.
  { injection Hi as <- <- <-. split_and!; [done|done|done|by right|lia|lia|].
    intros E. split; [done|]. specialize (He E). lia. }
  pose proof (reset_wait_time 500 junk b1) as Hr. destruct (reset_wait 500 junk b1) as [b2 ok]. cbn [fst] in Hr.
  destruct ok.
  - pose proof (mii_wait_time 250 (StartMIIWrite LAN8_BCR_REG LAN8_AUTONEG b2)) as [Hw2 _]. rewrite waited_write in Hw2.
    destruct (mii_wait 250 (StartMIIWrite LAN8_BCR_REG LAN8_AUTONEG b2)) as [b3 s3]. cbn [fst] in Hw2.
    injection Hi as <- <- <-. split_and!; [done|done|done|by left|lia|lia|]. intros E. rewrite E in Hs1. discriminate.
  - injection Hi as <- <- <-. split_and!; [done|done|done|by right|lia|lia|]. intros E. rewrite E in Hs1. discriminate.
Qed.

End Waits.

(** ** Witnesses: a bus that is free, with a clock *)

Record demo_bus := mkDemoBus { db_time : Z; db_busy : bool; db_data : Z }.

#[local] Instance demo_Mii : Mii demo_bus := {
  StartMIIWrite _ _ b := b;
  StartMIIRead _ b := b;
  IsMIIBusy b := (b, db_busy b);
  ReadMIIData b := (b, db_data b);
  DelayMs n b := mkDemoBus (db_time b + n) (db_busy b) (db_data b);
}.

#[local] Instance demo_MiiClock : MiiClock demo_bus.
Proof. by refine {| waited := db_time |}. Defined.

Lemma lpcPHYStsPoll_spec_witness :
  has PHY_LINK_CHANGED (lpcPHYStsPoll (mkPhy 0 0 2 4) (mkDemoBus 0 false 24)).2 = true.
Proof.
  destruct (lpcPHYStsPoll (mkPhy 0 0 2 4) (mkDemoBus 0 false 24)) as [[p' b'] r] eqn:E.
  destruct (lpcPHYStsPoll_spec (mkPhy 0 0 2 4) p' (mkDemoBus 0 false 24) b' r) as (_ & _ & Hc & _).
  - constructor; cbn; [done|done|lia|done].
  - exact E.
  - cbn [snd]. rewrite Hc. vm_compute in E. injection E as <- <- <-. reflexivity.
Defined.

Lemma lpc_phy_init_bounded_witness :
  waited (lpc_phy_init 0 (mkPhy 1 1 1 1) (mkDemoBus 7 true 0)).1.2 = 257.
Proof.
  destruct (lpc_phy_init 0 (mkPhy 1 1 1 1) (mkDemoBus 7 true 0)) as [[p' b'] sts] eqn:E.
  destruct (lpc_phy_init_bounded 0 (mkPhy 1 1 1 1) p' (mkDemoBus 7 true 0) b' sts E) as (_ & _ & _ & _ & _ & Hw).
  apply Hw. vm_compute. reflexivity.
Defined.
