(* ===== verification/NetTasks.v ===== *)
(** * The tasks of the program ([src/tasks.cpp], [src/ts_*.cpp], [inc/taskdef.h], [src/emac_app.cpp])

    Four tasks over one state: the start ([TTaskInit]), the state of the
    Ethernet link ([TTaskMAC_Service]), the UDP exchange ([TTaskUDP_Service])
    and the requests to the slaves ([TTaskMonitor]).  What they call in the
    modules below is the class [Board]; [now] is the tick counter. *)

From S2P Require Import Prelude Ring TQueue HalBase DeviceParameters Supervisor Phy.

(** ** Messages ([inc/events.h]) *)

Definition grpNet : Z := 0x200.
Definition grpNetState : Z := 0x200.
Definition grpSystem : Z := 0x10000010.
Definition TaskMask : Z := 0xffffffff.
Definition msgSysInit : Z := 1101.
Definition msgNetInitStart : Z := 1200.
Definition msgNetInitOk : Z := 1201.
Definition msgNetConnected : Z := 1203.
Definition msgNetDisconnected : Z := 1204.
Definition msgNetError : Z := 1205.
Definition msgUDP_InitOk : Z := 1206.
Definition msgUDP_InitError : Z := 1207.
Definition MESSAGE_QUEUE_SIZE : Z := 32.

Definition task_Monitor : Z := 0.
Definition task_MAC_Service : Z := 1.
Definition task_UDP_Service : Z := 2.
Definition task_Init : Z := 3.
Definition tasksNum : Z := task_Init + 1.

(** ** The modules below *)

(** What the tasks call.  [phy_poll]: [lpcPHYStsPoll]; [net_start]: [lwip_init]
    and the set-up of the interface; [net_input], [net_timers]: the calls of
    [emac_app::process] and [processTimers]; [set_connected]: the flag
    [netState.connected]; the rest are functions of the same names. *)
Class Board (D : Type) := {
  phy_poll : D -> D * Z;
  net_start : D -> D;
  net_set_link : bool -> D -> D;
  net_input : D -> outcome D;
  net_timers : D -> D;
  board_connected : D -> bool;
  set_connected : bool -> D -> D;
  set_app_tx : bool -> D -> D;
  udp_io_init : D -> outcome (D * Z);
  udp_io_rx : D -> outcome D;
  udp_io_tx : D -> outcome D;
  protocol_init : D -> D;
  data_buffers_init : D -> outcome D;
  slave_io_init : D -> D;
  slave_io_start : D -> D;
  slave_io_stop : D -> D;
  master_process : Z -> D -> outcome D;
}.

(** ** State *)

Inductive MacState :=
  | MacIdle | MacError | MacInitStart | MacInitWait | MacInitWaitTimeout | MacInitComplete
  | MacControlLinkStatus | MacLinkOff | MacLinkWait.

Inductive UdpState := UdpIdle | UdpInit | UdpInitOk | UdpProcess | UdpProcessRx | UdpProcessTx.

#[export] Instance MacState_eq_dec : EqDecision MacState.
Proof. solve_decision. Defined.
#[export] Instance UdpState_eq_dec : EqDecision UdpState.
Proof. solve_decision. Defined.

(** [TTaskMAC_Service] *)
Record MacTask := mkMac {
  mac_active : bool;
  mac_state : MacState;
  mac_timer : Z;
  mac_timer2 : Z;
  mac_timer3 : Z;
  mac_connected : bool;
}.

(** [TTaskUDP_Service] with [netState.UDP_initOk]. *)
Record UdpTask := mkUdpTask { ut_active : bool; ut_state : UdpState; ut_initOk : bool }.

(** [TTaskInit]; [TTaskMonitor]. *)
Record InitTask := mkInitTask { in_active : bool; in_state : Z; in_timer : Z }.
Record MonTask := mkMon { mon_active : bool; mon_timer : Z }.

(** [emac_app] *)
Record EmacApp := mkEmac {
  macAddress : list Z;
  em_ipaddr : Z;
  em_gw : Z;
  em_netmask : Z;
  em_linkStatus : Z;
}.

Record Sys (D : Type) := mkSys {
  sy_queue : TQueue TCMessage;
  sy_mon : MonTask;
  sy_mac : MacTask;
  sy_udp : UdpTask;
  sy_init : InitTask;
  sy_emac : EmacApp;
  sy_dev : D;
}.
Arguments mkSys {D}.
Arguments sy_queue {D}.
Arguments sy_mon {D}.
Arguments sy_mac {D}.
Arguments sy_udp {D}.
Arguments sy_init {D}.
Arguments sy_emac {D}.
Arguments sy_dev {D}.

Section Tasks.
Context {D : Type} `{Board D}.
Notation S := (Sys D).

Definition set_queue q (s : S) : S := mkSys q (sy_mon s) (sy_mac s) (sy_udp s) (sy_init s) (sy_emac s) (sy_dev s).
Definition set_mon x (s : S) : S := mkSys (sy_queue s) x (sy_mac s) (sy_udp s) (sy_init s) (sy_emac s) (sy_dev s).
Definition set_mac x (s : S) : S := mkSys (sy_queue s) (sy_mon s) x (sy_udp s) (sy_init s) (sy_emac s) (sy_dev s).
Definition set_udp x (s : S) : S := mkSys (sy_queue s) (sy_mon s) (sy_mac s) x (sy_init s) (sy_emac s) (sy_dev s).
Definition set_init x (s : S) : S := mkSys (sy_queue s) (sy_mon s) (sy_mac s) (sy_udp s) x (sy_emac s) (sy_dev s).
Definition set_emac x (s : S) : S := mkSys (sy_queue s) (sy_mon s) (sy_mac s) (sy_udp s) (sy_init s) x (sy_dev s).
Definition set_dev x (s : S) : S := mkSys (sy_queue s) (sy_mon s) (sy_mac s) (sy_udp s) (sy_init s) (sy_emac s) x.

Definition send_msg (g no : Z) (s : S) : outcome S :=
  '(s, _) ← sendMessage sy_queue set_queue g no 0 0 s; Ret s.

(** ** [emac_app] *)

Definition setMacAddress (MAC_hi MAC_lo : Z) (e : EmacApp) : EmacApp :=
  let byte u k := Z.land (Z.shiftr u k) 0xFF in
  mkEmac [byte MAC_hi 8; byte MAC_hi 0; byte MAC_lo 24; byte MAC_lo 16; byte MAC_lo 8; byte MAC_lo 0]
    (em_ipaddr e) (em_gw e) (em_netmask e) (em_linkStatus e).

Definition setIpAddress (ip gw mask : Z) (e : EmacApp) : EmacApp :=
  mkEmac (macAddress e) ip gw mask (em_linkStatus e).

Definition getLinkStatus (e : EmacApp) : Z := em_linkStatus e.

Definition em_set_link (b : Z) (e : EmacApp) : EmacApp :=
  mkEmac (macAddress e) (em_ipaddr e) (em_gw e) (em_netmask e) b.

Definition emac_init (s : S) : S := set_dev (net_start (sy_dev s)) (set_emac (em_set_link 0 (sy_emac s)) s).

Definition processLinkStatus (s : S) : S * bool :=
  let '(d, physts) := phy_poll (sy_dev s) in
  let s := set_dev d s in
  let changed := bool_decide (Z.land physts PHY_LINK_CHANGED <> 0) in
  let s :=
    if changed then
      if bool_decide (Z.land physts PHY_LINK_CONNECTED <> 0)
      then set_emac (em_set_link 1 (sy_emac s)) (set_dev (net_set_link true (sy_dev s)) s)
      else set_emac (em_set_link 0 (sy_emac s)) (set_dev (net_set_link false (sy_dev s)) s)
    else s in
  (s, changed).

(** ** [TTaskMAC_Service] *)

Definition TM_MAC_INIT_TIMEOUT : Z := 8000.
Definition TM_MAC_CONTROL_LINK : Z := 20.
Definition TM_MAC_TIMERS : Z := 10.
Definition DEFAULT_MAC_HI : Z := 0x60.
Definition DEFAULT_MAC_LO : Z := 0x37120000.
Definition X4_TO_IP4_ADDR (a b c d : Z) : Z :=
  Z.lor (Z.lor (Z.lor (Z.shiftl (Z.land d 0xff) 24) (Z.shiftl (Z.land c 0xff) 16)) (Z.shiftl (Z.land b 0xff) 8)) (Z.land a 0xff).
Definition DEFAULT_IP : Z := X4_TO_IP4_ADDR 192 168 0 136.
Definition DEFAULT_GW : Z := X4_TO_IP4_ADDR 192 168 0 1.
Definition DEFAULT_SMASK : Z := X4_TO_IP4_ADDR 255 255 255 0.

Definition mac_set_state st (m : MacTask) : MacTask :=
  mkMac (mac_active m) st (mac_timer m) (mac_timer2 m) (mac_timer3 m) (mac_connected m).
Definition mac_set_timer t (m : MacTask) : MacTask :=
  mkMac (mac_active m) (mac_state m) t (mac_timer2 m) (mac_timer3 m) (mac_connected m).
Definition mac_set_timer2 t (m : MacTask) : MacTask :=
  mkMac (mac_active m) (mac_state m) (mac_timer m) t (mac_timer3 m) (mac_connected m).
Definition mac_set_timer3 t (m : MacTask) : MacTask :=
  mkMac (mac_active m) (mac_state m) (mac_timer m) (mac_timer2 m) t (mac_connected m).
Definition mac_set_connected c (m : MacTask) : MacTask :=
  mkMac (mac_active m) (mac_state m) (mac_timer m) (mac_timer2 m) (mac_timer3 m) c.
Definition upd_mac (f : MacTask -> MacTask) (s : S) : S := set_mac (f (sy_mac s)) s.

Definition mac_activate (now : Z) (s : S) : outcome S := Ret (set_mac (mkMac true MacIdle now now now false) s).

Definition mac_deactivate (s : S) : outcome S :=
  Ret (upd_mac (fun m => mkMac false MacIdle (mac_timer m) (mac_timer2 m) (mac_timer3 m) (mac_connected m)) s).

Definition mac_handleEvent (msg : TCMessage) (s : S) : outcome (S * TCMessage) :=
  Ret (if bool_decide (msgNo msg = msgSysInit) then upd_mac (mac_set_state MacInitStart) s else s, msg).

(** The first part of [process]: the stack is served while the link is up. *)
Definition mac_serve (now : Z) (s : S) : outcome S :=
  if bool_decide (mac_state (sy_mac s) = MacControlLinkStatus) then
    d ← net_input (sy_dev s);
    let s := set_dev d s in
    Ret (if TIMEOUT (mac_timer3 (sy_mac s)) TM_MAC_TIMERS now
         then upd_mac (mac_set_timer3 now) (set_dev (net_timers (sy_dev s)) s) else s)
  else Ret s.

(** The second part: the link is polled every 20 ticks in the states that
    need it; [None] is the early return. *)
Definition mac_poll (now : Z) (s : S) : option S :=
  match mac_state (sy_mac s) with
  | MacInitWait | MacControlLinkStatus | MacLinkWait =>
      if TIMEOUT (mac_timer (sy_mac s)) TM_MAC_CONTROL_LINK now
      then Some (upd_mac (mac_set_timer now) (processLinkStatus s).1) else None
  | _ => Some s
  end.

(** The third part: the state machine. *)
Definition mac_step (now : Z) (s : S) : outcome S :=
  match mac_state (sy_mac s) with
  | MacIdle => Ret s
  | MacInitStart =>
      s ← send_msg grpNet msgNetInitStart s;
      let e := setMacAddress DEFAULT_MAC_HI (Z.lor DEFAULT_MAC_LO (Z.land DEFAULT_SERIAL_NUMBER 0xFFFF)) (sy_emac s) in
      let s := emac_init (set_emac (setIpAddress DEFAULT_IP DEFAULT_GW DEFAULT_SMASK e) s) in
      Ret (upd_mac (fun m => mac_set_timer now (mac_set_state MacInitWait m)) s)
  | MacInitWait =>
      Ret (if bool_decide (getLinkStatus (sy_emac s) <> 0) then upd_mac (mac_set_state MacInitComplete) s
           else if TIMEOUT (mac_timer (sy_mac s)) TM_MAC_INIT_TIMEOUT now
           then upd_mac (mac_set_state MacInitWaitTimeout) s else s)
  | MacInitWaitTimeout => Ret (upd_mac (mac_set_state MacInitStart) s)
  | MacInitComplete =>
      s ← send_msg grpNet msgNetInitOk s;
      s ← send_msg grpNet msgNetConnected s;
      Ret (upd_mac (fun m => mac_set_timer now (mac_set_state MacControlLinkStatus (mac_set_connected true m))) s)
  | MacControlLinkStatus =>
      Ret (if bool_decide (getLinkStatus (sy_emac s) = 0) then upd_mac (mac_set_state MacLinkOff) s else s)
  | MacLinkOff =>
      s ← send_msg grpNet msgNetDisconnected s;
      Ret (upd_mac (fun m => mac_set_timer now (mac_set_state MacLinkWait (mac_set_connected false m))) s)
  | MacLinkWait =>
      if bool_decide (getLinkStatus (sy_emac s) <> 0) then
        s ← send_msg grpNet msgNetConnected s;
        Ret (upd_mac (fun m => mac_set_state MacControlLinkStatus (mac_set_connected true m)) s)
      else Ret s
  | MacError =>
      s ← send_msg grpNet msgNetError s;
      Ret (upd_mac (mac_set_state MacIdle) s)
  end.

Definition mac_process (now : Z) (s : S) : outcome S :=
  s ← mac_serve now s;
  if bool_decide (mac_timer2 (sy_mac s) = now) then Ret s
  else
    let s := upd_mac (mac_set_timer2 now) s in
    match mac_poll now s with
    | None => Ret s
    | Some s => mac_step now s
    end.

(** ** [TTaskUDP_Service] *)

Definition DEFAULT_LOCAL_PORT : Z := 3000.
Definition DEFAULT_DEST_PORT : Z := 4023.

Definition ut_set_state st (t : UdpTask) : UdpTask := mkUdpTask (ut_active t) st (ut_initOk t).
Definition ut_set_initOk b (t : UdpTask) : UdpTask := mkUdpTask (ut_active t) (ut_state t) b.
Definition upd_udp (f : UdpTask -> UdpTask) (s : S) : S := set_udp (f (sy_udp s)) s.

Definition udp_activate (s : S) : outcome S :=
  Ret (set_dev (set_app_tx true (set_connected false (sy_dev s))) (set_udp (mkUdpTask true UdpIdle false) s)).

Definition udp_deactivate (s : S) : outcome S :=
  Ret (set_dev (set_app_tx false (sy_dev s)) (upd_udp (fun t => mkUdpTask false UdpIdle (ut_initOk t)) s)).

Definition udp_handleEvent (msg : TCMessage) (s : S) : outcome (S * TCMessage) :=
  let no := msgNo msg in
  Ret ((if bool_decide (no = msgNetInitStart) then upd_udp (ut_set_state UdpIdle) s
        else if bool_decide (no = msgNetInitOk) then upd_udp (ut_set_state UdpInit) s
        else if bool_decide (no = msgNetConnected) then
          let s := set_dev (set_connected true (sy_dev s)) s in
          if ut_initOk (sy_udp s) then upd_udp (ut_set_state UdpProcess) s
          else if bool_decide (ut_state (sy_udp s) <> UdpInit) then upd_udp (ut_set_state UdpInit) s else s
        else if bool_decide (no = msgNetDisconnected) then
          upd_udp (ut_set_state UdpIdle) (set_dev (set_connected false (sy_dev s)) s)
        else if bool_decide (no = msgNetError) then upd_udp (ut_set_state UdpIdle) s
        else s), msg).

Definition udp_process (s : S) : outcome S :=
  match ut_state (sy_udp s) with
  | UdpIdle => Ret s
  | UdpInit =>
      '(d, rc) ← udp_io_init (sy_dev s);
      let s := set_dev d s in
      if bool_decide (rc = 0)
      then send_msg grpNet msgUDP_InitOk (upd_udp (fun t => ut_set_state UdpInitOk (ut_set_initOk true t)) s)
      else send_msg grpNet msgUDP_InitError (upd_udp (fun t => ut_set_state UdpIdle (ut_set_initOk false t)) s)
  | UdpInitOk =>
      Ret (upd_udp (ut_set_state (if board_connected (sy_dev s) then UdpProcess else UdpIdle)) s)
  | UdpProcess => Ret (upd_udp (ut_set_state UdpProcessRx) s)
  | UdpProcessRx =>
      d ← udp_io_rx (sy_dev s); Ret (upd_udp (ut_set_state UdpProcessTx) (set_dev d s))
  | UdpProcessTx =>
      d ← udp_io_tx (sy_dev s); Ret (upd_udp (ut_set_state UdpProcess) (set_dev d s))
  end.

(** ** [TTaskMonitor] *)

Definition mon_activate (s : S) : outcome S :=
  send_msg grpSystem msgSysInit (set_mon (mkMon true (mon_timer (sy_mon s))) s).

Definition mon_deactivate (s : S) : outcome S := Ret (set_mon (mkMon false (mon_timer (sy_mon s))) s).

Definition mon_handleEvent (msg : TCMessage) (s : S) : outcome (S * TCMessage) :=
  let no := msgNo msg in
  Ret ((if bool_decide (no = msgSysInit) then set_dev (slave_io_init (sy_dev s)) s
        else if bool_decide (no = msgNetConnected) then set_dev (slave_io_start (sy_dev s)) s
        else if bool_decide (no = msgNetDisconnected) then set_dev (slave_io_stop (sy_dev s)) s
        else s), msg).

Definition mon_process (now : Z) (s : S) : outcome S :=
  d ← master_process now (sy_dev s);
  let s := set_dev d s in
  Ret (if TIMEOUT (mon_timer (sy_mon s)) 5 now then set_mon (mkMon (mon_active (sy_mon s)) now) s else s).

(** ** [TTaskInit] and the table of tasks *)

Definition init_activate (now : Z) (s : S) : outcome S := Ret (set_init (mkInitTask true 0 now) s).
Definition init_deactivate (s : S) : outcome S :=
  Ret (set_init (mkInitTask false (in_state (sy_init s)) (in_timer (sy_init s))) s).
Definition init_handleEvent (msg : TCMessage) (s : S) : outcome (S * TCMessage) := Ret (s, msg).

Definition tsMonitor (now : Z) : TBaseTask S :=
  mkTask TaskMask (fun s => mon_active (sy_mon s)) mon_activate mon_deactivate mon_handleEvent (mon_process now).
Definition tsMAC_Service (now : Z) : TBaseTask S :=
  mkTask (Z.lor grpSystem grpNet) (fun s => mac_active (sy_mac s)) (mac_activate now) mac_deactivate mac_handleEvent (mac_process now).
Definition tsUDP_Service : TBaseTask S :=
  mkTask (Z.lor grpSystem grpNetState) (fun s => ut_active (sy_udp s)) udp_activate udp_deactivate udp_handleEvent udp_process.

(** The other three, which [TTaskInit] activates. *)
Definition init_process (now : Z) (s : S) : outcome S :=
  let others := [tsMonitor now; tsMAC_Service now; tsUDP_Service] in
  if bool_decide (in_state (sy_init s) = 0) then
    Ret (set_init (mkInitTask (in_active (sy_init s)) 2 now) (set_dev (protocol_init (sy_dev s)) s))
  else if bool_decide (in_state (sy_init s) = 2) then
    d ← data_buffers_init (sy_dev s);
    Ret (set_init (mkInitTask (in_active (sy_init s)) 3 (in_timer (sy_init s))) (set_dev d s))
  else if bool_decide (in_state (sy_init s) = 3) then
    s ← activateTask others task_MAC_Service s;
    s ← activateTask others task_UDP_Service s;
    s ← activateTask others task_Monitor s;
    init_deactivate s
  else Ret s.

Definition tsInit (now : Z) : TBaseTask S :=
  mkTask TaskMask (fun s => in_active (sy_init s)) (init_activate now) init_deactivate init_handleEvent (init_process now).

Definition tasks (now : Z) : list (TBaseTask S) := [tsMonitor now; tsMAC_Service now; tsUDP_Service; tsInit now].

(** [initTasks]; [processTasks] of [tasks.cpp]. *)
Definition initTasks (now : Z) (s : S) : outcome S := activateTask (tasks now) task_Init s.

Definition main_loop (now : Z) (s : S) : outcome S :=
  s ← processTasks (tasks now) s;
  processMessages (tasks now) sy_queue set_queue 33 s.

(** A run of the main loop: one pass per element, which is the tick counter
    during the pass. *)
Fixpoint run (nows : list Z) (s : S) : outcome S :=
  match nows with
  | [] => Ret s
  | now :: nows => s ← main_loop now s; run nows s
  end.

End Tasks.

(** ** What the tasks rely on

    [board_ok] is an invariant of the modules below; only the calls made for it
    change the flag [connected].  A call that has an outcome may also not come
    back: it faults or it loops for ever. *)

Definition keeps {D} `{Board D} (ok : D -> Prop) (d d' : D) : Prop :=
  ok d' /\ board_connected d' = board_connected d.

Class BoardKeeps (D : Type) `{Board D} := {
  board_ok : D -> Prop;
  law_connected b d : board_ok d -> board_ok (set_connected b d) /\ board_connected (set_connected b d) = b;
  law_phy d : board_ok d -> keeps board_ok d (phy_poll d).1;
  law_start d : board_ok d -> keeps board_ok d (net_start d);
  law_link b d : board_ok d -> keeps board_ok d (net_set_link b d);
  law_input d d' : board_ok d -> net_input d = Ret d' -> keeps board_ok d d';
  law_timers d : board_ok d -> keeps board_ok d (net_timers d);
  law_app_tx b d : board_ok d -> keeps board_ok d (set_app_tx b d);
  law_protocol_init d : board_ok d -> keeps board_ok d (protocol_init d);
  law_sio_init d : board_ok d -> keeps board_ok d (slave_io_init d);
  law_sio_start d : board_ok d -> keeps board_ok d (slave_io_start d);
  law_sio_stop d : board_ok d -> keeps board_ok d (slave_io_stop d);
  law_udp_init d d' rc : board_ok d -> udp_io_init d = Ret (d', rc) -> keeps board_ok d d';
  law_udp_rx d d' : board_ok d -> udp_io_rx d = Ret d' -> keeps board_ok d d';
  law_udp_tx d d' : board_ok d -> udp_io_tx d = Ret d' -> keeps board_ok d d';
  law_buffers_init d d' : board_ok d -> data_buffers_init d = Ret d' -> keeps board_ok d d';
  law_master now d d' : board_ok d -> master_process now d = Ret d' -> keeps board_ok d d';
}.

(** Under [board_ok] every call comes back. *)
Class BoardLaws (D : Type) `{BoardKeeps D} := {
  runs_input d : board_ok d -> exists d', net_input d = Ret d';
  runs_udp_init d : board_ok d -> exists x, udp_io_init d = Ret x;
  runs_udp_rx d : board_ok d -> exists d', udp_io_rx d = Ret d';
  runs_udp_tx d : board_ok d -> exists d', udp_io_tx d = Ret d';
  runs_buffers_init d : board_ok d -> exists d', data_buffers_init d = Ret d';
  runs_master now d : board_ok d -> exists d', master_process now d = Ret d';
}.

(** Neither comes back, in the same way. *)
Definition same_stop {A B} (o : outcome A) (o' : outcome B) : Prop :=
  match o, o' with Spin, Spin | Fault, Fault => True | _, _ => False end.

(** The outcome [o] is that of a module below that does not come back, called
    in a state that satisfies the invariant. *)
Definition board_stops {D} `{BoardKeeps D} {A} (o : outcome A) : Prop :=
  exists d, board_ok d /\
    (same_stop (net_input d) o \/ same_stop (udp_io_init d) o \/ same_stop (udp_io_rx d) o \/ same_stop (udp_io_tx d) o \/
     same_stop (data_buffers_init d) o \/ exists now, same_stop (master_process now d) o).

Lemma same_stop_bind {A B C} (o : outcome A) (o' : outcome B) (K : B -> outcome C) : same_stop o o' -> same_stop o (o' ≫= K).
Proof. by destruct o, o'. Qed.

Lemma call_cases {A B} (c : outcome A) (K : A -> outcome B) : (exists a, c = Ret a) \/ same_stop c (c ≫= K).
Proof. destruct c; [left; eauto|by right..]. Qed.

Lemma board_stops_bind {D} `{BoardKeeps D} {A B} (o : outcome A) (K : A -> outcome B) : board_stops o -> board_stops (o ≫= K).
Proof.
  intros (d & Hd & Ho). exists d. split; [done|]. destruct Ho as [Ho|[Ho|[Ho|[Ho|[Ho|[now Ho]]]]]]; apply (same_stop_bind _ _ K) in Ho; eauto 10.
Qed.

Lemma board_stops_Ret {D} `{BoardKeeps D} {A} (a : A) : ~ board_stops (Ret a).
Proof.
  intros (d & _ & Ho). assert (forall B (o : outcome B), ~ same_stop o (Ret a)) as Hn by (by intros B [] ?).
  by destruct Ho as [[]%Hn|[[]%Hn|[[]%Hn|[[]%Hn|[[]%Hn|[now []%Hn]]]]]].
Qed.

Lemma laws_never_stop {D} `{BoardLaws D} {A} (o : outcome A) : ~ board_stops o.
Proof.
  intros (d & Hd & Ho). destruct (runs_input d Hd) as [? E1], (runs_udp_init d Hd) as [? E2], (runs_udp_rx d Hd) as [? E3],
    (runs_udp_tx d Hd) as [? E4], (runs_buffers_init d Hd) as [? E5].
  destruct Ho as [Ho|[Ho|[Ho|[Ho|[Ho|[now Ho]]]]]]; rewrite ?E1, ?E2, ?E3, ?E4, ?E5 in Ho; [by destruct o..|].
  destruct (runs_master now d Hd) as [? E6]. rewrite E6 in Ho. by destruct o.
Qed.

Section Invariant.
Context {D : Type} `{BoardKeeps D}.
Notation S := (Sys D).

(** The link task never waits for a time-out and never sees an error. *)
Definition mac_fine (m : MacTask) : Prop := mac_state m <> MacInitWaitTimeout /\ mac_state m <> MacError.

(** The exchange runs only over a connection and an initialised UDP module. *)
Definition udp_fine (connected : bool) (t : UdpTask) : Prop :=
  match ut_state t with
  | UdpProcess | UdpProcessRx | UdpProcessTx => connected = true /\ ut_initOk t = true
  | UdpInitOk => ut_initOk t = true
  | UdpIdle | UdpInit => True
  end.

Record sys_inv (s : S) : Prop := {
  inv_board : board_ok (sy_dev s);
  inv_mac : mac_fine (sy_mac s);
  inv_udp : udp_fine (board_connected (sy_dev s)) (sy_udp s);
}.

(** The messages [l] wait, in the queue of the program. *)
Definition waiting (l : list TCMessage) (s : S) : Prop :=
  tq_rep (sy_queue s) l /\ tq_msgBufferSize (sy_queue s) = MESSAGE_QUEUE_SIZE.

(** The outcome keeps the invariant and adds at most [k] messages to [l], unless
    a module below stops. *)
Definition adds (k : nat) (l : list TCMessage) (o : outcome S) : Prop :=
  board_stops o \/ exists l' s', o = Ret s' /\ sys_inv s' /\ waiting (l ++ l') s' /\ (length l' <= k)%nat.

Definition sends (k : nat) (f : S -> outcome S) : Prop :=
  forall l s, sys_inv s -> waiting l s -> (length l + k <= 32)%nat -> adds k l (f s).

Lemma send_msg_waiting g no l s :
  waiting l s -> (length l < 32)%nat ->
  exists q, send_msg g no s = Ret (set_queue q s) /\ waiting (l ++ [TCMessage_new g no 0 0]) (set_queue q s).
Proof.
  intros [Hr Hn] Hl. unfold send_msg, sendMessage. pose proof Hr as [Hi Hc].
  destruct (size_range _ Hi) as (_ & _ & Hf). pose proof (tq_contents_length _ Hi) as Hlen. rewrite Hc in Hlen.
  unfold MESSAGE_QUEUE_SIZE in *. destruct (full (sy_queue s)) eqn:E; [apply Hf in E; lia|].
  destruct (push_rep _ _ (TCMessage_new g no 0 0) Hr E) as (q & -> & Hq & Hn').
  exists q. split; [done|]. split; [done|]. unfold MESSAGE_QUEUE_SIZE. cbn. by rewrite Hn'.
Qed.

Lemma adds_ret k l s : sys_inv s -> waiting l s -> adds k l (Ret s).
Proof. intros. right. exists [], s. rewrite app_nil_r. split_and!; [done..|simpl; lia]. Qed.

Lemma adds_mono j k l o : (j <= k)%nat -> adds j l o -> adds k l o.
Proof. intros ? [?|(l' & s' & ? & ? & ? & ?)]; [by left|right]. exists l', s'. split_and!; [done..|lia]. Qed.

Lemma adds_bind j k l o (g : S -> outcome S) :
  (length l + (j + k) <= 32)%nat -> adds j l o ->
  (forall l' s', sys_inv s' -> waiting l' s' -> (length l' + k <= 32)%nat -> adds k l' (g s')) -> adds (j + k) l (o ≫= g).
Proof.
  intros Hl [Hst|(l1 & s1 & -> & Hs1 & Hw1 & Hl1)] Hg; [left; by apply board_stops_bind|].
  destruct (Hg _ _ Hs1 Hw1) as [?|(l2 & s2 & Hg2 & Hs2 & Hw2 & Hl2)]; [rewrite length_app; lia|by left|right].
  exists (l1 ++ l2), s2. rewrite app_assoc, length_app. split_and!; [done..|lia].
Qed.

Lemma sys_inv_queue q s : sys_inv s -> sys_inv (set_queue q s).
Proof. intros []. by constructor. Qed.

Lemma adds_msg g no l s :
  sys_inv s -> waiting l s -> (length l < 32)%nat -> adds 1 l (send_msg g no s).
Proof.
  intros Hs Hw Hl. destruct (send_msg_waiting g no l s Hw Hl) as (q & Hq & Hw'). right.
  exists [TCMessage_new g no 0 0], (set_queue q s). split_and!; [done|by apply sys_inv_queue|done|simpl; lia].
Qed.

(** A message first, then the rest from a state that differs in its queue. *)
Lemma adds_msg_then k g no l s (K : S -> outcome S) :
  sys_inv s -> waiting l s -> (length l < 32)%nat ->
  (forall q m, sys_inv (set_queue q s) -> waiting (l ++ [m]) (set_queue q s) -> adds k (l ++ [m]) (K (set_queue q s))) ->
  adds (1 + k) l (send_msg g no s ≫= K).
Proof.
  intros Hs Hw Hl HK. destruct (send_msg_waiting g no l s Hw Hl) as (q & -> & Hw').
  destruct (HK q _ (sys_inv_queue q s Hs) Hw') as [?|(l2 & s2 & HK2 & Hs2 & Hw2 & Hl2)]; [by left|right].
  exists (TCMessage_new g no 0 0 :: l2), s2. rewrite <-app_assoc in Hw2. split_and!; [done..|simpl; lia].
Qed.

(** A change of the modules below, or of the tasks, that keeps the invariant. *)
Lemma sys_inv_dev d s : sys_inv s -> keeps board_ok (sy_dev s) d -> sys_inv (set_dev d s).
Proof. intros [? ? Hu] [? Hc]. constructor; cbn; [done..|by rewrite Hc]. Qed.

Lemma sys_inv_mac f s : sys_inv s -> mac_fine (f (sy_mac s)) -> sys_inv (upd_mac f s).
Proof. intros [] ?. by constructor. Qed.

Lemma sys_inv_udp f s : sys_inv s -> udp_fine (board_connected (sy_dev s)) (f (sy_udp s)) -> sys_inv (upd_udp f s).
Proof. intros [] ?. by constructor. Qed.

Lemma sys_inv_emac e s : sys_inv s -> sys_inv (set_emac e s).
Proof. intros []. by constructor. Qed.

Lemma processLinkStatus_inv s : sys_inv s -> sys_inv (processLinkStatus s).1.
Proof.
  intros Hs. unfold processLinkStatus. pose proof (law_phy (sy_dev s) (inv_board s Hs)) as Hp.
  destruct (phy_poll (sy_dev s)) as [d physts]. cbn [fst] in *.
  pose proof (sys_inv_dev d s Hs Hp) as Hs1. case_bool_decide; [|done]. case_bool_decide; cbn [fst].
  - apply sys_inv_emac, sys_inv_dev; [done|]. apply law_link. by destruct Hs1.
  - apply sys_inv_emac, sys_inv_dev; [done|]. apply law_link. by destruct Hs1.
Qed.

Lemma mac_serve_inv now s :
  sys_inv s -> board_stops (mac_serve now s) \/ exists s', mac_serve now s = Ret s' /\ sys_inv s' /\ sy_queue s' = sy_queue s.
Proof.
  intros Hs. pose proof (inv_board s Hs) as Hb. unfold mac_serve. case_bool_decide as Hst; [|right; by exists s].
  match goal with |- context [_ ≫= ?K] => destruct (call_cases (net_input (sy_dev s)) K) as [[d Hd]|Hx] end; [right|left; exists (sy_dev s); auto].
  pose proof (law_input _ _ Hb Hd) as Hk. rewrite Hd. cbn [mbind outcome_bind].
  pose proof (sys_inv_dev d s Hs Hk) as H1'. eexists. split; [done|].
  destruct (TIMEOUT _ _ _); [|done].
  assert (sys_inv (set_dev (net_timers d) (set_dev d s))) as H2
    by (apply sys_inv_dev; [done|]; apply law_timers; by destruct H1').
  split; [|done]. apply sys_inv_mac; [done|]. by destruct H2.
Qed.

(** A poll resets the timer, so that the state machine never finds more than
    8000 ticks on it. *)
Lemma mac_poll_inv now s s' :
  sys_inv s -> mac_poll now s = Some s' ->
  sys_inv s' /\ sy_queue s' = sy_queue s /\ (mac_state (sy_mac s') = MacInitWait -> mac_timer (sy_mac s') = now).
Proof.
  intros Hs. unfold mac_poll. assert (sy_queue (processLinkStatus s).1 = sy_queue s) as Hq.
  { unfold processLinkStatus. destruct (phy_poll _) as [d p]. by repeat case_bool_decide. }
  assert (Some (upd_mac (mac_set_timer now) (processLinkStatus s).1) = Some s' ->
    sys_inv s' /\ sy_queue s' = sy_queue s /\ (mac_state (sy_mac s') = MacInitWait -> mac_timer (sy_mac s') = now)) as Hp.
  { intros [= <-]. split_and!; [|done|done]. apply processLinkStatus_inv in Hs. apply sys_inv_mac; [done|]. by destruct Hs. }
  destruct (mac_state (sy_mac s)) eqn:E; try (intros [= <-]; rewrite E; done);
    (destruct (TIMEOUT _ _ _); [exact Hp|done]).
Qed.

Lemma TIMEOUT_now now : TIMEOUT now TM_MAC_INIT_TIMEOUT now = false.
Proof.
  unfold TIMEOUT, TM_MAC_INIT_TIMEOUT, difftime. rewrite (bool_decide_true (now >= now)) by lia.
  rewrite Z.sub_diag. done.
Qed.

Lemma mac_step_adds now l s :
  sys_inv s -> waiting l s -> (length l + 2 <= 32)%nat ->
  (mac_state (sy_mac s) = MacInitWait -> mac_timer (sy_mac s) = now) -> adds 2 l (mac_step now s).
Proof.
  intros Hs Hw Hl Ht. pose proof (inv_mac s Hs) as [Hf1 Hf2]. unfold mac_step.
  destruct (mac_state (sy_mac s)) eqn:E; try done.
  - by apply adds_ret.
  - apply adds_msg_then; [done..|lia|]. intros q m Hs' Hw'. apply adds_ret; [|done].
    apply sys_inv_mac; [|done]. apply (sys_inv_dev _ (set_emac _ (set_emac _ (set_queue q s)))); [by do 2 apply sys_inv_emac|].
    apply law_start. by destruct Hs.
  - apply adds_ret; [|by repeat case_match]. rewrite Ht, TIMEOUT_now by done.
    case_bool_decide; [|done]. by apply sys_inv_mac.
  - apply adds_msg_then; [done..|lia|]. intros q m Hs' Hw'. rewrite <-(Nat.add_0_r 1).
    apply adds_msg_then; [done..|rewrite length_app; simpl; lia|]. intros q2 m2 Hs2 Hw2. apply adds_ret; [|done].
    by apply sys_inv_mac.
  - apply adds_ret; [|by case_bool_decide]. case_bool_decide; [|done]. by apply sys_inv_mac.
  - apply (adds_mono (1 + 0)); [lia|]. apply adds_msg_then; [done..|lia|]. intros q m Hs' Hw'. apply adds_ret; [|done].
    by apply sys_inv_mac.
  - case_bool_decide; [|by apply adds_ret].
    apply (adds_mono (1 + 0)); [lia|]. apply adds_msg_then; [done..|lia|]. intros q m Hs' Hw'. apply adds_ret; [|done].
    by apply sys_inv_mac.
Qed.

Lemma mac_process_sends now : sends 2 (mac_process now).
Proof.
  intros l s Hs Hw Hl. unfold mac_process. destruct (mac_serve_inv now s Hs) as [Hx|(s1 & -> & Hs1 & Hq1)]; [left; by apply board_stops_bind|]. cbn [mbind outcome_bind].
  assert (waiting l s1) as Hw1 by (unfold waiting; by rewrite Hq1).
  case_bool_decide; [by apply adds_ret|].
  assert (sys_inv (upd_mac (mac_set_timer2 now) s1)) as Hs2 by (apply sys_inv_mac; [done|]; by destruct Hs1).
  destruct (mac_poll now _) as [s3|] eqn:E; [|by apply adds_ret].
  apply mac_poll_inv in E as (Hs3 & Hq & Ht); [|done]. apply mac_step_adds; [done| |done..].
  unfold waiting. by rewrite Hq.
Qed.

Lemma udp_process_sends : sends 1 udp_process.
Proof.
  intros l s Hs Hw Hl. unfold udp_process. pose proof (inv_board s Hs) as Hb. pose proof (inv_udp s Hs) as Hu.
  unfold udp_fine in Hu. destruct (ut_state (sy_udp s)) eqn:E.
  - by apply adds_ret.
  - match goal with |- context [udp_io_init (sy_dev s) ≫= ?K] => destruct (call_cases (udp_io_init (sy_dev s)) K) as [[[d rc] Hd]|Hx] end; [|left; exists (sy_dev s); eauto 10].
    pose proof (law_udp_init _ _ _ Hb Hd) as Hk. rewrite Hd. cbn [mbind outcome_bind].
    pose proof (sys_inv_dev d s Hs Hk) as Hs1.
    case_bool_decide; (apply adds_msg; [by apply sys_inv_udp|done|lia]).
  - apply adds_ret; [|done]. apply sys_inv_udp; [done|]. by destruct (board_connected _).
  - apply adds_ret; [|done]. by apply sys_inv_udp.
  - match goal with |- context [udp_io_rx (sy_dev s) ≫= ?K] => destruct (call_cases (udp_io_rx (sy_dev s)) K) as [[d Hd]|Hx] end; [|left; exists (sy_dev s); eauto 10].
    pose proof (law_udp_rx _ _ Hb Hd) as Hk. rewrite Hd. apply adds_ret; [|done].
    pose proof (sys_inv_dev d s Hs Hk) as Hs1. apply sys_inv_udp; [done|]. cbn. destruct Hk as [_ ->]. done.
  - match goal with |- context [udp_io_tx (sy_dev s) ≫= ?K] => destruct (call_cases (udp_io_tx (sy_dev s)) K) as [[d Hd]|Hx] end; [|left; exists (sy_dev s); eauto 10].
    pose proof (law_udp_tx _ _ Hb Hd) as Hk. rewrite Hd. apply adds_ret; [|done].
    pose proof (sys_inv_dev d s Hs Hk) as Hs1. apply sys_inv_udp; [done|]. cbn. destruct Hk as [_ ->]. done.
Qed.

Lemma mon_process_sends now : sends 0 (mon_process now).
Proof.
  intros l s Hs Hw Hl. unfold mon_process. pose proof (inv_board s Hs) as Hb.
  match goal with |- context [master_process now (sy_dev s) ≫= ?K] => destruct (call_cases (master_process now (sy_dev s)) K) as [[d Hd]|Hx] end; [|left; exists (sy_dev s); eauto 10].
  pose proof (law_master now _ _ Hb Hd) as Hk. rewrite Hd. pose proof (sys_inv_dev d s Hs Hk) as Hs1. apply adds_ret; [|by destruct (TIMEOUT _ _ _)].
  destruct (TIMEOUT _ _ _); [|done]. destruct Hs1. by constructor.
Qed.

Lemma sys_inv_init x s : sys_inv s -> sys_inv (set_init x s).
Proof. intros []. by constructor. Qed.

Lemma sys_inv_mon x s : sys_inv s -> sys_inv (set_mon x s).
Proof. intros []. by constructor. Qed.

Lemma mac_activate_adds now l s : sys_inv s -> waiting l s -> adds 0 l (mac_activate now s).
Proof. intros [] Hw. apply adds_ret; [by constructor|done]. Qed.

Lemma udp_activate_adds l s : sys_inv s -> waiting l s -> adds 0 l (udp_activate s).
Proof.
  intros [] Hw. apply adds_ret; [|done]. destruct (law_connected false (sy_dev s)) as [Hb Hc]; [done|].
  destruct (law_app_tx true (set_connected false (sy_dev s)) Hb) as [Hb2 Hc2]. by constructor.
Qed.

Lemma mon_activate_adds l s : sys_inv s -> waiting l s -> (length l < 32)%nat -> adds 1 l (mon_activate s).
Proof. intros Hs Hw Hl. apply adds_msg; [by apply sys_inv_mon|done|done]. Qed.

(** A task that is activated only when it is not active. *)
Lemma activate_adds k l (t : TBaseTask S) ts i s :
  rd ts i = Some t -> sys_inv s -> waiting l s -> adds k l (tk_activate t s) -> adds k l (activateTask ts i s).
Proof.
  intros Ht Hs Hw Ha. unfold activateTask, task. rewrite Ht. cbn [checked mbind outcome_bind].
  destruct (tk_active t s); [by apply adds_ret|done].
Qed.

Lemma init_process_sends now : sends 1 (init_process now).
Proof.
  intros l s Hs Hw Hl. unfold init_process. pose proof (inv_board s Hs) as Hb. case_bool_decide.
  { apply adds_ret; [|done]. apply sys_inv_init, sys_inv_dev; [done|]. by apply law_protocol_init. }
  case_bool_decide.
  { match goal with |- context [data_buffers_init (sy_dev s) ≫= ?K] => destruct (call_cases (data_buffers_init (sy_dev s)) K) as [[d Hd]|Hx] end; [|left; exists (sy_dev s); eauto 10].
    pose proof (law_buffers_init _ _ Hb Hd) as Hk. rewrite Hd. apply adds_ret; [|done].
    by apply sys_inv_init, sys_inv_dev. }
  case_bool_decide; [|by apply adds_ret].
  apply (adds_bind 0 1); [lia|eapply activate_adds; [done..|by apply mac_activate_adds]|].
  intros l1 s1 Hs1 Hw1 Hl1. apply (adds_bind 0 1); [lia|eapply activate_adds; [done..|by apply udp_activate_adds]|].
  intros l2 s2 Hs2 Hw2 Hl2.
  apply (adds_bind 1 0); [lia|eapply activate_adds; [done..|apply mon_activate_adds; [done..|lia]]|].
  intros l3 s3 Hs3 Hw3 _. apply adds_ret; [|done]. by apply sys_inv_init.
Qed.

(** The tasks in turn: four messages at most in a pass. *)
Lemma processTasks_sends now : sends 4 (processTasks (tasks now)).
Proof.
  assert (forall k (t : TBaseTask S), sends k (tk_process t) ->
    forall l s, sys_inv s -> waiting l s -> (length l + k <= 32)%nat ->
    adds k l (if tk_active t s then tk_process t s else Ret s)) as Hone.
  { intros k t Ht l s Hs Hw Hl. destruct (tk_active t s); [by apply Ht|by apply adds_ret]. }
  intros l s Hs Hw Hl. unfold processTasks, tasks. cbn [process_from].
  apply (adds_bind 0 4); [lia|apply (Hone 0%nat); [apply (mon_process_sends now)|done|done|lia]|].
  intros l1 s1 Hs1 Hw1 Hl1. apply (adds_bind 2 2); [lia|apply (Hone 2%nat); [apply (mac_process_sends now)|done|done|lia]|].
  intros l2 s2 Hs2 Hw2 Hl2. apply (adds_bind 1 1); [lia|apply (Hone 1%nat); [apply udp_process_sends|done|done|lia]|].
  intros l3 s3 Hs3 Hw3 Hl3. rewrite <-(Nat.add_0_r 1).
  apply (adds_bind 1 0); [lia|apply (Hone 1%nat); [apply (init_process_sends now)|done|done|lia]|].
  intros. by apply adds_ret.
Qed.

(** ** Messages *)

Lemma msgQueue_set q (s : S) : sy_queue (set_queue q s) = q.
Proof. reflexivity. Qed.

Lemma tasks_quiet now : quiet (tasks now) (fun s : S => sy_queue s).
Proof.
  intros t msg s s' msg' Ht Hh. unfold tasks in Ht. rewrite !elem_of_cons in Ht.
  destruct Ht as [->|[->|[->|[->|Ht]]]]; cbn in Hh.
  - unfold mon_handleEvent in Hh. inv_ret. by repeat case_bool_decide.
  - unfold mac_handleEvent in Hh. inv_ret. by repeat case_bool_decide.
  - unfold udp_handleEvent in Hh. inv_ret. repeat case_bool_decide; done || by destruct (ut_initOk _).
  - unfold init_handleEvent in Hh. by inv_ret.
  - by apply elem_of_nil in Ht.
Qed.

Lemma handle_inv now (t : TBaseTask S) msg s :
  t ∈ tasks now -> sys_inv s -> exists s' msg', tk_handleEvent t msg s = Ret (s', msg') /\ sys_inv s'.
Proof.
  intros Ht Hs. pose proof (inv_board s Hs) as Hb. unfold tasks in Ht. rewrite !elem_of_cons in Ht.
  destruct Ht as [->|[->|[->|[->|Ht]]]]; cbn [tk_handleEvent tsMonitor tsMAC_Service tsUDP_Service tsInit].
  - eexists _, _. split; [done|]. repeat case_bool_decide; [apply sys_inv_dev; [done|]..|done].
    + by apply law_sio_init.
    + by apply law_sio_start.
    + by apply law_sio_stop.
  - eexists _, _. split; [done|]. case_bool_decide; [by apply sys_inv_mac|done].
  - eexists _, _. split; [done|].
    destruct (law_connected true (sy_dev s) Hb) as [Hb1 Hc1]. destruct (law_connected false (sy_dev s) Hb) as [Hb2 Hc2].
    destruct Hs as [Hbo Hm Hu].
    case_bool_decide; [by constructor|]. case_bool_decide; [by constructor|]. case_bool_decide.
    { cbv zeta. change (sy_udp (set_dev _ s)) with (sy_udp s).
      destruct (ut_initOk (sy_udp s)) eqn:Eok; [by constructor|].
      case_bool_decide as Hst; [by constructor|].
      constructor; [done..|]. unfold udp_fine. change (sy_udp (set_dev _ s)) with (sy_udp s). by rewrite Hst. }
    case_bool_decide; [by constructor|]. case_bool_decide; [by constructor|done].
  - eexists _, _. by split.
  - by apply elem_of_nil in Ht.
Qed.

Lemma deliver_inv now msg s : sys_inv s -> exists s', deliver (tasks now) msg s = Ret s' /\ sys_inv s'.
Proof.
  assert (forall ts, (forall t, t ∈ ts -> t ∈ tasks now) -> forall msg s, sys_inv s ->
    exists s', deliver ts msg s = Ret s' /\ sys_inv s') as Hgen; [|by apply Hgen].
  clear msg s. induction ts as [|t ts IH]; intros Hsub msg s Hs; cbn [deliver]; [eauto|].
  destruct (discard msg); [eauto|].
  assert (forall t, t ∈ ts -> t ∈ tasks now) as Hsub' by (intros; apply Hsub, elem_of_cons; by right).
  destruct (wants t msg s); [|by apply IH].
  destruct (handle_inv now t msg s) as (s1 & m1 & -> & Hs1); [apply Hsub, elem_of_cons; by left|done|].
  cbn [mbind outcome_bind]. by apply IH.
Qed.

Lemma deliver_all_inv now l s :
  sys_inv s -> exists s', deliver_all (tasks now) sy_queue set_queue l s = Ret s' /\ sys_inv s' /\
    (tq_msgBufferSize (sy_queue s') = tq_msgBufferSize (sy_queue s)).
Proof.
  revert s. induction l as [|msg l IH]; intros s Hs; cbn [deliver_all]; [eauto|].
  destruct (deliver_inv now msg s Hs) as (s1 & Hd & Hs1). rewrite Hd. cbn [mbind outcome_bind].
  pose proof (deliver_quiet _ _ _ _ _ (tasks_quiet now) Hd) as Hq.
  destruct (IH (set_queue (pop (sy_queue s1)) s1)) as (s2 & -> & Hs2 & Hn); [by apply sys_inv_queue|].
  exists s2. split_and!; [done..|]. rewrite Hn. cbn. rewrite Hq. unfold pop. by destruct (empty _).
Qed.

(** One pass of the main loop. *)
Lemma main_loop_inv now s :
  sys_inv s -> waiting [] s -> board_stops (main_loop now s) \/ exists s', main_loop now s = Ret s' /\ sys_inv s' /\ waiting [] s'.
Proof.
  intros Hs Hw. unfold main_loop. destruct (processTasks_sends now [] s Hs Hw) as [Hx|(l & s1 & -> & Hs1 & Hw1 & Hl)];
    [simpl; lia|left; by apply board_stops_bind|right].
  cbn [mbind outcome_bind app]. destruct Hw1 as [Hr Hn].
  destruct (processMessages_delivers (tasks now) sy_queue set_queue msgQueue_set l 33 s1) as [-> Hend];
    [apply tasks_quiet|done|lia|].
  destruct (deliver_all_inv now l s1 Hs1) as (s2 & Hd & Hs2 & Hn2). exists s2. split_and!; [done..|].
  split; [by apply Hend|congruence].
Qed.

(** Before the start: nothing is active, no message waits. *)
Definition fresh (s : S) : Prop :=
  board_ok (sy_dev s) /\ waiting [] s /\ mac_state (sy_mac s) = MacIdle /\ ut_state (sy_udp s) = UdpIdle /\
  in_active (sy_init s) = false.

(** C7: The main loop.  Started by [initTasks] and called any number of
    times, at any values of the tick counter, the loop stops only if a module
    below does: then it faults or spins as the call of that module, made in a
    state that the modules can reach (that satisfies whatever they keep), faults
    or spins; the tasks, the queue of messages and its delivery add no fault and
    no endless loop.  Otherwise every pass comes back: no pass sends more
    messages than the queue has room for, the messages of a pass are delivered
    in it, and the queue is empty between the passes.  Between the passes the
    UDP exchange runs only while the network is connected and the UDP module
    initialised, and the link task is never in the states
    [kStInitWaitTimeout] and [kStError]: its time-out of 8000 ticks is tested on
    a timer that has just been reset, so that a failed initialisation of the
    network is never tried again. *)
Theorem main_loop_runs (now0 : Z) (nows : list Z) (s : S) :
  fresh s ->
  let o := s ← initTasks now0 s; run nows s in
  board_stops o \/
  exists s', o = Ret s' /\ waiting [] s' /\ board_ok (sy_dev s') /\
    mac_state (sy_mac s') <> MacInitWaitTimeout /\ mac_state (sy_mac s') <> MacError /\
    (ut_state (sy_udp s') ∈ [UdpProcess; UdpProcessRx; UdpProcessTx] ->
     board_connected (sy_dev s') = true /\ ut_initOk (sy_udp s') = true).
Proof.
  intros (Hb & Hw & Hm & Hu & Ha) o. subst o.
  assert (sys_inv s) as Hs.
  { constructor; [done|by unfold mac_fine; rewrite Hm|by unfold udp_fine; rewrite Hu]. }
  assert (initTasks now0 s = Ret (set_init (mkInitTask true 0 now0) s)) as ->.
  { unfold initTasks, activateTask. change (task (tasks now0) task_Init) with (Ret (tsInit (D:=D) now0)).
    cbn [mbind outcome_bind tk_active tsInit]. by rewrite Ha. }
  cbn [mbind outcome_bind].
  assert (forall s, sys_inv s -> waiting [] s -> board_stops (run nows s) \/ exists s', run nows s = Ret s' /\ sys_inv s' /\ waiting [] s') as Hrun.
  { clear. induction nows as [|now nows IH]; intros s Hs Hw; cbn [run]; [eauto|].
    destruct (main_loop_inv now s Hs Hw) as [Hx|(s1 & -> & Hs1 & Hw1)]; [left; by apply board_stops_bind|].
    cbn [mbind outcome_bind]. by apply IH. }
  destruct (Hrun (set_init (mkInitTask true 0 now0) s)) as [Hx|(s' & -> & [Hb' [Hm1 Hm2] Hu'] & Hw')]; [by apply sys_inv_init|done|by left|].
  right. exists s'. split_and!; [done..|]. intros Hst. unfold udp_fine in Hu'.
  repeat (apply elem_of_cons in Hst as [Hst|Hst]; [by rewrite Hst in Hu'|]). by apply elem_of_nil in Hst.
Qed.

(** ** Loss and return of the link *)

(** In normal operation the start task is done and the other three are active. *)
Definition all_active (s : S) : Prop :=
  mon_active (sy_mon s) = true /\ mac_active (sy_mac s) = true /\ ut_active (sy_udp s) = true /\
  in_active (sy_init s) = false.

Notation net_msg no := (TCMessage_new grpNet no 0 0).
Notation deliver_msgs now := (deliver_all (tasks now) sy_queue set_queue).

(** A message of the group [grpNet] goes to the three active tasks in turn. *)
Lemma deliver_net now no s s1 s2 s3 :
  all_active s -> mon_handleEvent (net_msg no) s = Ret (s1, net_msg no) -> all_active s1 ->
  mac_handleEvent (net_msg no) s1 = Ret (s2, net_msg no) -> all_active s2 ->
  udp_handleEvent (net_msg no) s2 = Ret (s3, net_msg no) -> all_active s3 ->
  deliver (tasks now) (net_msg no) s = Ret s3.
Proof.
  intros (Ha & _ & _ & _) H1 (_ & Hb & _ & _) H2 (_ & _ & Hc & _) H3 (_ & _ & _ & Hd).
  unfold tasks. cbn [deliver discard TCMessage_new].
  assert (wants (tsMonitor now) (net_msg no) s = true) as ->
    by (unfold wants; cbn [tk_active tsMonitor]; rewrite Ha; done).
  cbn [tk_handleEvent tsMonitor]. rewrite H1. cbn [mbind outcome_bind discard TCMessage_new].
  assert (wants (tsMAC_Service now) (net_msg no) s1 = true) as ->
    by (unfold wants; cbn [tk_active tsMAC_Service]; rewrite Hb; done).
  cbn [tk_handleEvent tsMAC_Service]. rewrite H2. cbn [mbind outcome_bind discard TCMessage_new].
  assert (wants tsUDP_Service (net_msg no) s2 = true) as ->
    by (unfold wants; cbn [tk_active tsUDP_Service]; rewrite Hc; done).
  cbn [tk_handleEvent tsUDP_Service]. rewrite H3. cbn [mbind outcome_bind discard TCMessage_new].
  assert (wants (tsInit now) (net_msg no) s3 = false) as ->; [|done].
  unfold wants. cbn [tk_active tsInit]. by rewrite Hd.
Qed.

Lemma deliver_disconnected now s :
  all_active s -> deliver (tasks now) (net_msg msgNetDisconnected) s =
    Ret (upd_udp (ut_set_state UdpIdle) (set_dev (set_connected false (slave_io_stop (sy_dev s))) s)).
Proof. intros Ha. by eapply deliver_net. Qed.


(** The messages about the UDP module go to nobody. *)
Lemma deliver_udp_notice now no s :
  all_active s -> no ∈ [msgUDP_InitOk; msgUDP_InitError] -> deliver (tasks now) (net_msg no) s = Ret s.
Proof.
  intros Ha Hno. rewrite !elem_of_cons in Hno. destruct Hno as [->|[->|Hno]]; [by eapply deliver_net..|].
  by apply elem_of_nil in Hno.
Qed.

(** What the UDP task does in a pass, seen from the others. *)
Lemma udp_process_effect l s :
  sys_inv s -> waiting l s -> (length l < 32)%nat ->
  board_stops (udp_process s) \/
  exists d t q l', udp_process s = Ret (set_queue q (set_udp t (set_dev d s))) /\ keeps board_ok (sy_dev s) d /\
    ut_active t = ut_active (sy_udp s) /\ tq_rep q (l ++ l') /\
    (l' = [] \/ exists no, l' = [net_msg no] /\ no ∈ [msgUDP_InitOk; msgUDP_InitError]) /\
    (ut_state (sy_udp s) = UdpIdle -> ut_state t = UdpIdle /\ ut_initOk t = ut_initOk (sy_udp s)).
Proof.
  intros Hs Hw Hl. pose proof (inv_board s Hs) as Hb. assert (keeps board_ok (sy_dev s) (sy_dev s)) as Hk0 by done.
  assert (forall d t, keeps board_ok (sy_dev s) d -> ut_active t = ut_active (sy_udp s) ->
    (ut_state (sy_udp s) = UdpIdle -> ut_state t = UdpIdle /\ ut_initOk t = ut_initOk (sy_udp s)) ->
    exists d' t' q l', Ret (set_udp t (set_dev d s)) = Ret (set_queue q (set_udp t' (set_dev d' s))) /\ keeps board_ok (sy_dev s) d' /\
    ut_active t' = ut_active (sy_udp s) /\ tq_rep q (l ++ l') /\
    (l' = [] \/ exists no, l' = [net_msg no] /\ no ∈ [msgUDP_InitOk; msgUDP_InitError]) /\
    (ut_state (sy_udp s) = UdpIdle -> ut_state t' = UdpIdle /\ ut_initOk t' = ut_initOk (sy_udp s))) as Hret.
  { intros d t Hd Ht Hi. exists d, t, (sy_queue s), []. rewrite app_nil_r. destruct Hw. split_and!; try done. by left. }
  unfold udp_process. destruct (ut_state (sy_udp s)) eqn:E.
  - right. destruct (Hret (sy_dev s) (sy_udp s)) as (d & t & q & l' & Hx & Hrest); [done..|].
    exists d, t, q, l'. rewrite <-Hx. split; [by destruct s|done].
  - match goal with |- context [udp_io_init (sy_dev s) ≫= ?K] => destruct (call_cases (udp_io_init (sy_dev s)) K) as [[[d rc] Hd]|Hx] end; [|left; exists (sy_dev s); eauto 10].
    right. pose proof (law_udp_init _ _ _ Hb Hd) as Hk. rewrite Hd. cbn [mbind outcome_bind]. case_bool_decide.
    + destruct (send_msg_waiting grpNet msgUDP_InitOk l
        (upd_udp (fun t => ut_set_state UdpInitOk (ut_set_initOk true t)) (set_dev d s)) Hw Hl) as (q & -> & Hq & _).
      eexists d, _, q, [_]. split_and!; [done..| |done]. right. eexists. split; [done|]. apply elem_of_cons. by left.
    + destruct (send_msg_waiting grpNet msgUDP_InitError l
        (upd_udp (fun t => ut_set_state UdpIdle (ut_set_initOk false t)) (set_dev d s)) Hw Hl) as (q & -> & Hq & _).
      eexists d, _, q, [_]. split_and!; [done..| |done]. right. eexists. split; [done|]. apply elem_of_cons. right. apply elem_of_cons. by left.
  - right. apply (Hret (sy_dev s)); done.
  - right. apply (Hret (sy_dev s)); done.
  - match goal with |- context [udp_io_rx (sy_dev s) ≫= ?K] => destruct (call_cases (udp_io_rx (sy_dev s)) K) as [[d Hd]|Hx] end; [|left; exists (sy_dev s); eauto 10].
    right. pose proof (law_udp_rx _ _ Hb Hd) as Hk. rewrite Hd. by apply Hret.
  - match goal with |- context [udp_io_tx (sy_dev s) ≫= ?K] => destruct (call_cases (udp_io_tx (sy_dev s)) K) as [[d Hd]|Hx] end; [|left; exists (sy_dev s); eauto 10].
    right. pose proof (law_udp_tx _ _ Hb Hd) as Hk. rewrite Hd. by apply Hret.
Qed.

(** A pass, once the monitor and link tasks have run: the UDP task, then the
    messages of the link task, then the notice of the UDP task. *)
Lemma pass_after_mac now s s0 s1 l :
  all_active s -> mon_process now s = Ret s0 -> mac_active (sy_mac s0) = true ->
  mac_process now s0 = Ret s1 -> all_active s1 -> sys_inv s1 -> waiting l s1 -> (length l < 32)%nat ->
  board_stops (main_loop now s) \/ exists d t q l', keeps board_ok (sy_dev s1) d /\ ut_active t = true /\
    (ut_state (sy_udp s1) = UdpIdle -> ut_state t = UdpIdle /\ ut_initOk t = ut_initOk (sy_udp s1)) /\
    (l' = [] \/ exists no, l' = [net_msg no] /\ no ∈ [msgUDP_InitOk; msgUDP_InitError]) /\
    main_loop now s = deliver_msgs now (l ++ l') (set_queue q (set_udp t (set_dev d s1))).
Proof.
  intros (Ha & _ & _ & _) Hmon Hma Hmac Ha1 Hs1 Hw1 Hl.
  destruct Ha1 as (_ & _ & Hua & Hia).
  assert (main_loop now s = (s2 ← udp_process s1; s2 ← process_from [tsInit now] s2; processMessages (tasks now) sy_queue set_queue 33 s2)) as ->.
  { unfold main_loop, processTasks, tasks. cbn [process_from].
    change (tk_active (tsMonitor now) s) with (mon_active (sy_mon s)).
    change (tk_process (tsMonitor now) s) with (mon_process now s). rewrite Ha, Hmon. cbn [mbind outcome_bind].
    change (tk_active (tsMAC_Service now) s0) with (mac_active (sy_mac s0)).
    change (tk_process (tsMAC_Service now) s0) with (mac_process now s0). rewrite Hma, Hmac. cbn [mbind outcome_bind].
    change (tk_active tsUDP_Service s1) with (ut_active (sy_udp s1)).
    change (tk_process tsUDP_Service s1) with (udp_process s1). rewrite Hua. by destruct (udp_process s1). }
  destruct (udp_process_effect l s1 Hs1 Hw1 Hl) as [Hx|(d & t & q & l' & Hu & Hk & Hta & Hq & Hl' & Hidle)]; [left; by apply board_stops_bind|right].
  exists d, t, q, l'. rewrite Hua in Hta. split_and!; [done..|]. rewrite Hu. cbn [mbind outcome_bind process_from].
  set (s2 := set_queue q _). change (tk_active (tsInit now) s2) with (in_active (sy_init s1)). rewrite Hia.
  cbn [mbind outcome_bind]. apply processMessages_delivers; [done|apply tasks_quiet|done|].
  rewrite length_app. destruct Hl' as [->|(no & -> & _)]; simpl; lia.
Qed.

(** The notice changes nothing but the queue. *)
Lemma deliver_notice now l' s :
  all_active s -> (l' = [] \/ exists no, l' = [net_msg no] /\ no ∈ [msgUDP_InitOk; msgUDP_InitError]) ->
  exists q, deliver_msgs now l' s = Ret (set_queue q s).
Proof.
  intros Ha [->|(no & -> & Hno)]; [exists (sy_queue s); by destruct s|].
  cbn [deliver_all]. rewrite (deliver_udp_notice now no s Ha Hno). cbn [mbind outcome_bind]. eauto.
Qed.

(** The monitor touches only its timer and the modules below. *)
Lemma mon_process_effect now s :
  sys_inv s -> board_stops (mon_process now s) \/ exists d x, mon_process now s = Ret (set_mon x (set_dev d s)) /\ keeps board_ok (sy_dev s) d /\
    mon_active x = mon_active (sy_mon s).
Proof.
  intros Hs. pose proof (inv_board s Hs) as Hb. unfold mon_process.
  match goal with |- context [master_process now (sy_dev s) ≫= ?K] => destruct (call_cases (master_process now (sy_dev s)) K) as [[d Hd]|Hx] end; [|left; exists (sy_dev s); eauto 10].
  right. pose proof (law_master now _ _ Hb Hd) as Hk. rewrite Hd. cbn [mbind outcome_bind]. exists d. destruct (TIMEOUT _ _ _); [by eexists|]. exists (sy_mon s). by destruct s.
Qed.

Lemma main_loop_mon now s : all_active s -> board_stops (mon_process now s) -> board_stops (main_loop now s).
Proof.
  intros (Ha & _) Hx. unfold main_loop, processTasks, tasks. cbn [process_from].
  change (tk_active (tsMonitor now) s) with (mon_active (sy_mon s)).
  change (tk_process (tsMonitor now) s) with (mon_process now s). rewrite Ha. by do 2 apply board_stops_bind.
Qed.

(** The link task in [kStLinkOff] in a tick in which it has run already. *)
Lemma link_loss_same_tick now s :
  sys_inv s -> waiting [] s -> all_active s -> mac_state (sy_mac s) = MacLinkOff -> mac_timer2 (sy_mac s) = now ->
  board_stops (main_loop now s) \/ exists s', main_loop now s = Ret s' /\ keeps board_ok (sy_dev s) (sy_dev s') /\ all_active s' /\ sy_mac s' = sy_mac s.
Proof.
  intros Hs Hw Ha Hm Ht. destruct (mon_process_effect now s Hs) as [Hx|(d0 & x & Hmon & Hk0 & Hx)]; [left; by apply main_loop_mon|].
  set (s0 := set_mon x (set_dev d0 s)) in *. assert (sys_inv s0) as Hs0 by (by apply sys_inv_mon, sys_inv_dev).
  assert (mac_process now s0 = Ret s0) as Hmac.
  { unfold mac_process, mac_serve. change (sy_mac s0) with (sy_mac s). rewrite Hm. rewrite (bool_decide_false (MacLinkOff = _)) by done.
    cbn [mbind outcome_bind]. change (sy_mac s0) with (sy_mac s). by rewrite (bool_decide_true (_ = now)) by done. }
  destruct Ha as (Ha1 & Ha2 & Ha3 & Ha4).
  assert (all_active s0) as Has0 by (split_and!; [by rewrite <-Ha1|done..]).
  destruct (pass_after_mac now s s0 s0 [] ltac:(done) Hmon Ha2 Hmac Has0 Hs0 Hw) as [?|(d & t & q & l' & Hk & Hta & _ & Hl' & ->)]; [simpl; lia|by left|right].
  cbn [app]. set (s2 := set_queue q _). assert (all_active s2) as Has2 by (destruct Has0 as (? & ? & ? & ?); by split_and!).
  destruct (deliver_notice now l' s2 Has2 Hl') as (q' & ->). exists (set_queue q' s2).
  split_and!; [done| |by destruct Has2 as (? & ? & ? & ?); split_and!|done].
  destruct Hk as [? Hk], Hk0 as [? Hk0]. split; [done|]. change (board_connected d = board_connected (sy_dev s)). rewrite Hk. exact Hk0.
Qed.

(** In a later tick. *)
Lemma link_loss_next_tick now s :
  sys_inv s -> waiting [] s -> all_active s -> mac_state (sy_mac s) = MacLinkOff -> mac_timer2 (sy_mac s) <> now ->
  board_stops (main_loop now s) \/ exists s' d, main_loop now s = Ret s' /\ keeps board_ok (sy_dev s) d /\ all_active s' /\
    sy_dev s' = set_connected false (slave_io_stop d) /\ board_connected (sy_dev s') = false /\
    ut_state (sy_udp s') = UdpIdle /\ mac_state (sy_mac s') = MacLinkWait /\ mac_connected (sy_mac s') = false.
Proof.
  intros Hs Hw Ha Hm Ht. destruct (mon_process_effect now s Hs) as [Hx|(d0 & x & Hmon & Hk0 & Hx)]; [left; by apply main_loop_mon|].
  set (s0 := set_mon x (set_dev d0 s)) in *.
  assert (sys_inv s0) as Hs0 by (by apply sys_inv_mon, sys_inv_dev).
  set (s00 := upd_mac (mac_set_timer2 now) s0).
  destruct (send_msg_waiting grpNet msgNetDisconnected [] s00 Hw) as (q0 & Hq0 & Hw0); [simpl; lia|].
  set (m := mac_set_timer now (mac_set_state MacLinkWait (mac_set_connected false (sy_mac s00)))).
  assert (mac_process now s0 = Ret (set_mac m (set_queue q0 s00))) as Hmac.
  { unfold mac_process, mac_serve. change (sy_mac s0) with (sy_mac s). rewrite Hm.
    rewrite (bool_decide_false (MacLinkOff = _)) by done. cbn [mbind outcome_bind]. change (sy_mac s0) with (sy_mac s).
    rewrite (bool_decide_false (_ = now)) by done. fold s00. unfold mac_poll.
    change (mac_state (sy_mac s00)) with (mac_state (sy_mac s)). rewrite Hm. unfold mac_step.
    change (mac_state (sy_mac s00)) with (mac_state (sy_mac s)). rewrite Hm, Hq0. done. }
  destruct Ha as (Ha1 & Ha2 & Ha3 & Ha4).
  destruct (pass_after_mac now s s0 _ [net_msg msgNetDisconnected] ltac:(done) Hmon Ha2 Hmac) as [?|(d & t & q & l' & Hk & Hta & _ & Hl' & ->)].
  { split_and!; [by rewrite <-Ha1|done..]. }
  { destruct Hs0 as [Hb0 Hmf0 Hu0]. constructor; [done| |done]. done. }
  { exact Hw0. }
  { simpl. lia. }
  { by left. }
  right. cbn [deliver_all app]. set (s2 := set_queue q _).
  assert (all_active s2) as Has2 by (split_and!; [by rewrite <-Ha1|done..]).
  rewrite (deliver_disconnected now s2 Has2). cbn [mbind outcome_bind]. set (s3 := set_queue (pop _) _).
  assert (all_active s3) as Has3 by (destruct Has2 as (? & ? & ? & ?); by split_and!).
  destruct (deliver_notice now l' s3 Has3 Hl') as (q' & ->).
  assert (keeps board_ok (sy_dev s) d) as Hkd.
  { destruct Hk as [? Hk], Hk0 as [? Hk0]. split; [done|]. rewrite Hk. exact Hk0. }
  exists (set_queue q' s3), d. split_and!; [done|done|by destruct Has3 as (? & ? & ? & ?); split_and!|done| |done|done|done].
  apply law_connected. by apply law_sio_stop, Hkd.
Qed.

(** C9: Loss of the link.  The link task is in [kStLinkOff], where it goes when
    the link is found lost.  It runs its states once in a tick of the counter:
    a pass in the tick in which it has run already leaves it there and the
    connection marked as it was.  In the first pass of another tick the whole
    program learns of the loss at once: at the end of the pass the exchange over
    UDP is idle in whatever state it was, the connection is marked as lost (so
    that answers are dropped), the polling of the slaves is stopped, and the link
    task waits for the link.  In both cases the pass comes back, with the queue
    of messages empty and the four tasks as active as before, unless a module
    below stops as described for [main_loop_runs]. *)
Theorem link_loss (now : Z) (s : S) :
  sys_inv s -> waiting [] s -> all_active s -> mac_state (sy_mac s) = MacLinkOff ->
  board_stops (main_loop now s) \/
  exists s', main_loop now s = Ret s' /\ sys_inv s' /\ waiting [] s' /\ all_active s' /\
    if bool_decide (mac_timer2 (sy_mac s) = now) then
      sy_mac s' = sy_mac s /\ board_connected (sy_dev s') = board_connected (sy_dev s)
    else
      board_connected (sy_dev s') = false /\ ut_state (sy_udp s') = UdpIdle /\
      mac_state (sy_mac s') = MacLinkWait /\ mac_connected (sy_mac s') = false /\
      exists d, keeps board_ok (sy_dev s) d /\ sy_dev s' = set_connected false (slave_io_stop d).
Proof.
  intros Hs Hw Ha Hm. destruct (main_loop_inv now s Hs Hw) as [?|(s' & E & Hs' & Hw')]; [by left|].
  case_bool_decide as Ht.
  - destruct (link_loss_same_tick now s Hs Hw Ha Hm Ht) as [?|(s1 & E1 & [_ Hk] & Ha1 & Hm1)]; [by left|right].
    rewrite E in E1. injection E1 as <-. by exists s'.
  - destruct (link_loss_next_tick now s Hs Hw Ha Hm Ht) as [?|(s1 & d & E1 & Hk & Ha1 & H1 & H2 & H3 & H4 & H5)]; [by left|right].
    rewrite E in E1. injection E1 as <-. exists s'. split_and!; try done. by exists d.
Qed.



End Invariant.

Section Return.
Context {D : Type} `{BoardLaws D}.
Notation S := (Sys D).
Notation net_msg no := (TCMessage_new grpNet no 0 0).


End Return.

(** ** Witnesses: a board whose modules note what is done *)

Record demo_board := mkDemoBoard { db_connected : bool; db_log : list Z; db_physts : Z }.

Definition demo_note (k : Z) (b : demo_board) : demo_board := mkDemoBoard (db_connected b) (k :: db_log b) (db_physts b).

#[local] Instance demo_Board : Board demo_board := {
  phy_poll b := (b, db_physts b);
  net_start := demo_note 1;
  net_set_link _ := demo_note 2;
  net_input b := Ret b;
  net_timers b := b;
  board_connected := db_connected;
  set_connected c b := mkDemoBoard c (db_log b) (db_physts b);
  set_app_tx _ b := b;
  udp_io_init b := Ret (demo_note 3 b, 0);
  udp_io_rx b := Ret (demo_note 4 b);
  udp_io_tx b := Ret (demo_note 5 b);
  protocol_init b := b;
  data_buffers_init b := Ret b;
  slave_io_init b := b;
  slave_io_start := demo_note 6;
  slave_io_stop := demo_note 7;
  master_process _ b := Ret b;
}.

#[local] Instance demo_keeps : BoardKeeps demo_board.
Proof. refine {| board_ok := fun _ => True |}; intros; simplify_eq/=; done. Defined.

#[local] Instance demo_laws : BoardLaws demo_board.
Proof. constructor; intros; by eexists. Defined.

Definition demo_mac (st : MacState) : MacTask := mkMac true st 100 100 100 true.
Definition demo_queue : TQueue TCMessage := TQueue_new (replicate 32 (TCMessage_new 0 0 0 0)) 32.
Definition demo_sys (started : bool) (mac : MacTask) (udp : UdpTask) (b : demo_board) : Sys demo_board :=
  mkSys demo_queue (mkMon started 0) mac udp (mkInitTask false 3 0) (mkEmac [] 0 0 0 1) b.

Lemma demo_waiting st m u b : waiting [] (demo_sys st m u b).
Proof. split; [split; [constructor; cbn; done || lia|done]|done]. Qed.

(** The pass in the same tick, 100, and the next one. *)
Lemma link_loss_witness :
  (exists s', main_loop 100 (demo_sys true (demo_mac MacLinkOff) (mkUdpTask true UdpProcess true) (mkDemoBoard true [] 0)) = Ret s' /\
    mac_state (sy_mac s') = MacLinkOff) /\
  exists s', main_loop 101 (demo_sys true (demo_mac MacLinkOff) (mkUdpTask true UdpProcess true) (mkDemoBoard true [] 0)) = Ret s' /\
    ut_state (sy_udp s') = UdpIdle.
Proof.
  assert (sys_inv (demo_sys true (demo_mac MacLinkOff) (mkUdpTask true UdpProcess true) (mkDemoBoard true [] 0))) as Hi by (by constructor).
  pose proof (fun now => link_loss (D:=demo_board) now (demo_sys true (demo_mac MacLinkOff) (mkUdpTask true UdpProcess true) (mkDemoBoard true [] 0))
    Hi (demo_waiting _ _ _ _) ltac:(done) eq_refl) as Hl.
  split.
  - destruct (Hl 100) as [Hx|(s' & Hr & _ & _ & _ & Hm & _)]; [by destruct (laws_never_stop _ Hx)|].
    exists s'. split; [exact Hr|by rewrite Hm].
  - destruct (Hl 101) as [Hx|(s' & Hr & _ & _ & _ & _ & Hu & _)]; [by destruct (laws_never_stop _ Hx)|].
    exists s'. split; [exact Hr|exact Hu].
Defined.

