(* ===== verification/HalUarts.v ===== *)
(** * The serial links ([src/hal_uarts.cpp], [src/tlayer1_tx.cpp])

    The access to the two UARTs - RS232 (number 3) and RS485 (number 1) - and
    the loop that takes the received bytes to the console and to the protocol.
    The drivers of the chip with their ring buffers are the class [Uarts]. *)

From S2P Require Import Prelude Ring TBuffer Protocol.

(** [Chip_UART_SendRB]: the bytes taken; [Chip_UART_ReadRB] and
    [RingBuffer_PopMult], which do the same: the bytes read, at most [max];
    [RingBuffer_GetFree]; [RingBuffer_Flush].  The first argument is the number
    of the UART. *)
Class Uarts (C : Type) := {
  uart_send : Z -> list Z -> C -> C * Z;
  uart_pop : Z -> Z -> C -> C * list Z;
  uart_free : Z -> C -> Z;
  uart_flush : Z -> C -> C;
}.

Definition UART_RS232 : Z := 3.
Definition UART_RS485 : Z := 1.
Definition kMaxRxSz : Z := 64.

Section Uart.
Context {C : Type} `{Uarts C}.

(** The size is a [uint8_t]. *)
Definition uarts_write (n : Z) (data : list Z) (size : Z) (c : C) : outcome (C * Z) :=
  if bool_decide (n = 1) || bool_decide (n = 3)
  then l ← checked (slice data 0 (u8 size)); Ret (uart_send n l c)
  else Ret (c, 0).

Definition uarts_getTxFree (n : Z) (c : C) : Z :=
  if bool_decide (n = 1) || bool_decide (n = 3) then uart_free n c else 0.

Definition uarts_resetTx (n : Z) (c : C) : C :=
  if bool_decide (n = 1) || bool_decide (n = 3) then uart_flush n c else c.

(** ** [TLayer1TxInterface] *)

Definition l1tx_write (num : Z) (buffer : list Z) (size : Z) (c : C) : outcome (C * Z) :=
  '(c, n) ← uarts_write num buffer size c; Ret (c, u16 n).

Definition l1tx_getTxFree (num : Z) (c : C) : Z := u16 (uarts_getTxFree num c).

Definition l1tx_resetTx (num : Z) (c : C) : C := uarts_resetTx num c.

(** ** [process] *)

Section Process.
Context {St : Type}.
Variable uarts : St -> C.
Variable set_uarts : C -> St -> St.
Variable cprocbyte : Z -> St -> outcome St.
Variable process_local : TBuffer Z -> Z -> St -> outcome St.

(** [for(int i = 0; i < n; i++) cprocbyte(data[i])] *)
Fixpoint console_bytes (l : list Z) (s : St) : outcome St :=
  match l with [] => Ret s | b :: l => s ← cprocbyte b s; console_bytes l s end.

(** [junk]: the array [data] on the stack before it is written. *)
Definition uarts_process (junk : list Z) (s : St) : outcome St :=
  let '(c, l) := uart_pop UART_RS232 kMaxRxSz (uarts s) in
  data ← checked (blit junk 0 l);
  s ← console_bytes l (set_uarts c s);
  let '(c, l) := uart_pop UART_RS485 kMaxRxSz (uarts s) in
  data ← checked (blit data 0 l);
  let s := set_uarts c s in
  let n := Z.of_nat (length l) in
  if bool_decide (n > 0) then
    echo ← checked (slice data 0 n);
    let '(c, _) := uart_send UART_RS485 echo (uarts s) in
    let '(c, l2) := uart_pop UART_RS485 n c in
    data ← checked (blit data 0 l2);
    let nn := Z.of_nat (length l2) in
    process_local (TBuffer_new data nn) nn (set_uarts c s)
  else Ret s.

End Process.
End Uart.

(** ** What the protocol receives *)

(** The receive buffers as lists, oldest byte first: reading takes at most
    [max] bytes from the front of one of them; sending changes none. *)
Class UartLaws (C : Type) `{Uarts C} := {
  uart_rx : Z -> C -> list Z;
  uart_pop_list : forall n max c, 0 <= max -> (uart_pop n max c).2 = take (Z.to_nat max) (uart_rx n c);
  uart_pop_rest : forall n m max c, 0 <= max ->
    uart_rx m (uart_pop n max c).1 = if bool_decide (m = n) then drop (Z.to_nat max) (uart_rx n c) else uart_rx m c;
  uart_send_rx : forall n m l c, uart_rx m (uart_send n l c).1 = uart_rx m c;
}.

Section Received.
Context {C : Type} `{UartLaws C} {St : Type}.
Variable uarts : St -> C.
Variable set_uarts : C -> St -> St.
Variable cprocbyte : Z -> St -> outcome St.
Variable process_local : TBuffer Z -> Z -> St -> outcome St.
Variable con_ok : St -> Prop.
Hypothesis uarts_set : forall c s, uarts (set_uarts c s) = c.
Hypothesis con_ok_set : forall c s, con_ok s -> con_ok (set_uarts c s).
(** The console takes any byte and leaves the received data alone. *)
Hypothesis console_byte : forall b s, con_ok s ->
  exists s', cprocbyte b s = Ret s' /\ con_ok s' /\ uart_rx UART_RS485 (uarts s') = uart_rx UART_RS485 (uarts s).

Lemma console_all_rx l s : con_ok s ->
  exists s', console_bytes cprocbyte l s = Ret s' /\ con_ok s' /\ uart_rx UART_RS485 (uarts s') = uart_rx UART_RS485 (uarts s).
Proof.
  revert s. induction l as [|b l IH]; intros s Hs; cbn [console_bytes]; [by exists s|].
  destruct (console_byte b s Hs) as (s1 & -> & H1 & R1). destruct (IH s1 H1) as (s2 & H2 & Hok & R2).
  exists s2. split; [exact H2|]. split; [done|congruence].
Qed.

(** The bytes that wait, at most 64 of them. *)
Definition portion (l : list Z) : list Z := take 64 l.

(** What one turn of the receive loop hands to the protocol.  The
    bytes from the slaves that wait, at most 64, are read and sent back as an
    echo; what goes to the protocol is not these bytes but as many of the ones
    behind them.  In particular when at most 64 bytes wait, none of them ever
    reaches the protocol, which is told that a block of no bytes has come. *)
Theorem uarts_process_loses (junk : list Z) (s : St) (l : list Z) :
  length junk = 64%nat -> con_ok s -> uart_rx UART_RS485 (uarts s) = l -> l <> [] ->
  exists s1 data, uarts_process uarts set_uarts cprocbyte process_local junk s =
      process_local (TBuffer_new data (Z.of_nat (length (portion (drop (length (portion l)) l)))))
        (Z.of_nat (length (portion (drop (length (portion l)) l)))) s1 /\
    length data = 64%nat /\
    take (length (portion (drop (length (portion l)) l))) data = portion (drop (length (portion l)) l) /\
    uart_rx UART_RS485 (uarts s1) = drop (length (portion l)) (drop (length (portion l)) l) /\
    ((length l <= 64)%nat -> portion (drop (length (portion l)) l) = []).
Proof.
  intros Hj Hok Hl Hne. unfold uarts_process.
  pose proof (uart_pop_list UART_RS232 kMaxRxSz (uarts s) ltac:(done)) as Hp1.
  pose proof (uart_pop_rest UART_RS232 UART_RS485 kMaxRxSz (uarts s) ltac:(done)) as Hr1.
  destruct (uart_pop UART_RS232 kMaxRxSz (uarts s)) as [c1 l1]. cbn [fst snd] in *.
  rewrite bool_decide_false in Hr1 by done.
  assert (length l1 <= 64)%nat as Hl1 by (subst l1; rewrite length_take; unfold kMaxRxSz; lia).
  destruct (blit_ok junk 0 l1) as [d1 Hd1]; [lia|lia|]. rewrite Hd1. cbn [checked mbind outcome_bind].
  pose proof (blit_length _ _ _ _ Hd1) as Hd1l.
  destruct (console_all_rx l1 (set_uarts c1 s) (con_ok_set _ _ Hok)) as (s1 & -> & _ & Hs1). cbn [mbind outcome_bind].
  rewrite uarts_set, Hr1, Hl in Hs1.
  pose proof (uart_pop_list UART_RS485 kMaxRxSz (uarts s1) ltac:(done)) as Hp2.
  pose proof (uart_pop_rest UART_RS485 UART_RS485 kMaxRxSz (uarts s1) ltac:(done)) as Hr2.
  destruct (uart_pop UART_RS485 kMaxRxSz (uarts s1)) as [c2 l2]. cbn [fst snd] in *.
  rewrite bool_decide_true, Hs1 in Hr2 by done. rewrite Hs1 in Hp2. change (take (Z.to_nat kMaxRxSz) l) with (portion l) in Hp2. subst l2.
  assert (length (portion l) <= 64)%nat as Hpl by (unfold portion; rewrite length_take; lia).
  destruct (blit_ok d1 0 (portion l)) as [d2 Hd2]; [lia|lia|]. rewrite Hd2. cbn [checked mbind outcome_bind].
  pose proof (blit_length _ _ _ _ Hd2) as Hd2l.
  rewrite bool_decide_true by (unfold portion; destruct l; [done|cbn; lia]).
  rewrite slice_ok by lia. cbn [checked mbind outcome_bind]. rewrite uarts_set.
  set (k := length (portion l)) in *.
  pose proof (uart_send_rx UART_RS485 UART_RS485 (take (Z.to_nat (Z.of_nat k)) (drop (Z.to_nat 0) d2)) c2) as Hs.
  destruct (uart_send _ _ c2) as [c3 n3]. cbn [fst] in Hs. rewrite Hr2 in Hs.
  assert (drop (Z.to_nat kMaxRxSz) l = drop k l) as Hdk.
  { subst k. unfold portion, kMaxRxSz. rewrite length_take. destruct (decide (64 <= length l)%nat).
    - f_equal. lia.
    - rewrite !drop_ge by lia. done. }
  rewrite Hdk in Hs.
  pose proof (uart_pop_list UART_RS485 (Z.of_nat k) c3 ltac:(lia)) as Hp3.
  pose proof (uart_pop_rest UART_RS485 UART_RS485 (Z.of_nat k) c3 ltac:(lia)) as Hr3.
  destruct (uart_pop UART_RS485 (Z.of_nat k) c3) as [c4 l4]. cbn [fst snd] in *.
  rewrite bool_decide_true, Hs, Nat2Z.id in Hr3 by done. rewrite Hs, Nat2Z.id in Hp3.
  assert (l4 = portion (drop k l)) as ->.
  { rewrite Hp3. unfold portion. destruct (decide (k = 64%nat)) as [->|Hk]; [done|].
    assert (drop k l = []) as ->; [|by rewrite !take_nil]. apply drop_ge. subst k. unfold portion in *. rewrite length_take in *. lia. }
  assert (length (portion (drop k l)) <= 64)%nat as Hq by (unfold portion; rewrite length_take; lia).
  destruct (blit_ok d2 0 (portion (drop k l))) as [d3 Hd3]; [lia|lia|]. rewrite Hd3. cbn [checked mbind outcome_bind].
  pose proof (blit_length _ _ _ _ Hd3) as Hd3l.
  exists (set_uarts c4 (set_uarts c2 s1)), d3. split_and!; [done|lia| |by rewrite uarts_set| ].
  - unfold blit in Hd3. rewrite bool_decide_true in Hd3 by lia. injection Hd3 as <-. cbn. by rewrite take_app_length.
  - intros Hle. subst k. unfold portion at 2. rewrite (take_ge l) by lia. by rewrite drop_all.
Qed.

End Received.

(** ** Witness: receive buffers that are lists *)

Definition demo_uarts : Type := list Z * list Z.

#[local] Instance demo_Uarts : Uarts demo_uarts := {
  uart_send n l c := (c, Z.of_nat (length l));
  uart_pop n max c :=
    if bool_decide (n = 1) then ((drop (Z.to_nat max) c.1, c.2), take (Z.to_nat max) c.1)
    else if bool_decide (n = 3) then ((c.1, drop (Z.to_nat max) c.2), take (Z.to_nat max) c.2)
    else (c, []);
  uart_free _ _ := 256;
  uart_flush _ c := c;
}.

#[local] Instance demo_UartLaws : UartLaws demo_uarts.
Proof.
  refine {| uart_rx n c := if bool_decide (n = 1) then c.1 else if bool_decide (n = 3) then c.2 else [] |}.
  - intros n max c _. cbn. repeat case_bool_decide; try done. by rewrite take_nil.
  - intros n m max c _. cbn. repeat case_bool_decide; subst; try done. by rewrite drop_nil.
  - done.
Defined.

Lemma uarts_process_loses_witness :
  exists (s1 : demo_uarts) (data : list Z), uarts_process (C:=demo_uarts) (fun s => s) (fun c _ => c) (fun _ s => Ret s)
      (fun _ n s => Ret (s.1, [n])) (replicate 64 0) ([5; 6; 7], []) =
      Ret (s1.1, [0]) /\ length data = 64%nat.
Proof.
  destruct (uarts_process_loses (C:=demo_uarts) (fun s => s) (fun c _ => c) (fun _ s => Ret s)
    (fun (_ : TBuffer Z) n s => Ret (s.1, [n])) (fun _ => True) ltac:(done) ltac:(done) ltac:(by intros b s _; exists s) (replicate 64 0) ([5; 6; 7], []) [5; 6; 7])
    as (s1 & data & Hp & Hd & _ & _ & Hz).
  - done.
  - done.
  - done.
  - done.
  - rewrite Hz in Hp by (cbn; lia). exists s1, data. split; [exact Hp|exact Hd].
Defined.
