(* ===== verification/System.v ===== *)
(** * The whole program

    The modules put together under the tasks: the device (messages, registers,
    buffers, requests to the slaves), the UDP module over the network stack,
    the transceiver and the serial links, as an instance of the class [Board]
    the tasks are proved against; and what a request of the host goes through
    from the network to the network.  Files: the calls between the modules, in
    [src/ts_udp_service.cpp] ([processRxData], [processTxData]),
    [src/ts_monitor.cpp], [src/ts_init.cpp], [src/emac_app.cpp],
    [src/protocol/protocol.cpp] ([init]), [src/hal.cpp] ([SysTick_Handler]). *)

From stdpp Require Import gmap.
From S2P Require Import Prelude Layer2 Layer3 Ring TQueue TBuffer BuffersPool HalBase Protocol MasterTx ProtocolApp.
From S2P Require Import TDataBuffer DataBuffers SlavePoll DeviceParameters Device UdpIo Supervisor Phy NetTasks HalUarts.

(** The rest of the network stack: its start ([lwip_init], [netif_add] and the
    Ethernet driver but for the transceiver), the state of the interface, the
    timers, and the reception ([lpc_enetif_input]): the datagrams for the port
    of the program, as the callback is given them. *)
Record datagram := mkDatagram { dg_pbuf : Z; dg_payload : Z; dg_bytes : list Z; dg_addr : Z }.

Class NetStack (N : Type) `{UdpStack N} := {
  stack_start : N -> N;
  stack_set_link : bool -> N -> N;
  stack_timers : N -> N;
  stack_input : N -> N * list datagram;
}.

Section System.
Context {N B C : Type} `{NetStack N} `{Mii B} `{Uarts C}.
(** [junk]: what is not initialised; [NDEBUG]: the build; [addrs]: the
    addresses of the transmit buffers; [raw]: the memory of the data blocks. *)
Variable junk : Z.
Variable NDEBUG : bool.
Variable addrs : list Z.
Variable raw : list TDataBuffer.

(** What a protocol instance can reach of the rest: its UART, and, for the
    handler of application packets, the connection flag and the UDP module. *)
Record SysLink := mkLink { lk_uart : C; lk_connected : bool; lk_udp : outcome (Udp N) }.

#[local] Instance sys_layer1 : Layer1Tx SysLink := {
  getTxFree num l := l1tx_getTxFree num (lk_uart l);
  l1_write num buffer l :=
    match l1tx_write num buffer (Z.of_nat (length buffer)) (lk_uart l) with
    | Ret (c, n) => (mkLink c (lk_connected l) (lk_udp l), n)
    | _ => (l, 0)
    end;
}.

Record SysDev := mkSysDev {
  sd_dev : Device SysLink;
  sd_udp : Udp N;
  sd_phy : Phy;
  sd_bus : B;
  sd_connected : bool;      (* netState.connected *)
  sd_ticks : Z;             (* hal::ticks *)
}.

Definition sd_set_dev d (s : SysDev) : SysDev := mkSysDev d (sd_udp s) (sd_phy s) (sd_bus s) (sd_connected s) (sd_ticks s).
Definition sd_set_udp u (s : SysDev) : SysDev := mkSysDev (sd_dev s) u (sd_phy s) (sd_bus s) (sd_connected s) (sd_ticks s).
Definition sd_set_phy p b (s : SysDev) : SysDev := mkSysDev (sd_dev s) (sd_udp s) p b (sd_connected s) (sd_ticks s).
Definition sd_set_connected c (s : SysDev) : SysDev := mkSysDev (sd_dev s) (sd_udp s) (sd_phy s) (sd_bus s) c (sd_ticks s).

Definition SysTick_Handler (s : SysDev) : SysDev :=
  mkSysDev (sd_dev s) (sd_udp s) (sd_phy s) (sd_bus s) (sd_connected s) (u32 (sd_ticks s + 1)).

(** [ts_udp_service::processTxData] *)
Definition processTxData (data : list Z) (l : SysLink) : SysLink * Z :=
  if lk_connected l then
    match lk_udp l with
    | Ret u =>
        match addTxData data (Z.of_nat (length data)) u with
        | Ret (u, rc) => (mkLink (lk_uart l) (lk_connected l) (Ret u), rc)
        | Fault => (mkLink (lk_uart l) (lk_connected l) Fault, 0)
        | Spin => (mkLink (lk_uart l) (lk_connected l) Spin, 0)
        end
    | _ => (l, 0)
    end
  else (l, 0).

(** The link of the host as it is while the protocol runs, and the UDP module
    after it. *)
Definition lend (s : SysDev) : Device SysLink :=
  let h := dv_hi (sd_dev s) in
  let l := mkLink (lk_uart (pi_link (hi_inst h))) (sd_connected s) (Ret (sd_udp s)) in
  dv_set_hi (hi_set_inst (set_link l (hi_inst h)) h) (sd_dev s).

Definition give_back (d : Device SysLink) (s : SysDev) : outcome SysDev :=
  u ← lk_udp (pi_link (hi_inst (dv_hi d))); Ret (sd_set_udp u (sd_set_dev d s)).

(** [ts_udp_service::processRxData] *)
Definition processRxData (data : UdpData) (m : list Z) (s : SysDev) : outcome SysDev :=
  '(d, _) ← dev_processInputAppData (sd_ticks s) junk NDEBUG m (ud_size data) 1 2 (lend s);
  give_back d s.

(** [Protocol::init], configuration of the instances. *)
Definition protocol_configure (addrHi addrLocal : Z) (d : Device SysLink) : Device SysLink :=
  let d := dv_set_hi (configureHiIO addrHi (dv_hi d)) d in
  dv_set_master (mt_set_protocol
    (configure_inst addrLocal PROTOCOL_BROADCAST_ADDRESS PROTOCOL_RX_TIMEOUT (mt_protocol (dv_master d))) (dv_master d)) d.

(** [TTaskUDP_Service::activate] and [deactivate], the handlers. *)
Definition install_app_tx (on : bool) (d : Device SysLink) : Device SysLink :=
  if on then
    let h := hi_setAppTxHandler (Some processTxData) (dv_hi d) in
    dv_set_hi (setHandler_getTxFree
      (Some (fun l => match lk_udp l with Ret u => udp_getTxFree u | _ => 0 end)) h) d
  else dv_set_hi (hi_setAppTxHandler None (dv_hi d)) d.

(** The datagrams of one call of the driver, one after another. *)
Fixpoint receive_all (l : list datagram) (u : Udp N) : outcome (Udp N) :=
  match l with
  | [] => Ret u
  | g :: l => u ← udp_receive_callback (dg_pbuf g) (dg_payload g) (dg_bytes g) (dg_addr g) u; receive_all l u
  end.

#[local] Instance sys_board : Board SysDev := {
  phy_poll s := let '(p, b, r) := lpcPHYStsPoll (sd_phy s) (sd_bus s) in (sd_set_phy p b s, r);
  net_start s :=
    let '(p, b, _) := lpc_phy_init junk (sd_phy s) (sd_bus s) in
    sd_set_phy p b (sd_set_udp (u_set_net (stack_start (u_net (sd_udp s))) (sd_udp s)) s);
  net_set_link up s := sd_set_udp (u_set_net (stack_set_link up (u_net (sd_udp s))) (sd_udp s)) s;
  net_input s :=
    let '(n, l) := stack_input (u_net (sd_udp s)) in
    u ← receive_all l (u_set_net n (sd_udp s)); Ret (sd_set_udp u s);
  net_timers s := sd_set_udp (u_set_net (stack_timers (u_net (sd_udp s))) (sd_udp s)) s;
  board_connected := sd_connected;
  set_connected := sd_set_connected;
  set_app_tx on s := sd_set_dev (install_app_tx on (sd_dev s)) s;
  udp_io_init s :=
    let '(u, rc) := UdpIo.init addrs DEFAULT_LOCAL_PORT DEFAULT_DEST_PORT (sd_udp s) in Ret (sd_set_udp u s, rc);
  udp_io_rx s := processRxQueue sd_udp sd_set_udp processRxData 1 s;
  udp_io_tx s := u ← processTxQueue 1 (sd_udp s); Ret (sd_set_udp u s);
  protocol_init s := sd_set_dev (protocol_configure DEFAULT_NET_ADDRESS 1 (sd_dev s)) s;
  data_buffers_init s := c ← db_init 0 raw (dv_buffers (sd_dev s)); Ret (sd_set_dev (dv_set_buffers c (sd_dev s)) s);
  slave_io_init s := sd_set_dev (dv_set_poll (sdi_init (dv_poll (sd_dev s))) (sd_dev s)) s;
  slave_io_start s := sd_set_dev (dv_set_poll (sdi_start (dv_poll (sd_dev s))) (sd_dev s)) s;
  slave_io_stop s := sd_set_dev (dv_set_poll (sdi_stop (dv_poll (sd_dev s))) (sd_dev s)) s;
  master_process now s :=
    m ← MasterTx.process junk now (dv_master (sd_dev s)); Ret (sd_set_dev (dv_set_master m (sd_dev s)) s);
}.

(** No module but the calls made for it touches the flag of the connection. *)
Lemma processRxQueue_connected n : forall s s', processRxQueue sd_udp sd_set_udp processRxData n s = Ret s' -> sd_connected s' = sd_connected s.
Proof.
  induction n as [|n IH]; intros s s' Hr; cbn [processRxQueue] in Hr; [by injection Hr as <-|].
  destruct (empty _); [by injection Hr as <-|].
  apply bind_Ret in Hr as (r & _ & Hr). apply bind_Ret in Hr as (d & _ & Hr). apply bind_Ret in Hr as (m & _ & Hr).
  apply bind_Ret in Hr as (s1 & H1' & Hr). apply bind_Ret in Hr as (p & _ & Hr). apply IH in Hr. rewrite Hr.
  change (sd_connected s1 = sd_connected s). unfold processRxData in H1'. apply bind_Ret in H1' as ([dv k] & _ & H1').
  unfold give_back in H1'. apply bind_Ret in H1' as (u & _ & H1'). by injection H1' as <-.
Qed.

#[local] Instance sys_keeps : BoardKeeps SysDev.
Proof.
  refine {| board_ok := fun _ => True |}; try (by split).
  - intros d _. cbn [phy_poll sys_board]. by destruct (lpcPHYStsPoll _ _) as [[p b] r].
  - intros d _. cbn [net_start sys_board]. by destruct (lpc_phy_init _ _ _) as [[p b] r].
  - intros d d' _ Hr. cbn [net_input sys_board] in Hr. destruct (stack_input _) as [n l]. apply bind_Ret in Hr as (u & _ & Hr). by injection Hr as <-.
  - intros d d' rc _ Hr. cbn [udp_io_init sys_board] in Hr. destruct (UdpIo.init _ _ _ _) as [u r]. by injection Hr as <- <-.
  - intros d d' _ Hr. split; [done|]. exact (processRxQueue_connected 1 d d' Hr).
  - intros d d' _ Hr. cbn [udp_io_tx sys_board] in Hr. apply bind_Ret in Hr as (u & _ & Hr). by injection Hr as <-.
  - intros d d' _ Hr. cbn [data_buffers_init sys_board] in Hr. apply bind_Ret in Hr as (c & _ & Hr). by injection Hr as <-.
  - intros now d d' _ Hr. cbn [master_process sys_board] in Hr. apply bind_Ret in Hr as (m & _ & Hr). by injection Hr as <-.
Defined.

(** ** A request of the host *)

Notation host := (host_inst dv_hi).

(** The program is ready to answer: the link to the host is set up, its answers
    go to the UDP module, which is initialised and connected; the blocks [lt]
    wait to be sent, the received packets [lr] to be processed. *)
Record serving (lt lr : list UdpData) (s : SysDev) : Prop := {
  sv_hi : hi_inv (dv_hi (sd_dev s));
  sv_class : pi_class (host (sd_dev s)) = TProtocolInstance_AppPackets;
  sv_handler : pi_processTxAppData (host (sd_dev s)) = Some processTxData;
  sv_connected : sd_connected s = true;
  sv_tx : tx_rep (sd_udp s) lt;
  sv_rx : tq_rep (u_rxQueue (sd_udp s)) lr;
}.

Lemma lend_hi_inv s : hi_inv (dv_hi (sd_dev s)) -> hi_inv (dv_hi (lend s)).
Proof. intros [H1' H2']. by constructor. Qed.

(** The registers after the requests [ms], and the answers. *)
Definition served (ms : list message) (s : SysDev) : Registers * list message :=
  answers (sd_ticks s) junk NDEBUG (dv_buffers (sd_dev s)) 1 ms (dv_params (sd_dev s)).

(** The handler of a received packet queues the answers. *)
Lemma processRxData_requests ms tail lt lr s b ex :
  serving lt lr s -> Forall is_request ms -> Z.of_nat (length (messages_bytes ms)) < 65536 ->
  let r := served ms s in
  r.2 <> [] -> Z.of_nat (length (messages_bytes r.2)) <= 1472 -> (length lt < 4)%nat ->
  exists s' d, processRxData (mkUdpData b (Z.of_nat (length (messages_bytes ms))) ex) (messages_bytes ms ++ tail) s = Ret s' /\
    serving (lt ++ [d]) lr s' /\ dv_params (sd_dev s') = r.1 /\ same_side (sd_udp s) (sd_udp s') /\
    pending (sd_udp s') (lt ++ [d]) = pending (sd_udp s) lt ++ [take 1440 (messages_bytes r.2)].
Proof.
  intros [Hhi Hcl Hf Hco Htx Hrx] Hms Hlen r Hne Hfit Hlt. unfold processRxData.
  destruct (host_requests_answered (sd_ticks s) junk NDEBUG ms tail 1 2 (lend s) processTxData) as (d' & Hd & Hpar & Hlink & Hc & Hi & _ & _ & _ & Hdc & Hdf);
    [by apply lend_hi_inv|exact Hcl|exact Hf|done|done|exact Hfit|].
  change (answers _ _ _ (dv_buffers (lend s)) 1 ms (dv_params (lend s))) with r in *.
  cbn [ud_size]. rewrite Hd. cbn [mbind outcome_bind].
  assert (0 < Z.of_nat (length (messages_bytes r.2))) as Hpos.
  { destruct r.2 as [|m l]; [done|]. pose proof (message_bytes_min m). unfold messages_bytes. cbn [fmap list_fmap concat].
    rewrite length_app. lia. }
  destruct (addTxData_room (sd_udp s) lt (messages_bytes r.2) (Z.of_nat (length (messages_bytes r.2))) Htx Hlt) as (u' & d & Ha & Hr' & Hs & Hpend); [lia|].
  rewrite decide_False in Hlink by done.
  change (pi_link (host (lend s))) with (mkLink (lk_uart (pi_link (host (sd_dev s)))) (sd_connected s) (Ret (sd_udp s))) in Hlink.
  rewrite Hco in Hlink. unfold processTxData in Hlink. cbn [lk_connected lk_udp lk_uart] in Hlink. rewrite Ha in Hlink. cbn [fst] in Hlink.
  unfold give_back. change (pi_link (hi_inst (dv_hi d'))) with (pi_link (host d')). rewrite Hlink. cbn [lk_udp mbind outcome_bind].
  exists (sd_set_udp u' (sd_set_dev d' s)), d. split; [done|].
  destruct Hs as (S1 & S2 & S3 & S4 & S5 & S6 & S7). rewrite take_block in Hpend. split_and!; [|exact Hpar|by split_and!|exact Hpend].
  constructor; [exact Hi|by rewrite <-Hcl|by rewrite <-Hf|exact Hco|exact Hr'|]. cbn. by rewrite S3.
Qed.

Lemma rx_nonempty (q : TQueue UdpData) d l : tq_rep q (d :: l) -> empty q = false.
Proof.
  intros [Hi Hc]. destruct (size_range _ Hi) as (_ & He & _). pose proof (tq_contents_length _ Hi) as Hl.
  rewrite Hc in Hl. unfold empty. destruct (tq_isEmpty q); [|done]. destruct He as [He _]. rewrite (He eq_refl) in Hl. done.
Qed.

(** One packet of requests is processed. *)
Lemma udp_io_rx_requests ms tail lt lr s payload p :
  serving lt (mkUdpData payload (Z.of_nat (length (messages_bytes ms))) (Some p) :: lr) s ->
  u_mem (sd_udp s) !! payload = Some (messages_bytes ms ++ tail) -> payload ∉ pool_buffers (u_pool (sd_udp s)) ->
  Forall is_request ms -> Z.of_nat (length (messages_bytes ms)) < 65536 ->
  let r := served ms s in
  r.2 <> [] -> Z.of_nat (length (messages_bytes r.2)) <= 1472 -> (length lt < 4)%nat ->
  exists s' d, udp_io_rx s = Ret s' /\ serving (lt ++ [d]) lr s' /\ dv_params (sd_dev s') = r.1 /\
    pending (sd_udp s') (lt ++ [d]) = pending (sd_udp s) lt ++ [take 1440 (messages_bytes r.2)] /\
    u_net (sd_udp s') = pbuf_free p (u_net (sd_udp s)) /\ u_txData (sd_udp s') = u_txData (sd_udp s) /\
    u_inited (sd_udp s') = u_inited (sd_udp s) /\ u_rport (sd_udp s') = u_rport (sd_udp s).
Proof.
  intros Hsv Hmem Hpool Hms Hlen r Hne Hfit Hlt. cbn [udp_io_rx sys_board processRxQueue].
  pose proof (sv_rx _ _ _ Hsv) as Hrx. rewrite (rx_nonempty _ _ _ Hrx), (front_rep _ _ Hrx). cbn [head checked mbind outcome_bind ud_buffer].
  rewrite Hmem. cbn [checked mbind outcome_bind].
  destruct (processRxData_requests ms tail lt _ s payload (Some p) Hsv Hms Hlen Hne Hfit Hlt)
    as (s' & d & Hs' & Hsv' & Hpar & Hside & Hpend). rewrite Hs'. cbn [mbind outcome_bind ud_ex].
  destruct Hside as (S1 & S2 & S3 & S4 & S5 & S6 & S7).
  pose proof Hsv' as [V1 V2 V3 V4 V5 V6]. set (u1 := u_set_net _ (sd_udp s')).
  assert (release payload (u_pool u1) = Ret (u_pool (sd_udp s'))) as ->.
  { destruct (release_spec (u_pool u1) payload (tr_pool _ _ V5)) as (p' & -> & _ & _ & Hout & _).
    f_equal. apply Hout. change (u_pool u1) with (u_pool (sd_udp s')). by rewrite S6. }
  cbn [mbind outcome_bind]. eexists _, d. split; [done|].
  destruct (pop_rep _ _ V6) as [Hq _].
  split_and!; [|exact Hpar|exact Hpend|cbn; by rewrite S4|exact S1|exact S2|exact S5].
  constructor; [done..| |exact Hq]. destruct V5. by constructor.
Qed.

(** Reception of one datagram with nothing waiting. *)
Lemma net_input_one g n lt s :
  serving lt [] s -> stack_input (u_net (sd_udp s)) = (n, [g]) -> tq_msgBufferSize (u_rxQueue (sd_udp s)) = UDP_RX_Q_SIZE ->
  dg_payload g ∉ pool_buffers (u_pool (sd_udp s)) ->
  exists s', net_input s = Ret s' /\
    serving lt [mkUdpData (dg_payload g) (u16 (Z.of_nat (length (dg_bytes g)))) (Some (dg_pbuf g))] s' /\
    u_mem (sd_udp s') !! dg_payload g = Some (dg_bytes g) /\ sd_dev s' = sd_dev s /\ sd_ticks s' = sd_ticks s /\
    pending (sd_udp s') lt = pending (sd_udp s) lt /\ u_net (sd_udp s') = n /\
    u_pool (sd_udp s') = u_pool (sd_udp s) /\ tx_raddr (u_txData (sd_udp s')) = dg_addr g /\
    u_rport (sd_udp s') = u_rport (sd_udp s) /\
    (tx_update (u_txData (sd_udp s')) = true \/
     tx_connected (u_txData (sd_udp s')) = true /\ u_txData (sd_udp s') = u_txData (sd_udp s)) /\
    (ready (sd_udp s) -> ready (sd_udp s')).
Proof.
  intros [V1 V2 V3 V4 V5 V6] Hin Hsz Hpool. cbn [net_input sys_board]. rewrite Hin. cbn [receive_all].
  unfold udp_receive_callback. set (t := if bool_decide _ || _ then _ else _). cbn [u_rxQueue u_set_txData u_set_tx u_set_net].
  assert (full (u_rxQueue (sd_udp s)) = false) as Hnf.
  { destruct V6 as [Hi Hc]. destruct (size_range _ Hi) as (_ & _ & Hf). pose proof (tq_contents_length _ Hi) as Hl.
    rewrite Hc in Hl. rewrite Hsz in Hf. unfold full. destruct (tq_isFull _); [|done]. destruct Hf as [Hf _].
    specialize (Hf eq_refl). simpl in Hl. unfold UDP_RX_Q_SIZE in Hf. lia. }
  destruct (push_rep _ _ (mkUdpData (dg_payload g) (u16 (Z.of_nat (length (dg_bytes g)))) (Some (dg_pbuf g))) V6 Hnf) as (q & -> & Hq & _).
  cbn [mbind outcome_bind app] in *. eexists. split; [done|].
  assert (tx_raddr t = dg_addr g /\ tx_upcb t = tx_upcb (u_txData (sd_udp s)) /\ tx_pbuffer t = tx_pbuffer (u_txData (sd_udp s)) /\
    (tx_update t = true \/ tx_connected t = true /\ t = u_txData (sd_udp s))) as (T1 & T2 & T3 & T4).
  { subst t. cbn. case_bool_decide as E; cbn; [auto|]. destruct (tx_connected (u_txData (sd_udp s))) eqn:Ec; cbn; [|auto].
    split_and!; [|done|done|by right]. destruct (decide (tx_raddr (u_txData (sd_udp s)) = dg_addr g)); [done|by destruct E]. }
  assert (forall b, b ∈ pool_buffers (u_pool (sd_udp s)) -> <[dg_payload g := dg_bytes g]> (u_mem (sd_udp s)) !! b = u_mem (sd_udp s) !! b) as Hmem.
  { intros b Hb. apply lookup_insert_ne. intros <-. done. }
  split_and!.
  - constructor; [done..| |exact Hq]. destruct V5 as [R1 R2 R3 R4 R5 R6 R7 R8 R9]. constructor; cbn; try done.
    intros b Hb. rewrite (Hmem b Hb). by apply R8.
  - cbn. by rewrite lookup_insert_eq.
  - done.
  - done.
  - unfold pending. apply map_ext_in. intros d Hd. unfold block_of. cbn. rewrite Hmem; [done|].
    pose proof (tr_pool_in _ _ V5) as Hp. rewrite Forall_forall in Hp. apply Hp. by apply list_elem_of_In, in_map.
  - done.
  - done.
  - exact T1.
  - done.
  - exact T4.
  - intros (Q1 & Q2 & Q3). unfold ready. cbn. rewrite T2, T3. done.
Qed.

End System.

(** What the stack sends: reception and the release of buffers send nothing. *)
Class NetLog (N : Type) `{NetStack N} `{!UdpLog N} `{!UdpPeers N} := {
  sent_to_stack_input : forall n, sent_to (stack_input n).1 = sent_to n;
  peer_stack_input : forall c n, peer c (stack_input n).1 = peer c n;
}.

Section EndToEnd.
Context {N B C : Type} `{HN : NetLog N} `{HB : Mii B} `{HC : Uarts C}.
Variable junk : Z.
Variable NDEBUG : bool.
Variable addrs : list Z.
Variable raw : list TDataBuffer.

#[local] Existing Instance sys_layer1.

Notation board := (sys_board junk NDEBUG addrs raw).

(** C5: A request of the host, from the wire to the wire.  A datagram
    that holds read and write requests comes in while the program is connected
    and nothing waits: the driver takes it, the UDP task processes it and sends
    a block.  Then the requests have been carried out, in order; the datagram's
    buffer has been given back; and there is one block, sent or still waiting
    to be sent (when the stack could not take it), that holds the answers in
    the order of the requests, cut to 1440 bytes.  It is sent to the address the
    datagram came from, at the port the module was given at the start: in this
    pass when the stack takes what it is given, and otherwise by whatever later
    passes send it before another datagram comes in. *)
Theorem request_to_answer (ms : list message) (g : datagram) (n : N) (s : @SysDev N B C) :
  serving [] [] s -> ready (sd_udp s) -> pointed (sd_udp s) -> tq_msgBufferSize (u_rxQueue (sd_udp s)) = UDP_RX_Q_SIZE ->
  stack_input (u_net (sd_udp s)) = (n, [g]) -> dg_bytes g = messages_bytes ms ->
  dg_payload g ∉ pool_buffers (u_pool (sd_udp s)) ->
  Forall is_request ms -> Z.of_nat (length (messages_bytes ms)) < 65536 ->
  let r := served junk NDEBUG ms s in
  let answer := ((dg_addr g, u_rport (sd_udp s)), take 1440 (messages_bytes r.2)) in
  r.2 <> [] -> Z.of_nat (length (messages_bytes r.2)) <= 1472 ->
  exists s1 s2 s3 lt, @net_input _ board s = Ret s1 /\ @udp_io_rx _ board s1 = Ret s2 /\ @udp_io_tx _ board s2 = Ret s3 /\
    u_net (sd_udp s2) = pbuf_free (dg_pbuf g) (u_net (sd_udp s1)) /\ tq_rep (u_rxQueue (sd_udp s2)) [] /\
    dv_params (sd_dev s3) = r.1 /\ tx_rep (sd_udp s3) lt /\ pointed (sd_udp s3) /\
    (accepting N -> lt = [] /\ sent_to (u_net (sd_udp s3)) = sent_to (u_net (sd_udp s)) ++ [answer]) /\
    (forall k, exists u lt', processTxQueue k (sd_udp s3) = Ret u /\
       sent_to (u_net u) ++ map (pair (dg_addr g, u_rport (sd_udp s))) (pending u lt') = sent_to (u_net (sd_udp s)) ++ [answer]).
Proof.
  intros Hsv Hrd Hpt Hsz Hin Hg Hpool Hms Hlen r answer Hne Hfit.
  destruct (net_input_one junk NDEBUG addrs raw g n [] s Hsv Hin Hsz Hpool)
    as (s1 & Hs1 & Hsv1 & Hmem & Hdev & Htick & Hpend & Hnet & Hpl & Haddr & Hport & Haim & Hrd1).
  rewrite Hg, u16_id in Hsv1 by (unw; lia). rewrite Hg, <-(app_nil_r (messages_bytes ms)) in Hmem.
  assert (served junk NDEBUG ms s1 = r) as Hr by (unfold served, r; by rewrite Hdev, Htick).
  destruct (udp_io_rx_requests junk NDEBUG addrs raw ms [] [] [] s1 _ _ Hsv1 Hmem) as (s2 & d & Hs2 & Hsv2 & Hpar & Hp2 & Hn2 & Ht2 & Hi2 & Hport2);
    [by rewrite Hpl|done|done|by rewrite Hr|by rewrite Hr|simpl; lia|].
  rewrite Hr in Hpar, Hp2. cbn [app] in *.
  assert (ready (sd_udp s2)) as Hrd2.
  { specialize (Hrd1 Hrd). unfold ready in *. by rewrite Ht2, Hi2. }
  assert (dest (sd_udp s2) = (dg_addr g, u_rport (sd_udp s))) as Hd2 by (unfold dest; by rewrite Ht2, Haddr, Hport2, Hport).
  pose proof (sent_to_stack_input (u_net (sd_udp s))) as Hst. pose proof (fun c => peer_stack_input c (u_net (sd_udp s))) as Hpe. rewrite Hin in Hst, Hpe. cbn [fst] in Hst, Hpe.
  assert (pointed (sd_udp s2) /\ aimed (sd_udp s2)) as [Hpt2 Ha2].
  { unfold aimed. rewrite Ht2. split; [|by destruct Haim as [?|[? _]]; auto].
    intros c Hc1 Hc2 Hc3. rewrite Ht2 in Hc1, Hc2, Hc3. rewrite Hn2, peer_pbuf_free, Hnet, Hpe, Hd2. destruct Haim as [?|[_ E]]; [congruence|].
    rewrite E in *. specialize (Hpt c Hc1 Hc2 Hc3). rewrite Hpt. unfold dest. by rewrite <-Haddr. }
  assert (sent_to (u_net (sd_udp s2)) = sent_to (u_net (sd_udp s))) as Hs20 by (by rewrite Hn2, sent_to_pbuf_free, Hnet, Hst).
  destruct (processTxQueue_peer 1 (sd_udp s2) [d] (sv_tx _ _ _ Hsv2) Hrd2 Hpt2) as (u' & lt & Hu & Hr' & Hrd' & Hpt' & Hd' & Hsent & Hacc).
  rewrite Hp2, Hs20, Hd2 in Hsent. cbn [pending map app] in Hsent. fold answer in Hsent.
  exists s1, s2, (sd_set_udp u' s2), lt. split; [exact Hs1|]. split; [exact Hs2|]. cbn [udp_io_tx sys_board].
  rewrite Hu. cbn [mbind outcome_bind]. change (sd_udp (sd_set_udp u' s2)) with u'.
  split_and!; [done|exact Hn2|exact (sv_rx _ _ _ Hsv2)|exact Hpar|exact Hr'|exact Hpt'| |].
  - intros Hok. destruct (Hacc Ha2) as [_ Hlt]. specialize (Hlt Hok). cbn in Hlt. subst lt. split; [done|]. by rewrite app_nil_r in Hsent.
  - intros k. destruct (processTxQueue_peer k u' lt Hr' Hrd' Hpt') as (u & lt' & Hk & _ & _ & _ & _ & Hsk & _).
    exists u, lt'. split; [exact Hk|]. rewrite Hd', Hd2 in Hsk. by rewrite Hsk.
Qed.

End EndToEnd.

(** ** The state of the link *)

Section Link.
Context {N B C : Type} `{HN : NetStack N} `{HB : Mii B} `{HC : Uarts C}.
Variable junk : Z.
Variable NDEBUG : bool.
Variable addrs : list Z.
Variable raw : list TDataBuffer.

Notation board := (sys_board (N:=N) (B:=B) (C:=C) junk NDEBUG addrs raw).
Notation Sy := (Sys (@SysDev N B C)).
Notation poll := (fun y : Sy => (@processLinkStatus _ board y).1).
Notation phy y := (sd_phy (sy_dev y)).
Notation bus y := (sd_bus (sy_dev y)).

(** One call of [emac_app::processLinkStatus]. *)
Lemma poll_step (y : Sy) :
  phy (poll y) = (lpcPHYStsPoll (phy y) (bus y)).1.1 /\ bus (poll y) = (lpcPHYStsPoll (phy y) (bus y)).1.2 /\
  em_linkStatus (sy_emac (poll y)) =
    (if has PHY_LINK_CHANGED (lpcPHYStsPoll (phy y) (bus y)).2
     then (if has PHY_LINK_CONNECTED (lpcPHYStsPoll (phy y) (bus y)).2 then 1 else 0)
     else em_linkStatus (sy_emac y)).
Proof.
  unfold processLinkStatus. cbn [phy_poll sys_board].
  destruct (lpcPHYStsPoll (phy y) (bus y)) as [[p b] r]. cbn [fst snd]. unfold has.
  case_bool_decide; [|done]. by case_bool_decide.
Qed.

(** What the program takes for the state of the link is what the driver of the
    transceiver says. *)
Definition link_known (y : Sy) : Prop :=
  phy_inv (phy y) /\ em_linkStatus (sy_emac y) = if connected (phy y) then 1 else 0.

Lemma poll_known y : link_known y -> link_known (poll y).
Proof.
  intros [Hi Hl]. destruct (poll_step y) as (Hp & _ & He).
  destruct (lpcPHYStsPoll (phy y) (bus y)) as [[p b] r] eqn:E. cbn [fst snd] in *.
  destruct (lpcPHYStsPoll_spec _ _ _ _ _ Hi E) as (Hi' & Hr & Hc & _). split; [by rewrite Hp|].
  rewrite He, Hp, Hc, Hl. unfold connected. rewrite Hr in *. case_bool_decide as Hd; [done|].
  assert (Z.land (physts p) LINK_BITS = Z.land (physts (phy y)) LINK_BITS) as Heq
    by (destruct (decide (Z.land (physts p) LINK_BITS = Z.land (physts (phy y)) LINK_BITS)); [done|by destruct Hd]).
  by rewrite (connected_bits _ _ Heq).
Qed.

(** C6: The link, from the transceiver to the program.  From the
    initialisation of the network on, after any number of calls of
    [processLinkStatus] and whatever the bus does, the program's [linkStatus] is
    the link bit the driver holds: no change of the link is lost between the
    two, although the program looks at the driver only when the bit "changed" is
    set.  And the driver does not lag: when the bus is free and the registers
    keep their values, three calls from the start of a round make [linkStatus]
    the link bit of the transceiver's status register. *)
Theorem link_status_follows (k : nat) (y0 : Sy) :
  let y := Nat.iter k poll (@emac_init _ board y0) in
  phy_inv (phy y) /\ em_linkStatus (sy_emac y) = (if connected (phy y) then 1 else 0) /\
  (forall HF : MiiFree B, phyustate (phy y) = 0 ->
     em_linkStatus (sy_emac (poll (poll (poll y)))) =
       if has LAN8_LINK_STATUS (u16 (mii_reg LAN8_BSR_REG)) then 1 else 0).
Proof.
  intros y. assert (link_known y) as Hk.
  { subst y. induction k as [|k IH]; [|cbn [Nat.iter]; by apply poll_known].
    unfold link_known, emac_init. cbn [Nat.iter net_start sys_board].
    unfold lpc_phy_init. assert (forall s, phy_inv (mkPhy 0 0 0 s)) as Hinv by (intros s; constructor; cbn; [done|done|lia|done]).
    destruct (lpc_mii_write _ _ _) as [b1 s1]. case_bool_decide; [split; [apply Hinv|done]|].
    destruct (reset_wait _ _ _) as [b2 [|]]; [|split; [apply Hinv|done]].
    destruct (lpc_mii_write _ _ _) as [b3 s3]. split; [apply Hinv|done]. }
  split; [apply Hk|]. split; [apply Hk|]. intros HF H0.
  pose proof (poll_round (phy y) (bus y) H0) as Hround.
  destruct (poll_step y) as (P1 & B1 & _). destruct (lpcPHYStsPoll (phy y) (bus y)) as [[p1 b1] r1]. cbn [fst snd] in *.
  destruct (poll_step (poll y)) as (P2 & B2 & _). rewrite P1, B1 in P2, B2.
  destruct (lpcPHYStsPoll p1 b1) as [[p2 b2] r2]. cbn [fst snd] in *. destruct Hround as (S1 & S2 & S3 & S4).
  pose proof (poll_known _ (poll_known _ Hk)) as Hk2. pose proof (poll_known _ Hk2) as [_ ->].
  destruct (poll_step (poll (poll y))) as (P3 & _ & _). rewrite P2, B2 in P3. destruct Hk2 as [Hi2 _]. rewrite P2 in Hi2.
  destruct (lpcPHYStsPoll p2 b2) as [[p3 b3] r3] eqn:E3. cbn [fst snd] in *.
  destruct (lpcPHYStsPoll_spec _ _ _ _ _ Hi2 E3) as (_ & _ & _ & Hc). rewrite P3, Hc, bool_decide_true, S3 by done. done.
Qed.

End Link.

(** ** Witnesses *)

(** A network that records what is sent, and where, and delivers what it is
    given; it has one control block that is connected. *)
Record demo_wire := mkWire { dw_sent : list (Z * Z * list Z); dw_in : list datagram; dw_peer : Z * Z }.

#[local] Instance demo_udp_stack : UdpStack demo_wire :=
  {| pbuf_alloc _ n := (n, Some 0x9000);
     pbuf_free _ n := n;
     udp_new n := (n, Some 0x8000);
     udp_remove _ n := n;
     udp_bind _ _ n := (n, 0);
     udp_connect _ a port n := (mkWire (dw_sent n) (dw_in n) (a, port), 0);
     udp_disconnect _ n := n;
     udp_recv _ _ n := n;
     udp_send _ _ b n := (mkWire (dw_sent n ++ [(dw_peer n, b)]) (dw_in n) (dw_peer n), 0) |}.

#[local] Instance demo_net_stack : NetStack demo_wire :=
  {| stack_start n := n; stack_set_link _ n := n; stack_timers n := n;
     stack_input n := (mkWire (dw_sent n) [] (dw_peer n), dw_in n) |}.

#[local] Instance demo_udp_log : UdpLog demo_wire.
Proof. refine {| sent n := map snd (dw_sent n) |}; try done. intros. cbn. by rewrite map_app. Defined.

#[local] Instance demo_udp_peers : UdpPeers demo_wire.
Proof. by refine {| sent_to := dw_sent; peer _ n := dw_peer n |}. Defined.

#[local] Instance demo_net_log : NetLog demo_wire.
Proof. by constructor. Defined.

#[local] Instance demo_bus : Mii unit :=
  {| StartMIIWrite _ _ b := b; StartMIIRead _ b := b; IsMIIBusy b := (b, false); ReadMIIData b := (b, 4); DelayMs _ b := b |}.

#[local] Instance demo_serial : Uarts unit :=
  {| uart_send _ _ c := (c, 0); uart_pop _ _ c := (c, []); uart_free _ _ := 256; uart_flush _ c := c |}.

Definition demo_request : datagram := mkDatagram 0x77 0x5000 (messages_bytes demo_requests) 6.

Definition demo_link {C} (c : C) : @SysLink demo_wire C := mkLink c false Spin.

#[local] Existing Instance sys_layer1.

Definition demo_sys_device {C} (c : C) : Device (@SysLink demo_wire C) :=
  mkDevice
    (mkHiIO (mkInst TProtocolInstance_AppPackets l2_initial (mkLayer3 (replicate 1536 0) 0 [] 0 0 1472) 5 0 255 3 3 LINK_ID_1
      (Some processTxData) (demo_link c)) kProtocolApp None)
    (mkRegisters 0 0) demo_empty demo_poll
    (TMasterTx_new 1 (mkInst TProtocolInstance l2_initial (mkLayer3 (replicate 255 0) 0 [] 0 0 244) 5 0 255 0 1 0 None (demo_link c))
      ProtocolApp.demo_queue TIMEOUT_SLAVE_ANSWER_LOC TIMEOUT_END_PACKET_LOC 0)
    (mkBlockHeader 0 0 0 0 0 0) (replicate 48 7).

Definition demo_sys_udp : Udp demo_wire :=
  (UdpIo.init demo_addrs DEFAULT_LOCAL_PORT DEFAULT_DEST_PORT
    (mkUdp 0 0 (mkTxData None None 5 false true) false
      (TQueue_new (replicate 4 (mkUdpData 0 0 None)) 4) (TQueue_new (replicate 4 (mkUdpData 0 0 None)) 4)
      (TBuffersPool_new demo_addrs)
      (list_to_map (map (fun a => (a, replicate 1440 0)) demo_addrs)) (mkWire [] [demo_request] (0, 0)))).1.

Definition demo_program_on {C} (c : C) : @SysDev demo_wire unit C := mkSysDev (demo_sys_device c) demo_sys_udp (mkPhy 0 0 0 0) tt true 100.
Definition demo_program : @SysDev demo_wire unit unit := demo_program_on tt.

Lemma demo_program_serving : serving [] [] demo_program.
Proof.
  assert (tq_rep (TQueue_new (replicate 4 (mkUdpData 0 0 None)) 4) []) as Hq by (by apply TQueue_new_rep).
  constructor; [|done|done|done| |exact Hq].
  - constructor; [done|]. by apply (bool_decide_unpack _).
  - pose proof (demo_udp_rep []) as [R1 R2 R3 R4 R5 R6 R7 R8 R9]. constructor; done.
Qed.

(** The host at address 6: the registers are written, the answer goes to the
    host at the port 7001. *)
Lemma request_to_answer_witness :
  exists s1 s2 s3, @net_input _ (sys_board 0 false demo_addrs []) demo_program = Ret s1 /\
    @udp_io_rx _ (sys_board 0 false demo_addrs []) s1 = Ret s2 /\
    @udp_io_tx _ (sys_board 0 false demo_addrs []) s2 = Ret s3 /\
    dv_params (sd_dev s3) = mkRegisters 0xABCD 0 /\
    map fst (sent_to (u_net (sd_udp s3))) = [(6, DEFAULT_DEST_PORT)].
Proof.
  destruct (request_to_answer 0 false demo_addrs [] demo_requests demo_request (mkWire [] [] (0, 0)) demo_program)
    as (s1 & s2 & s3 & lt & H1 & H2 & H3 & _ & _ & H4 & _ & _ & H5 & _).
  - exact demo_program_serving.
  - split_and!; [done|by eexists|by eexists].
  - intros c _ Hc. vm_compute in Hc. discriminate Hc.
  - done.
  - done.
  - done.
  - by apply (bool_decide_unpack _).
  - repeat constructor.
  - by apply (bool_decide_unpack _).
  - by apply (bool_decide_unpack _).
  - by apply (bool_decide_unpack _).
  - destruct H5 as [_ H5]; [by split|]. exists s1, s2, s3. split; [exact H1|]. split; [exact H2|]. split; [exact H3|]. split; [exact H4|].
    rewrite H5. reflexivity.
Defined.

(** The main loop over the modules as they are: from the start to the exchange
    that runs over the link. *)
Definition demo_before : Sys (@SysDev demo_wire unit unit) :=
  mkSys NetTasks.demo_queue (mkMon false 0) (mkMac false MacIdle 0 0 0 false) (mkUdpTask false UdpIdle false) (mkInitTask false 0 0)
    (mkEmac [] 0 0 0 0) demo_program.
Definition demo_passes : list Z := map Z.of_nat (seq 101 200).

#[local] Notation demo_loop :=
  (s ← @initTasks _ (sys_board 0 false demo_addrs []) 100 demo_before; @NetTasks.run _ (sys_board 0 false demo_addrs []) demo_passes s).

Definition udp_of (o : outcome (Sys (@SysDev demo_wire unit unit))) : option UdpState :=
  match o with Ret s => Some (ut_state (sy_udp s)) | _ => None end.

Lemma demo_before_waiting : waiting [] demo_before.
Proof. exact (NetTasks.demo_waiting false (demo_mac MacIdle) (mkUdpTask false UdpIdle false) (mkDemoBoard false [] 0)). Qed.

Lemma main_loop_runs_witness : exists s', demo_loop = Ret s' /\ waiting [] s' /\ ut_state (sy_udp s') = UdpProcessRx /\
  sd_connected (sy_dev s') = true.
Proof.
  assert (@fresh _ (sys_board 0 false demo_addrs []) (sys_keeps 0 false demo_addrs []) demo_before) as Hf
    by (split; [exact I|split; [exact demo_before_waiting|split; [reflexivity|split; reflexivity]]]).
  pose proof (@main_loop_runs _ (sys_board 0 false demo_addrs []) (sys_keeps 0 false demo_addrs []) 100 demo_passes demo_before Hf) as H.
  cbv zeta in H. match type of H with board_stops ?x \/ _ => assert (udp_of x = Some UdpProcessRx) as E by (vm_compute; reflexivity); revert E H; generalize x end.
  intros o E [Hx|(s' & Hr & Hw & _ & _ & _ & Hu)].
  - exfalso. destruct o as [s'| |]; [|discriminate E..]. exact (board_stops_Ret s' Hx).
  - rewrite Hr in E. injection E as E. exists s'. split; [exact Hr|]. split; [exact Hw|]. split; [exact E|].
    rewrite E in Hu. apply Hu. apply elem_of_cons. right. apply elem_of_cons. by left.
Defined.

#[local] Instance demo_free : MiiFree unit.
Proof. by refine {| mii_reg _ := 4 |}. Defined.

Lemma link_status_follows_witness :
  let board := sys_board (N:=demo_wire) (B:=unit) (C:=unit) 0 false demo_addrs [] in
  let poll := fun y => (@processLinkStatus _ board y).1 in
  em_linkStatus (sy_emac (poll (poll (poll (@emac_init _ board
    (mkSys NetTasks.demo_queue (mkMon true 0) (demo_mac MacInitWait) (mkUdpTask true UdpIdle false) (mkInitTask false 3 0)
      (mkEmac [] 0 0 0 7) demo_program)))))) = 1.
Proof.
  intros board poll.
  set (y := mkSys NetTasks.demo_queue (mkMon true 0) (demo_mac MacInitWait) (mkUdpTask true UdpIdle false) (mkInitTask false 3 0)
      (mkEmac [] 0 0 0 7) demo_program).
  destruct (link_status_follows (N:=demo_wire) (B:=unit) (C:=unit) 0 false demo_addrs [] 0 y) as (_ & _ & Hf).
  exact (Hf demo_free eq_refl).
Defined.
