(* ===== verification/DataIOLt.v ===== *)
(** * The short packets of DataIO_Lt ([inc/dataio/dataio_lt.h])

    Messages of a command and at most twelve bytes, with a one-byte check sum,
    the packets that carry them, and the receiver that feeds a queue. *)

From S2P Require Import Prelude Crc16 Ring TQueue.

Definition LoPreamble : Z := 0x99AA.
Definition LoPreambleB0 : Z := 0xAA.
Definition LoPreambleB1 : Z := 0x99.
Definition MaxDataSize : Z := 12.
Definition HeaderSize : Z := 4.
Definition DataIOPreambleB1 : Z := 0x55.
Definition BroadcastAddress : Z := 126.
Definition MaxDeviceAddress : Z := 125.
Definition DelayAnswerAddr : Z := 0x80.

(** [TAppMessage]; the command word as its two bytes: the size code in the two
    low bits, the parameter in the other fourteen. *)
Record TAppMessage := mkAppMessage {
  am_cs : Z;          (* uint8_t *)
  am_address : Z;     (* uint8_t *)
  am_cmd0 : Z;        (* uint8_t *)
  am_cmd1 : Z;        (* uint8_t *)
  am_data : list Z;   (* uint8_t data[12] *)
}.

Definition dSizeCode (m : TAppMessage) : Z := Z.land (am_cmd0 m) 3.
Definition parameter (m : TAppMessage) : Z := Z.shiftr (of_le2 (am_cmd0 m) (am_cmd1 m)) 2.

Definition size2dsCode (size : Z) : Z :=
  if bool_decide (size = 4) then 1 else if bool_decide (size = 8) then 2 else if bool_decide (size = 12) then 3 else 0.

Definition code_dataSize (code : Z) : Z := Z.land code 3 * 4.
Definition am_dataSize (m : TAppMessage) : Z := code_dataSize (dSizeCode m).
Definition am_size (m : TAppMessage) : Z := u8 (HeaderSize + am_dataSize m).

Definition calcCS (m : TAppMessage) : outcome Z :=
  d ← checked (slice (am_data m) 0 (am_dataSize m));
  let crc := crc_fold 0xFFFF ([am_address m; am_cmd0 m; am_cmd1 m] ++ d) in
  Ret (Z.lxor (Z.land crc 0xFF) (Z.land (Z.shiftr crc 8) 0xFF)).

(** The setters. *)
Definition am_set_cs c (m : TAppMessage) := mkAppMessage c (am_address m) (am_cmd0 m) (am_cmd1 m) (am_data m).
Definition am_set_address a (m : TAppMessage) := mkAppMessage (am_cs m) a (am_cmd0 m) (am_cmd1 m) (am_data m).
Definition am_set_cmd0 b (m : TAppMessage) := mkAppMessage (am_cs m) (am_address m) b (am_cmd1 m) (am_data m).
Definition am_set_cmd1 b (m : TAppMessage) := mkAppMessage (am_cs m) (am_address m) (am_cmd0 m) b (am_data m).
Definition am_set_data d (m : TAppMessage) := mkAppMessage (am_cs m) (am_address m) (am_cmd0 m) (am_cmd1 m) d.

(** [set(addr, size, param, dptr)]; [None]: no data. *)
Definition am_set (addr size param : Z) (dptr : option (list Z)) (m : TAppMessage) : outcome TAppMessage :=
  let size := if bool_decide (size > MaxDataSize) then MaxDataSize else size in
  let w := Z.lor (size2dsCode size) (Z.shiftl (Z.land param 0x3FFF) 2) in
  let m := mkAppMessage (am_cs m) (u8 addr) (w mod 256) (w / 256) (am_data m) in
  d ← (match dptr with
       | Some p => src ← checked (slice p 0 size); checked (blit (am_data m) 0 src)
       | None => Ret (am_data m)
       end);
  let m := am_set_data d m in
  cs ← calcCS m;
  Ret (am_set_cs cs m).

(** [TPacket]: the bytes that go out, [size()] of them. *)
Definition packet_size (m : TAppMessage) : Z := u8 (2 + am_size m).
Definition packet_bytes (m : TAppMessage) : list Z :=
  take (Z.to_nat (packet_size m)) (le2 LoPreamble ++ [am_cs m; am_address m; am_cmd0 m; am_cmd1 m] ++ am_data m).

(** ** The receiver *)

Inductive TRxState := stWait | stPreamble2 | stCS | stAddress | stCmd0 | stCmd1 | stRxData.

(** [DataIO_Lt_Rx]; the queue is an object outside, that it is given. *)
Record LtRx := mkLtRx {
  lt_queue : TQueue TAppMessage;
  lt_msg : TAppMessage;
  lt_state : TRxState;
  lt_index : Z;           (* uint16_t *)
  lt_dataSize : Z;        (* int16_t *)
  lt_rxCS : Z;            (* uint8_t *)
  lt_selfAddress : Z;     (* uint8_t *)
}.

Definition lt_set_queue q (r : LtRx) := mkLtRx q (lt_msg r) (lt_state r) (lt_index r) (lt_dataSize r) (lt_rxCS r) (lt_selfAddress r).
Definition lt_set_msg m (r : LtRx) := mkLtRx (lt_queue r) m (lt_state r) (lt_index r) (lt_dataSize r) (lt_rxCS r) (lt_selfAddress r).
Definition lt_set_state s (r : LtRx) := mkLtRx (lt_queue r) (lt_msg r) s (lt_index r) (lt_dataSize r) (lt_rxCS r) (lt_selfAddress r).
Definition lt_set_index i (r : LtRx) := mkLtRx (lt_queue r) (lt_msg r) (lt_state r) i (lt_dataSize r) (lt_rxCS r) (lt_selfAddress r).
Definition lt_set_size n (r : LtRx) := mkLtRx (lt_queue r) (lt_msg r) (lt_state r) (lt_index r) n (lt_rxCS r) (lt_selfAddress r).

Definition lt_configure (aselfAddress abroadcastAddress : Z) (r : LtRx) : LtRx :=
  mkLtRx (lt_queue r) (lt_msg r) (lt_state r) (lt_index r) (lt_dataSize r) (lt_rxCS r) (u8 aselfAddress).

Definition lt_setPreambleRecieved (r : LtRx) : LtRx := lt_set_state stCS r.

Definition lt_startRx (r : LtRx) : LtRx := lt_set_state stWait (lt_set_index 0 r).

(** A complete message: the check of the sum, the queue, and the start of the
    next packet. *)
Definition lt_complete (r : LtRx) : outcome (LtRx * Z) :=
  cs ← calcCS (lt_msg r);
  if bool_decide (cs = am_cs (lt_msg r))
  then q ← push (lt_msg r) (lt_queue r); Ret (lt_startRx (lt_set_queue q r), 2)
  else Ret (lt_startRx r, 1).

(** Whether a message is for this device. *)
Definition for_me (b self : Z) : bool :=
  bool_decide (Z.land b (Z.lnot DelayAnswerAddr) = self) || bool_decide (b = BroadcastAddress) || bool_decide (self = 0).

Definition lt_rxHandler (b : Z) (r : LtRx) : outcome (LtRx * Z) :=
  match lt_state r with
  | stWait => Ret (if bool_decide (b = LoPreambleB0) then lt_set_state stPreamble2 r else r, 0)
  | stPreamble2 =>
      if bool_decide (b = LoPreambleB1) then Ret (lt_set_state stCS r, 1)
      else Ret (lt_startRx r, if bool_decide (b = DataIOPreambleB1) then 3 else 1)
  | stCS => Ret (lt_set_state stAddress (lt_set_msg (am_set_cs b (lt_msg r)) r), 1)
  | stAddress =>
      if for_me b (lt_selfAddress r) then Ret (lt_set_state stCmd0 (lt_set_msg (am_set_address b (lt_msg r)) r), 1)
      else Ret (lt_startRx r, 1)
  | stCmd0 => Ret (lt_set_state stCmd1 (lt_set_msg (am_set_cmd0 b (lt_msg r)) r), 1)
  | stCmd1 =>
      let r := lt_set_msg (am_set_cmd1 b (lt_msg r)) r in
      let r := lt_set_size (am_dataSize (lt_msg r)) r in
      if bool_decide (lt_dataSize r < 0) then Ret (lt_startRx r, 1)
      else if bool_decide (lt_dataSize r = 0) then lt_complete r
      else Ret (lt_set_state stRxData (lt_set_index 0 r), 1)
  | stRxData =>
      d ← checked (wr (am_data (lt_msg r)) (lt_index r) b);
      let r := lt_set_index (u16 (lt_index r + 1)) (lt_set_msg (am_set_data d (lt_msg r)) r) in
      if bool_decide (lt_index r = lt_dataSize r) then lt_complete r else Ret (r, 1)
  end.

(** A run over bytes, with the last answer. *)
Fixpoint lt_run (bs : list Z) (r : LtRx) (rc : Z) : outcome (LtRx * Z) :=
  match bs with
  | [] => Ret (r, rc)
  | b :: bs => '(r, rc) ← lt_rxHandler b r; lt_run bs r rc
  end.

(** ** Well-formed messages and states *)

Record am_ok (m : TAppMessage) : Prop := {
  am_ok_cs : is_u8 (am_cs m);
  am_ok_address : is_u8 (am_address m);
  am_ok_cmd0 : is_u8 (am_cmd0 m);
  am_ok_cmd1 : is_u8 (am_cmd1 m);
  am_ok_length : length (am_data m) = 12%nat;
  am_ok_data : bytes (am_data m);
}.

Definition queue_ok (q : TQueue TAppMessage) : Prop := exists l, tq_rep q l /\ Forall am_ok l.

Record lt_inv (r : LtRx) : Prop := {
  lt_inv_msg : am_ok (lt_msg r);
  lt_inv_queue : queue_ok (lt_queue r);
  lt_inv_index : lt_state r = stRxData -> 0 <= lt_index r < lt_dataSize r;
  lt_inv_size : lt_state r = stRxData -> lt_dataSize r = am_dataSize (lt_msg r);
}.

Lemma code_dataSize_range c : 0 <= code_dataSize c <= 12.
Proof. unfold code_dataSize. pose proof (Z.land_ones c 2 ltac:(lia)) as E. change (Z.ones 2) with 3 in E. rewrite E.
  change (2 ^ 2) with 4. Z.to_euclidean_division_equations; lia. Qed.

Lemma am_dataSize_range m : 0 <= am_dataSize m <= 12.
Proof. apply code_dataSize_range. Qed.

Definition cs_of (address cmd0 cmd1 : Z) (d : list Z) : Z :=
  let crc := crc_fold 0xFFFF ([address; cmd0; cmd1] ++ d) in
  Z.lxor (Z.land crc 0xFF) (Z.land (Z.shiftr crc 8) 0xFF).

Lemma calcCS_eq m :
  length (am_data m) = 12%nat ->
  calcCS m = Ret (cs_of (am_address m) (am_cmd0 m) (am_cmd1 m) (take (Z.to_nat (am_dataSize m)) (am_data m))).
Proof.
  intros Hl. pose proof (am_dataSize_range m). unfold calcCS. rewrite slice_ok by lia. done.
Qed.

Lemma push_ok q m : queue_ok q -> am_ok m -> exists q', push m q = Ret q' /\ queue_ok q'.
Proof.
  intros (l & Hr & Hl) Hm. destruct (full q) eqn:Hf.
  - exists q. rewrite push_full by done. split; [done|]. by exists l.
  - destruct (push_rep q l m Hr Hf) as (q' & Hq & Hr' & _). exists q'. split; [done|]. exists (l ++ [m]).
    split; [done|]. apply Forall_app. split; [done|]. by constructor.
Qed.

Lemma lt_complete_inv r : am_ok (lt_msg r) -> queue_ok (lt_queue r) -> exists r' rc, lt_complete r = Ret (r', rc) /\ lt_inv r' /\ (rc = 1 \/ rc = 2).
Proof.
  intros Hm Hq. unfold lt_complete. rewrite calcCS_eq by apply Hm. cbn [mbind outcome_bind]. case_bool_decide.
  - destruct (push_ok _ _ Hq Hm) as (q' & -> & Hq'). cbn [mbind outcome_bind]. eexists _, _. split; [done|]. split; [by constructor|by right].
  - eexists _, _. split; [done|]. split; [by constructor|by left].
Qed.

(** C38: The receiver and arbitrary input.  Whatever bytes come, in whatever
    state: the receiver never writes outside its message of twelve data bytes,
    answers 0, 1, 2 or 3, all fields of the message and of the queued messages
    keep to their types, and while data are received the count stays below the
    size announced by the command. *)
Theorem lt_rx_safe (bs : list Z) (r : LtRx) (rc : Z) :
  bytes bs -> lt_inv r -> 0 <= rc <= 3 ->
  exists r' rc', lt_run bs r rc = Ret (r', rc') /\ lt_inv r' /\ 0 <= rc' <= 3.
Proof.
  intros Hbs. revert r rc. induction Hbs as [|b bs Hb _ IH]; intros r rc Hr Hrc; cbn [lt_run]; [eauto|].
  assert (exists r' rc', lt_rxHandler b r = Ret (r', rc') /\ lt_inv r' /\ 0 <= rc' <= 3) as (r' & rc' & -> & Hr' & Hrc').
  2: { cbn [mbind outcome_bind]. by apply IH. }
  destruct Hr as [Hm Hq Hi Hs]. unfold lt_rxHandler. destruct (lt_state r) eqn:E.
  - eexists _, _. split; [done|]. split; [|lia]. case_bool_decide; constructor; cbn; try done; intros; congruence.
  - case_bool_decide; eexists _, _; (split; [done|]); (split; [by constructor|]); [lia|]. case_bool_decide; lia.
  - eexists _, _. split; [done|]. split; [|lia]. destruct Hm. by constructor; [constructor|..].
  - destruct (for_me _ _); eexists _, _; (split; [done|]); (split; [|lia]); [destruct Hm; by constructor; [constructor|..]|by constructor].
  - eexists _, _. split; [done|]. split; [|lia]. destruct Hm. by constructor; [constructor|..].
  - set (r1 := lt_set_size _ _). assert (am_ok (lt_msg r1)) as Hm1 by (destruct Hm; by constructor).
    pose proof (am_dataSize_range (lt_msg r1)) as Hd. change (am_dataSize (lt_msg r1)) with (lt_dataSize r1) in Hd.
    rewrite bool_decide_false by lia. case_bool_decide.
    + destruct (lt_complete_inv r1 Hm1 Hq) as (r' & rc' & -> & Hr' & Hrc'). exists r', rc'. split; [done|]. split; [done|lia].
    + eexists _, _. split; [done|]. split; [|lia]. constructor; [done|done| |done].
      intros _. change (0 <= 0 < lt_dataSize r1). lia.
  - specialize (Hi eq_refl). specialize (Hs eq_refl). pose proof (am_dataSize_range (lt_msg r)) as Hd. rewrite <-Hs in Hd.
    pose proof Hm as [M1 M2 M3 M4 M5 M6].
    destruct (wr_total (am_data (lt_msg r)) (lt_index r) b) as [d Hw]; [lia|]. rewrite Hw. cbn [checked mbind outcome_bind].
    set (r1 := lt_set_index _ _).
    assert (am_ok (lt_msg r1)) as Hm1.
    { constructor; [done..| |]; cbn; [by rewrite (wr_length _ _ _ _ Hw)|exact (wr_bytes _ _ _ _ M6 Hb Hw)]. }
    assert (lt_index r1 = lt_index r + 1) as Hi1 by (apply u16_id; unw; lia).
    case_bool_decide as Hend.
    + destruct (lt_complete_inv r1 Hm1 Hq) as (r' & rc' & -> & Hr' & Hrc'). exists r', rc'. split; [done|]. split; [done|lia].
    + eexists _, _. split; [done|]. split; [|lia]. constructor; [done|done| |done].
      intros _. rewrite Hi1 in *. change (lt_dataSize r1) with (lt_dataSize r) in *. lia.
Qed.

(** ** From the sender to the receiver *)

Lemma lt_data_loop bs pre old post r rc :
  bs <> [] -> am_data (lt_msg r) = pre ++ old ++ post -> length old = length bs -> lt_state r = stRxData ->
  lt_index r = Z.of_nat (length pre) -> lt_dataSize r = Z.of_nat (length pre + length bs) -> (length pre + length bs <= 12)%nat ->
  lt_run bs r rc =
    lt_complete (lt_set_index (Z.of_nat (length pre + length bs)) (lt_set_msg (am_set_data (pre ++ bs ++ post) (lt_msg r)) r)).
Proof.
  revert pre old r rc. induction bs as [|b bs IH]; intros pre old r rc Hne Hd Hl Hs Hi Hn Hle; [done|].
  destruct old as [|x old]; [done|]. cbn [lt_run]. unfold lt_rxHandler. rewrite Hs, Hi.
  rewrite (wr_at pre x (old ++ post) _ _ b Hd eq_refl). cbn [checked mbind outcome_bind].
  rewrite u16_id by (unw; cbn in Hle; lia).
  set (r1 := lt_set_index _ _). change (lt_index r1) with (Z.of_nat (length pre) + 1). change (lt_dataSize r1) with (lt_dataSize r).
  rewrite Hn. cbn [length] in *. destruct bs as [|b' bs].
  - destruct old; [|done]. rewrite bool_decide_true by (cbn; lia). cbn [length app].
    replace (Z.of_nat (length pre + 1)) with (Z.of_nat (length pre) + 1) by lia. subst r1.
    destruct (lt_complete _) as [[r2 rc2]| |]; done.
  - rewrite bool_decide_false by (cbn; lia). cbn [mbind outcome_bind].
    rewrite (IH (pre ++ [b]) old r1 1).
    + rewrite length_app. cbn [length]. replace (length pre + 1 + S (length bs))%nat with (length pre + S (S (length bs)))%nat by lia.
      rewrite <-app_assoc. subst r1. done.
    + done.
    + subst r1. cbn. by rewrite <-app_assoc.
    + cbn in *. lia.
    + exact Hs.
    + rewrite length_app. cbn [length]. change (lt_index r1) with (Z.of_nat (length pre) + 1). lia.
    + rewrite length_app. change (lt_dataSize r1) with (lt_dataSize r). rewrite Hn. cbn [length]. lia.
    + rewrite length_app. cbn [length] in *. lia.
Qed.

Lemma lt_run_cons b bs r rc : lt_run (b :: bs) r rc = '(r, rc) ← lt_rxHandler b r; lt_run bs r rc.
Proof. reflexivity. Qed.

(** The six bytes in front of the data. *)
Lemma lt_header cs a c0 c1 bs r rc :
  lt_state r = stWait -> for_me a (lt_selfAddress r) = true ->
  let m := mkAppMessage cs a c0 c1 (am_data (lt_msg r)) in
  lt_run ([LoPreambleB0; LoPreambleB1; cs; a; c0; c1] ++ bs) r rc =
    if bool_decide (am_dataSize m = 0)
    then '(r, rc) ← lt_complete (lt_set_size 0 (lt_set_msg m (lt_set_state stCmd1 r))); lt_run bs r rc
    else lt_run bs (lt_set_state stRxData (lt_set_index 0 (lt_set_size (am_dataSize m) (lt_set_msg m r)))) 1.
Proof.
  intros Hs Hme m. cbn [app]. rewrite !lt_run_cons.
  assert (lt_rxHandler LoPreambleB0 r = Ret (lt_set_state stPreamble2 r, 0)) as ->
    by (unfold lt_rxHandler; by rewrite Hs, bool_decide_true).
  cbn [mbind outcome_bind]. rewrite lt_run_cons.
  change (lt_rxHandler LoPreambleB1 (lt_set_state stPreamble2 r)) with (Ret (lt_set_state stCS (lt_set_state stPreamble2 r), 1)).
  cbn [mbind outcome_bind]. rewrite !lt_run_cons. cbn [lt_rxHandler lt_state lt_set_state mbind outcome_bind].
  rewrite !lt_run_cons. cbn [lt_rxHandler lt_state lt_set_state lt_set_msg lt_selfAddress]. rewrite Hme.
  cbn [mbind outcome_bind]. rewrite !lt_run_cons. cbn [lt_rxHandler lt_state lt_set_state lt_set_msg mbind outcome_bind].
  rewrite !lt_run_cons. cbn [lt_rxHandler lt_state lt_set_state lt_set_msg lt_msg lt_set_size lt_dataSize].
  cbn [am_set_cs am_set_address am_set_cmd0 am_set_cmd1 am_cs am_address am_cmd0 am_cmd1 am_data]. fold m.
  change (am_set_cmd1 c1 (am_set_cmd0 c0 (am_set_address a (am_set_cs cs (lt_msg r))))) with m.
  pose proof (am_dataSize_range m) as Hd. rewrite (bool_decide_false (am_dataSize m < 0)) by lia.
  case_bool_decide as E; [|done]. rewrite E. done.
Qed.

Lemma cmd_word (code param : Z) :
  0 <= code < 4 -> 0 <= param < 16384 ->
  let w := Z.lor code (Z.shiftl (Z.land param 0x3FFF) 2) in
  is_u16 w /\ Z.land (w mod 256) 3 = code /\ Z.shiftr (of_le2 (w mod 256) (w / 256)) 2 = param.
Proof.
  intros Hc Hp. assert (Z.land param 0x3FFF = param) as ->.
  { change 0x3FFF with (Z.ones 14). rewrite Z.land_ones by lia. apply Z.mod_small. lia. }
  intros w. assert (w = code + 4 * param) as Hw.
  { subst w. rewrite Z.shiftl_mul_pow2, Z.lor_comm by lia. rewrite (lor_low 2) by (change (2 ^ 2) with 4; lia). lia. }
  clearbody w. subst w. split; [unw; lia|]. split.
  - change 3 with (Z.ones 2). rewrite Z.land_ones by lia. change (2 ^ 2) with 4. Z.to_euclidean_division_equations; lia.
  - rewrite Z.shiftr_div_pow2 by lia. unfold of_le2. change (2 ^ 2) with 4. Z.to_euclidean_division_equations; lia.
Qed.

(** The sizes that have a code. *)
Definition coded (size : Z) : Prop := size = 0 \/ size = 4 \/ size = 8 \/ size = 12.

(** The message that [set] makes. *)
Lemma am_set_spec addr size param p m :
  is_u8 addr -> coded size -> 0 <= param < 16384 -> size <= Z.of_nat (length p) -> length (am_data m) = 12%nat ->
  exists m', am_set addr size param (Some p) m = Ret m' /\ am_address m' = addr /\ am_dataSize m' = size /\
    parameter m' = param /\ length (am_data m') = 12%nat /\ take (Z.to_nat size) (am_data m') = take (Z.to_nat size) p /\
    am_cs m' = cs_of addr (am_cmd0 m') (am_cmd1 m') (take (Z.to_nat size) p) /\ is_u8 (am_cmd0 m').
Proof.
  intros Ha Hc Hp Hl Hd. assert (0 <= size <= 12) as Hs by (unfold coded in Hc; lia).
  unfold am_set, MaxDataSize. rewrite (bool_decide_false (size > 12)) by lia.
  assert (0 <= size2dsCode size < 4 /\ size2dsCode size * 4 = size) as [Hcode Hcs].
  { clear -Hc. destruct Hc as [->|[->|[->| ->]]]; by apply (bool_decide_unpack _). }
  destruct (cmd_word (size2dsCode size) param Hcode Hp) as (Hw & H1 & H2). set (w := Z.lor _ _) in *. clearbody w.
  rewrite slice_ok by lia. cbn [checked mbind outcome_bind am_data]. change (drop (Z.to_nat 0) p) with p.
  set (src := take (Z.to_nat size) p). assert (length src = Z.to_nat size) as Hsl by (subst src; rewrite length_take; lia).
  destruct (blit_ok (am_data m) 0 src) as [d Hb]; [lia|lia|]. rewrite Hb. cbn [checked mbind outcome_bind].
  pose proof (blit_length _ _ _ _ Hb) as Hdl. rewrite calcCS_eq by (cbn; congruence). cbn [mbind outcome_bind].
  assert (take (Z.to_nat size) d = src) as Htake.
  { unfold blit in Hb. rewrite bool_decide_true in Hb by lia. injection Hb as <-. cbn. by rewrite <-Hsl, take_app_length. }
  set (m1 := am_set_data d _). assert (am_dataSize m1 = size) as Hsz.
  { unfold am_dataSize, code_dataSize, dSizeCode. cbn [am_cmd0 m1 am_set_data]. rewrite H1.
    change 3 with (Z.ones 2). rewrite Z.land_ones, Z.mod_small by (change (2 ^ 2) with 4; lia). lia. }
  eexists. split; [done|]. cbn [am_address am_set_cs am_cs am_cmd0 am_cmd1 am_data m1 am_set_data].
  split_and!; [by apply u8_id|exact Hsz|exact H2|congruence|exact Htake| |apply u8_range].
  rewrite Hsz. cbn [am_data m1 am_set_data]. rewrite Htake. by rewrite u8_id.
Qed.

Lemma packet_bytes_eq m :
  length (am_data m) = 12%nat ->
  packet_bytes m = [LoPreambleB0; LoPreambleB1; am_cs m; am_address m; am_cmd0 m; am_cmd1 m] ++ take (Z.to_nat (am_dataSize m)) (am_data m).
Proof.
  intros Hl. pose proof (am_dataSize_range m). unfold packet_bytes, packet_size, am_size, HeaderSize.
  rewrite (u8_id (4 + _)) by (unw; lia). rewrite u8_id by (unw; lia).
  replace (Z.to_nat (2 + (4 + am_dataSize m))) with (6 + Z.to_nat (am_dataSize m))%nat by lia. done.
Qed.

(** A short message, from one device to the other.  A message made by
    [set] - for an address, a parameter of fourteen bits and 0, 4, 8 or 12
    bytes of data - is sent as one packet; a receiver that waits for a packet,
    whatever it received before, and to which the message is addressed (its own
    address with or without the bit for delayed answers, the broadcast address,
    or any if it has the address 0) takes from these bytes exactly this
    message: the answer to the last byte is 2, one message is added to the
    queue, with the address, the parameter and the data that were given, and
    the receiver waits for the next packet.  When the queue is full the message
    is dropped, and the answer is 2 all the same. *)
Theorem lt_roundtrip (addr size param rc : Z) (p : list Z) (m : TAppMessage) (r : LtRx) (l : list TAppMessage) :
  is_u8 addr -> coded size -> 0 <= param < 16384 -> size <= Z.of_nat (length p) -> length (am_data m) = 12%nat ->
  length (am_data (lt_msg r)) = 12%nat -> lt_state r = stWait -> tq_rep (lt_queue r) l ->
  for_me addr (lt_selfAddress r) = true ->
  exists m1 m2 r', am_set addr size param (Some p) m = Ret m1 /\ lt_run (packet_bytes m1) r rc = Ret (r', 2) /\
    lt_state r' = stWait /\ lt_selfAddress r' = lt_selfAddress r /\
    tq_rep (lt_queue r') (if full (lt_queue r) then l else l ++ [m2]) /\
    am_address m2 = addr /\ parameter m2 = param /\ am_dataSize m2 = size /\
    take (Z.to_nat size) (am_data m2) = take (Z.to_nat size) p.
Proof.
  intros Ha Hc Hp Hl Hd Hrd Hst Hq Hme. destruct (am_set_spec addr size param p m Ha Hc Hp Hl Hd)
    as (m1 & Hset & Ea & Es & Ep & Ed & Et & Ecs & Hc0).
  assert (0 <= size <= 12) as Hs by (unfold coded in Hc; lia).
  set (src := take (Z.to_nat size) p) in *. assert (length src = Z.to_nat size) as Hsl by (subst src; rewrite length_take; lia).
  set (m2 := mkAppMessage (am_cs m1) addr (am_cmd0 m1) (am_cmd1 m1) (src ++ drop (Z.to_nat size) (am_data (lt_msg r)))).
  assert (length (am_data m2) = 12%nat) as Hm2l by (cbn; rewrite length_app, length_drop; lia).
  assert (am_dataSize m2 = size) as Hm2s by exact Es.
  assert (take (Z.to_nat size) (am_data m2) = src) as Hm2t by (cbn; rewrite <-Hsl; apply take_app_length).
  assert (forall r1, lt_msg r1 = m2 -> lt_queue r1 = lt_queue r -> lt_selfAddress r1 = lt_selfAddress r ->
    exists r', lt_complete r1 = Ret (r', 2) /\ lt_state r' = stWait /\ lt_selfAddress r' = lt_selfAddress r /\
      tq_rep (lt_queue r') (if full (lt_queue r) then l else l ++ [m2])) as Hdone.
  { intros r1 E1 E2 E3. unfold lt_complete. rewrite E1, calcCS_eq by done. cbn [mbind outcome_bind].
    rewrite Hm2s, Hm2t. cbn [am_address am_cmd0 am_cmd1 am_cs m2]. rewrite bool_decide_true by done. rewrite E2.
    destruct (full (lt_queue r)) eqn:Hf.
    - rewrite push_full by done. eexists. split; [done|]. cbn. rewrite <-E2 in Hq. split_and!; [done|done|]. by rewrite <-E2.
    - destruct (push_rep _ _ m2 Hq Hf) as (q' & -> & Hq' & _). eexists. by split_and!. }
  assert (forall r1, lt_msg r1 = m2 -> lt_queue r1 = lt_queue r -> lt_selfAddress r1 = lt_selfAddress r ->
    lt_run (packet_bytes m1) r rc = lt_complete r1 -> exists m1 m2 r', am_set addr size param (Some p) m = Ret m1 /\ lt_run (packet_bytes m1) r rc = Ret (r', 2) /\
    lt_state r' = stWait /\ lt_selfAddress r' = lt_selfAddress r /\
    tq_rep (lt_queue r') (if full (lt_queue r) then l else l ++ [m2]) /\
    am_address m2 = addr /\ parameter m2 = param /\ am_dataSize m2 = size /\
    take (Z.to_nat size) (am_data m2) = src) as Hfin.
  { intros r1 E1 E2 E3 Hrun. destruct (Hdone r1 E1 E2 E3) as (r' & Hc' & R1 & R2 & R3).
    exists m1, m2, r'. rewrite Hrun. by split_and!. }
  rewrite (packet_bytes_eq m1 Ed), Es, Et, Ea, lt_header in Hfin by done.
  set (m0 := mkAppMessage _ addr _ _ (am_data (lt_msg r))) in Hfin.
  assert (am_dataSize m0 = size) as Hm0 by exact Es. rewrite Hm0 in Hfin.
  case_bool_decide as Hz.
  - assert (src = []) as Hs0 by (destruct src; [done|cbn in Hsl; lia]).
    assert (m0 = m2) as Hm02 by (unfold m0, m2; by rewrite Hs0, Hz).
    apply (Hfin (lt_set_size 0 (lt_set_msg m0 (lt_set_state stCmd1 r)))); [exact Hm02|done|done|].
    rewrite Hs0. destruct (lt_complete _) as [[r' rc']| |]; done.
  - eapply Hfin; [| | |apply (lt_data_loop src [] (take (Z.to_nat size) (am_data (lt_msg r))) (drop (Z.to_nat size) (am_data (lt_msg r))))].
    + done.
    + done.
    + done.
    + intros E. rewrite E in Hsl. cbn in Hsl. lia.
    + cbn. by rewrite take_drop.
    + rewrite length_take. lia.
    + done.
    + done.
    + cbn. lia.
    + cbn. lia.
Qed.

(** ** Witnesses *)

Definition demo_am : TAppMessage := mkAppMessage 0 0 0 0 (replicate 12 0).
Definition demo_lt : LtRx := mkLtRx (TQueue_new (replicate 4 demo_am) 4) demo_am stWait 0 0 0 5.

Lemma demo_lt_queue : tq_rep (lt_queue demo_lt) [].
Proof. by apply TQueue_new_rep. Qed.

Lemma lt_rx_safe_witness : exists r' rc', lt_run [0xAA; 0x99; 1; 5; 3; 0; 7; 7; 0xAA] demo_lt 0 = Ret (r', rc') /\ lt_inv r'.
Proof.
  destruct (lt_rx_safe [0xAA; 0x99; 1; 5; 3; 0; 7; 7; 0xAA] demo_lt 0) as (r' & rc' & H & Hi & _).
  - by apply (bool_decide_unpack _).
  - constructor; [constructor; by apply (bool_decide_unpack _)|exists []; split; [exact demo_lt_queue|constructor]|done|done].
  - lia.
  - exists r', rc'. split; [exact H|exact Hi].
Defined.

Lemma lt_roundtrip_witness :
  exists m1 r', am_set 5 4 1000 (Some [1; 2; 3; 4]) demo_am = Ret m1 /\ lt_run (packet_bytes m1) demo_lt 0 = Ret (r', 2).
Proof.
  destruct (lt_roundtrip 5 4 1000 0 [1; 2; 3; 4] demo_am demo_lt []) as (m1 & m2 & r' & H1 & H2 & _).
  - unw. lia.
  - by right; left.
  - lia.
  - by apply (bool_decide_unpack _).
  - done.
  - done.
  - done.
  - exact demo_lt_queue.
  - done.
  - exists m1, r'. split; [exact H1|exact H2].
Defined.
