(* ===== verification/Putx.v ===== *)
(** * Printing of numbers ([src/comm/putx.c])

    The functions write characters to the console; here they return the
    characters they write, as a list of codes. *)

From S2P Require Import Prelude.

Definition hexAsciiTable : list Z := [48; 49; 50; 51; 52; 53; 54; 55; 56; 57; 65; 66; 67; 68; 69; 70].
Definition hex (k : Z) : Z := nth (Z.to_nat k) hexAsciiTable 0.

(** The two digits of a byte as one word: the high digit in the low byte. *)
Definition hexb2asciiw (b : Z) : Z :=
  let wl := hex (Z.land b 0x0f) in
  let wh := hex (Z.land (Z.shiftr b 4) 0x0f) in
  u16 (Z.lor (Z.shiftl wl 8) wh).

Definition putbx (b : Z) : list Z := [hex (Z.land (Z.shiftr b 4) 0x0f); hex (Z.land b 0x0f)].

Definition putwx (w : Z) : list Z :=
  [hex (Z.land (Z.shiftr w 12) 0x0f); hex (Z.land (Z.shiftr w 8) 0x0f);
   hex (Z.land (Z.shiftr w 4) 0x0f); hex (Z.land w 0x0f)].

Definition putdwx (dw : Z) : list Z := putwx (Z.shiftr dw 16) ++ putwx dw.

(** One digit of [putdwx_zs]: printed unless it is a leading zero. *)
Definition zs_digit (b0 b1 : Z) : Z * list Z :=
  if bool_decide (b0 <> 0) || bool_decide (b1 <> 0) then (0xff, [hex b0]) else (b1, []).

(** The loop over the bytes [*p], from the highest one. *)
Fixpoint zs_loop (p : list Z) (b1 : Z) : Z * list Z :=
  match p with
  | [] => (b1, [])
  | b :: p =>
      let '(b1, l1) := zs_digit (Z.land (Z.shiftr b 4) 0x0f) b1 in
      let '(b1, l2) := zs_digit (Z.land b 0x0f) b1 in
      let '(b1, l) := zs_loop p b1 in (b1, l1 ++ l2 ++ l)
  end.

Definition putdwx_zs (w : Z) : list Z :=
  let '(b1, l) := zs_loop (rev (le4 w)) 0 in
  l ++ (if bool_decide (b1 = 0) then [48] else []).

(** [do { p--; *p = w % 10 + 0x30; w /= 10; } while(w)]: the array and the
    index [p]. *)
Fixpoint dec_loop (fuel : nat) (w p : Z) (buf : list Z) : outcome (list Z * Z) :=
  match fuel with
  | O => Spin
  | S fuel =>
      buf ← checked (wr buf (p - 1) (w mod 10 + 0x30));
      if bool_decide (w / 10 <> 0) then dec_loop fuel (w / 10) (p - 1) buf else Ret (buf, p - 1)
  end.

(** The string at an address: up to the first zero byte. *)
Fixpoint cstring (m : list Z) : outcome (list Z) :=
  match m with
  | [] => Fault
  | b :: m => if bool_decide (b = 0) then Ret [] else l ← cstring m; Ret (b :: l)
  end.

(** The common form: an array of [n] bytes that ends with a zero, the digits of
    [w], the sign of [d]; [junk] is the array before it is written. *)
Definition put_dec (n d w : Z) (junk : list Z) : outcome (list Z) :=
  buf ← checked (wr junk (n - 1) 0);
  '(buf, p) ← dec_loop (length junk) w (n - 1) buf;
  '(buf, p) ← (if bool_decide (d < 0) then buf ← checked (wr buf (p - 1) 45); Ret (buf, p - 1) else Ret (buf, p));
  cstring (drop (Z.to_nat p) buf).

(** [w] is an [unsigned short]. *)
Definition putd (d : Z) (junk : list Z) : outcome (list Z) := put_dec 7 d (u16 (if bool_decide (d < 0) then - d else d)) junk.
Definition putl (d : Z) (junk : list Z) : outcome (list Z) := put_dec 12 d (u32 (if bool_decide (d < 0) then - d else d)) junk.
Definition putw (w : Z) (junk : list Z) : outcome (list Z) := put_dec 6 0 w junk.
Definition putdw (w : Z) (junk : list Z) : outcome (list Z) := put_dec 11 0 w junk.

(** ** What is printed *)

(** The value of decimal digits. *)
Definition dec_value (l : list Z) : Z := fold_left (fun v c => v * 10 + (c - 48)) l 0.

(** A numeral: digits only, at least one, no zero in front of others. *)
Definition numeral (l : list Z) : Prop :=
  l <> [] /\ Forall (fun c => 48 <= c <= 57) l /\ (head l = Some 48 -> l = [48]).

#[export] Instance numeral_dec l : Decision (numeral l).
Proof. unfold numeral. apply _. Defined.

Lemma dec_value_app l c : dec_value (l ++ [c]) = dec_value l * 10 + (c - 48).
Proof. unfold dec_value. by rewrite fold_left_app. Qed.

Lemma dec_loop_spec k : forall (w : Z) (l rest : list Z) fuel,
  0 <= w < 10 ^ Z.of_nat k -> (0 < k)%nat -> (k <= length l)%nat -> (k <= fuel)%nat ->
  exists ds pre, dec_loop fuel w (Z.of_nat (length l)) (l ++ rest) = Ret (pre ++ ds ++ rest, Z.of_nat (length pre)) /\
    numeral ds /\ dec_value ds = w /\ length (pre ++ ds) = length l /\ (length ds <= k)%nat.
Proof.
  induction k as [|k IH]; intros w l rest fuel Hw Hk Hl Hf; [lia|]. destruct fuel as [|fuel]; [lia|].
  destruct (exists_last (l:=l)) as (l' & x & ->); [intros ->; cbn in Hl; lia|]. rewrite length_app in *. cbn [length] in *.
  cbn [dec_loop]. rewrite <-app_assoc. cbn [app].
  rewrite (wr_at l' x rest _ _ _ eq_refl) by lia. cbn [checked mbind outcome_bind].
  assert (48 <= w mod 10 + 0x30 <= 57) as Hdig by (Z.to_euclidean_division_equations; lia).
  case_bool_decide as Hz.
  - rewrite Nat2Z.inj_succ, Z.pow_succ_r in Hw by lia.
    destruct k as [|k]; [change (10 ^ Z.of_nat 0) with 1 in Hw; Z.to_euclidean_division_equations; lia|].
    destruct (IH (w / 10) l' ((w mod 10 + 48) :: rest) fuel) as (ds & pre & Hd & (N1 & N2 & N3) & Hv & Hlen & Hle);
      [split; [apply Z.div_pos; lia|apply Z.div_lt_upper_bound; lia]|lia..|].
    replace (Z.of_nat (length l' + 1) - 1) with (Z.of_nat (length l')) by lia. rewrite Hd.
    exists (ds ++ [w mod 10 + 48]), pre. rewrite <-app_assoc. split; [done|].
    rewrite app_assoc, length_app, Hlen, length_app, dec_value_app, Hv. cbn [length].
    split_and!; [split_and!| |lia|lia].
    + by destruct ds.
    + apply Forall_app. split; [done|]. by constructor.
    + destruct ds as [|c ds]; [done|]. cbn. intros E. specialize (N3 E). injection N3 as -> ->.
      exfalso. apply Hz. rewrite <-Hv. reflexivity.
    + pose proof (Z.div_mod w 10). lia.
  - exists [w mod 10 + 48], l'. replace (Z.of_nat (length l' + 1) - 1) with (Z.of_nat (length l')) by lia.
    split; [done|]. rewrite length_app. split_and!; [split_and!| |done|cbn; lia].
    + done.
    + by constructor.
    + by intros [= ->].
    + unfold dec_value. cbn. pose proof (Z.div_mod w 10). lia.
Qed.

Lemma cstring_spec l rest : Forall (fun c => c <> 0) l -> cstring (l ++ 0 :: rest) = Ret l.
Proof.
  induction 1 as [|c l Hc _ IH]; cbn; [done|]. rewrite bool_decide_false by done. by rewrite IH.
Qed.

Lemma put_dec_spec k n d w junk :
  0 <= w < 10 ^ Z.of_nat k -> (0 < k)%nat -> length junk = Z.to_nat n -> Z.of_nat k + 1 + (if bool_decide (d < 0) then 1 else 0) <= n ->
  exists ds, put_dec n d w junk = Ret ((if bool_decide (d < 0) then [45] else []) ++ ds) /\ numeral ds /\ dec_value ds = w.
Proof.
  intros Hw Hk Hj Hn. unfold put_dec.
  assert (k + 1 <= Z.to_nat n)%nat as Hkn by (case_bool_decide; lia).
  destruct (exists_last (l:=junk)) as (l & x & ->); [intros ->; cbn in Hj; lia|]. rewrite length_app in *. cbn [length] in *.
  rewrite (wr_at l x [] _ (n - 1) 0) by (done || lia). cbn [checked mbind outcome_bind].
  replace (n - 1) with (Z.of_nat (length l)) by lia.
  destruct (dec_loop_spec k w l [0] (length l + 1) Hw Hk) as (ds & pre & -> & (N1 & N2 & N3) & Hv & Hlen & Hle); [lia..|].
  cbn [mbind outcome_bind]. rewrite length_app in Hlen.
  assert (Forall (fun c => c <> 0) ds) as Hnz by (eapply Forall_impl; [exact N2|]; cbn; lia).
  case_bool_decide as Hd.
  - destruct (exists_last (l:=pre)) as (pre' & y & ->); [intros ->; cbn in Hlen; lia|]. rewrite length_app in *. cbn [length] in *.
    replace (Z.of_nat (length pre' + 1) - 1) with (Z.of_nat (length pre')) by lia. rewrite <-app_assoc. cbn [app].
    rewrite (wr_at pre' y (ds ++ [0]) _ _ 45 eq_refl) by lia. cbn [checked mbind outcome_bind].
    rewrite Nat2Z.id, drop_app_length. exists ds. split; [|done]. cbn [cstring]. rewrite bool_decide_false by lia.
    by rewrite cstring_spec.
  - cbn [mbind outcome_bind]. rewrite Nat2Z.id, drop_app_length. exists ds. split; [|done]. by rewrite cstring_spec.
Qed.

(** A number and its sign as they are printed. *)
Definition prints (d w : Z) (l : list Z) : Prop :=
  exists ds, l = (if bool_decide (d < 0) then [45] else []) ++ ds /\ numeral ds /\ dec_value ds = w.

Lemma putl_spec d j : length j = 12%nat -> -2147483648 <= d < 2147483648 ->
  exists l, putl d j = Ret l /\ prints d (Z.abs d) l.
Proof.
  intros Hj Hd. assert ((if bool_decide (d < 0) then - d else d) = Z.abs d) as Habs by (case_bool_decide; lia).
  unfold putl. rewrite Habs, u32_id by (unw; lia).
  destruct (put_dec_spec 10 12 d (Z.abs d) j) as (ds & -> & H); [change (10 ^ Z.of_nat 10) with 10000000000; lia|lia|done|case_bool_decide; lia|].
  eexists. split; [done|]. by exists ds.
Qed.

Lemma putd_spec d j : length j = 7%nat -> exists l, putd d j = Ret l /\ prints d (u16 (Z.abs d)) l.
Proof.
  intros Hj. assert ((if bool_decide (d < 0) then - d else d) = Z.abs d) as Habs by (case_bool_decide; lia).
  unfold putd. rewrite Habs. pose proof (u16_range (Z.abs d)). unw.
  destruct (put_dec_spec 5 7 d (u16 (Z.abs d)) j) as (ds & -> & H'); [change (10 ^ Z.of_nat 5) with 100000; lia|lia|done|case_bool_decide; lia|].
  eexists. split; [done|]. by exists ds.
Qed.

(** The printing of numbers in decimal.  [putl] prints a signed and
    [putdw] an unsigned number of 32 bits, [putw] an unsigned one of 16 bits:
    the sign, if any, and the one numeral of the value, without leading zeros
    and without leaving the small array the digits are put in.  [putd], which
    is given an [int], prints only the low 16 bits of its absolute value. *)
Theorem put_decimal (d w : Z) (j6 j7 j11 j12 : list Z) :
  length j6 = 6%nat -> length j7 = 7%nat -> length j11 = 11%nat -> length j12 = 12%nat ->
  -2147483648 <= d < 2147483648 -> is_u32 w ->
  (exists l, putl d j12 = Ret l /\ prints d (Z.abs d) l) /\
  (exists ds, putdw w j11 = Ret ds /\ numeral ds /\ dec_value ds = w) /\
  (exists ds, putw (u16 w) j6 = Ret ds /\ numeral ds /\ dec_value ds = u16 w) /\
  (exists l, putd d j7 = Ret l /\ prints d (Z.abs d mod 65536) l).
Proof.
  intros H6 H7 H11 H12 Hd Hw. pose proof (u16_range w) as Hw16. unw. split_and!.
  - by apply putl_spec.
  - apply (put_dec_spec 10 11 0); [change (10 ^ Z.of_nat 10) with 10000000000; lia|lia|done|]. by vm_compute.
  - apply (put_dec_spec 5 6 0); [change (10 ^ Z.of_nat 5) with 100000; lia|lia|done|]. by vm_compute.
  - by apply putd_spec.
Qed.

Lemma put_decimal_witness :
  (exists ds, putl (-1205) (replicate 12 7) = Ret (45 :: ds) /\ dec_value ds = 1205) /\
  (exists ds, putd 70000 (replicate 7 7) = Ret ds /\ dec_value ds = 4464).
Proof.
  destruct (put_decimal (-1205) 5 (replicate 6 7) (replicate 7 7) (replicate 11 7) (replicate 12 7)) as ((l & H1 & ds & -> & _ & H2) & _);
    [done|done|done|done|lia|unw; lia|].
  destruct (put_decimal 70000 5 (replicate 6 7) (replicate 7 7) (replicate 11 7) (replicate 12 7)) as (_ & _ & _ & (l' & H3 & ds' & -> & _ & H4));
    [done|done|done|done|lia|unw; lia|].
  split; [exists ds; split; [exact H1|exact H2]|exists ds'; split; [exact H3|exact H4]].
Defined.

(** *** Hexadecimal *)

Definition hex_digit (c : Z) : Z := if bool_decide (c >= 65) then c - 55 else c - 48.
Definition hex_value (l : list Z) : Z := fold_left (fun v c => v * 16 + hex_digit c) l 0.

Lemma hex_digit_hex k : 0 <= k < 16 -> hex_digit (hex k) = k.
Proof.
  intros Hk. assert (Forall (fun k => hex_digit (hex k) = k) (seqZ 0 16)) as Hall by (by apply (bool_decide_unpack _)).
  rewrite Forall_forall in Hall. apply Hall. apply elem_of_seqZ. lia.
Qed.

Lemma nibble w s : 0 <= s -> Z.land (Z.shiftr w s) 0x0f = w / 2 ^ s mod 16.
Proof. intros Hs. change 0x0f with (Z.ones 4). by rewrite Z.land_ones, Z.shiftr_div_pow2 by lia. Qed.

(** With leading zeros left out: [v] is the value before, [b1] tells whether
    a digit has been printed. *)
Lemma zs_digit_spec b0 b1 : 0 <= b0 < 16 -> 0 <= b1 ->
  0 <= (zs_digit b0 b1).1 /\ ((zs_digit b0 b1).1 = 0 <-> b0 = 0 /\ b1 = 0) /\
  (forall v, (b1 = 0 -> v = 0) -> fold_left (fun v c => v * 16 + hex_digit c) (zs_digit b0 b1).2 v = v * 16 + b0) /\
  ((zs_digit b0 b1).2 = [] <-> (zs_digit b0 b1).1 = 0) /\
  (b1 = 0 -> head (zs_digit b0 b1).2 <> Some 48).
Proof.
  intros Hb Hb1. unfold zs_digit. case_bool_decide as E1; cbn [orb].
  - cbn [fst snd fold_left head]. rewrite hex_digit_hex by lia. split_and!; try done; try lia.
    intros _ [= E]. pose proof (hex_digit_hex b0 Hb) as Hx. rewrite E in Hx. change (hex_digit 48) with 0 in Hx. lia.
  - case_bool_decide as E2; cbn [fst snd fold_left head].
    + rewrite hex_digit_hex by lia. split_and!; try done; try lia.
    + assert (b0 = 0) as -> by lia. assert (b1 = 0) as -> by lia. split_and!; try done. intros v Hv. rewrite Hv by done. lia.
Qed.

Lemma zs_loop_spec p : bytes p -> forall b1, 0 <= b1 ->
  ((zs_loop p b1).1 = 0 -> (zs_loop p b1).2 = [] /\ b1 = 0) /\
  (forall v, (b1 = 0 -> v = 0) ->
     fold_left (fun v c => v * 16 + hex_digit c) (zs_loop p b1).2 v = fold_left (fun v b => v * 256 + b) p v) /\
  (b1 = 0 -> head (zs_loop p b1).2 <> Some 48).
Proof.
  induction 1 as [|b p Hb _ IH]; intros b1 Hb1; cbn [zs_loop]; [by split_and!|].
  assert (0 <= Z.land (Z.shiftr b 4) 0x0f < 16 /\ 0 <= Z.land b 0x0f < 16 /\
    Z.land (Z.shiftr b 4) 0x0f * 16 + Z.land b 0x0f = b) as (R1 & R2 & Hsum).
  { pose proof (nibble b 4 ltac:(lia)) as N1. pose proof (nibble b 0 ltac:(lia)) as N2. rewrite Z.shiftr_0_r in N2.
    rewrite N1, N2. change (2 ^ 4) with 16. change (2 ^ 0) with 1. unw. Z.to_euclidean_division_equations; lia. }
  set (x := Z.land (Z.shiftr b 4) 0x0f) in *. set (y := Z.land b 0x0f) in *. clearbody x y.
  destruct (zs_digit_spec x b1 R1 Hb1) as (A1 & A2 & A3 & A4 & A5).
  destruct (zs_digit x b1) as [c1 l1]. cbn [fst snd] in *.
  destruct (zs_digit_spec y c1 R2 A1) as (B1 & B2 & B3 & B4 & B5).
  destruct (zs_digit y c1) as [c2 l2]. cbn [fst snd] in *.
  destruct (IH c2 B1) as (C1 & C2 & C3). destruct (zs_loop p c2) as [c3 l3]. cbn [fst snd] in *.
  split_and!.
  - intros E. destruct (C1 E) as [-> E2]. destruct (B2) as [B2' _]. destruct (B2' E2) as [_ E1].
    assert (l2 = []) as -> by (by apply B4). assert (l1 = []) as -> by (by apply A4). split; [done|]. by apply A2.
  - intros v Hv. rewrite !fold_left_app. cbn [fold_left].
    rewrite A3 by done. rewrite B3 by (intros E; destruct A2 as [A2' _]; destruct (A2' E) as [-> E1]; rewrite (Hv E1); lia).
    rewrite C2.
    + f_equal. lia.
    + intros E. destruct B2 as [B2' _]. destruct (B2' E) as [-> E1]. destruct A2 as [A2' _]. destruct (A2' E1) as [-> E0].
      rewrite (Hv E0). lia.
  - intros E. specialize (A5 E). destruct l1 as [|k l1]; [|done]. cbn [app].
    assert (c1 = 0) as E1 by (by apply A4). specialize (B5 E1). destruct l2 as [|k l2]; [|done]. cbn [app].
    apply C3. by apply B4.
Qed.

Lemma putdwx_zs_spec w : is_u32 w -> hex_value (putdwx_zs w) = w /\ (head (putdwx_zs w) = Some 48 -> w = 0).
Proof.
  intros Hw. unfold putdwx_zs. assert (bytes (rev (le4 w))) as Hb by (apply Forall_rev, le4_bytes).
  destruct (zs_loop_spec _ Hb 0 ltac:(lia)) as (H1 & H2 & H3). destruct (zs_loop (rev (le4 w)) 0) as [b1 l]. cbn [fst snd] in *.
  assert (hex_value l = w) as Hv.
  { unfold hex_value. rewrite H2 by done. rewrite <-(of_le4_le4 w Hw) at 2. unfold le4, of_le4. cbn [rev app fold_left]. lia. }
  case_bool_decide as E.
  - destruct (H1 E) as [-> _]. change (0 = w) in Hv. subst w. by split.
  - rewrite app_nil_r. split; [exact Hv|]. intros Hh. by apply H3 in Hh.
Qed.

(** The printing of numbers in hexadecimal.  [putbx], [putwx] and
    [putdwx] print exactly the two, four and eight digits of the value;
    [putdwx_zs] prints the value without leading zeros. *)
Theorem put_hexadecimal (b w dw : Z) :
  is_u8 b -> is_u16 w -> is_u32 dw ->
  hex_value (putbx b) = b /\ hex_value (putwx w) = w /\ hex_value (putdwx dw) = dw /\
  hex_value (putdwx_zs dw) = dw /\ (head (putdwx_zs dw) = Some 48 -> dw = 0) /\
  length (putbx b) = 2%nat /\ length (putwx w) = 4%nat /\ length (putdwx dw) = 8%nat.
Proof.
  intros Hb Hw Hd.
  assert (forall w, 0 <= w -> hex_value (putwx w) = w mod 65536) as Hwx.
  { intros v Hv. unfold putwx, hex_value. cbn [fold_left]. rewrite <-(Z.shiftr_0_r v) at 4.
    rewrite !nibble, !hex_digit_hex by (lia || apply Z.mod_pos_bound; lia).
    change (2 ^ 12) with 4096. change (2 ^ 8) with 256. change (2 ^ 4) with 16. change (2 ^ 0) with 1.
    Z.to_euclidean_division_equations; lia. }
  destruct (putdwx_zs_spec dw Hd) as [Hz1 Hz2]. unw. split_and!; try done.
  - unfold putbx, hex_value. cbn [fold_left]. rewrite <-(Z.shiftr_0_r b) at 2.
    rewrite !nibble, !hex_digit_hex by (lia || apply Z.mod_pos_bound; lia).
    change (2 ^ 4) with 16. change (2 ^ 0) with 1. Z.to_euclidean_division_equations; lia.
  - rewrite Hwx by lia. apply Z.mod_small. lia.
  - assert (forall l1 l2, length l2 = 4%nat -> hex_value (l1 ++ l2) = hex_value l1 * 65536 + hex_value l2) as Happ.
    { intros l1 l2 Hl. unfold hex_value. rewrite fold_left_app. set (v := fold_left _ l1 0). clearbody v.
      destruct l2 as [|c1 [|c2 [|c3 [|c4 [|]]]]]; try done. cbn [fold_left]. lia. }
    unfold putdwx. rewrite Happ by done. rewrite !Hwx by (try apply Z.shiftr_nonneg; lia).
    rewrite Z.shiftr_div_pow2 by lia. change (2 ^ 16) with 65536. Z.to_euclidean_division_equations; lia.
Qed.

Lemma put_hexadecimal_witness : hex_value (putdwx 0xDEADBEEF) = 0xDEADBEEF.
Proof. destruct (put_hexadecimal 0 0 0xDEADBEEF) as (_ & _ & H & _); [unw; lia..|]. exact H. Defined.
