(* ===== verification/Console.v ===== *)
(** * The console ([src/comm/constrinput.c], [src/coninput.cpp])

    The line that is typed ([cprocbyte], [cgets]), the search for its command
    ([cparse]) and the commands that read and write registers.  Strings are
    lists of character codes; a string in memory ends with the code 0. *)

From Stdlib Require Import String Ascii.
From S2P Require Import Prelude HalBase TDataBuffer DataBuffers DeviceParameters Putx.

Definition str (s : string) : list Z := map (fun a => Z.of_N (N_of_ascii a)) (list_ascii_of_string s).

Definition CSTR_SZ : Z := 164.
Definition MAXCMD_SZ : nat := 160.

(** The variables of the two files; [con_out]: what has been sent to the
    console, oldest first. *)
Record Console := mkConsole {
  cstr : list Z;          (* char cstr[165] *)
  cbcnt : Z;              (* short *)
  cbyte : Z;              (* short *)
  CON_ECHO : Z;           (* short *)
  con_out : list Z;
  out_mode : Z;           (* uint8_t out *)
  out_ticks : Z;          (* static uint32_t ticks *)
}.

Definition con_set_line s n (c : Console) := mkConsole s n (cbyte c) (CON_ECHO c) (con_out c) (out_mode c) (out_ticks c).
Definition con_set_cbyte b (c : Console) := mkConsole (cstr c) (cbcnt c) b (CON_ECHO c) (con_out c) (out_mode c) (out_ticks c).
Definition con_put l (c : Console) := mkConsole (cstr c) (cbcnt c) (cbyte c) (CON_ECHO c) (con_out c ++ l) (out_mode c) (out_ticks c).
Definition con_set_mode m (c : Console) := mkConsole (cstr c) (cbcnt c) (cbyte c) (CON_ECHO c) (con_out c) m (out_ticks c).
Definition con_set_ticks t (c : Console) := mkConsole (cstr c) (cbcnt c) (cbyte c) (CON_ECHO c) (con_out c) (out_mode c) t.

Definition LF : Z := 10.
Definition CR : Z := 13.
Definition BS : Z := 8.

Definition cprocbyte (b : Z) (c : Console) : outcome Console :=
  let c := con_set_cbyte b c in
  if bool_decide (b = LF) then Ret c
  else if bool_decide (b = 126) || bool_decide (b = 42) then Ret c
  else
    let c := if bool_decide (Z.land (cbcnt c) 0x80 <> 0) then con_set_line (cstr c) 0 c else c in
    let c := if bool_decide (CON_ECHO c <> 0) then con_put [b] c else c in
    if bool_decide (b = BS) && bool_decide (cbcnt c <> 0x80) && bool_decide (cbcnt c <> 0)
    then Ret (con_set_line (cstr c) (s16 (cbcnt c - 1)) c)
    else if bool_decide (b = CR) then
      s ← checked (wr (cstr c) (cbcnt c) 0);
      Ret (con_set_line s (Z.lor (cbcnt c) 0x80) c)
    else if bool_decide (cbcnt c >= CSTR_SZ) then
      s ← checked (wr (cstr c) CSTR_SZ 0);
      Ret (con_set_line s (Z.lor (cbcnt c) 0x80) c)
    else
      s ← checked (wr (cstr c) (cbcnt c) b);
      Ret (con_set_line s (s16 (cbcnt c + 1)) c).

Definition cgetc (c : Console) : Console * Z := (con_set_cbyte 0 c, u8 (cbyte c)).

Definition cgets (c : Console) : Console * option (list Z) :=
  if bool_decide (Z.land (cbcnt c) 0x80 <> 0) then (con_set_line (cstr c) 0 c, Some (cstr c)) else (c, None).

(** ** The search for a command *)

(** [while( *s1 && *s2) ...]: the two strings are equal. *)
Fixpoint cstrncmp (s1 s2 : list Z) : outcome Z :=
  match s1, s2 with
  | a :: s1', b :: s2' =>
      if bool_decide (a <> 0) && bool_decide (b <> 0) then
        if bool_decide (a <> b) then Ret 0 else cstrncmp s1' s2'
      else Ret (if bool_decide (a = 0) && bool_decide (b = 0) then 1 else 0)
  | _, _ => Fault
  end.

(** Blanks and tabs in front, at most [n] of them. *)
Fixpoint skip_spaces (n : nat) (s : list Z) {struct s} : outcome (list Z) :=
  match s with
  | [] => Fault
  | c :: s' =>
      if bool_decide (c <> 0) && (bool_decide (c = 32) || bool_decide (c = 9))
      then match n with O => Ret s | S n => skip_spaces n s' end
      else Ret s
  end.

(** The characters up to a blank, [=] or the end are copied to [sc\[i\]] and
    further. *)
Fixpoint take_word (s sc : list Z) (i : Z) {struct s} : outcome (list Z * Z) :=
  match s with
  | [] => Fault
  | c :: s' =>
      if bool_decide (c <> 0) && bool_decide (c <> 32) && bool_decide (c <> 61) && bool_decide (i < Z.of_nat MAXCMD_SZ) then
        if bool_decide (c <> 32) then sc ← checked (wr sc i c); take_word s' sc (u8 (i + 1)) else take_word s' sc i
      else Ret (sc, i)
  end.

Fixpoint skip_separators (cl : list Z) : outcome (list Z) :=
  match cl with
  | [] => Fault
  | c :: cl' => if bool_decide (c <> 0) && (bool_decide (c = 32) || bool_decide (c = 92)) then skip_separators cl' else Ret cl
  end.

(** The next command of the list is copied to [cc\[j\]] and further, up to the
    zero that stands there; the rest of the list is returned. *)
Fixpoint take_command (cl cc : list Z) (j : Z) {struct cl} : outcome (list Z * Z * list Z) :=
  match cl with
  | [] => Fault
  | c :: cl' =>
      if bool_decide (c <> 0) && bool_decide (c <> 92) then
        x ← checked (rd cc j);
        if bool_decide (x <> 0) then cc ← checked (wr cc j c); take_command cl' cc (j + 1) else Ret (cc, j, cl)
      else Ret (cc, j, cl)
  end.

(** [for(i=0; i<MAXCMD_SZ; i++) cc\[i\]=' '; cc\[i\]=0;] *)
Definition clear_command (cc : list Z) : outcome (list Z) :=
  cc ← checked (blit cc 0 (replicate MAXCMD_SZ 32));
  checked (wr cc (Z.of_nat MAXCMD_SZ) 0).

(** [while(1)] over the commands. *)
Fixpoint find_command (fuel : nat) (ccnt : Z) (sc cc cl : list Z) : outcome Z :=
  match fuel with
  | O => Spin
  | S fuel =>
      cc ← clear_command cc;
      cl ← skip_separators cl;
      c ← checked (head cl);
      if bool_decide (c = 0) then Ret (-1)
      else
        '(cc, j, cl) ← take_command cl cc 0;
        cc ← checked (wr cc j 0);
        e ← cstrncmp sc cc;
        if bool_decide (e <> 0) then Ret ccnt else find_command fuel (u8 (ccnt + 1)) sc cc cl
  end.

(** [cparse(cl, s)] with a line [s]; [arr]: what the arrays [cc] and [sc] of
    [MAXCMD_SZ+1] characters hold at first. *)
Definition cparse (arr cl s : list Z) : outcome Z :=
  s ← skip_spaces MAXCMD_SZ s;
  c ← checked (head s);
  if bool_decide (c = 0) then Ret (-3)
  else
    '(sc, i) ← take_word s arr 0;
    sc ← checked (wr sc i 0);
    find_command (length cl) 0 sc arr cl.

(** ** The commands *)

Definition commands : list Z := str "?\??\reset\r\w\wx\nvdata\out" ++ [0].

Definition newline : list Z := [LF].
Definition help : list Z :=
  str " reset" ++ newline ++ str " r  <register_num>                - read register" ++ newline ++
  str " w  <register_num> <value_dec>    - write register" ++ newline ++
  str " wx <register_num> <value_hex>    - write register" ++ newline ++
  str " nvdata <cmd>  - send cmd to test-nvdata" ++ newline.

(** [sscanf] of the standard library, the directives used: a character, white
    space, [%lu], [%x].  The rest of the input is returned when a directive
    matches. *)
Inductive directive := DChar (c : Z) | DSpace | DULong | DHex.

Definition is_space (c : Z) : bool := bool_decide (c = 32) || (bool_decide (9 <= c) && bool_decide (c <= 13)).

Fixpoint skip_white (s : list Z) : list Z :=
  match s with c :: s' => if is_space c then skip_white s' else s | [] => [] end.

Definition digit_of (base c : Z) : option Z :=
  let d := if bool_decide (48 <= c <= 57) then Some (c - 48)
           else if bool_decide (97 <= c <= 102) then Some (c - 87)
           else if bool_decide (65 <= c <= 70) then Some (c - 55) else None in
  match d with Some d => if bool_decide (d < base) then Some d else None | None => None end.

(** The digits in front; whether there were any. *)
Fixpoint scan_digits (base v : Z) (any : bool) (s : list Z) : Z * bool * list Z :=
  match s with
  | c :: s' => match digit_of base c with Some d => scan_digits base (v * base + d) true s' | None => (v, any, s) end
  | [] => (v, any, [])
  end.

(** [0x] in front of a digit of base 16. *)
Definition skip_0x (base : Z) (s : list Z) : list Z :=
  match s with
  | z :: x :: h :: s' =>
      if bool_decide (base = 16) && bool_decide (z = 48) && (bool_decide (x = 120) || bool_decide (x = 88)) &&
         match digit_of 16 h with Some _ => true | None => false end then h :: s' else s
  | _ => s
  end.

(** [strtoul]: an optional sign, for base 16 an optional [0x]; too large values
    give the largest one. *)
Definition strtoul (base : Z) (s : list Z) : option (Z * list Z) :=
  let s := skip_white s in
  let '(neg, s) := match s with
    | c :: s' => if bool_decide (c = 45) then (true, s') else if bool_decide (c = 43) then (false, s') else (false, s)
    | [] => (false, []) end in
  let s := skip_0x base s in
  let '(v, any, r) := scan_digits base 0 false s in
  if any : bool then Some (if bool_decide (v >= 4294967296) then 4294967295 else if neg : bool then u32 (- v) else v, r) else None.

(** The values that are assigned, in order. *)
Fixpoint sscanf (fmt : list directive) (s : list Z) : list Z :=
  match fmt with
  | [] => []
  | DSpace :: fmt => sscanf fmt (skip_white s)
  | DChar c :: fmt => match s with x :: s' => if bool_decide (x = c) then sscanf fmt s' else [] | [] => [] end
  | DULong :: fmt => match strtoul 10 s with Some (v, r) => v :: sscanf fmt r | None => [] end
  | DHex :: fmt => match strtoul 16 s with Some (v, r) => v :: sscanf fmt r | None => [] end
  end.

(** "r %lu", "w %lu = %lu", "wx %lu = %x", " out %lu" *)
Definition fmt_r : list directive := [DChar 114; DSpace; DULong].
Definition fmt_w : list directive := [DChar 119; DSpace; DULong; DSpace; DChar 61; DSpace; DULong].
Definition fmt_wx : list directive := [DChar 119; DChar 120; DSpace; DULong; DSpace; DChar 61; DSpace; DHex].
Definition fmt_out : list directive := [DSpace; DChar 111; DChar 117; DChar 116; DSpace; DULong].

Section Commands.
(** The registers, with what they read; [junk]: what is not initialised. *)
Variable bc : Container.
Variable NDEBUG : bool.
Variable now : Z.
Variable junk : Z.

Definition junk_buf (n : nat) : list Z := replicate n junk.

(** [puts("\np"); putd(i); putc(':'); putl(v); putc('\n')] *)
Definition show_register (pre : list Z) (i : Z) (v : outcome (list Z)) : outcome (list Z) :=
  n ← putd (s32 i) (junk_buf 7); v ← v; Ret (pre ++ n ++ str ":" ++ v ++ newline).

(** The body of [switch(cparse(commands, sp))]; the register number is
    converted to [uint16_t] by the call. *)
Definition run_command (k : Z) (sp : list Z) (r : Registers) (c : Console) : outcome (Registers * Console) :=
  if bool_decide (k = -1) then
    l ← cstring sp; Ret (r, con_put ([34] ++ l ++ [34] ++ str "?" ++ newline ++ str ">") c)
  else if bool_decide (k = 0) then
    l ← cstring commands; Ret (r, con_put (newline ++ l ++ newline ++ str ">") c)
  else if bool_decide (k = 1) then Ret (r, con_put (newline ++ help) c)
  else if bool_decide (k = 3) then
    l ← cstring sp;
    match sscanf fmt_r l with
    | [i] =>
        let '(v, rc) := Parameters_read bc NDEBUG now (u16 i) junk r in
        if bool_decide (rc = 0)
        then o ← show_register (newline ++ str "p") i (putl v (junk_buf 12)); Ret (r, con_put (o ++ str ">") c)
        else Ret (r, con_put (str "??" ++ newline ++ str ">") c)
    | _ => Ret (r, con_put (str "?" ++ newline ++ str ">") c)
    end
  else if bool_decide (k = 4) then
    l ← cstring sp;
    match sscanf fmt_w l with
    | [i; v] =>
        let '(r, rc) := Parameters_write bc (u16 i) (s32 v) r in
        if bool_decide (rc = 0)
        then o ← show_register (str "p") i (putl (s32 v) (junk_buf 12)); Ret (r, con_put o c)
        else Ret (r, con_put (str "?" ++ newline) c)
    | _ => Ret (r, con_put (str "?" ++ newline) c)
    end
  else if bool_decide (k = 5) then
    l ← cstring sp;
    match sscanf fmt_wx l with
    | [i; v] =>
        let '(r, rc) := Parameters_write bc (u16 i) (s32 v) r in
        if bool_decide (rc = 0)
        then o ← show_register (newline ++ str "p") i (Ret (putdwx v)); Ret (r, con_put (o ++ str ">") c)
        else Ret (r, con_put (str "??" ++ newline ++ str ">") c)
    | _ => Ret (r, con_put (str "?" ++ newline ++ str ">") c)
    end
  else if bool_decide (k = 7) then
    l ← cstring sp;
    let c := match sscanf fmt_out l with i :: _ => con_set_mode (u8 i) c | [] => c end in
    Ret (r, con_put (newline ++ str ">") c)
  else Ret (r, c).

Definition processConsoleInput (r : Registers) (c : Console) : outcome (Registers * Console) :=
  match cgets c with
  | (c, Some sp) => k ← cparse (junk_buf (S MAXCMD_SZ)) commands sp; run_command k sp r c
  | (c, None) => Ret (r, c)
  end.

End Commands.

(** [processConsoleOutput]; the printing of codes is not configured. *)
Definition processConsoleOutput (now : Z) (c : Console) : Console :=
  if bool_decide (out_mode c > 0) && TIMEOUT (out_ticks c) 1000 now then con_set_ticks now c else c.

(** ** The line that is typed

    The bytes from 128 on of the array are never written; an index from 128 on
    says that the line is complete. *)

Definition con_wf (c : Console) : Prop :=
  length (cstr c) = 165%nat /\ drop 128 (cstr c) = replicate 37 0 /\ 0 <= cbcnt c < 256.

(** The characters of the line so far. *)
Definition line (c : Console) : list Z :=
  if bool_decide (Z.land (cbcnt c) 0x80 <> 0) then [] else take (Z.to_nat (cbcnt c)) (cstr c).

(** What a byte other than CR does to a line: LF, [~] and [*] nothing, BS
    takes the last character away, unless there is none. *)
Definition ignored (b : Z) : bool := bool_decide (b ∈ [LF; 126; 42]).

Definition edit (l : list Z) (b : Z) : list Z :=
  if ignored b then l
  else if bool_decide (b = BS) && bool_decide (l <> []) then take (length l - 1) l
  else l ++ [b].

(** A line that is typed without reaching 128 characters. *)
Fixpoint edits (l bs : list Z) : option (list Z) :=
  match bs with
  | [] => Some l
  | b :: bs => if bool_decide (length (edit l b) < 128)%nat then edits (edit l b) bs else None
  end.

Definition echoed (e : Z) (bs : list Z) : list Z :=
  if bool_decide (e <> 0) then filter (fun b => ignored b = false) bs else [].

(** The loop of [hal::uarts::process] over the bytes. *)
Fixpoint cprocbytes (bs : list Z) (c : Console) : outcome Console :=
  match bs with [] => Ret c | b :: bs => c ← cprocbyte b c; cprocbytes bs c end.

Lemma bit7 n : 0 <= n < 256 -> (Z.land n 0x80 <> 0 <-> 128 <= n).
Proof.
  intros Hn. assert (Forall (fun n => Z.land n 0x80 <> 0 <-> 128 <= n) (seqZ 0 256)) as Hall by (by apply (bool_decide_unpack _)).
  rewrite Forall_forall in Hall. apply Hall, elem_of_seqZ. lia.
Qed.

Lemma set_bit7 n : 0 <= n < 128 -> Z.lor n 0x80 = 128 + n.
Proof. intros Hn. rewrite Z.lor_comm. change 0x80 with (1 * 2 ^ 7). rewrite lor_low by (change (2 ^ 7) with 128; lia). done. Qed.

Lemma line_length c : con_wf c -> Z.land (cbcnt c) 0x80 = 0 -> Z.of_nat (length (line c)) = cbcnt c /\ cbcnt c < 128.
Proof.
  intros (Hl & _ & Hn) H0. assert (~ 128 <= cbcnt c) by (rewrite <-bit7 by done; lia).
  unfold line. rewrite bool_decide_false by lia. rewrite length_take. lia.
Qed.

(** The state in which the bytes are processed: a complete line is dropped. *)
Definition con_begin (c : Console) : Console :=
  if bool_decide (Z.land (cbcnt c) 0x80 <> 0) then con_set_line (cstr c) 0 c else c.

Lemma con_begin_cstr c : cstr (con_begin c) = cstr c.
Proof. unfold con_begin. destruct (bool_decide (Z.land (cbcnt c) 128 <> 0)); done. Qed.

Lemma con_begin_spec c : con_wf c ->
  con_wf (con_begin c) /\ cbcnt (con_begin c) = Z.of_nat (length (line c)) /\ (length (line c) < 128)%nat /\
  take (length (line c)) (cstr c) = line c /\ line (con_begin c) = line c.
Proof.
  intros Hwf. assert (line (con_begin c) = line c) as Hline.
  { unfold con_begin, line. destruct (bool_decide (Z.land (cbcnt c) 128 <> 0)) eqn:E; [done|by rewrite E]. }
  rewrite Hline. clear Hline. pose proof (line_length c Hwf) as Hll. unfold con_begin, line in *. destruct Hwf as (Hl & Hz & Hn).
  case_bool_decide as E; cbn [cbcnt con_set_line length]; unfold con_wf; cbn [cstr cbcnt con_set_line].
  - split_and!; try done; lia.
  - destruct Hll as [H1 H2]; [lia|]. split_and!; try done; try lia. by rewrite length_take, Nat.min_l by lia.
Qed.

Lemma wr_tail (s : list Z) n b s' k : wr s n b = Some s' -> n < Z.of_nat k -> drop k s' = drop k s.
Proof. intros [Hn ->]%wr_Some Hk. apply drop_insert_lt. lia. Qed.

Lemma take_wr (s : list Z) (n : nat) b s' : wr s (Z.of_nat n) b = Some s' -> take (S n) s' = take n s ++ [b].
Proof.
  intros [Hn ->]%wr_Some. rewrite Nat2Z.id. rewrite (take_S_r _ _ b).
  - by rewrite take_insert_ge by lia.
  - apply list_lookup_insert_eq. lia.
Qed.

Lemma ignored_eq b : ignored b = bool_decide (b = LF) || (bool_decide (b = 126) || bool_decide (b = 42)).
Proof.
  unfold ignored. apply eq_true_iff_eq. rewrite !orb_true_iff, !bool_decide_eq_true, !elem_of_cons.
  pose proof (not_elem_of_nil b). tauto.
Qed.

Lemma cprocbyte_ignored c b : ignored b = true -> cprocbyte b c = Ret (con_set_cbyte b c).
Proof.
  rewrite ignored_eq. intros Hb. unfold cprocbyte. apply orb_true_iff in Hb as [->| ->]; [done|]. by destruct (bool_decide _).
Qed.

(** What is done with a byte that is not ignored, from the state [con_begin]. *)
Definition con_char (b : Z) (c : Console) : outcome Console :=
  if bool_decide (b = BS) && bool_decide (cbcnt c <> 0x80) && bool_decide (cbcnt c <> 0)
  then Ret (con_set_line (cstr c) (s16 (cbcnt c - 1)) c)
  else if bool_decide (b = CR) then
    s ← checked (wr (cstr c) (cbcnt c) 0);
    Ret (con_set_line s (Z.lor (cbcnt c) 0x80) c)
  else if bool_decide (cbcnt c >= CSTR_SZ) then
    s ← checked (wr (cstr c) CSTR_SZ 0);
    Ret (con_set_line s (Z.lor (cbcnt c) 0x80) c)
  else
    s ← checked (wr (cstr c) (cbcnt c) b);
    Ret (con_set_line s (s16 (cbcnt c + 1)) c).

Definition con_echo (b : Z) (c : Console) : Console := if bool_decide (CON_ECHO c <> 0) then con_put [b] c else c.

Lemma cprocbyte_char c b : ignored b = false ->
  cprocbyte b c = con_char b (con_echo b (con_begin (con_set_cbyte b c))).
Proof. rewrite ignored_eq. intros [E1 E2]%orb_false_iff. unfold cprocbyte. by rewrite E1, E2. Qed.

Lemma con_char_edit c b : con_wf c -> b <> CR -> ignored b = false ->
  cbcnt c = Z.of_nat (length (line c)) -> (length (line c) < 128)%nat -> take (length (line c)) (cstr c) = line c ->
  exists c', con_char b c = Ret c' /\ con_wf c' /\ con_out c' = con_out c /\ CON_ECHO c' = CON_ECHO c /\
    cbcnt c' = Z.of_nat (length (edit (line c) b)) /\ take (length (edit (line c) b)) (cstr c') = edit (line c) b.
Proof.
  intros (Hl & Hz & Hn) Hcr Hig Hc H128 Htk. unfold con_char, edit, CSTR_SZ. rewrite Hig, Hc.
  set (l := line c) in *. clearbody l.
  rewrite (bool_decide_true (_ <> 128)), andb_true_r, (bool_decide_false (b = CR)), (bool_decide_false (_ >= 164)) by (done || lia).
  assert (bool_decide (Z.of_nat (length l) <> 0) = bool_decide (l <> [])) as ->.
  { apply bool_decide_ext. destruct l as [|x l]; [done|]. cbn [length]. split; [done|lia]. }
  destruct (bool_decide (b = BS) && bool_decide (l <> [])) eqn:E.
  - apply andb_true_iff in E as [_ E]. apply bool_decide_eq_true in E.
    assert (0 < length l)%nat by (destruct l; cbn; [done|lia]).
    exists (con_set_line (cstr c) (s16 (Z.of_nat (length l) - 1)) c). unfold con_wf. cbn [cstr cbcnt con_set_line con_out CON_ECHO].
    rewrite s16_id by lia. rewrite length_take. split_and!; try done; try lia.
    rewrite <-Htk at 4. by rewrite take_take.
  - destruct (wr_total (cstr c) (Z.of_nat (length l)) b) as [s Hs]; [lia|]. rewrite Hs. cbn [checked mbind outcome_bind].
    eexists. split; [done|]. unfold con_wf. cbn [cstr cbcnt con_set_line con_out CON_ECHO].
    rewrite s16_id by lia. rewrite length_app. cbn [length]. split_and!; try done; try lia.
    + by rewrite (wr_length _ _ _ _ Hs).
    + by rewrite (wr_tail _ _ _ _ 128 Hs) by lia.
    + rewrite Nat.add_1_r, (take_wr _ _ _ _ Hs). by rewrite Htk.
Qed.

(** The state after any byte but CR. *)
Lemma cprocbyte_edit c b : con_wf c -> b <> CR ->
  exists c', cprocbyte b c = Ret c' /\ con_wf c' /\ CON_ECHO c' = CON_ECHO c /\
    con_out c' = con_out c ++ echoed (CON_ECHO c) [b] /\
    if ignored b then cbcnt c' = cbcnt c /\ cstr c' = cstr c
    else cbcnt c' = Z.of_nat (length (edit (line c) b)) /\
         take (length (edit (line c) b)) (cstr c') = edit (line c) b.
Proof.
  intros Hwf Hcr. unfold echoed. rewrite filter_singleton by exact []. destruct (ignored b) eqn:Hig.
  - rewrite cprocbyte_ignored by done. eexists. split; [done|]. split; [done|]. split; [done|].
    rewrite decide_False by done. split; [by case_bool_decide; rewrite app_nil_r|done].
  - rewrite cprocbyte_char by done. rewrite decide_True by done.
    set (c0 := con_set_cbyte b c). assert (con_wf c0) as Hwf0 by done.
    destruct (con_begin_spec c0 Hwf0) as (W & Hc & H128 & Htk & Hline).
    set (c1 := con_echo b (con_begin c0)).
    assert (cstr c1 = cstr c0 /\ cbcnt c1 = cbcnt (con_begin c0) /\ CON_ECHO c1 = CON_ECHO c /\
      con_out c1 = con_out c ++ (if bool_decide (CON_ECHO c <> 0) then [b] else [])) as (A1 & A2 & A3 & A4).
    { unfold c1, con_echo, con_begin. destruct (bool_decide (Z.land (cbcnt c0) 128 <> 0)); cbn [CON_ECHO con_set_line];
        change (CON_ECHO c0) with (CON_ECHO c); case_bool_decide; by rewrite ?app_nil_r. }
    assert (cstr (con_begin c0) = cstr c0) as B1 by apply con_begin_cstr.
    assert (line c1 = line c) as L1 by (change (line c) with (line c0); rewrite <-Hline; unfold line; by rewrite A1, A2, B1).
    assert (con_wf c1) as W1 by (unfold con_wf in *; by rewrite A1, A2, <-B1).
    change (line c0) with (line c) in *.
    destruct (con_char_edit c1 b W1 Hcr Hig) as (c' & -> & W' & Ho & He & D1 & D2);
      [by rewrite L1, A2|by rewrite L1|by rewrite L1, A1|].
    rewrite L1 in D1, D2. exists c'. rewrite Ho, He, A3, A4. by split_and!.
Qed.

Lemma cprocbyte_line c b : con_wf c -> b <> CR -> (length (edit (line c) b) < 128)%nat ->
  exists c', cprocbyte b c = Ret c' /\ con_wf c' /\ CON_ECHO c' = CON_ECHO c /\
    con_out c' = con_out c ++ echoed (CON_ECHO c) [b] /\ line c' = edit (line c) b.
Proof.
  intros Hwf Hcr Hlt. destruct (cprocbyte_edit c b Hwf Hcr) as (c' & E & W & He & Ho & Hi).
  exists c'. split_and!; try done. unfold edit in *. destruct (ignored b) eqn:Hig.
  - destruct Hi as [H1 H2]. unfold line. by rewrite H1, H2.
  - cbv zeta in *. destruct Hi as [H1 H2]. unfold line at 1. destruct W as (_ & _ & Hr).
    rewrite bool_decide_false.
    + by rewrite H1, Nat2Z.id.
    + rewrite bit7 by done. lia.
Qed.

Lemma echoed_app e l1 l2 : echoed e (l1 ++ l2) = echoed e l1 ++ echoed e l2.
Proof. unfold echoed. destruct (bool_decide (e <> 0)); [by rewrite filter_app|done]. Qed.

Lemma cprocbytes_edits bs : forall c l, con_wf c -> CR ∉ bs -> edits (line c) bs = Some l ->
  exists c', cprocbytes bs c = Ret c' /\ con_wf c' /\ CON_ECHO c' = CON_ECHO c /\
    con_out c' = con_out c ++ echoed (CON_ECHO c) bs /\ line c' = l.
Proof.
  induction bs as [|b bs IH]; intros c l Hwf Hcr He; cbn [edits cprocbytes] in *.
  - injection He as <-. exists c. split_and!; try done. unfold echoed. destruct (bool_decide _); by rewrite app_nil_r.
  - apply not_elem_of_cons in Hcr as [Hb Hcr]. case_bool_decide as Hlt; [|done].
    destruct (cprocbyte_line c b Hwf) as (c1 & -> & W1 & E1 & O1 & L1); [congruence|done|].
    destruct (IH c1 l W1 Hcr) as (c2 & H2 & W2 & E2 & O2 & L2); [by rewrite L1|].
    exists c2. cbn [mbind outcome_bind]. rewrite H2. split_and!; try done; [congruence|].
    rewrite O2, O1, E1. change (b :: bs) with ([b] ++ bs). by rewrite echoed_app, app_assoc.
Qed.

Lemma cprocbytes_app bs bs' c : cprocbytes (bs ++ bs') c = cprocbytes bs c ≫= cprocbytes bs'.
Proof. revert c. induction bs as [|b bs IH]; intros c; [done|]. cbn. destruct (cprocbyte b c); [apply IH|done..]. Qed.

(** CR completes the line and ends it with a zero. *)
Lemma cprocbyte_CR c : con_wf c ->
  exists c' rest, cprocbyte CR c = Ret c' /\ con_wf c' /\ CON_ECHO c' = CON_ECHO c /\
    con_out c' = con_out c ++ echoed (CON_ECHO c) [CR] /\
    cstr c' = line c ++ 0 :: rest /\ Z.land (cbcnt c') 0x80 <> 0.
Proof.
  intros Hwf. rewrite cprocbyte_char by done. set (c0 := con_set_cbyte CR c). assert (con_wf c0) as Hwf0 by done.
  destruct (con_begin_spec c0 Hwf0) as (W & Hc & H128 & Htk & _). change (line c0) with (line c) in *.
  pose proof (con_begin_cstr c0) as Hs. change (cstr c0) with (cstr c) in *.
  set (c1 := con_begin c0) in *.
  assert (CON_ECHO c1 = CON_ECHO c /\ con_out c1 = con_out c) as [A1 A2].
  { unfold c1, con_begin. destruct (bool_decide (Z.land (cbcnt c0) 128 <> 0)); done. }
  clearbody c1. destruct W as (Hl & Hz & Hn).
  assert (cstr (con_echo CR c1) = cstr c /\ cbcnt (con_echo CR c1) = cbcnt c1 /\ CON_ECHO (con_echo CR c1) = CON_ECHO c /\
    con_out (con_echo CR c1) = con_out c ++ echoed (CON_ECHO c) [CR]) as (B1 & B2 & B3 & B4).
  { unfold con_echo, echoed. rewrite A1. destruct (bool_decide (CON_ECHO c <> 0)); cbn; rewrite ?app_nil_r, ?A2; done. }
  set (c2 := con_echo CR c1) in *. clearbody c2.
  unfold con_char. rewrite (bool_decide_false (CR = BS)), (bool_decide_true (CR = CR)) by done. cbn [andb].
  rewrite B2, Hc, B1. rewrite Hs in Hl, Hz.
  destruct (wr_total (cstr c) (Z.of_nat (length (line c))) 0) as [s Hw]; [lia|]. rewrite Hw. cbn [checked mbind outcome_bind].
  pose proof (take_wr _ _ _ _ Hw) as Ht. rewrite Htk in Ht.
  exists (con_set_line s (Z.lor (Z.of_nat (length (line c))) 0x80) c2), (drop (S (length (line c))) s).
  unfold con_wf. cbn [cstr cbcnt con_set_line CON_ECHO con_out]. rewrite set_bit7 by lia. split_and!; try done; try lia.
  - by rewrite (wr_length _ _ _ _ Hw).
  - by rewrite (wr_tail _ _ _ _ 128 Hw) by lia.
  - rewrite <-(take_drop (S (length (line c))) s) at 1. rewrite Ht. by rewrite <-app_assoc.
  - apply bit7; lia.
Qed.

(** The line editor.  The bytes typed up to CR, edited by BS and
    without LF, [~] and [*], are what the next call of [cgets] gives, ended by
    a zero, as long as the line stays below 128 characters; a second call gives
    nothing and the next line starts empty.  What is typed is echoed. *)
Lemma console_line (c : Console) (bs l : list Z) :
  con_wf c -> CR ∉ bs -> edits (line c) bs = Some l ->
  exists c1 c2 rest,
    cprocbytes (bs ++ [CR]) c = Ret c1 /\ cgets c1 = (c2, Some (l ++ 0 :: rest)) /\
    (cgets c2).2 = None /\ con_wf c2 /\ line c2 = [] /\
    con_out c2 = con_out c ++ echoed (CON_ECHO c) (bs ++ [CR]) /\ CON_ECHO c2 = CON_ECHO c.
Proof.
  intros Hwf Hcr He. destruct (cprocbytes_edits bs c l Hwf Hcr He) as (c0 & H0 & W0 & E0 & O0 & L0).
  destruct (cprocbyte_CR c0 W0) as (c1 & rest & H1 & W1 & E1 & O1 & S1 & B1). rewrite L0 in S1.
  exists c1, (con_set_line (cstr c1) 0 c1), rest.
  split; [rewrite cprocbytes_app, H0; cbn [mbind outcome_bind cprocbytes]; by rewrite H1|].
  split; [unfold cgets; by rewrite bool_decide_true, S1 by done|]. split; [done|].
  destruct W1 as (? & ? & ?). split; [done|]. split; [done|].
  cbn [con_out con_set_line CON_ECHO]. split; [|congruence].
  rewrite O1, O0, E0, echoed_app, app_assoc. done.
Qed.

(** The state after power-up. *)
Definition con_init : Console := mkConsole (replicate 165 0) 0 0 1 [] 0 0.

Lemma con_init_wf : con_wf con_init.
Proof. by split_and!. Qed.

(** The 128th character of a line completes it: [cgets] gives the 128
    characters at once and the characters typed after it begin another line,
    although the array has room for 164 characters. *)
Theorem console_full (c : Console) (b : Z) :
  con_wf c -> length (line c) = 127%nat -> b <> CR -> b <> BS -> ignored b = false ->
  exists c1 c2,
    cprocbyte b c = Ret c1 /\ line c1 = [] /\
    cgets c1 = (c2, Some (line c ++ [b] ++ replicate 37 0)) /\ con_wf c2 /\ line c2 = [].
Proof.
  intros Hwf Hl Hcr Hbs Hig. destruct (cprocbyte_edit c b Hwf Hcr) as (c1 & E & (W1 & W2 & W3) & He & Ho & Hi).
  rewrite Hig in Hi. assert (edit (line c) b = line c ++ [b]) as Hed by (unfold edit; by rewrite Hig, bool_decide_false).
  rewrite Hed, length_app, Hl in Hi. destruct Hi as [Hc Ht]. change (Z.of_nat (127 + length [b])) with 128 in Hc.
  change (127 + length [b])%nat with 128%nat in Ht.
  exists c1, (con_set_line (cstr c1) 0 c1). split; [done|]. split; [unfold line; by rewrite Hc|].
  split; [|by repeat split]. unfold cgets. rewrite Hc, bool_decide_true by done. do 2 f_equal.
  rewrite <-(take_drop 128 (cstr c1)), Ht, W2. by rewrite <-app_assoc.
Qed.

Lemma console_full_witness :
  exists c0 c1, cprocbytes (replicate 127 97) con_init = Ret c0 /\ cprocbyte 98 c0 = Ret c1 /\
    (cgets c1).2 = Some (replicate 127 97 ++ [98] ++ replicate 37 0).
Proof.
  destruct (cprocbytes (replicate 127 97) con_init) as [c0| |] eqn:E; [|by vm_compute in E|by vm_compute in E].
  exists c0. vm_compute in E. injection E as <-. 
  match goal with |- context [cprocbyte 98 ?c] => destruct (console_full c 98) as (c1 & c2 & H1 & _ & H2 & _);
    [by split_and!|done|done|done|done|exists c1] end.
  split; [done|]. split; [exact H1|]. rewrite H2. reflexivity.
Defined.

(** ** The search for a command *)

(** A list of commands: words separated by backslashes. *)
Fixpoint more_commands (ws : list (list Z)) : list Z :=
  match ws with [] => [0] | w :: ws => 92 :: w ++ more_commands ws end.
Definition command_list (ws : list (list Z)) : list Z :=
  match ws with [] => [0] | w :: ws => w ++ more_commands ws end.

(** A word: not empty, no zero and no backslash in it, no blank in front. *)
Definition command_word (w : list Z) : Prop :=
  w <> [] /\ head w <> Some 32 /\ Forall (fun c => c <> 0 /\ c <> 92) w /\ (length w <= MAXCMD_SZ)%nat.
#[export] Instance command_word_dec w : Decision (command_word w).
Proof. unfold command_word. apply _. Defined.

(** What stands in front of a blank, [=] or the end of the line. *)
Definition first_word (w rest : list Z) : Prop :=
  w <> [] /\ head w <> Some 9 /\ Forall (fun c => c <> 0 /\ c <> 32 /\ c <> 61) w /\ (length w <= MAXCMD_SZ)%nat /\
  exists c rest', rest = c :: rest' /\ (c = 0 \/ c = 32 \/ c = 61).

Lemma skip_spaces_spec n m w rest : (m <= n)%nat -> first_word w rest ->
  skip_spaces n (replicate m 32 ++ w ++ rest) = Ret (w ++ rest).
Proof.
  intros Hm (Hne & H9 & Hw & _). revert n Hm. induction m as [|m IH]; intros n Hm; cbn [replicate app skip_spaces].
  - destruct w as [|c w]; [done|]. cbn [app skip_spaces]. inversion_clear Hw as [|?? (? & ? & ?) _].
    rewrite (bool_decide_false (c = 32)), (bool_decide_false (c = 9)), andb_false_r; [done| |done]. intros ->. by apply H9.
  - destruct n as [|n]; [lia|]. rewrite IH by lia. done.
Qed.

Lemma take_word_go w rest pre post : Forall (fun c => c <> 0 /\ c <> 32 /\ c <> 61) w ->
  (length pre + length w <= MAXCMD_SZ)%nat -> (length w <= length post)%nat ->
  (exists c rest', rest = c :: rest' /\ (c = 0 \/ c = 32 \/ c = 61)) ->
  take_word (w ++ rest) (pre ++ post) (Z.of_nat (length pre)) = Ret (pre ++ w ++ drop (length w) post, Z.of_nat (length pre + length w)).
Proof.
  intros Hw Hn Hp (c & rest' & -> & Hc). unfold MAXCMD_SZ in Hn. revert pre post Hn Hp.
  induction Hw as [|x w (? & ? & ?) _ IH]; intros pre post Hn Hp; cbn [app take_word length] in *.
  - rewrite drop_0, Nat.add_0_r. destruct Hc as [->|[->| ->]]; done.
  - destruct post as [|y post]; [cbn in Hp; lia|]. cbn [length] in Hp.
    rewrite (bool_decide_true (x <> 0)), !(bool_decide_true (x <> 32)), (bool_decide_true (x <> 61)), (bool_decide_true (_ < _)) by (done || unfold MAXCMD_SZ; lia). cbn [andb].
    rewrite (wr_at pre y post (pre ++ y :: post) (Z.of_nat (length pre)) x) by done. cbn [checked mbind outcome_bind].
    specialize (IH (pre ++ [x]) post). rewrite length_app in IH. cbn [length] in IH. rewrite <-!app_assoc in IH. cbn [app] in IH.
    rewrite u8_id by (unw; lia). replace (Z.of_nat (length pre) + 1) with (Z.of_nat (length pre + 1)) by lia.
    rewrite IH by lia. cbn [drop]. do 2 f_equal. lia.
Qed.

(** The word lies at the front of its array, with the zero behind it. *)
Lemma take_word_spec w rest arr : Forall (fun c => c <> 0 /\ c <> 32 /\ c <> 61) w -> (length w <= MAXCMD_SZ)%nat ->
  length arr = S MAXCMD_SZ -> (exists c rest', rest = c :: rest' /\ (c = 0 \/ c = 32 \/ c = 61)) ->
  exists sc x, take_word (w ++ rest) arr 0 = Ret (sc, Z.of_nat (length w)) /\ wr sc (Z.of_nat (length w)) 0 = Some (w ++ 0 :: x).
Proof.
  intros Hw Hn Ha Hr. pose proof (take_word_go w rest [] arr Hw) as E. cbn [app length] in E.
  exists (w ++ drop (length w) arr), (drop (S (length w)) arr). split; [apply E; done || lia|].
  destruct (drop (length w) arr) as [|y post] eqn:Ed; [apply (f_equal length) in Ed; rewrite length_drop in Ed; cbn in Ed; lia|].
  replace (drop (S (length w)) arr) with post by (rewrite <-Nat.add_1_r, <-drop_drop, Ed; done). by apply (wr_at w y post).
Qed.

Lemma more_commands_head ws : exists c r, more_commands ws = c :: r /\ (c = 0 \/ c = 92).
Proof. destruct ws; cbn; eauto 6. Qed.

Definition blank_command : list Z := replicate MAXCMD_SZ 32 ++ [0].

Lemma clear_command_spec cc : length cc = S MAXCMD_SZ -> clear_command cc = Ret blank_command.
Proof.
  intros Hl. unfold clear_command, blank_command. destruct (exists_last (l := cc)) as (l & x & ->); [by intros ->|].
  rewrite length_app in Hl. cbn [length] in Hl.
  pose proof (blit_here [] l [x] (replicate MAXCMD_SZ 32) 0) as E. cbn [app] in E. rewrite E by (rewrite ?length_replicate; done || lia).
  cbn [checked mbind outcome_bind]. rewrite (wr_at (replicate MAXCMD_SZ 32) x [] _ (Z.of_nat MAXCMD_SZ) 0); [done|done|by rewrite length_replicate].
Qed.

Lemma take_command_go w ws pre m : Forall (fun c => c <> 0 /\ c <> 92) w -> (length w <= m)%nat ->
  take_command (w ++ more_commands ws) (pre ++ replicate m 32 ++ [0]) (Z.of_nat (length pre)) =
    Ret (pre ++ w ++ replicate (m - length w) 32 ++ [0], Z.of_nat (length pre + length w), more_commands ws).
Proof.
  intros Hw. revert pre m. induction Hw as [|x w (? & ?) _ IH]; intros pre m Hm; cbn [app take_command length] in *.
  - rewrite Nat.sub_0_r, Nat.add_0_r. destruct (more_commands_head ws) as (c & r & -> & [->| ->]); done.
  - rewrite !bool_decide_true by done. cbn [andb]. destruct m as [|m]; [lia|]. cbn [replicate app].
    rewrite (rd_here pre _ 32) by done. cbn [checked mbind outcome_bind]. rewrite bool_decide_true by done.
    rewrite (wr_at pre 32 (replicate m 32 ++ [0]) _ (Z.of_nat (length pre)) x) by done. cbn [checked mbind outcome_bind].
    specialize (IH (pre ++ [x]) m). rewrite length_app in IH. cbn [length] in IH. rewrite <-!app_assoc in IH. cbn [app] in IH.
    replace (Z.of_nat (length pre) + 1) with (Z.of_nat (length pre + 1)) by lia. rewrite IH by lia.
    replace (length pre + S (length w))%nat with (length pre + 1 + length w)%nat by lia. done.
Qed.

Lemma take_command_spec w ws : Forall (fun c => c <> 0 /\ c <> 92) w -> (length w <= MAXCMD_SZ)%nat ->
  exists cc x, take_command (w ++ more_commands ws) blank_command 0 = Ret (cc, Z.of_nat (length w), more_commands ws) /\
    wr cc (Z.of_nat (length w)) 0 = Some (w ++ 0 :: x) /\ length (w ++ 0 :: x) = S MAXCMD_SZ.
Proof.
  intros Hw Hn. pose proof (take_command_go w ws [] MAXCMD_SZ Hw Hn) as E. cbn [app length Z.of_nat] in E. unfold blank_command.
  set (r := replicate (MAXCMD_SZ - length w) 32 ++ [0]) in *. exists (w ++ r), (drop 1 r). split; [exact E|].
  assert (length r = S (MAXCMD_SZ - length w)) as Hr by (unfold r; rewrite length_app, length_replicate; cbn; lia).
  destruct r as [|y r]; [cbn in Hr; lia|]. cbn [length] in Hr. split; [by apply (wr_at w y r)|]. change (drop 1 (y :: r)) with r. rewrite length_app. cbn [length]. lia.
Qed.

Lemma cstrncmp_spec l1 l2 x1 x2 : Forall (fun c => c <> 0) l1 -> Forall (fun c => c <> 0) l2 ->
  cstrncmp (l1 ++ 0 :: x1) (l2 ++ 0 :: x2) = Ret (if bool_decide (l1 = l2) then 1 else 0).
Proof.
  intros H1. revert l2. induction H1 as [|a l1 Ha _ IH]; intros l2 H2; destruct H2 as [|b l2 Hb H2]; cbn [app cstrncmp].
  - done.
  - by rewrite (bool_decide_true (b <> 0)), (bool_decide_false (b = 0)) by done.
  - by rewrite (bool_decide_true (a <> 0)), (bool_decide_false (a = 0)) by done.
  - rewrite (bool_decide_true (a <> 0)), (bool_decide_true (b <> 0)) by done. cbn [andb]. case_bool_decide as E.
    + by rewrite bool_decide_false by congruence.
    + assert (a = b) as -> by (destruct (decide (a = b)); [done|by contradict E]).
      rewrite IH by done. f_equal. apply bool_decide_ext || idtac. repeat case_bool_decide; congruence.
Qed.

(** The index of the first word that is [w]. *)
Definition index_of (w : list Z) (ws : list (list Z)) : option nat := fst <$> list_find (fun v => v = w) ws.

(** A position in the list of commands: at the first word or at the separator
    in front of it. *)
Lemma skip_to_word w ws (sep : bool) : command_word w ->
  skip_separators ((if sep then [92] else []) ++ w ++ more_commands ws) = Ret (w ++ more_commands ws).
Proof.
  intros (Hne & H32 & Hw & _). destruct w as [|c w]; [done|]. inversion_clear Hw as [|?? (? & ?) _].
  assert (skip_separators ((c :: w) ++ more_commands ws) = Ret ((c :: w) ++ more_commands ws)) as E.
  { cbn [app skip_separators]. rewrite (bool_decide_false (c = 32)), (bool_decide_false (c = 92)), andb_false_r; [done|done|].
    intros ->. by apply H32. }
  destruct sep; [exact E|exact E].
Qed.

Lemma command_word_nz w : command_word w -> Forall (fun c => c <> 0) w.
Proof. intros (_ & _ & H & _). eapply Forall_impl; [exact H|]. by intros c []. Qed.

Lemma find_command_spec ws : Forall command_word ws -> forall fuel n w x cc (sep : bool),
  Forall (fun c => c <> 0) w -> length cc = S MAXCMD_SZ -> (length ws < fuel)%nat -> Z.of_nat (n + length ws) <= 255 ->
  find_command fuel (Z.of_nat n) (w ++ 0 :: x) cc
    (match ws with [] => [0] | v :: ws => (if sep then [92] else []) ++ v ++ more_commands ws end) =
  Ret (match index_of w ws with Some k => Z.of_nat (n + k) | None => -1 end).
Proof.
  induction 1 as [|v ws Hv _ IH]; intros fuel n w x cc sep Hw Hcc Hf Hn; (destruct fuel as [|fuel]; [lia|]);
    cbn [find_command]; rewrite clear_command_spec by done; cbn [mbind outcome_bind].
  - done.
  - rewrite skip_to_word by done. cbn [mbind outcome_bind].
    pose proof Hv as (Hne & H32 & Hvw & Hl). destruct v as [|c v]; [done|].
    assert (c <> 0) as Hc by (by inversion Hvw as [|?? []]).
    change (checked (head ((c :: v) ++ more_commands ws))) with (Ret c). cbn [mbind outcome_bind].
    rewrite bool_decide_false by done. destruct (take_command_spec (c :: v) ws Hvw Hl) as (cc1 & x1 & -> & W & L).
    cbn [mbind outcome_bind]. rewrite W. cbn [checked mbind outcome_bind]. rewrite cstrncmp_spec by (done || by apply command_word_nz). cbn [mbind outcome_bind].
    unfold index_of. cbn [list_find]. destruct (decide (c :: v = w)) as [<-|Hne'].
    + rewrite (bool_decide_true (c :: v = c :: v)) by done. rewrite bool_decide_true by done. cbn. by rewrite Nat.add_0_r.
    + rewrite (bool_decide_false (w = _)) by congruence. rewrite bool_decide_false by (intros E; by apply E).
      cbn [length] in Hn. rewrite u8_id by (unw; lia). replace (Z.of_nat n + 1) with (Z.of_nat (S n)) by lia.
      specialize (IH fuel (S n) w x _ true Hw L). unfold index_of in IH. cbn [length] in Hf.
      replace (more_commands ws) with (match ws with [] => [0] | v :: ws => (if true then [92] else []) ++ v ++ more_commands ws end) by (by destruct ws).
      rewrite IH by lia. destruct (list_find _ ws) as [[k u]|]; cbn; [|done]. do 2 f_equal. lia.
Qed.

Lemma more_commands_length ws : (length ws < length (more_commands ws))%nat.
Proof. induction ws as [|w ws IH]; cbn; [lia|]. rewrite length_app. lia. Qed.

Lemma cparse_spec arr ws blanks w rest : length arr = S MAXCMD_SZ ->
  Forall command_word ws -> (length ws <= 255)%nat -> (blanks <= MAXCMD_SZ)%nat -> first_word w rest ->
  cparse arr (command_list ws) (replicate blanks 32 ++ w ++ rest) =
    Ret (match index_of w ws with Some k => Z.of_nat k | None => -1 end).
Proof.
  intros Ha Hws Hn Hb Hw. unfold cparse. rewrite (skip_spaces_spec MAXCMD_SZ blanks w rest) by done. cbn [mbind outcome_bind].
  destruct Hw as (Hne & H9 & Hc & Hl & Hr). destruct w as [|c w]; [done|].
  assert (c <> 0) as Hc0 by (by inversion Hc as [|?? []]).
  change (checked (head ((c :: w) ++ rest))) with (Ret c). cbn [mbind outcome_bind]. rewrite bool_decide_false by done.
  destruct (take_word_spec (c :: w) rest arr Hc Hl Ha Hr) as (sc & y & -> & W). cbn [mbind outcome_bind]. rewrite W. cbn [checked mbind outcome_bind].
  assert (Forall (fun c => c <> 0) (c :: w)) as Hnz by (eapply Forall_impl; [exact Hc|]; by intros x []).
  assert (length ws < length (command_list ws))%nat as Hf.
  { destruct ws as [|v ws]; cbn; [lia|]. rewrite length_app. pose proof (more_commands_length ws).
    inversion_clear Hws as [|?? (Hv & _) _]. destruct v; [done|]. cbn. lia. }
  pose proof (find_command_spec ws Hws (length (command_list ws)) 0 (c :: w) y arr false Hnz Ha Hf ltac:(lia)) as F. destruct ws; exact F.
Qed.

(** The search for the command of a line.  With a list of at most 255
    commands, none longer than 160 characters, the answer is the index of the
    first one that is the first word of the line, up to a blank, [=] or its
    end, and -1 when none is; -3 for an empty line. *)
Theorem cparse_index (arr : list Z) (ws : list (list Z)) (blanks : nat) (w rest : list Z) :
  length arr = S MAXCMD_SZ -> Forall command_word ws -> (length ws <= 255)%nat -> (blanks <= MAXCMD_SZ)%nat -> first_word w rest ->
  cparse arr (command_list ws) (replicate blanks 32 ++ w ++ rest) =
    Ret (match index_of w ws with Some k => Z.of_nat k | None => -1 end) /\
  cparse arr (command_list ws) (replicate blanks 32 ++ 0 :: rest) = Ret (-3).
Proof.
  intros Ha Hws Hn Hb Hw. split; [by apply cparse_spec|]. unfold cparse.
  assert (forall m n, (m <= n)%nat -> skip_spaces n (replicate m 32 ++ 0 :: rest) = Ret (0 :: rest)) as E.
  { clear. induction m as [|m IH]; intros n Hm; [done|]. cbn [replicate app skip_spaces].
    destruct n as [|n]; [lia|]. rewrite IH by lia. done. }
  by rewrite E.
Qed.

(** The commands of the console. *)
Definition command_words : list (list Z) :=
  map str ["?"; "??"; "reset"; "r"; "w"; "wx"; "nvdata"; "out"]%string.

Lemma commands_eq : commands = command_list command_words.
Proof. reflexivity. Qed.

Lemma command_words_ok : Forall command_word command_words.
Proof. by apply (bool_decide_unpack _). Qed.

Lemma cparse_index_witness : cparse (replicate 161 77) commands (replicate 2 32 ++ str "wx" ++ str " 14 = FF" ++ [0]) = Ret 5.
Proof.
  rewrite commands_eq. destruct (cparse_index (replicate 161 77) command_words 2 (str "wx") (str " 14 = FF" ++ [0])) as [H _].
  - done.
  - exact command_words_ok.
  - cbn. lia.
  - unfold MAXCMD_SZ. lia.
  - split_and!; try done; [by apply (bool_decide_unpack _)|unfold MAXCMD_SZ; cbn; lia|]. do 2 eexists. split; [reflexivity|auto].
  - exact H.
Defined.

(** ** Reading and writing registers *)

Lemma digit_range (c : Z) : 48 <= c <= 57 -> digit_of 10 c = Some (c - 48) /\ is_space c = false.
Proof.
  intros Hc. unfold digit_of, is_space. rewrite bool_decide_true, bool_decide_true by lia. split; [done|].
  rewrite (bool_decide_false (c = 32)), (bool_decide_false (c <= 13)), andb_false_r by lia. done.
Qed.

Lemma scan_digits_spec ds rest : Forall (fun c => 48 <= c <= 57) ds ->
  match rest with c :: _ => digit_of 10 c = None | [] => True end ->
  forall v any, scan_digits 10 v any (ds ++ rest) = (fold_left (fun v c => v * 10 + (c - 48)) ds v, any || bool_decide (ds <> []), rest).
Proof.
  intros Hds Hr. induction Hds as [|c ds Hc _ IH]; intros v any; cbn [app].
  - rewrite orb_false_r. destruct rest as [|c rest]; [done|]. cbn [scan_digits]. by rewrite Hr.
  - cbn [scan_digits]. destruct (digit_range c Hc) as [-> _]. rewrite IH. cbn [fold_left orb]. by rewrite orb_true_r.
Qed.

(** [strtoul] on a numeral that fits. *)
Lemma strtoul_spec ds rest : numeral ds -> is_u32 (dec_value ds) ->
  match rest with c :: _ => digit_of 10 c = None | [] => True end ->
  strtoul 10 (ds ++ rest) = Some (dec_value ds, rest).
Proof.
  intros (Hne & Hds & _) Hv Hr. destruct ds as [|c ds]; [done|]. pose proof Hds as Hds'. inversion_clear Hds' as [|?? Hc _].
  unfold strtoul. cbn [app skip_white]. destruct (digit_range c Hc) as [_ ->].
  rewrite (bool_decide_false (c = 45)), (bool_decide_false (c = 43)) by lia.
  assert (forall s, skip_0x 10 s = s) as E by (intros [|? [|? [|? ?]]]; done).
  rewrite E. change (c :: ds ++ rest) with ((c :: ds) ++ rest). rewrite scan_digits_spec by done.
  rewrite (bool_decide_true (_ <> [])) by done. cbn [orb]. change (fold_left _ (c :: ds) 0) with (dec_value (c :: ds)).
  rewrite bool_decide_false by (unw; lia). done.
Qed.

Lemma strtoul_blank ds rest : strtoul 10 (32 :: ds ++ rest) = strtoul 10 (ds ++ rest).
Proof. reflexivity. Qed.

Lemma numeral_skip_white ds rest : numeral ds -> skip_white (ds ++ rest) = ds ++ rest.
Proof.
  intros (Hne & Hds & _). destruct ds as [|c ds]; [done|]. inversion_clear Hds as [|?? Hc _].
  cbn [app skip_white]. by destruct (digit_range c Hc) as [_ ->].
Qed.

Lemma numeral_scan ds : numeral ds -> is_u32 (dec_value ds) -> strtoul 10 (skip_white ds) = Some (dec_value ds, []).
Proof.
  intros Hn Hv. pose proof (numeral_skip_white ds [] Hn) as E. pose proof (strtoul_spec ds [] Hn Hv I) as E'.
  rewrite app_nil_r in E, E'. by rewrite E.
Qed.

Lemma sscanf_read ds : numeral ds -> is_u32 (dec_value ds) -> sscanf fmt_r (str "r " ++ ds) = [dec_value ds].
Proof.
  intros Hn Hv. change (str "r " ++ ds) with (114 :: 32 :: ds). cbn [fmt_r sscanf]. rewrite bool_decide_true by done.
  change (skip_white (32 :: ds)) with (skip_white ds).
  by rewrite numeral_scan.
Qed.

Lemma sscanf_write ds es : numeral ds -> is_u32 (dec_value ds) -> numeral es -> is_u32 (dec_value es) ->
  sscanf fmt_w (str "w " ++ ds ++ str " = " ++ es) = [dec_value ds; dec_value es].
Proof.
  intros Hd Hvd He Hve. change (str "w " ++ ds ++ str " = " ++ es) with (119 :: 32 :: ds ++ 32 :: 61 :: 32 :: es).
  cbn [fmt_w sscanf]. rewrite bool_decide_true by done.
  change (skip_white (32 :: ds ++ 32 :: 61 :: 32 :: es)) with (skip_white (ds ++ 32 :: 61 :: 32 :: es)).
  rewrite numeral_skip_white, strtoul_spec by done. cbn [skip_white]. change (is_space 32) with true.
  change (is_space 61) with false. cbn match. rewrite bool_decide_true by done. change (is_space 32) with true. cbn match.
  change (skip_white (32 :: es)) with (skip_white es). by rewrite numeral_scan.
Qed.

Lemma numeral_nz ds : numeral ds -> Forall (fun c => c <> 0) ds.
Proof. intros (_ & H & _). eapply Forall_impl; [exact H|]. cbn. lia. Qed.

Lemma show_register_spec pre i v (lv : list Z) junk : is_u16 i ->
  v = Ret lv -> exists n, show_register junk pre i v = Ret (pre ++ n ++ str ":" ++ lv ++ newline) /\ prints i i n.
Proof.
  intros Hi ->. unfold show_register. unw.
  destruct (putd_spec (s32 i) (junk_buf junk 7)) as (n & -> & Hn); [by apply length_replicate|].
  exists n. split; [done|]. assert (s32 i = i) as E by (apply s32_id; lia).
  rewrite E, Z.abs_eq, u16_id in Hn by (unw; lia). exact Hn.
Qed.

(** ** Any line *)

(** A string that ends within its array. *)
Definition terminated (s : list Z) : Prop := exists l rest, s = l ++ 0 :: rest /\ Forall (fun c => c <> 0) l /\ (length l <= 128)%nat.

Lemma con_wf_terminated c : con_wf c -> terminated (cstr c).
Proof.
  intros (Hl & Hz & _). destruct (list_find (fun b => b = 0) (take 128 (cstr c))) as [[k b]|] eqn:E.
  - apply list_find_Some in E as (Hk & -> & Hlt). pose proof Hk as Hk'. apply lookup_take_Some in Hk as [Hk ?].
    exists (take k (cstr c)), (drop (S k) (cstr c)). split; [by rewrite take_drop_middle|].
    split; [|rewrite length_take; lia]. apply Forall_lookup. intros j x Hj. apply lookup_take_Some in Hj as [Hj ?].
    apply (Hlt j x); [|done]. apply lookup_take_Some. split; [done|lia].
  - apply list_find_None in E. exists (take 128 (cstr c)), (replicate 36 0). split; [|split; [done|rewrite length_take; lia]].
    rewrite <-(take_drop 128 (cstr c)) at 1. by rewrite Hz.
Qed.

Lemma cstring_terminated s : terminated s -> exists l, cstring s = Ret l.
Proof. intros (l & rest & -> & Hl & _). exists l. by apply cstring_spec. Qed.

(** Blanks in front are skipped; what remains still ends. *)
Lemma skip_spaces_total n s : terminated s -> exists s', skip_spaces n s = Ret s' /\ terminated s'.
Proof.
  intros (l & rest & -> & Hl & Hn). revert n. induction Hl as [|c l Hc Hl IH]; intros n; cbn [app skip_spaces].
  - eexists. split; [done|]. exists [], rest. split; [done|]. split; [done|cbn; lia].
  - cbn [length] in Hn. assert (terminated (c :: l ++ 0 :: rest)) as Ht.
    { exists (c :: l), rest. split; [done|]. split; [by constructor|done]. }
    destruct (bool_decide (c <> 0) && _); [|by eexists]. destruct n as [|n]; [by eexists|]. apply IH. lia.
Qed.

(** ** Any line against any list of commands

    The two arrays hold 161 characters; a string ends with a zero, wherever. *)

Lemma skip_spaces_ends s : 0 ∈ s -> forall n, exists s', skip_spaces n s = Ret s' /\ 0 ∈ s'.
Proof.
  induction s as [|c s IH]; intros H0 n; cbn [skip_spaces]; [by apply not_elem_of_nil in H0|].
  destruct (bool_decide (c <> 0) && _) eqn:E; [|by eexists]. apply andb_prop in E as [E _]. apply bool_decide_eq_true in E.
  destruct n as [|n]; [by eexists|]. apply IH. apply elem_of_cons in H0 as [?|]; [congruence|done].
Qed.

Lemma take_word_ends s : 0 ∈ s -> forall sc i, length sc = S MAXCMD_SZ -> 0 <= i <= 160 ->
  exists sc' i', take_word s sc i = Ret (sc', i') /\ length sc' = S MAXCMD_SZ /\ 0 <= i' <= 160.
Proof.
  unfold MAXCMD_SZ. induction s as [|c s IH]; intros H0 sc i Hl Hi; cbn [take_word]; [by apply not_elem_of_nil in H0|].
  destruct (_ && _ && _ && _) eqn:E; [|by do 2 eexists]. rewrite !andb_true_iff, !bool_decide_eq_true in E. destruct E as (((E1 & E2) & E3) & E4).
  rewrite bool_decide_true by done. destruct (wr_total sc i c) as [sc' W]; [unfold MAXCMD_SZ in *; lia|]. rewrite W. cbn [checked mbind outcome_bind].
  unfold MAXCMD_SZ in E4. rewrite u8_id by (unw; lia). apply IH; [apply elem_of_cons in H0 as [?|]; [congruence|done]|by rewrite (wr_length _ _ _ _ W)|lia].
Qed.

Lemma skip_separators_ends cl : 0 ∈ cl -> exists c cl', skip_separators cl = Ret (c :: cl') /\ 0 ∈ c :: cl' /\
  (length (c :: cl') <= length cl)%nat /\ (c = 0 \/ c <> 32 /\ c <> 92).
Proof.
  induction cl as [|c cl IH]; intros H0; cbn [skip_separators]; [by apply not_elem_of_nil in H0|].
  destruct (_ && _) eqn:E.
  - apply andb_prop in E as [E _]. apply bool_decide_eq_true in E. destruct IH as (c' & cl' & -> & H1 & H2 & H3).
    { apply elem_of_cons in H0 as [?|]; [congruence|done]. }
    exists c', cl'. cbn [length] in *. split_and!; done || lia.
  - exists c, cl. split_and!; try done. destruct (decide (c = 0)) as [|Hc]; [by left|right]. rewrite bool_decide_true in E by done.
    cbn in E. apply orb_false_iff in E as [E1%bool_decide_eq_false E2%bool_decide_eq_false]. done.
Qed.

Lemma take_command_ends cl : 0 ∈ cl -> forall cc j, length cc = S MAXCMD_SZ -> rd cc 160 = Some 0 -> 0 <= j <= 160 ->
  exists cc' j' cl', take_command cl cc j = Ret (cc', j', cl') /\ length cc' = S MAXCMD_SZ /\ 0 <= j' <= 160 /\ 0 ∈ cl' /\
    (length cl' <= length cl)%nat.
Proof.
  unfold MAXCMD_SZ. induction cl as [|c cl IH]; intros H0 cc j Hl Hz Hj; cbn [take_command]; [by apply not_elem_of_nil in H0|].
  destruct (_ && _) eqn:E; [|by do 3 eexists]. apply andb_prop in E as [E _]. apply bool_decide_eq_true in E.
  destruct (rd_total cc j) as [x Hx]; [lia|]. rewrite Hx. cbn [checked mbind outcome_bind].
  case_bool_decide as Ex; [|by do 3 eexists]. assert (j <> 160) by (intros ->; congruence).
  destruct (wr_total cc j c) as [cc1 W]; [lia|]. rewrite W. cbn [checked mbind outcome_bind].
  destruct (IH ltac:(apply elem_of_cons in H0 as [?|]; [congruence|done]) cc1 (j + 1)) as (cc2 & j2 & cl2 & -> & ? & ? & ? & ?);
    [by rewrite (wr_length _ _ _ _ W)|by rewrite (rd_wr_ne _ _ _ _ _ W)|lia|].
  do 3 eexists. split; [done|]. cbn [length]. split_and!; done || lia.
Qed.

(** A command takes at least one character from the list. *)
Lemma take_command_some c cl : 0 ∈ c :: cl -> c <> 0 -> c <> 92 ->
  exists cc j cl', take_command (c :: cl) blank_command 0 = Ret (cc, j, cl') /\ length cc = S MAXCMD_SZ /\ 0 <= j <= 160 /\ 0 ∈ cl' /\
    (length cl' < length (c :: cl))%nat.
Proof.
  intros H0 H1 H2. cbn [take_command]. rewrite !bool_decide_true by done. cbn [andb].
  change (rd blank_command 0) with (Some 32). cbn [checked mbind outcome_bind]. rewrite bool_decide_true by done.
  destruct (wr_total blank_command 0 c) as [cc1 W]; [done|]. rewrite W. cbn [checked mbind outcome_bind].
  destruct (take_command_ends cl ltac:(apply elem_of_cons in H0 as [?|]; [congruence|done]) cc1 (0 + 1)) as (cc2 & j2 & cl2 & -> & ? & ? & ? & ?);
    [by rewrite (wr_length _ _ _ _ W)|by rewrite (rd_wr_ne _ _ _ _ _ W)|lia|].
  do 3 eexists. split; [done|]. cbn [length]. split_and!; done || lia.
Qed.

Lemma wr_zero (a : list Z) i : length a = S MAXCMD_SZ -> 0 <= i <= 160 -> exists a', wr a i 0 = Some a' /\ length a' = S MAXCMD_SZ /\ 0 ∈ a'.
Proof.
  unfold MAXCMD_SZ. intros Hl Hi. destruct (wr_total a i 0) as [a' W]; [lia|]. exists a'. split; [done|]. split; [by rewrite (wr_length _ _ _ _ W)|].
  apply wr_Some in W as [Hr ->]. apply list_elem_of_lookup_2 with (Z.to_nat i). apply list_lookup_insert_eq. lia.
Qed.

Lemma cstrncmp_ends s1 : forall s2, 0 ∈ s1 -> 0 ∈ s2 -> exists e, cstrncmp s1 s2 = Ret e.
Proof.
  induction s1 as [|a s1 IH]; intros [|b s2] H1 H2; cbn [cstrncmp]; try (by apply not_elem_of_nil in H1); try (by apply not_elem_of_nil in H2).
  destruct (bool_decide (a <> 0) && bool_decide (b <> 0)) eqn:E; [|by eexists].
  apply andb_prop in E as [E1%bool_decide_eq_true E2%bool_decide_eq_true]. case_bool_decide; [by eexists|].
  apply IH; [apply elem_of_cons in H1 as [?|]|apply elem_of_cons in H2 as [?|]]; congruence || done.
Qed.

Lemma find_command_ends fuel : forall ccnt sc cc cl, 0 ∈ sc -> length cc = S MAXCMD_SZ -> 0 ∈ cl -> (length cl <= fuel)%nat ->
  exists k, find_command fuel ccnt sc cc cl = Ret k.
Proof.
  induction fuel as [|fuel IH]; intros ccnt sc cc cl Hsc Hcc Hcl Hf.
  { destruct cl; [by apply not_elem_of_nil in Hcl|cbn in Hf; lia]. }
  cbn [find_command]. rewrite clear_command_spec by done. cbn [mbind outcome_bind].
  destruct (skip_separators_ends cl Hcl) as (c & cl1 & -> & H1 & H2 & H3). cbn [mbind outcome_bind].
  change (checked (head (c :: cl1))) with (Ret c). cbn [mbind outcome_bind]. case_bool_decide as Hc; [by eexists|]. destruct H3 as [?|[? ?]]; [done|].
  destruct (take_command_some c cl1 H1 Hc) as (cc2 & j & cl2 & -> & L & J & E & Hlt); [done|]. cbn [mbind outcome_bind].
  destruct (wr_zero cc2 j L J) as (cc3 & -> & L3 & Z3). cbn [checked mbind outcome_bind].
  destruct (cstrncmp_ends sc cc3 Hsc Z3) as [e ->]. cbn [mbind outcome_bind]. case_bool_decide; [by eexists|]. apply IH; done || lia.
Qed.

Lemma cparse_ends arr cl s : length arr = S MAXCMD_SZ -> 0 ∈ cl -> 0 ∈ s -> exists k, cparse arr cl s = Ret k.
Proof.
  intros Ha Hcl Hs. unfold cparse. destruct (skip_spaces_ends s Hs MAXCMD_SZ) as (s' & -> & Hs'). cbn [mbind outcome_bind].
  destruct s' as [|c s']; [by apply not_elem_of_nil in Hs'|]. change (checked (head (c :: s'))) with (Ret c). cbn [mbind outcome_bind].
  case_bool_decide; [by eexists|]. destruct (take_word_ends _ Hs' arr 0 Ha ltac:(lia)) as (sc & i & -> & L & J). cbn [mbind outcome_bind].
  destruct (wr_zero sc i L J) as (sc1 & -> & _ & Z1). cbn [checked mbind outcome_bind]. by apply find_command_ends.
Qed.

(** ** What a line asks for *)

(** The characters in front of the first that satisfies [p]. *)
Fixpoint before (p : Z -> bool) (l : list Z) : list Z :=
  match l with [] => [] | c :: l => if p c then [] else c :: before p l end.

Fixpoint behind (p : Z -> bool) (l : list Z) : list Z :=
  match l with [] => [] | c :: l' => if p c then behind p l' else l end.

Definition blank (c : Z) : bool := bool_decide (c = 32 \/ c = 9).
Definition word_end (c : Z) : bool := bool_decide (c = 32 \/ c = 61).

(** The command of a line: the index of its first word in the list of commands,
    -1 for an unknown one, -3 for a line without a word. *)
Definition line_command (s : list Z) : Z :=
  let text := behind blank (before (fun c => bool_decide (c = 0)) s) in
  if bool_decide (text = []) then -3
  else match index_of (before word_end text) command_words with Some k => Z.of_nat k | None => -1 end.

Lemma before_app l c rest (p : Z -> bool) : Forall (fun c => p c = false) l -> p c = true -> before p (l ++ c :: rest) = l.
Proof. intros Hl Hc. induction Hl as [|x l Hx _ IH]; cbn; [by rewrite Hc|]. by rewrite Hx, IH. Qed.

Lemma before_all l (p : Z -> bool) : Forall (fun c => p c = false) l -> before p l = l.
Proof. intros Hl. induction Hl as [|x l Hx _ IH]; cbn; [done|]. by rewrite Hx, IH. Qed.

Lemma before_split p l : exists r, l = before p l ++ r /\ Forall (fun c => p c = false) (before p l) /\ (r = [] \/ exists c r', r = c :: r' /\ p c = true).
Proof.
  induction l as [|c l (r & E & F & H)]; cbn [before]; [exists []; auto|]. destruct (p c) eqn:Hp.
  - exists (c :: l). split; [done|]. split; [done|]. right. eauto.
  - exists r. split; [cbn; by rewrite <-E|]. split; [by constructor|done].
Qed.

Lemma skip_spaces_behind l rest n : Forall (fun c => c <> 0) l -> (length l <= n)%nat ->
  skip_spaces n (l ++ 0 :: rest) = Ret (behind blank l ++ 0 :: rest).
Proof.
  intros Hl. revert n. induction Hl as [|c l Hc _ IH]; intros n Hn; [done|]. cbn [app skip_spaces behind length] in *.
  rewrite (bool_decide_true (c <> 0)) by done. unfold blank. rewrite bool_decide_or. cbn [andb].
  destruct (bool_decide (c = 32) || bool_decide (c = 9)); [|done]. destruct n as [|n]; [lia|]. apply IH. lia.
Qed.

Lemma behind_sub l (P : Z -> Prop) p : Forall P l -> Forall P (behind p l) /\ (length (behind p l) <= length l)%nat.
Proof.
  intros Hl. induction Hl as [|c l Hc Hl [IH1 IH2]]; cbn [behind]; [done|]. destruct (p c); [cbn; split; [done|lia]|].
  split; [by constructor|cbn; lia].
Qed.

Lemma cparse_line arr s : length arr = S MAXCMD_SZ -> terminated s -> cparse arr commands s = Ret (line_command s).
Proof.
  intros Ha (l & rest & -> & Hl & Hn). unfold line_command.
  assert (Forall (fun c => bool_decide (c = 0) = false) l) as Hl' by (eapply Forall_impl; [exact Hl|]; intros c Hc; by apply bool_decide_eq_false).
  rewrite (before_app l 0 rest) by done. clear Hl'.
  unfold cparse. rewrite skip_spaces_behind by (done || unfold MAXCMD_SZ; lia). cbn [mbind outcome_bind].
  destruct (behind_sub l _ blank Hl) as [Ht Hlt]. set (text := behind blank l) in *. destruct text as [|c text]; [done|].
  change (checked (head ((c :: text) ++ 0 :: rest))) with (Ret c). cbn [mbind outcome_bind].
  rewrite bool_decide_false by (by inversion Ht). rewrite bool_decide_false by done.
  destruct (before_split word_end (c :: text)) as (r & E & Fw & Hr). set (w := before word_end (c :: text)) in *.
  assert (Forall (fun c => c <> 0 /\ c <> 32 /\ c <> 61) w /\ (length w <= MAXCMD_SZ)%nat) as [Hw Hwl].
  { apply (f_equal length) in E as El. rewrite length_app in El. split; [|unfold MAXCMD_SZ; lia].
    rewrite E in Ht. apply Forall_app in Ht as [Ht _]. apply Forall_and; split; [done|]. eapply Forall_impl; [exact Fw|].
    intros x Hx%bool_decide_eq_false. tauto. }
  rewrite E, <-app_assoc. destruct (take_word_spec w (r ++ 0 :: rest) arr Hw Hwl Ha) as (sc & x & -> & W).
  { destruct Hr as [->|(c' & r' & -> & Hc')]; [do 2 eexists; split; [done|by left]|]. do 2 eexists. split; [done|].
    apply bool_decide_eq_true in Hc'. tauto. }
  cbn [mbind outcome_bind]. rewrite W. cbn [checked mbind outcome_bind].
  pose proof (find_command_spec command_words command_words_ok (length commands) 0 w x arr false) as F.
  rewrite commands_eq. apply F; [|done|cbn; lia|cbn; lia]. eapply Forall_impl; [exact Hw|]. tauto.
Qed.

Lemma putl_total v j : length j = 12%nat -> exists l, putl v j = Ret l.
Proof.
  intros Hj. unfold putl. pose proof (u32_range (if bool_decide (v < 0) then - v else v)). unw.
  destruct (put_dec_spec 10 12 v (u32 (if bool_decide (v < 0) then - v else v)) j) as (ds & -> & _);
    [change (10 ^ Z.of_nat 10) with 10000000000; lia|lia|done|case_bool_decide; lia|by eexists].
Qed.

Lemma show_register_total pre i v junk : (exists l, v = Ret l) -> exists o, show_register junk pre i v = Ret o.
Proof.
  intros [l ->]. unfold show_register. destruct (putd_spec (s32 i) (junk_buf junk 7)) as (n & -> & _); [apply length_replicate|].
  by eexists.
Qed.

(** What a command changes of the console: text is put out, the mode set. *)
Definition con_text (c c' : Console) : Prop :=
  cstr c' = cstr c /\ cbcnt c' = cbcnt c /\ CON_ECHO c' = CON_ECHO c /\ exists l, con_out c' = con_out c ++ l.

Lemma con_text_put l c : con_text c (con_put l c).
Proof. split_and!; try done. by exists l. Qed.

Lemma con_text_mode m l c : con_text c (con_put l (con_set_mode m c)).
Proof. split_and!; try done. by exists l. Qed.

Lemma con_text_refl c : con_text c c.
Proof. split_and!; try done. exists []. by rewrite app_nil_r. Qed.

(** A branch that only puts text out. *)
Ltac done_text := do 2 eexists; split; [reflexivity|]; first [apply con_text_put|apply con_text_mode|apply con_text_refl].

Lemma run_command_total bc NDEBUG now junk k sp r c : terminated sp ->
  exists r' c', run_command bc NDEBUG now junk k sp r c = Ret (r', c') /\ con_text c c'.
Proof.
  intros Hs. unfold run_command. destruct (cstring_terminated sp Hs) as [l ->].
  change (cstring commands) with (Ret (removelast commands)). cbn [mbind outcome_bind].
  repeat case_bool_decide; try done_text.
  - destruct (sscanf fmt_r l) as [|i [|]]; [done_text| |done_text].
    destruct (Parameters_read bc NDEBUG now (u16 i) junk r) as [v rc]. case_bool_decide; [|done_text].
    destruct (show_register_total (newline ++ str "p") i (putl v (junk_buf junk 12)) junk) as [o ->]; [|done_text].
    apply putl_total, length_replicate.
  - destruct (sscanf fmt_w l) as [|i [|v [|]]]; [done_text|done_text| |done_text].
    destruct (Parameters_write bc (u16 i) (s32 v) r) as [r' rc]. case_bool_decide; [|done_text].
    destruct (show_register_total (str "p") i (putl (s32 v) (junk_buf junk 12)) junk) as [o ->]; [|done_text].
    apply putl_total, length_replicate.
  - destruct (sscanf fmt_wx l) as [|i [|v [|]]]; [done_text|done_text| |done_text].
    destruct (Parameters_write bc (u16 i) (s32 v) r) as [r' rc]. case_bool_decide; [|done_text].
    destruct (show_register_total (newline ++ str "p") i (Ret (putdwx v)) junk) as [o ->]; [by eexists|done_text].
  - destruct (sscanf fmt_out l); done_text.
Qed.

Lemma cprocbyte_total b c : con_wf c -> exists c', cprocbyte b c = Ret c' /\ con_wf c'.
Proof.
  intros Hwf. destruct (decide (b = CR)) as [->|Hb].
  - destruct (cprocbyte_CR c Hwf) as (c' & rest & H & W & _). eauto.
  - destruct (cprocbyte_edit c b Hwf Hb) as (c' & H & W & _). eauto.
Qed.

(** One turn of the main program for the console: a line that waits is taken,
    its command is found and carried out; without one nothing happens. *)
Lemma processConsoleInput_total bc NDEBUG now junk r c : con_wf c ->
  exists r' c', processConsoleInput bc NDEBUG now junk r c = Ret (r', c') /\ con_wf c' /\ (cgets c').2 = None /\
    match (cgets c).2 with
    | Some s => s = cstr c /\ run_command bc NDEBUG now junk (line_command s) s r (con_set_line (cstr c) 0 c) = Ret (r', c')
    | None => r' = r /\ c' = c
    end.
Proof.
  intros Hwf. unfold processConsoleInput, cgets. pose proof (con_wf_terminated c Hwf) as Ht.
  case_bool_decide as E; cbn [snd].
  - rewrite (cparse_line _ (cstr c)) by (done || apply length_replicate). cbn [mbind outcome_bind].
    destruct (run_command_total bc NDEBUG now junk (line_command (cstr c)) (cstr c) r (con_set_line (cstr c) 0 c) Ht) as (r' & c' & -> & (T1 & T2 & _)).
    exists r', c'. destruct Hwf as (? & ? & ?). unfold con_wf. rewrite T1, T2. cbn. split_and!; try done; try lia.
  - exists r, c. rewrite bool_decide_false by (intros X; exact (X E)). by split_and!.
Qed.

(** What happens at the console: a byte is received, the main program comes
    round at a time. *)
Inductive con_event := Typed (b : Z) | Turn (now : Z).

Definition con_step bc NDEBUG junk (e : con_event) (s : Registers * Console) : outcome (Registers * Console) :=
  match e with
  | Typed b => c ← cprocbyte b s.2; Ret (s.1, c)
  | Turn now => '(r, c) ← processConsoleInput bc NDEBUG now junk s.1 s.2; Ret (r, processConsoleOutput now c)
  end.

Fixpoint con_run bc NDEBUG junk (l : list con_event) (s : Registers * Console) : outcome (Registers * Console) :=
  match l with [] => Ret s | e :: l => s ← con_step bc NDEBUG junk e s; con_run bc NDEBUG junk l s end.

Lemma con_turn bc NDEBUG junk now r c : con_wf c ->
  exists r' c1, con_step bc NDEBUG junk (Turn now) (r, c) = Ret (r', processConsoleOutput now c1) /\
    con_wf (processConsoleOutput now c1) /\ (cgets (processConsoleOutput now c1)).2 = None /\
    match (cgets c).2 with
    | Some s => s = cstr c /\ run_command bc NDEBUG now junk (line_command s) s r (con_set_line (cstr c) 0 c) = Ret (r', c1)
    | None => r' = r /\ c1 = c
    end.
Proof.
  intros Hwf. destruct (processConsoleInput_total bc NDEBUG now junk r c Hwf) as (r' & c1 & E & W & G & D).
  exists r', c1. cbn [con_step fst snd]. rewrite E. split; [done|].
  unfold processConsoleOutput. destruct (bool_decide (out_mode c1 > 0) && TIMEOUT (out_ticks c1) 1000 now); [|by split].
  split; [done|]. split; [|done]. unfold cgets in *. cbn [cbcnt con_set_ticks]. by destruct (bool_decide (Z.land (cbcnt c1) 128 <> 0)).
Qed.

(** C27: Memory safety of the console.  Whatever bytes are typed and
    whenever the main program comes round, nothing is read or written outside
    the arrays: the 165 characters of the line, the two command buffers of 161
    characters, the buffers of the printed numbers.  A turn deals with the line
    that waits: its command - the index of the first word of the line, -1 for an
    unknown word, -3 for an empty line - is carried out once, and no line waits
    any more; without a line the turn changes neither registers nor line.  The
    search alone stays within its buffers and ends for any line and any list of
    commands, however long, that end with a zero, and whatever the buffers
    held. *)
Theorem console_safe (bc : Container) (NDEBUG : bool) (junk : Z) (l : list con_event) (r : Registers) (c : Console) :
  con_wf c ->
  exists r' c', con_run bc NDEBUG junk l (r, c) = Ret (r', c') /\ con_wf c' /\
    (forall now, exists r'' c1, con_step bc NDEBUG junk (Turn now) (r', c') = Ret (r'', processConsoleOutput now c1) /\
       (cgets (processConsoleOutput now c1)).2 = None /\
       match (cgets c').2 with
       | Some s => s = cstr c' /\ run_command bc NDEBUG now junk (line_command s) s r' (con_set_line (cstr c') 0 c') = Ret (r'', c1)
       | None => r'' = r' /\ c1 = c'
       end) /\
    (forall arr cl s, length arr = S MAXCMD_SZ -> 0 ∈ cl -> 0 ∈ s -> exists k, cparse arr cl s = Ret k).
Proof.
  revert r c. induction l as [|e l IH]; intros r c Hwf; cbn [con_run].
  - exists r, c. split; [done|]. split; [done|]. split; [|exact cparse_ends].
    intros now. destruct (con_turn bc NDEBUG junk now r c Hwf) as (r'' & c1 & E & _ & G & D). eauto.
  - destruct e as [b|now].
    + destruct (cprocbyte_total b c Hwf) as (c' & E & W). cbn [con_step fst snd]. rewrite E. by apply IH.
    + destruct (con_turn bc NDEBUG junk now r c Hwf) as (r' & c1 & E & W & _). rewrite E. by apply IH.
Qed.

Lemma console_safe_witness :
  (exists r c, con_run demo_empty false 77 (map Typed (str "w 14 = 5") ++ [Typed CR; Turn 3]) (mkRegisters 0 0, con_init) = Ret (r, c) /\
    con_wf c /\ R14 r = 5) /\
  exists k, cparse (replicate 161 77) commands (replicate 300 97 ++ [0]) = Ret k.
Proof.
  destruct (console_safe demo_empty false 77 (map Typed (str "w 14 = 5") ++ [Typed CR; Turn 3]) (mkRegisters 0 0) con_init con_init_wf)
    as (r & c & H & W & _ & P).
  split.
  - exists r, c. split; [exact H|]. split; [exact W|]. clear W P. vm_compute in H. by injection H as <- <-.
  - apply P; [reflexivity|by apply (bool_decide_unpack _)|by apply (bool_decide_unpack _)].
Defined.

Section RegisterCommands.
Context (bc : Container) (NDEBUG : bool) (now junk : Z).

(** The line in front of the characters left in the array. *)
Lemma run_line k w line rest r c c' :
  cgets c = (c', Some (line ++ 0 :: rest)) -> index_of w command_words = Some k ->
  (exists line', line = w ++ 32 :: line') -> first_word w [32] ->
  processConsoleInput bc NDEBUG now junk r c = run_command bc NDEBUG now junk (Z.of_nat k) (line ++ 0 :: rest) r c'.
Proof.
  intros Hg Hk [line' ->] (H1 & H2 & H3 & H4 & _). unfold processConsoleInput. rewrite Hg, commands_eq.
  pose proof (cparse_spec (junk_buf junk (S MAXCMD_SZ)) command_words 0 w (32 :: line' ++ 0 :: rest) (length_replicate _ _)) as E. cbn [app] in E. change (replicate 0 32) with (@nil Z) in E. cbn [app] in E.
  rewrite <-app_assoc. cbn [app]. rewrite E; [by rewrite Hk|exact command_words_ok|cbn; lia|lia|].
  split_and!; try done. do 2 eexists. split; [done|]. auto.
Qed.

Lemma read_command (c c' : Console) (r : Registers) (ds rest : list Z) :
  numeral ds -> is_u16 (dec_value ds) -> cgets c = (c', Some (str "r " ++ ds ++ 0 :: rest)) ->
  let i := dec_value ds in
  let v := (read_param bc NDEBUG now i junk r).1 in
  -2147483648 <= v < 2147483648 ->
  exists n m, prints i i n /\ prints v (Z.abs v) m /\
    processConsoleInput bc NDEBUG now junk r c =
    Ret (r, con_put (if bool_decide (readable_param i) then newline ++ str "p" ++ n ++ str ":" ++ m ++ newline ++ str ">"
                     else str "??" ++ newline ++ str ">") c').
Proof.
  intros Hd Hi Hg i v Hv'.
  rewrite (run_line 3 (str "r") (str "r " ++ ds) rest r c c'); [|by rewrite <-app_assoc|done|by exists ds|].
  2: { split_and!; try done; [by apply (bool_decide_unpack _)|unfold MAXCMD_SZ; cbn; lia|]. do 2 eexists. split; [done|auto]. }
  unfold run_command. rewrite (bool_decide_false (Z.of_nat 3 = -1)), (bool_decide_false (Z.of_nat 3 = 0)),
    (bool_decide_false (Z.of_nat 3 = 1)), (bool_decide_true (Z.of_nat 3 = 3)) by done.
  assert (Forall (fun c => c <> 0) (str "r " ++ ds)) as Hnz.
  { apply Forall_app. split; [by apply (bool_decide_unpack _)|by apply numeral_nz]. }
  rewrite cstring_spec by exact Hnz. cbn [mbind outcome_bind]. rewrite sscanf_read by (done || unw; lia).
  fold i. rewrite (u16_id i) by done. destruct (read_param_known bc NDEBUG now i junk r) as (Hrc & _ & _).
  destruct (putl_spec v (junk_buf junk 12)) as (m & Hm & Pm); [apply length_replicate|done|].
  destruct (show_register_spec (newline ++ str "p") i _ m junk Hi Hm) as (n & Hsh & Pn).
  exists n, m. split; [done|]. split; [done|]. unfold Parameters_read. unfold v in *.
  destruct (read_param bc NDEBUG now i junk r) as [v' ok]. cbn [fst snd] in *. rewrite Hrc. clear Hrc ok.
  destruct (bool_decide (readable_param i)); [|done]. rewrite (bool_decide_true (0 = 0)) by done. rewrite Hsh. cbn [mbind outcome_bind].
  by rewrite <-!app_assoc.
Qed.

Lemma write_command (c c' : Console) (r : Registers) (ds es rest : list Z) :
  numeral ds -> is_u16 (dec_value ds) -> numeral es -> is_u32 (dec_value es) ->
  cgets c = (c', Some (str "w " ++ ds ++ str " = " ++ es ++ 0 :: rest)) ->
  let i := dec_value ds in
  let v := s32 (dec_value es) in
  exists n m, prints i i n /\ prints v (Z.abs v) m /\
    processConsoleInput bc NDEBUG now junk r c =
    Ret ((Parameters_write bc i v r).1,
         con_put (if bool_decide (writable i r) then str "p" ++ n ++ str ":" ++ m ++ newline else str "?" ++ newline) c').
Proof.
  intros Hd Hi He Hv Hg i v0.
  rewrite (run_line 4 (str "w") (str "w " ++ ds ++ str " = " ++ es) rest r c c'); [|by rewrite <-!app_assoc|done|by eexists|].
  2: { split_and!; try done; [by apply (bool_decide_unpack _)|unfold MAXCMD_SZ; cbn; lia|]. do 2 eexists. split; [done|auto]. }
  unfold run_command. rewrite (bool_decide_false (Z.of_nat 4 = -1)), (bool_decide_false (Z.of_nat 4 = 0)),
    (bool_decide_false (Z.of_nat 4 = 1)), (bool_decide_false (Z.of_nat 4 = 3)), (bool_decide_true (Z.of_nat 4 = 4)) by done.
  assert (Forall (fun c => c <> 0) (str "w " ++ ds ++ str " = " ++ es)) as Hnz.
  { rewrite !Forall_app. split_and!; try (by apply numeral_nz); by apply (bool_decide_unpack _). }
  rewrite cstring_spec by exact Hnz. cbn [mbind outcome_bind]. rewrite sscanf_write by (done || unw; lia).
  fold i. subst v0. set (w := dec_value es) in *. rewrite (u16_id i) by done.
  destruct (putl_spec (s32 w) (junk_buf junk 12)) as (m & Hm & Pm); [apply length_replicate|unfold s32; word_lia|].
  destruct (show_register_spec (str "p") i _ m junk Hi Hm) as (n & Hsh & Pn).
  exists n, m. split; [done|]. split; [done|]. unfold Parameters_write. rewrite write_param_cases.
  destruct (bool_decide (writable i r)); [|done].
  cbn [fst snd]. rewrite (bool_decide_true (0 = 0)) by done. rewrite Hsh. done.
Qed.

(** The commands that read and write registers, from the line to what
    is printed.  "r N" prints the value of the register N when it can be read
    and "??" otherwise; "w N = V" writes V, as a signed number of 32 bits, to
    the register N and prints both when the write is accepted and "?"
    otherwise. *)
Theorem console_registers (c c' : Console) (r : Registers) (ds es rest : list Z) :
  numeral ds -> is_u16 (dec_value ds) -> numeral es -> is_u32 (dec_value es) ->
  let i := dec_value ds in
  let v := (read_param bc NDEBUG now i junk r).1 in
  (cgets c = (c', Some (str "r " ++ ds ++ 0 :: rest)) -> -2147483648 <= v < 2147483648 ->
   exists n m, prints i i n /\ prints v (Z.abs v) m /\
     processConsoleInput bc NDEBUG now junk r c =
     Ret (r, con_put (if bool_decide (readable_param i) then newline ++ str "p" ++ n ++ str ":" ++ m ++ newline ++ str ">"
                      else str "??" ++ newline ++ str ">") c')) /\
  (cgets c = (c', Some (str "w " ++ ds ++ str " = " ++ es ++ 0 :: rest)) ->
   exists n m, prints i i n /\ prints (s32 (dec_value es)) (Z.abs (s32 (dec_value es))) m /\
     processConsoleInput bc NDEBUG now junk r c =
     Ret ((Parameters_write bc i (s32 (dec_value es)) r).1,
          con_put (if bool_decide (writable i r) then str "p" ++ n ++ str ":" ++ m ++ newline else str "?" ++ newline) c')).
Proof.
  intros Hd Hi He Hv i v. split.
  - intros Hg. by apply (read_command _ _ _ _ rest).
  - intros Hg. by apply (write_command _ _ _ _ _ rest).
Qed.

End RegisterCommands.

(** "r 21" reads the clock, "w 14 = 4294967295" writes -1. *)
Lemma console_registers_witness :
  (exists n m, prints 21 21 n /\ prints 1205 1205 m /\
    processConsoleInput demo_empty false 1205 77 (mkRegisters 0 0) (con_set_line (str "r 21" ++ replicate 161 0) 132 con_init) =
    Ret (mkRegisters 0 0, con_put (newline ++ str "p" ++ n ++ str ":" ++ m ++ newline ++ str ">")
      (con_set_line (str "r 21" ++ replicate 161 0) 0 con_init))) /\
  (exists n m, prints 14 14 n /\ prints (-1) 1 m /\
    processConsoleInput demo_empty false 1205 77 (mkRegisters 0 0) (con_set_line (str "w 14 = 4294967295" ++ replicate 148 0) 145 con_init) =
    Ret (mkRegisters 4294967295 0, con_put (str "p" ++ n ++ str ":" ++ m ++ newline)
      (con_set_line (str "w 14 = 4294967295" ++ replicate 148 0) 0 con_init))).
Proof.
  split.
  - destruct (console_registers demo_empty false 1205 77 (con_set_line (str "r 21" ++ replicate 161 0) 132 con_init)
      (con_set_line (str "r 21" ++ replicate 161 0) 0 con_init) (mkRegisters 0 0) (str "21") (str "0") (replicate 160 0)) as [H _];
      [by apply (bool_decide_unpack _)|vm_compute; split; congruence|by apply (bool_decide_unpack _)|vm_compute; split; congruence|].
    destruct H as (n & m & P1 & P2 & H); [reflexivity|vm_compute; split; congruence|].
    exists n, m. split; [exact P1|]. split; [exact P2|]. exact H.
  - destruct (console_registers demo_empty false 1205 77 (con_set_line (str "w 14 = 4294967295" ++ replicate 148 0) 145 con_init)
      (con_set_line (str "w 14 = 4294967295" ++ replicate 148 0) 0 con_init) (mkRegisters 0 0) (str "14") (str "4294967295") (replicate 147 0)) as [_ H];
      [by apply (bool_decide_unpack _)|vm_compute; split; congruence|by apply (bool_decide_unpack _)|vm_compute; split; congruence|].
    destruct H as (n & m & P1 & P2 & H); [reflexivity|].
    exists n, m. split; [exact P1|]. split; [exact P2|]. exact H.
Defined.
