(* ===== verification/Main.v ===== *)
(** * The main program ([src/main.cpp], [src/hal.cpp])

    The start and the endless loop: the received bytes ([hal::process]), the
    tasks, the console.  The state is that of the tasks over all modules
    ([System]) and the console. *)

From Stdlib Require Import String.
From S2P Require Import Prelude Ring TQueue TBuffer HalBase Protocol MasterTx ProtocolApp TDataBuffer DataBuffers.
From S2P Require Import DeviceParameters Device UdpIo Supervisor Phy NetTasks HalUarts System Putx Console.

Section Main.
Context {N B C : Type} `{HS : NetStack N} `{HB : Mii B} `{HC : Uarts C}.
(** [junk]: what is not initialised; [data]: the array of [hal::uarts::process]
    on the stack. *)
Variable junk : Z.
Variable data : list Z.
Variable NDEBUG : bool.
Variable addrs : list Z.
Variable raw : list TDataBuffer.

#[local] Existing Instance sys_layer1.
#[local] Existing Instance sys_board.

Notation board := (sys_board (N:=N) (B:=B) (C:=C) junk NDEBUG addrs raw).

Record Program := mkProgram { pg_sys : Sys (@SysDev N B C); pg_con : Console }.

Definition pg_dev (s : Program) : Device (@SysLink N C) := sd_dev (sy_dev (pg_sys s)).
Definition pg_ticks (s : Program) : Z := sd_ticks (sy_dev (pg_sys s)).
Definition pg_set_sys y (s : Program) : Program := mkProgram y (pg_con s).
Definition pg_set_con c (s : Program) : Program := mkProgram (pg_sys s) c.
Definition pg_set_dev d (s : Program) : Program :=
  pg_set_sys (set_dev (sd_set_dev d (sy_dev (pg_sys s))) (pg_sys s)) s.

(** The serial drivers, behind the link to the slaves. *)
Definition pg_uarts (s : Program) : C := lk_uart (pi_link (local_inst (pg_dev s))).
Definition pg_set_uarts (c : C) (s : Program) : Program :=
  let l := pi_link (local_inst (pg_dev s)) in
  pg_set_dev (local_upd (set_link (mkLink c (lk_connected l) (lk_udp l)) (local_inst (pg_dev s))) (pg_dev s)) s.

Definition pg_cprocbyte (b : Z) (s : Program) : outcome Program :=
  c ← cprocbyte b (pg_con s); Ret (pg_set_con c s).

(** [Protocol::processInputData(&b, nn, LINK_ID_LOCAL)] *)
Definition pg_process_local (b : TBuffer Z) (n : Z) (s : Program) : outcome Program :=
  '(d, _, _) ← dev_processInputData (pg_ticks s) junk NDEBUG b n LINK_ID_LOCAL (pg_dev s);
  Ret (pg_set_dev d s).

Definition hal_process (s : Program) : outcome Program :=
  uarts_process pg_uarts pg_set_uarts pg_cprocbyte pg_process_local data s.

Definition pg_processTasks (s : Program) : outcome Program :=
  y ← @main_loop _ board (pg_ticks s) (pg_sys s); Ret (pg_set_sys y s).

(** [processConsoleInput(); processConsoleOutput();] *)
Definition pg_console (s : Program) : outcome Program :=
  '(r, c) ← processConsoleInput (dv_buffers (pg_dev s)) NDEBUG (pg_ticks s) junk (dv_params (pg_dev s)) (pg_con s);
  let s := pg_set_dev (dv_set_params r (pg_dev s)) s in
  Ret (pg_set_con (processConsoleOutput (pg_ticks s) c) s).

(** One turn of [while(1)]. *)
Definition main_turn (s : Program) : outcome Program :=
  s ← hal_process s;
  s ← pg_processTasks s;
  pg_console s.

(** What is printed at the start; [date] and [time]: of the compilation;
    [pll]: [Chip_Clock_GetMainPLLHz()]. *)
Definition putInitState (date time : list Z) (pll : Z) (c : Console) : outcome Console :=
  let buf := replicate 11 junk in
  a ← putdw 0 buf; b ← putdw 0 buf; v ← putdw 1 buf; f ← putdw (V_FEATURE NDEBUG) buf;
  k ← putl (s32 (pll / 1000)) (replicate 12 junk);
  Ret (con_put (newline ++ str "v." ++ a ++ str "." ++ b ++ str "." ++ v ++ str "." ++ f ++ str " " ++
    date ++ str " " ++ time ++ newline ++ str "Main PLL clock: " ++ k ++ str " kHz" ++ newline) c).

(** [main], up to the loop. *)
Definition main_start (date time : list Z) (pll : Z) (s : Program) : outcome Program :=
  c ← putInitState date time pll (pg_con s);
  y ← @initTasks _ board (pg_ticks s) (pg_sys s);
  Ret (pg_set_sys y (pg_set_con c s)).

End Main.

(** ** A command at the console, from the wire to the register *)

Section Typed.
Context {N B C : Type} `{HS : NetStack N} `{HB : Mii B} `{HC : UartLaws C}.
Variable junk : Z.
Variable data : list Z.
Variable NDEBUG : bool.
Variable addrs : list Z.
Variable raw : list TDataBuffer.

#[local] Existing Instance sys_layer1.

Notation board := (sys_board (N:=N) (B:=B) (C:=C) junk NDEBUG addrs raw).
Notation Prog := (@Program N B C).
Notation hal := (hal_process (N:=N) (B:=B) (C:=C) junk data NDEBUG).
Notation turn := (main_turn (N:=N) (B:=B) (C:=C) junk data NDEBUG addrs raw).

Lemma pg_uarts_set c (s : Prog) : pg_uarts (pg_set_uarts c s) = c.
Proof. reflexivity. Qed.

Lemma pg_console_bytes l (s : Prog) :
  console_bytes pg_cprocbyte l s = (c ← cprocbytes l (pg_con s); Ret (pg_set_con c s)).
Proof.
  revert s. induction l as [|b l IH]; intros s; cbn [console_bytes cprocbytes]; [by destruct s|].
  unfold pg_cprocbyte at 2. destruct (cprocbyte b (pg_con s)) as [c| |]; [|done..]. cbn [mbind outcome_bind]. by rewrite IH.
Qed.

Lemma console_output_same now c :
  con_out (processConsoleOutput now c) = con_out c /\ (con_wf c -> con_wf (processConsoleOutput now c)) /\
  line (processConsoleOutput now c) = line c.
Proof. unfold processConsoleOutput. by destruct (bool_decide (out_mode c > 0) && TIMEOUT (out_ticks c) 1000 now). Qed.

(** The received bytes go to the console; nothing else happens when no slave
    has sent any. *)
Lemma hal_process_typed (s : Prog) l c :
  length data = 64%nat -> uart_rx UART_RS232 (pg_uarts s) = l -> (length l <= 64)%nat ->
  uart_rx UART_RS485 (pg_uarts s) = [] -> cprocbytes l (pg_con s) = Ret c ->
  exists s1, hal s = Ret s1 /\ pg_con s1 = c /\ dv_params (pg_dev s1) = dv_params (pg_dev s) /\
    dv_buffers (pg_dev s1) = dv_buffers (pg_dev s) /\ pg_ticks s1 = pg_ticks s /\
    uart_rx UART_RS232 (pg_uarts s1) = [].
Proof.
  intros Hd Hl Hlen H485 Hc. unfold hal_process, uarts_process.
  pose proof (uart_pop_list UART_RS232 kMaxRxSz (pg_uarts s) ltac:(done)) as Hp1.
  pose proof (uart_pop_rest UART_RS232 UART_RS232 kMaxRxSz (pg_uarts s) ltac:(done)) as Hr1.
  pose proof (uart_pop_rest UART_RS232 UART_RS485 kMaxRxSz (pg_uarts s) ltac:(done)) as Hr1'.
  destruct (uart_pop UART_RS232 kMaxRxSz (pg_uarts s)) as [c1 l1]. cbn [fst snd] in *.
  rewrite bool_decide_true in Hr1 by done. rewrite bool_decide_false, H485 in Hr1' by done.
  rewrite Hl in *. rewrite drop_ge in Hr1 by (unfold kMaxRxSz; lia). rewrite take_ge in Hp1 by (unfold kMaxRxSz; lia). subst l1.
  destruct (blit_ok data 0 l) as [d1 Hd1]; [lia|lia|]. rewrite Hd1. cbn [checked mbind outcome_bind].
  rewrite pg_console_bytes. change (pg_con (pg_set_uarts c1 s)) with (pg_con s). rewrite Hc. cbn [mbind outcome_bind].
  set (s1 := pg_set_con c (pg_set_uarts c1 s)). change (pg_uarts s1) with c1.
  pose proof (uart_pop_list UART_RS485 kMaxRxSz c1 ltac:(done)) as Hp2.
  pose proof (uart_pop_rest UART_RS485 UART_RS232 kMaxRxSz c1 ltac:(done)) as Hr2.
  destruct (uart_pop UART_RS485 kMaxRxSz c1) as [c2 l2]. cbn [fst snd] in *.
  rewrite bool_decide_false, Hr1 in Hr2 by done. rewrite Hr1', take_nil in Hp2. subst l2.
  pose proof (blit_length _ _ _ _ Hd1) as Hd1l.
  destruct (blit_ok d1 0 []) as [d2 ->]; [lia|cbn; lia|]. cbn [checked mbind outcome_bind].
  rewrite bool_decide_false by (cbn; lia). eexists. split; [done|]. by split_and!.
Qed.

(** C28: A register is written from the console.  When a line "w N = V" has
    come in over the serial line - typed with BS and the like, up to 63
    characters and CR - and no slave has sent anything, one turn of the main
    program takes it, lets the tasks run, and writes V to the register N, which
    is printed together with the echo of what was typed; if the register does
    not accept the write nothing is changed and "?" is printed. *)
Theorem console_write_turn (s : Prog) (y : Sys (@SysDev N B C)) (bs ds es : list Z) :
  length data = 64%nat -> con_wf (pg_con s) -> CR ∉ bs -> (length bs <= 63)%nat ->
  uart_rx UART_RS232 (pg_uarts s) = bs ++ [CR] -> uart_rx UART_RS485 (pg_uarts s) = [] ->
  edits (line (pg_con s)) bs = Some (str "w " ++ ds ++ str " = " ++ es) ->
  numeral ds -> is_u16 (dec_value ds) -> numeral es -> is_u32 (dec_value es) ->
  exists s1, hal s = Ret s1 /\ dv_params (pg_dev s1) = dv_params (pg_dev s) /\
    uart_rx UART_RS232 (pg_uarts s1) = [] /\
    (@main_loop _ board (pg_ticks s) (pg_sys s1) = Ret y ->
     let d := sd_dev (sy_dev y) in
     let i := dec_value ds in
     let v := s32 (dec_value es) in
     exists s2 n m, turn s = Ret s2 /\ prints i i n /\ prints v (Z.abs v) m /\
       dv_params (pg_dev s2) =
         (if bool_decide (writable i (dv_params d)) then (Parameters_write (dv_buffers d) i v (dv_params d)).1 else dv_params d) /\
       con_wf (pg_con s2) /\ line (pg_con s2) = [] /\
       con_out (pg_con s2) = con_out (pg_con s) ++ echoed (CON_ECHO (pg_con s)) (bs ++ [CR]) ++
         (if bool_decide (writable i (dv_params d)) then str "p" ++ n ++ str ":" ++ m ++ newline else str "?" ++ newline)).
Proof.
  intros Hd Hwf Hcr Hlen H232 H485 Hed Hn Hi He Hv.
  destruct (console_line (pg_con s) bs _ Hwf Hcr Hed) as (c1 & c2 & rest & Hc1 & Hg & _ & W2 & L2 & O2 & _).
  destruct (hal_process_typed s (bs ++ [CR]) c1 Hd H232) as (s1 & Hs1 & Hcon & Hpar & _ & Htk & Hrx);
    [rewrite length_app; cbn; lia|done|done|].
  exists s1. split; [done|]. split; [done|]. split; [done|]. intros Hy d i v.
  unfold main_turn. rewrite Hs1. cbn [mbind outcome_bind]. unfold pg_processTasks. rewrite Htk, Hy. cbn [mbind outcome_bind].
  unfold pg_console. change (pg_con (pg_set_sys y s1)) with (pg_con s1). rewrite Hcon.
  change (pg_dev (pg_set_sys y s1)) with d.
  rewrite <-!app_assoc in Hg.
  destruct (write_command (dv_buffers d) NDEBUG (pg_ticks (pg_set_sys y s1)) junk c1 c2 (dv_params d) ds es rest Hn Hi He Hv Hg)
    as (n & m & Pn & Pm & Hw). rewrite Hw. cbn [mbind outcome_bind].
  eexists _, n, m. split; [done|]. split; [done|]. split; [done|].
  split; [|destruct (console_output_same (pg_ticks (pg_set_sys y s1))
    (con_put (if bool_decide (writable i (dv_params d)) then str "p" ++ n ++ str ":" ++ m ++ newline else str "?" ++ newline) c2))
    as (O3 & W3 & L3)].
  - change (dv_params (pg_dev _)) with (Parameters_write (dv_buffers d) i v (dv_params d)).1.
    unfold Parameters_write. rewrite write_param_cases. by destruct (bool_decide (writable i (dv_params d))).
  - split; [exact (W3 W2)|]. split; [exact (eq_trans L3 L2)|]. etransitivity; [exact O3|]. cbn [con_out con_put]. by rewrite O2, <-app_assoc.
Qed.

End Typed.

(** ** Witness: a line that waits in the receive buffer *)

Section Witness.
#[local] Existing Instance demo_udp_stack.
#[local] Existing Instance demo_net_stack.
#[local] Existing Instance demo_bus.
#[local] Existing Instance demo_Uarts.
#[local] Existing Instance demo_UartLaws.

Definition demo_typed : list Z := str "w 2" ++ [BS] ++ str "14 = 77".

Definition demo_main : @Program demo_wire unit demo_uarts :=
  mkProgram (mkSys NetTasks.demo_queue (mkMon true 0) (demo_mac MacInitWait) (mkUdpTask true UdpIdle false) (mkInitTask false 3 0)
    (mkEmac [] 0 0 0 7) (demo_program_on ([], demo_typed ++ [CR]))) con_init.

Definition demo_turn_tasks : Sys (@SysDev demo_wire unit demo_uarts) :=
  match hal_process 0 (replicate 64 0) false demo_main with
  | Ret s => match @main_loop _ (sys_board 0 false demo_addrs []) (pg_ticks demo_main) (pg_sys s) with Ret y => y | _ => pg_sys s end
  | _ => pg_sys demo_main
  end.

(** The tasks come back. *)
Lemma demo_turn_returns :
  match hal_process 0 (replicate 64 0) false demo_main with
  | Ret s => match @main_loop _ (sys_board 0 false demo_addrs []) (pg_ticks demo_main) (pg_sys s) with Ret _ => true | _ => false end
  | _ => false
  end = true.
Proof. vm_compute. reflexivity. Qed.

Lemma console_write_turn_witness :
  exists s2, main_turn 0 (replicate 64 0) false demo_addrs [] demo_main = Ret s2 /\ R14 (dv_params (pg_dev s2)) = 77.
Proof.
  destruct (console_write_turn 0 (replicate 64 0) false demo_addrs [] demo_main demo_turn_tasks demo_typed (str "14") (str "77"))
    as (s1 & H1 & _ & _ & H2).
  - done.
  - exact con_init_wf.
  - by apply (bool_decide_unpack _).
  - cbn. lia.
  - reflexivity.
  - reflexivity.
  - vm_compute. reflexivity.
  - by apply (bool_decide_unpack _).
  - vm_compute. split; congruence.
  - by apply (bool_decide_unpack _).
  - vm_compute. split; congruence.
  - destruct H2 as (s2 & n & m & H & _ & _ & Hp & _).
    + unfold demo_turn_tasks. pose proof demo_turn_returns as Hr. rewrite H1 in Hr |- *.
      by destruct (@main_loop _ _ (pg_ticks demo_main) (pg_sys s1)).
    + exists s2. split; [exact H|]. rewrite Hp. vm_compute. reflexivity.
Defined.
End Witness.
