(* ===== verification/LwipDef.v ===== *)
(** * Byte order and assertions ([src/lwip/src/core/def.c], [inc/lwip/debug.h])

    The controller is little-endian: [htons] and [htonl] exchange the bytes.  An
    assertion that fails calls [assert_loop] ([arch/lpc_debug.c]), which never
    returns. *)

From S2P Require Import Prelude.

Definition LWIP_ASSERT (b : bool) : outcome () := if b then Ret () else Spin.

Definition lwip_htons (n : Z) : Z :=
  u16 (Z.lor (Z.shiftl (Z.land n 0xff) 8) (Z.shiftr (Z.land n 0xff00) 8)).
Definition lwip_ntohs (n : Z) : Z := lwip_htons n.

Definition lwip_htonl (n : Z) : Z :=
  u32 (Z.lor (Z.lor (Z.lor (Z.shiftl (Z.land n 0xff) 24) (Z.shiftl (Z.land n 0xff00) 8))
    (Z.shiftr (Z.land n 0xff0000) 8)) (Z.shiftr (Z.land n 0xff000000) 24)).
Definition lwip_ntohl (n : Z) : Z := lwip_htonl n.

(** ** As arithmetic *)

(** A field of a word: [w] bits from bit [k] on. *)
Lemma land_field n w k : 0 <= k -> 0 <= w -> Z.land n (Z.ones w * 2 ^ k) = (n / 2 ^ k mod 2 ^ w) * 2 ^ k.
Proof.
  intros Hk Hw. apply Z.bits_inj'. intros i Hi. rewrite Z.land_spec. destruct (Z.ltb_spec i k).
  - by rewrite !Z.mul_pow2_bits_low, andb_false_r by lia.
  - rewrite !Z.mul_pow2_bits by lia. rewrite <-Z.land_ones, Z.land_spec, <-Z.shiftr_div_pow2, Z.shiftr_spec by lia.
    f_equal. f_equal. lia.
Qed.

Lemma land_byte0 n : Z.land n 0xff = n mod 256.
Proof. change 0xff with (Z.ones 8). by apply Z.land_ones. Qed.
Lemma land_byte1 n : Z.land n 0xff00 = (n / 256 mod 256) * 256.
Proof. exact (land_field n 8 8 ltac:(lia) ltac:(lia)). Qed.
Lemma land_byte2 n : Z.land n 0xff0000 = (n / 65536 mod 256) * 65536.
Proof. exact (land_field n 8 16 ltac:(lia) ltac:(lia)). Qed.
Lemma land_byte3 n : Z.land n 0xff000000 = (n / 16777216 mod 256) * 16777216.
Proof. exact (land_field n 8 24 ltac:(lia) ltac:(lia)). Qed.

Lemma swap_bytes n :
  Z.lor (Z.shiftl (Z.land n 0xff) 8) (Z.shiftr (Z.land n 0xff00) 8) = n mod 256 * 256 + n / 256 mod 256.
Proof.
  rewrite land_byte0, land_byte1, Z.shiftl_mul_pow2, Z.shiftr_div_pow2 by lia. change (2 ^ 8) with 256.
  rewrite Z.div_mul by done. pose proof (Z.mod_pos_bound (n / 256) 256 ltac:(lia)). change 256 with (2 ^ 8) at 2.
  rewrite lor_low by (lia || (change (2 ^ 8) with 256; lia)). done.
Qed.

Lemma htons_eq n : lwip_htons n = n mod 256 * 256 + n / 256 mod 256.
Proof.
  unfold lwip_htons. rewrite swap_bytes. apply u16_id.
  pose proof (Z.mod_pos_bound n 256). pose proof (Z.mod_pos_bound (n / 256) 256). unw. lia.
Qed.

Lemma htonl_eq n : lwip_htonl n =
  n mod 256 * 16777216 + n / 256 mod 256 * 65536 + n / 65536 mod 256 * 256 + n / 16777216 mod 256.
Proof.
  unfold lwip_htonl. rewrite land_byte0, land_byte1, land_byte2, land_byte3.
  rewrite !Z.shiftl_mul_pow2, !Z.shiftr_div_pow2 by lia.
  change (2 ^ 24) with 16777216. change (2 ^ 8) with 256.
  replace (n / 65536 mod 256 * 65536) with (n / 65536 mod 256 * 256 * 256) by lia. rewrite !Z.div_mul by done.
  pose proof (Z.mod_pos_bound n 256). pose proof (Z.mod_pos_bound (n / 256) 256).
  pose proof (Z.mod_pos_bound (n / 65536) 256). pose proof (Z.mod_pos_bound (n / 16777216) 256).
  set (a := n mod 256) in *. set (b := n / 256 mod 256) in *. set (c := n / 65536 mod 256) in *.
  set (d := n / 16777216 mod 256) in *. clearbody a b c d.
  change (a * 16777216) with (a * 2 ^ 24). rewrite (lor_low 24) by (change (2 ^ 24) with 16777216; lia).
  change (a * 2 ^ 24) with (a * 16777216).
  replace (a * 16777216 + b * 256 * 256) with ((a * 256 + b) * 2 ^ 16) by (change (2 ^ 16) with 65536; lia).
  rewrite (lor_low 16) by (change (2 ^ 16) with 65536; lia). change (2 ^ 16) with 65536.
  replace ((a * 256 + b) * 65536 + c * 256) with (((a * 256 + b) * 256 + c) * 2 ^ 8) by (change (2 ^ 8) with 256; lia).
  rewrite (lor_low 8) by (change (2 ^ 8) with 256; lia). change (2 ^ 8) with 256.
  rewrite u32_id by (unw; lia). lia.
Qed.

Lemma htons_range n : is_u16 (lwip_htons n).
Proof. unfold lwip_htons. auto with words. Qed.
Lemma htonl_range n : is_u32 (lwip_htonl n).
Proof. unfold lwip_htonl. auto with words. Qed.
#[export] Hint Resolve htons_range htonl_range : words.

Lemma htons_htons n : is_u16 n -> lwip_htons (lwip_htons n) = n.
Proof. intros Hn. rewrite !htons_eq. unw. Z.to_euclidean_division_equations; lia. Qed.

(** The bytes of a word in memory are exchanged. *)
Lemma le4_htonl n : is_u32 n -> le4 (lwip_htonl n) = rev (le4 n).
Proof.
  intros Hn. rewrite htonl_eq. unfold le4. cbn [rev app].
  pose proof (Z.mod_pos_bound n 256). pose proof (Z.mod_pos_bound (n / 256) 256).
  pose proof (Z.mod_pos_bound (n / 65536) 256). pose proof (Z.mod_pos_bound (n / 16777216) 256).
  set (a := n mod 256) in *. set (b := n / 256 mod 256) in *. set (c := n / 65536 mod 256) in *.
  set (d := n / 16777216 mod 256) in *. clearbody a b c d.
  f_equal; [|f_equal; [|f_equal; [|f_equal]]]; Z.to_euclidean_division_equations; lia.
Qed.

Lemma htonl_htonl n : is_u32 n -> lwip_htonl (lwip_htonl n) = n.
Proof.
  intros Hn. pose proof (htonl_range n) as Hr. rewrite (htonl_eq (lwip_htonl n)).
  pose proof (le4_htonl n Hn) as E. unfold le4 in E. cbn [rev app] in E. injection E as E0 E1 E2 E3.
  rewrite E0, E1, E2, E3. pose proof (of_le4_le4 n Hn) as Hof. unfold of_le4 in Hof. lia.
Qed.
