(* ===== verification/InetChksum.v ===== *)
(** * The Internet checksum ([src/lwip/src/core/ipv4/inet_chksum.c])

    The checksum of the IP and UDP headers: the three routines the code can be
    built with (the configuration of [inc/arch/cc.h] takes the first), and the
    functions over memory and over chains of packet buffers.  A block of memory
    is the list of its bytes, a chain the list of the bytes of its buffers. *)

From S2P Require Import Prelude LwipDef.

Definition FOLD_U32T (u : Z) : Z := u32 (Z.shiftr u 16 + Z.land u 0xffff).
Definition SWAP_BYTES_IN_WORD (w : Z) : Z := Z.lor (Z.shiftl (Z.land w 0xff) 8) (Z.shiftr (Z.land w 0xff00) 8).

(** ** Version 1: the words in network order, [acc] is a [u32_t] *)

Fixpoint chksum1_loop (l : list Z) (acc : Z) : Z :=
  match l with
  | a :: b :: l => chksum1_loop l (u32 (acc + Z.lor (u16 (Z.shiftl a 8)) b))
  | [a] => u32 (acc + u16 (Z.shiftl a 8))
  | [] => acc
  end.

Definition lwip_standard_chksum (l : list Z) : Z :=
  let acc := chksum1_loop l 0 in
  let acc := FOLD_U32T acc in
  let acc := if bool_decide (Z.land acc 0xffff0000 <> 0) then FOLD_U32T acc else acc in
  lwip_htons (u16 acc).

(** ** Version 2: the words in host order from an aligned address *)

(** [while(len > 1) sum += *ps++]: the sum and what is left. *)
Fixpoint add_words (l : list Z) (sum : Z) : Z * list Z :=
  match l with
  | a :: b :: l => add_words l (u32 (sum + of_le2 a b))
  | _ => (sum, l)
  end.

Definition chksum_v2 (addr : Z) (l : list Z) : Z :=
  let odd := Z.odd addr in
  let '(t, l) := match l with b :: l' => if odd then (b * 256, l') else (0, l) | [] => (0, []) end in
  let '(sum, l) := add_words l 0 in
  let t := match l with b :: _ => Z.lor (Z.land t 0xff00) b | [] => t end in
  let sum := u32 (sum + t) in
  let sum := FOLD_U32T (FOLD_U32T sum) in
  u16 (if odd then SWAP_BYTES_IN_WORD sum else sum).

(** ** Version 3: eight bytes at a time, with the carry put back *)

Definition add_carry (sum w : Z) : Z :=
  let tmp := u32 (sum + w) in if bool_decide (tmp < sum) then u32 (tmp + 1) else tmp.

Fixpoint add_longs (l : list Z) (sum : Z) : Z * list Z :=
  match l with
  | a :: b :: c :: d :: e :: f :: g :: h :: l => add_longs l (add_carry (add_carry sum (of_le4 a b c d)) (of_le4 e f g h))
  | _ => (sum, l)
  end.

Definition chksum_v3 (addr : Z) (l : list Z) : Z :=
  let odd := Z.odd addr in
  let '(t, l, ps) := match l with b :: l' => if odd then (b * 256, l', addr + 1) else (0, l, addr) | [] => (0, [], addr) end in
  let '(sum, l) := match l with
    | a :: b :: l' => if bool_decide (Z.land ps 3 <> 0) then (of_le2 a b, l') else (0, l)
    | _ => (0, l) end in
  let '(sum, l) := add_longs l sum in
  let sum := FOLD_U32T sum in
  let '(sum, l) := add_words l sum in
  let t := match l with b :: _ => Z.lor (Z.land t 0xff00) b | [] => t end in
  let sum := u32 (sum + t) in
  let sum := FOLD_U32T (FOLD_U32T sum) in
  u16 (if odd then SWAP_BYTES_IN_WORD sum else sum).

(** ** Over chains *)

Definition u16_not (z : Z) : Z := u16 (Z.lnot z).

(** The loop over the buffers of a chain: [acc] and [swapped]. *)
Fixpoint chain_loop (p : list (list Z)) (acc swapped : Z) : Z * Z :=
  match p with
  | [] => (acc, swapped)
  | q :: p =>
      let acc := u32 (acc + lwip_standard_chksum q) in
      let acc := FOLD_U32T acc in
      if bool_decide (Z.of_nat (length q) mod 2 <> 0)
      then chain_loop p (SWAP_BYTES_IN_WORD acc) (1 - swapped)
      else chain_loop p acc swapped
  end.

Definition chain_sum (p : list (list Z)) : Z :=
  let '(acc, swapped) := chain_loop p 0 0 in
  if bool_decide (swapped <> 0) then SWAP_BYTES_IN_WORD acc else acc.

(** The words of the pseudo header; [src] and [dest] in network order. *)
Definition add_pseudo (acc src dest proto proto_len : Z) : Z :=
  let acc := u32 (acc + Z.land src 0xffff) in
  let acc := u32 (acc + Z.land (Z.shiftr src 16) 0xffff) in
  let acc := u32 (acc + Z.land dest 0xffff) in
  let acc := u32 (acc + Z.land (Z.shiftr dest 16) 0xffff) in
  let acc := u32 (acc + lwip_htons proto) in
  let acc := u32 (acc + lwip_htons proto_len) in
  u16_not (Z.land (FOLD_U32T (FOLD_U32T acc)) 0xffff).

Definition inet_chksum_pseudo (p : list (list Z)) (src dest proto proto_len : Z) : Z :=
  add_pseudo (chain_sum p) src dest proto proto_len.

(** The same over the first [chksum_len] bytes; the parity is that of the whole
    buffer.  An assertion stops the device when 0x7fff bytes or more are left
    behind a buffer. *)
Fixpoint chain_loop_partial (p : list (list Z)) (chksum_len acc swapped : Z) : outcome (Z * Z) :=
  match p with
  | [] => Ret (acc, swapped)
  | q :: p =>
      if bool_decide (chksum_len > 0) then
        let chklen := if bool_decide (Z.of_nat (length q) > chksum_len) then chksum_len else Z.of_nat (length q) in
        let acc := u32 (acc + lwip_standard_chksum (take (Z.to_nat chklen) q)) in
        let chksum_len := u16 (chksum_len - chklen) in
        _ ← LWIP_ASSERT (bool_decide (chksum_len < 0x7fff));
        let acc := FOLD_U32T acc in
        if bool_decide (Z.of_nat (length q) mod 2 <> 0)
        then chain_loop_partial p chksum_len (SWAP_BYTES_IN_WORD acc) (1 - swapped)
        else chain_loop_partial p chksum_len acc swapped
      else Ret (acc, swapped)
  end.

Definition inet_chksum_pseudo_partial (p : list (list Z)) (src dest proto proto_len chksum_len : Z) : outcome Z :=
  '(acc, swapped) ← chain_loop_partial p chksum_len 0 0;
  Ret (add_pseudo (if bool_decide (swapped <> 0) then SWAP_BYTES_IN_WORD acc else acc) src dest proto proto_len).

Definition inet_chksum (l : list Z) : Z := u16_not (lwip_standard_chksum l).

Definition inet_chksum_pbuf (p : list (list Z)) : Z := u16_not (Z.land (chain_sum p) 0xffff).

(** [lwip_chksum_copy]: the copy and its checksum. *)
Definition lwip_chksum_copy (dst : list Z) (off : Z) (src : list Z) : outcome (list Z * Z) :=
  m ← checked (blit dst off src); Ret (m, lwip_standard_chksum src).

(** ** The ones' complement sum

    Modulo 65535 the words of a block are the block itself, read as one number
    in little-endian order, since 65536 is 1. *)

Fixpoint val (l : list Z) : Z := match l with [] => 0 | b :: l => b + 256 * val l end.

(** The representative of a sum: 0 only for 0. *)
Definition oc (s : Z) : Z := if bool_decide (s = 0) then 0 else (s - 1) mod 65535 + 1.

(** [x] stands for the sum [s]. *)
Definition reps (x s : Z) : Prop := 0 <= x /\ 0 <= s /\ (exists k, x - s = 65535 * k) /\ (x = 0 <-> s = 0).

Lemma reps_oc x s : reps x s -> x < 65536 -> x = oc s.
Proof.
  intros (H1 & H2 & [k Hk] & H0) Hx. unfold oc. case_bool_decide; [tauto|]. Z.to_euclidean_division_equations; nia.
Qed.

Lemma reps_refl s : 0 <= s -> reps s s.
Proof. intros. split_and!; try lia. exists 0. lia. Qed.

Lemma reps_add x s y t : reps x s -> reps y t -> reps (x + y) (s + t).
Proof. intros (A1 & A2 & [k Ak] & A3) (B1 & B2 & [j Bj] & B3). split_and!; try lia. exists (k + j). lia. Qed.

Lemma reps_trans x s t : reps x s -> reps s t -> reps x t.
Proof. intros (A1 & A2 & [k Ak] & A3) (B1 & B2 & [j Bj] & B3). split_and!; try lia. exists (k + j). lia. Qed.

Lemma FOLD_eq u : is_u32 u -> FOLD_U32T u = u / 65536 + u mod 65536.
Proof.
  intros Hu. unfold FOLD_U32T. change 0xffff with (Z.ones 16). rewrite Z.land_ones, Z.shiftr_div_pow2 by lia.
  change (2 ^ 16) with 65536. apply u32_id. unw. Z.to_euclidean_division_equations; lia.
Qed.

Lemma fold_reps u s : is_u32 u -> reps u s -> reps (FOLD_U32T u) s.
Proof.
  intros Hu (A1 & A2 & [k Ak] & A3). rewrite FOLD_eq by done. unw.
  pose proof (Z.div_mod u 65536). pose proof (Z.mod_pos_bound u 65536). pose proof (Z.div_pos u 65536).
  split_and!; [lia|lia| |lia]. exists (k - u / 65536). lia.
Qed.

Lemma fold_bound u : is_u32 u -> 0 <= FOLD_U32T u <= 131070.
Proof. intros Hu. rewrite FOLD_eq by done. unw. Z.to_euclidean_division_equations; lia. Qed.

Lemma fold_bound2 u : 0 <= u <= 131070 -> 0 <= FOLD_U32T u < 65536.
Proof. intros Hu. rewrite FOLD_eq by (unw; lia). Z.to_euclidean_division_equations; lia. Qed.

Lemma fold_twice u s : is_u32 u -> reps u s -> FOLD_U32T (FOLD_U32T u) = oc s.
Proof.
  intros Hu Hr. pose proof (fold_bound u Hu) as Hb. pose proof (fold_bound2 _ Hb).
  apply reps_oc; [|lia]. apply fold_reps; [unw; lia|]. by apply fold_reps.
Qed.

Lemma SWAP_eq w : 0 <= w < 65536 -> SWAP_BYTES_IN_WORD w = w mod 256 * 256 + w / 256.
Proof.
  intros Hw. unfold SWAP_BYTES_IN_WORD. rewrite swap_bytes. rewrite (Z.mod_small (w / 256)); [done|].
  Z.to_euclidean_division_equations; lia.
Qed.

Lemma swap_reps w s : 0 <= w < 65536 -> reps w s -> reps (SWAP_BYTES_IN_WORD w) (256 * s) /\ 0 <= SWAP_BYTES_IN_WORD w < 65536.
Proof.
  intros Hw (A1 & A2 & [k Ak] & A3). rewrite SWAP_eq by done.
  pose proof (Z.div_mod w 256). pose proof (Z.mod_pos_bound w 256). pose proof (Z.div_pos w 256).
  assert (w / 256 < 256) by (apply Z.div_lt_upper_bound; lia).
  split; [|lia]. split_and!; [lia|lia| |lia]. exists (256 * k - w / 256). lia.
Qed.

Lemma pair_ind (P : list Z -> Prop) :
  P [] -> (forall a, P [a]) -> (forall a b l, P l -> P (a :: b :: l)) -> forall l, P l.
Proof.
  intros H0 H1 H2. assert (forall l, P l /\ forall a, P (a :: l)) as H; [|intros l; apply H].
  induction l as [|b l [IH1 IH2]]; split; eauto.
Qed.

Lemma val_nonneg l : bytes l -> 0 <= val l.
Proof. induction 1 as [|b l Hb _ IH]; cbn [val]; [lia|unw; lia]. Qed.

Lemma reps_256_256 s : 0 <= s -> reps s (256 * (256 * s)).
Proof. intros. split_and!; try lia. exists (- s). lia. Qed.

Lemma reps_word a b s : is_u8 a -> is_u8 b -> 0 <= s -> reps (of_le2 a b + s) (a + 256 * (b + 256 * s)).
Proof.
  intros. replace (a + 256 * (b + 256 * s)) with (of_le2 a b + 256 * (256 * s)) by (unfold of_le2; lia).
  apply reps_add; [apply reps_refl; unfold of_le2; unw; lia|by apply reps_256_256].
Qed.

Lemma be_word a b : is_u8 a -> is_u8 b -> Z.lor (u16 (Z.shiftl a 8)) b = a * 256 + b.
Proof.
  intros. rewrite Z.shiftl_mul_pow2 by lia. change (2 ^ 8) with 256. rewrite u16_id by (unw; lia).
  change 256 with (2 ^ 8). by rewrite lor_low by (lia || (change (2 ^ 8) with 256; unw; lia)).
Qed.

(** *** Version 1 *)

Lemma chksum1_loop_reps l : bytes l -> forall acc s, reps acc s -> acc + 65535 * Z.of_nat (length l) < 4294967296 ->
  reps (chksum1_loop l acc) (s + 256 * val l) /\ is_u32 (chksum1_loop l acc).
Proof.
  induction l as [|a|a b l IH] using pair_ind; intros Hl acc s Hr Hb; cbn [chksum1_loop val length] in *.
  - rewrite Z.add_0_r. destruct Hr as (H1 & H2 & H3 & H4). split; [by split_and!|unw; lia].
  - apply Forall_cons in Hl as [Ha _]. rewrite Z.shiftl_mul_pow2 by lia. change (2 ^ 8) with 256. unw.
    rewrite u16_id by (unw; lia). destruct Hr as (H1 & H2 & H3 & H4). rewrite u32_id by (unw; lia). split; [|unw; lia].
    apply reps_add; [by split_and!|]. replace (256 * (a + 256 * 0)) with (a * 256) by lia. apply reps_refl. lia.
  - apply Forall_cons in Hl as [Ha Hl]. apply Forall_cons in Hl as [Hb' Hl]. rewrite be_word by done.
    assert (0 <= acc) as Hacc by apply Hr. unw. rewrite u32_id by (unw; lia). pose proof (val_nonneg l Hl) as Hv.
    destruct (IH Hl (acc + (a * 256 + b)) (s + 256 * (a + 256 * b))) as [R U].
    { apply reps_add; [done|]. split_and!; try lia. exists (- b). lia. }
    { lia. }
    split; [|done]. apply (reps_trans _ _ _ R).
    replace (s + 256 * (a + 256 * (b + 256 * val l))) with (s + 256 * (a + 256 * b) + 256 * (256 * (256 * val l))) by lia.
    apply reps_add; [apply reps_refl; destruct Hr as (_ & ? & _); lia|]. apply reps_256_256. lia.
Qed.

Lemma fold_once_enough u : is_u32 u ->
  (if bool_decide (Z.land (FOLD_U32T u) 0xffff0000 <> 0) then FOLD_U32T (FOLD_U32T u) else FOLD_U32T u) =
  FOLD_U32T (FOLD_U32T u).
Proof.
  intros Hu. pose proof (fold_bound u Hu) as Hb. case_bool_decide as E; [done|].
  pose proof (land_field (FOLD_U32T u) 16 16 ltac:(lia) ltac:(lia)) as Hl.
  change (Z.ones 16 * 2 ^ 16) with 0xffff0000 in Hl. change (2 ^ 16) with 65536 in Hl. rewrite Hl in E.
  assert (FOLD_U32T u / 65536 = 0) as H0.
  { assert (FOLD_U32T u / 65536 mod 65536 = FOLD_U32T u / 65536) by (apply Z.mod_small; Z.to_euclidean_division_equations; lia). lia. }
  rewrite (FOLD_eq (FOLD_U32T u)) by (unw; lia). rewrite H0, Z.mod_small; Z.to_euclidean_division_equations; lia.
Qed.

Lemma oc_range s : 0 <= s -> 0 <= oc s < 65536 /\ reps (oc s) s.
Proof.
  intros Hs. unfold oc. case_bool_decide as E.
  - subst. split; [lia|by apply reps_refl].
  - split; [Z.to_euclidean_division_equations; lia|]. split_and!; [Z.to_euclidean_division_equations; lia|lia| |Z.to_euclidean_division_equations; lia].
    exists (- ((s - 1) / 65535)). Z.to_euclidean_division_equations; lia.
Qed.

Lemma oc_reps x s : reps x s -> oc x = oc s.
Proof.
  intros Hr. destruct (oc_range x) as [H1 H2]; [apply Hr|]. apply reps_oc; [|lia]. exact (reps_trans _ _ _ H2 Hr).
Qed.

Lemma chksum_v1_oc l : bytes l -> Z.of_nat (length l) < 65536 -> lwip_standard_chksum l = oc (val l).
Proof.
  intros Hl Hlen. unfold lwip_standard_chksum.
  destruct (chksum1_loop_reps l Hl 0 0 (reps_refl 0 ltac:(lia))) as [R U]; [lia|]. rewrite Z.add_0_l in R.
  pose proof (val_nonneg l Hl) as Hv. rewrite fold_once_enough by done. rewrite (fold_twice _ _ U R).
  destruct (oc_range (256 * val l)) as [Hr Hreps]; [lia|]. rewrite u16_id by (unw; lia).
  assert (lwip_htons (oc (256 * val l)) = SWAP_BYTES_IN_WORD (oc (256 * val l))) as -> by
    (unfold SWAP_BYTES_IN_WORD; by rewrite htons_eq, swap_bytes).
  destruct (swap_reps _ _ Hr Hreps) as [Hs Hsr]. apply reps_oc; [|lia]. apply (reps_trans _ _ _ Hs).
  destruct (reps_256_256 (val l) Hv) as (A & B & [k Hk] & D). split_and!; [lia|lia|exists (- k); lia|tauto].
Qed.

(** *** Versions 2 and 3 *)

Lemma le2_bounds a b : is_u8 a -> is_u8 b -> 0 <= of_le2 a b <= 65535.
Proof. unfold of_le2. unw. lia. Qed.

Lemma add_words_reps l : bytes l -> forall sum s, reps sum s -> sum + 65535 * Z.of_nat (length l) < 4294967296 ->
  let '(sum', r) := add_words l sum in
  reps (sum' + val r) (s + val l) /\ 0 <= sum' <= sum + 65535 * (Z.of_nat (length l) - Z.of_nat (length r)) /\
  (r = [] \/ exists b, r = [b] /\ is_u8 b).
Proof.
  induction l as [|a|a b l IH] using pair_ind; intros Hl sum s Hr Hb; cbn [add_words length] in *.
  - destruct Hr as (? & ? & ? & ?). split; [cbn [val]; rewrite !Z.add_0_r; by split_and!|]. split; [lia|auto].
  - apply Forall_cons in Hl as [Ha _]. destruct Hr as (? & ? & ? & ?). split; [|split; [lia|eauto]].
    apply reps_add; [by split_and!|]. apply reps_refl. cbn [val]. unw. lia.
  - apply Forall_cons in Hl as [Ha Hl]. apply Forall_cons in Hl as [Hb' Hl]. pose proof (le2_bounds a b Ha Hb') as Hw.
    assert (0 <= sum) as Hs by apply Hr. rewrite u32_id by (unw; lia).
    specialize (IH Hl (sum + of_le2 a b) (s + of_le2 a b)). destruct (add_words l (sum + of_le2 a b)) as [sum' r].
    destruct IH as (R & B & C).
    { apply reps_add; [done|apply reps_refl; lia]. }
    { lia. }
    split; [|split; [lia|done]]. apply (reps_trans _ _ _ R). cbn [val]. pose proof (val_nonneg l Hl).
    replace (s + (a + 256 * (b + 256 * val l))) with (s + of_le2 a b + 256 * (256 * val l)) by (unfold of_le2; lia).
    apply reps_add; [apply reps_refl; destruct Hr as (_ & ? & _); lia|]. by apply reps_256_256.
Qed.

(** The last byte joins the first one of an odd address in one word. *)
Lemma end_word t r : (t = 0 \/ exists b, is_u8 b /\ t = b * 256) -> (r = [] \/ exists b, r = [b] /\ is_u8 b) ->
  match r with b :: _ => Z.lor (Z.land t 0xff00) b | [] => t end = t + val r.
Proof.
  intros Ht [->|(b & -> & Hb)]; cbn [val]; [lia|]. rewrite Z.mul_0_r, Z.add_0_r, land_byte1.
  assert (t / 256 mod 256 * 256 = t) as -> by (destruct Ht as [->|(c & Hc & ->)]; [done|]; unw; rewrite Z.div_mul, Z.mod_small by lia; lia).
  assert (exists c, t = c * 2 ^ 8) as [c ->] by (change (2 ^ 8) with 256; destruct Ht as [->|(c & _ & ->)]; [by exists 0|by exists c]).
  apply lor_low; [lia|]. change (2 ^ 8) with 256. unw. lia.
Qed.

(** The common end: what has been added up, the last bytes, the byte order. *)
Lemma chksum_end (odd : bool) (b0 : Z) sum t r l' s :
  is_u8 b0 -> bytes l' -> t = (if odd then b0 * 256 else 0) -> (r = [] \/ exists b, r = [b] /\ is_u8 b) ->
  0 <= sum <= 4294967295 - 65535 -> reps (sum + val r) s ->
  reps s (val l') ->
  let sum := u32 (sum + match r with b :: _ => Z.lor (Z.land t 0xff00) b | [] => t end) in
  let sum := FOLD_U32T (FOLD_U32T sum) in
  u16 (if odd then SWAP_BYTES_IN_WORD sum else sum) = oc (if odd then b0 + 256 * val l' else val l').
Proof.
  intros Hb0 Hl' Ht Hr Hs Hrep Hrep' sum1 sum2.
  assert (0 <= t <= 65280) as Htb by (subst t; unw; destruct odd; lia).
  assert (0 <= val r < 256) as Hvr by (destruct Hr as [->|(b & -> & Hb)]; cbn [val]; unw; lia).
  assert (sum1 = sum + (t + val r)) as E1.
  { subst sum1. rewrite end_word; [apply u32_id; unw; lia| |done]. subst t. destruct odd; [right; by exists b0|by left]. }
  pose proof (val_nonneg l' Hl') as Hv.
  assert (reps sum1 (t + val l')) as R1.
  { rewrite E1. replace (sum + (t + val r)) with (t + (sum + val r)) by lia.
    apply reps_add; [apply reps_refl; lia|exact (reps_trans _ _ _ Hrep Hrep')]. }
  assert (sum2 = oc (t + val l')) as E2 by (apply fold_twice; [unw; lia|done]).
  rewrite E2. clear sum2 E2. destruct (oc_range (t + val l')) as [Ho1 Ho2]; [lia|]. subst t. destruct odd.
  - destruct (swap_reps _ _ Ho1 Ho2) as [S1 S2]. rewrite u16_id by (unw; lia). apply reps_oc; [|lia].
    apply (reps_trans _ _ _ S1). unw. split_and!; try lia. exists b0. lia.
  - rewrite u16_id by (unw; lia). by rewrite Z.add_0_l.
Qed.

Lemma chksum_v2_oc addr l : bytes l -> Z.of_nat (length l) < 65536 -> chksum_v2 addr l = oc (val l).
Proof.
  intros Hl Hlen. unfold chksum_v2.
  assert (forall (odd : bool) b0 l', is_u8 b0 -> bytes l' -> Z.of_nat (length l') < 65536 ->
    (let '(sum, l) := add_words l' 0 in
     let t := match l with b :: _ => Z.lor (Z.land (if odd then b0 * 256 else 0) 0xff00) b | [] => if odd then b0 * 256 else 0 end in
     let sum := u32 (sum + t) in let sum := FOLD_U32T (FOLD_U32T sum) in
     u16 (if odd then SWAP_BYTES_IN_WORD sum else sum)) = oc (if odd then b0 + 256 * val l' else val l')) as H.
  { intros odd b0 l' Hb0 Hl' Hn. pose proof (add_words_reps l' Hl' 0 0 (reps_refl 0 ltac:(lia)) ltac:(lia)) as A.
    destruct (add_words l' 0) as [sum r]. destruct A as (R & B & Cr).
    apply (chksum_end odd b0 sum _ r l' (val l')); try done; [lia|apply reps_refl; by apply val_nonneg]. }
  destruct l as [|b l]; [by destruct (Z.odd addr)|]. apply Forall_cons in Hl as [Hb Hl]. cbn [length] in Hlen.
  destruct (Z.odd addr) eqn:Eo.
  - apply (H true b l); [done|done|lia].
  - apply (H false 0 (b :: l)); [unw; lia|by constructor|cbn [length]; lia].
Qed.

Lemma add_carry_reps sum w s t : is_u32 sum -> is_u32 w -> reps sum s -> reps w t -> reps (add_carry sum w) (s + t) /\ is_u32 (add_carry sum w).
Proof.
  intros Hs Hw Hr Ht. pose proof (reps_add _ _ _ _ Hr Ht) as (A1 & A2 & [k Ak] & A3). unfold add_carry. unw.
  assert (u32 (sum + w) = sum + w \/ u32 (sum + w) = sum + w - 4294967296 /\ 4294967296 <= sum + w) as [E|[E Ho]].
  { unfold u32. Z.to_euclidean_division_equations; lia. }
  - rewrite E, bool_decide_false by lia. pose proof (u32_range (sum + w)). rewrite E in H. unw. split; [|lia]. split_and!; [lia|lia|by exists k|lia].
  - rewrite E, bool_decide_true by lia. rewrite u32_id by (unw; lia). split; [|lia].
    split_and!; try lia. exists (k - 65537). lia.
Qed.

Lemma reps_long a b c d s : is_u8 a -> is_u8 b -> is_u8 c -> is_u8 d -> 0 <= s ->
  reps (of_le4 a b c d + s) (a + 256 * (b + 256 * (c + 256 * (d + 256 * s)))) /\ is_u32 (of_le4 a b c d).
Proof.
  intros. unw. split; [|unfold of_le4; lia].
  replace (a + 256 * (b + 256 * (c + 256 * (d + 256 * s)))) with (of_le4 a b c d + 256 * (256 * (256 * (256 * s)))) by (unfold of_le4; lia).
  apply reps_add; [apply reps_refl; unfold of_le4; lia|].
  apply (reps_trans _ (256 * (256 * s))); [by apply reps_256_256|]. apply reps_256_256. lia.
Qed.

Lemma add_longs_reps n : forall l sum s, (length l < n)%nat -> bytes l -> is_u32 sum -> reps sum s ->
  let '(sum', r) := add_longs l sum in reps (sum' + val r) (s + val l) /\ is_u32 sum' /\ (length r < 8)%nat /\ bytes r.
Proof.
  induction n as [|n IH]; intros l sum s Hn Hl Hu Hr; [lia|].
  assert ((length l < 8)%nat -> add_longs l sum = (sum, l)) as Hshort.
  { intros H8. do 8 (destruct l as [|? l]; [done|]). cbn in H8. lia. }
  destruct (decide (length l < 8)%nat) as [H8|H8].
  { rewrite Hshort by done. split; [|done]. apply reps_add; [done|]. apply reps_refl. by apply val_nonneg. }
  destruct l as [|a [|b [|c [|d [|e [|f [|g [|h l]]]]]]]]; cbn in H8; try lia.
  clear Hshort. do 8 (apply Forall_cons in Hl as [? Hl]).
  cbn [add_longs length] in *. pose proof (val_nonneg l Hl) as Hv.
  destruct (reps_long e f g h (val l)) as [R2 U2]; [done..|].
  assert (0 <= val (e :: f :: g :: h :: l)) as Hv2 by (cbn [val]; unw; lia).
  destruct (reps_long a b c d (val (e :: f :: g :: h :: l))) as [R1 U1]; [done..|].
  destruct (add_carry_reps sum (of_le4 a b c d) s (of_le4 a b c d)) as [C1 V1]; [done|done|done|apply reps_refl; unw; lia|].
  destruct (add_carry_reps (add_carry sum (of_le4 a b c d)) (of_le4 e f g h) (s + of_le4 a b c d) (of_le4 e f g h)) as [C2 V2];
    [done|done|done|apply reps_refl; unw; lia|].
  specialize (IH l _ _ ltac:(lia) Hl V2 C2).
  destruct (add_longs l _) as [sum' r]. destruct IH as (R & U & Hlen & Hb). split; [|done].
  apply (reps_trans _ _ _ R). cbn [val] in *.
  replace (s + of_le4 a b c d + of_le4 e f g h + val l) with (s + (of_le4 a b c d + (of_le4 e f g h + val l))) by lia.
  apply reps_add; [apply reps_refl; destruct Hr as (_ & ? & _); lia|].
  apply (reps_trans _ (of_le4 a b c d + (e + 256 * (f + 256 * (g + 256 * (h + 256 * val l))))));
    [apply reps_add; [apply reps_refl; unw; lia|exact R2]|exact R1].
Qed.

Lemma chksum_v3_oc addr l : bytes l -> Z.of_nat (length l) < 65536 -> chksum_v3 addr l = oc (val l).
Proof.
  intros Hl Hlen. unfold chksum_v3.
  assert (forall (odd : bool) b0 ps l', is_u8 b0 -> bytes l' -> Z.of_nat (length l') < 65536 ->
    (let '(sum, l) := match l' with
       | a :: b :: l'' => if bool_decide (Z.land ps 3 <> 0) then (of_le2 a b, l'') else (0, l')
       | _ => (0, l') end in
     let '(sum, l) := add_longs l sum in
     let sum := FOLD_U32T sum in
     let '(sum, l) := add_words l sum in
     let t := match l with b :: _ => Z.lor (Z.land (if odd then b0 * 256 else 0) 0xff00) b | [] => if odd then b0 * 256 else 0 end in
     let sum := u32 (sum + t) in let sum := FOLD_U32T (FOLD_U32T sum) in
     u16 (if odd then SWAP_BYTES_IN_WORD sum else sum)) = oc (if odd then b0 + 256 * val l' else val l')) as H.
  { intros odd b0 ps l' Hb0 Hl' Hn.
    assert (exists w l1, match l' with
       | a :: b :: l'' => if bool_decide (Z.land ps 3 <> 0) then (of_le2 a b, l'') else (0, l')
       | _ => (0, l') end = (w, l1) /\ 0 <= w <= 65535 /\ bytes l1 /\ reps (w + val l1) (val l')) as (w & l1 & -> & Hw & Hl1 & R0).
    { destruct l' as [|a [|b l'']]; [eexists _, _; split; [done|]; split; [lia|]; split; [done|apply reps_refl; cbn; lia]| |].
      - eexists _, _. split; [done|]. split; [lia|]. split; [done|]. apply reps_refl. apply val_nonneg in Hl'. cbn [val] in *. lia.
      - case_bool_decide; eexists _, _; (split; [done|]).
        + apply Forall_cons in Hl' as [Ha Hl']. apply Forall_cons in Hl' as [Hb Hl']. split; [by apply le2_bounds|]. split; [done|].
          apply reps_word; try done. by apply val_nonneg.
        + split; [lia|]. split; [done|]. apply reps_refl. by apply val_nonneg. }
    pose proof (add_longs_reps _ l1 w w (Nat.lt_succ_diag_r _) Hl1 ltac:(unw; lia) (reps_refl w ltac:(lia))) as A.
    destruct (add_longs l1 w) as [sum r]. destruct A as (R1 & U1 & H8 & Hbr).
    pose proof (fold_bound sum U1) as Hfb. assert (0 <= sum) as Hs0 by (unw; lia).
    pose proof (fold_reps sum sum U1 (reps_refl sum Hs0)) as Rf.
    pose proof (add_words_reps r Hbr (FOLD_U32T sum) sum Rf ltac:(lia)) as A.
    cbv zeta. destruct (add_words r (FOLD_U32T sum)) as [sum2 r2]. destruct A as (R2 & B2 & C2).
    apply (chksum_end odd b0 sum2 _ r2 l' (sum + val r)); try done; [lia|].
    exact (reps_trans _ _ _ R1 R0). }
  destruct l as [|b l]; [destruct (Z.odd addr); apply (H false 0 addr []); try done; unw; lia|].
  apply Forall_cons in Hl as [Hb Hl]. cbn [length] in Hlen. destruct (Z.odd addr) eqn:Eo.
  - apply (H true b (addr + 1) l); [done|done|lia].
  - apply (H false 0 addr (b :: l)); [unw; lia|by constructor|cbn [length]; lia].
Qed.

(** *** Chains *)

Lemma reps_sym x s : reps x s -> reps s x.
Proof. intros (A & B & [k Hk] & D). split_and!; [done|done|exists (- k); lia|tauto]. Qed.

Lemma reps_scale x s : reps x s -> reps (256 * x) (256 * s).
Proof. intros (A & B & [k Hk] & D). split_and!; [lia|lia|exists (256 * k); lia|lia]. Qed.

Definition odd_len (l : list Z) : bool := bool_decide (Z.of_nat (length l) mod 2 <> 0).
(** What the bytes after [l] count. *)
Definition pw (l : list Z) : Z := if odd_len l then 256 else 1.

Lemma odd_len_cons2 a b l : odd_len (a :: b :: l) = odd_len l.
Proof. unfold odd_len. apply bool_decide_ext. cbn [length]. Z.to_euclidean_division_equations; lia. Qed.

Lemma odd_len_app l1 l2 : odd_len (l1 ++ l2) = xorb (odd_len l1) (odd_len l2).
Proof.
  induction l1 as [|a|a b l1 IH] using pair_ind; cbn [app].
  - done.
  - change (odd_len [a]) with true. unfold odd_len. cbn [length]. destruct (bool_decide (Z.of_nat (length l2) mod 2 <> 0)) eqn:E; cbn [xorb].
    + apply bool_decide_eq_true in E. apply bool_decide_eq_false. Z.to_euclidean_division_equations; lia.
    + apply bool_decide_eq_false in E. apply bool_decide_eq_true. Z.to_euclidean_division_equations; lia.
  - by rewrite !odd_len_cons2.
Qed.

Lemma val_app l1 l2 : bytes l1 -> bytes l2 -> reps (val l1 + pw l1 * val l2) (val (l1 ++ l2)).
Proof.
  intros H1 H2. pose proof (val_nonneg l2 H2) as Hv2. induction l1 as [|a|a b l1 IH] using pair_ind; cbn [app val].
  - change (pw []) with 1. rewrite Z.mul_1_l, Z.add_0_l. by apply reps_refl.
  - change (pw [a]) with 256. apply Forall_cons in H1 as [Ha _]. rewrite Z.mul_0_r, Z.add_0_r. apply reps_refl. unw. lia.
  - apply Forall_cons in H1 as [Ha H1]. apply Forall_cons in H1 as [Hb H1].
    assert (pw (a :: b :: l1) = pw l1) as -> by (unfold pw; by rewrite odd_len_cons2).
    specialize (IH H1). pose proof (val_nonneg l1 H1). set (k := pw l1) in *.
    assert (0 <= k) by (unfold k, pw; destruct (odd_len l1); lia). clearbody k.
    apply (reps_trans _ (a + 256 * (b + 256 * (val l1 + k * val l2)))).
    + replace (a + 256 * (b + 256 * val l1) + k * val l2) with (a + 256 * b + (256 * (256 * val l1) + k * val l2)) by lia.
      replace (a + 256 * (b + 256 * (val l1 + k * val l2))) with (a + 256 * b + (256 * (256 * val l1) + 256 * (256 * (k * val l2)))) by lia.
      apply reps_add; [apply reps_refl; unw; lia|]. apply reps_add; [apply reps_refl; lia|]. apply reps_256_256. nia.
    + replace (a + 256 * (b + 256 * (val l1 + k * val l2))) with (a + 256 * b + 256 * (256 * (val l1 + k * val l2))) by lia.
      replace (a + 256 * (b + 256 * val (l1 ++ l2))) with (a + 256 * b + 256 * (256 * val (l1 ++ l2))) by lia.
      apply reps_add; [apply reps_refl; unw; lia|]. by apply reps_scale, reps_scale.
Qed.

(** One buffer [q] after the bytes [pre]. *)
Lemma chain_step pre q acc : bytes pre -> bytes q -> Z.of_nat (length q) < 65536 ->
  0 <= acc < 65536 -> reps acc (pw pre * val pre) ->
  let acc1 := FOLD_U32T (u32 (acc + lwip_standard_chksum q)) in
  0 <= acc1 < 65536 /\ reps acc1 (pw pre * val (pre ++ q)).
Proof.
  intros Hp Hq Hlen Ha Hr acc1. subst acc1. rewrite chksum_v1_oc by done.
  pose proof (val_nonneg q Hq) as Hvq. pose proof (val_nonneg pre Hp) as Hvp.
  destruct (oc_range (val q) Hvq) as [O1 O2].
  rewrite u32_id by (unw; lia). split; [apply fold_bound2; lia|].
  apply fold_reps; [unw; lia|]. pose proof (val_app pre q Hp Hq) as Hv.
  apply (reps_trans _ (pw pre * val pre + val q)); [by apply reps_add|].
  unfold pw in *. destruct (odd_len pre).
  - apply (reps_trans _ (256 * (val pre + 256 * val q))); [|by apply reps_scale].
    rewrite Z.mul_add_distr_l. apply reps_add; [apply reps_refl; lia|by apply reps_256_256].
  - rewrite !Z.mul_1_l in *. exact Hv.
Qed.

(** The swap after an odd buffer, and the one at the end. *)
Lemma chain_swap pre acc : 0 <= acc < 65536 -> bytes pre -> reps acc (pw pre * val pre) ->
  0 <= SWAP_BYTES_IN_WORD acc < 65536 /\ reps (SWAP_BYTES_IN_WORD acc) ((if odd_len pre then 1 else 256) * val pre).
Proof.
  intros Ha Hp Hr. destruct (swap_reps acc _ Ha Hr) as [S1 S2]. split; [done|].
  pose proof (val_nonneg pre Hp). unfold pw in *. destruct (odd_len pre).
  - rewrite Z.mul_1_l. apply (reps_trans _ _ _ S1). apply reps_sym. by apply reps_256_256.
  - by rewrite Z.mul_1_l in S1.
Qed.

Definition swap_if (swapped acc : Z) : Z := if bool_decide (swapped <> 0) then SWAP_BYTES_IN_WORD acc else acc.

(** The state of the loop after the bytes [pre]. *)
Definition chain_state (pre : list Z) (acc swapped : Z) : Prop :=
  0 <= acc < 65536 /\ reps acc (pw pre * val pre) /\ swapped = if odd_len pre then 1 else 0.

Lemma chain_state_end pre acc swapped : bytes pre -> chain_state pre acc swapped -> swap_if swapped acc = oc (val pre).
Proof.
  intros Hp (Ha & Hr & ->). unfold swap_if. destruct (odd_len pre) eqn:Eo.
  - rewrite bool_decide_true by done. destruct (chain_swap pre acc Ha Hp Hr) as [S1 S2]. rewrite Eo, Z.mul_1_l in S2. apply reps_oc; [done|lia].
  - rewrite bool_decide_false by (intros X; by apply X). unfold pw in Hr. rewrite Eo, Z.mul_1_l in Hr. apply reps_oc; [done|lia].
Qed.

Lemma chain_next pre q acc swapped : bytes pre -> bytes q -> Z.of_nat (length q) < 65536 ->
  chain_state pre acc swapped ->
  let acc1 := FOLD_U32T (u32 (acc + lwip_standard_chksum q)) in
  if bool_decide (Z.of_nat (length q) mod 2 <> 0)
  then chain_state (pre ++ q) (SWAP_BYTES_IN_WORD acc1) (1 - swapped)
  else chain_state (pre ++ q) acc1 swapped.
Proof.
  intros Hp Hq Hlen (Ha & Hr & ->) acc1. destruct (chain_step pre q acc Hp Hq Hlen Ha Hr) as [B1 B2].
  fold acc1 in B1, B2. change (bool_decide (Z.of_nat (length q) mod 2 <> 0)) with (odd_len q).
  pose proof (odd_len_app pre q) as Ho. assert (bytes (pre ++ q)) as Hpq by (by apply Forall_app).
  destruct (odd_len q) eqn:Eq.
  - rewrite xorb_true_r in Ho. destruct (swap_reps acc1 _ B1 B2) as [S1 S2]. split; [done|]. unfold pw in *. rewrite Ho.
    pose proof (val_nonneg _ Hpq). destruct (odd_len pre); cbn [negb] in *.
    + split; [|done]. rewrite Z.mul_1_l. apply (reps_trans _ _ _ S1). apply reps_sym. by apply reps_256_256.
    + split; [|done]. by rewrite Z.mul_1_l in S1.
  - rewrite xorb_false_r in Ho. unfold chain_state, pw in *. rewrite Ho. done.
Qed.

Definition packet_ok (p : list (list Z)) : Prop := Forall (fun q => bytes q /\ Z.of_nat (length q) < 65536) p.

Lemma packet_bytes_ok p : packet_ok p -> bytes (concat p).
Proof. induction 1 as [|q p [Hq _] _ IH]; cbn [concat]; [constructor|by apply Forall_app]. Qed.

Lemma chain_loop_spec p : packet_ok p -> forall pre acc swapped, bytes pre -> chain_state pre acc swapped ->
  let '(acc', swapped') := chain_loop p acc swapped in chain_state (pre ++ concat p) acc' swapped'.
Proof.
  induction 1 as [|q p [Hq Hl] _ IH]; intros pre acc swapped Hp Hs; cbn [chain_loop concat]; [by rewrite app_nil_r|].
  pose proof (chain_next pre q acc swapped Hp Hq Hl Hs) as Hn. cbv zeta in *. rewrite app_assoc.
  destruct (bool_decide _); apply IH; try done; by apply Forall_app.
Qed.

Lemma chain_state_nil : chain_state [] 0 0.
Proof. split; [lia|]. split; [|done]. apply reps_refl. done. Qed.

Lemma chain_sum_spec p : packet_ok p -> chain_sum p = oc (val (concat p)).
Proof.
  intros Hp. unfold chain_sum. pose proof (chain_loop_spec p Hp [] 0 0 (Forall_nil_2 _) chain_state_nil) as H.
  destruct (chain_loop p 0 0) as [acc sw]. apply (chain_state_end _ _ _ (packet_bytes_ok p Hp) H).
Qed.

(** A buffer of which only a part counts is the last one: the two swaps depend
    on the parity of the whole buffer, and cancel out. *)
Lemma chain_last pre d acc (o : bool) : bytes pre -> bytes d -> Z.of_nat (length d) < 65536 ->
  chain_state pre acc (if odd_len pre then 1 else 0) ->
  let acc1 := FOLD_U32T (u32 (acc + lwip_standard_chksum d)) in
  (if o then swap_if (1 - (if odd_len pre then 1 else 0)) (SWAP_BYTES_IN_WORD acc1)
   else swap_if (if odd_len pre then 1 else 0) acc1) = oc (val (pre ++ d)).
Proof.
  intros Hp Hd Hl (Ha & Hr & _) acc1. destruct (chain_step pre d acc Hp Hd Hl Ha Hr) as [B1 B2]. fold acc1 in B1, B2.
  assert (bytes (pre ++ d)) as Hpd by (by apply Forall_app). pose proof (val_nonneg _ Hpd) as Hv.
  destruct (swap_reps acc1 _ B1 B2) as [S1 S2]. destruct (swap_reps _ _ S2 S1) as [T1 T2].
  set (v := val (pre ++ d)) in *. unfold swap_if, pw in *. destruct o, (odd_len pre); cbn [Z.sub Z.opp Z.add].
  - rewrite bool_decide_false by (intros X; by apply X). apply reps_oc; [|lia]. apply (reps_trans _ _ _ S1), reps_sym. by apply reps_256_256.
  - rewrite bool_decide_true by done. apply reps_oc; [|lia]. rewrite Z.mul_1_l in T1. apply (reps_trans _ _ _ T1), reps_sym. by apply reps_256_256.
  - rewrite bool_decide_true by done. apply reps_oc; [|lia]. apply (reps_trans _ _ _ S1), reps_sym. by apply reps_256_256.
  - rewrite bool_decide_false by (intros X; by apply X). rewrite Z.mul_1_l in B2. apply reps_oc; [done|lia].
Qed.

Lemma chain_partial_stop p acc swapped : chain_loop_partial p 0 acc swapped = Ret (acc, swapped).
Proof. by destruct p. Qed.

Lemma chain_partial_spec p : packet_ok p -> forall pre n acc swapped, 0 <= n < 0x7fff -> bytes pre -> chain_state pre acc swapped ->
  exists acc' swapped', chain_loop_partial p n acc swapped = Ret (acc', swapped') /\
  swap_if swapped' acc' = oc (val (pre ++ take (Z.to_nat n) (concat p))).
Proof.
  induction 1 as [|q p [Hq Hl] Hpk IH]; intros pre n acc swapped Hn Hp Hs; cbn [chain_loop_partial concat].
  { rewrite take_nil, app_nil_r. do 2 eexists. split; [done|]. by apply chain_state_end. }
  case_bool_decide as H0.
  2: { assert (n = 0) as -> by lia. rewrite take_0, app_nil_r. do 2 eexists. split; [done|]. by apply chain_state_end. }
  cbv zeta. destruct (decide (Z.of_nat (length q) > n)) as [Hc|Hc]; [rewrite !(bool_decide_true (_ > n)) by done|rewrite !(bool_decide_false (_ > n)) by done].
  - rewrite Z.sub_diag. change (LWIP_ASSERT (bool_decide (u16 0 < 32767))) with (Ret ()). change (u16 0) with 0. cbn [mbind outcome_bind].
    rewrite !chain_partial_stop. pose proof Hs as (_ & _ & ->).
    rewrite take_app_le by lia.
    pose proof (chain_last pre (take (Z.to_nat n) q) acc (bool_decide (Z.of_nat (length q) mod 2 <> 0)) Hp (Forall_take _ _ _ Hq)) as L.
    rewrite length_take in L. specialize (L ltac:(lia) Hs). cbv zeta in L. destruct (bool_decide (Z.of_nat (length q) mod 2 <> 0)); by do 2 eexists.
  - rewrite Nat2Z.id, (take_ge q) by lia. rewrite take_app_ge by lia. rewrite app_assoc.
    replace (Z.to_nat n - length q)%nat with (Z.to_nat (n - Z.of_nat (length q))) by lia. rewrite u16_id by (unw; lia).
    rewrite (bool_decide_true (n - Z.of_nat (length q) < _)) by lia. cbn [LWIP_ASSERT mbind outcome_bind].
    pose proof (chain_next pre q acc swapped Hp Hq Hl Hs) as Hx. cbv zeta in Hx.
    destruct (bool_decide (Z.of_nat (length q) mod 2 <> 0)); apply IH; try done; try lia; by apply Forall_app.
Qed.

(** The pseudo header of RFC 768 and RFC 793. *)
Definition pseudo_header (src dest proto proto_len : Z) : list Z :=
  le4 src ++ le4 dest ++ [0; proto] ++ [proto_len / 256; proto_len mod 256].

Lemma u16_not_eq x : 0 <= x < 65536 -> u16_not x = 65535 - x.
Proof. intros Hx. unfold u16_not, u16, Z.lnot. Z.to_euclidean_division_equations; lia. Qed.

Lemma le4_words v : is_u32 v -> Z.land v 0xffff = of_le2 (v mod 256) (v / 256 mod 256) /\
  Z.land (Z.shiftr v 16) 0xffff = of_le2 (v / 65536 mod 256) (v / 16777216 mod 256).
Proof.
  intros Hv. change 0xffff with (Z.ones 16). rewrite !Z.land_ones, Z.shiftr_div_pow2 by lia. change (2 ^ 16) with 65536.
  unfold of_le2. unw. split; Z.to_euclidean_division_equations; lia.
Qed.

Lemma add_pseudo_spec acc l src dest proto proto_len : bytes l -> acc = oc (val l) ->
  is_u32 src -> is_u32 dest -> is_u8 proto -> is_u16 proto_len ->
  add_pseudo acc src dest proto proto_len = 65535 - oc (val (pseudo_header src dest proto proto_len ++ l)).
Proof.
  intros Hl -> Hs Hd Hpr Hpl. pose proof (val_nonneg l Hl) as Hv. destruct (oc_range (val l) Hv) as [O1 O2].
  unfold add_pseudo. destruct (le4_words src Hs) as [-> ->]. destruct (le4_words dest Hd) as [-> ->]. rewrite !htons_eq.
  unfold pseudo_header, le4. cbn [app].
  assert (is_u8 (src mod 256) /\ is_u8 (src / 256 mod 256) /\ is_u8 (src / 65536 mod 256) /\ is_u8 (src / 16777216 mod 256)) as (S1 & S2 & S3 & S4)
    by (split_and!; apply u8_range).
  assert (is_u8 (dest mod 256) /\ is_u8 (dest / 256 mod 256) /\ is_u8 (dest / 65536 mod 256) /\ is_u8 (dest / 16777216 mod 256)) as (D1 & D2 & D3 & D4)
    by (split_and!; apply u8_range).
  set (s1 := src mod 256) in *. set (s2 := src / 256 mod 256) in *. set (s3 := src / 65536 mod 256) in *. set (s4 := src / 16777216 mod 256) in *.
  set (d1 := dest mod 256) in *. set (d2 := dest / 256 mod 256) in *. set (d3 := dest / 65536 mod 256) in *. set (d4 := dest / 16777216 mod 256) in *.
  clearbody s1 s2 s3 s4 d1 d2 d3 d4.
  rewrite (Z.mod_small proto), (Z.div_small proto), Z.mod_0_l, Z.add_0_r by (unw; lia).
  rewrite (Z.mod_small (proto_len / 256)) by (unw; Z.to_euclidean_division_equations; lia).
  assert (is_u8 (proto_len / 256) /\ is_u8 (proto_len mod 256)) as [P1 P2] by (unw; Z.to_euclidean_division_equations; lia).
  set (h := proto_len / 256) in *. set (m := proto_len mod 256) in *. clearbody h m.
  unfold of_le2. unw.
  rewrite (u32_id (oc (val l) + (s1 + 256 * s2))) by (unw; lia).
  rewrite (u32_id (oc (val l) + (s1 + 256 * s2) + (s3 + 256 * s4))) by (unw; lia).
  rewrite (u32_id (oc (val l) + (s1 + 256 * s2) + (s3 + 256 * s4) + (d1 + 256 * d2))) by (unw; lia).
  rewrite (u32_id (oc (val l) + (s1 + 256 * s2) + (s3 + 256 * s4) + (d1 + 256 * d2) + (d3 + 256 * d4))) by (unw; lia).
  rewrite (u32_id (oc (val l) + (s1 + 256 * s2) + (s3 + 256 * s4) + (d1 + 256 * d2) + (d3 + 256 * d4) + proto * 256)) by (unw; lia).
  rewrite (u32_id (oc (val l) + (s1 + 256 * s2) + (s3 + 256 * s4) + (d1 + 256 * d2) + (d3 + 256 * d4) + proto * 256 + (m * 256 + h))) by (unw; lia).
  assert (reps (oc (val l) + (s1 + 256 * s2) + (s3 + 256 * s4) + (d1 + 256 * d2) + (d3 + 256 * d4) + proto * 256 + (m * 256 + h))
    (val (s1 :: s2 :: s3 :: s4 :: d1 :: d2 :: d3 :: d4 :: 0 :: proto :: h :: m :: l))) as Hr.
  { destruct O2 as (A & B & [k Hk] & D). cbn [val]. split_and!; [lia|lia| |lia].
    set (v := val l) in *. clearbody v.
    exists (k - (s3 + 256 * s4) - (d1 + 256 * d2) * 65537 - (d3 + 256 * d4) * (65536 * 65536 + 65537)
      - (proto * 256) * (65536 * 65536 * 65536 + 65536 * 65536 + 65537)
      - (h + 256 * m) * (65536 * 65536 * 65536 * 65536 + 65536 * 65536 * 65536 + 65536 * 65536 + 65537)
      - v * (65536 * 65536 * 65536 * 65536 * 65536 + 65536 * 65536 * 65536 * 65536 + 65536 * 65536 * 65536 + 65536 * 65536 + 65537)).
    lia. }
  erewrite fold_twice; [|unw; lia|exact Hr].
  destruct (oc_range (val (s1 :: s2 :: s3 :: s4 :: d1 :: d2 :: d3 :: d4 :: 0 :: proto :: h :: m :: l))) as [Q1 _]; [apply Hr|].
  change 0xffff with (Z.ones 16). rewrite Z.land_ones by lia. change (2 ^ 16) with 65536. rewrite Z.mod_small by lia.
  by apply u16_not_eq.
Qed.

(** ** The checksum in a header *)

Definition even_len (l : list Z) : Prop := odd_len l = false.

Lemma val_word w : is_u16 w -> val (le2 w) = w.
Proof. intros Hw. cbn [le2 val]. unw. Z.to_euclidean_division_equations; lia. Qed.

(** A word at an even place. *)
Lemma val_at pre w post : bytes pre -> bytes post -> even_len pre -> is_u16 w ->
  reps (val pre + w + val post) (val (pre ++ le2 w ++ post)).
Proof.
  intros Hp Hq He Hw. assert (bytes (le2 w ++ post)) as Hwq by (by apply Forall_app_2; [apply le2_bytes|]).
  pose proof (val_app pre (le2 w ++ post) Hp Hwq) as H1. pose proof (val_app (le2 w) post (le2_bytes w) Hq) as H2.
  unfold pw, even_len in *. rewrite He in H1. change (odd_len (le2 w)) with false in H2. rewrite val_word in H2 by done.
  rewrite Z.mul_1_l in *. apply (reps_trans _ (val pre + val (le2 w ++ post))); [|done].
  rewrite <-Z.add_assoc. apply reps_add; [apply reps_refl; by apply val_nonneg|done].
Qed.

Lemma oc_complement s c : 0 <= s -> c = 65535 - oc s \/ c = 65535 /\ oc s = 65535 -> oc (s + c) = 65535.
Proof. intros Hs Hc. unfold oc in *. repeat case_bool_decide; Z.to_euclidean_division_equations; lia. Qed.

Lemma oc_inj a w v : 0 <= a -> is_u16 w -> is_u16 v -> oc (a + w) = oc (a + v) -> w = v \/ w = 0 /\ v = 65535 \/ w = 65535 /\ v = 0.
Proof. intros Ha Hw Hv. unw. unfold oc. repeat case_bool_decide; intros; Z.to_euclidean_division_equations; lia. Qed.

Lemma inet_chksum_oc l : bytes l -> Z.of_nat (length l) < 65536 -> inet_chksum l = 65535 - oc (val l).
Proof.
  intros Hl Hn. unfold inet_chksum. rewrite chksum_v1_oc by done. apply u16_not_eq.
  by apply oc_range, val_nonneg.
Qed.

Lemma inet_chksum_at pre w post : bytes pre -> bytes post -> even_len pre -> is_u16 w ->
  Z.of_nat (length (pre ++ le2 w ++ post)) < 65536 ->
  inet_chksum (pre ++ le2 w ++ post) = 65535 - oc (val pre + w + val post).
Proof.
  intros Hp Hq He Hw Hn. rewrite inet_chksum_oc; [|repeat apply Forall_app_2; done || apply le2_bytes|done].
  f_equal. symmetry. apply oc_reps. by apply val_at.
Qed.

Lemma pseudo_bytes src dest proto n : is_u8 proto -> is_u16 n -> bytes (pseudo_header src dest proto n) /\ odd_len (pseudo_header src dest proto n) = false.
Proof.
  intros Hp Hn. split; [|done]. unfold pseudo_header. repeat apply Forall_app_2; try apply le4_bytes; repeat constructor; try done; unw; try lia;
    Z.to_euclidean_division_equations; lia.
Qed.

Lemma inet_chksum_pseudo_oc p src dest proto n : packet_ok p ->
  is_u32 src -> is_u32 dest -> is_u8 proto -> is_u16 n ->
  inet_chksum_pseudo p src dest proto n = 65535 - oc (val (pseudo_header src dest proto n ++ concat p)).
Proof.
  intros Hp Hs Hd Hpr Hn. unfold inet_chksum_pseudo. apply add_pseudo_spec; try done; [by apply packet_bytes_ok|by apply chain_sum_spec].
Qed.

(** C29: The three routines the network stack offers for the sum over a block
    of memory - bytes in network order, words from an aligned address, eight
    bytes at a time - give the same for every block and every address: the
    ones' complement sum. *)
Theorem checksum_versions (addr : Z) (l : list Z) :
  bytes l -> Z.of_nat (length l) < 65536 ->
  chksum_v2 addr l = lwip_standard_chksum l /\ chksum_v3 addr l = lwip_standard_chksum l /\
  lwip_standard_chksum l = oc (val l).
Proof.
  intros Hl Hn. rewrite chksum_v1_oc by done. split; [by apply chksum_v2_oc|]. split; [by apply chksum_v3_oc|done].
Qed.

Lemma checksum_versions_witness : chksum_v3 0x20000001 [1; 2; 3; 4; 5; 6; 7; 8; 9; 10; 11; 12; 255] = lwip_standard_chksum [1; 2; 3; 4; 5; 6; 7; 8; 9; 10; 11; 12; 255].
Proof.
  apply (checksum_versions 0x20000001 [1; 2; 3; 4; 5; 6; 7; 8; 9; 10; 11; 12; 255]); [by apply (bool_decide_unpack _)|done].
Defined.

(** The checksum of a packet with its pseudo header does not depend on
    the buffers the packet lies in, of whatever sizes, odd ones included: it is
    the complement of the ones' complement sum of the pseudo header and the
    bytes of the packet one after another; the partial one that of the first
    [n] bytes, fewer than 0x7fff. *)
Theorem checksum_chain (p : list (list Z)) (src dest proto len n : Z) :
  packet_ok p -> is_u32 src -> is_u32 dest -> is_u8 proto -> is_u16 len -> 0 <= n < 0x7fff ->
  inet_chksum_pseudo p src dest proto len = 65535 - oc (val (pseudo_header src dest proto len ++ concat p)) /\
  inet_chksum_pseudo_partial p src dest proto len n =
    Ret (65535 - oc (val (pseudo_header src dest proto len ++ take (Z.to_nat n) (concat p)))) /\
  inet_chksum_pbuf p = 65535 - oc (val (concat p)).
Proof.
  intros Hp Hs Hd Hpr Hl Hn. split; [by apply inet_chksum_pseudo_oc|]. pose proof (packet_bytes_ok p Hp) as Hb. split.
  - unfold inet_chksum_pseudo_partial.
    destruct (chain_partial_spec p Hp [] n 0 0 Hn (Forall_nil_2 _) chain_state_nil) as (acc & sw & -> & H).
    cbn [mbind outcome_bind]. f_equal. apply add_pseudo_spec; try done. by apply Forall_take.
  - unfold inet_chksum_pbuf. rewrite chain_sum_spec by done. pose proof (oc_range _ (val_nonneg _ Hb)) as [Ho _].
    change 0xffff with (Z.ones 16). rewrite Z.land_ones by lia. change (2 ^ 16) with 65536. rewrite Z.mod_small by lia.
    by apply u16_not_eq.
Qed.

Lemma checksum_chain_witness :
  inet_chksum_pseudo [[1; 2; 3]; [4]; []; [5; 6; 7]] 0x0100A8C0 0x0200A8C0 17 7 =
  inet_chksum_pseudo [[1; 2; 3; 4; 5; 6; 7]] 0x0100A8C0 0x0200A8C0 17 7.
Proof.
  destruct (checksum_chain [[1; 2; 3]; [4]; []; [5; 6; 7]] 0x0100A8C0 0x0200A8C0 17 7 0) as (-> & _);
    [by repeat constructor|unw; lia|unw; lia|unw; lia|unw; lia|lia|].
  destruct (checksum_chain [[1; 2; 3; 4; 5; 6; 7]] 0x0100A8C0 0x0200A8C0 17 7 0) as (-> & _);
    [by repeat constructor|unw; lia|unw; lia|unw; lia|unw; lia|lia|]. reflexivity.
Defined.

(** A checksum over a packet with its pseudo header, stored in its field. *)
Lemma pseudo_verifies pre post p p' src dest proto len cp : bytes pre -> bytes post -> even_len pre ->
  is_u32 src -> is_u32 dest -> is_u8 proto -> is_u16 len -> packet_ok p -> packet_ok p' ->
  cp = inet_chksum_pseudo p src dest proto len ->
  concat p = pre ++ le2 0 ++ post -> concat p' = pre ++ le2 (if bool_decide (cp = 0) then 0xffff else cp) ++ post ->
  inet_chksum_pseudo p' src dest proto len = 0.
Proof.
  intros Hp Hq He Hs Hd Hpr Hl Hpk Hpk' Ecp E E'. destruct (pseudo_bytes src dest proto len Hpr Hl) as [Bh Oh].
  pose proof (val_nonneg post Hq) as Vq. set (h := pseudo_header src dest proto len) in *.
  assert (bytes (h ++ pre) /\ even_len (h ++ pre)) as [Bhp Ehp]
    by (split; [by apply Forall_app|unfold even_len in *; by rewrite odd_len_app, Oh, He]).
  pose proof (val_nonneg _ Bhp) as Vhp.
  assert (forall x q, is_u16 x -> packet_ok q -> concat q = pre ++ le2 x ++ post ->
    inet_chksum_pseudo q src dest proto len = 65535 - oc (val (h ++ pre) + val post + x)) as Hgen.
  { intros x q Hx Hok Eq. rewrite inet_chksum_pseudo_oc by done. fold h. rewrite Eq, app_assoc. f_equal. symmetry.
    replace (val (h ++ pre) + val post + x) with (val (h ++ pre) + x + val post) by lia. apply oc_reps. by apply val_at. }
  assert (cp = 65535 - oc (val (h ++ pre) + val post)) as Hcp by (rewrite Ecp, (Hgen 0 p) by (done || unw; lia); by rewrite Z.add_0_r).
  assert (0 <= oc (val (h ++ pre) + val post) < 65536) as Hoc' by (apply oc_range; lia).
  erewrite Hgen; [|..|exact E']; [|case_bool_decide; unw; lia|done].
  rewrite oc_complement; [lia|lia|]. case_bool_decide; [right; lia|by left].
Qed.

(** C30: The checksum in a header.  It is computed with its field zero and
    stored there; the check of the receiver, the checksum of the whole, is then
    zero - for a header in memory and for a packet with its pseudo header,
    however it is split into buffers, also when a computed 0 is sent as 0xffff.
    Two headers with the same checksum that differ in one word differ by 0
    and 0xffff there: any other change of one word is detected. *)
Theorem checksum_verifies (pre post : list Z) (p p' : list (list Z)) (src dest proto len w v : Z) :
  bytes pre -> bytes post -> even_len pre -> Z.of_nat (length (pre ++ le2 0 ++ post)) < 65536 ->
  is_u32 src -> is_u32 dest -> is_u8 proto -> is_u16 len -> is_u16 w -> is_u16 v -> packet_ok p -> packet_ok p' ->
  let c := inet_chksum (pre ++ le2 0 ++ post) in
  let cp := inet_chksum_pseudo p src dest proto len in
  inet_chksum (pre ++ le2 c ++ post) = 0 /\
  (concat p = pre ++ le2 0 ++ post -> concat p' = pre ++ le2 (if bool_decide (cp = 0) then 0xffff else cp) ++ post ->
   inet_chksum_pseudo p' src dest proto len = 0) /\
  (inet_chksum (pre ++ le2 w ++ post) = inet_chksum (pre ++ le2 v ++ post) ->
   w = v \/ w = 0 /\ v = 65535 \/ w = 65535 /\ v = 0).
Proof.
  intros Hp Hq He Hn Hs Hd Hpr Hl Hw Hv Hpk Hpk' c cp.
  assert (forall x, length (pre ++ le2 x ++ post) = length (pre ++ le2 0 ++ post)) as Hlen by (intros x; by rewrite !length_app).
  pose proof (val_nonneg pre Hp) as Vp. pose proof (val_nonneg post Hq) as Vq.
  assert (c = 65535 - oc (val pre + val post)) as Hc by (subst c; rewrite inet_chksum_at by (done || unw; lia); by rewrite Z.add_0_r).
  assert (0 <= oc (val pre + val post) < 65536) as Hoc by (apply oc_range; lia).
  split; [|split].
  - rewrite inet_chksum_at by (rewrite ?Hlen; done || unw; lia).
    replace (val pre + c + val post) with (val pre + val post + c) by lia. rewrite oc_complement by (lia || by left). lia.
  - intros E E'. by apply (pseudo_verifies pre post p p' src dest proto len cp).
  - rewrite !inet_chksum_at by (rewrite ?Hlen; done). intros Eq. apply (oc_inj (val pre + val post)); [lia|done|done|].
    replace (val pre + val post + w) with (val pre + w + val post) by lia.
    replace (val pre + val post + v) with (val pre + v + val post) by lia. lia.
Qed.

Lemma checksum_verifies_witness :
  inet_chksum ([0x45; 0; 0; 0x54; 0; 0; 0x40; 0; 0x40; 1] ++ le2 0x4DB7 ++ [192; 168; 1; 9; 192; 168; 1; 2]) = 0 /\
  inet_chksum [0x45; 0; 0; 0x54; 0; 0; 0x40; 0; 0x40; 1; 0; 0; 192; 168; 1; 9; 192; 168; 1; 2] = 0x4DB7.
Proof.
  split; [|reflexivity].
  destruct (checksum_verifies [0x45; 0; 0; 0x54; 0; 0; 0x40; 0; 0x40; 1] [192; 168; 1; 9; 192; 168; 1; 2] [] [] 0 0 0 0 0 0) as [H _];
    [by apply (bool_decide_unpack _)|by apply (bool_decide_unpack _)|done|done|unw; lia|unw; lia|unw; lia|unw; lia|unw; lia|unw; lia|constructor|constructor|].
  exact H.
Defined.
