(* ===== verification/IpAddr.v ===== *)
(** * IP addresses ([src/lwip/src/core/ipv4/ip_addr.c])

    The test for a broadcast address, the check of a network mask, and the
    conversions between addresses and text.  An address is the [u32_t] in
    network order, as the controller has it. *)

From S2P Require Import Prelude LwipDef Putx.

Definition IPADDR_ANY : Z := 0.
Definition IPADDR_NONE : Z := 0xffffffff.
Definition IPADDR_BROADCAST : Z := 0xffffffff.
Definition NETIF_FLAG_BROADCAST : Z := 0x02.

(** [struct netif], as configured.  A function pointer is the number of the
    function; the list of the interfaces is kept beside it. *)
Record netif := mkNetif {
  nf_ip_addr : Z; nf_netmask : Z; nf_gw : Z;
  nf_input : Z; nf_output : Z; nf_linkoutput : Z;
  nf_state : Z;
  nf_hostname : list Z;
  nf_mtu : Z;               (* u16_t *)
  nf_hwaddr_len : Z;        (* u8_t *)
  nf_hwaddr : list Z;       (* u8_t [6] *)
  nf_flags : Z;             (* u8_t *)
  nf_name : list Z;         (* char [2] *)
  nf_num : Z;               (* u8_t *)
}.

Definition u32_not (z : Z) : Z := u32 (Z.lnot z).

Definition ip_addr_netcmp (addr1 addr2 mask : Z) : bool := bool_decide (Z.land addr1 mask = Z.land addr2 mask).
Definition ip_addr_cmp (addr1 addr2 : Z) : bool := bool_decide (addr1 = addr2).
Definition ip_addr_isany (addr : Z) : bool := bool_decide (addr = IPADDR_ANY).
Definition PP_HTONL (x : Z) : Z := lwip_htonl x.
Definition ip_addr_ismulticast (addr : Z) : bool := bool_decide (Z.land addr (PP_HTONL 0xf0000000) = PP_HTONL 0xe0000000).
Definition ip_addr_islinklocal (addr : Z) : bool := bool_decide (Z.land addr (PP_HTONL 0xffff0000) = PP_HTONL 0xa9fe0000).

Definition ip4_addr_isbroadcast (addr : Z) (n : netif) : Z :=
  if bool_decide (u32_not addr = IPADDR_ANY) || bool_decide (addr = IPADDR_ANY) then 1
  else if bool_decide (Z.land (nf_flags n) NETIF_FLAG_BROADCAST = 0) then 0
  else if bool_decide (addr = nf_ip_addr n) then 0
  else if ip_addr_netcmp addr (nf_ip_addr n) (nf_netmask n) &&
          bool_decide (Z.land addr (u32_not (nf_netmask n)) = Z.land IPADDR_BROADCAST (u32_not (nf_netmask n)))
  then 1 else 0.

(** The two loops over the bits; [mask] is [2^i], from bit 31 down. *)
Fixpoint first_zero (i : nat) (n : Z) : nat :=
  match i with
  | O => O
  | S j => if bool_decide (Z.land n (2 ^ Z.of_nat j) = 0) then i else first_zero j n
  end.

Fixpoint no_one (i : nat) (n : Z) : Z :=
  match i with
  | O => 1
  | S j => if bool_decide (Z.land n (2 ^ Z.of_nat j) <> 0) then 0 else no_one j n
  end.

Definition ip4_addr_netmask_valid (netmask : Z) : Z :=
  let n := lwip_htonl netmask in no_one (first_zero 32 n) n.

(** ** From text *)

Definition isdigit (c : Z) : bool := bool_decide (48 <= c <= 57).
Definition isxdigit (c : Z) : bool := isdigit c || bool_decide (97 <= c <= 102) || bool_decide (65 <= c <= 70).
Definition islower (c : Z) : bool := bool_decide (97 <= c <= 122).
Definition isspace (c : Z) : bool := bool_decide (c ∈ [32; 12; 10; 13; 9; 11]).

(** The digits of one part: its value and what follows. *)
Fixpoint collect (base val : Z) (cp : list Z) : outcome (Z * list Z) :=
  match cp with
  | [] => Fault
  | c :: cp' =>
      if isdigit c then collect base (u32 (val * base + (c - 48))) cp'
      else if bool_decide (base = 16) && isxdigit c
      then collect base (Z.lor (u32 (Z.shiftl val 4)) (c + 10 - (if islower c then 97 else 65))) cp'
      else Ret (val, cp)
  end.

(** One part; [None]: no digit. *)
Definition one_part (cp : list Z) : outcome (option (Z * list Z)) :=
  c ← checked (head cp);
  if isdigit c then
    '(base, cp) ← (if bool_decide (c = 48) then
                     c ← checked (head (tail cp));
                     Ret (if bool_decide (c = 120) || bool_decide (c = 88) then (16, tail (tail cp)) else (8, tail cp))
                   else Ret (10, cp));
    r ← collect base 0 cp; Ret (Some r)
  else Ret None.

(** The parts separated by dots, with at most [n] more; the last value and what
    follows. *)
Fixpoint all_parts (n : nat) (parts : list Z) (cp : list Z) : outcome (option (list Z * Z * list Z)) :=
  r ← one_part cp;
  match r with
  | None => Ret None
  | Some (val, cp) =>
      c ← checked (head cp);
      if bool_decide (c = 46) then
        match n with O => Ret None | S n => all_parts n (parts ++ [val]) (tail cp) end
      else Ret (Some (parts, val, cp))
  end.

Definition part (parts : list Z) (i : nat) : Z := nth i parts 0.

(** The address, in network order; [None]: 0 is returned. *)
Definition ipaddr_aton (cp : list Z) : outcome (option Z) :=
  r ← all_parts 3 [] cp;
  match r with
  | None => Ret None
  | Some (parts, val, cp) =>
      c ← checked (head cp);
      if bool_decide (c <> 0) && negb (isspace c) then Ret None
      else Ret (match length parts with
        | O => Some (lwip_htonl val)
        | S O => if bool_decide (val > 0xffffff) then None
                 else Some (lwip_htonl (Z.lor val (u32 (Z.shiftl (part parts 0) 24))))
        | S (S O) => if bool_decide (val > 0xffff) then None
                     else Some (lwip_htonl (Z.lor val (Z.lor (u32 (Z.shiftl (part parts 0) 24)) (u32 (Z.shiftl (part parts 1) 16)))))
        | _ => if bool_decide (val > 0xff) then None
               else Some (lwip_htonl (Z.lor val (Z.lor (Z.lor (u32 (Z.shiftl (part parts 0) 24)) (u32 (Z.shiftl (part parts 1) 16)))
                                                       (u32 (Z.shiftl (part parts 2) 8)))))
        end)
  end.

Definition ipaddr_addr (cp : list Z) : outcome Z :=
  r ← ipaddr_aton cp; Ret (match r with Some a => a | None => IPADDR_NONE end).

(** ** To text *)

(** [do ... while( *ap)]: the digits of a byte, the last one first, in [inv] of
    three elements. *)
Fixpoint inv_digits (room : nat) (b : Z) : outcome (list Z) :=
  match room with
  | O => Fault
  | S room => if bool_decide (b / 10 <> 0) then l ← inv_digits room (b / 10); Ret (48 + b mod 10 :: l) else Ret [48 + b mod 10]
  end.

(** Characters are put to [buf] at [len], as long as there is room; [None]: the
    buffer is too small. *)
Fixpoint put_chars (cs : list Z) (len buflen : Z) (buf : list Z) : outcome (option (Z * list Z)) :=
  match cs with
  | [] => Ret (Some (len, buf))
  | c :: cs => if bool_decide (len >= buflen) then Ret None else buf ← checked (wr buf len c); put_chars cs (len + 1) buflen buf
  end.

Fixpoint put_bytes (bs : list Z) (len buflen : Z) (buf : list Z) : outcome (option (Z * list Z)) :=
  match bs with
  | [] => Ret (Some (len, buf))
  | b :: bs =>
      inv ← inv_digits 3 b;
      r ← put_chars (rev inv ++ [46]) len buflen buf;
      match r with None => Ret None | Some (len, buf) => put_bytes bs len buflen buf end
  end.

Definition ipaddr_ntoa_r (addr : Z) (buf : list Z) (buflen : Z) : outcome (option (list Z)) :=
  r ← put_bytes (le4 addr) 0 buflen buf;
  match r with
  | None => Ret None
  | Some (len, buf) => buf ← checked (wr buf (len - 1) 0); Ret (Some buf)
  end.

(** ** Text and back *)

Lemma isdigit_spec c : 48 <= c <= 57 -> isdigit c = true.
Proof. intros. by apply bool_decide_eq_true. Qed.

Lemma collect_spec ds c rest : Forall (fun c => 48 <= c <= 57) ds -> isdigit c = false -> forall base v,
  (base = 16 -> isxdigit c = false) -> 0 <= base -> 0 <= v -> fold_left (fun v c => v * base + (c - 48)) ds v < 4294967296 ->
  collect base v (ds ++ c :: rest) = Ret (fold_left (fun v c => v * base + (c - 48)) ds v, c :: rest).
Proof.
  intros Hds Hc. induction Hds as [|d ds Hd Hds IH]; intros base v Hx Hb Hv Hlt; cbn [app collect fold_left] in *.
  - rewrite Hc. case_bool_decide as E; cbn [andb]; [by rewrite Hx|done].
  - rewrite isdigit_spec by done. rewrite u32_id; [apply IH; try done; nia|].
    assert (forall l w, Forall (fun c => 48 <= c <= 57) l -> 0 <= w -> 0 < base -> w <= fold_left (fun v c => v * base + (c - 48)) l w) as Hmono.
    { clear. intros l. induction l as [|x l IH]; intros w Hl Hw Hb; cbn [fold_left]; [lia|].
      apply Forall_cons in Hl as [Hx Hl]. specialize (IH (w * base + (x - 48)) Hl ltac:(nia) Hb). nia. }
    unw. split; [nia|]. destruct (decide (base = 0)) as [->|]; [lia|].
    specialize (Hmono ds (v * base + (d - 48)) Hds ltac:(nia) ltac:(lia)). lia.
Qed.

(** A character that can follow a part. *)
Definition ends_part (c : Z) : Prop := isdigit c = false /\ c <> 120 /\ c <> 88.

Lemma one_part_spec ds c rest : numeral ds -> is_u32 (dec_value ds) -> ends_part c ->
  one_part (ds ++ c :: rest) = Ret (Some (dec_value ds, c :: rest)).
Proof.
  intros (Hne & Hds & Hz) Hv (Hc & Hx & HX). destruct ds as [|d ds]; [done|]. unfold one_part. cbn [app head checked mbind outcome_bind].
  pose proof Hds as Hds'. inversion_clear Hds' as [|?? Hd Hds2]. rewrite isdigit_spec by done. case_bool_decide as E.
  - subst d. assert (ds = []) as -> by (specialize (Hz eq_refl); congruence). cbn [app tail head checked mbind outcome_bind].
    rewrite (bool_decide_false (c = 120)), (bool_decide_false (c = 88)) by done. cbn [orb mbind outcome_bind].
    pose proof (collect_spec [] c rest (Forall_nil_2 _) Hc 8 0 ltac:(done) ltac:(lia) ltac:(lia) ltac:(done)) as Hcol.
    cbn [app] in Hcol. by rewrite Hcol.
  - cbn [mbind outcome_bind]. change (d :: ds ++ c :: rest) with ((d :: ds) ++ c :: rest).
    rewrite (collect_spec (d :: ds) c rest Hds Hc 10 0) by (done || lia || apply Hv). done.
Qed.

(** Four numerals with dots; the first three are not checked. *)
Lemma aton_quad d0 d1 d2 d3 c rest :
  Forall (fun d => numeral d /\ is_u32 (dec_value d)) [d0; d1; d2; d3] -> (c = 0 \/ isspace c = true) ->
  ipaddr_aton (d0 ++ [46] ++ d1 ++ [46] ++ d2 ++ [46] ++ d3 ++ c :: rest) =
  Ret (if bool_decide (dec_value d3 > 255) then None
       else Some (lwip_htonl (Z.lor (dec_value d3) (Z.lor (Z.lor (u32 (Z.shiftl (dec_value d0) 24)) (u32 (Z.shiftl (dec_value d1) 16)))
                                                        (u32 (Z.shiftl (dec_value d2) 8)))))).
Proof.
  intros Hds Hc. rewrite !Forall_cons in Hds. destruct Hds as ([N0 V0] & [N1 V1] & [N2 V2] & [N3 V3] & _).
  assert (ends_part 46) as H46 by done.
  assert (ends_part c) as Hce.
  { destruct Hc as [->|Hs]; [done|]. unfold isspace in Hs. apply bool_decide_eq_true in Hs.
    repeat (apply elem_of_cons in Hs as [->|Hs]; [done|]). by apply not_elem_of_nil in Hs. }
  unfold ipaddr_aton. cbn [all_parts app].
  rewrite (one_part_spec d0 46) by done. cbn [mbind outcome_bind head checked tail]. rewrite bool_decide_true by done. cbn [app].
  rewrite (one_part_spec d1 46) by done. cbn [mbind outcome_bind head checked tail]. rewrite bool_decide_true by done. cbn [app].
  rewrite (one_part_spec d2 46) by done. cbn [mbind outcome_bind head checked tail]. rewrite bool_decide_true by done. cbn [app].
  rewrite (one_part_spec d3 c) by done. cbn [mbind outcome_bind head checked tail].
  rewrite bool_decide_false by (intros ->; by destruct Hc). cbn [mbind outcome_bind head checked length part nth].
  assert (bool_decide (c <> 0) && negb (isspace c) = false) as -> by (destruct Hc as [->| ->]; [done|by rewrite andb_false_r]).
  done.
Qed.

Definition byte_digits_ok (b : Z) : bool :=
  match inv_digits 3 b with
  | Ret l => bool_decide (numeral (rev l) /\ dec_value (rev l) = b /\ (length l <= 3)%nat)
  | _ => false
  end.

Lemma inv_digits_spec b : is_u8 b ->
  exists l, inv_digits 3 b = Ret l /\ numeral (rev l) /\ dec_value (rev l) = b /\ (length (rev l) <= 3)%nat.
Proof.
  intros Hb. assert (Forall (fun b => byte_digits_ok b = true) (seqZ 0 256)) as Hall
    by (apply (bool_decide_unpack _); vm_compute; exact I).
  rewrite Forall_forall in Hall. specialize (Hall b). rewrite elem_of_seqZ in Hall. specialize (Hall ltac:(unw; lia)).
  unfold byte_digits_ok in Hall. destruct (inv_digits 3 b) as [l| |]; [|done|done].
  apply bool_decide_eq_true in Hall as (H1 & H2 & H3). exists l. by rewrite length_rev.
Qed.

Lemma put_chars_spec cs : forall pre old buflen, (length cs <= length old)%nat ->
  Z.of_nat (length pre + length cs) <= buflen ->
  put_chars cs (Z.of_nat (length pre)) buflen (pre ++ old) =
  Ret (Some (Z.of_nat (length (pre ++ cs)), (pre ++ cs) ++ drop (length cs) old)).
Proof.
  induction cs as [|c cs IH]; intros pre old buflen Ho Hb; cbn [put_chars length drop] in *; [by rewrite !app_nil_r|].
  destruct old as [|o old]; [cbn in Ho; lia|]. cbn [length drop] in *. rewrite bool_decide_false by lia.
  rewrite (wr_at pre o old _ _ c eq_refl eq_refl). cbn [checked mbind outcome_bind].
  replace (pre ++ c :: old) with ((pre ++ [c]) ++ old) by (by rewrite <-app_assoc).
  replace (Z.of_nat (length pre) + 1) with (Z.of_nat (length (pre ++ [c]))) by (rewrite length_app; cbn; lia).
  rewrite IH by (rewrite ?length_app; cbn; lia). by rewrite <-(app_assoc pre).
Qed.

(** The parts of an address, each with its dot. *)
Fixpoint dotted (ds : list (list Z)) : list Z := match ds with [] => [] | d :: ds => (d ++ [46]) ++ dotted ds end.

Lemma put_bytes_spec bs : bytes bs -> forall pre old buflen,
  (4 * length bs <= length old)%nat -> Z.of_nat (length pre + 4 * length bs) <= buflen ->
  exists ds old', put_bytes bs (Z.of_nat (length pre)) buflen (pre ++ old) =
      Ret (Some (Z.of_nat (length (pre ++ dotted ds)), (pre ++ dotted ds) ++ old')) /\
    Forall2 (fun d b => numeral d /\ dec_value d = b) ds bs /\ (length (pre ++ dotted ds) + length old' = length pre + length old)%nat.
Proof.
  induction 1 as [|b bs Hb _ IH]; intros pre old buflen Ho Hlen; cbn [put_bytes length] in *.
  - exists [], old. cbn [dotted]. rewrite !app_nil_r. by split_and!.
  - destruct (inv_digits_spec b Hb) as (l & -> & Hn & Hv & Hl3). cbn [mbind outcome_bind].
    rewrite put_chars_spec by (rewrite length_app; cbn [length]; lia). cbn [mbind outcome_bind].
    set (w := rev l ++ [46]) in *. assert (length w <= 4)%nat as Hw by (subst w; rewrite length_app; cbn [length]; lia).
    destruct (IH (pre ++ w) (drop (length w) old) buflen) as (ds & old' & Hd & Hf & Hlen').
    { rewrite length_drop. lia. }
    { rewrite length_app. lia. }
    rewrite Hd. exists (rev l :: ds), old'. cbn [dotted]. fold w. rewrite !(app_assoc pre w). split; [done|].
    split; [by constructor|]. rewrite Hlen', length_app, length_drop. lia.
Qed.

Lemma quad_value b0 b1 b2 b3 : is_u8 b0 -> is_u8 b1 -> is_u8 b2 -> is_u8 b3 ->
  lwip_htonl (Z.lor b3 (Z.lor (Z.lor (u32 (Z.shiftl b0 24)) (u32 (Z.shiftl b1 16))) (u32 (Z.shiftl b2 8)))) = of_le4 b0 b1 b2 b3.
Proof.
  intros H0 H1 H2 H3. rewrite !Z.shiftl_mul_pow2 by lia. change (2 ^ 24) with 16777216. change (2 ^ 16) with 65536. change (2 ^ 8) with 256.
  unw. rewrite !u32_id by (unw; lia).
  change (b0 * 16777216) with (b0 * 2 ^ 24). rewrite (lor_low 24) by (change (2 ^ 24) with 16777216; lia). change (2 ^ 24) with 16777216.
  replace (b0 * 16777216 + b1 * 65536) with ((b0 * 256 + b1) * 2 ^ 16) by (change (2 ^ 16) with 65536; lia).
  rewrite (lor_low 16) by (change (2 ^ 16) with 65536; lia). change (2 ^ 16) with 65536.
  replace ((b0 * 256 + b1) * 65536 + b2 * 256) with (((b0 * 256 + b1) * 256 + b2) * 2 ^ 8) by (change (2 ^ 8) with 256; lia).
  rewrite Z.lor_comm, (lor_low 8) by (change (2 ^ 8) with 256; lia). change (2 ^ 8) with 256.
  rewrite htonl_eq. unfold of_le4. Z.to_euclidean_division_equations; lia.
Qed.

(** Addresses and their text.  [ipaddr_ntoa_r] fits every address, with
    the zero at the end, into the 16 characters of the static buffer, and
    [ipaddr_aton] gives it back.  Of four numbers [ipaddr_aton] checks only
    the last one: the other three go into the address as they are, whatever
    their size. *)
Theorem ip_text (a : Z) (buf d0 d1 d2 d3 rest : list Z) :
  is_u32 a -> length buf = 16%nat -> Forall (fun d => numeral d /\ is_u32 (dec_value d)) [d0; d1; d2; d3] ->
  (exists txt rest, ipaddr_ntoa_r a buf 16 = Ret (Some (txt ++ 0 :: rest)) /\ Forall (fun c => c <> 0) txt /\
     length (txt ++ 0 :: rest) = 16%nat /\ ipaddr_aton (txt ++ 0 :: rest) = Ret (Some a)) /\
  ipaddr_aton (d0 ++ [46] ++ d1 ++ [46] ++ d2 ++ [46] ++ d3 ++ 0 :: rest) =
    Ret (if bool_decide (dec_value d3 > 255) then None
         else Some (lwip_htonl (Z.lor (dec_value d3) (Z.lor (Z.lor (u32 (Z.shiftl (dec_value d0) 24)) (u32 (Z.shiftl (dec_value d1) 16)))
                                                          (u32 (Z.shiftl (dec_value d2) 8)))))).
Proof.
  intros Ha Hbuf Hds. split; [|apply aton_quad; auto].
  unfold ipaddr_ntoa_r. pose proof (le4_bytes a) as Hbs.
  destruct (put_bytes_spec (le4 a) Hbs [] buf 16) as (ds & old' & Hp & Hf & Hlen); [cbn; lia|cbn; lia|].
  change (Z.of_nat (length [])) with 0 in Hp. cbn [app] in Hp, Hlen. rewrite Hp. cbn [mbind outcome_bind]. clear Hp.
  unfold le4 in Hf, Hbs. 
  apply Forall2_cons_inv_r in Hf as (e0 & ? & [N0 V0] & Hf & ->). apply Forall2_cons_inv_r in Hf as (e1 & ? & [N1 V1] & Hf & ->).
  apply Forall2_cons_inv_r in Hf as (e2 & ? & [N2 V2] & Hf & ->). apply Forall2_cons_inv_r in Hf as (e3 & ? & [N3 V3] & Hf & ->).
  apply Forall2_nil_inv_r in Hf as ->.
  apply Forall_cons in Hbs as [B0 Hbs]. apply Forall_cons in Hbs as [B1 Hbs]. apply Forall_cons in Hbs as [B2 Hbs].
  apply Forall_cons in Hbs as [B3 _].
  set (txt := e0 ++ [46] ++ e1 ++ [46] ++ e2 ++ [46] ++ e3).
  assert (dotted [e0; e1; e2; e3] = txt ++ [46]) as E by (subst txt; cbn [dotted]; by rewrite app_nil_r, <-!app_assoc).
  rewrite E in Hlen |- *. rewrite length_app in Hlen. cbn [length] in Hlen.
  rewrite (wr_at txt 46 old' _ _ 0); [|by rewrite <-app_assoc|rewrite length_app; cbn [length]; lia]. cbn [checked mbind outcome_bind].
  exists txt, old'. split; [done|]. split; [|split].
  - subst txt. rewrite !Forall_app.
    assert (forall d, numeral d -> Forall (fun c => c <> 0) d) as Hnz.
    { intros d (_ & Hd & _). eapply Forall_impl; [exact Hd|]. cbn. lia. }
    split_and!; try (by apply Hnz); by repeat constructor.
  - rewrite length_app. cbn [length]. rewrite Hbuf in Hlen. cbn in Hlen. lia.
  - subst txt. rewrite <-!app_assoc. cbn [app]. pose proof (aton_quad e0 e1 e2 e3 0 old') as Hq. cbn [app] in Hq.
    rewrite Hq; [|repeat (constructor; [by split; [|rewrite ?V0, ?V1, ?V2, ?V3; unw; lia]|]); constructor|by left].
    rewrite V0, V1, V2, V3, bool_decide_false by (unw; lia). do 2 f_equal. rewrite quad_value by done. by apply of_le4_le4.
Qed.

Definition dots (l : list Z) : list Z := map (fun c => c + 48) l.

Lemma ip_text_witness :
  (exists txt rest, ipaddr_ntoa_r 0x0900A8C0 (replicate 16 7) 16 = Ret (Some (txt ++ 0 :: rest)) /\
     ipaddr_aton (txt ++ 0 :: rest) = Ret (Some 0x0900A8C0)) /\
  ipaddr_aton (dots [2; 5; 6] ++ [46] ++ dots [0] ++ [46] ++ dots [0] ++ [46] ++ dots [1] ++ [0]) = Ret (Some 0x01000000).
Proof.
  destruct (ip_text 0x0900A8C0 (replicate 16 7) (dots [2; 5; 6]) (dots [0]) (dots [0]) (dots [1]) [])
    as [(txt & rest & H1 & _ & _ & H2) H3];
    [unw; lia|done|repeat constructor; by apply (bool_decide_unpack _)|].
  split; [exists txt, rest; split; [exact H1|exact H2]|exact H3].
Defined.

(** ** Network masks *)

Lemma land_bit n j : Z.land n (2 ^ Z.of_nat j) = 0 <-> Z.testbit n (Z.of_nat j) = false.
Proof.
  split; intros H.
  - pose proof (f_equal (fun x => Z.testbit x (Z.of_nat j)) H) as E. cbv beta in E.
    by rewrite Z.land_spec, Z.pow2_bits_true, andb_true_r, Z.bits_0 in E by lia.
  - apply Z.bits_inj'. intros i Hi. rewrite Z.land_spec, Z.bits_0, Z.pow2_bits_eqb by lia.
    destruct (Z.eqb_spec (Z.of_nat j) i) as [<-|]; [by rewrite H|apply andb_false_r].
Qed.

Lemma first_zero_spec i n : (first_zero i n <= i)%nat /\
  (forall b, (first_zero i n <= b < i)%nat -> Z.testbit n (Z.of_nat b) = true) /\
  (forall j, first_zero i n = S j -> Z.testbit n (Z.of_nat j) = false).
Proof.
  induction i as [|i (IH1 & IH2 & IH3)]; cbn [first_zero]; [split_and!; [lia|lia|done]|]. case_bool_decide as E.
  - apply land_bit in E. split_and!; [lia|lia|]. by intros j [= <-].
  - rewrite land_bit in E. apply not_false_is_true in E. split_and!; [lia| |done].
    intros b Hb. destruct (decide (b = i)) as [->|]; [done|]. apply IH2. lia.
Qed.

Lemma no_one_spec i n : (no_one i n = 1 /\ forall b, (b < i)%nat -> Z.testbit n (Z.of_nat b) = false) \/
  (no_one i n = 0 /\ exists b, (b < i)%nat /\ Z.testbit n (Z.of_nat b) = true).
Proof.
  induction i as [|i IH]; cbn [no_one]; [left; split; [done|lia]|]. case_bool_decide as E.
  - rewrite land_bit in E. apply not_false_is_true in E. right. eauto.
  - assert (Z.testbit n (Z.of_nat i) = false) as Hi by (apply land_bit; lia).
    destruct IH as [[-> H]|(-> & b & Hb & Ht)].
    + left. split; [done|]. intros b Hb. destruct (decide (b = i)) as [->|]; [done|]. apply H. lia.
    + right. split; [done|]. exists b. split; [lia|done].
Qed.

(** The number whose bits from [k] to 31 are ones. *)
Lemma mask_bits k i : 0 <= k <= 32 -> 0 <= i -> Z.testbit (2 ^ 32 - 2 ^ k) i = bool_decide (k <= i < 32).
Proof.
  intros Hk Hi. replace (2 ^ 32 - 2 ^ k) with (Z.ones (32 - k) * 2 ^ k).
  2: { rewrite Z.ones_equiv. replace (2 ^ 32) with (2 ^ (32 - k) * 2 ^ k) by (rewrite <-Z.pow_add_r by lia; f_equal; lia). lia. }
  destruct (Z.ltb_spec i k).
  - rewrite Z.mul_pow2_bits_low, bool_decide_false by lia. done.
  - rewrite Z.mul_pow2_bits by lia. destruct (Z.ltb_spec i 32).
    + rewrite Z.ones_spec_low, bool_decide_true by lia. done.
    + rewrite Z.ones_spec_high, bool_decide_false by lia. done.
Qed.

(** The check of a network mask accepts exactly the masks that are, in
    host order, ones from bit 31 down to some bit and zeros below. *)
Theorem netmask_valid_iff (m : Z) :
  is_u32 m ->
  (ip4_addr_netmask_valid m = 1 <-> exists k, 0 <= k <= 32 /\ lwip_htonl m = 2 ^ 32 - 2 ^ k) /\
  (ip4_addr_netmask_valid m = 0 \/ ip4_addr_netmask_valid m = 1).
Proof.
  intros Hm. unfold ip4_addr_netmask_valid. set (n := lwip_htonl m). assert (is_u32 n) as Hn by apply htonl_range.
  destruct (first_zero_spec 32 n) as (F1 & F2 & F3). set (j := first_zero 32 n) in *.
  split; [|destruct (no_one_spec j n) as [[-> _]|[-> _]]; auto].
  split.
  - intros E. destruct (no_one_spec j n) as [[_ H]|[E' _]]; [|lia]. exists (Z.of_nat j). split; [lia|].
    apply Z.bits_inj'. intros i Hi. rewrite mask_bits by lia. destruct (decide (i < 32)) as [Hlt|Hge].
    + rewrite <-(Z2Nat.id i) at 1 by lia. case_bool_decide.
      * apply F2. lia.
      * apply H. lia.
    + rewrite bool_decide_false by lia. destruct (Z.eq_dec n 0) as [->|Hz]; [apply Z.bits_0|].
      apply Z.bits_above_log2; [unw; lia|]. assert (Z.log2 n < 32) by (apply Z.log2_lt_pow2; [unw; lia|change (2 ^ 32) with 4294967296; unw; lia]). lia.
  - intros (k & Hk & E). destruct (no_one_spec j n) as [[-> _]|(_ & b & Hb & Ht)]; [done|]. exfalso.
    rewrite E, mask_bits in Ht by lia. apply bool_decide_eq_true in Ht. destruct j as [|j'] eqn:Ej; [lia|].
    specialize (F3 j' eq_refl). rewrite E, mask_bits in F3 by lia. apply bool_decide_eq_false in F3. lia.
Qed.

Lemma netmask_valid_iff_witness : ip4_addr_netmask_valid 0x00FFFFFF = 1 /\ ip4_addr_netmask_valid 0x00FF00FF <> 1.
Proof.
  destruct (netmask_valid_iff 0x00FFFFFF ltac:(unw; lia)) as [[_ H] _].
  split; [apply H; exists 8; split; [lia|reflexivity]|by vm_compute].
Defined.
