(* ===== verification/Timers.v ===== *)
(** * The timers of the network stack ([src/lwip/src/core/timers.c])

    A list of one-shot timers, each with the time that lies between it and the
    one in front of it.  The configuration has two users, [ip_reass_timer] and
    [arp_timer], which arm themselves again; there is no operating system, so
    that the main loop calls [sys_check_timeouts]. *)

From S2P Require Import Prelude.

Definition IP_TMR_INTERVAL : Z := 1000.
Definition ARP_TMR_INTERVAL : Z := 5000.

(** [struct sys_timeo]; a handler is its address. *)
Record sys_timeo := mkTimeo { to_time : Z; to_h : Z; to_arg : Z }.

Record Timers := mkTimers { next_timeout : list sys_timeo; timeouts_last_time : Z }.

Definition to_less (d : Z) (t : sys_timeo) : sys_timeo := mkTimeo (u32 (to_time t - d)) (to_h t) (to_arg t).
Definition to_more (d : Z) (t : sys_timeo) : sys_timeo := mkTimeo (u32 (to_time t + d)) (to_h t) (to_arg t).

(** The [for] loop: the new timer [n] goes behind [t] or further back. *)
Fixpoint place (n t : sys_timeo) (l : list sys_timeo) : list sys_timeo :=
  let n := to_less (to_time t) n in
  match l with
  | [] => [t; n]
  | u :: l' => if bool_decide (to_time u > to_time n) then t :: n :: to_less (to_time n) u :: l' else t :: place n u l'
  end.

(** [ok]: [memp_malloc] has given memory; without it [LWIP_ASSERT] stops the
    device. *)
Definition sys_timeout (ok : bool) (msecs handler arg : Z) (s : Timers) : outcome Timers :=
  if ok then
    let n := mkTimeo msecs handler arg in
    Ret (mkTimers
      (match next_timeout s with
       | [] => [n]
       | t :: l => if bool_decide (to_time t > msecs) then n :: to_less msecs t :: l else place n t l
       end) (timeouts_last_time s))
  else Spin.

(** The first timer with this handler and argument is taken out. *)
Fixpoint take_out (handler arg : Z) (l : list sys_timeo) : list sys_timeo :=
  match l with
  | [] => []
  | t :: l =>
      if bool_decide (to_h t = handler) && bool_decide (to_arg t = arg)
      then match l with [] => [] | u :: l => to_more (to_time t) u :: l end
      else t :: take_out handler arg l
  end.

Definition sys_untimeout (handler arg : Z) (s : Timers) : Timers :=
  mkTimers (take_out handler arg (next_timeout s)) (timeouts_last_time s).

Definition sys_restart_timeouts (now : Z) (s : Timers) : Timers := mkTimers (next_timeout s) now.

Section Check.
Context {St : Type}.
Variable timers : St -> Timers.
Variable set_timers : Timers -> St -> St.
(** [memp_free(MEMP_SYS_TIMEOUT, tmptimeout)]: the heap of the C library. *)
Variable memp_free : St -> St.
(** A call of a handler. *)
Variable call : Z -> Z -> St -> outcome St.

Fixpoint check_loop (fuel : nat) (now diff : Z) (s : St) : outcome St :=
  match fuel with
  | O => Spin
  | S fuel =>
      match next_timeout (timers s) with
      | t :: l =>
          if bool_decide (to_time t <= diff) then
            let s := memp_free (set_timers (mkTimers l now) s) in
            s ← (if bool_decide (to_h t <> 0) then call (to_h t) (to_arg t) s else Ret s);
            check_loop fuel now (u32 (diff - to_time t)) s
          else Ret s
      | [] => Ret s
      end
  end.

Definition sys_check_timeouts (fuel : nat) (now : Z) (s : St) : outcome St :=
  match next_timeout (timers s) with
  | [] => Ret s
  | _ => check_loop fuel now (u32 (now - timeouts_last_time (timers s))) s
  end.

End Check.

(** ** The users: [ip_reass_timer], [arp_timer] *)

Definition H_ip_reass : Z := 1.
Definition H_arp : Z := 2.

Section Users.
Context {St : Type}.
Variable timers : St -> Timers.
Variable set_timers : Timers -> St -> St.
(** [memp_malloc(MEMP_SYS_TIMEOUT)]: the C library may have no memory. *)
Variable memp_malloc : St -> option St.
Variable ip_reass_tmr etharp_tmr : St -> outcome St.

Definition arm (msecs h : Z) (s : St) : outcome St :=
  let m := memp_malloc s in
  t ← sys_timeout (bool_decide (is_Some m)) msecs h 0 (timers (default s m));
  Ret (set_timers t (default s m)).

Definition ip_reass_timer (s : St) : outcome St := s ← ip_reass_tmr s; arm IP_TMR_INTERVAL H_ip_reass s.
Definition arp_timer (s : St) : outcome St := s ← etharp_tmr s; arm ARP_TMR_INTERVAL H_arp s.

Definition timer_call (h _ : Z) (s : St) : outcome St :=
  if bool_decide (h = H_ip_reass) then ip_reass_timer s
  else if bool_decide (h = H_arp) then arp_timer s else Fault.

Definition sys_timeouts_init (now : Z) (s : St) : outcome St :=
  s ← arm IP_TMR_INTERVAL H_ip_reass s;
  s ← arm ARP_TMR_INTERVAL H_arp s;
  Ret (set_timers (mkTimers (next_timeout (timers s)) now) s).

End Users.

(** ** The times at which the timers are due

    Counted from [timeouts_last_time]. *)

Fixpoint dues (base : Z) (l : list sys_timeo) : list (Z * (Z * Z)) :=
  match l with [] => [] | t :: l => (base + to_time t, (to_h t, to_arg t)) :: dues (base + to_time t) l end.

(** A timer goes behind those that are due at the same time. *)
Fixpoint ins (d : Z) (e : Z * Z) (l : list (Z * (Z * Z))) : list (Z * (Z * Z)) :=
  match l with [] => [(d, e)] | x :: l' => if bool_decide (x.1 > d) then (d, e) :: l else x :: ins d e l' end.

Fixpoint del (e : Z * Z) (l : list (Z * (Z * Z))) : list (Z * (Z * Z)) :=
  match l with [] => [] | x :: l => if bool_decide (x.2 = e) then l else x :: del e l end.

(** No time is negative, the last timer is due within 32 bits. *)
Fixpoint timers_ok (base : Z) (l : list sys_timeo) : Prop :=
  match l with [] => True | t :: l => 0 <= to_time t /\ base + to_time t < 4294967296 /\ timers_ok (base + to_time t) l end.

Lemma place_spec l : forall base n t, 0 <= base -> timers_ok base (t :: l) -> to_time t <= to_time n -> base + to_time n < 4294967296 ->
  dues base (place n t l) = ins (base + to_time n) (to_h n, to_arg n) (dues base (t :: l)) /\ timers_ok base (place n t l).
Proof.
  induction l as [|u l IH]; intros base n t Hb (H1 & H2 & Hok) Hle Hn; cbn [place dues ins fst] in *; 
    rewrite (bool_decide_false (base + to_time t > base + to_time n)) by lia.
  - unfold to_less. cbn [dues to_time to_h to_arg timers_ok]. rewrite u32_id by (unw; lia).
    split; [do 3 f_equal; lia|lia].
  - destruct Hok as (H3 & H4 & Hok). assert (to_time (to_less (to_time t) n) = to_time n - to_time t) as E by (apply u32_id; unw; lia).
    rewrite E. case_bool_decide as Hgt.
    + rewrite bool_decide_true by lia. cbn [dues timers_ok]. rewrite E. unfold to_less. cbn [to_time to_h to_arg].
      assert (u32 (to_time u - (to_time n - to_time t)) = to_time u - (to_time n - to_time t)) as -> by (apply u32_id; unw; lia).
      replace (base + to_time t + (to_time n - to_time t)) with (base + to_time n) by lia.
      replace (base + to_time n + (to_time u - (to_time n - to_time t))) with (base + to_time t + to_time u) by lia.
      split; [done|]. split_and!; try done; lia.
    + destruct (IH (base + to_time t) (to_less (to_time t) n) u) as [Hd Hk]; [lia|split_and!; [lia|lia|done]|lia|lia|].
      cbn [dues timers_ok]. rewrite Hd, E. replace (base + to_time t + (to_time n - to_time t)) with (base + to_time n) by lia.
      split; [done|]. split_and!; done || lia.
Qed.

Lemma sys_timeout_dues msecs h arg s : timers_ok 0 (next_timeout s) -> is_u32 msecs ->
  exists s1, sys_timeout true msecs h arg s = Ret s1 /\ timeouts_last_time s1 = timeouts_last_time s /\
  dues 0 (next_timeout s1) = ins msecs (h, arg) (dues 0 (next_timeout s)) /\ timers_ok 0 (next_timeout s1).
Proof.
  intros Hok Hm. unfold sys_timeout. eexists. split; [done|]. split; [done|]. cbn [next_timeout]. destruct (next_timeout s) as [|t l]; [cbn; unw; split; [done|lia]|].
  destruct Hok as (H1 & H2 & Hok). unw. cbn [dues ins fst]. rewrite Z.add_0_l in *.
  destruct (decide (to_time t > msecs)) as [Hgt|Hle]; [rewrite !bool_decide_true by done|rewrite !bool_decide_false by done].
  - unfold to_less. cbn [dues timers_ok to_time to_h to_arg]. rewrite u32_id by (unw; lia).
    replace (0 + msecs + (to_time t - msecs)) with (to_time t) by lia. rewrite Z.add_0_l. split; [done|]. split_and!; done || lia.
  - destruct (place_spec l 0 (mkTimeo msecs h arg) t) as [Hd Hk]; [lia|split_and!; done || lia|cbn; lia|cbn; lia|].
    cbn [to_time to_h to_arg dues ins fst] in Hd. rewrite Z.add_0_l, bool_decide_false in Hd by done. by rewrite Hd, Z.add_0_l.
Qed.

Lemma take_out_dues h arg l : forall base, 0 <= base -> timers_ok base l ->
  dues base (take_out h arg l) = del (h, arg) (dues base l) /\ timers_ok base (take_out h arg l).
Proof.
  induction l as [|t l IH]; intros base Hb Hok; cbn [take_out dues del timers_ok] in *; [done|]. destruct Hok as (H1 & H2 & Hok).
  assert (bool_decide (to_h t = h) && bool_decide (to_arg t = arg) = bool_decide ((to_h t, to_arg t) = (h, arg))) as ->.
  { apply eq_true_iff_eq. rewrite andb_true_iff, !bool_decide_eq_true. naive_solver. }
  cbn [snd]. destruct (bool_decide ((to_h t, to_arg t) = (h, arg))).
  - destruct l as [|u l]; [done|]. destruct Hok as (H3 & H4 & Hok). unfold to_more. cbn [dues timers_ok to_time to_h to_arg].
    rewrite u32_id by (unw; lia). replace (base + (to_time u + to_time t)) with (base + to_time t + to_time u) by lia.
    split; [done|]. split_and!; done || lia.
  - destruct (IH (base + to_time t)) as [Hd Hk]; [lia|done|]. cbn [dues timers_ok]. rewrite Hd. done.
Qed.

(** C39: The list of timers is the list of the times at which they are due,
    in order.  Arming a timer puts it at its time, behind those that are due
    at the same time; taking one out removes the first with the handler and the
    argument and leaves the times of all others as they are.  The times count
    from the last expiry, not from the call, so that a timer armed later is due
    early by the time in between.  Without memory for the timer an assertion
    stops the device. *)
Theorem timeout_list (msecs h arg : Z) (s : Timers) :
  timers_ok 0 (next_timeout s) -> is_u32 msecs ->
  let s2 := sys_untimeout h arg s in
  sys_timeout false msecs h arg s = Spin /\
  exists s1, sys_timeout true msecs h arg s = Ret s1 /\
  dues 0 (next_timeout s1) = ins msecs (h, arg) (dues 0 (next_timeout s)) /\
  dues 0 (next_timeout s2) = del (h, arg) (dues 0 (next_timeout s)) /\
  timers_ok 0 (next_timeout s1) /\ timers_ok 0 (next_timeout s2) /\
  timeouts_last_time s1 = timeouts_last_time s /\ timeouts_last_time s2 = timeouts_last_time s.
Proof.
  intros Hok Hm s2. destruct (sys_timeout_dues msecs h arg s Hok Hm) as (s1 & E & L & H1 & H2).
  destruct (take_out_dues h arg (next_timeout s) 0 ltac:(lia) Hok) as [H3 H4]. split; [done|]. exists s1. by split_and!.
Qed.

Lemma timeout_list_witness :
  exists s1, sys_timeout true 700 9 0 (mkTimers [mkTimeo 500 1 0; mkTimeo 200 2 0; mkTimeo 300 3 0] 5) = Ret s1 /\
  dues 0 (next_timeout s1) = [(500, (1, 0)); (700, (2, 0)); (700, (9, 0)); (1000, (3, 0))].
Proof.
  destruct (timeout_list 700 9 0 (mkTimers [mkTimeo 500 1 0; mkTimeo 200 2 0; mkTimeo 300 3 0] 5)) as (_ & s1 & E & H & _);
    [cbn; lia|unw; lia|]. exists s1. split; [exact E|exact H].
Defined.

(** ** The two users *)

(** How often a timer that is due at [d] and then every [p] fires within
    [diff]. *)
Definition calls (d p diff : Z) : Z := if bool_decide (d <= diff) then 1 + (diff - d) / p else 0.

Lemma calls_nonneg d p diff : 0 < p -> 0 <= calls d p diff.
Proof. intros. unfold calls. case_bool_decide; [|lia]. pose proof (Z.div_pos (diff - d) p). lia. Qed.

Lemma calls_shift t d p diff : calls (d - t) p (diff - t) = calls d p diff.
Proof. unfold calls. rewrite (bool_decide_ext (d - t <= diff - t) (d <= diff)) by lia. by replace (diff - t - (d - t)) with (diff - d) by lia. Qed.

Lemma calls_fire p diff : 0 < p -> 0 <= diff -> calls 0 p diff = 1 + calls p p diff.
Proof.
  intros Hp Hd. unfold calls. rewrite bool_decide_true, Z.sub_0_r by done. case_bool_decide.
  - replace diff with (1 * p + (diff - p)) at 1 by lia. rewrite Z.div_add_l by lia. lia.
  - rewrite Z.div_small by lia. lia.
Qed.

Section Cyclic.
Context {St : Type}.
Variable timers : St -> Timers.
Variable set_timers : Timers -> St -> St.
Variable memp_malloc : St -> option St.
Variable memp_free : St -> St.
Variable ip_reass_tmr etharp_tmr : St -> outcome St.
(** How often the two functions have been called. *)
Variable n_ip n_arp : St -> Z.
Hypothesis timers_set : forall x s, timers (set_timers x s) = x.
Hypothesis set_counts : forall x s, n_ip (set_timers x s) = n_ip s /\ n_arp (set_timers x s) = n_arp s.
Hypothesis malloc_keeps : forall s s', memp_malloc s = Some s' -> timers s' = timers s /\ n_ip s' = n_ip s /\ n_arp s' = n_arp s.
Hypothesis free_keeps : forall s, timers (memp_free s) = timers s /\ n_ip (memp_free s) = n_ip s /\ n_arp (memp_free s) = n_arp s.
Hypothesis ip_counts : forall s s', ip_reass_tmr s = Ret s' -> n_ip s' = n_ip s + 1 /\ n_arp s' = n_arp s /\ timers s' = timers s.
Hypothesis arp_counts : forall s s', etharp_tmr s = Ret s' -> n_ip s' = n_ip s /\ n_arp s' = n_arp s + 1 /\ timers s' = timers s.

Notation arm' := (arm timers set_timers memp_malloc).
Notation call := (timer_call timers set_timers memp_malloc ip_reass_tmr etharp_tmr).
Notation I := (H_ip_reass, 0).
Notation A := (H_arp, 0).

(** Both timers are armed, due at [di] and [da]. *)
Definition armed (di da : Z) (l : list sys_timeo) : Prop :=
  timers_ok 0 l /\ (dues 0 l = [(di, I); (da, A)] \/ dues 0 l = [(da, A); (di, I)]).

(** The timer in front is due: the state in which its handler is called. *)
Definition expires (now diff : Z) (s : St) (t : sys_timeo) (s1 : St) : Prop :=
  exists l, next_timeout (timers s) = t :: l /\ to_time t <= diff /\ s1 = memp_free (set_timers (mkTimers l now) s).

(** In the course of the loop the handler [h] is called in the state [s1]. *)
Inductive called (now : Z) : Z -> St -> Z -> St -> Prop :=
  | called_first diff s t s1 : expires now diff s t s1 -> called now diff s (to_h t) s1
  | called_later diff s t s1 s2 h s3 : expires now diff s t s1 -> call (to_h t) (to_arg t) s1 = Ret s2 ->
      called now (diff - to_time t) s2 h s3 -> called now diff s h s3.

(** The handler [h], called in [s1], does not come back: its own function does
    not, or there is no memory for the timer that it arms again, and the
    assertion stops the device. *)
Definition stops (h : Z) (s1 : St) (o : outcome St) : Prop :=
  let tmr := if bool_decide (h = H_ip_reass) then ip_reass_tmr else etharp_tmr in
  match tmr s1 with Ret s2 => memp_malloc s2 = None /\ o = Spin | Spin => o = Spin | Fault => o = Fault end.

Lemma dues_cons2 l x y : timers_ok 0 l -> dues 0 l = [x; y] ->
  exists t u, l = [t; u] /\ to_time t = x.1 /\ to_h t = x.2.1 /\ to_arg t = x.2.2 /\
    to_time u = y.1 - x.1 /\ to_h u = y.2.1 /\ to_arg u = y.2.2 /\ 0 <= x.1 <= y.1 /\ y.1 < 4294967296.
Proof.
  intros Hok Hd. destruct l as [|t [|u [|]]]; try done. cbn [dues timers_ok] in *. simplify_eq/=.
  exists t, u. split_and!; try done; lia.
Qed.

(** A timer arms itself again while the other one waits. *)
Lemma arm_one p h (t : sys_timeo) now s s1 : is_u32 p -> 0 <= to_time t < 4294967296 -> timers s = mkTimers [t] now ->
  memp_malloc s = Some s1 ->
  exists s2, arm' p h s = Ret s2 /\ n_ip s2 = n_ip s /\ n_arp s2 = n_arp s /\ timeouts_last_time (timers s2) = now /\
  timers_ok 0 (next_timeout (timers s2)) /\
  (dues 0 (next_timeout (timers s2)) = [(p, (h, 0)); (to_time t, (to_h t, to_arg t))] \/
   dues 0 (next_timeout (timers s2)) = [(to_time t, (to_h t, to_arg t)); (p, (h, 0))]).
Proof.
  intros Hp Ht Hs Hm. destruct (malloc_keeps _ _ Hm) as (K1 & K2 & K3). unfold arm. rewrite Hm. cbn [default from_option id].
  rewrite bool_decide_true by eauto. rewrite K1, Hs.
  destruct (sys_timeout_dues p h 0 (mkTimers [t] now)) as (x & -> & L & Hd & Hk); [cbn; lia|done|].
  cbn [mbind outcome_bind]. eexists. split; [done|]. destruct (set_counts x s1) as [C1 C2]. rewrite timers_set, C1, C2, Hd.
  split_and!; try done. cbn [next_timeout dues ins fst]. rewrite Z.add_0_l. case_bool_decide; auto.
Qed.

(** One turn of the loop in which the timer in front is due. *)
Lemma fire h p i a fuel now diff t u last s :
  (h = H_ip_reass /\ p = IP_TMR_INTERVAL /\ i = 1 /\ a = 0) \/ (h = H_arp /\ p = ARP_TMR_INTERVAL /\ i = 0 /\ a = 1) ->
  timers s = mkTimers [t; u] last -> to_h t = h -> to_arg t = 0 -> 0 <= to_time t <= diff -> is_u32 diff -> 0 <= to_time u < 4294967296 ->
  exists s1, expires now diff s t s1 /\
  ((exists l s2, check_loop timers set_timers memp_free call (S fuel) now diff s =
        check_loop timers set_timers memp_free call fuel now (diff - to_time t) s2 /\
      call h (to_arg t) s1 = Ret s2 /\ (forall o, ~ stops h s1 o) /\
      timers s2 = mkTimers l now /\ timers_ok 0 l /\
      (dues 0 l = [(p, (h, 0)); (to_time u, (to_h u, to_arg u))] \/ dues 0 l = [(to_time u, (to_h u, to_arg u)); (p, (h, 0))]) /\
      n_ip s2 = n_ip s + i /\ n_arp s2 = n_arp s + a) \/
   stops h s1 (check_loop timers set_timers memp_free call (S fuel) now diff s)).
Proof.
  intros Hh Hs Hth Hta Ht Hdiff Hu. set (s1 := memp_free (set_timers (mkTimers [u] now) s)). exists s1.
  split. { exists [u]. rewrite Hs. split_and!; done || lia. }
  destruct (free_keeps (set_timers (mkTimers [u] now) s)) as (F1 & F2 & F3). destruct (set_counts (mkTimers [u] now) s) as [C1 C2].
  rewrite timers_set in F1. rewrite C1 in F2. rewrite C2 in F3. fold s1 in F1, F2, F3.
  assert (check_loop timers set_timers memp_free call (S fuel) now diff s =
    (s2 ← call h (to_arg t) s1; check_loop timers set_timers memp_free call fuel now (diff - to_time t) s2)) as ->.
  { cbn [check_loop]. rewrite Hs. cbn [next_timeout]. rewrite bool_decide_true by lia. fold s1. rewrite Hth.
    rewrite (bool_decide_true (h <> 0)) by (destruct Hh as [(-> & _)|(-> & _)]; done). by rewrite (u32_id (diff - to_time t)) by (unw; lia). }
  assert (exists tmr, (forall s', tmr s1 = Ret s' -> n_ip s' = n_ip s1 + i /\ n_arp s' = n_arp s1 + a /\ timers s' = timers s1) /\
    is_u32 p /\ call h (to_arg t) s1 = (s2 ← tmr s1; arm' p h s2) /\
    (forall o, stops h s1 o <-> match tmr s1 with Ret s2 => memp_malloc s2 = None /\ o = Spin | Spin => o = Spin | Fault => o = Fault end))
    as (tmr & Hc & Hp & Hcall & Hstop).
  { unfold timer_call, stops. destruct Hh as [(-> & -> & -> & ->)|(-> & -> & -> & ->)]; [exists ip_reass_tmr|exists etharp_tmr]; (split_and!;
    [intros s' E; (apply ip_counts in E || apply arp_counts in E); destruct E as (-> & -> & ->); split_and!; lia || done|unw; done|done|done]). }
  rewrite Hcall. destruct (tmr s1) as [s2| |] eqn:E; cbn [mbind outcome_bind]; [|by right; apply Hstop..].
  destruct (Hc s2 eq_refl) as (N1 & N2 & N3). rewrite F1 in N3. destruct (memp_malloc s2) as [s3|] eqn:Hm.
  - left. destruct (arm_one p h u now s2 s3) as (s4 & Ea & M1 & M2 & M3 & M4 & M5); try done. rewrite Ea.
    exists (next_timeout (timers s4)), s4. cbn [mbind outcome_bind]. split_and!; try done; try lia.
    + intros o Ho%Hstop. destruct Ho as [Ho _]. done.
    + rewrite <-M3. by destruct (timers s4).
  - right. apply Hstop. split; [done|]. unfold arm. by rewrite Hm.
Qed.

Lemma calls_due d p diff : 0 < p -> d <= diff -> calls d p diff = 1 + calls p p (diff - d).
Proof. intros. rewrite <-(calls_shift d d), Z.sub_diag, calls_fire by lia. done. Qed.

Lemma calls_none d p diff : diff < d -> calls d p diff = 0.
Proof. intros. unfold calls. by rewrite bool_decide_false by lia. Qed.

(** What the loop leaves: both timers have fired as often as they were due
    and are armed for later than [diff]. *)
Definition cyclic_post (di da diff now last : Z) (s s' : St) : Prop :=
  exists c l', 0 <= c <= diff /\
    timers s' = mkTimers l' (if bool_decide (di <= diff \/ da <= diff) then now else last) /\
    armed (di + calls di IP_TMR_INTERVAL diff * IP_TMR_INTERVAL - c) (da + calls da ARP_TMR_INTERVAL diff * ARP_TMR_INTERVAL - c) l' /\
    n_ip s' = n_ip s + calls di IP_TMR_INTERVAL diff /\ n_arp s' = n_arp s + calls da ARP_TMR_INTERVAL diff /\
    di + calls di IP_TMR_INTERVAL diff * IP_TMR_INTERVAL > diff /\ da + calls da ARP_TMR_INTERVAL diff * ARP_TMR_INTERVAL > diff.

Lemma post_idle di da diff now last s l : timers s = mkTimers l last -> armed di da l -> diff < di -> diff < da -> 0 <= diff ->
  cyclic_post di da diff now last s s.
Proof.
  intros Hs Ha Hi Hd H0. exists 0, l. rewrite !calls_none, bool_decide_false by lia.
  rewrite !Z.mul_0_l, !Z.sub_0_r, !Z.add_0_r. split_and!; done || lia.
Qed.

Lemma post_ip di da diff now last s s2 s' : 0 <= di <= diff -> n_ip s2 = n_ip s + 1 -> n_arp s2 = n_arp s + 0 ->
  cyclic_post IP_TMR_INTERVAL (da - di) (diff - di) now now s2 s' -> cyclic_post di da diff now last s s'.
Proof.
  intros Hdi N1 N2 (c & l' & Hc & T & Ar & N3 & N4 & D1 & D2). rewrite calls_shift in *.
  exists (di + c), l'. rewrite (calls_due di), bool_decide_true by (done || lia || by left).
  split; [lia|]. split; [rewrite T; by case_bool_decide|]. split; [|split_and!; unfold IP_TMR_INTERVAL in *; lia].
  unfold armed in *. destruct Ar as [Ok Ar]. split; [done|].
  replace (di + (1 + calls IP_TMR_INTERVAL IP_TMR_INTERVAL (diff - di)) * IP_TMR_INTERVAL - (di + c)) with
    (IP_TMR_INTERVAL + calls IP_TMR_INTERVAL IP_TMR_INTERVAL (diff - di) * IP_TMR_INTERVAL - c) by lia.
  replace (da + calls da ARP_TMR_INTERVAL diff * ARP_TMR_INTERVAL - (di + c)) with
    (da - di + calls da ARP_TMR_INTERVAL diff * ARP_TMR_INTERVAL - c) by lia. exact Ar.
Qed.

Lemma post_arp di da diff now last s s2 s' : 0 <= da <= diff -> n_ip s2 = n_ip s + 0 -> n_arp s2 = n_arp s + 1 ->
  cyclic_post (di - da) ARP_TMR_INTERVAL (diff - da) now now s2 s' -> cyclic_post di da diff now last s s'.
Proof.
  intros Hda N1 N2 (c & l' & Hc & T & Ar & N3 & N4 & D1 & D2). rewrite calls_shift in *.
  exists (da + c), l'. rewrite (calls_due da), bool_decide_true by (done || lia || by right).
  split; [lia|]. split; [rewrite T; by case_bool_decide|]. split; [|split_and!; unfold ARP_TMR_INTERVAL in *; lia].
  unfold armed in *. destruct Ar as [Ok Ar]. split; [done|].
  replace (da + (1 + calls ARP_TMR_INTERVAL ARP_TMR_INTERVAL (diff - da)) * ARP_TMR_INTERVAL - (da + c)) with
    (ARP_TMR_INTERVAL + calls ARP_TMR_INTERVAL ARP_TMR_INTERVAL (diff - da) * ARP_TMR_INTERVAL - c) by lia.
  replace (di + calls di IP_TMR_INTERVAL diff * IP_TMR_INTERVAL - (da + c)) with
    (di - da + calls di IP_TMR_INTERVAL diff * IP_TMR_INTERVAL - c) by lia. exact Ar.
Qed.

(** The loop has run to its end, and no handler that was called stops. *)
Definition loop_ends (di da diff now last : Z) (s : St) (o : outcome St) : Prop :=
  exists s', o = Ret s' /\ cyclic_post di da diff now last s s' /\ forall h s1 o', called now diff s h s1 -> ~ stops h s1 o'.

(** One of the handlers that are called stops the device. *)
Definition loop_stops (now diff : Z) (s : St) (o : outcome St) : Prop :=
  exists h s1, called now diff s h s1 /\ stops h s1 o.

Lemma called_inv now diff s t s1 s2 h s3 : expires now diff s t s1 -> call (to_h t) (to_arg t) s1 = Ret s2 ->
  called now diff s h s3 -> (h = to_h t /\ s3 = s1) \/ called now (diff - to_time t) s2 h s3.
Proof.
  intros (l & E1 & E2 & ->) Hc Hd. inversion Hd as [d0 x0 t0 y0 He|d0 x0 t0 y0 y1 h0 y2 He F3 F4]; subst; destruct He as (l0 & F1 & F2 & Ex).
  - left. rewrite E1 in F1. by simplify_eq.
  - right. rewrite E1 in F1. simplify_eq. rewrite Hc in F3. by simplify_eq.
Qed.

Lemma called_none now diff s h s1 t l : next_timeout (timers s) = t :: l -> diff < to_time t -> ~ called now diff s h s1.
Proof.
  intros E Hlt Hd. inversion Hd as [d0 x0 t' y0 He|d0 x0 t' y0 y1 h0 y2 He F3 F4]; subst; destruct He as (l' & F1 & F2 & E');
    rewrite E in F1; simplify_eq; lia.
Qed.

(** A turn of the loop, and what comes after it. *)
Lemma ends_cons di da di' da' diff now last last' s t s1 s2 o :
  expires now diff s t s1 -> call (to_h t) (to_arg t) s1 = Ret s2 -> (forall o, ~ stops (to_h t) s1 o) ->
  (forall s', cyclic_post di' da' (diff - to_time t) now last' s2 s' -> cyclic_post di da diff now last s s') ->
  loop_ends di' da' (diff - to_time t) now last' s2 o \/ loop_stops now (diff - to_time t) s2 o ->
  loop_ends di da diff now last s o \/ loop_stops now diff s o.
Proof.
  intros He Hc Hn Hp [(s' & -> & P & Q)|(h & s3 & C & Ho)].
  - left. exists s'. split_and!; [done|by apply Hp|]. intros h s3 o' Hd. destruct (called_inv _ _ _ _ _ _ _ _ He Hc Hd) as [[-> ->]|Hd']; eauto.
  - right. exists h, s3. split; [|done]. by eapply called_later.
Qed.

Lemma ends_idle di da diff now last s t l last' : timers s = mkTimers (t :: l) last' -> diff < to_time t ->
  cyclic_post di da diff now last s s -> forall fuel, 
  loop_ends di da diff now last s (check_loop timers set_timers memp_free call (S fuel) now diff s).
Proof.
  intros Hs Ht P fuel. exists s. split; [|split; [done|]].
  - cbn [check_loop]. rewrite Hs. cbn [next_timeout]. by rewrite bool_decide_false by lia.
  - intros h s1 o' Hd. exfalso. eapply called_none; [|exact Ht|exact Hd]. by rewrite Hs.
Qed.

Lemma check_cyclic now fuel : forall di da diff s l last, timers s = mkTimers l last -> armed di da l -> is_u32 diff ->
  calls di IP_TMR_INTERVAL diff + calls da ARP_TMR_INTERVAL diff < Z.of_nat fuel ->
  let o := check_loop timers set_timers memp_free call fuel now diff s in
  loop_ends di da diff now last s o \/ loop_stops now diff s o.
Proof.
  induction fuel as [|fuel IH]; intros di da diff s l last Hs Harm Hdiff Hfuel o.
  { pose proof (calls_nonneg di IP_TMR_INTERVAL diff ltac:(done)). pose proof (calls_nonneg da ARP_TMR_INTERVAL diff ltac:(done)). lia. }
  unw. pose proof Harm as [Hok [Hd|Hd]]; destruct (dues_cons2 l _ _ Hok Hd) as (t & u & -> & Ht & Hth & Hta & Hu & Huh & Hua & Hle & Hmax);
    cbn [fst snd] in *.
  - destruct (decide (di <= diff)) as [Hdue|Hno].
    2: { left. apply (ends_idle _ _ _ _ _ _ t [u] last); [done|lia|apply (post_idle _ _ _ _ _ _ [t; u]); done || lia]. }
    destruct (fire H_ip_reass IP_TMR_INTERVAL 1 0 fuel now diff t u last s) as (s1 & He & [(l2 & s2 & E & Hc & Hn & T & Ok & D & N1 & N2)|Hst]);
      [by left|done|done|done|lia|unw; lia|lia| |].
    2: { right. exists H_ip_reass, s1. split; [rewrite <-Hth; by apply called_first|done]. }
    subst o. rewrite E. rewrite Hu, Huh, Hua, Ht in *. apply (ends_cons _ _ IP_TMR_INTERVAL (da - di) _ _ _ now s t s1 s2); rewrite ?Hth, ?Ht; try done.
    + intros s' P. apply (post_ip _ _ _ _ _ s s2); done || lia.
    + apply (IH _ _ _ _ l2); [done|by split|lia|]. rewrite (calls_due di) in Hfuel by done. rewrite calls_shift. lia.
  - destruct (decide (da <= diff)) as [Hdue|Hno].
    2: { left. apply (ends_idle _ _ _ _ _ _ t [u] last); [done|lia|apply (post_idle _ _ _ _ _ _ [t; u]); done || lia]. }
    destruct (fire H_arp ARP_TMR_INTERVAL 0 1 fuel now diff t u last s) as (s1 & He & [(l2 & s2 & E & Hc & Hn & T & Ok & D & N1 & N2)|Hst]);
      [by right|done|done|done|lia|unw; lia|lia| |].
    2: { right. exists H_arp, s1. split; [rewrite <-Hth; by apply called_first|done]. }
    subst o. rewrite E. rewrite Hu, Huh, Hua, Ht in *. apply (ends_cons _ _ (di - da) ARP_TMR_INTERVAL _ _ _ now s t s1 s2); rewrite ?Hth, ?Ht; try done.
    + intros s' P. apply (post_arp _ _ _ _ _ s s2); done || lia.
    + apply (IH _ _ _ _ l2); [done|split; [done|tauto]|lia|]. rewrite (calls_due da) in Hfuel by done. rewrite calls_shift. lia.
Qed.

(** C40: What [sys_check_timeouts] makes of the two timers of the configuration,
    whatever the time that has gone by: [diff] is the time since the last
    expiry, modulo 2^32.  Either none of the handlers that it calls stops; then
    it comes to an end, it has called each function exactly as often as its
    period came round within [diff], and it leaves both timers armed for a
    later time.  That time is [d + n * p - c] after the new
    [timeouts_last_time], where [c <= diff] is the time up to the last expiry:
    the rest [diff - c] is not made up for, the timers run late by it.  Or one
    of them stops, and it with it: the function of the handler does not come
    back, or there is no memory for the timer, which has just been freed and is
    asked for again, and the assertion of [sys_timeout] stops the device.  The
    loop itself never adds a third way. *)
Theorem check_timeouts_cyclic (di da now last : Z) (l : list sys_timeo) (s : St) (fuel : nat) :
  let diff := u32 (now - last) in
  let o := sys_check_timeouts timers set_timers memp_free call fuel now s in
  timers s = mkTimers l last -> armed di da l ->
  calls di IP_TMR_INTERVAL diff + calls da ARP_TMR_INTERVAL diff < Z.of_nat fuel ->
  loop_ends di da diff now last s o \/ loop_stops now diff s o.
Proof.
  intros diff o Hs Harm Hfuel. subst o. unfold sys_check_timeouts. rewrite Hs. cbn [next_timeout timeouts_last_time].
  destruct l; [destruct Harm as [_ [Hd|Hd]]; done|].
  by apply (check_cyclic now fuel di da diff s _ last Hs Harm (u32_range _) Hfuel).
Qed.

End Cyclic.

(** The timers, the two counts of calls and how often the memory still gives. *)
Definition counted : Type := Timers * (Z * Z) * nat.

Definition counted_malloc (s : counted) : option counted := match s.2 with O => None | S n => Some (s.1, n) end.

Lemma counted_malloc_keeps s s' : counted_malloc s = Some s' -> s'.1 = s.1.
Proof. unfold counted_malloc. destruct s.2; [done|]. by intros [= <-]. Qed.

Definition counted_timers (s : counted) : Timers := s.1.1.
Definition counted_set (t : Timers) (s : counted) : counted := (t, s.1.2, s.2).
Definition counted_ip (s : counted) : outcome counted := Ret (s.1.1, (s.1.2.1 + 1, s.1.2.2), s.2).
Definition counted_arp (s : counted) : outcome counted := Ret (s.1.1, (s.1.2.1, s.1.2.2 + 1), s.2).

(** 7.4 s after the start, with memory for [n] timers. *)
Definition counted_start (n : nat) : counted := (mkTimers [mkTimeo 1000 1 0; mkTimeo 4000 2 0] 100, (0, 0), n).
Definition counted_check (n : nat) : outcome counted :=
  sys_check_timeouts counted_timers counted_set id
    (timer_call counted_timers counted_set counted_malloc counted_ip counted_arp) 9 7500 (counted_start n).

(** Seven calls and one; the timers, due at 8000 and 10000, are armed for 1 s
    and 3 s later, 0.4 s late.  With memory for three only, the device stops. *)
Lemma check_timeouts_cyclic_witness :
  counted_check 8 = Ret (mkTimers [mkTimeo 1000 1 0; mkTimeo 2000 2 0] 7500, (7, 1), 0%nat) /\ counted_check 3 = Spin /\
  exists s', counted_check 8 = Ret s' /\ s'.1.2.1 = 7.
Proof.
  assert (forall s s', counted_malloc s = Some s' -> counted_timers s' = counted_timers s /\ s'.1.2.1 = s.1.2.1 /\ s'.1.2.2 = s.1.2.2) as Hm
    by (intros s s' E; unfold counted_timers; by rewrite (counted_malloc_keeps _ _ E)).
  assert (forall s s', counted_ip s = Ret s' -> s'.1.2.1 = s.1.2.1 + 1 /\ s'.1.2.2 = s.1.2.2 /\ counted_timers s' = counted_timers s) as Hi
    by (intros s s' [= <-]; done).
  assert (forall s s', counted_arp s = Ret s' -> s'.1.2.1 = s.1.2.1 /\ s'.1.2.2 = s.1.2.2 + 1 /\ counted_timers s' = counted_timers s) as Hr
    by (intros s s' [= <-]; done).
  assert (counted_check 8 = Ret (mkTimers [mkTimeo 1000 1 0; mkTimeo 2000 2 0] 7500, (7, 1), 0%nat)) as E8 by (vm_compute; reflexivity).
  split; [exact E8|]. split; [vm_compute; reflexivity|].
  assert (calls 1000 IP_TMR_INTERVAL (u32 (7500 - 100)) + calls 5000 ARP_TMR_INTERVAL (u32 (7500 - 100)) < Z.of_nat 9) as Hf by (vm_compute; done).
  assert (armed 1000 5000 [mkTimeo 1000 1 0; mkTimeo 4000 2 0]) as Ha by (split; [cbn; lia|by left]).
  pose proof (check_timeouts_cyclic counted_timers counted_set counted_malloc id counted_ip counted_arp (fun s => s.1.2.1) (fun s => s.1.2.2)
    (fun _ _ => eq_refl) (fun _ _ => conj eq_refl eq_refl) Hm (fun _ => conj eq_refl (conj eq_refl eq_refl)) Hi Hr
    1000 5000 7500 100 [mkTimeo 1000 1 0; mkTimeo 4000 2 0] (counted_start 8) 9 eq_refl Ha Hf) as H.
  change (loop_ends counted_timers counted_set counted_malloc id counted_ip counted_arp (fun s => s.1.2.1) (fun s => s.1.2.2)
      1000 5000 (u32 (7500 - 100)) 7500 100 (counted_start 8) (counted_check 8) \/
    loop_stops counted_timers counted_set counted_malloc id counted_ip counted_arp 7500 (u32 (7500 - 100)) (counted_start 8) (counted_check 8)) in H.
  rewrite E8 in H. destruct H as [(s' & E & (c & l' & _ & _ & _ & N & _) & _)|(h & s1 & _ & Hst)].
  - exists s'. rewrite E8. split; [exact E|]. etrans; [exact N|]. vm_compute. reflexivity.
  - exfalso. unfold stops in Hst. destruct (bool_decide (h = H_ip_reass)); cbn in Hst; by destruct Hst.
Defined.
