(* ===== verification/Pbuf.v ===== *)
(** * Packet buffers ([src/lwip/src/core/pbuf.c])

    A packet is a chain of buffers with reference counts; the memory comes from
    [malloc], as configured ([MEM_LIBC_MALLOC], [MEMP_MEM_MALLOC]).  The state
    is the memory: the buffers by address, the blocks of data, and the
    functions that free custom buffers.  Here the operations that allocate,
    free, link and resize, what a packet in memory is, and the theorems on
    allocation and release; [PbufOps] has those on the other operations,
    [PbufData] the operations that copy and compare. *)

From stdpp Require Import gmap.
From S2P Require Import Prelude LwipDef.

Definition MEM_ALIGNMENT : Z := 4.
Definition LWIP_MEM_ALIGN_SIZE (size : Z) : Z := Z.land (size + MEM_ALIGNMENT - 1) (Z.lnot (MEM_ALIGNMENT - 1)).
Definition LWIP_MEM_ALIGN (addr : Z) : Z := Z.land (addr + MEM_ALIGNMENT - 1) (Z.lnot (MEM_ALIGNMENT - 1)).
Definition TCP_MSS : Z := 1460.
Definition PBUF_LINK_HLEN : Z := 14.
Definition PBUF_IP_HLEN : Z := 20.
Definition PBUF_TRANSPORT_HLEN : Z := 20.
Definition PBUF_POOL_BUFSIZE : Z := LWIP_MEM_ALIGN_SIZE (TCP_MSS + 40 + PBUF_LINK_HLEN).
Definition PBUF_POOL_BUFSIZE_ALIGNED : Z := LWIP_MEM_ALIGN_SIZE PBUF_POOL_BUFSIZE.
(** Two pointers, two [u16_t], two [u8_t] and a [u16_t]. *)
Definition sizeof_pbuf : Z := 16.
Definition SIZEOF_STRUCT_PBUF : Z := LWIP_MEM_ALIGN_SIZE sizeof_pbuf.
Definition MEMP_PBUF : Z := SIZEOF_STRUCT_PBUF.
Definition MEMP_PBUF_POOL : Z := SIZEOF_STRUCT_PBUF + LWIP_MEM_ALIGN_SIZE PBUF_POOL_BUFSIZE.

Definition PBUF_FLAG_IS_CUSTOM : Z := 0x02.
Definition PBUF_FLAG_LLBCAST : Z := 0x08.
Definition PBUF_FLAG_LLMCAST : Z := 0x10.

Inductive pbuf_layer := PBUF_TRANSPORT | PBUF_IP | PBUF_LINK | PBUF_RAW.
Inductive pbuf_type := PBUF_RAM | PBUF_ROM | PBUF_REF | PBUF_POOL.

#[export] Instance pbuf_type_eq_dec : EqDecision pbuf_type.
Proof. solve_decision. Defined.

(** A pointer to data: the block and the offset in it.  The data of a buffer
    that has memory of its own are the block with its address, counted from
    the end of the structure. *)
Definition ptr : Type := Z * Z.
Definition null_ptr : ptr := (0, 0).

Record pbuf := mkPbuf {
  p_next : Z;          (* address, 0: null *)
  p_payload : ptr;
  p_tot_len : Z;       (* u16_t *)
  p_len : Z;           (* u16_t *)
  p_type : pbuf_type;
  p_flags : Z;         (* u8_t *)
  p_ref : Z;           (* u16_t *)
}.

Definition p_set_next x (b : pbuf) : pbuf := mkPbuf x (p_payload b) (p_tot_len b) (p_len b) (p_type b) (p_flags b) (p_ref b).
Definition p_set_payload x (b : pbuf) : pbuf := mkPbuf (p_next b) x (p_tot_len b) (p_len b) (p_type b) (p_flags b) (p_ref b).
Definition p_set_tot_len x (b : pbuf) : pbuf := mkPbuf (p_next b) (p_payload b) x (p_len b) (p_type b) (p_flags b) (p_ref b).
Definition p_set_len x (b : pbuf) : pbuf := mkPbuf (p_next b) (p_payload b) (p_tot_len b) x (p_type b) (p_flags b) (p_ref b).
Definition p_set_type x (b : pbuf) : pbuf := mkPbuf (p_next b) (p_payload b) (p_tot_len b) (p_len b) x (p_flags b) (p_ref b).
Definition p_set_flags x (b : pbuf) : pbuf := mkPbuf (p_next b) (p_payload b) (p_tot_len b) (p_len b) (p_type b) x (p_ref b).
Definition p_set_ref x (b : pbuf) : pbuf := mkPbuf (p_next b) (p_payload b) (p_tot_len b) (p_len b) (p_type b) (p_flags b) x.

Record Heap := mkHeap {
  pbufs : gmap Z pbuf;
  mem : gmap Z (list Z);
  customs : gmap Z (Z * Z);             (* custom_free_function and original *)
}.

Definition h_set_pbufs x (h : Heap) : Heap := mkHeap x (mem h) (customs h).
Definition h_set_mem x (h : Heap) : Heap := mkHeap (pbufs h) x (customs h).

Definition get (p : Z) (h : Heap) : outcome pbuf := checked (pbufs h !! p).
Definition put (p : Z) (b : pbuf) (h : Heap) : Heap := h_set_pbufs (<[p := b]> (pbufs h)) h.
Definition upd (p : Z) (f : pbuf -> pbuf) (h : Heap) : outcome Heap := b ← get p h; Ret (put p (f b) h).

(** The allocator of the C library: [malloc] gives the address of a free block
    of the size or nothing; what is in the block is arbitrary.
    [run_custom_free f p]: a call of the function [f] of a custom buffer. *)
Class Malloc := {
  malloc : Z -> Heap -> option Z;
  junk_pbuf : Z -> pbuf;
  junk_mem : Z -> Z -> list Z;
  run_custom_free : Z -> Z -> Heap -> outcome Heap;
}.

(** What the C standard says about [malloc] and what the heap relies on. *)
Class MallocLaws (M : Malloc) := {
  malloc_fresh n h a : malloc n h = Some a ->
    0 < a /\ a mod 8 = 0 /\ pbufs h !! a = None /\ mem h !! a = None;
  junk_length a n : length (junk_mem a n) = Z.to_nat n;
  junk_bytes a n : bytes (junk_mem a n);
}.

Section Pbuf.
Context `{Malloc}.

Definition mem_malloc (size : Z) (h : Heap) : option (Z * Heap) :=
  match malloc size h with
  | None => None
  | Some a => Some (a, mkHeap (<[a := junk_pbuf a]> (pbufs h)) (<[a := junk_mem a (size - SIZEOF_STRUCT_PBUF)]> (mem h))
                         (customs h))
  end.
Definition mem_free (p : Z) (h : Heap) : Heap :=
  mkHeap (delete p (pbufs h)) (delete p (mem h)) (customs h).
Definition memp_malloc (size : Z) (h : Heap) : option (Z * Heap) := mem_malloc size h.
Definition memp_free (p : Z) (h : Heap) : Heap := mem_free p h.
Definition mem_trim (p size : Z) (h : Heap) : Z * Heap := (p, h).

(** Nothing, without TCP. *)
Definition PBUF_POOL_IS_EMPTY (h : Heap) : Heap := h.

(** A loop over a chain passes each buffer at most once, unless the chain comes
    back to itself. *)
Definition chain_fuel (h : Heap) : nat := S (size (pbufs h)).

Definition is_custom (b : pbuf) : bool := bool_decide (Z.land (p_flags b) PBUF_FLAG_IS_CUSTOM <> 0).

Fixpoint free_loop (fuel : nat) (p count : Z) (h : Heap) : outcome (Heap * Z) :=
  if bool_decide (p = 0) then Ret (h, count) else
  match fuel with
  | O => Spin
  | S fuel =>
      b ← get p h;
      _ ← LWIP_ASSERT (bool_decide (p_ref b > 0));
      let ref := u16 (p_ref b - 1) in
      let h := put p (p_set_ref ref b) h in
      if bool_decide (ref = 0) then
        let q := p_next b in
        h ← (if is_custom b
             then '(f, _) ← checked (customs h !! p); _ ← LWIP_ASSERT (bool_decide (f <> 0)); run_custom_free f p h
             else Ret (match p_type b with
                       | PBUF_POOL => memp_free p h
                       | PBUF_ROM | PBUF_REF => memp_free p h
                       | PBUF_RAM => mem_free p h
                       end));
        free_loop fuel q (u8 (count + 1)) h
      else Ret (h, count)
  end.

Definition pbuf_free (p : Z) (h : Heap) : outcome (Heap * Z) :=
  _ ← LWIP_ASSERT (bool_decide (p <> 0));
  _ ← get p h;
  free_loop (chain_fuel h) p 0 h.

(** ** Allocation *)

Definition layer_offset (layer : pbuf_layer) : Z :=
  match layer with
  | PBUF_TRANSPORT => PBUF_LINK_HLEN + PBUF_IP_HLEN + PBUF_TRANSPORT_HLEN
  | PBUF_IP => PBUF_LINK_HLEN + PBUF_IP_HLEN
  | PBUF_LINK => PBUF_LINK_HLEN
  | PBUF_RAW => 0
  end.

(** "p->payload + p->len does not overflow pbuf". *)
Definition head_fits (p : Z) (b : pbuf) : bool :=
  bool_decide ((p_payload b).1 = p /\ (p_payload b).2 + p_len b <= PBUF_POOL_BUFSIZE_ALIGNED).

(** The rest of a chain from the pool: [rem_len] bytes behind [r]; [false]:
    no memory, the buffers are freed again. *)
Fixpoint pool_loop (fuel : nat) (p r rem_len : Z) (h : Heap) : outcome (Heap * bool) :=
  if bool_decide (rem_len > 0) then
    match fuel with
    | O => Spin
    | S fuel =>
        match memp_malloc MEMP_PBUF_POOL h with
        | None => '(h, _) ← pbuf_free p (PBUF_POOL_IS_EMPTY h); Ret (h, false)
        | Some (q, h) =>
            h ← upd q (fun b => p_set_next 0 (p_set_flags 0 (p_set_type PBUF_POOL b))) h;
            h ← upd r (p_set_next q) h;
            _ ← LWIP_ASSERT (bool_decide (rem_len < 0xffff));
            let len := Z.min (u16 rem_len) PBUF_POOL_BUFSIZE_ALIGNED in
            h ← upd q (fun b => p_set_payload (q, 0) (p_set_len len (p_set_tot_len (u16 rem_len) b))) h;
            _ ← LWIP_ASSERT (bool_decide ((q + SIZEOF_STRUCT_PBUF) mod MEM_ALIGNMENT = 0));
            b ← get p h; _ ← LWIP_ASSERT (head_fits p b);
            h ← upd q (p_set_ref 1) h;
            pool_loop fuel p q (rem_len - len) h
        end
    end
  else Ret (h, true).

Definition alloc_pool (offset length : Z) (h : Heap) : outcome (Heap * Z) :=
  match memp_malloc MEMP_PBUF_POOL h with
  | None => Ret (PBUF_POOL_IS_EMPTY h, 0)
  | Some (p, h) =>
      let payload := LWIP_MEM_ALIGN (p + (SIZEOF_STRUCT_PBUF + offset)) in
      let len := Z.min length (PBUF_POOL_BUFSIZE_ALIGNED - LWIP_MEM_ALIGN_SIZE offset) in
      h ← upd p (fun b => p_set_payload (p, payload - (p + SIZEOF_STRUCT_PBUF)) (p_set_next 0 (p_set_type PBUF_POOL b))) h;
      _ ← LWIP_ASSERT (bool_decide (payload mod MEM_ALIGNMENT = 0));
      h ← upd p (fun b => p_set_len len (p_set_tot_len length b)) h;
      b ← get p h; _ ← LWIP_ASSERT (head_fits p b);
      _ ← LWIP_ASSERT (bool_decide (PBUF_POOL_BUFSIZE_ALIGNED - LWIP_MEM_ALIGN_SIZE offset > 0));
      h ← upd p (p_set_ref 1) h;
      '(h, ok) ← pool_loop (Z.to_nat length) p p (length - len) h;
      Ret (h, if (ok : bool) then p else 0)
  end.

Definition alloc_ram (offset length : Z) (h : Heap) : outcome (Heap * Z) :=
  match mem_malloc (LWIP_MEM_ALIGN_SIZE (SIZEOF_STRUCT_PBUF + offset) + LWIP_MEM_ALIGN_SIZE length) h with
  | None => Ret (h, 0)
  | Some (p, h) =>
      let payload := LWIP_MEM_ALIGN (p + SIZEOF_STRUCT_PBUF + offset) in
      h ← upd p (fun b => p_set_type PBUF_RAM (p_set_next 0 (p_set_len length (p_set_tot_len length
              (p_set_payload (p, payload - (p + SIZEOF_STRUCT_PBUF)) b))))) h;
      _ ← LWIP_ASSERT (bool_decide (payload mod MEM_ALIGNMENT = 0));
      Ret (h, p)
  end.

Definition alloc_ref (length : Z) (type : pbuf_type) (h : Heap) : outcome (Heap * Z) :=
  match memp_malloc MEMP_PBUF h with
  | None => Ret (h, 0)
  | Some (p, h) =>
      h ← upd p (fun b => p_set_type type (p_set_next 0 (p_set_len length (p_set_tot_len length (p_set_payload null_ptr b))))) h;
      Ret (h, p)
  end.

Definition pbuf_alloc (layer : pbuf_layer) (length : Z) (type : pbuf_type) (h : Heap) : outcome (Heap * Z) :=
  let offset := layer_offset layer in
  '(h, p) ← match type with
            | PBUF_POOL => alloc_pool offset length h
            | PBUF_RAM => alloc_ram offset length h
            | PBUF_ROM | PBUF_REF => alloc_ref length type h
            end;
  if bool_decide (p = 0) then Ret (h, 0)
  else h ← upd p (fun b => p_set_flags 0 (p_set_ref 1 b)) h; Ret (h, p).

(** The structure of a custom buffer is memory of the caller; it gets the
    function that frees it from the caller as well. *)
Definition pbuf_alloced_custom (l : pbuf_layer) (length : Z) (type : pbuf_type) (p : Z) (payload_mem : ptr) (payload_mem_len : Z) (h : Heap)
  : outcome (Heap * Z) :=
  let offset := layer_offset l in
  if bool_decide (LWIP_MEM_ALIGN_SIZE offset + length > payload_mem_len) then Ret (h, 0)
  else
    h ← upd p (fun b => mkPbuf 0
          (if bool_decide (payload_mem <> null_ptr) then (payload_mem.1, payload_mem.2 + LWIP_MEM_ALIGN_SIZE offset) else null_ptr)
          length length type PBUF_FLAG_IS_CUSTOM 1) h;
    Ret (h, p).

(** ** Resizing *)

(** The loop steps over the buffers that stay; it gives the new last one and
    how much of it stays. *)
Fixpoint realloc_loop (fuel : nat) (q rem_len grow : Z) (h : Heap) : outcome (Heap * Z * Z) :=
  b ← get q h;
  if bool_decide (rem_len > p_len b) then
    match fuel with
    | O => Spin
    | S fuel =>
        _ ← LWIP_ASSERT (bool_decide (grow < 0xffff));
        let h := put q (p_set_tot_len (u16 (p_tot_len b + u16 grow)) b) h in
        _ ← LWIP_ASSERT (bool_decide (p_next b <> 0));
        realloc_loop fuel (p_next b) (u16 (rem_len - p_len b)) grow h
    end
  else Ret (h, q, rem_len).

(** The new last buffer [q] is cut, those behind it are freed. *)
Definition realloc_end (q rem_len : Z) (h : Heap) : outcome Heap :=
  b ← get q h;
  '(q, h) ← Ret (if bool_decide (p_type b = PBUF_RAM /\ rem_len <> p_len b)
                 then mem_trim q (u16 ((p_payload b).2 + SIZEOF_STRUCT_PBUF) + rem_len) h else (q, h));
  _ ← LWIP_ASSERT (bool_decide (q <> 0));
  h ← upd q (fun b => p_set_tot_len rem_len (p_set_len rem_len b)) h;
  b ← get q h;
  h ← (if bool_decide (p_next b <> 0) then '(h, _) ← pbuf_free (p_next b) h; Ret h else Ret h);
  upd q (p_set_next 0) h.

Definition pbuf_realloc (p new_len : Z) (h : Heap) : outcome Heap :=
  _ ← LWIP_ASSERT (bool_decide (p <> 0));
  b ← get p h;
  if bool_decide (new_len >= p_tot_len b) then Ret h
  else
    '(h, q, rem_len) ← realloc_loop (chain_fuel h) p new_len (new_len - p_tot_len b) h;
    realloc_end q rem_len h.

(** The second component: non-zero on failure. *)
Definition pbuf_header (p incr : Z) (h : Heap) : outcome (Heap * Z) :=
  _ ← LWIP_ASSERT (bool_decide (p <> 0));
  if bool_decide (incr = 0) then Ret (h, 0) else
  b ← get p h;
  increment_magnitude ← (if bool_decide (incr < 0)
                         then _ ← LWIP_ASSERT (bool_decide (u16 (- incr) <= p_len b)); Ret (u16 (- incr))
                         else Ret (u16 incr));
  let moved := ((p_payload b).1, (p_payload b).2 - incr) in
  let done := p_set_tot_len (u16 (p_tot_len b + incr)) (p_set_len (u16 (p_len b + incr)) (p_set_payload moved b)) in
  match p_type b with
  | PBUF_RAM | PBUF_POOL =>
      if bool_decide (moved.1 = p) then
        if bool_decide (moved.2 < 0) then Ret (h, 1) else Ret (put p done h, 0)
      else Fault
  | PBUF_REF | PBUF_ROM =>
      if bool_decide (incr < 0 /\ increment_magnitude <= p_len b) then Ret (put p done h, 0) else Ret (h, 1)
  end.

(** ** Links and references *)

Fixpoint clen_loop (fuel : nat) (p len : Z) (h : Heap) : outcome Z :=
  if bool_decide (p = 0) then Ret len else
  match fuel with
  | O => Spin
  | S fuel => b ← get p h; clen_loop fuel (p_next b) (u8 (len + 1)) h
  end.

Definition pbuf_clen (p : Z) (h : Heap) : outcome Z := clen_loop (chain_fuel h) p 0 h.

Definition pbuf_ref (p : Z) (h : Heap) : outcome Heap :=
  if bool_decide (p <> 0) then upd p (fun b => p_set_ref (u16 (p_ref b + 1)) b) h else Ret h.

(** The loop to the last buffer of a chain. *)
Fixpoint cat_loop (fuel : nat) (p t : Z) (h : Heap) : outcome (Heap * Z) :=
  b ← get p h;
  if bool_decide (p_next b <> 0) then
    match fuel with
    | O => Spin
    | S fuel => bt ← get t h; cat_loop fuel (p_next b) t (put p (p_set_tot_len (u16 (p_tot_len b + p_tot_len bt)) b) h)
    end
  else Ret (h, p).

Definition pbuf_cat (hd t : Z) (h : Heap) : outcome Heap :=
  _ ← LWIP_ASSERT (bool_decide (hd <> 0) && bool_decide (t <> 0));
  '(h, p) ← cat_loop (chain_fuel h) hd t h;
  b ← get p h;
  _ ← LWIP_ASSERT (bool_decide (p_tot_len b = p_len b));
  _ ← LWIP_ASSERT (bool_decide (p_next b = 0));
  bt ← get t h;
  upd p (fun b => p_set_next t (p_set_tot_len (u16 (p_tot_len b + p_tot_len bt)) b)) h.

Definition pbuf_chain (hd t : Z) (h : Heap) : outcome Heap := h ← pbuf_cat hd t h; pbuf_ref t h.

(** The rest of the chain, or null when it was freed. *)
Definition pbuf_dechain (p : Z) (h : Heap) : outcome (Heap * Z) :=
  b ← get p h;
  let q := p_next b in
  '(h, tail_gone) ← (if bool_decide (q <> 0) then
                       bq ← get q h;
                       _ ← LWIP_ASSERT (bool_decide (p_tot_len bq = p_tot_len b - p_len b));
                       h ← upd q (p_set_tot_len (u16 (p_tot_len b - p_len b))) h;
                       h ← upd p (fun b => p_set_tot_len (p_len b) (p_set_next 0 b)) h;
                       pbuf_free q h
                     else Ret (h, 1));
  b ← get p h;
  _ ← LWIP_ASSERT (bool_decide (p_tot_len b = p_len b));
  Ret (h, if bool_decide (tail_gone > 0) then 0 else q).

End Pbuf.

(** ** Packets in memory

    A segment: the address of a buffer, the block its data are in, the data. *)
Record seg := mkSeg { sg_a : Z; sg_base : Z; sg_data : list Z }.

Definition seg_len (s : seg) : Z := Z.of_nat (length (sg_data s)).
Fixpoint data (l : list seg) : list Z := match l with [] => [] | s :: l => sg_data s ++ data l end.
Definition data_len (l : list seg) : Z := Z.of_nat (length (data l)).

(** Buffer [b] at the address of [s] holds the data of [s]. *)
Definition holds (h : Heap) (s : seg) (b : pbuf) : Prop :=
  pbufs h !! sg_a s = Some b /\ (p_payload b).1 = sg_base s /\ p_len b = seg_len s /\
  exists m, mem h !! sg_base s = Some m /\ slice m (p_payload b).2 (p_len b) = Some (sg_data s).

(** The segments [l] from [p] on, with [q] behind the last one and [n] bytes
    expected there. *)
Fixpoint packet_seg (h : Heap) (p : Z) (l : list seg) (q n : Z) : Prop :=
  match l with
  | [] => p = q
  | s :: l => p = sg_a s /\ p <> 0 /\ exists b, holds h s b /\
      p_tot_len b = seg_len s + data_len l + n /\ packet_seg h (p_next b) l q n
  end.

(** A whole packet. *)
Definition packet (h : Heap) (p : Z) (l : list seg) : Prop := packet_seg h p l 0 0 /\ data_len l < 65536.

(** Buffers with memory of their own. *)
Definition own_mem (l : list seg) : Prop := Forall (fun s => sg_base s = sg_a s) l.

Lemma data_app l1 l2 : data (l1 ++ l2) = data l1 ++ data l2.
Proof. induction l1 as [|s l1 IH]; cbn [app data]; [done|]. by rewrite IH, app_assoc. Qed.

Lemma data_len_app l1 l2 : data_len (l1 ++ l2) = data_len l1 + data_len l2.
Proof. unfold data_len. rewrite data_app, length_app. lia. Qed.

Lemma data_len_cons s l : data_len (s :: l) = seg_len s + data_len l.
Proof. unfold data_len, seg_len. cbn [data]. rewrite length_app. lia. Qed.

Lemma data_len_nonneg l : 0 <= data_len l.
Proof. unfold data_len. lia. Qed.

Lemma seg_len_nonneg s : 0 <= seg_len s.
Proof. unfold seg_len. lia. Qed.

Lemma packet_seg_app h l1 : forall p q r n l2,
  packet_seg h p l1 q (data_len l2 + n) -> packet_seg h q l2 r n -> packet_seg h p (l1 ++ l2) r n.
Proof.
  induction l1 as [|s l1 IH]; intros p q r n l2 H1 H2; cbn [packet_seg app] in *; [by subst|].
  destruct H1 as (-> & Hp & b & Hb & Ht & H1). split_and!; [done|done|]. exists b. split_and!; [done| |by eapply IH].
  rewrite data_len_app. lia.
Qed.

Lemma packet_seg_split h l1 : forall p r n l2, packet_seg h p (l1 ++ l2) r n ->
  exists q, packet_seg h p l1 q (data_len l2 + n) /\ packet_seg h q l2 r n.
Proof.
  induction l1 as [|s l1 IH]; intros p r n l2 Hs; cbn [packet_seg app] in *; [eauto|].
  destruct Hs as (-> & Hp & b & Hb & Ht & Hs). destruct (IH _ _ _ _ Hs) as (q & H1 & H2).
  exists q. split; [|done]. split_and!; [done|done|]. exists b. split_and!; [done| |done]. rewrite data_len_app in Ht. lia.
Qed.

(** Only the buffers and blocks of a packet matter to it. *)
Lemma packet_seg_frame h h' l : forall p q n, packet_seg h p l q n ->
  (forall s, s ∈ l -> pbufs h' !! sg_a s = pbufs h !! sg_a s /\ mem h' !! sg_base s = mem h !! sg_base s) -> packet_seg h' p l q n.
Proof.
  induction l as [|s l IH]; intros p q n Hs Hf; cbn [packet_seg] in *; [done|].
  destruct Hs as (-> & Hp & b & (Hb & Hbase & Hl & m & Hm & Hd) & Ht & Hs). destruct (Hf s) as [F1 F2]; [by left|].
  split_and!; [done|done|]. exists b. split_and!; [|done|apply IH; [done|intros; apply Hf; by right]].
  split; [by rewrite F1|]. split_and!; [done|done|]. exists m. by rewrite F2.
Qed.

Lemma packet_seg_put h a b l p q n : packet_seg h p l q n -> a ∉ map sg_a l -> packet_seg (put a b h) p l q n.
Proof.
  intros Hs Ha. eapply packet_seg_frame; [done|]. intros s Hin. cbn. split; [|done].
  apply lookup_insert_ne. intros ->. apply Ha. apply list_elem_of_fmap. eauto.
Qed.

Lemma packet_seg_live h l : forall p q n, packet_seg h p l q n -> forall s, s ∈ l -> exists b, holds h s b /\ sg_a s <> 0.
Proof.
  induction l as [|t l IH]; intros p q n Hs s; cbn [packet_seg] in *; [by rewrite elem_of_nil|].
  destruct Hs as (-> & Hp & b & Hb & _ & Hs). intros [->|]%elem_of_cons; [eauto|by eapply IH].
Qed.

(** Only the links: the addresses of the buffers from [p] on, with [q] behind. *)
Fixpoint linked (h : Heap) (p : Z) (l : list Z) (q : Z) : Prop :=
  match l with
  | [] => p = q
  | a :: l => p = a /\ p <> 0 /\ exists b, pbufs h !! a = Some b /\ linked h (p_next b) l q
  end.

Lemma packet_seg_linked h l : forall p q n, packet_seg h p l q n -> linked h p (map sg_a l) q.
Proof.
  induction l as [|s l IH]; intros p q n Hs; cbn [packet_seg linked map] in *; [done|].
  destruct Hs as (-> & Hp & b & (Hb & _) & _ & Hs). split_and!; [done|done|]. exists b. split; [done|by eapply IH].
Qed.

Lemma linked_frame h h' l : forall p q, linked h p l q -> (forall a, a ∈ l -> pbufs h' !! a = pbufs h !! a) -> linked h' p l q.
Proof.
  induction l as [|a l IH]; intros p q Hl Hf; cbn [linked] in *; [done|]. destruct Hl as (-> & Hp & b & Hb & Hl).
  split_and!; [done|done|]. exists b. split; [rewrite Hf; [done|by left]|apply IH; [done|intros; apply Hf; by right]].
Qed.

Lemma linked_split h l1 : forall p l2 q, linked h p (l1 ++ l2) q <-> exists r, linked h p l1 r /\ linked h r l2 q.
Proof.
  induction l1 as [|a l1 IH]; intros p l2 q; cbn [linked app]; [naive_solver|]. setoid_rewrite IH. naive_solver.
Qed.

(** A chain with an end does not come back to itself. *)
Lemma linked_length h l1 : forall p l2, linked h p l1 0 -> linked h p l2 0 -> length l1 = length l2.
Proof.
  induction l1 as [|a l1 IH]; intros p l2 H1 H2; destruct l2 as [|a' l2]; cbn [linked] in *; try naive_solver.
Qed.

Lemma linked_NoDup h l : forall p, linked h p l 0 -> NoDup l.
Proof.
  induction l as [|a l IH]; intros p Hs; [constructor|]. pose proof Hs as (-> & Hp & b & Hb & Hl).
  constructor; [|by eapply IH]. intros Hin. apply list_elem_of_split in Hin as (l1 & l2 & ->).
  apply linked_split in Hl as (r & _ & Hr). pose proof (proj1 Hr) as ->.
  pose proof (linked_length _ _ _ _ Hs Hr) as E. rewrite !length_cons, length_app, length_cons in E. lia.
Qed.

Lemma linked_live h l : forall p q, linked h p l q -> forall a, a ∈ l -> a <> 0 /\ exists b, pbufs h !! a = Some b.
Proof.
  induction l as [|a' l IH]; intros p q Hs a; cbn [linked] in *; [by rewrite elem_of_nil|].
  destruct Hs as (-> & Hp & b & Hb & Hs). intros [->|]%elem_of_cons; [eauto|by eapply IH].
Qed.

Lemma linked_fuel h l p : linked h p l 0 -> (length l < chain_fuel h)%nat.
Proof.
  intros Hs. unfold chain_fuel. pose proof (linked_NoDup _ _ _ Hs) as Hn.
  assert (list_to_set l ⊆ dom (pbufs h)) as Hsub.
  { intros a. rewrite elem_of_list_to_set, elem_of_dom. intros Hin.
    destruct (linked_live _ _ _ _ Hs a Hin) as (_ & b & Hb). by exists b. }
  apply subseteq_size in Hsub. rewrite size_list_to_set, size_dom in Hsub by done. lia.
Qed.

(** ** Freeing *)

Definition each (h : Heap) (P : pbuf -> Prop) (l : list Z) : Prop := Forall (fun a => exists b, pbufs h !! a = Some b /\ P b) l.

Lemma each_frame h h' P l : each h P l -> (forall a, a ∈ l -> pbufs h' !! a = pbufs h !! a) -> each h' P l.
Proof. unfold each. rewrite !Forall_forall. intros He Hf a Ha. rewrite Hf by done. by apply He. Qed.

Lemma each_impl h (P Q : pbuf -> Prop) l : each h P l -> (forall b, P b -> Q b) -> each h Q l.
Proof. unfold each. intros He Hi. eapply Forall_impl; [exact He|]. naive_solver. Qed.

(** One reference, and freed as the other buffers are. *)
Definition solid (b : pbuf) : Prop := p_ref b = 1 /\ is_custom b = false.

(** The blocks of [l] given back. *)
Fixpoint release (l : list Z) (h : Heap) : Heap :=
  match l with [] => h | a :: l => release l (mem_free a h) end.

(** One pointer less to the buffer at [q], if there is one. *)
Definition unref (q : Z) (h : Heap) : Heap :=
  match pbufs h !! q with Some b => put q (p_set_ref (p_ref b - 1) b) h | None => h end.

Lemma release_lookup l : forall h a,
  pbufs (release l h) !! a = (if bool_decide (a ∈ l) then None else pbufs h !! a) /\
  mem (release l h) !! a = (if bool_decide (a ∈ l) then None else mem h !! a).
Proof.
  induction l as [|s l IH]; intros h a; cbn [release]; [by rewrite bool_decide_false by apply not_elem_of_nil|].
  destruct (IH (mem_free s h) a) as [-> ->]. cbn [pbufs mem mem_free].
  destruct (decide (a ∈ l)) as [Hin|Hin].
  { rewrite !bool_decide_true; [done|by right|done]. }
  rewrite (bool_decide_false (a ∈ l)) by done. destruct (decide (a = s)) as [->|Hne].
  - rewrite bool_decide_true by left. by rewrite !lookup_delete_eq.
  - rewrite bool_decide_false by (rewrite elem_of_cons; tauto). by rewrite !lookup_delete_ne by done.
Qed.

Lemma release_rest l : forall h, customs (release l h) = customs h.
Proof. induction l as [|s l IH]; intros h; cbn [release]; [done|]. apply (IH (mem_free s h)). Qed.

Lemma heap_ext (h h' : Heap) : pbufs h = pbufs h' -> mem h = mem h' -> customs h = customs h' -> h = h'.
Proof. destruct h, h'; cbn; intros; by subst. Qed.

Section Free.
Context `{Malloc}.

Lemma free_loop_spec l : forall fuel p q count h, linked h p l q -> each h solid l -> NoDup l -> q ∉ l -> (length l < fuel)%nat ->
  pbufs h !! 0 = None -> (q <> 0 -> exists b, pbufs h !! q = Some b /\ 1 < p_ref b < 65536) -> is_u8 count ->
  free_loop fuel p count h = Ret (unref q (release l h), u8 (count + Z.of_nat (length l))).
Proof.
  induction l as [|a l IH]; intros fuel p q count h Hs He Hn Hq Hf H0 Hb Hc; (destruct fuel as [|fuel]; [lia|]); cbn [free_loop linked] in *.
  - subst p. unfold unref. cbn [release length]. rewrite Z.add_0_r, (u8_id count) by done.
    case_bool_decide as E; [by rewrite E, H0|]. destruct (Hb E) as (b & Hqb & Hr).
    unfold get. rewrite Hqb. cbn [checked mbind outcome_bind]. rewrite (bool_decide_true (p_ref b > 0)) by lia. cbn [LWIP_ASSERT mbind outcome_bind].
    rewrite (u16_id (p_ref b - 1)) by (unw; lia). by rewrite (bool_decide_false (p_ref b - 1 = 0)) by lia.
  - destruct Hs as (-> & Hp & b & Hsb & Hs). rewrite bool_decide_false by done.
    apply Forall_cons in He as [(b' & Hb' & Hr & Hcu) He]. rewrite Hsb in Hb'. injection Hb' as <-.
    unfold get. rewrite Hsb. cbn [checked mbind outcome_bind]. rewrite Hr. rewrite (bool_decide_true (1 > 0)) by lia. cbn [LWIP_ASSERT mbind outcome_bind].
    change (u16 (1 - 1)) with 0. rewrite (bool_decide_true (0 = 0)) by done. rewrite Hcu. cbn [mbind outcome_bind].
    assert ((match p_type b with PBUF_POOL => memp_free a (put a (p_set_ref 0 b) h)
      | PBUF_ROM | PBUF_REF => memp_free a (put a (p_set_ref 0 b) h)
      | PBUF_RAM => mem_free a (put a (p_set_ref 0 b) h) end) = mem_free a h) as ->.
    { destruct (p_type b); unfold memp_free, mem_free, put, h_set_pbufs; cbn; by rewrite delete_insert_eq. }
    apply NoDup_cons in Hn as [Hsl Hn]. rewrite not_elem_of_cons in Hq. destruct Hq as [Hqs Hq]. cbn [release length] in *.
    assert (forall x, x <> a -> pbufs (mem_free a h) !! x = pbufs h !! x) as Hfr by (intros; by apply lookup_delete_ne).
    assert (forall x, x ∈ l -> pbufs (mem_free a h) !! x = pbufs h !! x) as Hfl by (intros x Hx; apply Hfr; by intros ->).
    rewrite (IH fuel _ q); try done; [|by eapply linked_frame|by eapply each_frame|lia|by rewrite Hfr|intros; rewrite Hfr; auto|apply u8_range].
    do 2 f_equal. word_lia.
Qed.

Lemma pbuf_free_spec l p q h : linked h p l q -> each h solid l -> q ∉ l -> p <> 0 -> pbufs h !! 0 = None -> (length l < chain_fuel h)%nat -> NoDup l ->
  (q <> 0 -> exists b, pbufs h !! q = Some b /\ 1 < p_ref b < 65536) ->
  pbuf_free p h = Ret (unref q (release l h), u8 (Z.of_nat (length l))).
Proof.
  intros Hs He Hq Hp H0 Hf Hn Hb. unfold pbuf_free. rewrite bool_decide_true by done. cbn [LWIP_ASSERT mbind outcome_bind].
  assert (exists b, get p h = Ret b) as [b ->].
  { unfold get. destruct l as [|a l]; cbn [linked] in Hs; [subst p; destruct (Hb Hp) as (b & -> & _); by exists b|].
    destruct Hs as (-> & _ & b & -> & _). by exists b. }
  cbn [mbind outcome_bind]. by apply free_loop_spec.
Qed.

End Free.

(** ** Single accesses *)

Lemma get_live p h b : pbufs h !! p = Some b -> get p h = Ret b.
Proof. intros E. unfold get. by rewrite E. Qed.

Lemma upd_live p f h b : pbufs h !! p = Some b -> upd p f h = Ret (put p (f b) h).
Proof. intros E. unfold upd. by rewrite (get_live _ _ _ E). Qed.

Lemma put_same p b h : pbufs (put p b h) !! p = Some b.
Proof. apply lookup_insert_eq. Qed.

Lemma put_other p q b h : p <> q -> pbufs (put p b h) !! q = pbufs h !! q.
Proof. apply lookup_insert_ne. Qed.

Lemma put_put p b b' h : put p b (put p b' h) = put p b h.
Proof. apply heap_ext; try done. apply insert_insert_eq. Qed.

Lemma put_over p q b c b' h : put p b (put q c (put p b' h)) = put p b (put q c h).
Proof.
  apply heap_ext; try done. cbn. destruct (decide (p = q)) as [->|Hne]; [by rewrite !insert_insert_eq|].
  rewrite (insert_insert_ne _ q p) by done. by rewrite insert_insert_eq.
Qed.

Lemma align_size n : 0 <= n -> LWIP_MEM_ALIGN_SIZE n = (n + 3) / 4 * 4.
Proof.
  intros Hn. unfold LWIP_MEM_ALIGN_SIZE, MEM_ALIGNMENT. rewrite <-Z.ldiff_land. change (4 - 1) with (Z.ones 2).
  rewrite Z.ldiff_ones_r, Z.shiftl_mul_pow2, Z.shiftr_div_pow2 by lia. change (2 ^ 2) with 4. do 2 f_equal. cbn. lia.
Qed.

Lemma align_at a n : a mod 8 = 0 -> 0 < a -> 0 <= n -> LWIP_MEM_ALIGN (a + SIZEOF_STRUCT_PBUF + n) - (a + SIZEOF_STRUCT_PBUF) = LWIP_MEM_ALIGN_SIZE n.
Proof.
  intros Ha Hp Hn. change (LWIP_MEM_ALIGN (a + SIZEOF_STRUCT_PBUF + n)) with (LWIP_MEM_ALIGN_SIZE (a + 16 + n)).
  change SIZEOF_STRUCT_PBUF with 16. rewrite !align_size by lia. Z.to_euclidean_division_equations. lia.
Qed.

(** ** Allocation *)

(** [h] is [h0] with the buffers [l], in memory of their own, added. *)
Record grown (h0 h : Heap) (l : list seg) : Prop := {
  g_own : own_mem l;
  g_new a : a ∈ map sg_a l -> pbufs h0 !! a = None /\ mem h0 !! a = None /\ is_Some (pbufs h !! a) /\ a <> 0;
  g_old a : a ∉ map sg_a l -> pbufs h !! a = pbufs h0 !! a /\ mem h !! a = mem h0 !! a;
  g_rest : customs h = customs h0;
}.

Lemma grown_put h0 h l a b : grown h0 h l -> a ∈ map sg_a l -> grown h0 (put a b h) l.
Proof.
  intros [Go Gn Gd Gr] Ha. split; [done| | |done].
  - intros a' Ha'. destruct (Gn a' Ha') as (? & ? & ? & ?). split_and!; try done.
    destruct (decide (a = a')) as [->|]; [rewrite put_same; eauto|by rewrite put_other].
  - intros a' Ha'. destruct (Gd a' Ha') as [<- <-]. split; [|done]. apply put_other. by intros <-.
Qed.

Lemma grown_release h0 h l : grown h0 h l -> release (map sg_a l) h = h0.
Proof.
  intros [Go Gn Gd Gc]. pose proof (release_rest (map sg_a l) h) as Rc.
  apply heap_ext; [| |congruence]; apply map_eq; intros a; destruct (release_lookup (map sg_a l) h a) as [L1 L2].
  - rewrite L1. case_bool_decide as Ha; [symmetry; by apply Gn|by apply Gd].
  - rewrite L2. case_bool_decide as Ha; [symmetry; by apply Gn|by apply Gd].
Qed.

Lemma grown_null h0 h l : grown h0 h l -> pbufs h0 !! 0 = None -> pbufs h !! 0 = None.
Proof.
  intros Hg H0. rewrite (proj1 (g_old _ _ _ Hg 0 ltac:(intros Hin; by destruct (g_new _ _ _ Hg 0 Hin) as (_ & _ & _ & ?)))). done.
Qed.

Lemma grown_nil h : grown h h [].
Proof. split; [constructor|intros a []%not_elem_of_nil|done|done]. Qed.

Section Alloc.
Context `{M : Malloc, ML : !MallocLaws M}.

Lemma mem_malloc_grown size h0 h l a h1 : grown h0 h l -> pbufs h0 !! 0 = None -> mem_malloc size h = Some (a, h1) ->
  0 < a /\ a mod 8 = 0 /\ a ∉ map sg_a l /\ (forall d, grown h0 h1 (l ++ [mkSeg a a d])) /\
  pbufs h1 = <[a := junk_pbuf a]> (pbufs h) /\ mem h1 = <[a := junk_mem a (size - SIZEOF_STRUCT_PBUF)]> (mem h).
Proof.
  intros [Go Gn Gd Gr] H0 E. unfold mem_malloc in E. destruct (malloc size h) as [a'|] eqn:Em; [|done]. injection E as <- <-.
  destruct (malloc_fresh _ _ _ Em) as (Ha & Ha8 & Hp & Hm).
  assert (a' ∉ map sg_a l) as Hnew by (intros Hin; destruct (Gn _ Hin) as (_ & _ & [b Hb] & _); congruence).
  split_and!; try done. intros d. destruct (Gd a' Hnew) as [E1 E2]. split; cbn [pbufs mem customs].
  - apply Forall_app; split; [done|]. by apply Forall_singleton.
  - intros b. rewrite map_app, elem_of_app. intros [Hb|[->|[]%not_elem_of_nil]%elem_of_cons]; cbn [sg_a].
    + destruct (Gn b Hb) as (? & ? & ? & ?). split_and!; try done. rewrite lookup_insert_ne; [done|by intros ->].
    + rewrite <-E1, <-E2, lookup_insert_eq. split_and!; try done; lia.
  - intros b. rewrite map_app, not_elem_of_app. intros [Hb Hn]. cbn [map sg_a] in Hn. rewrite not_elem_of_cons in Hn.
    rewrite !lookup_insert_ne by naive_solver. by apply Gd.
  - done.
Qed.

Definition pool_buf (q rem : Z) : pbuf := mkPbuf 0 (q, 0) rem (Z.min rem PBUF_POOL_BUFSIZE_ALIGNED) PBUF_POOL 0 1.

Lemma pool_step fuel p r rem h q h1 bp br bq : memp_malloc MEMP_PBUF_POOL h = Some (q, h1) ->
  pbufs h1 !! r = Some br -> pbufs h1 !! p = Some bp -> pbufs h1 !! q = Some bq -> q <> r -> q <> p -> q mod 8 = 0 ->
  head_fits p bp = true -> 0 < rem < 65535 ->
  pool_loop (S fuel) p r rem h = pool_loop fuel p q (rem - Z.min rem PBUF_POOL_BUFSIZE_ALIGNED) (put q (pool_buf q rem) (put r (p_set_next q br) h1)).
Proof.
  intros E Hr Hp Hq Hqr Hqp Hq8 Hfit Hrem. cbn [pool_loop]. rewrite (bool_decide_true (rem > 0)) by lia. rewrite E.
  rewrite (upd_live q _ _ _ Hq). cbn [mbind outcome_bind]. rewrite (upd_live r _ _ br) by (by rewrite put_other). cbn [mbind outcome_bind].
  rewrite (bool_decide_true (rem < 65535)) by lia. cbn [LWIP_ASSERT mbind outcome_bind]. rewrite (u16_id rem) by (unw; lia).
  erewrite (upd_live q); [|rewrite put_other by done; apply put_same]. cbn [mbind outcome_bind]. rewrite put_over.
  rewrite (bool_decide_true (_ mod _ = 0)).
  2: { change SIZEOF_STRUCT_PBUF with 16. change MEM_ALIGNMENT with 4. Z.to_euclidean_division_equations; lia. }
  cbn [LWIP_ASSERT mbind outcome_bind].
  assert (exists b, pbufs (put r (p_set_next q br) h1) !! p = Some b /\ head_fits p b = true) as (b & Hb & Hfb).
  { destruct (decide (r = p)) as [->|Hrp]; [|by rewrite put_other; eauto]. rewrite put_same. eexists. split; [done|].
    rewrite Hr in Hp. by injection Hp as <-. }
  rewrite (get_live p _ b) by (by rewrite put_other). cbn [mbind outcome_bind]. rewrite Hfb. cbn [LWIP_ASSERT mbind outcome_bind].
  erewrite (upd_live q); [|apply put_same]. cbn [mbind outcome_bind]. by rewrite put_put.
Qed.

(** How an allocation ends that is given up with the first buffer at [p]: the
    flags of that buffer are still what was in the fresh memory.  If they say
    nothing, its memory is given back and the result is [r]; if they say that it
    is a custom buffer, it is freed through a pointer nobody has written. *)
Definition given_up {A} (h : Heap) (p : Z) (x r : outcome A) : Prop :=
  if is_custom (junk_pbuf p) then customs h !! p = None -> x = Fault else x = r.

(** The block that is asked for, once for a packet of one buffer, and for each
    buffer of a chain. *)
Definition request (offset length : Z) (type : pbuf_type) : Z :=
  match type with
  | PBUF_RAM => LWIP_MEM_ALIGN_SIZE (SIZEOF_STRUCT_PBUF + offset) + LWIP_MEM_ALIGN_SIZE length
  | _ => MEMP_PBUF_POOL
  end.

(** An allocation of [length] bytes that gets no memory: the library refuses
    the block when the buffers [l] of a chain have been taken, too few. *)
Definition refused (offset length : Z) (type : pbuf_type) (h : Heap) (x : outcome (Heap * Z)) : Prop :=
  exists h1 l, grown h h1 l /\ malloc (request offset length type) h1 = None /\
    match l with
    | [] => h1 = h /\ x = Ret (h, 0)
    | s :: _ => type = PBUF_POOL /\ data_len l < length /\ given_up h (sg_a s) x (Ret (h, 0))
    end.

Definition pooled (b : pbuf) : Prop := p_ref b = 1 /\ p_type b = PBUF_POOL.

(** The chain allocated so far: [l] and then [s], which is the last one. *)
Record pool_inv (h0 h : Heap) (p : Z) (pay : ptr) (l : list seg) (s : seg) (rem : Z) : Prop := {
  pi_grown : grown h0 h (l ++ [s]);
  pi_pkt : packet_seg h p (l ++ [s]) 0 rem;
  pi_each : each h pooled (map sg_a (l ++ [s]));
  pi_fits : exists b, pbufs h !! p = Some b /\ head_fits p b = true /\ p_payload b = pay /\ p_flags b = p_flags (junk_pbuf p);
  pi_flags a b : a ∈ map sg_a (l ++ [s]) -> a <> p -> pbufs h !! a = Some b -> p_flags b = 0;
}.

Lemma each_put h P l a b : each h P l -> P b -> each (put a b h) P l.
Proof.
  unfold each. rewrite !Forall_forall. intros He Hb x Hx. destruct (decide (a = x)) as [->|Hne]; [rewrite put_same; eauto|].
  rewrite put_other by done. by apply He.
Qed.

(** A chain is made longer: the last buffer gets a successor. *)
Lemma packet_link h h' p l s br q l2 n : packet_seg h p (l ++ [s]) 0 (data_len l2 + n) -> pbufs h !! sg_a s = Some br ->
  pbufs h' !! sg_a s = Some (p_set_next q br) ->
  (forall a, a ∈ map sg_a l -> a <> sg_a s -> pbufs h' !! a = pbufs h !! a) ->
  (forall t, t ∈ l ++ [s] -> mem h' !! sg_base t = mem h !! sg_base t) ->
  packet_seg h' q l2 0 n -> packet_seg h' p ((l ++ [s]) ++ l2) 0 n.
Proof.
  intros Hp Hbr Hbr' Hf Hm Hq. pose proof (linked_NoDup _ _ _ (packet_seg_linked _ _ _ _ _ Hp)) as Hnd. rewrite map_app in Hnd.
  pose proof (packet_seg_split _ _ _ _ _ _ Hp) as (r & Hp1 & Hp2). pose proof Hp2 as (-> & Hr0 & b & (Hb1 & Hb2 & Hb3 & m & Hm1 & Hm2) & Ht & _).
  rewrite Hbr in Hb1. injection Hb1 as <-. rewrite <-app_assoc. eapply packet_seg_app.
  - replace (data_len ([s] ++ l2) + n) with (data_len [s] + (data_len l2 + n)) by (rewrite data_len_app; lia).
    eapply packet_seg_frame; [exact Hp1|]. intros t Ht'. split; [|apply Hm; apply elem_of_app; by left].
    apply NoDup_app in Hnd as (_ & Hnd & _). assert (sg_a t ∈ map sg_a l) as Hin by (apply list_elem_of_fmap; eauto).
    apply Hf; [done|]. intros E. apply (Hnd _ Hin). rewrite E. left.
  - cbn [app packet_seg]. split_and!; [done|done|]. exists (p_set_next q br). split_and!; [|cbn; change (data_len []) with 0 in Ht; lia|done].
    split; [done|]. split_and!; [done|done|]. exists m. split; [|done]. rewrite Hm; [done|]. apply elem_of_app. right. left.
Qed.

Lemma pool_inv_step h0 h p pay l s rem q h1 : pool_inv h0 h p pay l s rem -> pbufs h0 !! 0 = None -> 0 < rem < 65535 ->
  memp_malloc MEMP_PBUF_POOL h = Some (q, h1) ->
  exists br d, pbufs h1 !! sg_a s = Some br /\ length d = Z.to_nat (Z.min rem PBUF_POOL_BUFSIZE_ALIGNED) /\ q <> sg_a s /\ q <> p /\ q mod 8 = 0 /\
    pbufs h1 !! q = Some (junk_pbuf q) /\ (forall x, x <> q -> pbufs h1 !! x = pbufs h !! x) /\
    pool_inv h0 (put q (pool_buf q rem) (put (sg_a s) (p_set_next q br) h1)) p pay (l ++ [s]) (mkSeg q q d) (rem - Z.min rem PBUF_POOL_BUFSIZE_ALIGNED).
Proof.
  intros [Hg Hp He (bp & Hbp & Hfit & Hpay) Hfl] H0 Hrem Em.
  destruct (mem_malloc_grown _ _ _ _ _ _ Hg H0 Em) as (Hq0 & Hq8 & Hqn & Hg1 & E1 & E2).
  set (len := Z.min rem PBUF_POOL_BUFSIZE_ALIGNED) in *. set (d := take (Z.to_nat len) (junk_mem q PBUF_POOL_BUFSIZE_ALIGNED)).
  assert (Z.of_nat (length d) = len /\ slice (junk_mem q PBUF_POOL_BUFSIZE_ALIGNED) 0 len = Some d) as [Hd Hsl].
  { unfold d. rewrite length_take, junk_length. assert (0 < len <= PBUF_POOL_BUFSIZE_ALIGNED) by (unfold len; change PBUF_POOL_BUFSIZE_ALIGNED with 1516; lia).
    split; [lia|]. rewrite slice_ok; [done|lia..|rewrite junk_length; lia]. }
  pose proof (packet_seg_linked _ _ _ _ _ Hp) as Hl. pose proof (linked_NoDup _ _ _ Hl) as Hnd.
  pose proof (packet_seg_split _ _ _ _ _ _ Hp) as (r & Hp1 & Hp2). pose proof Hp2 as (-> & Hr0 & br & Hbr & Htot & Hnx). cbn [packet_seg] in Hnx.
  pose proof Hbr as (Hbr1 & Hbr2 & Hbr3 & m & Hm & Hms). rewrite map_app in Hqn, Hnd. cbn [map] in *.
  assert (q <> sg_a s /\ sg_a s ∉ map sg_a l /\ q ∉ map sg_a l) as (Hqs & Hsl' & Hql).
  { apply not_elem_of_app in Hqn as [? Hqn]. rewrite not_elem_of_cons in Hqn. apply NoDup_app in Hnd as (_ & Hnd & _). split_and!; try tauto.
    intros Hin. apply (Hnd _ Hin). left. }
  assert (q <> p) as Hqp. { destruct l as [|t l]; cbn [app packet_seg] in Hp; destruct Hp as (-> & _); [done|]. set_solver. }
  assert (forall x, x <> q -> pbufs h1 !! x = pbufs h !! x /\ mem h1 !! x = mem h !! x) as Hfr
    by (intros x Hx; rewrite E1, E2; split; by rewrite lookup_insert_ne).
  exists br, d. split; [rewrite (proj1 (Hfr _ (not_eq_sym Hqs))); done|]. split; [lia|]. split_and!; try done; [by rewrite E1, lookup_insert_eq|intros; by apply Hfr|].
  constructor.
  - apply grown_put; [apply grown_put; [apply Hg1|]|]; rewrite !map_app; set_solver.
  - eapply (packet_link h _ _ _ _ br q); [|done|by rewrite put_other, put_same|..].
    + replace (data_len _ + _) with rem; [done|]. rewrite data_len_cons. unfold seg_len, data_len. cbn. lia.
    + intros a Ha Has. rewrite !put_other by (done || by intros <-). apply Hfr. by intros ->.
    + intros t Ht. apply Hfr. destruct Hg as [Go _ _ _]. unfold own_mem in Go. rewrite Forall_forall in Go. rewrite (Go t Ht).
      intros E. apply Hqn. rewrite <-E. change ([sg_a s]) with (map sg_a [s]). rewrite <-map_app. apply list_elem_of_fmap. eauto.
    + cbn [packet_seg sg_a]. split_and!; [done|lia|]. exists (pool_buf q rem). unfold holds, seg_len, data_len, pool_buf. cbn [sg_a sg_base sg_data p_payload p_len fst snd p_tot_len data length p_next].
      fold len. split_and!; [apply put_same|done|lia| |lia|done]. exists (junk_mem q PBUF_POOL_BUFSIZE_ALIGNED). split; [|done].
      cbn. rewrite E2. apply lookup_insert_eq.
  - rewrite (map_app sg_a (l ++ [s])). apply Forall_app. split.
    + assert (each h1 pooled (map sg_a (l ++ [s]))) as He1.
      { eapply each_frame; [done|]. intros a Ha. apply Hfr. rewrite map_app in Ha. cbn [map] in Ha. by intros ->. }
      apply each_put; [apply each_put; [done|]|done]. cbn.
      unfold each in He. rewrite Forall_forall in He. destruct (He (sg_a s)) as (b & Hb & Hr); [rewrite map_app; set_solver|].
      rewrite Hbr1 in Hb. by injection Hb as <-.
    + apply Forall_singleton. cbn [sg_a]. eexists. split; [apply put_same|done].
  - rewrite put_other by done. destruct (decide (sg_a s = p)) as [<-|Hsp].
    + rewrite put_same. eexists. split; [done|]. rewrite Hbr1 in Hbp. by injection Hbp as <-.
    + rewrite put_other by done. exists bp. by rewrite (proj1 (Hfr _ (not_eq_sym Hqp))).
  - intros a b Ha Hap. destruct (decide (a = q)) as [->|Haq]; [rewrite put_same; by intros [= <-]|]. rewrite put_other by done.
    rewrite map_app in Ha. apply elem_of_app in Ha as [Ha|[->|[]%not_elem_of_nil]%elem_of_cons]; [|done].
    destruct (decide (a = sg_a s)) as [->|Has]; [rewrite put_same; intros [= <-]; cbn; apply (Hfl (sg_a s)); [rewrite map_app; set_solver|done|done]|].
    rewrite put_other by done. rewrite (proj1 (Hfr _ Haq)). apply Hfl; [rewrite map_app; set_solver|done].
Qed.

(** A packet that nobody else refers to is freed as a whole. *)
Lemma free_all p l n h : packet_seg h p l 0 n -> each h solid (map sg_a l) -> p <> 0 -> pbufs h !! 0 = None ->
  pbuf_free p h = Ret (release (map sg_a l) h, u8 (Z.of_nat (length l))).
Proof.
  intros Hp He Hp0 H0. pose proof (packet_seg_linked _ _ _ _ _ Hp) as Hl.
  rewrite (pbuf_free_spec (map sg_a l) p 0); try done.
  - unfold unref. rewrite (proj1 (release_lookup _ _ 0)), H0. rewrite length_map. by case_bool_decide.
  - intros Hin. by destruct (linked_live _ _ _ _ Hl 0 Hin).
  - by apply linked_fuel in Hl.
  - by eapply linked_NoDup.
Qed.

Lemma pool_loop_spec p pay h0 : pbufs h0 !! 0 = None -> p <> 0 -> forall fuel rem h l s,
  pool_inv h0 h p pay l s rem -> 0 <= rem < 65535 -> (Z.to_nat rem <= fuel)%nat ->
  (exists h' l' s', pool_loop fuel p (sg_a s) rem h = Ret (h', true) /\ pool_inv h0 h' p pay l' s' 0 /\
     data_len (l' ++ [s']) = data_len (l ++ [s]) + rem) \/
  (exists h1 l' s', grown h0 h1 (l' ++ [s']) /\ head (map sg_a (l' ++ [s'])) = Some p /\ malloc MEMP_PBUF_POOL h1 = None /\
     data_len (l' ++ [s']) < data_len (l ++ [s]) + rem /\ given_up h0 p (pool_loop fuel p (sg_a s) rem h) (Ret (PBUF_POOL_IS_EMPTY h0, false))).
Proof.
  intros H0 Hp. induction fuel as [|fuel IH]; intros rem h l s Hi Hrem Hf.
  { assert (rem = 0) as -> by lia. left. exists h, l, s. split; [done|]. split; [done|lia]. }
  destruct (decide (rem = 0)) as [->|Hr]; [left; exists h, l, s; split; [done|]; split; [done|lia]|].
  destruct (memp_malloc MEMP_PBUF_POOL h) as [[q h1]|] eqn:Em.
  - destruct (pool_inv_step _ _ _ _ _ _ _ _ _ Hi H0 ltac:(lia) Em) as (br & d & Hbr & Hd & Hqs & Hqp & Hq8 & Hq & Hfr & Hi').
    destruct (pi_fits _ _ _ _ _ _ _ Hi) as (bp & Hbp & Hfit & _ & _).
    rewrite (pool_step fuel p (sg_a s) rem h q h1 bp br _ Em Hbr) by first [done|lia|by rewrite Hfr].
    change PBUF_POOL_BUFSIZE_ALIGNED with 1516 in *. destruct (IH _ _ _ _ Hi') as [(h' & l' & s' & E & Hi2 & Hl)|(h2 & l' & s' & G1 & G2 & G3 & G4 & G5)]; [lia|lia|left|right].
    exists h', l', s'. split; [exact E|]. split; [done|]. rewrite Hl, (data_len_app (l ++ [s])), (data_len_cons (mkSeg q q d)).
    unfold seg_len. cbn [sg_data]. change (data_len []) with 0. lia.
    exists h2, l', s'. split_and!; try done. rewrite (data_len_app (l ++ [s])), (data_len_cons (mkSeg q q d)) in G4.
    unfold seg_len in G4. cbn [sg_data] in G4. change (data_len []) with 0 in G4. lia.
  - right. destruct Hi as [Hg Hpk He (bp & Hbp & _ & _ & Hfp) Hfl]. exists h, l, s. split; [done|].
    split; [destruct l; destruct Hpk as (-> & _); done|]. split; [unfold memp_malloc, mem_malloc in Em; by destruct (malloc _ h)|]. split; [lia|].
    unfold given_up. cbn [pool_loop]. rewrite bool_decide_true by lia. rewrite Em. destruct (is_custom (junk_pbuf p)) eqn:Hj.
    { intros Hcu. unfold PBUF_POOL_IS_EMPTY, pbuf_free. rewrite (bool_decide_true (p <> 0)) by done. cbn [LWIP_ASSERT mbind outcome_bind].
      rewrite (get_live _ _ _ Hbp). cbn [mbind outcome_bind]. unfold chain_fuel. cbn [free_loop]. rewrite (bool_decide_false (p = 0)) by done.
      rewrite (get_live _ _ _ Hbp). cbn [mbind outcome_bind]. unfold each in He. rewrite Forall_forall in He.
      destruct (He p) as (b & Hb & Href & _); [destruct l; destruct Hpk as (-> & _); left|]. rewrite Hbp in Hb. injection Hb as <-. rewrite Href.
      assert (is_custom bp = true) as -> by (unfold is_custom in *; by rewrite Hfp). cbn [LWIP_ASSERT mbind outcome_bind].
      rewrite (bool_decide_true (u16 (1 - 1) = 0)) by done. change (customs (put p _ h)) with (customs h). by rewrite (g_rest _ _ _ Hg), Hcu. }
    rewrite (free_all p (l ++ [s]) rem (PBUF_POOL_IS_EMPTY h)); try done.
    + cbn [mbind outcome_bind]. unfold PBUF_POOL_IS_EMPTY. by rewrite <-(grown_release h0 h (l ++ [s])).
    + apply Forall_forall. intros a Ha. unfold each in He. rewrite Forall_forall in He. destruct (He a Ha) as (b & Hb & Href & _).
      exists b. split; [done|]. split; [done|]. destruct (decide (a = p)) as [->|Hap].
      * rewrite Hbp in Hb. injection Hb as <-. unfold is_custom. rewrite Hfp. exact Hj.
      * unfold is_custom. by rewrite (Hfl a b Ha Hap Hb).
    + by apply (grown_null h0 _ _ Hg).
Qed.

(** What [pbuf_alloc] gives: a new packet of [length] bytes, each buffer with
    one reference, room for the headers in front of the first. *)
Definition allocated (offset length : Z) (type : pbuf_type) (h h' : Heap) (p : Z) (l : list seg) : Prop :=
  p <> 0 /\ grown h h' l /\ packet h' p l /\ data_len l = length /\
  each h' (fun b => p_ref b = 1 /\ p_type b = type /\ p_flags b = 0) (map sg_a l) /\
  (exists b, pbufs h' !! p = Some b /\ p_payload b = (p, LWIP_MEM_ALIGN_SIZE offset)) /\
  (type = PBUF_RAM -> exists d, l = [mkSeg p p d]).

Lemma packet_seg_put_same h a b b' l : forall p q n, packet_seg h p l q n -> pbufs h !! a = Some b ->
  p_next b' = p_next b -> p_payload b' = p_payload b -> p_len b' = p_len b -> p_tot_len b' = p_tot_len b -> packet_seg (put a b' h) p l q n.
Proof.
  induction l as [|s l IH]; intros p q n Hs Hb E1 E2 E3 E4; cbn [packet_seg] in *; [done|].
  destruct Hs as (-> & Hp & c & (Hc & Hcb & Hcl & Hcm) & Ht & Hs). split_and!; [done|done|]. destruct (decide (a = sg_a s)) as [->|Hne].
  - rewrite Hb in Hc. injection Hc as <-. exists b'. rewrite E1, E4. split; [|split; [done|by apply IH]].
    unfold holds. rewrite put_same, E2, E3. done.
  - exists c. split; [|split; [done|by apply IH]]. unfold holds. by rewrite put_other.
Qed.

(** A packet of one buffer. *)
Lemma packet_single h p b m d n : p <> 0 -> p_next b = 0 -> (p_payload b).1 = p -> p_len b = Z.of_nat (length d) ->
  p_tot_len b = Z.of_nat (length d) + n -> mem h !! p = Some m -> slice m (p_payload b).2 (p_len b) = Some d ->
  packet_seg (put p b h) p [mkSeg p p d] 0 n.
Proof.
  intros Hp Hn Hy Hl Ht Hm Hs. cbn [packet_seg sg_a]. split_and!; [done|done|]. exists b. unfold holds. cbn [sg_a sg_base sg_data].
  rewrite put_same. unfold seg_len. cbn [sg_data]. change (data_len []) with 0. split_and!; try done; [|lia]. by exists m.
Qed.

Lemma junk_slice a n off len : 0 <= off -> 0 <= len -> off + len <= n ->
  exists d, slice (junk_mem a n) off len = Some d /\ Z.of_nat (length d) = len.
Proof.
  intros. eexists. split; [apply slice_ok; rewrite ?junk_length; lia|]. rewrite length_take, length_drop, junk_length. lia.
Qed.

Lemma alloc_pool_spec offset length h : 0 <= offset <= 54 -> is_u16 length -> pbufs h !! 0 = None ->
  (exists h' p l b, alloc_pool offset length h = Ret (h', p) /\ pbufs h' !! p = Some b /\
     allocated offset length PBUF_POOL h (put p (p_set_flags 0 (p_set_ref 1 b)) h') p l) \/
  refused offset length PBUF_POOL h (alloc_pool offset length h).
Proof.
  intros Ho Hl H0. unfold alloc_pool. assert (grown h h []) as Hg0 by apply grown_nil. destruct (memp_malloc MEMP_PBUF_POOL h) as [[p h1]|] eqn:Em.
  2: { right. exists h, []. split; [done|]. split; [|done]. unfold memp_malloc, mem_malloc in Em. by destruct (malloc _ h). }
  destruct (mem_malloc_grown _ _ _ _ _ _ Hg0 H0 Em) as (Hp0 & Hp8 & _ & Hg1 & E1 & E2). cbn [app] in Hg1.
  assert (pbufs h1 !! p = Some (junk_pbuf p)) as Hp by (by rewrite E1, lookup_insert_eq).
  rewrite (upd_live p _ _ _ Hp). cbn [mbind outcome_bind].
  rewrite (Z.add_assoc p SIZEOF_STRUCT_PBUF offset). pose proof (align_at p offset Hp8 Hp0 ltac:(lia)) as Hal.
  set (payload := LWIP_MEM_ALIGN (p + SIZEOF_STRUCT_PBUF + offset)) in *. rewrite Hal. pose proof (align_size offset ltac:(lia)) as Has.
  set (off := LWIP_MEM_ALIGN_SIZE offset) in *. change PBUF_POOL_BUFSIZE_ALIGNED with 1516.
  assert (0 <= off <= 56) as Hoff by (rewrite Has; Z.to_euclidean_division_equations; lia).
  rewrite (bool_decide_true (payload mod MEM_ALIGNMENT = 0)).
  2: { change SIZEOF_STRUCT_PBUF with 16 in Hal. change MEM_ALIGNMENT with 4. Z.to_euclidean_division_equations; lia. }
  cbn [LWIP_ASSERT mbind outcome_bind]. set (len := Z.min length (1516 - off)).
  erewrite (upd_live p); [|apply put_same]. cbn [mbind outcome_bind]. rewrite put_put. erewrite get_live by apply put_same. cbn [mbind outcome_bind].
  match goal with |- context [head_fits p ?b] => assert (head_fits p b = true) as Hfit end.
  { apply bool_decide_eq_true. cbn. change PBUF_POOL_BUFSIZE_ALIGNED with 1516. unfold len. lia. }
  rewrite Hfit. cbn [LWIP_ASSERT mbind outcome_bind]. rewrite (bool_decide_true (1516 - off > 0)) by lia. cbn [LWIP_ASSERT mbind outcome_bind].
  erewrite (upd_live p); [|apply put_same]. cbn [mbind outcome_bind]. rewrite put_put. cbn [p_set_len p_set_tot_len p_set_payload p_set_next p_set_type p_set_ref
    p_next p_payload p_tot_len p_len p_type p_flags p_ref].
  match goal with |- context [put p ?b h1] => set (b1 := b) end.
  destruct (junk_slice p 1516 off len) as (d & Hsl & Hd); [lia|unfold len; unw; lia|unfold len; lia|].
  assert (pool_inv h (put p b1 h1) p (p, off) [] (mkSeg p p d) (length - len)) as Hi.
  { constructor.
    - apply grown_put; [apply Hg1|left].
    - apply (packet_single _ _ _ (junk_mem p 1516)); try done; cbn; [lia..|]. rewrite E2. apply lookup_insert_eq.
    - apply Forall_singleton. eexists. split; [apply put_same|done].
    - exists b1. split; [apply put_same|]. split_and!; done.
    - intros a b Ha Hap. by apply list_elem_of_singleton in Ha. }
  destruct (pool_loop_spec p (p, off) h H0 ltac:(lia) (Z.to_nat length) (length - len) _ _ _ Hi) as [(h' & l' & s' & E & Hi2 & Hlen)|E];
    [unfold len; unw; lia|unfold len; lia|left|right].
  2: { destruct E as (h2 & l2 & s2 & G1 & G2 & G3 & G4 & G5). exists h2, (l2 ++ [s2]). split; [done|]. split; [done|].
       cbn [sg_a] in G5. destruct (l2 ++ [s2]) as [|t l'] eqn:El; [done|]. cbn [map head] in G2. injection G2 as <-. split; [done|].
       split; [cbn [app] in G4; rewrite (data_len_cons (mkSeg _ _ d)) in G4; unfold seg_len in G4 at 1; cbn [sg_data] in G4; change (data_len []) with 0 in G4; lia|].
       unfold given_up in *. destruct (is_custom _); [intros Hcu; by rewrite (G5 Hcu)|by rewrite G5]. }
  destruct Hi2 as [Hg Hpk He (b & Hb & Hbf & Hbp & _) Hfl]. exists h', p, (l' ++ [s']), b. cbn [sg_a] in E. rewrite E. split; [done|]. split; [done|].
  assert (p ∈ map sg_a (l' ++ [s'])) as Hin by (destruct l'; destruct Hpk as (-> & _); left).
  assert (data_len (l' ++ [s']) = length) as Hdl by (rewrite Hlen; cbn [app]; rewrite data_len_cons; unfold seg_len; cbn [sg_data]; change (data_len []) with 0; lia).
  unfold allocated, packet. split_and!; [lia|by apply grown_put|by eapply (packet_seg_put_same _ _ b)|rewrite Hdl; unw; lia|done| | |done].
  - apply Forall_forall. intros a Ha. destruct (decide (p = a)) as [<-|Hpa].
    + rewrite put_same. eexists. split; [done|]. destruct (proj1 (Forall_forall _ _) He p Ha) as (b' & Hb' & _ & Ht).
      rewrite Hb in Hb'. by injection Hb' as <-.
    + rewrite put_other by done. destruct (proj1 (Forall_forall _ _) He a Ha) as (b' & Hb' & Hr & Ht).
      exists b'. split_and!; try done. by apply (Hfl a).
  - rewrite put_same. eexists. by split.
Qed.

Lemma alloc_ram_spec offset length h : 0 <= offset -> is_u16 length -> pbufs h !! 0 = None ->
  (exists h' p l b, alloc_ram offset length h = Ret (h', p) /\ pbufs h' !! p = Some b /\
     allocated offset length PBUF_RAM h (put p (p_set_flags 0 (p_set_ref 1 b)) h') p l) \/
  malloc (LWIP_MEM_ALIGN_SIZE (SIZEOF_STRUCT_PBUF + offset) + LWIP_MEM_ALIGN_SIZE length) h = None /\ alloc_ram offset length h = Ret (h, 0).
Proof.
  intros Ho Hl H0. unfold alloc_ram. assert (grown h h []) as Hg0 by apply grown_nil.
  set (size := LWIP_MEM_ALIGN_SIZE _ + _). destruct (mem_malloc size h) as [[p h1]|] eqn:Em; [left|right].
  2: { split; [|done]. unfold mem_malloc in Em. by destruct (malloc size h). }
  destruct (mem_malloc_grown _ _ _ _ _ _ Hg0 H0 Em) as (Hp0 & Hp8 & _ & Hg1 & E1 & E2). cbn [app] in Hg1.
  assert (pbufs h1 !! p = Some (junk_pbuf p)) as Hp by (by rewrite E1, lookup_insert_eq).
  rewrite (upd_live p _ _ _ Hp). cbn [mbind outcome_bind]. pose proof (align_at p offset Hp8 Hp0 Ho) as Hal.
  set (payload := LWIP_MEM_ALIGN (p + SIZEOF_STRUCT_PBUF + offset)) in *. rewrite Hal. pose proof (align_size offset Ho) as Has.
  assert (size - SIZEOF_STRUCT_PBUF = LWIP_MEM_ALIGN_SIZE offset + LWIP_MEM_ALIGN_SIZE length) as Hsz.
  { unfold size. change SIZEOF_STRUCT_PBUF with 16. rewrite (align_size (16 + offset)), Has by lia. Z.to_euclidean_division_equations; lia. }
  set (off := LWIP_MEM_ALIGN_SIZE offset) in *.
  rewrite (bool_decide_true (payload mod MEM_ALIGNMENT = 0)).
  2: { change SIZEOF_STRUCT_PBUF with 16 in Hal. change MEM_ALIGNMENT with 4. Z.to_euclidean_division_equations; lia. }
  cbn [LWIP_ASSERT mbind outcome_bind]. assert (length <= LWIP_MEM_ALIGN_SIZE length) as Hle.
  { rewrite align_size by (unw; lia). Z.to_euclidean_division_equations; lia. }
  destruct (junk_slice p (size - SIZEOF_STRUCT_PBUF) off length) as (d & Hsl & Hd); [rewrite Has; Z.to_euclidean_division_equations; lia|unw; lia|lia|].
  eexists _, p, [mkSeg p p d], _. split; [done|]. split; [apply put_same|]. rewrite put_put.
  unfold allocated, packet. split_and!; [lia|apply grown_put; [apply Hg1|left]| | | | | |by exists d].
  - apply (packet_single _ _ _ (junk_mem p (size - SIZEOF_STRUCT_PBUF))); try done; cbn; [lia..|]. rewrite E2. apply lookup_insert_eq.
  - rewrite data_len_cons. unfold seg_len. cbn [sg_data]. change (data_len []) with 0. unw. lia.
  - rewrite data_len_cons. unfold seg_len. cbn [sg_data]. change (data_len []) with 0. lia.
  - apply Forall_singleton. eexists. split; [apply put_same|done].
  - eexists. split; [apply put_same|done].
Qed.

(** A buffer with memory of its own. *)
Lemma pbuf_alloc_ram layer length h : is_u16 length -> pbufs h !! 0 = None ->
  pbuf_alloc layer length PBUF_RAM h = Ret (h, 0) \/
  exists h' p d, pbuf_alloc layer length PBUF_RAM h = Ret (h', p) /\ allocated (layer_offset layer) length PBUF_RAM h h' p [mkSeg p p d].
Proof.
  intros Hl H0. unfold pbuf_alloc.
  assert (0 <= layer_offset layer) as Ho by (destruct layer; cbn; unfold PBUF_LINK_HLEN, PBUF_IP_HLEN, PBUF_TRANSPORT_HLEN; lia).
  destruct (alloc_ram_spec (layer_offset layer) length h Ho Hl H0) as [(h' & p & l & b & -> & Hb & Ha)|[_ ->]]; [right|by left].
  cbn [mbind outcome_bind]. pose proof Ha as (Hp & _ & _ & _ & _ & _ & Hs). destruct Hs as (d & ->); [done|].
  rewrite (bool_decide_false (p = 0)) by done. rewrite (upd_live p _ _ _ Hb). cbn [mbind outcome_bind]. eauto 10.
Qed.

(** C31: [pbuf_alloc] of memory for a packet: either a new packet of exactly
    [length] bytes, in buffers that were not in use, each with one reference,
    with room for the headers of the layer in front of the data; freeing it
    gives back every block and leaves the memory as it was.  Or the C library
    has refused a block that was needed.  Then null is returned, and what had
    been allocated of a chain is given back; but the flags of the first buffer
    of the chain are not set before that: when the fresh memory had the flag of
    the custom buffers, the buffer is freed through a pointer that nobody has
    written. *)
Theorem pbuf_alloc_free (layer : pbuf_layer) (length : Z) (type : pbuf_type) (h : Heap) :
  is_u16 length -> pbufs h !! 0 = None -> type = PBUF_RAM \/ type = PBUF_POOL ->
  (exists h' p l, pbuf_alloc layer length type h = Ret (h', p) /\ allocated (layer_offset layer) length type h h' p l /\
     pbuf_free p h' = Ret (h, u8 (Z.of_nat (base.length l)))) \/
  refused (layer_offset layer) length type h (pbuf_alloc layer length type h).
Proof.
  intros Hl H0 Ht. unfold pbuf_alloc.
  assert (0 <= layer_offset layer <= 54) as Ho by (destruct layer; cbn; unfold PBUF_LINK_HLEN, PBUF_IP_HLEN, PBUF_TRANSPORT_HLEN; lia).
  assert (forall alloc : outcome (Heap * Z), 
    (exists h' p l b, alloc = Ret (h', p) /\ pbufs h' !! p = Some b /\
       allocated (layer_offset layer) length type h (put p (p_set_flags 0 (p_set_ref 1 b)) h') p l) ->
    exists h' p l, ('(h, p) ← alloc; if bool_decide (p = 0) then Ret (h, 0) else h ← upd p (fun b => p_set_flags 0 (p_set_ref 1 b)) h; Ret (h, p)) = Ret (h', p) /\
      allocated (layer_offset layer) length type h h' p l /\ pbuf_free p h' = Ret (h, u8 (Z.of_nat (base.length l)))) as Hok.
  { intros alloc (h' & p & l & b & -> & Hb & Ha). cbn [mbind outcome_bind]. pose proof Ha as (Hp & Hg & [Hk _] & _ & He & _).
    rewrite (bool_decide_false (p = 0)) by done. rewrite (upd_live p _ _ _ Hb). cbn [mbind outcome_bind].
    eexists _, p, l. split; [done|]. split; [done|]. rewrite (free_all p l 0); try done; [by erewrite grown_release| |].
    - eapply each_impl; [exact He|]. intros c (Hr & _ & Hf). split; [done|]. unfold is_custom. by rewrite Hf.
    - by apply (grown_null h _ _ Hg). }
  destruct Ht as [-> | ->].
  - destruct (alloc_ram_spec (layer_offset layer) length h) as [Ha|E]; [lia|done|done|left; by apply Hok|right].
    destruct E as [Em ->]. exists h, []. split; [apply grown_nil|]. split; [exact Em|done].
  - destruct (alloc_pool_spec (layer_offset layer) length h) as [Ha|E]; [lia|done|done|left; by apply Hok|right].
    destruct E as (h1 & l & G1 & G2 & G3). exists h1, l. split; [done|]. split; [done|]. destruct l as [|s l].
    + destruct G3 as [-> ->]. done.
    + destruct G3 as (Gt & G4 & G5). split; [done|]. split; [done|]. unfold given_up in *. destruct (is_custom _); [intros Hcu; by rewrite (G5 Hcu)|by rewrite G5].
Qed.

(** Memory of the C library for the examples: blocks of 8 * 2^16 bytes, [n] of
    them at most, filled with zeros. *)
Definition test_malloc (n : Z) (flags : Z) : Malloc := {|
  malloc _ h :=
    let a := 524288 * (1 + Z.of_nat (size (pbufs h))) in
    if bool_decide (Z.of_nat (size (pbufs h)) < n /\ pbufs h !! a = None /\ mem h !! a = None) then Some a else None;
  junk_pbuf _ := mkPbuf 0 null_ptr 0 0 PBUF_RAM flags 0;
  junk_mem _ k := replicate (Z.to_nat k) 0;
  run_custom_free _ _ _ := Fault;
|}.

#[export] Instance test_malloc_laws n flags : MallocLaws (test_malloc n flags).
Proof.
  split.
  - intros k h a. cbn. case_bool_decide as E; [|done]. intros [= <-]. destruct E as (_ & ? & ?).
    split; [lia|]. split; [|done]. Z.to_euclidean_division_equations; lia.
  - intros. apply length_replicate.
  - intros. apply Forall_replicate. unw. lia.
Qed.


End Alloc.

Definition empty_heap : Heap := mkHeap ∅ ∅ ∅.

(** Whether a result is a buffer. *)
Definition got_buffer (r : outcome (Heap * Z)) : bool := match r with Ret (_, p) => bool_decide (p <> 0) | _ => false end.

Definition is_buffer (r : outcome (Heap * Z)) : bool := match r with Ret _ => true | _ => false end.

(** 4000 bytes in three buffers; with memory for two only; and the same with
    memory in which the flag of the custom buffers is set. *)
Lemma pbuf_alloc_free_witness :
  (exists h' p k, @pbuf_alloc (test_malloc 10 0) PBUF_TRANSPORT 4000 PBUF_POOL empty_heap = Ret (h', p) /\ p <> 0 /\
     @pbuf_free (test_malloc 10 0) p h' = Ret (empty_heap, k)) /\
  @pbuf_alloc (test_malloc 2 0) PBUF_TRANSPORT 4000 PBUF_POOL empty_heap = Ret (empty_heap, 0) /\
  @pbuf_alloc (test_malloc 2 2) PBUF_TRANSPORT 4000 PBUF_POOL empty_heap = Fault.
Proof.
  split; [|split].
  - assert (got_buffer (@pbuf_alloc (test_malloc 10 0) PBUF_TRANSPORT 4000 PBUF_POOL empty_heap) = true) as Hg by (vm_compute; reflexivity).
    destruct (@pbuf_alloc_free (test_malloc 10 0) _ PBUF_TRANSPORT 4000 PBUF_POOL empty_heap) as [(h' & p & l & E & (Hp & _) & F)|(h1 & l & _ & _ & E)];
      [unw; lia|exact eq_refl|right; exact eq_refl|exists h', p, (u8 (Z.of_nat (length l))); exact (conj E (conj Hp F))|].
    exfalso. destruct l; [destruct E as [_ E]; rewrite E in Hg|destruct E as (_ & _ & E); change (@pbuf_alloc (test_malloc 10 0) PBUF_TRANSPORT 4000 PBUF_POOL empty_heap = Ret (empty_heap, 0)) in E; rewrite E in Hg]; discriminate Hg.
  - assert (got_buffer (@pbuf_alloc (test_malloc 2 0) PBUF_TRANSPORT 4000 PBUF_POOL empty_heap) = false) as Hg by (vm_compute; reflexivity).
    destruct (@pbuf_alloc_free (test_malloc 2 0) _ PBUF_TRANSPORT 4000 PBUF_POOL empty_heap) as [(h' & p & l & E & (Hp & _) & F)|(h1 & l & _ & _ & E)];
      [unw; lia|exact eq_refl|right; exact eq_refl| |destruct l; [exact (proj2 E)|exact (proj2 (proj2 E))]].
    exfalso. rewrite E in Hg. apply bool_decide_eq_false in Hg. naive_solver.
  - assert (is_buffer (@pbuf_alloc (test_malloc 2 2) PBUF_TRANSPORT 4000 PBUF_POOL empty_heap) = false) as Hg by (vm_compute; reflexivity).
    destruct (@pbuf_alloc_free (test_malloc 2 2) _ PBUF_TRANSPORT 4000 PBUF_POOL empty_heap) as [(h' & p & l & E & _)|(h1 & l & _ & _ & E)];
      [unw; lia|exact eq_refl|right; exact eq_refl|exfalso; rewrite E in Hg; discriminate Hg|].
    destruct l; [exfalso; destruct E as [_ E]; rewrite E in Hg; discriminate Hg|]. exact (proj2 (proj2 E) eq_refl).
Defined.

(** A packet of two buffers: 3 and 4 bytes. *)
Definition two_buffers : Heap :=
  mkHeap {[8 := mkPbuf 16 (8, 2) 7 3 PBUF_RAM 0 1; 16 := mkPbuf 0 (16, 0) 4 4 PBUF_RAM 0 1]}
         {[8 := [91; 92; 1; 2; 3; 93]; 16 := [4; 5; 6; 7; 94]]} ∅.

Lemma two_buffers_packet : packet two_buffers 8 [mkSeg 8 8 [1; 2; 3]; mkSeg 16 16 [4; 5; 6; 7]].
Proof.
  split; [|done]. cbn [packet_seg sg_a]. split_and!; [done|done|]. eexists. split; [split; [done|]; split_and!; [done|done|]; eexists; done|].
  split; [done|]. cbn [p_next]. split_and!; [done|done|]. eexists. split; [split; [done|]; split_and!; [done|done|]; eexists; done|]. done.
Qed.
