(* ===== verification/PbufOps.v ===== *)
(** * Operations on packets ([src/lwip/src/core/pbuf.c]): what they do

    The functions of [Pbuf] that link, shorten and move packets, in terms of
    the packets in memory. *)

From stdpp Require Import gmap.
From S2P Require Import Prelude LwipDef Pbuf.

(** ** Changes of [tot_len] along a chain *)

Fixpoint add_tot (l : list Z) (x : Z) (h : Heap) : Heap :=
  match l with
  | [] => h
  | a :: l => add_tot l x (match pbufs h !! a with Some b => put a (p_set_tot_len (p_tot_len b + x) b) h | None => h end)
  end.

Definition longer (x : Z) (b : pbuf) : pbuf := p_set_tot_len (p_tot_len b + x) b.

Lemma add_tot_lookup l x : forall h, NoDup l ->
  (forall a, pbufs (add_tot l x h) !! a = if bool_decide (a ∈ l) then longer x <$> pbufs h !! a else pbufs h !! a) /\
  mem (add_tot l x h) = mem h /\ customs (add_tot l x h) = customs h.
Proof.
  induction l as [|a l IH]; intros h Hn; cbn [add_tot]; [split; [intros; by rewrite bool_decide_false by apply not_elem_of_nil|done]|].
  apply NoDup_cons in Hn as [Ha Hn]. destruct (IH (match pbufs h !! a with Some b => put a (longer x b) h | None => h end) Hn) as (I1 & I2 & I3).
  unfold longer in *. rewrite I2, I3. split; [|by destruct (pbufs h !! a)]. intros a'. rewrite I1. clear I1 I2 I3. destruct (decide (a' = a)) as [->|Hne].
  - rewrite bool_decide_false, bool_decide_true by (done || left). destruct (pbufs h !! a) as [b|] eqn:E; [by rewrite put_same|by rewrite E].
  - assert (pbufs (match pbufs h !! a with Some b => put a (p_set_tot_len (p_tot_len b + x) b) h | None => h end) !! a' = pbufs h !! a') as ->
      by (destruct (pbufs h !! a); [by rewrite put_other|done]).
    rewrite (bool_decide_ext (a' ∈ l) (a' ∈ a :: l)); [done|]. rewrite elem_of_cons. naive_solver.
Qed.

Lemma add_tot_seg h x l : forall p q n, packet_seg h p l q n -> NoDup (map sg_a l) -> packet_seg (add_tot (map sg_a l) x h) p l q (n + x).
Proof.
  intros p q n Hs Hn. destruct (add_tot_lookup (map sg_a l) x h Hn) as (L1 & L2 & _). revert L1 L2.
  generalize (add_tot (map sg_a l) x h) as h'. intros h' L1 L2.
  assert (forall s, s ∈ l -> pbufs h' !! sg_a s = longer x <$> pbufs h !! sg_a s) as L.
  { intros s Hin. rewrite L1, bool_decide_true; [done|]. apply list_elem_of_fmap. eauto. }
  clear L1 Hn. revert p Hs. induction l as [|s l IH]; intros p Hs; cbn [packet_seg] in *; [done|].
  destruct Hs as (-> & Hp & b & (Hb & Hbb & Hbl & Hbm) & Ht & Hs). split_and!; [done|done|]. exists (longer x b).
  split; [|split; [cbn; lia|apply IH; [intros; apply L; by right|done]]].
  unfold holds. rewrite L, Hb by left. rewrite L2. done.
Qed.

Lemma add_tot_app l1 l2 x : forall h, add_tot (l1 ++ l2) x h = add_tot l2 x (add_tot l1 x h).
Proof. induction l1 as [|a l1 IH]; intros h; cbn [add_tot app]; [done|]. apply IH. Qed.

Section Links.
Context `{Malloc}.

Lemma cat_loop_spec x l : forall fuel p s n t bt h, packet_seg h p (l ++ [s]) 0 n -> NoDup (map sg_a (l ++ [s])) ->
  pbufs h !! t = Some bt -> p_tot_len bt = x -> t ∉ map sg_a l -> 0 <= n -> 0 <= x -> data_len (l ++ [s]) + n + x < 65536 -> (length l <= fuel)%nat ->
  cat_loop fuel p t h = Ret (add_tot (map sg_a l) x h, sg_a s).
Proof.
  induction l as [|u l IH]; intros fuel p s n t bt h Hs Hnd Ht Hx Htl Hn Hx0 Hlen Hf; cbn [app packet_seg map] in *.
  - destruct Hs as (-> & Hp & b & (Hb & _) & _ & Hnx). destruct fuel; cbn [cat_loop]; rewrite (get_live _ _ _ Hb); cbn [mbind outcome_bind];
      by rewrite bool_decide_false by (rewrite Hnx; lia).
  - destruct Hs as (-> & Hp & b & (Hb & Hrest) & Htot & Hs). destruct fuel as [|fuel]; [cbn in Hf; lia|]. cbn [cat_loop]. rewrite (get_live _ _ _ Hb).
    cbn [mbind outcome_bind]. rewrite bool_decide_true by (destruct l; cbn [app packet_seg] in Hs; naive_solver).
    rewrite (get_live _ _ _ Ht). cbn [mbind outcome_bind]. rewrite not_elem_of_cons in Htl. destruct Htl as [Htu Htl].
    apply NoDup_cons in Hnd as [Hu Hnd]. rewrite data_len_cons in Hlen.
    pose proof (seg_len_nonneg u). pose proof (data_len_nonneg (l ++ [s])). rewrite Hx, u16_id by (unw; lia).
    cbn [add_tot]. rewrite Hb. eapply (IH fuel _ s n t bt); try done; [by apply packet_seg_put|by rewrite put_other|lia|cbn [length] in Hf; lia].
Qed.

Lemma cat_result h hd t l s b bt x : packet_seg h hd (l ++ [s]) 0 0 -> pbufs h !! sg_a s = Some b -> pbufs h !! t = Some bt -> p_tot_len bt = x ->
  t ∉ map sg_a (l ++ [s]) -> t <> 0 -> 0 <= x -> data_len (l ++ [s]) + x < 65536 ->
  pbuf_cat hd t h = Ret (put (sg_a s) (p_set_next t (longer x b)) (add_tot (map sg_a (l ++ [s])) x h)).
Proof.
  intros Hs Hb Ht Hx Htn Ht0 Hx0 Hlen. pose proof (packet_seg_linked _ _ _ _ _ Hs) as Hlk. pose proof (linked_NoDup _ _ _ Hlk) as Hnd.
  pose proof (linked_fuel _ _ _ Hlk) as Hf. rewrite length_map, length_app in Hf.
  destruct (packet_seg_split _ _ _ _ _ _ Hs) as (r & Hl & Hls). pose proof Hls as (-> & Hs0 & b' & (Hb' & _ & Hbl & _) & Hbt & Hnx).
  rewrite Hb in Hb'. injection Hb' as <-. cbn [packet_seg] in Hnx. change (data_len []) with 0 in Hbt.
  assert (hd <> 0) as Hhd by (destruct l; cbn [app packet_seg] in Hs; naive_solver).
  pose proof Htn as Htn2. pose proof Hnd as Hnd2. rewrite map_app in Htn2, Hnd2. apply not_elem_of_app in Htn2 as [Htl Hts].
  apply NoDup_app in Hnd2 as (Hndl & Hsl & _). assert (sg_a s ∉ map sg_a l) as Hsl' by (intros Hin; apply (Hsl _ Hin); left).
  destruct (add_tot_lookup (map sg_a l) x h Hndl) as (L & _). unfold pbuf_cat. rewrite (bool_decide_true (hd <> 0)), (bool_decide_true (t <> 0)) by done.
  cbn [andb LWIP_ASSERT mbind outcome_bind]. rewrite (cat_loop_spec x l _ _ s 0 t bt) by (done || lia). cbn [mbind outcome_bind].
  assert (pbufs (add_tot (map sg_a l) x h) !! sg_a s = Some b) as Hb1 by (by rewrite L, bool_decide_false).
  assert (pbufs (add_tot (map sg_a l) x h) !! t = Some bt) as Ht1 by (by rewrite L, bool_decide_false).
  rewrite (get_live _ _ _ Hb1). cbn [mbind outcome_bind]. rewrite (bool_decide_true (p_tot_len b = p_len b)), (bool_decide_true (p_next b = 0)) by (done || lia).
  cbn [LWIP_ASSERT mbind outcome_bind]. rewrite (get_live _ _ _ Ht1). cbn [mbind outcome_bind]. rewrite (upd_live _ _ _ _ Hb1).
  rewrite map_app, add_tot_app. cbn [map add_tot]. rewrite Hb1, put_put, Hx, u16_id; [done|].
  rewrite data_len_app, data_len_cons in Hlen. change (data_len []) with 0 in Hlen. pose proof (data_len_nonneg l). pose proof (seg_len_nonneg s). unw. lia.
Qed.

(** [pbuf_cat] puts the second packet behind the first one: the chain
    is one packet with the data of both; no byte and no other buffer is
    touched, and the counts of references stay as they are. *)
Theorem pbuf_cat_spec (h : Heap) (hd t : Z) (l1 l2 : list seg) :
  packet h hd l1 -> packet h t l2 -> l1 <> [] -> l2 <> [] -> (forall s, s ∈ l2 -> sg_a s ∉ map sg_a l1) -> data_len (l1 ++ l2) < 65536 ->
  exists h', pbuf_cat hd t h = Ret h' /\ packet h' hd (l1 ++ l2) /\ mem h' = mem h /\
    (forall a, a ∉ map sg_a l1 -> pbufs h' !! a = pbufs h !! a) /\
    (forall a b, pbufs h !! a = Some b -> exists b', pbufs h' !! a = Some b' /\ p_ref b' = p_ref b /\ p_type b' = p_type b /\ p_flags b' = p_flags b).
Proof.
  intros [H1 _] [H2 _] N1 N2 Hdis Hlen. destruct (exists_last N1) as (l & s & ->). clear N1.
  pose proof (linked_NoDup _ _ _ (packet_seg_linked _ _ _ _ _ H1)) as Hnd. destruct l2 as [|u l2]; [done|]. 
  pose proof H2 as (-> & Ht0 & bt & (Hbt & _) & Htot & _). rewrite Z.add_0_r, <-data_len_cons in Htot.
  assert (sg_a u ∉ map sg_a (l ++ [s])) as Htl by (apply Hdis; left). pose proof (data_len_nonneg (u :: l2)) as Hn2. rewrite data_len_app in Hlen.
  assert (sg_a s ∈ map sg_a (l ++ [s])) as Hin by (rewrite map_app; apply elem_of_app; right; left).
  destruct (packet_seg_live _ _ _ _ _ H1 s) as (b & (Hb & _) & Hs0); [apply elem_of_app; right; left|].
  rewrite (cat_result h hd (sg_a u) l s b bt _ H1 Hb Hbt Htot) by (done || lia).
  set (x := data_len (u :: l2)) in *. destruct (add_tot_lookup (map sg_a (l ++ [s])) x h Hnd) as (L1 & L2 & _).
  set (h1 := add_tot (map sg_a (l ++ [s])) x h) in *. assert (pbufs h1 !! sg_a s = Some (longer x b)) as Hb1 by (by rewrite L1, bool_decide_true, Hb).
  eexists. split; [done|]. split_and!; [split; [|by rewrite data_len_app]|done| |].
  - eapply (packet_link h1 _ _ _ _ (longer x b)); [|done|apply put_same| |done|].
    + rewrite Z.add_0_r. fold x. rewrite <-(Z.add_0_l x). by apply add_tot_seg.
    + intros a _ Hne. by apply put_other.
    + eapply packet_seg_frame; [exact H2|]. intros v Hv. split; [|cbn; by rewrite L2].
      rewrite put_other by (intros E; apply (Hdis v Hv); by rewrite <-E). rewrite L1, bool_decide_false; [done|]. by apply Hdis.
  - intros a Ha. rewrite put_other by (by intros <-). by rewrite L1, bool_decide_false.
  - intros a c Hc. destruct (decide (sg_a s = a)) as [<-|Hne].
    + rewrite put_same. eexists. split; [done|]. rewrite Hb in Hc. by injection Hc as <-.
    + rewrite put_other, L1 by done. case_bool_decide; rewrite Hc; eexists; split; done.
Qed.

End Links.

(** ** Chaining, taking apart, shrinking *)

(** The data of each buffer are in its own block or outside the packet. *)
Definition separate (l : list seg) : Prop := Forall (fun s => sg_base s = sg_a s \/ sg_base s ∉ map sg_a l) l.

Lemma slice_take {A} (m : list A) off n k d : slice m off n = Some d -> 0 <= k <= n -> slice m off k = Some (take (Z.to_nat k) d).
Proof.
  unfold slice. case_bool_decide; [|done]. intros [= <-] Hk. rewrite bool_decide_true by lia. by rewrite take_take, Nat.min_l by lia.
Qed.

(** Where a packet is cut: [l1] stays whole, the cut is in [s]. *)
Lemma cut_at l : forall n, l <> [] -> 0 <= n <= data_len l -> exists l1 s l2, l = l1 ++ s :: l2 /\
  (l1 = [] \/ data_len l1 < n) /\ 0 <= n - data_len l1 <= seg_len s.
Proof.
  induction l as [|s l IH]; intros n Hl Hn; [done|]. rewrite data_len_cons in Hn. pose proof (seg_len_nonneg s).
  destruct (decide (n <= seg_len s)); [exists [], s, l; change (data_len []) with 0; split_and!; auto; lia|].
  destruct (IH (n - seg_len s)) as (l1 & t & l2 & -> & H1 & H2); [intros ->; change (data_len []) with 0 in Hn; lia|lia|].
  exists (s :: l1), t, l2. rewrite data_len_cons. split; [done|]. destruct H1 as [->|H1]; [change (data_len []) with 0 in *|]; split_and!; try right; lia.
Qed.

Section Resize.
Context `{Malloc}.

(** [pbuf_chain] of a single buffer and a packet, undone by
    [pbuf_dechain]: in between the chain is one packet; afterwards the memory
    is as it was and the second packet is returned. *)
Theorem pbuf_chain_dechain (h : Heap) (hd t : Z) (s : seg) (l : list seg) (bt : pbuf) :
  packet h hd [s] -> packet h t l -> l <> [] -> sg_a s ∉ map sg_a l -> pbufs h !! t = Some bt -> 0 < p_ref bt < 65535 ->
  pbufs h !! 0 = None -> data_len (s :: l) < 65536 ->
  exists h', pbuf_chain hd t h = Ret h' /\ packet h' hd (s :: l) /\ pbuf_dechain hd h' = Ret (h, t).
Proof.
  intros [H1 _] [H2 _] N2 Hs Hbt Hr H0 Hlen. rewrite data_len_cons in Hlen. destruct l as [|u l]; [done|]. clear N2.
  pose proof H1 as (-> & Hs0 & b & Hh & Hb2 & Hnx). pose proof Hh as (Hb & Hb1 & Hbl & Hm). cbn [packet_seg] in Hnx. change (data_len []) with 0 in Hb2.
  pose proof H2 as (-> & Ht0 & bt' & (Hbt' & _) & Htot & _). rewrite Hbt in Hbt'. injection Hbt' as <-. rewrite Z.add_0_r, <-data_len_cons in Htot.
  set (x := data_len (u :: l)) in *. assert (sg_a u <> sg_a s) as Hus by (intros E; apply Hs; rewrite <-E; left). pose proof (data_len_nonneg (u :: l)) as Hx0. fold x in Hx0. pose proof (seg_len_nonneg s) as Hs1.
  assert (sg_a u ∉ map sg_a ([] ++ [s])) as Hus2 by (by intros Hin%list_elem_of_singleton).
  assert (data_len ([] ++ [s]) + x < 65536) as Hlen2 by (cbn [app]; rewrite data_len_cons; change (data_len []) with 0; lia).
  unfold pbuf_chain. rewrite (cat_result h (sg_a s) (sg_a u) [] s b bt x H1 Hb Hbt Htot Hus2 Ht0 ltac:(lia) Hlen2).
  cbn [app map add_tot mbind outcome_bind]. rewrite Hb, put_put. unfold pbuf_ref. rewrite bool_decide_true by done.
  rewrite (upd_live _ _ _ bt) by (by rewrite put_other). set (b' := p_set_next (sg_a u) (longer x b)).
  rewrite (u16_id (p_ref bt + 1)) by (unw; lia). eexists. split; [done|]. split.
  - split; [|by rewrite data_len_cons]. cbn [packet_seg]. split_and!; [done|done|]. exists b'. split; [|split; [cbn; lia|]].
    + unfold holds. rewrite put_other by done. rewrite put_same. done.
    + change (packet_seg (put (sg_a u) (p_set_ref (p_ref bt + 1) bt) (put (sg_a s) b' h)) (sg_a u) (u :: l) 0 0).
      eapply packet_seg_put_same; [apply (packet_seg_put _ _ _ _ _ _ _ H2 Hs)|by rewrite put_other|done..].
  - unfold pbuf_dechain. rewrite (get_live _ _ b') by (rewrite put_other by done; apply put_same). cbn [mbind outcome_bind].
    change (p_next b') with (sg_a u). rewrite (bool_decide_true (sg_a u <> 0)) by done. erewrite get_live by apply put_same. cbn [mbind outcome_bind].
    cbn [p_tot_len p_set_ref]. change (p_tot_len b') with (p_tot_len b + x). change (p_len b') with (p_len b).
    rewrite (bool_decide_true (p_tot_len bt = _)) by lia. cbn [LWIP_ASSERT mbind outcome_bind]. erewrite upd_live by apply put_same. cbn [mbind outcome_bind].
    rewrite put_put. rewrite (upd_live _ _ _ b') by (rewrite put_other by done; apply put_same). cbn [mbind outcome_bind].
    set (h2 := put (sg_a s) _ _). set (bt2 := p_set_tot_len _ (p_set_ref _ bt)) in *.
    assert (pbufs h2 !! sg_a u = Some bt2) as Hu2 by (unfold h2; rewrite put_other by done; apply put_same).
    rewrite (pbuf_free_spec [] (sg_a u) (sg_a u) h2); try done.
    + cbn [release length mbind outcome_bind]. unfold unref. rewrite Hu2. rewrite (get_live _ _ (p_set_tot_len (p_len b') (p_set_next 0 b'))).
      2: { rewrite put_other by done. apply put_same. }
      cbn [mbind outcome_bind]. rewrite (bool_decide_true (p_tot_len _ = p_len _)) by done. cbn [LWIP_ASSERT mbind outcome_bind]. do 2 f_equal.
      apply heap_ext; try done. unfold h2, b', bt2, longer. cbn [pbufs put h_set_pbufs].
      clear Hu2 h2 bt2 b'. clearbody x. apply map_eq. intros a. destruct (decide (a = sg_a u)) as [->|Hau]; [|destruct (decide (a = sg_a s)) as [->|Has]].
      * rewrite lookup_insert_eq, Hbt, u16_id by (unw; lia). f_equal. destruct bt; unfold p_set_ref, p_set_tot_len; cbn in *. f_equal; try done; lia.
      * rewrite lookup_insert_ne, lookup_insert_eq, Hb by done. f_equal. destruct b; unfold p_set_next, p_set_tot_len; cbn in *. f_equal; try done; lia.
      * by rewrite !lookup_insert_ne by done.
    + constructor.
    + apply not_elem_of_nil.
    + unfold h2. rewrite !put_other by done. done.
    + cbn. unfold chain_fuel. lia.
    + constructor.
    + intros _. exists bt2. split; [done|]. cbn. lia.
Qed.

Lemma realloc_loop_spec g l : forall fuel q s l2 rem h, packet_seg h q (l ++ s :: l2) 0 0 -> NoDup (map sg_a l) ->
  rem = data_len (l ++ s :: l2) + g -> g < 0 -> 0 <= rem < 65536 -> data_len (l ++ s :: l2) < 65536 ->
  (l = [] \/ data_len l < rem) -> rem - data_len l <= seg_len s -> (length l <= fuel)%nat ->
  realloc_loop fuel q rem g h = Ret (add_tot (map sg_a l) g h, sg_a s, rem - data_len l).
Proof.
  induction l as [|u l IH]; intros fuel q s l2 rem h Hs Hnd Hrem Hg Hr Hlen Hl Hle Hf; cbn [app packet_seg map add_tot] in *.
  - change (data_len []) with 0 in *. destruct Hs as (-> & Hp & b & (Hb & _ & Hbl & _) & _ & _). rewrite Z.sub_0_r in *.
    destruct fuel; cbn [realloc_loop]; rewrite (get_live _ _ _ Hb); cbn [mbind outcome_bind]; by rewrite bool_decide_false by lia.
  - destruct Hs as (-> & Hp & b & (Hb & _ & Hbl & _) & Htot & Hs). destruct fuel as [|fuel]; [cbn in Hf; lia|]. cbn [realloc_loop].
    rewrite (get_live _ _ _ Hb). cbn [mbind outcome_bind]. rewrite !data_len_cons in *. pose proof (data_len_nonneg l). pose proof (seg_len_nonneg u).
    pose proof (data_len_nonneg (l ++ s :: l2)). destruct Hl as [Hl|Hl]; [done|].
    assert (p_next b <> 0) as Hnx by (destruct l; cbn [app packet_seg] in Hs; naive_solver).
    rewrite (bool_decide_true (rem > p_len b)), (bool_decide_true (g < 65535)), (bool_decide_true (p_next b <> 0)) by (done || lia).
    cbn [LWIP_ASSERT mbind outcome_bind]. apply NoDup_cons in Hnd as [Hu Hnd].
    assert (u16 (p_tot_len b + u16 g) = p_tot_len b + g) as -> by (unfold u16; rewrite Zplus_mod_idemp_r; apply Z.mod_small; lia).
    rewrite (u16_id (rem - p_len b)) by (unw; lia). rewrite Hb. assert (sg_a u ∉ map sg_a (l ++ s :: l2)) as Hun.
    { intros Hin. pose proof (linked_NoDup h (map sg_a (u :: l ++ s :: l2)) (sg_a u)) as Hn2. cbn [map] in Hn2.
      apply NoDup_cons in Hn2 as [Hn2 _]; [done|]. cbn [linked]. split_and!; [done|done|]. exists b. split; [done|]. by eapply packet_seg_linked. }
    rewrite (IH fuel (p_next b) s l2) by (first [done | lia | by apply packet_seg_put | cbn [length] in Hf; lia]). do 2 f_equal. lia.
Qed.

Lemma packet_seg_release h L l p q n : packet_seg h p l q n -> (forall s, s ∈ l -> sg_a s ∉ L /\ sg_base s ∉ L) -> packet_seg (release L h) p l q n.
Proof.
  intros Hs Hd. eapply packet_seg_frame; [exact Hs|]. intros s Hin. destruct (Hd s Hin).
  by rewrite (proj1 (release_lookup _ _ _)), (proj2 (release_lookup _ _ _)), !bool_decide_false.
Qed.

Lemma realloc_end_spec q rem b L h : pbufs h !! q = Some b -> q <> 0 -> linked h (p_next b) L 0 -> q ∉ L -> each h solid L -> pbufs h !! 0 = None ->
  exists h1, realloc_end q rem h = Ret (put q (p_set_next 0 (p_set_tot_len rem (p_set_len rem b))) h1) /\
    (forall a, a ∈ L -> pbufs h1 !! a = None /\ mem h1 !! a = None) /\
    (forall a, a ∉ L -> mem h1 !! a = mem h !! a /\ (a <> q -> pbufs h1 !! a = pbufs h !! a)).
Proof.
  intros Hb Hq Hl HqL He H0. unfold realloc_end. rewrite (get_live _ _ _ Hb). cbn [mbind outcome_bind].
  replace (if bool_decide (p_type b = PBUF_RAM /\ rem <> p_len b) then mem_trim q _ h else (q, h)) with (q, h) by (by case_bool_decide).
  rewrite (bool_decide_true (q <> 0)) by done. cbn [LWIP_ASSERT mbind outcome_bind]. rewrite (upd_live _ _ _ _ Hb). cbn [mbind outcome_bind].
  set (b1 := p_set_tot_len rem (p_set_len rem b)). rewrite (get_live _ _ b1) by apply put_same. cbn [mbind outcome_bind].
  change (p_next b1) with (p_next b). destruct L as [|a L].
  - cbn [linked] in Hl. rewrite (bool_decide_false (p_next b <> 0)) by lia. cbn [mbind outcome_bind].
    rewrite (upd_live _ _ _ b1) by apply put_same. exists (put q b1 h). split; [done|]. split; [by intros a []%not_elem_of_nil|].
    intros a _. split; [done|]. intros Ha. by apply put_other.
  - pose proof Hl as (Hpn & Hpn0 & _). rewrite (bool_decide_true (p_next b <> 0)) by done.
    assert (forall x, x ∈ a :: L -> pbufs (put q b1 h) !! x = pbufs h !! x) as Hf by (intros x Hx; apply put_other; by intros ->).
    rewrite (pbuf_free_spec (a :: L) (p_next b) 0); [|by apply (linked_frame h)|by apply (each_frame h)| |done|by rewrite put_other| | |done].
    2: { intros Hin. by destruct (linked_live _ _ _ _ Hl 0 Hin). }
    2: { apply (linked_fuel _ _ (p_next b)). by apply (linked_frame h). }
    2: { by eapply linked_NoDup. }
    cbn [mbind outcome_bind]. set (h1 := release (a :: L) (put q b1 h)).
    assert (forall x, pbufs h1 !! x = (if bool_decide (x ∈ a :: L) then None else pbufs (put q b1 h) !! x) /\
      mem h1 !! x = (if bool_decide (x ∈ a :: L) then None else mem h !! x)) as Hr by (intros x; exact (release_lookup (a :: L) (put q b1 h) x)).
    assert (unref 0 h1 = h1) as ->. { unfold unref. rewrite (proj1 (Hr 0)), put_other, H0 by done. by case_bool_decide. }
    rewrite (upd_live _ _ _ b1) by (rewrite (proj1 (Hr q)), bool_decide_false by done; apply put_same). exists h1. split; [done|]. split.
    + intros x Hx. rewrite (proj1 (Hr x)), (proj2 (Hr x)), !bool_decide_true by done. done.
    + intros x Hx. rewrite (proj1 (Hr x)), (proj2 (Hr x)), !bool_decide_false by done. split; [done|]. intros Hxq. by apply put_other.
Qed.

Lemma packet_cut h h' p l1 s l2 rem g b : packet_seg h p l1 (sg_a s) (data_len (s :: l2)) -> holds h s b -> sg_a s <> 0 -> 0 <= rem <= seg_len s ->
  g = rem - data_len (s :: l2) -> NoDup (map sg_a l1) -> sg_a s ∉ map sg_a l1 ->
  pbufs h' !! sg_a s = Some (p_set_next 0 (p_set_tot_len rem (p_set_len rem b))) ->
  (forall a, a ∈ map sg_a l1 -> pbufs h' !! a = longer g <$> pbufs h !! a) ->
  (forall t, t ∈ l1 ++ [s] -> mem h' !! sg_base t = mem h !! sg_base t) ->
  packet_seg h' p (l1 ++ [mkSeg (sg_a s) (sg_base s) (take (Z.to_nat rem) (sg_data s))]) 0 0.
Proof.
  intros Hp (Hb & Hbb & Hbl & m & Hm & Hms) Hs0 Hrem Hg Hnd Hs Hb' Hf Hmem.
  assert (Z.of_nat (length (take (Z.to_nat rem) (sg_data s))) = rem) as Hd by (rewrite length_take; unfold seg_len in Hrem; lia).
  set (s' := mkSeg _ _ _). assert (seg_len s' = rem) as Hs' by done.
  eapply (packet_seg_app _ _ _ (sg_a s)).
  - replace (data_len [s'] + 0) with (data_len (s :: l2) + g) by (rewrite (data_len_cons s'); change (data_len []) with 0; lia).
    eapply packet_seg_frame; [by apply (add_tot_seg h g)|]. intros t Ht. destruct (add_tot_lookup (map sg_a l1) g h Hnd) as (L1 & L2 & _).
    assert (sg_a t ∈ map sg_a l1) as Hin by (apply list_elem_of_fmap; eauto).
    rewrite L1, L2, bool_decide_true by done. split; [by apply Hf|apply Hmem; apply elem_of_app; by left].
  - cbn [packet_seg]. split_and!; [done|done|]. exists (p_set_next 0 (p_set_tot_len rem (p_set_len rem b))). split; [|split; [|done]].
    + split; [exact Hb'|]. split_and!; [done|cbn; lia|]. exists m. cbn [sg_base s']. rewrite Hmem by (apply elem_of_app; right; left).
      split; [done|]. cbn. eapply slice_take; [exact Hms|]. lia.
    + cbn [p_tot_len p_set_next p_set_tot_len]. change (data_len []) with 0. lia.
Qed.

(** [pbuf_realloc] to [new_len] bytes.  A length that is not smaller
    changes nothing.  Otherwise the packet keeps exactly its first [new_len]
    bytes, in the buffers it is in; the buffers behind the cut are freed, each
    of them, and nothing else changes. *)
Theorem pbuf_realloc_spec (h : Heap) (p new_len : Z) (l : list seg) :
  packet h p l -> separate l -> l <> [] -> each h solid (map sg_a (tail l)) -> pbufs h !! 0 = None -> is_u16 new_len ->
  (data_len l <= new_len -> pbuf_realloc p new_len h = Ret h) /\
  (new_len < data_len l -> exists h' l1 s l2 d, pbuf_realloc p new_len h = Ret h' /\ l = l1 ++ s :: l2 /\
     packet h' p (l1 ++ [mkSeg (sg_a s) (sg_base s) d]) /\
     data (l1 ++ [mkSeg (sg_a s) (sg_base s) d]) = take (Z.to_nat new_len) (data l) /\
     (forall a, a ∈ map sg_a l2 -> pbufs h' !! a = None /\ mem h' !! a = None) /\
     (forall a, a ∉ map sg_a l2 -> mem h' !! a = mem h !! a) /\
     (forall a, a ∉ map sg_a l -> pbufs h' !! a = pbufs h !! a)).
Proof.
  intros [Hp Hlen] Hsep Hl Hsolid H0 Hn. unfold is_u16 in Hn.
  destruct l as [|s0 l0]; [done|]. pose proof Hp as (-> & Hp0 & b0 & (Hb0 & _) & Htot & _). rewrite Z.add_0_r, <-data_len_cons in Htot.
  unfold pbuf_realloc. rewrite (bool_decide_true (sg_a s0 <> 0)) by done. cbn [LWIP_ASSERT mbind outcome_bind]. rewrite (get_live _ _ _ Hb0).
  cbn [mbind outcome_bind]. rewrite Htot. split; intros Hcmp; [by rewrite bool_decide_true by lia|]. rewrite (bool_decide_false (new_len >= _)) by lia.
  destruct (cut_at (s0 :: l0) new_len) as (l1 & s & l2 & El & Hl1 & Hcut); [done|lia|].
  set (p := sg_a s0) in *. rewrite El in *.
  set (g := new_len - data_len (l1 ++ s :: l2)).
  pose proof (packet_seg_linked _ _ _ _ _ Hp) as Hlk. pose proof (linked_fuel _ _ _ Hlk) as Hf. pose proof (linked_NoDup _ _ _ Hlk) as Hnd.
  rewrite length_map, length_app in Hf. cbn [length] in Hf. rewrite map_app in Hnd. cbn [map] in Hnd.
  apply NoDup_app in Hnd as (Hnd1 & Hnd2 & Hnd3). apply NoDup_cons in Hnd3 as [Hs2 Hnd3].
  rewrite (realloc_loop_spec g l1 _ _ s l2 new_len) by (first [done|lia|unfold g; lia]). cbn [mbind outcome_bind].
  set (rem := new_len - data_len l1) in *. destruct (add_tot_lookup (map sg_a l1) g h Hnd1) as (L1 & L2 & _).
  set (h1 := add_tot (map sg_a l1) g h) in *. assert (sg_a s ∉ map sg_a l1) as Hs1 by (intros Hin; apply (Hnd2 _ Hin); left).
  destruct (packet_seg_split _ _ _ _ _ _ Hp) as (r & Hp1 & Hp2). pose proof Hp2 as (-> & Hs0 & b & (Hb & Hbb & Hbl & m & Hm & Hms) & _ & Hp3).
  assert (forall x, x ∈ map sg_a l2 -> pbufs h1 !! x = pbufs h !! x) as Hf2
    by (intros x Hx; rewrite L1, bool_decide_false; [done|]; intros Hin; apply (Hnd2 _ Hin); by right).
  pose proof (packet_seg_linked _ _ _ _ _ Hp3) as Hlk3.
  destruct (realloc_end_spec (sg_a s) rem b (map sg_a l2) h1) as (h2 & E & R1 & R2);
    [by rewrite L1, bool_decide_false|done|by apply (linked_frame h)|done| | |].
  { apply (each_frame h); [|done]. unfold each in *. destruct l1; cbn [app tail map] in Hsolid; [done|].
    rewrite map_app in Hsolid. apply Forall_app in Hsolid as [_ Hsolid]. by apply Forall_cons in Hsolid as [_ Hsolid]. }
  { rewrite L1. case_bool_decide; by rewrite H0. }
  rewrite E. set (b' := p_set_next 0 _) in *. exists (put (sg_a s) b' h2), l1, s, l2, (take (Z.to_nat rem) (sg_data s)).
  assert (Z.of_nat (length (take (Z.to_nat rem) (sg_data s))) = rem) as Hd by (rewrite length_take; unfold seg_len in Hcut; lia).
  set (s' := mkSeg (sg_a s) (sg_base s) (take (Z.to_nat rem) (sg_data s))). split; [done|]. split; [done|].
  assert (forall t, t ∈ l1 ++ [s] -> sg_base t ∉ map sg_a l2) as Hbase.
  { intros t Ht. assert (sg_a t ∉ map sg_a l2) as Hta.
    { apply elem_of_app in Ht as [Ht| ->%list_elem_of_singleton]; [|done]. intros Hin. apply (Hnd2 (sg_a t)); [apply list_elem_of_fmap; eauto|by right]. }
    unfold separate in Hsep. rewrite Forall_forall in Hsep. destruct (Hsep t) as [->|Hn2]; [|done|].
    - apply elem_of_app in Ht as [Ht| ->%list_elem_of_singleton]; apply elem_of_app; [by left|right; left].
    - rewrite map_app, not_elem_of_app in Hn2. cbn [map] in Hn2. rewrite not_elem_of_cons in Hn2. tauto. }
  split_and!.
  - split.
    + eapply (packet_cut h _ _ l1 s l2 rem g b); [by rewrite Z.add_0_r in Hp1|split_and!; try done; by exists m|done|lia|unfold g, rem; rewrite data_len_app; lia|done|done|apply put_same| |].
      * intros a Ha. rewrite put_other by (by intros <-). rewrite (proj2 (R2 a ltac:(intros Hin; apply (Hnd2 a Ha); by right))) by (by intros ->).
        by rewrite L1, bool_decide_true.
      * intros t Ht. cbn. rewrite (proj1 (R2 _ (Hbase t Ht))). by rewrite L2.
    + rewrite data_len_app, data_len_cons. unfold seg_len. cbn [sg_data s']. rewrite Hd. change (data_len []) with 0. unfold rem. lia.
  - rewrite !data_app. cbn [data sg_data s']. rewrite app_nil_r. rewrite take_app. f_equal.
    + rewrite take_ge; [done|]. unfold rem, data_len in Hcut. lia.
    + rewrite take_app_le by (unfold seg_len in Hcut; unfold rem, data_len in Hcut; lia). f_equal. unfold rem, data_len. lia.
  - intros a Ha. rewrite put_other by (by intros <-). cbn. by apply R1.
  - intros a Ha. cbn. rewrite (proj1 (R2 a Ha)). by rewrite L2.
  - intros a Ha. rewrite map_app, not_elem_of_app in Ha. cbn [map] in Ha. rewrite not_elem_of_cons in Ha. destruct Ha as (Ha1 & Ha2 & Ha3).
    rewrite put_other by done. rewrite (proj2 (R2 a Ha3)) by done. by rewrite L1, bool_decide_false.
Qed.

End Resize.

(** ** Headers *)

Lemma slice_inv {A} (m : list A) off n d : slice m off n = Some d ->
  0 <= off /\ 0 <= n /\ off + n <= Z.of_nat (length m) /\ d = take (Z.to_nat n) (drop (Z.to_nat off) m).
Proof. unfold slice. case_bool_decide; [|done]. intros [= <-]. tauto. Qed.

Lemma slice_drop {A} (m : list A) off n k d : slice m off n = Some d -> 0 <= k <= n -> slice m (off + k) (n - k) = Some (drop (Z.to_nat k) d).
Proof.
  intros (H1 & H2 & H3 & ->)%slice_inv Hk. rewrite slice_ok by lia. f_equal.
  rewrite skipn_firstn_comm, drop_drop. f_equal; [lia|]. f_equal. lia.
Qed.

Lemma slice_grow {A} (m : list A) off n k d : slice m off n = Some d -> 0 <= k <= off ->
  exists x, slice m (off - k) k = Some x /\ Z.of_nat (length x) = k /\ slice m (off - k) (n + k) = Some (x ++ d).
Proof.
  intros (H1 & H2 & H3 & ->)%slice_inv Hk. exists (take (Z.to_nat k) (drop (Z.to_nat (off - k)) m)).
  rewrite !slice_ok by lia. split; [done|]. split; [rewrite length_take, length_drop; lia|]. f_equal.
  replace (drop (Z.to_nat off) m) with (drop (Z.to_nat k) (drop (Z.to_nat (off - k)) m)) by (rewrite drop_drop; f_equal; lia).
  replace (Z.to_nat (n + k)) with (Z.to_nat k + Z.to_nat n)%nat by lia. symmetry. apply take_take_drop.
Qed.

Section Header.
Context `{Malloc}.

(** [b] with its payload moved by [incr] towards the front. *)
Definition moved (incr : Z) (b : pbuf) : pbuf :=
  mkPbuf (p_next b) ((p_payload b).1, (p_payload b).2 - incr) (p_tot_len b + incr) (p_len b + incr) (p_type b) (p_flags b) (p_ref b).

Definition own_type (b : pbuf) : Prop := p_type b = PBUF_RAM \/ p_type b = PBUF_POOL.

Lemma moved_moved incr b : moved (- incr) (moved incr b) = b.
Proof. destruct b as [nx [pb po] ? ? ? ? ?]. unfold moved. cbn. do 2 f_equal; [f_equal|..]; lia. Qed.

(** The step of [pbuf_header], when it succeeds. *)
Lemma header_step h p b incr : pbufs h !! p = Some b -> p <> 0 -> incr <> 0 -> - 32768 <= incr < 32768 -> (incr < 0 -> - incr <= p_len b) ->
  0 <= p_len b <= p_tot_len b -> p_tot_len b + incr < 65536 -> p_tot_len b < 65536 ->
  (own_type b -> (p_payload b).1 = p /\ incr <= (p_payload b).2) -> (~ own_type b -> incr < 0) ->
  pbuf_header p incr h = Ret (put p (moved incr b) h, 0).
Proof.
  intros Hb Hp Hi Hr Hneg Hlen Htot Htot2 Hown Hrom. unfold pbuf_header. rewrite (bool_decide_true (p <> 0)) by done. cbn [LWIP_ASSERT mbind outcome_bind].
  rewrite (bool_decide_false (incr = 0)) by done. rewrite (get_live _ _ _ Hb). cbn [mbind outcome_bind].
  assert ((if bool_decide (incr < 0) then _ ← LWIP_ASSERT (bool_decide (u16 (- incr) <= p_len b)); Ret (u16 (- incr)) else Ret (u16 incr))
    = Ret (Z.abs incr)) as ->.
  { case_bool_decide as E.
    - rewrite !u16_id by (unw; lia). rewrite bool_decide_true by (by apply Hneg). cbn. f_equal. lia.
    - rewrite u16_id by (unw; lia). f_equal. lia. }
  cbn [mbind outcome_bind]. cbn [fst snd].
  assert (p_set_tot_len (u16 (p_tot_len b + incr)) (p_set_len (u16 (p_len b + incr)) (p_set_payload ((p_payload b).1, (p_payload b).2 - incr) b)) = moved incr b) as ->.
  { rewrite !u16_id by (unw; lia). done. }
  unfold own_type in *. destruct (p_type b) eqn:Et.
  1,4: destruct Hown as [H1 H2]; [tauto|]; rewrite (bool_decide_true (_ = p)), (bool_decide_false (_ < 0)) by (done || lia); done.
  all: rewrite bool_decide_true; [done|]; assert (incr < 0) as E by (apply Hrom; naive_solver); split; [done|]; rewrite Z.abs_neq by lia; by apply Hneg.
Qed.

Lemma packet_moved h p s l b incr d : packet_seg h p (s :: l) 0 0 -> pbufs h !! p = Some b ->
  (forall m, mem h !! sg_base s = Some m -> slice m (p_payload b).2 (p_len b) = Some (sg_data s) -> slice m ((p_payload b).2 - incr) (p_len b + incr) = Some d) ->
  Z.of_nat (length d) = p_len b + incr -> packet_seg (put p (moved incr b) h) p (mkSeg (sg_a s) (sg_base s) d :: l) 0 0.
Proof.
  intros Hp Hb Hd Hlen. pose proof (linked_NoDup _ _ _ (packet_seg_linked _ _ _ _ _ Hp)) as Hnd. cbn [map] in Hnd. apply NoDup_cons in Hnd as [Hs _].
  destruct Hp as (-> & Hp0 & b' & (Hb' & Hbb & Hbl & m & Hm & Hms) & Ht & Hp). rewrite Hb in Hb'. injection Hb' as <-.
  cbn [packet_seg sg_a]. split_and!; [done|done|]. exists (moved incr b). split_and!; [|cbn; unfold seg_len in *; cbn [sg_data]; lia|by apply packet_seg_put].
  split; [apply put_same|]. split_and!; [done|cbn; unfold seg_len; cbn [sg_data]; lia|]. exists m. split; [done|]. by apply Hd.
Qed.

Lemma undo_move h p b incr i2 : pbufs h !! p = Some b -> i2 = - incr -> put p (moved i2 (moved incr b)) (put p (moved incr b) h) = h.
Proof. intros Hb ->. rewrite put_put, moved_moved. apply heap_ext; try done. by apply insert_id. Qed.

Lemma header_refused h p b n : pbufs h !! p = Some b -> p <> 0 -> 0 < n -> (own_type b -> (p_payload b).1 = p) ->
  (own_type b /\ (p_payload b).2 < n) \/ ~ own_type b -> pbuf_header p n h = Ret (h, 1).
Proof.
  intros Hb Hp Hn Hpay Hc. unfold pbuf_header, own_type in *. rewrite (bool_decide_true (p <> 0)), (bool_decide_false (n = 0)) by (done || lia).
  cbn [LWIP_ASSERT mbind outcome_bind]. rewrite (get_live _ _ _ Hb). cbn [mbind outcome_bind]. rewrite (bool_decide_false (n < 0)) by lia.
  cbn [mbind outcome_bind fst snd]. destruct (p_type b).
  1,4: rewrite Hpay by tauto; rewrite (bool_decide_true (p = p)), (bool_decide_true (_ < 0)) by (done || naive_solver lia); done.
  all: by rewrite bool_decide_false by lia.
Qed.

(** [pbuf_header].  Hiding [n] bytes drops them from the front of the
    packet, revealing [n] bytes puts the bytes of the memory in front of the
    payload there, and each undoes the other exactly.  There must be room: more
    bytes than lie in front of the payload, or any in front of memory that is
    not the buffer's own, are refused and nothing changes.  Hiding more bytes than the first
    buffer holds is not refused: the assertion stops the program. *)
Theorem pbuf_header_spec (h : Heap) (p n : Z) (s : seg) (l : list seg) (b : pbuf) :
  packet h p (s :: l) -> pbufs h !! p = Some b -> (own_type b -> sg_base s = p) -> 0 < n < 32768 ->
  (n <= p_len b -> exists h', pbuf_header p (- n) h = Ret (h', 0) /\ packet h' p (mkSeg (sg_a s) (sg_base s) (drop (Z.to_nat n) (sg_data s)) :: l) /\
     (own_type b -> pbuf_header p n h' = Ret (h, 0))) /\
  (own_type b -> n <= (p_payload b).2 -> p_tot_len b + n < 65536 -> exists h' x, pbuf_header p n h = Ret (h', 0) /\ Z.of_nat (length x) = n /\
     packet h' p (mkSeg (sg_a s) (sg_base s) (x ++ sg_data s) :: l) /\ pbuf_header p (- n) h' = Ret (h, 0)) /\
  (own_type b -> (p_payload b).2 < n -> pbuf_header p n h = Ret (h, 1)) /\
  (~ own_type b -> pbuf_header p n h = Ret (h, 1)) /\
  (p_len b < n -> pbuf_header p (- n) h = Spin).
Proof.
  intros [Hp Hlen] Hb Hown Hn. pose proof Hp as (Hps & Hp0 & b' & (Hb' & Hbb & Hbl & m & Hm & Hms) & Ht & _). rewrite <-Hps, Hb in Hb'. injection Hb' as <-.
  pose proof (slice_inv _ _ _ _ Hms) as (Hoff & _). rewrite data_len_cons in Hlen. pose proof (data_len_nonneg l). pose proof (seg_len_nonneg s).
  assert (own_type b -> (p_payload b).1 = p) as Hpay by (intros; rewrite Hbb; auto).
  assert (0 <= p_len b <= p_tot_len b /\ p_tot_len b < 65536) as [Hr1 Hr2] by lia.
  assert (forall incr, pbufs (put p (moved incr b) h) !! p = Some (moved incr b)) as Hput by (intros; apply put_same).
  split_and!.
  - intros Hle. assert (pbuf_header p (- n) h = Ret (put p (moved (- n) b) h, 0)) as E
      by (apply header_step; try done; try lia; intros Ho; split; [by apply Hpay|lia]).
    eexists. split; [exact E|]. split.
    + split; [|rewrite data_len_cons; unfold seg_len in *; cbn [sg_data]; rewrite length_drop; lia].
      apply packet_moved; [done|done| |rewrite length_drop; unfold seg_len in *; lia]. intros m' Hm' Hms'.
      replace (_ - - n) with ((p_payload b).2 + n) by lia. replace (p_len b + - n) with (p_len b - n) by lia. apply slice_drop; [done|lia].
    + intros Ho. rewrite (header_step _ p _ n (Hput (- n))); cbn [moved p_len p_tot_len p_payload fst snd]; try done; try lia.
      * by rewrite (undo_move h p b _ _ Hb) by lia.
      * intros _. split; [by apply Hpay|lia].
  - intros Ho Hle Hlt. assert (pbuf_header p n h = Ret (put p (moved n b) h, 0)) as E
      by (apply header_step; try done; try lia; intros _; split; [by apply Hpay|lia]).
    destruct (slice_grow _ _ _ n _ Hms) as (x & Hx1 & Hx2 & Hx3); [lia|]. eexists _, x. split; [exact E|]. split; [done|]. split.
    + split; [|rewrite data_len_cons; unfold seg_len in *; cbn [sg_data]; rewrite length_app; lia].
      apply packet_moved; [done|done| |rewrite length_app; unfold seg_len in *; lia]. intros m' Hm' Hms'.
      rewrite Hm in Hm'. by injection Hm' as <-.
    + rewrite (header_step _ p _ (- n) (Hput n)); cbn [moved p_len p_tot_len p_payload fst snd]; try done; try lia.
      * by rewrite (undo_move h p b _ _ Hb) by lia.
      * intros _. split; [by apply Hpay|lia].
  - intros Ho Hlt. apply (header_refused _ _ b); try done; [lia|]. left. auto.
  - intros Ho. apply (header_refused _ _ b); try done; [lia|]. by right.
  - intros Hlt. unfold pbuf_header. rewrite (bool_decide_true (p <> 0)), (bool_decide_false (- n = 0)) by (done || lia). cbn [LWIP_ASSERT mbind outcome_bind].
    rewrite (get_live _ _ _ Hb). cbn [mbind outcome_bind]. rewrite (bool_decide_true (- n < 0)) by lia. rewrite (u16_id (- - n)) by (unw; lia).
    by rewrite (bool_decide_false (- - n <= p_len b)) by lia.
Qed.

End Header.

(** Seven bytes in two buffers, cut to two; and a header of two bytes in front
    of them, hidden and revealed. *)
Lemma pbuf_realloc_spec_witness : exists h', @pbuf_realloc (test_malloc 10 0) 8 2 two_buffers = Ret h' /\ pbufs h' !! 16 = None.
Proof.
  destruct (@pbuf_realloc_spec (test_malloc 10 0) two_buffers 8 2 [mkSeg 8 8 [1; 2; 3]; mkSeg 16 16 [4; 5; 6; 7]]) as [_ Hcut];
    [apply two_buffers_packet| |done| |done|unw; lia|].
  - by repeat (apply Forall_cons; split; [by left|]).
  - apply Forall_cons. split; [|by apply Forall_nil]. eexists. split; [done|]. done.
  - destruct Hcut as (h' & _ & _ & _ & _ & E & _); [vm_compute; reflexivity|]. exists h'. split; [exact E|].
    vm_compute in E. injection E as <-. vm_compute. reflexivity.
Defined.

Lemma pbuf_header_spec_witness : exists h' x, pbuf_header 8 2 two_buffers = Ret (h', 0) /\ Z.of_nat (length x) = 2 /\
  packet h' 8 [mkSeg 8 8 (x ++ [1; 2; 3]); mkSeg 16 16 [4; 5; 6; 7]] /\ pbuf_header 8 (-2) h' = Ret (two_buffers, 0).
Proof.
  destruct (pbuf_header_spec two_buffers 8 2 (mkSeg 8 8 [1; 2; 3]) [mkSeg 16 16 [4; 5; 6; 7]] (mkPbuf 16 (8, 2) 7 3 PBUF_RAM 0 1)) as (_ & Hr & _);
    [apply two_buffers_packet|done|done|lia|].
  apply Hr; [by left|done|done].
Defined.
