(* ===== verification/PbufData.v ===== *)
(** * Contents of packets ([src/lwip/src/core/pbuf.c])

    The operations that copy, compare and search the data of packet buffers. *)

From stdpp Require Import gmap.
From S2P Require Import Prelude LwipDef InetChksum Pbuf PbufOps.

Definition ERR_OK : Z := 0.
Definition ERR_MEM : Z := -1.
Definition ERR_BUF : Z := -2.
Definition ERR_RTE : Z := -4.
Definition ERR_VAL : Z := -6.
Definition ERR_USE : Z := -8.
Definition ERR_CONN : Z := -13.
Definition ERR_ARG : Z := -14.

(** [n] bytes at [q]; the bytes [src] to [q]. *)
Definition load (q : ptr) (n : Z) (h : Heap) : outcome (list Z) := m ← checked (mem h !! q.1); checked (slice m q.2 n).
Definition store (q : ptr) (src : list Z) (h : Heap) : outcome Heap :=
  m ← checked (mem h !! q.1); m ← checked (blit m q.2 src); Ret (h_set_mem (<[q.1 := m]> (mem h)) h).
Definition at_off (q : ptr) (k : Z) : ptr := (q.1, q.2 + k).

Section Copy.
Context `{Malloc}.

(** "pbuf_copy() does not allow packet queues!": what is checked of each
    buffer that comes next. *)
Definition no_queue (p : Z) (h : Heap) : outcome () :=
  if bool_decide (p <> 0) then
    b ← get p h; if bool_decide (p_len b = p_tot_len b) then LWIP_ASSERT (bool_decide (p_next b = 0)) else Ret ()
  else Ret ().

(** [do ... while (p_from)]: the two buffers and how far each has got. *)
Fixpoint copy_loop (fuel : nat) (p_to offset_to p_from offset_from : Z) (h : Heap) : outcome (Heap * Z) :=
  match fuel with
  | O => Spin
  | S fuel =>
      bt ← get p_to h; bf ← get p_from h;
      let len := u16 (if bool_decide (p_len bt - offset_to >= p_len bf - offset_from) then p_len bf - offset_from else p_len bt - offset_to) in
      d ← load (at_off (p_payload bf) offset_from) len h;
      h ← store (at_off (p_payload bt) offset_to) d h;
      let offset_to := u16 (offset_to + len) in
      let offset_from := u16 (offset_from + len) in
      _ ← LWIP_ASSERT (bool_decide (offset_to <= p_len bt));
      _ ← LWIP_ASSERT (bool_decide (offset_from <= p_len bf));
      let '(offset_from, p_from) := if bool_decide (offset_from >= p_len bf) then (0, p_next bf) else (offset_from, p_from) in
      '(offset_to, p_to) ← (if bool_decide (offset_to = p_len bt)
                            then _ ← LWIP_ASSERT (bool_decide (p_next bt <> 0 \/ p_from = 0)); Ret (0, p_next bt)
                            else Ret (offset_to, p_to));
      _ ← no_queue p_from h;
      _ ← no_queue p_to h;
      if bool_decide (p_from <> 0) then copy_loop fuel p_to offset_to p_from offset_from h else Ret (h, ERR_OK)
  end.

Definition pbuf_copy (p_to p_from : Z) (h : Heap) : outcome (Heap * Z) :=
  _ ← LWIP_ASSERT (bool_decide (p_to <> 0) && bool_decide (p_from <> 0));
  bt ← get p_to h; bf ← get p_from h;
  _ ← LWIP_ASSERT (bool_decide (p_tot_len bt >= p_tot_len bf));
  copy_loop (chain_fuel h + chain_fuel h) p_to 0 p_from 0 h.

(** The loop over the chain; [dst] is the memory behind [dataptr]. *)
Fixpoint partial_loop (fuel : nat) (p : Z) (dst : list Z) (left len offset : Z) (h : Heap) : outcome (list Z * Z) :=
  if bool_decide (len <> 0 /\ p <> 0) then
    match fuel with
    | O => Spin
    | S fuel =>
        b ← get p h;
        if bool_decide (offset <> 0 /\ offset >= p_len b) then partial_loop fuel (p_next b) dst left len (u16 (offset - p_len b)) h
        else
          let n := u16 (p_len b - offset) in
          let n := if bool_decide (n > len) then len else n in
          d ← load (at_off (p_payload b) offset) n h;
          dst ← checked (blit dst left d);
          partial_loop fuel (p_next b) dst (u16 (left + n)) (u16 (len - n)) 0 h
    end
  else Ret (dst, left).

(** The memory behind [dataptr] afterwards and the number of bytes. *)
Definition pbuf_copy_partial (buf : Z) (dst : list Z) (len offset : Z) (h : Heap) : outcome (list Z * Z) :=
  _ ← LWIP_ASSERT (bool_decide (buf <> 0));
  partial_loop (chain_fuel h) buf dst 0 len offset h.

(** The loop copies what is left of the data, [src]. *)
Fixpoint take_loop (fuel : nat) (p : Z) (src : list Z) (h : Heap) : outcome Heap :=
  if bool_decide (Z.of_nat (length src) <> 0) then
    match fuel with
    | O => Spin
    | S fuel =>
        _ ← LWIP_ASSERT (bool_decide (p <> 0));
        b ← get p h;
        let n := if bool_decide (Z.of_nat (length src) > p_len b) then p_len b else Z.of_nat (length src) in
        h ← store (p_payload b) (take (Z.to_nat n) src) h;
        take_loop fuel (p_next b) (drop (Z.to_nat n) src) h
    end
  else Ret h.

(** [src]: the [len] bytes at [dataptr]. *)
Definition pbuf_take (buf : Z) (src : list Z) (h : Heap) : outcome (Heap * Z) :=
  _ ← LWIP_ASSERT (bool_decide (buf <> 0));
  b ← get buf h;
  if bool_decide (p_tot_len b < Z.of_nat (length src)) then Ret (h, ERR_ARG)
  else h ← take_loop (chain_fuel h) buf src h; Ret (h, ERR_OK).

Definition pbuf_coalesce (p : Z) (layer : pbuf_layer) (h : Heap) : outcome (Heap * Z) :=
  b ← get p h;
  if bool_decide (p_next b = 0) then Ret (h, p)
  else
    '(h, q) ← pbuf_alloc layer (p_tot_len b) PBUF_RAM h;
    if bool_decide (q = 0) then Ret (h, p)
    else
      '(h, err) ← pbuf_copy q p h;
      _ ← LWIP_ASSERT (bool_decide (err = ERR_OK));
      '(h, _) ← pbuf_free p h;
      Ret (h, q).

(** The second and third components: the error and the checksum. *)
Definition pbuf_fill_chksum (p start_offset : Z) (src : list Z) (chksum : Z) (h : Heap) : outcome (Heap * Z * Z) :=
  let len := Z.of_nat (length src) in
  _ ← LWIP_ASSERT (bool_decide (p <> 0));
  _ ← LWIP_ASSERT (bool_decide (len <> 0));
  b ← get p h;
  if bool_decide (start_offset >= p_len b \/ start_offset + len > p_len b) then Ret (h, ERR_ARG, chksum)
  else
    let dst := at_off (p_payload b) start_offset in
    m ← checked (mem h !! dst.1);
    '(m, copy_chksum) ← lwip_chksum_copy m dst.2 src;
    let h := h_set_mem (<[dst.1 := m]> (mem h)) h in
    let copy_chksum := if bool_decide (Z.land start_offset 1 <> 0) then u16 (SWAP_BYTES_IN_WORD copy_chksum) else copy_chksum in
    let acc := u32 (chksum + copy_chksum) in
    Ret (h, ERR_OK, u16 (FOLD_U32T acc)).

(** ** Single bytes *)

(** The loop to the buffer that holds the byte. *)
Fixpoint locate (fuel : nat) (q copy_from : Z) (h : Heap) : outcome (Z * Z) :=
  if bool_decide (q = 0) then Ret (q, copy_from) else
  b ← get q h;
  if bool_decide (p_len b <= copy_from) then
    match fuel with O => Spin | S fuel => locate fuel (p_next b) (u16 (copy_from - p_len b)) h end
  else Ret (q, copy_from).

Definition pbuf_get_at (p offset : Z) (h : Heap) : outcome Z :=
  '(q, copy_from) ← locate (chain_fuel h) p offset h;
  if bool_decide (q = 0) then Ret 0
  else b ← get q h; d ← load (at_off (p_payload b) copy_from) 1 h; checked (head d).

Fixpoint memcmp_loop (s2 : list Z) (q i start : Z) (h : Heap) : outcome Z :=
  match s2 with
  | [] => Ret 0
  | b :: s2 =>
      a ← pbuf_get_at q (u16 (start + i)) h;
      if bool_decide (a <> b) then Ret (u16 (i + 1)) else memcmp_loop s2 q (i + 1) start h
  end.

(** [s2]: the [n] bytes to compare with. *)
Definition pbuf_memcmp (p offset : Z) (s2 : list Z) (h : Heap) : outcome Z :=
  '(q, start) ← locate (chain_fuel h) p offset h;
  if bool_decide (q = 0) then Ret 0xffff else memcmp_loop s2 q 0 start h.

Fixpoint memfind_loop (fuel : nat) (p : Z) (s : list Z) (i max : Z) (h : Heap) : outcome Z :=
  if bool_decide (i <= max) then
    match fuel with
    | O => Spin
    | S fuel =>
        plus ← pbuf_memcmp p i s h;
        if bool_decide (plus = 0) then Ret i else memfind_loop fuel p s (u16 (i + plus)) max h
    end
  else Ret 0xffff.

Definition pbuf_memfind (p : Z) (s : list Z) (start_offset : Z) (h : Heap) : outcome Z :=
  b ← get p h;
  let mem_len := Z.of_nat (length s) in
  let max := u16 (p_tot_len b - mem_len) in
  if bool_decide (p_tot_len b >= mem_len + start_offset) then memfind_loop 65536 p s start_offset max h else Ret 0xffff.

(** The characters of [substr] before its zero. *)
Fixpoint chars (substr : list Z) : outcome (list Z) :=
  match substr with
  | [] => Fault
  | c :: l => if bool_decide (c = 0) then Ret [] else cs ← chars l; Ret (c :: cs)
  end.

(** [None]: [substr] is null. *)
Definition pbuf_strstr (p : Z) (substr : option (list Z)) (h : Heap) : outcome Z :=
  match substr with
  | None => Ret 0xffff
  | Some l =>
      c ← checked (head l);
      if bool_decide (c = 0) then Ret 0xffff
      else
        b ← get p h;
        if bool_decide (p_tot_len b = 0xffff) then Ret 0xffff
        else
          s ← chars l;
          if bool_decide (Z.of_nat (length s) >= 0xffff) then Ret 0xffff else pbuf_memfind p s 0 h
  end.

End Copy.

(** ** Writing into a packet *)

(** [l] with [x] from position [k] on. *)
Definition patch {A} (l : list A) (k : Z) (x : list A) : list A := take (Z.to_nat k) l ++ x ++ drop (Z.to_nat k + length x) l.

Lemma patch_length {A} (l x : list A) k : 0 <= k -> k + Z.of_nat (length x) <= Z.of_nat (length l) -> length (patch l k x) = length l.
Proof. intros. unfold patch. rewrite !length_app, length_take, length_drop. lia. Qed.

Lemma patch_app_l {A} (l1 l2 x : list A) k : 0 <= k -> k + Z.of_nat (length x) <= Z.of_nat (length l1) -> patch (l1 ++ l2) k x = patch l1 k x ++ l2.
Proof.
  intros. unfold patch. rewrite take_app_le, drop_app_le by lia. by rewrite <-!app_assoc.
Qed.

Lemma patch_app_r {A} (l1 l2 x : list A) k : Z.of_nat (length l1) <= k -> patch (l1 ++ l2) k x = l1 ++ patch l2 (k - Z.of_nat (length l1)) x.
Proof.
  intros. unfold patch. rewrite take_app_ge, drop_app_ge by lia. rewrite <-app_assoc.
  do 2 f_equal; [f_equal; lia|]. do 2 f_equal. lia.
Qed.

Lemma patch_seq {A} (l x y : list A) k : 0 <= k <= Z.of_nat (length l) -> patch (patch l k x) (k + Z.of_nat (length x)) y = patch l k (x ++ y).
Proof.
  intros. assert (patch l k x = (take (Z.to_nat k) l ++ x) ++ drop (Z.to_nat k + length x) l) as -> by (unfold patch; by rewrite app_assoc).
  rewrite patch_app_r by (rewrite length_app, length_take; lia). unfold patch. rewrite <-!app_assoc, !length_app, length_take, drop_drop.
  assert (Z.to_nat (k + Z.of_nat (length x) - Z.of_nat (Z.to_nat k `min` length l + length x)) = 0%nat) as -> by lia.
  rewrite take_0. cbn [app Nat.add]. by rewrite Nat.add_assoc.
Qed.

Lemma patch_nil {A} (l : list A) k : patch l k [] = l.
Proof. unfold patch. cbn [length app]. rewrite Nat.add_0_r. apply take_drop. Qed.

Lemma patch_all {A} (l x : list A) : length x = length l -> patch l 0 x = x.
Proof. intros E. unfold patch. cbn. rewrite drop_ge by lia. apply app_nil_r. Qed.

(** The memory around what is written. *)
Lemma slice_blit {A} (m : list A) off n d k x : slice m off n = Some d -> 0 <= k -> k + Z.of_nat (length x) <= n ->
  exists m', blit m (off + k) x = Some m' /\ slice m' off n = Some (patch d k x).
Proof.
  intros (H1 & H2 & H3 & ->)%slice_inv Hk Hx. exists (patch m (off + k) x).
  assert (blit m (off + k) x = Some (patch m (off + k) x)) as -> by (unfold blit; rewrite bool_decide_true by lia; done). split; [done|].
  rewrite slice_ok by (rewrite ?patch_length; lia). f_equal.
  rewrite <-(take_drop (Z.to_nat off) m) at 1. rewrite patch_app_r by (rewrite length_take; lia).
  rewrite drop_app_length' by (rewrite length_take; lia). rewrite length_take, Nat.min_l by lia.
  replace (off + k - Z.of_nat (Z.to_nat off)) with k by lia. set (t := drop (Z.to_nat off) m).
  rewrite <-(take_drop (Z.to_nat n) t) at 1. assert (Z.to_nat n <= length t)%nat by (unfold t; rewrite length_drop; lia).
  rewrite patch_app_l by (rewrite ?length_take; lia). rewrite take_app_length'; [done|]. rewrite patch_length; rewrite ?length_take; lia.
Qed.

(** The same buffers, with data of the same length. *)
Definition same_shape (s t : seg) : Prop := sg_a t = sg_a s /\ sg_base t = sg_base s /\ length (sg_data t) = length (sg_data s).

Lemma same_shape_len l l' : Forall2 same_shape l l' -> data_len l' = data_len l.
Proof.
  induction 1 as [|s t l l' (_ & _ & Hl) _ IH]; [done|]. rewrite !data_len_cons, IH. unfold seg_len. lia.
Qed.

Lemma store_head h s b k x : holds h s b -> 0 <= k -> k + Z.of_nat (length x) <= seg_len s ->
  exists m, store (at_off (p_payload b) k) x h = Ret (h_set_mem (<[sg_base s := m]> (mem h)) h) /\
    holds (h_set_mem (<[sg_base s := m]> (mem h)) h) (mkSeg (sg_a s) (sg_base s) (patch (sg_data s) k x)) b.
Proof.
  intros (Hb & Hbb & Hbl & m & Hm & Hms) Hk Hx. destruct (slice_blit _ _ _ _ k x Hms Hk) as (m' & E & Hs); [lia|].
  exists m'. unfold store, at_off. cbn [fst snd]. rewrite Hbb, Hm. cbn [checked mbind outcome_bind]. rewrite E. cbn [checked mbind outcome_bind].
  split; [done|]. split_and!; cbn [sg_a sg_base sg_data pbufs mem h_set_mem]; try done.
  - rewrite Hbl. unfold seg_len in *. cbn [sg_data]. by rewrite patch_length by lia.
  - exists m'. split; [apply lookup_insert_eq|done].
Qed.

Lemma load_part h s b k n : holds h s b -> 0 <= k -> 0 <= n -> k + n <= seg_len s ->
  load (at_off (p_payload b) k) n h = Ret (take (Z.to_nat n) (drop (Z.to_nat k) (sg_data s))).
Proof.
  intros (Hb & Hbb & Hbl & m & Hm & Hms) Hk Hn Hkn. unfold load, at_off. cbn [fst snd]. rewrite Hbb, Hm. cbn [checked mbind outcome_bind].
  pose proof (slice_drop _ _ _ k _ Hms ltac:(lia)) as Hd. by rewrite (slice_take _ _ _ n _ Hd) by lia.
Qed.

(** ** Copying *)

(** No two buffers share a block of data. *)
Definition apart (l : list seg) : Prop := NoDup (map sg_base l).

(** The heap may differ in the blocks of [l] only. *)
Definition only_data (l : list seg) (h h' : Heap) : Prop :=
  pbufs h' = pbufs h /\ (forall a, a ∉ map sg_base l -> mem h' !! a = mem h !! a).

Lemma only_data_packet l l2 h h' p q n : only_data l h h' -> packet_seg h p l2 q n -> (forall s, s ∈ l2 -> sg_base s ∉ map sg_base l) ->
  packet_seg h' p l2 q n.
Proof. intros [H1 H2] Hp Hd. eapply packet_seg_frame; [exact Hp|]. intros s Hs. rewrite H1. split; [done|]. apply H2. by apply Hd. Qed.

#[export] Instance same_shape_refl : Reflexive same_shape.
Proof. done. Qed.

(** The packet after a write to its first buffer and then to the others. *)
Lemma rebuild h h2 m p s s' b l l' : packet_seg h p (s :: l) 0 0 -> pbufs h !! sg_a s = Some b -> apart (s :: l) ->
  holds (h_set_mem (<[sg_base s := m]> (mem h)) h) s' b -> same_shape s s' -> Forall2 same_shape l l' ->
  only_data l (h_set_mem (<[sg_base s := m]> (mem h)) h) h2 -> packet_seg h2 (p_next b) l' 0 0 ->
  packet_seg h2 p (s' :: l') 0 0 /\ only_data (s :: l) h h2.
Proof.
  intros Hp Hb Hap Hs' (E1 & E2 & E3) Hl [O1 O2] Hp2. apply NoDup_cons in Hap as [Hsl _].
  destruct Hp as (-> & Hp0 & b' & (Hb' & _) & Ht & _). rewrite Hb in Hb'. injection Hb' as <-. split.
  - cbn [packet_seg]. split_and!; [done|done|]. exists b. destruct Hs' as (H1 & H2 & H3 & m' & Hm' & H4). split_and!; [|by rewrite (same_shape_len _ _ Hl); unfold seg_len in *; rewrite E3|done].
    split; [by rewrite O1|]. split_and!; [done|done|]. exists m'. split; [|done]. rewrite O2; [done|]. by rewrite E2.
  - split; [done|]. intros a Ha. cbn [map] in Ha. rewrite not_elem_of_cons in Ha. rewrite O2 by tauto. cbn. apply lookup_insert_ne. naive_solver.
Qed.

(** Writing to the first buffer leaves the others. *)
Lemma rest_after h m p s b l : packet_seg h p (s :: l) 0 0 -> pbufs h !! sg_a s = Some b -> apart (s :: l) ->
  packet_seg (h_set_mem (<[sg_base s := m]> (mem h)) h) (p_next b) l 0 0.
Proof.
  intros Hp Hb Hap. apply NoDup_cons in Hap as [Hsl _]. destruct Hp as (-> & Hp0 & b' & (Hb' & _) & _ & Hp). rewrite Hb in Hb'. injection Hb' as <-.
  eapply packet_seg_frame; [exact Hp|]. intros t Ht. split; [done|]. cbn. apply lookup_insert_ne. intros E. apply Hsl. rewrite E.
  apply list_elem_of_fmap. eauto.
Qed.

Lemma take_loop_spec l : forall fuel p src h, packet_seg h p l 0 0 -> apart l -> Z.of_nat (length src) <= data_len l -> (length l <= fuel)%nat ->
  exists h' l', take_loop fuel p src h = Ret h' /\ Forall2 same_shape l l' /\ data l' = patch (data l) 0 src /\
    packet_seg h' p l' 0 0 /\ only_data l h h'.
Proof.
  induction l as [|s l IH]; intros fuel p src h Hp Hap Hlen Hf.
  - change (data_len []) with 0 in Hlen. destruct src; cbn [length] in Hlen; [|lia]. exists h, []. split; [by destruct fuel|].
    split; [constructor|]. by rewrite patch_nil.
  - destruct (decide (src = [])) as [->|Hne].
    { exists h, (s :: l). split; [by destruct fuel|]. split; [reflexivity|]. by rewrite patch_nil. }
    assert (0 < length src)%nat as Hpos by (destruct src; [done|cbn; lia]). destruct fuel as [|fuel]; [cbn in Hf; lia|].
    pose proof Hp as (E & Hp0 & b & Hh & Ht & _). pose proof Hh as (Hb & _ & Hbl & _). cbn [take_loop].
    rewrite (bool_decide_true (Z.of_nat (length src) <> 0)), (bool_decide_true (p <> 0)) by (done || lia). cbn [LWIP_ASSERT mbind outcome_bind].
    rewrite (get_live _ _ b) by (by rewrite E). cbn [mbind outcome_bind]. rewrite data_len_cons in Hlen. pose proof (seg_len_nonneg s). pose proof (data_len_nonneg l).
    set (n := if bool_decide _ then _ else _). assert (n = Z.min (Z.of_nat (length src)) (seg_len s)) as Hn by (unfold n; case_bool_decide; lia).
    destruct (store_head h s b 0 (take (Z.to_nat n) src) Hh) as (m & Es & Hh'); [lia|rewrite length_take; lia|].
    replace (at_off (p_payload b) 0) with (p_payload b) in Es by (unfold at_off; rewrite Z.add_0_r; by destruct (p_payload b)).
    rewrite Es. cbn [mbind outcome_bind]. set (h1 := h_set_mem _ _) in *.
    destruct (IH fuel (p_next b) (drop (Z.to_nat n) src) h1) as (h' & l' & -> & Hsh & Hd & Hp' & Ho);
      [by eapply rest_after|by apply NoDup_cons in Hap as [_ ?]|rewrite length_drop; lia|cbn [length] in Hf; lia|].
    set (s' := mkSeg (sg_a s) (sg_base s) (patch (sg_data s) 0 (take (Z.to_nat n) src))) in *.
    assert (same_shape s s') as Hss by (split_and!; try done; apply patch_length; rewrite ?length_take; unfold seg_len in *; lia).
    destruct (rebuild h h' m p s s' b l l' Hp Hb Hap Hh' Hss Hsh Ho Hp') as [R1 R2].
    exists h', (s' :: l'). split; [done|]. split; [by constructor|]. split; [|done]. cbn [data sg_data s']. rewrite Hd.
    rewrite <-(take_drop (Z.to_nat n) src) at 3. rewrite <-(patch_seq _ _ _ 0) by lia. rewrite patch_app_l by (rewrite ?length_take; unfold seg_len in *; lia).
    destruct (decide (n = seg_len s)) as [En|En].
    + rewrite patch_app_r by (rewrite patch_length; rewrite ?length_take; unfold seg_len in *; lia). do 2 f_equal.
      rewrite patch_length; rewrite ?length_take; unfold seg_len in *; lia.
    + assert (drop (Z.to_nat n) src = []) as -> by (apply drop_ge; lia). by rewrite !patch_nil.
Qed.

Lemma blit_patch {A} (m x : list A) off : 0 <= off -> off + Z.of_nat (length x) <= Z.of_nat (length m) -> blit m off x = Some (patch m off x).
Proof. intros. unfold blit. by rewrite bool_decide_true by lia. Qed.

(** The part of a list that is asked for, as far as there is one. *)
Definition part_of {A} (l : list A) (offset len : Z) : list A := take (Z.to_nat len) (drop (Z.to_nat offset) l).

Lemma part_of_app {A} (l1 l2 : list A) offset len : 0 <= offset -> 0 <= len ->
  part_of (l1 ++ l2) offset len = part_of l1 offset len ++ part_of l2 (Z.max 0 (offset - Z.of_nat (length l1))) (len - Z.of_nat (length (part_of l1 offset len))).
Proof.
  intros Ho Hl. unfold part_of. rewrite drop_app, take_app, !length_take, !length_drop. f_equal. f_equal; [lia|]. f_equal. lia.
Qed.

Lemma partial_loop_spec l : forall fuel p dst left len offset h, packet_seg h p l 0 0 -> data_len l < 65536 -> 0 <= offset < 65536 ->
  0 <= left -> 0 <= len -> left + len < 65536 -> left + len <= Z.of_nat (length dst) -> (length l <= fuel)%nat ->
  partial_loop fuel p dst left len offset h =
  Ret (patch dst left (part_of (data l) offset len), left + Z.of_nat (length (part_of (data l) offset len))).
Proof.
  induction l as [|s l IH]; intros fuel p dst left len offset h Hp Hlen Ho Hleft Hl Hll Hdst Hf.
  - cbn [packet_seg] in Hp. subst p. unfold part_of. cbn [data]. rewrite drop_nil, take_nil, patch_nil, Z.add_0_r.
    destruct fuel; cbn [partial_loop]; by rewrite bool_decide_false by tauto.
  - destruct (decide (len = 0)) as [->|Hne].
    { unfold part_of. rewrite take_0, patch_nil, Z.add_0_r. destruct fuel; cbn [partial_loop]; by rewrite bool_decide_false by tauto. }
    destruct fuel as [|fuel]; [cbn in Hf; lia|]. cbn [length] in Hf. destruct Hp as (E & Hp0 & b & Hh & Ht & Hp). pose proof Hh as (Hb & _ & Hbl & _).
    cbn [partial_loop]. rewrite bool_decide_true by done. rewrite (get_live _ _ b) by (by rewrite E). cbn [mbind outcome_bind].
    rewrite data_len_cons in Hlen. pose proof (seg_len_nonneg s). pose proof (data_len_nonneg l). unfold seg_len in *.
    cbn [data]. rewrite part_of_app by lia. case_bool_decide as Hskip.
    + rewrite (u16_id (offset - p_len b)) by (unw; lia). rewrite IH by (done || lia).
      assert (part_of (sg_data s) offset len = []) as -> by (unfold part_of; rewrite drop_ge by lia; apply take_nil).
      cbn [length app]. by rewrite Z.max_r, Hbl, Z.sub_0_r by lia.
    + rewrite (u16_id (p_len b - offset)) by (unw; lia). set (n := if bool_decide _ then _ else _).
      assert (n = Z.min len (p_len b - offset)) as Hn by (unfold n; case_bool_decide; lia).
      rewrite (load_part h s b) by (done || (unfold seg_len; lia)). cbn [mbind outcome_bind].
      assert (take (Z.to_nat n) (drop (Z.to_nat offset) (sg_data s)) = part_of (sg_data s) offset len) as ->.
      { unfold part_of. rewrite Hn, Z2Nat.inj_min, <-take_take. rewrite (take_ge (drop _ _) (Z.to_nat (p_len b - offset))); [done|]. rewrite length_drop. lia. }
      set (x := part_of (sg_data s) offset len). assert (Z.of_nat (length x) = n) as Hx by (unfold x, part_of; rewrite length_take, length_drop; lia).
      rewrite blit_patch by lia. cbn [checked mbind outcome_bind]. rewrite (u16_id (left + n)), (u16_id (len - n)) by (unw; lia).
      rewrite IH by (rewrite ?patch_length; done || lia). rewrite Z.max_l by lia. rewrite Hx, <-patch_seq, Hx by lia. f_equal. f_equal.
      rewrite length_app. lia.
Qed.

(** [pbuf_take] and [pbuf_copy_partial].  Whatever the buffers a packet
    is made of, data that are taken replace its first bytes and nothing else in
    memory; reading any range back gives the bytes of that range, of the new
    data and of the old behind them, as far as the packet goes.  More data
    than the packet has room for are refused. *)
Theorem pbuf_take_copy (h : Heap) (p : Z) (l : list seg) (src dst : list Z) (len offset : Z) :
  packet h p l -> apart l -> l <> [] -> is_u16 offset -> is_u16 len -> len <= Z.of_nat (length dst) ->
  (Z.of_nat (length src) <= data_len l -> exists h' l' x, pbuf_take p src h = Ret (h', ERR_OK) /\ packet h' p l' /\ Forall2 same_shape l l' /\
     only_data l h h' /\ data l' = src ++ drop (length src) (data l) /\
     x = part_of (src ++ drop (length src) (data l)) offset len /\
     pbuf_copy_partial p dst len offset h' = Ret (x ++ drop (length x) dst, Z.of_nat (length x))) /\
  (data_len l < Z.of_nat (length src) -> pbuf_take p src h = Ret (h, ERR_ARG)).
Proof.
  intros [Hp Hdl] Hap Hl Ho Hlen Hdst. destruct l as [|s l]; [done|]. pose proof Hp as (E & Hp0 & b & (Hb & _) & Htot & _). rewrite Z.add_0_r, <-data_len_cons in Htot.
  pose proof (linked_fuel _ _ _ (packet_seg_linked _ _ _ _ _ Hp)) as Hf. rewrite length_map in Hf. unfold pbuf_take.
  rewrite (bool_decide_true (p <> 0)) by done. cbn [LWIP_ASSERT mbind outcome_bind]. rewrite (get_live _ _ b) by (by rewrite E). cbn [mbind outcome_bind]. rewrite Htot.
  split; intros Hsrc; [|by rewrite bool_decide_true by lia]. rewrite (bool_decide_false (_ < _)) by lia.
  destruct (take_loop_spec (s :: l) (chain_fuel h) p src h Hp Hap) as (h' & l' & -> & Hsh & Hd & Hp' & Hod); [lia|lia|]. cbn [mbind outcome_bind].
  pose proof (same_shape_len _ _ Hsh) as Hl'. unfold is_u16 in *. exists h', l'. eexists. split; [done|]. split; [split; [done|lia]|]. split; [done|]. split; [done|].
  assert (data l' = src ++ drop (length src) (data (s :: l))) as Hd' by (rewrite Hd; done). split; [done|]. split; [done|]. rewrite <-Hd'.
  unfold pbuf_copy_partial. rewrite (bool_decide_true (p <> 0)) by done. cbn [LWIP_ASSERT mbind outcome_bind].
  pose proof (linked_fuel _ _ _ (packet_seg_linked _ _ _ _ _ Hp')) as Hf'. rewrite length_map in Hf'. by rewrite (partial_loop_spec l') by (done || lia).
Qed.

Lemma pbuf_take_copy_witness : exists h',
  pbuf_take 8 [10; 20; 30; 40; 50] two_buffers = Ret (h', ERR_OK) /\
  pbuf_copy_partial 8 [0; 0; 0; 0] 4 2 h' = Ret ([30; 40; 50; 6], 4).
Proof.
  destruct (pbuf_take_copy two_buffers 8 _ [10; 20; 30; 40; 50] [0; 0; 0; 0] 4 2 two_buffers_packet) as [Hok _];
    [by repeat constructor; set_solver|done|done|done|cbn; lia|].
  destruct Hok as (h' & l' & x & E1 & _ & _ & _ & _ & -> & E2); [done|]. exists h'. split; [exact E1|exact E2].
Defined.

(** ** Copying a packet to another *)

(** No empty buffer: the assertions of [pbuf_copy] take an empty end of a
    packet for a queue of packets. *)
Definition filled (l : list seg) : Prop := Forall (fun s => 0 < seg_len s) l.

Lemma no_queue_ok h p l n : packet_seg h p l 0 n -> filled (tail l) -> n = 0 -> no_queue p h = Ret ().
Proof.
  intros Hp Hf ->. unfold no_queue. destruct l as [|s l]; cbn [packet_seg] in Hp; [by rewrite Hp|].
  destruct Hp as (-> & Hp0 & b & (Hb & _ & Hbl & _) & Ht & Hp). rewrite bool_decide_true by done. rewrite (get_live _ _ _ Hb). cbn [mbind outcome_bind].
  case_bool_decide as Hl; [|done]. cbn [tail] in Hf. destruct l as [|t l]; cbn [packet_seg] in Hp; [by rewrite Hp|].
  apply Forall_cons in Hf as [Hf _]. rewrite data_len_cons in Ht. pose proof (data_len_nonneg l). lia.
Qed.

(** The packet [l] of [h] is [l'] in [h'], with [x] at [k]; nothing else
    differs. *)
Record copied (l : list seg) (k : Z) (x : list Z) (p : Z) (h h' : Heap) (l' : list seg) : Prop := {
  co_shape : Forall2 same_shape l l';
  co_data : data l' = patch (data l) k x;
  co_pkt : packet_seg h' p l' 0 0;
  co_only : only_data l h h';
}.

Lemma same_shape_bases l l' : Forall2 same_shape l l' -> map sg_base l' = map sg_base l.
Proof. induction 1 as [|s t l l' (_ & E & _) _ IH]; [done|]. cbn [map]. by rewrite E, IH. Qed.

#[export] Instance same_shape_trans : Transitive same_shape.
Proof. intros s t u (H1 & H2 & H3) (H4 & H5 & H6). split_and!; congruence. Qed.

Lemma copied_trans l k x y p h h1 h2 l1 l2 : copied l k x p h h1 l1 -> copied l1 (k + Z.of_nat (length x)) y p h1 h2 l2 ->
  0 <= k <= data_len l -> copied l k (x ++ y) p h h2 l2.
Proof.
  intros [A1 A2 A3 [A4 A5]] [B1 B2 B3 [B4 B5]] Hk. split; [by transitivity l1| |done|split; [congruence|]].
  - rewrite B2, A2. by apply patch_seq.
  - intros a Ha. rewrite B5, A5; [done..|]. by rewrite (same_shape_bases _ _ A1).
Qed.

Lemma copied_cons s l x p b h h' l' : packet_seg h p (s :: l) 0 0 -> apart (s :: l) -> pbufs h !! sg_a s = Some b ->
  copied l 0 x (p_next b) h h' l' -> copied (s :: l) (seg_len s) x p h h' (s :: l').
Proof.
  intros Hp Hap Hb [A1 A2 A3 [A4 A5]]. split; [by constructor| | |].
  - cbn [data]. rewrite A2, patch_app_r by (unfold seg_len; lia). f_equal. f_equal. unfold seg_len. lia.
  - pose proof Hp as (-> & Hp0 & b' & (Hb' & H1 & H2 & m & H3 & H4) & Ht & _). rewrite Hb in Hb'. injection Hb' as <-.
    apply NoDup_cons in Hap as [Hs _]. cbn [packet_seg]. split_and!; [done|done|]. exists b.
    split_and!; [|by rewrite (same_shape_len _ _ A1)|done]. split; [by rewrite A4|]. split_and!; [done|done|]. exists m. by rewrite A5.
  - split; [done|]. intros a Ha. cbn [map] in Ha. rewrite not_elem_of_cons in Ha. apply A5. tauto.
Qed.

Lemma write_step h p s l b k x : packet_seg h p (s :: l) 0 0 -> apart (s :: l) -> holds h s b -> 0 <= k -> k + Z.of_nat (length x) <= seg_len s ->
  exists h1, store (at_off (p_payload b) k) x h = Ret h1 /\ pbufs h1 !! sg_a s = Some b /\
    copied (s :: l) k x p h h1 (mkSeg (sg_a s) (sg_base s) (patch (sg_data s) k x) :: l) /\ packet_seg h1 (p_next b) l 0 0.
Proof.
  intros Hp Hap Hh Hk Hx. pose proof Hh as (Hb & _). destruct (store_head h s b k x Hh Hk Hx) as (m & E & Hh').
  eexists. split; [exact E|]. split; [done|]. pose proof (rest_after h m p s b l Hp Hb Hap) as Hrest. split; [|done].
  assert (same_shape s (mkSeg (sg_a s) (sg_base s) (patch (sg_data s) k x))) as Hss
    by (split_and!; try done; apply patch_length; unfold seg_len in *; lia).
  destruct (rebuild h _ m p s _ b l l Hp Hb Hap Hh' Hss ltac:(reflexivity) ltac:(done) Hrest) as [R1 R2].
  split; [by constructor; [|reflexivity]| |done|done]. cbn [data sg_data]. by rewrite patch_app_l by (unfold seg_len in *; lia).
Qed.

(** What the loop does, from any state: [ot] and [off] bytes of the first
    buffers are done with. *)
Definition copy_ok (fuel : nat) : Prop := forall st lt sf lf pt ot pf off h,
  packet_seg h pt (st :: lt) 0 0 -> packet_seg h pf (sf :: lf) 0 0 -> apart (st :: lt) ->
  (forall s, s ∈ sf :: lf -> sg_base s ∉ map sg_base (st :: lt)) -> filled lt -> filled lf ->
  0 <= ot <= seg_len st -> 0 <= off <= seg_len sf -> data_len (sf :: lf) - off <= data_len (st :: lt) - ot -> data_len (st :: lt) < 65536 ->
  data_len (sf :: lf) < 65536 -> (length lt + length lf < fuel)%nat ->
  exists h' l', copy_loop fuel pt ot pf off h = Ret (h', ERR_OK) /\ copied (st :: lt) ot (drop (Z.to_nat off) (data (sf :: lf))) pt h h' l'.

(** Where the loop goes on in the target when [k] bytes of [st] are written. *)
Definition next_to (k p_from : Z) (st : seg) (bt : pbuf) (pt : Z) : outcome (Z * Z) :=
  if bool_decide (k = seg_len st) then _ ← LWIP_ASSERT (bool_decide (p_next bt <> 0 \/ p_from = 0)); Ret (0, p_next bt) else Ret (k, pt).

Lemma next_to_ok h st lt bt pt k p_from : packet_seg h pt (st :: lt) 0 0 -> pbufs h !! sg_a st = Some bt -> filled lt ->
  (p_from = 0 \/ lt <> [] \/ k <> seg_len st) ->
  exists ot pt', next_to k p_from st bt pt = Ret (ot, pt') /\ no_queue pt' h = Ret () /\
    (k <> seg_len st /\ ot = k /\ pt' = pt \/ k = seg_len st /\ ot = 0 /\ pt' = p_next bt).
Proof.
  intros Hp Hb Hf Hok. pose proof Hp as (_ & _ & b & (Hb' & _) & _ & Hp2). rewrite Hb in Hb'. injection Hb' as <-.
  unfold next_to. case_bool_decide as E.
  - rewrite bool_decide_true.
    2: { destruct Hok as [H0|[Hl|Hk]]; [by right|left|done]. destruct lt; [done|]. by destruct Hp2 as (_ & ? & _). }
    exists 0, (p_next bt). split; [done|]. split; [|by right]. eapply no_queue_ok; [exact Hp2| |done]. destruct lt; [done|]. by apply Forall_cons in Hf as [_ Hf].
  - exists k, pt. split; [done|]. split; [by eapply no_queue_ok|]. by left.
Qed.

Lemma copy_next fuel st lt sf lf pt pf k off h bt ot pt' : copy_ok fuel -> packet_seg h pt (st :: lt) 0 0 -> pbufs h !! sg_a st = Some bt ->
  packet_seg h pf (sf :: lf) 0 0 -> apart (st :: lt) ->
  (forall s, s ∈ sf :: lf -> sg_base s ∉ map sg_base (st :: lt)) -> filled lt -> filled lf -> 0 <= k <= seg_len st -> 0 <= off <= seg_len sf ->
  data_len (sf :: lf) - off <= data_len (st :: lt) - k -> data_len (st :: lt) < 65536 -> data_len (sf :: lf) < 65536 ->
  (k <> seg_len st /\ ot = k /\ pt' = pt /\ (length lt + length lf < fuel)%nat \/
   k = seg_len st /\ ot = 0 /\ pt' = p_next bt /\ lt <> [] /\ (length lt + length lf <= fuel)%nat) ->
  exists h' l', copy_loop fuel pt' ot pf off h = Ret (h', ERR_OK) /\ copied (st :: lt) k (drop (Z.to_nat off) (data (sf :: lf))) pt h h' l'.
Proof.
  intros Hok Ht Hb Hf Hap Hdis Hft Hff Hk Hoff Hle Hlt Hlf [(Hne & -> & -> & Hfu)|(-> & -> & -> & Hl & Hfu)]; [by apply Hok|].
  destruct lt as [|s2 lt]; [done|]. pose proof Ht as (_ & _ & b & (Hb' & _) & _ & Ht2). pose proof Ht as (Et & _).
  assert (b = bt) as -> by congruence. cbn [length] in Hfu. rewrite (data_len_cons st) in *. pose proof (seg_len_nonneg st). pose proof (seg_len_nonneg s2).
  apply Forall_cons in Hft as [Hs2 Hft]. pose proof Hap as Hap2. apply NoDup_cons in Hap2 as [_ Hap2].
  destruct (Hok s2 lt sf lf (p_next bt) 0 pf off h) as (h' & l' & E & Hco); try done; try lia.
  { intros s Hs Hin. apply (Hdis s Hs). by right. }
  exists h', (st :: l'). split; [done|]. by apply (copied_cons st _ _ _ bt).
Qed.

(** One turn: as much as fits is copied. *)
Lemma copy_step fuel st lt sf lf pt ot pf off h : packet_seg h pt (st :: lt) 0 0 -> packet_seg h pf (sf :: lf) 0 0 -> apart (st :: lt) ->
  (forall s, s ∈ sf :: lf -> sg_base s ∉ map sg_base (st :: lt)) ->
  0 <= ot <= seg_len st -> 0 <= off <= seg_len sf -> data_len (st :: lt) < 65536 -> data_len (sf :: lf) < 65536 ->
  exists h1 st' bt bf n x, n = Z.min (seg_len st - ot) (seg_len sf - off) /\ Z.of_nat (length x) = n /\ seg_len st' = seg_len st /\
    sg_a st' = sg_a st /\ sg_base st' = sg_base st /\
    pbufs h1 !! sg_a st = Some bt /\ pbufs h1 !! sg_a sf = Some bf /\ packet_seg h1 pf (sf :: lf) 0 0 /\
    copied (st :: lt) ot x pt h h1 (st' :: lt) /\
    drop (Z.to_nat off) (data (sf :: lf)) = x ++ (if bool_decide (off + n = seg_len sf) then data lf else drop (Z.to_nat (off + n)) (data (sf :: lf))) /\
    copy_loop (S fuel) pt ot pf off h =
      (let '(off, pf) := if bool_decide (off + n = seg_len sf) then (0, p_next bf) else (off + n, pf) in
       '(ot, pt) ← next_to (ot + n) pf st' bt pt; _ ← no_queue pf h1; _ ← no_queue pt h1;
       if bool_decide (pf <> 0) then copy_loop fuel pt ot pf off h1 else Ret (h1, ERR_OK)).
Proof.
  intros Ht Hf Hap Hdis Hot Hoff Hlt Hlf.
  pose proof Ht as (Et & Ht0 & bt & Hht & Htt & Ht2). pose proof Hf as (Ef & Hf0 & bf & Hhf & Htf & Hf2).
  pose proof Hht as (Hbt & _ & Hlbt & _). pose proof Hhf as (Hbf & _ & Hlbf & _).
  rewrite !data_len_cons in *. pose proof (data_len_nonneg lt). pose proof (data_len_nonneg lf).
  set (n := u16 (if bool_decide (seg_len st - ot >= seg_len sf - off) then seg_len sf - off else seg_len st - ot)).
  assert (n = Z.min (seg_len st - ot) (seg_len sf - off)) as Hn by (unfold n; case_bool_decide; rewrite u16_id by (unw; lia); lia).
  set (x := take (Z.to_nat n) (drop (Z.to_nat off) (sg_data sf))).
  assert (Z.of_nat (length x) = n) as Hx by (unfold x; rewrite length_take, length_drop; unfold seg_len in *; lia).
  destruct (write_step h pt st lt bt ot x Ht Hap Hht) as (h1 & Es & Hb1 & Hco & Ht1); [lia|lia|]. set (st' := mkSeg _ _ _) in *.
  assert (seg_len st' = seg_len st) as Hst' by (unfold seg_len; cbn [sg_data st']; f_equal; apply patch_length; unfold seg_len in *; lia).
  pose proof (only_data_packet _ _ _ _ _ _ _ (co_only _ _ _ _ _ _ _ Hco) Hf Hdis) as Hf1.
  assert (pbufs h1 !! sg_a sf = Some bf) as Hbf1 by (by rewrite (proj1 (co_only _ _ _ _ _ _ _ Hco))).
  exists h1, st', bt, bf, n, x. split_and!; try done.
  - cbn [data]. rewrite drop_app_le by (unfold seg_len in *; lia). unfold x. case_bool_decide as E.
    + rewrite take_ge; [done|]. rewrite length_drop. unfold seg_len in *. lia.
    + rewrite drop_app_le by (unfold seg_len in *; lia). rewrite app_assoc. f_equal. replace (Z.to_nat (off + n)) with (Z.to_nat off + Z.to_nat n)%nat by lia.
      rewrite <-drop_drop. symmetry. apply take_drop.
  - cbn [copy_loop]. rewrite (get_live pt _ bt) by (by rewrite Et). cbn [mbind outcome_bind]. rewrite (get_live pf _ bf) by (by rewrite Ef). cbn [mbind outcome_bind].
    rewrite Hlbt, Hlbf. fold n. rewrite (load_part h sf bf) by (done || lia). cbn [mbind outcome_bind]. fold x. rewrite Es. cbn [mbind outcome_bind].
    rewrite (u16_id (ot + n)), (u16_id (off + n)) by (unw; lia).
    rewrite (bool_decide_true (ot + n <= _)), (bool_decide_true (off + n <= _)) by lia. cbn [LWIP_ASSERT mbind outcome_bind].
    rewrite (bool_decide_ext (off + n >= seg_len sf) (off + n = seg_len sf)) by lia. unfold next_to. rewrite Hst'. by case_bool_decide.
Qed.

Lemma copy_loop_spec fuel : copy_ok fuel.
Proof.
  induction fuel as [|fuel IH]; intros st lt sf lf pt ot pf off h Ht Hf Hap Hdis Hft Hff Hot Hoff Hle Hlt Hlf Hfuel; [lia|].
  destruct (copy_step fuel st lt sf lf pt ot pf off h Ht Hf Hap Hdis Hot Hoff Hlt Hlf)
    as (h1 & st' & bt & bf & n & x & Hn & Hx & Hst' & Hsa & Hsb & Hbt & Hbf & Hf1 & Hco & -> & ->).
  pose proof (co_pkt _ _ _ _ _ _ _ Hco) as Ht1. assert (apart (st' :: lt)) as Hap' by (unfold apart in *; cbn [map] in *; by rewrite Hsb).
  assert (forall s, s ∈ sf :: lf -> sg_base s ∉ map sg_base (st' :: lt)) as Hdis' by (cbn [map]; by rewrite Hsb).
  rewrite <-Hsa in Hbt. rewrite !data_len_cons in *. pose proof (data_len_nonneg lt). pose proof (data_len_nonneg lf).
  pose proof Hf1 as (_ & Hpf0 & bf1 & (Hbf1 & _) & _ & Hf2). assert (bf1 = bf) as -> by congruence.
  destruct (decide (off + n = seg_len sf)) as [HA|HA]; [rewrite !(bool_decide_true (off + n = _)) by done|rewrite !(bool_decide_false (off + n = _)) by done].
  - destruct lf as [|s2 lf].
    + destruct (next_to_ok h1 st' lt bt pt (ot + n) (p_next bf) Ht1 Hbt Hft) as (ot' & pt' & -> & E2 & _); [left; exact Hf2|]. cbn [mbind outcome_bind].
      rewrite (no_queue_ok h1 (p_next bf) [] 0) by done. cbn [mbind outcome_bind]. rewrite E2. cbn [mbind outcome_bind]. rewrite (bool_decide_false (p_next bf <> 0)) by (cbn [packet_seg] in Hf2; lia).
      exists h1, (st' :: lt). split; [done|]. by rewrite app_nil_r.
    + apply Forall_cons in Hff as [Hs2 Hff]. rewrite data_len_cons in *. pose proof (data_len_nonneg lf). assert (lt <> [] \/ ot + n <> seg_len st') as Hlt2.
      { destruct lt; [right|by left]. change (data_len []) with 0 in *. lia. }
      destruct (next_to_ok h1 st' lt bt pt (ot + n) (p_next bf) Ht1 Hbt Hft) as (ot' & pt' & -> & E2 & Hc); [by right|]. cbn [mbind outcome_bind].
      rewrite (no_queue_ok h1 (p_next bf) (s2 :: lf) 0) by done. cbn [mbind outcome_bind]. rewrite E2. cbn [mbind outcome_bind].
      rewrite (bool_decide_true (p_next bf <> 0)) by (by destruct Hf2 as (_ & ? & _)). cbn [length] in Hfuel.
      destruct (copy_next fuel st' lt s2 lf pt (p_next bf) (ot + n) 0 h1 bt ot' pt' IH Ht1 Hbt Hf2 Hap') as (h' & l' & -> & Hco2); rewrite ?data_len_cons; try done; try lia.
      { intros s Hs. apply Hdis'. by right. }
      { destruct Hc as [(? & ? & ?)|(? & ? & ?)]; [left|right]; split_and!; try done; try lia. by destruct Hlt2. }
      exists h', l'. split; [done|]. eapply copied_trans; [exact Hco|by rewrite Hx|]. rewrite data_len_cons. lia.
  - assert (ot + n = seg_len st') as HB by lia. assert (lt <> []) as Hlt2.
    { intros ->. change (data_len []) with 0 in *. lia. }
    destruct (next_to_ok h1 st' lt bt pt (ot + n) pf Ht1 Hbt Hft) as (ot' & pt' & -> & E2 & Hc); [auto|]. cbn [mbind outcome_bind].
    rewrite (no_queue_ok h1 pf (sf :: lf) 0) by (done || (by destruct lf)). cbn [mbind outcome_bind]. rewrite E2. cbn [mbind outcome_bind].
    rewrite (bool_decide_true (pf <> 0)) by done. destruct Hc as [(? & _)|(_ & -> & ->)]; [done|].
    destruct (copy_next fuel st' lt sf lf pt pf (ot + n) (off + n) h1 bt 0 (p_next bt) IH Ht1 Hbt Hf1 Hap' Hdis') as (h' & l' & -> & Hco2); rewrite ?data_len_cons; try done; try lia.
    { right. split_and!; try done. lia. }
    exists h', l'. split; [done|]. eapply copied_trans; [exact Hco|by rewrite Hx|]. rewrite data_len_cons. lia.
Qed.

Lemma pbuf_copy_ok (h : Heap) (pt pf : Z) (lt lf : list seg) :
  packet h pt lt -> packet h pf lf -> lt <> [] -> lf <> [] -> apart lt -> (forall s, s ∈ lf -> sg_base s ∉ map sg_base lt) ->
  filled (tail lt) -> filled (tail lf) -> data_len lf <= data_len lt ->
  exists h' l', pbuf_copy pt pf h = Ret (h', ERR_OK) /\ packet h' pt l' /\ Forall2 same_shape lt l' /\
    data l' = data lf ++ drop (length (data lf)) (data lt) /\ only_data lt h h'.
Proof.
  intros [Ht Hlt] [Hf Hlf] Nt Nf Hap Hdis Ft Ff Hle. unfold pbuf_copy.
  destruct lt as [|st lt]; [done|]. destruct lf as [|sf lf]; [done|]. cbn [tail] in *.
  pose proof Ht as (Et & Ht0 & bt & (Hbt & _) & Htt & _). pose proof Hf as (Ef & Hf0 & bf & (Hbf & _) & Htf & _).
  rewrite (bool_decide_true (pt <> 0)), (bool_decide_true (pf <> 0)) by done. cbn [andb LWIP_ASSERT mbind outcome_bind].
  rewrite (get_live pt _ bt) by (by rewrite Et). cbn [mbind outcome_bind]. rewrite (get_live pf _ bf) by (by rewrite Ef). cbn [mbind outcome_bind].
  rewrite bool_decide_true by (rewrite !data_len_cons in Hle; lia). cbn [LWIP_ASSERT mbind outcome_bind].
  pose proof (linked_fuel _ _ _ (packet_seg_linked _ _ _ _ _ Ht)) as F1. pose proof (linked_fuel _ _ _ (packet_seg_linked _ _ _ _ _ Hf)) as F2.
  rewrite length_map in F1, F2. cbn [length] in F1, F2.
  destruct (copy_loop_spec (chain_fuel h + chain_fuel h) st lt sf lf pt 0 pf 0 h) as (h' & l' & -> & [C1 C2 C3 C4]); try done; try lia.
  { pose proof (seg_len_nonneg st). lia. } { pose proof (seg_len_nonneg sf). lia. }
  exists h', l'. split; [done|]. split; [split; [done|by rewrite (same_shape_len _ _ C1)]|]. split; [done|]. split; [|done]. rewrite C2. done.
Qed.

(** [pbuf_copy]: the data of a packet at the beginning of another one
    that has room for them, however the two are divided into buffers; nothing
    else in memory changes. *)
Theorem pbuf_copy_spec (h : Heap) (pt pf : Z) (lt lf : list seg) :
  packet h pt lt -> packet h pf lf -> lt <> [] -> lf <> [] -> apart lt -> (forall s, s ∈ lf -> sg_base s ∉ map sg_base lt) ->
  filled (tail lt) -> filled (tail lf) -> data_len lf <= data_len lt ->
  exists h' l', pbuf_copy pt pf h = Ret (h', ERR_OK) /\ packet h' pt l' /\ Forall2 same_shape lt l' /\
    data l' = data lf ++ drop (length (data lf)) (data lt) /\ only_data lt h h'.
Proof. apply pbuf_copy_ok. Qed.

(** From one buffer of five bytes to two buffers of three and four. *)
Definition copy_heap : Heap :=
  mkHeap (<[24 := mkPbuf 0 (24, 0) 5 5 PBUF_RAM 0 1]> (pbufs two_buffers)) (<[24 := [10; 20; 30; 40; 50]]> (mem two_buffers)) ∅.

Lemma pbuf_copy_spec_witness : exists h', pbuf_copy 8 24 copy_heap = Ret (h', ERR_OK) /\
  mem h' !! 8 = Some [91; 92; 10; 20; 30; 93] /\ mem h' !! 16 = Some [40; 50; 6; 7; 94].
Proof.
  destruct (pbuf_copy_spec copy_heap 8 24 [mkSeg 8 8 [1; 2; 3]; mkSeg 16 16 [4; 5; 6; 7]] [mkSeg 24 24 [10; 20; 30; 40; 50]]) as (h' & l' & E & _).
  - split; [|done]. eapply packet_seg_frame; [apply two_buffers_packet|]. by intros s [->| ->%list_elem_of_singleton]%elem_of_cons.
  - split; [|done]. split_and!; [done..|]. eexists. split; [split_and!; [done|done|done|by eexists]|done].
  - done.
  - done.
  - apply (bool_decide_unpack _). vm_compute. exact I.
  - intros s ->%list_elem_of_singleton. apply (bool_decide_unpack _). vm_compute. exact I.
  - apply Forall_cons. done.
  - apply Forall_nil. done.
  - done.
  - exists h'. split; [exact E|]. vm_compute in E. by simplify_eq.
Defined.

Section Coalesce.
Context `{M : Malloc, ML : !MallocLaws M}.

Lemma coalesce_free h p q L d : packet_seg h p L 0 0 -> packet_seg h q [mkSeg q q d] 0 0 -> (forall t, t ∈ L -> sg_a t <> q) ->
  each h solid (map sg_a L) -> p <> 0 -> pbufs h !! 0 = None ->
  exists h' k, pbuf_free p h = Ret (h', k) /\ packet_seg h' q [mkSeg q q d] 0 0 /\
    (forall a, a ∈ map sg_a L -> pbufs h' !! a = None) /\
    (forall a, a ∉ map sg_a L -> pbufs h' !! a = pbufs h !! a /\ mem h' !! a = mem h !! a).
Proof.
  intros HL Hq Hd He Hp H0. assert (q ∉ map sg_a L) as Hnin by (intros (t & -> & Ht)%list_elem_of_fmap; by apply (Hd t Ht)).
  exists (release (map sg_a L) h), (u8 (Z.of_nat (length L))). split; [by apply (free_all _ _ 0)|].
  assert (forall a, a ∉ map sg_a L -> pbufs (release (map sg_a L) h) !! a = pbufs h !! a /\ mem (release (map sg_a L) h) !! a = mem h !! a) as Hk.
  { intros a Ha. destruct (release_lookup (map sg_a L) h a) as [-> ->]. by rewrite !bool_decide_false by done. }
  split_and!; [| |done].
  - eapply packet_seg_frame; [exact Hq|]. intros t ->%list_elem_of_singleton. cbn [sg_a sg_base]. by apply Hk.
  - intros a Ha. destruct (release_lookup (map sg_a L) h a) as [-> _]. by rewrite bool_decide_true by done.
Qed.

(** [pbuf_coalesce] makes a packet of several buffers one buffer with
    the same data and frees the old ones; without memory it leaves everything
    and returns the packet it was given. *)
Theorem pbuf_coalesce_spec (h : Heap) (p : Z) (l : list seg) (layer : pbuf_layer) :
  packet h p l -> (2 <= length l)%nat -> filled (tail l) -> each h solid (map sg_a l) -> pbufs h !! 0 = None ->
  pbuf_coalesce p layer h = Ret (h, p) \/
  exists h' q, pbuf_coalesce p layer h = Ret (h', q) /\ q <> p /\ packet h' q [mkSeg q q (data l)] /\
    (forall a, a ∈ map sg_a l -> pbufs h' !! a = None) /\
    (forall a, a ∉ q :: map sg_a l -> pbufs h' !! a = pbufs h !! a /\ mem h' !! a = mem h !! a).
Proof.
  intros [Hp Hlen] H2 Hfill Hsol H0. destruct l as [|s [|s2 l]]; [cbn in H2; lia|cbn in H2; lia|]. set (L := s :: s2 :: l) in *.
  pose proof Hp as (Ep & Hp0 & b & (Hb & _) & Htot & Hp2). unfold pbuf_coalesce. rewrite (get_live p _ b) by (by rewrite Ep). cbn [mbind outcome_bind].
  assert (p_next b <> 0) as Hnx by (by destruct Hp2 as (_ & ? & _)). rewrite (bool_decide_false (p_next b = 0)) by done.
  assert (p_tot_len b = data_len L) as Htot2 by (unfold L; rewrite data_len_cons; lia). rewrite Htot2. pose proof (data_len_nonneg L).
  destruct (pbuf_alloc_ram layer (data_len L) h) as [->|(h1 & q & d & -> & (Hq & Hg & [Hpq _] & Hdl & Heq & _))]; [unw; lia|done|by left|right].
  cbn [mbind outcome_bind]. rewrite (bool_decide_false (q = 0)) by done.
  assert (pbufs h !! q = None /\ mem h !! q = None) as [Hqn Hqm] by (destruct (g_new _ _ _ Hg q) as (? & ? & _); [left|done]).
  assert (forall t, t ∈ L -> sg_a t <> q /\ sg_base t <> q) as Hfresh.
  { intros t Ht. destruct (packet_seg_live _ _ _ _ _ Hp t Ht) as (c & (Hc & _ & _ & m & Hm & _) & _). split; intros E; congruence. }
  assert (forall a, a <> q -> pbufs h1 !! a = pbufs h !! a /\ mem h1 !! a = mem h !! a) as Hold.
  { intros a Ha. apply (g_old _ _ _ Hg). cbn. by intros ->%list_elem_of_singleton. }
  assert (packet_seg h1 p L 0 0) as Hp1 by (eapply packet_seg_frame; [exact Hp|]; intros t Ht; destruct (Hfresh t Ht); split; by apply Hold).
  assert (packet h1 q [mkSeg q q d]) as Hpk by (split; [done|by rewrite Hdl]).
  destruct (pbuf_copy_ok h1 q p [mkSeg q q d] L) as (h2 & l' & -> & [Hq2 Hq3] & Hsh & Hdat & Hod); try done.
  { apply NoDup_singleton. }
  { intros t Ht Hin%list_elem_of_singleton. by destruct (Hfresh t Ht). }
  { by apply Forall_nil. }
  { by rewrite Hdl. }
  cbn [mbind outcome_bind]. rewrite bool_decide_true by done. cbn [LWIP_ASSERT mbind outcome_bind].
  apply Forall2_cons_inv_l in Hsh as (t & t' & (Eta & Etb & Etl) & ->%Forall2_nil_inv_l & ->). destruct t as [ta tb td]. cbn [sg_a sg_base sg_data] in *. subst ta tb.
  assert (td = data L) as ->.
  { cbn [data sg_data] in Hdat. rewrite !app_nil_r, drop_ge, app_nil_r in Hdat; [done|].
    unfold data_len in Hdl. cbn [data sg_data] in Hdl. rewrite app_nil_r in Hdl. lia. }
  assert (forall a, a <> q -> pbufs h2 !! a = pbufs h !! a /\ mem h2 !! a = mem h !! a) as Hold2.
  { intros a Ha. destruct (Hold a Ha) as [<- <-]. destruct Hod as [-> Hod]. split; [done|]. apply Hod. by intros ->%list_elem_of_singleton. }
  destruct (coalesce_free h2 p q L (data L)) as (h3 & k & -> & Hq4 & Hgone & Hrest); try done.
  { eapply packet_seg_frame; [exact Hp|]. intros t Ht. destruct (Hfresh t Ht). split; by apply Hold2. }
  { intros t Ht. by destruct (Hfresh t Ht). }
  { eapply each_frame; [exact Hsol|]. intros a (t & -> & Ht)%list_elem_of_fmap. apply Hold2. by apply Hfresh. }
  { by rewrite (proj1 (Hold2 0 ltac:(done))). }
  cbn [mbind outcome_bind]. exists h3, q. split; [done|]. split; [|split; [split; [done|]|split; [done|]]].
  - rewrite Ep. intros E. destruct (Hfresh s) as [? _]; [by left|]. done.
  - unfold data_len in *. cbn [data sg_data]. by rewrite app_nil_r.
  - intros a Ha. apply not_elem_of_cons in Ha as [Ha Hin]. destruct (Hrest a Hin) as [-> ->]. by apply Hold2.
Qed.
End Coalesce.

(** ** Single bytes and search *)

(** The byte at [off]; 0 behind the end. *)
Definition byte_at (d : list Z) (off : Z) : Z := nth (Z.to_nat off) d 0.

(** The first difference of [s] and the bytes from [i] on, counted from 1. *)
Fixpoint first_diff (d s : list Z) (i n : Z) : Z :=
  match s with
  | [] => 0
  | b :: s => if bool_decide (byte_at d i = b) then first_diff d s (i + 1) (n + 1) else n
  end.

Lemma byte_at_drop d k i : 0 <= k -> 0 <= i -> byte_at (drop (Z.to_nat k) d) i = byte_at d (k + i).
Proof.
  intros. unfold byte_at. rewrite !nth_lookup, lookup_drop. do 2 f_equal. lia.
Qed.

Lemma first_diff_drop d k s : 0 <= k -> forall i n, 0 <= i -> first_diff (drop (Z.to_nat k) d) s i n = first_diff d s (k + i) n.
Proof.
  intros Hk. induction s as [|b s IH]; intros i n Hi; [done|]. cbn [first_diff]. rewrite byte_at_drop, IH by lia. by replace (k + (i + 1)) with (k + i + 1) by lia.
Qed.

(** Zero is a match. *)
Lemma first_diff_zero d s : forall i n, 0 <= i -> i + Z.of_nat (length s) <= Z.of_nat (length d) -> 1 <= n ->
  first_diff d s i n = 0 -> take (length s) (drop (Z.to_nat i) d) = s.
Proof.
  induction s as [|b s IH]; intros i n Hi Hl Hn; [by rewrite take_0|]. cbn [length first_diff] in *. case_bool_decide as E; [|lia].
  intros Hz%IH; [|lia..]. unfold byte_at in E. assert (exists x, d !! Z.to_nat i = Some x) as [x Hx] by (apply lookup_lt_is_Some; lia).
  rewrite nth_lookup, Hx in E. cbn in E. subst x. rewrite (drop_S _ _ _ Hx). cbn [take]. f_equal. by replace (S (Z.to_nat i)) with (Z.to_nat (i + 1)) by lia.
Qed.

Lemma first_diff_bound d s : forall i n, 1 <= n -> first_diff d s i n = 0 \/ n <= first_diff d s i n < n + Z.of_nat (length s).
Proof.
  induction s as [|b s IH]; intros i n Hn; [by left|]. cbn [first_diff length]. case_bool_decide; [|lia].
  destruct (IH (i + 1) (n + 1)); lia.
Qed.

Lemma locate_spec h l : forall p n fuel off, packet_seg h p l 0 n -> (length l <= fuel)%nat -> 0 <= off < 65536 ->
  (data_len l <= off /\ exists k, locate fuel p off h = Ret (0, k)) \/
  (exists s l2 k, off < data_len l /\ locate fuel p off h = Ret (sg_a s, k) /\ 0 <= k < seg_len s /\ drop (Z.to_nat off) (data l) = drop (Z.to_nat k) (data (s :: l2)) /\
    packet_seg h (sg_a s) (s :: l2) 0 n /\ k <= off).
Proof.
  induction l as [|s l IH]; intros p n fuel off Hp Hf Hoff.
  { left. cbn [packet_seg] in Hp. subst p. split; [unfold data_len; cbn; lia|]. exists off. by destruct fuel. }
  pose proof Hp as (Ep & Hp0 & b & (Hb & _ & Hbl & _) & _ & Hp2). destruct fuel as [|fuel]; [cbn in Hf; lia|]. cbn [locate].
  rewrite bool_decide_false by done. rewrite (get_live p _ b) by (by rewrite Ep). cbn [mbind outcome_bind]. rewrite Hbl.
  rewrite (data_len_cons s l). pose proof (seg_len_nonneg s). case_bool_decide as E.
  - rewrite u16_id by (unw; lia). destruct (IH (p_next b) n fuel (off - seg_len s) Hp2) as [[E2 [k ->]]|(t & l2 & k & Hlt & -> & Hk & Hd & Ht & Hs)]; [cbn [length] in Hf; lia|lia| |].
    + left. split; [lia|by exists k].
    + right. exists t, l2, k. split_and!; try done; try lia. rewrite <-Hd. cbn [data]. rewrite drop_app_ge by (unfold seg_len in *; lia). f_equal. unfold seg_len. lia.
  - right. exists s, l, off. pose proof (data_len_nonneg l). rewrite <-Ep. split_and!; try done; lia.
Qed.

(** [pbuf_get_at] is the byte at the offset in the packet's data, and 0
    behind its end. *)
Lemma get_at_ok h p l n off : packet_seg h p l 0 n -> 0 <= off < 65536 -> pbuf_get_at p off h = Ret (byte_at (data l) off).
Proof.
  intros Hp Hoff. unfold pbuf_get_at. pose proof (linked_fuel _ _ _ (packet_seg_linked _ _ _ _ _ Hp)) as F. rewrite length_map in F.
  destruct (locate_spec h l p n (chain_fuel h) off Hp) as [[E [k ->]]|(s & l2 & k & Hlt & -> & Hk & Hd & Hs & Hsum)]; [lia|lia| |].
  - cbn [mbind outcome_bind]. rewrite bool_decide_true by done. unfold byte_at. rewrite nth_overflow; [done|]. unfold data_len in E. lia.
  - cbn [mbind outcome_bind]. destruct Hs as (_ & Hs0 & b & Hh & _ & _). rewrite bool_decide_false by done. pose proof Hh as (Hb & _).
    rewrite (get_live _ _ _ Hb). cbn [mbind outcome_bind]. rewrite (load_part h s b) by (done || lia). cbn [mbind outcome_bind].
    replace (byte_at (data l) off) with (byte_at (data l) (off + 0)) by (f_equal; lia). rewrite <-byte_at_drop, Hd, byte_at_drop by lia.
    unfold byte_at. cbn [data]. rewrite app_nth1 by (unfold seg_len in Hk; lia). rewrite Z.add_0_r.
    assert (exists x, sg_data s !! Z.to_nat k = Some x) as [x Hx] by (apply lookup_lt_is_Some; unfold seg_len in Hk; lia).
    rewrite (drop_S _ _ _ Hx), nth_lookup, Hx. done.
Qed.

Lemma memcmp_loop_ok h q l n s : forall i start, packet_seg h q l 0 n -> 0 <= i -> 0 <= start -> start + i + Z.of_nat (length s) < 65536 ->
  memcmp_loop s q i start h = Ret (first_diff (data l) s (start + i) (i + 1)).
Proof.
  induction s as [|b s IH]; intros i start Hp Hi Hs Hl; [done|]. cbn [memcmp_loop first_diff length] in *. rewrite (u16_id (start + i)) by (unw; lia).
  rewrite (get_at_ok h q l n) by (done || lia). cbn [mbind outcome_bind]. rewrite (u16_id (i + 1)) by (unw; lia).
  destruct (decide (byte_at (data l) (start + i) = b)) as [E|E]; [rewrite (bool_decide_true (_ = b)), bool_decide_false by naive_solver|rewrite (bool_decide_false (_ = b)), bool_decide_true by naive_solver]; [|done].
  rewrite IH by (done || lia). by rewrite Z.add_assoc.
Qed.

Lemma memcmp_ok h p l off s : packet h p l -> 0 <= off < data_len l -> off + Z.of_nat (length s) < 65536 ->
  pbuf_memcmp p off s h = Ret (first_diff (data l) s off 1).
Proof.
  intros [Hp Hl] Hoff Hs. unfold pbuf_memcmp. pose proof (linked_fuel _ _ _ (packet_seg_linked _ _ _ _ _ Hp)) as F. rewrite length_map in F.
  destruct (locate_spec h l p 0 (chain_fuel h) off Hp) as [[E _]|(t & l2 & k & _ & -> & Hk & Hd & Hs2 & Hsum)]; [lia|lia|lia|].
  cbn [mbind outcome_bind]. pose proof Hs2 as (_ & Ht0 & _). rewrite bool_decide_false by done. rewrite (memcmp_loop_ok h _ _ 0 s 0 k Hs2); [|lia|lia|].
  - rewrite <-(first_diff_drop (data (t :: l2)) k s) by lia. rewrite <-Hd. rewrite (first_diff_drop (data l)) by lia. by rewrite Z.add_0_r.
  - lia.
Qed.

Lemma memfind_loop_ok h p l s max : packet h p l -> s <> [] -> max + Z.of_nat (length s) = data_len l -> forall fuel i, 0 <= i -> max < i + Z.of_nat fuel ->
  exists r, memfind_loop fuel p s i max h = Ret r /\
    (r = 0xffff \/ i <= r <= max /\ take (length s) (drop (Z.to_nat r) (data l)) = s).
Proof.
  intros Hpk Hs Hmax. pose proof Hpk as [Hp Hl]. assert (0 < Z.of_nat (length s)) as Hs1 by (destruct s; [done|cbn; lia]).
  induction fuel as [|fuel IH]; intros i Hi Hf; cbn [memfind_loop]; case_bool_decide as E; try lia; [eauto..|].
  - rewrite (memcmp_ok h p l i s Hpk) by lia. cbn [mbind outcome_bind]. case_bool_decide as Ez.
    + exists i. split; [done|]. right. split; [lia|]. apply (first_diff_zero (data l) s i 1); [lia|unfold data_len in *; lia|lia|done].
    + destruct (first_diff_bound (data l) s i 1 ltac:(lia)) as [?|Hb]; [done|]. rewrite (u16_id (i + _)) by (unw; lia).
      destruct (IH (i + first_diff (data l) s i 1)) as (r & -> & [->|[Hr Ht]]); [lia|lia|eauto|]. exists r. split; [done|]. right. split; [lia|done].
  - eauto.
Qed.

(** [pbuf_memfind] returns, and what it finds are the bytes looked for,
    at or behind the offset it started from, however they are split among the
    buffers. *)
Theorem pbuf_memfind_sound (h : Heap) (p : Z) (l : list seg) (s : list Z) (start : Z) :
  packet h p l -> s <> [] -> 0 <= start -> Z.of_nat (length s) < 65536 -> l <> [] ->
  exists r, pbuf_memfind p s start h = Ret r /\
    (r = 0xffff \/ start <= r /\ r + Z.of_nat (length s) <= data_len l /\ take (length s) (drop (Z.to_nat r) (data l)) = s).
Proof.
  intros Hpk Hs Hst Hls Hne. pose proof Hpk as [Hp Hl]. destruct l as [|t l]; [done|]. pose proof Hp as (Ep & Hp0 & b & (Hb & _) & Htot & _).
  unfold pbuf_memfind. rewrite (get_live p _ b) by (by rewrite Ep). cbn [mbind outcome_bind].
  assert (p_tot_len b = data_len (t :: l)) as -> by (rewrite data_len_cons; lia). case_bool_decide as E; [|eauto].
  rewrite u16_id by (unw; lia).
  destruct (memfind_loop_ok h p (t :: l) s (data_len (t :: l) - Z.of_nat (length s)) Hpk Hs ltac:(lia) 65536 start Hst) as (r & -> & Hr);
    [assert (Z.of_nat 65536 = 65536) as -> by (vm_compute; reflexivity); lia|].
  exists r. split; [done|]. destruct Hr as [?|[? ?]]; [by left|right]. split_and!; [lia|lia|done].
Qed.

(** The step to the next offset tried is the length of the part that matched:
    a match that begins inside of that part is missed. *)
Definition search_heap : Heap :=
  mkHeap {[8 := mkPbuf 0 (8, 0) 4 4 PBUF_RAM 0 1]} {[8 := [97; 97; 97; 98]]} ∅.

Example memfind_misses : pbuf_memfind 8 [97; 97; 98] 0 search_heap = Ret 0xffff /\ pbuf_memcmp 8 1 [97; 97; 98] search_heap = Ret 0.
Proof. split; vm_compute; reflexivity. Qed.

Lemma pbuf_memfind_sound_witness : packet two_buffers 8 [mkSeg 8 8 [1; 2; 3]; mkSeg 16 16 [4; 5; 6; 7]] /\
  pbuf_memfind 8 [3; 4] 1 two_buffers = Ret 2.
Proof.
  split; [exact two_buffers_packet|].
  destruct (pbuf_memfind_sound two_buffers 8 [mkSeg 8 8 [1; 2; 3]; mkSeg 16 16 [4; 5; 6; 7]] [3; 4] 1) as (r & E & _); [exact two_buffers_packet|done|lia|cbn [length]; lia|done|].
  rewrite E. vm_compute in E. by simplify_eq.
Defined.
