(* ===== verification/NetState.v ===== *)
(** * State of the network stack

    What the modules of the stack share: the packet buffers, the interfaces
    ([core/netif.c]), the table of ARP ([netif/etharp.c]), the control blocks of
    UDP and of the raw protocol ([core/udp.c], [core/raw.c]), the variables of
    IP ([core/ipv4/ip.c], [ip_frag.c]) and what lies outside: the driver and
    the program.  Control blocks and interfaces are found by their addresses;
    a list that the code links by [next] is the list of the addresses. *)

From stdpp Require Import gmap.
From S2P Require Import Prelude LwipDef InetChksum IpAddr Pbuf PbufOps PbufData.

(** ** The records *)

Record NetifState := mkNetifState {
  netifs : gmap Z netif;
  netif_list : list Z;
  netif_default : Z;          (* 0: null *)
  netif_num : Z;              (* u8_t *)
}.

(** [struct etharp_entry]; [ETHARP_STATE_EMPTY] and the other states. *)
Definition ETHARP_STATE_EMPTY : Z := 0.
Definition ETHARP_STATE_PENDING : Z := 1.
Definition ETHARP_STATE_STABLE : Z := 2.
Definition ETHARP_STATE_STABLE_REREQUESTING : Z := 3.

Record etharp_entry := mkEntry {
  ae_q : Z;                   (* struct pbuf * *)
  ae_ipaddr : Z;
  ae_netif : Z;
  ae_ethaddr : list Z;
  ae_state : Z;               (* u8_t *)
  ae_ctime : Z;               (* u8_t *)
}.

Record ArpState := mkArpState { arp_table : list etharp_entry; etharp_cached_entry : Z }.

(** [struct udp_pcb]. *)
Record udp_pcb := mkUdpPcb {
  up_local_ip : Z; up_remote_ip : Z;
  up_so_options : Z; up_tos : Z; up_ttl : Z;
  up_flags : Z;
  up_local_port : Z; up_remote_port : Z;      (* u16_t, host byte order *)
  up_recv : Z; up_recv_arg : Z;               (* 0: null *)
}.

Record UdpState := mkUdpState { udps : gmap Z udp_pcb; udp_pcbs : list Z; udp_port : Z }.

(** [struct raw_pcb]. *)
Record raw_pcb := mkRawPcb {
  rp_local_ip : Z; rp_remote_ip : Z;
  rp_so_options : Z; rp_tos : Z; rp_ttl : Z;
  rp_protocol : Z;
  rp_recv : Z; rp_recv_arg : Z;
}.

Record RawState := mkRawState { raws : gmap Z raw_pcb; raw_pcbs : list Z }.

Record IpState := mkIpState {
  current_netif : Z;
  current_header : ptr;
  current_iphdr_src : Z;
  current_iphdr_dest : Z;
  ip_id : Z;                  (* u16_t *)
}.

(** [struct ip_reassdata]; the header is kept as its 20 bytes. *)
Record ip_reassdata := mkReass { rd_p : Z; rd_iphdr : list Z; rd_datagram_len : Z; rd_flags : Z; rd_timer : Z }.

Record ReassState := mkReassState { reasss : gmap Z ip_reassdata; reassdatagrams : list Z; ip_reass_pbufcount : Z }.

Record Net (E : Type) := mkNet {
  n_heap : Heap;
  n_if : NetifState;
  n_arp : ArpState;
  n_udp : UdpState;
  n_raw : RawState;
  n_ip : IpState;
  n_reass : ReassState;
  n_ext : E;
}.
Arguments mkNet {E}. Arguments n_heap {E}. Arguments n_if {E}. Arguments n_arp {E}. Arguments n_udp {E}.
Arguments n_raw {E}. Arguments n_ip {E}. Arguments n_reass {E}. Arguments n_ext {E}.

Section Setters.
Context {E : Type}.
Definition n_set_heap x (n : Net E) : Net E := mkNet x (n_if n) (n_arp n) (n_udp n) (n_raw n) (n_ip n) (n_reass n) (n_ext n).
Definition n_set_if x (n : Net E) : Net E := mkNet (n_heap n) x (n_arp n) (n_udp n) (n_raw n) (n_ip n) (n_reass n) (n_ext n).
Definition n_set_arp x (n : Net E) : Net E := mkNet (n_heap n) (n_if n) x (n_udp n) (n_raw n) (n_ip n) (n_reass n) (n_ext n).
Definition n_set_udp x (n : Net E) : Net E := mkNet (n_heap n) (n_if n) (n_arp n) x (n_raw n) (n_ip n) (n_reass n) (n_ext n).
Definition n_set_raw x (n : Net E) : Net E := mkNet (n_heap n) (n_if n) (n_arp n) (n_udp n) x (n_ip n) (n_reass n) (n_ext n).
Definition n_set_ip x (n : Net E) : Net E := mkNet (n_heap n) (n_if n) (n_arp n) (n_udp n) (n_raw n) x (n_reass n) (n_ext n).
Definition n_set_reass x (n : Net E) : Net E := mkNet (n_heap n) (n_if n) (n_arp n) (n_udp n) (n_raw n) (n_ip n) x (n_ext n).
Definition n_set_ext x (n : Net E) : Net E := mkNet (n_heap n) (n_if n) (n_arp n) (n_udp n) (n_raw n) (n_ip n) (n_reass n) x.
End Setters.

(** ** The functions of the stack as computations over this state *)

Definition NetM (E A : Type) : Type := Net E -> outcome (Net E * A).

#[export] Instance net_ret E : MRet (NetM E) := fun A a n => Ret (n, a).
#[export] Instance net_bind E : MBind (NetM E) := fun A B f m n => match m n with Ret (n, a) => f a n | Fault => Fault | Spin => Spin end.

Section Ops.
Context {E : Type}.
Definition gets {A} (f : Net E -> A) : NetM E A := fun n => Ret (n, f n).
Definition modify (f : Net E -> Net E) : NetM E () := fun n => Ret (f n, ()).
Definition fault {A} : NetM E A := fun _ => Fault.
Definition need {A} (o : option A) : NetM E A := match o with Some a => mret a | None => fault end.
Definition assert (b : bool) : NetM E () := fun n => _ ← LWIP_ASSERT b; Ret (n, ()).

(** A function on the packet buffers. *)
Definition on_heap {A} (f : Heap -> outcome (Heap * A)) : NetM E A := fun n => '(h, a) ← f (n_heap n); Ret (n_set_heap h n, a).
Definition do_heap (f : Heap -> outcome Heap) : NetM E () := fun n => h ← f (n_heap n); Ret (n_set_heap h n, ()).
Definition in_heap {A} (f : Heap -> outcome A) : NetM E A := fun n => a ← f (n_heap n); Ret (n, a).

(** The field of a buffer. *)
Definition pb {A} (f : pbuf -> A) (p : Z) : NetM E A := b ← in_heap (get p); mret (f b).

(** The fields of a header at [q], [k] bytes from its start. *)
Definition ld8 (q : ptr) (k : Z) : NetM E Z := d ← in_heap (load (at_off q k) 1); match d with [a] => mret a | _ => fault end.
Definition ld16 (q : ptr) (k : Z) : NetM E Z := d ← in_heap (load (at_off q k) 2); match d with [a; b] => mret (of_le2 a b) | _ => fault end.
Definition ld32 (q : ptr) (k : Z) : NetM E Z :=
  d ← in_heap (load (at_off q k) 4); match d with [a; b; c; e] => mret (of_le4 a b c e) | _ => fault end.
Definition ldn (q : ptr) (k n : Z) : NetM E (list Z) := in_heap (load (at_off q k) n).
Definition st8 (q : ptr) (k v : Z) : NetM E () := do_heap (store (at_off q k) [u8 v]).
Definition st16 (q : ptr) (k v : Z) : NetM E () := do_heap (store (at_off q k) (le2 v)).
Definition st32 (q : ptr) (k v : Z) : NetM E () := do_heap (store (at_off q k) (le4 v)).
Definition stn (q : ptr) (k : Z) (d : list Z) : NetM E () := do_heap (store (at_off q k) d).

(** The interface at an address. *)
Definition netif_at (a : Z) : NetM E netif := n ← gets n_if; need (netifs n !! a).

(** The lists of bytes a packet is made of. *)
Fixpoint chain_data (fuel : nat) (p : Z) (h : Heap) : outcome (list (list Z)) :=
  if bool_decide (p = 0) then Ret [] else
  match fuel with
  | O => Spin
  | S fuel => b ← get p h; d ← load (p_payload b) (p_len b) h; r ← chain_data fuel (p_next b) h; Ret (d :: r)
  end.
Definition pbuf_data (p : Z) : NetM E (list (list Z)) := in_heap (fun h => chain_data (chain_fuel h) p h).

End Ops.

(** The body of a [for] loop for each element. *)
Fixpoint for_each {E A} (l : list A) (f : A -> NetM E ()) : NetM E () :=
  match l with [] => mret () | a :: l => _ ← f a; for_each l f end.

(** The link side of an interface's driver: [netif->linkoutput(netif, p)]. *)
Class LinkDriver (E : Type) := { linkoutput : Z -> Z -> Heap -> E -> outcome (Heap * E * Z) }.

Definition call_linkoutput `{LinkDriver E} (netif p : Z) : NetM E Z := fun n =>
  '(h, e, r) ← linkoutput netif p (n_heap n) (n_ext n); Ret (n_set_ext e (n_set_heap h n), r).
