(* ===== verification/NetMem.v ===== *)
(** * Reasoning about the stack's functions

    What the theorems on the modules above the packet buffers share: headers as
    lists of bytes that are read and written at a pointer, the effect of such a
    write on a packet, and properties of the state that a function keeps. *)

From stdpp Require Import gmap.
From S2P Require Import Prelude LwipDef InetChksum IpAddr Pbuf PbufOps PbufData NetState.

(** ** Bytes at a pointer *)

Definition bytes_at (h : Heap) (q : ptr) (d : list Z) : Prop :=
  exists m, mem h !! q.1 = Some m /\ slice m q.2 (Z.of_nat (length d)) = Some d.

(** The heap with [d] at [q]. *)
Definition set_bytes (q : ptr) (d : list Z) (h : Heap) : Heap :=
  match mem h !! q.1 with Some m => h_set_mem (<[q.1 := patch m q.2 d]> (mem h)) h | None => h end.

Lemma bytes_at_inv h q d : bytes_at h q d ->
  exists m, mem h !! q.1 = Some m /\ 0 <= q.2 /\ q.2 + Z.of_nat (length d) <= Z.of_nat (length m) /\
    d = take (length d) (drop (Z.to_nat q.2) m).
Proof.
  intros (m & Hm & Hs). apply slice_inv in Hs as (H1 & _ & H2 & H3). exists m. split_and!; try done.
  by rewrite Nat2Z.id in H3.
Qed.

Lemma slice_patch {A} (m d : list A) off : 0 <= off -> off + Z.of_nat (length d) <= Z.of_nat (length m) ->
  slice (patch m off d) off (Z.of_nat (length d)) = Some d.
Proof.
  intros H1 H2. unfold slice. rewrite bool_decide_true by (rewrite patch_length by lia; lia). f_equal. unfold patch.
  rewrite drop_app_length', Nat2Z.id by (rewrite length_take; lia). by rewrite take_app_length.
Qed.

Lemma patch_patch {A} (m d d' : list A) off : 0 <= off -> off + Z.of_nat (length d) <= Z.of_nat (length m) -> length d' = length d ->
  patch (patch m off d) off d' = patch m off d'.
Proof.
  intros H1 H2 H3. unfold patch at 1 3. rewrite H3. f_equal; [|f_equal].
  - unfold patch. by rewrite take_app_length' by (rewrite length_take; lia).
  - unfold patch. rewrite !(assoc_L (++)). rewrite drop_app_length'; [done|]. rewrite length_app, length_take. lia.
Qed.

Lemma patch_self {A} (m d : list A) off : 0 <= off -> off + Z.of_nat (length d) <= Z.of_nat (length m) ->
  d = take (length d) (drop (Z.to_nat off) m) -> patch m off d = m.
Proof.
  intros H1 H2 H3. unfold patch. rewrite <-(take_drop (Z.to_nat off) m) at 3. f_equal.
  rewrite <-(take_drop (length d) (drop (Z.to_nat off) m)), drop_drop. by f_equal.
Qed.

Lemma bytes_set h q d d' : bytes_at h q d -> length d' = length d -> bytes_at (set_bytes q d' h) q d'.
Proof.
  intros (m & Hm & H1 & H2 & H3)%bytes_at_inv Hl. unfold set_bytes. rewrite Hm. eexists. cbn. rewrite lookup_insert_eq.
  split; [done|]. apply slice_patch; rewrite ?Hl; done.
Qed.

Lemma set_set h q d d1 d2 : bytes_at h q d -> length d1 = length d -> length d2 = length d ->
  set_bytes q d2 (set_bytes q d1 h) = set_bytes q d2 h.
Proof.
  intros (m & Hm & H1 & H2 & H3)%bytes_at_inv Hl1 Hl2. unfold set_bytes at 1 2. rewrite Hm. cbn. rewrite lookup_insert_eq.
  unfold set_bytes. rewrite Hm. unfold h_set_mem. cbn. rewrite insert_insert_eq. rewrite patch_patch by (rewrite ?Hl1; lia). done.
Qed.

Lemma set_same h q d : bytes_at h q d -> set_bytes q d h = h.
Proof.
  intros (m & Hm & H1 & H2 & H3)%bytes_at_inv. unfold set_bytes. rewrite Hm, patch_self by done. rewrite insert_id by done. by destruct h.
Qed.

Lemma set_bytes_pbufs q d h : pbufs (set_bytes q d h) = pbufs h.
Proof. unfold set_bytes. by destruct (mem h !! q.1). Qed.
Lemma set_bytes_customs q d h : customs (set_bytes q d h) = customs h.
Proof. unfold set_bytes. by destruct (mem h !! q.1). Qed.
Lemma set_bytes_mem q d h a : a <> q.1 -> mem (set_bytes q d h) !! a = mem h !! a.
Proof. intros Ha. unfold set_bytes. destruct (mem h !! q.1); [|done]. cbn. by rewrite lookup_insert_ne. Qed.

Lemma load_at h q d k n : bytes_at h q d -> 0 <= k -> 0 <= n -> k + n <= Z.of_nat (length d) ->
  load (at_off q k) n h = Ret (take (Z.to_nat n) (drop (Z.to_nat k) d)).
Proof.
  intros (m & Hm & H1 & H2 & H3)%bytes_at_inv Hk Hn Hl. unfold load, at_off. cbn [fst snd]. rewrite Hm. cbn [checked mbind outcome_bind].
  unfold slice. rewrite bool_decide_true by lia. cbn [checked]. f_equal. rewrite H3, skipn_firstn_comm, take_take, drop_drop.
  f_equal; [|f_equal]; lia.
Qed.

Lemma store_at h q d k x : bytes_at h q d -> 0 <= k -> k + Z.of_nat (length x) <= Z.of_nat (length d) ->
  store (at_off q k) x h = Ret (set_bytes q (patch d k x) h).
Proof.
  intros (m & Hm & H1 & H2 & H3)%bytes_at_inv Hk Hl. unfold store, at_off. cbn [fst snd]. rewrite Hm. cbn [checked mbind outcome_bind].
  rewrite blit_patch by lia. cbn [checked mbind outcome_bind]. unfold set_bytes. rewrite Hm. do 3 f_equal. clear Hm.
  assert (exists pre post, m = pre ++ d ++ post /\ length pre = Z.to_nat (q.2)) as (pre & post & -> & Hp).
  { exists (take (Z.to_nat (q.2)) m), (drop (Z.to_nat (q.2) + length d) m). split; [|rewrite length_take; lia].
    rewrite H3 at 1. rewrite <-(take_drop (Z.to_nat (q.2)) m) at 1. f_equal.
    rewrite <-(take_drop (length d) (drop _ m)) at 1. by rewrite drop_drop. }
  clear H3. rewrite patch_app_r by lia. replace (q.2 + k - Z.of_nat (length pre)) with k by lia.
  rewrite patch_app_l by lia. rewrite (patch_app_r pre) by lia. replace (q.2 - Z.of_nat (length pre)) with 0 by lia.
  f_equal. unfold patch at 2. cbn [Z.to_nat take app]. rewrite drop_app_length' by (rewrite patch_length by lia; lia). done.
Qed.

(** ** At the level of the stack *)

Section Net.
Context {E : Type}.
Implicit Types n : Net E.

Definition nset (q : ptr) (d : list Z) n : Net E := n_set_heap (set_bytes q d (n_heap n)) n.
Definition nbytes (q : ptr) (d : list Z) n : Prop := bytes_at (n_heap n) q d.

Lemma nset_start q d n : nbytes q d n -> n = nset q d n.
Proof. intros H. unfold nset. rewrite set_same by done. by destruct n. Qed.

Lemma nset_nset q d d1 d2 n : nbytes q d n -> length d1 = length d -> length d2 = length d -> nset q d2 (nset q d1 n) = nset q d2 n.
Proof. intros H H1 H2. unfold nset at 1 2. cbn. erewrite set_set by done. done. Qed.

Lemma nset_bytes q d d1 n : nbytes q d n -> length d1 = length d -> nbytes q d1 (nset q d1 n).
Proof. intros H H1. unfold nbytes, nset. cbn. by eapply bytes_set. Qed.

Lemma stn_at q k x d d0 n : nbytes q d0 n -> length d = length d0 -> 0 <= k -> k + Z.of_nat (length x) <= Z.of_nat (length d) ->
  stn q k x (nset q d n) = Ret (nset q (patch d k x) n, ()).
Proof.
  intros Hb Hd Hk Hl. unfold stn, do_heap. pose proof (nset_bytes q d0 d n Hb Hd) as Hb'.
  erewrite store_at by done. cbn [mbind outcome_bind]. do 2 f_equal.
  change (nset q (patch d k x) (nset q d n) = nset q (patch d k x) n). apply (nset_nset q d0); [done|done|].
  by rewrite patch_length.
Qed.

Lemma st8_at q k v d d0 n : nbytes q d0 n -> length d = length d0 -> 0 <= k -> k + 1 <= Z.of_nat (length d) ->
  st8 q k v (nset q d n) = Ret (nset q (patch d k [u8 v]) n, ()).
Proof. intros. by eapply stn_at. Qed.
Lemma st16_at q k v d d0 n : nbytes q d0 n -> length d = length d0 -> 0 <= k -> k + 2 <= Z.of_nat (length d) ->
  st16 q k v (nset q d n) = Ret (nset q (patch d k (le2 v)) n, ()).
Proof. intros. by eapply stn_at. Qed.
Lemma st32_at q k v d d0 n : nbytes q d0 n -> length d = length d0 -> 0 <= k -> k + 4 <= Z.of_nat (length d) ->
  st32 q k v (nset q d n) = Ret (nset q (patch d k (le4 v)) n, ()).
Proof. intros. by eapply stn_at. Qed.

Lemma ldn_at q k len d d0 n : nbytes q d0 n -> length d = length d0 -> 0 <= k -> 0 <= len -> k + len <= Z.of_nat (length d) ->
  ldn q k len (nset q d n) = Ret (nset q d n, take (Z.to_nat len) (drop (Z.to_nat k) d)).
Proof.
  intros Hb Hd Hk Hn Hl. unfold ldn, in_heap. erewrite load_at; [done|eapply nset_bytes; done|done|done|done].
Qed.

(** The [k]-th byte and the word there. *)
Definition at8 (d : list Z) (k : Z) : Z := nth (Z.to_nat k) d 0.
Definition at16 (d : list Z) (k : Z) : Z := of_le2 (at8 d k) (at8 d (k + 1)).
Definition at32 (d : list Z) (k : Z) : Z := of_le4 (at8 d k) (at8 d (k + 1)) (at8 d (k + 2)) (at8 d (k + 3)).

Lemma take_drop_at8 (len : nat) : forall d k, 0 <= k -> k + Z.of_nat len <= Z.of_nat (length d) ->
  take len (drop (Z.to_nat k) d) = map (fun i => at8 d (k + Z.of_nat i)) (seq 0 len).
Proof.
  intros d k Hk Hl. apply list_eq. intros i. rewrite list_lookup_fmap. destruct (decide (i < len)%nat) as [Hi|Hi].
  - rewrite lookup_take_lt, lookup_drop by done. rewrite lookup_seq_lt by lia. cbn. unfold at8.
    replace (Z.to_nat (k + Z.of_nat i)) with (Z.to_nat k + i)%nat by lia.
    destruct (lookup_lt_is_Some_2 d (Z.to_nat k + i)) as [x Hx]; [lia|]. rewrite Hx. f_equal. symmetry.
    erewrite nth_lookup_Some; done.
  - rewrite lookup_take_ge by lia. rewrite lookup_seq_ge by lia. done.
Qed.

Ltac ld_tac := intros Hb Hd Hk Hl; unfold ld8, ld16, ld32, in_heap, mbind, net_bind;
  erewrite load_at; [|eapply nset_bytes; done|done|done|done];
  rewrite take_drop_at8 by done;
  change (Z.to_nat 1) with 1%nat; change (Z.to_nat 2) with 2%nat; change (Z.to_nat 4) with 4%nat; cbn [seq map Z.of_nat outcome_bind mbind]; unfold at8, at16, at32, at8;
  rewrite ?Z.add_0_r; reflexivity.

Lemma ld8_at q k d d0 n : nbytes q d0 n -> length d = length d0 -> 0 <= k -> k + 1 <= Z.of_nat (length d) -> ld8 q k (nset q d n) = Ret (nset q d n, at8 d k).
Proof. ld_tac. Qed.
Lemma ld16_at q k d d0 n : nbytes q d0 n -> length d = length d0 -> 0 <= k -> k + 2 <= Z.of_nat (length d) -> ld16 q k (nset q d n) = Ret (nset q d n, at16 d k).
Proof. ld_tac. Qed.
Lemma ld32_at q k d d0 n : nbytes q d0 n -> length d = length d0 -> 0 <= k -> k + 4 <= Z.of_nat (length d) -> ld32 q k (nset q d n) = Ret (nset q d n, at32 d k).
Proof. ld_tac. Qed.

(** One step of a function. *)
Lemma bind_step {A B} (m : NetM E A) (f : A -> NetM E B) n n' a : m n = Ret (n', a) -> (x ← m; f x) n = f a n'.
Proof. intros H. unfold mbind, net_bind. by rewrite H. Qed.

Lemma pb_at {A} (f : pbuf -> A) p n b : pbufs (n_heap n) !! p = Some b -> pb f p n = Ret (n, f b).
Proof. intros H. unfold pb, in_heap, mbind, net_bind, get. rewrite H. done. Qed.
Lemma pb_set {A} (f : pbuf -> A) p q d n b : pbufs (n_heap n) !! p = Some b -> pb f p (nset q d n) = Ret (nset q d n, f b).
Proof. intros H. apply pb_at. cbn. by rewrite set_bytes_pbufs. Qed.
Lemma netif_at_at a n f : netifs (n_if n) !! a = Some f -> netif_at a n = Ret (n, f).
Proof. intros H. unfold netif_at, gets, need, mbind, net_bind. rewrite H. done. Qed.
Lemma on_heap_at {A} (f : Heap -> outcome (Heap * A)) n h a : f (n_heap n) = Ret (h, a) -> on_heap f n = Ret (n_set_heap h n, a).
Proof. intros H. unfold on_heap. rewrite H. done. Qed.
Lemma do_heap_at (f : Heap -> outcome Heap) n h : f (n_heap n) = Ret h -> do_heap f n = Ret (n_set_heap h n, ()).
Proof. intros H. unfold do_heap. rewrite H. done. Qed.
Lemma assert_at (b : bool) n : b = true -> assert b n = Ret (n, ()).
Proof. intros ->. done. Qed.

End Net.

(** ** What a function keeps *)

Section Keeps.
Context {E : Type}.
Implicit Types (P : Net E -> Prop) (n : Net E).

(** If the function returns, the state it leaves has the property. *)
Definition keeps {A} P (m : NetM E A) : Prop := forall n n' a, P n -> m n = Ret (n', a) -> P n'.

Lemma keeps_ret {A} P (a : A) : keeps P (mret a).
Proof. by intros n n' a' H [= <- <-]. Qed.
Lemma keeps_bind {A B} P (m : NetM E A) (f : A -> NetM E B) : keeps P m -> (forall a, keeps P (f a)) -> keeps P (x ← m; f x).
Proof.
  intros Hm Hf n n' b H Hb. unfold mbind, net_bind in Hb. destruct (m n) as [[n1 a]| |] eqn:E1; [|done|done].
  eapply Hf; [eapply Hm; done|done].
Qed.
Lemma keeps_gets {A} P (f : Net E -> A) : keeps P (gets f).
Proof. by intros n n' a H [= <- <-]. Qed.
Lemma keeps_fault {A} P : keeps P (fault (A := A)).
Proof. by intros n n' a. Qed.
Lemma keeps_need {A} P (o : option A) : keeps P (need o).
Proof. destruct o; [apply keeps_ret|apply keeps_fault]. Qed.
Lemma keeps_assert P b : keeps P (assert b).
Proof. intros n n' a H. unfold assert. destruct b; [|done]. by intros [= <- <-]. Qed.
Lemma keeps_spin {A} P : keeps P (fun _ : Net E => Spin (A := Net E * A)).
Proof. by intros n n' a. Qed.
Lemma keeps_modify P f : (forall n, P n -> P (f n)) -> keeps P (modify f).
Proof. intros Hf n n' a H [= <- <-]. by apply Hf. Qed.
Lemma keeps_if {A} P (b : bool) (m1 m2 : NetM E A) : keeps P m1 -> keeps P m2 -> keeps P (if b then m1 else m2).
Proof. by destruct b. Qed.
Lemma keeps_in_heap {A} P (f : Heap -> outcome A) : keeps P (in_heap f).
Proof. intros n n' a H. unfold in_heap. destruct (f (n_heap n)); [|done|done]. by intros [= <- <-]. Qed.

(** More than one property: from the state before to the result. *)
Definition post {A} P (m : NetM E A) (Q : A -> Net E -> Prop) : Prop := forall n n' a, P n -> m n = Ret (n', a) -> Q a n'.

Lemma bind_inv {A B} (m : NetM E A) (f : A -> NetM E B) n n' b : (x ← m; f x) n = Ret (n', b) -> exists n1 a, m n = Ret (n1, a) /\ f a n1 = Ret (n', b).
Proof. unfold mbind, net_bind. destruct (m n) as [[n1 a]| |]; [|done|done]. by exists n1, a. Qed.
Lemma ret_inv {A} (a : A) n n' b : (mret a : NetM E A) n = Ret (n', b) -> n' = n /\ b = a.
Proof. by intros [= -> ->]. Qed.
Lemma assert_inv b n n' u : assert b n = Ret (n', u) -> n' = n /\ b = true.
Proof. unfold assert. destruct b; [|done]. by intros [= ->]. Qed.
Lemma gets_inv {A} (f : Net E -> A) n n' a : gets f n = Ret (n', a) -> n' = n /\ a = f n.
Proof. by intros [= -> ->]. Qed.
Lemma need_inv {A} (o : option A) n n' a : need o n = Ret (n', a) -> n' = n /\ o = Some a.
Proof. destruct o; [|done]. by intros [= -> ->]. Qed.
Lemma in_heap_inv {A} (f : Heap -> outcome A) n n' a : in_heap f n = Ret (n', a) -> n' = n /\ f (n_heap n) = Ret a.
Proof. unfold in_heap. destruct (f (n_heap n)); [|done|done]. by intros [= -> ->]. Qed.
Lemma on_heap_inv {A} (f : Heap -> outcome (Heap * A)) n n' a : on_heap f n = Ret (n', a) -> exists h, f (n_heap n) = Ret (h, a) /\ n' = n_set_heap h n.
Proof. unfold on_heap. destruct (f (n_heap n)) as [[h x]| |]; [|done|done]. intros [= <- ->]. by exists h. Qed.

Lemma post_bind {A B} P (m : NetM E A) Q (f : A -> NetM E B) R : post P m Q -> (forall a, post (Q a) (f a) R) -> post P (x ← m; f x) R.
Proof. intros Hm Hf n n' b HP (n1 & a & H1 & H2)%bind_inv. eapply Hf; [by eapply Hm|done]. Qed.
Lemma post_weaken {A} (P P' : Net E -> Prop) (m : NetM E A) (Q Q' : A -> Net E -> Prop) :
  post P m Q -> (forall n, P' n -> P n) -> (forall a n, Q a n -> Q' a n) -> post P' m Q'.
Proof. intros Hm HP HQ n n' a Hn Ha. eapply HQ, Hm; [by apply HP|done]. Qed.

(** Properties of the rest of the state do not depend on the buffers and on
    what is outside. *)
Class Above P := above : forall n h e, P n -> P (n_set_ext e (n_set_heap h n)).

Lemma keeps_on_heap {A} P `{!Above P} (f : Heap -> outcome (Heap * A)) : keeps P (on_heap f).
Proof.
  intros n n' a H. unfold on_heap. destruct (f (n_heap n)) as [[h x]| |]; [|done|done]. intros [= <- <-].
  specialize (above n h (n_ext n) H). by destruct n.
Qed.
Lemma keeps_do_heap P `{!Above P} (f : Heap -> outcome Heap) : keeps P (do_heap f).
Proof.
  intros n n' a H. unfold do_heap. destruct (f (n_heap n)) as [h| |]; [|done|done]. intros [= <- <-].
  specialize (above n h (n_ext n) H). by destruct n.
Qed.
Lemma keeps_link P `{!Above P, LinkDriver E} netif p : keeps P (call_linkoutput netif p).
Proof.
  intros n n' a H1. unfold call_linkoutput. destruct (linkoutput _ _ _ _) as [[[h e] r]| |]; [|done|done]. intros [= <- <-].
  exact (above n h e H1).
Qed.
Lemma keeps_for_each {A} P (l : list A) (f : A -> NetM E ()) : (forall a, a ∈ l -> keeps P (f a)) -> keeps P (for_each l f).
Proof.
  induction l as [|a l IH]; intros Hf; cbn [for_each]; [apply keeps_ret|]. apply keeps_bind; [apply Hf; left|]. intros _. apply IH.
  intros b Hb. apply Hf. by right.
Qed.
End Keeps.

#[export] Hint Resolve keeps_ret keeps_gets keeps_fault keeps_need keeps_assert keeps_spin keeps_in_heap keeps_on_heap keeps_do_heap keeps_link : keeps.
#[export] Hint Extern 0 (Above _) => typeclasses eauto : keeps.

(** What a function that returned has done. *)
Ltac run H :=
  let n1 := fresh "n" in let a := fresh "v" in let H1 := fresh "R" in
  apply bind_inv in H as (n1 & a & H1 & H); cbn beta in H;
  first [ apply ret_inv in H1 as [-> ->] | apply assert_inv in H1 as [-> H1] | apply gets_inv in H1 as [-> ->]
        | apply need_inv in H1 as [-> H1] | apply in_heap_inv in H1 as [-> H1] | idtac ].

(** The structure of a function, down to its calls. *)
Ltac keeps_step :=
  first [ solve [eauto with keeps]
        | match goal with |- keeps _ (mbind _ _) => apply keeps_bind; [|intros ?] end
        | match goal with |- keeps _ (match ?x with _ => _ end) => destruct x end
        | match goal with |- keeps _ (let '(_, _) := ?x in _) => destruct x end ].
Ltac keeps_tac := repeat (cbn beta zeta iota; keeps_step).

(** ** Packets *)

Lemma head_bytes h p s l q k b : packet_seg h p (s :: l) q k -> pbufs h !! p = Some b -> bytes_at h (p_payload b) (sg_data s) /\ p_len b = seg_len s.
Proof.
  intros (-> & _ & b' & (Hb' & Hbase & Hlen & m & Hm & Hs) & _) Hb. rewrite Hb in Hb'. injection Hb' as <-.
  split; [|done]. exists m. rewrite Hbase. split; [done|]. by rewrite Hlen in Hs.
Qed.

(** The first buffer of a packet with other bytes. *)
Lemma packet_set h p s l q k b d : packet_seg h p (s :: l) q k -> apart (s :: l) -> pbufs h !! p = Some b -> length d = length (sg_data s) ->
  packet_seg (set_bytes (p_payload b) d h) p (mkSeg (sg_a s) (sg_base s) d :: l) q k.
Proof.
  intros Hp Ha Hb Hd. pose proof (head_bytes _ _ _ _ _ _ _ Hp Hb) as [Hbs _].
  destruct Hp as (-> & Hnz & b' & (Hb' & Hbase & Hlen & m & Hm & Hs) & Ht & Hl). rewrite Hb in Hb'. injection Hb' as <-.
  split; [done|]. split; [done|]. exists b. split; [|split].
  - split; cbn; [by rewrite set_bytes_pbufs|]. split; [done|]. unfold seg_len in *. cbn. rewrite Hd. split; [done|].
    destruct (bytes_set _ _ _ d Hbs Hd) as (m' & Hm' & Hs'). exists m'. rewrite <-Hbase. split; [done|]. by rewrite Hlen, <-Hd.
  - unfold seg_len in *. cbn. by rewrite Hd.
  - apply (packet_seg_frame h); [done|]. intros t Hin. rewrite set_bytes_pbufs. split; [done|]. apply set_bytes_mem.
    apply NoDup_cons in Ha as [Hni _]. rewrite Hbase. intros E. apply Hni. rewrite <-E. apply list_elem_of_fmap. by exists t.
Qed.

Lemma apart_data s l d : apart (s :: l) -> apart (mkSeg (sg_a s) (sg_base s) d :: l).
Proof. done. Qed.

Lemma packet_alive h p s l q k : packet_seg h p (s :: l) q k -> sg_a s = p /\ p <> 0 /\ exists b, pbufs h !! p = Some b /\ p_tot_len b = data_len (s :: l) + k /\
  p_len b = seg_len s /\ (p_payload b).1 = sg_base s.
Proof.
  intros (-> & Hnz & b & (Hb & Hbase & Hlen & _) & Ht & _). split; [done|]. split; [done|]. exists b. rewrite data_len_cons. by split_and!.
Qed.

(** The loop over a packet's buffers. *)
Lemma chain_data_packet h l : forall p k fuel, packet_seg h p l 0 k -> (length l <= fuel)%nat -> chain_data fuel p h = Ret (map sg_data l).
Proof.
  induction l as [|s l IH]; intros p k fuel Hp Hf.
  - cbn in Hp. subst p. by destruct fuel.
  - destruct fuel as [|fuel]; [cbn in Hf; lia|]. destruct Hp as (-> & Hnz & b & (Hb & Hbase & Hlen & m & Hm & Hs) & _ & Hl).
    cbn [chain_data]. rewrite bool_decide_false by done. unfold get. rewrite Hb. cbn [checked mbind outcome_bind].
    unfold load. destruct (p_payload b) as [base off] eqn:Ep. cbn [fst snd] in *. subst base. rewrite Hm. cbn [checked mbind outcome_bind].
    rewrite Hs. cbn [checked mbind outcome_bind]. rewrite (IH _ k) by (done || (cbn in Hf; lia)). done.
Qed.

Lemma data_concat l : concat (map sg_data l) = data l.
Proof. induction l as [|s l IH]; [done|]. cbn. by rewrite IH. Qed.

Lemma pbuf_data_at {E} (n : Net E) p l k : packet_seg (n_heap n) p l 0 k -> pbuf_data p n = Ret (n, map sg_data l).
Proof.
  intros Hp. unfold pbuf_data, in_heap. erewrite chain_data_packet; [done|done|].
  pose proof (packet_seg_linked _ _ _ _ _ Hp) as Hl. pose proof (linked_fuel _ _ _ Hl) as Hf. rewrite length_map in Hf. lia.
Qed.

(** The single bytes of a list that is long enough. *)
Lemma long_cons (d : list Z) k : 1 <= k -> k <= Z.of_nat (length d) -> exists a r, d = a :: r /\ k - 1 <= Z.of_nat (length r).
Proof. destruct d as [|a r]; cbn [length]; [lia|]. intros. exists a, r. split; [done|lia]. Qed.

(** Header [n] bytes in front of the data. *)
Lemma split_at (d : list Z) k : 0 <= k -> k <= Z.of_nat (length d) -> exists x r, d = x ++ r /\ Z.of_nat (length x) = k.
Proof.
  intros Hk Hl. exists (take (Z.to_nat k) d), (drop (Z.to_nat k) d). split; [by rewrite take_drop|]. rewrite length_take. lia.
Qed.

(** [pbuf_header] in front of and behind a header of [k] bytes. *)
Lemma header_push {A : Malloc} h p k s l b : packet_seg h p (s :: l) 0 0 -> pbufs h !! p = Some b -> own_type b -> sg_base s = p ->
  0 < k < 32768 -> k <= (p_payload b).2 -> data_len (s :: l) + k < 65536 ->
  exists x, Z.of_nat (length x) = k /\ pbuf_header p k h = Ret (put p (moved k b) h, 0) /\
    packet_seg (put p (moved k b) h) p (mkSeg (sg_a s) (sg_base s) (x ++ sg_data s) :: l) 0 0.
Proof.
  intros Hp Hb Ho Hbase Hk Hroom Htot. pose proof (packet_alive _ _ _ _ _ _ Hp) as (Ha & Hnz & b' & Hb' & Ht & Hlen & Hpb).
  rewrite Hb in Hb'. injection Hb' as <-. pose proof (seg_len_nonneg s) as H1. pose proof (data_len_nonneg l) as H2.
  rewrite data_len_cons in *.
  assert (exists m, mem h !! sg_base s = Some m /\ slice m (p_payload b).2 (p_len b) = Some (sg_data s)) as (m & Hm & Hs).
  { destruct Hp as (_ & _ & b' & (Hb' & _ & _ & Hx) & _). rewrite Ha, Hb in Hb'. injection Hb' as <-. done. }
  destruct (slice_grow m (p_payload b).2 (p_len b) k (sg_data s) Hs ltac:(lia)) as (x & _ & Hx & Hs').
  exists x. split; [done|]. split.
  - apply header_step; try done; try lia.
  - eapply packet_moved; [done|done| |].
    + intros m' Hm' _. rewrite Hm in Hm'. injection Hm' as <-. done.
    + rewrite length_app. unfold seg_len in Hlen. lia.
Qed.

Lemma header_pull {A : Malloc} h p x s l b : packet_seg h p (s :: l) 0 0 -> pbufs h !! p = Some b -> (own_type b -> sg_base s = p) ->
  0 < Z.of_nat (length x) < 32768 -> (exists d, sg_data s = x ++ d) -> data_len (s :: l) < 65536 ->
  exists d, sg_data s = x ++ d /\ pbuf_header p (- Z.of_nat (length x)) h = Ret (put p (moved (- Z.of_nat (length x)) b) h, 0) /\
    packet_seg (put p (moved (- Z.of_nat (length x)) b) h) p (mkSeg (sg_a s) (sg_base s) d :: l) 0 0.
Proof.
  intros Hp Hb Ho Hx (d & Hd) Htot. exists d. split; [done|]. pose proof (packet_alive _ _ _ _ _ _ Hp) as (Ha & Hnz & b' & Hb' & Ht & Hlen & Hpb).
  rewrite Hb in Hb'. injection Hb' as <-. pose proof (seg_len_nonneg s) as H1. pose proof (data_len_nonneg l) as H2.
  rewrite data_len_cons in *. assert (Z.of_nat (length x) <= seg_len s) as H3 by (unfold seg_len; rewrite Hd, length_app; lia).
  split.
  - apply header_step; try done; try lia.
    intros Hown. split; [by rewrite Hpb, Ho|].
    destruct Hp as (_ & _ & b' & (Hb' & _ & _ & m & _ & Hs) & _). rewrite Ha, Hb in Hb'. injection Hb' as <-.
    apply slice_inv in Hs as (Hs & _). lia.
  - eapply packet_moved; [done|done| |].
    + intros m Hm Hs. apply (slice_drop m _ _ (Z.of_nat (length x))) in Hs; [|lia].
      replace (p_len b + - Z.of_nat (length x)) with (p_len b - Z.of_nat (length x)) by lia.
      replace ((p_payload b).2 - - Z.of_nat (length x)) with ((p_payload b).2 + Z.of_nat (length x)) by lia. rewrite Hs, Hd.
      by rewrite drop_app_length' by lia.
    + unfold seg_len in *. rewrite Hd, length_app in Hlen. lia.
Qed.

(** The packet [s :: l] with [hdr] in front of it; nothing else has changed. *)
Record pushed (p : Z) (s : seg) (l : list seg) (b : pbuf) (hdr : list Z) (h h' : Heap) : Prop := {
  pu_pkt : packet_seg h' p (mkSeg (sg_a s) (sg_base s) (hdr ++ sg_data s) :: l) 0 0;
  pu_bufs : pbufs h' = <[p := moved (Z.of_nat (length hdr)) b]> (pbufs h);
  pu_mem : forall a, a <> p -> mem h' !! a = mem h !! a;
  pu_customs : customs h' = customs h;
}.

Lemma pushed_trans p s l b h1 h2 h3 x y : pushed p s l b x h1 h2 ->
  pushed p (mkSeg (sg_a s) (sg_base s) (x ++ sg_data s)) l (moved (Z.of_nat (length x)) b) y h2 h3 -> pushed p s l b (y ++ x) h1 h3.
Proof.
  intros [A1 A2 A3 A4] [B1 B2 B3 B4]. cbn [sg_a sg_base sg_data] in *. split.
  - by rewrite <-(assoc_L (++)).
  - rewrite B2, A2, insert_insert_eq. f_equal. unfold moved. cbn. rewrite length_app. f_equal; [f_equal| |]; lia.
  - intros a Ha. by rewrite B3, A3.
  - by rewrite B4.
Qed.

(** A packet whose first buffer has room for a header. *)
Record has_room (h : Heap) (p k : Z) (s : seg) (l : list seg) (b : pbuf) : Prop := {
  hr_pkt : packet_seg h p (s :: l) 0 0;
  hr_apart : apart (s :: l);
  hr_buf : pbufs h !! p = Some b;
  hr_own : own_type b;
  hr_base : sg_base s = p;
  hr_off : k <= (p_payload b).2;
  hr_len : data_len (s :: l) + k < 65536;
}.

Lemma pushed_room h h' p s l b hdr k : has_room h p k s l b -> pushed p s l b hdr h h' ->
  has_room h' p (k - Z.of_nat (length hdr)) (mkSeg (sg_a s) (sg_base s) (hdr ++ sg_data s)) l (moved (Z.of_nat (length hdr)) b).
Proof.
  intros [H1 H2 H3 H4 H5 H6 H7] [P1 P2 P3 P4]. split; [done|done| |done|done|cbn; lia|].
  - by rewrite P2, lookup_insert_eq.
  - rewrite data_len_cons in *. unfold seg_len in *. cbn. rewrite length_app. lia.
Qed.

Lemma push_spec {A : Malloc} h p s l b k : has_room h p k s l b -> 0 < k < 32768 ->
  let h1 := put p (moved k b) h in
  let q := p_payload (moved k b) in
  exists x, Z.of_nat (length x) = k /\ pbuf_header p k h = Ret (h1, 0) /\ bytes_at h1 q (x ++ sg_data s) /\
    forall hdr, Z.of_nat (length hdr) = k -> pushed p s l b hdr h (set_bytes q (hdr ++ sg_data s) h1).
Proof.
  intros [H1 H2 H3 H4 H5 H6 H7] Hk h1 q. destruct (header_push h p k s l b H1 H3 H4 H5 Hk H6 H7) as (x & Hx & Hh & Hp).
  exists x. split; [done|]. split; [done|].
  assert (pbufs h1 !! p = Some (moved k b)) as Hb1 by (subst h1; apply put_same).
  pose proof (head_bytes _ _ _ _ _ _ _ Hp Hb1) as [Hbs _]. split; [done|]. intros hdr Hhdr.
  assert (length (hdr ++ sg_data s) = length (x ++ sg_data s)) as Hl by (rewrite !length_app; lia). split.
  - exact (packet_set _ _ _ _ _ _ _ (hdr ++ sg_data s) Hp H2 Hb1 Hl).
  - rewrite set_bytes_pbufs. subst h1. by rewrite Hhdr.
  - intros a Ha. rewrite set_bytes_mem; [done|]. subst q. cbn.
    destruct (packet_alive _ _ _ _ _ _ H1) as (_ & _ & b' & Hb' & _ & _ & Hpb). rewrite H3 in Hb'. injection Hb' as <-. by rewrite Hpb, H5.
  - by rewrite set_bytes_customs.
Qed.

(** A step that writes or reads a header: the bytes are an explicit list. *)
Ltac mem_nat := repeat match goal with
  | |- context [Z.to_nat ?k] => match k with Z0 => idtac | Zpos _ => idtac | Z.add _ _ => idtac end;
      let v := eval vm_compute in (Z.to_nat k) in match v with O => idtac | S _ => idtac end; progress change (Z.to_nat k) with v end.
Ltac mem_eval := unfold patch, at32, at16, at8; mem_nat; cbn [take drop Nat.add length app le2 le4 nth]; rewrite ?drop_0.
Ltac mem_side := try done; try (cbn [length app]; lia).
Ltac mem_step Hb :=
  first [ erewrite bind_step; [|eapply (st8_at _ _ _ _ _ _ Hb); mem_side]
        | erewrite bind_step; [|eapply (st16_at _ _ _ _ _ _ Hb); mem_side]
        | erewrite bind_step; [|eapply (st32_at _ _ _ _ _ _ Hb); mem_side]
        | erewrite bind_step; [|eapply (stn_at _ _ _ _ _ _ Hb); mem_side]
        | erewrite bind_step; [|eapply (ld8_at _ _ _ _ _ Hb); mem_side]
        | erewrite bind_step; [|eapply (ld16_at _ _ _ _ _ Hb); mem_side]
        | erewrite bind_step; [|eapply (ld32_at _ _ _ _ _ Hb); mem_side]
        | erewrite bind_step; [|eapply (ldn_at _ _ _ _ _ _ Hb); mem_side] ];
  cbv beta; mem_eval.
