(* ===== verification/Etharp.v ===== *)
(** * Address resolution ([src/lwip/src/netif/etharp.c])

    The table of the Ethernet addresses of the hosts on the link: entries that
    age, requests and replies, and packets that wait for an answer.  One
    packet waits per entry; there are no entries that are never forgotten. *)

From stdpp Require Import gmap.
From S2P Require Import Prelude LwipDef InetChksum IpAddr Pbuf PbufOps PbufData NetState.

Definition ARP_TABLE_SIZE : Z := 32.
Definition ARP_MAXAGE : Z := 240.
Definition ARP_AGE_REREQUEST_USED : Z := ARP_MAXAGE - 12.
Definition ARP_MAXPENDING : Z := 2.
Definition HWTYPE_ETHERNET : Z := 1.
Definition ETHARP_FLAG_TRY_HARD : Z := 1.
Definition ETHARP_FLAG_FIND_ONLY : Z := 2.
Definition ETHARP_HWADDR_LEN : Z := 6.
Definition SIZEOF_ETH_HDR : Z := 14.
Definition SIZEOF_ETHARP_HDR : Z := 28.
Definition SIZEOF_ETHARP_PACKET : Z := SIZEOF_ETH_HDR + SIZEOF_ETHARP_HDR.
Definition ETHTYPE_ARP : Z := 0x0806.
Definition ETHTYPE_IP : Z := 0x0800.
Definition ARP_REQUEST : Z := 1.
Definition ARP_REPLY : Z := 2.
Definition LL_MULTICAST_ADDR_0 : Z := 0x01.
Definition LL_MULTICAST_ADDR_1 : Z := 0x00.
Definition LL_MULTICAST_ADDR_2 : Z := 0x5e.
Definition ethbroadcast : list Z := [0xff; 0xff; 0xff; 0xff; 0xff; 0xff].
Definition ethzero : list Z := [0; 0; 0; 0; 0; 0].
Definition PP_HTONS (x : Z) : Z := Z.lor (Z.shiftl (Z.land x 0xff) 8) (Z.shiftr (Z.land x 0xff00) 8).
Definition NETIF_FLAG_ETHARP : Z := 0x20.
Definition NETIF_FLAG_LINK_UP : Z := 0x10.
Definition NETIF_FLAG_UP : Z := 0x01.

(** The fields of [struct eth_hdr] and [struct etharp_hdr]. *)
Definition eth_dest : Z := 0.
Definition eth_src : Z := 6.
Definition eth_type : Z := 12.
Definition arp_hwtype : Z := 0.
Definition arp_proto : Z := 2.
Definition arp_hwlen : Z := 4.
Definition arp_protolen : Z := 5.
Definition arp_opcode : Z := 6.
Definition arp_shwaddr : Z := 8.
Definition arp_sipaddr : Z := 14.
Definition arp_dhwaddr : Z := 18.
Definition arp_dipaddr : Z := 24.

Definition ae_set_q x (a : etharp_entry) : etharp_entry := mkEntry x (ae_ipaddr a) (ae_netif a) (ae_ethaddr a) (ae_state a) (ae_ctime a).
Definition ae_set_ipaddr x (a : etharp_entry) : etharp_entry := mkEntry (ae_q a) x (ae_netif a) (ae_ethaddr a) (ae_state a) (ae_ctime a).
Definition ae_set_netif x (a : etharp_entry) : etharp_entry := mkEntry (ae_q a) (ae_ipaddr a) x (ae_ethaddr a) (ae_state a) (ae_ctime a).
Definition ae_set_ethaddr x (a : etharp_entry) : etharp_entry := mkEntry (ae_q a) (ae_ipaddr a) (ae_netif a) x (ae_state a) (ae_ctime a).
Definition ae_set_state x (a : etharp_entry) : etharp_entry := mkEntry (ae_q a) (ae_ipaddr a) (ae_netif a) (ae_ethaddr a) x (ae_ctime a).
Definition ae_set_ctime x (a : etharp_entry) : etharp_entry := mkEntry (ae_q a) (ae_ipaddr a) (ae_netif a) (ae_ethaddr a) (ae_state a) x.

Definition free_slot (a : etharp_entry) : etharp_entry := ae_set_state ETHARP_STATE_EMPTY a.

(** What the search remembers; [ARP_TABLE_SIZE] is no index. *)
Record scan := mkScan { old_pending : Z; age_pending : Z; old_stable : Z; age_stable : Z; empty_slot : Z; old_queue : Z; age_queue : Z }.
Definition scan0 : scan := mkScan ARP_TABLE_SIZE 0 ARP_TABLE_SIZE 0 ARP_TABLE_SIZE ARP_TABLE_SIZE 0.

Definition scan_entry (a : etharp_entry) (i : Z) (s : scan) : scan :=
  if bool_decide (empty_slot s = ARP_TABLE_SIZE) && bool_decide (ae_state a = ETHARP_STATE_EMPTY) then
    mkScan (old_pending s) (age_pending s) (old_stable s) (age_stable s) i (old_queue s) (age_queue s)
  else if bool_decide (ae_state a <> ETHARP_STATE_EMPTY) then
    if bool_decide (ae_state a = ETHARP_STATE_PENDING) then
      if bool_decide (ae_q a <> 0) then
        if bool_decide (ae_ctime a >= age_queue s)
        then mkScan (old_pending s) (age_pending s) (old_stable s) (age_stable s) (empty_slot s) i (ae_ctime a) else s
      else
        if bool_decide (ae_ctime a >= age_pending s)
        then mkScan i (ae_ctime a) (old_stable s) (age_stable s) (empty_slot s) (old_queue s) (age_queue s) else s
    else if bool_decide (ae_state a >= ETHARP_STATE_STABLE) then
      if bool_decide (ae_ctime a >= age_stable s)
      then mkScan (old_pending s) (age_pending s) i (ae_ctime a) (empty_slot s) (old_queue s) (age_queue s) else s
    else s
  else s.

(** The sweep from index [i] on; [inl]: the entry with the address.  [None]
    for the address: null. *)
Fixpoint sweep (l : list etharp_entry) (ipaddr : option Z) (i : Z) (s : scan) : Z + scan :=
  match l with
  | [] => inr s
  | a :: l =>
      if bool_decide (ae_state a <> ETHARP_STATE_EMPTY) && bool_decide (ipaddr = Some (ae_ipaddr a)) then inl i
      else sweep l ipaddr (i + 1) (scan_entry a i s)
  end.

(** The first stable entry for an address. *)
Fixpoint find_stable (l : list etharp_entry) (dst i : Z) : option Z :=
  match l with
  | [] => None
  | a :: l => if bool_decide (ae_state a >= ETHARP_STATE_STABLE) && ip_addr_cmp dst (ae_ipaddr a) then Some i else find_stable l dst (i + 1)
  end.

Definition indices : list Z := seqZ 0 ARP_TABLE_SIZE.

Section Etharp.
Context {E : Type} `{Malloc, LinkDriver E}.
Notation M := (NetM E).

Definition arp_get (i : Z) : M etharp_entry := t ← gets (fun n => arp_table (n_arp n)); need (rd t i).
Definition arp_upd (i : Z) (f : etharp_entry -> etharp_entry) : M () :=
  a ← arp_get i; t ← gets (fun n => arp_table (n_arp n)); t ← need (wr t i (f a));
  modify (fun n => n_set_arp (mkArpState t (etharp_cached_entry (n_arp n))) n).
Definition ETHARP_SET_HINT (i : Z) : M () := modify (fun n => n_set_arp (mkArpState (arp_table (n_arp n)) (u8 i)) n).

Definition etharp_free_entry (i : Z) : M () :=
  a ← arp_get i;
  _ ← (if bool_decide (ae_q a <> 0) then _ ← on_heap (pbuf_free (ae_q a)); arp_upd i (ae_set_q 0) else mret ());
  arp_upd i free_slot.

(** The body of the loop of the timer. *)
Definition tmr_entry (i : Z) : M () :=
  a ← arp_get i;
  if bool_decide (ae_state a <> ETHARP_STATE_EMPTY) then
    _ ← arp_upd i (ae_set_ctime (u8 (ae_ctime a + 1)));
    let ctime := u8 (ae_ctime a + 1) in
    if bool_decide (ctime >= ARP_MAXAGE) || bool_decide (ae_state a = ETHARP_STATE_PENDING) && bool_decide (ctime >= ARP_MAXPENDING)
    then etharp_free_entry i
    else if bool_decide (ae_state a = ETHARP_STATE_STABLE_REREQUESTING) then arp_upd i (ae_set_state ETHARP_STATE_STABLE) else mret ()
  else mret ().

Definition etharp_tmr : M () := for_each indices tmr_entry.

(** b) and c): the entry to use when there is no match. *)
Definition choose (s : scan) : option Z :=
  if bool_decide (old_stable s < ARP_TABLE_SIZE) then Some (old_stable s)
  else if bool_decide (old_pending s < ARP_TABLE_SIZE) then Some (old_pending s)
  else if bool_decide (old_queue s < ARP_TABLE_SIZE) then Some (old_queue s)
  else None.

Definition new_entry (ipaddr : option Z) (i : Z) : M Z :=
  _ ← assert (bool_decide (i < ARP_TABLE_SIZE));
  a ← arp_get i;
  _ ← assert (bool_decide (ae_state a = ETHARP_STATE_EMPTY));
  _ ← (match ipaddr with Some ip => arp_upd i (ae_set_ipaddr ip) | None => mret () end);
  _ ← arp_upd i (ae_set_ctime 0);
  mret i.

Definition etharp_find_entry (ipaddr : option Z) (flags : Z) : M Z :=
  t ← gets (fun n => arp_table (n_arp n));
  match sweep t ipaddr 0 scan0 with
  | inl i => mret i
  | inr s =>
      if bool_decide (Z.land flags ETHARP_FLAG_FIND_ONLY <> 0) ||
         bool_decide (empty_slot s = ARP_TABLE_SIZE) && bool_decide (Z.land flags ETHARP_FLAG_TRY_HARD = 0)
      then mret ERR_MEM
      else if bool_decide (empty_slot s < ARP_TABLE_SIZE) then new_entry ipaddr (empty_slot s)
      else
        match choose s with
        | None => mret ERR_MEM
        | Some i =>
            a ← arp_get i;
            _ ← assert (negb (bool_decide (old_stable s < ARP_TABLE_SIZE)) || bool_decide (ae_q a = 0));
            _ ← etharp_free_entry i;
            new_entry ipaddr i
        end
  end.

Definition etharp_send_ip (netif p : Z) (src dst : list Z) : M Z :=
  ethhdr ← pb p_payload p;
  f ← netif_at netif;
  _ ← assert (bool_decide (nf_hwaddr_len f = ETHARP_HWADDR_LEN));
  _ ← stn ethhdr eth_dest dst;
  _ ← stn ethhdr eth_src src;
  _ ← st16 ethhdr eth_type (PP_HTONS ETHTYPE_IP);
  call_linkoutput netif p.

(** [ethaddr] points into a packet. *)
Definition etharp_update_arp_entry (netif ipaddr : Z) (ethaddr : ptr) (flags : Z) : M Z :=
  f ← netif_at netif;
  _ ← assert (bool_decide (nf_hwaddr_len f = ETHARP_HWADDR_LEN));
  if ip_addr_isany ipaddr || bool_decide (ip4_addr_isbroadcast ipaddr f <> 0) || ip_addr_ismulticast ipaddr then mret ERR_ARG
  else
    i ← etharp_find_entry (Some ipaddr) flags;
    if bool_decide (i < 0) then mret i
    else
      _ ← arp_upd i (ae_set_state ETHARP_STATE_STABLE);
      _ ← arp_upd i (ae_set_netif netif);
      d ← ldn ethaddr 0 ETHARP_HWADDR_LEN;
      _ ← arp_upd i (ae_set_ethaddr d);
      _ ← arp_upd i (ae_set_ctime 0);
      a ← arp_get i;
      if bool_decide (ae_q a <> 0) then
        _ ← arp_upd i (ae_set_q 0);
        d ← ldn ethaddr 0 ETHARP_HWADDR_LEN;
        _ ← etharp_send_ip netif (ae_q a) (nf_hwaddr f) d;
        _ ← on_heap (pbuf_free (ae_q a));
        mret ERR_OK
      else mret ERR_OK.

Definition cleanup_entry (netif i : Z) : M () :=
  a ← arp_get i;
  if bool_decide (ae_state a <> ETHARP_STATE_EMPTY) && bool_decide (ae_netif a = netif) then etharp_free_entry i else mret ().

Definition etharp_cleanup_netif (netif : Z) : M () := for_each indices (cleanup_entry netif).

(** The index, or -1; the two addresses are those of the entry. *)
Definition etharp_find_addr (netif ipaddr : Z) : M (Z * option (list Z * Z)) :=
  i ← etharp_find_entry (Some ipaddr) ETHARP_FLAG_FIND_ONLY;
  if bool_decide (i >= 0) then
    a ← arp_get i;
    if bool_decide (ae_state a >= ETHARP_STATE_STABLE) then mret (i, Some (ae_ethaddr a, ae_ipaddr a)) else mret (-1, None)
  else mret (-1, None).

Definition etharp_raw (netif : Z) (ethsrc_addr ethdst_addr hwsrc_addr : list Z) (ipsrc_addr : Z) (hwdst_addr : list Z) (ipdst_addr opcode : Z) : M Z :=
  _ ← assert (bool_decide (netif <> 0));
  p ← on_heap (pbuf_alloc PBUF_RAW SIZEOF_ETHARP_PACKET PBUF_RAM);
  if bool_decide (p = 0) then mret ERR_MEM
  else
    len ← pb p_len p;
    _ ← assert (bool_decide (len >= SIZEOF_ETHARP_PACKET));
    ethhdr ← pb p_payload p;
    let hdr := at_off ethhdr SIZEOF_ETH_HDR in
    _ ← st16 hdr arp_opcode (lwip_htons opcode);
    f ← netif_at netif;
    _ ← assert (bool_decide (nf_hwaddr_len f = ETHARP_HWADDR_LEN));
    _ ← stn hdr arp_shwaddr hwsrc_addr;
    _ ← stn hdr arp_dhwaddr hwdst_addr;
    _ ← stn ethhdr eth_dest ethdst_addr;
    _ ← stn ethhdr eth_src ethsrc_addr;
    _ ← st32 hdr arp_sipaddr ipsrc_addr;
    _ ← st32 hdr arp_dipaddr ipdst_addr;
    _ ← st16 hdr arp_hwtype (PP_HTONS HWTYPE_ETHERNET);
    _ ← st16 hdr arp_proto (PP_HTONS ETHTYPE_IP);
    _ ← st8 hdr arp_hwlen ETHARP_HWADDR_LEN;
    _ ← st8 hdr arp_protolen 4;
    _ ← st16 ethhdr eth_type (PP_HTONS ETHTYPE_ARP);
    result ← call_linkoutput netif p;
    _ ← on_heap (pbuf_free p);
    mret result.

Definition etharp_request (netif ipaddr : Z) : M Z :=
  f ← netif_at netif;
  etharp_raw netif (nf_hwaddr f) ethbroadcast (nf_hwaddr f) (nf_ip_addr f) ethzero ipaddr ARP_REQUEST.

Definition etharp_gratuitous (netif : Z) : M Z := f ← netif_at netif; etharp_request netif (nf_ip_addr f).

Definition etharp_output_to_arp_index (netif q arp_idx : Z) : M Z :=
  a ← arp_get arp_idx;
  _ ← assert (bool_decide (ae_state a >= ETHARP_STATE_STABLE));
  _ ← (if bool_decide (ae_state a = ETHARP_STATE_STABLE) && bool_decide (ae_ctime a >= ARP_AGE_REREQUEST_USED) then
         r ← etharp_request netif (ae_ipaddr a);
         if bool_decide (r = ERR_OK) then arp_upd arp_idx (ae_set_state ETHARP_STATE_STABLE_REREQUESTING) else mret ()
       else mret ());
  f ← netif_at netif;
  a ← arp_get arp_idx;
  etharp_send_ip netif q (nf_hwaddr f) (ae_ethaddr a).

(** The loop over the buffers of a packet that is to wait, up to the first one
    that is not in ROM: with it the packet has to be copied, without ([p] is
    null in the end) not. *)
Fixpoint copy_needed (fuel : nat) (p : Z) (h : Heap) : outcome Z :=
  if bool_decide (p = 0) then Ret 0 else
  match fuel with
  | O => Spin
  | S fuel =>
      b ← get p h;
      _ ← LWIP_ASSERT (bool_decide (p_len b <> p_tot_len b) || bool_decide (p_next b = 0));
      if bool_decide (p_type b <> PBUF_ROM) then Ret p else copy_needed fuel (p_next b) h
  end.

(** The packet that waits: a copy of [q], or [q] itself; null: no memory.  The
    room for the copy is what lies from the first buffer that is not in ROM on;
    with a buffer in ROM in front of it [pbuf_copy] refuses the copy. *)
Definition take_over (q : Z) : M Z :=
  c ← in_heap (fun h => copy_needed (chain_fuel h) q h);
  if bool_decide (c <> 0) then
    len ← pb p_tot_len c;
    p ← on_heap (pbuf_alloc PBUF_RAW len PBUF_RAM);
    if bool_decide (p <> 0) then
      err ← on_heap (pbuf_copy p q);
      if bool_decide (err <> ERR_OK) then _ ← on_heap (pbuf_free p); mret 0 else mret p
    else mret 0
  else _ ← do_heap (pbuf_ref q); mret q.

Definition etharp_query (netif ipaddr q : Z) : M Z :=
  f ← netif_at netif;
  if bool_decide (ip4_addr_isbroadcast ipaddr f <> 0) || ip_addr_ismulticast ipaddr || ip_addr_isany ipaddr then mret ERR_ARG
  else
    i ← etharp_find_entry (Some ipaddr) ETHARP_FLAG_TRY_HARD;
    if bool_decide (i < 0) then mret i
    else
      a ← arp_get i;
      _ ← (if bool_decide (ae_state a = ETHARP_STATE_EMPTY) then arp_upd i (ae_set_state ETHARP_STATE_PENDING) else mret ());
      a ← arp_get i;
      _ ← assert (bool_decide (ae_state a = ETHARP_STATE_PENDING) || bool_decide (ae_state a >= ETHARP_STATE_STABLE));
      result ← (if bool_decide (ae_state a = ETHARP_STATE_PENDING) || bool_decide (q = 0) then etharp_request netif ipaddr else mret ERR_MEM);
      if bool_decide (q = 0) then mret result
      else
        a ← arp_get i;
        if bool_decide (ae_state a >= ETHARP_STATE_STABLE) then
          _ ← ETHARP_SET_HINT i;
          etharp_send_ip netif q (nf_hwaddr f) (ae_ethaddr a)
        else if bool_decide (ae_state a = ETHARP_STATE_PENDING) then
          p ← take_over q;
          if bool_decide (p <> 0) then
            a ← arp_get i;
            _ ← (if bool_decide (ae_q a <> 0) then _ ← on_heap (pbuf_free (ae_q a)); mret () else mret ());
            _ ← arp_upd i (ae_set_q p);
            mret ERR_OK
          else mret ERR_MEM
        else mret result.

(** The Ethernet address of a multicast address. *)
Definition mcastaddr (ipaddr : Z) : list Z :=
  [LL_MULTICAST_ADDR_0; LL_MULTICAST_ADDR_1; LL_MULTICAST_ADDR_2;
   Z.land (ipaddr / 256 mod 256) 0x7f; ipaddr / 65536 mod 256; ipaddr / 16777216 mod 256].

(** A unicast packet to the host [dst_addr] on the link. *)
Definition output_unicast (netif q dst_addr : Z) : M Z :=
  c ← gets (fun n => etharp_cached_entry (n_arp n));
  a ← arp_get c;
  if bool_decide (ae_state a >= ETHARP_STATE_STABLE) && ip_addr_cmp dst_addr (ae_ipaddr a) then etharp_output_to_arp_index netif q c
  else
    t ← gets (fun n => arp_table (n_arp n));
    match find_stable t dst_addr 0 with
    | Some i => _ ← ETHARP_SET_HINT i; etharp_output_to_arp_index netif q i
    | None => etharp_query netif dst_addr q
    end.

Definition etharp_output (netif q ipaddr : Z) : M Z :=
  _ ← assert (bool_decide (netif <> 0));
  _ ← assert (bool_decide (q <> 0));
  r ← on_heap (pbuf_header q SIZEOF_ETH_HDR);
  if bool_decide (r <> 0) then mret ERR_BUF
  else
    f ← netif_at netif;
    if bool_decide (ip4_addr_isbroadcast ipaddr f <> 0) then etharp_send_ip netif q (nf_hwaddr f) ethbroadcast
    else if ip_addr_ismulticast ipaddr then etharp_send_ip netif q (nf_hwaddr f) (mcastaddr ipaddr)
    else if negb (ip_addr_netcmp ipaddr (nf_ip_addr f) (nf_netmask f)) && negb (ip_addr_islinklocal ipaddr) then
      if negb (ip_addr_isany (nf_gw f)) then output_unicast netif q (nf_gw f) else mret ERR_RTE
    else output_unicast netif q ipaddr.

(** The answer to a request for the address of the interface, in the packet of
    the request. *)
Definition arp_reply (netif p : Z) (f : IpAddr.netif) (ethhdr hdr : ptr) : M () :=
  _ ← st16 hdr arp_opcode (lwip_htons ARP_REPLY);
  ip ← ldn hdr arp_sipaddr 4;
  _ ← stn hdr arp_dipaddr ip;
  _ ← st32 hdr arp_sipaddr (nf_ip_addr f);
  _ ← assert (bool_decide (nf_hwaddr_len f = ETHARP_HWADDR_LEN));
  d ← ldn hdr arp_shwaddr ETHARP_HWADDR_LEN;
  _ ← stn hdr arp_dhwaddr d;
  d ← ldn hdr arp_shwaddr ETHARP_HWADDR_LEN;
  _ ← stn ethhdr eth_dest d;
  _ ← stn hdr arp_shwaddr (nf_hwaddr f);
  _ ← stn ethhdr eth_src (nf_hwaddr f);
  _ ← call_linkoutput netif p;
  mret ().

Definition etharp_arp_input (netif p : Z) : M () :=
  _ ← assert (bool_decide (netif <> 0));
  len ← pb p_len p;
  if bool_decide (len < SIZEOF_ETHARP_PACKET) then _ ← on_heap (pbuf_free p); mret ()
  else
    ethhdr ← pb p_payload p;
    let hdr := at_off ethhdr SIZEOF_ETH_HDR in
    hwtype ← ld16 hdr arp_hwtype;
    hwlen ← ld8 hdr arp_hwlen;
    protolen ← ld8 hdr arp_protolen;
    proto ← ld16 hdr arp_proto;
    if bool_decide (hwtype <> PP_HTONS HWTYPE_ETHERNET) || bool_decide (hwlen <> ETHARP_HWADDR_LEN) ||
       bool_decide (protolen <> 4) || bool_decide (proto <> PP_HTONS ETHTYPE_IP)
    then _ ← on_heap (pbuf_free p); mret ()
    else
      sipaddr ← ld32 hdr arp_sipaddr;
      dipaddr ← ld32 hdr arp_dipaddr;
      f ← netif_at netif;
      let for_us := if ip_addr_isany (nf_ip_addr f) then false else ip_addr_cmp dipaddr (nf_ip_addr f) in
      _ ← etharp_update_arp_entry netif sipaddr (at_off hdr arp_shwaddr) (if for_us then ETHARP_FLAG_TRY_HARD else ETHARP_FLAG_FIND_ONLY);
      opcode ← ld16 hdr arp_opcode;
      _ ← (if bool_decide (opcode = PP_HTONS ARP_REQUEST) then (if for_us then arp_reply netif p f ethhdr hdr else mret ()) else mret ());
      _ ← on_heap (pbuf_free p);
      mret ().

(** [netif->output] of the driver ([arch/lpc18xx_43xx_emac.c]). *)
Definition lpc_etharp_output (netif q ipaddr : Z) : M Z :=
  f ← netif_at netif;
  if bool_decide (Z.land (nf_flags f) NETIF_FLAG_LINK_UP <> 0) then etharp_output netif q ipaddr else mret ERR_CONN.

End Etharp.
