(* ===== verification/EtharpOps.v ===== *)
(** * The ARP table and the frames that are sent

    Theorems on [Etharp]: what every operation of ARP keeps of its table, and
    the frame a packet for a known host leaves as. *)

From stdpp Require Import gmap.
From S2P Require Import Prelude LwipDef InetChksum IpAddr Pbuf PbufOps PbufData NetState NetMem Etharp.

(** ** The table *)

Definition stable (a : etharp_entry) : Prop := ae_state a >= ETHARP_STATE_STABLE.

Record entry_ok (a : etharp_entry) : Prop := {
  eo_state : ETHARP_STATE_EMPTY <= ae_state a <= ETHARP_STATE_STABLE_REREQUESTING;
  eo_ctime : is_u8 (ae_ctime a);
  eo_age : ae_state a <> ETHARP_STATE_EMPTY -> ae_ctime a < ARP_MAXAGE;
  eo_mac : length (ae_ethaddr a) = 6%nat;
  eo_queue : ae_q a <> 0 -> ae_state a = ETHARP_STATE_PENDING;
}.

(** At most one entry for an address; packets wait only for an answer. *)
Record arp_ok (s : ArpState) : Prop := {
  ao_len : Z.of_nat (length (arp_table s)) = ARP_TABLE_SIZE;
  ao_hint : 0 <= etharp_cached_entry s < ARP_TABLE_SIZE;
  ao_entry : forall i a, rd (arp_table s) i = Some a -> entry_ok a;
  ao_distinct : forall i j a b, rd (arp_table s) i = Some a -> rd (arp_table s) j = Some b ->
    ae_state a <> ETHARP_STATE_EMPTY -> ae_state b <> ETHARP_STATE_EMPTY -> ae_ipaddr a = ae_ipaddr b -> i = j;
}.

Lemma rd_range {A} (l : list A) i x : rd l i = Some x -> 0 <= i < Z.of_nat (length l).
Proof. intros [H1 H2]%rd_Some. apply lookup_lt_Some in H2. lia. Qed.

Lemma rd_wr {A} (l l' : list A) i j x : wr l i x = Some l' -> rd l' j = if bool_decide (i = j) then Some x else rd l j.
Proof.
  intros Hw. case_bool_decide as H1.
  - subst j. apply wr_Some in Hw as [Hi ->]. unfold rd. rewrite bool_decide_true by lia. apply list_lookup_insert_eq. lia.
  - by eapply rd_wr_ne.
Qed.

(** The entry [i] becomes [a']: it keeps its address, or gets one that no
    entry has. *)
Lemma arp_ok_wr s i a a' t : arp_ok s -> rd (arp_table s) i = Some a -> wr (arp_table s) i a' = Some t -> entry_ok a' ->
  (ae_state a' <> ETHARP_STATE_EMPTY -> (ae_state a <> ETHARP_STATE_EMPTY /\ ae_ipaddr a = ae_ipaddr a') \/
     forall j b, rd (arp_table s) j = Some b -> j <> i -> ae_state b <> ETHARP_STATE_EMPTY -> ae_ipaddr b <> ae_ipaddr a') ->
  arp_ok (mkArpState t (etharp_cached_entry s)).
Proof.
  intros [A1 A2 A3 A4] Ha Hw Hok Hnew. assert (forall j b, rd (arp_table s) j = Some b -> j <> i -> ae_state b <> ETHARP_STATE_EMPTY ->
    ae_state a' <> ETHARP_STATE_EMPTY -> ae_ipaddr b <> ae_ipaddr a') as Hd.
  { intros j b Hb Hj Hb0 Ha0. destruct (Hnew Ha0) as [[H1 H2]|H1]; [|by eapply H1].
    rewrite <-H2. intros H3. apply Hj. by eapply A4. }
  split; cbn [arp_table etharp_cached_entry].
  - by rewrite (wr_length _ _ _ _ Hw).
  - done.
  - intros j b. rewrite (rd_wr _ _ _ _ _ Hw). case_bool_decide; [by intros [= <-]|by apply A3].
  - intros j k b c. rewrite !(rd_wr _ _ _ _ _ Hw). do 2 case_bool_decide; subst.
    + done.
    + intros [= <-] Hc Hb0 Hc0 Hbc. by destruct (Hd k c Hc ltac:(done) Hc0 Hb0).
    + intros Hb [= <-] Hb0 Hc0 Hbc. by destruct (Hd j b Hb ltac:(done) Hb0 Hc0).
    + apply A4.
Qed.

(** ** Which entry *)

Lemma find_stable_spec dst : forall l i0,
  match find_stable l dst i0 with
  | Some i => exists a, i0 <= i /\ l !! Z.to_nat (i - i0) = Some a /\ stable a /\ ae_ipaddr a = dst
  | None => forall a, a ∈ l -> stable a -> ae_ipaddr a <> dst
  end.
Proof.
  induction l as [|a l IH]; intros i0; cbn [find_stable]; [by intros a Ha%elem_of_nil|].
  unfold ip_addr_cmp. destruct (decide (ae_state a >= ETHARP_STATE_STABLE)) as [H1|H1].
  - rewrite (bool_decide_true (ae_state a >= _)) by done. cbn [andb]. destruct (decide (dst = ae_ipaddr a)) as [H2|H2].
    + rewrite (bool_decide_true (dst = _)) by done. exists a. rewrite Z.sub_diag. by split_and!.
    + rewrite (bool_decide_false (dst = _)) by done. specialize (IH (i0 + 1)). destruct (find_stable l dst (i0 + 1)) as [i|].
      * destruct IH as (b & Hi & Hb & Hs). exists b. split; [lia|]. replace (Z.to_nat (i - i0)) with (S (Z.to_nat (i - (i0 + 1)))) by lia. done.
      * intros b [->|Hb]%elem_of_cons Hs; [congruence|by apply IH].
  - rewrite (bool_decide_false (ae_state a >= _)) by done. cbn [andb]. specialize (IH (i0 + 1)). destruct (find_stable l dst (i0 + 1)) as [i|].
    + destruct IH as (b & Hi & Hb & Hs). exists b. split; [lia|]. replace (Z.to_nat (i - i0)) with (S (Z.to_nat (i - (i0 + 1)))) by lia. done.
    + intros b [->|Hb]%elem_of_cons Hs; [done|by apply IH].
Qed.

(** The stable entry for an address is the one that is found. *)
Lemma find_stable_at s i a dst : arp_ok s -> rd (arp_table s) i = Some a -> stable a -> ae_ipaddr a = dst -> find_stable (arp_table s) dst 0 = Some i.
Proof.
  intros Hok Ha Hs Hip. pose proof (find_stable_spec dst (arp_table s) 0) as Hf. destruct (find_stable (arp_table s) dst 0) as [j|].
  - destruct Hf as (b & Hj & Hb & Hsb & Hipb). f_equal. rewrite Z.sub_0_r in Hb. unfold stable, ETHARP_STATE_STABLE in *.
    apply (ao_distinct _ Hok j i b a); [by apply rd_Some|done| | |by rewrite Hip]; unfold ETHARP_STATE_EMPTY; lia.
  - apply rd_Some in Ha as [_ Ha]. apply list_elem_of_lookup_2 in Ha. by destruct (Hf a Ha Hs).
Qed.

Section Ops.
Context {E : Type} `{Malloc, LinkDriver E}.
Implicit Types n : Net E.

Lemma arp_get_at i n a : rd (arp_table (n_arp n)) i = Some a -> arp_get i n = Ret (n, a).
Proof. intros Ha. unfold arp_get, gets, need, mbind, net_bind. by rewrite Ha. Qed.

Definition hinted (i : Z) n : Net E := n_set_arp (mkArpState (arp_table (n_arp n)) i) n.

(** ** Frames *)

Definition eth_header (dst src : list Z) : list Z := dst ++ src ++ le2 (PP_HTONS ETHTYPE_IP).

Lemma send_ip_spec a p src dst n b f x r :
  pbufs (n_heap n) !! p = Some b -> netifs (n_if n) !! a = Some f -> nf_hwaddr_len f = ETHARP_HWADDR_LEN ->
  nbytes (p_payload b) (x ++ r) n -> length x = 14%nat -> length src = 6%nat -> length dst = 6%nat ->
  etharp_send_ip a p src dst n = call_linkoutput a p (nset (p_payload b) (eth_header dst src ++ r) n).
Proof.
  intros Hb Hf Hl Hx Hx14 Hs Hd. set (q := p_payload b) in *. unfold etharp_send_ip.
  erewrite bind_step by (by apply pb_at). cbv beta. fold q. erewrite bind_step by (by apply netif_at_at). cbv beta.
  erewrite bind_step by (apply assert_at; by rewrite Hl). cbv beta.
  do 14 (destruct x as [|? x]; [done|]). destruct x; [|done]. do 6 (destruct src as [|? src]; [done|]). destruct src; [|done].
  do 6 (destruct dst as [|? dst]; [done|]). destruct dst; [|done]. clear Hx14 Hs Hd. cbn [app] in Hx.
  rewrite (nset_start _ _ _ Hx) at 1. unfold eth_dest, eth_src, eth_type. do 3 mem_step Hx. done.
Qed.

(** What the host at [hop] is reached by: a stable entry that is not about to
    expire. *)
Definition knows (s : ArpState) (hop : Z) (mac : list Z) (i : Z) : Prop :=
  exists e, rd (arp_table s) i = Some e /\ stable e /\ ae_ipaddr e = hop /\ ae_ethaddr e = mac /\
    (ae_state e = ETHARP_STATE_STABLE -> ae_ctime e < ARP_AGE_REREQUEST_USED).

Lemma to_index_spec a p n i e f b x r :
  rd (arp_table (n_arp n)) i = Some e -> stable e -> (ae_state e = ETHARP_STATE_STABLE -> ae_ctime e < ARP_AGE_REREQUEST_USED) ->
  pbufs (n_heap n) !! p = Some b -> netifs (n_if n) !! a = Some f -> nf_hwaddr_len f = ETHARP_HWADDR_LEN ->
  nbytes (p_payload b) (x ++ r) n -> length x = 14%nat -> length (nf_hwaddr f) = 6%nat -> length (ae_ethaddr e) = 6%nat ->
  etharp_output_to_arp_index a p i n = call_linkoutput a p (nset (p_payload b) (eth_header (ae_ethaddr e) (nf_hwaddr f) ++ r) n).
Proof.
  intros He Hs Hfresh Hb Hf Hl Hx Hx14 Hhw Hmac. unfold etharp_output_to_arp_index. erewrite bind_step by (by apply arp_get_at). cbv beta.
  erewrite bind_step by (apply assert_at; by apply bool_decide_eq_true). cbv beta.
  replace (bool_decide (ae_state e = _) && bool_decide (ae_ctime e >= _)) with false.
  - erewrite bind_step by reflexivity. cbv beta. erewrite bind_step by (by apply netif_at_at). cbv beta.
    erewrite bind_step by (by apply arp_get_at). cbv beta. by eapply send_ip_spec.
  - symmetry. apply andb_false_iff. destruct (decide (ae_state e = ETHARP_STATE_STABLE)) as [H1|H1]; [right|left]; apply bool_decide_eq_false; [|done].
    specialize (Hfresh H1). lia.
Qed.

(** The neighbour a packet for [dest] goes to. *)
Definition next_hop (f : netif) (dest : Z) : option Z :=
  if ip_addr_netcmp dest (nf_ip_addr f) (nf_netmask f) || ip_addr_islinklocal dest then Some dest
  else if ip_addr_isany (nf_gw f) then None else Some (nf_gw f).

(** The Ethernet address for [dest], and the table with its hint after that. *)
Definition reaches (s : ArpState) (f : netif) (dest : Z) (mac : list Z) (s' : ArpState) : Prop :=
  (ip4_addr_isbroadcast dest f <> 0 /\ mac = ethbroadcast /\ s' = s) \/
  (ip4_addr_isbroadcast dest f = 0 /\ ip_addr_ismulticast dest = true /\ mac = mcastaddr dest /\ s' = s) \/
  (ip4_addr_isbroadcast dest f = 0 /\ ip_addr_ismulticast dest = false /\
   exists hop i, next_hop f dest = Some hop /\ knows s hop mac i /\ length mac = 6%nat /\ s' = mkArpState (arp_table s) i).

(** An interface with an Ethernet address. *)
Record station (f : netif) : Prop := { st_len : nf_hwaddr_len f = ETHARP_HWADDR_LEN; st_addr : length (nf_hwaddr f) = 6%nat }.

Lemma reaches_length s f dest mac s' : reaches s f dest mac s' -> length mac = 6%nat.
Proof. intros [(_ & -> & _)|[(_ & _ & -> & _)|(_ & _ & ? & ? & _ & _ & ? & _)]]; done. Qed.

Lemma output_unicast_spec a p n hop mac i f b x r : arp_ok (n_arp n) -> knows (n_arp n) hop mac i -> length mac = 6%nat ->
  pbufs (n_heap n) !! p = Some b -> netifs (n_if n) !! a = Some f -> station f ->
  nbytes (p_payload b) (x ++ r) n -> length x = 14%nat ->
  output_unicast a p hop n = call_linkoutput a p (nset (p_payload b) (eth_header mac (nf_hwaddr f) ++ r) (hinted i n)).
Proof.
  intros Hok (e & He & Hs & Hip & Hmac & Hfresh) Hlen Hb Hf [Hl Hhw] Hx Hx14. unfold output_unicast.
  erewrite bind_step by reflexivity. cbv beta.
  destruct (rd_total (arp_table (n_arp n)) (etharp_cached_entry (n_arp n))) as [c Hc]; [rewrite (ao_len _ Hok); apply (ao_hint _ Hok)|].
  erewrite bind_step by (by apply arp_get_at). cbv beta. unfold ip_addr_cmp.
  destruct (decide (stable c /\ hop = ae_ipaddr c)) as [[Hsc Hipc]|Hno].
  - rewrite (bool_decide_true (ae_state c >= _)), (bool_decide_true (hop = _)) by done. cbn [andb].
    assert (etharp_cached_entry (n_arp n) = i) as Hi.
    { unfold stable, ETHARP_STATE_STABLE in *. apply (ao_distinct _ Hok _ _ c e Hc He); unfold ETHARP_STATE_EMPTY; [lia|lia|congruence]. }
    rewrite Hi in *. rewrite He in Hc. injection Hc as <-. replace (hinted i n) with n.
    + subst mac. by eapply to_index_spec.
    + unfold hinted. rewrite <-Hi. by destruct n as [? ? [? ?] ? ? ? ? ?].
  - replace (bool_decide (ae_state c >= _) && bool_decide (hop = _)) with false.
    2: { symmetry. apply andb_false_iff. destruct (decide (stable c)); [right|left]; apply bool_decide_eq_false; tauto. }
    erewrite bind_step by reflexivity. cbv beta. rewrite (find_stable_at _ i e) by done. 
    assert (ETHARP_SET_HINT i n = Ret (hinted i n, ())) as Hh.
    { unfold ETHARP_SET_HINT, modify, hinted. pose proof (rd_range _ _ _ He). rewrite (ao_len _ Hok) in *.
      unfold ARP_TABLE_SIZE in *. by rewrite (u8_id i) by (unw; lia). }
    erewrite bind_step by exact Hh. cbv beta. subst mac. by eapply to_index_spec.
Qed.

(** [etharp_output]: the packet with the Ethernet header in front goes to the
    driver. *)
Lemma etharp_output_sends n a p s l b dest mac s' f :
  has_room (n_heap n) p SIZEOF_ETH_HDR s l b -> arp_ok (n_arp n) -> a <> 0 -> netifs (n_if n) !! a = Some f -> station f ->
  reaches (n_arp n) f dest mac s' ->
  exists n', etharp_output a p dest n = call_linkoutput a p n' /\
    pushed p s l b (eth_header mac (nf_hwaddr f)) (n_heap n) (n_heap n') /\ n' = n_set_heap (n_heap n') (n_set_arp s' n).
Proof.
  intros Hr Hok Ha Hf Hst Hreach. pose proof (hr_buf _ _ _ _ _ _ Hr) as Hb.
  destruct (push_spec _ _ _ _ _ SIZEOF_ETH_HDR Hr ltac:(done)) as (x & Hx & Hpush & Hbs & Hset).
  destruct (packet_alive _ _ _ _ _ _ (hr_pkt _ _ _ _ _ _ Hr)) as (_ & Hp0 & _).
  set (b1 := moved SIZEOF_ETH_HDR b) in *. set (n1 := n_set_heap (put p b1 (n_heap n)) n).
  assert (pbufs (n_heap n1) !! p = Some b1) as Hb1 by apply put_same.
  assert (length x = 14%nat) as Hx14 by (unfold SIZEOF_ETH_HDR in Hx; lia).
  pose proof (reaches_length _ _ _ _ _ Hreach) as Hlen. destruct (Hst) as [Hl Hhw].
  set (hdr := eth_header mac (nf_hwaddr f)). assert (Z.of_nat (length hdr) = SIZEOF_ETH_HDR) as Hhdr by (subst hdr; unfold eth_header; rewrite !length_app, Hlen, Hhw; done).
  exists (n_set_arp s' (nset (p_payload b1) (hdr ++ sg_data s) n1)).
  split; [|split; [by apply Hset|done]].
  unfold etharp_output. erewrite bind_step by (apply assert_at; by apply bool_decide_eq_true). cbv beta.
  erewrite bind_step by (apply assert_at; by apply bool_decide_eq_true). cbv beta.
  erewrite bind_step by (apply on_heap_at; exact Hpush). cbv beta. rewrite (bool_decide_false (0 <> 0)) by lia.
  change (n_set_heap (put p b1 (n_heap n)) n) with n1. erewrite bind_step by (by apply netif_at_at). cbv beta.
  destruct Hreach as [(Hbc & -> & ->)|[(Hbc & Hmc & -> & ->)|(Hbc & Hmc & hop & i & Hhop & Hk & _ & ->)]].
  - rewrite bool_decide_true by done. erewrite (send_ip_spec a p _ _ n1 b1 f x) by done. by destruct n.
  - rewrite bool_decide_false by lia. rewrite Hmc. erewrite (send_ip_spec a p _ _ n1 b1 f x) by done. by destruct n.
  - rewrite bool_decide_false by lia. rewrite Hmc. unfold next_hop in Hhop.
    assert (output_unicast a p hop n1 = call_linkoutput a p (nset (p_payload b1) (hdr ++ sg_data s) (hinted i n1))) as Hu by (by eapply output_unicast_spec).
    destruct (ip_addr_netcmp dest (nf_ip_addr f) (nf_netmask f)), (ip_addr_islinklocal dest); cbn [orb negb andb] in Hhop |- *.
    1-3: injection Hhop as ->; exact Hu.
    destruct (ip_addr_isany (nf_gw f)); [done|]. injection Hhop as ->. exact Hu.
Qed.

End Ops.

(** ** A small table *)

Definition empty_entry : etharp_entry := mkEntry 0 0 0 ethzero ETHARP_STATE_EMPTY 0.
Definition one_host (e : etharp_entry) : ArpState := mkArpState (e :: replicate 31 empty_entry) 0.

Lemma arp_ok_one e : entry_ok e -> arp_ok (one_host e).
Proof.
  intros He. assert (forall i a, rd (arp_table (one_host e)) i = Some a -> i = 0 /\ a = e \/ a = empty_entry) as Hrd.
  { intros i a [Hi Ha]%rd_Some. cbn [arp_table one_host] in Ha. destruct (Z.to_nat i) as [|k] eqn:Ek; [left; split; [lia|by injection Ha]|].
    right. cbn in Ha. change (replicate 31 empty_entry !! k = Some a) in Ha. by apply lookup_replicate in Ha as [-> _]. }
  split; [done|done| |].
  - intros i a [[_ ->]| ->]%Hrd; [done|]. split; cbn; [unfold ETHARP_STATE_EMPTY, ETHARP_STATE_STABLE_REREQUESTING; lia|unw; lia|done|done|done].
  - intros i j a b Ha Hb Ha0 Hb0 _. apply Hrd in Ha as [[-> _]| ->]; [|done]. by apply Hrd in Hb as [[-> _]| ->].
Qed.
