(* ===== verification/ArpTable.v ===== *)
(** * The ARP table over time

    Theorems on [Etharp]: which entry an address gets, what one tick of the
    timer does to the table and to the packets that wait in it, and that every
    operation keeps the invariant [arp_ok] of [EtharpOps]. *)

From stdpp Require Import gmap.
From S2P Require Import Prelude LwipDef InetChksum IpAddr Pbuf PbufOps PbufData NetState NetMem Etharp EtharpOps.

(** ** One entry changes *)

Definition with_entry (i : Z) (a : etharp_entry) (s : ArpState) : ArpState :=
  mkArpState (<[Z.to_nat i := a]> (arp_table s)) (etharp_cached_entry s).

Lemma wr_with i a e s : rd (arp_table s) i = Some e -> wr (arp_table s) i a = Some (arp_table (with_entry i a s)).
Proof. intros He. pose proof (rd_range _ _ _ He). by apply wr_Some. Qed.

Lemma rd_with i j a e s : rd (arp_table s) i = Some e ->
  rd (arp_table (with_entry i a s)) j = if bool_decide (i = j) then Some a else rd (arp_table s) j.
Proof. intros He. by apply (rd_wr _ _ _ _ _ (wr_with _ _ _ _ He)). Qed.

Lemma with_entry_twice i a b s : with_entry i b (with_entry i a s) = with_entry i b s.
Proof. unfold with_entry. cbn. by rewrite list_insert_insert_eq. Qed.

Lemma with_same i a s : rd (arp_table s) i = Some a -> with_entry i a s = s.
Proof. intros [_ Ha]%rd_Some. unfold with_entry. rewrite list_insert_id by done. by destruct s. Qed.

(** No other entry has the address. *)
Definition alone (i ip : Z) (s : ArpState) : Prop :=
  forall j b, rd (arp_table s) j = Some b -> j <> i -> ae_state b <> ETHARP_STATE_EMPTY -> ae_ipaddr b <> ip.

Lemma arp_ok_with s i a a' : arp_ok s -> rd (arp_table s) i = Some a -> entry_ok a' ->
  (ae_state a' <> ETHARP_STATE_EMPTY -> (ae_state a <> ETHARP_STATE_EMPTY /\ ae_ipaddr a = ae_ipaddr a') \/ alone i (ae_ipaddr a') s) ->
  arp_ok (with_entry i a' s).
Proof. intros Hok Ha Hok' Hnew. eapply arp_ok_wr; [done|exact Ha|by eapply wr_with|done|done]. Qed.

Lemma alone_with i a ip s e : rd (arp_table s) i = Some e -> alone i ip s -> alone i ip (with_entry i a s).
Proof. intros He Hal j b. rewrite (rd_with _ _ _ _ _ He). case_bool_decide; [by subst|]. apply Hal. Qed.

Lemma alone_own s i a : arp_ok s -> rd (arp_table s) i = Some a -> ae_state a <> ETHARP_STATE_EMPTY -> alone i (ae_ipaddr a) s.
Proof. intros Hok Ha Ha0 j b Hb Hj Hb0 Hip. apply Hj. by apply (ao_distinct _ Hok j i b a). Qed.

Definition freed (a : etharp_entry) : etharp_entry := free_slot (ae_set_q 0 a).

Lemma freed_ok a : entry_ok a -> entry_ok (freed a).
Proof. intros [H1 H2 H3 H4 H5]. split; cbn; try done; unfold ETHARP_STATE_EMPTY, ETHARP_STATE_STABLE_REREQUESTING; lia. Qed.

(** An entry one tick older. *)
Definition expires (a : etharp_entry) : bool :=
  bool_decide (ae_state a <> ETHARP_STATE_EMPTY) &&
  (bool_decide (ae_ctime a + 1 >= ARP_MAXAGE) || bool_decide (ae_state a = ETHARP_STATE_PENDING) && bool_decide (ae_ctime a + 1 >= ARP_MAXPENDING)).

Definition age (a : etharp_entry) : etharp_entry :=
  if bool_decide (ae_state a = ETHARP_STATE_EMPTY) then a
  else
    let a' := ae_set_ctime (ae_ctime a + 1) a in
    if expires a then freed a'
    else if bool_decide (ae_state a = ETHARP_STATE_STABLE_REREQUESTING) then ae_set_state ETHARP_STATE_STABLE a' else a'.

Lemma age_ok a : entry_ok a -> entry_ok (age a).
Proof.
  intros [H1 H2 H3 H4 H5]. unfold age. case_bool_decide as H0; [by split|]. specialize (H3 H0).
  assert (is_u8 (ae_ctime a + 1)) as Hc by (unfold ARP_MAXAGE in *; unw; lia).
  destruct (expires a) eqn:He.
  - split; cbn; try done; unfold ETHARP_STATE_EMPTY, ETHARP_STATE_STABLE_REREQUESTING; lia.
  - unfold expires in He. rewrite (bool_decide_true (_ <> _)) in He by done. apply orb_false_iff in He as [He _]. apply bool_decide_eq_false in He.
    case_bool_decide as Hr; split; cbn; try done; try lia.
    intros Hq. specialize (H5 Hq). by rewrite H5 in Hr.
Qed.

Lemma age_ip a : ae_state (age a) <> ETHARP_STATE_EMPTY -> ae_state a <> ETHARP_STATE_EMPTY /\ ae_ipaddr (age a) = ae_ipaddr a.
Proof. unfold age. case_bool_decide; [done|]. destruct (expires a); [done|]. by case_bool_decide. Qed.

(** ** The search *)

Lemma sweep_cases ip : forall l i0 s,
  match sweep l ip i0 s with
  | inl i => exists a, i0 <= i /\ l !! Z.to_nat (i - i0) = Some a /\ ae_state a <> ETHARP_STATE_EMPTY /\ ip = Some (ae_ipaddr a)
  | inr s' => (forall a, a ∈ l -> ae_state a <> ETHARP_STATE_EMPTY -> ip <> Some (ae_ipaddr a)) /\ s' = snd (fold_left (fun '(i, s) a => (i + 1, scan_entry a i s)) l (i0, s))
  end.
Proof.
  induction l as [|a l IH]; intros i0 s; cbn [sweep]; [by split; [intros a Ha%elem_of_nil|]|].
  destruct (decide (ae_state a <> ETHARP_STATE_EMPTY /\ ip = Some (ae_ipaddr a))) as [[H1 H2]|Hno].
  - rewrite (bool_decide_true (_ <> _)), (bool_decide_true (_ = _)) by done. cbn [andb]. exists a. rewrite Z.sub_diag. by split_and!.
  - replace (bool_decide _ && bool_decide _) with false.
    2: { symmetry. apply andb_false_iff. destruct (decide (ae_state a <> ETHARP_STATE_EMPTY)); [right|left]; apply bool_decide_eq_false; tauto. }
    specialize (IH (i0 + 1) (scan_entry a i0 s)). destruct (sweep l ip (i0 + 1) (scan_entry a i0 s)) as [i|s'].
    + destruct IH as (b & Hi & Hb & Hs). exists b. split; [lia|]. split; [|done]. by replace (Z.to_nat (i - i0)) with (S (Z.to_nat (i - (i0 + 1)))) by lia.
    + destruct IH as [IH1 IH2]. split; [|done]. intros b [->|Hb]%elem_of_cons Hb0; [tauto|by apply IH1].
Qed.

(** The oldest entry of a kind among those in front; there may be none. *)
Definition oldest (C : etharp_entry -> Prop) (pre : list etharp_entry) (i age : Z) : Prop :=
  (i = ARP_TABLE_SIZE /\ age = 0 /\ forall a, a ∈ pre -> ~ C a) \/
  (exists a, 0 <= i < ARP_TABLE_SIZE /\ pre !! Z.to_nat i = Some a /\ C a /\ age = ae_ctime a /\ forall b, b ∈ pre -> C b -> ae_ctime b <= age).

Lemma oldest_new C pre a i t : oldest C pre i t -> entry_ok a -> C a -> ae_ctime a >= t -> Z.of_nat (length pre) < ARP_TABLE_SIZE ->
  oldest C (pre ++ [a]) (Z.of_nat (length pre)) (ae_ctime a).
Proof.
  intros Ho Ha Hc Ht Hl. right. exists a. split; [lia|]. rewrite Nat2Z.id. split; [by rewrite lookup_app_r, Nat.sub_diag by done|].
  split; [done|]. split; [done|]. intros b [Hb| ->%list_elem_of_singleton]%elem_of_app Hcb; [|lia].
  destruct Ho as [(_ & _ & Hno)|(_ & _ & _ & _ & _ & Hle)]; [by destruct (Hno b Hb)|]. specialize (Hle b Hb Hcb). lia.
Qed.

Lemma oldest_old C pre a i t : oldest C pre i t -> entry_ok a -> (C a -> ae_ctime a < t) -> oldest C (pre ++ [a]) i t.
Proof.
  intros Ho Ha Hc. pose proof (eo_ctime _ Ha) as Hr. unw. destruct Ho as [(-> & -> & Hno)|(b & Hi & Hb & Hcb & -> & Hle)].
  - left. split_and!; [done|done|]. intros b [Hb| ->%list_elem_of_singleton]%elem_of_app; [by apply Hno|]. intros Hca. specialize (Hc Hca). lia.
  - right. exists b. split; [done|]. split; [by apply lookup_app_l_Some|]. split_and!; [done|done|].
    intros c [Hcin| ->%list_elem_of_singleton]%elem_of_app Hcc; [by apply Hle|]. specialize (Hc Hcc). lia.
Qed.

Definition idle (a : etharp_entry) : Prop := ae_state a = ETHARP_STATE_PENDING /\ ae_q a = 0.
Definition busy (a : etharp_entry) : Prop := ae_state a = ETHARP_STATE_PENDING /\ ae_q a <> 0.

Record scan_ok (pre : list etharp_entry) (s : scan) : Prop := {
  so_stable : oldest stable pre (old_stable s) (age_stable s);
  so_idle : oldest idle pre (old_pending s) (age_pending s);
  so_busy : oldest busy pre (old_queue s) (age_queue s);
  so_empty : (empty_slot s = ARP_TABLE_SIZE /\ forall a, a ∈ pre -> ae_state a <> ETHARP_STATE_EMPTY) \/
    (exists a, 0 <= empty_slot s < ARP_TABLE_SIZE /\ pre !! Z.to_nat (empty_slot s) = Some a /\ ae_state a = ETHARP_STATE_EMPTY);
}.

Ltac arp_states := unfold stable, idle, busy, ETHARP_STATE_EMPTY, ETHARP_STATE_PENDING, ETHARP_STATE_STABLE, ETHARP_STATE_STABLE_REREQUESTING in *.
Ltac scan_side := first [ done | cbn [old_pending age_pending old_stable age_stable empty_slot old_queue age_queue] in *; arp_states; lia ].
Ltac scan_kind := first [ solve [eapply oldest_old; scan_side] | solve [eapply oldest_new; scan_side] ].

Lemma scan_step pre a s : scan_ok pre s -> entry_ok a -> Z.of_nat (length pre) < ARP_TABLE_SIZE -> scan_ok (pre ++ [a]) (scan_entry a (Z.of_nat (length pre)) s).
Proof.
  intros [S1 S2 S3 S4] Ha Hl. pose proof (eo_state _ Ha) as Hs. unfold scan_entry.
  assert (ae_state a <> ETHARP_STATE_EMPTY -> (empty_slot s = ARP_TABLE_SIZE /\ forall b, b ∈ pre ++ [a] -> ae_state b <> ETHARP_STATE_EMPTY) \/
    (exists b, 0 <= empty_slot s < ARP_TABLE_SIZE /\ (pre ++ [a]) !! Z.to_nat (empty_slot s) = Some b /\ ae_state b = ETHARP_STATE_EMPTY)) as Hempty.
  { intros H2. destruct S4 as [[H1 H3]|(b & H1 & Hb & H3)]; [left|right].
    - split; [done|]. intros b [Hb| ->%list_elem_of_singleton]%elem_of_app; auto.
    - exists b. split; [done|]. split; [by apply lookup_app_l_Some|done]. }
  destruct (decide (ae_state a = ETHARP_STATE_EMPTY)) as [H0|H0].
  { rewrite !(bool_decide_true (ae_state a = _)), (bool_decide_false (ae_state a <> _)), andb_true_r by tauto.
    case_bool_decide as He; (split; [scan_kind|scan_kind|scan_kind|]); cbn [empty_slot]; right.
    - exists a. rewrite Nat2Z.id. split; [lia|]. split; [by rewrite lookup_app_r, Nat.sub_diag by done|done].
    - destruct S4 as [[H1 _]|(b & H1 & Hb & H3)]; [done|]. exists b. split; [done|]. split; [by apply lookup_app_l_Some|done]. }
  specialize (Hempty H0). rewrite (bool_decide_false (ae_state a = ETHARP_STATE_EMPTY)), (bool_decide_true (ae_state a <> _)), andb_false_r by done.
  destruct (decide (ae_state a = ETHARP_STATE_PENDING)) as [H1|H1].
  - rewrite (bool_decide_true (ae_state a = _)) by done. case_bool_decide as Hq; case_bool_decide as Ht; (split; [scan_kind|scan_kind|scan_kind|done]).
  - rewrite (bool_decide_false (ae_state a = _)), (bool_decide_true (ae_state a >= _)) by (arp_states; lia).
    case_bool_decide as Ht; (split; [scan_kind|scan_kind|scan_kind|done]).
Qed.

Lemma scan_all l : forall pre s, scan_ok pre s -> Forall entry_ok l -> Z.of_nat (length (pre ++ l)) <= ARP_TABLE_SIZE ->
  scan_ok (pre ++ l) (snd (fold_left (fun '(i, s) a => (i + 1, scan_entry a i s)) l (Z.of_nat (length pre), s))).
Proof.
  induction l as [|a l IH]; intros pre s Hs Hl Hlen; cbn [fold_left]; [by rewrite app_nil_r|]. apply Forall_cons in Hl as [Ha Hl].
  rewrite length_app, length_cons in Hlen. replace (Z.of_nat (length pre) + 1) with (Z.of_nat (length (pre ++ [a]))) by (rewrite length_app; cbn [length]; lia).
  replace (pre ++ a :: l) with ((pre ++ [a]) ++ l) by by rewrite <-app_assoc. apply IH; [|done|rewrite !length_app in *; cbn [length]; lia].
  apply scan_step; [done|done|lia].
Qed.

Lemma scan0_ok : scan_ok [] scan0.
Proof. split; left; (split; [done|]); try (split; [done|]); by intros a Ha%elem_of_nil. Qed.

(** ** Packets that wait *)

(** The chains of the packets in the table are whole and do not share
    buffers; [qs i]: the buffers of the packet of entry [i]. *)
Record queues (h : Heap) (t : list etharp_entry) (qs : Z -> list Z) : Prop := {
  qu_at i a : rd t i = Some a -> ae_q a <> 0 -> linked h (ae_q a) (qs i) 0 /\ each h solid (qs i);
  qu_apart i j a b x : rd t i = Some a -> rd t j = Some b -> ae_q a <> 0 -> ae_q b <> 0 -> x ∈ qs i -> x ∈ qs j -> i = j;
}.

Definition waits (qs : Z -> list Z) (i : Z) (a : etharp_entry) : list Z := if bool_decide (ae_q a <> 0) then qs i else [].

Lemma queues_change h s i a a' qs : queues h (arp_table s) qs -> rd (arp_table s) i = Some a -> ae_q a' = ae_q a ->
  queues h (arp_table (with_entry i a' s)) qs.
Proof.
  intros [H1 H2] Ha Hq. split.
  - intros j b. rewrite (rd_with _ _ _ _ _ Ha). case_bool_decide; [|apply H1]. subst j. intros [= <-]. rewrite Hq. by apply H1.
  - intros j k b c x. rewrite !(rd_with _ _ _ _ _ Ha). do 2 case_bool_decide; subst; try done.
    + intros [= <-] Hc. rewrite Hq. by eapply H2.
    + intros Hb [= <-]. rewrite Hq. by eapply H2.
    + apply H2.
Qed.

Lemma queues_release h s i a a' qs : queues h (arp_table s) qs -> rd (arp_table s) i = Some a -> ae_q a' = 0 ->
  queues (release (waits qs i a) h) (arp_table (with_entry i a' s)) qs.
Proof.
  intros [H1 H2] Ha Hq. unfold waits. split.
  - intros j b. rewrite (rd_with _ _ _ _ _ Ha). case_bool_decide as Hij; [by intros [= <-]|]. intros Hb Hbq. destruct (H1 j b Hb Hbq) as [L S].
    assert (forall x, x ∈ qs j -> pbufs (release (if bool_decide (ae_q a <> 0) then qs i else []) h) !! x = pbufs h !! x) as Hf.
    { intros x Hx. rewrite (proj1 (release_lookup _ _ _)). case_bool_decide as Hin; [|done]. case_bool_decide as Haq; [|by apply elem_of_nil in Hin].
      by destruct (Hij (H2 i j a b x Ha Hb Haq Hbq Hin Hx)). }
    split; [by eapply linked_frame|by eapply each_frame].
  - intros j k b c x. rewrite !(rd_with _ _ _ _ _ Ha). do 2 case_bool_decide; subst; try done.
    + by intros [= <-].
    + by intros _ [= <-].
    + apply H2.
Qed.

(** The entry for an address that has none yet. *)
Definition fresh (ip : Z) (a : etharp_entry) : etharp_entry := mkEntry 0 ip (ae_netif a) (ae_ethaddr a) ETHARP_STATE_EMPTY 0.

Lemma fresh_ok ip a : entry_ok a -> entry_ok (fresh ip a).
Proof. intros [_ _ _ Hm _]. by split. Qed.

(** What is taken for a new address: an empty entry; else the oldest of those
    that are cheapest to lose. *)
Definition recycled (t : list etharp_entry) (a : etharp_entry) : Prop :=
  let oldest_of C := C a /\ forall b, b ∈ t -> C b -> ae_ctime b <= ae_ctime a in
  let none C := forall b, b ∈ t -> ~ C b in
  oldest_of stable \/ (none stable /\ oldest_of idle) \/ (none stable /\ none idle /\ oldest_of busy).

Section Table.
Context {E : Type} `{Malloc, LinkDriver E}.
Implicit Types n : Net E.

Lemma upd_at i f n a : rd (arp_table (n_arp n)) i = Some a -> arp_upd i f n = Ret (n_set_arp (with_entry i (f a) (n_arp n)) n, ()).
Proof.
  intros Ha. unfold arp_upd. erewrite bind_step by (by apply arp_get_at). cbv beta. erewrite bind_step by reflexivity. cbv beta.
  erewrite bind_step by (unfold need; rewrite (wr_with _ _ _ _ Ha); reflexivity). reflexivity.
Qed.

Lemma upd_inv i f n n' u : arp_upd i f n = Ret (n', u) -> exists a, rd (arp_table (n_arp n)) i = Some a /\ n' = n_set_arp (with_entry i (f a) (n_arp n)) n.
Proof.
  intros Hu. pose proof Hu as Hr. unfold arp_upd in Hr. run Hr. exists v. split; [done|]. rewrite (upd_at _ _ _ _ R) in Hu. by injection Hu.
Qed.

Lemma null_release l h : pbufs h !! 0 = None -> pbufs (release l h) !! 0 = None.
Proof. intros Hn. rewrite (proj1 (release_lookup _ _ _)). by case_bool_decide. Qed.

Lemma free_entry_at i n a qs : rd (arp_table (n_arp n)) i = Some a -> queues (n_heap n) (arp_table (n_arp n)) qs -> pbufs (n_heap n) !! 0 = None ->
  etharp_free_entry i n = Ret (n_set_heap (release (waits qs i a) (n_heap n)) (n_set_arp (with_entry i (freed a) (n_arp n)) n), ()).
Proof.
  intros Ha Hq H0n. unfold etharp_free_entry, waits. erewrite bind_step by (by apply arp_get_at). cbv beta. case_bool_decide as Haq.
  - destruct (qu_at _ _ _ Hq i a Ha Haq) as [Hl Hs]. pose proof (linked_NoDup _ _ _ Hl) as Hn.
    assert (pbuf_free (ae_q a) (n_heap n) = Ret (release (qs i) (n_heap n), u8 (Z.of_nat (length (qs i))))) as Hf.
    { rewrite (pbuf_free_spec _ _ _ _ Hl Hs); try done; [|intros Hin; by destruct (linked_live _ _ _ _ Hl 0 Hin)|by eapply linked_fuel].
      unfold unref. by rewrite null_release. }
    erewrite bind_step; [|erewrite bind_step by (apply on_heap_at; exact Hf); cbv beta; by apply upd_at].
    cbv beta. erewrite upd_at by (cbn [n_arp n_set_arp]; rewrite (rd_with _ _ _ _ _ Ha); by rewrite bool_decide_true by done).
    cbn [n_arp n_set_arp n_set_heap]. by rewrite with_entry_twice.
  - erewrite bind_step by reflexivity. cbv beta. erewrite upd_at by done. cbn [release].
    assert (free_slot a = freed a) as ->; [|by destruct n]. destruct a as [q ? ? ? ? ?]. cbn in Haq. unfold freed, ae_set_q. cbn. by destruct (decide (q = 0)) as [->|].
Qed.

Lemma new_entry_at ip i n a : rd (arp_table (n_arp n)) i = Some a -> i < ARP_TABLE_SIZE -> ae_state a = ETHARP_STATE_EMPTY -> ae_q a = 0 ->
  new_entry (Some ip) i n = Ret (n_set_arp (with_entry i (fresh ip a) (n_arp n)) n, i).
Proof.
  intros Ha Hi Hs Hq. unfold new_entry. erewrite bind_step by (apply assert_at; by apply bool_decide_eq_true). cbv beta.
  erewrite bind_step by (by apply arp_get_at). cbv beta. erewrite bind_step by (apply assert_at; by apply bool_decide_eq_true). cbv beta.
  erewrite bind_step by (by apply upd_at). cbv beta.
  erewrite bind_step by (apply upd_at; cbn [n_arp n_set_arp]; rewrite (rd_with _ _ _ _ _ Ha); by rewrite bool_decide_true by done). cbv beta.
  cbn [n_arp n_set_arp]. rewrite with_entry_twice. destruct a; cbn in *; by subst.
Qed.

(** How a search for [ip] ends, and in which state. *)
Definition absent (ip : Z) (t : list etharp_entry) : Prop := forall a, a ∈ t -> ae_state a <> ETHARP_STATE_EMPTY -> ae_ipaddr a <> ip.
Definition crowded (t : list etharp_entry) : Prop := forall a, a ∈ t -> ae_state a <> ETHARP_STATE_EMPTY.

Inductive found (ip flags : Z) n (qs : Z -> list Z) : Net E -> Z -> Prop :=
| found_there i a :
    rd (arp_table (n_arp n)) i = Some a -> ae_state a <> ETHARP_STATE_EMPTY -> ae_ipaddr a = ip -> found ip flags n qs n i
| found_none :
    absent ip (arp_table (n_arp n)) ->
    Z.land flags ETHARP_FLAG_FIND_ONLY <> 0 \/ crowded (arp_table (n_arp n)) /\ Z.land flags ETHARP_FLAG_TRY_HARD = 0 ->
    found ip flags n qs n ERR_MEM
| found_new i a :
    absent ip (arp_table (n_arp n)) -> Z.land flags ETHARP_FLAG_FIND_ONLY = 0 -> rd (arp_table (n_arp n)) i = Some a ->
    ae_state a = ETHARP_STATE_EMPTY \/
      crowded (arp_table (n_arp n)) /\ Z.land flags ETHARP_FLAG_TRY_HARD <> 0 /\ recycled (arp_table (n_arp n)) a ->
    found ip flags n qs (n_set_heap (release (waits qs i a) (n_heap n)) (n_set_arp (with_entry i (fresh ip a) (n_arp n)) n)) i.

Lemma chosen t s : scan_ok t s -> Forall entry_ok t -> Z.of_nat (length t) = ARP_TABLE_SIZE -> crowded t -> exists i a, choose s = Some i /\ rd t i = Some a /\ recycled t a /\
  (old_stable s < ARP_TABLE_SIZE -> ae_q a = 0).
Proof.
  intros [S1 S2 S3 _] Ht Hlen Hc. unfold choose, recycled. assert (forall i a, 0 <= i < ARP_TABLE_SIZE -> t !! Z.to_nat i = Some a -> rd t i = Some a) as Hrd.
  { intros i a Hi Ha. apply rd_Some. split; [lia|done]. }
  destruct S1 as [(-> & _ & N1)|(a & Hi & Ha & Ka & -> & Ho)].
  2: { rewrite bool_decide_true by lia. exists (old_stable s), a. split_and!; [done|by apply Hrd|by left|]. intros _.
       destruct (decide (ae_q a = 0)) as [|Hq]; [done|]. apply list_elem_of_lookup_2, (proj1 (Forall_forall _ _) Ht) in Ha. apply (eo_queue _ Ha) in Hq.
       exfalso. unfold stable in Ka. rewrite Hq in Ka. by apply Ka. }
  rewrite bool_decide_false by done. destruct S2 as [(-> & _ & N2)|(a & Hi & Ha & Ka & -> & Ho)].
  2: { rewrite bool_decide_true by lia. exists (old_pending s), a. split_and!; [done|by apply Hrd|right; by left|]. by intros ?%Z.lt_irrefl. }
  rewrite bool_decide_false by done. destruct S3 as [(-> & _ & N3)|(a & Hi & Ha & Ka & -> & Ho)].
  2: { rewrite bool_decide_true by lia. exists (old_queue s), a. split_and!; [done|by apply Hrd|right; by right|]. by intros ?%Z.lt_irrefl. }
  exfalso. destruct t as [|a t]; [done|]. assert (a ∈ a :: t) as Hin by left. specialize (N1 a Hin). specialize (N2 a Hin). specialize (N3 a Hin). specialize (Hc a Hin).
  apply Forall_cons in Ht as [Ha _]. pose proof (eo_state _ Ha). arp_states. lia.
Qed.

Lemma find_entry_spec ip flags n qs : arp_ok (n_arp n) -> queues (n_heap n) (arp_table (n_arp n)) qs -> pbufs (n_heap n) !! 0 = None ->
  exists n' i, etharp_find_entry (Some ip) flags n = Ret (n', i) /\ found ip flags n qs n' i.
Proof.
  intros Hok Hq Hnull. set (t := arp_table (n_arp n)) in *. assert (Forall entry_ok t) as Ht.
  { apply Forall_lookup. intros k a Ha. apply (ao_entry _ Hok (Z.of_nat k)). by rewrite rd_nat. }
  unfold etharp_find_entry. erewrite bind_step by reflexivity. cbv beta. fold t. pose proof (sweep_cases (Some ip) t 0 scan0) as Hs.
  destruct (sweep t (Some ip) 0 scan0) as [i|s].
  { destruct Hs as (a & Hi & Ha & Ha0 & [= Hip]). exists n, i. split; [done|]. rewrite Z.sub_0_r in Ha. eapply found_there; [|done|done]. by apply rd_Some. }
  destruct Hs as [Habs Hs]. assert (absent ip t) as Hab by (intros a Ha Ha0 Hip; apply (Habs a Ha Ha0); by rewrite Hip).
  pose proof (ao_len _ Hok) as Hlen. fold t in Hlen. pose proof (scan_all t [] scan0 scan0_ok Ht ltac:(cbn [app]; lia)) as Hscan. cbn [app length] in Hscan. change (Z.of_nat 0) with 0 in Hscan. rewrite <-Hs in Hscan. clear Hs Habs.
  assert (empty_slot s <> ARP_TABLE_SIZE \/ crowded t) as Hcr by (destruct (so_empty _ _ Hscan) as [[_ Hc]|(a & Hi & _)]; [by right|left; lia]).
  destruct (decide (Z.land flags ETHARP_FLAG_FIND_ONLY <> 0)) as [Hfo|Hfo].
  { rewrite (bool_decide_true (_ <> 0)) by done. cbn [orb]. exists n, ERR_MEM. split; [done|]. apply found_none; [done|by left]. }
  rewrite (bool_decide_false (_ <> 0)) by done. cbn [orb]. destruct (decide (empty_slot s = ARP_TABLE_SIZE)) as [He|He].
  - destruct Hcr as [|Hc]; [done|]. rewrite (bool_decide_true (_ = ARP_TABLE_SIZE)) by done. cbn [andb]. case_bool_decide as Hth.
    { exists n, ERR_MEM. split; [done|]. apply found_none; [done|by right]. }
    rewrite bool_decide_false by lia. destruct (chosen _ _ Hscan Ht (ao_len _ Hok) Hc) as (i & a & -> & Ha & Hrec & Haq).
    eexists _, i. split; [|eapply found_new; [done|lia|exact Ha|by right]].
    erewrite bind_step by (by apply arp_get_at). cbv beta.
    erewrite bind_step by (apply assert_at; destruct (decide (old_stable s < ARP_TABLE_SIZE)) as [Hos|Hos];
      [rewrite (bool_decide_true (ae_q a = 0)) by auto; apply orb_true_r|by rewrite (bool_decide_false (_ < _)) by done]). cbv beta.
    erewrite bind_step by (by apply free_entry_at). cbv beta. pose proof (rd_range _ _ _ Ha) as Hi. rewrite Hlen in Hi.
    erewrite new_entry_at; [|cbn [n_arp n_set_arp n_set_heap]; rewrite (rd_with _ _ _ _ _ Ha); by rewrite bool_decide_true by done|lia|done|done].
    cbn [n_arp n_set_arp n_set_heap]. rewrite with_entry_twice. done.
  - rewrite (bool_decide_false (_ = ARP_TABLE_SIZE)) by done. cbn [andb]. destruct (so_empty _ _ Hscan) as [[? _]|(a & Hi & Ha & Ha0)]; [done|].
    rewrite bool_decide_true by lia. assert (rd t (empty_slot s) = Some a) as Hrd by (apply rd_Some; split; [lia|done]).
    assert (ae_q a = 0) as Haq.
    { destruct (decide (ae_q a = 0)) as [|Hx]; [done|]. apply (eo_queue _ (ao_entry _ Hok _ _ Hrd)) in Hx. by rewrite Ha0 in Hx. }
    eexists _, (empty_slot s). split; [|eapply found_new; [done|lia|exact Hrd|by left]].
    erewrite new_entry_at by (done || lia). unfold waits. rewrite bool_decide_false by lia. cbn [release]. by destruct n.
Qed.

(** What a search leaves behind. *)
Definition claims (i ip : Z) (s : ArpState) : Prop := exists a, rd (arp_table s) i = Some a /\ ae_ipaddr a = ip /\ alone i ip s /\ ae_ctime a < ARP_MAXAGE.

Lemma absent_alone ip i s : absent ip (arp_table s) -> alone i ip s.
Proof. intros Ha j b [_ Hb]%rd_Some _. apply Ha. by apply list_elem_of_lookup_2 in Hb. Qed.

Lemma found_ok ip flags n qs n' i : arp_ok (n_arp n) -> queues (n_heap n) (arp_table (n_arp n)) qs -> pbufs (n_heap n) !! 0 = None ->
  found ip flags n qs n' i ->
  arp_ok (n_arp n') /\ queues (n_heap n') (arp_table (n_arp n')) qs /\ pbufs (n_heap n') !! 0 = None /\ (0 <= i -> claims i ip (n_arp n')).
Proof.
  intros Hok Hq Hnull Hf. destruct Hf as [i a Ha Ha0 <-|_ _|i a Hab _ Ha _].
  - split_and!; try done. intros _. exists a. split_and!; [done|done|by apply alone_own|by eapply eo_age; [eapply ao_entry|]].
  - by split_and!.
  - cbn [n_arp n_heap n_set_arp n_set_heap]. split_and!.
    + eapply arp_ok_with; [done|exact Ha|by apply fresh_ok, (ao_entry _ Hok i)|by intros ?].
    + by eapply queues_release.
    + by apply null_release.
    + intros _. exists (fresh ip a). rewrite (rd_with _ _ _ _ _ Ha), bool_decide_true by done. split_and!; [done|done| |done].
      eapply alone_with; [exact Ha|by apply absent_alone].
Qed.

(** ** The timer *)

(** The buffers that are freed when the entries [t], from number [i] on, get a
    tick older. *)
Definition expired (qs : Z -> list Z) (i : Z) (t : list etharp_entry) : list Z :=
  concat (imap (fun k a => if expires a then waits qs (i + Z.of_nat k) a else []) t).

Lemma expired_cons qs i a t : expired qs i (a :: t) = (if expires a then waits qs i a else []) ++ expired qs (i + 1) t.
Proof.
  unfold expired. rewrite imap_cons. cbn [concat]. rewrite Z.add_0_r. f_equal. f_equal. apply imap_ext. intros k b _. unfold compose.
  destruct (expires b); [|done]. f_equal. lia.
Qed.

Lemma release_app l1 l2 h : release (l1 ++ l2) h = release l2 (release l1 h).
Proof. revert h. induction l1 as [|a l1 IH]; intros h; cbn [release app]; [done|apply IH]. Qed.

Lemma tmr_entry_at i n a qs : entry_ok a -> rd (arp_table (n_arp n)) i = Some a -> queues (n_heap n) (arp_table (n_arp n)) qs -> pbufs (n_heap n) !! 0 = None ->
  tmr_entry i n = Ret (n_set_heap (release (if expires a then waits qs i a else []) (n_heap n)) (n_set_arp (with_entry i (age a) (n_arp n)) n), ()).
Proof.
  intros Hok Ha Hq Hn0. unfold tmr_entry. erewrite bind_step by (by apply arp_get_at). cbv beta. unfold age, expires.
  destruct (decide (ae_state a = ETHARP_STATE_EMPTY)) as [Hs|Hs].
  { rewrite (bool_decide_false (ae_state a <> _)), (bool_decide_true (ae_state a = ETHARP_STATE_EMPTY)) by (rewrite ?Hs; tauto). cbn [andb release]. rewrite with_same by done. by destruct n. }
  rewrite (bool_decide_true (_ <> _)), (bool_decide_false (ae_state a = ETHARP_STATE_EMPTY)) by done. cbn [andb].
  assert (u8 (ae_ctime a + 1) = ae_ctime a + 1) as Hu.
  { pose proof (eo_age _ Hok Hs). pose proof (eo_ctime _ Hok). unfold ARP_MAXAGE in *. apply u8_id. unw. lia. }
  rewrite Hu. erewrite bind_step by (by apply upd_at). cbv beta zeta.
  set (a1 := ae_set_ctime (ae_ctime a + 1) a). set (n1 := n_set_arp (with_entry i a1 (n_arp n)) n).
  assert (rd (arp_table (n_arp n1)) i = Some a1) as Ha1 by (cbn [n_arp n_set_arp n1]; rewrite (rd_with _ _ _ _ _ Ha); by rewrite bool_decide_true by done).
  destruct (bool_decide (ae_ctime a + 1 >= ARP_MAXAGE) || _) eqn:He.
  - erewrite free_entry_at; [|exact Ha1|by eapply queues_change|done]. cbn [n_arp n_set_arp n_heap n_set_heap n1]. by rewrite with_entry_twice.
  - destruct (bool_decide (ae_state a = ETHARP_STATE_STABLE_REREQUESTING)) eqn:Er.
    + erewrite upd_at by exact Ha1. cbn [n_arp n_set_arp n1 release]. by rewrite with_entry_twice.
    + by destruct n.
Qed.

Lemma tmr_loop qs (post0 : list etharp_entry) : forall pre n, arp_table (n_arp n) = pre ++ post0 -> Forall entry_ok post0 -> queues (n_heap n) (arp_table (n_arp n)) qs -> pbufs (n_heap n) !! 0 = None ->
  let h := release (expired qs (Z.of_nat (length pre)) post0) (n_heap n) in
  for_each (seqZ (Z.of_nat (length pre)) (Z.of_nat (length post0))) tmr_entry n =
    Ret (n_set_heap h (n_set_arp (mkArpState (pre ++ map age post0) (etharp_cached_entry (n_arp n))) n), ()) /\
  queues h (pre ++ map age post0) qs.
Proof.
  induction post0 as [|a l IH]; intros pre n Ht Hl Hq Hn0.
  { cbn [length map expired imap concat release for_each]. change (Z.of_nat 0) with 0. unfold seqZ. cbn [Z.to_nat seq fmap list_fmap for_each].
    rewrite <-Ht. split; [|done]. destruct n as [? ? [? ?] ? ? ? ? ?]. done. }
  apply Forall_cons in Hl as [Ha Hl]. assert (rd (arp_table (n_arp n)) (Z.of_nat (length pre)) = Some a) as Hrd by (by rewrite Ht, rd_nat, lookup_app_r, Nat.sub_diag by done).
  rewrite seqZ_cons by (cbn [length]; lia). cbn [for_each]. erewrite bind_step by (by apply tmr_entry_at). cbv beta.
  set (n1 := n_set_heap _ _). set (pre1 := pre ++ [age a]).
  assert (arp_table (n_arp n1) = pre1 ++ l) as Ht1.
  { subst n1 pre1. cbn [n_arp n_set_arp n_set_heap with_entry arp_table]. rewrite Ht, Nat2Z.id, insert_app_r_alt, Nat.sub_diag by done. by rewrite <-app_assoc. }
  assert (queues (n_heap n1) (arp_table (n_arp n1)) qs) as Hq1.
  { subst n1. cbn [n_arp n_heap n_set_arp n_set_heap]. unfold age. case_bool_decide as Hs; [|destruct (expires a)].
    - unfold expires. rewrite (bool_decide_false (_ <> _)) by tauto. cbn [andb release]. by eapply queues_change.
    - by eapply queues_release.
    - cbn [release]. case_bool_decide; by eapply queues_change. }
  replace (Z.succ (Z.of_nat (length pre))) with (Z.of_nat (length pre1)) by (subst pre1; rewrite length_app; cbn [length]; lia).
  replace (Z.pred (Z.of_nat (length (a :: l)))) with (Z.of_nat (length l)) by (cbn [length]; lia).
  destruct (IH pre1 n1 Ht1 Hl Hq1) as [E1 Q1]; [by apply null_release|]. rewrite E1. clear E1. rewrite expired_cons, release_app.
  replace (Z.of_nat (length pre) + 1) with (Z.of_nat (length pre1)) by (subst pre1; rewrite length_app; cbn [length]; lia).
  replace (pre ++ map age (a :: l)) with (pre1 ++ map age l) by (subst pre1; by rewrite <-app_assoc). split; [done|exact Q1].
Qed.

Lemma rd_map {A B} (f : A -> B) l i : rd (map f l) i = f <$> rd l i.
Proof. unfold rd. case_bool_decide; [apply list_lookup_fmap|done]. Qed.

Lemma map_age_ok s : arp_ok s -> arp_ok (mkArpState (map age (arp_table s)) (etharp_cached_entry s)).
Proof.
  intros [A1 A2 A3 A4]. split; cbn [arp_table etharp_cached_entry].
  - by rewrite length_map.
  - done.
  - intros i a. rewrite rd_map, fmap_Some. intros (b & Hb & ->). apply age_ok. by eapply A3.
  - intros i j a b. rewrite !rd_map, !fmap_Some. intros (c & Hc & ->) (d & Hd & ->) Ha0 Hb0 Hip.
    apply age_ip in Ha0 as [Ha0 Ea]. apply age_ip in Hb0 as [Hb0 Eb]. eapply A4; [done|done|done|done|congruence].
Qed.

Lemma etharp_tmr_at n qs : arp_ok (n_arp n) -> queues (n_heap n) (arp_table (n_arp n)) qs -> pbufs (n_heap n) !! 0 = None ->
  let t := arp_table (n_arp n) in
  let h := release (expired qs 0 t) (n_heap n) in
  let s := mkArpState (map age t) (etharp_cached_entry (n_arp n)) in
  etharp_tmr n = Ret (n_set_heap h (n_set_arp s n), ()) /\ arp_ok s /\ queues h (map age t) qs.
Proof.
  intros Hok Hq Hn0 t h s. assert (Forall entry_ok t) as Ht.
  { apply Forall_lookup. intros k a Ha. apply (ao_entry _ Hok (Z.of_nat k)). by rewrite rd_nat. }
  destruct (tmr_loop qs t [] n eq_refl Ht Hq Hn0) as [E1 Q1]. split; [|split; [by apply map_age_ok|exact Q1]].
  unfold etharp_tmr, indices. rewrite <-(ao_len _ Hok). exact E1.
Qed.

(** The timer runs [k] times, and nothing else. *)
Fixpoint ticks (k : nat) : NetM E () := match k with O => mret () | S k => _ ← etharp_tmr; ticks k end.

(** Ticks that an entry has left. *)
Definition left_over (a : etharp_entry) : Z :=
  if bool_decide (ae_state a = ETHARP_STATE_EMPTY) then 0
  else if bool_decide (ae_state a = ETHARP_STATE_PENDING) then Z.max 1 (ARP_MAXPENDING - ae_ctime a) else ARP_MAXAGE - ae_ctime a.

Lemma age_left a : entry_ok a -> left_over (age a) <= Z.max 0 (left_over a - 1).
Proof.
  intros Ha. pose proof (eo_age _ Ha) as H1. pose proof (eo_ctime _ Ha) as H2. unw. unfold age. case_bool_decide as Hs; [unfold left_over at 1; rewrite bool_decide_true by done; lia|].
  specialize (H1 Hs). destruct (expires a) eqn:He; [unfold left_over at 1; rewrite bool_decide_true by done; lia|].
  unfold expires in He. rewrite (bool_decide_true (_ <> _)) in He by done. apply orb_false_iff in He as [He1 He2]. apply bool_decide_eq_false in He1.
  unfold left_over at 2. rewrite (bool_decide_false (ae_state a = ETHARP_STATE_EMPTY)) by done.
  destruct (decide (ae_state a = ETHARP_STATE_PENDING)) as [Hp|Hp].
  - rewrite (bool_decide_true (ae_state a = ETHARP_STATE_PENDING)) in He2 |- * by done. apply bool_decide_eq_false in He2.
    rewrite (bool_decide_false (ae_state a = ETHARP_STATE_STABLE_REREQUESTING)) by (by rewrite Hp). unfold left_over. cbn [ae_set_ctime ae_state ae_ctime].
    rewrite (bool_decide_false (ae_state a = ETHARP_STATE_EMPTY)), (bool_decide_true (ae_state a = ETHARP_STATE_PENDING)) by done. unfold ARP_MAXPENDING in *. lia.
  - rewrite (bool_decide_false (ae_state a = ETHARP_STATE_PENDING)) by done.
    assert (forall b, ae_ctime b = ae_ctime a + 1 -> ae_state b <> ETHARP_STATE_EMPTY -> ae_state b <> ETHARP_STATE_PENDING -> left_over b <= Z.max 0 (ARP_MAXAGE - ae_ctime a - 1)) as Hb.
    { intros b Hc Hb1 Hb2. unfold left_over. rewrite !bool_decide_false by done. lia. }
    destruct (bool_decide (ae_state a = ETHARP_STATE_STABLE_REREQUESTING)); apply Hb; cbn [ae_set_ctime ae_set_state ae_state ae_ctime]; done.
Qed.

Lemma left_none a : entry_ok a -> left_over a <= 0 -> ae_state a = ETHARP_STATE_EMPTY.
Proof.
  intros Ha. pose proof (eo_age _ Ha) as H1. unfold left_over. case_bool_decide as Hs; [done|]. specialize (H1 Hs). case_bool_decide; lia.
Qed.

Lemma left_max a : entry_ok a -> left_over a <= ARP_MAXAGE.
Proof. intros Ha. pose proof (eo_ctime _ Ha). unw. unfold left_over, ARP_MAXAGE, ARP_MAXPENDING. repeat case_bool_decide; lia. Qed.

Lemma expired_in qs t : forall i k a x, t !! k = Some a -> expires a = true -> x ∈ waits qs (i + Z.of_nat k) a -> x ∈ expired qs i t.
Proof.
  induction t as [|b t IH]; intros i k a x Ha He Hx; [done|]. rewrite expired_cons. apply elem_of_app. destruct k as [|k].
  - left. injection Ha as ->. rewrite He. by rewrite Z.add_0_r in Hx.
  - right. apply (IH (i + 1) k a); [done|done|]. by replace (i + 1 + Z.of_nat k) with (i + Z.of_nat (S k)) by lia.
Qed.

Lemma waits_age qs i a : expires a = false -> waits qs i (age a) = waits qs i a.
Proof. intros He. unfold age. case_bool_decide; [done|]. rewrite He. by case_bool_decide. Qed.

(** C21: [etharp_tmr] over time.  It returns, and keeps the table in order.  An
    entry that nobody uses is empty after as many ticks as it has left, and
    the packet that waited in it is freed; no entry has more than
    [ARP_MAXAGE]. *)
Theorem arp_forgets (k : nat) : forall n qs,
  arp_ok (n_arp n) -> queues (n_heap n) (arp_table (n_arp n)) qs -> pbufs (n_heap n) !! 0 = None ->
  exists h s, ticks k n = Ret (n_set_heap h (n_set_arp s n), ()) /\ arp_ok s /\ queues h (arp_table s) qs /\
    (forall x, pbufs (n_heap n) !! x = None -> pbufs h !! x = None) /\
    (forall i a, rd (arp_table (n_arp n)) i = Some a -> left_over a <= Z.of_nat k ->
       exists b, rd (arp_table s) i = Some b /\ ae_state b = ETHARP_STATE_EMPTY /\ forall x, x ∈ waits qs i a -> pbufs h !! x = None) /\
    (ARP_MAXAGE <= Z.of_nat k -> forall b, b ∈ arp_table s -> ae_state b = ETHARP_STATE_EMPTY).
Proof.
  induction k as [|k IH]; intros n qs Hok Hq Hn0; cbn [ticks].
  { exists (n_heap n), (n_arp n). split; [by destruct n|]. split_and!; [done|done|done| |done]. intros i a Ha Hl. pose proof (ao_entry _ Hok _ _ Ha) as Hoa.
    pose proof (left_none _ Hoa Hl) as Hs. exists a. split_and!; [done|done|]. intros x. unfold waits. case_bool_decide as Hw; [|by intros ?%elem_of_nil].
    apply (eo_queue _ Hoa) in Hw. by rewrite Hs in Hw. }
  destruct (etharp_tmr_at n qs Hok Hq Hn0) as (E1 & Hok1 & Hq1). set (t := arp_table (n_arp n)) in *. set (h1 := release _ _) in *. set (s1 := mkArpState _ _) in *.
  destruct (IH (n_set_heap h1 (n_set_arp s1 n)) qs Hok1 Hq1) as (h & s & E2 & Hok2 & Hq2 & Hk & Hg & Hall); [by apply null_release|].
  exists h, s. erewrite bind_step by exact E1. cbv beta. rewrite E2. assert (forall x, pbufs (n_heap n) !! x = None -> pbufs h1 !! x = None) as Hk1.
  { intros x Hx. unfold h1. rewrite (proj1 (release_lookup _ _ _)). by case_bool_decide. }
  assert (forall i a, rd t i = Some a -> left_over a <= Z.of_nat (S k) ->
    exists b, rd (arp_table s) i = Some b /\ ae_state b = ETHARP_STATE_EMPTY /\ forall x, x ∈ waits qs i a -> pbufs h !! x = None) as Hgone.
  { intros i a Ha Hl. pose proof (age_left a (ao_entry _ Hok _ _ Ha)) as Hal.
    destruct (Hg i (age a)) as (b & Hb & Hs & Hx); [cbn [n_arp n_set_arp n_set_heap s1 arp_table]; rewrite rd_map; fold t; by rewrite Ha|lia|].
    exists b. split_and!; [done|done|]. intros x Hin. destruct (expires a) eqn:He; [|apply Hx; by rewrite waits_age].
    apply Hk. cbn [n_heap n_set_heap]. unfold h1. rewrite (proj1 (release_lookup _ _ _)). rewrite bool_decide_true; [done|].
    apply rd_Some in Ha as [Hi Ha]. apply (expired_in qs t 0 (Z.to_nat i) a x Ha He). by replace (0 + Z.of_nat (Z.to_nat i)) with i by lia. }
  split_and!; try done; [by intros x Hx; apply Hk, Hk1|].
  intros Hm b Hb. apply list_elem_of_lookup in Hb as [j Hb]. assert (rd (arp_table s) (Z.of_nat j) = Some b) as Hrb by by rewrite rd_nat.
  destruct (rd_total t (Z.of_nat j)) as [a Ha].
  { pose proof (rd_range _ _ _ Hrb) as Hr. rewrite (ao_len _ Hok2) in Hr. subst t. by rewrite (ao_len _ Hok). }
  destruct (Hgone _ a Ha) as (b' & Hb' & Hs & _); [|by rewrite Hrb in Hb'; injection Hb' as <-].
  pose proof (left_max _ (ao_entry _ Hok _ _ Ha)). lia.
Qed.

(** ** Every operation keeps the table in order *)

Definition tidy n : Prop := arp_ok (n_arp n).
#[local] Instance tidy_above : Above tidy.
Proof. by intros n h e. Qed.

Lemma free_entry_inv i n n' u : etharp_free_entry i n = Ret (n', u) -> exists a, rd (arp_table (n_arp n)) i = Some a /\ n_arp n' = with_entry i (freed a) (n_arp n).
Proof.
  unfold etharp_free_entry. intros Hr. run Hr. rename R into Ha. exists v. split; [done|]. run Hr. apply upd_inv in Hr as (b & Hb & ->). cbn [n_arp n_set_arp].
  revert R. case_bool_decide as Hq; intros R.
  - run R. apply on_heap_inv in R0 as (h & _ & ->). apply upd_inv in R as (c & Hc & ->). cbn [n_arp n_set_arp n_set_heap] in *.
    rewrite Ha in Hc. injection Hc as <-. rewrite (rd_with _ _ _ _ _ Ha), bool_decide_true in Hb by done. injection Hb as <-. by rewrite with_entry_twice.
  - apply ret_inv in R as [-> _]. rewrite Ha in Hb. injection Hb as <-. f_equal. destruct v as [q ? ? ? ? ?]. cbn in Hq. unfold freed, ae_set_q. cbn. by destruct (decide (q = 0)) as [->|].
Qed.

Lemma new_entry_inv ip i n n' k : new_entry (Some ip) i n = Ret (n', k) ->
  exists a, k = i /\ rd (arp_table (n_arp n)) i = Some a /\ ae_state a = ETHARP_STATE_EMPTY /\ n_arp n' = with_entry i (ae_set_ctime 0 (ae_set_ipaddr ip a)) (n_arp n).
Proof.
  unfold new_entry. intros Hr. run Hr. run Hr. rename R0 into Ha. run Hr. apply bool_decide_eq_true in R0. exists v0.
  run Hr. apply upd_inv in R1 as (b & Hb & ->). run Hr. apply upd_inv in R1 as (c & Hc & ->). apply ret_inv in Hr as [-> ->]. cbn [n_arp n_set_arp] in *.
  rewrite Ha in Hb. injection Hb as <-. rewrite (rd_with _ _ _ _ _ Ha), bool_decide_true in Hc by done. injection Hc as <-. by rewrite with_entry_twice.
Qed.

Lemma new_entry_tidy ip i n n' k : tidy n -> absent ip (arp_table (n_arp n)) -> (forall a, rd (arp_table (n_arp n)) i = Some a -> ae_q a = 0) ->
  new_entry (Some ip) i n = Ret (n', k) -> tidy n' /\ claims k ip (n_arp n').
Proof.
  intros Hok Hab Hq (a & -> & Ha & Hs & En)%new_entry_inv. unfold tidy. rewrite En. split.
  - eapply arp_ok_with; [done|exact Ha| |by intros ?]. pose proof (ao_entry _ Hok _ _ Ha) as [H1 H2 H3 H4 H5]. by split.
  - exists (ae_set_ctime 0 (ae_set_ipaddr ip a)). rewrite (rd_with _ _ _ _ _ Ha), bool_decide_true by done. split_and!; [done|done| |done].
    eapply alone_with; [exact Ha|by apply absent_alone].
Qed.

Lemma absent_with ip i a s e : rd (arp_table s) i = Some e -> ae_state a = ETHARP_STATE_EMPTY -> absent ip (arp_table s) -> absent ip (arp_table (with_entry i a s)).
Proof.
  intros He Hs Hab b Hb Hb0. apply list_elem_of_lookup in Hb as [k Hk]. assert (rd (arp_table (with_entry i a s)) (Z.of_nat k) = Some b) as Hr by by rewrite rd_nat.
  rewrite (rd_with _ _ _ _ _ He) in Hr. revert Hr. case_bool_decide; [by intros [= <-]|]. rewrite rd_nat. intros Hr. apply Hab; [by apply list_elem_of_lookup_2 in Hr|done].
Qed.

Lemma find_entry_tidy ip flags : post tidy (etharp_find_entry (Some ip) flags) (fun i n => tidy n /\ (0 <= i -> claims i ip (n_arp n))).
Proof.
  intros n n' i Hok. unfold etharp_find_entry. intros Hr. run Hr. pose proof (sweep_cases (Some ip) (arp_table (n_arp n)) 0 scan0) as Hs.
  destruct (sweep _ (Some ip) 0 scan0) as [j|s].
  { apply ret_inv in Hr as [-> ->]. destruct Hs as (a & Hi & Ha & Ha0 & [= Hip]). split; [done|]. intros _. rewrite Z.sub_0_r in Ha.
    assert (rd (arp_table (n_arp n)) j = Some a) as Hrd by by apply rd_Some. exists a. split_and!; [done|done|rewrite Hip; by apply alone_own|]. by eapply eo_age; [eapply ao_entry|]. }
  destruct Hs as [Habs _]. assert (absent ip (arp_table (n_arp n))) as Hab by (intros a Ha Ha0 Hip; apply (Habs a Ha Ha0); by rewrite Hip). clear Habs.
  assert (forall k a, rd (arp_table (n_arp n)) k = Some a -> ae_state a = ETHARP_STATE_EMPTY -> ae_q a = 0) as Hq0.
  { intros k a Ha Hs. destruct (decide (ae_q a = 0)) as [|Hx]; [done|]. apply (eo_queue _ (ao_entry _ Hok _ _ Ha)) in Hx. by rewrite Hs in Hx. }
  destruct (_ || _); [apply ret_inv in Hr as [-> ->]; done|]. destruct (bool_decide (empty_slot s < ARP_TABLE_SIZE)).
  - pose proof (new_entry_inv _ _ _ _ _ Hr) as (a & _ & Ha & Hs & _). eapply new_entry_tidy in Hr as [Hr1 Hr2]; [done|done|done|].
    intros b Hb. rewrite Ha in Hb. injection Hb as <-. by eapply Hq0.
  - destruct (choose s) as [k|]; [|apply ret_inv in Hr as [-> ->]; done]. run Hr. rename R into Ha. run Hr. run Hr.
    apply free_entry_inv in R0 as (b & Hb & En). rewrite Ha in Hb. injection Hb as <-. eapply new_entry_tidy in Hr as [Hr1 Hr2]; [done|..].
    + unfold tidy. rewrite En. eapply arp_ok_with; [done|exact Ha|by eapply freed_ok, ao_entry|by intros ?].
    + rewrite En. by eapply absent_with.
    + intros b. rewrite En, (rd_with _ _ _ _ _ Ha), bool_decide_true by done. by intros [= <-].
Qed.

(** Sending does not touch the table. *)
Definition arp_is (s : ArpState) n : Prop := n_arp n = s.
#[local] Instance same_above s : Above (arp_is s).
Proof. by intros n h e. Qed.

Lemma raw_same s netif a b c ip d ip2 op : keeps (arp_is s) (etharp_raw netif a b c ip d ip2 op).
Proof. unfold etharp_raw, netif_at, pb, st8, st16, st32, stn. keeps_tac. Qed.
Lemma request_same s netif ip : keeps (arp_is s) (etharp_request netif ip).
Proof. unfold etharp_request, netif_at. keeps_tac; apply raw_same. Qed.
Lemma send_ip_same s netif p a b : keeps (arp_is s) (etharp_send_ip netif p a b).
Proof. unfold etharp_send_ip, netif_at, pb, st16, stn. keeps_tac. Qed.

Lemma same_tidy {A} (m : NetM E A) : (forall s, keeps (arp_is s) m) -> keeps tidy m.
Proof. intros Hm n n' a Hok Hr. unfold tidy. by rewrite (Hm (n_arp n) n n' a eq_refl Hr). Qed.

Lemma tidy_change i f n n' u : arp_upd i f n = Ret (n', u) -> tidy n ->
  (forall a, rd (arp_table (n_arp n)) i = Some a -> entry_ok (f a) /\ (ae_state (f a) <> ETHARP_STATE_EMPTY -> (ae_state a <> ETHARP_STATE_EMPTY /\ ae_ipaddr a = ae_ipaddr (f a)) \/ alone i (ae_ipaddr (f a)) (n_arp n))) ->
  tidy n'.
Proof. intros (a & Ha & ->)%upd_inv Hok Hf. destruct (Hf a Ha) as [H1 H2]. by eapply arp_ok_with. Qed.

Lemma free_entry_tidy i : keeps tidy (etharp_free_entry i).
Proof.
  intros n n' u Hok (a & Ha & En)%free_entry_inv. unfold tidy. rewrite En. eapply arp_ok_with; [done|exact Ha|by eapply freed_ok, ao_entry|by intros ?].
Qed.

Lemma tmr_entry_tidy i : keeps tidy (tmr_entry i).
Proof.
  intros n n' u Hok. unfold tmr_entry. intros Hr. run Hr. rename v into a, R into Ha. revert Hr. case_bool_decide as Hs; [|by intros [-> _]%ret_inv].
  pose proof (ao_entry _ Hok _ _ Ha) as Hoa. assert (u8 (ae_ctime a + 1) = ae_ctime a + 1) as Hu.
  { pose proof (eo_age _ Hoa Hs). pose proof (eo_ctime _ Hoa). unfold ARP_MAXAGE in *. apply u8_id. unw. lia. }
  rewrite Hu. intros Hr. run Hr. apply upd_inv in R as (b & Hb & ->). rewrite Ha in Hb. injection Hb as <-.
  assert (tidy n' <-> arp_ok (n_arp n')) as -> by done. set (a1 := ae_set_ctime _ a) in *.
  assert (n_arp n' = with_entry i (age a) (n_arp n)) as ->.
  2: { eapply arp_ok_with; [done|exact Ha|by apply age_ok|]. intros [H1 H2]%age_ip. by left. }
  unfold age, expires. rewrite (bool_decide_false (ae_state a = ETHARP_STATE_EMPTY)), (bool_decide_true (ae_state a <> _)) by done. cbn [andb].
  fold a1. destruct (bool_decide (ae_ctime a + 1 >= ARP_MAXAGE) || _).
  - apply free_entry_inv in Hr as (b & Hb & ->). cbn [n_arp n_set_arp] in *. rewrite (rd_with _ _ _ _ _ Ha), bool_decide_true in Hb by done.
    injection Hb as <-. by rewrite with_entry_twice.
  - destruct (bool_decide (ae_state a = ETHARP_STATE_STABLE_REREQUESTING)); [|by apply ret_inv in Hr as [-> _]].
    apply upd_inv in Hr as (b & Hb & ->). cbn [n_arp n_set_arp] in *. rewrite (rd_with _ _ _ _ _ Ha), bool_decide_true in Hb by done.
    injection Hb as <-. by rewrite with_entry_twice.
Qed.

Lemma tmr_tidy : keeps tidy etharp_tmr.
Proof. apply keeps_for_each. intros i _. apply tmr_entry_tidy. Qed.

Lemma cleanup_tidy netif : keeps tidy (etharp_cleanup_netif netif).
Proof.
  apply keeps_for_each. intros i _. unfold cleanup_entry. apply keeps_bind; [unfold arp_get; keeps_tac|]. intros a. destruct (_ && _); [apply free_entry_tidy|apply keeps_ret].
Qed.

Lemma find_entry_keeps ip flags : keeps tidy (etharp_find_entry (Some ip) flags).
Proof. intros n n' i Hok Hr. by destruct (find_entry_tidy _ _ _ _ _ Hok Hr). Qed.

Lemma find_addr_tidy netif ip : keeps tidy (etharp_find_addr netif ip).
Proof. unfold etharp_find_addr, arp_get. apply keeps_bind; [apply find_entry_keeps|]. intros i. keeps_tac. Qed.

Lemma send_ip_tidy netif p a b : keeps tidy (etharp_send_ip netif p a b).
Proof. apply same_tidy. intros s. apply send_ip_same. Qed.

Lemma send_stored_tidy netif q i : keeps tidy (f ← netif_at netif; a ← arp_get i; etharp_send_ip netif q (nf_hwaddr f) (ae_ethaddr a)).
Proof. unfold netif_at, arp_get. keeps_tac; apply send_ip_tidy. Qed.

Lemma to_index_tidy netif q i : keeps tidy (etharp_output_to_arp_index netif q i).
Proof.
  unfold etharp_output_to_arp_index. intros n n' r Hok Hr. run Hr. rename v into a, R into Ha. run Hr. apply bool_decide_eq_true in R.
  apply bind_inv in Hr as (n1 & [] & Hm & Hr). assert (tidy n1) as Hok1.
  { destruct (_ && _); [|by apply ret_inv in Hm as [-> _]]. apply bind_inv in Hm as (n2 & r2 & H1 & H2). pose proof (request_same (n_arp n) _ _ _ _ _ eq_refl H1) as Es.
    assert (tidy n2) as Hok2 by (unfold tidy; by rewrite Es). destruct (bool_decide (r2 = ERR_OK)); [|by apply ret_inv in H2 as [-> _]].
    apply (tidy_change _ _ _ _ _ H2 Hok2). intros b. rewrite Es, Ha. intros [= <-]. pose proof (ao_entry _ Hok _ _ Ha) as [X1 X2 X3 X4 X5].
    assert (ae_state a <> ETHARP_STATE_EMPTY) as X0 by (arp_states; lia). split; [|by left]. split; cbn; try done; [auto|]. intros Hq. specialize (X5 Hq). arp_states. lia. }
  exact (send_stored_tidy _ _ _ _ _ _ Hok1 Hr).
Qed.

Lemma ldn_length (q : ptr) k len (n n' : Net E) d : 0 <= len -> ldn q k len n = Ret (n', d) -> length d = Z.to_nat len.
Proof.
  intros Hl Hr. unfold ldn in Hr. apply in_heap_inv in Hr as [_ Hr]. unfold load in Hr. destruct (mem _ !! _) as [m|]; [|done]. cbn [checked mbind outcome_bind] in Hr.
  unfold slice in Hr. case_bool_decide as Hb; [|done]. cbn [checked] in Hr. injection Hr as <-. rewrite length_take, length_drop. unfold at_off in *. cbn [fst snd] in *. lia.
Qed.

(** The entry [i], after it was found for [ip], holds what was heard. *)
Definition learned (netif ip : Z) (d : list Z) : etharp_entry := mkEntry 0 ip netif d ETHARP_STATE_STABLE 0.

Lemma learned_ok netif ip d s i : arp_ok s -> claims i ip s -> length d = 6%nat -> arp_ok (with_entry i (learned netif ip d) s).
Proof.
  intros Hok (a & Ha & Hip & Hal & _) Hd. eapply arp_ok_with; [done|exact Ha| |by right]. split; cbn; try done; unw; lia.
Qed.

Lemma update_tidy netif ip q flags : keeps tidy (etharp_update_arp_entry netif ip q flags).
Proof.
  intros n n' r Hok. unfold etharp_update_arp_entry. intros Hr. run Hr. run Hr. destruct (_ || _); [by apply ret_inv in Hr as [-> _]|].
  run Hr. destruct (find_entry_tidy _ _ _ _ _ Hok R1) as [Hok1 Hcl]. destruct (decide (v1 < 0)) as [Hi|Hi];
    [rewrite (bool_decide_true (v1 < 0)) in Hr by done; by apply ret_inv in Hr as [-> _]|].
  rewrite (bool_decide_false (v1 < 0)) in Hr by done. specialize (Hcl ltac:(lia)). pose proof Hcl as (a & Ha & Hip & Hal & _). clear Hok. rename Hok1 into Hok.
  assert (forall b, rd (arp_table (with_entry v1 b (n_arp n0))) v1 = Some b) as Hrw by (intros b; rewrite (rd_with _ _ _ _ _ Ha); by rewrite bool_decide_true by done).
  run Hr. apply upd_inv in R2 as (b & Hb & ->). rewrite Ha in Hb. injection Hb as <-.
  run Hr. apply upd_inv in R2 as (b & Hb & ->). cbn [n_arp n_set_arp] in *. rewrite Hrw in Hb. injection Hb as <-. rewrite with_entry_twice in Hr.
  apply bind_inv in Hr as (n1 & d & Hd & Hr). pose proof (ldn_length _ _ 6 _ _ _ ltac:(lia) Hd) as Hld. unfold ldn in Hd. apply in_heap_inv in Hd as [-> _].
  run Hr. apply upd_inv in R2 as (b & Hb & ->). cbn [n_arp n_set_arp] in *. rewrite Hrw in Hb. injection Hb as <-. rewrite with_entry_twice in Hr.
  run Hr. apply upd_inv in R2 as (b & Hb & ->). cbn [n_arp n_set_arp] in *. rewrite Hrw in Hb. injection Hb as <-. rewrite with_entry_twice in Hr.
  run Hr. cbn [n_arp n_set_arp] in *. rewrite Hrw in R2. injection R2 as <-. cbn [ae_set_state ae_set_netif ae_set_ethaddr ae_set_ctime ae_q] in Hr.
  pose proof (learned_ok netif ip d _ _ Hok Hcl Hld) as Hfin. destruct (decide (ae_q a <> 0)) as [Hq|Hq].
  - rewrite (bool_decide_true (ae_q a <> 0)) in Hr by done. run Hr. apply upd_inv in R2 as (b & Hb & ->). cbn [n_arp n_set_arp] in *. rewrite Hrw in Hb. injection Hb as <-. rewrite with_entry_twice in Hr.
    revert Hr. match goal with |- ?m ?s = _ -> _ => assert (tidy s) as Hs end.
    { unfold tidy. cbn [n_arp n_set_arp]. rewrite <-Hip in Hfin. exact Hfin. }
    revert Hs. generalize (with_entry v1 (ae_set_q 0 (ae_set_ctime 0 (ae_set_ethaddr d (ae_set_netif netif (ae_set_state ETHARP_STATE_STABLE a))))) (n_arp n0)). intros s Hs Hr.
    unfold ldn in Hr. run Hr. run Hr. apply send_ip_tidy in R3; [|exact Hs]. run Hr. apply on_heap_inv in R4 as (h & _ & ->). by apply ret_inv in Hr as [-> _].
  - rewrite (bool_decide_false (ae_q a <> 0)) in Hr by done. apply ret_inv in Hr as [-> _]. unfold tidy. cbn [n_arp n_set_arp].
    replace (ae_set_ctime 0 _) with (learned netif ip d); [done|]. destruct a as [q0 ? ? ? ? ?]. cbn in Hq, Hip |- *. destruct (decide (q0 = 0)) as [->|]; [by subst|done].
Qed.

Lemma take_over_same s q : keeps (arp_is s) (take_over q).
Proof. unfold take_over, pb. keeps_tac. Qed.

(** The hint, or the packet that waits, in a table that is in order. *)
Lemma hint_tidy i n a : tidy n -> rd (arp_table (n_arp n)) i = Some a -> tidy (n_set_arp (mkArpState (arp_table (n_arp n)) (u8 i)) n).
Proof.
  intros [A1 A2 A3 A4] Ha. pose proof (rd_range _ _ _ Ha) as Hi. rewrite A1 in Hi. unfold ARP_TABLE_SIZE in *.
  split; cbn [n_arp n_set_arp arp_table etharp_cached_entry]; try done. rewrite (u8_id i); unw; unfold ARP_TABLE_SIZE; lia.
Qed.

Lemma wait_tidy i p n n' u a : tidy n -> rd (arp_table (n_arp n)) i = Some a -> ae_state a = ETHARP_STATE_PENDING -> arp_upd i (ae_set_q p) n = Ret (n', u) -> tidy n'.
Proof.
  intros Hok Ha Hs Hr. apply (tidy_change _ _ _ _ _ Hr Hok). intros b Hb. rewrite Ha in Hb. injection Hb as <-.
  pose proof (ao_entry _ Hok _ _ Ha) as [X1 X2 X3 X4 X5]. split; [by split|]. intros Hs0. by left.
Qed.

Lemma query_tidy netif ip q : keeps tidy (etharp_query netif ip q).
Proof.
  intros n n' r Hok. unfold etharp_query. intros Hr. run Hr. destruct (_ || _ || _); [by apply ret_inv in Hr as [-> _]|].
  run Hr. destruct (find_entry_tidy _ _ _ _ _ Hok R0) as [Hok1 Hcl]. destruct (decide (v0 < 0)) as [Hi|Hi];
    [rewrite (bool_decide_true (v0 < 0)) in Hr by done; by apply ret_inv in Hr as [-> _]|].
  rewrite (bool_decide_false (v0 < 0)) in Hr by done. destruct (Hcl ltac:(lia)) as (a & Ha & Hip & Hal & Hct). clear Hok Hcl R0.
  run Hr. rewrite Ha in R0. injection R0 as <-. apply bind_inv in Hr as (n1 & [] & Hm & Hr).
  assert (tidy n1) as Hok2.
  { destruct (bool_decide (ae_state a = ETHARP_STATE_EMPTY)) eqn:Hs; [|by apply ret_inv in Hm as [-> _]]. apply (tidy_change _ _ _ _ _ Hm Hok1). intros b Hb. rewrite Ha in Hb. injection Hb as <-.
    pose proof (ao_entry _ Hok1 _ _ Ha) as [X1 X2 X3 X4 X5]. split; [by split|intros _; right; cbn; by rewrite Hip]. }
  clear Hm Hok1 Ha Hip Hal Hct a. run Hr. rename v1 into a, R0 into Ha. run Hr. run Hr.
  assert (arp_is (n_arp n1) n2) as Es.
  { destruct (bool_decide (ae_state a = ETHARP_STATE_PENDING) || bool_decide (q = 0)); [by apply (request_same (n_arp n1)) in R1|by apply ret_inv in R1 as [-> _]]. }
  clear R1. unfold arp_is in Es. assert (tidy n2) as Hok3 by (unfold tidy; by rewrite Es).
  destruct (bool_decide (q = 0)); [by apply ret_inv in Hr as [-> _]|]. run Hr. rewrite Es, Ha in R1. injection R1 as <-. rewrite <-Es in Ha.
  destruct (bool_decide (ae_state a >= ETHARP_STATE_STABLE)).
  - run Hr. exact (send_ip_tidy _ _ _ _ _ _ _ (hint_tidy _ _ _ Hok3 Ha) Hr).
  - destruct (decide (ae_state a = ETHARP_STATE_PENDING)) as [Hp|Hp].
    2: { rewrite (bool_decide_false (ae_state a = _)) in Hr by done. by apply ret_inv in Hr as [-> _]. }
    rewrite (bool_decide_true (ae_state a = _)) in Hr by done. run Hr. apply (take_over_same (n_arp n2)) in R1; [|done]. unfold arp_is in R1.
    assert (tidy n3) as Hok4 by (unfold tidy; by rewrite R1). rewrite <-R1 in Ha. destruct (bool_decide (v3 <> 0)); [|by apply ret_inv in Hr as [-> _]].
    run Hr. rewrite Ha in R2. injection R2 as <-. run Hr.
    assert (tidy n4 /\ rd (arp_table (n_arp n4)) v0 = Some a) as [Hok5 Ha5].
    { destruct (bool_decide (ae_q a <> 0)); [|by apply ret_inv in R2 as [-> _]]. run R2. apply on_heap_inv in R3 as (h & _ & ->). by apply ret_inv in R2 as [-> _]. }
    run Hr. apply ret_inv in Hr as [-> _]. by eapply wait_tidy.
Qed.

Lemma output_tidy netif q ip : keeps tidy (etharp_output netif q ip).
Proof.
  assert (forall dst, keeps tidy (output_unicast netif q dst)) as Hu.
  { intros dst n n' r Hok. unfold output_unicast. intros Hr. run Hr. run Hr. destruct (_ && _); [by eapply to_index_tidy|]. run Hr.
    pose proof (find_stable_spec dst (arp_table (n_arp n)) 0) as Hf. destruct (find_stable _ dst 0) as [i|]; [|by eapply query_tidy].
    destruct Hf as (a & Hi & Ha & _). rewrite Z.sub_0_r in Ha. run Hr. eapply to_index_tidy; [|exact Hr]. eapply hint_tidy; [done|]. by apply rd_Some. }
  unfold etharp_output, netif_at. keeps_tac; first [apply send_ip_tidy|apply Hu].
Qed.

Lemma arp_input_tidy netif p : keeps tidy (etharp_arp_input netif p).
Proof. unfold etharp_arp_input, arp_reply, pb, ld16, ld8, ld32, ldn, stn, st16, st32, netif_at. keeps_tac; apply update_tidy. Qed.

End Table.
