(* ===== verification/IpOut.v ===== *)
(** * Sending IP packets ([src/lwip/src/core/ipv4/ip.c], [ip_frag.c])

    The choice of the interface, the header and its checksum, and the division
    of a packet that is larger than the interface takes. *)

From stdpp Require Import gmap.
From S2P Require Import Prelude LwipDef InetChksum IpAddr Pbuf PbufOps PbufData NetState NetMem Etharp.

Definition IP_HLEN : Z := 20.
Definition IP_PROTO_ICMP : Z := 1.
Definition IP_PROTO_UDP : Z := 17.
Definition IP_DEFAULT_TTL : Z := 255.
Definition IP_RF : Z := 0x8000.
Definition IP_DF : Z := 0x4000.
Definition IP_MF : Z := 0x2000.
Definition IP_OFFMASK : Z := 0x1fff.
Definition SOF_BROADCAST : Z := 0x20.

(** The fields of [struct ip_hdr]. *)
Definition iph_v_hl : Z := 0.
Definition iph_tos : Z := 1.
Definition iph_len : Z := 2.
Definition iph_id : Z := 4.
Definition iph_offset : Z := 6.
Definition iph_ttl : Z := 8.
Definition iph_proto : Z := 9.
Definition iph_chksum : Z := 10.
Definition iph_src : Z := 12.
Definition iph_dest : Z := 16.

(** The controller is little-endian. *)
Definition LWIP_MAKE_U16 (a b : Z) : Z := Z.lor (Z.shiftl a 8) b.

Definition netif_is_up (f : netif) : bool := bool_decide (Z.land (nf_flags f) NETIF_FLAG_UP <> 0).

(** The number of the function that frees the buffers of fragments. *)
Definition IPFRAG_FREE_PBUF_CUSTOM : Z := 1.
Definition sizeof_pbuf_custom_ref : Z := 24.
Definition MEMP_FRAG_PBUF : Z := sizeof_pbuf_custom_ref.

(** The number of [lpc_etharp_output]. *)
Definition LPC_ETHARP_OUTPUT : Z := 1.

Definition ipfrag_free_pbuf_custom `{Malloc} (p : Z) (h : Heap) : outcome Heap :=
  _ ← LWIP_ASSERT (bool_decide (p <> 0));
  '(_, original) ← checked (customs h !! p);
  h ← (if bool_decide (original <> 0) then '(h, _) ← pbuf_free original h; Ret h else Ret h);
  Ret (memp_free p h).

(** The allocator [M] with the function above.  The buffers that fragments
    refer to are not fragments themselves. *)
Definition frag_malloc (M : Malloc) : Malloc := {|
  malloc := @malloc M;
  junk_pbuf := @junk_pbuf M;
  junk_mem := @junk_mem M;
  run_custom_free f p h := if bool_decide (f = IPFRAG_FREE_PBUF_CUSTOM) then @ipfrag_free_pbuf_custom M p h else @run_custom_free M f p h;
|}.

Section IpOut.
Context {E : Type} `{Malloc, LinkDriver E}.
Notation M := (NetM E).

Definition IPH_V (q : ptr) : M Z := v ← ld8 q iph_v_hl; mret (Z.shiftr v 4).
Definition IPH_HL (q : ptr) : M Z := v ← ld8 q iph_v_hl; mret (Z.land v 0x0f).
Definition IPH_LEN (q : ptr) : M Z := ld16 q iph_len.
Definition IPH_ID (q : ptr) : M Z := ld16 q iph_id.
Definition IPH_OFFSET (q : ptr) : M Z := ld16 q iph_offset.
Definition IPH_PROTO (q : ptr) : M Z := ld8 q iph_proto.

(** The loop over the interfaces. *)
Fixpoint route_loop (l : list Z) (dest : Z) : M Z :=
  match l with
  | [] => mret 0
  | a :: l =>
      f ← netif_at a;
      if netif_is_up f && ip_addr_netcmp dest (nf_ip_addr f) (nf_netmask f) then mret a else route_loop l dest
  end.

(** The interface, or null. *)
Definition ip_route (dest : Z) : M Z :=
  s ← gets n_if;
  a ← route_loop (netif_list s) dest;
  if bool_decide (a <> 0) then mret a
  else if bool_decide (netif_default s = 0) then mret 0
  else f ← netif_at (netif_default s); if netif_is_up f then mret (netif_default s) else mret 0.

(** [netif->output(netif, p, dest)]. *)
Definition call_output (netif p dest : Z) : M Z :=
  f ← netif_at netif;
  if bool_decide (nf_output f = LPC_ETHARP_OUTPUT) then lpc_etharp_output netif p dest else fault.

(** ** Fragments *)

(** The inner loop: buffers that refer to [left_to_copy] bytes of the packet,
    from what is left of [p] on, behind [rambuf]; [inr]: no memory. *)
Fixpoint frag_copy (fuel : nat) (rambuf p left_to_copy newpbuflen : Z) : M (Z * Z + Z) :=
  if bool_decide (left_to_copy = 0) then mret (inl (p, newpbuflen)) else
  match fuel with
  | O => fun _ => Spin
  | S fuel =>
      plen ← pb p_len p;
      let newpbuflen := if bool_decide (left_to_copy < plen) then left_to_copy else plen in
      if bool_decide (newpbuflen = 0) then nx ← pb p_next p; frag_copy fuel rambuf nx left_to_copy newpbuflen
      else
        h ← gets n_heap;
        match memp_malloc MEMP_FRAG_PBUF h with
        | None => _ ← on_heap (pbuf_free rambuf); mret (inr ERR_MEM)
        | Some (pcr, h) =>
            _ ← modify (n_set_heap h);
            payload ← pb p_payload p;
            newpbuf ← on_heap (pbuf_alloced_custom PBUF_RAW newpbuflen PBUF_REF pcr payload newpbuflen);
            if bool_decide (newpbuf = 0) then _ ← modify (fun n => n_set_heap (memp_free pcr (n_heap n)) n); _ ← on_heap (pbuf_free rambuf); mret (inr ERR_MEM)
            else
              _ ← do_heap (pbuf_ref p);
              _ ← modify (fun n => n_set_heap (let h := n_heap n in mkHeap (pbufs h) (mem h) (<[pcr := (IPFRAG_FREE_PBUF_CUSTOM, p)]> (customs h))) n);
              _ ← do_heap (pbuf_cat rambuf newpbuf);
              let left_to_copy := u16 (left_to_copy - newpbuflen) in
              p ← (if bool_decide (left_to_copy <> 0) then pb p_next p else mret p);
              frag_copy fuel rambuf p left_to_copy newpbuflen
        end
  end.

(** The outer loop. *)
Fixpoint frag_loop (fuel : nat) (p netif dest mtu nfb omf left ofo poff : Z) (original_iphdr : ptr) : M Z :=
  if bool_decide (left = 0) then mret ERR_OK else
  match fuel with
  | O => fun _ => Spin
  | S fuel =>
      let last := bool_decide (left <= mtu - IP_HLEN) in
      let tmp := Z.lor omf (Z.land IP_OFFMASK ofo) in
      let tmp := if last then tmp else Z.lor tmp IP_MF in
      let cop := u16 (if last then left else nfb * 8) in
      rambuf ← on_heap (pbuf_alloc PBUF_LINK IP_HLEN PBUF_RAM);
      if bool_decide (rambuf = 0) then mret ERR_MEM
      else
        plen ← pb p_len p;
        _ ← assert (bool_decide (plen >= IP_HLEN));
        iphdr ← pb p_payload rambuf;
        d ← ldn original_iphdr 0 IP_HLEN;
        _ ← stn iphdr 0 d;
        _ ← do_heap (upd p (fun b => p_set_len (u16 (p_len b - poff)) (p_set_payload (at_off (p_payload b) poff) b)));
        h ← gets n_heap;
        r ← frag_copy (Z.to_nat cop + chain_fuel h) rambuf p cop 0;
        match r with
        | inr e => mret e
        | inl (p, newpbuflen) =>
            _ ← st16 iphdr iph_offset (lwip_htons tmp);
            _ ← st16 iphdr iph_len (lwip_htons (u16 (cop + IP_HLEN)));
            _ ← st16 iphdr iph_chksum 0;
            d ← ldn iphdr 0 IP_HLEN;
            _ ← st16 iphdr iph_chksum (inet_chksum d);
            _ ← call_output netif rambuf dest;
            _ ← on_heap (pbuf_free rambuf);
            frag_loop fuel p netif dest mtu nfb omf (u16 (left - cop)) (u16 (ofo + nfb)) newpbuflen original_iphdr
        end
  end.

Definition ip_frag (p netif dest : Z) : M Z :=
  f ← netif_at netif;
  original_iphdr ← pb p_payload p;
  o ← IPH_OFFSET original_iphdr;
  let tmp := lwip_ntohs o in
  let ofo := Z.land tmp IP_OFFMASK in
  let omf := Z.land tmp IP_MF in
  tot_len ← pb p_tot_len p;
  let left := u16 (tot_len - IP_HLEN) in
  let nfb := u16 ((nf_mtu f - IP_HLEN) ÷ 8) in
  frag_loop (Z.to_nat left) p netif dest (nf_mtu f) nfb omf left ofo IP_HLEN original_iphdr.

(** ** Output *)

(** The header in front of the data of [p]. *)
Definition put_header (p : Z) (iphdr : ptr) (src dest ttl tos proto : Z) (f : netif) : M () :=
  _ ← st8 iphdr iph_ttl ttl;
  _ ← st8 iphdr iph_proto proto;
  let chk_sum := u32 (LWIP_MAKE_U16 proto ttl) in
  _ ← st32 iphdr iph_dest dest;
  d ← ld32 iphdr iph_dest;
  let chk_sum := u32 (chk_sum + Z.land d 0xFFFF) in
  let chk_sum := u32 (chk_sum + Z.shiftr d 16) in
  _ ← st8 iphdr iph_v_hl (Z.lor (Z.shiftl 4 4) (IP_HLEN `div` 4));
  _ ← st8 iphdr iph_tos tos;
  v ← ld8 iphdr iph_v_hl;
  let chk_sum := u32 (chk_sum + LWIP_MAKE_U16 tos v) in
  tot_len ← pb p_tot_len p;
  _ ← st16 iphdr iph_len (lwip_htons tot_len);
  l ← ld16 iphdr iph_len;
  let chk_sum := u32 (chk_sum + l) in
  _ ← st16 iphdr iph_offset 0;
  s ← gets n_ip;
  _ ← st16 iphdr iph_id (lwip_htons (ip_id s));
  i ← ld16 iphdr iph_id;
  let chk_sum := u32 (chk_sum + i) in
  _ ← modify (n_set_ip (mkIpState (current_netif s) (current_header s) (current_iphdr_src s) (current_iphdr_dest s) (u16 (ip_id s + 1))));
  _ ← st32 iphdr iph_src (if ip_addr_isany src then nf_ip_addr f else src);
  a ← ld32 iphdr iph_src;
  let chk_sum := u32 (chk_sum + Z.land a 0xFFFF) in
  let chk_sum := u32 (chk_sum + Z.shiftr a 16) in
  let chk_sum := u32 (Z.shiftr chk_sum 16 + Z.land chk_sum 0xFFFF) in
  let chk_sum := u32 (Z.shiftr chk_sum 16 + chk_sum) in
  let chk_sum := u32 (Z.lnot chk_sum) in
  st16 iphdr iph_chksum chk_sum.

(** [dest]: [None] for [IP_HDRINCL], the header is there; [src]: 0 also for
    null. *)
Definition ip_output_if (p src : Z) (dest : option Z) (ttl tos proto netif : Z) : M Z :=
  ref ← pb p_ref p;
  _ ← assert (bool_decide (ref = 1));
  f ← netif_at netif;
  let send dest :=
    tot_len ← pb p_tot_len p;
    if bool_decide (nf_mtu f <> 0) && bool_decide (tot_len > nf_mtu f) then ip_frag p netif dest else call_output netif p dest in
  match dest with
  | Some dest =>
      r ← on_heap (pbuf_header p IP_HLEN);
      if bool_decide (r <> 0) then mret ERR_BUF
      else
        iphdr ← pb p_payload p;
        len ← pb p_len p;
        _ ← assert (bool_decide (len >= IP_HLEN));
        _ ← put_header p iphdr src dest ttl tos proto f;
        send dest
  | None =>
      iphdr ← pb p_payload p;
      dest ← ld32 iphdr iph_dest;
      send dest
  end.

Definition ip_output (p src dest ttl tos proto : Z) : M Z :=
  ref ← pb p_ref p;
  _ ← assert (bool_decide (ref = 1));
  netif ← ip_route dest;
  if bool_decide (netif = 0) then mret ERR_RTE else ip_output_if p src (Some dest) ttl tos proto netif.

End IpOut.

(** ** The header on the wire *)

Definition ip_header0 (tos len id ttl proto : Z) : list Z := [0x45; tos] ++ le2 (lwip_htons len) ++ le2 (lwip_htons id) ++ [0; 0; ttl; proto].
Definition ip_header (tos len id ttl proto src dest : Z) : list Z :=
  let pre := ip_header0 tos len id ttl proto in
  let post := le4 src ++ le4 dest in
  pre ++ le2 (inet_chksum (pre ++ le2 0 ++ post)) ++ post.

(** The words of a header, added up. *)
Fixpoint sum (ws : list Z) : Z := match ws with [] => 0 | w :: ws => w + sum ws end.

Lemma sum_bounds ws : Forall is_u16 ws -> 0 <= sum ws <= 65535 * Z.of_nat (length ws).
Proof. induction 1 as [|w ws Hw _ IH]; cbn [sum length]; unw; lia. Qed.

Lemma words_reps ws : Forall is_u16 ws -> reps (sum ws) (val (concat (map le2 ws))).
Proof.
  induction 1 as [|w ws Hw Hws IH]; [by apply reps_refl|]. cbn [map concat sum].
  change (val (le2 w ++ concat (map le2 ws))) with (w mod 256 + 256 * (w / 256 mod 256 + 256 * val (concat (map le2 ws)))).
  pose proof IH as (_ & Hs & _).
  eapply reps_trans; [apply (reps_add w w); [apply reps_refl; unw; lia|exact IH]|].
  rewrite <-(of_le2_le2 w) at 1 by done. apply reps_word; [apply u8_range| |done]. apply (u8_range (w / 256)).
Qed.

(** The end of the computation in [ip_output_if]. *)
Lemma inline_end c s : 0 <= c < 1048576 -> reps c s ->
  let c1 := u32 (Z.shiftr c 16 + Z.land c 0xFFFF) in
  let c2 := u32 (Z.shiftr c1 16 + c1) in
  u16 (u32 (Z.lnot c2)) = 65535 - oc s.
Proof.
  intros Hc Hr. cbn zeta. change (Z.land c 0xFFFF) with (Z.land c (Z.ones 16)). rewrite Z.land_ones, !Z.shiftr_div_pow2 by lia.
  change (2 ^ 16) with 65536. rewrite (u32_id (c / 65536 + c mod 65536)) by (unw; Z.to_euclidean_division_equations; lia).
  rewrite <-(oc_reps c s Hr).
  unfold u16, u32, Z.lnot, oc. case_bool_decide; Z.to_euclidean_division_equations; lia.
Qed.

Lemma le2_wrap v : le2 (u16 v) = le2 v.
Proof. unfold le2, u16. f_equal; [|f_equal]; Z.to_euclidean_division_equations; lia. Qed.

Lemma make_u16 a b : is_u8 a -> is_u8 b -> LWIP_MAKE_U16 a b = b + 256 * a.
Proof.
  intros Ha Hb. unfold LWIP_MAKE_U16. rewrite Z.shiftl_mul_pow2 by lia. rewrite lor_low by (lia || (change (2 ^ 8) with 256; unw; lia)).
  change (2 ^ 8) with 256. lia.
Qed.

(** What the words of the header add up to. *)
Lemma header_chksum tos len id ttl proto src dest : is_u8 tos -> is_u8 ttl -> is_u8 proto -> is_u32 src -> is_u32 dest ->
  inet_chksum (ip_header0 tos len id ttl proto ++ le2 0 ++ le4 src ++ le4 dest) =
  65535 - oc (sum [LWIP_MAKE_U16 tos 0x45; lwip_htons len; lwip_htons id; 0; LWIP_MAKE_U16 proto ttl; 0; src mod 65536; src / 65536; dest mod 65536; dest / 65536]).
Proof.
  intros H1 H2 H3 H4 H5. set (ws := [_; _; _; _; _; _; _; _; _; _]).
  assert (is_u16 (LWIP_MAKE_U16 tos 0x45) /\ is_u16 (LWIP_MAKE_U16 proto ttl)) as [W1 W2] by (rewrite !make_u16 by (done || (unw; lia)); unw; lia).
  assert (is_u16 (src mod 65536) /\ is_u16 (src / 65536) /\ is_u16 (dest mod 65536) /\ is_u16 (dest / 65536)) as (W3 & W4 & W5 & W6)
    by (unw; split_and!; Z.to_euclidean_division_equations; lia).
  assert (Forall is_u16 ws) as Hws by (subst ws; repeat (constructor; [first [done|apply htons_range|unw; lia]|]); constructor).
  assert (concat (map le2 ws) = ip_header0 tos len id ttl proto ++ le2 0 ++ le4 src ++ le4 dest) as E.
  { subst ws. cbn [map concat]. unfold ip_header0, le4. rewrite !make_u16 by (done || (unw; lia)). unfold le2 at 1 5. cbn [app].
    unfold le2. cbn [app]. unw. clear W1 W2 W3 W4 W5 W6. repeat (apply (f_equal2 cons); [first [reflexivity|Z.to_euclidean_division_equations; lia]|]). reflexivity. }
  rewrite inet_chksum_oc; [|rewrite <-E|rewrite <-E; subst ws; cbn; lia].
  - rewrite <-E. f_equal. symmetry. apply oc_reps. by apply words_reps.
  - clear. induction ws as [|w ws IH]; [constructor|]. cbn [map concat]. apply Forall_app. split; [apply le2_bytes|done].
Qed.

Lemma land_low16 v : Z.land v 65535 = v mod 65536.
Proof. change 65535 with (Z.ones 16). by apply Z.land_ones. Qed.
Lemma shiftr_16 v : Z.shiftr v 16 = v / 65536.
Proof. by apply Z.shiftr_div_pow2. Qed.

Lemma acc_sum m1 dl dh m2 l i al ah : Forall is_u16 [m1; dl; dh; m2; l; i; al; ah] ->
  u32 (u32 (u32 (u32 (u32 (u32 (u32 (u32 m1 + dl) + dh) + m2) + l) + i) + al) + ah) = sum [m2; l; i; 0; m1; 0; al; ah; dl; dh] /\
  0 <= sum [m2; l; i; 0; m1; 0; al; ah; dl; dh] < 1048576.
Proof.
  intros Hw. repeat (apply Forall_cons in Hw as [? Hw]). cbn [sum]. unw.
  repeat match goal with |- context [u32 ?x] => lazymatch x with context [u32 _] => fail | _ => rewrite (u32_id x) by (unw; lia) end end. lia.
Qed.

Definition bump_id {E} (n : Net E) : Net E :=
  let s := n_ip n in
  n_set_ip (mkIpState (current_netif s) (current_header s) (current_iphdr_src s) (current_iphdr_dest s) (u16 (ip_id s + 1))) n.

Lemma put_header_spec {E} p q src dest ttl tos proto f (n : Net E) b x r :
  pbufs (n_heap n) !! p = Some b -> nbytes q (x ++ r) n -> length x = 20%nat ->
  is_u8 ttl -> is_u8 tos -> is_u8 proto -> is_u32 src -> is_u32 dest -> is_u32 (nf_ip_addr f) ->
  put_header p q src dest ttl tos proto f n =
  Ret (bump_id (nset q (ip_header tos (p_tot_len b) (ip_id (n_ip n)) ttl proto (if ip_addr_isany src then nf_ip_addr f else src) dest ++ r) n), ()).
Proof.
  intros Hp Hq Hx Httl Htos Hproto Hsrc Hdest Hif.
  set (a := if ip_addr_isany src then nf_ip_addr f else src). assert (is_u32 a) as Ha by (subst a; by destruct (ip_addr_isany src)).
  do 20 (destruct x as [|? x]; [done|]). destruct x; [|done]. clear Hx. cbn [app] in Hq.
  rewrite (nset_start _ _ _ Hq) at 1. unfold put_header, iph_ttl, iph_proto, iph_dest, iph_v_hl, iph_tos, iph_len, iph_offset, iph_id, iph_src, iph_chksum.
  do 7 mem_step Hq. erewrite bind_step; [|apply pb_set; exact Hp]. do 3 mem_step Hq.
  erewrite bind_step; [|reflexivity].
  match goal with |- context [n_ip (nset q ?d n)] => change (n_ip (nset q d n)) with (n_ip n) end.
  do 2 mem_step Hq. erewrite bind_step; [|reflexivity].
  match goal with |- context [n_set_ip ?s (nset q ?d n)] => change (n_set_ip s (nset q d n)) with (nset q d (n_set_ip s n)) end.
  change (nbytes q (z :: z0 :: z1 :: z2 :: z3 :: z4 :: z5 :: z6 :: z7 :: z8 :: z9 :: z10 :: z11 :: z12 :: z13 :: z14 :: z15 :: z16 :: z17 :: z18 :: r) (bump_id n)) in Hq.
  match goal with |- context [nset q _ (n_set_ip ?s n)] => change (n_set_ip s n) with (bump_id n) end.
  fold a. do 2 mem_step Hq. change (u8 (Z.lor (4 ≪ 4) (IP_HLEN `div` 4))) with 0x45.
  match goal with |- st16 q 10 ?v (nset q ?d _) = _ => set (chk := v); rewrite (st16_at q 10 chk d _ _ Hq) by mem_side end. mem_eval.
  assert (le2 chk = le2 (inet_chksum (ip_header0 tos (p_tot_len b) (ip_id (n_ip n)) ttl proto ++ le2 0 ++ le4 a ++ le4 dest))) as Hc.
  { rewrite header_chksum by done. rewrite <-(le2_wrap chk). f_equal. unfold chk. clear chk. 
    rewrite !of_le4_le4, !of_le2_le2 by (done || apply htons_range).
    rewrite (land_low16 a), (land_low16 dest), (shiftr_16 a), (shiftr_16 dest).
    assert (is_u16 (dest mod 65536) /\ is_u16 (dest / 65536) /\ is_u16 (a mod 65536) /\ is_u16 (a / 65536)) as (W1 & W2 & W3 & W4)
      by (unw; split_and!; Z.to_euclidean_division_equations; lia).
    destruct (acc_sum (LWIP_MAKE_U16 proto ttl) (dest mod 65536) (dest / 65536) (LWIP_MAKE_U16 tos 69) (lwip_htons (p_tot_len b)) (lwip_htons (ip_id (n_ip n)))
      (a mod 65536) (a / 65536)) as [Es Hb].
    { rewrite !make_u16 by (done || (unw; lia)). repeat (constructor; [first [done|apply htons_range|unw; lia]|]). constructor. }
    rewrite Es. eapply inline_end; [exact Hb|]. apply reps_refl. lia. }
  unfold ip_header. rewrite <-Hc. rewrite !u8_id by done. reflexivity.
Qed.

Lemma ip_header0_bytes tos len id ttl proto : is_u8 tos -> is_u8 ttl -> is_u8 proto -> bytes (ip_header0 tos len id ttl proto).
Proof.
  intros H1 H2 H3. unfold ip_header0. apply Forall_app; split; [repeat constructor; unw; lia|].
  apply Forall_app; split; [apply le2_bytes|]. apply Forall_app; split; [apply le2_bytes|]. repeat constructor; unw; lia.
Qed.

Lemma ip_header_length tos len id ttl proto src dest : length (ip_header tos len id ttl proto src dest) = 20%nat.
Proof. done. Qed.

(** The receiver's check of a header. *)
Lemma ip_header_checks tos len id ttl proto src dest : is_u8 tos -> is_u8 ttl -> is_u8 proto ->
  inet_chksum (ip_header tos len id ttl proto src dest) = 0.
Proof.
  intros H1 H2 H3. unfold ip_header. set (pre := ip_header0 tos len id ttl proto). set (post := le4 src ++ le4 dest).
  assert (bytes pre) as Hpre by (by apply ip_header0_bytes).
  assert (bytes post) as Hpost by (apply Forall_app; split; apply le4_bytes).
  assert (forall w, is_u16 w -> inet_chksum (pre ++ le2 w ++ post) = 65535 - oc (val pre + w + val post)) as Hw
    by (intros w Hw; apply inet_chksum_at; done || reflexivity).
  rewrite (Hw 0) by (unw; lia). pose proof (val_nonneg pre Hpre) as V1. pose proof (val_nonneg post Hpost) as V2.
  set (s := val pre + val post) in *. replace (val pre + 0 + val post) with s by (subst s; lia).
  pose proof (oc_range s ltac:(lia)) as [Hr _]. rewrite Hw by (unw; lia). replace (val pre + (65535 - oc s) + val post) with (s + (65535 - oc s)) by (subst s; lia).
  rewrite (oc_complement s (65535 - oc s)); [done|lia|by left].
Qed.

Section Output.
Context {E : Type} `{Malloc, LinkDriver E}.
Implicit Types n : Net E.

(** What a function of IP leaves: the packet with [hdr] in front, the next
    number for a datagram, and all else as before. *)
Record ip_sent (p : Z) (s : seg) (l : list seg) (b : pbuf) (hdr : list Z) (n n' : Net E) : Prop := {
  is_heap : pushed p s l b hdr (n_heap n) (n_heap n');
  is_rest : n' = n_set_heap (n_heap n') (bump_id n);
}.

Lemma ip_output_if_sends n p s l b src dest ttl tos proto a f :
  has_room (n_heap n) p IP_HLEN s l b -> p_ref b = 1 -> netifs (n_if n) !! a = Some f ->
  nf_mtu f = 0 \/ data_len (s :: l) + IP_HLEN <= nf_mtu f ->
  is_u8 ttl -> is_u8 tos -> is_u8 proto -> is_u32 src -> is_u32 dest -> is_u32 (nf_ip_addr f) ->
  exists n', ip_output_if p src (Some dest) ttl tos proto a n = call_output a p dest n' /\
    ip_sent p s l b (ip_header tos (data_len (s :: l) + IP_HLEN) (ip_id (n_ip n)) ttl proto (if ip_addr_isany src then nf_ip_addr f else src) dest) n n'.
Proof.
  intros Hr Href Hf Hmtu H1 H2 H3 H4 H5 H6. pose proof (hr_buf _ _ _ _ _ _ Hr) as Hb.
  destruct (push_spec _ _ _ _ _ IP_HLEN Hr ltac:(done)) as (x & Hx & Hpush & Hbs & Hset).
  destruct (packet_alive _ _ _ _ _ _ (hr_pkt _ _ _ _ _ _ Hr)) as (Ha & Hnz & b' & Hb' & Ht & Hlen & _). rewrite Hb in Hb'. injection Hb' as <-.
  set (n1 := n_set_heap (put p (moved IP_HLEN b) (n_heap n)) n). set (q := p_payload (moved IP_HLEN b)) in *.
  set (hdr := ip_header tos (data_len (s :: l) + IP_HLEN) (ip_id (n_ip n)) ttl proto (if ip_addr_isany src then nf_ip_addr f else src) dest).
  assert (pbufs (n_heap n1) !! p = Some (moved IP_HLEN b)) as Hb1 by apply put_same.
  assert (pushed p s l b hdr (n_heap n) (n_heap (bump_id (nset q (hdr ++ sg_data s) n1)))) as Hpu by (by apply Hset).
  exists (bump_id (nset q (hdr ++ sg_data s) n1)). split; [|by split].
  unfold ip_output_if. erewrite bind_step by (by apply pb_at). cbv beta. erewrite bind_step by (apply assert_at; by rewrite Href). cbv beta.
  erewrite bind_step by (by apply netif_at_at). cbv beta. erewrite bind_step by (apply on_heap_at; exact Hpush). cbv beta.
  rewrite (bool_decide_false (0 <> 0)) by lia. change (n_set_heap _ n) with n1.
  erewrite bind_step by (by apply pb_at). cbv beta. erewrite bind_step by (by apply pb_at). cbv beta.
  erewrite bind_step by (apply assert_at; apply bool_decide_eq_true; cbn; pose proof (seg_len_nonneg s); lia). cbv beta.
  erewrite bind_step by (eapply (put_header_spec p q src dest ttl tos proto f n1 _ x (sg_data s)); try done; unfold IP_HLEN in Hx; lia). cbv beta.
  change (p_tot_len (moved IP_HLEN b)) with (p_tot_len b + IP_HLEN). rewrite Ht, Z.add_0_r. fold hdr.
  change (ip_header _ _ (ip_id (n_ip n1)) _ _ _ _) with hdr.
  erewrite bind_step by (apply (pb_at p_tot_len p _ (moved IP_HLEN b)); rewrite (pu_bufs _ _ _ _ _ _ _ Hpu); apply lookup_insert_eq).
  cbv beta. change (p_tot_len (moved IP_HLEN b)) with (p_tot_len b + IP_HLEN). rewrite Ht, Z.add_0_r.
  replace (bool_decide (nf_mtu f <> 0) && bool_decide (data_len (s :: l) + IP_HLEN > nf_mtu f)) with false; [done|].
  symmetry. apply andb_false_iff. destruct Hmtu as [Hm|Hm]; [left|right]; apply bool_decide_eq_false; lia.
Qed.
End Output.
