(* ===== verification/Icmp.v ===== *)
(** * ICMP ([src/lwip/src/core/ipv4/icmp.c])

    Echo requests are answered in the packet they came in, or in a copy of it
    when there is no room for the link header; other messages are dropped.
    Packets that cannot be delivered are reported to the sender. *)

From stdpp Require Import gmap.
From S2P Require Import Prelude LwipDef InetChksum IpAddr Pbuf PbufOps PbufData NetState Etharp IpOut.

Definition ICMP_ER : Z := 0.
Definition ICMP_DUR : Z := 3.
Definition ICMP_ECHO : Z := 8.
Definition ICMP_TE : Z := 11.
Definition ICMP_DUR_PROTO : Z := 2.
Definition ICMP_DUR_PORT : Z := 3.
Definition ICMP_TE_FRAG : Z := 1.
Definition ICMP_TTL : Z := IP_DEFAULT_TTL.
Definition ICMP_DEST_UNREACH_DATASIZE : Z := 8.

(** The fields of [struct icmp_echo_hdr]. *)
Definition icmph_type : Z := 0.
Definition icmph_code : Z := 1.
Definition icmph_chksum : Z := 2.
Definition icmph_id : Z := 4.
Definition icmph_seqno : Z := 6.
Definition sizeof_icmp_echo_hdr : Z := 8.

(** The checksum of a reply, from that of the request. *)
Definition echo_chksum (chksum : Z) : Z :=
  if bool_decide (chksum >= PP_HTONS (0xffff - Z.shiftl ICMP_ECHO 8))
  then u16 (chksum + (PP_HTONS (Z.shiftl ICMP_ECHO 8) + 1)) else u16 (chksum + PP_HTONS (Z.shiftl ICMP_ECHO 8)).

Section Icmp.
Context {E : Type} `{Malloc, LinkDriver E}.
Notation M := (NetM E).

Definition icmp_send_response (p type code : Z) : M () :=
  let len := sizeof_icmp_echo_hdr + IP_HLEN + ICMP_DEST_UNREACH_DATASIZE in
  q ← on_heap (pbuf_alloc PBUF_IP len PBUF_RAM);
  if bool_decide (q = 0) then mret ()
  else
    qlen ← pb p_len q;
    _ ← assert (bool_decide (qlen >= len));
    iphdr ← pb p_payload p;
    icmphdr ← pb p_payload q;
    _ ← st8 icmphdr icmph_type type;
    _ ← st8 icmphdr icmph_code code;
    _ ← st16 icmphdr icmph_id 0;
    _ ← st16 icmphdr icmph_seqno 0;
    d ← ldn iphdr 0 (IP_HLEN + ICMP_DEST_UNREACH_DATASIZE);
    _ ← stn icmphdr sizeof_icmp_echo_hdr d;
    _ ← st16 icmphdr icmph_chksum 0;
    d ← ldn icmphdr 0 qlen;
    _ ← st16 icmphdr icmph_chksum (inet_chksum d);
    src ← ld32 iphdr iph_src;
    _ ← ip_output q 0 src ICMP_TTL 0 IP_PROTO_ICMP;
    _ ← on_heap (pbuf_free q);
    mret ().

Definition icmp_dest_unreach (p t : Z) : M () := icmp_send_response p ICMP_DUR t.
Definition icmp_time_exceeded (p t : Z) : M () := icmp_send_response p ICMP_TE t.

(** [LWIP_ICMP_ECHO_CHECK_INPUT_PBUF_LEN]: the packet to answer in, its payload
    at the ICMP header, and its IP header; [None]: no memory. *)
Definition echo_room (p hlen : Z) (iphdr : ptr) : M (option (Z * ptr)) :=
  r ← on_heap (pbuf_header p (PBUF_IP_HLEN + PBUF_LINK_HLEN));
  if bool_decide (r <> 0) then
    r ← on_heap (pbuf_header p hlen);
    if bool_decide (r <> 0) then _ ← assert false; mret None
    else
      tot_len ← pb p_tot_len p;
      r ← on_heap (pbuf_alloc PBUF_LINK tot_len PBUF_RAM);
      if bool_decide (r = 0) then mret None
      else
        rlen ← pb p_len r;
        _ ← assert (bool_decide (rlen >= hlen + sizeof_icmp_echo_hdr));
        e ← on_heap (pbuf_copy r p);
        if bool_decide (e <> ERR_OK) then _ ← assert false; mret None
        else
          iphdr ← pb p_payload r;
          e ← on_heap (pbuf_header r (- hlen));
          if bool_decide (e <> 0) then _ ← assert false; mret None
          else _ ← on_heap (pbuf_free p); mret (Some (r, iphdr))
  else
    r ← on_heap (pbuf_header p (- (PBUF_IP_HLEN + PBUF_LINK_HLEN)));
    if bool_decide (r <> 0) then _ ← assert false; mret None else mret (Some (p, iphdr)).

(** The answer: the request with the addresses exchanged. *)
Definition echo_reply (p hlen : Z) (iphdr : ptr) (inp : Z) : M () :=
  iecho ← pb p_payload p;
  s ← gets n_ip;
  _ ← st32 iphdr iph_src (current_iphdr_dest s);
  _ ← st32 iphdr iph_dest (current_iphdr_src s);
  _ ← st8 iecho icmph_type ICMP_ER;
  c ← ld16 iecho icmph_chksum;
  _ ← st16 iecho icmph_chksum (echo_chksum c);
  _ ← st8 iphdr iph_ttl ICMP_TTL;
  _ ← st16 iphdr iph_chksum 0;
  d ← ldn iphdr 0 IP_HLEN;
  _ ← st16 iphdr iph_chksum (inet_chksum d);
  r ← on_heap (pbuf_header p hlen);
  if bool_decide (r <> 0) then assert false
  else _ ← ip_output_if p (current_iphdr_dest s) None ICMP_TTL 0 IP_PROTO_ICMP inp; mret ().

Definition drop (p : Z) : M () := _ ← on_heap (pbuf_free p); mret ().

Definition icmp_input (p inp : Z) : M () :=
  iphdr ← pb p_payload p;
  hl ← IPH_HL iphdr;
  let hlen := hl * 4 in
  r ← on_heap (pbuf_header p (- hlen));
  tot_len ← pb p_tot_len p;
  if bool_decide (r <> 0) || bool_decide (tot_len < 4) then drop p
  else
    payload ← pb p_payload p;
    type ← ld8 payload icmph_type;
    if bool_decide (type = ICMP_ECHO) then
      s ← gets n_ip;
      if ip_addr_ismulticast (current_iphdr_dest s) then drop p
      else if bool_decide (tot_len < sizeof_icmp_echo_hdr) then drop p
      else
        d ← pbuf_data p;
        if bool_decide (inet_chksum_pbuf d <> 0) then drop p
        else
          o ← echo_room p hlen iphdr;
          match o with
          | None => drop p
          | Some (p, iphdr) => _ ← echo_reply p hlen iphdr inp; drop p
          end
    else drop p.

End Icmp.
