(* ===== verification/Raw.v ===== *)
(** * The raw protocol ([src/lwip/src/core/raw.c])

    Control blocks that take packets of a protocol as they come, before UDP
    and ICMP see them. *)

From stdpp Require Import gmap.
From S2P Require Import Prelude LwipDef InetChksum IpAddr Pbuf PbufOps PbufData NetState Etharp IpOut.

Definition RAW_TTL : Z := IP_DEFAULT_TTL.
(** [IP_PCB], the pointer to the next one, the protocol and two pointers. *)
Definition sizeof_raw_pcb : Z := 28.
Definition MEMP_RAW_PCB : Z := sizeof_raw_pcb.

(** The functions given to [raw_recv]: [raw_recv_fn f arg pcb p addr].  They
    work on packet buffers and on the state of the program. *)
Class RawApp (E : Type) := { raw_recv_fn : Z -> Z -> Z -> Z -> Z -> Heap -> E -> outcome (Heap * E * Z) }.

Definition rp_set_local x (b : raw_pcb) : raw_pcb :=
  mkRawPcb x (rp_remote_ip b) (rp_so_options b) (rp_tos b) (rp_ttl b) (rp_protocol b) (rp_recv b) (rp_recv_arg b).
Definition rp_set_remote x (b : raw_pcb) : raw_pcb :=
  mkRawPcb (rp_local_ip b) x (rp_so_options b) (rp_tos b) (rp_ttl b) (rp_protocol b) (rp_recv b) (rp_recv_arg b).
Definition rp_set_recv f a (b : raw_pcb) : raw_pcb :=
  mkRawPcb (rp_local_ip b) (rp_remote_ip b) (rp_so_options b) (rp_tos b) (rp_ttl b) (rp_protocol b) f a.

(** A list of blocks without the block at [pcb]; those behind it stay. *)
Fixpoint unlink (pcb : Z) (l : list Z) : list Z :=
  match l with [] => [] | a :: l => if bool_decide (a = pcb) then l else a :: unlink pcb l end.

Section Raw.
Context {E : Type} `{Malloc, LinkDriver E, RawApp E}.
Notation M := (NetM E).

Definition call_raw_recv (f arg pcb p addr : Z) : M Z := fun n =>
  '(h, e, r) ← raw_recv_fn f arg pcb p addr (n_heap n) (n_ext n); Ret (n_set_ext e (n_set_heap h n), r).

Definition raw_at (pcb : Z) : M raw_pcb := s ← gets n_raw; need (raws s !! pcb).
Definition raw_put (pcb : Z) (b : raw_pcb) : M () := modify (fun n => n_set_raw (mkRawState (<[pcb := b]> (raws (n_raw n))) (raw_pcbs (n_raw n))) n).
Definition raw_upd (pcb : Z) (f : raw_pcb -> raw_pcb) : M () := b ← raw_at pcb; raw_put pcb (f b).
Definition raw_set_list (l : list Z) : M () := modify (fun n => n_set_raw (mkRawState (raws (n_raw n)) l) n).

(** The loop over the blocks; [done]: those in front, [prev] is the last of
    them. *)
Fixpoint raw_loop (l done : list Z) (p proto inp : Z) : M Z :=
  match l with
  | [] => mret 0
  | pcb :: l =>
      b ← raw_at pcb;
      s ← gets n_ip;
      f ← netif_at inp;
      let here := bool_decide (rp_protocol b = proto) &&
        (ip_addr_isany (rp_local_ip b) || ip_addr_cmp (rp_local_ip b) (current_iphdr_dest s)) in
      if here && (bool_decide (Z.land (rp_so_options b) SOF_BROADCAST <> 0) || bool_decide (ip4_addr_isbroadcast (current_iphdr_dest s) f = 0)) &&
         bool_decide (rp_recv b <> 0)
      then
        eaten ← call_raw_recv (rp_recv b) (rp_recv_arg b) pcb p (current_iphdr_src s);
        if bool_decide (eaten <> 0) then
          _ ← (if bool_decide (done <> []) then raw_set_list (pcb :: done ++ l) else mret ());
          mret 1
        else raw_loop l (done ++ [pcb]) p proto inp
      else raw_loop l (done ++ [pcb]) p proto inp
  end.

Definition raw_input (p inp : Z) : M Z :=
  iphdr ← pb p_payload p;
  proto ← IPH_PROTO iphdr;
  s ← gets n_raw;
  raw_loop (raw_pcbs s) [] p proto inp.

Definition raw_bind (pcb ipaddr : Z) : M Z := _ ← raw_upd pcb (rp_set_local ipaddr); mret ERR_OK.
Definition raw_connect (pcb ipaddr : Z) : M Z := _ ← raw_upd pcb (rp_set_remote ipaddr); mret ERR_OK.
Definition raw_recv (pcb recv recv_arg : Z) : M () := raw_upd pcb (rp_set_recv recv recv_arg).

(** The packet that goes down the stack: [p], or a header in front of it;
    [inr]: the error. *)
Definition raw_header (p : Z) : M (Z + Z) :=
  r ← on_heap (pbuf_header p IP_HLEN);
  if bool_decide (r <> 0) then
    q ← on_heap (pbuf_alloc PBUF_IP 0 PBUF_RAM);
    if bool_decide (q = 0) then mret (inr ERR_MEM)
    else
      tot_len ← pb p_tot_len p;
      _ ← (if bool_decide (tot_len <> 0) then do_heap (pbuf_chain q p) else mret ());
      mret (inl q)
  else
    r ← on_heap (pbuf_header p (- IP_HLEN));
    if bool_decide (r <> 0) then _ ← assert false; mret (inr ERR_MEM) else mret (inl p).

Definition free_header (q p : Z) : M () := if bool_decide (q <> p) then _ ← on_heap (pbuf_free q); mret () else mret ().

Definition raw_sendto (pcb p ipaddr : Z) : M Z :=
  r ← raw_header p;
  match r with
  | inr e => mret e
  | inl q =>
      netif ← ip_route ipaddr;
      if bool_decide (netif = 0) then _ ← free_header q p; mret ERR_RTE
      else
        b ← raw_at pcb;
        f ← netif_at netif;
        if bool_decide (Z.land (rp_so_options b) SOF_BROADCAST = 0) && bool_decide (ip4_addr_isbroadcast ipaddr f <> 0)
        then _ ← free_header q p; mret ERR_VAL
        else
          let src_ip := if ip_addr_isany (rp_local_ip b) then nf_ip_addr f else rp_local_ip b in
          err ← ip_output_if q src_ip (Some ipaddr) (rp_ttl b) (rp_tos b) (rp_protocol b) netif;
          _ ← free_header q p;
          mret err
  end.

Definition raw_send (pcb p : Z) : M Z := b ← raw_at pcb; raw_sendto pcb p (rp_remote_ip b).

Definition raw_remove (pcb : Z) : M () :=
  s ← gets n_raw;
  _ ← raw_set_list (unlink pcb (raw_pcbs s));
  _ ← modify (fun n => n_set_raw (mkRawState (delete pcb (raws (n_raw n))) (raw_pcbs (n_raw n))) n);
  modify (fun n => n_set_heap (memp_free pcb (n_heap n)) n).

Definition raw_new (proto : Z) : M Z :=
  h ← gets n_heap;
  match memp_malloc MEMP_RAW_PCB h with
  | None => mret 0
  | Some (pcb, h) =>
      _ ← modify (n_set_heap h);
      _ ← raw_put pcb (mkRawPcb 0 0 0 0 RAW_TTL proto 0 0);
      s ← gets n_raw;
      _ ← raw_set_list (pcb :: raw_pcbs s);
      mret pcb
  end.

End Raw.
