(* ===== verification/Udp.v ===== *)
(** * UDP ([src/lwip/src/core/udp.c])

    Control blocks with local and remote addresses and ports; datagrams that
    come in are given to the block they match, datagrams that go out get the
    header and the checksum. *)

From stdpp Require Import gmap.
From S2P Require Import Prelude LwipDef InetChksum IpAddr Pbuf PbufOps PbufData NetState NetMem Etharp IpOut Icmp Raw.

Definition UDP_LOCAL_PORT_RANGE_START : Z := 0xc000.
Definition UDP_LOCAL_PORT_RANGE_END : Z := 0xffff.
Definition UDP_HLEN : Z := 8.
Definition UDP_TTL : Z := IP_DEFAULT_TTL.
Definition UDP_FLAGS_NOCHKSUM : Z := 0x01.
Definition UDP_FLAGS_CONNECTED : Z := 0x04.
(** [IP_PCB], the pointer to the next one, the flags, the ports and two
    pointers. *)
Definition sizeof_udp_pcb : Z := 32.
Definition MEMP_UDP_PCB : Z := sizeof_udp_pcb.

(** The fields of [struct udp_hdr]. *)
Definition udph_src : Z := 0.
Definition udph_dest : Z := 2.
Definition udph_len : Z := 4.
Definition udph_chksum : Z := 6.

(** The functions given to [udp_recv]: [udp_recv_fn f arg pcb p addr port]. *)
Class UdpApp (E : Type) := { udp_recv_fn : Z -> Z -> Z -> Z -> Z -> Z -> NetM E () }.

Definition up_set_local_ip x (b : udp_pcb) : udp_pcb :=
  mkUdpPcb x (up_remote_ip b) (up_so_options b) (up_tos b) (up_ttl b) (up_flags b) (up_local_port b) (up_remote_port b) (up_recv b) (up_recv_arg b).
Definition up_set_local_port x (b : udp_pcb) : udp_pcb :=
  mkUdpPcb (up_local_ip b) (up_remote_ip b) (up_so_options b) (up_tos b) (up_ttl b) (up_flags b) x (up_remote_port b) (up_recv b) (up_recv_arg b).
Definition up_set_remote ip port flags (b : udp_pcb) : udp_pcb :=
  mkUdpPcb (up_local_ip b) ip (up_so_options b) (up_tos b) (up_ttl b) flags (up_local_port b) port (up_recv b) (up_recv_arg b).
Definition up_set_recv f a (b : udp_pcb) : udp_pcb :=
  mkUdpPcb (up_local_ip b) (up_remote_ip b) (up_so_options b) (up_tos b) (up_ttl b) (up_flags b) (up_local_port b) (up_remote_port b) f a.

(** Whether a block takes the datagrams to a port of an address; [broadcast]:
    it is one of the interface [inp]. *)
Definition local_match (b : udp_pcb) (dest dest_ip : Z) (broadcast : bool) (inp : netif) : bool :=
  bool_decide (up_local_port b = dest) &&
  (negb broadcast && ip_addr_isany (up_local_ip b) || ip_addr_cmp (up_local_ip b) dest_ip ||
   broadcast && bool_decide (Z.land (up_so_options b) SOF_BROADCAST <> 0) &&
   (ip_addr_isany (up_local_ip b) || ip_addr_netcmp (up_local_ip b) dest_ip (nf_netmask inp))).

Definition remote_match (b : udp_pcb) (src src_ip : Z) : bool :=
  bool_decide (up_remote_port b = src) && (ip_addr_isany (up_remote_ip b) || ip_addr_cmp (up_remote_ip b) src_ip).

Definition connected (b : udp_pcb) : bool := bool_decide (Z.land (up_flags b) UDP_FLAGS_CONNECTED <> 0).

(** "other PCB already binds to this local IP and port". *)
Definition port_taken (b : udp_pcb) (ipaddr port : Z) : bool :=
  bool_decide (up_local_port b = port) && (ip_addr_isany (up_local_ip b) || ip_addr_isany ipaddr || ip_addr_cmp (up_local_ip b) ipaddr).

Section Udp.
Context {E : Type} `{Malloc, LinkDriver E, UdpApp E}.
Notation M := (NetM E).

Definition udp_at (pcb : Z) : M udp_pcb := s ← gets n_udp; need (udps s !! pcb).
Definition udp_put (pcb : Z) (b : udp_pcb) : M () :=
  modify (fun n => n_set_udp (mkUdpState (<[pcb := b]> (udps (n_udp n))) (udp_pcbs (n_udp n)) (udp_port (n_udp n))) n).
Definition udp_upd (pcb : Z) (f : udp_pcb -> udp_pcb) : M () := b ← udp_at pcb; udp_put pcb (f b).
Definition udp_set_list (l : list Z) : M () := modify (fun n => n_set_udp (mkUdpState (udps (n_udp n)) l (udp_port (n_udp n))) n).
Definition udp_set_port (port : Z) : M () := modify (fun n => n_set_udp (mkUdpState (udps (n_udp n)) (udp_pcbs (n_udp n)) port) n).

(** ** Ports *)

(** Whether a block has the port. *)
Fixpoint port_used (l : list Z) (port : Z) : M bool :=
  match l with
  | [] => mret false
  | pcb :: l => b ← udp_at pcb; if bool_decide (up_local_port b = port) then mret true else port_used l port
  end.

Definition next_port (port : Z) : Z := if bool_decide (port = UDP_LOCAL_PORT_RANGE_END) then UDP_LOCAL_PORT_RANGE_START else u16 (port + 1).

(** From [again] on. *)
Fixpoint new_port_loop (fuel : nat) (n : Z) : M Z :=
  match fuel with
  | O => fun _ => Spin
  | S fuel =>
      s ← gets n_udp;
      let port := next_port (udp_port s) in
      _ ← udp_set_port port;
      used ← port_used (udp_pcbs s) port;
      if (used : bool) then
        if bool_decide (n + 1 > UDP_LOCAL_PORT_RANGE_END - UDP_LOCAL_PORT_RANGE_START) then mret 0 else new_port_loop fuel (u16 (n + 1))
      else mret port
  end.

Definition udp_new_port : M Z := new_port_loop (Z.to_nat 0x4001) 0.

(** The loop of [udp_bind]: whether the block is in the list already; [None]:
    the port is taken. *)
Fixpoint bind_loop (l : list Z) (pcb ipaddr port : Z) (rebind : bool) : M (option bool) :=
  match l with
  | [] => mret (Some rebind)
  | ipcb :: l =>
      if bool_decide (pcb = ipcb) then _ ← assert (negb rebind); bind_loop l pcb ipaddr port true
      else b ← udp_at ipcb; if port_taken b ipaddr port then mret None else bind_loop l pcb ipaddr port rebind
  end.

Definition udp_bind (pcb ipaddr port : Z) : M Z :=
  s ← gets n_udp;
  r ← bind_loop (udp_pcbs s) pcb ipaddr port false;
  match r with
  | None => mret ERR_USE
  | Some rebind =>
      _ ← udp_upd pcb (up_set_local_ip ipaddr);
      port ← (if bool_decide (port = 0) then udp_new_port else mret port);
      if bool_decide (port = 0) then mret ERR_USE
      else
        _ ← udp_upd pcb (up_set_local_port port);
        s ← gets n_udp;
        _ ← (if (rebind : bool) then mret () else udp_set_list (pcb :: udp_pcbs s));
        mret ERR_OK
  end.

(** A block without a port gets one. *)
Definition ensure_bound (pcb : Z) : M Z :=
  b ← udp_at pcb; if bool_decide (up_local_port b = 0) then udp_bind pcb (up_local_ip b) (up_local_port b) else mret ERR_OK.

Definition udp_connect (pcb ipaddr port : Z) : M Z :=
  err ← ensure_bound pcb;
  if bool_decide (err <> ERR_OK) then mret err
  else
    _ ← udp_upd pcb (fun b => up_set_remote ipaddr port (Z.lor (up_flags b) UDP_FLAGS_CONNECTED) b);
    s ← gets n_udp;
    _ ← (if bool_decide (pcb ∈ udp_pcbs s) then mret () else udp_set_list (pcb :: udp_pcbs s));
    mret ERR_OK.

Definition udp_disconnect (pcb : Z) : M () := udp_upd pcb (fun b => up_set_remote IPADDR_ANY 0 (Z.land (up_flags b) (Z.lnot UDP_FLAGS_CONNECTED)) b).
Definition udp_recv (pcb recv recv_arg : Z) : M () := udp_upd pcb (up_set_recv recv recv_arg).

Definition udp_remove (pcb : Z) : M () :=
  s ← gets n_udp;
  _ ← udp_set_list (unlink pcb (udp_pcbs s));
  _ ← modify (fun n => n_set_udp (mkUdpState (delete pcb (udps (n_udp n))) (udp_pcbs (n_udp n)) (udp_port (n_udp n))) n);
  modify (fun n => n_set_heap (memp_free pcb (n_heap n)) n).

Definition udp_new : M Z :=
  h ← gets n_heap;
  match memp_malloc MEMP_UDP_PCB h with
  | None => mret 0
  | Some (pcb, h) => _ ← modify (n_set_heap h); _ ← udp_put pcb (mkUdpPcb 0 0 0 0 UDP_TTL 0 0 0 0 0); mret pcb
  end.

(** ** Output *)

(** The packet with room for the header at its front: [p], or a buffer chained
    in front of it; 0: no memory. *)
Definition udp_header (p : Z) : M Z :=
  r ← on_heap (pbuf_header p UDP_HLEN);
  if bool_decide (r <> 0) then
    q ← on_heap (pbuf_alloc PBUF_IP UDP_HLEN PBUF_RAM);
    if bool_decide (q = 0) then mret 0
    else
      tot_len ← pb p_tot_len p;
      _ ← (if bool_decide (tot_len <> 0) then do_heap (pbuf_chain q p) else mret ());
      mret q
  else mret p.

(** The checksum of the datagram [q]; [have_chksum]: that of the data is
    [chksum]. *)
Definition udp_chksum (q src_ip dst_ip tot_len : Z) (have_chksum : bool) (chksum : Z) : M Z :=
  d ← pbuf_data q;
  udpchksum ←
    (if have_chksum
     then c ← in_heap (fun _ => inet_chksum_pseudo_partial d src_ip dst_ip IP_PROTO_UDP tot_len UDP_HLEN);
          mret (u16 (FOLD_U32T (u32 (c + u16_not chksum))))
     else mret (inet_chksum_pseudo d src_ip dst_ip IP_PROTO_UDP tot_len));
  mret (if bool_decide (udpchksum = 0) then 0xffff else udpchksum).

Definition udp_sendto_if_chksum (pcb p dst_ip dst_port netif : Z) (have_chksum : bool) (chksum : Z) : M Z :=
  b ← udp_at pcb;
  f ← netif_at netif;
  if bool_decide (Z.land (up_so_options b) SOF_BROADCAST = 0) && bool_decide (ip4_addr_isbroadcast dst_ip f <> 0) then mret ERR_VAL
  else
    err ← ensure_bound pcb;
    if bool_decide (err <> ERR_OK) then mret err
    else
      q ← udp_header p;
      if bool_decide (q = 0) then mret ERR_MEM
      else
        qlen ← pb p_len q;
        _ ← assert (bool_decide (qlen >= UDP_HLEN));
        udphdr ← pb p_payload q;
        b ← udp_at pcb;
        _ ← st16 udphdr udph_src (lwip_htons (up_local_port b));
        _ ← st16 udphdr udph_dest (lwip_htons dst_port);
        _ ← st16 udphdr udph_chksum 0;
        if negb (ip_addr_isany (up_local_ip b)) && negb (ip_addr_cmp (up_local_ip b) (nf_ip_addr f))
        then _ ← free_header q p; mret ERR_VAL
        else
          let src_ip := if ip_addr_isany (up_local_ip b) then nf_ip_addr f else up_local_ip b in
          tot_len ← pb p_tot_len q;
          _ ← st16 udphdr udph_len (lwip_htons tot_len);
          _ ← (if bool_decide (Z.land (up_flags b) UDP_FLAGS_NOCHKSUM = 0)
               then c ← udp_chksum q src_ip dst_ip tot_len have_chksum chksum; st16 udphdr udph_chksum c else mret ());
          err ← ip_output_if q src_ip (Some dst_ip) (up_ttl b) (up_tos b) IP_PROTO_UDP netif;
          _ ← free_header q p;
          mret err.

Definition udp_sendto_if (pcb p dst_ip dst_port netif : Z) : M Z := udp_sendto_if_chksum pcb p dst_ip dst_port netif false 0.

Definition udp_sendto_chksum (pcb p dst_ip dst_port : Z) (have_chksum : bool) (chksum : Z) : M Z :=
  netif ← ip_route dst_ip;
  if bool_decide (netif = 0) then mret ERR_RTE else udp_sendto_if_chksum pcb p dst_ip dst_port netif have_chksum chksum.

Definition udp_sendto (pcb p dst_ip dst_port : Z) : M Z := udp_sendto_chksum pcb p dst_ip dst_port false 0.
Definition udp_send (pcb p : Z) : M Z := b ← udp_at pcb; udp_sendto pcb p (up_remote_ip b) (up_remote_port b).
Definition udp_send_chksum (pcb p : Z) (have_chksum : bool) (chksum : Z) : M Z :=
  b ← udp_at pcb; udp_sendto_chksum pcb p (up_remote_ip b) (up_remote_port b) have_chksum chksum.

(** ** Input *)

(** The loop over the blocks; [done]: those in front, [uncon_pcb]: the first
    one of them that matches and is not connected.  The block, or null; one
    that matches fully moves to the front. *)
Fixpoint match_loop (l done : list Z) (uncon_pcb src dest : Z) (broadcast : bool) (inp : netif) : M Z :=
  match l with
  | [] => mret uncon_pcb
  | pcb :: l =>
      b ← udp_at pcb;
      s ← gets n_ip;
      let local := local_match b dest (current_iphdr_dest s) broadcast inp in
      let uncon_pcb := if local && bool_decide (uncon_pcb = 0) && negb (connected b) then pcb else uncon_pcb in
      if local && remote_match b src (current_iphdr_src s) then
        _ ← (if bool_decide (done <> []) then udp_set_list (pcb :: done ++ l) else mret ());
        mret pcb
      else match_loop l (done ++ [pcb]) uncon_pcb src dest broadcast inp
  end.

(** Whether the datagram passes: no checksum, or the right one. *)
Definition udp_accept (p chksum : Z) : M bool :=
  if bool_decide (chksum <> 0) then
    d ← pbuf_data p;
    tot_len ← pb p_tot_len p;
    s ← gets n_ip;
    mret (bool_decide (inet_chksum_pseudo d (current_iphdr_src s) (current_iphdr_dest s) IP_PROTO_UDP tot_len = 0))
  else mret true.

(** A datagram for no block. *)
Definition udp_noport (p : Z) (iphdr : ptr) (broadcast : bool) : M () :=
  s ← gets n_ip;
  _ ← (if negb broadcast && negb (ip_addr_ismulticast (current_iphdr_dest s)) then
         hl ← IPH_HL iphdr;
         _ ← on_heap (pbuf_header p (hl * 4 + UDP_HLEN));
         payload ← pb p_payload p;
         _ ← assert (bool_decide (payload = iphdr));
         icmp_dest_unreach p ICMP_DUR_PORT
       else mret ());
  drop p.

Definition udp_input (p inp : Z) : M () :=
  iphdr ← pb p_payload p;
  tot_len ← pb p_tot_len p;
  hl ← IPH_HL iphdr;
  short ← (if bool_decide (tot_len < hl * 4 + UDP_HLEN) then mret 1 else on_heap (pbuf_header p (- (hl * 4))));
  if bool_decide (short <> 0) then drop p
  else
    udphdr ← pb p_payload p;
    f ← netif_at inp;
    s ← gets n_ip;
    let broadcast := bool_decide (ip4_addr_isbroadcast (current_iphdr_dest s) f <> 0) in
    src ← ld16 udphdr udph_src;
    dest ← ld16 udphdr udph_dest;
    let src := lwip_ntohs src in
    let dest := lwip_ntohs dest in
    u ← gets n_udp;
    pcb ← match_loop (udp_pcbs u) [] 0 src dest broadcast f;
    if bool_decide (pcb <> 0) || ip_addr_cmp (nf_ip_addr f) (current_iphdr_dest s) then
      chksum ← ld16 udphdr udph_chksum;
      ok ← udp_accept p chksum;
      if negb ok then drop p
      else
        r ← on_heap (pbuf_header p (- UDP_HLEN));
        if bool_decide (r <> 0) then _ ← assert false; drop p
        else if bool_decide (pcb <> 0) then
          b ← udp_at pcb;
          s ← gets n_ip;
          if bool_decide (up_recv b <> 0) then udp_recv_fn (up_recv b) (up_recv_arg b) pcb p (current_iphdr_src s) src else drop p
        else udp_noport p iphdr broadcast
    else drop p.

End Udp.

(** ** Ports *)

Section Ports.
Context {E : Type} `{Malloc, LinkDriver E, UdpApp E}.
Implicit Types n : Net E.

(** The blocks of the list are there. *)
Definition live (u : UdpState) : Prop := Forall (fun a => is_Some (udps u !! a)) (udp_pcbs u).

Definition port_of (u : UdpState) (a : Z) : Z := match udps u !! a with Some b => up_local_port b | None => 0 end.
Definition in_use (u : UdpState) (port : Z) : Prop := exists a, a ∈ udp_pcbs u /\ port_of u a = port.

Definition local_port (port : Z) : Prop := UDP_LOCAL_PORT_RANGE_START <= port <= UDP_LOCAL_PORT_RANGE_END.

Lemma udp_at_at a n b : udps (n_udp n) !! a = Some b -> udp_at a n = Ret (n, b).
Proof. intros Hb. unfold udp_at, gets, need, mbind, net_bind. rewrite Hb. done. Qed.

Lemma port_used_spec l port n : Forall (fun a => is_Some (udps (n_udp n) !! a)) l ->
  port_used l port n = Ret (n, bool_decide (port ∈ map (port_of (n_udp n)) l)).
Proof.
  induction 1 as [|a l [b Hb] Hl IH]; [done|]. cbn [port_used map]. erewrite bind_step by (by apply udp_at_at). cbv beta.
  assert (port_of (n_udp n) a = up_local_port b) as Hp by (unfold port_of; by rewrite Hb).
  destruct (decide (up_local_port b = port)) as [E1|E1].
  - rewrite (bool_decide_true (up_local_port b = port)), bool_decide_true; [done| |done]. rewrite Hp, E1. left.
  - rewrite (bool_decide_false (up_local_port b = port)), IH by done. do 2 f_equal. apply bool_decide_ext. rewrite elem_of_cons, Hp. intuition congruence.
Qed.

Lemma in_use_map u port : port ∈ map (port_of u) (udp_pcbs u) <-> in_use u port.
Proof.
  split; [intros (a & -> & Ha)%list_elem_of_fmap; by exists a|]. intros (a & Ha & <-). apply list_elem_of_fmap. by exists a.
Qed.

Definition with_port (port : Z) (n : Net E) : Net E := n_set_udp (mkUdpState (udps (n_udp n)) (udp_pcbs (n_udp n)) port) n.

Lemma with_with p p' n : with_port p (with_port p' n) = with_port p n.
Proof. done. Qed.

(** The [k] ports up to [port], around the end of the range. *)
Definition tried (port k q : Z) : Prop := exists j, 0 <= j < k /\ (port - q - j) mod 16384 = 0.

Lemma next_port_range port : local_port port -> local_port (next_port port) /\ (next_port port - (port + 1)) mod 16384 = 0.
Proof.
  unfold local_port, next_port, UDP_LOCAL_PORT_RANGE_START, UDP_LOCAL_PORT_RANGE_END. intros Hp. case_bool_decide as E1.
  - subst port. by vm_compute.
  - rewrite u16_id by (unw; lia). split; [lia|]. by rewrite Z.sub_diag.
Qed.

Lemma tried_next port k q : local_port port -> local_port q -> 0 <= k -> tried (next_port port) (k + 1) q -> q = next_port port \/ tried port k q.
Proof.
  intros Hp Hq Hk (j & Hj & Hm). destruct (next_port_range port Hp) as [Hr Hn]. set (port1 := next_port port) in *. clearbody port1.
  unfold local_port, UDP_LOCAL_PORT_RANGE_START, UDP_LOCAL_PORT_RANGE_END in *. destruct (decide (j = 0)) as [->|Hj0].
  - left. Z.to_euclidean_division_equations; lia.
  - right. exists (j - 1). split; [lia|]. Z.to_euclidean_division_equations; lia.
Qed.

Lemma new_port_loop_spec n : live (n_udp n) -> forall fuel k port, local_port port -> 0 <= k < 16384 -> 16384 <= k + Z.of_nat fuel ->
  (forall q, local_port q -> tried port k q -> in_use (n_udp n) q) ->
  exists port', local_port port' /\
    ((new_port_loop fuel k (with_port port n) = Ret (with_port port' n, port') /\ ~ in_use (n_udp n) port') \/
     (new_port_loop fuel k (with_port port n) = Ret (with_port port' n, 0) /\ forall q, local_port q -> in_use (n_udp n) q)).
Proof.
  intros Hl fuel. induction fuel as [|fuel IH]; intros k port Hp Hk Hf Ht; [lia|].
  destruct (next_port_range port Hp) as [Hr Hn]. set (port1 := next_port port) in *.
  cbn [new_port_loop]. erewrite bind_step by reflexivity. cbv beta. cbn [udp_port with_port n_udp n_set_udp]. fold port1.
  erewrite bind_step by reflexivity. cbv beta. change (n_set_udp _ (with_port port n)) with (with_port port1 n).
  erewrite bind_step by (apply port_used_spec; exact Hl). cbv beta. change (port_of (n_udp (with_port port1 n))) with (port_of (n_udp n)).
  cbn [udp_pcbs with_port n_udp n_set_udp].
  case_bool_decide as Hu; rewrite in_use_map in Hu; [|exists port1; split; [done|]; by left].
  assert (forall q, local_port q -> tried port1 (k + 1) q -> in_use (n_udp n) q) as Ht'.
  { intros q Hq Hq'. destruct (tried_next port k q Hp Hq ltac:(lia) Hq') as [->|Hq2]; [done|by apply Ht]. }
  case_bool_decide as Hend; unfold UDP_LOCAL_PORT_RANGE_START, UDP_LOCAL_PORT_RANGE_END in Hend.
  - exists port1. split; [done|]. right. split; [done|]. intros q Hq. apply Ht'; [done|]. exists ((port1 - q) mod 16384).
    split; [pose proof (Z.mod_pos_bound (port1 - q) 16384); lia|]. Z.to_euclidean_division_equations; lia.
  - rewrite (u16_id (k + 1)) by (unw; lia). destruct (IH (k + 1) port1) as (port' & Hp' & Hres); [done|lia|lia|done|].
    exists port'. by split.
Qed.

Lemma udp_new_port_spec n : live (n_udp n) -> local_port (udp_port (n_udp n)) ->
  exists port, local_port port /\
    ((udp_new_port n = Ret (with_port port n, port) /\ ~ in_use (n_udp n) port) \/
     (udp_new_port n = Ret (with_port port n, 0) /\ forall q, local_port q -> in_use (n_udp n) q)).
Proof.
  intros Hl Hp. unfold udp_new_port. 
  assert (n = with_port (udp_port (n_udp n)) n) as En by (destruct n as [? ? ? [? ? ?] ? ? ? ?]; reflexivity).
  destruct (new_port_loop_spec n Hl (Z.to_nat 0x4001) 0 (udp_port (n_udp n)) Hp ltac:(lia) ltac:(cbn; lia)) as (port & Hport & Hres).
  { intros q _ (j & Hj & _). lia. }
  rewrite <-En in Hres. by exists port.
Qed.

(** *** Binding *)

(** No two blocks of the list receive on the same port of an address. *)
Record bound_ok (u : UdpState) : Prop := {
  bo_nodup : NoDup (udp_pcbs u);
  bo_live : live u;
  bo_port a b : a ∈ udp_pcbs u -> udps u !! a = Some b -> up_local_port b <> 0;
  bo_alone a a' b b' : a ∈ udp_pcbs u -> a' ∈ udp_pcbs u -> a <> a' -> udps u !! a = Some b -> udps u !! a' = Some b' ->
    port_taken b' (up_local_ip b) (up_local_port b) = false;
}.

Lemma port_taken_sym b b' : port_taken b' (up_local_ip b) (up_local_port b) = port_taken b (up_local_ip b') (up_local_port b').
Proof.
  unfold port_taken, ip_addr_cmp. rewrite (bool_decide_ext (up_local_port b' = up_local_port b) (up_local_port b = up_local_port b')) by naive_solver.
  rewrite (bool_decide_ext (up_local_ip b' = up_local_ip b) (up_local_ip b = up_local_ip b')) by naive_solver.
  by rewrite (orb_comm (ip_addr_isany (up_local_ip b'))).
Qed.

Lemma bind_loop_spec l pcb ip port n : forall rebind, Forall (fun a => is_Some (udps (n_udp n) !! a)) l -> NoDup l -> (pcb ∈ l -> rebind = false) ->
  exists r, bind_loop l pcb ip port rebind n = Ret (n, r) /\
    match r with
    | None => exists a b, a ∈ l /\ a <> pcb /\ udps (n_udp n) !! a = Some b /\ port_taken b ip port = true
    | Some rb => rb = rebind || bool_decide (pcb ∈ l) /\
        forall a b, a ∈ l -> a <> pcb -> udps (n_udp n) !! a = Some b -> port_taken b ip port = false
    end.
Proof.
  induction l as [|a l IH]; intros rebind Hl Hnd Hrb.
  - exists (Some rebind). split; [done|]. split; [by rewrite bool_decide_false, orb_false_r by set_solver|]. set_solver.
  - apply Forall_cons in Hl as [[b Hb] Hl]. apply NoDup_cons in Hnd as [Hni Hnd]. cbn [bind_loop]. destruct (decide (pcb = a)) as [<-|Ea].
    + rewrite (bool_decide_true (pcb = pcb)) by done. rewrite Hrb by left. cbn [negb]. erewrite bind_step by done. cbv beta.
      destruct (IH true Hl Hnd) as (r & -> & Hr); [done|]. exists r. split; [done|]. destruct r as [rb|].
      * destruct Hr as [-> Hr]. split; [rewrite (bool_decide_true (pcb ∈ pcb :: l)) by left; by rewrite orb_true_r|]. intros c bc [->|Hc]%elem_of_cons Hne; [done|]. by apply Hr.
      * destruct Hr as (c & bc & Hc & Hx). exists c, bc. split; [by right|done].
    + rewrite (bool_decide_false (pcb = a)) by done. erewrite bind_step by (by apply udp_at_at). cbv beta. destruct (port_taken b ip port) eqn:Et.
      * exists None. split; [done|]. exists a, b. split_and!; [left|congruence|done|done].
      * destruct (IH rebind Hl Hnd) as (r & -> & Hr); [intros Hin; apply Hrb; by right|]. exists r. split; [done|]. destruct r as [rb|].
        -- destruct Hr as [-> Hr]. split.
           ++ f_equal. apply bool_decide_ext. rewrite elem_of_cons. intuition congruence.
           ++ intros c bc [->|Hc]%elem_of_cons Hne Hbc; [congruence|]. by eapply Hr.
        -- destruct Hr as (c & bc & Hc & Hx). exists c, bc. split; [by right|done].
Qed.

(** The state after [pcb] got the address and the port. *)
Definition bound (pcb : Z) (b : udp_pcb) (u : UdpState) (last : Z) : UdpState :=
  mkUdpState (<[pcb := b]> (udps u)) (if bool_decide (pcb ∈ udp_pcbs u) then udp_pcbs u else pcb :: udp_pcbs u) last.

Lemma bound_list pcb b u last a : a ∈ udp_pcbs (bound pcb b u last) <-> a = pcb \/ a ∈ udp_pcbs u.
Proof. cbn. case_bool_decide; [|by rewrite elem_of_cons]. split; [by right|]. by intros [->|]. Qed.

Lemma bound_bound_ok pcb b u last : bound_ok u -> up_local_port b <> 0 ->
  (forall a b', a ∈ udp_pcbs u -> a <> pcb -> udps u !! a = Some b' -> port_taken b' (up_local_ip b) (up_local_port b) = false) ->
  bound_ok (bound pcb b u last).
Proof.
  intros [H2 H3 H4 H5] Hp Ht. split.
  - cbn. case_bool_decide; [done|by apply NoDup_cons].
  - apply Forall_forall. intros a Ha. apply bound_list in Ha. cbn. destruct (decide (a = pcb)) as [->|Hne]; [by rewrite lookup_insert_eq|].
    rewrite lookup_insert_ne by done. destruct Ha as [->|Ha]; [done|]. unfold live in H3. rewrite Forall_forall in H3. by apply H3.
  - intros a b1 Ha. apply bound_list in Ha. cbn. destruct (decide (a = pcb)) as [->|Hne]; [rewrite lookup_insert_eq; by intros [= <-]|].
    rewrite lookup_insert_ne by done. destruct Ha as [->|Ha]; [done|]. by apply H4.
  - intros a a' b1 b2 Ha Ha' Hne. apply bound_list in Ha, Ha'. cbn.
    destruct (decide (a = pcb)) as [->|Hn1]; destruct (decide (a' = pcb)) as [->|Hn2]; [done| | |].
    + rewrite lookup_insert_eq, lookup_insert_ne by done. intros [= <-] Hb2. destruct Ha' as [->|Ha']; [done|]. by eapply Ht.
    + rewrite lookup_insert_eq, lookup_insert_ne by done. intros Hb1 [= <-]. destruct Ha as [->|Ha]; [done|]. rewrite port_taken_sym. by eapply Ht.
    + rewrite !lookup_insert_ne by done. destruct Ha as [->|Ha]; [done|]. destruct Ha' as [->|Ha']; [done|]. by apply H5.
Qed.

(** The block gets its address before its port. *)
Definition readdressed (pcb ipaddr : Z) (b : udp_pcb) n : Net E :=
  n_set_udp (mkUdpState (<[pcb := up_set_local_ip ipaddr b]> (udps (n_udp n))) (udp_pcbs (n_udp n)) (udp_port (n_udp n))) n.

Lemma readdressed_ok pcb ipaddr b n : live (n_udp n) -> udps (n_udp n) !! pcb = Some b ->
  live (n_udp (readdressed pcb ipaddr b n)) /\ forall q, in_use (n_udp (readdressed pcb ipaddr b n)) q <-> in_use (n_udp n) q.
Proof.
  intros Hl Hb. split.
  - unfold live in *. cbn. eapply Forall_impl; [exact Hl|]. intros a Ha. cbn in Ha |- *. destruct (decide (a = pcb)) as [->|];
      [by rewrite lookup_insert_eq|by rewrite lookup_insert_ne].
  - intros q. unfold in_use. cbn. assert (forall a, port_of (n_udp (readdressed pcb ipaddr b n)) a = port_of (n_udp n) a) as Hp.
    { intros a. unfold port_of. cbn. destruct (decide (a = pcb)) as [->|]; [by rewrite lookup_insert_eq, Hb|by rewrite lookup_insert_ne]. }
    by setoid_rewrite Hp.
Qed.

Lemma finish_bind pcb ipaddr b n p' last rb : udps (n_udp n) !! pcb = Some b -> rb = bool_decide (pcb ∈ udp_pcbs (n_udp n)) ->
  (_ ← udp_upd pcb (up_set_local_port p');
   s ← gets n_udp; _ ← (if (rb : bool) then mret () else udp_set_list (pcb :: udp_pcbs s)); mret ERR_OK) (with_port last (readdressed pcb ipaddr b n)) =
  Ret (n_set_udp (bound pcb (up_set_local_port p' (up_set_local_ip ipaddr b)) (n_udp n) last) n, ERR_OK).
Proof.
  intros Hb ->. unfold udp_upd.
  assert (udps (n_udp (with_port last (readdressed pcb ipaddr b n))) !! pcb = Some (up_set_local_ip ipaddr b)) as Hb1 by (cbn; apply lookup_insert_eq).
  unfold mbind at 1, net_bind at 1. erewrite bind_step by (by apply udp_at_at). cbn.
  unfold bound. case_bool_decide; cbn; unfold n_set_udp, with_port, readdressed; cbn; by rewrite insert_insert_eq.
Qed.

(** How [udp_bind] ends. *)
Definition bind_cases pcb ipaddr port n b : Prop :=
  (exists p' last, let u := bound pcb (up_set_local_port p' (up_set_local_ip ipaddr b)) (n_udp n) last in
     udp_bind pcb ipaddr port n = Ret (n_set_udp u n, ERR_OK) /\ bound_ok u /\ pcb ∈ udp_pcbs u /\ local_port last /\
     (port <> 0 -> p' = port) /\ (port = 0 -> local_port p' /\ ~ in_use (n_udp n) p')) \/
  (udp_bind pcb ipaddr port n = Ret (n, ERR_USE) /\ port <> 0 /\
     exists a c, a ∈ udp_pcbs (n_udp n) /\ a <> pcb /\ udps (n_udp n) !! a = Some c /\ port_taken c ipaddr port = true) \/
  (port = 0 /\ (forall q, local_port q -> in_use (n_udp n) q) /\
     exists last, udp_bind pcb ipaddr port n = Ret (with_port last (readdressed pcb ipaddr b n), ERR_USE) /\ local_port last).

Lemma udp_bind_cases pcb ipaddr port n b : bound_ok (n_udp n) -> udps (n_udp n) !! pcb = Some b -> local_port (udp_port (n_udp n)) -> bind_cases pcb ipaddr port n b.
Proof.
  unfold bind_cases.
  intros Hok Hb Hlp. destruct (bind_loop_spec (udp_pcbs (n_udp n)) pcb ipaddr port n false (bo_live _ Hok) (bo_nodup _ Hok) (fun _ => eq_refl)) as (r & Hr & Hcase).
  unfold udp_bind. erewrite bind_step by reflexivity. cbv beta. erewrite bind_step by exact Hr. cbv beta. destruct r as [rb|].
  2: { right. left. split; [done|]. destruct Hcase as (a & c & Ha & Hne & Hc & Ht). split; [|by exists a, c].
       intros ->. apply andb_true_iff in Ht as [Ht _]. apply bool_decide_eq_true in Ht. by apply (bo_port _ Hok a c). }
  destruct Hcase as [-> Hfree]. cbn [orb].
  assert (udp_upd pcb (up_set_local_ip ipaddr) n = Ret (readdressed pcb ipaddr b n, ())) as Hu.
  { unfold udp_upd. by erewrite bind_step by (by apply udp_at_at). }
  erewrite bind_step by exact Hu. cbv beta. clear Hu Hr. destruct (readdressed_ok pcb ipaddr b n (bo_live _ Hok) Hb) as [Hlive Huse].
  assert (forall last p', p' <> 0 -> local_port last ->
    (forall a c, a ∈ udp_pcbs (n_udp n) -> a <> pcb -> udps (n_udp n) !! a = Some c -> port_taken c ipaddr p' = false) ->
    let u := bound pcb (up_set_local_port p' (up_set_local_ip ipaddr b)) (n_udp n) last in
    bound_ok u /\ pcb ∈ udp_pcbs u /\ local_port last) as Hnew.
  { intros last p' Hp Hl Ht u. split; [|split; [by apply bound_list; left|done]]. apply bound_bound_ok; [done|done|]. exact Ht. }
  destruct (decide (port = 0)) as [->|Hp].
  - rewrite (bool_decide_true (0 = 0)) by done. destruct (udp_new_port_spec (readdressed pcb ipaddr b n) Hlive Hlp) as (p' & Hp' & [[Hnp Hni]|[Hnp Hall]]).
    + left. exists p', p'. cbn zeta. rewrite Huse in Hni. assert (p' <> 0) as Hp0 by (unfold local_port, UDP_LOCAL_PORT_RANGE_START in Hp'; lia).
      erewrite bind_step by exact Hnp. cbv beta. rewrite (bool_decide_false (p' = 0)) by done. rewrite finish_bind by done.
      split; [done|]. destruct (Hnew p' p' Hp0 Hp') as (K1 & K2 & K3); [|by split_and!].
      intros a c Ha Hne Hc. unfold port_taken. apply andb_false_iff. left. apply bool_decide_eq_false. intros Ec. apply Hni. exists a. split; [done|].
      unfold port_of. by rewrite Hc.
    + right. right. split; [done|]. split; [by intros q Hq; apply Huse, Hall|]. erewrite bind_step by exact Hnp. cbv beta. exists p'. by split.
  - left. exists port, (udp_port (n_udp n)). cbn zeta. rewrite (bool_decide_false (port = 0)) by done. erewrite bind_step by reflexivity. cbv beta.
    rewrite (bool_decide_false (port = 0)) by done.
    change (readdressed pcb ipaddr b n) with (with_port (udp_port (n_udp n)) (readdressed pcb ipaddr b n)). rewrite finish_bind by done.
    split; [done|]. destruct (Hnew (udp_port (n_udp n)) port Hp Hlp) as (K1 & K2 & K3); [done|]. by split_and!.
Qed.

(** [udp_bind].  It returns.  If the port is given, the block gets it and
    the address, unless another block of the list receives there: then nothing
    changes.  Without a port it gets one that no block has, unless all 16384
    are in use.  A bound block is on the list, and there are still no two
    blocks that receive on the same port of an address. *)
Theorem udp_bind_alone pcb ipaddr port n b :
  bound_ok (n_udp n) -> udps (n_udp n) !! pcb = Some b -> local_port (udp_port (n_udp n)) ->
  (exists p' last, let u := bound pcb (up_set_local_port p' (up_set_local_ip ipaddr b)) (n_udp n) last in
     udp_bind pcb ipaddr port n = Ret (n_set_udp u n, ERR_OK) /\ bound_ok u /\ pcb ∈ udp_pcbs u /\ local_port last /\
     (port <> 0 -> p' = port) /\ (port = 0 -> local_port p' /\ ~ in_use (n_udp n) p')) \/
  (udp_bind pcb ipaddr port n = Ret (n, ERR_USE) /\ port <> 0 /\
     exists a c, a ∈ udp_pcbs (n_udp n) /\ a <> pcb /\ udps (n_udp n) !! a = Some c /\ port_taken c ipaddr port = true) \/
  (port = 0 /\ (forall q, local_port q -> in_use (n_udp n) q) /\ exists n', udp_bind pcb ipaddr port n = Ret (n', ERR_USE)).
Proof.
  intros Hok Hb Hlp. destruct (udp_bind_cases pcb ipaddr port n b Hok Hb Hlp) as [Hc|[Hc|(Hp & Hall & last & Hr & _)]]; [by left|by right; left|].
  right. right. split; [done|]. split; [done|]. by eexists.
Qed.

(** *** The block a datagram is for *)

Definition fully (u : UdpState) (src dest src_ip dest_ip : Z) (broadcast : bool) (f : netif) (a : Z) : bool :=
  match udps u !! a with Some b => local_match b dest dest_ip broadcast f && remote_match b src src_ip | None => false end.
Definition unconnected (u : UdpState) (dest dest_ip : Z) (broadcast : bool) (f : netif) (a : Z) : bool :=
  match udps u !! a with Some b => local_match b dest dest_ip broadcast f && negb (connected b) | None => false end.

(** The first block that matches fully, or the first unconnected one. *)
Definition demux (u : UdpState) (l : list Z) (src dest src_ip dest_ip : Z) (broadcast : bool) (f : netif) : Z :=
  match List.find (fully u src dest src_ip dest_ip broadcast f) l with
  | Some a => a
  | None => default 0 (List.find (unconnected u dest dest_ip broadcast f) l)
  end.

Definition with_list (l : list Z) n : Net E := n_set_udp (mkUdpState (udps (n_udp n)) l (udp_port (n_udp n))) n.

Lemma match_loop_spec src dest broadcast f n : forall l front uncon,
  Forall (fun a => a <> 0 /\ is_Some (udps (n_udp n) !! a)) l -> udp_pcbs (n_udp n) = front ++ l ->
  let u := n_udp n in let s := n_ip n in
  let full := fully u src dest (current_iphdr_src s) (current_iphdr_dest s) broadcast f in
  (exists a l1 l2, List.find full l = Some a /\ l = l1 ++ a :: l2 /\
     match_loop l front uncon src dest broadcast f n = Ret (with_list (a :: front ++ l1 ++ l2) n, a)) \/
  (List.find full l = None /\
     match_loop l front uncon src dest broadcast f n =
     Ret (n, if bool_decide (uncon = 0) then default 0 (List.find (unconnected u dest (current_iphdr_dest s) broadcast f) l) else uncon)).
Proof.
  cbn zeta. set (full := fully _ _ _ _ _ _ _). set (unc := unconnected _ _ _ _ _).
  induction l as [|a l IH]; intros front uncon Hl Hlist.
  - right. split; [done|]. cbn. by case_bool_decide as E1; [rewrite E1|].
  - apply Forall_cons in Hl as [[Hnz [b Hb]] Hl]. cbn [match_loop List.find].
    assert (full a = local_match b dest (current_iphdr_dest (n_ip n)) broadcast f && remote_match b src (current_iphdr_src (n_ip n))) as Hfull
      by (subst full; unfold fully; by rewrite Hb).
    assert (unc a = local_match b dest (current_iphdr_dest (n_ip n)) broadcast f && negb (connected b)) as Hunc
      by (subst unc; unfold unconnected; by rewrite Hb).
    erewrite bind_step by (by apply udp_at_at). cbv beta. erewrite bind_step by reflexivity. cbv beta. rewrite Hfull, Hunc.
    destruct (local_match b dest (current_iphdr_dest (n_ip n)) broadcast f && remote_match b src (current_iphdr_src (n_ip n))) eqn:Ef.
    + left. exists a, [], l. split; [done|]. split; [done|]. case_bool_decide as Ed.
      * reflexivity.
      * subst front. cbn in Hlist |- *. unfold with_list. cbn. rewrite <-Hlist. by destruct n as [? ? ? [? ? ?] ? ? ? ?].
    + rewrite <-Hunc. set (uncon' := if _ && bool_decide (uncon = 0) && negb (connected b) then a else uncon).
      assert (uncon' = if bool_decide (uncon = 0) then (if unc a then a else 0) else uncon) as Hu'.
      { subst uncon'. rewrite Hunc. case_bool_decide as E1; [|by rewrite andb_false_r]. rewrite andb_true_r. by rewrite E1. }
      destruct (IH (front ++ [a]) uncon' Hl) as [(c & l1 & l2 & Hf & -> & Hm)|[Hf Hm]]; [by rewrite <-(assoc_L (++))| |].
      * left. exists c, (a :: l1), l2. split; [done|]. split; [done|]. rewrite Hm. by rewrite <-(assoc_L (++)).
      * right. split; [done|]. rewrite Hm, Hu'. do 2 f_equal. destruct (decide (uncon = 0)) as [E1|E1].
        -- rewrite (bool_decide_true (uncon = 0)) by done. destruct (unc a) eqn:Eu; [by rewrite (bool_decide_false (a = 0))|by rewrite (bool_decide_true (0 = 0))].
        -- rewrite (bool_decide_false (uncon = 0)) by done. by rewrite (bool_decide_false (uncon = 0)).
Qed.

Lemma with_list_same n : with_list (udp_pcbs (n_udp n)) n = n.
Proof. by destruct n as [? ? ? [? ? ?] ? ? ? ?]. Qed.

Lemma find_first (P : Z -> bool) l a : List.find P l = Some a -> a ∈ l /\ P a = true.
Proof. intros [Ha HP]%List.find_some. split; [by apply list_elem_of_In|done]. Qed.

Lemma find_none (P : Z -> bool) l a : List.find P l = None -> a ∈ l -> P a = false.
Proof. intros Hn Ha. apply (List.find_none P l Hn). by apply list_elem_of_In. Qed.

(** The block a datagram is for.  The search returns; the list keeps its
    blocks, the one that was found moves to its front.  A block connected to
    the sender comes first, then an unconnected one on the port and address
    the datagram was sent to; without either there is no block. *)
Theorem udp_demux src dest broadcast f n :
  Forall (fun a => a <> 0 /\ is_Some (udps (n_udp n) !! a)) (udp_pcbs (n_udp n)) ->
  let u := n_udp n in let s := n_ip n in
  let full := fully u src dest (current_iphdr_src s) (current_iphdr_dest s) broadcast f in
  let unc := unconnected u dest (current_iphdr_dest s) broadcast f in
  exists l' a, match_loop (udp_pcbs u) [] 0 src dest broadcast f n = Ret (with_list l' n, a) /\ l' ≡ₚ udp_pcbs u /\
    (a <> 0 -> a ∈ udp_pcbs u) /\
    ((full a = true /\ exists t, l' = a :: t) \/
     (l' = udp_pcbs u /\ (forall c, c ∈ udp_pcbs u -> full c = false) /\
      (unc a = true \/ (a = 0 /\ forall c, c ∈ udp_pcbs u -> unc c = false)))).
Proof.
  intros Hl. pose proof (match_loop_spec src dest broadcast f n (udp_pcbs (n_udp n)) [] 0 Hl eq_refl) as Hs. cbn zeta in Hs |- *.
  set (full := fully _ _ _ _ _ _ _) in *. set (unc := unconnected _ _ _ _ _) in *. destruct Hs as [(a & l1 & l2 & Hf & Hls & Hm)|[Hf Hm]].
  - exists (a :: l1 ++ l2), a. rewrite Hm. apply find_first in Hf as [Ha Hf]. split_and!; [done| |done|left; split; [done|by eexists]].
    rewrite Hls. by apply Permutation_middle.
  - exists (udp_pcbs (n_udp n)), (default 0 (List.find unc (udp_pcbs (n_udp n)))). rewrite Hm, (bool_decide_true (0 = 0)), with_list_same by done.
    split; [done|]. split; [done|]. destruct (List.find unc (udp_pcbs (n_udp n))) as [a|] eqn:Eu; cbn [default].
    + apply find_first in Eu as [Ha Eu]. split; [done|]. right. split_and!; [done| |by left]. intros c Hc. by apply (find_none _ _ c Hf).
    + split; [done|]. right. split_and!; [done| |right; split; [done|]]; intros c Hc; [by apply (find_none _ _ c Hf)|by apply (find_none _ _ c Eu)].
Qed.

End Ports.

(** ** Blocks on ports *)

Definition no_heap : Heap := mkHeap ∅ ∅ ∅.
Definition bare (u : UdpState) (src dst : Z) : Net unit :=
  mkNet no_heap (mkNetifState ∅ [] 0 0) (mkArpState [] 0) u (mkRawState ∅ []) (mkIpState 0 null_ptr src dst 0) (mkReassState ∅ [] 0) ().

(** A block at 50 on port 7 of any address; one at 60 that is new, one at 70
    on port 7 that is connected to port 9 of the host 5. *)
Definition on_seven : udp_pcb := mkUdpPcb 0 0 0 0 UDP_TTL 0 7 0 0 0.
Definition unbound : udp_pcb := mkUdpPcb 0 0 0 0 UDP_TTL 0 0 0 0 0.
Definition to_five : udp_pcb := mkUdpPcb 3 5 0 0 UDP_TTL UDP_FLAGS_CONNECTED 7 9 0 0.
Definition two_blocks : UdpState := mkUdpState {[50 := on_seven; 60 := unbound]} [50] 0xffff.
Definition with_peer : UdpState := mkUdpState {[50 := on_seven; 70 := to_five]} [50; 70] 0xc000.

Lemma two_blocks_ok : bound_ok two_blocks.
Proof.
  split.
  - apply NoDup_singleton.
  - apply Forall_singleton. by eexists.
  - intros a b ->%list_elem_of_singleton [= <-]. done.
  - intros a b c d ->%list_elem_of_singleton ->%list_elem_of_singleton Hne. done.
Qed.

(** A port for the new block: the next one after 65535 is 49152. *)
Lemma udp_bind_alone_witness : exists u, udp_bind 60 0 0 (bare two_blocks 0 0) = Ret (n_set_udp u (bare two_blocks 0 0), ERR_OK) /\ bound_ok u.
Proof.
  destruct (udp_bind_alone 60 0 0 (bare two_blocks 0 0) unbound two_blocks_ok) as [(p' & last & E1 & E2 & _)|[(_ & E1 & _)|(_ & E1 & _)]].
  - reflexivity.
  - by vm_compute.
  - eexists. split; [exact E1|exact E2].
  - done.
  - destruct (E1 0xc001) as (a & Ha & Hp); [by vm_compute|]. apply list_elem_of_singleton in Ha as ->. by vm_compute in Hp.
Defined.

Definition demo_netif : netif := mkNetif 3 0x00ffffff 0 0 0 0 0 [] 0 6 [] 0 [] 0.

(** A datagram from port 9 of the host 5 to port 7: the connected block gets
    it, and moves to the front. *)
Lemma udp_demux_witness :
  exists l' t, match_loop (udp_pcbs with_peer) [] 0 9 7 false demo_netif (bare with_peer 5 3) = Ret (with_list l' (bare with_peer 5 3), 70) /\ l' = 70 :: t.
Proof.
  destruct (udp_demux 9 7 false demo_netif (bare with_peer 5 3)) as (l' & a & E1 & _ & _ & [[_ [t Ht]]|(_ & E2 & _)]).
  - apply Forall_cons; split; [split; [done|by eexists]|]. apply Forall_singleton. split; [done|by eexists].
  - exists l', t. assert (a = 70) as ->; [|split; [exact E1|done]].
    assert (match match_loop (udp_pcbs with_peer) [] 0 9 7 false demo_netif (bare with_peer 5 3) with Ret (_, b) => b = 70 | _ => False end) as E by by vm_compute.
    change (n_udp (bare with_peer 5 3)) with with_peer in E1. rewrite E1 in E. exact E.
  - assert (70 ∈ udp_pcbs with_peer) as H70 by (right; left). specialize (E2 70 H70). vm_compute in E2. discriminate.
Defined.
