(* ===== verification/UdpPorts.v ===== *)
(** * The blocks of UDP over time

    Theorems on [Udp]: every operation on the control blocks keeps the list in
    order, so that no two blocks ever receive on the same port of an address. *)

From stdpp Require Import gmap.
From S2P Require Import Prelude LwipDef InetChksum IpAddr Pbuf PbufOps PbufData NetState NetMem Etharp IpOut Icmp Raw Udp.

(** The blocks of the list are in order; the other ones have no port. *)
Record ports_ok (u : UdpState) : Prop := {
  po_bound : bound_ok u;
  po_range : local_port (udp_port u);
  po_listed a b : udps u !! a = Some b -> up_local_port b <> 0 -> a ∈ udp_pcbs u;
}.

(** The same addresses and ports. *)
Lemma ports_upd u a b b' last : ports_ok u -> udps u !! a = Some b -> up_local_ip b' = up_local_ip b -> up_local_port b' = up_local_port b -> local_port last ->
  ports_ok (mkUdpState (<[a := b']> (udps u)) (udp_pcbs u) last).
Proof.
  intros [[B1 B2 B3 B4] B5 B6] Ha Hip Hport Hlast.
  assert (forall c d, <[a := b']> (udps u) !! c = Some d -> exists d', udps u !! c = Some d' /\ up_local_ip d = up_local_ip d' /\ up_local_port d = up_local_port d') as Hl.
  { intros c d. destruct (decide (c = a)) as [->|Hne]; [rewrite lookup_insert_eq; intros [= <-]; by exists b|rewrite lookup_insert_ne by done; intros Hd; by exists d]. }
  split; [split| |]; cbn [udps udp_pcbs udp_port].
  - done.
  - unfold live in *. eapply Forall_impl; [exact B2|]. intros c Hc. cbn in *. destruct (decide (c = a)) as [->|Hne]; [by rewrite lookup_insert_eq|by rewrite lookup_insert_ne].
  - intros c d Hc (d' & Hd' & _ & ->)%Hl. by apply (B3 c).
  - intros c c' d e Hc Hc' Hne (d' & Hd' & E1 & E2)%Hl (e' & He' & E3 & E4)%Hl.
    specialize (B4 c c' d' e' Hc Hc' Hne Hd' He'). unfold port_taken in *. by rewrite E1, E2, E3, E4.
  - done.
  - intros c d (d' & Hd' & _ & ->)%Hl Hp. by eapply B6.
Qed.

Lemma ports_perm u l : ports_ok u -> l ≡ₚ udp_pcbs u -> ports_ok (mkUdpState (udps u) l (udp_port u)).
Proof.
  intros [[B1 B2 B3 B4] B5 B6] Hl. split; [split| |]; cbn [udps udp_pcbs udp_port].
  - by rewrite Hl.
  - unfold live in *. cbn [udps udp_pcbs]. by rewrite Hl.
  - intros a b Ha. apply B3. by rewrite <-Hl.
  - intros a a' b b' Ha Ha'. apply B4; by rewrite <-Hl.
  - done.
  - intros a b Ha Hp. rewrite Hl. by eapply B6.
Qed.

Lemma unlink_sub a l : forall x, x ∈ unlink a l -> x ∈ l.
Proof. induction l as [|b l IH]; intros x; cbn [unlink]; [done|]. case_bool_decide; [by right|]. intros [->|Hx]%elem_of_cons; [left|right; by apply IH]. Qed.
Lemma unlink_NoDup a l : NoDup l -> NoDup (unlink a l) /\ a ∉ unlink a l.
Proof.
  induction 1 as [|b l Hb Hl [IH1 IH2]]; cbn [unlink]; [split; [constructor|apply not_elem_of_nil]|]. case_bool_decide as Hba; [by subst|].
  split; [apply NoDup_cons; split; [intros Hx; by apply unlink_sub in Hx|done]|]. intros [->|Hx]%elem_of_cons; done.
Qed.
Lemma unlink_in a l x : x ∈ l -> x <> a -> x ∈ unlink a l.
Proof.
  induction l as [|b l IH]; cbn [unlink]; [done|]. intros [->|Hx]%elem_of_cons Hne; [rewrite bool_decide_false by done; left|].
  case_bool_decide; [done|right; by apply IH].
Qed.

Lemma ports_remove u a : ports_ok u -> ports_ok (mkUdpState (delete a (udps u)) (unlink a (udp_pcbs u)) (udp_port u)).
Proof.
  intros [[B1 B2 B3 B4] B5 B6]. destruct (unlink_NoDup a _ B1) as [N1 N2]. split; [split| |]; cbn [udps udp_pcbs udp_port].
  - done.
  - apply Forall_forall. intros c Hc. cbn. rewrite lookup_delete_ne by (by intros ->). unfold live in B2. rewrite Forall_forall in B2. by apply B2, (unlink_sub a).
  - intros c b Hc%unlink_sub Hb. apply lookup_delete_Some in Hb as [_ Hb]. by apply (B3 c).
  - intros c c' b b' Hc%unlink_sub Hc'%unlink_sub Hne [_ Hb]%lookup_delete_Some [_ Hb']%lookup_delete_Some. by apply (B4 c c').
  - done.
  - intros c b [Hne Hb]%lookup_delete_Some Hp. apply unlink_in; [by eapply B6|done].
Qed.

(** A block that is not on the list changes, and has no port. *)
Lemma ports_put u a b last : ports_ok u -> a ∉ udp_pcbs u -> up_local_port b = 0 -> local_port last -> ports_ok (mkUdpState (<[a := b]> (udps u)) (udp_pcbs u) last).
Proof.
  intros [[B1 B2 B3 B4] B5 B6] Hni Hb Hlast.
  assert (forall c, c ∈ udp_pcbs u -> <[a := b]> (udps u) !! c = udps u !! c) as Hl by (intros c Hc; apply lookup_insert_ne; by intros ->).
  split; [split| |]; cbn [udps udp_pcbs udp_port].
  - done.
  - unfold live in *. rewrite Forall_forall in *. intros c Hc. cbn. rewrite Hl by done. by apply B2.
  - intros c d Hc. rewrite Hl by done. by apply B3.
  - intros c c' d d' Hc Hc'. rewrite !Hl by done. by apply B4.
  - done.
  - intros c d. destruct (decide (c = a)) as [->|Hne]; [rewrite lookup_insert_eq; by intros [= <-]|]. rewrite lookup_insert_ne by done. apply B6.
Qed.

Lemma ports_gone u a : ports_ok u -> udps u !! a = None -> a ∉ udp_pcbs u.
Proof.
  intros [[_ B2 _ _] _ _] Ha Hin. unfold live in B2. rewrite Forall_forall in B2. destruct (B2 a Hin) as [c Hc]. by rewrite Ha in Hc.
Qed.

Lemma ports_unbound u a b : ports_ok u -> udps u !! a = Some b -> up_local_port b = 0 -> a ∉ udp_pcbs u.
Proof. intros [[_ _ B3 _] _ _] Ha Hp Hin. by apply (B3 a b). Qed.

Section Ops.
Context {E : Type} `{Malloc, LinkDriver E, UdpApp E}.
Implicit Types n : Net E.

Definition orderly n : Prop := ports_ok (n_udp n).
#[local] Instance orderly_above : Above orderly.
Proof. by intros n h e. Qed.

Lemma upd_inv_udp pcb f n n' u : udp_upd pcb f n = Ret (n', u) -> exists b, udps (n_udp n) !! pcb = Some b /\
  n' = n_set_udp (mkUdpState (<[pcb := f b]> (udps (n_udp n))) (udp_pcbs (n_udp n)) (udp_port (n_udp n))) n.
Proof.
  unfold udp_upd. intros Hr. run Hr. exists v. split; [done|]. unfold udp_put, modify in Hr. by injection Hr as <-.
Qed.

Lemma bind_orderly pcb ip port n n' r : orderly n -> (port = 0 -> forall b, udps (n_udp n) !! pcb = Some b -> up_local_port b = 0) ->
  udp_bind pcb ip port n = Ret (n', r) -> orderly n' /\ n' = n_set_udp (n_udp n') n /\ (r = ERR_OK -> pcb ∈ udp_pcbs (n_udp n')).
Proof.
  intros Hok Hz Hr. destruct (udps (n_udp n) !! pcb) as [b|] eqn:Eb.
  - destruct (udp_bind_cases pcb ip port n b (po_bound _ Hok) Eb (po_range _ Hok)) as [(p' & last & E1 & B & Hin & Hl & _)|[(E1 & _)|(Hp & _ & last & E1 & Hl)]];
      rewrite Hr in E1; injection E1 as -> ->.
    + split; [|split; [done|by intros _]]. split; [done|done|]. intros a c. cbn [n_udp n_set_udp]. rewrite bound_list. cbn [udps bound].
      destruct (decide (a = pcb)) as [->|Hne]; [by left|]. rewrite lookup_insert_ne by done. intros Hc Hcp. right. by eapply (po_listed _ Hok).
    + split; [done|]. split; [by destruct n|done].
    + split; [|split; done]. pose proof (ports_unbound _ _ _ Hok Eb (Hz Hp b eq_refl)) as Hni.
      apply (ports_put (n_udp n) pcb (up_set_local_ip ip b) last Hok Hni); [by apply (Hz Hp b)|done].
  - unfold udp_bind in Hr. run Hr.
    destruct (bind_loop_spec (udp_pcbs (n_udp n)) pcb ip port n false (bo_live _ (po_bound _ Hok)) (bo_nodup _ (po_bound _ Hok)) (fun _ => eq_refl)) as (rb & Hrb & _).
    apply bind_inv in Hr as (n1 & rb' & R & Hr). rewrite Hrb in R. injection R as <- <-. destruct rb as [rb|].
    + run Hr. apply upd_inv_udp in R as (b & Hb & _). by rewrite Eb in Hb.
    + apply ret_inv in Hr as [-> ->]. split; [done|]. split; [by destruct n|done].
Qed.

Lemma same_orderly pcb f n n' u : orderly n -> (forall b, up_local_ip (f b) = up_local_ip b /\ up_local_port (f b) = up_local_port b) -> udp_upd pcb f n = Ret (n', u) ->
  orderly n' /\ n' = n_set_udp (n_udp n') n /\ udp_pcbs (n_udp n') = udp_pcbs (n_udp n).
Proof.
  intros Hok Hf (b & Hb & ->)%upd_inv_udp. destruct (Hf b) as [H1' H2']. split; [|done].
  apply (ports_upd (n_udp n) pcb b); [done|done|done|done|apply Hok].
Qed.

(** Only the blocks change, and the list stays in order. *)
Definition keeps_ports {A} (m : NetM E A) : Prop := forall n n' r, orderly n -> m n = Ret (n', r) -> orderly n' /\ n' = n_set_udp (n_udp n') n.

Lemma ensure_orderly pcb n n' r : orderly n -> ensure_bound pcb n = Ret (n', r) -> orderly n' /\ n' = n_set_udp (n_udp n') n /\ (r = ERR_OK -> pcb ∈ udp_pcbs (n_udp n')).
Proof.
  intros Hok Hr. unfold ensure_bound in Hr. run Hr. destruct (decide (up_local_port v = 0)) as [Hp|Hp].
  - rewrite bool_decide_true in Hr by done. apply (bind_orderly _ _ _ _ _ _ Hok) in Hr; [done|]. intros _ b Hb. rewrite R in Hb. by injection Hb as <-.
  - rewrite bool_decide_false in Hr by done. apply ret_inv in Hr as [-> ->]. split; [done|]. split; [by destruct n|]. intros _. by eapply (po_listed _ Hok).
Qed.

Lemma recv_orderly pcb f a : keeps_ports (udp_recv pcb f a).
Proof. intros n n' r Hok Hr. apply same_orderly in Hr as (K1 & K2 & _); [done|done|]. by intros b. Qed.
Lemma disconnect_orderly pcb : keeps_ports (udp_disconnect pcb).
Proof. intros n n' r Hok Hr. apply same_orderly in Hr as (K1 & K2 & _); [done|done|]. by intros b. Qed.

Lemma set_udp_twice u n n1 : n1 = n_set_udp (n_udp n1) n -> n_set_udp u n1 = n_set_udp u n.
Proof. by intros ->. Qed.

Lemma connect_orderly pcb ip port : keeps_ports (udp_connect pcb ip port).
Proof.
  intros n n' r Hok Hr. unfold udp_connect in Hr. apply bind_inv in Hr as (n1 & err & R & Hr). apply (ensure_orderly _ _ _ _ Hok) in R as (Hok1 & E1 & Hin).
  destruct (decide (err = ERR_OK)) as [He|He].
  - rewrite bool_decide_false in Hr by auto. specialize (Hin He). run Hr. apply same_orderly in R as (Hok2 & E2 & El); [|done|by intros b].
    run Hr. rewrite El, bool_decide_true in Hr by done. run Hr. apply ret_inv in Hr as [-> _]. split; [done|]. rewrite E2 at 1. by apply set_udp_twice.
  - rewrite bool_decide_true in Hr by done. by apply ret_inv in Hr as [-> _].
Qed.

Lemma match_orderly src dest br f l : forall dn unc n n' r, orderly n -> udp_pcbs (n_udp n) = dn ++ l -> match_loop l dn unc src dest br f n = Ret (n', r) ->
  orderly n' /\ n' = n_set_udp (n_udp n') n.
Proof.
  induction l as [|a l IH]; intros dn unc n n' r Hok Hl Hr; cbn [match_loop] in Hr; [apply ret_inv in Hr as [-> _]; split; [done|by destruct n]|].
  run Hr. run Hr. destruct (_ && _); [|eapply (IH (dn ++ [a])); [done|by rewrite Hl, <-app_assoc|exact Hr]].
  apply bind_inv in Hr as (n1 & [] & R1 & Hr). apply ret_inv in Hr as [-> _]. destruct (bool_decide _); [|apply ret_inv in R1 as [-> _]; split; [done|by destruct n]].
  unfold udp_set_list, modify in R1. injection R1 as <-. split; [|done]. apply ports_perm; [done|]. rewrite Hl. by apply Permutation_middle.
Qed.

Lemma remove_orderly pcb : keeps orderly (udp_remove pcb).
Proof. intros n n' r Hok Hr. unfold udp_remove in Hr. do 3 run Hr || idtac. injection Hr as <-. exact (ports_remove _ _ Hok). Qed.

(** New memory is not that of a block in use. *)
Lemma new_orderly n n' r : orderly n -> udp_new n = Ret (n', r) -> udps (n_udp n) !! r = None -> orderly n'.
Proof.
  intros Hok Hr Hf. unfold udp_new in Hr. run Hr. destruct (memp_malloc _ _) as [[pcb h]|]; [|by apply ret_inv in Hr as [-> _]].
  unfold modify, udp_put in Hr. cbn in Hr. injection Hr as <- <-. unfold orderly. cbn [n_udp n_set_udp n_set_heap].
  apply ports_put; [done|by apply ports_gone|done|apply Hok].
Qed.

End Ops.
