(* ===== verification/UdpSend.v ===== *)
(** * Sent datagrams

    Theorems on [Udp], [IpOut] and [Etharp] together: the frame a datagram
    leaves as, from [udp_sendto_if] to the driver. *)

From stdpp Require Import gmap.
From S2P Require Import Prelude LwipDef InetChksum IpAddr Pbuf PbufOps PbufData NetState NetMem Etharp EtharpOps IpOut Icmp Raw Udp.

(** ** The datagram *)

(** Ports and length. *)
Definition udp_ports (sport dport len : Z) : list Z := le2 (lwip_htons sport) ++ le2 (lwip_htons dport) ++ le2 (lwip_htons len).

(** The checksum that is sent for the data [d]; 0: none. *)
Definition udp_ck (src dst sport dport : Z) (d : list Z) : Z :=
  let len := Z.of_nat (length d) + UDP_HLEN in
  let c := inet_chksum_pseudo [udp_ports sport dport len ++ le2 0 ++ d] src dst IP_PROTO_UDP len in
  if bool_decide (c = 0) then 0xffff else c.

(** The header in front of the data [d]. *)
Definition udp_hdr (ck : bool) (src dst sport dport : Z) (d : list Z) : list Z :=
  udp_ports sport dport (Z.of_nat (length d) + UDP_HLEN) ++ le2 (if ck then udp_ck src dst sport dport d else 0).

Lemma udp_ports_ok sport dport len : bytes (udp_ports sport dport len) /\ odd_len (udp_ports sport dport len) = false /\ length (udp_ports sport dport len) = 6%nat.
Proof. split; [|done]. repeat apply Forall_app_2; apply le2_bytes. Qed.

Lemma udp_ck_range src dst sport dport d : bytes d -> Z.of_nat (length d) < 65528 -> is_u32 src -> is_u32 dst -> is_u16 (udp_ck src dst sport dport d) /\ udp_ck src dst sport dport d <> 0.
Proof.
  intros Hd Hl Hs Hdst. unfold udp_ck. set (len := Z.of_nat (length d) + UDP_HLEN). set (p := udp_ports _ _ _ ++ _).
  assert (bytes p /\ length p = (8 + length d)%nat) as [Hp Hpl].
  { split; [|done]. apply Forall_app_2; [apply udp_ports_ok|]. apply Forall_app_2; [apply le2_bytes|done]. }
  rewrite inet_chksum_pseudo_oc; try done; [|by apply Forall_singleton; split; [done|lia]|unfold len, UDP_HLEN; unw; lia].
  assert (0 <= val (pseudo_header src dst IP_PROTO_UDP len ++ concat [p])) as Hv.
  { apply val_nonneg, Forall_app_2; [apply pseudo_bytes; [done|unfold len, UDP_HLEN; unw; lia]|]. cbn. rewrite app_nil_r. done. }
  pose proof (oc_range _ Hv) as [Hr _]. case_bool_decide; unw; lia.
Qed.

(** What the receiver computes over a datagram with its header. *)
Lemma udp_datagram_checks src dst sport dport d q :
  bytes d -> Z.of_nat (length d) < 65528 -> is_u32 src -> is_u32 dst -> packet_ok q ->
  concat q = udp_hdr true src dst sport dport d ++ d ->
  inet_chksum_pseudo q src dst IP_PROTO_UDP (Z.of_nat (length d) + UDP_HLEN) = 0.
Proof.
  intros Hd Hl Hs Hdst Hq Hc. set (len := Z.of_nat (length d) + UDP_HLEN) in *. destruct (udp_ports_ok sport dport len) as (H1 & H2 & H3).
  set (pre := udp_ports sport dport len) in *.
  refine (pseudo_verifies pre d [pre ++ le2 0 ++ d] q src dst IP_PROTO_UDP len _ H1 Hd H2 Hs Hdst _ _ _ Hq eq_refl _ _).
  - done.
  - unfold len, UDP_HLEN. unw. lia.
  - apply Forall_singleton. rewrite !length_app, H3. cbn [length le2]. split; [|lia]. apply Forall_app_2; [done|]. apply Forall_app_2; [apply le2_bytes|done].
  - cbn [concat]. by rewrite app_nil_r.
  - etrans; [exact Hc|]. unfold udp_hdr, udp_ck. fold len. fold pre. symmetry. apply (assoc_L (++)).
Qed.

Lemma has_room_le h p k k' s l b : has_room h p k s l b -> k' <= k -> has_room h p k' s l b.
Proof. intros [H1 H2 H3 H4 H5 H6 H7] Hk. split; try done; lia. Qed.

Lemma data_bytes_ok l : bytes (data l) -> data_len l < 65536 -> packet_ok (map sg_data l).
Proof.
  unfold data_len. induction l as [|s l IH]; intros Hb Hl; [constructor|]. cbn [data map] in *. apply Forall_app in Hb as [Hs Hb]. rewrite length_app in Hl.
  constructor; [split; [done|lia]|]. apply IH; [done|lia].
Qed.
(** ** From the control block to the driver *)

Section Send.
Context {E : Type} `{Malloc, LinkDriver E, UdpApp E}.
Implicit Types n : Net E.

(** An interface that sends: up to its link, with the output of the driver. *)
Record sends (n : Net E) (a : Z) (f : netif) : Prop := {
  sn_at : netifs (n_if n) !! a = Some f;
  sn_nz : a <> 0;
  sn_station : station f;
  sn_output : nf_output f = LPC_ETHARP_OUTPUT;
  sn_link : Z.land (nf_flags f) NETIF_FLAG_LINK_UP <> 0;
  sn_addr : is_u32 (nf_ip_addr f);
}.

Lemma call_output_sends n a p s l b dest mac s' f :
  has_room (n_heap n) p SIZEOF_ETH_HDR s l b -> arp_ok (n_arp n) -> sends n a f -> reaches (n_arp n) f dest mac s' ->
  exists n', call_output a p dest n = call_linkoutput a p n' /\
    pushed p s l b (eth_header mac (nf_hwaddr f)) (n_heap n) (n_heap n') /\ n' = n_set_heap (n_heap n') (n_set_arp s' n).
Proof.
  intros Hr Hok [K1 K2 K3 K4 K5 _] Hreach. destruct (etharp_output_sends n a p s l b dest mac s' f Hr Hok K2 K1 K3 Hreach) as (n' & Hn & Hp & Hs).
  exists n'. split; [|done]. unfold call_output. erewrite bind_step by (by apply netif_at_at). cbv beta. rewrite bool_decide_true by done.
  unfold lpc_etharp_output. erewrite bind_step by (by apply netif_at_at). cbv beta. by rewrite bool_decide_true by done.
Qed.

(** A block that may send to [dst] through the interface. *)
Record may_send (c : udp_pcb) (f : netif) (dst : Z) : Prop := {
  ms_port : up_local_port c <> 0;
  ms_bcast : Z.land (up_so_options c) SOF_BROADCAST <> 0 \/ ip4_addr_isbroadcast dst f = 0;
  ms_local : ip_addr_isany (up_local_ip c) = true \/ up_local_ip c = nf_ip_addr f;
  ms_ttl : is_u8 (up_ttl c);
  ms_tos : is_u8 (up_tos c);
}.

Definition src_of (c : udp_pcb) (f : netif) : Z := if ip_addr_isany (up_local_ip c) then nf_ip_addr f else up_local_ip c.

Lemma src_of_eq c f dst : may_send c f dst -> src_of c f = nf_ip_addr f.
Proof. intros Hms. unfold src_of. destruct (ms_local _ _ _ Hms) as [->| ->]; [done|by destruct (ip_addr_isany _)]. Qed.

(** The checksum over the packet, its field zero. *)
Lemma udp_chksum_at n p s l src dst sport dport d :
  packet_seg (n_heap n) p (mkSeg (sg_a s) (sg_base s) ((udp_ports sport dport (Z.of_nat (length d) + UDP_HLEN) ++ le2 0) ++ sg_data s) :: l) 0 0 ->
  d = data (s :: l) -> bytes d -> Z.of_nat (length d) + UDP_HLEN < 65536 -> is_u32 src -> is_u32 dst ->
  udp_chksum p src dst (Z.of_nat (length d) + UDP_HLEN) false 0 n = Ret (n, udp_ck src dst sport dport d).
Proof.
  intros Hp Hd Hb Hlen Hs Hdst. unfold UDP_HLEN in Hlen. set (len := Z.of_nat (length d) + UDP_HLEN) in *. unfold udp_chksum. erewrite bind_step by (eapply pbuf_data_at; exact Hp). cbv beta.
  set (ports := udp_ports sport dport len) in *. destruct (udp_ports_ok sport dport len) as (P1 & _ & P3). fold ports in P1, P3.
  set (l' := mkSeg _ _ _ :: l) in *. assert (data l' = ports ++ le2 0 ++ d) as Hl'.
  { subst l' d. cbn [data sg_data]. by rewrite <-!(assoc_L (++)). }
  assert (bytes (ports ++ le2 0 ++ d)) as Hok by (apply Forall_app_2; [done|]; apply Forall_app_2; [apply le2_bytes|done]).
  assert (Z.of_nat (length (ports ++ le2 0 ++ d)) = len) as Hll by (rewrite !length_app, P3; cbn [length le2]; unfold len, UDP_HLEN; lia).
  unfold udp_ck. fold len. fold ports.
  assert (inet_chksum_pseudo (map sg_data l') src dst IP_PROTO_UDP len = inet_chksum_pseudo [ports ++ le2 0 ++ d] src dst IP_PROTO_UDP len) as ->; [|done].
  assert (is_u16 len) as H16 by (unfold len, UDP_HLEN; unw; lia).
  rewrite !inet_chksum_pseudo_oc; try done.
  - rewrite data_concat, Hl'. cbn [concat]. by rewrite app_nil_r.
  - apply Forall_singleton. split; [done|]. rewrite Hll. unfold len, UDP_HLEN. lia.
  - apply data_bytes_ok; [by rewrite Hl'|]. unfold data_len. rewrite Hl', Hll. unfold len, UDP_HLEN. lia.
Qed.

(** A header that is part of the packet itself is not freed. *)
Lemma send_tail (m : NetM E Z) p n : (err ← m; _ ← free_header p p; mret err) n = m n.
Proof. unfold free_header. rewrite bool_decide_false by tauto. unfold mbind, net_bind. by destruct (m n) as [[? ?]| |]. Qed.

(** The header on the packet, up to the call of IP. *)
Lemma udp_sendto_if_header n pcb c p s l b dst port a f :
  udps (n_udp n) !! pcb = Some c -> netifs (n_if n) !! a = Some f -> may_send c f dst -> is_u32 (nf_ip_addr f) -> is_u32 dst ->
  has_room (n_heap n) p UDP_HLEN s l b -> bytes (data (s :: l)) ->
  let hdr := udp_hdr (bool_decide (Z.land (up_flags c) UDP_FLAGS_NOCHKSUM = 0)) (nf_ip_addr f) dst (up_local_port c) port (data (s :: l)) in
  exists n', udp_sendto_if pcb p dst port a n = ip_output_if p (nf_ip_addr f) (Some dst) (up_ttl c) (up_tos c) IP_PROTO_UDP a n' /\
    pushed p s l b hdr (n_heap n) (n_heap n') /\ n' = n_set_heap (n_heap n') n.
Proof.
  intros Hc Hf Hms Hif Hdst Hr Hbytes hdr. pose proof (hr_buf _ _ _ _ _ _ Hr) as Hb. pose proof (src_of_eq c f dst Hms) as Hsrc.
  destruct (push_spec _ _ _ _ _ UDP_HLEN Hr ltac:(done)) as (x & Hx & Hpush & Hbs & Hset).
  destruct (packet_alive _ _ _ _ _ _ (hr_pkt _ _ _ _ _ _ Hr)) as (Ha & Hp0 & b' & Hb' & Ht & Hlen & _). rewrite Hb in Hb'. injection Hb' as <-.
  pose proof (seg_len_nonneg s) as Hs0. pose proof (data_len_nonneg l) as Hl0. pose proof (hr_len _ _ _ _ _ _ Hr) as Htot.
  set (b1 := moved UDP_HLEN b) in *. set (n1 := n_set_heap (put p b1 (n_heap n)) n). set (q := p_payload b1) in *.
  assert (pbufs (n_heap n1) !! p = Some b1) as Hb1 by apply put_same.
  assert (p_tot_len b1 = data_len (s :: l) + UDP_HLEN) as Htl by (cbn; lia).
  set (len := data_len (s :: l) + UDP_HLEN) in *. set (ports := udp_ports (up_local_port c) port len).
  unfold udp_sendto_if, udp_sendto_if_chksum. erewrite bind_step by (by apply udp_at_at). cbv beta. erewrite bind_step by (by apply netif_at_at). cbv beta.
  replace (bool_decide (Z.land (up_so_options c) _ = 0) && _) with false.
  2: { symmetry. apply andb_false_iff. destruct (ms_bcast _ _ _ Hms) as [Hm|Hm]; [left|right]; apply bool_decide_eq_false; lia. }
  assert (ensure_bound pcb n = Ret (n, ERR_OK)) as He.
  { unfold ensure_bound. erewrite bind_step by (by apply udp_at_at). cbv beta. by rewrite bool_decide_false by apply (ms_port _ _ _ Hms). }
  erewrite bind_step by exact He. cbv beta. rewrite (bool_decide_false (ERR_OK <> ERR_OK)) by tauto.
  assert (udp_header p n = Ret (n1, p)) as Hh.
  { unfold udp_header. erewrite bind_step by (apply on_heap_at; exact Hpush). done. }
  erewrite bind_step by exact Hh. cbv beta. rewrite (bool_decide_false (p = 0)) by done.
  erewrite bind_step by (by apply pb_at). cbv beta. erewrite bind_step by (apply assert_at; apply bool_decide_eq_true; cbn; lia). cbv beta.
  erewrite bind_step by (by apply pb_at). cbv beta. fold q. erewrite bind_step by (by apply udp_at_at). cbv beta.
  change (nbytes q (x ++ sg_data s) n1) in Hbs.
  assert (length x = 8%nat) as Hx8 by (unfold UDP_HLEN in Hx; lia). do 8 (destruct x as [|? x]; [done|]). destruct x; [|done]. clear Hx Hx8. cbn [app] in Hbs.
  assert (length hdr = 8%nat) as Hhdr by done.
  exists (nset q (hdr ++ sg_data s) n1). split; [|split; [apply Hset; by rewrite Hhdr|done]].
  rewrite (nset_start _ _ _ Hbs) at 1. unfold udph_src, udph_dest, udph_chksum, udph_len. do 3 mem_step Hbs.
  replace (negb (ip_addr_isany (up_local_ip c)) && _) with false.
  2: { symmetry. destruct (ms_local _ _ _ Hms) as [->|Hm]; [done|]. unfold ip_addr_cmp. rewrite (bool_decide_true (_ = nf_ip_addr f)) by done. apply andb_false_r. }
  fold (src_of c f). rewrite Hsrc. erewrite bind_step by (apply pb_set; exact Hb1). cbv beta. rewrite Htl. mem_step Hbs.
  assert (len = Z.of_nat (length (data (s :: l))) + UDP_HLEN) as Hlen2 by done.
  set (ck := bool_decide (Z.land (up_flags c) UDP_FLAGS_NOCHKSUM = 0)) in *.
  match goal with |- _ (nset q ?d n1) = _ => set (n2 := nset q d n1) end.
  assert ((if ck then udp_chksum p (nf_ip_addr f) dst len false 0 ≫= λ c0, st16 q 6 c0 else mret ()) n2 = Ret (nset q (hdr ++ sg_data s) n1, ())) as Hck.
  { destruct ck; [|unfold hdr, udp_hdr; rewrite <-Hlen2; reflexivity].
    assert (udp_chksum p (nf_ip_addr f) dst len false 0 n2 = Ret (n2, udp_ck (nf_ip_addr f) dst (up_local_port c) port (data (s :: l)))) as Hu.
    { rewrite Hlen2. apply (udp_chksum_at _ p s l); [|done|done|rewrite <-Hlen2; exact Htot|done|done]. rewrite <-Hlen2.
      exact (pu_pkt _ _ _ _ _ _ _ (Hset (ports ++ le2 0) eq_refl)). }
    erewrite bind_step by exact Hu. cbv beta. unfold n2. rewrite (st16_at q 6 _ _ _ _ Hbs) by mem_side.
    reflexivity. }
  erewrite bind_step by exact Hck. cbv beta. apply send_tail.
Qed.

(** A frame with a datagram: from the station [smac] to [dmac]. *)
Definition udp_frame (dmac smac : list Z) (tos id ttl : Z) (ck : bool) (src sport dst dport : Z) (d : list Z) : list Z :=
  eth_header dmac smac ++ ip_header tos (Z.of_nat (length d) + UDP_HLEN + IP_HLEN) id ttl IP_PROTO_UDP src dst ++ udp_hdr ck src dst sport dport d ++ d.

Definition with_chksum (c : udp_pcb) : bool := bool_decide (Z.land (up_flags c) UDP_FLAGS_NOCHKSUM = 0).

Lemma len_cons s l hdr : data_len (mkSeg (sg_a s) (sg_base s) (hdr ++ sg_data s) :: l) = data_len (s :: l) + Z.of_nat (length hdr).
Proof. rewrite !data_len_cons. unfold seg_len. cbn [sg_data]. rewrite length_app. lia. Qed.

(** C14: A datagram that is sent.  The packet has room for the headers, is not
    used elsewhere and fits the interface, the destination is known to ARP, a
    broadcast or a multicast address.  Then what the driver gets is this
    packet with headers in front of its data: the bytes are [udp_frame], with
    addresses, ports, lengths and both checksums; the rest of its buffers and
    of the memory is untouched.  The state of the
    stack changes in the number of the datagram and the hint of ARP only, and
    the result is that of the driver. *)
Theorem udp_frame_sent n pcb c p s l b dst port a f mac s' :
  udps (n_udp n) !! pcb = Some c -> may_send c f dst -> sends n a f -> arp_ok (n_arp n) -> reaches (n_arp n) f dst mac s' ->
  has_room (n_heap n) p 42 s l b -> p_ref b = 1 -> bytes (data (s :: l)) -> is_u32 dst ->
  nf_mtu f = 0 \/ data_len (s :: l) + 28 <= nf_mtu f ->
  let d := data (s :: l) in
  exists hdr n', udp_sendto_if pcb p dst port a n = call_linkoutput a p n' /\ pushed p s l b hdr (n_heap n) (n_heap n') /\
    hdr ++ d = udp_frame mac (nf_hwaddr f) (up_tos c) (ip_id (n_ip n)) (up_ttl c) (with_chksum c) (nf_ip_addr f) (up_local_port c) dst port d /\
    n' = n_set_heap (n_heap n') (n_set_arp s' (bump_id n)).
Proof.
  intros Hc Hms Hsn Hok Hreach Hr Href Hbytes Hdst Hmtu d. change (data (s :: l)) with d in Hbytes |- .
  destruct (udp_sendto_if_header n pcb c p s l b dst port a f Hc (sn_at _ _ _ Hsn) Hms (sn_addr _ _ _ Hsn) Hdst) as (n1 & E1 & P1 & S1);
    [by eapply has_room_le|done|]. rewrite E1. clear E1. fold d in P1. set (h1 := udp_hdr _ _ _ _ _ d) in *.
  assert (length h1 = 8%nat) as L1 by done. pose proof (pushed_room _ _ _ _ _ _ _ _ Hr P1) as R1. rewrite L1 in R1.
  set (s1 := mkSeg (sg_a s) (sg_base s) (h1 ++ sg_data s)) in *. set (b1 := moved 8 b) in *.
  assert (data_len (s1 :: l) = Z.of_nat (length d) + UDP_HLEN) as D1 by (unfold s1; rewrite len_cons, L1; done).
  destruct (ip_output_if_sends n1 p s1 l b1 (nf_ip_addr f) dst (up_ttl c) (up_tos c) IP_PROTO_UDP a f) as (n2 & E2 & [P2 S2]).
  1-10: try done.
  { by eapply has_room_le. }
  { rewrite S1. apply (sn_at _ _ _ Hsn). }
  { unfold UDP_HLEN, IP_HLEN, data_len in *. fold d in Hmtu. lia. }
  { apply (ms_ttl _ _ _ Hms). } { apply (ms_tos _ _ _ Hms). } { apply (sn_addr _ _ _ Hsn). } { apply (sn_addr _ _ _ Hsn). }
  rewrite E2. clear E2. rewrite D1 in P2.
  replace (if ip_addr_isany (nf_ip_addr f) then nf_ip_addr f else nf_ip_addr f) with (nf_ip_addr f) in P2 by (by destruct (ip_addr_isany _)).
  replace (ip_id (n_ip n1)) with (ip_id (n_ip n)) in P2 by (by rewrite S1). set (h2 := ip_header _ _ _ _ _ _ _) in *.
  assert (length h2 = 20%nat) as L2 by apply ip_header_length.
  pose proof (pushed_room _ _ _ _ _ _ _ _ R1 P2) as R2. rewrite L2 in R2.
  pose proof (pushed_trans _ _ _ _ _ _ _ _ _ P1 P2) as P12.
  destruct (call_output_sends n2 a p _ l _ dst mac s' f R2) as (n3 & E3 & P3 & S3).
  { rewrite S2, S1. exact Hok. }
  { destruct Hsn as [K1 K2 K3 K4 K5 K6]. split; try done. rewrite S2, S1. exact K1. }
  { rewrite S2, S1. exact Hreach. }
  exists (eth_header mac (nf_hwaddr f) ++ h2 ++ h1), n3. split; [done|]. split; [|split; [unfold udp_frame; by rewrite <-!app_assoc|]].
  - eapply (pushed_trans p s l b _ _ _ (h2 ++ h1)); [exact P12|]. rewrite length_app, L1, L2.
    unfold s1 in P3. cbn [sg_a sg_base sg_data] in P3. rewrite (assoc_L (++)) in P3.
    replace (moved (Z.of_nat (20 + 8)) b) with (moved (Z.of_nat 20) b1); [exact P3|]. unfold b1, moved. cbn. f_equal; [f_equal| |]; lia.
  - rewrite S3, S2, S1. reflexivity.
Qed.

End Send.

(** ** Two hosts

    192.168.0.1 sends from its port 7 to port 9 of 192.168.0.2; a packet of
    three bytes with room for the headers.  What the driver gets is noted. *)

Definition demo_malloc : Malloc := test_malloc 1000 0.
#[local] Existing Instance demo_malloc.

#[export] Instance note_link : LinkDriver (list (list Z)) := {
  linkoutput _ p h e := d ← chain_data (chain_fuel h) p h; Ret (h, e ++ [concat d], 0);
}.
#[export] Instance note_app : UdpApp (list (list Z)) := {
  udp_recv_fn _ _ _ p addr port := d ← pbuf_data p; modify (fun n => n_set_ext (n_ext n ++ [le4 addr; le2 port; concat d]) n);
}.

Definition host (k : Z) : Z := 192 + 256 * 168 + 16777216 * k.
Definition mac_of (k : Z) : list Z := [2; 0; 0; 0; 0; k].
Definition demo_if (k : Z) : netif := mkNetif (host k) 0x00ffffff 0 1 LPC_ETHARP_OUTPUT 1 0 [] 1500 6 (mac_of k) 0x33 [101; 110] 0.
Definition demo_block (port recv : Z) : udp_pcb := mkUdpPcb 0 0 0 0 UDP_TTL 0 port 0 recv 0.

(** Host [k] with the packet [d] at 8, [off] bytes of its memory in front. *)
Definition demo_host (k peer port recv off : Z) (d : list Z) : Net (list (list Z)) :=
  mkNet (mkHeap {[8 := mkPbuf 0 (8, off) (Z.of_nat (length d)) (Z.of_nat (length d)) PBUF_RAM 0 1]} {[8 := replicate (Z.to_nat off) 0 ++ d]} ∅)
    (mkNetifState {[1 := demo_if k]} [1] 1 1)
    (one_host (mkEntry 0 (host peer) 1 (mac_of peer) ETHARP_STATE_STABLE 0))
    (mkUdpState {[50 := demo_block port recv]} [50] 0xc000) (mkRawState ∅ []) (mkIpState 0 null_ptr 0 0 77) (mkReassState ∅ [] 0) [].

(** The whole way of a datagram out of the stack. *)
Example demo_send : exists n', udp_sendto_if 50 8 (host 2) 9 1 (demo_host 1 2 7 0 56 [1; 2; 3]) = Ret (n', ERR_OK) /\
  n_ext n' = [udp_frame (mac_of 2) (mac_of 1) 0 77 255 true (host 1) 7 (host 2) 9 [1; 2; 3]].
Proof. eexists. split; vm_compute; reflexivity. Qed.

Lemma udp_frame_sent_witness : exists hdr n', udp_sendto_if 50 8 (host 2) 9 1 (demo_host 1 2 7 0 56 [1; 2; 3]) = call_linkoutput 1 8 n' /\
  hdr ++ [1; 2; 3] = udp_frame (mac_of 2) (mac_of 1) 0 77 255 true (host 1) 7 (host 2) 9 [1; 2; 3].
Proof.
  destruct (udp_frame_sent (demo_host 1 2 7 0 56 [1; 2; 3]) 50 (demo_block 7 0) 8 (mkSeg 8 8 [1; 2; 3]) [] (mkPbuf 0 (8, 56) 3 3 PBUF_RAM 0 1) (host 2) 9 1
    (demo_if 1) (mac_of 2) (one_host (mkEntry 0 (host 2) 1 (mac_of 2) ETHARP_STATE_STABLE 0))) as (hdr & n' & E1 & _ & E2 & _).
  - reflexivity.
  - split; [done|right; reflexivity|left; reflexivity|by vm_compute|by vm_compute].
  - split; [done|done|by split|done|done|by vm_compute].
  - apply arp_ok_one. split; cbn; [by vm_compute|by vm_compute|done|done|done].
  - right. right. split; [reflexivity|]. split; [reflexivity|]. exists (host 2), 0. split; [reflexivity|].
    split; [|split; reflexivity]. eexists. split; [reflexivity|]. split; [by vm_compute|]. split; [reflexivity|]. split; [reflexivity|]. by vm_compute.
  - split; [|apply NoDup_singleton|done|by left|done|by vm_compute|by vm_compute].
    cbn [packet_seg sg_a]. split_and!; [done|done|]. eexists. split; [split; [done|]; split_and!; [done|done|]; eexists; done|]. done.
  - done.
  - by repeat constructor.
  - by vm_compute.
  - right. by vm_compute.
  - exists hdr, n'. split; [exact E1|exact E2].
Defined.
