(* ===== verification/IpReass.v ===== *)
(** * Reassembly of fragments ([src/lwip/src/core/ipv4/ip_frag.c])

    The fragments of a datagram wait in a list in the order of their offsets.
    The list is kept in the first eight bytes of the fragments themselves, in
    place of their IP headers: [struct ip_reass_helper]. *)

From stdpp Require Import gmap.
From S2P Require Import Prelude LwipDef InetChksum IpAddr Pbuf PbufOps PbufData NetState Etharp IpOut Icmp.

Definition IP_REASS_MAXAGE : Z := 3.
Definition IP_REASS_MAX_PBUFS : Z := 10.
Definition IP_REASS_FLAG_LASTFRAG : Z := 0x01.
(** Two pointers, the header, a [u16_t] and two [u8_t]. *)
Definition sizeof_ip_reassdata : Z := 32.
Definition MEMP_REASSDATA : Z := sizeof_ip_reassdata.

(** The fields of [struct ip_reass_helper]. *)
Definition irh_next_pbuf : Z := 0.
Definition irh_start : Z := 4.
Definition irh_end : Z := 6.

(** The fields of a header that is kept as its bytes. *)
Definition hdr16 (l : list Z) (k : Z) : Z := of_le2 (nth (Z.to_nat k) l 0) (nth (Z.to_nat k + 1) l 0).
Definition hdr32 (l : list Z) (k : Z) : Z :=
  of_le4 (nth (Z.to_nat k) l 0) (nth (Z.to_nat k + 1) l 0) (nth (Z.to_nat k + 2) l 0) (nth (Z.to_nat k + 3) l 0).

Definition IP_ADDRESSES_AND_ID_MATCH (a b : list Z) : bool :=
  bool_decide (hdr32 a iph_src = hdr32 b iph_src) && bool_decide (hdr32 a iph_dest = hdr32 b iph_dest) && bool_decide (hdr16 a iph_id = hdr16 b iph_id).

Definition rd_set_p x (r : ip_reassdata) : ip_reassdata := mkReass x (rd_iphdr r) (rd_datagram_len r) (rd_flags r) (rd_timer r).
Definition rd_set_iphdr x (r : ip_reassdata) : ip_reassdata := mkReass (rd_p r) x (rd_datagram_len r) (rd_flags r) (rd_timer r).
Definition rd_set_len x (r : ip_reassdata) : ip_reassdata := mkReass (rd_p r) (rd_iphdr r) x (rd_flags r) (rd_timer r).
Definition rd_set_flags x (r : ip_reassdata) : ip_reassdata := mkReass (rd_p r) (rd_iphdr r) (rd_datagram_len r) x (rd_timer r).
Definition rd_set_timer x (r : ip_reassdata) : ip_reassdata := mkReass (rd_p r) (rd_iphdr r) (rd_datagram_len r) (rd_flags r) x.

(** The block behind [a], or null; what is behind [a]; what is in front of it
    and [a]. *)
Fixpoint after (a : Z) (l : list Z) : list Z :=
  match l with [] => [] | b :: l => if bool_decide (b = a) then l else after a l end.
Definition next_of (a : Z) (l : list Z) : Z := default 0 (head (after a l)).
Fixpoint up_to (a : Z) (l : list Z) : list Z :=
  match l with [] => [] | b :: l => if bool_decide (b = a) then [b] else b :: up_to a l end.

Section IpReass.
Context {E : Type} `{Malloc, LinkDriver E}.
Notation M := (NetM E).

Definition reass_at (a : Z) : M ip_reassdata := s ← gets n_reass; need (reasss s !! a).
Definition reass_upd (a : Z) (f : ip_reassdata -> ip_reassdata) : M () :=
  r ← reass_at a;
  modify (fun n => n_set_reass (mkReassState (<[a := f r]> (reasss (n_reass n))) (reassdatagrams (n_reass n)) (ip_reass_pbufcount (n_reass n))) n).
Definition reass_set_list (l : list Z) : M () :=
  modify (fun n => n_set_reass (mkReassState (reasss (n_reass n)) l (ip_reass_pbufcount (n_reass n))) n).
Definition reass_count (f : Z -> Z) : M () :=
  modify (fun n => n_set_reass (mkReassState (reasss (n_reass n)) (reassdatagrams (n_reass n)) (u16 (f (ip_reass_pbufcount (n_reass n))))) n).

Definition ip_reass_dequeue_datagram (ipr prev : Z) : M () :=
  s ← gets n_reass;
  let l := reassdatagrams s in
  _ ← (if bool_decide (head l = Some ipr) then reass_set_list (tail l)
       else _ ← assert (bool_decide (prev <> 0)); reass_set_list (up_to prev l ++ after ipr l));
  _ ← modify (fun n => n_set_reass (mkReassState (delete ipr (reasss (n_reass n))) (reassdatagrams (n_reass n)) (ip_reass_pbufcount (n_reass n))) n);
  modify (fun n => n_set_heap (memp_free ipr (n_heap n)) n).

(** The buffers of a fragment are freed; [pbufs_freed] and their number. *)
Definition free_fragment (p pbufs_freed : Z) : M Z :=
  clen ← in_heap (pbuf_clen p);
  _ ← assert (bool_decide (pbufs_freed + clen <= 0xffff));
  _ ← on_heap (pbuf_free p);
  mret (u16 (pbufs_freed + clen)).

Fixpoint free_fragments (fuel : nat) (p pbufs_freed : Z) : M Z :=
  if bool_decide (p = 0) then mret pbufs_freed else
  match fuel with
  | O => fun _ => Spin
  | S fuel =>
      iprh ← pb p_payload p;
      nx ← ld32 iprh irh_next_pbuf;
      freed ← free_fragment p pbufs_freed;
      free_fragments fuel nx freed
  end.

Definition ip_reass_free_complete_datagram (ipr prev : Z) : M Z :=
  _ ← assert (bool_decide (prev <> ipr));
  s ← gets n_reass;
  _ ← (if bool_decide (prev <> 0) then assert (bool_decide (next_of prev (reassdatagrams s) = ipr)) else mret ());
  r ← reass_at ipr;
  iprh ← pb p_payload (rd_p r);
  start ← ld16 iprh irh_start;
  freed ← (if bool_decide (start = 0) then
             nx ← ld32 iprh irh_next_pbuf;
             _ ← reass_upd ipr (rd_set_p nx);
             _ ← stn iprh 0 (rd_iphdr r);
             _ ← icmp_time_exceeded (rd_p r) ICMP_TE_FRAG;
             free_fragment (rd_p r) 0
           else mret 0);
  r ← reass_at ipr;
  h ← gets n_heap;
  freed ← free_fragments (chain_fuel h) (rd_p r) freed;
  _ ← ip_reass_dequeue_datagram ipr prev;
  s ← gets n_reass;
  _ ← assert (bool_decide (ip_reass_pbufcount s >= freed));
  _ ← reass_count (fun c => c - freed);
  mret freed.

(** The body of the timer for the datagrams [l], [prev] in front of them. *)
Fixpoint tmr_loop (l : list Z) (prev : Z) : M () :=
  match l with
  | [] => mret ()
  | r :: l =>
      d ← reass_at r;
      if bool_decide (rd_timer d > 0) then _ ← reass_upd r (rd_set_timer (rd_timer d - 1)); tmr_loop l r
      else _ ← ip_reass_free_complete_datagram r prev; tmr_loop l prev
  end.

Definition ip_reass_tmr : M () := s ← gets n_reass; tmr_loop (reassdatagrams s) 0.

(** The search for the oldest datagram [fraghdr] does not belong to: [oldest]
    (null: none so far), [prev], [other_datagrams]. *)
Fixpoint oldest_loop (l : list Z) (fraghdr : list Z) (oldest prev other : Z) : M (Z * Z * Z) :=
  match l with
  | [] => mret (oldest, prev, other)
  | r :: l =>
      d ← reass_at r;
      '(oldest, other) ←
        (if IP_ADDRESSES_AND_ID_MATCH (rd_iphdr d) fraghdr then mret (oldest, other)
         else if bool_decide (oldest = 0) then mret (r, other + 1)
         else o ← reass_at oldest; mret (if bool_decide (rd_timer d <= rd_timer o) then r else oldest, other + 1));
      oldest_loop l fraghdr oldest (if bool_decide (l <> []) then r else prev) other
  end.

Fixpoint remove_oldest_loop (fuel : nat) (fraghdr : list Z) (pbufs_needed pbufs_freed : Z) : M Z :=
  match fuel with
  | O => fun _ => Spin
  | S fuel =>
      s ← gets n_reass;
      '(oldest, prev, other) ← oldest_loop (reassdatagrams s) fraghdr 0 0 0;
      pbufs_freed ← (if bool_decide (oldest <> 0) then k ← ip_reass_free_complete_datagram oldest prev; mret (pbufs_freed + k)
                     else mret pbufs_freed);
      if bool_decide (pbufs_freed < pbufs_needed) && bool_decide (other > 1) then remove_oldest_loop fuel fraghdr pbufs_needed pbufs_freed
      else mret pbufs_freed
  end.

Definition ip_reass_remove_oldest_datagram (fraghdr : list Z) (pbufs_needed : Z) : M Z :=
  s ← gets n_reass;
  remove_oldest_loop (S (length (reassdatagrams s))) fraghdr pbufs_needed 0.

Definition malloc_reassdata : M Z :=
  h ← gets n_heap;
  match memp_malloc MEMP_REASSDATA h with
  | None => mret 0
  | Some (ipr, h) => _ ← modify (n_set_heap h); mret ipr
  end.

Definition ip_reass_enqueue_new_datagram (fraghdr : list Z) (clen : Z) : M Z :=
  ipr ← malloc_reassdata;
  ipr ← (if bool_decide (ipr = 0) then
           k ← ip_reass_remove_oldest_datagram fraghdr clen;
           if bool_decide (k >= clen) then malloc_reassdata else mret 0
         else mret ipr);
  if bool_decide (ipr = 0) then mret 0
  else
    _ ← modify (fun n => n_set_reass (mkReassState (<[ipr := mkReass 0 fraghdr 0 0 IP_REASS_MAXAGE]> (reasss (n_reass n)))
           (ipr :: reassdatagrams (n_reass n)) (ip_reass_pbufcount (n_reass n))) n);
    mret ipr.

(** *** The place of a fragment *)

Definition helper (q : Z) : M (ptr * Z * Z * Z) :=
  iprh ← pb p_payload q;
  nx ← ld32 iprh irh_next_pbuf;
  start ← ld16 iprh irh_start;
  en ← ld16 iprh irh_end;
  mret (iprh, nx, start, en).

(** The loop over the fragments from [q] on; [prev]: the helper of the one in
    front of [q] and its end.  [None]: the new fragment is thrown away;
    otherwise [valid]. *)
Fixpoint insert_loop (fuel : nat) (ipr new_p : Z) (iprh : ptr) (start en q : Z) (prev : option (ptr * Z)) (valid : bool) : M (option bool) :=
  if bool_decide (q = 0) then
    match prev with
    | Some (iprh_prev, prev_end) =>
        _ ← assert (bool_decide (prev_end <= start));
        _ ← st32 iprh_prev irh_next_pbuf new_p;
        mret (Some (if bool_decide (prev_end <> start) then false else valid))
    | None =>
        r ← reass_at ipr;
        _ ← assert (bool_decide (rd_p r = 0));
        _ ← reass_upd ipr (rd_set_p new_p);
        mret (Some valid)
    end
  else
  match fuel with
  | O => fun _ => Spin
  | S fuel =>
      '(iprh_tmp, nx, tmp_start, tmp_end) ← helper q;
      if bool_decide (start < tmp_start) then
        _ ← st32 iprh irh_next_pbuf q;
        match prev with
        | Some (iprh_prev, prev_end) =>
            if bool_decide (start < prev_end) || bool_decide (en > tmp_start) then mret None
            else _ ← st32 iprh_prev irh_next_pbuf new_p; mret (Some valid)
        | None => _ ← reass_upd ipr (rd_set_p new_p); mret (Some valid)
        end
      else if bool_decide (start = tmp_start) then mret None
      else if bool_decide (start < tmp_end) then mret None
      else
        let valid := match prev with Some (_, prev_end) => if bool_decide (prev_end <> tmp_start) then false else valid | None => valid end in
        insert_loop fuel ipr new_p iprh start en nx (Some (iprh_tmp, tmp_end)) valid
  end.

(** From the fragment that ends at [en] to the last one: the helper of the
    last one seen, its end, and whether there is no hole. *)
Fixpoint holes_loop (fuel : nat) (q : Z) (iprh : ptr) (en : Z) : M (ptr * Z * bool) :=
  if bool_decide (q = 0) then mret (iprh, en, true) else
  match fuel with
  | O => fun _ => Spin
  | S fuel =>
      '(iprh_q, nx, start_q, end_q) ← helper q;
      if bool_decide (en <> start_q) then mret (iprh_q, end_q, false) else holes_loop fuel nx iprh_q end_q
  end.

(** "check if the rest of the fragments is here". *)
Definition validate (ipr : Z) (iprh : ptr) (en : Z) : M bool :=
  r ← reass_at ipr;
  '(first, _, first_start, _) ← helper (rd_p r);
  if bool_decide (first_start <> 0) then mret false
  else
    nx ← ld32 iprh irh_next_pbuf;
    h ← gets n_heap;
    '(iprh, en, valid) ← holes_loop (chain_fuel h) nx iprh en;
    if (valid : bool) then
      _ ← assert (bool_decide (rd_p r <> 0));
      _ ← assert (bool_decide (first <> iprh));
      nx ← ld32 iprh irh_next_pbuf;
      _ ← assert (bool_decide (nx = 0));
      _ ← assert (bool_decide (en = rd_datagram_len r));
      mret true
    else mret false.

Definition ip_reass_chain_frag_into_datagram_and_validate (ipr new_p : Z) : M bool :=
  fraghdr ← pb p_payload new_p;
  l ← IPH_LEN fraghdr;
  hl ← IPH_HL fraghdr;
  o ← IPH_OFFSET fraghdr;
  let len := u16 (lwip_ntohs l - hl * 4) in
  let offset := u16 (Z.land (lwip_ntohs o) IP_OFFMASK * 8) in
  _ ← st32 fraghdr irh_next_pbuf 0;
  _ ← st16 fraghdr irh_start offset;
  _ ← st16 fraghdr irh_end (u16 (offset + len));
  r ← reass_at ipr;
  h ← gets n_heap;
  v ← insert_loop (chain_fuel h) ipr new_p fraghdr offset (u16 (offset + len)) (rd_p r) None true;
  match v with
  | None =>
      clen ← in_heap (pbuf_clen new_p);
      _ ← reass_count (fun c => c - clen);
      _ ← on_heap (pbuf_free new_p);
      mret false
  | Some valid =>
      r ← reass_at ipr;
      if bool_decide (Z.land (rd_flags r) IP_REASS_FLAG_LASTFRAG <> 0) && valid
      then validate ipr fraghdr (u16 (offset + len)) else mret false
  end.

(** *** The whole datagram *)

(** The fragments from [r] on become the rest of the packet [p]. *)
Fixpoint join_loop (fuel : nat) (p r : Z) : M () :=
  if bool_decide (r = 0) then mret () else
  match fuel with
  | O => fun _ => Spin
  | S fuel =>
      iprh ← pb p_payload r;
      _ ← on_heap (pbuf_header r (- IP_HLEN));
      _ ← do_heap (pbuf_cat p r);
      nx ← ld32 iprh irh_next_pbuf;
      join_loop fuel p nx
  end.

Definition complete (ipr ipr_prev : Z) : M Z :=
  _ ← reass_upd ipr (fun r => rd_set_len (u16 (rd_datagram_len r + IP_HLEN)) r);
  d ← reass_at ipr;
  let p := rd_p d in
  fraghdr ← pb p_payload p;
  r ← ld32 fraghdr irh_next_pbuf;
  _ ← stn fraghdr 0 (rd_iphdr d);
  _ ← st16 fraghdr iph_len (lwip_htons (rd_datagram_len d));
  _ ← st16 fraghdr iph_offset 0;
  _ ← st16 fraghdr iph_chksum 0;
  l ← ldn fraghdr 0 IP_HLEN;
  _ ← st16 fraghdr iph_chksum (inet_chksum l);
  h ← gets n_heap;
  _ ← join_loop (chain_fuel h) p r;
  _ ← ip_reass_dequeue_datagram ipr ipr_prev;
  clen ← in_heap (pbuf_clen p);
  _ ← reass_count (fun c => c - clen);
  mret p.

(** The datagram a fragment belongs to, and the one in front of it. *)
Fixpoint find_datagram (l : list Z) (fraghdr : list Z) (prev : Z) : M (Z * Z) :=
  match l with
  | [] => mret (0, prev)
  | ipr :: l => r ← reass_at ipr; if IP_ADDRESSES_AND_ID_MATCH (rd_iphdr r) fraghdr then mret (ipr, prev) else find_datagram l fraghdr ipr
  end.

(** Whether there is room for [clen] more buffers, if need be after others are
    thrown away. *)
Definition reass_room (fraghdr : list Z) (clen : Z) : M bool :=
  s ← gets n_reass;
  if bool_decide (ip_reass_pbufcount s + clen > IP_REASS_MAX_PBUFS) then
    k ← ip_reass_remove_oldest_datagram fraghdr clen;
    s ← gets n_reass;
    mret (negb (bool_decide (k = 0) || bool_decide (ip_reass_pbufcount s + clen > IP_REASS_MAX_PBUFS)))
  else mret true.

(** The datagram, or null when it is not complete. *)
Definition ip_reass (p : Z) : M Z :=
  let nullreturn := _ ← on_heap (pbuf_free p); mret 0 in
  payload ← pb p_payload p;
  hl ← IPH_HL payload;
  if bool_decide (hl * 4 <> IP_HLEN) then nullreturn
  else
    fraghdr ← ldn payload 0 IP_HLEN;
    let off := Z.land (lwip_ntohs (hdr16 fraghdr iph_offset)) IP_OFFMASK in
    let offset := u16 (off * 8) in
    let len := u16 (lwip_ntohs (hdr16 fraghdr iph_len) - hl * 4) in
    clen ← in_heap (pbuf_clen p);
    room ← reass_room fraghdr clen;
    if negb room then nullreturn
    else
      s ← gets n_reass;
      '(ipr, ipr_prev) ← find_datagram (reassdatagrams s) fraghdr 0;
      ipr ← (if bool_decide (ipr = 0) then ip_reass_enqueue_new_datagram fraghdr clen
             else
               r ← reass_at ipr;
               _ ← (if bool_decide (off = 0) && bool_decide (Z.land (lwip_ntohs (hdr16 (rd_iphdr r) iph_offset)) IP_OFFMASK <> 0)
                    then reass_upd ipr (rd_set_iphdr fraghdr) else mret ());
               mret ipr);
      if bool_decide (ipr = 0) then nullreturn
      else
        _ ← reass_count (fun c => c + clen);
        _ ← (if bool_decide (Z.land (hdr16 fraghdr iph_offset) (PP_HTONS IP_MF) = 0)
             then reass_upd ipr (fun r => rd_set_len (u16 (offset + len)) (rd_set_flags (Z.lor (rd_flags r) IP_REASS_FLAG_LASTFRAG) r))
             else mret ());
        v ← ip_reass_chain_frag_into_datagram_and_validate ipr p;
        if (v : bool) then complete ipr ipr_prev else mret 0.

End IpReass.
