(* ===== verification/IpIn.v ===== *)
(** * Received packets ([src/lwip/src/core/ipv4/ip.c], [netif/etharp.c])

    Frames from the driver go to ARP or to IP; IP checks the header, puts
    fragments together and gives the packets for this host to the raw
    protocol, UDP or ICMP.  Packets are not forwarded. *)

From stdpp Require Import gmap.
From S2P Require Import Prelude LwipDef InetChksum IpAddr Pbuf PbufOps PbufData NetState Etharp IpOut Icmp Raw Udp IpReass.

Section IpIn.
Context {E : Type} `{Malloc, LinkDriver E, RawApp E, UdpApp E}.
Notation M := (NetM E).

(** "interface is up and configured", and the packet is for it. *)
Definition if_accepts (f : netif) (dest : Z) : bool :=
  netif_is_up f && negb (ip_addr_isany (nf_ip_addr f)) &&
  (ip_addr_cmp dest (nf_ip_addr f) || bool_decide (ip4_addr_isbroadcast dest f <> 0)).

(** The loop over the other interfaces; 0: none. *)
Fixpoint if_loop (l : list Z) (inp dest : Z) : M Z :=
  match l with
  | [] => mret 0
  | a :: l => if bool_decide (a = inp) then if_loop l inp dest else f ← netif_at a; if if_accepts f dest then mret a else if_loop l inp dest
  end.

(** The interface the packet is for: [inp] is tried first. *)
Definition find_netif (inp dest : Z) : M Z :=
  f ← netif_at inp;
  if if_accepts f dest then mret inp else s ← gets n_if; if_loop (netif_list s) inp dest.

Definition set_current (netif : Z) (header : ptr) (src dest : Z) : M () :=
  modify (fun n => n_set_ip (mkIpState netif header src dest (ip_id (n_ip n))) n).

(** The protocols above. *)
Definition ip_deliver (p inp : Z) (iphdr : ptr) : M () :=
  r ← raw_input p inp;
  if bool_decide (r = 0) then
    proto ← IPH_PROTO iphdr;
    if bool_decide (proto = IP_PROTO_UDP) then udp_input p inp
    else if bool_decide (proto = IP_PROTO_ICMP) then icmp_input p inp
    else
      s ← gets n_ip;
      f ← netif_at inp;
      _ ← (if bool_decide (ip4_addr_isbroadcast (current_iphdr_dest s) f = 0) && negb (ip_addr_ismulticast (current_iphdr_dest s))
           then _ ← do_heap (upd p (p_set_payload iphdr)); icmp_dest_unreach p ICMP_DUR_PROTO else mret ());
      drop p
  else mret ().

(** A packet for this host: a fragment waits for the others. *)
Definition ip_local (p inp : Z) (iphdr : ptr) : M () :=
  o ← IPH_OFFSET iphdr;
  p ← (if bool_decide (Z.land o (PP_HTONS (Z.lor IP_OFFMASK IP_MF)) <> 0) then ip_reass p else mret p);
  if bool_decide (p = 0) then mret ()
  else
    iphdr ← (if bool_decide (Z.land o (PP_HTONS (Z.lor IP_OFFMASK IP_MF)) <> 0) then pb p_payload p else mret iphdr);
    s ← gets n_ip;
    _ ← set_current inp iphdr (current_iphdr_src s) (current_iphdr_dest s);
    _ ← ip_deliver p inp iphdr;
    set_current 0 null_ptr IPADDR_ANY IPADDR_ANY.

Definition ip_input (p inp : Z) : M Z :=
  let dropped := _ ← drop p; mret ERR_OK in
  iphdr ← pb p_payload p;
  v ← IPH_V iphdr;
  if bool_decide (v <> 4) then dropped
  else
    hl ← IPH_HL iphdr;
    let iphdr_hlen := hl * 4 in
    l ← IPH_LEN iphdr;
    let iphdr_len := lwip_ntohs l in
    len ← pb p_len p;
    tot_len ← pb p_tot_len p;
    if bool_decide (iphdr_hlen > len) || bool_decide (iphdr_len > tot_len) then dropped
    else
      d ← ldn iphdr 0 iphdr_hlen;
      if bool_decide (inet_chksum d <> 0) then dropped
      else
        _ ← do_heap (pbuf_realloc p iphdr_len);
        dest ← ld32 iphdr iph_dest;
        src ← ld32 iphdr iph_src;
        s ← gets n_ip;
        _ ← set_current (current_netif s) (current_header s) src dest;
        netif ← find_netif inp dest;
        f ← netif_at inp;
        if bool_decide (ip4_addr_isbroadcast src f <> 0) || ip_addr_ismulticast src then dropped
        else if bool_decide (netif = 0) then dropped
        else _ ← ip_local p inp iphdr; mret ERR_OK.

(** *** Frames *)

(** The flags of a frame for more than one station. *)
Definition ll_flags (dest : list Z) (flags : Z) : Z :=
  let a k := nth k dest 0 in
  if bool_decide (Z.land (a 0%nat) 1 <> 0) then
    if bool_decide (a 0%nat = LL_MULTICAST_ADDR_0) then
      if bool_decide (a 1%nat = LL_MULTICAST_ADDR_1) && bool_decide (a 2%nat = LL_MULTICAST_ADDR_2) then Z.lor flags PBUF_FLAG_LLMCAST else flags
    else if bool_decide (dest = ethbroadcast) then Z.lor flags PBUF_FLAG_LLBCAST else flags
  else flags.

Definition ethernet_input (p netif : Z) : M Z :=
  let free_and_return := _ ← drop p; mret ERR_OK in
  len ← pb p_len p;
  if bool_decide (len <= SIZEOF_ETH_HDR) then free_and_return
  else
    ethhdr ← pb p_payload p;
    type ← ld16 ethhdr eth_type;
    dest ← ldn ethhdr eth_dest ETHARP_HWADDR_LEN;
    _ ← do_heap (upd p (fun b => p_set_flags (ll_flags dest (p_flags b)) b));
    f ← netif_at netif;
    let is_arp := bool_decide (Z.land (nf_flags f) NETIF_FLAG_ETHARP <> 0) in
    if bool_decide (type = PP_HTONS ETHTYPE_IP) then
      if negb is_arp then free_and_return
      else
        r ← on_heap (pbuf_header p (- SIZEOF_ETH_HDR));
        if bool_decide (r <> 0) then _ ← assert false; free_and_return
        else _ ← ip_input p netif; mret ERR_OK
    else if bool_decide (type = PP_HTONS ETHTYPE_ARP) then
      if negb is_arp then free_and_return else _ ← etharp_arp_input netif p; mret ERR_OK
    else free_and_return.

End IpIn.
