(* ===== verification/IpRecv.v ===== *)
(** * Received packets

    Theorems on [IpIn]: what becomes of a frame from the driver that holds a
    packet for this host, up to the protocols above.  The driver's frames are
    in one buffer. *)

From stdpp Require Import gmap.
From S2P Require Import Prelude LwipDef InetChksum IpAddr Pbuf PbufOps PbufData NetState NetMem Etharp EtharpOps IpOut Icmp Raw Udp IpReass IpIn.

(** ** A packet in one buffer *)

(** The packet [p] is the buffer [b] with the bytes [x], in its own memory. *)
Record whole (h : Heap) (p : Z) (x : list Z) (b : pbuf) : Prop := {
  wh_buf : pbufs h !! p = Some b;
  wh_nz : p <> 0;
  wh_bytes : bytes_at h (p_payload b) x;
  wh_len : p_len b = Z.of_nat (length x);
  wh_tot : p_tot_len b = Z.of_nat (length x);
  wh_next : p_next b = 0;
  wh_type : p_type b = PBUF_RAM;
  wh_own : (p_payload b).1 = p;
  wh_u16 : Z.of_nat (length x) < 65536;
}.

Lemma bytes_at_drop h q x y : bytes_at h q (x ++ y) -> bytes_at h (at_off q (Z.of_nat (length x))) y.
Proof.
  intros (m & Hm & Hs). exists m. split; [done|]. unfold at_off. cbn [fst snd].
  apply (slice_drop m _ _ (Z.of_nat (length x))) in Hs; [|rewrite length_app; lia]. rewrite length_app in Hs.
  replace (Z.of_nat (length x + length y) - Z.of_nat (length x)) with (Z.of_nat (length y)) in Hs by lia. by rewrite Hs, drop_app_length' by lia.
Qed.

Lemma bytes_at_take h q x y : bytes_at h q (x ++ y) -> bytes_at h q x.
Proof.
  intros (m & Hm & Hs). exists m. split; [done|]. apply (slice_take m _ _ (Z.of_nat (length x))) in Hs; [|rewrite length_app; lia].
  by rewrite Hs, take_app_length' by lia.
Qed.

Section Whole.
Context {M : Malloc}.

Lemma whole_pull h p x y b : whole h p (x ++ y) b -> 0 < Z.of_nat (length x) < 32768 ->
  let b' := moved (- Z.of_nat (length x)) b in
  pbuf_header p (- Z.of_nat (length x)) h = Ret (put p b' h, 0) /\ whole (put p b' h) p y b'.
Proof.
  intros [W1 W2 W3 W4 W5 W6 W7 W8 W9] Hx b'. rewrite length_app in *. pose proof (bytes_at_inv _ _ _ W3) as (m & Hm & Ho & _). split.
  - apply header_step; try done; try lia.
  - split; try done; cbn; try lia.
    + apply put_same.
    + apply bytes_at_drop in W3. unfold at_off in W3. by replace ((p_payload b).2 - - Z.of_nat (length x)) with ((p_payload b).2 + Z.of_nat (length x)) by lia.
Qed.

Definition cut_to (k : Z) (b : pbuf) : pbuf := p_set_next 0 (p_set_tot_len k (p_set_len k b)).

Lemma whole_trim h p x y b : whole h p (x ++ y) b -> pbufs h !! 0 = None ->
  exists b', pbuf_realloc p (Z.of_nat (length x)) h = Ret (put p b' h) /\ whole (put p b' h) p x b' /\ p_payload b' = p_payload b /\ p_ref b' = p_ref b.
Proof.
  intros [W1 W2 W3 W4 W5 W6 W7 W8 W9] H0. pose proof W9 as Hl. rewrite length_app in Hl.
  unfold pbuf_realloc. rewrite (bool_decide_true (p <> 0)) by done. cbn [LWIP_ASSERT mbind outcome_bind]. rewrite (get_live _ _ _ W1). cbn [mbind outcome_bind].
  rewrite W5. destruct (decide (y = [])) as [->|Hy].
  - exists b. rewrite app_nil_r in *. rewrite bool_decide_true by lia. assert (put p b h = h) as ->.
    { apply heap_ext; try done. by apply insert_id. }
    by split_and!.
  - assert (length y <> 0%nat) as Hy0 by (by destruct y). rewrite length_app in *. rewrite bool_decide_false by lia.
    assert (realloc_loop (chain_fuel h) p (Z.of_nat (length x)) (Z.of_nat (length x) - Z.of_nat (length x + length y)) h = Ret (h, p, Z.of_nat (length x))) as Hr.
    { assert (forall k, realloc_loop k p (Z.of_nat (length x)) (Z.of_nat (length x) - Z.of_nat (length x + length y)) h = Ret (h, p, Z.of_nat (length x))) as Hk; [|done].
      intros k. destruct k; cbn [realloc_loop]; rewrite (get_live _ _ _ W1); cbn [mbind outcome_bind]; by rewrite bool_decide_false by lia. }
    rewrite Hr. cbn [mbind outcome_bind].
    assert (realloc_end p (Z.of_nat (length x)) h = Ret (put p (cut_to (Z.of_nat (length x)) b) h)) as Hre.
    { unfold realloc_end. rewrite (get_live _ _ _ W1). cbn [mbind outcome_bind].
      replace (if bool_decide (p_type b = PBUF_RAM /\ Z.of_nat (length x) <> p_len b) then mem_trim p _ h else (p, h)) with (p, h) by (by case_bool_decide).
      rewrite (bool_decide_true (p <> 0)) by done. cbn [LWIP_ASSERT mbind outcome_bind]. rewrite (upd_live _ _ _ _ W1). cbn [mbind outcome_bind].
      set (b1 := p_set_tot_len _ _). rewrite (get_live _ _ b1) by apply put_same. cbn [mbind outcome_bind].
      change (p_next b1) with (p_next b). rewrite (bool_decide_false (p_next b <> 0)) by lia. cbn [mbind outcome_bind].
      rewrite (upd_live _ _ _ b1) by apply put_same. by rewrite put_put. }
    eexists. split; [exact Hre|]. split; [|done]. split; try done; cbn; try lia.
    + apply put_same.
    + by eapply bytes_at_take.
Qed.
Lemma whole_frame h h' p x b : whole h p x b -> pbufs h' !! p = pbufs h !! p -> mem h' !! p = mem h !! p -> whole h' p x b.
Proof.
  intros [W1 W2 (m & Hm & Hs) W4 W5 W6 W7 W8 W9] Hb Hmem. split; try done; [by rewrite Hb|]. exists m. rewrite W8 in *. by rewrite Hmem.
Qed.
Lemma whole_packet h p x b : whole h p x b -> packet_seg h p [mkSeg p p x] 0 0.
Proof.
  intros [W1 W2 (m & Hm & Hs) W4 W5 W6 W7 W8 W9]. cbn [packet_seg sg_a]. split; [done|]. split; [done|]. exists b. split; [|split; [|done]].
  - split; [done|]. cbn [sg_base sg_data]. split; [done|]. split; [done|]. exists m. rewrite W8 in Hm. split; [done|]. by rewrite W4.
  - rewrite W5. unfold data_len, seg_len. cbn [sg_data data length Z.of_nat]. lia.
Qed.
Lemma whole_set h p x y b : whole h p x b -> length y = length x -> whole (set_bytes (p_payload b) y h) p y b.
Proof.
  intros [W1 W2 W3 W4 W5 W6 W7 W8 W9] Hl. split; try done; rewrite ?Hl; try done.
  - by rewrite set_bytes_pbufs.
  - by eapply bytes_set.
Qed.

(** The header [x] is still there in front of the packet. *)
Lemma whole_push h p x y b : whole h p y b -> bytes_at h (at_off (p_payload b) (- Z.of_nat (length x))) (x ++ y) ->
  0 < Z.of_nat (length x) < 32768 -> Z.of_nat (length (x ++ y)) < 65536 ->
  pbuf_header p (Z.of_nat (length x)) h = Ret (put p (moved (Z.of_nat (length x)) b) h, 0) /\
  whole (put p (moved (Z.of_nat (length x)) b) h) p (x ++ y) (moved (Z.of_nat (length x)) b).
Proof.
  intros [W1 W2 W3 W4 W5 W6 W7 W8 W9] Hb Hx Hl. pose proof (bytes_at_inv _ _ _ Hb) as (m & Hm & Ho & _). cbn [snd at_off] in Ho. rewrite length_app in *. split.
  - apply header_step; try done; try lia; intros []; by left.
  - split; try done; cbn [moved p_len p_tot_len]; rewrite ?length_app; try lia. apply put_same.
Qed.

(** There is room in front of the packet. *)
Lemma whole_room h p x b k : whole h p x b -> k <= (p_payload b).2 -> Z.of_nat (length x) + k < 65536 -> has_room h p k (mkSeg p p x) [] b.
Proof.
  intros Hw Hk Hl. pose proof Hw as [W1 W2 W3 W4 W5 W6 W7 W8 W9]. split; try done.
  - by apply (whole_packet _ _ _ b).
  - apply NoDup_singleton.
  - by left.
  - rewrite data_len_cons. unfold seg_len, data_len. cbn [sg_data data length Z.of_nat]. lia.
Qed.

Lemma pushed_whole h h' p x b hdr : pushed p (mkSeg p p x) [] b hdr h h' -> whole h p x b -> Z.of_nat (length (hdr ++ x)) < 65536 ->
  whole h' p (hdr ++ x) (moved (Z.of_nat (length hdr)) b).
Proof.
  intros [P1 P2 P3 P4] [W1 W2 W3 W4 W5 W6 W7 W8 W9] Hl. assert (pbufs h' !! p = Some (moved (Z.of_nat (length hdr)) b)) as Hb by (rewrite P2; apply lookup_insert_eq).
  pose proof (head_bytes _ _ _ _ _ _ _ P1 Hb) as [Hbs _]. rewrite length_app in *. split; try done; cbn; rewrite ?length_app; lia.
Qed.
End Whole.

(** ** Reading headers *)

Section Read.
Context {E : Type}.
Implicit Types n : Net E.

Lemma ld8_here q k d n : nbytes q d n -> 0 <= k -> k + 1 <= Z.of_nat (length d) -> ld8 q k n = Ret (n, at8 d k).
Proof. intros Hb Hk Hl. rewrite (nset_start _ _ _ Hb) at 1. rewrite (ld8_at q k d d) by done. by rewrite <-(nset_start _ _ _ Hb). Qed.
Lemma ld16_here q k d n : nbytes q d n -> 0 <= k -> k + 2 <= Z.of_nat (length d) -> ld16 q k n = Ret (n, at16 d k).
Proof. intros Hb Hk Hl. rewrite (nset_start _ _ _ Hb) at 1. rewrite (ld16_at q k d d) by done. by rewrite <-(nset_start _ _ _ Hb). Qed.
Lemma ld32_here q k d n : nbytes q d n -> 0 <= k -> k + 4 <= Z.of_nat (length d) -> ld32 q k n = Ret (n, at32 d k).
Proof. intros Hb Hk Hl. rewrite (nset_start _ _ _ Hb) at 1. rewrite (ld32_at q k d d) by done. by rewrite <-(nset_start _ _ _ Hb). Qed.
Lemma ldn_here q k len d n : nbytes q d n -> 0 <= k -> 0 <= len -> k + len <= Z.of_nat (length d) ->
  ldn q k len n = Ret (n, take (Z.to_nat len) (skipn (Z.to_nat k) d)).
Proof. intros Hb Hk Hn Hl. rewrite (nset_start _ _ _ Hb) at 1. rewrite (ldn_at q k len d d) by done. by rewrite <-(nset_start _ _ _ Hb). Qed.

(** The fields of a header [x] at the start of the bytes. *)
Lemma at8_app x y k : 0 <= k < Z.of_nat (length x) -> at8 (x ++ y) k = at8 x k.
Proof. intros Hk. unfold at8. apply app_nth1. lia. Qed.

Lemma ld8_hdr q k x y n : nbytes q (x ++ y) n -> 0 <= k -> k + 1 <= Z.of_nat (length x) -> ld8 q k n = Ret (n, at8 x k).
Proof. intros Hb Hk Hl. erewrite ld8_here; [|exact Hb|done|rewrite length_app; lia]. by rewrite at8_app by lia. Qed.
Lemma ld16_hdr q k x y n : nbytes q (x ++ y) n -> 0 <= k -> k + 2 <= Z.of_nat (length x) -> ld16 q k n = Ret (n, at16 x k).
Proof. intros Hb Hk Hl. erewrite ld16_here; [|exact Hb|done|rewrite length_app; lia]. unfold at16. by rewrite !at8_app by lia. Qed.
Lemma ld32_hdr q k x y n : nbytes q (x ++ y) n -> 0 <= k -> k + 4 <= Z.of_nat (length x) -> ld32 q k n = Ret (n, at32 x k).
Proof. intros Hb Hk Hl. erewrite ld32_here; [|exact Hb|done|rewrite length_app; lia]. unfold at32. by rewrite !at8_app by lia. Qed.
Lemma ldn_hdr q x y len n : nbytes q (x ++ y) n -> len = Z.of_nat (length x) -> ldn q 0 len n = Ret (n, x).
Proof.
  intros Hb ->. erewrite ldn_here; [|exact Hb|done|lia|rewrite length_app; lia]. change (skipn (Z.to_nat 0) (x ++ y)) with (x ++ y). by rewrite take_app_length' by lia.
Qed.

(** A header behind another one. *)
Lemma at_off_off q j k : at_off (at_off q j) k = at_off q (j + k).
Proof. unfold at_off. cbn [fst snd]. f_equal. lia. Qed.

Lemma st16_off q j k v : st16 (E := E) (at_off q j) k v = st16 q (j + k) v.
Proof. unfold st16. by rewrite at_off_off. Qed.
Lemma st32_off q j k v : st32 (E := E) (at_off q j) k v = st32 q (j + k) v.
Proof. unfold st32. by rewrite at_off_off. Qed.
Lemma stn_off q j k d : stn (E := E) (at_off q j) k d = stn q (j + k) d.
Proof. unfold stn. by rewrite at_off_off. Qed.
Lemma ldn_off q j k len : ldn (E := E) (at_off q j) k len = ldn q (j + k) len.
Proof. unfold ldn. by rewrite at_off_off. Qed.
Lemma ld8_off q j k : ld8 (E := E) (at_off q j) k = ld8 q (j + k).
Proof. unfold ld8. by rewrite at_off_off. Qed.
Lemma ld16_off q j k : ld16 (E := E) (at_off q j) k = ld16 q (j + k).
Proof. unfold ld16. by rewrite at_off_off. Qed.
Lemma ld32_off q j k : ld32 (E := E) (at_off q j) k = ld32 q (j + k).
Proof. unfold ld32. by rewrite at_off_off. Qed.
Lemma st8_off q j k v : st8 (E := E) (at_off q j) k v = st8 q (j + k) v.
Proof. unfold st8. by rewrite at_off_off. Qed.

End Read.

(** The fields of an IP header without options. *)
Lemma ip_header_words tos len id ttl proto src dst : is_u16 len -> is_u32 src -> is_u32 dst ->
  let h := ip_header tos len id ttl proto src dst in
  at8 h iph_v_hl = 0x45 /\ lwip_ntohs (at16 h iph_len) = len /\ at16 h iph_offset = 0 /\ at8 h iph_proto = proto /\ at32 h iph_src = src /\ at32 h iph_dest = dst.
Proof.
  intros Hl Hs Hd h. unfold h, ip_header, ip_header0, at32, at16, at8, iph_v_hl, iph_len, iph_offset, iph_proto, iph_src, iph_dest. unfold lwip_ntohs.
  cbn [app le2 le4]. cbn [Z.add Pos.add Pos.succ]. mem_nat. cbn [nth].
  rewrite of_le2_le2 by apply htons_range. rewrite htons_htons by done. unfold le4. cbn [nth]. rewrite !of_le4_le4 by done. done.
Qed.

(** ** From the frame to the protocol *)

Section Recv.
Context {E : Type} `{Malloc, LinkDriver E, RawApp E, UdpApp E}.
Implicit Types n : Net E.

(** The first byte and the protocol of a header without options. *)
Lemma hl_at q x n r : nbytes q ((0x45 :: x) ++ r) n -> IPH_HL q n = Ret (n, 5).
Proof.
  intros Hq. unfold IPH_HL, iph_v_hl. erewrite bind_step; [|eapply ld8_here; [exact Hq|done|cbn [length app]; lia]]. done.
Qed.

Lemma pb_whole {A} (g : pbuf -> A) n p x b : whole (n_heap n) p x b -> pb g p n = Ret (n, g b).
Proof. intros Hw. by apply pb_at, (wh_buf _ _ _ _ Hw). Qed.

Lemma pull_step n p x y b : whole (n_heap n) p (x ++ y) b -> 0 < Z.of_nat (length x) < 32768 ->
  let n' := n_set_heap (put p (moved (- Z.of_nat (length x)) b) (n_heap n)) n in
  on_heap (pbuf_header p (- Z.of_nat (length x))) n = Ret (n', 0) /\ whole (n_heap n') p y (moved (- Z.of_nat (length x)) b).
Proof. intros Hw Hx n'. destruct (whole_pull _ _ _ _ _ Hw Hx) as [K1 K2]. split; [by apply on_heap_at|done]. Qed.

Lemma bind_bind {A B C} (m : NetM E A) (g : A -> NetM E B) (k : B -> NetM E C) n : (y ← (x ← m; g x); k y) n = (x ← m; y ← g x; k y) n.
Proof. unfold mbind, net_bind. by destruct (m n) as [[? ?]| |]. Qed.


(** The packet from [src] to [dst] is for this host: the interface takes it,
    its sender is a single host. *)
Record for_host (n : Net E) (a : Z) (f : netif) (src dst : Z) : Prop := {
  fh_if : netifs (n_if n) !! a = Some f;
  fh_nz : a <> 0;
  fh_accepts : if_accepts f dst = true;
  fh_src : ip4_addr_isbroadcast src f = 0 /\ ip_addr_ismulticast src = false;
}.

(** The addresses of the packet that is worked on. *)
Definition addressed (src dst : Z) n : Net E :=
  let s := n_ip n in n_set_ip (mkIpState (current_netif s) (current_header s) src dst (ip_id s)) n.

(** [ip_input] up to the delivery: the checks, and the padding cut off. *)
Lemma ip_input_local n p a f tos id ttl proto src dst body pad b :
  let ih := ip_header tos (Z.of_nat (length body) + IP_HLEN) id ttl proto src dst in
  whole (n_heap n) p ((ih ++ body) ++ pad) b -> pbufs (n_heap n) !! 0 = None -> for_host n a f src dst ->
  is_u8 tos -> is_u8 ttl -> is_u8 proto -> is_u32 src -> is_u32 dst ->
  exists b1, let n2 := addressed src dst (n_set_heap (put p b1 (n_heap n)) n) in
    ip_input p a n = (_ ← ip_local p a (p_payload b1); mret ERR_OK) n2 /\
    whole (n_heap n2) p (ih ++ body) b1 /\ p_payload b1 = p_payload b /\ p_ref b1 = p_ref b.
Proof.
  intros ih Hw H0p [F1 F2 F3 [F4 F5]] Htos Httl Hproto Hsrc Hdst.
  pose proof (wh_u16 _ _ _ _ Hw) as H16. pose proof (wh_len _ _ _ _ Hw) as Hlen. pose proof (wh_tot _ _ _ _ Hw) as Htot.
  assert (length ih = 20%nat) as L1 by done. pose proof (wh_nz _ _ _ _ Hw) as Hp0.
  set (len := Z.of_nat (length body) + IP_HLEN) in *.
  assert (Z.of_nat (length (ih ++ body)) = len) as Hl by (rewrite length_app, L1; unfold len, IP_HLEN; lia).
  assert (is_u16 len) as Hl16 by (rewrite <-Hl; rewrite length_app in H16; unw; lia).
  destruct (ip_header_words tos len id ttl proto src dst Hl16 Hsrc Hdst) as (V1 & V2 & V3 & V4 & V5 & V6). fold ih in V1, V2, V3, V4, V5, V6.
  destruct (whole_trim _ _ _ _ _ Hw H0p) as (b1 & Ht & W1 & Hpay & Href). rewrite Hl in Ht.
  exists b1. set (n1 := n_set_heap (put p b1 (n_heap n)) n). cbn zeta. set (n2 := addressed src dst n1).
  pose proof (wh_bytes _ _ _ _ Hw) as Hb0. rewrite <-(assoc_L (++)) in Hb0. change (nbytes (p_payload b) (ih ++ body ++ pad) n) in Hb0.
  pose proof (wh_bytes _ _ _ _ W1) as Hb1. rewrite Hpay in Hb1. change (nbytes (p_payload b) (ih ++ body) n1) in Hb1.
  split; [|by split]. unfold ip_input. erewrite bind_step by (by eapply pb_whole). cbv beta.
  unfold IPH_V at 1. rewrite bind_bind. erewrite bind_step by (eapply ld8_hdr; [exact Hb0|done|by rewrite L1]). cbv beta. rewrite V1. erewrite bind_step by reflexivity. cbv beta.
  rewrite (bool_decide_false (Z.shiftr 0x45 4 <> 4)) by (intros Hn; by apply Hn).
  unfold IPH_HL at 1. rewrite bind_bind. erewrite bind_step by (eapply ld8_hdr; [exact Hb0|done|by rewrite L1]). cbv beta. rewrite V1. erewrite bind_step by reflexivity. cbv beta zeta.
  change (Z.land 0x45 0x0f * 4) with 20. unfold IPH_LEN. erewrite bind_step by (eapply ld16_hdr; [exact Hb0|done|by rewrite L1]). cbv beta. rewrite V2.
  erewrite bind_step by (by eapply pb_whole). cbv beta. erewrite bind_step by (by eapply pb_whole). cbv beta.
  assert (20 <= Z.of_nat (length ((ih ++ body) ++ pad)) /\ len <= Z.of_nat (length ((ih ++ body) ++ pad))) as [Hg1 Hg2]
    by (rewrite !(length_app (ih ++ body)); unfold len, IP_HLEN in Hl |- *; lia).
  rewrite (bool_decide_false (20 > p_len b)), (bool_decide_false (len > p_tot_len b)) by lia. cbn [orb].
  erewrite bind_step by (eapply ldn_hdr; [exact Hb0|by rewrite L1]). cbv beta.
  assert (inet_chksum ih = 0) as Hck by (by apply ip_header_checks). rewrite Hck. rewrite (bool_decide_false (0 <> 0)) by lia.
  erewrite bind_step by (apply do_heap_at; exact Ht). cbv beta. fold n1.
  erewrite bind_step by (eapply ld32_hdr; [exact Hb1|done|by rewrite L1]). cbv beta. rewrite V6.
  erewrite bind_step by (eapply ld32_hdr; [exact Hb1|done|by rewrite L1]). cbv beta. rewrite V5.
  erewrite bind_step by reflexivity. cbv beta. erewrite bind_step by reflexivity. cbv beta.
  match goal with |- context [n_set_ip ?g n1] => change (n_set_ip g n1) with n2 end.
  assert (find_netif a dst n2 = Ret (n2, a)) as Hfn.
  { unfold find_netif. erewrite bind_step by (by apply netif_at_at). cbv beta. by rewrite F3. }
  erewrite bind_step by exact Hfn. cbv beta. erewrite bind_step by (by apply netif_at_at). cbv beta.
  rewrite F4, F5. rewrite (bool_decide_false (0 <> 0)), (bool_decide_false (a = 0)) by (done || lia). cbn [orb]. by rewrite Hpay.
Qed.

(** The packet that is delivered. *)
Definition delivering (a : Z) (q : ptr) n : Net E :=
  let s := n_ip n in n_set_ip (mkIpState a q (current_iphdr_src s) (current_iphdr_dest s) (ip_id s)) n.

(** [ip_local] for a packet that is not a fragment, without raw blocks. *)
Lemma ip_local_delivers n p a tos len id ttl proto src dst body b :
  whole (n_heap n) p (ip_header tos len id ttl proto src dst ++ body) b -> raw_pcbs (n_raw n) = [] -> is_u16 len -> is_u32 src -> is_u32 dst ->
  proto = IP_PROTO_UDP \/ proto = IP_PROTO_ICMP ->
  ip_local p a (p_payload b) n =
    (_ ← (if bool_decide (proto = IP_PROTO_UDP) then udp_input p a else icmp_input p a); set_current 0 null_ptr IPADDR_ANY IPADDR_ANY)
    (delivering a (p_payload b) n).
Proof.
  set (ih := ip_header _ _ _ _ _ _ _). intros Hw Hraw Hl16 Hsrc Hdst Hproto.
  destruct (ip_header_words tos len id ttl proto src dst Hl16 Hsrc Hdst) as (V1 & V2 & V3 & V4 & V5 & V6). fold ih in V1, V2, V3, V4, V5, V6.
  assert (length ih = 20%nat) as L1 by done. pose proof (wh_nz _ _ _ _ Hw) as Hp0.
  pose proof (wh_bytes _ _ _ _ Hw) as Hb1. set (n2 := delivering a (p_payload b) n).
  assert (nbytes (p_payload b) (ih ++ body) n2) as Hb2 by exact Hb1.
  unfold ip_local, IPH_OFFSET. erewrite bind_step by (eapply ld16_hdr; [exact Hb1|done|by rewrite L1]). cbv beta. rewrite V3. cbn [Z.land].
  rewrite (bool_decide_false (0 <> 0)) by lia. erewrite bind_step by reflexivity. cbv beta. rewrite (bool_decide_false (p = 0)) by done.
  erewrite bind_step by reflexivity. cbv beta. erewrite bind_step by reflexivity. cbv beta. erewrite bind_step by reflexivity. cbv beta.
  match goal with |- context [n_set_ip ?g n] => change (n_set_ip g n) with n2 end.
  assert (raw_input p a n2 = Ret (n2, 0)) as Hr.
  { unfold raw_input, IPH_PROTO. erewrite bind_step by (eapply (pb_whole _ n2); exact Hw). cbv beta.
    erewrite bind_step by (eapply ld8_hdr; [exact Hb2|done|by rewrite L1]). cbv beta. erewrite bind_step by reflexivity. cbv beta.
    change (n_raw n2) with (n_raw n). by rewrite Hraw. }
  unfold ip_deliver. rewrite bind_bind. erewrite bind_step by exact Hr. cbv beta. rewrite (bool_decide_true (0 = 0)) by done.
  unfold IPH_PROTO. rewrite bind_bind. erewrite bind_step by (eapply ld8_hdr; [exact Hb2|done|by rewrite L1]). cbv beta. rewrite V4.
  case_bool_decide as Hu; [done|]. rewrite bool_decide_true by (by destruct Hproto). done.
Qed.

(** [ethernet_input] for a frame with a packet. *)
Lemma ethernet_input_ip n p a f dmac smac y b : whole (n_heap n) p (eth_header dmac smac ++ y) b -> y <> [] -> length dmac = 6%nat -> length smac = 6%nat ->
  netifs (n_if n) !! a = Some f -> Z.land (nf_flags f) NETIF_FLAG_ETHARP <> 0 ->
  exists b2, let n2 := n_set_heap (put p b2 (n_heap n)) n in
    ethernet_input p a n = (_ ← ip_input p a; mret ERR_OK) n2 /\ whole (n_heap n2) p y b2 /\
    p_payload b2 = at_off (p_payload b) 14 /\ p_ref b2 = p_ref b.
Proof.
  set (eh := eth_header dmac smac). intros Hw Hy Hdm Hsm Hf Harp.
  assert (length eh = 14%nat) as Le by (subst eh; unfold eth_header; rewrite !length_app, Hdm, Hsm; done).
  assert (length y <> 0%nat) as Hy0 by (by destruct y).
  pose proof (wh_bytes _ _ _ _ Hw) as Hb0. pose proof (wh_len _ _ _ _ Hw) as Hlen. pose proof (wh_nz _ _ _ _ Hw) as Hp0.
  set (g := ll_flags dmac). set (b1 := p_set_flags (g (p_flags b)) b). set (h1 := put p b1 (n_heap n)). set (n1 := n_set_heap h1 n).
  assert (whole (n_heap n1) p (eh ++ y) b1) as W1.
  { destruct Hw as [X1 X2 X3 X4 X5 X6 X7 X8 X9]. split; try done. apply put_same. }
  destruct (pull_step n1 p eh y b1 W1) as [E2 W2]; [lia|]. rewrite Le in E2, W2. change (- Z.of_nat 14) with (-14) in E2, W2.
  exists (moved (-14) b1). set (b2 := moved (-14) b1) in *. cbn zeta. set (n2 := n_set_heap (put p b2 (n_heap n1)) n1) in *.
  assert (n_set_heap (put p b2 (n_heap n)) n = n2) as -> by (unfold n2, n1, h1; cbn [n_heap n_set_heap]; by rewrite put_put).
  assert (at16 eh eth_type = PP_HTONS ETHTYPE_IP /\ take 6 eh = dmac) as [Ht Hdest].
  { subst eh. clear -Hdm Hsm. unfold eth_header, at16, at8, eth_type. do 6 (destruct dmac as [|? dmac]; [done|]). destruct dmac; [|done].
    do 6 (destruct smac as [|? smac]; [done|]). by destruct smac. }
  split; [|by split].
  unfold ethernet_input. erewrite bind_step by (by eapply pb_whole). cbv beta. rewrite Hlen, length_app, Le.
  rewrite (bool_decide_false (_ <= SIZEOF_ETH_HDR)) by (unfold SIZEOF_ETH_HDR; lia).
  erewrite bind_step by (by eapply pb_whole). cbv beta.
  erewrite bind_step by (eapply ld16_hdr; [exact Hb0|done|by rewrite Le]). cbv beta. rewrite Ht.
  erewrite bind_step by (eapply ldn_here; [exact Hb0|done|done|rewrite length_app, Le; unfold eth_dest, ETHARP_HWADDR_LEN; lia]). cbv beta.
  assert (take (Z.to_nat ETHARP_HWADDR_LEN) (skipn (Z.to_nat eth_dest) (eh ++ y)) = dmac) as Hdm2.
  { change (skipn (Z.to_nat eth_dest) ?x) with x. change (Z.to_nat ETHARP_HWADDR_LEN) with 6%nat. rewrite take_app_le by lia. done. }
  rewrite Hdm2. fold g.
  assert (do_heap (upd p (fun b => p_set_flags (g (p_flags b)) b)) n = Ret (n1, ())) as Hupd.
  { apply do_heap_at. by rewrite (upd_live _ _ _ _ (wh_buf _ _ _ _ Hw)). }
  erewrite bind_step by exact Hupd. cbv beta. erewrite bind_step by (apply netif_at_at; exact Hf). cbv beta zeta.
  rewrite (bool_decide_true (PP_HTONS ETHTYPE_IP = _)) by done. rewrite (bool_decide_true (Z.land (nf_flags f) NETIF_FLAG_ETHARP <> 0)) by done. cbn [negb].
  erewrite bind_step by exact E2. cbv beta. by rewrite (bool_decide_false (0 <> 0)) by lia.
Qed.

End Recv.
