(* ===== verification/Reassembly.v ===== *)
(** * Reassembled datagrams

    Theorems on [IpReass]: where a fragment goes among those of its datagram,
    when the datagram counts as complete, and what the program gets then.  The
    fragments are frames of the driver, each in one buffer, linked by pointers
    in place of their headers. *)

From stdpp Require Import gmap.
From S2P Require Import Prelude LwipDef InetChksum IpAddr Pbuf PbufOps PbufData NetState NetMem Etharp EtharpOps IpOut Icmp Raw Udp IpReass IpIn IpRecv.

(** ** Fragments in memory *)

(** A fragment: its packet, what is left of its header, its offset, its
    data. *)
Record frag := mkFrag { fg_p : Z; fg_b : pbuf; fg_rest : list Z; fg_start : Z; fg_data : list Z }.

Definition fg_end (f : frag) : Z := fg_start f + Z.of_nat (length (fg_data f)).

(** [struct ip_reass_helper]. *)
Definition helper_bytes (next : Z) (f : frag) : list Z := le4 next ++ le2 (fg_start f) ++ le2 (fg_end f).

(** The fragment with its pointer to the next one. *)
Record stored (h : Heap) (next : Z) (f : frag) : Prop := {
  st_whole : whole h (fg_p f) (helper_bytes next f ++ fg_rest f ++ fg_data f) (fg_b f);
  st_rest : length (fg_rest f) = 12%nat;
  st_start : 0 <= fg_start f;
  st_end : fg_end f < 65536;
  st_next : is_u32 next;
}.

(** The list from [p] on, up to [q]. *)
Fixpoint frags (h : Heap) (p : Z) (l : list frag) (q : Z) : Prop :=
  match l with
  | [] => p = q
  | f :: l => p = fg_p f /\ exists next, stored h next f /\ frags h next l q
  end.

Definition head_of (l : list frag) : Z := match l with [] => 0 | f :: _ => fg_p f end.

Lemma stored_frame h h' nx f : stored h nx f -> pbufs h' !! fg_p f = pbufs h !! fg_p f -> mem h' !! fg_p f = mem h !! fg_p f -> stored h' nx f.
Proof. intros [S1 S2 S3 S4 S5] Hb Hm. split; try done. by eapply whole_frame. Qed.

Lemma frags_frame h h' l : forall p q, frags h p l q ->
  (forall f, f ∈ l -> pbufs h' !! fg_p f = pbufs h !! fg_p f /\ mem h' !! fg_p f = mem h !! fg_p f) -> frags h' p l q.
Proof.
  induction l as [|f l IH]; intros p q Hl Hf; [done|]. destruct Hl as (-> & nx & Hs & Hl). split; [done|]. exists nx. split.
  - destruct (Hf f) as [H1 H2]; [left|]. by eapply stored_frame.
  - apply IH; [done|]. intros g Hg. apply Hf. by right.
Qed.

Lemma frags_app h l1 : forall p l2 q, frags h p (l1 ++ l2) q <-> exists r, frags h p l1 r /\ frags h r l2 q.
Proof.
  induction l1 as [|f l1 IH]; intros p l2 q; cbn [frags app].
  - split; [intros Hl; by exists p|by intros (r & -> & Hl)].
  - split.
    + intros (-> & nx & Hs & (r & H1 & H2)%IH). exists r. split; [|done]. split; [done|]. by exists nx.
    + intros (r & (-> & nx & Hs & H1) & H2). split; [done|]. exists nx. split; [done|]. apply IH. by exists r.
Qed.

Lemma frags_head h p l q : frags h p l q -> p = match l with [] => q | f :: _ => fg_p f end.
Proof. destruct l; [done|]. by intros [-> _]. Qed.

Lemma frags_head_of h p l : frags h p l 0 -> p = head_of l.
Proof. apply frags_head. Qed.

Lemma frags_in h p l q f : frags h p l q -> f ∈ l -> exists nx, stored h nx f.
Proof.
  revert p. induction l as [|g l IH]; intros p Hl Hf; [by apply elem_of_nil in Hf|]. destruct Hl as (-> & nx & Hs & Hl).
  apply elem_of_cons in Hf as [->|Hf]; [by exists nx|by eapply IH].
Qed.

Lemma helper_length nx f : length (helper_bytes nx f) = 8%nat.
Proof. done. Qed.

Lemma stored_nz h nx f : stored h nx f -> fg_p f <> 0.
Proof. intros Hs. apply (wh_nz _ _ _ _ (st_whole _ _ _ Hs)). Qed.

(** The memory of the fragments [L] may have changed, nothing else. *)
Record touched (L : list Z) (h h' : Heap) : Prop := {
  to_bufs : pbufs h' = pbufs h;
  to_mem : forall a, a ∉ L -> mem h' !! a = mem h !! a;
  to_customs : customs h' = customs h;
}.

Lemma touched_refl L h : touched L h h.
Proof. by split. Qed.
Lemma touched_trans L h1 h2 h3 : touched L h1 h2 -> touched L h2 h3 -> touched L h1 h3.
Proof. intros [A1 A2 A3] [B1 B2 B3]. split; [by rewrite B1|intros; by rewrite B2, A2|by rewrite B3]. Qed.
Lemma touched_weaken L L' h h' : touched L h h' -> (forall a, a ∈ L -> a ∈ L') -> touched L' h h'.
Proof. intros [A1 A2 A3] HL. split; try done. intros a Ha. apply A2. intros Hin. by apply Ha, HL. Qed.

(** *** Reading and writing the helpers *)

Section Helper.
Context {E : Type}.
Implicit Types n : Net E.

Lemma helper_at n nx f : stored (n_heap n) nx f -> helper (fg_p f) n = Ret (n, (p_payload (fg_b f), nx, fg_start f, fg_end f)).
Proof.
  intros [S1 S2 S3 S4 S5]. pose proof (wh_bytes _ _ _ _ S1) as Hb. change (nbytes (p_payload (fg_b f)) (helper_bytes nx f ++ fg_rest f ++ fg_data f) n) in Hb.
  unfold helper. erewrite bind_step by (by eapply pb_whole). cbv beta. unfold irh_next_pbuf, irh_start, irh_end.
  erewrite bind_step by (eapply ld32_hdr; [exact Hb|done|done]). cbv beta. erewrite bind_step by (eapply ld16_hdr; [exact Hb|done|done]). cbv beta.
  erewrite bind_step by (eapply ld16_hdr; [exact Hb|done|done]). cbv beta. unfold helper_bytes, at32, at16, at8. mem_nat. cbn [nth app le4 le2].
  assert (is_u16 (fg_start f) /\ is_u16 (fg_end f)) as [H1 H2] by (unfold fg_end in *; unw; lia).
  by rewrite of_le4_le4, !of_le2_le2.
Qed.

(** The heap with the pointer of [f] changed. *)
Definition relinked (f : frag) (nx : Z) (h : Heap) : Heap := set_bytes (p_payload (fg_b f)) (helper_bytes nx f ++ fg_rest f ++ fg_data f) h.

Lemma set_next n nx nx' f : stored (n_heap n) nx f -> is_u32 nx' ->
  st32 (p_payload (fg_b f)) irh_next_pbuf nx' n = Ret (n_set_heap (relinked f nx' (n_heap n)) n, ()) /\
  stored (relinked f nx' (n_heap n)) nx' f /\ touched [fg_p f] (n_heap n) (relinked f nx' (n_heap n)).
Proof.
  intros [S1 S2 S3 S4 S5] Hnx. pose proof (wh_bytes _ _ _ _ S1) as Hb. change (nbytes (p_payload (fg_b f)) (helper_bytes nx f ++ fg_rest f ++ fg_data f) n) in Hb.
  split; [|split].
  - rewrite (nset_start _ _ _ Hb) at 1. unfold irh_next_pbuf. rewrite (st32_at _ _ _ _ _ _ Hb) by (done || (rewrite !length_app; cbn; lia)).
    unfold helper_bytes. mem_eval. reflexivity.
  - split; try done. by apply (whole_set _ _ _ _ _ S1).
  - split; [apply set_bytes_pbufs| |apply set_bytes_customs]. intros a Ha. apply set_bytes_mem. rewrite (wh_own _ _ _ _ S1). by intros ->; apply Ha; left.
Qed.

End Helper.

(** ** The place of a fragment *)

(** The fragments in front of [g] and behind it, and whether no hole was seen;
    [None]: [g] is thrown away.  [pe]: the end of the fragment in front of
    [l]. *)
Fixpoint place (g : frag) (pe : option Z) (valid : bool) (l : list frag) : option (list frag * list frag * bool) :=
  match l with
  | [] => Some ([], [], match pe with Some e => if bool_decide (e <> fg_start g) then false else valid | None => valid end)
  | f :: l' =>
      if bool_decide (fg_start g < fg_start f) then
        match pe with
        | Some e => if bool_decide (fg_start g < e) || bool_decide (fg_end g > fg_start f) then None else Some ([], l, valid)
        | None => Some ([], l, valid)
        end
      else if bool_decide (fg_start g = fg_start f) then None
      else if bool_decide (fg_start g < fg_end f) then None
      else
        match place g (Some (fg_end f)) (match pe with Some e => if bool_decide (e <> fg_start f) then false else valid | None => valid end) l' with
        | Some (l1, l2, v) => Some (f :: l1, l2, v)
        | None => None
        end
  end.

Lemma place_app g : forall l pe valid l1 l2 v, place g pe valid l = Some (l1, l2, v) -> l = l1 ++ l2.
Proof.
  induction l as [|f l IH]; intros pe valid l1 l2 v; cbn [place]; [by intros [= <- <- _]|].
  case_bool_decide; [destruct pe; [destruct (_ || _); [done|]|]; by intros [= <- <- _]|]. do 2 (case_bool_decide; [done|]).
  destruct (place g _ _ l) as [[[k1 k2] w]|] eqn:Ep; [|done]. intros [= <- <- _]. cbn [app]. f_equal. by eapply IH.
Qed.

Lemma NoDup_placed g l1 l2 : NoDup (fg_p g :: map fg_p (l1 ++ l2)) -> NoDup (map fg_p (l1 ++ g :: l2)).
Proof. intros Hnd. rewrite map_app. cbn [map]. rewrite <-Permutation_middle, <-map_app. done. Qed.

Definition prev_of (pre : list frag) : option (ptr * Z) := (fun f => (p_payload (fg_b f), fg_end f)) <$> last pre.

(** The datagram [ipr] with the first fragment [p]. *)
Definition with_first (ipr p : Z) (r : ip_reassdata) (s : ReassState) : ReassState :=
  mkReassState (<[ipr := rd_set_p p r]> (reasss s)) (reassdatagrams s) (ip_reass_pbufcount s).

Lemma with_first_same ipr r s : reasss s !! ipr = Some r -> with_first ipr (rd_p r) r s = s.
Proof. intros Hr. unfold with_first. destruct s, r. cbn in *. by rewrite insert_id. Qed.

Lemma NoDup_app_mid (pre l : list frag) f : NoDup (map fg_p (pre ++ f :: l)) -> forall g, g ∈ pre ++ l -> fg_p g <> fg_p f.
Proof.
  rewrite map_app. cbn [map]. intros Hnd g Hg E.
  assert (fg_p f ∉ map fg_p pre /\ fg_p f ∉ map fg_p l) as [H1 H2].
  { apply NoDup_app in Hnd as (_ & Hd & Hl). apply NoDup_cons in Hl as [Hl _]. split; [|done]. intros Hin. apply (Hd _ Hin). left. }
  apply elem_of_app in Hg as [Hg|Hg]; [apply H1|apply H2]; rewrite <-E; by apply list_elem_of_fmap_2.
Qed.

Section Insert.
Context {E : Type}.
Implicit Types n : Net E.

(** A fragment behind the last one of a segment. *)
Lemma link_behind n p pre f x y : frags (n_heap n) p (pre ++ [f]) x -> NoDup (map fg_p (pre ++ [f])) -> is_u32 y ->
  st32 (p_payload (fg_b f)) irh_next_pbuf y n = Ret (n_set_heap (relinked f y (n_heap n)) n, ()) /\
  frags (relinked f y (n_heap n)) p (pre ++ [f]) y /\ touched [fg_p f] (n_heap n) (relinked f y (n_heap n)).
Proof.
  intros (r & H1 & (-> & nx & Hs & ->))%frags_app Hnd Hy. destruct (set_next n _ y f Hs Hy) as (E1 & S1 & T1). split; [done|]. split; [|done].
  apply frags_app. exists (fg_p f). split; [|split; [done|]; by exists y].
  eapply frags_frame; [exact H1|]. intros g Hg. split; [by rewrite (to_bufs _ _ _ T1)|]. apply (to_mem _ _ _ T1).
  intros Hx%list_elem_of_singleton. apply (NoDup_app_mid pre [] f Hnd g); [by rewrite app_nil_r|done].
Qed.

Lemma touched_frags L h h' p l q : touched L h h' -> frags h p l q -> (forall f, f ∈ l -> fg_p f ∉ L) -> frags h' p l q.
Proof. intros [T1 T2 T3] Hl Hd. eapply frags_frame; [exact Hl|]. intros f Hf. split; [by rewrite T1|]. by apply T2, Hd. Qed.
Lemma touched_stored L h h' nx f : touched L h h' -> stored h nx f -> fg_p f ∉ L -> stored h' nx f.
Proof. intros [T1 T2 T3] Hs Hf. eapply stored_frame; [exact Hs|by rewrite T1|by apply T2]. Qed.

Lemma reass_at_at ipr n r : reasss (n_reass n) !! ipr = Some r -> reass_at ipr n = Ret (n, r).
Proof. intros Hr. unfold reass_at, mbind, net_bind, gets, need. by rewrite Hr. Qed.

Lemma set_first ipr p r n : reasss (n_reass n) !! ipr = Some r -> reass_upd ipr (rd_set_p p) n = Ret (n_set_reass (with_first ipr p r (n_reass n)) n, ()).
Proof. intros Hr. unfold reass_upd. erewrite bind_step by (by apply reass_at_at). done. Qed.

(** What [insert_loop] leaves for the result of [place]. *)
Definition inserted (g : frag) ipr (r : ip_reassdata) (pre l : list frag) (n n1 : Net E) (res : option (list frag * list frag * bool)) (v : option bool) : Prop :=
  touched (fg_p g :: map fg_p (pre ++ l)) (n_heap n) (n_heap n1) /\
  match res with
  | Some (l1, l2, v') => v = Some v' /\ exists p', n1 = n_set_reass (with_first ipr p' r (n_reass n)) (n_set_heap (n_heap n1) n) /\ frags (n_heap n1) p' (pre ++ l1 ++ g :: l2) 0
  | None => v = None /\ n1 = n_set_heap (n_heap n1) n /\ frags (n_heap n1) (rd_p r) (pre ++ l) 0 /\ exists nx, stored (n_heap n1) nx g
  end.

(** The fragment [g], its pointer set to what will be behind it, is put in
    between. *)
Lemma put_between g ipr r pre l n : reasss (n_reass n) !! ipr = Some r ->
  frags (n_heap n) (rd_p r) pre (head_of l) -> frags (n_heap n) (head_of l) l 0 -> stored (n_heap n) (head_of l) g ->
  NoDup (fg_p g :: map fg_p (pre ++ l)) -> is_u32 (fg_p g) ->
  exists n1, (match last pre with Some f => st32 (p_payload (fg_b f)) irh_next_pbuf (fg_p g) | None => reass_upd ipr (rd_set_p (fg_p g)) end) n = Ret (n1, ()) /\
    touched (map fg_p pre) (n_heap n) (n_heap n1) /\
    exists p', n1 = n_set_reass (with_first ipr p' r (n_reass n)) (n_set_heap (n_heap n1) n) /\ frags (n_heap n1) p' (pre ++ g :: l) 0.
Proof.
  intros Hr Hpre Hl Hg Hnd Hu. apply NoDup_cons in Hnd as [Hgn Hnd]. destruct pre as [|f pre _] using rev_ind.
  - cbn [last]. eexists. split; [by apply set_first|]. split; [apply touched_refl|]. exists (fg_p g). split; [done|]. split; [done|]. by exists (head_of l).
  - rewrite last_snoc. destruct (link_behind n (rd_p r) pre f (head_of l) (fg_p g) Hpre) as (E1 & F1 & T1); [|done|].
    { rewrite map_app in Hnd. by apply NoDup_app in Hnd as (? & _). }
    eexists. split; [exact E1|]. cbn [n_heap n_set_heap]. split; [eapply touched_weaken; [exact T1|]|].
    { intros a ->%list_elem_of_singleton. rewrite map_app. apply elem_of_app. right. left. }
    exists (rd_p r). split; [rewrite with_first_same by done; by destruct n|]. apply frags_app. exists (fg_p g). split; [done|].
    assert (fg_p g ∉ [fg_p f]) as Hgf.
    { intros Hx%list_elem_of_singleton. apply Hgn. rewrite Hx. apply list_elem_of_fmap_2. apply elem_of_app. left. apply elem_of_app. right. left. }
    split; [done|]. exists (head_of l). split; [by eapply touched_stored|]. eapply touched_frags; [exact T1|exact Hl|].
    intros e He Hx%list_elem_of_singleton. rewrite <-(assoc_L (++)) in Hnd. apply (NoDup_app_mid pre l f Hnd e); [apply elem_of_app; by right|done].
Qed.

Lemma prev_none pre : last pre = None -> prev_of pre = None.
Proof. unfold prev_of. by intros ->. Qed.
Lemma prev_some pre f : last pre = Some f -> prev_of pre = Some (p_payload (fg_b f), fg_end f).
Proof. unfold prev_of. by intros ->. Qed.

Lemma insert_loop_place g ipr r : forall l pre fuel n valid,
  reasss (n_reass n) !! ipr = Some r -> frags (n_heap n) (rd_p r) pre (head_of l) -> frags (n_heap n) (head_of l) l 0 -> stored (n_heap n) 0 g ->
  NoDup (fg_p g :: map fg_p (pre ++ l)) -> is_u32 (fg_p g) -> Forall (fun f => is_u32 (fg_p f)) l ->
  (forall f, last pre = Some f -> fg_end f <= fg_start g) -> (length l <= fuel)%nat ->
  exists n1 v, insert_loop fuel ipr (fg_p g) (p_payload (fg_b g)) (fg_start g) (fg_end g) (head_of l) (prev_of pre) valid n = Ret (n1, v) /\
    inserted g ipr r pre l n n1 (place g (fg_end <$> last pre) valid l) v.
Proof.
  induction l as [|f l IH]; intros pre fuel n valid Hr Hpre Hl Hg Hnd Hug Hul Hpe Hfuel.
  - destruct (put_between g ipr r pre [] n) as (n1 & E1 & T1 & p' & S1 & F1); try done. exists n1.
    assert (touched (fg_p g :: map fg_p (pre ++ [])) (n_heap n) (n_heap n1)) as T2.
    { eapply touched_weaken; [exact T1|]. intros a Ha. rewrite app_nil_r. by right. }
    destruct (last pre) as [f|] eqn:Elast; cbn [fmap option_fmap option_map place head_of].
    + rewrite (prev_some _ _ Elast). eexists. split; [|split; [exact T2|split; [reflexivity|by exists p']]].
      assert (forall k, insert_loop k ipr (fg_p g) (p_payload (fg_b g)) (fg_start g) (fg_end g) 0 (Some (p_payload (fg_b f), fg_end f)) valid n =
        Ret (n1, Some (if bool_decide (fg_end f <> fg_start g) then false else valid))) as Hk; [|apply Hk].
      intros k. destruct k; cbn [insert_loop]; rewrite (bool_decide_true (0 = 0)) by done;
        (erewrite bind_step by (apply assert_at; apply bool_decide_eq_true; by apply Hpe)); cbv beta; by erewrite bind_step by exact E1.
    + rewrite (prev_none _ Elast). apply last_None in Elast as ->. cbn [frags] in Hpre. eexists. split; [|split; [exact T2|split; [reflexivity|by exists p']]].
      assert (forall k, insert_loop k ipr (fg_p g) (p_payload (fg_b g)) (fg_start g) (fg_end g) 0 None valid n = Ret (n1, Some valid)) as Hk; [|apply Hk].
      intros k. destruct k; cbn [insert_loop]; rewrite (bool_decide_true (0 = 0)) by done; (erewrite bind_step by (by apply reass_at_at)); cbv beta;
        (erewrite bind_step by (apply assert_at; by apply bool_decide_eq_true)); cbv beta; by erewrite bind_step by exact E1.
  - destruct fuel as [|fuel]; [cbn in Hfuel; lia|]. cbn [length] in Hfuel. pose proof Hl as (_ & nx & Hf & Hl'). pose proof (stored_nz _ _ _ Hf) as Hf0.
    apply Forall_cons in Hul as [Huf Hul]. assert (nx = head_of l) as -> by (apply frags_head in Hl'; by destruct l).
    cbn [head_of insert_loop place]. rewrite (bool_decide_false (fg_p f = 0)) by done. erewrite bind_step by (by apply helper_at). cbv beta iota.
    destruct (decide (fg_start g < fg_start f)) as [Hlt|Hge].
    + rewrite (bool_decide_true (fg_start g < fg_start f)) by done.
      destruct (set_next n 0 (fg_p f) g Hg Huf) as (E1 & S1 & T1). set (n0 := n_set_heap (relinked g (fg_p f) (n_heap n)) n) in *.
      assert (forall e, e ∈ pre ++ f :: l -> fg_p e ∉ [fg_p g]) as Hout.
      { intros e He Hx%list_elem_of_singleton. apply NoDup_cons in Hnd as [Hnd _]. apply Hnd. rewrite <-Hx. by apply list_elem_of_fmap_2. }
      assert (frags (n_heap n0) (rd_p r) pre (fg_p f)) as Hpre0 by (eapply touched_frags; [exact T1|exact Hpre|]; intros e He; apply Hout, elem_of_app; by left).
      assert (frags (n_heap n0) (fg_p f) (f :: l) 0) as Hl0 by (eapply touched_frags; [exact T1|exact Hl|]; intros e He; apply Hout, elem_of_app; by right).
      assert (touched (fg_p g :: map fg_p (pre ++ f :: l)) (n_heap n) (n_heap n0)) as T2.
      { eapply touched_weaken; [exact T1|]. intros a ->%list_elem_of_singleton. left. }
      erewrite bind_step by exact E1. cbv beta.
      destruct (put_between g ipr r pre (f :: l) n0) as (n1 & E2 & T3 & p' & S3 & F3); try done.
      assert (touched (fg_p g :: map fg_p (pre ++ f :: l)) (n_heap n) (n_heap n1)) as T4.
      { eapply touched_trans; [exact T2|]. eapply touched_weaken; [exact T3|]. intros a Ha. right. rewrite map_app. apply elem_of_app. by left. }
      destruct (last pre) as [e|] eqn:Elast; cbn [fmap option_fmap option_map].
      * rewrite (prev_some _ _ Elast). cbv iota beta. destruct (bool_decide (fg_start g < fg_end e) || bool_decide (fg_end g > fg_start f)).
        -- exists n0, None. split; [done|]. split; [exact T2|]. split; [done|]. split; [done|]. split; [|by exists (fg_p f)]. apply frags_app. by exists (fg_p f).
        -- exists n1. eexists. split; [by erewrite bind_step by exact E2|]. split; [exact T4|]. split; [done|]. exists p'. split; [exact S3|exact F3].
      * rewrite (prev_none _ Elast). cbv iota beta. exists n1. eexists. split; [by erewrite bind_step by exact E2|]. split; [exact T4|]. split; [done|]. exists p'. split; [exact S3|exact F3].
    + rewrite (bool_decide_false (fg_start g < fg_start f)) by done.
      assert (inserted g ipr r pre (f :: l) n n None None) as Hno.
      { split; [apply touched_refl|]. split; [done|]. split; [by destruct n|]. split; [|by exists 0]. apply frags_app. by exists (fg_p f). }
      destruct (decide (fg_start g = fg_start f)) as [Heq|Hne]; [rewrite (bool_decide_true (fg_start g = fg_start f)) by done; by exists n, None|].
      rewrite (bool_decide_false (fg_start g = fg_start f)) by done.
      destruct (decide (fg_start g < fg_end f)) as [Hin|Hout]; [rewrite (bool_decide_true (fg_start g < fg_end f)) by done; by exists n, None|].
      rewrite (bool_decide_false (fg_start g < fg_end f)) by done.
      destruct (IH (pre ++ [f]) fuel n (match prev_of pre with Some (_, e) => if bool_decide (e <> fg_start f) then false else valid | None => valid end)) as (n1 & v & E1 & T1 & R1); try done.
      { apply frags_app. exists (fg_p f). split; [done|]. split; [done|]. by exists (head_of l). }
      { by rewrite <-(assoc_L (++)). }
      { rewrite last_snoc. intros e [= <-]. lia. }
      { lia. }
      exists n1, v. unfold prev_of at 1 in E1. rewrite last_snoc in E1, R1. cbn [fmap option_fmap option_map] in E1, R1. split; [exact E1|]. clear E1. rewrite <-(assoc_L (++)) in T1. split; [exact T1|].
      replace (match fg_end <$> last pre with Some e => if bool_decide (e <> fg_start f) then false else valid | None => valid end)
        with (match prev_of pre with Some (_, e) => if bool_decide (e <> fg_start f) then false else valid | None => valid end) by (unfold prev_of; by destruct (last pre)).
      destruct (place g (Some (fg_end f)) _ l) as [[[l1 l2] v']|].
      * destruct R1 as (-> & p' & S1 & F1). split; [done|]. exists p'. split; [exact S1|]. by rewrite <-(assoc_L (++)) in F1.
      * destruct R1 as (-> & S1 & F1 & X1). by rewrite <-(assoc_L (++)) in F1.
Qed.

(** ** Whether the datagram is complete *)

(** No hole from [en] on. *)
Fixpoint joined (en : Z) (l : list frag) : bool :=
  match l with [] => true | f :: l => bool_decide (en = fg_start f) && joined (fg_end f) l end.

Definition last_of (g : frag) (l : list frag) : frag := default g (last l).

Lemma last_of_cons g f l : last_of g (f :: l) = last_of f l.
Proof. unfold last_of. destruct l as [|e l]; [done|]. rewrite last_cons_cons. destruct (last (e :: l)) eqn:El; [done|by apply last_None in El]. Qed.

Lemma holes_loop_spec n : forall l g q fuel, frags (n_heap n) q l 0 -> (length l <= fuel)%nat ->
  exists x e, holes_loop fuel q (p_payload (fg_b g)) (fg_end g) n = Ret (n, (x, e, joined (fg_end g) l)) /\
    (joined (fg_end g) l = true -> x = p_payload (fg_b (last_of g l)) /\ e = fg_end (last_of g l)).
Proof.
  induction l as [|f l IH]; intros g q fuel Hl Hfuel.
  - cbn [frags] in Hl. subst q. exists (p_payload (fg_b g)), (fg_end g). split; [by destruct fuel|done].
  - destruct fuel as [|fuel]; [cbn in Hfuel; lia|]. destruct Hl as (-> & nx & Hf & Hl). cbn [holes_loop joined]. cbn [length] in Hfuel.
    rewrite (bool_decide_false (fg_p f = 0)) by (by eapply stored_nz). erewrite bind_step by (by apply helper_at). cbv beta iota.
    destruct (decide (fg_end g = fg_start f)) as [He|He].
    + rewrite (bool_decide_false (fg_end g <> fg_start f)), (bool_decide_true (fg_end g = fg_start f)) by (done || lia). cbn [andb].
      rewrite last_of_cons. apply IH; [done|lia].
    + rewrite (bool_decide_true (fg_end g <> fg_start f)), (bool_decide_false (fg_end g = fg_start f)) by (done || lia). cbn [andb]. by exists (p_payload (fg_b f)), (fg_end f).
Qed.

Lemma frags_fuel h p l : frags h p l 0 -> NoDup (map fg_p l) -> (length l < chain_fuel h)%nat.
Proof.
  intros Hl Hnd. unfold chain_fuel. rewrite <-(length_map fg_p l).
  assert (size (list_to_set (map fg_p l) : gset Z) <= size (dom (pbufs h)))%nat as Hs.
  { apply subseteq_size. intros a Ha%elem_of_list_to_set. apply list_elem_of_fmap in Ha as (f & -> & Hf). destruct (frags_in _ _ _ _ _ Hl Hf) as (nx & Hs).
    apply elem_of_dom. exists (fg_b f). apply (wh_buf _ _ _ _ (st_whole _ _ _ Hs)). }
  rewrite size_list_to_set, size_dom in Hs by done. lia.
Qed.

(** What [validate] finds for the fragments [l1 ++ g :: l2]. *)
Definition validated (l1 : list frag) (g : frag) (l2 : list frag) (dlen : Z) : outcome bool :=
  if bool_decide (fg_start (default g (head l1)) <> 0) then Ret false
  else if joined (fg_end g) l2 then
    if bool_decide (length (l1 ++ l2) = 0%nat) || bool_decide (fg_end (last_of g l2) <> dlen) then Spin else Ret true
  else Ret false.

Lemma validate_spec n ipr r l1 g l2 : reasss (n_reass n) !! ipr = Some r -> frags (n_heap n) (rd_p r) (l1 ++ g :: l2) 0 -> NoDup (map fg_p (l1 ++ g :: l2)) ->
  validate ipr (p_payload (fg_b g)) (fg_end g) n = match validated l1 g l2 (rd_datagram_len r) with Ret b => Ret (n, b) | Fault => Fault | Spin => Spin end.
Proof.
  intros Hr Hl Hnd. unfold validate, validated. erewrite bind_step by (by apply reass_at_at). cbv beta.
  set (f := default g (head l1)). assert (exists l, l1 ++ g :: l2 = f :: l) as (l & Hfl) by (destruct l1; by eexists).
  assert (exists nx, rd_p r = fg_p f /\ stored (n_heap n) nx f) as (nf & -> & Hf) by (rewrite Hfl in Hl; destruct Hl as (-> & nx & Hs & _); by exists nx).
  pose proof Hl as (_ & _ & (-> & ng & Hg & Hl2))%frags_app.
  erewrite bind_step by (by apply helper_at). cbv beta iota. case_bool_decide as H0; [done|].
  erewrite bind_step by (eapply ld32_hdr; [exact (wh_bytes _ _ _ _ (st_whole _ _ _ Hg))|done|done]). cbv beta.
  replace (at32 (helper_bytes ng g) irh_next_pbuf) with ng.
  2: { unfold helper_bytes, irh_next_pbuf, at32, at8. mem_nat. cbn [nth app le4 le2]. rewrite of_le4_le4; [done|apply (st_next _ _ _ Hg)]. }
  erewrite bind_step by reflexivity. cbv beta.
  destruct (holes_loop_spec n l2 g ng (chain_fuel (n_heap n)) Hl2) as (x & e & E1 & Hx).
  { pose proof (frags_fuel _ _ _ Hl Hnd) as Hfu. rewrite length_app in Hfu. cbn [length] in Hfu. lia. }
  erewrite bind_step by exact E1. cbv beta iota. destruct (joined (fg_end g) l2); [|done]. destruct Hx as [-> ->]; [done|].
  erewrite bind_step by (apply assert_at; apply bool_decide_eq_true; by eapply stored_nz). cbv beta.
  set (z := last_of g l2). assert (z ∈ l1 ++ g :: l2 /\ exists nz, stored (n_heap n) nz z /\ nz = 0) as [Hz (nz & Hsz & ->)].
  { clear -Hl. subst z. destruct l2 as [|e l2 _] using rev_ind.
    - split; [apply elem_of_app; right; left|]. apply frags_app in Hl as (r0 & _ & (-> & nx & Hs & ->)). by exists 0.
    - unfold last_of. rewrite last_snoc. cbn [default]. split; [apply elem_of_app; right; right; apply elem_of_app; right; left|].
      rewrite app_comm_cons, (assoc_L (++)) in Hl. apply frags_app in Hl as (r0 & _ & (-> & nx & Hs & ->)). by exists 0. }
  destruct (decide (length (l1 ++ l2) = 0%nat)) as [Hlen|Hlen].
  { rewrite (bool_decide_true (length (l1 ++ l2) = 0%nat)) by done. cbn [orb]. destruct l1, l2; try done. unfold assert, mbind, net_bind. subst f z. cbn [head default last_of last from_option].
    rewrite (bool_decide_false (p_payload (fg_b g) <> p_payload (fg_b g))) by tauto. done. }
  rewrite (bool_decide_false (length (l1 ++ l2) = 0%nat)) by done. cbn [orb].
  assert (p_payload (fg_b f) <> p_payload (fg_b z)) as Hfz.
  { intros Hp. assert (fg_p f = fg_p z) as Hpp by (rewrite <-(wh_own _ _ _ _ (st_whole _ _ _ Hf)), <-(wh_own _ _ _ _ (st_whole _ _ _ Hsz)); by rewrite Hp).
    subst f z. destruct l2 as [|e l2 _] using rev_ind.
    - destruct l1 as [|f l1]; [done|]. cbn in Hpp, Hnd. apply NoDup_cons in Hnd as [Hnd _]. apply Hnd. rewrite Hpp. apply list_elem_of_fmap_2, elem_of_app. right. left.
    - unfold last_of in Hpp. rewrite last_snoc in Hpp. cbn [default] in Hpp. rewrite app_comm_cons, (assoc_L (++)) in Hnd.
      eapply (NoDup_app_mid _ [] e Hnd); [|exact Hpp]. rewrite app_nil_r. apply elem_of_app. destruct l1; cbn [head default]; [right|left]; left. }
  erewrite bind_step by (apply assert_at; by apply bool_decide_eq_true). cbv beta.
  erewrite bind_step by (eapply ld32_hdr; [exact (wh_bytes _ _ _ _ (st_whole _ _ _ Hsz))|done|done]). cbv beta.
  replace (at32 (helper_bytes 0 z) irh_next_pbuf) with 0 by done.
  erewrite bind_step by (apply assert_at; done). cbv beta. unfold assert, mbind, net_bind. fold z.
  destruct (decide (fg_end z = rd_datagram_len r)) as [He|He].
  - by rewrite (bool_decide_true (fg_end z = _)), (bool_decide_false (fg_end z <> _)) by (done || lia).
  - by rewrite (bool_decide_false (fg_end z = _)), (bool_decide_true (fg_end z <> _)) by (done || lia).
Qed.

End Insert.

(** ** A fragment that arrives *)

(** A packet with the header [hdr] of a fragment. *)
Record fragment (h : Heap) (g : frag) (hdr : list Z) : Prop := {
  fr_whole : whole h (fg_p g) (hdr ++ fg_data g) (fg_b g);
  fr_hdr : length hdr = 20%nat;
  fr_vhl : at8 hdr iph_v_hl = 0x45;
  fr_len : lwip_ntohs (at16 hdr iph_len) = Z.of_nat (length (fg_data g)) + IP_HLEN;
  fr_off : Z.land (lwip_ntohs (at16 hdr iph_offset)) IP_OFFMASK * 8 = fg_start g;
  fr_rest : fg_rest g = skipn 8 hdr;
  fr_end : fg_end g < 65536;
}.

Lemma fragment_start h g hdr : fragment h g hdr -> 0 <= fg_start g < 65536.
Proof.
  intros Hf. rewrite <-(fr_off _ _ _ Hf). unfold IP_OFFMASK. change 0x1fff with (Z.ones 13). rewrite Z.land_ones by lia.
  pose proof (Z.mod_pos_bound (lwip_ntohs (at16 hdr iph_offset)) (2 ^ 13) ltac:(lia)). change (2 ^ 13) with 8192 in *. lia.
Qed.

Lemma fragment_frame h h' g hdr : fragment h g hdr -> pbufs h' !! fg_p g = pbufs h !! fg_p g -> mem h' !! fg_p g = mem h !! fg_p g -> fragment h' g hdr.
Proof. intros [F1 F2 F3 F4 F5 F6 F7] Hb Hm. split; try done. by eapply whole_frame. Qed.

Lemma clen_whole {E} (n : Net E) p x b : whole (n_heap n) p x b -> in_heap (pbuf_clen p) n = Ret (n, 1).
Proof.
  intros [W1 W2 W3 W4 W5 W6 W7 W8 W9]. unfold in_heap, pbuf_clen, chain_fuel. cbn [clen_loop]. rewrite (bool_decide_false (p = 0)) by done.
  rewrite (get_live _ _ _ W1). cbn [mbind outcome_bind]. rewrite W6. by destruct (size (pbufs (n_heap n))).
Qed.

Section Chain.
Context {E : Type} `{Malloc, LinkDriver E}.
Implicit Types n : Net E.

Lemma hl_whole n p b hdr d : whole (n_heap n) p (hdr ++ d) b -> at8 hdr iph_v_hl = 0x45 -> length hdr = 20%nat -> IPH_HL (p_payload b) n = Ret (n, 5).
Proof.
  intros Hw Hv Hl. unfold IPH_HL. erewrite bind_step by (eapply ld8_hdr; [exact (wh_bytes _ _ _ _ Hw)|done|by rewrite Hl]). cbv beta. by rewrite Hv.
Qed.

(** The helper in place of the header. *)
Lemma helper_written n g hdr : fragment (n_heap n) g hdr ->
  exists n1, (forall A (k : NetM E A), (_ ← st32 (p_payload (fg_b g)) irh_next_pbuf 0; _ ← st16 (p_payload (fg_b g)) irh_start (fg_start g);
      _ ← st16 (p_payload (fg_b g)) irh_end (fg_end g); k) n = k n1) /\ stored (n_heap n1) 0 g /\ touched [fg_p g] (n_heap n) (n_heap n1) /\ n1 = n_set_heap (n_heap n1) n.
Proof.
  intros Hf. pose proof (fragment_start _ _ _ Hf) as Hst. destruct Hf as [F1 F2 F3 F4 F5 F6 F7]. pose proof (wh_bytes _ _ _ _ F1) as Hb.
  set (q := p_payload (fg_b g)) in *. change (nbytes q (hdr ++ fg_data g) n) in Hb.
  assert (hdr = take 8 hdr ++ fg_rest g) as Hh by (rewrite F6; by rewrite take_drop).
  set (d := helper_bytes 0 g ++ fg_rest g ++ fg_data g).
  assert (length (fg_rest g) = 12%nat) as L12 by (rewrite F6, length_skipn, F2; done).
  assert (length d = length (hdr ++ fg_data g)) as Ld by (unfold d; rewrite !length_app, L12, F2; done).
  exists (nset q d n). split; [|split; [|split; [|done]]].
  - intros A k. rewrite Hh, <-(assoc_L (++)) in Hb. remember (take 8 hdr) as x eqn:Hx. assert (length x = 8%nat) as Lx by (subst x; rewrite length_take, F2; done). clear Hx.
    do 8 (destruct x as [|? x]; [done|]). destruct x; [|done]. cbn [app] in Hb. rewrite (nset_start _ _ _ Hb) at 1. unfold irh_next_pbuf, irh_start, irh_end.
    do 3 mem_step Hb. reflexivity.
  - split; try done; [|unw; lia]. by apply (whole_set _ _ _ d _ F1).
  - split; [apply set_bytes_pbufs| |apply set_bytes_customs]. intros a Ha. apply set_bytes_mem. unfold q. rewrite (wh_own _ _ _ _ F1). intros ->. apply Ha. left.
Qed.

(** Where the fragment goes and whether that completes the datagram; a
    fragment that is thrown away is freed. *)
Lemma chain_frag_spec n ipr r l g hdr : reasss (n_reass n) !! ipr = Some r -> frags (n_heap n) (rd_p r) l 0 -> fragment (n_heap n) g hdr ->
  NoDup (fg_p g :: map fg_p l) -> is_u32 (fg_p g) -> Forall (fun f => is_u32 (fg_p f)) l ->
  exists n1, touched (fg_p g :: map fg_p l) (n_heap n) (n_heap n1) /\
    match place g None true l with
    | Some (l1, l2, v) => exists p', n1 = n_set_reass (with_first ipr p' r (n_reass n)) (n_set_heap (n_heap n1) n) /\ frags (n_heap n1) p' (l1 ++ g :: l2) 0 /\
        ip_reass_chain_frag_into_datagram_and_validate ipr (fg_p g) n =
          if bool_decide (Z.land (rd_flags r) IP_REASS_FLAG_LASTFRAG <> 0) && v
          then match validated l1 g l2 (rd_datagram_len r) with Ret b => Ret (n1, b) | Fault => Fault | Spin => Spin end else Ret (n1, false)
    | None => n1 = n_set_heap (n_heap n1) n /\ frags (n_heap n1) (rd_p r) l 0 /\
        ip_reass_chain_frag_into_datagram_and_validate ipr (fg_p g) n =
          (clen ← in_heap (pbuf_clen (fg_p g)); _ ← reass_count (fun c => c - clen); _ ← on_heap (pbuf_free (fg_p g)); mret false) n1
    end.
Proof.
  intros Hr Hl Hf Hnd Hug Hul. pose proof (fragment_start _ _ _ Hf) as Hst. destruct (helper_written n g hdr Hf) as (n0 & E0 & S0 & T0 & R0).
  pose proof Hf as [F1 F2 F3 F4 F5 F6 F7]. pose proof (wh_u16 _ _ _ _ F1) as H16. rewrite length_app, F2 in H16. pose proof (wh_bytes _ _ _ _ F1) as Hb.
  set (q := p_payload (fg_b g)) in *. change (nbytes q (hdr ++ fg_data g) n) in Hb.
  assert (frags (n_heap n0) (rd_p r) l 0) as Hl0.
  { eapply touched_frags; [exact T0|exact Hl|]. intros f Hin Hx%list_elem_of_singleton. apply NoDup_cons in Hnd as [Hnd _]. apply Hnd. rewrite <-Hx. by apply list_elem_of_fmap_2. }
  assert (reasss (n_reass n0) !! ipr = Some r) as Hr0 by (by rewrite R0).
  assert (head_of l = rd_p r) as Hhd by (symmetry; by eapply frags_head_of).
  destruct (insert_loop_place g ipr r l [] (chain_fuel (n_heap n0)) n0 true) as (n1 & v & E1 & T1 & R1); try done.
  { by rewrite Hhd. }
  { apply NoDup_cons in Hnd as [_ Hnd]. pose proof (frags_fuel _ _ _ Hl0 Hnd). lia. }
  rewrite Hhd in E1. cbn [last fmap option_fmap option_map app] in R1.
  assert (touched (fg_p g :: map fg_p l) (n_heap n) (n_heap n1)) as T2.
  { eapply touched_trans; [|exact T1]. eapply touched_weaken; [exact T0|]. intros a ->%list_elem_of_singleton. left. }
  exists n1. split; [exact T2|].
  assert (ip_reass_chain_frag_into_datagram_and_validate ipr (fg_p g) n =
    match v with
    | None => (clen ← in_heap (pbuf_clen (fg_p g)); _ ← reass_count (fun c => c - clen); _ ← on_heap (pbuf_free (fg_p g)); mret false) n1
    | Some valid => (r ← reass_at ipr; if bool_decide (Z.land (rd_flags r) IP_REASS_FLAG_LASTFRAG <> 0) && valid then validate ipr q (fg_end g) else mret false) n1
    end) as Ec.
  { unfold ip_reass_chain_frag_into_datagram_and_validate. erewrite bind_step by (by eapply pb_whole). cbv beta. fold q.
    unfold IPH_LEN, IPH_OFFSET. erewrite bind_step by (eapply ld16_hdr; [exact Hb|done|by rewrite F2]). cbv beta.
    erewrite bind_step by (by eapply hl_whole). cbv beta. erewrite bind_step by (eapply ld16_hdr; [exact Hb|done|by rewrite F2]). cbv beta zeta.
    rewrite F4, F5. replace (u16 (Z.of_nat (length (fg_data g)) + IP_HLEN - 5 * 4)) with (Z.of_nat (length (fg_data g))) by (rewrite u16_id by (unfold IP_HLEN; unw; lia); unfold IP_HLEN; lia).
    rewrite (u16_id (fg_start g)) by (unw; lia). fold (fg_end g). rewrite (u16_id (fg_end g)) by (unfold fg_end in *; unw; lia).
    rewrite E0. erewrite bind_step by (by apply reass_at_at). cbv beta. erewrite bind_step by reflexivity. cbv beta.
    erewrite bind_step by exact E1. cbv beta. by destruct v. }
  destruct (place g None true l) as [[[l1 l2] v']|] eqn:Hp.
  - destruct R1 as (-> & p' & S1 & F1'). exists p'. split; [rewrite S1, R0; reflexivity|]. split; [done|]. rewrite Ec.
    assert (reasss (n_reass n1) !! ipr = Some (rd_set_p p' r)) as Hr1 by (rewrite S1; apply lookup_insert_eq).
    erewrite bind_step by (by apply reass_at_at). cbv beta. cbn [rd_set_p rd_flags]. destruct (bool_decide (Z.land (rd_flags r) _ <> 0) && v'); [|done].
    unfold q. rewrite (validate_spec n1 ipr (rd_set_p p' r) l1 g l2); try done.
    apply NoDup_placed. by rewrite <-(place_app _ _ _ _ _ _ _ Hp).
  - destruct R1 as (-> & S1 & F1' & _). split; [rewrite S1, R0; reflexivity|]. split; [done|]. by rewrite Ec.
Qed.

End Chain.

(** ** The whole datagram *)

Definition seg_of (f : frag) : seg := mkSeg (fg_p f) (fg_p f) (fg_data f).

Lemma cat_customs hd t h h' : pbuf_cat hd t h = Ret h' -> customs h' = customs h.
Proof.
  assert (forall fuel p h1 h2 q, cat_loop fuel p t h1 = Ret (h2, q) -> customs h2 = customs h1) as Hloop.
  { induction fuel as [|fuel IH]; intros p h1 h2 q; cbn [cat_loop]; unfold get; (destruct (pbufs h1 !! p) as [b|]; cbn [checked mbind outcome_bind]; [|done]);
      destruct (bool_decide (p_next b <> 0)); try done; try (by intros [= <- _]).
    destruct (pbufs h1 !! t) as [bt|]; cbn [checked mbind outcome_bind]; [|done]. intros Hr. by apply IH in Hr. }
  unfold pbuf_cat. destruct (LWIP_ASSERT _); cbn [mbind outcome_bind]; [|done|done].
  destruct (cat_loop _ _ _ _) as [[h1 q]| |] eqn:E1; cbn [mbind outcome_bind]; [|done|done]. apply Hloop in E1.
  unfold get, upd. destruct (pbufs h1 !! q) as [b|] eqn:Eb; cbn [checked mbind outcome_bind]; [|done].
  destruct (LWIP_ASSERT (bool_decide (p_tot_len b = p_len b))); cbn [mbind outcome_bind]; [|done|done].
  destruct (LWIP_ASSERT (bool_decide (p_next b = 0))); cbn [mbind outcome_bind]; [|done|done].
  destruct (pbufs h1 !! t) as [bt|]; cbn [checked mbind outcome_bind]; [|done]. unfold get. rewrite Eb. cbn [checked mbind outcome_bind]. by intros [= <-].
Qed.

Lemma clen_linked h l : forall p k fuel, linked h p l 0 -> (length l < fuel)%nat -> 0 <= k -> k + Z.of_nat (length l) < 256 ->
  clen_loop fuel p k h = Ret (k + Z.of_nat (length l)).
Proof.
  induction l as [|a l IH]; intros p k fuel Hl Hfuel Hk Hlen.
  - cbn [linked] in Hl. subst p. replace (k + Z.of_nat (length (@nil Z))) with k by (cbn; lia). by destruct fuel.
  - destruct fuel as [|fuel]; [lia|]. cbn [length] in *. destruct Hl as (-> & Hnz & b & Hb & Hl). cbn [clen_loop]. rewrite (bool_decide_false (a = 0)) by done.
    rewrite (get_live _ _ _ Hb). cbn [mbind outcome_bind]. rewrite u8_id by (unw; lia). rewrite IH by (done || lia). f_equal. lia.
Qed.

(** What lies outside the addresses [L]. *)
Record outside (L : list Z) (h h' : Heap) : Prop := {
  os_bufs : forall a, a ∉ L -> pbufs h' !! a = pbufs h !! a;
  os_mem : forall a, a ∉ L -> mem h' !! a = mem h !! a;
  os_customs : customs h' = customs h;
}.

Lemma outside_refl L h : outside L h h.
Proof. by split. Qed.
Lemma outside_trans L h1 h2 h3 : outside L h1 h2 -> outside L h2 h3 -> outside L h1 h3.
Proof. intros [A1 A2 A3] [B1 B2 B3]. split; [intros; by rewrite B1, A1|intros; by rewrite B2, A2|by rewrite B3]. Qed.
Lemma outside_weaken L L' h h' : outside L h h' -> (forall a, a ∈ L -> a ∈ L') -> outside L' h h'.
Proof. intros [A1 A2 A3] HL. split; [intros; apply A1|intros; apply A2|done]; intros Hin; by eauto. Qed.
Lemma outside_touched L h h' : touched L h h' -> outside L h h'.
Proof. intros [T1 T2 T3]. split; try done. intros a _. by rewrite T1. Qed.
Lemma outside_frags L h h' p l q : outside L h h' -> frags h p l q -> (forall f, f ∈ l -> fg_p f ∉ L) -> frags h' p l q.
Proof. intros [O1 O2 O3] Hl Hd. eapply frags_frame; [exact Hl|]. intros f Hf. split; [by apply O1, Hd|by apply O2, Hd]. Qed.
Lemma outside_fragment L h h' g hdr : outside L h h' -> fragment h g hdr -> fg_p g ∉ L -> fragment h' g hdr.
Proof. intros [O1 O2 O3] Hf Hg. eapply fragment_frame; [exact Hf|by apply O1|by apply O2]. Qed.

Section Join.
Context {E : Type} `{Malloc, LinkDriver E}.
Implicit Types n : Net E.

(** The rest of the fragments behind the packet [l1]. *)
Lemma join_loop_spec p rest : forall fuel l1 r n, packet (n_heap n) p l1 -> l1 <> [] -> frags (n_heap n) r rest 0 -> (length rest <= fuel)%nat ->
  NoDup (map sg_a l1 ++ map fg_p rest) -> data_len (l1 ++ map seg_of rest) < 65536 ->
  exists h, join_loop fuel p r n = Ret (n_set_heap h n, ()) /\ packet h p (l1 ++ map seg_of rest) /\ outside (map sg_a l1 ++ map fg_p rest) (n_heap n) h.
Proof.
  induction rest as [|f rest IH]; intros fuel l1 r n Hp Hne Hl Hfuel Hnd Hlen.
  - cbn [frags] in Hl. subst r. exists (n_heap n). cbn [map]. rewrite !app_nil_r. split; [|split; [done|apply outside_refl]]. destruct fuel; by destruct n.
  - destruct fuel as [|fuel]; [cbn in Hfuel; lia|]. cbn [length] in Hfuel. destruct Hl as (-> & nx & Hs & Hl). cbn [join_loop].
    rewrite (bool_decide_false (fg_p f = 0)) by (by eapply stored_nz). destruct Hs as [S1 S2 S3 S4 S5].
    erewrite bind_step by (by eapply pb_whole). cbv beta. set (q := p_payload (fg_b f)).
    set (x := helper_bytes nx f ++ fg_rest f). assert (length x = 20%nat) as Lx by (unfold x; rewrite length_app, S2; done).
    rewrite (assoc_L (++)) in S1. fold x in S1. destruct (pull_step n (fg_p f) x (fg_data f) (fg_b f) S1) as [E1 W1]; [lia|]. rewrite Lx in E1, W1.
    change (- Z.of_nat 20) with (- IP_HLEN) in E1, W1. set (b1 := moved (- IP_HLEN) (fg_b f)) in *. set (n1 := n_set_heap (put (fg_p f) b1 (n_heap n)) n) in *.
    erewrite bind_step by exact E1. cbv beta. cbn [map] in Hnd, Hlen |- *.
    assert (fg_p f ∉ map sg_a l1 /\ forall e, e ∈ rest -> fg_p e <> fg_p f) as [Hfl Hfr].
    { apply NoDup_app in Hnd as (_ & Hd & Hr). split; [intros Hin; apply (Hd _ Hin); left|]. apply NoDup_cons in Hr as [Hr _]. intros e He Hx. apply Hr. rewrite <-Hx. by apply list_elem_of_fmap_2. }
    assert (packet (n_heap n1) p l1) as Hp1.
    { destruct Hp as [Hp Hb]. split; [|done]. by apply packet_seg_put. }
    assert (packet (n_heap n1) (fg_p f) [seg_of f]) as Hp2.
    { split; [by apply (whole_packet _ _ _ _ W1)|]. pose proof (wh_u16 _ _ _ _ W1). unfold data_len, seg_of. cbn [data sg_data]. by rewrite app_nil_r. }
    change (l1 ++ seg_of f :: map seg_of rest) with (l1 ++ [seg_of f] ++ map seg_of rest) in Hlen. rewrite (assoc_L (++)) in Hlen. pose proof Hlen as Hlen2. rewrite data_len_app in Hlen2.
    pose proof (data_len_nonneg (map seg_of rest)) as Hge.
    destruct (pbuf_cat_spec (n_heap n1) p (fg_p f) l1 [seg_of f] Hp1 Hp2) as (h2 & E2 & P2 & M2 & B2 & _); [done|done| |lia|].
    { intros s ->%list_elem_of_singleton. exact Hfl. }
    set (n2 := n_set_heap h2 n1). erewrite bind_step by (apply do_heap_at; exact E2). cbv beta. fold n2.
    assert (nbytes q (helper_bytes nx f ++ fg_rest f ++ fg_data f) n2) as Hb2.
    { pose proof (wh_bytes _ _ _ _ S1) as (m & Hm & Hs). unfold x in Hs. rewrite <-(assoc_L (++)) in Hs. exists m. split; [|done].
      unfold n2. cbn [n_heap n_set_heap]. by rewrite M2. }
    erewrite bind_step by (eapply ld32_hdr; [exact Hb2|done|done]). cbv beta.
    replace (at32 (helper_bytes nx f) irh_next_pbuf) with nx.
    2: { unfold helper_bytes, irh_next_pbuf, at32, at8. mem_nat. cbn [nth app le4 le2]. by rewrite of_le4_le4. }
    assert (outside (map sg_a l1 ++ [fg_p f]) (n_heap n) h2) as O2.
    { split.
      - intros a Ha. rewrite not_elem_of_app, list_elem_of_singleton in Ha. destruct Ha as [Ha1 Ha2]. rewrite B2 by done. unfold n1. cbn [n_heap n_set_heap]. by rewrite put_other.
      - intros a _. by rewrite M2.
      - by rewrite (cat_customs _ _ _ _ E2). }
    destruct (IH fuel (l1 ++ [seg_of f]) nx n2) as (h3 & E3 & P3 & O3).
    + done.
    + by destruct l1.
    + eapply (outside_frags _ (n_heap n)); [exact O2|exact Hl|]. intros e He Hin. apply elem_of_app in Hin as [Hin|Hin%list_elem_of_singleton]; [|by apply (Hfr e)].
      apply NoDup_app in Hnd as (_ & Hd & _). apply (Hd _ Hin). right. by apply list_elem_of_fmap_2.
    + lia.
    + rewrite map_app, <-(assoc_L (++)). exact Hnd.
    + done.
    + exists h3. split; [exact E3|]. split; [by rewrite <-(assoc_L (++)) in P3|]. rewrite map_app, <-(assoc_L (++)) in O3. cbn [map app] in O3.
      eapply outside_trans; [|exact O3]. eapply outside_weaken; [exact O2|]. intros a. rewrite !elem_of_app, list_elem_of_singleton, elem_of_cons. by intros [?| ->]; auto.
Qed.
End Join.

(** The header of a fragment: [o] its flags and offset. *)
Definition frag_header (tos len id o ttl proto src dst ck : Z) : list Z :=
  [0x45; tos] ++ le2 (lwip_htons len) ++ le2 (lwip_htons id) ++ le2 (lwip_htons o) ++ [ttl; proto] ++ le2 ck ++ le4 src ++ le4 dst.

Section Complete.
Context {E : Type} `{Malloc, LinkDriver E}.
Implicit Types n : Net E.

(** The header of the datagram in front of its first fragment. *)
Lemma header_restored n q nx f tos l0 id o ttl proto src dst ck total : stored (n_heap n) nx f -> q = p_payload (fg_b f) ->
  let hdr := ip_header tos total id ttl proto src dst in
  let hdr0 := frag_header tos l0 id o ttl proto src dst ck in
  let n1 := n_set_heap (set_bytes q (hdr ++ fg_data f) (n_heap n)) n in
  (forall A (k : NetM E A), (_ ← stn q 0 hdr0; _ ← st16 q iph_len (lwip_htons total); _ ← st16 q iph_offset 0; _ ← st16 q iph_chksum 0;
     l ← ldn q 0 IP_HLEN; _ ← st16 q iph_chksum (inet_chksum l); k) n = k n1) /\
  whole (n_heap n1) (fg_p f) (hdr ++ fg_data f) (fg_b f) /\ touched [fg_p f] (n_heap n) (n_heap n1).
Proof.
  intros Hs -> hdr hdr0 n1. destruct Hs as [S1 S2 S3 S4 S5]. set (q := p_payload (fg_b f)) in *. pose proof (wh_bytes _ _ _ _ S1) as Hb.
  rewrite (assoc_L (++)) in S1, Hb. set (x := helper_bytes nx f ++ fg_rest f) in *. assert (length x = 20%nat) as Lx by (unfold x; rewrite length_app, S2; done).
  fold q in Hb. change (nbytes q (x ++ fg_data f) n) in Hb. clearbody x.
  assert (length (hdr ++ fg_data f) = length (x ++ fg_data f)) as Ld by (rewrite !length_app, Lx; done).
  split; [|split].
  - intros A k. do 20 (destruct x as [|? x]; [done|]). destruct x; [|done]. cbn [app] in Hb. rewrite (nset_start _ _ _ Hb) at 1.
    unfold hdr0, frag_header. unfold le2, le4. cbn [app]. unfold iph_len, iph_offset, iph_chksum, IP_HLEN. do 6 mem_step Hb. reflexivity.
  - by apply (whole_set _ _ _ (hdr ++ fg_data f) _ S1).
  - split; [apply set_bytes_pbufs| |apply set_bytes_customs]. intros a Ha. apply set_bytes_mem. unfold q. rewrite (wh_own _ _ _ _ S1). intros ->. apply Ha. left.
Qed.

(** The datagram is taken off the list. *)
Lemma dequeue_first n ipr prev L : reassdatagrams (n_reass n) = ipr :: L ->
  ip_reass_dequeue_datagram ipr prev n =
    Ret (n_set_heap (memp_free ipr (n_heap n)) (n_set_reass (mkReassState (delete ipr (reasss (n_reass n))) L (ip_reass_pbufcount (n_reass n))) n), ()).
Proof. intros Hl. unfold ip_reass_dequeue_datagram, mbind, net_bind, gets. rewrite Hl. cbn [head]. rewrite bool_decide_true by done. done. Qed.

(** What the program gets for the fragments [g :: rest]: one packet with the
    header of the datagram and all the data. *)
Definition datagram (total tos id ttl proto src dst : Z) (g : frag) (rest : list frag) : list seg :=
  mkSeg (fg_p g) (fg_p g) (ip_header tos total id ttl proto src dst ++ fg_data g) :: map seg_of rest.

Lemma complete_spec n ipr prev r g rest L tos l0 id o ttl proto src dst ck :
  reasss (n_reass n) !! ipr = Some r -> reassdatagrams (n_reass n) = ipr :: L -> rd_iphdr r = frag_header tos l0 id o ttl proto src dst ck ->
  frags (n_heap n) (rd_p r) (g :: rest) 0 -> NoDup (ipr :: map fg_p (g :: rest)) ->
  let total := rd_datagram_len r + IP_HLEN in
  is_u16 total -> data_len (datagram total tos id ttl proto src dst g rest) < 65536 -> Z.of_nat (length rest) < 255 ->
  exists h, complete ipr prev n = Ret (n_set_heap h (n_set_reass (mkReassState (delete ipr (reasss (n_reass n))) L
      (u16 (ip_reass_pbufcount (n_reass n) - (1 + Z.of_nat (length rest))))) n), fg_p g) /\
    packet h (fg_p g) (datagram total tos id ttl proto src dst g rest) /\ outside (map fg_p (g :: rest)) (memp_free ipr (n_heap n)) h.
Proof.
  intros Hr HL Hhdr Hf Hnd total Htot Hlen Hk. cbn [map] in Hnd. apply NoDup_cons in Hnd as [Hi Hnd].
  pose proof Hf as (Hp & nx & Hs & Hrest). unfold complete, reass_upd.
  set (r1 := rd_set_len (u16 (rd_datagram_len r + IP_HLEN)) r).
  set (n0 := n_set_reass (mkReassState (<[ipr := r1]> (reasss (n_reass n))) (reassdatagrams (n_reass n)) (ip_reass_pbufcount (n_reass n))) n).
  rewrite bind_bind. erewrite bind_step by (by apply reass_at_at). cbv beta. erewrite (bind_step (modify _) _ n) by reflexivity. fold r1. fold n0. cbv beta.
  erewrite bind_step by (apply (reass_at_at ipr n0 r1); apply lookup_insert_eq). cbv beta. cbn [r1 rd_set_len rd_p rd_iphdr rd_datagram_len]. fold total. rewrite Hp, (u16_id total) by done.
  erewrite bind_step by (eapply (pb_whole _ n0); exact (st_whole _ _ _ Hs)). cbv beta.
  set (q := p_payload (fg_b g)).
  erewrite (bind_step (ld32 q irh_next_pbuf) _ n0) by (eapply ld32_hdr; [exact (wh_bytes _ _ _ _ (st_whole _ _ _ Hs))|done|done]). cbv beta.
  replace (at32 (helper_bytes nx g) irh_next_pbuf) with nx.
  2: { unfold helper_bytes, irh_next_pbuf, at32, at8. mem_nat. cbn [nth app le4 le2]. rewrite of_le4_le4; [done|apply (st_next _ _ _ Hs)]. }
  destruct (header_restored n0 q nx g tos l0 id o ttl proto src dst ck total) as (E1 & W1 & T1); [exact Hs|done|]. rewrite Hhdr, E1. clear E1.
  set (hdr := ip_header tos total id ttl proto src dst) in *. set (n1 := n_set_heap (set_bytes q (hdr ++ fg_data g) (n_heap n0)) n0) in *.
  erewrite (bind_step (gets n_heap) _ n1) by reflexivity. cbv beta.
  assert (packet (n_heap n1) (fg_p g) [mkSeg (fg_p g) (fg_p g) (hdr ++ fg_data g)]) as Hp1.
  { split; [by apply (whole_packet _ _ _ _ W1)|]. pose proof (wh_u16 _ _ _ _ W1). unfold data_len. cbn [data sg_data]. by rewrite app_nil_r. }
  assert (frags (n_heap n1) nx rest 0) as Hrest1.
  { eapply touched_frags; [exact T1|exact Hrest|]. intros f Hf1 Hx%list_elem_of_singleton. apply NoDup_cons in Hnd as [Hnd _]. apply Hnd. rewrite <-Hx. by apply list_elem_of_fmap_2. }
  destruct (join_loop_spec (fg_p g) rest (chain_fuel (n_heap n1)) [mkSeg (fg_p g) (fg_p g) (hdr ++ fg_data g)] nx n1 Hp1) as (h2 & E2 & P2 & O2); try done.
  { apply NoDup_cons in Hnd as [_ Hnd]. pose proof (frags_fuel _ _ _ Hrest1 Hnd). lia. }
  erewrite bind_step by exact E2. cbv beta. set (n2 := n_set_heap h2 n1).
  erewrite bind_step by (apply (dequeue_first n2 ipr prev L); exact HL). cbv beta.
  cbn [map app sg_a] in P2, O2. set (h3 := memp_free ipr h2).
  assert (packet h3 (fg_p g) (datagram total tos id ttl proto src dst g rest)) as P3.
  { destruct P2 as [P2 Hb2]. split; [|done]. eapply packet_seg_frame; [exact P2|]. intros s Hin.
    assert (sg_a s <> ipr /\ sg_base s = sg_a s) as [Hsa Hsb].
    { apply elem_of_cons in Hin as [->|Hin]; [split; [|done]; intros <-; apply Hi; left|]. apply list_elem_of_fmap in Hin as (f & -> & Hin). split; [|done].
      intros <-. apply Hi. right. exact (list_elem_of_fmap_2 fg_p rest f Hin). }
    unfold h3. cbn. rewrite Hsb. split; by apply lookup_delete_ne. }
  eexists. split; [|split; [exact P3|]].
  - unfold in_heap, pbuf_clen, mbind, net_bind. cbn [n_heap n_set_heap n_set_reass n2]. fold h3. pose proof (packet_seg_linked _ _ _ _ _ (proj1 P3)) as Hlk.
    rewrite (clen_linked h3 _ _ 0 _ Hlk); [|by apply linked_fuel in Hlk|done|unfold datagram; cbn [map length]; rewrite !length_map; lia].
    cbn [outcome_bind mbind]. unfold reass_count, modify. cbn. f_equal. f_equal. unfold datagram. cbn [map length]. rewrite !length_map.
    rewrite delete_insert_eq. replace (Z.of_nat (S (length rest))) with (1 + Z.of_nat (length rest)) by lia. done.
  - assert (outside (fg_p g :: map fg_p rest) (n_heap n) h2) as O3.
    { eapply outside_trans; [|exact O2]. eapply outside_weaken; [eapply outside_touched; exact T1|]. intros a ->%list_elem_of_singleton. left. }
    destruct O3 as [O4 O5 O6]. unfold h3. split; cbn; [| |done].
    + intros a Ha. destruct (decide (a = ipr)) as [->|Hne]; [by rewrite !lookup_delete_eq|]. rewrite !lookup_delete_ne by done. by apply O4.
    + intros a Ha. destruct (decide (a = ipr)) as [->|Hne]; [by rewrite !lookup_delete_eq|]. rewrite !lookup_delete_ne by done. by apply O5.
Qed.

End Complete.
