(* ===== verification/ReassOrder.v ===== *)
(** * Fragments that come in order

    Theorems on [IpReass]: the fragments of a datagram, one after the other,
    give the datagram; and what other orders do. *)

From stdpp Require Import gmap.
From S2P Require Import Prelude LwipDef InetChksum IpAddr Pbuf PbufOps PbufData NetState NetMem Etharp EtharpOps IpOut Icmp Raw Udp UdpSend IpReass IpIn IpRecv Reassembly.

(** ** Consecutive fragments *)

(** The fragments follow each other from [s] on. *)
Fixpoint contig (s : Z) (l : list frag) : Prop :=
  match l with [] => True | f :: l => fg_start f = s /\ fg_data f <> [] /\ contig (fg_end f) l end.
Fixpoint end_of (s : Z) (l : list frag) : Z := match l with [] => s | f :: l => end_of (fg_end f) l end.

Lemma contig_app l1 : forall s l2, contig s (l1 ++ l2) <-> contig s l1 /\ contig (end_of s l1) l2.
Proof. induction l1 as [|f l1 IH]; intros s l2; cbn [contig end_of app]; [tauto|]. rewrite IH. tauto. Qed.
Lemma end_of_app l1 : forall s l2, end_of s (l1 ++ l2) = end_of (end_of s l1) l2.
Proof. induction l1 as [|f l1 IH]; intros s l2; cbn [end_of app]; [done|]. apply IH. Qed.
Lemma fg_end_gt f : fg_data f <> [] -> fg_start f < fg_end f.
Proof. intros Hf. unfold fg_end. destruct (fg_data f); [done|]. cbn [length]. lia. Qed.
Lemma end_of_ge l : forall s, contig s l -> s <= end_of s l.
Proof. induction l as [|f l IH]; intros s; cbn [contig end_of]; [lia|]. intros (<- & Hd & Hl). apply IH in Hl. apply fg_end_gt in Hd. lia. Qed.
Lemma contig_data l : forall s, contig s l -> data_len (map seg_of l) = end_of s l - s.
Proof.
  induction l as [|f l IH]; intros s; cbn [contig end_of map]; [unfold data_len; cbn; lia|]. intros (<- & Hd & Hl). rewrite data_len_cons, (IH _ Hl). unfold seg_len, seg_of, fg_end. cbn [sg_data]. lia.
Qed.
Lemma data_frags l : data (map seg_of l) = concat (map fg_data l).
Proof. induction l as [|f l IH]; [done|]. cbn [map data concat seg_of sg_data]. by rewrite IH. Qed.

Lemma place_end g l : forall s pe, contig s l -> (pe = None \/ pe = Some s) -> fg_start g = end_of s l -> place g pe true l = Some (l, [], true).
Proof.
  induction l as [|f l IH]; intros s pe Hc Hpe Hg; cbn [contig end_of place] in *.
  - destruct Hpe as [->| ->]; [done|]. by rewrite bool_decide_false by lia.
  - destruct Hc as (Hs & Hd & Hl). pose proof (end_of_ge _ _ Hl) as Hge. apply fg_end_gt in Hd.
    rewrite (bool_decide_false (fg_start g < fg_start f)), (bool_decide_false (fg_start g = fg_start f)), (bool_decide_false (fg_start g < fg_end f)) by lia.
    replace (match pe with Some e => if bool_decide (e <> fg_start f) then false else true | None => true end) with true by (destruct Hpe as [->| ->]; [done|]; by rewrite bool_decide_false by lia).
    by rewrite (IH (fg_end f)) by (done || by right).
Qed.

Definition mf_off (more : bool) (start : Z) : Z := Z.lor (start / 8) (if more then IP_MF else 0).

(** ** Holes and fragments behind the last one *)

(** The fragment goes between [l1] and [l2], and no hole is seen: between
    others the distance to the one in front is not looked at. *)
Lemma place_between g l2 : contig (fg_start g) (g :: l2) -> forall l1 s pe, contig s l1 -> (pe = None \/ pe = Some s) ->
  end_of s l1 <= fg_start g -> (l2 <> [] \/ end_of s l1 = fg_start g) -> place g pe true (l1 ++ l2) = Some (l1, l2, true).
Proof.
  intros (_ & Hg & Hl2). apply fg_end_gt in Hg. induction l1 as [|f l1 IH]; intros s pe Hc Hpe Hle Hor; cbn [contig end_of app place] in *.
  - destruct l2 as [|e l2]; cbn [place].
    + destruct Hpe as [->| ->]; [done|]. rewrite bool_decide_false; [done|]. destruct Hor; [done|lia].
    + destruct Hl2 as (He & _). rewrite (bool_decide_true (fg_start g < fg_start e)) by lia. destruct Hpe as [->| ->]; [done|].
      by rewrite (bool_decide_false (fg_start g < s)), (bool_decide_false (fg_end g > fg_start e)) by lia.
  - destruct Hc as (Hs & Hd & Hl). pose proof (end_of_ge _ _ Hl) as Hge. apply fg_end_gt in Hd.
    rewrite (bool_decide_false (fg_start g < fg_start f)), (bool_decide_false (fg_start g = fg_start f)), (bool_decide_false (fg_start g < fg_end f)) by lia.
    replace (match pe with Some e => if bool_decide (e <> fg_start f) then false else true | None => true end) with true by (destruct Hpe as [->| ->]; [done|]; by rewrite bool_decide_false by lia).
    by rewrite (IH (fg_end f)) by (done || by right).
Qed.

Lemma contig_joined l : forall s, contig s l -> joined s l = true.
Proof. induction l as [|f l IH]; intros s; cbn [contig joined]; [done|]. intros (-> & _ & Hl). rewrite bool_decide_true by done. by apply IH. Qed.

Lemma end_of_last l g : end_of (fg_end g) l = fg_end (last_of g l).
Proof. revert g. induction l as [|f l IH]; intros g; [done|]. rewrite last_of_cons. apply IH. Qed.

Lemma validated_between l1 g l2 dlen : contig 0 l1 -> contig (fg_start g) (g :: l2) -> l1 ++ l2 <> [] -> (l1 <> [] \/ fg_start g = 0) ->
  validated l1 g l2 dlen = if bool_decide (end_of (fg_start g) (g :: l2) <> dlen) then Spin else Ret true.
Proof.
  intros H1 (_ & _ & H2) Hne Hor. unfold validated. rewrite (contig_joined l2) by done. cbn [end_of]. rewrite end_of_last.
  rewrite (bool_decide_false (fg_start (default g (head l1)) <> 0)).
  2: { destruct l1 as [|f l1]; [destruct Hor; [done|change (~ fg_start g <> 0); lia]|]. destruct H1 as (H1 & _). change (~ fg_start f <> 0). lia. }
  rewrite (bool_decide_false (length (l1 ++ l2) = 0%nat)) by (intros Hx; by apply length_zero_iff_nil in Hx). done.
Qed.

Section Order.
Context {E : Type} `{Malloc, LinkDriver E}.
Context {ML : MallocLaws _}.
Context (tos id ttl proto src dst : Z) (ck : frag -> Z).
Implicit Types n : Net E.

(** The header a fragment comes with. *)
Definition hdr_of (more : bool) (g : frag) : list Z :=
  frag_header tos (Z.of_nat (length (fg_data g)) + IP_HLEN) id (mf_off more (fg_start g)) ttl proto src dst (ck g).

Record arrives (h : Heap) (more : bool) (g : frag) : Prop := {
  ar_whole : whole h (fg_p g) (hdr_of more g ++ fg_data g) (fg_b g);
  ar_rest : fg_rest g = skipn 8 (hdr_of more g);
  ar_start : 0 <= fg_start g /\ fg_start g mod 8 = 0;
  ar_end : fg_end g + IP_HLEN < 65536;
  ar_u32 : is_u32 (fg_p g);
}.

(** All offsets of 13 bits. *)
Lemma mf_off_all : forallb (fun k => forallb (fun m : bool =>
    let o := Z.lor k (if m then IP_MF else 0) in
    bool_decide (0 <= o < 65536) && bool_decide (Z.land o IP_OFFMASK = k) &&
    Bool.eqb (bool_decide (Z.land (lwip_htons o) (PP_HTONS IP_MF) = 0)) (negb m)) [true; false]) (seqZ 0 8192) = true.
Proof. vm_compute. reflexivity. Qed.

Lemma mf_off_spec more s : 0 <= s < 65536 -> is_u16 (mf_off more s) /\ Z.land (mf_off more s) IP_OFFMASK = s / 8 /\
  bool_decide (Z.land (lwip_htons (mf_off more s)) (PP_HTONS IP_MF) = 0) = negb more.
Proof.
  intros Hs. assert (s / 8 ∈ seqZ 0 8192) as Hk by (apply elem_of_seqZ; Z.to_euclidean_division_equations; lia).
  pose proof mf_off_all as Ha. rewrite forallb_forall in Ha. specialize (Ha (s / 8)). rewrite <-list_elem_of_In in Ha. specialize (Ha Hk).
  rewrite forallb_forall in Ha. specialize (Ha more). cbv zeta in Ha. fold (mf_off more s) in Ha. rewrite !andb_true_iff, !bool_decide_eq_true in Ha.
  destruct Ha as [[H1 H2] H3]; [by destruct more; [left|right; left]|]. split; [done|]. split; [done|]. by apply Bool.eqb_prop.
Qed.

(** The words of the header. *)
Lemma hdr_words more g : 0 <= fg_start g < 65536 -> Z.of_nat (length (fg_data g)) + IP_HLEN < 65536 ->
  let h := hdr_of more g in
  length h = 20%nat /\ at8 h iph_v_hl = 0x45 /\ lwip_ntohs (at16 h iph_len) = Z.of_nat (length (fg_data g)) + IP_HLEN /\
  lwip_ntohs (at16 h iph_offset) = mf_off more (fg_start g) /\ at16 h iph_offset = lwip_htons (mf_off more (fg_start g)).
Proof.
  intros Hs Hl h. destruct (mf_off_spec more (fg_start g) Hs) as (H1 & _). unfold h, hdr_of, frag_header, at16, at8, iph_v_hl, iph_len, iph_offset, lwip_ntohs.
  mem_nat. cbn [app le2 le4 nth]. rewrite !of_le2_le2 by apply htons_range. rewrite !htons_htons by (done || (unfold IP_HLEN in *; unw; lia)). done.
Qed.

Lemma arrives_fragment h more g : arrives h more g -> fragment h g (hdr_of more g).
Proof.
  intros [A1 A2 [A3 A4] A5 A6]. pose proof (wh_u16 _ _ _ _ A1) as H16. unfold fg_end, IP_HLEN in A5.
  destruct (hdr_words more g) as (W1 & W2 & W3 & W4 & W5); [lia|unfold IP_HLEN; lia|]. destruct (mf_off_spec more (fg_start g)) as (_ & M2 & _); [lia|].
  split; try done; [|unfold fg_end; lia]. rewrite W4, M2. Z.to_euclidean_division_equations; lia.
Qed.

(** The fragments of a datagram know each other. *)
Lemma hdr_match m1 g1 m2 g2 : IP_ADDRESSES_AND_ID_MATCH (hdr_of m1 g1) (hdr_of m2 g2) = true.
Proof. unfold IP_ADDRESSES_AND_ID_MATCH. by rewrite !bool_decide_true by done. Qed.
Lemma hdr_match_any x m1 g1 m2 g2 : IP_ADDRESSES_AND_ID_MATCH x (hdr_of m1 g1) = IP_ADDRESSES_AND_ID_MATCH x (hdr_of m2 g2).
Proof. done. Qed.

(** *** One fragment *)

(** [ip_reass] once it knows the datagram [ipr]. *)
Definition gather (p ipr ipr_prev clen : Z) (fraghdr : list Z) (offset len : Z) : NetM E Z :=
  _ ← reass_count (fun c => c + clen);
  _ ← (if bool_decide (Z.land (hdr16 fraghdr iph_offset) (PP_HTONS IP_MF) = 0)
       then reass_upd ipr (fun r => rd_set_len (u16 (offset + len)) (rd_set_flags (Z.lor (rd_flags r) IP_REASS_FLAG_LASTFRAG) r)) else mret ());
  v ← ip_reass_chain_frag_into_datagram_and_validate ipr p;
  if (v : bool) then complete ipr ipr_prev else mret 0.

(** The datagram whose fragments [l] are here, and [c] buffers of others. *)
Definition gathering (hdr : list Z) (p c : Z) (ipr : Z) (s : ReassState) (l : list frag) : ReassState :=
  mkReassState (<[ipr := mkReass p hdr 0 0 IP_REASS_MAXAGE]> (reasss s)) (ipr :: reassdatagrams s) (c + Z.of_nat (length l)).

Lemma gather_more n s0 ipr prev hdr p c l g : n_reass n = gathering hdr p c ipr s0 l -> 0 <= c -> c + Z.of_nat (length l) < 65535 ->
  frags (n_heap n) p l 0 -> contig 0 (l ++ [g]) -> arrives (n_heap n) true g -> NoDup (map fg_p (l ++ [g])) -> Forall (fun f => is_u32 (fg_p f)) l ->
  exists n1 p', gather (fg_p g) ipr prev 1 (hdr_of true g) (fg_start g) (Z.of_nat (length (fg_data g))) n = Ret (n1, 0) /\
    n_reass n1 = gathering hdr p' c ipr s0 (l ++ [g]) /\ n1 = n_set_reass (n_reass n1) (n_set_heap (n_heap n1) n) /\ touched (map fg_p (l ++ [g])) (n_heap n) (n_heap n1) /\
    frags (n_heap n1) p' (l ++ [g]) 0.
Proof.
  intros Hs Hc0 Hc Hl Hco Har Hnd Hul. pose proof (arrives_fragment _ _ _ Har) as Hf. pose proof (fragment_start _ _ _ Hf) as Hst.
  assert (Z.of_nat (length (fg_data g)) + IP_HLEN < 65536) as Hlg by (pose proof (ar_end _ _ _ Har); unfold fg_end in *; lia).
  destruct (hdr_words true g Hst Hlg) as (_ & _ & _ & _ & W5). destruct (mf_off_spec true (fg_start g) Hst) as (_ & _ & M3).
  unfold gather. set (n2 := n_set_reass (gathering hdr p c ipr s0 (l ++ [g])) n).
  assert (reass_count (fun c => c + 1) n = Ret (n2, ())) as E1.
  { unfold reass_count, modify, n2, gathering. rewrite Hs. cbn. rewrite u16_id by (unw; lia). rewrite length_app. cbn [length]. do 3 f_equal. f_equal. lia. }
  erewrite bind_step by exact E1. cbv beta. change (hdr16 (hdr_of true g) iph_offset) with (at16 (hdr_of true g) iph_offset). rewrite W5, M3. cbn [negb].
  erewrite bind_step by reflexivity. cbv beta. set (r := mkReass p hdr 0 0 IP_REASS_MAXAGE).
  apply contig_app in Hco as [Hco1 (Hg1 & Hg2 & _)].
  assert (NoDup (fg_p g :: map fg_p l)) as Hnd2 by (rewrite map_app in Hnd; cbn [map] in Hnd; by rewrite Permutation_app_comm in Hnd).
  destruct (chain_frag_spec n2 ipr r l g (hdr_of true g)) as (n1 & T1 & R1); try done; [by apply lookup_insert_eq|exact (ar_u32 _ _ _ Har)|].
  rewrite (place_end g l 0 None Hco1) in R1 by (done || by left). destruct R1 as (p' & S1 & F1 & E2). cbn [r rd_flags] in E2.
  rewrite (bool_decide_false (Z.land 0 _ <> 0)) in E2 by (intros Hx; by apply Hx). cbn [andb] in E2.
  erewrite bind_step by exact E2. cbv beta iota. exists n1, p'. split; [done|]. split; [|split; [|split]].
  - rewrite S1. unfold with_first, n2, gathering. cbn. by rewrite insert_insert_eq.
  - rewrite S1. reflexivity.
  - eapply touched_weaken; [exact T1|]. intros a. rewrite map_app, elem_of_cons, elem_of_app. cbn [map]. rewrite list_elem_of_singleton. tauto.
  - exact F1.
Qed.

Lemma gather_last n s0 ipr prev m0 g0 p c l g : n_reass n = gathering (hdr_of m0 g0) p c ipr s0 (g0 :: l) -> 0 <= c -> c + Z.of_nat (length (g0 :: l)) < 255 ->
  frags (n_heap n) p (g0 :: l) 0 -> contig 0 ((g0 :: l) ++ [g]) -> arrives (n_heap n) false g -> NoDup (ipr :: map fg_p ((g0 :: l) ++ [g])) -> Forall (fun f => is_u32 (fg_p f)) (g0 :: l) ->
  reasss s0 !! ipr = None ->
  exists h, gather (fg_p g) ipr prev 1 (hdr_of false g) (fg_start g) (Z.of_nat (length (fg_data g))) n =
      Ret (n_set_heap h (n_set_reass (mkReassState (reasss s0) (reassdatagrams s0) c) n), fg_p g0) /\
    packet h (fg_p g0) (datagram (fg_end g + IP_HLEN) tos id ttl proto src dst g0 (l ++ [g])) /\ outside (map fg_p ((g0 :: l) ++ [g])) (memp_free ipr (n_heap n)) h.
Proof.
  intros Hs Hc0 Hc Hl Hco Har Hnd Hul Hno. pose proof (arrives_fragment _ _ _ Har) as Hf. pose proof (fragment_start _ _ _ Hf) as Hst.
  pose proof (ar_end _ _ _ Har) as Hend. assert (Z.of_nat (length (fg_data g)) + IP_HLEN < 65536) as Hlg by (unfold fg_end in *; lia).
  destruct (hdr_words false g Hst Hlg) as (_ & _ & _ & _ & W5). destruct (mf_off_spec false (fg_start g) Hst) as (_ & _ & M3).
  unfold gather. set (r := mkReass p (hdr_of m0 g0) (fg_end g) IP_REASS_FLAG_LASTFRAG IP_REASS_MAXAGE). set (cc := c + Z.of_nat (length ((g0 :: l) ++ [g]))).
  set (n1 := n_set_reass (gathering (hdr_of m0 g0) p c ipr s0 ((g0 :: l) ++ [g])) n).
  set (n2 := n_set_reass (mkReassState (<[ipr := r]> (reasss s0)) (ipr :: reassdatagrams s0) cc) n).
  assert (cc = c + Z.of_nat (length (g0 :: l)) + 1) as Hcc by (unfold cc; rewrite length_app; cbn [length]; lia).
  assert (reass_count (fun c => c + 1) n = Ret (n1, ())) as E1.
  { unfold reass_count, modify, n1, gathering. fold cc. rewrite Hs, Hcc. cbn -[length]. rewrite u16_id by (unw; lia). done. }
  erewrite bind_step by exact E1. cbv beta. change (hdr16 (hdr_of false g) iph_offset) with (at16 (hdr_of false g) iph_offset). rewrite W5, M3. cbn [negb].
  assert (reass_upd ipr (fun r => rd_set_len (u16 (fg_start g + Z.of_nat (length (fg_data g)))) (rd_set_flags (Z.lor (rd_flags r) IP_REASS_FLAG_LASTFRAG) r)) n1 = Ret (n2, ())) as E2.
  { unfold reass_upd. erewrite bind_step by (apply (reass_at_at ipr n1); apply lookup_insert_eq). cbv beta. unfold modify, n1, n2, gathering. cbn -[length]. rewrite insert_insert_eq.
    fold (fg_end g). rewrite u16_id by (unfold IP_HLEN in *; unw; unfold fg_end in *; lia). done. }
  erewrite bind_step by exact E2. cbv beta.
  apply contig_app in Hco as [Hco1 (Hg1 & Hg2 & _)]. pose proof Hnd as Hnd0. apply NoDup_cons in Hnd as [Hi Hnd].
  assert (NoDup (fg_p g :: map fg_p (g0 :: l))) as Hnd2 by (rewrite map_app in Hnd; change (map fg_p [g]) with [fg_p g] in Hnd; by rewrite Permutation_app_comm in Hnd).
  destruct (chain_frag_spec n2 ipr r (g0 :: l) g (hdr_of false g)) as (n3 & T1 & R1); try done; [by apply lookup_insert_eq|exact (ar_u32 _ _ _ Har)|].
  rewrite (place_end g (g0 :: l) 0 None Hco1) in R1 by (done || by left). destruct R1 as (p' & S1 & F1 & E3). cbn [r rd_flags rd_datagram_len] in E3.
  rewrite (bool_decide_true (Z.land _ _ <> 0)) in E3 by done. cbn [andb] in E3.
  assert (validated (g0 :: l) g [] (fg_end g) = Ret true) as Hv.
  { unfold validated. cbn [head default joined app length]. destruct Hco1 as (H1 & _). rewrite (bool_decide_false (fg_start g0 <> 0)) by lia.
    rewrite (bool_decide_false (fg_end g <> fg_end g)) by lia. by rewrite bool_decide_false by done. }
  rewrite Hv in E3. erewrite bind_step by exact E3. cbv beta iota.
  change ((g0 :: l) ++ [g]) with (g0 :: (l ++ [g])) in *.
  assert (n_reass n3 = mkReassState (<[ipr := rd_set_p p' r]> (reasss s0)) (ipr :: reassdatagrams s0) cc) as S3 by (rewrite S1; unfold with_first; cbn -[length]; by rewrite insert_insert_eq).
  assert (data_len (datagram (fg_end g + IP_HLEN) tos id ttl proto src dst g0 (l ++ [g])) = fg_end g + IP_HLEN) as Hdl.
  { unfold datagram. rewrite data_len_cons. unfold seg_len. cbn [sg_data]. rewrite length_app, ip_header_length.
    assert (contig 0 (g0 :: (l ++ [g]))) as Hco by (change (contig 0 ((g0 :: l) ++ [g])); apply contig_app; by split).
    pose proof (contig_data _ _ Hco) as Hcd. cbn [map] in Hcd. rewrite data_len_cons in Hcd. change (g0 :: (l ++ [g])) with ((g0 :: l) ++ [g]) in Hcd.
    rewrite end_of_app in Hcd. cbn [end_of] in Hcd. unfold seg_len, seg_of at 1 in Hcd. cbn [sg_data] in Hcd. unfold IP_HLEN. lia. }
  destruct (complete_spec n3 ipr prev (rd_set_p p' r) g0 (l ++ [g]) (reassdatagrams s0) tos (Z.of_nat (length (fg_data g0)) + IP_HLEN) id (mf_off m0 (fg_start g0)) ttl proto src dst (ck g0))
    as (h & E4 & P4 & O4); try done.
  { rewrite S3. apply lookup_insert_eq. }
  { by rewrite S3. }
  { cbn [rd_set_p rd_datagram_len r]. unfold IP_HLEN in *. unfold fg_end in *. unw. lia. }
  { cbn [rd_set_p rd_datagram_len r]. rewrite Hdl. done. }
  { rewrite length_app. cbn [length] in Hc |- *. lia. }
  cbn [rd_set_p rd_datagram_len r] in P4. exists h. split; [|split; [exact P4|]].
  - rewrite E4, S3. cbn [reasss ip_reass_pbufcount]. rewrite delete_insert_id by done. rewrite u16_id by (unw; unfold cc; rewrite length_app; cbn [length] in *; rewrite length_app; cbn [length]; lia).
    rewrite S1. cbn [n_set_heap n_set_reass]. unfold cc. cbn [length]. rewrite length_app. cbn [length].
    replace (c + Z.of_nat (S (length l + 1)) - (1 + Z.of_nat (length l + 1))) with c by lia. reflexivity.
  - eapply outside_trans; [|exact O4]. destruct T1 as [B1 M1 C1]. split.
    + intros a Ha. cbn. rewrite B1. done.
    + intros a Ha. cbn. destruct (decide (a = ipr)) as [->|Hne]; [by rewrite !lookup_delete_eq|]. rewrite !lookup_delete_ne by done. apply M1.
      intros Hin. apply Ha. change (a ∈ map fg_p ((g0 :: l) ++ [g])). rewrite map_app. apply elem_of_app. apply elem_of_cons in Hin as [->|Hin]; [right; left|by left].
    + cbn. done.
Qed.

(** *** What [ip_reass] does before *)

(** A fragment of a datagram that is already there. *)
Lemma known_gathers n s ipr m0 g0 p c l more g : n_reass n = gathering (hdr_of m0 g0) p c ipr s l -> ipr <> 0 -> c + Z.of_nat (length l) + 1 <= IP_REASS_MAX_PBUFS ->
  arrives (n_heap n) more g -> 0 < fg_start g ->
  ip_reass (fg_p g) n = gather (fg_p g) ipr 0 1 (hdr_of more g) (fg_start g) (Z.of_nat (length (fg_data g))) n.
Proof.
  intros Hs Hi Hc Har Hpos. pose proof (arrives_fragment _ _ _ Har) as Hf. pose proof (fragment_start _ _ _ Hf) as Hst. pose proof Hf as [F1 F2 F3 F4 F5 F6 F7].
  pose proof (ar_end _ _ _ Har) as Hend. pose proof (ar_start _ _ _ Har) as [_ Hmod]. unfold fg_end, IP_HLEN in Hend. set (hdr := hdr_of more g) in *.
  unfold ip_reass. erewrite bind_step by (by eapply pb_whole). cbv beta. erewrite bind_step by (by eapply hl_whole). cbv beta.
  rewrite (bool_decide_false (5 * 4 <> IP_HLEN)) by (intros Hx; by apply Hx).
  erewrite bind_step by (eapply ldn_hdr; [exact (wh_bytes _ _ _ _ F1)|by rewrite F2]). cbv beta zeta.
  change (hdr16 hdr iph_offset) with (at16 hdr iph_offset). change (hdr16 hdr iph_len) with (at16 hdr iph_len). rewrite F5, F4.
  rewrite (u16_id (fg_start g)) by (unw; lia). rewrite (u16_id (Z.of_nat _ + IP_HLEN - 5 * 4)) by (unfold IP_HLEN; unw; lia).
  erewrite bind_step by (by eapply clen_whole). cbv beta.
  assert (reass_room hdr 1 n = Ret (n, true)) as Hroom.
  { unfold reass_room. erewrite bind_step by reflexivity. cbv beta. rewrite Hs. cbn [gathering ip_reass_pbufcount]. rewrite bool_decide_false by lia. done. }
  erewrite bind_step by exact Hroom. cbv beta. cbn [negb]. erewrite bind_step by reflexivity. cbv beta. rewrite Hs. cbn [gathering reassdatagrams find_datagram].
  assert (reass_at ipr n = Ret (n, mkReass p (hdr_of m0 g0) 0 0 IP_REASS_MAXAGE)) as Hat by (apply reass_at_at; rewrite Hs; apply lookup_insert_eq).
  rewrite bind_bind. erewrite bind_step by exact Hat. cbv beta. cbn [rd_iphdr]. assert (IP_ADDRESSES_AND_ID_MATCH (hdr_of m0 g0) hdr = true) as Hm by apply hdr_match. rewrite Hm. erewrite bind_step by reflexivity. cbv beta iota.
  rewrite (bool_decide_false (ipr = 0)) by done. rewrite bind_bind. erewrite bind_step by exact Hat. cbv beta.
  rewrite (bool_decide_false (Z.land (lwip_ntohs (at16 hdr iph_offset)) IP_OFFMASK = 0)) by lia. cbn [andb].
  rewrite bind_bind. erewrite bind_step by reflexivity. cbv beta. erewrite bind_step by reflexivity. cbv beta. rewrite (bool_decide_false (ipr = 0)) by done.
  unfold gather. change (hdr16 hdr iph_offset) with (at16 hdr iph_offset).
  replace (Z.of_nat (length (fg_data g)) + IP_HLEN - 5 * 4) with (Z.of_nat (length (fg_data g))) by (unfold IP_HLEN; lia). reflexivity.
Qed.

(** The datagrams that wait are others than that of [g]. *)
Definition others_wait n g : Prop :=
  Forall (fun a => exists r, reasss (n_reass n) !! a = Some r /\ IP_ADDRESSES_AND_ID_MATCH (rd_iphdr r) (hdr_of true g) = false) (reassdatagrams (n_reass n)).

Lemma find_datagram_none n g prev : others_wait n g -> exists prev', find_datagram (reassdatagrams (n_reass n)) (hdr_of true g) prev n = Ret (n, (0, prev')).
Proof.
  unfold others_wait. generalize (reassdatagrams (n_reass n)) as L. intros L. revert prev. induction L as [|a L IH]; intros prev HL; cbn [find_datagram]; [by exists prev|].
  apply Forall_cons in HL as [(r & Hr & Hm) HL]. destruct (IH a HL) as (prev' & E1). exists prev'. erewrite bind_step by (by apply reass_at_at). cbv beta. by rewrite Hm.
Qed.

(** The first fragment. *)
Lemma first_gathers n g ipr : arrives (n_heap n) true g -> fg_start g = 0 -> others_wait n g ->
  0 <= ip_reass_pbufcount (n_reass n) -> ip_reass_pbufcount (n_reass n) + 1 <= IP_REASS_MAX_PBUFS -> malloc MEMP_REASSDATA (n_heap n) = Some ipr ->
  exists h prev, ip_reass (fg_p g) n = gather (fg_p g) ipr prev 1 (hdr_of true g) (fg_start g) (Z.of_nat (length (fg_data g)))
      (n_set_reass (gathering (hdr_of true g) 0 (ip_reass_pbufcount (n_reass n)) ipr (n_reass n) []) (n_set_heap h n)) /\
    outside [ipr] (n_heap n) h.
Proof.
  intros Har Hz Hno Hc0 Hc Hma. pose proof (arrives_fragment _ _ _ Har) as Hf. pose proof (fragment_start _ _ _ Hf) as Hst. pose proof Hf as [F1 F2 F3 F4 F5 F6 F7].
  pose proof (ar_end _ _ _ Har) as Hend. unfold fg_end, IP_HLEN in Hend. set (hdr := hdr_of true g) in *.
  destruct (malloc_fresh _ _ _ Hma) as (Hi & _). set (h := mkHeap (<[ipr := junk_pbuf ipr]> (pbufs (n_heap n))) (<[ipr := junk_mem ipr (MEMP_REASSDATA - SIZEOF_STRUCT_PBUF)]> (mem (n_heap n))) (customs (n_heap n))).
  destruct (find_datagram_none n g 0 Hno) as (prev & Ef). exists h, prev. split.
  - unfold ip_reass. erewrite bind_step by (by eapply pb_whole). cbv beta. erewrite bind_step by (by eapply hl_whole). cbv beta.
    rewrite (bool_decide_false (5 * 4 <> IP_HLEN)) by (intros Hx; by apply Hx).
    erewrite bind_step by (eapply ldn_hdr; [exact (wh_bytes _ _ _ _ F1)|by rewrite F2]). cbv beta zeta.
    change (hdr16 hdr iph_offset) with (at16 hdr iph_offset). change (hdr16 hdr iph_len) with (at16 hdr iph_len). rewrite F5, F4.
    rewrite (u16_id (fg_start g)) by (unw; lia). rewrite (u16_id (Z.of_nat _ + IP_HLEN - 5 * 4)) by (unfold IP_HLEN; unw; lia).
    erewrite bind_step by (by eapply clen_whole). cbv beta.
    assert (reass_room hdr 1 n = Ret (n, true)) as Hroom.
    { unfold reass_room. erewrite bind_step by reflexivity. cbv beta. by rewrite bool_decide_false by lia. }
    erewrite bind_step by exact Hroom. cbv beta. cbn [negb]. erewrite bind_step by reflexivity. cbv beta.
    erewrite bind_step by exact Ef. cbv beta iota. rewrite (bool_decide_true (0 = 0)) by done.
    set (n1 := n_set_reass (gathering hdr 0 (ip_reass_pbufcount (n_reass n)) ipr (n_reass n) []) (n_set_heap h n)).
    assert (ip_reass_enqueue_new_datagram hdr 1 n = Ret (n1, ipr)) as En.
    { unfold ip_reass_enqueue_new_datagram. assert (malloc_reassdata n = Ret (n_set_heap h n, ipr)) as Em.
      { unfold malloc_reassdata. erewrite bind_step by reflexivity. cbv beta. unfold memp_malloc, mem_malloc. by rewrite Hma. }
      erewrite bind_step by exact Em. cbv beta. rewrite (bool_decide_false (ipr = 0)) by lia. erewrite bind_step by reflexivity. cbv beta.
      rewrite (bool_decide_false (ipr = 0)) by lia. unfold n1, gathering. cbn [length Z.of_nat]. rewrite Z.add_0_r. reflexivity. }
    erewrite bind_step by exact En. cbv beta. rewrite (bool_decide_false (ipr = 0)) by lia.
    unfold gather. change (hdr16 hdr iph_offset) with (at16 hdr iph_offset).
    replace (Z.of_nat (length (fg_data g)) + IP_HLEN - 5 * 4) with (Z.of_nat (length (fg_data g))) by (unfold IP_HLEN; lia). reflexivity.
  - split; [| |done]; intros a Ha; rewrite list_elem_of_singleton in Ha; cbn; by apply lookup_insert_ne.
Qed.

(** *** All of them *)

(** The fragments are given to [ip_reass] until it returns a datagram. *)
Fixpoint receive (ps : list Z) : NetM E Z :=
  match ps with [] => mret 0 | p :: ps => r ← ip_reass p; if bool_decide (r <> 0) then mret r else receive ps end.

Lemma receive_rest s ipr m0 g0 c z : reasss s !! ipr = None -> ipr <> 0 -> 0 <= c -> forall mid l n p, n_reass n = gathering (hdr_of m0 g0) p c ipr s (g0 :: l) ->
  c + Z.of_nat (length ((g0 :: l) ++ mid ++ [z])) <= IP_REASS_MAX_PBUFS -> frags (n_heap n) p (g0 :: l) 0 -> contig 0 ((g0 :: l) ++ mid ++ [z]) ->
  Forall (arrives (n_heap n) true) mid -> arrives (n_heap n) false z -> NoDup (ipr :: map fg_p ((g0 :: l) ++ mid ++ [z])) -> Forall (fun f => is_u32 (fg_p f)) (g0 :: l) ->
  exists h, receive (map fg_p (mid ++ [z])) n = Ret (n_set_heap h (n_set_reass (mkReassState (reasss s) (reassdatagrams s) c) n), fg_p g0) /\
    packet h (fg_p g0) (datagram (fg_end z + IP_HLEN) tos id ttl proto src dst g0 (l ++ mid ++ [z])) /\
    outside (map fg_p ((g0 :: l) ++ mid ++ [z])) (memp_free ipr (n_heap n)) h.
Proof.
  intros Hno Hi Hc0. induction mid as [|f mid IH]; intros l n p Hs Hc Hl Hco Hmid Hz Hnd Hul.
  - rewrite app_nil_l in Hc, Hco, Hnd |- *. cbn [map receive].
    assert (0 < fg_start z) as Hpos.
    { apply (contig_app (g0 :: l)) in Hco as [(H1 & H2 & H3) (H4 & _)]. cbn [end_of] in H4. apply end_of_ge in H3. apply fg_end_gt in H2. lia. }
    rewrite length_app in Hc. cbn [length] in Hc. unfold IP_REASS_MAX_PBUFS in Hc.
    destruct (gather_last n s ipr 0 m0 g0 p c l z Hs) as (h & E1 & P1 & O1); try done; [cbn [length]; lia|].
    exists h. split; [|split; [exact P1|exact O1]].
    erewrite bind_step by (rewrite (known_gathers n s ipr m0 g0 p c (g0 :: l) false z Hs); [exact E1|done|cbn [length]; unfold IP_REASS_MAX_PBUFS; lia|done|done]). cbv beta.
    rewrite bool_decide_true; [done|]. apply frags_app with (l1 := [g0]) in Hl as (r0 & (_ & nx & Hst & _) & _). by eapply stored_nz.
  - apply Forall_cons in Hmid as [Hf Hmid]. change ((f :: mid) ++ [z]) with ([f] ++ mid ++ [z]) in Hc, Hco, Hnd |- *. rewrite (assoc_L (++)) in Hc, Hco, Hnd.
    assert (0 < fg_start f) as Hpos.
    { apply contig_app in Hco as [Hco _]. apply (contig_app (g0 :: l)) in Hco as [(H1 & H2 & H3) (H4 & _)]. cbn [end_of] in H4. apply end_of_ge in H3. apply fg_end_gt in H2. lia. }
    assert (NoDup (map fg_p ((g0 :: l) ++ [f])) /\ forall e, e ∈ mid ++ [z] -> fg_p e ∉ map fg_p ((g0 :: l) ++ [f])) as [Hnd1 Hnd2].
    { apply NoDup_cons in Hnd as [_ Hnd]. rewrite map_app in Hnd. apply NoDup_app in Hnd as (K1 & K2 & _). split; [done|]. intros e He Hin. apply (K2 _ Hin). by apply list_elem_of_fmap_2. }
    pose proof Hc as Hc2. rewrite !length_app in Hc2. cbn [length] in Hc2. unfold IP_REASS_MAX_PBUFS in Hc2.
    destruct (gather_more n s ipr 0 (hdr_of m0 g0) p c (g0 :: l) f Hs) as (n1 & p' & E1 & S1 & R1 & T1 & F1); try done; [cbn [length]; lia|by apply contig_app in Hco as [? _]|].
    assert (forall m e, e ∈ mid ++ [z] -> arrives (n_heap n) m e -> arrives (n_heap n1) m e) as Hkeep.
    { intros m e He [A1 A2 A3 A4 A5]. split; try done. eapply whole_frame; [exact A1|by rewrite (to_bufs _ _ _ T1)|]. apply (to_mem _ _ _ T1). by apply Hnd2. }
    destruct (IH (l ++ [f]) n1 p') as (h & E2 & P2 & O2).
    + exact S1.
    + exact Hc.
    + exact F1.
    + exact Hco.
    + apply Forall_forall. intros e He. apply Hkeep; [apply elem_of_app; by left|]. by eapply Forall_forall in Hmid.
    + apply Hkeep; [apply elem_of_app; right; left|done].
    + exact Hnd.
    + change (g0 :: (l ++ [f])) with ((g0 :: l) ++ [f]). apply Forall_app. split; [done|]. apply Forall_singleton. exact (ar_u32 _ _ _ Hf).
    + exists h. split; [|split].
      * cbn [app map receive]. erewrite bind_step by (rewrite (known_gathers n s ipr m0 g0 p c (g0 :: l) true f Hs); [exact E1|done|cbn [length]; unfold IP_REASS_MAX_PBUFS; lia|done|done]).
        cbv beta. rewrite (bool_decide_false (0 <> 0)) by lia. rewrite E2. by rewrite R1.
      * by rewrite <-(assoc_L (++)) in P2.
      * rewrite (assoc_L (++)). change ((g0 :: l) ++ [f]) with (g0 :: (l ++ [f])). eapply outside_trans; [|exact O2].
        destruct T1 as [B1 M1 C1]. split; cbn; [by rewrite B1| |done]. intros a Ha. destruct (decide (a = ipr)) as [->|Hne]; [by rewrite !lookup_delete_eq|].
        rewrite !lookup_delete_ne by done. apply M1. intros Hin. apply Ha. change (a ∈ map fg_p ((g0 :: (l ++ [f])) ++ mid ++ [z])). rewrite map_app. apply elem_of_app. left. exact Hin.
Qed.

(** C17: The fragments of a datagram, given to [ip_reass] in their order: the last
    one returns the datagram, one packet that has its header (the length, no
    flags, a right checksum) and all the data; the packet is made of the
    buffers the fragments came in.  The state of the reassembly is as before,
    and so is the memory outside these buffers. *)
Theorem datagram_reassembled n g mid z ipr :
  let all := g :: mid ++ [z] in
  contig 0 all -> Forall (arrives (n_heap n) true) (g :: mid) -> arrives (n_heap n) false z -> NoDup (map fg_p all) ->
  others_wait n g -> 0 <= ip_reass_pbufcount (n_reass n) -> ip_reass_pbufcount (n_reass n) + Z.of_nat (length all) <= IP_REASS_MAX_PBUFS ->
  malloc MEMP_REASSDATA (n_heap n) = Some ipr -> reasss (n_reass n) !! ipr = None ->
  exists h l, receive (map fg_p all) n = Ret (n_set_heap h n, fg_p g) /\ packet h (fg_p g) l /\ map sg_a l = map fg_p all /\
    data l = ip_header tos (Z.of_nat (length (concat (map fg_data all))) + IP_HLEN) id ttl proto src dst ++ concat (map fg_data all) /\
    outside (map fg_p all) (n_heap n) h.
Proof.
  intros all Hco Harr Hz Hnd Hno Hc0 Hc Hma Hfresh. destruct (malloc_fresh _ _ _ Hma) as (Hi & _ & Hib & Him).
  apply Forall_cons in Harr as [Hg Hmid]. set (s := n_reass n) in *. set (c := ip_reass_pbufcount s) in *.
  assert (forall f, f ∈ all -> fg_p f <> ipr) as Hne.
  { intros f Hf E1. assert (exists m, arrives (n_heap n) m f) as (m & Ha).
    { apply elem_of_cons in Hf as [->|Hf]; [by exists true|]. apply elem_of_app in Hf as [Hf|Hf%list_elem_of_singleton]; [exists true; by eapply Forall_forall in Hmid|exists false; by subst]. }
    pose proof (wh_buf _ _ _ _ (ar_whole _ _ _ Ha)) as Hb. by rewrite E1, Hib in Hb. }
  pose proof Hco as (Hg0 & _). pose proof Hc as Hc2. unfold all in Hc2. cbn [length] in Hc2. rewrite length_app in Hc2. cbn [length] in Hc2. unfold IP_REASS_MAX_PBUFS in Hc2.
  destruct (first_gathers n g ipr) as (h1 & prev & E1 & O1); try done; [fold s; fold c; unfold IP_REASS_MAX_PBUFS; lia|]. fold s in E1. fold c in E1.
  set (n1 := n_set_reass _ _) in E1.
  assert (forall m f, f ∈ all -> arrives (n_heap n) m f -> arrives (n_heap n1) m f) as Hk1.
  { intros m f Hf [A1 A2 A3 A4 A5]. split; try done. assert (fg_p f ∉ [ipr]) as Hx by (rewrite list_elem_of_singleton; by apply Hne).
    eapply whole_frame; [exact A1|by apply (os_bufs _ _ _ O1)|by apply (os_mem _ _ _ O1)]. }
  destruct (gather_more n1 s ipr prev (hdr_of true g) 0 c [] g) as (n2 & p2 & E2 & S2 & R2 & T2 & F2); try done; [cbn [length]; lia|by destruct Hco as (? & ? & _)|apply Hk1; [left|done]|by apply NoDup_singleton|].
  cbn [app] in S2, T2, F2.
  assert (forall m f, f ∈ mid ++ [z] -> arrives (n_heap n) m f -> arrives (n_heap n2) m f) as Hk2.
  { intros m f Hf Ha. apply (Hk1 m) in Ha; [|by right]. destruct Ha as [A1 A2 A3 A4 A5]. split; try done.
    assert (fg_p f ∉ map fg_p [g]) as Hx.
    { cbn [map]. intros Hx%list_elem_of_singleton. apply NoDup_cons in Hnd as [Hnd _]. apply Hnd. rewrite <-Hx. by apply list_elem_of_fmap_2. }
    eapply whole_frame; [exact A1|by rewrite (to_bufs _ _ _ T2)|by apply (to_mem _ _ _ T2)]. }
  destruct (receive_rest s ipr true g c z Hfresh ltac:(lia) Hc0 mid [] n2 p2) as (h & E3 & P3 & O3).
  - exact S2.
  - exact Hc.
  - exact F2.
  - exact Hco.
  - apply Forall_forall. intros f Hf. apply Hk2; [apply elem_of_app; by left|]. by eapply Forall_forall in Hmid.
  - apply Hk2; [apply elem_of_app; right; left|done].
  - apply NoDup_cons. split; [|exact Hnd]. intros (f & Hf1 & Hf2)%list_elem_of_fmap. by apply (Hne f).
  - apply Forall_singleton. exact (ar_u32 _ _ _ Hg).
  - change (([g] ++ mid ++ [z])) with all in O3. assert (data_len (map seg_of all) = fg_end z) as Hdl.
    { rewrite (contig_data _ _ Hco). unfold all. rewrite app_comm_cons, end_of_app. cbn [end_of]. lia. }
    exists h. eexists. split; [|split; [exact P3|split; [|split]]].
    + unfold all. cbn [map receive]. erewrite bind_step by (rewrite E1; exact E2). cbv beta. rewrite (bool_decide_false (0 <> 0)) by lia. rewrite E3, R2.
      cbn [n_set_heap n_set_reass n1]. unfold s, c. by destruct n as [? ? ? ? ? ? [? ? ?] ?].
    + unfold datagram. cbn [map sg_a]. f_equal. rewrite map_map. done.
    + unfold datagram. cbn [data sg_data]. rewrite data_frags, <-Hdl. unfold data_len. rewrite data_frags. cbn [map concat]. by rewrite <-(assoc_L (++)).
    + destruct O3 as [O4 O5 O6], T2 as [B2 M2 C2], O1 as [O7 O8 O9]. split.
      * intros a Ha. rewrite O4 by done. cbn. destruct (decide (a = ipr)) as [->|Hai]; [rewrite lookup_delete_eq; by rewrite Hib|]. rewrite lookup_delete_ne by done.
        rewrite B2. apply O7. by rewrite list_elem_of_singleton.
      * intros a Ha. rewrite O5 by done. cbn. destruct (decide (a = ipr)) as [->|Hai]; [rewrite lookup_delete_eq; by rewrite Him|]. rewrite lookup_delete_ne by done.
        rewrite M2; [apply O8; by rewrite list_elem_of_singleton|]. intros Hin. apply Ha. unfold all. cbn [map] in Hin |- *. apply list_elem_of_singleton in Hin as ->. left.
      * rewrite O6. cbn. rewrite C2. exact O9.
Qed.

(** *** Datagrams whose last fragment is here *)

(** The first datagram of the list: its fragments [l], the last of them with
    the mark that no more follow it, which gives the length. *)
Record last_here n (ipr : Z) (r : ip_reassdata) (L : list Z) (l : list frag) : Prop := {
  lh_r : reasss (n_reass n) !! ipr = Some r;
  lh_list : reassdatagrams (n_reass n) = ipr :: L;
  lh_hdr : exists m0 g0, rd_iphdr r = hdr_of m0 g0;
  lh_flag : Z.land (rd_flags r) IP_REASS_FLAG_LASTFRAG <> 0;
  lh_frags : frags (n_heap n) (rd_p r) l 0;
  lh_u32 : Forall (fun f => is_u32 (fg_p f)) l;
  lh_len : 0 <= rd_datagram_len r /\ rd_datagram_len r + IP_HLEN < 65536;
  lh_room : Z.of_nat (length l) <= ip_reass_pbufcount (n_reass n) /\ ip_reass_pbufcount (n_reass n) + 1 <= IP_REASS_MAX_PBUFS;
}.

(** Another fragment of it. *)
Lemma known_fragment n ipr r L l g : last_here n ipr r L l -> ipr <> 0 -> arrives (n_heap n) true g ->
  exists hdr, ip_reass (fg_p g) n = gather (fg_p g) ipr 0 1 (hdr_of true g) (fg_start g) (Z.of_nat (length (fg_data g)))
      (n_set_reass (mkReassState (<[ipr := rd_set_iphdr hdr r]> (reasss (n_reass n))) (ipr :: L) (ip_reass_pbufcount (n_reass n))) n) /\
    (0 < fg_start g -> hdr = rd_iphdr r).
Proof.
  intros [Hr HL (m0 & g0 & Hh) _ _ _ _ [Hc0 Hc]] Hi Har. pose proof (arrives_fragment _ _ _ Har) as Hf. pose proof (fragment_start _ _ _ Hf) as Hst. pose proof Hf as [F1 F2 F3 F4 F5 F6 F7].
  pose proof (ar_end _ _ _ Har) as Hend. unfold fg_end, IP_HLEN in Hend. set (hdr := hdr_of true g) in *.
  set (up := bool_decide (Z.land (lwip_ntohs (hdr16 hdr iph_offset)) IP_OFFMASK = 0) && bool_decide (Z.land (lwip_ntohs (hdr16 (rd_iphdr r) iph_offset)) IP_OFFMASK <> 0)).
  exists (if up then hdr else rd_iphdr r). split.
  - unfold ip_reass. erewrite bind_step by (by eapply pb_whole). cbv beta. erewrite bind_step by (by eapply hl_whole). cbv beta.
    rewrite (bool_decide_false (5 * 4 <> IP_HLEN)) by (intros Hx; by apply Hx).
    erewrite bind_step by (eapply ldn_hdr; [exact (wh_bytes _ _ _ _ F1)|by rewrite F2]). cbv beta zeta.
    erewrite bind_step by (by eapply clen_whole). cbv beta.
    assert (reass_room hdr 1 n = Ret (n, true)) as Hroom.
    { unfold reass_room. erewrite bind_step by reflexivity. cbv beta. by rewrite bool_decide_false by lia. }
    erewrite bind_step by exact Hroom. cbv beta. cbn [negb]. erewrite bind_step by reflexivity. cbv beta. rewrite HL. cbn [find_datagram].
    pose proof (reass_at_at ipr n r Hr) as Hat.
    rewrite bind_bind. erewrite bind_step by exact Hat. cbv beta. assert (IP_ADDRESSES_AND_ID_MATCH (rd_iphdr r) hdr = true) as Hm by (rewrite Hh; apply hdr_match).
    rewrite Hm. erewrite bind_step by reflexivity. cbv beta iota.
    rewrite (bool_decide_false (ipr = 0)) by done. rewrite bind_bind. erewrite bind_step by exact Hat. cbv beta. fold up.
    set (n1 := n_set_reass _ n).
    assert ((if up then reass_upd ipr (rd_set_iphdr hdr) else mret ()) n = Ret (n1, ())) as Eu.
    { unfold n1. destruct up.
      - unfold reass_upd. erewrite bind_step by exact Hat. cbv beta. unfold modify. by rewrite HL.
      - unfold mret, net_ret. do 2 f_equal. destruct r, n, n_reass. cbn in *. subst. by rewrite insert_id. }
    rewrite bind_bind. erewrite bind_step by exact Eu. cbv beta. erewrite bind_step by reflexivity. cbv beta. rewrite (bool_decide_false (ipr = 0)) by done.
    change (hdr16 hdr iph_offset) with (at16 hdr iph_offset). change (hdr16 hdr iph_len) with (at16 hdr iph_len). rewrite F5, F4.
    rewrite (u16_id (fg_start g)) by (unw; lia). rewrite (u16_id (Z.of_nat _ + IP_HLEN - 5 * 4)) by (unfold IP_HLEN; unw; lia).
    unfold gather. change (hdr16 hdr iph_offset) with (at16 hdr iph_offset).
    replace (Z.of_nat (length (fg_data g)) + IP_HLEN - 5 * 4) with (Z.of_nat (length (fg_data g))) by (unfold IP_HLEN; lia). reflexivity.
  - intros Hpos. unfold up. change (hdr16 hdr iph_offset) with (at16 hdr iph_offset).
    by rewrite (bool_decide_false (Z.land (lwip_ntohs (at16 hdr iph_offset)) IP_OFFMASK = 0)) by lia.
Qed.

(** C18: What other orders do.  Once the last fragment of a datagram is there,
    fragments [l1] without a gap from the start on, and [l2] without a gap from
    the end of the new fragment on.  (1) When the new fragment closes the gap,
    but the fragments do not end where the last one ended (one lies behind it),
    the assertion on the length fails: the device stops.  (2) When it is put
    between others and leaves a gap behind [l1], that gap is not looked at: the
    datagram counts as complete.  What comes out is a packet with less data
    than the header that is written for it says. *)
Theorem reassembly_defects n ipr r L l1 g l2 : last_here n ipr r L (l1 ++ l2) -> ipr <> 0 -> arrives (n_heap n) true g -> NoDup (ipr :: map fg_p (g :: l1 ++ l2)) ->
  contig 0 l1 -> contig (fg_start g) (g :: l2) -> l1 ++ l2 <> [] ->
  (end_of 0 l1 = fg_start g -> end_of (fg_start g) (g :: l2) <> rd_datagram_len r -> ip_reass (fg_p g) n = Spin) /\
  (forall g1 k1, l1 = g1 :: k1 -> l2 <> [] -> end_of 0 l1 < fg_start g -> end_of (fg_start g) (g :: l2) = rd_datagram_len r ->
    exists n1 l, ip_reass (fg_p g) n = Ret (n1, fg_p g1) /\ packet (n_heap n1) (fg_p g1) l /\ map sg_a l = map fg_p (l1 ++ g :: l2) /\
      data l = ip_header tos (rd_datagram_len r + IP_HLEN) id ttl proto src dst ++ concat (map fg_data (l1 ++ g :: l2)) /\
      Z.of_nat (length (data l)) < rd_datagram_len r + IP_HLEN /\ reassdatagrams (n_reass n1) = L).
Proof.
  intros Hlh Hi Har Hnd H1 H2 Hne. pose proof Har as [_ _ [Hs0 _] _ Hug]. pose proof Hlh as [Hr HL (m0 & g0 & Hh) Hfl Hfr Hu [Hd0 Hd] [Hc0 Hc]].
  destruct (known_fragment n ipr r L (l1 ++ l2) g Hlh Hi Har) as (hdr & -> & Hhdr).
  set (r1 := rd_set_iphdr hdr r). set (n0 := n_set_reass _ n).
  assert (exists n1, touched (fg_p g :: map fg_p (l1 ++ l2)) (n_heap n) (n_heap n1) /\
    (end_of 0 l1 <= fg_start g -> (l2 <> [] \/ end_of 0 l1 = fg_start g) -> (l1 <> [] \/ fg_start g = 0) -> exists p',
      n_reass n1 = mkReassState (<[ipr := rd_set_p p' r1]> (reasss (n_reass n))) (ipr :: L) (ip_reass_pbufcount (n_reass n) + 1) /\
      frags (n_heap n1) p' (l1 ++ g :: l2) 0 /\
      gather (fg_p g) ipr 0 1 (hdr_of true g) (fg_start g) (Z.of_nat (length (fg_data g))) n0 =
        if bool_decide (end_of (fg_start g) (g :: l2) <> rd_datagram_len r) then Spin else complete ipr 0 n1)) as (n1 & T1 & G1).
  { pose proof (arrives_fragment _ _ _ Har) as Hf. pose proof (fragment_start _ _ _ Hf) as Hst.
    assert (Z.of_nat (length (fg_data g)) + IP_HLEN < 65536) as Hlg by (pose proof (ar_end _ _ _ Har); unfold fg_end in *; lia).
    destruct (hdr_words true g Hst Hlg) as (_ & _ & _ & _ & W5). destruct (mf_off_spec true (fg_start g) Hst) as (_ & _ & M3).
    set (n2 := n_set_reass (mkReassState (<[ipr := r1]> (reasss (n_reass n))) (ipr :: L) (ip_reass_pbufcount (n_reass n) + 1)) n).
    destruct (chain_frag_spec n2 ipr r1 (l1 ++ l2) g (hdr_of true g)) as (n1 & T1 & R1); try done; [by apply lookup_insert_eq|by apply NoDup_cons in Hnd as [_ Hnd]|].
    exists n1. split; [exact T1|]. intros Hle Hor1 Hor2. rewrite (place_between g l2 H2 l1 0 None H1) in R1 by (done || by left).
    destruct R1 as (p' & S1 & F1 & E1). exists p'. split; [|split; [exact F1|]].
    - rewrite S1. unfold with_first, n2. cbn -[Z.add]. by rewrite insert_insert_eq.
    - unfold gather. assert (reass_count (fun c => c + 1) n0 = Ret (n2, ())) as E0.
      { unfold reass_count, modify, n0, n2. cbn -[Z.add]. rewrite u16_id by (unfold IP_REASS_MAX_PBUFS in *; unw; lia). done. }
      erewrite bind_step by exact E0. cbv beta. change (hdr16 (hdr_of true g) iph_offset) with (at16 (hdr_of true g) iph_offset). rewrite W5, M3. cbn [negb].
      erewrite bind_step by reflexivity. cbv beta. cbn [r1 rd_set_iphdr rd_flags rd_datagram_len] in E1. rewrite (bool_decide_true (Z.land _ _ <> 0)) in E1 by done. cbn [andb] in E1.
      rewrite (validated_between l1 g l2 _ H1 H2 Hne Hor2) in E1. case_bool_decide.
      + unfold mbind, net_bind. by rewrite E1.
      + by erewrite bind_step by exact E1. }
  split.
  - intros He Hlen. destruct (G1 ltac:(lia) ltac:(by right)) as (p' & _ & _ & ->).
    { destruct l1; [right; cbn [end_of] in He; lia|by left]. }
    by rewrite bool_decide_true.
  - intros g1 k1 -> Hl2 Hgap Hlen. destruct (G1 ltac:(lia) ltac:(by left) ltac:(by left)) as (p' & S1 & F1 & ->). rewrite bool_decide_false by lia.
    pose proof (end_of_ge _ _ H1) as Hpos. specialize (Hhdr ltac:(lia)). subst hdr. set (rest := k1 ++ g :: l2). set (all := g1 :: rest). change ((g1 :: k1) ++ g :: l2) with all in *.
    set (total := rd_datagram_len r + IP_HLEN) in *.
    assert (Z.of_nat (length (concat (map fg_data all))) < rd_datagram_len r) as Hlen2.
    { rewrite <-data_frags. change (Z.of_nat _) with (data_len (map seg_of all)). unfold all, rest. rewrite app_comm_cons, map_app. unfold data_len. rewrite data_app, length_app, Nat2Z.inj_add.
      fold (data_len (map seg_of (g1 :: k1))). fold (data_len (map seg_of (g :: l2))). rewrite (contig_data _ _ H1), (contig_data _ _ H2). lia. }
    assert (length (data (datagram total tos id ttl proto src dst g1 rest)) = length (ip_header tos total id ttl proto src dst ++ concat (map fg_data all))) as Hdl.
    { unfold datagram, all. cbn [data map concat sg_data]. by rewrite data_frags, <-(assoc_L (++)). }
    rewrite length_app, ip_header_length in Hdl.
    destruct (complete_spec n1 ipr 0 (rd_set_p p' r1) g1 rest L tos (Z.of_nat (length (fg_data g0)) + IP_HLEN) id (mf_off m0 (fg_start g0)) ttl proto src dst (ck g0))
      as (h & E4 & P4 & O4); try done.
    + rewrite S1. apply lookup_insert_eq.
    + by rewrite S1.
    + apply NoDup_cons in Hnd as [Hi2 Hnd]. apply NoDup_cons. cbn [map] in Hi2. rewrite map_app in Hi2. change (g1 :: rest) with ((g1 :: k1) ++ g :: l2). split.
      * rewrite map_app. cbn [map] in Hi2 |- *. intros Hx. apply Hi2. clear - Hx. set_solver.
      * by apply NoDup_placed.
    + cbn. unfold total, IP_HLEN in *. unw. lia.
    + cbn [rd_set_p rd_set_iphdr r1 rd_datagram_len]. fold total. unfold data_len. rewrite Hdl. unfold total in *. unfold IP_HLEN in *. lia.
    + unfold rest. rewrite length_app in Hc0. cbn [length] in Hc0. rewrite length_app. cbn [length]. unfold IP_REASS_MAX_PBUFS in *. lia.
    + cbn [rd_set_p rd_set_iphdr r1 rd_datagram_len] in P4. fold total in P4. eexists _, _. split; [exact E4|]. split; [exact P4|]. split; [|split; [|split; [|done]]].
      * unfold datagram, all. cbn [map sg_a]. f_equal. by rewrite map_map.
      * unfold datagram, all. cbn [data map concat sg_data]. by rewrite data_frags, <-(assoc_L (++)).
      * rewrite Hdl. unfold total, IP_HLEN. lia.
Qed.

End Order.

(** ** Examples

    192.168.0.1 sends datagrams in pieces to 192.168.0.2. *)

#[local] Existing Instance demo_malloc.

Definition demo_ck (more : bool) (len start : Z) : Z := inet_chksum (frag_header 0 (len + IP_HLEN) 77 (mf_off more start) 64 IP_PROTO_UDP (host 1) (host 2) 0).

(** The fragment at [p], as it comes from the driver. *)
Definition demo_frag (more : bool) (p start : Z) (d : list Z) : frag :=
  let len := Z.of_nat (length d) in
  mkFrag p (mkPbuf 0 (p, 14) (len + IP_HLEN) (len + IP_HLEN) PBUF_RAM 0 1)
    (skipn 8 (frag_header 0 (len + IP_HLEN) 77 (mf_off more start) 64 IP_PROTO_UDP (host 1) (host 2) (demo_ck more len start))) start d.
Definition demo_packet (more : bool) (f : frag) : list Z :=
  let len := Z.of_nat (length (fg_data f)) in
  replicate 14 0 ++ frag_header 0 (len + IP_HLEN) 77 (mf_off more (fg_start f)) 64 IP_PROTO_UDP (host 1) (host 2) (demo_ck more len (fg_start f)) ++ fg_data f.

Definition demo_net (fs : list (bool * frag)) : Net (list (list Z)) :=
  n_set_heap (mkHeap (list_to_map (map (fun x => (fg_p x.2, fg_b x.2)) fs)) (list_to_map (map (fun x => (fg_p x.2, demo_packet x.1 x.2)) fs)) ∅) (demo_host 2 1 9 1 0 []).

Definition part_a : frag := demo_frag true 1000 0 [1; 2; 3; 4; 5; 6; 7; 8].
Definition part_b : frag := demo_frag true 2000 8 [9; 10; 11; 12; 13; 14; 15; 16].
Definition part_c : frag := demo_frag false 3000 16 [17; 18; 19; 20].

Definition received (ps : list Z) (n : Net (list (list Z))) : outcome (list (list Z)) :=
  match receive ps n with Ret (n', p) => match pbuf_data p n' with Ret (_, d) => Ret d | Fault => Fault | Spin => Spin end | Fault => Fault | Spin => Spin end.

Example demo_in_order : received [1000; 2000; 3000] (demo_net [(true, part_a); (true, part_b); (false, part_c)]) =
  Ret [ip_header 0 40 77 64 IP_PROTO_UDP (host 1) (host 2) ++ fg_data part_a; fg_data part_b; fg_data part_c].
Proof. vm_compute. reflexivity. Qed.

(** Two fragments are here: the last one and one behind it; or the first and
    the last one, with a gap between them. *)
Definition part_last : frag := demo_frag false 2000 8 [9; 10; 11; 12; 13; 14; 15; 16].
Definition part_behind : frag := demo_frag true 3000 16 [17; 18; 19; 20; 21; 22; 23; 24].
Definition part_end : frag := demo_frag false 4000 24 [25; 26].
Definition ck_behind (f : frag) : Z := demo_ck (negb (bool_decide (fg_start f = 8))) (Z.of_nat (length (fg_data f))) (fg_start f).
Definition ck_hole (f : frag) : Z := demo_ck (negb (bool_decide (fg_start f = 24))) (Z.of_nat (length (fg_data f))) (fg_start f).
Definition demo_last : Net (list (list Z)) := demo_net [(true, part_a); (false, part_last); (true, part_behind)].
Definition demo_hole : Net (list (list Z)) := demo_net [(true, part_a); (true, part_behind); (false, part_end)].

Ltac arrived := split; [split; try reflexivity; try done; eexists; split; vm_compute; reflexivity|reflexivity|by vm_compute|by vm_compute|by vm_compute].

Lemma demo_last_here : exists n2 ipr r, receive [2000; 3000] demo_last = Ret (n2, 0) /\
  last_here 0 77 64 IP_PROTO_UDP (host 1) (host 2) ck_behind n2 ipr r [] [part_last; part_behind] /\ ipr ∉ [0; 1000; 2000; 3000; 4000] /\ rd_datagram_len r = 16 /\
  arrives 0 77 64 IP_PROTO_UDP (host 1) (host 2) ck_behind (n_heap n2) true part_a.
Proof.
  eexists _, 0x200000, _. split; [vm_compute; reflexivity|]. split; [|split; [|split; [|arrived]]].
  - split.
    + vm_compute. reflexivity.
    + reflexivity.
    + exists false, part_last. vm_compute. reflexivity.
    + by vm_compute.
    + split; [reflexivity|]. exists 3000. split; [arrived|]. split; [reflexivity|]. exists 0. split; [arrived|]. reflexivity.
    + apply (bool_decide_unpack _). by vm_compute.
    + by vm_compute.
    + by vm_compute.
  - apply (bool_decide_unpack _). by vm_compute.
  - by vm_compute.
Qed.

Lemma demo_hole_here : exists n2 ipr r, receive [1000; 4000] demo_hole = Ret (n2, 0) /\
  last_here 0 77 64 IP_PROTO_UDP (host 1) (host 2) ck_hole n2 ipr r [] [part_a; part_end] /\ ipr ∉ [0; 1000; 2000; 3000; 4000] /\ rd_datagram_len r = 26 /\
  arrives 0 77 64 IP_PROTO_UDP (host 1) (host 2) ck_hole (n_heap n2) true part_behind.
Proof.
  eexists _, 0x200000, _. split; [vm_compute; reflexivity|]. split; [|split; [|split; [|arrived]]].
  - split.
    + vm_compute. reflexivity.
    + reflexivity.
    + exists true, part_a. vm_compute. reflexivity.
    + by vm_compute.
    + split; [reflexivity|]. exists 4000. split; [arrived|]. split; [reflexivity|]. exists 0. split; [arrived|]. reflexivity.
    + apply (bool_decide_unpack _). by vm_compute.
    + by vm_compute.
    + by vm_compute.
  - apply (bool_decide_unpack _). by vm_compute.
  - by vm_compute.
Qed.

(** The fragment behind the last one is here, and the first one comes; and a
    fragment is put between the first and the last one, behind a gap. *)
Lemma reassembly_defects_witness :
  (exists n2, receive [2000; 3000] demo_last = Ret (n2, 0) /\ ip_reass 1000 n2 = Spin) /\
  (exists n2 n3 l, receive [1000; 4000] demo_hole = Ret (n2, 0) /\ ip_reass 3000 n2 = Ret (n3, 1000) /\ packet (n_heap n3) 1000 l /\
    data l = ip_header 0 46 77 64 IP_PROTO_UDP (host 1) (host 2) ++ [1; 2; 3; 4; 5; 6; 7; 8; 17; 18; 19; 20; 21; 22; 23; 24; 25; 26]).
Proof.
  split.
  - destruct demo_last_here as (n2 & ipr & r & E1 & Hl & Hi & Hlen & Ha). exists n2. split; [exact E1|].
    assert (ipr <> 0 /\ NoDup (ipr :: map fg_p (part_a :: [] ++ [part_last; part_behind]))) as [Hz Hnd].
    { split; [intros ->; apply Hi; left|]. apply NoDup_cons. split; [|by apply (bool_decide_unpack _)]. intros Hx. apply Hi. clear - Hx. cbn in Hx. set_solver. }
    eapply (reassembly_defects 0 77 64 IP_PROTO_UDP (host 1) (host 2) ck_behind n2 ipr r [] [] part_a [part_last; part_behind] Hl Hz Ha Hnd); [done|by repeat split|done|done|].
    rewrite Hlen. by vm_compute.
  - destruct demo_hole_here as (n2 & ipr & r & E1 & Hl & Hi & Hlen & Ha).
    assert (ipr <> 0 /\ NoDup (ipr :: map fg_p (part_behind :: [part_a] ++ [part_end]))) as [Hz Hnd].
    { split; [intros ->; apply Hi; left|]. apply NoDup_cons. split; [|by apply (bool_decide_unpack _)]. intros Hx. apply Hi. clear - Hx. cbn in Hx. set_solver. }
    destruct (proj2 (reassembly_defects 0 77 64 IP_PROTO_UDP (host 1) (host 2) ck_hole n2 ipr r [] [part_a] part_behind [part_end] Hl Hz Ha Hnd ltac:(by repeat split) ltac:(by repeat split) ltac:(done))
      part_a [] eq_refl ltac:(done) ltac:(by vm_compute) ltac:(rewrite Hlen; by vm_compute)) as (n3 & l & E2 & P & _ & D & _).
    exists n2, n3, l. split; [exact E1|]. split; [exact E2|]. split; [exact P|]. rewrite D, Hlen. reflexivity.
Defined.

Definition demo_parts : Net (list (list Z)) := demo_net [(true, part_a); (true, part_b); (false, part_c)].
Definition part_ck (f : frag) : Z := demo_ck (bool_decide (fg_start f < 16)) (Z.of_nat (length (fg_data f))) (fg_start f).

Lemma datagram_reassembled_witness : exists h l, receive [1000; 2000; 3000] demo_parts = Ret (n_set_heap h demo_parts, 1000) /\ packet h 1000 l /\
  data l = ip_header 0 40 77 64 IP_PROTO_UDP (host 1) (host 2) ++ [1; 2; 3; 4; 5; 6; 7; 8; 9; 10; 11; 12; 13; 14; 15; 16; 17; 18; 19; 20].
Proof.
  assert (exists ipr, malloc MEMP_REASSDATA (n_heap demo_parts) = Some ipr) as (ipr & Hi) by (eexists; vm_compute; reflexivity).
  assert (forall more f, f = part_a /\ more = true \/ f = part_b /\ more = true \/ f = part_c /\ more = false -> arrives 0 77 64 IP_PROTO_UDP (host 1) (host 2) part_ck (n_heap demo_parts) more f) as Harr.
  { intros more f Hf. destruct Hf as [[-> ->]|[[-> ->]|[-> ->]]]; (split; [split; try reflexivity; try done; eexists; split; vm_compute; reflexivity|reflexivity|by vm_compute|by vm_compute|by vm_compute]). }
  destruct (datagram_reassembled 0 77 64 IP_PROTO_UDP (host 1) (host 2) part_ck demo_parts part_a [part_b] part_c ipr) as (h & l & E1 & P1 & _ & D1 & _).
  - by vm_compute.
  - apply Forall_cons; split; [apply Harr; auto|]. apply Forall_singleton, Harr. auto.
  - apply Harr. auto.
  - apply (bool_decide_eq_true_1 _). by vm_compute.
  - apply Forall_nil_2.
  - by vm_compute.
  - by vm_compute.
  - exact Hi.
  - reflexivity.
  - exists h, l. split; [exact E1|]. split; [exact P1|exact D1].
Defined.
