(* ===== verification/UdpRecv.v ===== *)
(** * Received datagrams

    Theorems on [IpIn] and [Udp] together: what becomes of a frame from the
    driver that holds a datagram.  The driver's frames are in one buffer. *)

From stdpp Require Import gmap.
From S2P Require Import Prelude LwipDef InetChksum IpAddr Pbuf PbufOps PbufData NetState NetMem Etharp EtharpOps IpOut Icmp Raw Udp UdpSend IpReass IpIn IpRecv.

(** ** UDP *)

Section Udp.
Context {E : Type} `{Malloc, LinkDriver E, UdpApp E}.
Implicit Types n : Net E.

(** The block for a datagram, and the list with it at the front if it is
    connected to the sender. *)
Lemma match_loop_demux src dest broadcast f n :
  Forall (fun a => a <> 0 /\ is_Some (udps (n_udp n) !! a)) (udp_pcbs (n_udp n)) ->
  exists l', match_loop (udp_pcbs (n_udp n)) [] 0 src dest broadcast f n =
    Ret (with_list l' n, demux (n_udp n) (udp_pcbs (n_udp n)) src dest (current_iphdr_src (n_ip n)) (current_iphdr_dest (n_ip n)) broadcast f) /\
    l' ≡ₚ udp_pcbs (n_udp n).
Proof.
  intros Hl. pose proof (match_loop_spec src dest broadcast f n (udp_pcbs (n_udp n)) [] 0 Hl eq_refl) as Hs. cbn zeta in Hs. unfold demux.
  destruct Hs as [(a & l1 & l2 & -> & Hls & Hm)|[-> Hm]].
  - exists (a :: l1 ++ l2). rewrite Hm. split; [done|]. rewrite Hls. by apply Permutation_middle.
  - exists (udp_pcbs (n_udp n)). rewrite Hm, (bool_decide_true (0 = 0)), with_list_same by done. done.
Qed.

(** The words of a UDP header. *)
Lemma udp_hdr_words ck src dst sport dport d : is_u16 sport -> is_u16 dport -> is_u32 src -> is_u32 dst -> bytes d -> Z.of_nat (length d) < 65528 ->
  let h := udp_hdr ck src dst sport dport d in
  lwip_ntohs (at16 h udph_src) = sport /\ lwip_ntohs (at16 h udph_dest) = dport /\ at16 h udph_chksum = (if ck then udp_ck src dst sport dport d else 0).
Proof.
  intros Hs Hd Hsrc Hdst Hb Hl h. unfold h, udp_hdr, udp_ports, at16, at8, udph_src, udph_dest, udph_chksum.
  assert (is_u16 (if ck then udp_ck src dst sport dport d else 0)) as Hc by (destruct ck; [by apply udp_ck_range|unw; lia]).
  unfold lwip_ntohs. cbn [Z.to_nat nth app le2 Z.add Pos.to_nat Pos.iter_op Nat.add]. mem_nat. cbn [nth app le2].
  rewrite !of_le2_le2 by (done || apply htons_range). rewrite !htons_htons by done. done.
Qed.

Lemma with_list_heap l n h : with_list l (n_set_heap h n) = n_set_heap h (with_list l n).
Proof. done. Qed.

Lemma ld16_with l q k n v : ld16 q k n = Ret (n, v) -> ld16 q k (with_list l n) = Ret (with_list l n, v).
Proof.
  unfold ld16, in_heap, mbind, net_bind. change (n_heap (with_list l n)) with (n_heap n). cbn beta.
  destruct (load (at_off q k) 2 (n_heap n)) as [d| |]; cbn [mbind outcome_bind]; [|done|done].
  destruct d as [|x [|y [|? ?]]]; try done. by intros [= ->].
Qed.

Lemma on_heap_with {A} l (g : Heap -> outcome (Heap * A)) n h x : on_heap g n = Ret (n_set_heap h n, x) -> on_heap g (with_list l n) = Ret (with_list l (n_set_heap h n), x).
Proof.
  unfold on_heap. change (n_heap (with_list l n)) with (n_heap n). destruct (g (n_heap n)) as [[h' y]| |]; cbn [mbind outcome_bind]; [|done|done].
  intros [= Hh ->]. by rewrite <-Hh.
Qed.

(** The check of a datagram, its header in front. *)
Lemma udp_accept_ok n p b ck src dst sport dport d : whole (n_heap n) p (udp_hdr ck src dst sport dport d ++ d) b ->
  bytes d -> is_u32 src -> is_u32 dst -> current_iphdr_src (n_ip n) = src -> current_iphdr_dest (n_ip n) = dst -> Z.of_nat (length d) < 65528 ->
  forall l', udp_accept p (if ck then udp_ck src dst sport dport d else 0) (with_list l' n) = Ret (with_list l' n, true).
Proof.
  intros Hw Hb Hs Hd Cs Cd Hl l'. unfold udp_accept. destruct ck; [|done]. destruct (udp_ck_range src dst sport dport d Hb Hl Hs Hd) as [_ Hnz].
  rewrite bool_decide_true by done. pose proof (whole_packet _ _ _ _ Hw) as Hp. erewrite bind_step by (eapply pbuf_data_at; exact Hp). cbv beta.
  erewrite bind_step by (eapply (pb_whole _ (with_list l' n)); exact Hw). cbv beta. erewrite bind_step by reflexivity. cbv beta.
  change (n_ip (with_list l' n)) with (n_ip n). rewrite Cs, Cd, (wh_tot _ _ _ _ Hw). cbn [map sg_data].
  replace (Z.of_nat (length (udp_hdr true src dst sport dport d ++ d))) with (Z.of_nat (length d) + UDP_HLEN) by (rewrite length_app; unfold UDP_HLEN; cbn [length udp_hdr udp_ports le2 app]; lia).
  rewrite (udp_datagram_checks src dst sport dport d); [done|done|done|done|done| |cbn [concat]; by rewrite app_nil_r].
  apply Forall_singleton. split; [|exact (wh_u16 _ _ _ _ Hw)]. apply Forall_app_2; [|done]. apply Forall_app_2; [apply udp_ports_ok|apply le2_bytes].
Qed.

(** A datagram in a buffer, behind its IP header, for a block with a receiver. *)
Lemma udp_input_delivers n p a iph x ck src dst sport dport d b f pcb c :
  whole (n_heap n) p (iph ++ (udp_hdr ck src dst sport dport d ++ d)) b -> iph = 0x45 :: x -> length iph = 20%nat ->
  bytes d -> is_u16 sport -> is_u16 dport -> is_u32 src -> is_u32 dst ->
  current_iphdr_src (n_ip n) = src -> current_iphdr_dest (n_ip n) = dst -> netifs (n_if n) !! a = Some f ->
  Forall (fun i => i <> 0 /\ is_Some (udps (n_udp n) !! i)) (udp_pcbs (n_udp n)) ->
  demux (n_udp n) (udp_pcbs (n_udp n)) sport dport src dst (bool_decide (ip4_addr_isbroadcast dst f <> 0)) f = pcb -> pcb <> 0 ->
  udps (n_udp n) !! pcb = Some c -> up_recv c <> 0 ->
  let b' := moved (-8) (moved (-20) b) in
  let n' := n_set_heap (put p b' (n_heap n)) n in
  exists l', udp_input p a n = udp_recv_fn (up_recv c) (up_recv_arg c) pcb p src sport (with_list l' n') /\
    l' ≡ₚ udp_pcbs (n_udp n) /\ whole (n_heap n') p d b'.
Proof.
  intros Hw Hiph Hl20 Hbd Hsp Hdp Hsrc Hdst Cs Cd Hf Hlist Hdemux Hpcb Hc Hrecv b' n'.
  pose proof (wh_u16 _ _ _ _ Hw) as H16. pose proof (wh_tot _ _ _ _ Hw) as Htot. rewrite !length_app in H16, Htot. 
  set (uh := udp_hdr ck src dst sport dport d) in *. assert (length uh = 8%nat) as Luh by done. rewrite Hl20, Luh in H16, Htot.
  destruct (pull_step n p iph (uh ++ d) b Hw) as [E1 W1]; [lia|]. rewrite Hl20 in E1, W1. change (- Z.of_nat 20) with (-20) in E1, W1.
  set (b1 := moved (-20) b) in *. set (n1 := n_set_heap (put p b1 (n_heap n)) n) in *.
  destruct (pull_step n1 p uh d b1 W1) as [E2 W2]; [lia|]. rewrite Luh in E2, W2. change (- Z.of_nat 8) with (-8) in E2, W2.
  assert (n_set_heap (put p (moved (-8) b1) (n_heap n1)) n1 = n') as Hn'.
  { unfold n', n1. cbn [n_heap n_set_heap]. rewrite put_put. done. }
  rewrite Hn' in E2, W2.
  destruct (udp_hdr_words ck src dst sport dport d) as (U1 & U2 & U3); [done|done|done|done|done|lia|]. fold uh in U1, U2, U3.
  pose proof (wh_bytes _ _ _ _ W1) as Hb1. change (nbytes (p_payload b1) (uh ++ d) n1) in Hb1.
  unfold udp_input. erewrite bind_step by (by eapply pb_whole). cbv beta. erewrite bind_step by (by eapply pb_whole). cbv beta.
  pose proof (wh_bytes _ _ _ _ Hw) as Hb0. rewrite Hiph in Hb0. erewrite bind_step by (eapply hl_at; exact Hb0). cbv beta.
  rewrite (bool_decide_false (p_tot_len b < _)) by (unfold UDP_HLEN; lia). erewrite bind_step by exact E1. cbv beta.
  rewrite (bool_decide_false (0 <> 0)) by lia. erewrite bind_step by (by eapply pb_whole). cbv beta. erewrite bind_step by (by apply netif_at_at). cbv beta.
  erewrite bind_step by reflexivity. cbv beta zeta. change (n_ip n1) with (n_ip n). rewrite Cd.
  assert (forall k, 0 <= k -> k + 2 <= 8 -> ld16 (p_payload b1) k n1 = Ret (n1, at16 uh k)) as Hld.
  { intros k Hk0 Hk. erewrite ld16_here; [|exact Hb1|done|rewrite length_app; lia]. unfold at16, at8. rewrite !app_nth1 by lia. done. }
  do 2 (erewrite bind_step by (apply Hld; done); cbv beta). rewrite U1, U2. erewrite bind_step by reflexivity. cbv beta.
  destruct (match_loop_demux sport dport (bool_decide (ip4_addr_isbroadcast dst f <> 0)) f n1 Hlist) as (l' & Hm & Hperm).
  change (n_udp n1) with (n_udp n) in Hm. change (n_ip n1) with (n_ip n) in Hm. rewrite Cs, Cd, Hdemux in Hm.
  exists l'. split; [|split; [done|done]].
  erewrite bind_step by exact Hm. cbv beta. rewrite (bool_decide_true (pcb <> 0)) by done. cbn [orb].
  change (ld16 (p_payload b1) udph_chksum) with (ld16 (E := E) (p_payload b1) udph_chksum).
  erewrite bind_step by (apply (ld16_with l'), Hld; done). cbv beta. rewrite U3.
  assert (udp_accept p (if ck then udp_ck src dst sport dport d else 0) (with_list l' n1) = Ret (with_list l' n1, true)) as Hacc.
  { eapply udp_accept_ok; [exact W1|done|done..|lia]. }
  erewrite bind_step by exact Hacc. cbv beta. cbn [negb].
  erewrite bind_step by (apply (on_heap_with l'); exact E2). cbv beta. rewrite (bool_decide_false (0 <> 0)) by lia.
  erewrite bind_step by (by apply udp_at_at). cbv beta. erewrite bind_step by reflexivity. cbv beta. rewrite (bool_decide_true (up_recv c <> 0)) by done.
  rewrite <-Cs. reflexivity.
Qed.

End Udp.

(** ** IP *)

Section Ip.
Context {E : Type} `{Malloc, LinkDriver E, RawApp E, UdpApp E}.
Implicit Types n : Net E.

(** What the receiver of a datagram finds: the packet [p] with the data [d]
    only, the addresses, and else what was there. *)
Record delivered (n n' : Net E) (p : Z) (d : list Z) (src dst : Z) : Prop := {
  dv_pkt : exists b, whole (n_heap n') p d b /\ n_heap n' = put p b (n_heap n);
  dv_src : current_iphdr_src (n_ip n') = src;
  dv_dst : current_iphdr_dest (n_ip n') = dst;
  dv_id : ip_id (n_ip n') = ip_id (n_ip n);
  dv_udp : exists l', l' ≡ₚ udp_pcbs (n_udp n) /\ n_udp n' = mkUdpState (udps (n_udp n)) l' (udp_port (n_udp n));
  dv_if : n_if n' = n_if n;
  dv_arp : n_arp n' = n_arp n;
  dv_raw : n_raw n' = n_raw n;
  dv_reass : n_reass n' = n_reass n;
  dv_ext : n_ext n' = n_ext n;
}.

(** The datagram is for the block [pcb]: no raw block sees it first, the
    interface takes its address, its sender is a single host. *)
Record for_block (n : Net E) (a : Z) (f : netif) (src sport dst dport pcb : Z) (c : udp_pcb) : Prop := {
  fb_if : netifs (n_if n) !! a = Some f;
  fb_nz : a <> 0;
  fb_accepts : if_accepts f dst = true;
  fb_src : ip4_addr_isbroadcast src f = 0 /\ ip_addr_ismulticast src = false;
  fb_raw : raw_pcbs (n_raw n) = [];
  fb_list : Forall (fun i => i <> 0 /\ is_Some (udps (n_udp n) !! i)) (udp_pcbs (n_udp n));
  fb_demux : demux (n_udp n) (udp_pcbs (n_udp n)) sport dport src dst (bool_decide (ip4_addr_isbroadcast dst f <> 0)) f = pcb;
  fb_pcb : pcb <> 0;
  fb_at : udps (n_udp n) !! pcb = Some c;
  fb_recv : up_recv c <> 0;
}.

Lemma for_block_host n a f src sport dst dport pcb c : for_block n a f src sport dst dport pcb c -> for_host n a f src dst.
Proof. by intros []. Qed.

(** From the check of the header on. *)
Lemma ip_local_udp n p a f tos id ttl ck src sport dst dport d b pcb c :
  let uh := udp_hdr ck src dst sport dport d in
  let ih := ip_header tos (Z.of_nat (length d) + UDP_HLEN + IP_HLEN) id ttl IP_PROTO_UDP src dst in
  whole (n_heap n) p (ih ++ (uh ++ d)) b -> for_block n a f src sport dst dport pcb c ->
  bytes d -> is_u16 sport -> is_u16 dport -> is_u32 src -> is_u32 dst -> is_u16 (Z.of_nat (length d) + UDP_HLEN + IP_HLEN) ->
  current_iphdr_src (n_ip n) = src -> current_iphdr_dest (n_ip n) = dst ->
  exists n', ip_local p a (p_payload b) n = (_ ← udp_recv_fn (up_recv c) (up_recv_arg c) pcb p src sport; set_current 0 null_ptr IPADDR_ANY IPADDR_ANY) n' /\
    delivered n n' p d src dst.
Proof.
  intros uh ih Hw [F1 F2 F3 [F4 F5] F6 F7 F8 F9 F10 F11] Hd Hsp Hdp Hsrc Hdst Hl16 Cs Cd.
  rewrite (ip_local_delivers n p a _ _ _ _ _ _ _ _ b Hw F6 Hl16 Hsrc Hdst) by (by left). rewrite bool_decide_true by done.
  set (n2 := delivering a (p_payload b) n).
  destruct (udp_input_delivers n2 p a ih (tail ih) ck src dst sport dport d b f pcb c) as (l' & Hu & Hperm & Hw'); try done.
  exists (with_list l' (n_set_heap (put p (moved (-8) (moved (-20) b)) (n_heap n2)) n2)). split.
  - unfold mbind, net_bind. by rewrite Hu.
  - split; try done; [by eexists|]. exists l'. done.
Qed.

Lemma ip_input_udp n p a f tos id ttl ck src sport dst dport d pad b pcb c :
  let uh := udp_hdr ck src dst sport dport d in
  let ih := ip_header tos (Z.of_nat (length d) + UDP_HLEN + IP_HLEN) id ttl IP_PROTO_UDP src dst in
  whole (n_heap n) p ((ih ++ (uh ++ d)) ++ pad) b -> pbufs (n_heap n) !! 0 = None -> for_block n a f src sport dst dport pcb c ->
  is_u8 tos -> is_u8 ttl -> bytes d -> is_u16 sport -> is_u16 dport -> is_u32 src -> is_u32 dst ->
  exists n', ip_input p a n = (_ ← udp_recv_fn (up_recv c) (up_recv_arg c) pcb p src sport; _ ← set_current 0 null_ptr IPADDR_ANY IPADDR_ANY; mret ERR_OK) n' /\
    delivered n n' p d src dst.
Proof.
  intros uh ih Hw H0p Hfor Htos Httl Hd Hsp Hdp Hsrc Hdst. pose proof (wh_u16 _ _ _ _ Hw) as H16. rewrite !length_app in H16.
  assert (Z.of_nat (length d) + UDP_HLEN + IP_HLEN = Z.of_nat (length (uh ++ d)) + IP_HLEN) as Hlen by (rewrite length_app; change (length uh) with 8%nat; unfold UDP_HLEN; lia).
  assert (is_u16 (Z.of_nat (length d) + UDP_HLEN + IP_HLEN)) as Hl16.
  { rewrite Hlen, length_app. change (length ih) with 20%nat in H16. unfold IP_HLEN. unw. lia. }
  assert (exists b1, let n2 := addressed src dst (n_set_heap (put p b1 (n_heap n)) n) in
    ip_input p a n = (_ ← ip_local p a (p_payload b1); mret ERR_OK) n2 /\ whole (n_heap n2) p (ih ++ uh ++ d) b1) as (b1 & E1 & W1).
  { subst ih. rewrite Hlen in Hw |- *. destruct (ip_input_local n p a f tos id ttl IP_PROTO_UDP src dst (uh ++ d) pad b Hw H0p) as (b1 & E1 & W1 & _); try done.
    - by eapply for_block_host.
    - by exists b1. }
  set (n2 := addressed src dst _) in *. pose proof Hfor as [F1 F2 F3 [F4 F5] F6 F7 F8 F9 F10 F11].
  destruct (ip_local_udp n2 p a f tos id ttl ck src sport dst dport d b1 pcb c) as (n' & Hn' & [(b2 & D1 & D2) D3 D4 D5 D6 D7 D8 D9 D10 D11]); try done.
  exists n'. split.
  - rewrite E1. rewrite <-bind_bind. unfold mbind at 1, net_bind at 1. by rewrite Hn'.
  - split; try done. exists b2. split; [done|]. rewrite D2. unfold n2. cbn [n_heap n_set_ip n_set_heap addressed]. by rewrite put_put.
Qed.

(** C15: A datagram that is received.  The driver hands over a frame, perhaps
    with padding behind it, that holds a datagram for a block with a receiver;
    the checksum may be there or not.  Then the receiver of the block is
    called, with the address and the port of the sender and with the packet
    that holds the data and nothing else; the block is the one that [demux]
    tells.  Of the rest of the state only the order of the blocks has changed.
    After that the variables of the current packet are cleared. *)
Theorem udp_frame_received n p a f dmac smac tos id ttl ck src sport dst dport d pad b pcb c :
  whole (n_heap n) p (udp_frame dmac smac tos id ttl ck src sport dst dport d ++ pad) b -> pbufs (n_heap n) !! 0 = None ->
  for_block n a f src sport dst dport pcb c -> Z.land (nf_flags f) NETIF_FLAG_ETHARP <> 0 -> length dmac = 6%nat -> length smac = 6%nat ->
  is_u8 tos -> is_u8 ttl -> bytes d -> is_u16 sport -> is_u16 dport -> is_u32 src -> is_u32 dst ->
  exists n', ethernet_input p a n = (_ ← udp_recv_fn (up_recv c) (up_recv_arg c) pcb p src sport; _ ← set_current 0 null_ptr IPADDR_ANY IPADDR_ANY; mret ERR_OK) n' /\
    delivered n n' p d src dst.
Proof.
  unfold udp_frame. set (eh := eth_header dmac smac). set (ih := ip_header _ _ _ _ _ _ _). set (uh := udp_hdr _ _ _ _ _ d).
  rewrite <-!(app_assoc). intros Hw H0p Hfor Harp Hdm Hsm Htos Httl Hd Hsp Hdp Hsrc Hdst. pose proof (wh_nz _ _ _ _ Hw) as Hp0.
  pose proof Hfor as [F1 F2 F3 F4 F6 F7 F8 F9 F10 F11].
  destruct (ethernet_input_ip n p a f dmac smac (ih ++ uh ++ d ++ pad) b Hw) as (b2 & E2 & W2 & _); try done.
  set (n2 := n_set_heap (put p b2 (n_heap n)) n) in *.
  destruct (ip_input_udp n2 p a f tos id ttl ck src sport dst dport d pad b2 pcb c) as (n' & Hn' & [(b3 & D1 & D2) D3 D4 D5 D6 D7 D8 D9 D10 D11]); try done.
  { unfold n2. cbn [n_heap n_set_heap]. by rewrite put_other. }
  exists n'. split.
  - rewrite E2. unfold mbind at 1, net_bind at 1. rewrite Hn'. unfold mbind, net_bind. destruct (udp_recv_fn _ _ _ _ _ _ n') as [[? ?]| |]; done.
  - split; try done. exists b3. split; [done|]. rewrite D2. unfold n2. cbn [n_heap n_set_heap]. by rewrite put_put.
Qed.

End Ip.

(** ** The other host

    The frame of the example in [UdpSend], with padding up to 60 bytes,
    arrives at 192.168.0.2, where a receiver is bound to port 9. *)

#[local] Existing Instance demo_malloc.
#[export] Instance no_raw : RawApp (list (list Z)) := { raw_recv_fn _ _ _ _ _ h e := Ret (h, e, 0) }.

Definition sent_frame : list Z := udp_frame (mac_of 2) (mac_of 1) 0 77 255 true (host 1) 7 (host 2) 9 [1; 2; 3].
Definition receiver : Net (list (list Z)) := demo_host 2 1 9 1 0 (sent_frame ++ replicate 15 0).

Example demo_receive : exists n', ethernet_input 8 1 receiver = Ret (n', ERR_OK) /\ n_ext n' = [le4 (host 1); le2 7; [1; 2; 3]].
Proof. eexists. split; vm_compute; reflexivity. Qed.

Lemma udp_frame_received_witness : exists n', ethernet_input 8 1 receiver =
    (_ ← udp_recv_fn 1 0 50 8 (host 1) 7; _ ← set_current 0 null_ptr IPADDR_ANY IPADDR_ANY; mret ERR_OK) n' /\
  exists b, whole (n_heap n') 8 [1; 2; 3] b.
Proof.
  destruct (udp_frame_received receiver 8 1 (demo_if 2) (mac_of 2) (mac_of 1) 0 77 255 true (host 1) 7 (host 2) 9 [1; 2; 3] (replicate 15 0)
    (mkPbuf 0 (8, 0) 60 60 PBUF_RAM 0 1) 50 (demo_block 9 1)) as (n' & E1 & D).
  - split; try done. eexists. split; [reflexivity|]. vm_compute. reflexivity.
  - reflexivity.
  - split; try done; try (vm_compute; reflexivity). by repeat constructor.
  - by vm_compute.
  - reflexivity.
  - reflexivity.
  - by vm_compute.
  - by vm_compute.
  - by repeat constructor.
  - by vm_compute.
  - by vm_compute.
  - by vm_compute.
  - by vm_compute.
  - exists n'. split; [exact E1|]. destruct (dv_pkt _ _ _ _ _ _ D) as (b & Hb & _). exists b. exact Hb.
Defined.
