(* ===== verification/IcmpEcho.v ===== *)
(** * Echo requests

    Theorems on [Icmp]: the reply that a request becomes, from the frame with
    the request to the frame that the driver gets. *)

From stdpp Require Import gmap.
From S2P Require Import Prelude LwipDef InetChksum IpAddr Pbuf PbufOps PbufData NetState NetMem Etharp EtharpOps IpOut Icmp Raw Udp UdpSend IpReass IpIn IpRecv UdpRecv.

(** ** The checksum *)

(** An echo message: type, code, checksum; number and data in [x]. *)
Definition echo_msg (type code c : Z) (x : list Z) : list Z := [type; code] ++ le2 c ++ x.

Lemma echo_chksum_range c : is_u16 c -> is_u16 (echo_chksum c).
Proof. intros Hc. unfold echo_chksum. case_bool_decide; apply u16_range. Qed.

Lemma val_zero l : bytes l -> val l = 0 -> Forall (fun b => b = 0) l.
Proof.
  induction 1 as [|b l Hb Hl IH]; [constructor|]. cbn [val]. pose proof (val_nonneg l Hl). intros Hv. unw. constructor; [lia|]. apply IH. lia.
Qed.

(** A request with a right checksum has a reply with a right checksum, unless
    the reply has nothing but zeros. *)
Lemma echo_chksum_spec code c x : is_u8 code -> is_u16 c -> bytes x -> Z.of_nat (length x) < 65532 ->
  inet_chksum (echo_msg ICMP_ECHO code c x) = 0 ->
  inet_chksum (echo_msg ICMP_ER code (echo_chksum c) x) = 0 \/ code = 0 /\ Forall (fun b => b = 0) x.
Proof.
  intros Hcode Hc Hx Hl. unfold echo_msg. pose proof (val_nonneg x Hx) as Hv.
  assert (forall t, is_u8 t -> bytes [t; code]) as Hb by (intros; repeat (constructor; [done|]); constructor).
  assert (forall t w, is_u8 t -> is_u16 w -> inet_chksum ([t; code] ++ le2 w ++ x) = 65535 - oc (t + 256 * code + w + val x)) as Hw.
  { intros t w Ht Hw. rewrite inet_chksum_at; try done; [|by apply Hb|rewrite !length_app; cbn [length le2]; lia].
    cbn [val]. do 2 f_equal. lia. }
  rewrite !Hw by (done || by apply echo_chksum_range). unfold ICMP_ECHO, ICMP_ER, echo_chksum. cbn [app val]. unw.
  change (PP_HTONS (0xffff - Z.shiftl ICMP_ECHO 8)) with 0xfff7. change (PP_HTONS (Z.shiftl ICMP_ECHO 8)) with 8.
  enough (256 * code + val x <> 0 -> forall c0, c0 = (if bool_decide (c >= 0xfff7) then u16 (c + (8 + 1)) else u16 (c + 8)) ->
    65535 - oc (8 + 256 * code + c + val x) = 0 -> 65535 - oc (0 + 256 * code + c0 + val x) = 0) as Hk.
  { intros Hq. destruct (decide (256 * code + val x = 0)) as [Hz|Hz]; [right|left; by eapply Hk].
    split; [lia|]. apply val_zero; [done|lia]. }
  intros Hz c0 ->.
  unfold oc, u16. repeat case_bool_decide; intros; try lia; Z.to_euclidean_division_equations; lia.
Qed.

Lemma chksum_pbuf_one d : bytes d -> Z.of_nat (length d) < 65536 -> inet_chksum_pbuf [d] = inet_chksum d.
Proof.
  intros Hd Hl. unfold inet_chksum_pbuf. rewrite chain_sum_spec by (by apply Forall_singleton). cbn [concat]. rewrite app_nil_r.
  rewrite inet_chksum_oc by done. pose proof (oc_range _ (val_nonneg d Hd)) as [Hr _].
  change 0xffff with (Z.ones 16). rewrite Z.land_ones, Z.mod_small by (change (2 ^ 16) with 65536; lia). by apply u16_not_eq.
Qed.

Section Echo.
Context {E : Type} `{Malloc, LinkDriver E, RawApp E, UdpApp E}.
Implicit Types n : Net E.

Lemma push_step n p x y b : whole (n_heap n) p y b -> nbytes (at_off (p_payload b) (- Z.of_nat (length x))) (x ++ y) n ->
  0 < Z.of_nat (length x) < 32768 -> Z.of_nat (length (x ++ y)) < 65536 ->
  let n' := n_set_heap (put p (moved (Z.of_nat (length x)) b) (n_heap n)) n in
  on_heap (pbuf_header p (Z.of_nat (length x))) n = Ret (n', 0) /\ whole (n_heap n') p (x ++ y) (moved (Z.of_nat (length x)) b).
Proof. intros Hw Hb Hx Hl n'. destruct (whole_push _ _ _ _ _ Hw Hb Hx Hl) as [K1 K2]. split; [by apply on_heap_at|done]. Qed.

(** There is room for the headers in front of the message: it is answered
    where it is. *)
Lemma echo_room_in_place n p x b q : whole (n_heap n) p x b -> 34 <= (p_payload b).2 -> Z.of_nat (length x) + 34 < 65536 ->
  echo_room p 20 q n = Ret (n, Some (p, q)).
Proof.
  intros Hw Ho Hl. pose proof Hw as [W1 W2 W3 W4 W5 W6 W7 W8 W9]. unfold echo_room. set (b1 := moved 34 b). set (h1 := put p b1 (n_heap n)).
  assert (pbuf_header p (PBUF_IP_HLEN + PBUF_LINK_HLEN) (n_heap n) = Ret (h1, 0)) as E1 by (apply header_step; try done; try lia; unfold PBUF_IP_HLEN, PBUF_LINK_HLEN; intros []; by left).
  assert (pbuf_header p (- (PBUF_IP_HLEN + PBUF_LINK_HLEN)) h1 = Ret (n_heap n, 0)) as E2.
  { change (- (PBUF_IP_HLEN + PBUF_LINK_HLEN)) with (-34). rewrite (header_step h1 p b1 (-34)); try done; try (cbn; lia); [|apply put_same].
    unfold b1. change (-34) with (- (34)). rewrite moved_moved. unfold h1. rewrite put_put. do 2 f_equal. apply heap_ext; try done. by apply insert_id. }
  erewrite bind_step by (apply on_heap_at; exact E1). cbv beta. rewrite (bool_decide_false (0 <> 0)) by lia.
  erewrite bind_step by (apply on_heap_at; exact E2). cbv beta. rewrite (bool_decide_false (0 <> 0)) by lia. by destruct n.
Qed.

(** Everything that does not belong to the packet [p]. *)
Record others (p : Z) (h h' : Heap) : Prop := {
  ot_bufs : forall i, i <> p -> pbufs h' !! i = pbufs h !! i;
  ot_mem : forall i, i <> p -> mem h' !! i = mem h !! i;
  ot_customs : customs h' = customs h;
}.

Lemma others_trans p h1 h2 h3 : others p h1 h2 -> others p h2 h3 -> others p h1 h3.
Proof. intros [A1 A2 A3] [B1 B2 B3]. split; [intros; by rewrite B1, A1|intros; by rewrite B2, A2|by rewrite B3]. Qed.
Lemma others_put p b h : others p h (put p b h).
Proof. split; [intros; by apply put_other|done|done]. Qed.
Lemma others_set p q d h : q.1 = p -> others p h (set_bytes q d h).
Proof. intros <-. split; [intros; by rewrite set_bytes_pbufs|intros; by apply set_bytes_mem|apply set_bytes_customs]. Qed.
Lemma others_pushed p s l b hdr h h' : pushed p s l b hdr h h' -> others p h h'.
Proof. intros [P1 P2 P3 P4]. split; [intros; rewrite P2; by apply lookup_insert_ne|done|done]. Qed.

(** The headers of the reply: what [echo_reply] writes before it sends. *)
Lemma echo_reply_writes n p a tos len id ttl src dst code c x b q :
  let d := ip_header tos len id ttl IP_PROTO_ICMP src dst ++ echo_msg ICMP_ECHO code c x in
  let d' := ip_header tos len id ICMP_TTL IP_PROTO_ICMP dst src ++ echo_msg ICMP_ER code (echo_chksum c) x in
  pbufs (n_heap n) !! p = Some b -> p_payload b = at_off q 20 -> nbytes q d n -> is_u16 c ->
  current_iphdr_src (n_ip n) = src -> current_iphdr_dest (n_ip n) = dst ->
  echo_reply p 20 q a n =
    (r ← on_heap (pbuf_header p 20);
     if bool_decide (r <> 0) then assert false else _ ← ip_output_if p dst None ICMP_TTL 0 IP_PROTO_ICMP a; mret ()) (nset q d' n).
Proof.
  intros d d' Hb Hpay Hd Hc Cs Cd. unfold echo_reply. erewrite bind_step by (by apply pb_at). cbv beta. erewrite bind_step by reflexivity. cbv beta.
  rewrite Hpay, Cs, Cd. rewrite (nset_start _ _ _ Hd) at 1. unfold d, ip_header, ip_header0, echo_msg in Hd |- *. clear d.
  set (w := inet_chksum _) in Hd |- * at 1. clearbody w. remember d' as r eqn:Hr. subst d'.
  unfold iph_src, iph_dest, iph_ttl, iph_chksum, icmph_type, icmph_chksum, IP_HLEN. unfold le2, le4 in Hd |- *. cbn [app] in Hd |- *.
  rewrite ?st8_off, ?ld16_off.
  do 3 mem_step Hd. rewrite ?ld16_off, ?st16_off. mem_step Hd. rewrite of_le2_le2 by done. rewrite ?st16_off.
  do 5 mem_step Hd. subst r. reflexivity.
Qed.

(** The reply on its way: [ip_output_if] with the header in the packet. *)
Lemma included_sends n p a f mac s' tos len id dst src m b :
  let d := ip_header tos len id ICMP_TTL IP_PROTO_ICMP dst src ++ m in
  whole (n_heap n) p d b -> p_ref b = 1 -> 14 <= (p_payload b).2 -> Z.of_nat (length d) + 14 < 65536 ->
  sends n a f -> arp_ok (n_arp n) -> reaches (n_arp n) f src mac s' -> nf_mtu f = 0 \/ Z.of_nat (length d) <= nf_mtu f ->
  is_u16 len -> is_u32 src -> is_u32 dst ->
  exists n1, ip_output_if p dst None ICMP_TTL 0 IP_PROTO_ICMP a n = call_linkoutput a p n1 /\
    whole (n_heap n1) p (eth_header mac (nf_hwaddr f) ++ d) (moved 14 b) /\ others p (n_heap n) (n_heap n1) /\
    n1 = n_set_heap (n_heap n1) (n_set_arp s' n).
Proof.
  intros d Hw Href Ho Hl Hsn Hok Hreach Hmtu Hlen Hsrc Hdst.
  destruct (ip_header_words tos len id ICMP_TTL IP_PROTO_ICMP dst src Hlen Hdst Hsrc) as (_ & _ & _ & _ & _ & V6).
  destruct (call_output_sends n a p (mkSeg p p d) [] b src mac s' f) as (n1 & E1 & P1 & S1); try done.
  { by apply (whole_room _ _ _ _ _ Hw). }
  assert (length (eth_header mac (nf_hwaddr f)) = 14%nat) as Le.
  { unfold eth_header. rewrite !length_app, (reaches_length _ _ _ _ _ Hreach), (st_addr _ (sn_station _ _ _ Hsn)). done. }
  exists n1. split; [|split; [|split; [by eapply others_pushed|done]]].
  - unfold ip_output_if. erewrite bind_step by (by eapply pb_whole). cbv beta. erewrite bind_step by (apply assert_at; by apply bool_decide_eq_true). cbv beta.
    erewrite bind_step by (by apply netif_at_at, (sn_at _ _ _ Hsn)). cbv beta. erewrite bind_step by (by eapply pb_whole). cbv beta.
    erewrite bind_step by (eapply ld32_hdr; [exact (wh_bytes _ _ _ _ Hw)|done|done]). cbv beta. rewrite V6.
    erewrite bind_step by (by eapply pb_whole). cbv beta. rewrite (wh_tot _ _ _ _ Hw).
    replace (bool_decide (nf_mtu f <> 0) && bool_decide (Z.of_nat (length d) > nf_mtu f)) with false; [done|].
    symmetry. apply andb_false_iff. destruct Hmtu as [Hm|Hm]; [left|right]; apply bool_decide_eq_false; lia.
  - pose proof (pushed_whole _ _ _ _ _ _ P1 Hw) as Hp. rewrite Le in Hp. apply Hp. rewrite length_app, Le. lia.
Qed.

(** The state after the reply. *)
Record answered (n n1 : Net E) (p : Z) (d : list Z) (b : pbuf) (s' : ArpState) : Prop := {
  an_pkt : whole (n_heap n1) p d b;
  an_others : others p (n_heap n) (n_heap n1);
  an_rest : n1 = n_set_heap (n_heap n1) (n_set_arp s' n);
}.

Definition echo_packet (tos id ttl src dst type code c : Z) (x : list Z) : list Z :=
  ip_header tos (Z.of_nat (length (echo_msg type code c x)) + IP_HLEN) id ttl IP_PROTO_ICMP src dst ++ echo_msg type code c x.

Lemma icmp_input_answers n p a f mac s' tos id ttl src dst code c x b :
  whole (n_heap n) p (echo_packet tos id ttl src dst ICMP_ECHO code c x) b -> 14 <= (p_payload b).2 -> Z.of_nat (length x) + 38 < 65536 -> p_ref b = 1 ->
  current_iphdr_src (n_ip n) = src -> current_iphdr_dest (n_ip n) = dst -> ip_addr_ismulticast dst = false ->
  is_u8 code -> is_u16 c -> bytes x -> 4 <= Z.of_nat (length x) -> is_u32 src -> is_u32 dst -> inet_chksum (echo_msg ICMP_ECHO code c x) = 0 ->
  sends n a f -> arp_ok (n_arp n) -> reaches (n_arp n) f src mac s' -> nf_mtu f = 0 \/ Z.of_nat (length x) + 24 <= nf_mtu f ->
  exists n1 , icmp_input p a n = (_ ← call_linkoutput a p; drop p) n1 /\
    answered n n1 p (eth_header mac (nf_hwaddr f) ++ echo_packet tos id ICMP_TTL dst src ICMP_ER code (echo_chksum c) x) (moved 14 b) s'.
Proof.
  unfold echo_packet. set (m := echo_msg ICMP_ECHO code c x). set (ih := ip_header _ _ _ _ _ _ _).
  intros Hw Ho Hlx Href Cs Cd Hmc Hcode Hc Hx Hx4 Hsrc Hdst Hck Hsn Hok Hreach Hmtu.
  set (m' := echo_msg ICMP_ER code (echo_chksum c) x). assert (length m = (4 + length x)%nat /\ length m' = length m) as [Lm Lm'] by done. rewrite Lm'.
  assert (length ih = 20%nat) as Lih by done. set (q := p_payload b) in *.
  destruct (pull_step n p ih m b Hw) as [E1 W1]; [lia|]. rewrite Lih in E1, W1. change (- Z.of_nat 20) with (-20) in E1, W1.
  set (b1 := moved (-20) b) in *. set (n1 := n_set_heap (put p b1 (n_heap n)) n) in *.
  assert (bytes m) as Hbm.
  { unfold m, echo_msg. repeat apply Forall_app_2; [|apply le2_bytes|done]. repeat (constructor; [done || (unfold ICMP_ECHO; unw; lia)|]). constructor. }
  assert (nbytes q (ih ++ m) n1) as Hb1 by exact (wh_bytes _ _ _ _ Hw).
  pose proof (wh_bytes _ _ _ _ W1) as Hbm1. change (nbytes (p_payload b1) m n1) in Hbm1.
  unfold icmp_input. erewrite bind_step by (by eapply pb_whole). cbv beta. fold q.
  erewrite bind_step by (eapply (hl_at q (tail ih) n m); exact (wh_bytes _ _ _ _ Hw)). cbv beta zeta. change (5 * 4) with 20.
  erewrite bind_step by exact E1. cbv beta. erewrite bind_step by (by eapply pb_whole). cbv beta. rewrite (wh_tot _ _ _ _ W1), Lm.
  rewrite (bool_decide_false (0 <> 0)), bool_decide_false by lia. cbn [orb]. erewrite bind_step by (by eapply pb_whole). cbv beta.
  erewrite bind_step by (eapply (ld8_hdr _ _ [ICMP_ECHO]); [exact Hbm1|done|done]). cbv beta. rewrite bool_decide_true by done.
  erewrite bind_step by reflexivity. cbv beta. change (n_ip n1) with (n_ip n). rewrite Cd, Hmc. unfold sizeof_icmp_echo_hdr. rewrite bool_decide_false by lia.
  erewrite bind_step by (eapply pbuf_data_at, whole_packet; exact W1). cbv beta. cbn [map sg_data]. rewrite chksum_pbuf_one by (done || lia).
  rewrite Hck, bool_decide_false by lia.
  erewrite bind_step by (eapply echo_room_in_place; [exact W1|unfold b1, moved; cbn [p_payload snd]; fold q; lia|lia]). cbv beta.
  assert (p_payload b1 = at_off q 20) as Hpay.
  { unfold b1, moved, at_off. cbn [p_payload]. fold q. done. }
  pose proof (echo_reply_writes n1 p a tos _ id ttl src dst code c x b1 q (wh_buf _ _ _ _ W1) Hpay Hb1 Hc Cs Cd) as Hrep. fold m' in Hrep.
  set (ih' := ip_header tos (Z.of_nat (length m) + IP_HLEN) id ICMP_TTL IP_PROTO_ICMP dst src) in *. set (n2 := nset q (ih' ++ m') n1) in *.
  assert (length ih' = 20%nat) as Lih' by done. assert (length (ih' ++ m') = length (ih ++ m)) as Ld by (rewrite !length_app, Lih, Lih', Lm'; done).
  set (n3 := n_set_heap (put p b (n_heap n2)) n2).
  assert (whole (n_heap n2) p m' b1 /\ nbytes q (ih' ++ m') n2) as [W2 Hb2].
  { assert (nbytes q (ih' ++ m') n2) as Hb2 by (by apply (nset_bytes q (ih ++ m))). split; [|done]. pose proof W1 as [X1 X2 X3 X4 X5 X6 X7 X8 X9]. split; rewrite ?Lm'; try done.
    - cbn [n_heap n_set_heap n2 nset]. by rewrite set_bytes_pbufs.
    - rewrite Hpay. change 20 with (Z.of_nat (length ih')). by eapply bytes_at_drop. }
  assert (on_heap (pbuf_header p 20) n2 = Ret (n3, 0) /\ whole (n_heap n3) p (ih' ++ m') b) as [E3 W3].
  { destruct (push_step n2 p ih' m' b1 W2) as [E3 W3]; try (rewrite ?length_app, ?Lih', ?Lm', ?Lm; lia).
    - rewrite Hpay, at_off_off, Lih'. change (20 + - Z.of_nat 20) with 0. unfold at_off. rewrite Z.add_0_r. by destruct q.
    - rewrite Lih' in E3, W3. unfold b1 in E3, W3. change (Z.of_nat 20) with (- (-20)) in E3, W3. rewrite moved_moved in E3, W3. by split. }
  destruct (included_sends n3 p a f mac s' tos (Z.of_nat (length m) + IP_HLEN) id dst src m' b W3) as (n4 & E4 & W4 & O4 & S4); try done.
  { fold ih'. rewrite length_app, Lih', Lm', Lm. lia. }
  { destruct Hsn as [K1 K2 K3 K4 K5 K6]. by split. }
  { fold ih'. rewrite length_app, Lih', Lm', Lm. lia. }
  { unfold IP_HLEN. rewrite Lm. unw. lia. }
  exists n4. split; [|split; [exact W4| |exact S4]].
  - unfold mbind at 1, net_bind at 1. rewrite Hrep. unfold mbind at 1, net_bind at 1. rewrite E3, bool_decide_false by lia. unfold mbind, net_bind. rewrite E4.
    by destruct (call_linkoutput _ _ _) as [[? ?]| |].
  - eapply others_trans; [|exact O4]. eapply others_trans; [apply (others_put p b1)|]. eapply others_trans; [|apply others_put].
    apply others_set. exact (wh_own _ _ _ _ Hw).
Qed.

(** An echo request for the interface is answered: a frame from the driver,
    perhaps with padding behind it, that holds a request with a right checksum.
    What the driver gets back is the same packet, addresses exchanged, a new
    time to live, both checksums new and the padding cut off, behind the
    Ethernet header for the sender; it checks at the receiver, unless its
    message is all zeros.  The packet is freed then and the variables of the
    current packet are cleared; nothing else has changed but the hint of
    ARP. *)
Lemma echo_answered n p a f dmac smac mac s' tos id ttl src dst code c x pad b :
  whole (n_heap n) p (eth_header dmac smac ++ echo_packet tos id ttl src dst ICMP_ECHO code c x ++ pad) b -> pbufs (n_heap n) !! 0 = None -> p_ref b = 1 ->
  for_host n a f src dst -> raw_pcbs (n_raw n) = [] -> Z.land (nf_flags f) NETIF_FLAG_ETHARP <> 0 -> length dmac = 6%nat -> length smac = 6%nat ->
  is_u8 tos -> is_u8 ttl -> is_u8 code -> is_u16 c -> bytes x -> 4 <= Z.of_nat (length x) -> is_u32 src -> is_u32 dst -> ip_addr_ismulticast dst = false ->
  inet_chksum (echo_msg ICMP_ECHO code c x) = 0 ->
  sends n a f -> arp_ok (n_arp n) -> reaches (n_arp n) f src mac s' -> nf_mtu f = 0 \/ Z.of_nat (length x) + 24 <= nf_mtu f ->
  let reply := echo_msg ICMP_ER code (echo_chksum c) x in
  exists n1 b', ethernet_input p a n = (_ ← call_linkoutput a p; _ ← drop p; _ ← set_current 0 null_ptr IPADDR_ANY IPADDR_ANY; mret ERR_OK) n1 /\
    whole (n_heap n1) p (eth_header mac (nf_hwaddr f) ++ echo_packet tos id ICMP_TTL dst src ICMP_ER code (echo_chksum c) x) b' /\ p_ref b' = 1 /\
    others p (n_heap n) (n_heap n1) /\
    n1 = n_set_heap (n_heap n1) (n_set_arp s' (delivering a (at_off (p_payload b) 14) (addressed src dst n))) /\
    (inet_chksum reply = 0 \/ Forall (fun y => y = 0) ([ICMP_ER; code] ++ x)).
Proof.
  intros Hw H0p Href Hfor Hraw Harp Hdm Hsm Htos Httl Hcode Hc Hx Hx4 Hsrc Hdst Hmc Hck Hsn Hok Hreach Hmtu reply.
  pose proof (wh_nz _ _ _ _ Hw) as Hp0. pose proof (wh_u16 _ _ _ _ Hw) as H16. pose proof (wh_bytes _ _ _ _ Hw) as (m0 & _ & Hoff & _)%bytes_at_inv.
  assert (length (eth_header dmac smac) = 14%nat) as Le by (unfold eth_header; rewrite !length_app, Hdm, Hsm; done).
  unfold echo_packet in H16. rewrite !length_app, Le, ip_header_length in H16. change (length (echo_msg ICMP_ECHO code c x)) with (4 + length x)%nat in H16.
  destruct (ethernet_input_ip n p a f dmac smac _ b Hw) as (b1 & E1 & W1 & P1 & R1); try done; [exact (fh_if _ _ _ _ _ Hfor)|].
  set (n1 := n_set_heap (put p b1 (n_heap n)) n) in *.
  destruct (ip_input_local n1 p a f tos id ttl IP_PROTO_ICMP src dst (echo_msg ICMP_ECHO code c x) pad b1) as (b2 & E2 & W2 & P2 & R2); try done.
  { unfold n1. cbn [n_heap n_set_heap]. by rewrite put_other. }
  { by destruct Hfor; split. }
  set (n2 := addressed src dst _) in *.
  assert (ip_local p a (p_payload b2) n2 = (_ ← icmp_input p a; set_current 0 null_ptr IPADDR_ANY IPADDR_ANY) (delivering a (p_payload b2) n2)) as E3.
  { erewrite (ip_local_delivers n2 p a); [|exact W2|done| |done|done|by right].
    - by rewrite bool_decide_false by done.
    - change (length (echo_msg ICMP_ECHO code c x)) with (4 + length x)%nat. unfold IP_HLEN. unw. lia. }
  set (n3 := delivering a (p_payload b2) n2) in *.
  destruct (icmp_input_answers n3 p a f mac s' tos id ttl src dst code c x b2) as (n4 & E4 & [W4 O4 S4]); try done.
  { rewrite P2, P1. cbn [snd at_off]. lia. }
  { lia. }
  { by rewrite R2, R1. }
  { destruct Hsn as [K1 K2 K3 K4 K5 K6]. by split. }
  exists n4, (moved 14 b2). split; [|split; [exact W4|split; [by rewrite <-Href, <-R1, <-R2|split; [|split]]]].
  - rewrite E1. unfold mbind at 1, net_bind at 1. rewrite E2. unfold mbind at 1, net_bind at 1. rewrite E3. unfold mbind at 1, net_bind at 1. rewrite E4.
    unfold mbind, net_bind. destruct (call_linkoutput _ _ _) as [[n5 r]| |]; [|done|done]. by destruct (drop p n5) as [[? ?]| |].
  - eapply others_trans; [|exact O4]. eapply others_trans; apply others_put.
  - rewrite S4. unfold n3. rewrite P2, P1. reflexivity.
  - destruct (echo_chksum_spec code c x) as [Hz|[-> Hz]]; try done; [lia|by left|]. right. by repeat constructor.
Qed.

End Echo.

(** ** Two hosts

    192.168.0.1 pings 192.168.0.2. *)

#[local] Existing Instance demo_malloc.

Definition ping_data : list Z := [0; 1; 0; 7; 104; 105].
Definition ping_of_1 : list Z :=
  eth_header (mac_of 2) (mac_of 1) ++ echo_packet 0 99 64 (host 1) (host 2) ICMP_ECHO 0 (inet_chksum (echo_msg ICMP_ECHO 0 0 ping_data)) ping_data.
Definition pinged : Net (list (list Z)) := demo_host 2 1 9 1 0 (ping_of_1 ++ replicate 20 0).

(** The reply on the link, and what a receiver makes of its checksums. *)
Example demo_ping : exists n' d, ethernet_input 8 1 pinged = Ret (n', ERR_OK) /\ n_ext n' = [d] /\
  inet_chksum (take 20 (skipn 14 d)) = 0 /\ inet_chksum (skipn 34 d) = 0 /\ skipn 38 d = ping_data.
Proof. eexists _, _. split; [vm_compute; reflexivity|]. split; [vm_compute; reflexivity|]. split; [|split]; vm_compute; reflexivity. Qed.

Lemma echo_answered_witness : exists n1, ethernet_input 8 1 pinged = (_ ← call_linkoutput 1 8; _ ← drop 8; _ ← set_current 0 null_ptr IPADDR_ANY IPADDR_ANY; mret ERR_OK) n1 /\
  exists c b, whole (n_heap n1) 8 (eth_header (mac_of 1) (mac_of 2) ++ echo_packet 0 99 255 (host 2) (host 1) ICMP_ER 0 c ping_data) b.
Proof.
  destruct (echo_answered pinged 8 1 (demo_if 2) (mac_of 2) (mac_of 1) (mac_of 1) (one_host (mkEntry 0 (host 1) 1 (mac_of 1) ETHARP_STATE_STABLE 0))
    0 99 64 (host 1) (host 2) 0 (inet_chksum (echo_msg ICMP_ECHO 0 0 ping_data)) ping_data (replicate 20 0) (mkPbuf 0 (8, 0) 64 64 PBUF_RAM 0 1)) as (n1 & b' & E1 & W1 & _).
  - split; try done. eexists. split; [reflexivity|]. vm_compute. reflexivity.
  - reflexivity.
  - reflexivity.
  - split; try done; vm_compute; done.
  - reflexivity.
  - by vm_compute.
  - reflexivity.
  - reflexivity.
  - by vm_compute.
  - by vm_compute.
  - by vm_compute.
  - by vm_compute.
  - by repeat constructor.
  - by vm_compute.
  - by vm_compute.
  - by vm_compute.
  - by vm_compute.
  - by vm_compute.
  - split; [done|done|by split|done|done|by vm_compute].
  - apply arp_ok_one. split; cbn; [by vm_compute|by vm_compute|done|done|done].
  - right. right. split; [reflexivity|]. split; [reflexivity|]. exists (host 1), 0. split; [reflexivity|].
    split; [|split; reflexivity]. eexists. split; [reflexivity|]. split; [by vm_compute|]. split; [reflexivity|]. split; [reflexivity|]. by vm_compute.
  - right. by vm_compute.
  - exists n1. split; [exact E1|]. eexists _, b'. exact W1.
Defined.

(** A request with nothing in it but its type and its checksum: the reply is
    all zeros, and no receiver takes it. *)
Example demo_ping_zero : inet_chksum (echo_msg ICMP_ECHO 0 0xfff7 [0; 0; 0; 0]) = 0 /\
  echo_chksum 0xfff7 = 0 /\ inet_chksum (echo_msg ICMP_ER 0 (echo_chksum 0xfff7) [0; 0; 0; 0]) = 0xffff.
Proof. by vm_compute. Qed.
