(* ===== verification/ArpInput.v ===== *)
(** * Received ARP packets

    Theorems on [etharp_arp_input]: what is learned from a packet, the answer
    to a request, and the packet that waited for an answer. *)

From stdpp Require Import gmap.
From S2P Require Import Prelude LwipDef InetChksum IpAddr Pbuf PbufOps PbufData NetState NetMem Etharp EtharpOps ArpTable IpOut Icmp Raw Udp UdpSend IpReass IpIn IpRecv UdpRecv.

(** ** Packets *)

(** An ARP packet in its Ethernet frame. *)
Definition arp_frame (edst esrc : list Z) (op : Z) (smac : list Z) (sip : Z) (tmac : list Z) (tip : Z) : list Z :=
  (edst ++ esrc ++ le2 (PP_HTONS ETHTYPE_ARP)) ++
  le2 (PP_HTONS HWTYPE_ETHERNET) ++ le2 (PP_HTONS ETHTYPE_IP) ++ [ETHARP_HWADDR_LEN; 4] ++ le2 (lwip_htons op) ++ smac ++ le4 sip ++ tmac ++ le4 tip.

(** An address of a single host. *)
Definition unicast (f : netif) (ip : Z) : Prop :=
  ip_addr_isany ip = false /\ ip4_addr_isbroadcast ip f = 0 /\ ip_addr_ismulticast ip = false.

(** The memory of [p] is not that of a packet that waits. *)
Definition not_waiting (p : Z) (t : list etharp_entry) (qs : Z -> list Z) : Prop := forall i e, rd t i = Some e -> ae_q e <> 0 -> p ∉ qs i.

Lemma release_mem l h a : a ∉ l -> mem (release l h) !! a = mem h !! a.
Proof. intros Ha. rewrite (proj2 (release_lookup _ _ _)). by rewrite bool_decide_false. Qed.

Section Arp.
Context {E : Type} `{Malloc, LinkDriver E}.
Implicit Types n : Net E.

Lemma found_keeps ip flags n qs n' i p d : found ip flags n qs n' i -> not_waiting p.1 (arp_table (n_arp n)) qs -> nbytes p d n -> nbytes p d n'.
Proof.
  intros Hf Hp (m & Hm & Hs). destruct Hf as [i a _ _ _|_ _|i a _ _ Ha _]; [by exists m|by exists m|]. exists m. split; [|done].
  cbn [n_heap n_set_heap]. rewrite release_mem; [done|]. unfold waits. case_bool_decide; [by apply (Hp i a)|by intros ?%elem_of_nil].
Qed.

Lemma nbytes_arp s q d n : nbytes q d n -> nbytes q d (n_set_arp s n).
Proof. done. Qed.

Lemma found_if ip flags n qs n' i : found ip flags n qs n' i -> n_if n' = n_if n.
Proof. by intros []. Qed.

(** What [etharp_update_arp_entry] does when it was told that [d] is the
    Ethernet address of [sip]. *)
Lemma update_spec a f sip q d flags n qs :
  netifs (n_if n) !! a = Some f -> station f -> unicast f sip -> arp_ok (n_arp n) -> queues (n_heap n) (arp_table (n_arp n)) qs -> pbufs (n_heap n) !! 0 = None ->
  nbytes q d n -> length d = 6%nat -> not_waiting q.1 (arp_table (n_arp n)) qs ->
  exists n1 i, found sip flags n qs n1 i /\
    ((i < 0 /\ etharp_update_arp_entry a sip q flags n = Ret (n1, i)) \/
     exists e, rd (arp_table (n_arp n1)) i = Some e /\
       let n2 := n_set_arp (with_entry i (learned a sip d) (n_arp n1)) n1 in
       etharp_update_arp_entry a sip q flags n =
         if bool_decide (ae_q e <> 0) then (_ ← etharp_send_ip a (ae_q e) (nf_hwaddr f) d; _ ← on_heap (pbuf_free (ae_q e)); mret ERR_OK) n2
         else Ret (n2, ERR_OK)).
Proof.
  intros Hf [Hl _] (U1 & U2 & U3) Hok Hq Hn0 Hb Hd Hnw. destruct (find_entry_spec sip flags n qs Hok Hq Hn0) as (n1 & i & E1 & F1).
  exists n1, i. split; [done|]. destruct (found_ok _ _ _ _ _ _ Hok Hq Hn0 F1) as (Hok1 & _ & _ & Hcl). pose proof (found_keeps _ _ _ _ _ _ _ _ F1 Hnw Hb) as Hb1. clear Hb.
  unfold etharp_update_arp_entry. erewrite bind_step by (by apply netif_at_at). cbv beta. erewrite bind_step by (apply assert_at; by rewrite Hl). cbv beta.
  rewrite U1, U3, (bool_decide_false (ip4_addr_isbroadcast sip f <> 0)) by lia. cbn [orb]. erewrite bind_step by exact E1. cbv beta.
  destruct (decide (i < 0)) as [Hi|Hi]; [left; split; [done|]; by rewrite bool_decide_true by done|right]. rewrite bool_decide_false by done.
  destruct (Hcl ltac:(lia)) as (e & He & Hip & _). exists e. split; [done|].
  assert (forall b, rd (arp_table (with_entry i b (n_arp n1))) i = Some b) as Hrw by (intros b; rewrite (rd_with _ _ _ _ _ He); by rewrite bool_decide_true by done).
  assert (forall s, ldn q 0 ETHARP_HWADDR_LEN (n_set_arp s n1) = Ret (n_set_arp s n1, d)) as Hld.
  { intros s. erewrite ldn_here; [|exact Hb1|done|done|unfold ETHARP_HWADDR_LEN; lia]. change (Z.to_nat ETHARP_HWADDR_LEN) with 6%nat. rewrite <-Hd. by rewrite firstn_all. }
  erewrite bind_step by (by apply upd_at). cbv beta.
  erewrite bind_step by (apply upd_at; apply Hrw). cbv beta. cbn [n_arp n_set_arp]. rewrite with_entry_twice. change (n_set_arp ?s (n_set_arp _ n1)) with (n_set_arp s n1).
  erewrite bind_step by apply Hld. cbv beta.
  erewrite bind_step by (apply upd_at; apply Hrw). cbv beta. cbn [n_arp n_set_arp]. rewrite with_entry_twice. change (n_set_arp ?s (n_set_arp _ n1)) with (n_set_arp s n1).
  erewrite bind_step by (apply upd_at; apply Hrw). cbv beta. cbn [n_arp n_set_arp]. rewrite with_entry_twice. change (n_set_arp ?s (n_set_arp _ n1)) with (n_set_arp s n1).
  erewrite bind_step by (apply arp_get_at; apply Hrw). cbv beta. cbn [ae_set_ctime ae_set_ethaddr ae_set_netif ae_set_state ae_q].
  destruct e as [q0 ip0 nf0 m0 s0 c0]. cbn [ae_q ae_ipaddr] in *. subst ip0. destruct (decide (q0 = 0)) as [->|Hq0].
  - rewrite (bool_decide_false (0 <> 0)) by lia. done.
  - rewrite (bool_decide_true (q0 <> 0)) by done. erewrite bind_step by (apply upd_at; apply Hrw). cbv beta. cbn [n_arp n_set_arp]. rewrite with_entry_twice.
    change (n_set_arp ?s (n_set_arp _ n1)) with (n_set_arp s n1). erewrite bind_step by apply Hld. done.
Qed.

(** C20: An answer for which a packet has waited: the packet leaves for the station
    that answered, behind an Ethernet header, and is freed; the table knows the
    station. *)
Theorem arp_waiting_sent a f sip q d flags n qs i e b x r :
  netifs (n_if n) !! a = Some f -> station f -> unicast f sip -> arp_ok (n_arp n) -> queues (n_heap n) (arp_table (n_arp n)) qs -> pbufs (n_heap n) !! 0 = None ->
  nbytes q d n -> length d = 6%nat -> not_waiting q.1 (arp_table (n_arp n)) qs ->
  rd (arp_table (n_arp n)) i = Some e -> ae_state e <> ETHARP_STATE_EMPTY -> ae_ipaddr e = sip -> ae_q e <> 0 ->
  pbufs (n_heap n) !! ae_q e = Some b -> nbytes (p_payload b) (x ++ r) n -> length x = 14%nat ->
  let s := with_entry i (learned a sip d) (n_arp n) in
  arp_ok s /\
  etharp_update_arp_entry a sip q flags n =
    (_ ← call_linkoutput a (ae_q e); _ ← on_heap (pbuf_free (ae_q e)); mret ERR_OK) (nset (p_payload b) (eth_header d (nf_hwaddr f) ++ r) (n_set_arp s n)).
Proof.
  intros Hf Hst Hu Hok Hq Hn0 Hb Hd Hnw He He0 Hip Heq Hbuf Hx Hx14 s.
  destruct (update_spec a f sip q d flags n qs Hf Hst Hu Hok Hq Hn0 Hb Hd Hnw) as (n1 & j & F1 & Hcase).
  assert (n1 = n /\ j = i) as [-> ->].
  { destruct F1 as [j c Hc Hc0 Hcip|Hab _|j c Hab _ Hc _].
    - split; [done|]. by apply (ao_distinct _ Hok j i c e); [..|congruence].
    - apply rd_Some in He as [_ He]. by destruct (Hab e); [by apply list_elem_of_lookup_2 in He|..].
    - apply rd_Some in He as [_ He]. by destruct (Hab e); [by apply list_elem_of_lookup_2 in He|..]. }
  split.
  - apply learned_ok; [done| |done]. exists e. split_and!; [done|done| |by eapply eo_age; [eapply ao_entry|]]. rewrite <-Hip. by apply alone_own.
  - pose proof (rd_range _ _ _ He) as Hi. destruct Hcase as [[Hneg _]|(e' & He' & Hupd)]; [lia|]. rewrite He in He'. injection He' as <-.
    cbn zeta in Hupd. rewrite bool_decide_true in Hupd by done. rewrite Hupd. fold s. unfold mbind, net_bind. destruct Hst as [Hl Hhw].
    by erewrite (send_ip_spec a (ae_q e) (nf_hwaddr f) d (n_set_arp s n) b f x r).
Qed.

(** ** Requests *)

Ltac six d := do 6 (destruct d as [|? d]; [done|]); destruct d; [|done].

Ltac arp_offsets := unfold SIZEOF_ETH_HDR, eth_dest, eth_src, eth_type, arp_hwtype, arp_proto, arp_hwlen, arp_protolen, arp_opcode, arp_shwaddr, arp_sipaddr, arp_dhwaddr, arp_dipaddr, ETHARP_HWADDR_LEN.

Ltac arp_step Hb := rewrite ?st16_off, ?ldn_off, ?stn_off, ?st32_off; arp_offsets; mem_step Hb.

Lemma arp_reply_spec a p f q edst esrc op smac sip tmac tip pad n : station f -> length edst = 6%nat -> length esrc = 6%nat -> length smac = 6%nat -> length tmac = 6%nat ->
  nbytes q (arp_frame edst esrc op smac sip tmac tip ++ pad) n ->
  arp_reply a p f q (at_off q SIZEOF_ETH_HDR) n =
    (_ ← call_linkoutput a p; mret ()) (nset q (arp_frame smac (nf_hwaddr f) ARP_REPLY (nf_hwaddr f) (nf_ip_addr f) smac sip ++ pad) n).
Proof.
  intros [Hl Hhw] L1 L2 L3 L4 Hb. unfold arp_frame in *. six edst. six esrc. six smac. six tmac. destruct (nf_hwaddr f) as [|? hw] eqn:Ehw; [done|].
  do 5 (destruct hw as [|? hw]; [done|]). destruct hw; [|done]. clear L1 L2 L3 L4 Hhw.
  unfold arp_reply. rewrite Ehw. cbn [app] in Hb. rewrite (nset_start _ _ _ Hb) at 1. unfold le2, le4 in *. cbn [app] in Hb |- *.
  do 4 arp_step Hb. erewrite bind_step by (apply assert_at; by rewrite Hl). cbv beta. do 6 arp_step Hb. done.
Qed.

Lemma arp_words edst esrc op smac sip tmac tip pad : length edst = 6%nat -> length esrc = 6%nat -> length smac = 6%nat -> length tmac = 6%nat -> is_u32 sip -> is_u32 tip ->
  let d := arp_frame edst esrc op smac sip tmac tip ++ pad in
  at16 d 14 = PP_HTONS HWTYPE_ETHERNET /\ at16 d 16 = PP_HTONS ETHTYPE_IP /\ at8 d 18 = ETHARP_HWADDR_LEN /\ at8 d 19 = 4 /\
  at16 d 20 = lwip_htons op /\ at32 d 28 = sip /\ at32 d 38 = tip /\ exists pre post, d = pre ++ smac ++ post /\ length pre = 22%nat.
Proof.
  intros L1 L2 L3 L4 Hs Ht d. assert (exists pre post, d = pre ++ smac ++ post /\ length pre = 22%nat) as Hpre.
  { exists (edst ++ esrc ++ le2 (PP_HTONS ETHTYPE_ARP) ++ le2 (PP_HTONS HWTYPE_ETHERNET) ++ le2 (PP_HTONS ETHTYPE_IP) ++ [ETHARP_HWADDR_LEN; 4] ++ le2 (lwip_htons op)), (le4 sip ++ tmac ++ le4 tip ++ pad).
    split; [subst d; unfold arp_frame; by rewrite <-!app_assoc|]. rewrite !length_app, L1, L2. done. }
  split_and!; [..|exact Hpre]; clear Hpre; subst d; unfold arp_frame; six edst; six esrc; six smac; six tmac;
    unfold at32, at16, at8; mem_nat; cbn [app le2 le4 nth]; try done.
  - apply of_le2_le2, htons_range.
  - by apply of_le4_le4.
  - by apply of_le4_le4.
Qed.

Lemma arp_len edst esrc op smac sip tmac tip : length edst = 6%nat -> length esrc = 6%nat -> length smac = 6%nat -> length tmac = 6%nat ->
  length (arp_frame edst esrc op smac sip tmac tip) = 42%nat.
Proof. intros L1 L2 L3 L4. unfold arp_frame. rewrite !length_app, L1, L2, L3, L4. done. Qed.

(** C19: A request for the address of the interface.  The packet goes back with
    the addresses exchanged and the interface's own in it, and is freed; the
    table knows the sender. *)
Theorem arp_request_answered n p a f b edst esrc smac sip tmac pad qs :
  whole (n_heap n) p (arp_frame edst esrc ARP_REQUEST smac sip tmac (nf_ip_addr f) ++ pad) b ->
  length edst = 6%nat -> length esrc = 6%nat -> length smac = 6%nat -> length tmac = 6%nat -> is_u32 sip -> is_u32 (nf_ip_addr f) ->
  netifs (n_if n) !! a = Some f -> a <> 0 -> station f -> ip_addr_isany (nf_ip_addr f) = false -> unicast f sip ->
  arp_ok (n_arp n) -> queues (n_heap n) (arp_table (n_arp n)) qs -> pbufs (n_heap n) !! 0 = None ->
  not_waiting p (arp_table (n_arp n)) qs ->
  (forall i e, rd (arp_table (n_arp n)) i = Some e -> ae_state e <> ETHARP_STATE_EMPTY -> ae_ipaddr e = sip -> ae_q e = 0) ->
  exists n', etharp_arp_input a p n = (_ ← call_linkoutput a p; _ ← on_heap (pbuf_free p); mret ()) n' /\
    whole (n_heap n') p (arp_frame smac (nf_hwaddr f) ARP_REPLY (nf_hwaddr f) (nf_ip_addr f) smac sip ++ pad) b /\
    arp_ok (n_arp n') /\ exists i, rd (arp_table (n_arp n')) i = Some (learned a sip smac).
Proof.
  intros Hw L1 L2 L3 L4 Hs32 Ht32 Hf Ha Hst Hany Hu Hok Hq Hn0 Hnw Hnq. pose proof Hw as [W1 W2 W3 W4 W5 W6 W7 W8 W9].
  set (D := arp_frame _ _ _ _ _ _ _ ++ pad) in *. set (q := p_payload b) in *.
  destruct (arp_words edst esrc ARP_REQUEST smac sip tmac (nf_ip_addr f) pad L1 L2 L3 L4 Hs32 Ht32) as (A1 & A2 & A3 & A4 & A5 & A6 & A7 & pre & post0 & Hpp & Hpl). fold D in A1, A2, A3, A4, A5, A6, A7, Hpp.
  assert (42 <= Z.of_nat (length D)) as HD by (subst D; rewrite length_app, arp_len by done; lia).
  assert (nbytes (at_off (at_off q SIZEOF_ETH_HDR) arp_shwaddr) smac n) as Hsm.
  { rewrite at_off_off. unfold nbytes. rewrite Hpp in W3. apply bytes_at_drop in W3. rewrite Hpl in W3. by apply bytes_at_take in W3. }
  destruct (update_spec a f sip (at_off (at_off q SIZEOF_ETH_HDR) arp_shwaddr) smac ETHARP_FLAG_TRY_HARD n qs Hf Hst Hu Hok Hq Hn0 Hsm L3) as (n1 & i & F1 & Hcase).
  { cbn [fst at_off]. by rewrite W8. }
  destruct (found_ok _ _ _ _ _ _ Hok Hq Hn0 F1) as (Hok1 & _ & _ & Hcl).
  assert (0 <= i /\ forall e, rd (arp_table (n_arp n1)) i = Some e -> ae_q e = 0) as [Hi He0].
  { destruct F1 as [i c Hc Hc0 Hcip|_ [Hx|[_ Hx]]|i c _ _ Hc _].
    - split; [apply rd_range in Hc; lia|]. intros e He. rewrite Hc in He. injection He as <-. by eapply Hnq.
    - by destruct Hx.
    - by vm_compute in Hx.
    - split; [apply rd_range in Hc; lia|]. intros e. cbn [n_arp n_set_arp n_set_heap]. rewrite (rd_with _ _ _ _ _ Hc), bool_decide_true by done. by intros [= <-]. }
  destruct Hcase as [[Hneg _]|(e & He & Hupd)]; [lia|]. cbn zeta in Hupd. rewrite (He0 e He) in Hupd. rewrite (bool_decide_false (0 <> 0)) in Hupd by lia.
  set (n2 := n_set_arp _ n1) in *. assert (nbytes q D n1) as Hb1 by (eapply found_keeps; [exact F1|rewrite W8; exact Hnw|exact W3]).
  assert (n_if n1 = n_if n) as Hif by (by eapply found_if).
  assert (pbufs (n_heap n1) !! p = Some b) as Hp1.
  { destruct F1 as [? ? _ _ _|_ _|j c _ _ Hc _]; [done|done|]. cbn [n_heap n_set_heap n_set_arp]. rewrite (proj1 (release_lookup _ _ _)), bool_decide_false; [done|].
    unfold waits. case_bool_decide; [by apply (Hnw j c)|by intros ?%elem_of_nil]. }
  pose proof (arp_reply_spec a p f q edst esrc ARP_REQUEST smac sip tmac (nf_ip_addr f) pad n2 Hst L1 L2 L3 L4 Hb1) as Hrep.
  set (D' := arp_frame smac _ _ _ _ _ _ ++ pad) in *. assert (length D' = length D) as HDD.
  { subst D D'. destruct Hst as [_ Hhw]. by rewrite !length_app, !arp_len. }
  exists (nset q D' n2). split; [|split; [|split]].
  - unfold etharp_arp_input. erewrite bind_step by (apply assert_at; by apply bool_decide_eq_true). cbv beta.
    erewrite bind_step by (by apply pb_at). cbv beta. rewrite W4, bool_decide_false by (unfold SIZEOF_ETHARP_PACKET, SIZEOF_ETH_HDR, SIZEOF_ETHARP_HDR; lia).
    erewrite bind_step by (by apply pb_at). cbv beta. fold q. cbv zeta.
    erewrite bind_step by (rewrite ld16_off; eapply ld16_here; [exact W3|done|arp_offsets; lia]). cbv beta.
    erewrite bind_step by (rewrite ld8_off; eapply ld8_here; [exact W3|done|arp_offsets; lia]). cbv beta.
    erewrite bind_step by (rewrite ld8_off; eapply ld8_here; [exact W3|done|arp_offsets; lia]). cbv beta.
    erewrite bind_step by (rewrite ld16_off; eapply ld16_here; [exact W3|done|arp_offsets; lia]). cbv beta.
    change (SIZEOF_ETH_HDR + arp_hwtype) with 14. change (SIZEOF_ETH_HDR + arp_proto) with 16. change (SIZEOF_ETH_HDR + arp_hwlen) with 18. change (SIZEOF_ETH_HDR + arp_protolen) with 19.
    rewrite A1, A2, A3, A4, !bool_decide_false by (by intros []). cbn [orb].
    erewrite bind_step by (rewrite ld32_off; eapply ld32_here; [exact W3|done|arp_offsets; lia]). cbv beta.
    erewrite bind_step by (rewrite ld32_off; eapply ld32_here; [exact W3|done|arp_offsets; lia]). cbv beta.
    change (SIZEOF_ETH_HDR + arp_sipaddr) with 28. change (SIZEOF_ETH_HDR + arp_dipaddr) with 38. rewrite A6, A7.
    erewrite bind_step by (by apply netif_at_at). cbv beta zeta. rewrite Hany. unfold ip_addr_cmp. rewrite bool_decide_true by done.
    erewrite bind_step by exact Hupd. cbv beta.
    erewrite bind_step by (rewrite ld16_off; eapply ld16_here; [exact Hb1|done|arp_offsets; lia]). cbv beta.
    change (SIZEOF_ETH_HDR + arp_opcode) with 20. rewrite A5, bool_decide_true by done. unfold mbind at 1, net_bind at 1. rewrite Hrep.
    unfold mbind, net_bind. by destruct (call_linkoutput _ _ _) as [[? ?]| |].
  - split; try done.
    + cbn [n_heap n_set_heap nset]. by rewrite set_bytes_pbufs.
    + by apply (nset_bytes q D D' n2).
    + by rewrite HDD.
    + by rewrite HDD.
    + by rewrite HDD.
  - unfold tidy in *. cbn [n_arp n_set_arp n_set_heap nset n2]. apply learned_ok; [done|by apply Hcl|done].
  - exists i. cbn [n_arp n_set_arp n_set_heap nset n2]. rewrite (rd_with _ _ _ _ _ He). by rewrite bool_decide_true by done.
Qed.

End Arp.

(** ** Two hosts *)

#[local] Existing Instance demo_malloc.

Definition request_of_1 : list Z := arp_frame ethbroadcast (mac_of 1) ARP_REQUEST (mac_of 1) (host 1) ethzero (host 2).
Definition asked : Net (list (list Z)) := demo_host 2 1 9 1 0 (request_of_1 ++ replicate 18 0).

(** Nobody waits in the table of [demo_host]. *)
Lemma demo_quiet k peer port recv off d qs : queues (n_heap (demo_host k peer port recv off d)) (arp_table (n_arp (demo_host k peer port recv off d))) qs /\
  forall i e, rd (arp_table (n_arp (demo_host k peer port recv off d))) i = Some e -> ae_q e = 0.
Proof.
  assert (forall i e, rd (arp_table (n_arp (demo_host k peer port recv off d))) i = Some e -> ae_q e = 0) as Hq.
  { intros i e [Hi He]%rd_Some. cbn [n_arp demo_host arp_table one_host] in He. destruct (Z.to_nat i) as [|j]; [by injection He as <-|].
    change (replicate 31 empty_entry !! j = Some e) in He. by apply lookup_replicate in He as [-> _]. }
  split; [|done]. split.
  - intros i e He Hne. by destruct (Hne (Hq i e He)).
  - intros i j e e' x He _ Hne. by destruct (Hne (Hq i e He)).
Qed.

Lemma demo_arp_ok k peer port recv off d : arp_ok (n_arp (demo_host k peer port recv off d)).
Proof. apply arp_ok_one. split; cbn; [by vm_compute|by vm_compute|done|done|done]. Qed.

Lemma arp_request_answered_witness : exists n', etharp_arp_input 1 8 asked = (_ ← call_linkoutput 1 8; _ ← on_heap (pbuf_free 8); mret ()) n' /\
  exists b, whole (n_heap n') 8 (arp_frame (mac_of 1) (mac_of 2) ARP_REPLY (mac_of 2) (host 2) (mac_of 1) (host 1) ++ replicate 18 0) b.
Proof.
  destruct (demo_quiet 2 1 9 1 0 (request_of_1 ++ replicate 18 0) (fun _ => [])) as [Hq Hq0].
  destruct (arp_request_answered asked 8 1 (demo_if 2) (mkPbuf 0 (8, 0) 60 60 PBUF_RAM 0 1) ethbroadcast (mac_of 1) (mac_of 1) (host 1) ethzero (replicate 18 0) (fun _ => []))
    as (n' & E1 & W & _).
  - split; try done. eexists. split; [reflexivity|]. vm_compute. reflexivity.
  - reflexivity.
  - reflexivity.
  - reflexivity.
  - reflexivity.
  - by vm_compute.
  - by vm_compute.
  - reflexivity.
  - done.
  - by split.
  - reflexivity.
  - split; [|split]; reflexivity.
  - apply demo_arp_ok.
  - exact Hq.
  - reflexivity.
  - intros i e _ _. apply not_elem_of_nil.
  - intros i e He _ _. by apply (Hq0 i).
  - exists n'. split; [exact E1|]. eexists. exact W.
Defined.

(** Host 1 does not know host 2 yet: it asks, the datagram waits, and leaves
    when the answer has come. *)
Definition stranger : Net (list (list Z)) := n_set_arp (mkArpState (replicate 32 empty_entry) 0) (demo_host 1 2 7 0 56 [1; 2; 3]).
Definition answer_of_2 : list Z := arp_frame (mac_of 1) (mac_of 2) ARP_REPLY (mac_of 2) (host 2) (mac_of 1) (host 1).
Definition with_packet (p : Z) (d : list Z) (n : Net (list (list Z))) : Net (list (list Z)) :=
  n_set_heap (mkHeap (<[p := mkPbuf 0 (p, 0) (Z.of_nat (length d)) (Z.of_nat (length d)) PBUF_RAM 0 1]> (pbufs (n_heap n))) (<[p := d]> (mem (n_heap n))) (customs (n_heap n))) n.

Definition asks : outcome (Net (list (list Z)) * Z) := udp_sendto_if 50 8 (host 2) 9 1 stranger.
Definition resolves : outcome (Net (list (list Z)) * ()) := match asks with Ret (n, _) => etharp_arp_input 1 5000 (with_packet 5000 answer_of_2 n) | _ => Fault end.

Example demo_resolve : exists n, resolves = Ret (n, ()) /\
  n_ext n = [arp_frame ethbroadcast (mac_of 1) ARP_REQUEST (mac_of 1) (host 1) ethzero (host 2);
             udp_frame (mac_of 2) (mac_of 1) 0 77 255 true (host 1) 7 (host 2) 9 [1; 2; 3]].
Proof. eexists. split; vm_compute; reflexivity. Qed.

(** The state between the two. *)
Definition waiting : Net (list (list Z)) := match asks with Ret (n, _) => with_packet 5000 answer_of_2 n | _ => stranger end.

(** What is in it: the packet at [stored] waits in entry 0. *)
Definition stored : Z := 1048576.
Definition stored_buf : pbuf := mkPbuf 0 (stored, 0) 45 45 PBUF_RAM 0 1.
Definition pending : etharp_entry := mkEntry stored (host 2) 0 ethzero ETHARP_STATE_PENDING 0.
Definition stored_ip : list Z := skipn 14 (udp_frame (mac_of 2) (mac_of 1) 0 77 255 true (host 1) 7 (host 2) 9 [1; 2; 3]).

Lemma waiting_arp : n_arp waiting = one_host pending.
Proof. by vm_compute. Qed.
Lemma waiting_buf : pbufs (n_heap waiting) !! stored = Some stored_buf.
Proof. by vm_compute. Qed.
Lemma waiting_bytes : exists x, length x = 14%nat /\ nbytes (stored, 0) (x ++ stored_ip) waiting.
Proof. eexists (_ :: _ :: _ :: _ :: _ :: _ :: _ :: _ :: _ :: _ :: _ :: _ :: _ :: _ :: []). split; [done|]. eexists. split; [vm_compute; reflexivity|vm_compute; reflexivity]. Qed.

Lemma one_waits e h qs : (ae_q e <> 0 -> linked h (ae_q e) (qs 0) 0 /\ each h solid (qs 0)) -> queues h (arp_table (one_host e)) qs.
Proof.
  intros He. assert (forall i a, rd (arp_table (one_host e)) i = Some a -> ae_q a <> 0 -> i = 0 /\ a = e) as Hrd.
  { intros i a [Hi Ha]%rd_Some Hq. cbn [arp_table one_host] in Ha. destruct (Z.to_nat i) as [|k] eqn:Ek; [split; [lia|by injection Ha]|].
    change (replicate 31 empty_entry !! k = Some a) in Ha. apply lookup_replicate in Ha as [-> _]. by destruct Hq. }
  split.
  - intros i a Ha Hq. destruct (Hrd i a Ha Hq) as [-> ->]. by apply He.
  - intros i j a b x Ha Hb Hq Hq' _ _. destruct (Hrd i a Ha Hq) as [-> _]. by destruct (Hrd j b Hb Hq') as [-> _].
Qed.

Lemma waiting_ok : arp_ok (n_arp waiting) /\ queues (n_heap waiting) (arp_table (n_arp waiting)) (fun _ => [stored]).
Proof.
  rewrite waiting_arp. split; [apply arp_ok_one; split; cbn; [by vm_compute|by vm_compute|done|done|done]|].
  apply one_waits. intros _. split; [|apply Forall_singleton; exists stored_buf; split; [apply waiting_buf|done]].
  split; [done|]. split; [done|]. exists stored_buf. split; [apply waiting_buf|done].
Qed.

Lemma arp_waiting_sent_witness : exists m,
  etharp_update_arp_entry 1 (host 2) (5000, 22) ETHARP_FLAG_TRY_HARD waiting = (_ ← call_linkoutput 1 stored; _ ← on_heap (pbuf_free stored); mret ERR_OK) m /\
  nbytes (stored, 0) (eth_header (mac_of 2) (mac_of 1) ++ stored_ip) m.
Proof.
  destruct waiting_bytes as (x & Hx & Hb). destruct waiting_ok as [Hok Hq].
  destruct (arp_waiting_sent 1 (demo_if 1) (host 2) (5000, 22) (mac_of 2) ETHARP_FLAG_TRY_HARD waiting (fun _ => [stored]) 0 pending stored_buf x stored_ip) as [_ E1].
  - by vm_compute.
  - by split.
  - split; [|split]; reflexivity.
  - exact Hok.
  - exact Hq.
  - by vm_compute.
  - eexists. split; vm_compute; reflexivity.
  - reflexivity.
  - intros i e _ _. cbn. by intros ?%list_elem_of_singleton.
  - by rewrite waiting_arp.
  - done.
  - reflexivity.
  - done.
  - exact waiting_buf.
  - exact Hb.
  - exact Hx.
  - eexists. split; [exact E1|]. eapply (nset_bytes _ (x ++ stored_ip)); [apply nbytes_arp, Hb|]. rewrite !length_app, Hx. reflexivity.
Defined.

(** Without an answer it is freed after two ticks. *)
Lemma arp_forgets_witness : exists h s, ticks 2 waiting = Ret (n_set_heap h (n_set_arp s waiting), ()) /\ arp_ok s /\ pbufs h !! stored = None.
Proof.
  destruct waiting_ok as [Hok Hq]. destruct (arp_forgets 2 waiting (fun _ => [stored]) Hok Hq) as (h & s & E1 & O1 & _ & _ & G & _); [by vm_compute|].
  exists h, s. split; [exact E1|]. split; [exact O1|]. destruct (G 0 pending) as (_ & _ & _ & Hx); [by rewrite waiting_arp|by vm_compute|].
  apply Hx. left.
Defined.
