(* ===== verification/Netif.v ===== *)
(** * Network interfaces ([src/lwip/src/core/netif.c])

    The list of the interfaces and their configuration; interfaces that come
    up announce their address. *)

From stdpp Require Import gmap.
From S2P Require Import Prelude LwipDef InetChksum IpAddr Pbuf PbufOps PbufData NetState Etharp IpOut.

Definition nf_set_ip_addr x (f : netif) : netif :=
  mkNetif x (nf_netmask f) (nf_gw f) (nf_input f) (nf_output f) (nf_linkoutput f) (nf_state f) (nf_hostname f) (nf_mtu f) (nf_hwaddr_len f) (nf_hwaddr f) (nf_flags f) (nf_name f) (nf_num f).
Definition nf_set_netmask x (f : netif) : netif :=
  mkNetif (nf_ip_addr f) x (nf_gw f) (nf_input f) (nf_output f) (nf_linkoutput f) (nf_state f) (nf_hostname f) (nf_mtu f) (nf_hwaddr_len f) (nf_hwaddr f) (nf_flags f) (nf_name f) (nf_num f).
Definition nf_set_gw x (f : netif) : netif :=
  mkNetif (nf_ip_addr f) (nf_netmask f) x (nf_input f) (nf_output f) (nf_linkoutput f) (nf_state f) (nf_hostname f) (nf_mtu f) (nf_hwaddr_len f) (nf_hwaddr f) (nf_flags f) (nf_name f) (nf_num f).
Definition nf_set_flags x (f : netif) : netif :=
  mkNetif (nf_ip_addr f) (nf_netmask f) (nf_gw f) (nf_input f) (nf_output f) (nf_linkoutput f) (nf_state f) (nf_hostname f) (nf_mtu f) (nf_hwaddr_len f) (nf_hwaddr f) x (nf_name f) (nf_num f).

(** The state at the start of [netif_add]. *)
Definition nf_fresh (state num input : Z) (f : netif) : netif :=
  mkNetif 0 0 0 input (nf_output f) (nf_linkoutput f) state (nf_hostname f) (nf_mtu f) (nf_hwaddr_len f) (nf_hwaddr f) 0 (nf_name f) num.

Section Netif.
Context {E : Type} `{Malloc, LinkDriver E}.
Notation M := (NetM E).

Definition netif_put (a : Z) (f : netif) : M () :=
  modify (fun n => n_set_if (mkNetifState (<[a := f]> (netifs (n_if n))) (netif_list (n_if n)) (netif_default (n_if n)) (netif_num (n_if n))) n).
Definition netif_upd (a : Z) (g : netif -> netif) : M () := f ← netif_at a; netif_put a (g f).
Definition netif_set_list (l : list Z) : M () :=
  modify (fun n => n_set_if (mkNetifState (netifs (n_if n)) l (netif_default (n_if n)) (netif_num (n_if n))) n).

Definition netif_set_ipaddr (a ipaddr : Z) : M () := netif_upd a (nf_set_ip_addr ipaddr).
Definition netif_set_netmask (a netmask : Z) : M () := netif_upd a (nf_set_netmask netmask).
Definition netif_set_gw (a gw : Z) : M () := netif_upd a (nf_set_gw gw).
Definition netif_set_addr (a ipaddr netmask gw : Z) : M () :=
  _ ← netif_set_ipaddr a ipaddr; _ ← netif_set_netmask a netmask; netif_set_gw a gw.
Definition netif_set_default (a : Z) : M () :=
  modify (fun n => n_set_if (mkNetifState (netifs (n_if n)) (netif_list (n_if n)) a (netif_num (n_if n))) n).

(** [init]: the function that initialises the interface.  The interface, or
    null. *)
Definition netif_add (a ipaddr netmask gw state : Z) (init : Z -> M Z) (input : Z) : M Z :=
  s ← gets n_if;
  _ ← netif_upd a (nf_fresh state (netif_num s) input);
  _ ← modify (fun n => n_set_if (mkNetifState (netifs (n_if n)) (netif_list (n_if n)) (netif_default (n_if n)) (u8 (netif_num (n_if n) + 1))) n);
  _ ← netif_set_addr a ipaddr netmask gw;
  errCode ← init a;
  if bool_decide (errCode <> ERR_OK) then mret 0
  else
    s ← gets n_if;
    _ ← netif_set_list (a :: netif_list s);
    mret a.

(** [etharp_gratuitous], for an interface that has just come up. *)
Definition announce (a : Z) (f : netif) : M () :=
  if bool_decide (Z.land (nf_flags f) NETIF_FLAG_ETHARP <> 0) then _ ← etharp_gratuitous a; mret () else mret ().

Definition netif_set_up (a : Z) : M () :=
  f ← netif_at a;
  if bool_decide (Z.land (nf_flags f) NETIF_FLAG_UP = 0) then
    _ ← netif_put a (nf_set_flags (Z.lor (nf_flags f) NETIF_FLAG_UP) f);
    if bool_decide (Z.land (nf_flags f) NETIF_FLAG_LINK_UP <> 0) then announce a f else mret ()
  else mret ().

Definition netif_set_down (a : Z) : M () :=
  f ← netif_at a;
  if bool_decide (Z.land (nf_flags f) NETIF_FLAG_UP <> 0) then
    _ ← netif_put a (nf_set_flags (Z.land (nf_flags f) (Z.lnot NETIF_FLAG_UP)) f);
    if bool_decide (Z.land (nf_flags f) NETIF_FLAG_ETHARP <> 0) then etharp_cleanup_netif a else mret ()
  else mret ().

Definition netif_set_link_up (a : Z) : M () :=
  f ← netif_at a;
  if bool_decide (Z.land (nf_flags f) NETIF_FLAG_LINK_UP = 0) then
    _ ← netif_put a (nf_set_flags (Z.lor (nf_flags f) NETIF_FLAG_LINK_UP) f);
    if bool_decide (Z.land (nf_flags f) NETIF_FLAG_UP <> 0) then announce a f else mret ()
  else mret ().

Definition netif_set_link_down (a : Z) : M () :=
  f ← netif_at a;
  if bool_decide (Z.land (nf_flags f) NETIF_FLAG_LINK_UP <> 0)
  then netif_put a (nf_set_flags (Z.land (nf_flags f) (Z.lnot NETIF_FLAG_LINK_UP)) f) else mret ().

(** The list without the interface; [None]: it is not there. *)
Fixpoint netif_unlink (a : Z) (l : list Z) : option (list Z) :=
  match l with [] => None | b :: l => if bool_decide (b = a) then Some l else l ← netif_unlink a l; Some (b :: l) end.

Definition netif_remove (a : Z) : M () :=
  if bool_decide (a = 0) then mret ()
  else
    f ← netif_at a;
    _ ← (if netif_is_up f then netif_set_down a else mret ());
    s ← gets n_if;
    match netif_unlink a (netif_list s) with
    | None => mret ()
    | Some l =>
        _ ← netif_set_list l;
        if bool_decide (netif_default s = a) then netif_set_default 0 else mret ()
    end.

Fixpoint find_loop (l : list Z) (num : Z) (name : list Z) : M Z :=
  match l with
  | [] => mret 0
  | a :: l => f ← netif_at a; if bool_decide (num = nf_num f) && bool_decide (name = nf_name f) then mret a else find_loop l num name
  end.

(** [name]: two characters and a digit; [None]: null. *)
Definition netif_find (name : option (Z * Z * Z)) : M Z :=
  match name with
  | None => mret 0
  | Some (c0, c1, c2) => s ← gets n_if; find_loop (netif_list s) (u8 (c2 - 48)) [c0; c1]
  end.

End Netif.
