(* ===== verification/StackInv.v ===== *)
(** * The network stack over time

    A step relation for the calls into the stack (every operation on the table
    of ARP and on the blocks of UDP), and its invariant: the table and the
    blocks stay in order.  [StackApp] applies it to the receivers of the
    program. *)

From stdpp Require Import gmap.
From S2P Require Import Prelude LwipDef InetChksum IpAddr Pbuf PbufOps PbufData NetState NetMem Etharp EtharpOps ArpTable IpOut Icmp Raw Udp UdpPorts UdpSend IpReass IpIn IpRecv UdpRecv ArpInput Netif.

Section Stack.
Context {E : Type} `{Malloc, LinkDriver E, UdpApp E, RawApp E}.
Implicit Types n : Net E.

(** The table of ARP and the blocks of UDP. *)
Definition stack_ok n : Prop := arp_ok (n_arp n) /\ ports_ok (n_udp n).

(** The rest of the state does not matter. *)
Lemma stack_other n n' : n_arp n' = n_arp n -> n_udp n' = n_udp n -> stack_ok n -> stack_ok n'.
Proof. unfold stack_ok. by intros -> ->. Qed.

#[local] Instance stack_above : Above stack_ok.
Proof. by intros n h e. Qed.

Lemma keeps_other f : (forall n, n_arp (f n) = n_arp n /\ n_udp (f n) = n_udp n) -> keeps stack_ok (modify f).
Proof. intros Hf. apply keeps_modify. intros n. destruct (Hf n). by apply stack_other. Qed.
#[local] Hint Extern 1 (keeps stack_ok (modify _)) => (apply keeps_other; intros; split; reflexivity) : keeps.

(** What keeps the table and does not touch the blocks. *)
Definition udp_is (u : UdpState) n : Prop := n_udp n = u.
#[local] Instance udp_above u : Above (udp_is u).
Proof. by intros n h e. Qed.
#[local] Hint Extern 1 (keeps (udp_is _) (modify _)) => (apply keeps_modify; intros ? ?; exact eq_refl || done) : keeps.

Lemma arp_keeps {A} (m : NetM E A) : keeps tidy m -> (forall u, keeps (udp_is u) m) -> keeps stack_ok m.
Proof. intros Ht Hu n n' a [K1 K2] Hr. split; [by apply (Ht n n' a)|]. by rewrite (Hu (n_udp n) n n' a eq_refl Hr). Qed.

Lemma arp_upd_udp u i f : keeps (udp_is u) (arp_upd i f).
Proof. unfold arp_upd, arp_get. keeps_tac. Qed.
#[local] Hint Resolve arp_upd_udp : keeps.
Lemma free_entry_udp u i : keeps (udp_is u) (etharp_free_entry i).
Proof. unfold etharp_free_entry, arp_get. keeps_tac. Qed.
#[local] Hint Resolve free_entry_udp : keeps.
Lemma find_entry_udp u ip flags : keeps (udp_is u) (etharp_find_entry ip flags).
Proof. unfold etharp_find_entry, new_entry, arp_get. keeps_tac. Qed.
#[local] Hint Resolve find_entry_udp : keeps.
Lemma send_ip_udp u netif p a b : keeps (udp_is u) (etharp_send_ip netif p a b).
Proof. unfold etharp_send_ip, netif_at, pb, st16, stn. keeps_tac. Qed.
#[local] Hint Resolve send_ip_udp : keeps.
Lemma update_udp u netif ip q flags : keeps (udp_is u) (etharp_update_arp_entry netif ip q flags).
Proof. unfold etharp_update_arp_entry, netif_at, arp_get, ldn. keeps_tac. Qed.
#[local] Hint Resolve update_udp : keeps.
Lemma arp_input_udp u netif p : keeps (udp_is u) (etharp_arp_input netif p).
Proof. unfold etharp_arp_input, arp_reply, pb, ld16, ld8, ld32, ldn, stn, st16, st32, netif_at. keeps_tac. Qed.
Lemma raw_udp u netif a b c ip d ip2 op : keeps (udp_is u) (etharp_raw netif a b c ip d ip2 op).
Proof. unfold etharp_raw, netif_at, pb, st8, st16, st32, stn. keeps_tac. Qed.
#[local] Hint Resolve raw_udp : keeps.
Lemma request_udp u netif ip : keeps (udp_is u) (etharp_request netif ip).
Proof. unfold etharp_request, netif_at. keeps_tac. Qed.
#[local] Hint Resolve request_udp : keeps.
Lemma to_index_udp u netif q i : keeps (udp_is u) (etharp_output_to_arp_index netif q i).
Proof. unfold etharp_output_to_arp_index, arp_get, netif_at. keeps_tac. Qed.
Lemma query_udp u netif ip q : keeps (udp_is u) (etharp_query netif ip q).
Proof. unfold etharp_query, take_over, arp_get, netif_at, pb, ETHARP_SET_HINT. keeps_tac. Qed.
#[local] Hint Resolve to_index_udp query_udp : keeps.
Lemma output_udp u netif q ip : keeps (udp_is u) (etharp_output netif q ip).
Proof. unfold etharp_output, output_unicast, arp_get, netif_at, ETHARP_SET_HINT. keeps_tac. Qed.
Lemma tmr_udp u : keeps (udp_is u) etharp_tmr.
Proof. apply keeps_for_each. intros i _. unfold tmr_entry, arp_get. keeps_tac. Qed.
Lemma cleanup_udp u a : keeps (udp_is u) (etharp_cleanup_netif a).
Proof. apply keeps_for_each. intros i _. unfold cleanup_entry, arp_get. keeps_tac. Qed.

(** ** Output *)

Lemma output_ok netif q ip : keeps stack_ok (etharp_output netif q ip).
Proof. apply arp_keeps; [apply output_tidy|intros; apply output_udp]. Qed.
Lemma arp_input_ok netif p : keeps stack_ok (etharp_arp_input netif p).
Proof. apply arp_keeps; [apply arp_input_tidy|intros; apply arp_input_udp]. Qed.
Lemma tmr_ok : keeps stack_ok etharp_tmr.
Proof. apply arp_keeps; [apply tmr_tidy|intros; apply tmr_udp]. Qed.
Lemma cleanup_ok a : keeps stack_ok (etharp_cleanup_netif a).
Proof. apply arp_keeps; [apply cleanup_tidy|intros; apply cleanup_udp]. Qed.
Lemma request_ok netif ip : keeps stack_ok (etharp_request netif ip).
Proof. apply arp_keeps; [|intros; apply request_udp]. apply same_tidy. intros s. apply request_same. Qed.
#[local] Hint Resolve output_ok arp_input_ok tmr_ok cleanup_ok request_ok : keeps.

Lemma call_output_ok netif p dest : keeps stack_ok (call_output netif p dest).
Proof. unfold call_output, lpc_etharp_output, netif_at. keeps_tac. Qed.
#[local] Hint Resolve call_output_ok : keeps.

Lemma frag_copy_ok fuel : forall r p l nl, keeps stack_ok (frag_copy fuel r p l nl).
Proof. induction fuel as [|fuel IH]; intros; cbn [frag_copy]; unfold pb; keeps_tac. Qed.
#[local] Hint Resolve frag_copy_ok : keeps.
Lemma frag_loop_ok fuel : forall p netif dest mtu nfb omf left ofo poff o, keeps stack_ok (frag_loop fuel p netif dest mtu nfb omf left ofo poff o).
Proof. induction fuel as [|fuel IH]; intros; cbn [frag_loop]; unfold pb, ldn, stn, st16; keeps_tac. Qed.
#[local] Hint Resolve frag_loop_ok : keeps.
Lemma put_header_ok p q a b c d e f : keeps stack_ok (put_header p q a b c d e f).
Proof. unfold put_header, st8, st16, st32, ld8, ld16, ld32, pb. keeps_tac. Qed.
#[local] Hint Resolve put_header_ok : keeps.
Lemma output_if_ok p src dest ttl tos proto netif : keeps stack_ok (ip_output_if p src dest ttl tos proto netif).
Proof. unfold ip_output_if, ip_frag, netif_at, pb, IPH_OFFSET, ld16, ld32. keeps_tac. Qed.
#[local] Hint Resolve output_if_ok : keeps.
Lemma route_ok dest : keeps stack_ok (ip_route dest).
Proof.
  assert (forall l, keeps stack_ok (route_loop l dest)) as Hl by (induction l as [|a l IH]; cbn [route_loop]; unfold netif_at; keeps_tac).
  unfold ip_route, netif_at. keeps_tac.
Qed.
#[local] Hint Resolve route_ok : keeps.
Lemma ip_output_ok p src dest ttl tos proto : keeps stack_ok (ip_output p src dest ttl tos proto).
Proof. unfold ip_output, pb. keeps_tac. Qed.
#[local] Hint Resolve ip_output_ok : keeps.

(** ** ICMP, raw, reassembly *)

Lemma drop_ok p : keeps stack_ok (drop p).
Proof. unfold drop. keeps_tac. Qed.
#[local] Hint Resolve drop_ok : keeps.
Lemma response_ok p a b : keeps stack_ok (icmp_send_response p a b).
Proof. unfold icmp_send_response, pb, st8, st16, stn, ldn, ld32. keeps_tac. Qed.
#[local] Hint Resolve response_ok : keeps.
Lemma icmp_ok p inp : keeps stack_ok (icmp_input p inp).
Proof. unfold icmp_input, echo_room, echo_reply, pbuf_data, IPH_HL, pb, st8, st16, st32, ldn, ld8, ld16. keeps_tac. Qed.
#[local] Hint Resolve icmp_ok : keeps.

Lemma call_raw_ok f a pcb p addr : keeps stack_ok (call_raw_recv f a pcb p addr).
Proof. intros n n' r Hok. unfold call_raw_recv. destruct (raw_recv_fn _ _ _ _ _ _ _) as [[[h e] x]| |]; [|done|done]. intros [= <- _]. exact Hok. Qed.
#[local] Hint Resolve call_raw_ok : keeps.
Lemma raw_loop_ok l : forall dn p proto inp, keeps stack_ok (raw_loop l dn p proto inp).
Proof. induction l as [|a l IH]; intros; cbn [raw_loop]; unfold raw_at, netif_at, raw_set_list; keeps_tac. Qed.
#[local] Hint Resolve raw_loop_ok : keeps.
Lemma raw_input_ok p inp : keeps stack_ok (raw_input p inp).
Proof. unfold raw_input, IPH_PROTO, pb, ld8. keeps_tac. Qed.
#[local] Hint Resolve raw_input_ok : keeps.
Lemma raw_sendto_ok pcb p ip : keeps stack_ok (raw_sendto pcb p ip).
Proof. unfold raw_sendto, raw_header, free_header, raw_at, netif_at, pb. keeps_tac. Qed.
#[local] Hint Resolve raw_sendto_ok : keeps.

Lemma reass_upd_ok a f : keeps stack_ok (reass_upd a f).
Proof. unfold reass_upd, reass_at. keeps_tac. Qed.
Lemma reass_count_ok f : keeps stack_ok (reass_count f).
Proof. unfold reass_count. keeps_tac. Qed.
#[local] Hint Resolve reass_upd_ok reass_count_ok : keeps.
Lemma dequeue_ok a b : keeps stack_ok (ip_reass_dequeue_datagram a b).
Proof. unfold ip_reass_dequeue_datagram, reass_set_list. keeps_tac. Qed.
#[local] Hint Resolve dequeue_ok : keeps.
Lemma free_fragments_ok fuel : forall p k, keeps stack_ok (free_fragments fuel p k).
Proof. induction fuel as [|fuel IH]; intros; cbn [free_fragments]; unfold free_fragment, pb, ld32; keeps_tac. Qed.
#[local] Hint Resolve free_fragments_ok : keeps.
Lemma free_complete_ok a b : keeps stack_ok (ip_reass_free_complete_datagram a b).
Proof. unfold ip_reass_free_complete_datagram, free_fragment, icmp_time_exceeded, reass_at, pb, ld16, ld32, stn. keeps_tac. Qed.
#[local] Hint Resolve free_complete_ok : keeps.
Lemma reass_tmr_ok : keeps stack_ok ip_reass_tmr.
Proof.
  assert (forall l prev, keeps stack_ok (tmr_loop l prev)) as Hl by (induction l as [|a l IH]; intros; cbn [tmr_loop]; unfold reass_at; keeps_tac).
  unfold ip_reass_tmr. keeps_tac.
Qed.
Lemma oldest_ok f l : forall a b c, keeps stack_ok (oldest_loop l f a b c).
Proof. induction l as [|x l IH]; intros; cbn [oldest_loop]; unfold reass_at; keeps_tac. Qed.
#[local] Hint Resolve oldest_ok : keeps.
Lemma remove_oldest_ok f k : keeps stack_ok (ip_reass_remove_oldest_datagram f k).
Proof.
  assert (forall fuel fr, keeps stack_ok (remove_oldest_loop fuel f k fr)) as Hl by (induction fuel as [|fuel IH]; intros; cbn [remove_oldest_loop]; keeps_tac).
  unfold ip_reass_remove_oldest_datagram. keeps_tac.
Qed.
#[local] Hint Resolve remove_oldest_ok : keeps.
Lemma helper_ok q : keeps stack_ok (helper q).
Proof. unfold helper, pb, ld16, ld32. keeps_tac. Qed.
#[local] Hint Resolve helper_ok : keeps.
Lemma insert_ok fuel : forall ipr new_p iprh start en q prev valid, keeps stack_ok (insert_loop fuel ipr new_p iprh start en q prev valid).
Proof. induction fuel as [|fuel IH]; intros; cbn [insert_loop]; unfold st32, reass_at; keeps_tac. Qed.
#[local] Hint Resolve insert_ok : keeps.
Lemma holes_ok fuel : forall q iprh en, keeps stack_ok (holes_loop fuel q iprh en).
Proof. induction fuel as [|fuel IH]; intros; cbn [holes_loop]; keeps_tac. Qed.
#[local] Hint Resolve holes_ok : keeps.
Lemma chain_frag_ok ipr p : keeps stack_ok (ip_reass_chain_frag_into_datagram_and_validate ipr p).
Proof. unfold ip_reass_chain_frag_into_datagram_and_validate, validate, IPH_LEN, IPH_HL, IPH_OFFSET, reass_at, pb, ld8, ld16, ld32, st32, st16. keeps_tac. Qed.
#[local] Hint Resolve chain_frag_ok : keeps.
Lemma join_ok fuel : forall p r, keeps stack_ok (join_loop fuel p r).
Proof. induction fuel as [|fuel IH]; intros; cbn [join_loop]; unfold pb, ld32; keeps_tac. Qed.
#[local] Hint Resolve join_ok : keeps.
Lemma complete_ok a b : keeps stack_ok (complete a b).
Proof. unfold complete, reass_at, pb, ld32, stn, st16, ldn. keeps_tac. Qed.
#[local] Hint Resolve complete_ok : keeps.
Lemma find_datagram_ok f l : forall prev, keeps stack_ok (find_datagram l f prev).
Proof. induction l as [|a l IH]; intros; cbn [find_datagram]; unfold reass_at; keeps_tac. Qed.
#[local] Hint Resolve find_datagram_ok : keeps.
Lemma ip_reass_ok p : keeps stack_ok (ip_reass p).
Proof. unfold ip_reass, reass_room, ip_reass_enqueue_new_datagram, malloc_reassdata, reass_at, IPH_HL, pb, ld8, ldn. keeps_tac. Qed.
#[local] Hint Resolve ip_reass_ok : keeps.
(** ** UDP *)

(** Functions on the blocks that do not touch the table. *)
Lemma ports_keeps {A} (m : NetM E A) n n' r : stack_ok n -> (orderly n -> m n = Ret (n', r) -> orderly n' /\ n' = n_set_udp (n_udp n') n) -> m n = Ret (n', r) -> stack_ok n'.
Proof. intros [K1 K2] Hm Hr. destruct (Hm K2 Hr) as [K3 K4]. split; [|exact K3]. by rewrite K4. Qed.

Lemma ensure_ok pcb : keeps stack_ok (ensure_bound pcb).
Proof. intros n n' r Hok Hr. refine (ports_keeps _ _ _ _ Hok _ Hr). intros Ho Hr'. by destruct (ensure_orderly _ _ _ _ Ho Hr') as (K1 & K2 & _). Qed.
#[local] Hint Resolve ensure_ok : keeps.
Lemma udp_sendto_if_ok pcb p ip port netif have ck : keeps stack_ok (udp_sendto_if_chksum pcb p ip port netif have ck).
Proof. unfold udp_sendto_if_chksum, udp_header, udp_chksum, free_header, pbuf_data, udp_at, netif_at, pb, st16. keeps_tac. Qed.
#[local] Hint Resolve udp_sendto_if_ok : keeps.
Lemma udp_sendto_ok pcb p ip port : keeps stack_ok (udp_sendto pcb p ip port).
Proof. unfold udp_sendto, udp_sendto_chksum. keeps_tac. Qed.

Lemma demux_ok {A} src dest br f (k : Z -> NetM E A) : (forall a, keeps stack_ok (k a)) ->
  keeps stack_ok (u ← gets n_udp; a ← match_loop (udp_pcbs u) [] 0 src dest br f; k a).
Proof.
  intros Hk n n' r Hok Hr. run Hr. run Hr. apply (Hk _ _ _ _) in Hr; [done|]. refine (ports_keeps _ _ _ _ Hok _ R). intros Ho Hr'. exact (match_orderly _ _ _ _ _ [] _ _ _ _ Ho eq_refl Hr').
Qed.

(** The receivers of the program may call the stack, but not break it. *)
Definition app_ok : Prop := forall f arg pcb p addr port, keeps stack_ok (udp_recv_fn f arg pcb p addr port).

Context (Happ : app_ok).
#[local] Hint Extern 1 (keeps stack_ok (udp_recv_fn _ _ _ _ _ _)) => apply Happ : keeps.

Lemma udp_input_ok p inp : keeps stack_ok (udp_input p inp).
Proof.
  unfold udp_input, udp_accept, udp_noport, icmp_dest_unreach, pbuf_data, udp_at, netif_at, IPH_HL, pb, ld8, ld16.
  repeat (cbn beta zeta iota; first [match goal with |- keeps _ (mbind _ (gets n_udp)) => apply demux_ok; intros ? end|keeps_step]).
Qed.
#[local] Hint Resolve udp_input_ok : keeps.

(** ** Input *)

Lemma find_netif_ok inp dest : keeps stack_ok (find_netif inp dest).
Proof.
  assert (forall l, keeps stack_ok (if_loop l inp dest)) as Hl by (induction l as [|a l IH]; cbn [if_loop]; unfold netif_at; keeps_tac).
  unfold find_netif, netif_at. keeps_tac.
Qed.
#[local] Hint Resolve find_netif_ok : keeps.
Lemma ip_local_ok p inp q : keeps stack_ok (ip_local p inp q).
Proof. unfold ip_local, ip_deliver, set_current, icmp_dest_unreach, netif_at, IPH_OFFSET, IPH_PROTO, pb, ld8, ld16. keeps_tac. Qed.
#[local] Hint Resolve ip_local_ok : keeps.
Lemma ip_input_ok p inp : keeps stack_ok (ip_input p inp).
Proof. unfold ip_input, set_current, netif_at, IPH_V, IPH_HL, IPH_LEN, pb, ld8, ld16, ld32, ldn. keeps_tac. Qed.
#[local] Hint Resolve ip_input_ok : keeps.
Lemma ethernet_input_ok p netif : keeps stack_ok (ethernet_input p netif).
Proof. unfold ethernet_input, netif_at, pb, ld16, ldn. keeps_tac. Qed.

(** ** Interfaces *)

Lemma netif_put_ok a f : keeps stack_ok (netif_put a f).
Proof. unfold netif_put. keeps_tac. Qed.
#[local] Hint Resolve netif_put_ok : keeps.
Lemma set_up_ok a : keeps stack_ok (netif_set_up a).
Proof. unfold netif_set_up, announce, etharp_gratuitous, netif_at. keeps_tac. Qed.
Lemma set_down_ok a : keeps stack_ok (netif_set_down a).
Proof. unfold netif_set_down, netif_at. keeps_tac. Qed.
Lemma link_up_ok a : keeps stack_ok (netif_set_link_up a).
Proof. unfold netif_set_link_up, announce, etharp_gratuitous, netif_at. keeps_tac. Qed.
Lemma link_down_ok a : keeps stack_ok (netif_set_link_down a).
Proof. unfold netif_set_link_down, netif_at. keeps_tac. Qed.
#[local] Hint Resolve set_down_ok : keeps.
Lemma netif_remove_ok a : keeps stack_ok (netif_remove a).
Proof. unfold netif_remove, netif_set_list, netif_set_default, netif_at. keeps_tac. Qed.

(** ** Runs *)

(** One call into the stack that returns, or a step of what is around it: the
    driver and the program on their own state and on packet buffers, other
    parts of the stack. *)
Inductive stack_step n n' : Prop :=
| step_frame p netif r : ethernet_input p netif n = Ret (n', r) -> stack_step n n'
| step_send pcb p ip port r : udp_sendto pcb p ip port n = Ret (n', r) -> stack_step n n'
| step_send_if pcb p ip port netif have ck r : udp_sendto_if_chksum pcb p ip port netif have ck n = Ret (n', r) -> stack_step n n'
| step_raw pcb p ip r : raw_sendto pcb p ip n = Ret (n', r) -> stack_step n n'
| step_bind pcb ip port r : udp_bind pcb ip port n = Ret (n', r) -> stack_step n n'
| step_connect pcb ip port r : udp_connect pcb ip port n = Ret (n', r) -> stack_step n n'
| step_disconnect pcb r : udp_disconnect pcb n = Ret (n', r) -> stack_step n n'
| step_recv pcb f arg r : udp_recv pcb f arg n = Ret (n', r) -> stack_step n n'
| step_remove pcb r : udp_remove pcb n = Ret (n', r) -> stack_step n n'
| step_new r : udp_new n = Ret (n', r) -> udps (n_udp n) !! r = None -> stack_step n n'
| step_arp_tmr r : etharp_tmr n = Ret (n', r) -> stack_step n n'
| step_reass_tmr r : ip_reass_tmr n = Ret (n', r) -> stack_step n n'
| step_up a r : netif_set_up a n = Ret (n', r) -> stack_step n n'
| step_down a r : netif_set_down a n = Ret (n', r) -> stack_step n n'
| step_link_up a r : netif_set_link_up a n = Ret (n', r) -> stack_step n n'
| step_link_down a r : netif_set_link_down a n = Ret (n', r) -> stack_step n n'
| step_gone a r : netif_remove a n = Ret (n', r) -> stack_step n n'
| step_else : n_arp n' = n_arp n -> n_udp n' = n_udp n -> stack_step n n'.

(** The one call that can spoil the blocks: a block that has a port is bound
    again without one, and all ports of the range are in use.  The call fails,
    but the block has taken the address all the same, beside its old port. *)
Definition rebind_fails n n' : Prop := exists pcb ip b last,
  udp_bind pcb ip 0 n = Ret (n', ERR_USE) /\ udps (n_udp n) !! pcb = Some b /\ up_local_port b <> 0 /\
  (forall q, local_port q -> in_use (n_udp n) q) /\
  n' = n_set_udp (mkUdpState (<[pcb := up_set_local_ip ip b]> (udps (n_udp n))) (udp_pcbs (n_udp n)) last) n.

Lemma bind_step_keeps pcb ip port n n' r : udp_bind pcb ip port n = Ret (n', r) -> stack_ok n -> stack_ok n' \/ rebind_fails n n'.
Proof.
  intros Hr Hok. destruct (udps (n_udp n) !! pcb) as [b|] eqn:Eb.
  2: { left. refine (ports_keeps _ _ _ _ Hok _ Hr). intros Ho Hr'. destruct (bind_orderly pcb ip port n n' r Ho) as (K1 & K2 & _); [intros _ b; by rewrite Eb|exact Hr'|by split]. }
  destruct (decide (port = 0 /\ up_local_port b <> 0)) as [[-> Hb]|Hno].
  - pose proof Hok as [_ Hp]. destruct (udp_bind_cases pcb ip 0 n b (po_bound _ Hp) Eb (po_range _ Hp)) as [(p' & last & E1 & B & _ & Hl & _)|[(_ & Hz & _)|(_ & Hall & last & E1 & _)]]; [|done|].
    + left. rewrite Hr in E1. injection E1 as -> _. destruct Hok as [K1 _]. split; [exact K1|]. split; [done|done|]. intros a c. cbn [n_udp n_set_udp]. rewrite bound_list. cbn [udps bound].
      destruct (decide (a = pcb)) as [->|Hne]; [by left|]. rewrite lookup_insert_ne by done. intros Hc Hcp. right. by eapply (po_listed _ Hp).
    + right. rewrite Hr in E1. injection E1 as -> ->. exists pcb, ip, b, last. split_and!; try done.
  - left. refine (ports_keeps _ _ _ _ Hok _ Hr). intros Ho Hr'. destruct (bind_orderly pcb ip port n n' r Ho) as (K1 & K2 & _); [|exact Hr'|by split].
    intros Hz c Hc. rewrite Eb in Hc. injection Hc as <-. destruct (decide (up_local_port b = 0)); [done|]. by destruct Hno.
Qed.

Lemma step_keeps n n' : stack_step n n' -> stack_ok n -> stack_ok n' \/ rebind_fails n n'.
Proof.
  intros Hs Hok. destruct Hs as [p a r Hr|pcb p ip port r Hr|pcb p ip port a c d r Hr|pcb p ip r Hr|pcb ip port r Hr|pcb ip port r Hr|pcb r Hr|pcb f g r Hr|pcb r Hr|r Hr Hz|r Hr|r Hr|a r Hr|a r Hr|a r Hr|a r Hr|a r Hr|Ha Hu];
    [left|left|left|left|by eapply bind_step_keeps|left..].
  - by eapply ethernet_input_ok.
  - by eapply udp_sendto_ok.
  - by eapply udp_sendto_if_ok.
  - by eapply raw_sendto_ok.
  - refine (ports_keeps _ _ _ _ Hok _ Hr). apply connect_orderly.
  - refine (ports_keeps _ _ _ _ Hok _ Hr). apply disconnect_orderly.
  - refine (ports_keeps _ _ _ _ Hok _ Hr). apply recv_orderly.
  - destruct Hok as [K1 K2]. split; [|by apply (remove_orderly pcb n n' r)]. unfold udp_remove, udp_set_list, modify in Hr. cbn in Hr. injection Hr as <-. exact K1.
  - destruct Hok as [K1 K2]. split; [|by apply (new_orderly n n' r)]. unfold udp_new in Hr. run Hr. destruct (memp_malloc _ _) as [[q h]|]; [|by apply ret_inv in Hr as [-> _]].
    unfold modify, udp_put in Hr. cbn in Hr. injection Hr as <- _. exact K1.
  - by eapply tmr_ok.
  - by eapply reass_tmr_ok.
  - by eapply set_up_ok.
  - by eapply set_down_ok.
  - by eapply link_up_ok.
  - by eapply link_down_ok.
  - by eapply netif_remove_ok.
  - by eapply stack_other.
Qed.

(** A run of steps, none of them that call. *)
Lemma steps_keep n n' : stack_ok n -> rtc stack_step n n' ->
  stack_ok n' \/ exists n1 n2, rtc stack_step n n1 /\ stack_ok n1 /\ rebind_fails n1 n2 /\ rtc stack_step n2 n'.
Proof.
  intros Hok Hr. induction Hr as [n|n n1 n' Hs Hr IH]; [by left|]. destruct (step_keeps _ _ Hs Hok) as [Hok1|Hbad].
  - destruct (IH Hok1) as [?|(n2 & n3 & R1 & R2)]; [by left|]. right. exists n2, n3. split; [by eapply rtc_l|exact R2].
  - right. exists n, n1. split_and!; try done; apply rtc_refl.
Qed.

End Stack.
