(* ===== verification/StackApp.v ===== *)
(** * The network stack with the receivers of the program

    The functions the program gives to [udp_recv] are those of
    [src/src/udp_io/udp_io.cpp] ([UdpIo.udp_receive_callback]); with them the
    invariant of [StackInv] holds whatever frames arrive and whatever is
    called. *)

From stdpp Require Import gmap.
From S2P Require Import Prelude Ring TQueue BuffersPool UdpIo.
From S2P Require Import LwipDef InetChksum IpAddr Pbuf PbufOps PbufData NetState NetMem Etharp EtharpOps ArpTable IpOut Icmp Raw Udp UdpPorts UdpSend IpReass IpIn IpRecv UdpRecv ArpInput Netif StackInv.

(** Where the state of the module is, in what is around the stack. *)
Class HasUdpIo (N E : Type) := { io_get : E -> UdpIo.Udp N; io_set : UdpIo.Udp N -> E -> E }.

(** The number of an address in the memory. *)
Definition address (p : ptr) : Z := p.1 + p.2.

Section Receivers.
Context {N E : Type} `{HasUdpIo N E}.

(** The callback on the state of the module. *)
Definition take_in (p payload : Z) (bytes : list Z) (addr : Z) : NetM E () :=
  fun n => u ← UdpIo.udp_receive_callback p payload bytes addr (io_get (n_ext n)); Ret (n_set_ext (io_set u (n_ext n)) n, ()).

(** The call of the function [f] for the packet [p] that was received. *)
Definition program_recv (f arg pcb p addr port : Z) : NetM E () :=
  if bool_decide (f = receive_callback) then
    payload ← pb p_payload p;
    len ← pb p_len p;
    bytes ← ldn payload 0 len;
    take_in p (address payload) bytes addr
  else if bool_decide (f = receive_callback2) then mret ()
  else fun _ => Fault.

#[export] Instance program_receivers : UdpApp E := { udp_recv_fn := program_recv }.

Context `{Malloc, LinkDriver E, RawApp E}.
Implicit Types n : Net E.

(** The receivers keep to their own state. *)
Lemma program_app_ok : app_ok (E := E).
Proof.
  intros f arg pcb p addr port n n' r Hok Hr. cbn [udp_recv_fn program_receivers] in Hr. unfold program_recv in Hr.
  case_bool_decide; [|case_bool_decide; [by apply ret_inv in Hr as [<- _]|done]]. unfold pb, ldn in Hr. do 2 (run Hr; run R; apply ret_inv in R as [-> _]). run Hr. unfold take_in in Hr.
  apply bind_Ret in Hr as (u & _ & [= <- _]). exact Hok.
Qed.

(** C22: From a stack that is in order, whatever frames come for the receivers of
    the program, whatever it sends, binds, connects and removes, and however
    the timers run: no two entries of the ARP table have the same address,
    packets wait only for answers, no entry is older than it may get, and no
    two blocks of UDP receive on the same port of an address.  One call is the
    exception, and from there on nothing is said: a block that has a port is
    bound once more, without a port, when all the 16384 are in use; the call
    fails, and the block has the new address all the same. *)
Theorem stack_stays_ok n n' : stack_ok n -> rtc stack_step n n' ->
  stack_ok n' \/ exists n1 n2, rtc stack_step n n1 /\ stack_ok n1 /\ rebind_fails n1 n2 /\ rtc stack_step n2 n'.
Proof. apply steps_keep, program_app_ok. Qed.

End Receivers.

(** ** A datagram for the program *)

#[local] Existing Instance demo_malloc.

Lemma one_block_ok b last : up_local_port b <> 0 -> local_port last -> ports_ok (mkUdpState {[50 := b]} [50] last).
Proof.
  intros Hb Hl. split; [split| |]; cbn [udps udp_pcbs udp_port].
  - apply NoDup_singleton.
  - apply Forall_singleton. by eexists.
  - intros a c ->%list_elem_of_singleton [= <-]. done.
  - intros a c d e ->%list_elem_of_singleton ->%list_elem_of_singleton Hne. done.
  - done.
  - intros a c [-> _]%lookup_singleton_Some _. left.
Qed.

Definition Exchange : Type := UdpIo.Udp UdpIo.demo_net.
#[local] Instance exchange_io : HasUdpIo UdpIo.demo_net Exchange := { io_get e := e; io_set u _ := u }.
#[local] Instance exchange_link : LinkDriver Exchange := { linkoutput _ p h e := Ret (h, e, 0) }.
#[local] Instance exchange_raw : RawApp Exchange := { raw_recv_fn _ _ _ _ _ h e := Ret (h, e, 0) }.

(** [receiver], with the program behind port 9. *)
Definition with_program : Net Exchange :=
  mkNet (n_heap receiver) (n_if receiver) (n_arp receiver) (n_udp receiver) (n_raw receiver) (n_ip receiver) (n_reass receiver) (demo_udp []).

(** The datagram is received, and waits in the queue of the program. *)
Lemma stack_stays_ok_witness : exists n' m, rtc stack_step with_program n' /\
  UdpIo.u_mem (n_ext n') !! m = Some [1; 2; 3] /\ UdpIo.tx_raddr (UdpIo.u_txData (n_ext n')) = host 1 /\
  (stack_ok n' \/ exists n1 n2, rtc stack_step with_program n1 /\ stack_ok n1 /\ rebind_fails n1 n2 /\ rtc stack_step n2 n').
Proof.
  assert (exists n', ethernet_input 8 1 with_program = Ret (n', ERR_OK) /\ UdpIo.u_mem (n_ext n') !! 50 = Some [1; 2; 3] /\
    UdpIo.tx_raddr (UdpIo.u_txData (n_ext n')) = host 1) as (n' & E1 & E2 & E3) by (eexists; split; [|split]; vm_compute; reflexivity).
  assert (rtc stack_step with_program n') as Hr by (apply rtc_once; exact (step_frame _ _ 8 1 _ E1)).
  exists n', 50. split; [exact Hr|]. split; [exact E2|]. split; [exact E3|]. refine (stack_stays_ok with_program n' _ Hr). split.
  - exact (demo_arp_ok 2 1 9 1 0 (sent_frame ++ replicate 15 0)).
  - assert (ports_ok (mkUdpState {[50 := demo_block 9 1]} [50] 0xc000)) as Hp by (apply one_block_ok; [done|split; vm_compute; discriminate]). exact Hp.
Defined.
