(* ===== verification/Emac.v ===== *)
(** * The Ethernet driver ([src/lwip/src/arch/lpc18xx_43xx_emac.c])

    Two rings of four descriptors that the driver and the DMA of the controller
    share: a descriptor with the bit [OWN] is the controller's.  Buffers wait in
    the receive ring for frames; a frame to be sent takes a descriptor per
    buffer and is freed when the ring is reclaimed.  No operating system. *)

From stdpp Require Import gmap.
From S2P Require Import Prelude LwipDef InetChksum IpAddr Pbuf PbufOps PbufData NetState Etharp IpOut Icmp Raw Udp IpReass IpIn Netif Phy.

Definition LPC_NUM_BUFF_RXDESCS : Z := 4.
Definition LPC_NUM_BUFF_TXDESCS : Z := 4.
Definition NETIF_FLAG_ETHERNET : Z := 0x40.

(** The headers of the chip's library: the bits of the descriptors and
    registers, the largest frame. *)
Class EnetBits := {
  RDES_OWN : Z; RDES_ES : Z; RDES_LE : Z; RDES_FT : Z; RDES_CE : Z; RDES_LS : Z; RDES_DE : Z; RDES_RE : Z;
  RDES_RWT : Z; RDES_LC : Z; RDES_OE : Z; RDES_SAF : Z; RDES_AFM : Z; RDES_ENH_RCH : Z; RDES_ENH_RER : Z;
  RDES_ENH_BS1 : Z -> Z; RDES_FLMSK : Z -> Z;
  TDES_OWN : Z; TDES_ENH_TCH : Z; TDES_ENH_TER : Z; TDES_ENH_FS : Z; TDES_ENH_LS : Z; TDES_ENH_IC : Z;
  TDES_ENH_CIC : Z -> Z; TDES_ENH_BS1 : Z -> Z;
  MAC_CFG_BL : Z -> Z; MAC_CFG_IPC : Z; MAC_CFG_DM : Z; MAC_CFG_DO : Z; MAC_CFG_FES : Z; MAC_CFG_PS : Z; MAC_CFG_IFG : Z -> Z;
  MAC_CFG_RE : Z; MAC_CFG_TE : Z;
  MAC_FF_PR : Z; MAC_FF_RA : Z; DMA_OM_FTF : Z; DMA_OM_RTC : Z -> Z; DMA_OM_TTC : Z -> Z; DMA_OM_ST : Z; DMA_OM_SR : Z; DMA_ST_ALL : Z;
  EMAC_ETH_MAX_FLEN : Z;
}.

(** [ENET_ENHTXDESC_T], [ENET_ENHRXDESC_T]; [B2ADD]: the index of the next
    descriptor. *)
Record txdesc := mkTx { CTRLSTAT : Z; BSIZE : Z; t_B1ADD : ptr; t_B2ADD : Z }.
Record rxdesc := mkRx { STATUS : Z; CTRL : Z; r_B1ADD : ptr; r_B2ADD : Z }.

(** The registers of the controller. *)
Record EnetRegs := mkRegs {
  MAC_CONFIG : Z; MAC_FRAME_FILTER : Z; DMA_OP_MODE : Z; DMA_STAT : Z; DMA_INT_EN : Z;
  DMA_REC_POLL_DEMAND : Z; DMA_TRANS_POLL_DEMAND : Z;
}.

(** [struct lpc_enetdata], [intMask] and the registers. *)
Record Emac := mkEmacDrv {
  ed_netif : Z;
  ptdesc : list txdesc;
  prdesc : list rxdesc;
  txpbufs : list Z;
  tx_free_descs : Z;
  tx_fill_idx : Z;
  tx_reclaim_idx : Z;
  rxpbufs : list Z;
  rx_free_descs : Z;
  rx_get_idx : Z;
  rx_next_idx : Z;
  ed_intMask : Z;
  ed_regs : EnetRegs;
}.

Definition ed_set_netif x (d : Emac) : Emac :=
  mkEmacDrv x (ptdesc d) (prdesc d) (txpbufs d) (tx_free_descs d) (tx_fill_idx d) (tx_reclaim_idx d) (rxpbufs d) (rx_free_descs d) (rx_get_idx d) (rx_next_idx d) (ed_intMask d) (ed_regs d).
Definition ed_set_tx t b fr fl rc (d : Emac) : Emac :=
  mkEmacDrv (ed_netif d) t (prdesc d) b fr fl rc (rxpbufs d) (rx_free_descs d) (rx_get_idx d) (rx_next_idx d) (ed_intMask d) (ed_regs d).
Definition ed_set_rx r b fr g x (d : Emac) : Emac :=
  mkEmacDrv (ed_netif d) (ptdesc d) r (txpbufs d) (tx_free_descs d) (tx_fill_idx d) (tx_reclaim_idx d) b fr g x (ed_intMask d) (ed_regs d).
Definition ed_set_hw m r (d : Emac) : Emac :=
  mkEmacDrv (ed_netif d) (ptdesc d) (prdesc d) (txpbufs d) (tx_free_descs d) (tx_fill_idx d) (tx_reclaim_idx d) (rxpbufs d) (rx_free_descs d) (rx_get_idx d) (rx_next_idx d) m r.

Definition tx_set_ctrl x (t : txdesc) : txdesc := mkTx x (BSIZE t) (t_B1ADD t) (t_B2ADD t).
Definition tx_or x (t : txdesc) : txdesc := tx_set_ctrl (Z.lor (CTRLSTAT t) x) t.

(** The next index of a ring of four. *)
Definition ring_next (i : Z) : Z := if bool_decide (i + 1 >= LPC_NUM_BUFF_TXDESCS) then 0 else i + 1.

(** The driver's data and the rest of the program's. *)
Record Drv (A : Type) := mkDrv { dv_emac : Emac; dv_app : A }.
Arguments mkDrv {A}. Arguments dv_emac {A}. Arguments dv_app {A}.

(** The chip's library and the transceiver: [Chip_ENET_Init] with
    [Chip_ENET_SetADDR], [lpc_phy_init], and the address set by the program. *)
Class EnetChip (A : Type) := {
  chip_enet_init : list Z -> EnetRegs -> EnetRegs;
  start_phy : A -> A * Z;
  Board_ENET_GetMacADDR : A -> list Z;
}.

Section Emac.
Context `{EnetBits, Malloc}.

(** ** Sending *)

Definition lpc_tx_ready (d : Emac) : Z := tx_free_descs d.

(** The changes of the descriptor [idx] for the buffer [b]; [k]: how many more
    follow. *)
Definition fill_desc (b : pbuf) (first : bool) (k : nat) (t : txdesc) : txdesc :=
  let t := mkTx (CTRLSTAT t) (TDES_ENH_BS1 (p_len b)) (p_payload b) (t_B2ADD t) in
  let t := tx_or (if first then TDES_ENH_FS else TDES_OWN) t in
  let t := if bool_decide (k = O) then tx_or (Z.lor TDES_ENH_LS TDES_ENH_IC) t else t in
  tx_or (TDES_ENH_CIC 3) t.

(** The loop over the buffers. *)
Fixpoint fill_loop (dn : nat) (p sendp idx fidx : Z) (h : Heap) (d : Emac) : outcome (Heap * Emac * Z) :=
  match dn with
  | O => Ret (h, d, idx)
  | S dn =>
      b ← get p h;
      t ← checked (rd (ptdesc d) idx);
      let first := bool_decide (idx = fidx) in
      tx ← checked (wr (ptdesc d) idx (fill_desc b first dn t));
      h ← (if first then pbuf_ref p h else Ret h);
      bs ← checked (wr (txpbufs d) idx (if bool_decide (dn = O) then sendp else 0));
      fill_loop dn (p_next b) sendp (ring_next idx) fidx h (ed_set_tx tx bs (u32 (tx_free_descs d - 1)) (tx_fill_idx d) (tx_reclaim_idx d) d)
  end.

Definition poll_tx (d : Emac) : Emac :=
  let r := ed_regs d in
  ed_set_hw (ed_intMask d) (mkRegs (MAC_CONFIG r) (MAC_FRAME_FILTER r) (DMA_OP_MODE r) (DMA_STAT r) (DMA_INT_EN r) (DMA_REC_POLL_DEMAND r) 1) d.
Definition poll_rx (d : Emac) : Emac :=
  let r := ed_regs d in
  ed_set_hw (ed_intMask d) (mkRegs (MAC_CONFIG r) (MAC_FRAME_FILTER r) (DMA_OP_MODE r) (DMA_STAT r) (DMA_INT_EN r) 1 (DMA_TRANS_POLL_DEMAND r)) d.

(** The wait for descriptors: only [lpc_tx_reclaim] frees them, and nothing
    calls it while this function waits. *)
Definition lpc_low_level_output (sendp : Z) (h : Heap) (d : Emac) : outcome (Heap * Emac * Z) :=
  dn ← pbuf_clen sendp h;
  if bool_decide (dn > lpc_tx_ready d) then Spin
  else
    let fidx := tx_fill_idx d in
    '(h, d, idx) ← fill_loop (Z.to_nat dn) sendp sendp fidx fidx h d;
    t ← checked (rd (ptdesc d) fidx);
    tx ← checked (wr (ptdesc d) fidx (tx_or TDES_OWN t));
    Ret (h, poll_tx (ed_set_tx tx (txpbufs d) (tx_free_descs d) idx (tx_reclaim_idx d) d), ERR_OK).

(** One descriptor that the controller is done with. *)
Definition reclaim_one (ridx : Z) (t : txdesc) (h : Heap) (d : Emac) : outcome (Heap * Emac) :=
  tx ← checked (wr (ptdesc d) ridx (tx_set_ctrl (if bool_decide (ridx = LPC_NUM_BUFF_TXDESCS - 1) then Z.lor TDES_ENH_TCH TDES_ENH_TER else TDES_ENH_TCH) t));
  p ← checked (rd (txpbufs d) ridx);
  h ← (if bool_decide (p <> 0) then '(h, _) ← pbuf_free p h; Ret h else Ret h);
  Ret (h, ed_set_tx tx (txpbufs d) (u32 (tx_free_descs d + 1)) (tx_fill_idx d) (tx_reclaim_idx d) d).

Fixpoint reclaim_loop (fuel : nat) (ridx : Z) (h : Heap) (d : Emac) : outcome (Heap * Emac * Z) :=
  if bool_decide (tx_free_descs d < LPC_NUM_BUFF_TXDESCS) then
    t ← checked (rd (ptdesc d) ridx);
    if bool_decide (Z.land (CTRLSTAT t) TDES_OWN = 0) then
      match fuel with
      | O => Spin
      | S fuel => '(h, d) ← reclaim_one ridx t h d; reclaim_loop fuel (ring_next ridx) h d
      end
    else Ret (h, d, ridx)
  else Ret (h, d, ridx).

Definition lpc_tx_reclaim (h : Heap) (d : Emac) : outcome (Heap * Emac) :=
  '(h, d, ridx) ← reclaim_loop (Z.to_nat LPC_NUM_BUFF_TXDESCS) (tx_reclaim_idx d) h d;
  Ret (h, ed_set_tx (ptdesc d) (txpbufs d) (tx_free_descs d) (tx_fill_idx d) ridx d).

(** The ring of transmit descriptors. *)
Definition tx_ring : list txdesc :=
  map (fun i => mkTx (Z.lor (if bool_decide (i = LPC_NUM_BUFF_TXDESCS - 1) then Z.lor TDES_ENH_TCH TDES_ENH_TER else TDES_ENH_TCH) (TDES_ENH_CIC 3))
                 0 null_ptr (if bool_decide (i = LPC_NUM_BUFF_TXDESCS - 1) then 0 else i + 1)) (seqZ 0 LPC_NUM_BUFF_TXDESCS).

Definition lpc_tx_setup (d : Emac) : Emac := ed_set_tx tx_ring (txpbufs d) LPC_NUM_BUFF_TXDESCS 0 0 d.

(** ** Receiving *)

Definition lpc_rxqueue_pbuf (p : Z) (h : Heap) (d : Emac) : outcome Emac :=
  let idx := rx_next_idx d in
  b ← get p h;
  r ← checked (rd (prdesc d) idx);
  bs ← checked (wr (rxpbufs d) idx p);
  let ctrl := Z.lor (RDES_ENH_BS1 (p_len b)) RDES_ENH_RCH in
  let ctrl := if bool_decide (idx = LPC_NUM_BUFF_RXDESCS - 1) then Z.lor ctrl RDES_ENH_RER else ctrl in
  rx ← checked (wr (prdesc d) idx (mkRx RDES_OWN ctrl (p_payload b) (r_B2ADD r)));
  Ret (ed_set_rx rx bs (u32 (rx_free_descs d - 1)) (rx_get_idx d) (ring_next idx) d).

Fixpoint rx_queue_loop (fuel : nat) (queued : Z) (h : Heap) (d : Emac) : outcome (Heap * Emac * Z) :=
  if bool_decide (rx_free_descs d > 0) then
    match fuel with
    | O => Spin
    | S fuel =>
        '(h, p) ← pbuf_alloc PBUF_RAW EMAC_ETH_MAX_FLEN PBUF_RAM h;
        if bool_decide (p = 0) then Ret (h, d, queued)
        else
          clen ← pbuf_clen p h;
          _ ← LWIP_ASSERT (bool_decide (clen <= 1));
          d ← lpc_rxqueue_pbuf p h d;
          rx_queue_loop fuel (queued + 1) h d
    end
  else Ret (h, d, queued).

Definition lpc_rx_queue (h : Heap) (d : Emac) : outcome (Heap * Emac * Z) := rx_queue_loop (Z.to_nat (rx_free_descs d)) 0 h d.

Definition rx_ring : list rxdesc :=
  map (fun i => mkRx 0 (if bool_decide (i = LPC_NUM_BUFF_RXDESCS - 1) then Z.lor RDES_ENH_RCH RDES_ENH_RER else RDES_ENH_RCH) null_ptr
                 (if bool_decide (i = LPC_NUM_BUFF_RXDESCS - 1) then 0 else i + 1)) (seqZ 0 LPC_NUM_BUFF_RXDESCS).

Definition lpc_rx_setup (h : Heap) (d : Emac) : outcome (Heap * Emac) :=
  '(h, d, _) ← lpc_rx_queue h (ed_set_rx rx_ring (rxpbufs d) LPC_NUM_BUFF_RXDESCS 0 0 d); Ret (h, d).

(** "Check packet for errors". *)
Definition rx_error (status : Z) (d : Emac) : bool :=
  let all m := bool_decide (Z.land status m = m) in
  if bool_decide (Z.land status RDES_ES <> 0) then
    (bool_decide (Z.land status (ed_intMask d) <> 0) ||
     bool_decide (Z.land status (Z.lor RDES_LE RDES_FT) = RDES_LE) || all (Z.lor RDES_CE RDES_LS)) ||
    (all (Z.lor RDES_DE RDES_LS) ||
     bool_decide (Z.land status RDES_DE <> 0) && bool_decide (Z.land (MAC_CONFIG (ed_regs d)) MAC_CFG_DM = 0))
  else false.

(** The frame, or null. *)
Definition lpc_low_level_input (h : Heap) (d : Emac) : outcome (Heap * Emac * Z) :=
  if bool_decide (rx_free_descs d = LPC_NUM_BUFF_RXDESCS) then '(h, d, _) ← lpc_rx_queue h d; Ret (h, d, 0)
  else
    let ridx := rx_get_idx d in
    r ← checked (rd (prdesc d) ridx);
    if bool_decide (Z.land (STATUS r) RDES_OWN <> 0) then Ret (h, d, 0)
    else
      p ← checked (rd (rxpbufs d) ridx);
      let status := STATUS r in
      let rxerr := rx_error status d in
      let d := ed_set_rx (prdesc d) (rxpbufs d) (u32 (rx_free_descs d + 1)) (ring_next ridx) (rx_next_idx d) d in
      if rxerr then d ← lpc_rxqueue_pbuf p h d; Ret (h, poll_rx d, 0)
      else
        '(h, d, _) ← lpc_rx_queue h d;
        h ← upd p (fun b => p_set_len (u16 (RDES_FLMSK status)) (p_set_tot_len (u16 (RDES_FLMSK status)) b)) h;
        Ret (h, poll_rx d, p).

(** ** Settings *)

Definition set_mac_config x (d : Emac) : Emac :=
  let r := ed_regs d in
  ed_set_hw (ed_intMask d) (mkRegs x (MAC_FRAME_FILTER r) (DMA_OP_MODE r) (DMA_STAT r) (DMA_INT_EN r) (DMA_REC_POLL_DEMAND r) (DMA_TRANS_POLL_DEMAND r)) d.
Definition lpc_emac_set_duplex (full_duplex : bool) (d : Emac) : Emac :=
  set_mac_config (if full_duplex then Z.lor (MAC_CONFIG (ed_regs d)) MAC_CFG_DM else Z.land (MAC_CONFIG (ed_regs d)) (Z.lnot MAC_CFG_DM)) d.
Definition lpc_emac_set_speed (mbs_100 : bool) (d : Emac) : Emac :=
  set_mac_config (if mbs_100 then Z.lor (MAC_CONFIG (ed_regs d)) MAC_CFG_FES else Z.land (MAC_CONFIG (ed_regs d)) (Z.lnot MAC_CFG_FES)) d.

End Emac.

(** ** Under the stack *)

#[export] Instance emac_link `{EnetBits, Malloc} A : LinkDriver (Drv A) := {
  linkoutput _ p h e := '(h, d, r) ← lpc_low_level_output p h (dv_emac e); Ret (h, mkDrv d (dv_app e), r);
}.

(** The numbers of [ethernet_input] and [lpc_low_level_output], the address of
    the driver's data. *)
Definition LPC_ENETDATA : Z := 1.
Definition ETHERNET_INPUT : Z := 1.
Definition LPC_LOW_LEVEL_OUTPUT : Z := 1.

Section Interface.
Context {A : Type} `{EnetBits, EnetChip A, Malloc, RawApp (Drv A), UdpApp (Drv A)}.
Notation M := (NetM (Drv A)).

(** A function of the driver. *)
Definition on_emac {B} (f : Heap -> Emac -> outcome (Heap * Emac * B)) : M B := fun n =>
  '(h, d, x) ← f (n_heap n) (dv_emac (n_ext n)); Ret (n_set_ext (mkDrv d (dv_app (n_ext n))) (n_set_heap h n), x).
Definition emac_set (f : Emac -> Emac) : M () := on_emac (fun h d => Ret (h, f d, ())).

(** [netif->input(p, netif)]. *)
Definition call_input (p a : Z) : M Z :=
  f ← netif_at a; if bool_decide (nf_input f = ETHERNET_INPUT) then ethernet_input p a else fault.

Definition lpc_enetif_input (a : Z) : M () :=
  p ← on_emac lpc_low_level_input;
  if bool_decide (p = 0) then mret ()
  else
    ethhdr ← pb p_payload p;
    type ← ld16 ethhdr eth_type;
    if bool_decide (lwip_htons type = ETHTYPE_IP) || bool_decide (lwip_htons type = ETHTYPE_ARP) then
      r ← call_input p a;
      if bool_decide (r <> ERR_OK) then drop p else mret ()
    else drop p.

(** The transceiver of the board has the reduced interface ([USE_RMII]). *)
Definition low_level_init (a : Z) : M Z :=
  f ← netif_at a;
  _ ← emac_set (fun d => ed_set_hw (ed_intMask d) (chip_enet_init (nf_hwaddr f) (ed_regs d)) d);
  _ ← emac_set (set_mac_config (Z.lor (MAC_CFG_BL 0) (Z.lor MAC_CFG_IPC (Z.lor MAC_CFG_DM (Z.lor MAC_CFG_DO (Z.lor MAC_CFG_FES (Z.lor MAC_CFG_PS (MAC_CFG_IFG 3))))))));
  _ ← emac_set (fun d => let r := ed_regs d in
        ed_set_hw (ed_intMask d) (mkRegs (MAC_CONFIG r) (Z.lor MAC_FF_PR MAC_FF_RA) (DMA_OP_MODE r) (DMA_STAT r) (DMA_INT_EN r) (DMA_REC_POLL_DEMAND r) (DMA_TRANS_POLL_DEMAND r)) d);
  e ← gets n_ext;
  let '(app, sts) := start_phy (dv_app e) in
  _ ← modify (n_set_ext (mkDrv (dv_emac e) app));
  if bool_decide (sts <> SUCCESS) then mret ERROR
  else
    _ ← emac_set (fun d => ed_set_hw (Z.lor RDES_CE (Z.lor RDES_DE (Z.lor RDES_RE (Z.lor RDES_RWT (Z.lor RDES_LC (Z.lor RDES_OE (Z.lor RDES_SAF RDES_AFM))))))) (ed_regs d) d);
    _ ← emac_set lpc_tx_setup;
    _ ← on_emac (fun h d => '(h, d) ← lpc_rx_setup h d; Ret (h, d, ()));
    _ ← emac_set (fun d => let r := ed_regs d in
        ed_set_hw (ed_intMask d) (mkRegs (Z.lor (MAC_CONFIG r) (Z.lor MAC_CFG_RE MAC_CFG_TE)) (MAC_FRAME_FILTER r)
          (Z.lor (Z.lor DMA_OM_FTF (Z.lor (DMA_OM_RTC 1) (DMA_OM_TTC 0))) (Z.lor DMA_OM_ST DMA_OM_SR)) DMA_ST_ALL 0 1 (DMA_TRANS_POLL_DEMAND r)) d);
    mret ERR_OK.

(** "lwiplpc" and "en". *)
Definition hostname : list Z := [108; 119; 105; 112; 108; 112; 99].
Definition if_name : list Z := [101; 110].

Definition lpc_enetif_init (a : Z) : M Z :=
  _ ← assert (bool_decide (a <> 0));
  _ ← emac_set (ed_set_netif a);
  e ← gets n_ext;
  _ ← netif_upd a (fun f => mkNetif (nf_ip_addr f) (nf_netmask f) (nf_gw f) (nf_input f) (nf_output f) (nf_linkoutput f) LPC_ENETDATA (nf_hostname f)
        1500 ETHARP_HWADDR_LEN (Board_ENET_GetMacADDR (dv_app e))
        (Z.lor NETIF_FLAG_BROADCAST (Z.lor NETIF_FLAG_ETHARP (Z.lor NETIF_FLAG_UP NETIF_FLAG_ETHERNET))) (nf_name f) (nf_num f));
  err ← low_level_init a;
  if bool_decide (err <> ERR_OK) then mret err
  else
    _ ← netif_upd a (fun f => mkNetif (nf_ip_addr f) (nf_netmask f) (nf_gw f) (nf_input f) LPC_ETHARP_OUTPUT LPC_LOW_LEVEL_OUTPUT (nf_state f) hostname
        (nf_mtu f) (nf_hwaddr_len f) (nf_hwaddr f) (nf_flags f) if_name (nf_num f));
    mret ERR_OK.

End Interface.
