(* ===== verification/EmacRing.v ===== *)
(** * The rings of the Ethernet driver

    Theorems on [Emac]: the ring of transmit descriptors is a queue of the
    buffers that are being sent, the receive ring one of those that wait for
    frames.  Both are windows of an array of four. *)

From stdpp Require Import gmap.
From S2P Require Import Prelude LwipDef InetChksum IpAddr Pbuf PbufOps PbufData NetState NetMem Etharp EtharpOps IpOut Icmp Raw Udp IpReass IpIn IpRecv Reassembly Netif Phy Emac.

(** ** Windows of a ring

    [n] entries of a ring of four, from the slot [base] on. *)

Definition window {A} (f : Z -> A) (base n : Z) : list A := map (fun k => f ((base + k) mod 4)) (seqZ 0 n).

Lemma window_at {A} (f : Z -> A) base n k : 0 <= k < n -> window f base n !! Z.to_nat k = Some (f ((base + k) mod 4)).
Proof.
  intros Hk. unfold window. change map with (@list_fmap). rewrite list_lookup_fmap, lookup_seqZ_lt by lia. cbn [fmap option_fmap option_map].
  by replace (0 + Z.of_nat (Z.to_nat k)) with k by lia.
Qed.

Lemma window_length {A} (f : Z -> A) base n : 0 <= n -> Z.of_nat (length (window f base n)) = n.
Proof. intros Hn. unfold window. rewrite length_map, length_seqZ. lia. Qed.

Lemma slots_inj base j k : 0 <= j < 4 -> 0 <= k < 4 -> (base + j) mod 4 = (base + k) mod 4 -> j = k.
Proof. intros Hj Hk Hjk. Z.to_euclidean_division_equations; lia. Qed.

Lemma window_push {A} (f f' : Z -> A) base n x : 0 <= n < 4 -> f' ((base + n) mod 4) = x -> (forall j, j <> (base + n) mod 4 -> f' j = f j) ->
  window f' base (n + 1) = window f base n ++ [x].
Proof.
  intros Hn <- Hf. unfold window. rewrite seqZ_app by lia. rewrite map_app, Z.add_0_l. f_equal. apply map_ext_in. intros k Hk%list_elem_of_In%elem_of_seqZ.
  apply Hf. intros Hs. apply slots_inj in Hs; lia.
Qed.

Lemma window_pop {A} (f f' : Z -> A) base n : 0 < n <= 4 -> 0 <= base < 4 -> (forall j, j <> base -> f' j = f j) -> window f' ((base + 1) mod 4) (n - 1) = skipn 1 (window f base n).
Proof.
  intros Hn Hb Hf. apply list_eq. intros i. rewrite lookup_drop. destruct (decide (Z.of_nat i < n - 1)) as [Hi|Hi].
  - pose proof (window_at f' ((base + 1) mod 4) (n - 1) (Z.of_nat i)) as E1. pose proof (window_at f base n (Z.of_nat i + 1)) as E2.
    rewrite Nat2Z.id in E1. replace (Z.to_nat (Z.of_nat i + 1)) with (1 + i)%nat in E2 by lia. rewrite E1, E2 by lia. f_equal.
    rewrite Zplus_mod_idemp_l. replace (base + 1 + Z.of_nat i) with (base + (Z.of_nat i + 1)) by lia. apply Hf. intros Hs.
    assert (Z.of_nat i + 1 = 0) by (apply (slots_inj base); [lia|lia|rewrite Hs, Z.add_0_r; symmetry; by apply Z.mod_small]). lia.
  - pose proof (window_length f' ((base + 1) mod 4) (n - 1) ltac:(lia)). pose proof (window_length f base n ltac:(lia)). rewrite !lookup_ge_None_2 by lia. done.
Qed.

Lemma window_head {A} (f : Z -> A) base n : 0 < n -> 0 <= base < 4 -> window f base n = f base :: skipn 1 (window f base n).
Proof.
  intros Hn Hb. pose proof (window_at f base n 0 ltac:(lia)) as Hq. rewrite Z.add_0_r, Z.mod_small in Hq by done. change (Z.to_nat 0) with 0%nat in Hq.
  destruct (window f base n) as [|y q]; [done|]. cbn in Hq. injection Hq as ->. done.
Qed.

Lemma window_set {A} (f f' : Z -> A) base n k x : 0 <= k < n -> n <= 4 -> f' ((base + k) mod 4) = x -> (forall j, j <> (base + k) mod 4 -> f' j = f j) ->
  window f' base n = <[Z.to_nat k := x]> (window f base n).
Proof.
  intros Hk H4 <- Hf. pose proof (window_length f base n ltac:(lia)) as L1. pose proof (window_length f' base n ltac:(lia)) as L2. apply list_eq. intros i.
  destruct (decide (Z.of_nat i < n)) as [Hi|Hi]; [|by rewrite !lookup_ge_None_2 by (rewrite ?length_insert; lia)].
  pose proof (window_at f base n (Z.of_nat i) ltac:(lia)) as E1. pose proof (window_at f' base n (Z.of_nat i) ltac:(lia)) as E2. rewrite Nat2Z.id in E1, E2.
  destruct (decide (i = Z.to_nat k)) as [->|Hne].
  - rewrite list_lookup_insert_eq by lia. rewrite E2. by rewrite Z2Nat.id by lia.
  - rewrite list_lookup_insert_ne by done. rewrite E1, E2, Hf; [done|]. intros Hs. apply slots_inj in Hs; lia.
Qed.

Lemma ring_next_mod i : 0 <= i < 4 -> ring_next i = (i + 1) mod 4.
Proof.
  intros Hi. unfold ring_next, LPC_NUM_BUFF_TXDESCS. destruct (decide (i + 1 >= 4)).
  - rewrite bool_decide_true by done. assert (i = 3) as -> by lia. done.
  - rewrite bool_decide_false by done. symmetry. apply Z.mod_small. lia.
Qed.

(** ** The transmit ring *)

Definition tx_at (d : Emac) (i : Z) : txdesc := default (mkTx 0 0 null_ptr 0) (rd (ptdesc d) i).
Definition txbuf_at (d : Emac) (i : Z) : Z := default 0 (rd (txpbufs d) i).

(** The [k]-th descriptor from the oldest one on. *)
Definition tx_slot (d : Emac) (k : Z) : Z := (tx_reclaim_idx d + k) mod 4.
Definition tx_used (d : Emac) : Z := 4 - tx_free_descs d.

(** The descriptors in use with their packets, the oldest first. *)
Definition tx_queue (d : Emac) : list (txdesc * Z) := window (fun i => (tx_at d i, txbuf_at d i)) (tx_reclaim_idx d) (tx_used d).

(** What sending leaves alone. *)
Definition rx_side (d : Emac) := (prdesc d, rxpbufs d, rx_free_descs d, rx_get_idx d, rx_next_idx d, ed_intMask d, ed_netif d).

Record tx_ok (d : Emac) : Prop := {
  tx_descs : length (ptdesc d) = 4%nat;
  tx_bufs : length (txpbufs d) = 4%nat;
  tx_reclaim : 0 <= tx_reclaim_idx d < 4;
  tx_free : 0 <= tx_free_descs d <= 4;
}.

Definition tx_fill_ok (d : Emac) : Prop := tx_fill_idx d = tx_slot d (tx_used d).

Lemma slot_next d k : ring_next (tx_slot d k) = tx_slot d (k + 1).
Proof. unfold tx_slot. rewrite ring_next_mod by (apply Z.mod_pos_bound; lia). rewrite Zplus_mod_idemp_l. f_equal. lia. Qed.

Lemma slot_range d k : 0 <= tx_slot d k < 4.
Proof. unfold tx_slot. apply Z.mod_pos_bound. lia. Qed.

Lemma slot_inj d j k : 0 <= j < 4 -> 0 <= k < 4 -> tx_slot d j = tx_slot d k -> j = k.
Proof. apply slots_inj. Qed.

Lemma queue_length d : tx_ok d -> Z.of_nat (length (tx_queue d)) = tx_used d.
Proof. intros Hok. pose proof (tx_free _ Hok). apply window_length. unfold tx_used. lia. Qed.

(** A descriptor is taken into use. *)
Lemma tx_push d x y t b fl : tx_ok d -> 0 < tx_free_descs d -> wr (ptdesc d) (tx_slot d (tx_used d)) x = Some t -> wr (txpbufs d) (tx_slot d (tx_used d)) y = Some b ->
  let d' := ed_set_tx t b (u32 (tx_free_descs d - 1)) fl (tx_reclaim_idx d) d in
  tx_ok d' /\ tx_used d' = tx_used d + 1 /\ tx_queue d' = tx_queue d ++ [(x, y)] /\ (forall j, j <> tx_slot d (tx_used d) -> tx_at d' j = tx_at d j).
Proof.
  intros [H1 H2 H3 H4] Hf Ht Hb d'. assert (tx_free_descs d' = tx_free_descs d - 1) as Hfree by (cbn; apply u32_id; unw; lia).
  assert (tx_used d' = tx_used d + 1) as Hu by (unfold tx_used; rewrite Hfree; lia).
  assert (forall j, tx_at d' j = if bool_decide (tx_slot d (tx_used d) = j) then x else tx_at d j) as Hat by (intros j; unfold tx_at; cbn; rewrite (rd_wr _ _ _ _ _ Ht); by case_bool_decide).
  assert (forall j, txbuf_at d' j = if bool_decide (tx_slot d (tx_used d) = j) then y else txbuf_at d j) as Hbt by (intros j; unfold txbuf_at; cbn; rewrite (rd_wr _ _ _ _ _ Hb); by case_bool_decide).
  split; [|split; [done|split]].
  - split; cbn [ptdesc txpbufs d' ed_set_tx tx_reclaim_idx]; [by rewrite (wr_length _ _ _ _ Ht)|by rewrite (wr_length _ _ _ _ Hb)|done|rewrite Hfree; lia].
  - unfold tx_queue. rewrite Hu. apply window_push; [unfold tx_used; lia| |].
    + change ((tx_reclaim_idx d' + tx_used d) mod 4) with (tx_slot d (tx_used d)). by rewrite Hat, Hbt, !bool_decide_true by done.
    + intros j Hj. rewrite Hat, Hbt, !bool_decide_false; [done|..]; by intros <-.
  - intros j Hj. rewrite Hat. by rewrite bool_decide_false by (by intros <-).
Qed.

Section Tx.
Context `{EnetBits, Malloc}.

(** The buffers of a packet. *)
Fixpoint chain_of (h : Heap) (p : Z) (l : list (Z * pbuf)) : Prop :=
  match l with [] => p = 0 | (a, b) :: l => p = a /\ a <> 0 /\ pbufs h !! a = Some b /\ chain_of h (p_next b) l end.

Lemma chain_linked h l : forall p, chain_of h p l -> linked h p (map fst l) 0.
Proof. induction l as [|[a b] l IH]; intros p; cbn; [done|]. intros (-> & Ha & Hb & Hl). split; [done|]. split; [done|]. exists b. split; [done|by apply IH]. Qed.

Lemma chain_frame h h' l : forall p, chain_of h p l -> (forall a, a ∈ map fst l -> pbufs h' !! a = pbufs h !! a) -> chain_of h' p l.
Proof.
  induction l as [|[a b] l IH]; intros p; cbn [chain_of map fst]; [done|]. intros (-> & Ha & Hb & Hl) Hf. split; [done|]. split; [done|].
  split; [rewrite Hf; [done|left]|]. apply IH; [done|]. intros c Hc. apply Hf. by right.
Qed.

(** What the buffers [l] are filled in as, from slot [k] on. *)
Fixpoint filled (d : Emac) (k : Z) (first : bool) (sendp : Z) (l : list pbuf) : list (txdesc * Z) :=
  match l with
  | [] => []
  | b :: l => (fill_desc b first (length l) (tx_at d (tx_slot d k)), if bool_decide (length l = 0%nat) then sendp else 0) :: filled d (k + 1) false sendp l
  end.

Lemma filled_ext d d' sendp l : forall k first, tx_reclaim_idx d' = tx_reclaim_idx d ->
  (forall j, k <= j < k + Z.of_nat (length l) -> tx_at d' (tx_slot d j) = tx_at d (tx_slot d j)) -> filled d' k first sendp l = filled d k first sendp l.
Proof.
  induction l as [|b l IH]; intros k first Hr Hj; [done|]. cbn [filled length] in *. assert (forall i, tx_slot d' i = tx_slot d i) as Hs by (intros; unfold tx_slot; by rewrite Hr).
  rewrite Hs, Hj by lia. f_equal. apply IH; [done|]. intros j Hr2. apply Hj. lia.
Qed.

(** The loop after the first buffer. *)
Lemma fill_loop_spec sendp fidx l : forall p h d m, chain_of h p l -> tx_ok d -> Z.of_nat (length l) <= tx_free_descs d ->
  fidx = tx_slot d m -> 0 <= m < tx_used d ->
  exists d', fill_loop (length l) p sendp (tx_slot d (tx_used d)) fidx h d = Ret (h, d', tx_slot d (tx_used d + Z.of_nat (length l))) /\
    tx_ok d' /\ tx_reclaim_idx d' = tx_reclaim_idx d /\ tx_used d' = tx_used d + Z.of_nat (length l) /\ tx_queue d' = tx_queue d ++ filled d (tx_used d) false sendp (map snd l) /\
    tx_fill_idx d' = tx_fill_idx d /\ rx_side d' = rx_side d.
Proof.
  induction l as [|[a b] l IH]; intros p h d m Hp Hok Hlen Hf Hm.
  - exists d. cbn [length fill_loop]. rewrite Z.add_0_r. split; [done|]. split; [done|]. split; [done|]. split; [lia|]. by rewrite app_nil_r.
  - cbn [length fill_loop map filled] in *. destruct Hp as (-> & Ha & Hb & Hl). pose proof Hok as [H1 H2 H3 H4]. unfold tx_used in Hm.
    set (k := tx_used d) in *. pose proof (slot_range d k) as Hk.
    rewrite (get_live _ _ _ Hb). cbn [mbind outcome_bind]. destruct (rd_total (ptdesc d) (tx_slot d k)) as [t Ht]; [rewrite H1; lia|]. rewrite Ht. cbn [checked mbind outcome_bind].
    rewrite (bool_decide_false (tx_slot d k = fidx)) by (subst fidx; intros Hs; apply slot_inj in Hs; unfold k, tx_used in *; lia).
    destruct (wr_total (ptdesc d) (tx_slot d k) (fill_desc b false (length l) t)) as [tx Hw]; [rewrite H1; lia|]. rewrite Hw. cbn [checked mbind outcome_bind].
    destruct (wr_total (txpbufs d) (tx_slot d k) (if bool_decide (length l = 0%nat) then sendp else 0)) as [bs Hw2]; [rewrite H2; lia|]. rewrite Hw2. cbn [checked mbind outcome_bind].
    destruct (tx_push d _ _ tx bs (tx_fill_idx d) Hok ltac:(lia) Hw Hw2) as (Hok' & Hu' & Hq' & Hat'). set (d1 := ed_set_tx _ _ _ _ _ d) in *. fold k in Hu', Hq', Hat'.
    rewrite slot_next. destruct (IH (p_next b) h d1 m Hl Hok') as (d' & E1 & Hok2 & Hr2 & Hu2 & Hq2 & Hf2); [unfold k, tx_used in *; lia|done|rewrite Hu'; unfold k, tx_used; lia|].
    exists d'. rewrite Hu' in E1, Hu2, Hq2. change (tx_slot d1 ?x) with (tx_slot d x) in E1. rewrite E1. split; [by replace (k + Z.of_nat (S (length l))) with (k + 1 + Z.of_nat (length l)) by lia|]. split; [done|]. split; [done|]. split; [lia|]. split; [|done].
    rewrite Hq2, Hq', <-(assoc_L (++)). cbn [app]. rewrite length_map. unfold tx_at at 1. rewrite Ht. cbn [default]. do 2 f_equal. apply filled_ext; [done|].
    intros j Hj. rewrite length_map in Hj. apply Hat'. intros Hs. apply slot_inj in Hs; unfold k, tx_used in *; lia.
Qed.

(** A descriptor in use is written. *)
Lemma tx_set d k x t : tx_ok d -> 0 <= k < tx_used d -> wr (ptdesc d) (tx_slot d k) x = Some t ->
  let d' := ed_set_tx t (txpbufs d) (tx_free_descs d) (tx_fill_idx d) (tx_reclaim_idx d) d in
  tx_ok d' /\ tx_queue d' = <[Z.to_nat k := (x, txbuf_at d (tx_slot d k))]> (tx_queue d).
Proof.
  intros [H1 H2 H3 H4] Hk Hw d'. unfold tx_used in Hk. split; [split; cbn; try done; by rewrite (wr_length _ _ _ _ Hw)|].
  assert (forall j, tx_at d' j = if bool_decide (tx_slot d k = j) then x else tx_at d j) as Hat by (intros j; unfold tx_at; cbn; rewrite (rd_wr _ _ _ _ _ Hw); by case_bool_decide).
  apply window_set; [unfold tx_used; lia|unfold tx_used; lia| |].
  - by rewrite Hat, bool_decide_true by done.
  - intros j Hj. rewrite Hat, bool_decide_false; [done|]. by intros <-.
Qed.

Lemma queue_at d k : 0 <= k < tx_used d -> tx_queue d !! Z.to_nat k = Some (tx_at d (tx_slot d k), txbuf_at d (tx_slot d k)).
Proof. apply window_at. Qed.

(** The descriptors a packet is handed to the controller in. *)
Definition handed (d : Emac) (sendp : Z) (l : list pbuf) : list (txdesc * Z) :=
  match filled d (tx_used d) true sendp l with [] => [] | (t, p) :: r => (tx_or TDES_OWN t, p) :: r end.

Definition referenced (p : Z) (b : pbuf) (h : Heap) : Heap := put p (p_set_ref (u16 (p_ref b + 1)) b) h.

Lemma tx_output d h p b l : tx_ok d -> tx_fill_ok d -> chain_of h p ((p, b) :: l) -> Z.of_nat (length ((p, b) :: l)) <= tx_free_descs d ->
  exists d', lpc_low_level_output p h d = Ret (referenced p b h, d', ERR_OK) /\ tx_ok d' /\ tx_fill_ok d' /\
    tx_queue d' = tx_queue d ++ handed d p (b :: map snd l) /\ DMA_TRANS_POLL_DEMAND (ed_regs d') = 1 /\ rx_side d' = rx_side d.
Proof.
  intros Hok Hfi Hch Hlen. pose proof Hok as [H1 H2 H3 H4]. pose proof (chain_linked _ _ _ Hch) as Hlk. pose proof (linked_NoDup _ _ _ Hlk) as Hnd.
  pose proof Hch as (_ & Hp & Hb & Hl). unfold lpc_low_level_output, pbuf_clen. rewrite (clen_linked h _ _ 0 _ Hlk); [|by apply linked_fuel in Hlk|done|rewrite length_map; lia].
  rewrite length_map, Z.add_0_l. cbn [mbind outcome_bind]. unfold lpc_tx_ready. rewrite bool_decide_false by lia.
  unfold tx_fill_ok in Hfi. set (k := tx_used d) in *. pose proof (slot_range d k) as Hk. rewrite Nat2Z.id, Hfi. cbn [length fill_loop].
  rewrite (get_live _ _ _ Hb). cbn [mbind outcome_bind]. destruct (rd_total (ptdesc d) (tx_slot d k)) as [t Ht]; [rewrite H1; lia|]. rewrite Ht. cbn [checked mbind outcome_bind].
  rewrite (bool_decide_true (tx_slot d k = tx_slot d k)) by done.
  set (x := fill_desc b true (length l) t). set (y := if bool_decide (length l = 0%nat) then p else 0). cbn [length] in Hlen.
  destruct (wr_total (ptdesc d) (tx_slot d k) x) as [tx Hw]; [rewrite H1; lia|]. rewrite Hw. cbn [checked mbind outcome_bind].
  assert (pbuf_ref p h = Ret (referenced p b h)) as Href by (unfold pbuf_ref; rewrite bool_decide_true by done; by rewrite (upd_live _ _ _ _ Hb)).
  rewrite Href. cbn [checked mbind outcome_bind].
  destruct (wr_total (txpbufs d) (tx_slot d k) y) as [bs Hw2]; [rewrite H2; lia|]. rewrite Hw2. cbn [checked mbind outcome_bind].
  destruct (tx_push d x y tx bs (tx_fill_idx d) Hok ltac:(lia) Hw Hw2) as (Hok1 & Hu1 & Hq1 & Hat1). set (d1 := ed_set_tx _ _ _ _ _ d) in *. fold k in Hu1, Hq1, Hat1.
  set (h1 := referenced p b h). assert (chain_of h1 (p_next b) l) as Hl1.
  { cbn [map fst] in Hnd. apply NoDup_cons in Hnd as [Hni _]. eapply chain_frame; [exact Hl|]. intros a Ha. unfold h1, referenced. apply put_other. by intros <-. }
  rewrite slot_next. destruct (fill_loop_spec p (tx_slot d k) l (p_next b) h1 d1 k Hl1 Hok1) as (d2 & E2 & Hok2 & Hr2 & Hu2 & Hq2 & Hf2 & Hx2); [unfold k, tx_used in *; lia|done|rewrite Hu1; unfold k, tx_used; lia|].
  rewrite Hu1 in E2, Hu2, Hq2. change (tx_slot d1 ?z) with (tx_slot d z) in E2. rewrite E2. cbn [mbind outcome_bind]. change (tx_reclaim_idx d1) with (tx_reclaim_idx d) in Hr2.
  assert (forall j, tx_slot d2 j = tx_slot d j) as Hsl by (intros; unfold tx_slot; by rewrite Hr2). pose proof Hok2 as [K1 K2 K3 K4].
  destruct (rd_total (ptdesc d2) (tx_slot d k)) as [t2 Ht2]; [rewrite K1; lia|]. rewrite Ht2. cbn [checked mbind outcome_bind].
  assert (t2 = x /\ txbuf_at d2 (tx_slot d k) = y) as [-> Hy].
  { pose proof (queue_at d2 k ltac:(unfold k, tx_used in *; lia)) as Hqa. rewrite Hq2, Hq1, <-(assoc_L (++)) in Hqa. pose proof (queue_length d Hok) as Hql. fold k in Hql.
    rewrite lookup_app_r in Hqa by lia. replace (Z.to_nat k - length (tx_queue d))%nat with 0%nat in Hqa by lia. cbn in Hqa. rewrite Hsl in Hqa. unfold tx_at in Hqa. rewrite Ht2 in Hqa. by injection Hqa. }
  destruct (wr_total (ptdesc d2) (tx_slot d k) (tx_or TDES_OWN x)) as [tx3 Hw3]; [rewrite K1; lia|]. rewrite Hw3. cbn [checked mbind outcome_bind].
  pose proof Hw3 as Hw4. rewrite <-Hsl in Hw4. destruct (tx_set d2 k _ tx3 Hok2 ltac:(unfold k, tx_used in *; lia) Hw4) as [Hok3 Hq3].
  eexists. split; [done|]. split; [|split; [|split; [|done]]].
  - destruct Hok3 as [L1 L2 L3 L4]. by split.
  - unfold tx_fill_ok. cbn. unfold tx_slot at 2, tx_used at 1. cbn. rewrite Hr2. fold (tx_used d2). rewrite Hu2. unfold tx_slot. done.
  - etrans; [exact Hq3|]. rewrite Hq2, Hq1, <-(assoc_L (++)), Hsl, Hy. pose proof (queue_length d Hok) as Hql. fold k in Hql.
    rewrite insert_app_r_alt by lia. replace (Z.to_nat k - length (tx_queue d))%nat with 0%nat by lia. cbn [app list_insert insert].
    unfold handed. cbn [filled]. fold k. rewrite length_map. unfold tx_at. rewrite Ht. cbn [default]. fold x. fold y. f_equal. f_equal.
    apply filled_ext; [done|]. intros j Hj. rewrite length_map in Hj. apply Hat1. intros Hs. apply slot_inj in Hs; unfold k, tx_used in *; lia.
Qed.

(** Too many buffers: nothing frees descriptors while the driver waits. *)
Lemma tx_output_waits d h p l : chain_of h p l -> Z.of_nat (length l) > tx_free_descs d -> Z.of_nat (length l) < 256 -> lpc_low_level_output p h d = Spin.
Proof.
  intros Hch Hlen H256. pose proof (chain_linked _ _ _ Hch) as Hlk. unfold lpc_low_level_output, pbuf_clen.
  rewrite (clen_linked h _ _ 0 _ Hlk); [|by apply linked_fuel in Hlk|done|rewrite length_map; lia]. rewrite length_map, Z.add_0_l. cbn [mbind outcome_bind].
  unfold lpc_tx_ready. by rewrite bool_decide_true by lia.
Qed.

(** ** Reclaiming *)

(** The oldest descriptors, as far as the controller is done with them. *)
Fixpoint sent (q : list (txdesc * Z)) : list (txdesc * Z) :=
  match q with [] => [] | (t, p) :: q => if bool_decide (Z.land (CTRLSTAT t) TDES_OWN = 0) then (t, p) :: sent q else [] end.

(** Their packets are freed; null stands for a buffer that is not the last one
    of its packet. *)
Fixpoint free_sent (q : list (txdesc * Z)) (h : Heap) : outcome Heap :=
  match q with [] => Ret h | (_, p) :: q => h ← (if bool_decide (p <> 0) then '(h, _) ← pbuf_free p h; Ret h else Ret h); free_sent q h end.

(** The driver's data with the index of [lpc_tx_reclaim]. *)
Definition rc (ridx : Z) (d : Emac) : Emac := ed_set_tx (ptdesc d) (txpbufs d) (tx_free_descs d) (tx_fill_idx d) ridx d.

Lemma used_head d : tx_ok d -> 0 < tx_used d -> tx_queue d = (tx_at d (tx_reclaim_idx d), txbuf_at d (tx_reclaim_idx d)) :: skipn 1 (tx_queue d).
Proof. intros Hok Hu. apply (window_head (fun i => (tx_at d i, txbuf_at d i))); [done|by apply tx_reclaim]. Qed.

(** The oldest descriptor is free again. *)
Lemma tx_pop d x t : tx_ok d -> 0 < tx_used d -> wr (ptdesc d) (tx_reclaim_idx d) x = Some t ->
  let d' := ed_set_tx t (txpbufs d) (u32 (tx_free_descs d + 1)) (tx_fill_idx d) (ring_next (tx_reclaim_idx d)) d in
  tx_ok d' /\ tx_used d' = tx_used d - 1 /\ tx_queue d' = skipn 1 (tx_queue d) /\ (tx_fill_ok d -> tx_fill_ok d').
Proof.
  intros Hok Hu Hw d'. pose proof Hok as [H1 H2 H3 H4]. unfold tx_used in Hu.
  assert (tx_free_descs d' = tx_free_descs d + 1) as Hfree by (cbn; apply u32_id; unw; lia).
  assert (tx_used d' = tx_used d - 1) as Hu' by (unfold tx_used; rewrite Hfree; lia).
  assert (tx_reclaim_idx d' = tx_slot d 1) as Hrc by (cbn; unfold tx_slot; by rewrite ring_next_mod).
  assert (forall k, tx_slot d' k = tx_slot d (k + 1)) as Hsl by (intros k; unfold tx_slot at 1; rewrite Hrc; unfold tx_slot; rewrite Zplus_mod_idemp_l; f_equal; lia).
  assert (tx_slot d 0 = tx_reclaim_idx d) as Hs0 by (unfold tx_slot; rewrite Z.add_0_r; by apply Z.mod_small).
  split; [|split; [done|split]].
  - split; [cbn; by rewrite (wr_length _ _ _ _ Hw)|done|rewrite Hrc; apply slot_range|lia].
  - unfold tx_queue. rewrite Hu', Hrc. apply (window_pop (fun i => (tx_at d i, txbuf_at d i))); [unfold tx_used; lia|done|]. intros j Hj.
    unfold tx_at. cbn. rewrite (rd_wr _ _ _ _ _ Hw), bool_decide_false; [done|]. by intros <-.
  - unfold tx_fill_ok. rewrite Hu', Hsl. intros Hf. cbn. rewrite Hf. f_equal. lia.
Qed.

(** [lpc_tx_reclaim]'s loop. *)
Lemma reclaim_loop_spec fuel : forall ridx h d, tx_ok (rc ridx d) -> tx_used d <= Z.of_nat fuel ->
  exists d' ridx', reclaim_loop fuel ridx h d = (h' ← free_sent (sent (tx_queue (rc ridx d))) h; Ret (h', d', ridx')) /\
    tx_ok (rc ridx' d') /\ tx_queue (rc ridx' d') = skipn (length (sent (tx_queue (rc ridx d)))) (tx_queue (rc ridx d)) /\
    (tx_fill_ok (rc ridx d) -> tx_fill_ok (rc ridx' d')).
Proof.
  induction fuel as [|fuel IH]; intros ridx h d Hok Hf; pose proof Hok as [H1 H2 H3 H4]; cbn [rc ed_set_tx ptdesc txpbufs tx_reclaim_idx tx_free_descs] in H1, H2, H3, H4.
  all: cbn [reclaim_loop]; unfold LPC_NUM_BUFF_TXDESCS; destruct (decide (tx_free_descs d < 4)) as [Hlt|Hge].
  2,4: rewrite bool_decide_false by done; exists d, ridx; assert (tx_queue (rc ridx d) = []) as -> by (unfold tx_queue; replace (tx_used (rc ridx d)) with 0 by (unfold tx_used; cbn; lia); done); done.
  { unfold tx_used in Hf. lia. }
  rewrite bool_decide_true by done. destruct (rd_total (ptdesc d) ridx) as [t Ht]; [rewrite H1; lia|]. rewrite Ht. cbn [checked mbind outcome_bind].
  pose proof (used_head (rc ridx d) Hok ltac:(unfold tx_used; cbn; lia)) as Hq. unfold tx_at in Hq at 1. cbn [rc ed_set_tx ptdesc tx_reclaim_idx] in Hq. fold (rc ridx d) in Hq. rewrite Ht in Hq. cbn [default from_option id] in Hq.
  destruct (decide (Z.land (CTRLSTAT t) TDES_OWN = 0)) as [Hown|Hown].
  2: { rewrite bool_decide_false by done. exists d, ridx. rewrite Hq. cbn [sent]. rewrite bool_decide_false by done. split; [done|]. split; [done|]. split; [by rewrite <-Hq|done]. }
  rewrite bool_decide_true by done. unfold reclaim_one.
  destruct (wr_total (ptdesc d) ridx (tx_set_ctrl (if bool_decide (ridx = LPC_NUM_BUFF_TXDESCS - 1) then Z.lor TDES_ENH_TCH TDES_ENH_TER else TDES_ENH_TCH) t)) as [tx Hw]; [rewrite H1; lia|].
  rewrite Hw. cbn [checked mbind outcome_bind]. destruct (rd_total (txpbufs d) ridx) as [p Hp]; [rewrite H2; lia|]. rewrite Hp. cbn [checked mbind outcome_bind].
  unfold txbuf_at in Hq at 1. cbn [rc ed_set_tx txpbufs] in Hq. fold (rc ridx d) in Hq. rewrite Hp in Hq. cbn [default from_option id] in Hq.
  destruct (tx_pop (rc ridx d) _ tx Hok ltac:(unfold tx_used; cbn; lia) Hw) as (Hok1 & Hu1 & Hq1 & Hfi1).
  set (d1 := ed_set_tx tx (txpbufs d) (u32 (tx_free_descs d + 1)) (tx_fill_idx d) (tx_reclaim_idx d) d). change (ed_set_tx tx _ _ _ _ (rc ridx d)) with (rc (ring_next ridx) d1) in Hok1, Hu1, Hq1, Hfi1.
  destruct (tx_queue (rc ridx d)) as [|[t0 p0] q] eqn:Eq; [done|]. injection Hq as -> ->. cbn [skipn] in Hq1. rewrite drop_0 in Hq1. cbn [sent]. rewrite (bool_decide_true (Z.land (CTRLSTAT t) TDES_OWN = 0)) by done. cbn [free_sent length skipn].
  assert (forall h', exists d' ridx', reclaim_loop fuel (ring_next ridx) h' d1 = (h2 ← free_sent (sent q) h'; Ret (h2, d', ridx')) /\
    tx_ok (rc ridx' d') /\ tx_queue (rc ridx' d') = skipn (length (sent q)) q /\ (tx_fill_ok (rc ridx d) -> tx_fill_ok (rc ridx' d'))) as Hrec.
  { intros h'. destruct (IH (ring_next ridx) h' d1 Hok1) as (d' & r' & E1 & E2 & E3 & E4); [change (tx_used d1) with (tx_used (rc (ring_next ridx) d1)); rewrite Hu1; change (tx_used (rc ridx d)) with (tx_used d); lia|].
    rewrite Hq1 in E1, E3. exists d', r'. split; [done|]. split; [done|]. split; [done|]. auto. }
  destruct (if bool_decide (p <> 0) then _ else _) as [h'| |] eqn:Ef.
  all: cbn [mbind outcome_bind].
  { destruct (Hrec h') as (d' & r' & E1 & E2 & E3 & E4). by exists d', r'. }
  all: destruct (Hrec h) as (d' & r' & E1 & E2 & E3 & E4); exists d', r'; done.
Qed.

Lemma reclaim_none d h : tx_ok d -> sent (tx_queue d) = [] -> lpc_tx_reclaim h d = Ret (h, d).
Proof.
  intros Hok Hs. pose proof Hok as [H1 H2 H3 H4].
  assert (reclaim_loop (Z.to_nat LPC_NUM_BUFF_TXDESCS) (tx_reclaim_idx d) h d = Ret (h, d, tx_reclaim_idx d)) as Hr; [|unfold lpc_tx_reclaim; rewrite Hr; by destruct d].
  change (Z.to_nat LPC_NUM_BUFF_TXDESCS) with 4%nat. cbn [reclaim_loop]. case_bool_decide as Hf; [|done]. unfold LPC_NUM_BUFF_TXDESCS in Hf.
  destruct (rd_total (ptdesc d) (tx_reclaim_idx d)) as [t Ht]; [lia|]. rewrite Ht. cbn [checked mbind outcome_bind].
  rewrite (used_head d Hok ltac:(unfold tx_used; lia)) in Hs. cbn [sent] in Hs. unfold tx_at in Hs. rewrite Ht in Hs. cbn [default from_option id] in Hs.
  by case_bool_decide.
Qed.

(** A packet is kept with its last buffer only, and all its descriptors are the
    controller's. *)
Lemma filled_packet d p l : forall k first, l <> [] -> map snd (filled d k first p l) = replicate (length l - 1) 0 ++ [p].
Proof.
  induction l as [|b l IH]; intros k first Hl; [done|]. cbn [filled map snd length]. destruct l as [|c l].
  - by rewrite bool_decide_true by done.
  - rewrite bool_decide_false by done. rewrite IH by done. cbn [length]. by replace (S (S (length l)) - 1)%nat with (S (S (length l) - 1)) by lia.
Qed.

Definition owned (x : txdesc * Z) : Prop := Z.land (CTRLSTAT x.1) TDES_OWN = TDES_OWN.

Lemma or_owned x t p : owned (t, p) -> owned (tx_or x t, p).
Proof. unfold owned. cbn. rewrite Z.land_lor_distr_l. intros ->. apply Z.bits_inj_iff'. intros n Hn. rewrite Z.lor_spec, Z.land_spec. by destruct (Z.testbit x n), (Z.testbit TDES_OWN n). Qed.

Lemma own_owned t p : owned (tx_or TDES_OWN t, p).
Proof. unfold owned. cbn. rewrite Z.land_lor_distr_l, Z.land_diag. apply Z.bits_inj_iff'. intros n Hn. rewrite Z.lor_spec, Z.land_spec. by destruct (Z.testbit (CTRLSTAT t) n), (Z.testbit TDES_OWN n). Qed.

Lemma filled_owned d p l : forall k, Forall owned (filled d k false p l).
Proof.
  induction l as [|b l IH]; intros k; [constructor|]. cbn [filled]. constructor; [|apply IH]. unfold fill_desc.
  apply or_owned. case_bool_decide; [apply or_owned|]; apply own_owned.
Qed.

Lemma handed_shape d p b l : Forall owned (handed d p (b :: l)) /\ map snd (handed d p (b :: l)) = replicate (length l) 0 ++ [p].
Proof.
  unfold handed. cbn [filled]. split; [constructor; [apply own_owned|apply filled_owned]|].
  pose proof (filled_packet d p (b :: l) (tx_used d) true ltac:(done)) as Hp. cbn [filled map snd length] in Hp. by rewrite Nat.sub_succ, Nat.sub_0_r in Hp.
Qed.

(** C24: The ring of transmit descriptors is a queue.  The set-up makes it
    empty.  A packet with no more buffers than there are free descriptors goes
    to its end, a descriptor for each buffer, all of them the controller's, the
    packet kept with the last one and held by one more reference; with more
    buffers the driver never comes back.  [lpc_tx_reclaim] takes from the front
    the descriptors that the controller is done with, and frees their packets
    in that order. *)
Theorem tx_ring_queue d h : tx_ok d -> tx_fill_ok d ->
  (tx_ok (lpc_tx_setup d) /\ tx_fill_ok (lpc_tx_setup d) /\ tx_queue (lpc_tx_setup d) = []) /\
  (forall p b l, chain_of h p ((p, b) :: l) -> Z.of_nat (length ((p, b) :: l)) <= tx_free_descs d ->
    exists d' q, lpc_low_level_output p h d = Ret (referenced p b h, d', ERR_OK) /\ tx_ok d' /\ tx_fill_ok d' /\
      tx_queue d' = tx_queue d ++ q /\ q = handed d p (b :: map snd l) /\ Forall owned q /\ map snd q = replicate (length l) 0 ++ [p] /\
      DMA_TRANS_POLL_DEMAND (ed_regs d') = 1) /\
  (forall p l, chain_of h p l -> tx_free_descs d < Z.of_nat (length l) < 256 -> lpc_low_level_output p h d = Spin) /\
  exists d', lpc_tx_reclaim h d = (h' ← free_sent (sent (tx_queue d)) h; Ret (h', d')) /\ tx_ok d' /\ tx_fill_ok d' /\
    tx_queue d' = skipn (length (sent (tx_queue d))) (tx_queue d).
Proof.
  intros Hok Hf. split; [|split; [|split]].
  - split; [|done]. destruct Hok as [H1 H2 H3 H4]. split; cbn; [done|done|lia|unfold LPC_NUM_BUFF_TXDESCS; lia].
  - intros p b l Hch Hlen. destruct (tx_output d h p b l Hok Hf Hch Hlen) as (d' & E1 & E2 & E3 & E4 & E5 & _). destruct (handed_shape d p b (map snd l)) as [S1 S2].
    rewrite length_map in S2. by exists d', (handed d p (b :: map snd l)).
  - intros p l Hch [Hl H256]. apply (tx_output_waits d h p l Hch); lia.
  - assert (rc (tx_reclaim_idx d) d = d) as Hrc by (by destruct d).
    destruct (reclaim_loop_spec 4 (tx_reclaim_idx d) h d) as (d' & r' & E1 & E2 & E3 & E4); [by rewrite Hrc|pose proof (tx_free _ Hok); unfold tx_used; lia|].
    rewrite Hrc in E1, E3, E4. exists (rc r' d'). split; [|auto]. unfold lpc_tx_reclaim. change (Z.to_nat LPC_NUM_BUFF_TXDESCS) with 4%nat. rewrite E1.
    by destruct (free_sent _ h).
Qed.

End Tx.

(** ** The receive ring *)

Definition rx_at (d : Emac) (i : Z) : rxdesc := default (mkRx 0 0 null_ptr 0) (rd (prdesc d) i).
Definition rxbuf_at (d : Emac) (i : Z) : Z := default 0 (rd (rxpbufs d) i).
Definition rx_used (d : Emac) : Z := 4 - rx_free_descs d.

(** The buffers in the ring, the one for the next frame first. *)
Definition rx_waiting (d : Emac) : list (rxdesc * Z) := window (fun i => (rx_at d i, rxbuf_at d i)) (rx_get_idx d) (rx_used d).

Record rx_ok (d : Emac) : Prop := {
  rx_descs : length (prdesc d) = 4%nat;
  rx_bufs : length (rxpbufs d) = 4%nat;
  rx_get : 0 <= rx_get_idx d < 4;
  rx_free : 0 <= rx_free_descs d <= 4;
  rx_next : rx_next_idx d = (rx_get_idx d + rx_used d) mod 4;
}.

(** What receiving leaves alone. *)
Definition tx_side (d : Emac) := (ptdesc d, txpbufs d, tx_free_descs d, tx_fill_idx d, tx_reclaim_idx d, ed_intMask d, ed_netif d).

Definition kept (h h' : Heap) : Prop := forall a, pbufs h !! a <> None -> pbufs h' !! a = pbufs h !! a /\ mem h' !! a = mem h !! a.

Section Rx.
Context `{EnetBits, MallocLaws}.

(** The descriptor for the buffer [b] at [p]. *)
Definition armed (d : Emac) (p : Z) (b : pbuf) : rxdesc * Z :=
  let ctrl := Z.lor (RDES_ENH_BS1 (p_len b)) RDES_ENH_RCH in
  (mkRx RDES_OWN (if bool_decide (rx_next_idx d = LPC_NUM_BUFF_RXDESCS - 1) then Z.lor ctrl RDES_ENH_RER else ctrl) (p_payload b) (r_B2ADD (rx_at d (rx_next_idx d))), p).

(** A new buffer that the controller may fill. *)
Definition fresh_buf (h h' : Heap) (x : rxdesc * Z) : Prop :=
  x.2 <> 0 /\ pbufs h !! x.2 = None /\ STATUS x.1 = RDES_OWN /\
  exists b, pbufs h' !! x.2 = Some b /\ r_B1ADD x.1 = p_payload b /\ p_next b = 0 /\ p_len b = EMAC_ETH_MAX_FLEN.

(** The ring was [q]; buffers were added, as many as there is room or memory
    for. *)
Record refilled (q new : list (rxdesc * Z)) (h h' : Heap) (d d' : Emac) : Prop := {
  ref_ok : rx_ok d';
  ref_waiting : rx_waiting d' = q ++ new;
  ref_new : Forall (fresh_buf h h') new;
  ref_distinct : NoDup (map snd new);
  ref_kept : kept h h';
  ref_null : pbufs h' !! 0 = None;
  ref_tx : tx_side d' = tx_side d;
  ref_full : rx_free_descs d' = 0 \/ pbuf_alloc PBUF_RAW EMAC_ETH_MAX_FLEN PBUF_RAM h' = Ret (h', 0);
}.

Lemma rxqueue_spec d h p b : rx_ok d -> 0 < rx_free_descs d -> pbufs h !! p = Some b ->
  exists d', lpc_rxqueue_pbuf p h d = Ret d' /\ rx_ok d' /\ rx_free_descs d' = rx_free_descs d - 1 /\ rx_waiting d' = rx_waiting d ++ [armed d p b] /\
    tx_side d' = tx_side d /\ ed_regs d' = ed_regs d.
Proof.
  intros [H1 H2 H3 H4 H5] Hf Hb. unfold lpc_rxqueue_pbuf. rewrite (get_live _ _ _ Hb). cbn [mbind outcome_bind].
  assert (0 <= rx_next_idx d < 4) as Hn by (rewrite H5; apply Z.mod_pos_bound; lia).
  destruct (rd_total (prdesc d) (rx_next_idx d)) as [r Hr]; [lia|]. rewrite Hr. cbn [checked mbind outcome_bind].
  destruct (wr_total (rxpbufs d) (rx_next_idx d) p) as [bs Hbs]; [lia|]. rewrite Hbs. cbn [checked mbind outcome_bind].
  assert (r = rx_at d (rx_next_idx d)) as -> by (unfold rx_at; by rewrite Hr).
  change (mkRx RDES_OWN _ _ _) with (armed d p b).1.
  destruct (wr_total (prdesc d) (rx_next_idx d) (armed d p b).1) as [rx Hrx]; [lia|]. rewrite Hrx. cbn [checked mbind outcome_bind].
  eexists. split; [done|]. set (d' := ed_set_rx _ _ _ _ _ d).
  assert (rx_free_descs d' = rx_free_descs d - 1) as Hfree by (cbn; apply u32_id; unw; lia).
  assert (rx_used d' = rx_used d + 1) as Hu by (unfold rx_used; rewrite Hfree; lia).
  split; [|split; [done|split; [|done]]].
  - split; [cbn; by rewrite (wr_length _ _ _ _ Hrx)|cbn; by rewrite (wr_length _ _ _ _ Hbs)|done|lia|]. rewrite Hu. cbn [d' ed_set_rx rx_next_idx rx_get_idx].
    rewrite ring_next_mod by done. rewrite H5, Zplus_mod_idemp_l. f_equal. lia.
  - unfold rx_waiting. rewrite Hu. apply window_push; [unfold rx_used; lia| |]; cbn [d' ed_set_rx rx_get_idx]; rewrite <-H5.
    + unfold rx_at at 1, rxbuf_at. cbn [d' ed_set_rx prdesc rxpbufs]. by rewrite (rd_wr _ _ _ _ _ Hrx), (rd_wr _ _ _ _ _ Hbs), !bool_decide_true by done.
    + intros j Hj. unfold rx_at, rxbuf_at. cbn [d' ed_set_rx prdesc rxpbufs]. by rewrite (rd_wr _ _ _ _ _ Hrx), (rd_wr _ _ _ _ _ Hbs), !bool_decide_false by (by intros <-).
Qed.

Lemma kept_trans h1 h2 h3 : kept h1 h2 -> kept h2 h3 -> kept h1 h3.
Proof. intros K1 K2 a Ha. destruct (K1 a Ha) as [E1 E2]. destruct (K2 a) as [E3 E4]; [by rewrite E1|]. by rewrite E3, E4. Qed.

Lemma fresh_kept h h1 h2 x : fresh_buf h h1 x -> kept h1 h2 -> fresh_buf h h2 x.
Proof.
  intros (Hx & Hn & Hs & b & Hb & Hr) Hk. split; [done|]. split; [done|]. split; [done|]. exists b. split; [|done]. destruct (Hk x.2) as [-> _]; [by rewrite Hb|done].
Qed.

Lemma fresh_before h h1 h2 x : kept h h1 -> fresh_buf h1 h2 x -> fresh_buf h h2 x.
Proof.
  intros Hk (Hx & Hn & Hr). split; [done|]. split; [|done]. destruct (pbufs h !! x.2) as [b|] eqn:Hb; [|done]. exfalso.
  destruct (Hk x.2) as [E _]; [by rewrite Hb|]. by rewrite E, Hb in Hn.
Qed.

(** The buffer that [lpc_rx_queue] allocates. *)
Lemma rx_alloc h h' p d : allocated 0 EMAC_ETH_MAX_FLEN PBUF_RAM h h' p [mkSeg p p d] ->
  pbufs h !! 0 = None -> p <> 0 /\ pbufs h !! p = None /\ kept h h' /\ pbufs h' !! 0 = None /\ pbuf_clen p h' = Ret 1 /\
  exists b, pbufs h' !! p = Some b /\ p_next b = 0 /\ p_len b = EMAC_ETH_MAX_FLEN.
Proof.
  intros (Hp & Hg & [Hk _] & Hl & _) H0'. pose proof (packet_seg_linked _ _ _ _ _ Hk) as Hlk. destruct Hk as (_ & _ & b & (Hb & _ & Hbl & _) & _ & Hnx). cbn [sg_a] in *.
  destruct (g_new _ _ _ Hg p ltac:(left)) as (Hn & _). split; [done|]. split; [done|]. split; [|split; [by apply (grown_null h _ _ Hg)|split]].
  - intros a Ha. apply (g_old _ _ _ Hg). intros ->%list_elem_of_singleton. done.
  - unfold pbuf_clen. rewrite (clen_linked h' _ _ 0 _ Hlk); [done|by apply linked_fuel in Hlk|done|cbn; lia].
  - exists b. split; [done|]. split; [exact Hnx|]. rewrite Hbl, <-Hl. unfold data_len, seg_len. cbn [data sg_data]. by rewrite app_nil_r.
Qed.

Lemma rx_loop_spec (Hmax : is_u16 EMAC_ETH_MAX_FLEN) fuel : forall k h d, rx_ok d -> pbufs h !! 0 = None -> rx_free_descs d <= Z.of_nat fuel ->
  exists h' d' new, rx_queue_loop fuel k h d = Ret (h', d', k + Z.of_nat (length new)) /\ refilled (rx_waiting d) new h h' d d' /\ ed_regs d' = ed_regs d.
Proof.
  induction fuel as [|fuel IH]; intros k h d Hok Hn Hf; cbn [rx_queue_loop]; pose proof (rx_free _ Hok) as Hr.
  all: destruct (decide (rx_free_descs d > 0)) as [Hgt|Hle]; [try lia|].
  all: assert (forall h', h' = h -> rx_free_descs d = 0 \/ pbuf_alloc PBUF_RAW EMAC_ETH_MAX_FLEN PBUF_RAM h' = Ret (h', 0) -> refilled (rx_waiting d) [] h h d d) as Hstop
    by (intros ? -> Hs; split; try done; [by rewrite app_nil_r|apply NoDup_nil_2]).
  1,3: rewrite bool_decide_false by done; exists h, d, []; rewrite Z.add_0_r; split; [done|]; split; [|done]; apply (Hstop h); [done|left; lia].
  rewrite bool_decide_true by done. destruct (pbuf_alloc_ram PBUF_RAW EMAC_ETH_MAX_FLEN h Hmax Hn) as [E|(h1 & p & m & E & Ha)].
  - rewrite E. cbn [mbind outcome_bind]. rewrite bool_decide_true by done. exists h, d, []. rewrite Z.add_0_r. split; [done|]. split; [|done]. apply (Hstop h); auto.
  - rewrite E. cbn [mbind outcome_bind]. destruct (rx_alloc _ _ _ _ Ha Hn) as (Hp & Hpn & Hk1 & Hn1 & Hc & b & Hb & Hnx & Hlb). rewrite (bool_decide_false (p = 0)), Hc by done.
    cbn [mbind outcome_bind]. change (LWIP_ASSERT (bool_decide (1 <= 1))) with (Ret ()). cbn [mbind outcome_bind].
    destruct (rxqueue_spec d h1 p b Hok ltac:(lia) Hb) as (d1 & -> & Hok1 & Hf1 & Hw1 & Ht1 & Hg1). cbn [mbind outcome_bind].
    destruct (IH (k + 1) h1 d1 Hok1 Hn1 ltac:(lia)) as (h2 & d2 & new & -> & [R1 R2 R3 R4 R5 R6 R7 R8] & Hg2). exists h2, d2, (armed d p b :: new).
    split; [cbn [length]; do 2 f_equal; lia|]. split; [|by rewrite Hg2]. split; try done.
    + by rewrite R2, Hw1, <-(assoc_L (++)).
    + constructor.
      * apply (fresh_kept _ h1); [|done]. split; [done|]. split; [done|]. split; [done|]. by exists b.
      * eapply Forall_impl; [exact R3|]. intros x Hx. by apply (fresh_before _ h1).
    + cbn [map]. constructor; [|done]. intros (x & Hx & Hin)%list_elem_of_fmap. rewrite Forall_forall in R3. destruct (R3 x Hin) as (_ & Hxn & _).
      change (armed d p b).2 with p in Hx. by rewrite <-Hx, Hb in Hxn.
    + by apply (kept_trans _ h1).
    + by rewrite R7.
Qed.

(** The frame at the front leaves the ring. *)
Lemma rx_pop d : rx_ok d -> 0 < rx_used d ->
  let d' := ed_set_rx (prdesc d) (rxpbufs d) (u32 (rx_free_descs d + 1)) (ring_next (rx_get_idx d)) (rx_next_idx d) d in
  rx_ok d' /\ rx_free_descs d' = rx_free_descs d + 1 /\ rx_waiting d' = skipn 1 (rx_waiting d).
Proof.
  intros [H1 H2 H3 H4 H5] Hu d'. unfold rx_used in Hu. assert (rx_free_descs d' = rx_free_descs d + 1) as Hfree by (cbn; apply u32_id; unw; lia).
  assert (rx_used d' = rx_used d - 1) as Hu' by (unfold rx_used; rewrite Hfree; lia).
  assert (rx_get_idx d' = (rx_get_idx d + 1) mod 4) as Hg by (cbn; by rewrite ring_next_mod). split; [|split; [done|]].
  - split; [done|done|rewrite Hg; apply Z.mod_pos_bound; lia|lia|]. rewrite Hg, Hu', Zplus_mod_idemp_l. change (rx_next_idx d') with (rx_next_idx d). rewrite H5. f_equal. lia.
  - unfold rx_waiting. rewrite Hu', Hg. apply (window_pop (fun i => (rx_at d i, rxbuf_at d i))); [unfold rx_used; lia|done|done].
Qed.

Definition in_ring (h : Heap) (x : rxdesc * Z) : Prop := x.2 <> 0 /\ is_Some (pbufs h !! x.2).

Record rx_inv (h : Heap) (d : Emac) : Prop := {
  inv_ok : rx_ok d;
  inv_distinct : NoDup (map snd (rx_waiting d));
  inv_live : Forall (in_ring h) (rx_waiting d);
  inv_null : pbufs h !! 0 = None;
}.

Lemma in_ring_kept h h' q : Forall (in_ring h) q -> (forall a, is_Some (pbufs h !! a) -> is_Some (pbufs h' !! a)) -> Forall (in_ring h') q.
Proof. intros Hq Hk. eapply Forall_impl; [exact Hq|]. intros x [Hx Hl]. split; [done|]. by apply Hk. Qed.

Lemma kept_live h h' a : kept h h' -> is_Some (pbufs h !! a) -> is_Some (pbufs h' !! a).
Proof. intros Hk [b Hb]. exists b. destruct (Hk a) as [-> _]; [by rewrite Hb|done]. Qed.

Lemma put_live p b h a : is_Some (pbufs h !! a) -> is_Some (pbufs (put p b h) !! a).
Proof. intros Ha. destruct (decide (p = a)) as [->|Hne]; [rewrite put_same; eauto|by rewrite put_other]. Qed.

(** The old buffers and new ones. *)
Lemma refilled_inv q new h h' d d' : refilled q new h h' d d' -> NoDup (map snd q) -> Forall (in_ring h) q -> rx_inv h' d'.
Proof.
  intros [R1 R2 R3 R4 R5 R6 R7 R8] Hq Hl. split; [done| | |done].
  - rewrite R2, map_app. apply NoDup_app. split; [done|split; [|done]]. intros a (x & -> & Hx)%list_elem_of_fmap (y & Hy & Hin)%list_elem_of_fmap.
    rewrite Forall_forall in Hl, R3. destruct (Hl x Hx) as [_ [b Hb]]. destruct (R3 y Hin) as (_ & Hn & _). by rewrite <-Hy, Hb in Hn.
  - rewrite R2. apply Forall_app. split; [eapply in_ring_kept; [exact Hl|intros a; by apply kept_live]|]. eapply Forall_impl; [exact R3|].
    intros x (Hx & _ & _ & b & Hb & _). split; [done|by exists b].
Qed.

(** What [lpc_low_level_input] finds at the front, and the ring without it. *)
Lemma rx_front h d x p q : rx_inv h d -> rx_waiting d = (x, p) :: q ->
  rd (prdesc d) (rx_get_idx d) = Some x /\ rd (rxpbufs d) (rx_get_idx d) = Some p /\ rx_free_descs d <> 4 /\
  (let d1 := ed_set_rx (prdesc d) (rxpbufs d) (u32 (rx_free_descs d + 1)) (ring_next (rx_get_idx d)) (rx_next_idx d) d in
   rx_ok d1 /\ 0 < rx_free_descs d1 <= 4 /\ rx_waiting d1 = q) /\
  p <> 0 /\ is_Some (pbufs h !! p) /\ p ∉ map snd q /\ NoDup (map snd q) /\ Forall (in_ring h) q.
Proof.
  intros [Hok Hnd Hl Hn] Hw. pose proof Hok as [H1 H2 H3 H4 H5].
  assert (0 < rx_used d) as Hu by (pose proof (window_length (fun i => (rx_at d i, rxbuf_at d i)) (rx_get_idx d) (rx_used d) ltac:(unfold rx_used; lia)) as Hlen; fold (rx_waiting d) in Hlen; rewrite Hw in Hlen; cbn in Hlen; lia).
  pose proof (window_head (fun i => (rx_at d i, rxbuf_at d i)) (rx_get_idx d) (rx_used d) Hu H3) as Hq. fold (rx_waiting d) in Hq.
  destruct (rx_pop d Hok Hu) as (Hok1 & Hf1 & Hw1). rewrite Hw in Hq, Hw1, Hnd, Hl. injection Hq as Hx Hp. cbn [map snd] in Hnd. apply NoDup_cons in Hnd as [Hnp Hnd]. apply Forall_cons in Hl as [[Hp0 Hb] Hl].
  destruct (rd_total (prdesc d) (rx_get_idx d)) as [r Hr]; [lia|]. unfold rx_at in Hx. rewrite Hr in Hx. cbn in Hx. subst r.
  destruct (rd_total (rxpbufs d) (rx_get_idx d)) as [r Hrb]; [lia|]. unfold rxbuf_at in Hp. rewrite Hrb in Hp. cbn in Hp. subst r.
  unfold rx_used in Hu. cbv zeta in *. rewrite Hf1. split_and!; try done; lia.
Qed.

(** A frame with errors. *)
Lemma rx_returns h d x p q b : rx_inv h d -> rx_waiting d = (x, p) :: q -> Z.land (STATUS x) RDES_OWN = 0 -> rx_error (STATUS x) d = true -> pbufs h !! p = Some b ->
  exists d', lpc_low_level_input h d = Ret (h, d', 0) /\ rx_waiting d' = q ++ [armed d p b] /\ rx_inv h d' /\ tx_side d' = tx_side d.
Proof.
  intros Hinv Hw Hown Herr Hb. destruct (rx_front h d x p q Hinv Hw) as (Hr & Hp & Hf & (Hok1 & Hf1 & Hw1) & Hp0 & _ & Hnp & Hnd & Hl).
  unfold lpc_low_level_input, LPC_NUM_BUFF_RXDESCS. rewrite bool_decide_false, Hr by done. cbn [checked mbind outcome_bind]. rewrite Hp, bool_decide_false by auto. cbn [checked mbind outcome_bind]. rewrite Herr.
  set (d1 := ed_set_rx (prdesc d) _ _ _ _ d) in *. destruct (rxqueue_spec d1 h p b Hok1 ltac:(lia) Hb) as (d2 & -> & Hok2 & _ & Hw2 & Ht2 & _). rewrite Hw1 in Hw2.
  exists (poll_rx d2). split; [done|]. split; [exact Hw2|]. split; [|exact Ht2].
  split; [by destruct Hok2| | |apply (inv_null _ _ Hinv)]; change (rx_waiting (poll_rx d2)) with (rx_waiting d2); rewrite Hw2.
  - rewrite map_app. apply NoDup_app. split; [done|]. split; [|apply NoDup_singleton]. intros a Ha ->%list_elem_of_singleton. done.
  - apply Forall_app. split; [done|]. apply Forall_singleton. split; [done|by exists b].
Qed.

(** A good frame. *)
Lemma rx_takes (Hmax : is_u16 EMAC_ETH_MAX_FLEN) h d x p q b : rx_inv h d -> rx_waiting d = (x, p) :: q -> Z.land (STATUS x) RDES_OWN = 0 -> rx_error (STATUS x) d = false ->
  pbufs h !! p = Some b -> let n := u16 (RDES_FLMSK (STATUS x)) in
  exists h' d' new, lpc_low_level_input h d = Ret (put p (p_set_len n (p_set_tot_len n b)) h', d', p) /\ pbufs h' !! p = Some b /\
    refilled q new h h' d d' /\ rx_inv (put p (p_set_len n (p_set_tot_len n b)) h') d' /\ p ∉ map snd (rx_waiting d').
Proof.
  intros Hinv Hw Hown Herr Hb n. destruct (rx_front h d x p q Hinv Hw) as (Hr & Hp & Hf & (Hok1 & Hf1 & Hw1) & Hp0 & _ & Hnp & Hnd & Hl).
  unfold lpc_low_level_input, LPC_NUM_BUFF_RXDESCS. rewrite bool_decide_false, Hr by done. cbn [checked mbind outcome_bind]. rewrite Hp, bool_decide_false by auto. cbn [checked mbind outcome_bind]. rewrite Herr.
  set (d1 := ed_set_rx (prdesc d) _ _ _ _ d) in *.
  destruct (rx_loop_spec Hmax (Z.to_nat (rx_free_descs d1)) 0 h d1 Hok1 (inv_null _ _ Hinv) ltac:(lia)) as (h2 & d2 & new & E & Hrf & _). unfold lpc_rx_queue. rewrite E. rewrite Hw1 in Hrf. cbn [mbind outcome_bind].
  assert (pbufs h2 !! p = Some b) as Hb2 by (destruct (ref_kept _ _ _ _ _ _ Hrf p) as [-> _]; [by rewrite Hb|done]). rewrite (upd_live _ _ _ _ Hb2). cbn [mbind outcome_bind].
  pose proof (refilled_inv _ _ _ _ _ _ Hrf Hnd Hl) as [I1 I2 I3 I4]. destruct Hrf as [R1 R2 R3 R4 R5 R6 R7 R8].
  exists h2, (poll_rx d2), new. split; [done|]. split; [done|]. split; [split; try done; by destruct R1|]. split.
  - split; [by destruct R1|done|eapply in_ring_kept; [exact I3|intros a; apply put_live]|by rewrite put_other].
  - change (rx_waiting (poll_rx d2)) with (rx_waiting d2). rewrite R2, map_app. intros [Hi|(y & Hy & Hi)%list_elem_of_fmap]%elem_of_app; [done|].
    rewrite Forall_forall in R3. destruct (R3 y Hi) as (_ & Hyn & _). by rewrite <-Hy, Hb in Hyn.
Qed.

Lemma rx_setup_spec (Hmax : is_u16 EMAC_ETH_MAX_FLEN) h d : length (rxpbufs d) = 4%nat -> pbufs h !! 0 = None ->
  exists h' d' new, lpc_rx_setup h d = Ret (h', d') /\ refilled [] new h h' d d' /\ rx_inv h' d'.
Proof.
  intros H2 Hn. unfold lpc_rx_setup, lpc_rx_queue. set (d0 := ed_set_rx _ _ _ _ _ d).
  assert (rx_ok d0) as Hok0 by (split; cbn; try done; unfold LPC_NUM_BUFF_RXDESCS; lia).
  destruct (rx_loop_spec Hmax (Z.to_nat (rx_free_descs d0)) 0 h d0 Hok0 Hn) as (h' & d' & new & -> & Hr & _); [cbn; unfold LPC_NUM_BUFF_RXDESCS; lia|].
  change (rx_waiting d0) with (@nil (rxdesc * Z)) in Hr. assert (refilled [] new h h' d d') as Hr' by (by destruct Hr). exists h', d', new. split; [done|]. split; [done|].
  eapply refilled_inv; [exact Hr'|apply NoDup_nil_2|constructor].
Qed.

(** C25: The receive ring is a queue of buffers, all of them different and in
    memory.  The set-up fills it.  [lpc_low_level_input] of an empty ring fills
    it again.  It leaves a buffer that is the controller's; it puts the buffer
    of a frame with errors back to the end; it hands out any other frame, in
    its buffer and with the length the controller reports, and adds as many new
    buffers as there is room or memory for.  It always returns and touches
    neither the transmit ring nor other memory. *)
Theorem rx_ring_queue h d : rx_inv h d -> is_u16 EMAC_ETH_MAX_FLEN ->
  (exists h' d' new, lpc_rx_setup h d = Ret (h', d') /\ refilled [] new h h' d d' /\ rx_inv h' d') /\
  match rx_waiting d with
  | [] => exists h' d' new, lpc_low_level_input h d = Ret (h', d', 0) /\ refilled [] new h h' d d' /\ rx_inv h' d'
  | (x, p) :: q =>
      if bool_decide (Z.land (STATUS x) RDES_OWN <> 0) then lpc_low_level_input h d = Ret (h, d, 0)
      else exists b, pbufs h !! p = Some b /\
        if rx_error (STATUS x) d then exists d', lpc_low_level_input h d = Ret (h, d', 0) /\ rx_waiting d' = q ++ [armed d p b] /\ rx_inv h d' /\ tx_side d' = tx_side d
        else exists h' d' new n, lpc_low_level_input h d = Ret (put p (p_set_len n (p_set_tot_len n b)) h', d', p) /\ n = u16 (RDES_FLMSK (STATUS x)) /\
          pbufs h' !! p = Some b /\ refilled q new h h' d d' /\ rx_inv (put p (p_set_len n (p_set_tot_len n b)) h') d' /\ p ∉ map snd (rx_waiting d')
  end.
Proof.
  intros Hinv Hmax. pose proof Hinv as [Hok Hnd Hl Hn]. pose proof Hok as [H1 H2 H3 H4 H5]. split.
  - by apply rx_setup_spec.
  - destruct (rx_waiting d) as [|[x p] q] eqn:Hw.
    + assert (rx_free_descs d = 4) as Hf by (pose proof (window_length (fun i => (rx_at d i, rxbuf_at d i)) (rx_get_idx d) (rx_used d) ltac:(unfold rx_used; lia)) as Hlen;
        fold (rx_waiting d) in Hlen; rewrite Hw in Hlen; unfold rx_used in Hlen; cbn in Hlen; lia).
      unfold lpc_low_level_input, LPC_NUM_BUFF_RXDESCS, lpc_rx_queue. rewrite bool_decide_true by done.
      destruct (rx_loop_spec Hmax (Z.to_nat (rx_free_descs d)) 0 h d Hok Hn ltac:(lia)) as (h' & d' & new & -> & Hr & _). rewrite Hw in Hr.
      exists h', d', new. split; [done|]. split; [done|]. eapply refilled_inv; [exact Hr|apply NoDup_nil_2|constructor].
    + destruct (rx_front h d x p q Hinv Hw) as (Hr & _ & Hf & _ & _ & [b Hb] & _). case_bool_decide as Hown.
      * unfold lpc_low_level_input, LPC_NUM_BUFF_RXDESCS. rewrite bool_decide_false, Hr by done. cbn [checked mbind outcome_bind]. by rewrite bool_decide_true by done.
      * assert (Z.land (STATUS x) RDES_OWN = 0) as Ho by lia. exists b. split; [done|]. destruct (rx_error (STATUS x) d) eqn:Herr; [by eapply rx_returns|].
        destruct (rx_takes Hmax h d x p q b Hinv Hw Ho Herr Hb) as (h' & d' & new & E & Hk). by exists h', d', new, (u16 (RDES_FLMSK (STATUS x))).
Qed.

End Rx.

(** ** A packet of two buffers *)

#[local] Instance demo_bits : EnetBits := {|
  RDES_OWN := 2147483648; RDES_ES := 32768; RDES_LE := 4096; RDES_FT := 32; RDES_CE := 2; RDES_LS := 256; RDES_DE := 16384; RDES_RE := 8;
  RDES_RWT := 16; RDES_LC := 64; RDES_OE := 2048; RDES_SAF := 8192; RDES_AFM := 1073741824; RDES_ENH_RCH := 16384; RDES_ENH_RER := 32768;
  RDES_ENH_BS1 n := Z.land n 4095; RDES_FLMSK n := Z.land (Z.shiftr n 16) 16383;
  TDES_OWN := 2147483648; TDES_ENH_TCH := 1048576; TDES_ENH_TER := 2097152; TDES_ENH_FS := 268435456; TDES_ENH_LS := 536870912; TDES_ENH_IC := 1073741824;
  TDES_ENH_CIC n := Z.shiftl n 22; TDES_ENH_BS1 n := Z.land n 4095;
  MAC_CFG_BL n := Z.shiftl n 5; MAC_CFG_IPC := 1024; MAC_CFG_DM := 2048; MAC_CFG_DO := 8192; MAC_CFG_FES := 16384; MAC_CFG_PS := 32768;
  MAC_CFG_IFG n := Z.shiftl n 17; MAC_CFG_RE := 4; MAC_CFG_TE := 8;
  MAC_FF_PR := 1; MAC_FF_RA := 2147483648; DMA_OM_FTF := 1048576; DMA_OM_RTC n := Z.shiftl n 3; DMA_OM_TTC n := Z.shiftl n 14;
  DMA_OM_ST := 8192; DMA_OM_SR := 2; DMA_ST_ALL := 124927; EMAC_ETH_MAX_FLEN := 1536 |}.

#[local] Instance demo_mem : Malloc := test_malloc 10 0.

(** The driver with three packets behind it: the next descriptors are the last
    and the first. *)
Definition demo_emac : Emac :=
  mkEmacDrv 1 tx_ring rx_ring [0; 0; 0; 0] 4 3 3 [0; 0; 0; 0] 4 0 0 0 (mkRegs 0 0 0 0 0 0 0).

Definition head_buf : pbuf := mkPbuf 20 null_ptr 100 42 PBUF_RAM 0 1.
Definition tail_buf : pbuf := mkPbuf 0 null_ptr 58 58 PBUF_RAM 0 1.
Definition demo_packet : Heap := mkHeap {[10 := head_buf; 20 := tail_buf]} ∅ ∅.

Lemma tx_ring_queue_witness : exists d', lpc_low_level_output 10 demo_packet demo_emac = Ret (referenced 10 head_buf demo_packet, d', ERR_OK) /\
  map snd (tx_queue d') = [0; 10] /\ tx_fill_idx d' = 1.
Proof.
  assert (tx_ok demo_emac) as Hok by (split; cbn; done || lia). assert (tx_fill_ok demo_emac) as Hf by (vm_compute; reflexivity).
  destruct (tx_ring_queue demo_emac demo_packet Hok Hf) as (_ & Hout & _).
  destruct (Hout 10 head_buf [(20, tail_buf)]) as (d' & q & E & _ & _ & Eq & _ & _ & Hq & _).
  - cbn. repeat split; done.
  - cbn. lia.
  - exists d'. split; [exact E|]. split.
    + rewrite Eq, map_app, Hq. reflexivity.
    + assert (match lpc_low_level_output 10 demo_packet demo_emac with Ret (_, d, _) => tx_fill_idx d | _ => 0 end = 1) as Hi by (vm_compute; reflexivity).
      rewrite E in Hi. exact Hi.
Defined.

(** A frame of 64 bytes in the last but one buffer of the ring, which has no
    others. *)
Definition frame_emac : Emac :=
  mkEmacDrv 1 tx_ring [mkRx 0 0 null_ptr 1; mkRx 0 0 null_ptr 2; mkRx (Z.shiftl 64 16) 0 (10, 0) 3; mkRx 0 0 null_ptr 0] [0; 0; 0; 0] 4 0 0 [0; 0; 10; 0] 3 2 3 0 (mkRegs 0 0 0 0 0 0 0).
Definition frame_heap : Heap := mkHeap {[10 := mkPbuf 0 (10, 0) 1536 1536 PBUF_RAM 0 1]} {[10 := replicate 1536 7]} ∅.

Lemma rx_ring_queue_witness : exists h' d' new b, lpc_low_level_input frame_heap frame_emac = Ret (put 10 (p_set_len 64 (p_set_tot_len 64 b)) h', d', 10) /\
  rx_waiting d' = new /\ rx_inv (put 10 (p_set_len 64 (p_set_tot_len 64 b)) h') d' /\ 10 ∉ map snd new.
Proof.
  assert (rx_inv frame_heap frame_emac) as Hinv.
  { split; [split; cbn; done || lia| | |done].
    - apply NoDup_singleton.
    - apply Forall_singleton. split; [done|by eexists]. }
  assert (is_u16 EMAC_ETH_MAX_FLEN) as Hmax by (split; by vm_compute). destruct (rx_ring_queue frame_heap frame_emac Hinv Hmax) as [_ Hx].
  assert (rx_waiting frame_emac = [(mkRx (Z.shiftl 64 16) 0 (10, 0) 3, 10)]) as Hq by (vm_compute; reflexivity). rewrite Hq in Hx. cbn [STATUS] in Hx.
  rewrite bool_decide_false in Hx by (intros Hs; by apply Hs). destruct Hx as (b & _ & Hx).
  assert (rx_error (Z.shiftl 64 16) frame_emac = false) as He by (vm_compute; reflexivity). rewrite He in Hx.
  destruct Hx as (h' & d' & new & n & E & Hlen & _ & Hr & Hi & Hn).
  assert (n = 64) as -> by (rewrite Hlen; vm_compute; reflexivity). pose proof (ref_waiting _ _ _ _ _ _ Hr) as Hw. rewrite app_nil_l in Hw. rewrite Hw in Hn.
  exists h', d', new, b. split; [exact E|]. split; [exact Hw|]. split; [exact Hi|exact Hn].
Defined.
