(* ===== verification/EmacInput.v ===== *)
(** * From the wire to the wire

    The turn of [emac_app::process] ([src/src/emac_app.cpp]) on the driver and
    the stack: a frame that the controller has put into the receive ring, what
    the stack makes of it, and the answer in the transmit ring. *)

From stdpp Require Import gmap.
From S2P Require Import Prelude LwipDef InetChksum IpAddr Pbuf PbufOps PbufData NetState NetMem Etharp EtharpOps IpOut Icmp Raw Udp UdpSend IpReass IpIn IpRecv UdpRecv IcmpEcho Netif Phy Emac EmacRing.

(** ** The turn *)

Section Process.
Context {A : Type} `{EnetBits, Malloc, RawApp (Drv A), UdpApp (Drv A)}.
Notation M := (NetM (Drv A)).

(** [emac_app::process]; [a]: [lpc_netif]. *)
Definition emac_process (a : Z) : M () :=
  _ ← lpc_enetif_input a;
  on_emac (fun h d => '(h, d) ← lpc_tx_reclaim h d; Ret (h, d, ())).

End Process.

(** ** A frame in the ring *)

(** The front of the receive ring is the descriptor [x] with the buffer [b] at
    [p]; the controller has left the frame [fr] in it. *)
Record frame_at `{EnetBits} (h : Heap) (d : Emac) (x : rxdesc) (p : Z) (q : list (rxdesc * Z)) (b : pbuf) (fr : list Z) : Prop := {
  fa_front : rx_waiting d = (x, p) :: q;
  fa_done : Z.land (STATUS x) RDES_OWN = 0;
  fa_good : rx_error (STATUS x) d = false;
  fa_buf : pbufs h !! p = Some b;
  fa_bytes : bytes_at h (p_payload b) fr;
  fa_len : RDES_FLMSK (STATUS x) = Z.of_nat (length fr);
  fa_u16 : Z.of_nat (length fr) < 65536;
  fa_plain : p_next b = 0 /\ p_type b = PBUF_RAM /\ (p_payload b).1 = p;
}.

(** The driver and the buffers of a device at work. *)
Record driver_ok `{EnetBits} (h : Heap) (d : Emac) : Prop := {
  do_rx : rx_inv h d;
  do_tx : tx_ok d;
  do_fill : tx_fill_ok d;
}.

Lemma tx_side_same d d' : tx_side d' = tx_side d -> tx_ok d -> tx_fill_ok d -> tx_ok d' /\ tx_fill_ok d' /\ tx_queue d' = tx_queue d /\ tx_free_descs d' = tx_free_descs d.
Proof.
  intros Hs [H1 H2 H3 H4] Hf. unfold tx_side in Hs. injection Hs as E1 E2 E3 E4 E5 _ _. unfold tx_fill_ok, tx_slot, tx_used in *.
  split; [split; congruence || lia|]. split; [congruence|]. split; [|done]. unfold tx_queue, tx_used. rewrite E3, E5. apply map_ext. intros k. unfold tx_at, txbuf_at. congruence.
Qed.

Lemma rx_side_same `{EnetBits} h d d' : rx_side d' = rx_side d -> rx_inv h d -> rx_inv h d' /\ rx_waiting d' = rx_waiting d.
Proof.
  intros Hs [[H1 H2 H3 H4 H5] Hn Hl H0]. unfold rx_side in Hs. injection Hs as E1 E2 E3 E4 E5 _ _.
  assert (rx_waiting d' = rx_waiting d) as Hw by (unfold rx_waiting, rx_used; rewrite E3, E4; apply map_ext; intros k; unfold rx_at, rxbuf_at; congruence).
  split; [|done]. split; [|by rewrite Hw|by rewrite Hw|done]. split; try congruence; try lia. unfold rx_used in *. congruence.
Qed.

Section Input.
Context {A : Type} `{EnetBits, MallocLaws, RawApp (Drv A), UdpApp (Drv A)}.
Implicit Types n : Net (Drv A).

Definition drv n : Emac := dv_emac (n_ext n).

(** Memory and driver after a frame has been taken. *)
Definition taken (h : Heap) (d : Emac) n : Net (Drv A) := n_set_ext (mkDrv d (dv_app (n_ext n))) (n_set_heap h n).

(** The driver takes the frame out of the ring and hands it to the stack. *)
Lemma input_frame (Hmax : is_u16 EMAC_ETH_MAX_FLEN) n a f x p q b dmac smac y :
  rx_inv (n_heap n) (drv n) -> frame_at (n_heap n) (drv n) x p q b (eth_header dmac smac ++ y) -> length dmac = 6%nat -> length smac = 6%nat ->
  netifs (n_if n) !! a = Some f -> nf_input f = ETHERNET_INPUT ->
  exists h1 d1 b1 new, lpc_enetif_input a n = (r ← ethernet_input p a; if bool_decide (r <> ERR_OK) then drop p else mret ()) (taken h1 d1 n) /\
    whole h1 p (eth_header dmac smac ++ y) b1 /\ p_ref b1 = p_ref b /\ rx_inv h1 d1 /\ rx_waiting d1 = q ++ new /\ p ∉ map snd (rx_waiting d1) /\ tx_side d1 = tx_side (drv n).
Proof.
  set (eh := eth_header dmac smac). intros Hinv [F1 F2 F3 F4 F5 F6 F7 (F8 & F9 & F10)] Hdm Hsm Hf Hin.
  assert (length eh = 14%nat) as Le by (subst eh; unfold eth_header; rewrite !length_app, Hdm, Hsm; done).
  destruct (rx_takes Hmax _ _ x p q b Hinv F1 F2 F3 F4) as (h' & d1 & new & E & Hb & Hr & Hi & Hn). rewrite F6, u16_id in * by (unw; lia).
  set (len := Z.of_nat (length (eh ++ y))) in *. set (b1 := p_set_len len (p_set_tot_len len b)) in *. set (h1 := put p b1 h') in *.
  assert (p <> 0) as Hp0 by (pose proof (rx_front _ _ _ _ _ Hinv F1) as Hfr; tauto).
  assert (whole h1 p (eh ++ y) b1) as W.
  { split; try done; [apply put_same|]. destruct F5 as (m & Hm & Hs). exists m. split; [|done]. cbn [b1 p_payload p_set_len p_set_tot_len mem h1 put h_set_pbufs].
    destruct (ref_kept _ _ _ _ _ _ Hr p) as [_ Hmem]; [by rewrite F4|]. rewrite F10 in *. by rewrite Hmem. }
  exists h1, d1, b1, new. split; [|split; [done|split; [done|split; [done|split; [apply (ref_waiting _ _ _ _ _ _ Hr)|split; [done|apply (ref_tx _ _ _ _ _ _ Hr)]]]]]].
  assert (at16 eh eth_type = PP_HTONS ETHTYPE_IP) as Ht.
  { subst eh. clear -Hdm Hsm. unfold eth_header, at16, at8, eth_type. do 6 (destruct dmac as [|? dmac]; [done|]). destruct dmac; [|done].
    do 6 (destruct smac as [|? smac]; [done|]). by destruct smac. }
  unfold lpc_enetif_input. erewrite bind_step by (unfold on_emac; unfold drv in E; rewrite E; reflexivity). cbv beta. fold (taken h1 d1 n).
  rewrite bool_decide_false by done. erewrite bind_step by (by eapply (pb_whole p_payload (taken h1 d1 n))). cbv beta.
  erewrite bind_step by (eapply ld16_hdr; [exact (wh_bytes _ _ _ _ W)|done|by rewrite Le]). cbv beta. rewrite Ht.
  change (lwip_htons (PP_HTONS ETHTYPE_IP)) with ETHTYPE_IP. rewrite bool_decide_true by done. cbn [orb].
  assert (call_input p a (taken h1 d1 n) = ethernet_input p a (taken h1 d1 n)) as Hc.
  { unfold call_input. erewrite bind_step by (unfold netif_at, mbind, net_bind, gets, need; change (n_if (taken h1 d1 n)) with (n_if n); by rewrite Hf). cbv beta. by rewrite bool_decide_true by done. }
  unfold mbind, net_bind. by rewrite Hc.
Qed.

(** A packet of one buffer goes to the end of the transmit ring. *)
Lemma output_single h d p x b : whole h p x b -> p_ref b = 1 -> tx_ok d -> tx_fill_ok d -> 0 < tx_free_descs d ->
  exists d' t, lpc_low_level_output p h d = Ret (put p (p_set_ref 2 b) h, d', ERR_OK) /\ tx_ok d' /\ tx_fill_ok d' /\ tx_queue d' = tx_queue d ++ [(t, p)] /\
    owned (t, p) /\ t_B1ADD t = p_payload b /\ BSIZE t = TDES_ENH_BS1 (Z.of_nat (length x)) /\ rx_side d' = rx_side d.
Proof.
  intros [W1 W2 W3 W4 W5 W6 W7 W8 W9] Href Hok Hf Hfree. assert (chain_of h p [(p, b)]) as Hch by done.
  destruct (tx_output d h p b [] Hok Hf Hch) as (d' & E & K1 & K2 & K3 & _ & K4); [cbn; lia|]. destruct (handed_shape d p b []) as [Ho _].
  unfold referenced in E. rewrite Href in E. exists d'. unfold handed in *. cbn [map filled fill_desc length] in *. rewrite (bool_decide_true (0%nat = 0%nat)) in * by done.
  eexists. split; [exact E|]. split; [done|]. split; [done|]. split; [exact K3|]. split; [by apply Forall_cons in Ho as [Ho _]|]. rewrite <-W4. by split_and!.
Qed.

(** The stack lets go of a packet that the driver holds. *)
Lemma drop_shared h p b : p <> 0 -> pbufs h !! p = Some b -> p_ref b = 1 -> pbuf_free p (put p (p_set_ref 2 b) h) = Ret (h, 0).
Proof.
  intros Hp Hb Href. unfold pbuf_free. rewrite bool_decide_true by done. cbn [LWIP_ASSERT mbind outcome_bind].
  pose proof (put_same p (p_set_ref 2 b) h) as Hb2. rewrite (get_live _ _ _ Hb2). cbn [mbind outcome_bind]. unfold chain_fuel. cbn [free_loop].
  rewrite bool_decide_false by done. rewrite (get_live _ _ _ Hb2). cbn [mbind outcome_bind]. change (LWIP_ASSERT (bool_decide (p_ref (p_set_ref 2 b) > 0))) with (Ret ()). cbn [mbind outcome_bind].
  change (u16 (p_ref (p_set_ref 2 b) - 1)) with 1. rewrite bool_decide_false by done. rewrite put_put. do 2 f_equal.
  apply heap_ext; [|done|done]. apply insert_id. rewrite Hb. by destruct b; cbn in Href; subst.
Qed.

Lemma sent_app q r : sent q = [] -> sent r = [] -> sent (q ++ r) = [].
Proof. destruct q as [|[t p] q]; [done|]. cbn. by case_bool_decide. Qed.

Lemma sent_owned t p : TDES_OWN <> 0 -> owned (t, p) -> sent [(t, p)] = [].
Proof. unfold owned. cbn. intros Hn Ho. by rewrite bool_decide_false by (by rewrite Ho). Qed.

(** What the driver, and the stack behind it, do with a packet for the link. *)
Lemma link_and_drop n a p x b : whole (n_heap n) p x b -> p_ref b = 1 -> driver_ok (n_heap n) (drv n) -> 0 < tx_free_descs (drv n) ->
  exists d t, (_ ← call_linkoutput a p; _ ← drop p; _ ← set_current 0 null_ptr IPADDR_ANY IPADDR_ANY; mret ERR_OK) n =
      Ret (n_set_ip (mkIpState 0 null_ptr IPADDR_ANY IPADDR_ANY (ip_id (n_ip n))) (n_set_ext (mkDrv d (dv_app (n_ext n))) n), ERR_OK) /\
    driver_ok (n_heap n) d /\ tx_queue d = tx_queue (drv n) ++ [(t, p)] /\ owned (t, p) /\ t_B1ADD t = p_payload b /\ BSIZE t = TDES_ENH_BS1 (Z.of_nat (length x)) /\
    rx_waiting d = rx_waiting (drv n).
Proof.
  intros Hw Href [Hrx Htx Hfill] Hfree. destruct (output_single _ _ _ _ _ Hw Href Htx Hfill Hfree) as (d & t & E & K1 & K2 & K3 & K4 & K5 & K6 & K7).
  destruct (rx_side_same _ _ _ K7 Hrx) as [R1 R2]. exists d, t. split; [|by split_and!].
  unfold call_linkoutput. cbn [linkoutput emac_link]. unfold mbind at 1, net_bind at 1. fold (drv n). rewrite E. cbn [mbind outcome_bind].
  unfold drop. erewrite bind_step; [|erewrite bind_step; [reflexivity|apply on_heap_at; cbn [n_heap n_set_ext n_set_heap]; apply drop_shared; [apply (wh_nz _ _ _ _ Hw)|apply (wh_buf _ _ _ _ Hw)|done]]].
  by destruct n.
Qed.

Lemma driver_ok_others h h' p d : others p h h' -> p <> 0 -> is_Some (pbufs h' !! p) -> driver_ok h d -> driver_ok h' d.
Proof.
  intros [O1 _ _] Hp Hl [[R1 R2 R3 R4] K2 K3]. split; [|done|done]. split; [done|done| |by rewrite O1]. eapply in_ring_kept; [exact R3|].
  intros i Hi. destruct (decide (i = p)) as [->|Hne]; [done|by rewrite O1].
Qed.

(** C16: A ping, from the wire to the wire.  The controller has left an echo
    request with a right checksum in the receive ring, perhaps with padding
    behind it.  One turn of [emac_app::process] takes the frame out of the ring,
    puts new buffers behind the others, and puts the reply at the end of the
    transmit ring: in the buffer of the request, with the bytes of the reply at
    the address and the length in the descriptor, which is the controller's.
    Driver and memory stay in order: the next frame can come. *)
Theorem ping_answered n a f x p q b dmac smac mac s' tos id ttl src dst code c y pad :
  is_u16 EMAC_ETH_MAX_FLEN -> TDES_OWN <> 0 -> driver_ok (n_heap n) (drv n) -> 0 < tx_free_descs (drv n) -> sent (tx_queue (drv n)) = [] ->
  frame_at (n_heap n) (drv n) x p q b (eth_header dmac smac ++ echo_packet tos id ttl src dst ICMP_ECHO code c y ++ pad) -> p_ref b = 1 ->
  for_host n a f src dst -> nf_input f = ETHERNET_INPUT -> raw_pcbs (n_raw n) = [] -> Z.land (nf_flags f) NETIF_FLAG_ETHARP <> 0 -> length dmac = 6%nat -> length smac = 6%nat ->
  is_u8 tos -> is_u8 ttl -> is_u8 code -> is_u16 c -> bytes y -> 4 <= Z.of_nat (length y) -> is_u32 src -> is_u32 dst -> ip_addr_ismulticast dst = false ->
  inet_chksum (echo_msg ICMP_ECHO code c y) = 0 ->
  sends n a f -> arp_ok (n_arp n) -> reaches (n_arp n) f src mac s' -> nf_mtu f = 0 \/ Z.of_nat (length y) + 24 <= nf_mtu f ->
  let reply := eth_header mac (nf_hwaddr f) ++ echo_packet tos id ICMP_TTL dst src ICMP_ER code (echo_chksum c) y in
  exists n' t new, emac_process a n = Ret (n', ()) /\
    tx_queue (drv n') = tx_queue (drv n) ++ [(t, p)] /\ owned (t, p) /\ bytes_at (n_heap n') (t_B1ADD t) reply /\ BSIZE t = TDES_ENH_BS1 (Z.of_nat (length reply)) /\
    rx_waiting (drv n') = q ++ new /\ driver_ok (n_heap n') (drv n') /\ dv_app (n_ext n') = dv_app (n_ext n) /\
    (inet_chksum (echo_msg ICMP_ER code (echo_chksum c) y) = 0 \/ Forall (fun v => v = 0) ([ICMP_ER; code] ++ y)).
Proof.
  intros Hmax Hown [Hrx Htx Hfill] Hfree Hsent Hfr Href Hfor Hin Hraw Harp Hdm Hsm Htos Httl Hcode Hc Hy Hy4 Hsrc Hdst Hmc Hck Hsn Hok Hreach Hmtu reply.
  destruct (input_frame Hmax n a f x p q b dmac smac _ Hrx Hfr Hdm Hsm (fh_if _ _ _ _ _ Hfor) Hin) as (h1 & d1 & b1 & new & E1 & W1 & R1 & I1 & Q1 & _ & T1).
  destruct (tx_side_same _ _ T1 Htx Hfill) as (K1 & K2 & K3 & K4). set (n1 := taken h1 d1 n) in *.
  destruct (echo_answered n1 p a f dmac smac mac s' tos id ttl src dst code c y pad b1) as (n2 & b2 & E2 & W2 & R2 & O2 & S2 & C2); try done.
  { apply (inv_null _ _ I1). } { by rewrite R1. } { by destruct Hfor. } { by destruct Hsn. }
  assert (n_ext n2 = mkDrv d1 (dv_app (n_ext n))) as X2 by (by rewrite S2).
  assert (driver_ok (n_heap n2) (drv n2)) as D2.
  { unfold drv. rewrite X2. apply (driver_ok_others h1 _ p); [exact O2|apply (wh_nz _ _ _ _ W2)|rewrite (wh_buf _ _ _ _ W2); by eexists|by split]. }
  destruct (link_and_drop n2 a p reply b2 W2 R2 D2) as (d3 & t & E3 & D3 & Q3 & P3 & B3 & L3 & V3); [unfold drv; rewrite X2; cbn; lia|].
  unfold drv in Q3, V3. rewrite X2 in Q3, V3. cbn [dv_emac] in Q3, V3. rewrite K3 in Q3. set (n3 := n_set_ip _ _) in E3.
  assert (emac_process a n = Ret (n3, ())) as Ep.
  { unfold emac_process. erewrite bind_step; [|rewrite E1; erewrite bind_step by (rewrite E2; exact E3); reflexivity]. cbv beta. unfold on_emac. change (dv_emac (n_ext n3)) with d3.
    rewrite reclaim_none; [by destruct n|apply (do_tx _ _ D3)|]. rewrite Q3. apply sent_app; [done|by apply sent_owned]. }
  exists n3, t, new. change (drv n3) with d3. change (n_heap n3) with (n_heap n2). split_and!; try done.
  - rewrite B3. apply (wh_bytes _ _ _ _ W2).
  - by rewrite V3.
  - cbn. by rewrite X2.
Qed.

End Input.

(** ** Two hosts

    The ping of 192.168.0.1 in the ring of 192.168.0.2. *)

#[local] Existing Instance demo_malloc.
#[local] Existing Instance demo_bits.
#[local] Instance idle_raw : RawApp (Drv ()) := { raw_recv_fn _ _ _ _ _ h e := Ret (h, e, 0) }.
#[local] Instance idle_udp : UdpApp (Drv ()) := { udp_recv_fn _ _ _ _ _ _ := mret () }.

Definition ping_frame : list Z := ping_of_1 ++ replicate 20 0.
Definition ping_buf : pbuf := mkPbuf 0 (8, 0) 1536 1536 PBUF_RAM 0 1.
Definition ping_desc : rxdesc := mkRx (Z.shiftl 64 16) 0 (8, 0) 3.
Definition ping_emac : Emac :=
  mkEmacDrv 1 tx_ring [mkRx 0 0 null_ptr 1; mkRx 0 0 null_ptr 2; ping_desc; mkRx 0 0 null_ptr 0] [0; 0; 0; 0] 4 3 3 [0; 0; 8; 0] 3 2 3 0 (mkRegs 0 0 0 0 0 0 0).
Definition ping_net : Net (Drv ()) :=
  mkNet (mkHeap {[8 := ping_buf]} {[8 := ping_frame ++ replicate 1472 0]} ∅) (n_if pinged) (n_arp pinged) (n_udp pinged) (n_raw pinged) (n_ip pinged) (n_reass pinged) (mkDrv ping_emac ()).

Lemma ping_driver_ok : driver_ok (n_heap ping_net) (drv ping_net).
Proof.
  split; [split|split; cbn; done || lia|by vm_compute].
  - split; cbn; done || lia.
  - apply NoDup_singleton.
  - apply Forall_singleton. split; [done|by eexists].
  - done.
Qed.

Lemma ping_ready : frame_at (n_heap ping_net) (drv ping_net) ping_desc 8 [] ping_buf ping_frame.
Proof. split; [by vm_compute|by vm_compute|by vm_compute|done| |by vm_compute|by vm_compute|done]. eexists. split; [reflexivity|]. vm_compute. reflexivity. Qed.

(** The turn by evaluation: the reply is in the ring, the packet is held by the
    driver only, and four new buffers wait. *)
Example demo_turn : exists n' t, emac_process 1 ping_net = Ret (n', ()) /\ tx_queue (drv n') = [(t, 8)] /\
  load (t_B1ADD t) (BSIZE t) (n_heap n') = Ret (eth_header (mac_of 1) (mac_of 2) ++
    echo_packet 0 99 255 (host 2) (host 1) ICMP_ER 0 (inet_chksum (echo_msg ICMP_ER 0 0 ping_data)) ping_data) /\
  option_map p_ref (pbufs (n_heap n') !! 8) = Some 1 /\ length (rx_waiting (drv n')) = 4%nat.
Proof. eexists _, _. split; [vm_compute; reflexivity|]. split; [vm_compute; reflexivity|]. split; [|split]; vm_compute; reflexivity. Qed.

Lemma ping_answered_witness : exists n' t new, emac_process 1 ping_net = Ret (n', ()) /\ tx_queue (drv n') = [(t, 8)] /\
  rx_waiting (drv n') = new /\ driver_ok (n_heap n') (drv n').
Proof.
  destruct (ping_answered ping_net 1 (demo_if 2) ping_desc 8 [] ping_buf (mac_of 2) (mac_of 1) (mac_of 1) (one_host (mkEntry 0 (host 1) 1 (mac_of 1) ETHARP_STATE_STABLE 0))
    0 99 64 (host 1) (host 2) 0 (inet_chksum (echo_msg ICMP_ECHO 0 0 ping_data)) ping_data (replicate 20 0)) as (n' & t & new & E1 & E2 & _ & _ & _ & E3 & E4 & _).
  - split; by vm_compute.
  - done.
  - exact ping_driver_ok.
  - by vm_compute.
  - reflexivity.
  - exact ping_ready.
  - reflexivity.
  - split; try done; vm_compute; done.
  - reflexivity.
  - reflexivity.
  - by vm_compute.
  - reflexivity.
  - reflexivity.
  - by vm_compute.
  - by vm_compute.
  - by vm_compute.
  - by vm_compute.
  - by repeat constructor.
  - by vm_compute.
  - by vm_compute.
  - by vm_compute.
  - by vm_compute.
  - by vm_compute.
  - split; [done|done|by split|done|done|by vm_compute].
  - apply arp_ok_one. split; cbn; [by vm_compute|by vm_compute|done|done|done].
  - right. right. split; [reflexivity|]. split; [reflexivity|]. exists (host 1), 0. split; [reflexivity|].
    split; [|split; reflexivity]. eexists. split; [reflexivity|]. split; [by vm_compute|]. split; [reflexivity|]. split; [reflexivity|]. by vm_compute.
  - right. by vm_compute.
  - exists n', t, new. split; [exact E1|]. split; [exact E2|]. split; [exact E3|exact E4].
Defined.
