(* ===== verification/EmacStart.v ===== *)
(** * The start of the network

    [emac_app::init] ([src/src/emac_app.cpp]) on the driver and the stack: the
    interface is configured, the rings are set up; or the transceiver fails. *)

From stdpp Require Import gmap.
From S2P Require Import Prelude LwipDef InetChksum IpAddr Pbuf PbufOps PbufData NetState NetMem Etharp EtharpOps IpOut Icmp Raw Udp IpReass IpIn IpRecv Netif Phy Emac EmacRing EmacInput.

Section Start.
Context {A : Type} `{EnetBits, EnetChip A, MallocLaws, RawApp (Drv A), UdpApp (Drv A)}.
Implicit Types n : Net (Drv A).
Notation NM := (NetM (Drv A)).

(** The part of [emac_app::init] below [lwip_init]; [a]: [lpc_netif]. *)
Definition net_init (a ip mask gw : Z) : NM () :=
  _ ← netif_add a ip mask gw 0 lpc_enetif_init ETHERNET_INPUT;
  _ ← netif_set_default a;
  netif_set_up a.

(** ** Steps *)

Definition with_if (a : Z) (f : netif) n : Net (Drv A) :=
  n_set_if (mkNetifState (<[a := f]> (netifs (n_if n))) (netif_list (n_if n)) (netif_default (n_if n)) (netif_num (n_if n))) n.
Definition with_drv (d : Emac) n : Net (Drv A) := n_set_ext (mkDrv d (dv_app (n_ext n))) n.

Lemma netif_upd_at a g f n : netifs (n_if n) !! a = Some f -> netif_upd a g n = Ret (with_if a (g f) n, ()).
Proof. intros Hf. unfold netif_upd. erewrite bind_step by (by apply netif_at_at). done. Qed.

Lemma emac_set_at f n : emac_set f n = Ret (with_drv (f (drv n)) n, ()).
Proof. unfold emac_set, on_emac. cbn [mbind outcome_bind]. by destruct n. Qed.

Lemma with_if_at a f n : netifs (n_if (with_if a f n)) !! a = Some f.
Proof. apply lookup_insert_eq. Qed.

Lemma with_if_twice a f g n : with_if a g (with_if a f n) = with_if a g n.
Proof. unfold with_if. cbn. by rewrite insert_insert_eq. Qed.

Lemma with_drv_twice d e n : with_drv e (with_drv d n) = with_drv e n.
Proof. done. Qed.

Lemma driver_ok_hw h d m r : driver_ok h d -> driver_ok h (ed_set_hw m r d).
Proof. intros [[[G1 G2 G3 G4 G5] Gn Gl G0] [K1 K2 K3 K4] Gf]. split; [split; [by split|done|done|done]|by split|done]. Qed.

(** The rings of a driver after its set-up. *)
Record rings_ready (h : Heap) (d : Emac) : Prop := {
  rr_ok : driver_ok h d;
  rr_tx : tx_queue d = [] /\ tx_free_descs d = 4;
  rr_rx : Forall (fun x => STATUS x.1 = RDES_OWN) (rx_waiting d);
  rr_full : length (rx_waiting d) = 4%nat \/ pbuf_alloc PBUF_RAW EMAC_ETH_MAX_FLEN PBUF_RAM h = Ret (h, 0);
}.

Lemma low_level_init_ok (Hmax : is_u16 EMAC_ETH_MAX_FLEN) n a f app : netifs (n_if n) !! a = Some f -> start_phy (dv_app (n_ext n)) = (app, SUCCESS) ->
  length (txpbufs (drv n)) = 4%nat -> length (rxpbufs (drv n)) = 4%nat -> pbufs (n_heap n) !! 0 = None ->
  exists h d, low_level_init a n = Ret (n_set_ext (mkDrv d app) (n_set_heap h n), ERR_OK) /\ rings_ready h d.
Proof.
  intros Hf Hphy Htb Hrb Hn. unfold low_level_init. erewrite bind_step by (by apply netif_at_at). cbv beta.
  do 3 (erewrite bind_step by apply emac_set_at; cbv beta). set (d0 := ed_set_hw _ _ _).
  erewrite bind_step by reflexivity. cbv beta. change (dv_app (n_ext (with_drv d0 _))) with (dv_app (n_ext n)). rewrite Hphy.
  erewrite bind_step by reflexivity. cbv beta. rewrite bool_decide_false by (by intros Hs; apply Hs).
  do 2 (erewrite bind_step by apply emac_set_at; cbv beta). set (n1 := with_drv _ _). set (d1 := drv n1).
  assert (length (txpbufs d1) = 4%nat /\ length (rxpbufs d1) = 4%nat) as [T1 X1] by done. change (n_heap n) with (n_heap n1) in Hn.
  destruct (rx_setup_spec Hmax (n_heap n1) d1 X1 Hn) as (h & d2 & new & E & [R1 R2 R3 R4 R5 R6 R7 R8] & I).
  erewrite bind_step by (unfold on_emac; change (dv_emac (n_ext n1)) with d1; rewrite E; reflexivity). cbv beta.
  erewrite bind_step by apply emac_set_at. cbv beta. eexists h, _. split; [by destruct n|].
  assert (tx_ok d1 /\ tx_fill_ok d1) as [T2 T3] by (by repeat split). destruct (tx_side_same _ _ R7 T2 T3) as (K1 & K2 & K3 & K4).
  split; [by apply driver_ok_hw|by split| |].
  - change (rx_waiting _) with (rx_waiting d2). rewrite R2. eapply Forall_impl; [exact R3|]. intros x (_ & _ & Hx & _). done.
  - change (rx_waiting _) with (rx_waiting d2). destruct R8 as [Hfree|Hm]; [left|by right].
    pose proof (window_length (fun i => (rx_at d2 i, rxbuf_at d2 i)) (rx_get_idx d2) (rx_used d2)) as Hl. unfold rx_used in Hl at 1. rewrite Hfree in Hl. fold (rx_waiting d2) in Hl. unfold rx_used in Hl. rewrite Hfree in Hl. lia.
Qed.

Lemma low_level_init_fails n a f app sts : netifs (n_if n) !! a = Some f -> start_phy (dv_app (n_ext n)) = (app, sts) -> sts <> SUCCESS ->
  exists d, low_level_init a n = Ret (n_set_ext (mkDrv d app) n, ERROR) /\ tx_side d = tx_side (drv n).
Proof.
  intros Hf Hphy Hs. unfold low_level_init. erewrite bind_step by (by apply netif_at_at). cbv beta.
  do 3 (erewrite bind_step by apply emac_set_at; cbv beta). set (d0 := ed_set_hw _ _ _).
  erewrite bind_step by reflexivity. cbv beta. change (dv_app (n_ext (with_drv d0 _))) with (dv_app (n_ext n)). rewrite Hphy.
  erewrite bind_step by reflexivity. cbv beta. rewrite bool_decide_true by done. eexists. split; [by destruct n|]. done.
Qed.

(** ** The interface *)

Definition enet_flags : Z := Z.lor NETIF_FLAG_BROADCAST (Z.lor NETIF_FLAG_ETHARP (Z.lor NETIF_FLAG_UP NETIF_FLAG_ETHERNET)).

(** The interface while the hardware is set up, and after that. *)
Definition if_starting (ip mask gw num : Z) (mac : list Z) (f : netif) : netif :=
  mkNetif ip mask gw ETHERNET_INPUT (nf_output f) (nf_linkoutput f) LPC_ENETDATA (nf_hostname f) 1500 ETHARP_HWADDR_LEN mac enet_flags (nf_name f) num.
Definition if_started (ip mask gw num : Z) (mac : list Z) : netif :=
  mkNetif ip mask gw ETHERNET_INPUT LPC_ETHARP_OUTPUT LPC_LOW_LEVEL_OUTPUT LPC_ENETDATA hostname 1500 ETHARP_HWADDR_LEN mac enet_flags if_name num.

Definition mac_of_board n : list Z := Board_ENET_GetMacADDR (dv_app (n_ext n)).

(** The state in which the hardware is set up. *)
Definition starting (a ip mask gw : Z) (f : netif) n : Net (Drv A) :=
  let s := n_if n in
  with_drv (ed_set_netif a (drv n)) (n_set_if (mkNetifState (<[a := if_starting ip mask gw (netif_num s) (mac_of_board n) f]> (netifs s)) (netif_list s) (netif_default s) (u8 (netif_num s + 1))) n).

Lemma enetif_init_at a n f n1 err : a <> 0 -> netifs (n_if n) !! a = Some f ->
  let f1 := if_starting (nf_ip_addr f) (nf_netmask f) (nf_gw f) (nf_num f) (mac_of_board n) f in
  nf_input f = ETHERNET_INPUT -> low_level_init a (with_if a f1 (with_drv (ed_set_netif a (drv n)) n)) = Ret (n1, err) -> err = ERR_OK -> netifs (n_if n1) !! a = Some f1 ->
  lpc_enetif_init a n = Ret (with_if a (if_started (nf_ip_addr f) (nf_netmask f) (nf_gw f) (nf_num f) (mac_of_board n)) n1, ERR_OK).
Proof.
  intros Ha Hf f1 Hin Hl -> Hf1. unfold lpc_enetif_init. rewrite bool_decide_true by done. erewrite bind_step by reflexivity. cbv beta.
  erewrite bind_step by apply emac_set_at. cbv beta. erewrite bind_step by reflexivity. cbv beta.
  erewrite bind_step by (apply (netif_upd_at _ _ f); done). cbv beta. rewrite Hin.
  erewrite bind_step by exact Hl. cbv beta. rewrite bool_decide_false by (by intros Hs; apply Hs). erewrite bind_step by (by apply (netif_upd_at _ _ f1)). done.
Qed.

(** All of the start around the set-up of the hardware. *)
Lemma net_init_at a ip mask gw n f n1 err : a <> 0 -> netifs (n_if n) !! a = Some f ->
  low_level_init a (starting a ip mask gw f n) = Ret (n1, err) -> err = ERR_OK -> n_if n1 = n_if (starting a ip mask gw f n) ->
  net_init a ip mask gw n = Ret (n_set_if (mkNetifState (<[a := if_started ip mask gw (netif_num (n_if n)) (mac_of_board n)]> (netifs (n_if n))) (a :: netif_list (n_if n)) a (u8 (netif_num (n_if n) + 1))) n1, ()).
Proof.
  intros Ha Hf Hl He Hn. set (s := n_if n) in *.
  set (g := nf_set_gw gw (nf_set_netmask mask (nf_set_ip_addr ip (nf_fresh 0 (netif_num s) ETHERNET_INPUT f)))).
  set (n0 := n_set_if (mkNetifState (<[a := g]> (netifs s)) (netif_list s) (netif_default s) (u8 (netif_num s + 1))) n).
  assert (netifs (n_if n0) !! a = Some g) as Hg by apply lookup_insert_eq.
  set (f1 := if_starting ip mask gw (netif_num s) (mac_of_board n) f) in *.
  assert (with_if a f1 (with_drv (ed_set_netif a (drv n0)) n0) = starting a ip mask gw f n) as Est.
  { unfold with_if, starting, n0. cbn. by rewrite insert_insert_eq. }
  assert (netifs (n_if n1) !! a = Some f1) as Hf1 by (rewrite Hn; apply lookup_insert_eq).
  assert (lpc_enetif_init a n0 = Ret (with_if a (if_started ip mask gw (netif_num s) (mac_of_board n)) n1, ERR_OK)) as Ei.
  { apply (enetif_init_at a n0 g n1 err Ha Hg); [done| |done|exact Hf1]. exact (eq_trans (f_equal (low_level_init a) Est) Hl). }
  assert (netif_add a ip mask gw 0 lpc_enetif_init ETHERNET_INPUT n = Ret (n_set_if (mkNetifState (<[a := if_started ip mask gw (netif_num s) (mac_of_board n)]> (netifs s)) (a :: netif_list s) (netif_default s) (u8 (netif_num s + 1))) n1, a)) as Eadd.
  { unfold netif_add. erewrite bind_step by reflexivity. cbv beta. erewrite bind_step by (by apply netif_upd_at). cbv beta. erewrite bind_step by reflexivity. cbv beta.
    set (n' := n_set_if _ (with_if _ _ n)). assert (netif_set_addr a ip mask gw n' = Ret (n0, ())) as Eaddr.
    { unfold netif_set_addr. erewrite bind_step by (apply netif_upd_at; apply lookup_insert_eq). cbv beta. erewrite bind_step by (apply netif_upd_at; apply lookup_insert_eq). cbv beta.
      unfold netif_set_gw. erewrite netif_upd_at by apply lookup_insert_eq. unfold with_if, n'. cbn. by rewrite !insert_insert_eq. }
    erewrite bind_step by exact Eaddr. cbv beta. erewrite bind_step by exact Ei. cbv beta. rewrite bool_decide_false by (by intros Hs; apply Hs).
    erewrite bind_step by reflexivity. cbv beta. unfold netif_set_list, with_if. cbn. rewrite Hn. cbn. by rewrite insert_insert_eq. }
  unfold net_init. erewrite bind_step by exact Eadd. cbv beta. erewrite bind_step by reflexivity. cbv beta.
  unfold netif_set_up. erewrite bind_step by (apply netif_at_at; apply lookup_insert_eq). done.
Qed.

(** C23: The start of the network.  The interface is the first of the list and
    the default, with its addresses, and up; its functions are those of the
    driver.  If the transceiver starts, the rings are in order, the transmit ring
    empty, and buffers of the controller's wait for frames: four, or as many as
    there is memory for.  If it does not start, the interface is there all the
    same, because the error that the driver reports reads as success; and with
    the rings as the program's memory starts, all zeros, the first packet that
    is sent stops the device. *)
Theorem net_started n a ip mask gw f0 app sts : is_u16 EMAC_ETH_MAX_FLEN -> a <> 0 -> netifs (n_if n) !! a = Some f0 -> pbufs (n_heap n) !! 0 = None ->
  length (txpbufs (drv n)) = 4%nat -> length (rxpbufs (drv n)) = 4%nat -> start_phy (dv_app (n_ext n)) = (app, sts) ->
  exists n', net_init a ip mask gw n = Ret (n', ()) /\
    netifs (n_if n') !! a = Some (if_started ip mask gw (netif_num (n_if n)) (mac_of_board n)) /\ netif_list (n_if n') = a :: netif_list (n_if n) /\ netif_default (n_if n') = a /\
    dv_app (n_ext n') = app /\
    if bool_decide (sts = SUCCESS) then rings_ready (n_heap n') (drv n')
    else n_heap n' = n_heap n /\ (tx_free_descs (drv n) = 0 -> forall p l, chain_of (n_heap n') p l -> 0 < Z.of_nat (length l) < 256 -> forall q, call_linkoutput q p n' = Spin).
Proof.
  intros Hmax Ha Hf Hn Htb Hrb Hphy. set (n0 := starting a ip mask gw f0 n).
  assert (netifs (n_if n0) !! a = Some (if_starting ip mask gw (netif_num (n_if n)) (mac_of_board n) f0)) as Hf0 by apply lookup_insert_eq.
  destruct (decide (sts = SUCCESS)) as [->|Hs].
  - destruct (low_level_init_ok Hmax n0 a _ app Hf0 Hphy Htb Hrb Hn) as (h & d & E & R). rewrite bool_decide_true by done.
    eexists. split; [by apply (net_init_at _ _ _ _ _ f0 _ _ Ha Hf E)|]. split; [apply lookup_insert_eq|]. by split_and!.
  - destruct (low_level_init_fails n0 a _ app sts Hf0 Hphy Hs) as (d & E & T). rewrite bool_decide_false by done.
    eexists. split; [by apply (net_init_at _ _ _ _ _ f0 _ _ Ha Hf E)|]. split; [apply lookup_insert_eq|]. split_and!; try done.
    intros Hfree p l Hch Hl q. assert (tx_free_descs d = 0) as Hfd by (unfold tx_side in T; injection T as _ _ T _; by rewrite T).
    unfold call_linkoutput. cbn [linkoutput emac_link n_heap n_ext n_set_if n_set_ext dv_emac]. rewrite (tx_output_waits _ _ _ l Hch); [done|rewrite Hfd; lia|lia].
Qed.

End Start.

(** ** Both cases by evaluation

    The rest of the program is the answer of the transceiver. *)

#[local] Existing Instance demo_bits.
#[local] Existing Instance demo_mem.
#[local] Instance demo_chip : EnetChip Z := { chip_enet_init _ r := r; start_phy e := (e, e); Board_ENET_GetMacADDR _ := [0; 0x60; 0x37; 0x12; 0; 1] }.
#[local] Instance no_raw_recv : RawApp (Drv Z) := { raw_recv_fn _ _ _ _ _ h e := Ret (h, e, 0) }.
#[local] Instance no_udp_recv : UdpApp (Drv Z) := { udp_recv_fn _ _ _ _ _ _ := mret () }.

Definition idle_emac : Emac := mkEmacDrv 0 (replicate 4 (mkTx 0 0 null_ptr 0)) (replicate 4 (mkRx 0 0 null_ptr 0)) [0; 0; 0; 0] 0 0 0 [0; 0; 0; 0] 0 0 0 0 (mkRegs 0 0 0 0 0 0 0).
Definition idle_if : netif := mkNetif 0 0 0 0 0 0 0 [] 0 0 [] 0 [] 0.

(** A device after reset, with a packet of one buffer. *)
Definition reset_net (sts : Z) : Net (Drv Z) :=
  mkNet (mkHeap {[8 := mkPbuf 0 (8, 0) 60 60 PBUF_RAM 0 1]} {[8 := replicate 60 0]} ∅) (mkNetifState {[1 := idle_if]} [] 0 0) (mkArpState [] 0)
    (mkUdpState ∅ [] 0xc000) (mkRawState ∅ []) (mkIpState 0 null_ptr 0 0 0) (mkReassState ∅ [] 0) (mkDrv idle_emac sts).

Lemma net_started_witness :
  (exists n', net_init 1 0x8800a8c0 0x00ffffff 0x0100a8c0 (reset_net SUCCESS) = Ret (n', ()) /\ netif_default (n_if n') = 1 /\ rings_ready (n_heap n') (drv n')) /\
  exists n', net_init 1 0x8800a8c0 0x00ffffff 0x0100a8c0 (reset_net 0) = Ret (n', ()) /\ netif_default (n_if n') = 1 /\ call_linkoutput 1 8 n' = Spin.
Proof.
  assert (is_u16 EMAC_ETH_MAX_FLEN) as Hmax by (split; by vm_compute). split.
  - destruct (net_started (reset_net SUCCESS) 1 0x8800a8c0 0x00ffffff 0x0100a8c0 idle_if SUCCESS SUCCESS Hmax) as (n' & E1 & _ & _ & E2 & _ & E3); try reflexivity; [done|].
    rewrite bool_decide_true in E3 by reflexivity. exists n'. split; [exact E1|]. split; [exact E2|exact E3].
  - destruct (net_started (reset_net 0) 1 0x8800a8c0 0x00ffffff 0x0100a8c0 idle_if 0 0 Hmax) as (n' & E1 & _ & _ & E2 & _ & E3); try reflexivity; [done|].
    rewrite bool_decide_false in E3 by done. destruct E3 as [E3 E4]. exists n'. split; [exact E1|]. split; [exact E2|].
    apply (E4 eq_refl 8 [(8, mkPbuf 0 (8, 0) 60 60 PBUF_RAM 0 1)]); [rewrite E3; by split_and!|split; reflexivity].
Defined.
