(* ===== verification/DataIO1.v ===== *)
(** * The older packet layers ([inc/dataio/dataio.h])

    [DataIOLayer2] with two buffers, one to receive in and one to read from,
    and a driver below it; [DataIOLayer3] with buffers of its own.  The layout
    of packets and messages is that of [Layer2] and [Layer3]. *)

From S2P Require Import Prelude Crc16 Layer2 Layer3.

(** ** Layer 2 *)

Inductive TRxBufferState := stFree | stReceive | stPacketReady.

#[export] Instance TRxBufferState_eq_dec : EqDecision TRxBufferState.
Proof. solve_decision. Defined.

Record tagRxBuffer := mkRxBuffer { rb_packet : list Z; rb_index : Z; rb_state : TRxBufferState }.

Definition rb_reset (r : tagRxBuffer) : tagRxBuffer := mkRxBuffer (rb_packet r) 0 stFree.
Definition rb_set_packet p (r : tagRxBuffer) : tagRxBuffer := mkRxBuffer p (rb_index r) (rb_state r).
Definition rb_set_index i (r : tagRxBuffer) : tagRxBuffer := mkRxBuffer (rb_packet r) i (rb_state r).
Definition rb_set_state st (r : tagRxBuffer) : tagRxBuffer := mkRxBuffer (rb_packet r) (rb_index r) st.

(** [class DataIOLayer2]; [layer1Ptr] is an argument of [sendPacket]. *)
Record Lr2 := mkLr2 {
  errors : list Z;                (* uint16_t errors[errorTxFrame+1] *)
  buffers : list tagRxBuffer;
  activeBuffer : Z;               (* uint16_t *)
  rxPacketState : Z;              (* uint16_t *)
  rxCrc16 : Z;
  rxTimeout : Z;
  selfAddress : Z;                (* uint8_t *)
  broadcastAddress : Z;           (* uint8_t *)
}.

Definition lr_set_errors e (s : Lr2) : Lr2 := mkLr2 e (buffers s) (activeBuffer s) (rxPacketState s) (rxCrc16 s) (rxTimeout s) (selfAddress s) (broadcastAddress s).
Definition lr_set_buffers b (s : Lr2) : Lr2 := mkLr2 (errors s) b (activeBuffer s) (rxPacketState s) (rxCrc16 s) (rxTimeout s) (selfAddress s) (broadcastAddress s).
Definition lr_set_active a (s : Lr2) : Lr2 := mkLr2 (errors s) (buffers s) a (rxPacketState s) (rxCrc16 s) (rxTimeout s) (selfAddress s) (broadcastAddress s).
Definition lr_set_state st (s : Lr2) : Lr2 := mkLr2 (errors s) (buffers s) (activeBuffer s) st (rxCrc16 s) (rxTimeout s) (selfAddress s) (broadcastAddress s).
Definition lr_set_crc c (s : Lr2) : Lr2 := mkLr2 (errors s) (buffers s) (activeBuffer s) (rxPacketState s) c (rxTimeout s) (selfAddress s) (broadcastAddress s).

Definition lr_configure (aselfAddress abroadcastAddress arxTimeout : Z) (s : Lr2) : Lr2 :=
  mkLr2 (errors s) (buffers s) (activeBuffer s) (rxPacketState s) (rxCrc16 s) (u16 arxTimeout) (u8 aselfAddress) (u8 abroadcastAddress).

Definition resetRxBuffers (s : Lr2) : Lr2 := lr_set_state 0 (lr_set_active 0 (lr_set_buffers (map rb_reset (buffers s)) s)).

Definition lr_getErrors (i : TErrors) (s : Lr2) : outcome Z := checked (rd (errors s) (error_index i)).
Definition lr_clearErrors (s : Lr2) : Lr2 := lr_set_errors (replicate 5 0) s.

(** The constructor; the arguments are what the members hold that it does not
    initialise. *)
Definition lr_DataIOLayer2 (mem0 mem1 : list Z) (crc timeout a1 a2 : Z) : Lr2 :=
  lr_clearErrors (resetRxBuffers (mkLr2 [] [mkRxBuffer mem0 0 stFree; mkRxBuffer mem1 0 stFree] 0 0 crc timeout a1 a2)).

(** [buffers\[i\]] *)
Definition buf_at (i : Z) (s : Lr2) : outcome tagRxBuffer := checked (rd (buffers s) i).
Definition buf_upd (i : Z) (f : tagRxBuffer -> tagRxBuffer) (s : Lr2) : outcome Lr2 :=
  r ← buf_at i s; bs ← checked (wr (buffers s) i (f r)); Ret (lr_set_buffers bs s).
Definition inactive (s : Lr2) : Z := Z.lxor (activeBuffer s) 1.

(** [errors\[e\]++] *)
Definition lr_count (e : TErrors) (s : Lr2) : outcome Lr2 :=
  n ← checked (rd (errors s) (error_index e));
  es ← checked (wr (errors s) (error_index e) (u16 (n + 1)));
  Ret (lr_set_errors es s).

(** [buffers\[activeBuffer\].packet.bytes\[i\] = b; index++] *)
Definition lr_store (i b : Z) (s : Lr2) : outcome Lr2 :=
  r ← buf_at (activeBuffer s) s;
  p ← checked (wr (rb_packet r) i b);
  buf_upd (activeBuffer s) (fun r => rb_set_index (u16 (rb_index r + 1)) (rb_set_packet p r)) s.

(** "Receive the next packet." *)
Definition lr_restart (s : Lr2) : outcome Lr2 := s ← buf_upd (activeBuffer s) (rb_set_index 0) s; Ret (lr_set_state 0 s).

(** Case 5: a byte of data. *)
Definition lr_data (b : Z) (s : Lr2) : outcome (Lr2 * bool) :=
  r ← buf_at (activeBuffer s) s;
  s ← lr_store (off_data + rb_index r) b s;
  let s := lr_set_crc (UPDATE_CRC16 b (rxCrc16 s)) s in
  r ← buf_at (activeBuffer s) s;
  dataSize ← checked (rd16 (rb_packet r) off_dataSize);
  if bool_decide (dataSize = rb_index r) then
    crc ← checked (rd16 (rb_packet r) off_crc16);
    if bool_decide (crc = rxCrc16 s) then
      s ← buf_upd (activeBuffer s) (rb_set_state stPacketReady) s;
      let s := lr_set_active (inactive s) s in
      r ← buf_at (activeBuffer s) s;
      s ← (if bool_decide (rb_state r <> stFree) then lr_count errorLossRxPacket s else Ret s);
      s ← buf_upd (activeBuffer s) (fun r => rb_set_index 0 (rb_set_state stReceive r)) s;
      Ret (lr_set_state 0 s, true)
    else s ← lr_count errorRxDataCRC s; s ← lr_restart s; Ret (s, false)
  else Ret (s, false).

(** Cases 0 and 1: the preamble. *)
Definition lr_wait (b : Z) (s : Lr2) : outcome (Lr2 * bool) :=
  if bool_decide (b = Layer2PreambleB0) then
    s ← lr_store 0 b s; Ret (lr_set_state 1 (lr_set_crc (UPDATE_CRC16 b 0xffff) s), false)
  else Ret (s, false).

Definition lr_preamble2 (b : Z) (s : Lr2) : outcome (Lr2 * bool) :=
  if bool_decide (b = Layer2PreambleB1) then
    s ← lr_store 1 b s; Ret (lr_set_state 2 (lr_set_crc (UPDATE_CRC16 b (rxCrc16 s)) s), false)
  else s ← lr_restart s; Ret (s, false).

(** Case 2: the header. *)
Definition lr_header_check (s : Lr2) : outcome Lr2 :=
  r ← buf_at (activeBuffer s) s;
  dataSize ← checked (rd16 (rb_packet r) off_dataSize);
  if bool_decide (dataSize > MaxLayer2DataSize) then lr_restart s
  else
    address ← checked (rd (rb_packet r) off_destAddress);
    crc ← checked (rd16 (rb_packet r) off_header_crc16);
    if bool_decide (rxCrc16 s = crc) then
      if bool_decide (address = selfAddress s) || bool_decide (address = broadcastAddress s)
      then Ret (lr_set_state 3 s) else lr_restart s
    else s ← lr_count errorRxHeaderCRC s; lr_restart s.

Definition lr_header (b : Z) (s : Lr2) : outcome (Lr2 * bool) :=
  r ← buf_at (activeBuffer s) s;
  let crc := if bool_decide (rb_index r < sizeof_LR2_HEADER - 2) then UPDATE_CRC16 b (rxCrc16 s) else rxCrc16 s in
  s ← lr_store (rb_index r) b s;
  let s := lr_set_crc crc s in
  r ← buf_at (activeBuffer s) s;
  if bool_decide (rb_index r = sizeof_LR2_HEADER) then s ← lr_header_check s; Ret (s, false) else Ret (s, false).

(** Cases 3 and 4: the CRC of the data. *)
Definition lr_crc0 (b : Z) (s : Lr2) : outcome (Lr2 * bool) :=
  r ← buf_at (activeBuffer s) s;
  p ← checked (blit (rb_packet r) off_crc16 (le2 b));
  s ← buf_upd (activeBuffer s) (rb_set_packet p) s;
  Ret (lr_set_state 4 s, false).

Definition lr_crc1 (b : Z) (s : Lr2) : outcome (Lr2 * bool) :=
  r ← buf_at (activeBuffer s) s;
  c ← checked (rd16 (rb_packet r) off_crc16);
  p ← checked (blit (rb_packet r) off_crc16 (le2 (Z.lor c (Z.shiftl b 8))));
  s ← buf_upd (activeBuffer s) (fun r => rb_set_index 0 (rb_set_packet p r)) s;
  Ret (lr_set_crc 0xffff (lr_set_state 5 s), false).

Definition lr_rxHandler (b : Z) (s : Lr2) : outcome (Lr2 * bool) :=
  match rxPacketState s with
  | 0 => lr_wait b s
  | 1 => lr_preamble2 b s
  | 2 => lr_header b s
  | 3 => lr_crc0 b s
  | 4 => lr_crc1 b s
  | 5 => lr_data b s
  | _ => Ret (s, false)
  end.

(** The packet in the other buffer. *)
Definition lr_getRxDataSize (s : Lr2) : outcome Z :=
  r ← buf_at (inactive s) s;
  if bool_decide (rb_state r = stPacketReady) then checked (rd16 (rb_packet r) off_dataSize) else Ret 0.

(** [getRxData]: the addresses and the copied data, or nothing. *)
Definition lr_getRxData (s : Lr2) : outcome (Lr2 * option (Z * Z * list Z)) :=
  r ← buf_at (inactive s) s;
  if bool_decide (rb_state r = stPacketReady) then
    dest ← checked (rd (rb_packet r) off_destAddress);
    src ← checked (rd (rb_packet r) off_srcAddress);
    dataSize ← checked (rd16 (rb_packet r) off_dataSize);
    d ← checked (slice (rb_packet r) off_data dataSize);
    s ← buf_upd (inactive s) (rb_set_state stFree) s;
    Ret (s, Some (dest, src, d))
  else Ret (s, None).

(** [finishTxPacket] of [inc/dataio/dataio2.h], the first part of [sendPacket]
    here: the destination is in the packet already. *)
Definition lr_finishTxPacket (p2 : list Z) (s : Lr2) : outcome (list Z) :=
  p2 ← checked (blit p2 0 (le2 Layer2Preamble));
  p2 ← checked (wr p2 off_srcAddress (selfAddress s));
  hcrc ← calcBlockCRC16i p2 (sizeof_LR2_HEADER - 2) 0xffff;
  p2 ← checked (blit p2 off_header_crc16 (le2 hcrc));
  dataSize ← checked (rd16 p2 off_dataSize);
  dcrc ← calcBlockCRC16i (drop (Z.to_nat off_data) p2) dataSize 0xffff;
  checked (blit p2 off_crc16 (le2 dcrc)).

(** [sendFrame]: [DataIOLayer1], the driver below; the frame it gets. *)
Definition lr_sendPacket (sendFrame : list Z -> bool) (p2 : list Z) (s : Lr2) : outcome (Lr2 * list Z * bool) :=
  p2 ← lr_finishTxPacket p2 s;
  dataSize ← checked (rd16 p2 off_dataSize);
  f ← checked (slice p2 0 (sizeof_LR2_HEADER + 2 + dataSize));
  if sendFrame f then Ret (s, p2, true) else s ← lr_count errorTxFrame s; Ret (s, p2, false).

(** ** Layer 3 *)

(** [class DataIOLayer3]. *)
Record Lr3 := mkLr3 {
  txPacket : list Z;
  txIndex : Z;                (* uint16_t *)
  rxData : list Z;            (* MaxLayer2DataSize bytes *)
  rxIndex : Z;                (* uint16_t *)
  rxSize : Z;                 (* uint16_t *)
}.

Definition lr_set_tx p i (s : Lr3) : Lr3 := mkLr3 p i (rxData s) (rxIndex s) (rxSize s).
Definition lr_set_rx d i n (s : Lr3) : Lr3 := mkLr3 (txPacket s) (txIndex s) d i n.

Definition resetTxBuffer (s : Lr3) : Lr3 := lr_set_tx (txPacket s) 0 s.
Definition lr_getTxBufferFree (s : Lr3) : Z := u16 (MaxLayer2DataSize - txIndex s).
Definition lr_getTxDataSize (s : Lr3) : Z := txIndex s.

(** The sizes of the messages of fixed size; there is no [MsgReadBlock]. *)
Definition lr_fixed_size (id : Z) : option Z :=
  if bool_decide (id = MsgParameterWrite) then Some sizeof_TMsgParameterWrite
  else if bool_decide (id = MsgParameterRead) then Some sizeof_TMsgParameterRead
  else if bool_decide (id = MsgParameterValue) then Some sizeof_TMsgParameterValue
  else None.

Definition lr_append (src : list Z) (s : Lr3) : outcome Lr3 :=
  p ← checked (blit (txPacket s) (off_data + txIndex s) src);
  Ret (lr_set_tx p (u16 (txIndex s + Z.of_nat (length src))) s).

Definition lr_addMessage (msg data : list Z) (s : Lr3) : outcome (Lr3 * bool) :=
  id ← checked (rd msg 0);
  if bool_decide (id = MsgAppType) then
    dataSize ← checked (rd16 msg off_app_dataSize);
    let size := u16 (sizeof_TMsgAppTypeHeader + dataSize) in
    if bool_decide (size > lr_getTxBufferFree s) then Ret (s, false)
    else
      header ← checked (slice msg 0 sizeof_TMsgAppTypeHeader);
      s ← lr_append header s;
      if bool_decide (dataSize <> 0) then
        block ← checked (slice data 0 dataSize);
        s ← lr_append block s;
        Ret (s, true)
      else Ret (s, true)
  else
    match lr_fixed_size id with
    | None => Ret (s, false)
    | Some size =>
        if bool_decide (size > lr_getTxBufferFree s) then Ret (s, false)
        else m ← checked (slice msg 0 size); s ← lr_append m s; Ret (s, true)
    end.

(** [sendPacket]: 0, -1 (not sent) or -2 (nothing to send). *)
Definition lr3_sendPacket (sendFrame : list Z -> bool) (destAddress : Z) (l2 : Lr2) (s : Lr3) : outcome (Lr2 * Lr3 * Z) :=
  if bool_decide (txIndex s <> 0) then
    p ← checked (wr (txPacket s) off_destAddress (u8 destAddress));
    p ← checked (blit p off_dataSize (le2 (txIndex s)));
    '(l2, p, ok) ← lr_sendPacket sendFrame p l2;
    if ok : bool then Ret (l2, lr_set_tx p 0 s, 0) else Ret (l2, lr_set_tx p (txIndex s) s, -1)
  else Ret (l2, s, -2).

(** [readPacket]: the size, and the addresses when there is a packet. *)
Definition lr_readPacket (l2 : Lr2) (s : Lr3) : outcome (Lr2 * Lr3 * Z * option (Z * Z)) :=
  '(l2, r) ← lr_getRxData l2;
  match r with
  | Some (dest, src, d) =>
      rx ← checked (blit (rxData s) 0 d);
      Ret (l2, lr_set_rx rx 0 (Z.of_nat (length d)) s, Z.of_nat (length d), Some (dest, src))
  | None => Ret (l2, lr_set_rx (rxData s) 0 0 s, 0, None)
  end.

Definition lr_rxDataSize (s : Lr3) : Z := u16 (rxSize s - rxIndex s).

(** [getMessage]: the code, the identifier (with codes 0 and -3), the copied
    message (with code 0). *)
Definition lr_getMessage (s : Lr3) : outcome (Lr3 * Z * option Z * list Z) :=
  if bool_decide (lr_rxDataSize s = 0) then Ret (s, -1, None, [])
  else
    id ← checked (rd (rxData s) (rxIndex s));
    sz ← (if bool_decide (id = MsgAppType)
          then dataSize ← checked (rd16 (rxData s) (rxIndex s + off_app_dataSize));
               Ret (Some (u16 (sizeof_TMsgAppTypeHeader + dataSize)))
          else Ret (lr_fixed_size id));
    match sz with
    | None => Ret (s, -2, None, [])
    | Some size =>
        if bool_decide (size > lr_rxDataSize s) then Ret (s, -3, Some id, [])
        else
          m ← checked (slice (rxData s) (rxIndex s) size);
          Ret (lr_set_rx (rxData s) (u16 (rxIndex s + size)) (rxSize s) s, 0, Some id, m)
    end.

(** ** The older receiver and the newer one

    The packets that a reader gets from a stream of bytes who reads after every
    packet; the newer receiver is started again then. *)

Fixpoint lr_stream (bs : list Z) (s : Lr2) : outcome (Lr2 * list (Z * Z * list Z)) :=
  match bs with
  | [] => Ret (s, [])
  | b :: bs =>
      '(s, ok) ← lr_rxHandler b s;
      '(s, p) ← (if ok : bool then lr_getRxData s else Ret (s, None));
      '(s, ps) ← lr_stream bs s;
      Ret (s, match p with Some p => p :: ps | None => ps end)
  end.

Fixpoint rx_stream (bs : list Z) (t : Layer2) : outcome (Layer2 * list (Z * Z * list Z)) :=
  match bs with
  | [] => Ret (t, [])
  | b :: bs =>
      '(t, rc) ← rxHandler b t;
      '(t, p) ← (if bool_decide (rc = 2) then '(n, r) ← getRxDataPtr t; Ret (startRx t, match r with Some (dest, src, d) => Some (dest, src, take (Z.to_nat n) d) | None => None end) else Ret (t, None));
      '(t, ps) ← rx_stream bs t;
      Ret (t, match p with Some p => p :: ps | None => ps end)
  end.

(** *** What the two have received *)

Definition agree (k : Z) (p q : list Z) : Prop := length p = 254%nat /\ length q = 254%nat /\ forall i, 0 <= i < k -> rd p i = rd q i.

Lemma rd_wr_same {A} (m : list A) i v m' : wr m i v = Some m' -> rd m' i = Some v.
Proof. intros [Hi ->]%wr_Some. unfold rd. rewrite bool_decide_true by lia. apply list_lookup_insert_eq. lia. Qed.

Lemma agree_wr k p q b : agree k p q -> 0 <= k ->
  (k < 254 /\ exists p' q', wr p k b = Some p' /\ wr q k b = Some q' /\ agree (k + 1) p' q') \/ (wr p k b = None /\ wr q k b = None).
Proof.
  intros (Hp & Hq & Ha) Hk. destruct (decide (k < 254)) as [Hlt|Hge].
  - left. split; [done|]. destruct (wr_total p k b) as [p' Hp']; [lia|]. destruct (wr_total q k b) as [q' Hq']; [lia|]. exists p', q'. split; [done|]. split; [done|].
    split; [by rewrite (wr_length _ _ _ _ Hp')|]. split; [by rewrite (wr_length _ _ _ _ Hq')|]. intros i Hi. destruct (decide (i = k)) as [->|Hne].
    + by rewrite (rd_wr_same _ _ _ _ Hp'), (rd_wr_same _ _ _ _ Hq').
    + rewrite (rd_wr_ne _ _ _ _ _ Hp'), (rd_wr_ne _ _ _ _ _ Hq') by done. apply Ha. lia.
  - right. unfold wr. rewrite Hp, Hq, !bool_decide_false by lia. done.
Qed.

Lemma agree_less k j p q : agree k p q -> j <= k -> agree j p q.
Proof. intros (Hp & Hq & Ha) Hj. split; [done|]. split; [done|]. intros i Hi. apply Ha. lia. Qed.

Lemma agree_rd k p q i : agree k p q -> 0 <= i < k -> k <= 254 -> exists v, rd p i = Some v /\ rd q i = Some v.
Proof. intros (Hp & Hq & Ha) Hi Hk. destruct (rd_total p i) as [v Hv]; [lia|]. exists v. split; [done|]. by rewrite <-Ha. Qed.

Lemma agree_rd16 k p q i : agree k p q -> 0 <= i -> i + 2 <= k -> k <= 254 -> exists v, rd16 p i = Some v /\ rd16 q i = Some v.
Proof.
  intros Ha Hi Hk H254. destruct (agree_rd k p q i Ha) as (v & E1 & E2); [lia|done|]. destruct (agree_rd k p q (i + 1) Ha) as (w & E3 & E4); [lia|done|].
  exists (of_le2 v w). unfold rd16. rewrite E1, E2. cbn. by rewrite E3, E4.
Qed.

(** The two buffers: the active one first. *)
Definition pair_of (a : Z) (r o : tagRxBuffer) : list tagRxBuffer := if bool_decide (a = 0) then [r; o] else [o; r].

Definition two (a : Z) : Prop := a = 0 \/ a = 1.

Definition at_active es a r o st crc tm sa ba : Lr2 := mkLr2 es (pair_of a r o) a st crc tm sa ba.

Section Active.
Context (es : list Z) (a st crc tm sa ba : Z) (r o : tagRxBuffer) (Ha : two a).
Notation here r := (at_active es a r o st crc tm sa ba).

Lemma buf_at_active : buf_at a (here r) = Ret r.
Proof. by destruct Ha as [-> | ->]. Qed.

Lemma buf_upd_active f : buf_upd a f (here r) = Ret (here (f r)).
Proof. by destruct Ha as [-> | ->]. Qed.

Lemma lr_restart_active : lr_restart (here r) = Ret (at_active es a (rb_set_index 0 r) o 0 crc tm sa ba).
Proof. by destruct Ha as [-> | ->]. Qed.

Lemma lr_store_active i b p : wr (rb_packet r) i b = Some p -> lr_store i b (here r) = Ret (here (rb_set_index (u16 (rb_index r + 1)) (rb_set_packet p r))).
Proof. intros Hw. unfold lr_store. cbn [activeBuffer at_active]. fold (here r). rewrite buf_at_active. cbn [mbind outcome_bind]. rewrite Hw. cbn [checked mbind outcome_bind]. by rewrite buf_upd_active. Qed.

Lemma lr_store_none i b : wr (rb_packet r) i b = None -> lr_store i b (here r) = Fault.
Proof. intros Hw. unfold lr_store. cbn [activeBuffer at_active]. fold (here r). rewrite buf_at_active. cbn [mbind outcome_bind]. by rewrite Hw. Qed.

End Active.

Lemma blit2_rd p off v p' : blit p off (le2 v) = Some p' -> length p' = length p /\ rd p' off = Some (v mod 256) /\ rd p' (off + 1) = Some (v / 256 mod 256) /\
  forall i, i <> off -> i <> off + 1 -> rd p' i = rd p i.
Proof.
  intros Hb. pose proof Hb as Hl. apply blit_length in Hl. assert (0 <= off) as H0 by (unfold blit in Hb; case_bool_decide; [lia|done]). split; [done|].
  assert (forall i, 0 <= i -> rd p' i = if bool_decide (off <= i < off + 2) then le2 v !! Z.to_nat (i - off) else rd p i) as Hrd.
  { intros i Hi. unfold rd. rewrite bool_decide_true by done. rewrite (blit_lookup _ _ _ _ _ Hb). change (length (le2 v)) with 2%nat. destruct (decide (off <= i < off + 2)).
    - rewrite !bool_decide_true by lia. f_equal. lia.
    - by rewrite !bool_decide_false by lia. }
  split; [|split].
  - rewrite Hrd, bool_decide_true by lia. by rewrite Z.sub_diag.
  - rewrite Hrd, bool_decide_true by lia. by replace (off + 1 - off) with 1 by lia.
  - intros i H1 H2. destruct (decide (0 <= i)); [by rewrite Hrd, bool_decide_false by lia|]. unfold rd. by rewrite !bool_decide_false by lia.
Qed.

(** *** The relation *)

Definition in_place (st crc : Z) (r : tagRxBuffer) (t : Layer2) : Prop :=
  match l2_state t with
  | stWait => st = 0 /\ rb_index r = 0
  | stPreamble2 => st = 1 /\ rb_index r = 1 /\ agree 1 (rb_packet r) (l2_packet t) /\ crc = UPDATE_CRC16 Layer2PreambleB0 0xffff
  | stRxHeader => st = 2 /\ rb_index r = l2_index t /\ 2 <= l2_index t < 8 /\ agree (l2_index t) (rb_packet r) (l2_packet t) /\ crc = l2_rxCrc16 t
  | stCRC0 => st = 3 /\ l2_index t = 8 /\ agree 8 (rb_packet r) (l2_packet t)
  | stCRC1 => st = 4 /\ l2_index t = 9 /\ agree 9 (rb_packet r) (l2_packet t) /\ rd (rb_packet r) 9 = Some 0 /\ exists c, is_u8 c /\ rd (rb_packet r) 8 = Some c
  | stRxData => st = 5 /\ 0 <= rb_index r /\ l2_index t = 10 + rb_index r /\ l2_index t <= 254 /\ agree (l2_index t) (rb_packet r) (l2_packet t) /\ crc = l2_rxCrc16 t
  | Layer2.stPacketReady => False
  end.

(** The errors, but for the packets that were lost. *)
Definition same_errors (es fs : list Z) : Prop :=
  length es = 5%nat /\ length fs = 5%nat /\ forall e, e <> errorLossRxPacket -> error_index e <= 4 -> rd es (error_index e) = rd fs (error_index e).

Record tracks (s : Lr2) (t : Layer2) : Prop := {
  tk_state : exists a r o crc, two a /\ s = at_active (errors s) a r o (rxPacketState s) crc (rxTimeout s) (selfAddress s) (broadcastAddress s) /\
    length (rb_packet r) = 254%nat /\ length (rb_packet o) = 254%nat /\ in_place (rxPacketState s) crc r t;
  tk_len : length (l2_packet t) = 254%nat;
  tk_errors : same_errors (errors s) (l2_errors t);
  tk_self : selfAddress s = l2_selfAddress t;
  tk_broadcast : broadcastAddress s = l2_broadcastAddress t;
}.

Lemma error_index_inj e f : error_index e = error_index f -> e = f.
Proof. by destruct e, f. Qed.

(** Both count the same error. *)
Lemma count_both e es fs a r o st crc tm sa ba t : same_errors es fs -> l2_errors t = fs -> error_index e <= 4 ->
  exists es' fs', lr_count e (at_active es a r o st crc tm sa ba) = Ret (at_active es' a r o st crc tm sa ba) /\ count_error e t = Ret (set_errors fs' t) /\ same_errors es' fs'.
Proof.
  intros (H1 & H2 & H3) Hf He. assert (0 <= error_index e) as H0 by (by destruct e). unfold lr_count, count_error. rewrite Hf. cbn [errors at_active].
  destruct (rd_total es (error_index e)) as [n Hn]; [lia|]. destruct (rd_total fs (error_index e)) as [k Hk]; [lia|]. rewrite Hn, Hk. cbn [checked mbind outcome_bind].
  destruct (wr_total es (error_index e) (u16 (n + 1))) as [es' Hes]; [lia|]. destruct (wr_total fs (error_index e) (u16 (k + 1))) as [fs' Hfs]; [lia|]. rewrite Hes, Hfs. cbn [checked mbind outcome_bind].
  exists es', fs'. split; [done|]. split; [done|]. split; [by rewrite (wr_length _ _ _ _ Hes)|]. split; [by rewrite (wr_length _ _ _ _ Hfs)|].
  intros f Hl Hf4. destruct (decide (e = f)) as [->|Hne].
  - rewrite (rd_wr_same _ _ _ _ Hes), (rd_wr_same _ _ _ _ Hfs). specialize (H3 f Hl Hf4). rewrite Hn, Hk in H3. by injection H3 as ->.
  - assert (error_index e <> error_index f) by (intros Hx; by apply error_index_inj in Hx). rewrite (rd_wr_ne _ _ _ _ _ Hes), (rd_wr_ne _ _ _ _ _ Hfs) by done. by apply H3.
Qed.

(** A step: both go on alike, or both write past the packet. *)
Definition alike (m : outcome (Lr2 * bool)) (k : outcome (Layer2 * Z)) : Prop :=
  (exists s t rc, m = Ret (s, false) /\ k = Ret (t, rc) /\ rc <> 2 /\ tracks s t) \/ (m = Fault /\ k = Fault).

Section Step.
Context (es : list Z) (a : Z) (r o : tagRxBuffer) (tm sa ba b : Z) (t : Layer2).
Context (Ha : two a) (Hr : length (rb_packet r) = 254%nat) (Ho : length (rb_packet o) = 254%nat) (Ht : length (l2_packet t) = 254%nat).
Context (He : same_errors es (l2_errors t)) (Hsa : sa = l2_selfAddress t) (Hba : ba = l2_broadcastAddress t) (Hb : is_u8 b).
Notation here st crc r := (at_active es a r o st crc tm sa ba).

Lemma tracks_intro es' st crc r' t' : length (rb_packet r') = 254%nat -> in_place st crc r' t' -> length (l2_packet t') = 254%nat -> same_errors es' (l2_errors t') ->
  l2_selfAddress t' = l2_selfAddress t -> l2_broadcastAddress t' = l2_broadcastAddress t -> tracks (at_active es' a r' o st crc tm sa ba) t'.
Proof. intros H1 H2 H3 H4 H5 H6. split; [exists a, r', o, crc; by split_and!|done|done|cbn; congruence|cbn; congruence]. Qed.

Lemma agree_0 : agree 0 (rb_packet r) (l2_packet t).
Proof. split; [done|]. split; [done|]. intros i Hi. lia. Qed.

Lemma step_wait crc : l2_state t = stWait -> rb_index r = 0 -> alike (lr_wait b (here 0 crc r)) (rx_wait b t).
Proof.
  intros Hst Hi. left. unfold lr_wait, rx_wait. case_bool_decide as Hp.
  - destruct (agree_wr 0 _ _ b agree_0 ltac:(lia)) as [(_ & p & q & E1 & E2 & Hag)|[E1 _]]; [|unfold wr in E1; rewrite Hr in E1; done].
    rewrite (lr_store_active _ _ _ _ _ _ _ _ _ Ha _ _ _ E1), E2. cbn [checked mbind outcome_bind]. eexists _, _, 0. split; [done|]. split; [done|]. split; [done|].
    apply tracks_intro; try done; [apply Hag| |apply Hag]. split; [done|]. split; [cbn; by rewrite Hi|]. split; [exact Hag|by rewrite Hp].
  - eexists _, _, 0. split; [done|]. split; [done|]. split; [done|]. apply tracks_intro; try done. unfold in_place. by rewrite Hst.
Qed.

(** Back to the start. *)
Lemma restarted es' st crc r' t' : length (rb_packet r') = 254%nat -> length (l2_packet t') = 254%nat -> same_errors es' (l2_errors t') ->
  l2_selfAddress t' = l2_selfAddress t -> l2_broadcastAddress t' = l2_broadcastAddress t ->
  exists s, lr_restart (at_active es' a r' o st crc tm sa ba) = Ret s /\ tracks s (startRx t').
Proof. intros. eexists. split; [by apply lr_restart_active|]. by apply tracks_intro. Qed.

Lemma step_preamble2 crc : in_place 1 crc r t -> l2_state t = stPreamble2 -> alike (lr_preamble2 b (here 1 crc r)) (rx_preamble2 b t).
Proof.
  unfold in_place. intros Hpl Hst. rewrite Hst in Hpl. destruct Hpl as (_ & Hi & Hag & Hcrc). left. unfold lr_preamble2, rx_preamble2. case_bool_decide as Hp.
  - destruct (agree_wr 1 _ _ b Hag ltac:(lia)) as [(_ & p & q & E1 & E2 & Hag2)|[E1 _]]; [|unfold wr in E1; rewrite Hr in E1; done].
    rewrite (lr_store_active _ _ _ _ _ _ _ _ _ Ha _ _ _ E1), E2. cbn [checked mbind outcome_bind]. eexists _, _, 1. split; [done|]. split; [done|]. split; [done|].
    apply tracks_intro; try done; [apply Hag2| |apply Hag2]. split; [done|]. split; [cbn; by rewrite Hi|]. split; [cbn; lia|]. split; [exact Hag2|].
    cbn [rxCrc16 at_active set_state set_rxCrc16 l2_rxCrc16]. rewrite Hcrc, Hp. by vm_compute.
  - destruct (restarted es 1 crc r t) as (s & E & Htr); try done. rewrite E. cbn [mbind outcome_bind]. destruct (_ && _); eexists s, _, _; by split_and!.
Qed.

Lemma step_header crc : in_place 2 crc r t -> l2_state t = stRxHeader -> alike (lr_header b (here 2 crc r)) (rx_header b t).
Proof.
  unfold in_place. intros Hpl Hst. rewrite Hst in Hpl. destruct Hpl as (_ & Hi & Hr8 & Hag & Hcrc). left. unfold lr_header, rx_header, rx_header_take.
  cbn [activeBuffer at_active]. fold (here 2 crc r). rewrite buf_at_active by done. cbn [mbind outcome_bind]. rewrite Hi.
  destruct (agree_wr (l2_index t) _ _ b Hag ltac:(lia)) as [(_ & p & q & E1 & E2 & Hag2)|[E1 _]]; [|unfold wr in E1; rewrite Hr, bool_decide_true in E1 by lia; done].
  rewrite (lr_store_active _ _ _ _ _ _ _ _ _ Ha _ _ _ E1), E2. cbn [checked mbind outcome_bind]. rewrite Hi, u16_id by (unw; lia).
  set (c := if bool_decide (l2_index t < sizeof_LR2_HEADER - 2) then UPDATE_CRC16 b crc else crc). set (r1 := rb_set_index (l2_index t + 1) (rb_set_packet p r)).
  assert (lr_set_crc (if bool_decide (l2_index t < sizeof_LR2_HEADER - 2) then UPDATE_CRC16 b (rxCrc16 (here 2 crc r)) else rxCrc16 (here 2 crc r)) (here 2 crc r1) = here 2 c r1) as -> by done.
  set (t0 := if bool_decide (l2_index (set_packet q t) < sizeof_LR2_HEADER - 2) then _ else set_packet q t).
  assert (set_index (u16 (l2_index t0 + 1)) t0 = set_index (l2_index t + 1) (set_rxCrc16 c (set_packet q t))) as ->.
  { unfold t0, c. rewrite Hcrc. cbn [l2_index set_packet]. case_bool_decide; (rewrite u16_id by (cbn; unw; lia)); [done|by destruct t]. }
  set (t1 := set_index _ _). cbn [activeBuffer at_active]. fold (here 2 c r1). rewrite buf_at_active by done. cbn [mbind outcome_bind].
  change (rb_index r1) with (l2_index t + 1). change (l2_index t1) with (l2_index t + 1). case_bool_decide as H8.
  2: { eexists _, _, 1. split; [done|]. split; [done|]. split; [done|]. apply tracks_intro; try done; [apply Hag2| |apply Hag2]. unfold in_place. cbn [t1 set_index set_rxCrc16 set_packet l2_state l2_index l2_packet l2_rxCrc16].
       rewrite Hst. split; [done|]. split; [done|]. unfold sizeof_LR2_HEADER in H8. split; [lia|done]. }
  unfold sizeof_LR2_HEADER in H8. assert (agree 8 (rb_packet r1) (l2_packet t1)) as Hag8 by (by rewrite <-H8).
  unfold lr_header_check, rx_header_check. cbn [activeBuffer at_active]. fold (here 2 c r1). rewrite buf_at_active by done. cbn [mbind outcome_bind].
  destruct (agree_rd16 8 _ _ off_dataSize Hag8) as (n & -> & ->); try done. cbn [checked mbind outcome_bind].
  assert (forall rc, rc <> 2 -> exists s t' rc', (s ← lr_restart (here 2 c r1); Ret (s, false)) = Ret (s, false) /\ Ret (startRx t1, rc) = Ret (t', rc') /\ rc' <> 2 /\ tracks s t') as Hrs.
  { intros rc Hrc. destruct (restarted es 2 c r1 t1) as (s & E & Htr); try done; [apply Hag8|apply Hag8|]. rewrite E. exists s, (startRx t1), rc. by split_and!. }
  case_bool_decide; [by apply Hrs|]. destruct (agree_rd 8 _ _ off_destAddress Hag8) as (dst & -> & ->); try done. cbn [checked mbind outcome_bind].
  destruct (agree_rd16 8 _ _ off_header_crc16 Hag8) as (hc & -> & ->); try done. cbn [checked mbind outcome_bind].
  change (rxCrc16 (here 2 c r1)) with c. change (l2_rxCrc16 t1) with c. case_bool_decide.
  - change (selfAddress (here 2 c r1)) with sa. change (broadcastAddress (here 2 c r1)) with ba. change (l2_selfAddress t1) with (l2_selfAddress t). change (l2_broadcastAddress t1) with (l2_broadcastAddress t).
    rewrite <-Hsa, <-Hba. destruct (_ || _); [|by apply Hrs]. eexists _, _, 1. split; [done|]. split; [done|]. split; [done|]. apply tracks_intro; try done; apply Hag8.
  - destruct (count_both errorRxHeaderCRC es (l2_errors t) a r1 o 2 c tm sa ba t1 He) as (es' & fs' & E3 & E4 & He'); [done|done|]. rewrite E3, E4. cbn [mbind outcome_bind].
    destruct (restarted es' 2 c r1 (set_errors fs' t1)) as (s & E & Htr); try done; [apply Hag8|apply Hag8|]. rewrite E. eexists s, _, (-4). by split_and!.
Qed.

Lemma step_crc0 crc : in_place 3 crc r t -> l2_state t = stCRC0 -> alike (lr_crc0 b (here 3 crc r)) (rx_crc0 b t).
Proof.
  unfold in_place. intros Hpl Hst. rewrite Hst in Hpl. destruct Hpl as (_ & Hi & Hag). left. unfold lr_crc0, rx_crc0, store_byte.
  cbn [activeBuffer at_active]. fold (here 3 crc r). rewrite buf_at_active by done. cbn [mbind outcome_bind]. rewrite Hi.
  destruct (blit_ok (rb_packet r) off_crc16 (le2 b)) as [p Hp]; [done|rewrite Hr; done|]. destruct (wr_total (l2_packet t) 8 b) as [q Hq]; [lia|]. rewrite Hp, Hq. cbn [checked mbind outcome_bind].
  rewrite buf_upd_active by done. cbn [mbind outcome_bind]. eexists _, _, 1. split; [done|]. split; [done|]. split; [done|].
  destruct (blit2_rd _ _ _ _ Hp) as (Hl & H8 & H9 & Hrest). unfold is_u8 in Hb. rewrite Z.mod_small in H8 by done. rewrite Z.div_small in H9 by done.
  apply tracks_intro; try done; [cbn; by rewrite Hl| |cbn; by rewrite (wr_length _ _ _ _ Hq)]. split; [done|]. split; [done|]. split; [|split; [done|by exists b]].
  split; [cbn; by rewrite Hl|]. split; [cbn; by rewrite (wr_length _ _ _ _ Hq)|]. intros i Hi9. cbn [rb_packet rb_set_packet l2_packet set_state set_index set_packet].
  destruct (decide (i = 8)) as [->|Hne]; [by rewrite (rd_wr_same _ _ _ _ Hq)|]. rewrite (rd_wr_ne _ _ _ _ _ Hq), Hrest by (unfold off_crc16; lia). apply Hag. lia.
Qed.

Lemma step_crc1 crc : in_place 4 crc r t -> l2_state t = stCRC1 -> alike (lr_crc1 b (here 4 crc r)) (rx_crc1 b t).
Proof.
  unfold in_place. intros Hpl Hst. rewrite Hst in Hpl. destruct Hpl as (_ & Hi & Hag & Hz & c & Hc & Hc8). left. unfold lr_crc1, rx_crc1, store_byte.
  cbn [activeBuffer at_active]. fold (here 4 crc r). rewrite buf_at_active by done. cbn [mbind outcome_bind]. rewrite Hi.
  assert (rd16 (rb_packet r) off_crc16 = Some c) as -> by (unfold rd16, off_crc16; rewrite Hc8; cbn; change (8 + 1) with 9; rewrite Hz; cbn; unfold of_le2; f_equal; lia). cbn [checked mbind outcome_bind].
  assert (Z.lor c (Z.shiftl b 8) = c + 256 * b) as Hlor.
  { rewrite Z.lor_comm, Z.shiftl_mul_pow2 by lia. rewrite (lor_low 8) by (exact Hc || lia). change (2 ^ 8) with 256. lia. }
  rewrite Hlor. destruct (blit_ok (rb_packet r) off_crc16 (le2 (c + 256 * b))) as [p Hp]; [done|rewrite Hr; done|]. destruct (wr_total (l2_packet t) 9 b) as [q Hq]; [lia|]. rewrite Hp, Hq. cbn [checked mbind outcome_bind].
  rewrite buf_upd_active by done. cbn [mbind outcome_bind]. eexists _, _, 1. split; [done|]. split; [done|]. split; [done|].
  destruct (blit2_rd _ _ _ _ Hp) as (Hl & H8 & H9 & Hrest). unfold is_u8 in Hb, Hc.
  assert ((c + 256 * b) mod 256 = c /\ (c + 256 * b) / 256 mod 256 = b) as [Em Ed] by (split; Z.to_euclidean_division_equations; lia). rewrite Em in H8. rewrite Ed in H9.
  apply tracks_intro; try done; [cbn; by rewrite Hl| |cbn; by rewrite (wr_length _ _ _ _ Hq)]. split; [done|]. split; [done|]. split; [done|]. split; [done|]. split; [|done].
  split; [cbn; by rewrite Hl|]. split; [cbn; by rewrite (wr_length _ _ _ _ Hq)|]. intros i Hi10. cbn [rb_packet rb_set_packet rb_set_index l2_packet set_state set_index set_packet set_rxCrc16 l2_index] in *. change (u16 (9 + 1)) with 10 in Hi10.
  destruct (decide (i = 9)) as [->|Hne]; [by rewrite (rd_wr_same _ _ _ _ Hq)|]. rewrite (rd_wr_ne _ _ _ _ _ Hq) by done. destruct (decide (i = 8)) as [->|Hne8].
  - change off_crc16 with 8 in H8. rewrite H8, <-Hc8. apply Hag. lia.
  - rewrite Hrest by (unfold off_crc16; lia). apply Hag. lia.
Qed.

(** The packet is complete: the reader gets the same from both. *)
Definition delivers (m : outcome (Lr2 * bool)) (k : outcome (Layer2 * Z)) : Prop :=
  exists s t' dest src d after s', m = Ret (s, true) /\ k = Ret (t', 2) /\ lr_getRxData s = Ret (s', Some (dest, src, d)) /\
    getRxDataPtr t' = Ret (Z.of_nat (length d), Some (dest, src, d ++ after)) /\ tracks s' (startRx t').

Lemma getRxData_other es' r' p n crc dest src t' : rd p off_destAddress = Some dest -> rd p off_srcAddress = Some src -> rd16 p off_dataSize = Some n -> 0 <= n <= 244 ->
  agree (10 + n) p (l2_packet t') -> l2_state t' = Layer2.stPacketReady -> length (rb_packet r') = 254%nat -> same_errors es' (l2_errors t') ->
  l2_selfAddress t' = l2_selfAddress t -> l2_broadcastAddress t' = l2_broadcastAddress t -> rb_index r' = 0 ->
  exists d after s', lr_getRxData (at_active es' (Z.lxor a 1) r' (mkRxBuffer p n stPacketReady) 0 crc tm sa ba) = Ret (s', Some (dest, src, d)) /\
    getRxDataPtr t' = Ret (Z.of_nat (length d), Some (dest, src, d ++ after)) /\ tracks s' (startRx t').
Proof.
  intros E1 E2 E3 Hn Hag Hst Hr' He' Hs1 Hs2 Hi. pose proof Hag as (Lp & Lq & Hrd). set (o' := mkRxBuffer p n stPacketReady).
  assert (buf_at (inactive (at_active es' (Z.lxor a 1) r' o' 0 crc tm sa ba)) (at_active es' (Z.lxor a 1) r' o' 0 crc tm sa ba) = Ret o') as Hat by (by destruct Ha as [-> | ->]).
  assert (forall f, buf_upd (inactive (at_active es' (Z.lxor a 1) r' o' 0 crc tm sa ba)) f (at_active es' (Z.lxor a 1) r' o' 0 crc tm sa ba) = Ret (at_active es' (Z.lxor a 1) r' (f o') 0 crc tm sa ba)) as Hupd by (intros; by destruct Ha as [-> | ->]).
  unfold lr_getRxData. rewrite Hat. cbn [mbind outcome_bind]. change (rb_state o') with stPacketReady. rewrite bool_decide_true by done. change (rb_packet o') with p.
  rewrite E1, E2, E3. cbn [checked mbind outcome_bind]. rewrite slice_ok by (unfold off_data; lia). cbn [checked mbind outcome_bind]. rewrite Hupd. cbn [mbind outcome_bind].
  change (Z.to_nat off_data) with 10%nat. set (d := take (Z.to_nat n) (drop 10 p)). eexists d, (drop (Z.to_nat n) (drop 10 (l2_packet t'))), _. split; [done|].
  assert (length d = Z.to_nat n) as Ld by (subst d; rewrite length_take, length_drop; lia).
  assert (take (Z.to_nat n) (drop 10 (l2_packet t')) = d) as Hd.
  { subst d. apply list_eq. intros i. destruct (decide (i < Z.to_nat n)%nat) as [Hlt|Hge]; [|by rewrite !lookup_ge_None_2 by (rewrite length_take, length_drop; lia)].
    rewrite !lookup_take_lt, !lookup_drop by done. rewrite <-!rd_nat. symmetry. apply Hrd. lia. }
  split.
  - unfold getRxDataPtr. rewrite Hst, bool_decide_true by done.
    assert (rd (l2_packet t') off_destAddress = Some dest /\ rd (l2_packet t') off_srcAddress = Some src /\ rd16 (l2_packet t') off_dataSize = Some n) as (-> & -> & ->).
    { split; [rewrite <-Hrd by (unfold off_destAddress; lia); done|]. split; [rewrite <-Hrd by (unfold off_srcAddress; lia); done|].
      destruct (agree_rd16 (10 + n) p (l2_packet t') off_dataSize Hag) as (v & F1 & F2); [done|unfold off_dataSize; lia|lia|]. rewrite F2, <-E3. done. }
    cbn [checked mbind outcome_bind]. change (Z.to_nat off_data) with 10%nat. rewrite <-Hd at 2. rewrite take_drop, Ld, Z2Nat.id by lia. done.
  - split; [exists (Z.lxor a 1), r', (rb_set_state stFree o'), crc; split_and!; try done; by destruct Ha as [-> | ->]; [right|left]|done|done|cbn; congruence|cbn; congruence].
Qed.

Lemma step_data crc : in_place 5 crc r t -> l2_state t = stRxData -> alike (lr_data b (here 5 crc r)) (rx_data b t) \/ delivers (lr_data b (here 5 crc r)) (rx_data b t).
Proof.
  unfold in_place. intros Hpl Hst. rewrite Hst in Hpl. destruct Hpl as (_ & Hi0 & Hi & Hi254 & Hag & Hcrc). unfold lr_data, rx_data, store_byte.
  cbn [activeBuffer at_active]. fold (here 5 crc r). rewrite buf_at_active by done. cbn [mbind outcome_bind]. change (off_data + rb_index r) with (10 + rb_index r). rewrite <-Hi.
  destruct (agree_wr (l2_index t) _ _ b Hag ltac:(lia)) as [(Hlt & p & q & E1 & E2 & Hag2)|[E1 E2]].
  2: { left. right. by rewrite (lr_store_none _ _ _ _ _ _ _ _ _ Ha _ _ E1), E2. }
  rewrite (lr_store_active _ _ _ _ _ _ _ _ _ Ha _ _ _ E1), E2. cbn [checked mbind outcome_bind]. rewrite !u16_id by (unw; lia).
  set (r1 := rb_set_index (rb_index r + 1) (rb_set_packet p r)). set (c := UPDATE_CRC16 b crc).
  change (lr_set_crc (UPDATE_CRC16 b (rxCrc16 (here 5 crc r1))) (here 5 crc r1)) with (here 5 c r1). cbn [activeBuffer at_active]. fold (here 5 c r1). rewrite buf_at_active by done. cbn [mbind outcome_bind].
  set (t1 := set_rxCrc16 _ _). assert (t1 = set_rxCrc16 c (set_index (l2_index t + 1) (set_packet q t))) as Et by (unfold t1, c; by rewrite Hcrc). clearbody t1. subst t1. set (t1 := set_rxCrc16 c _).
  assert (agree (l2_index t + 1) (rb_packet r1) (l2_packet t1)) as Hag3 by exact Hag2.
  destruct (agree_rd16 _ _ _ off_dataSize Hag3) as (n & F1 & F2); [done|unfold off_dataSize; lia|lia|]. rewrite F1, F2. cbn [checked mbind outcome_bind].
  change (rb_index r1) with (rb_index r + 1). change (l2_index t1) with (l2_index t + 1). unfold sizeof_LR2_HEADER. destruct (decide (n = rb_index r + 1)) as [Hn|Hn].
  2: { rewrite !bool_decide_false by lia. left. left. eexists _, _, 1. split; [done|]. split; [done|]. split; [done|]. apply tracks_intro; try done; [apply Hag2| |apply Hag2].
       unfold in_place. cbn [t1 set_rxCrc16 set_index set_packet l2_state l2_index l2_packet l2_rxCrc16]. rewrite Hst. split; [done|]. split; [cbn; lia|]. split; [cbn; lia|]. split; [lia|]. by split. }
  rewrite !bool_decide_true by lia. destruct (agree_rd16 _ _ _ off_crc16 Hag3) as (dc & G1 & G2); [done|unfold off_crc16; lia|lia|]. rewrite G1, G2. cbn [checked mbind outcome_bind].
  change (rxCrc16 (here 5 c r1)) with c. change (l2_rxCrc16 t1) with c. case_bool_decide as Hdc.
  2: { left. left. destruct (count_both errorRxDataCRC es (l2_errors t) a r1 o 5 c tm sa ba t1 He) as (es' & fs' & E3 & E4 & He'); [done|done|]. rewrite E3, E4. cbn [mbind outcome_bind].
       destruct (restarted es' 5 c r1 (set_errors fs' t1)) as (s & E & Htr); try done; [apply Hag2|apply Hag2|]. rewrite E. eexists s, _, (-1). by split_and!. }
  right. rewrite buf_upd_active by done. cbn [mbind outcome_bind]. set (ready := rb_set_state stPacketReady r1).
  assert (lr_set_active (inactive (here 5 c ready)) (here 5 c ready) = at_active es (Z.lxor a 1) o ready 5 c tm sa ba) as -> by (by destruct Ha as [-> | ->]).
  assert (two (Z.lxor a 1)) as Ha2 by (destruct Ha as [-> | ->]; [by right|by left]).
  cbn [activeBuffer at_active]. fold (at_active es (Z.lxor a 1) o ready 5 c tm sa ba). rewrite buf_at_active by done. cbn [mbind outcome_bind].
  assert (exists es', (if bool_decide (rb_state o <> stFree) then lr_count errorLossRxPacket (at_active es (Z.lxor a 1) o ready 5 c tm sa ba) else Ret (at_active es (Z.lxor a 1) o ready 5 c tm sa ba)) =
    Ret (at_active es' (Z.lxor a 1) o ready 5 c tm sa ba) /\ same_errors es' (l2_errors t)) as (es' & -> & He').
  { case_bool_decide; [|by exists es]. pose proof He as (L1 & L2 & Hsame). unfold lr_count. cbn [errors at_active]. destruct (rd_total es 3) as [v Hv]; [lia|]. change (error_index errorLossRxPacket) with 3. rewrite Hv. cbn [checked mbind outcome_bind].
    destruct (wr_total es 3 (u16 (v + 1))) as [es' Hes]; [lia|]. rewrite Hes. cbn [checked mbind outcome_bind]. exists es'. split; [done|]. split; [by rewrite (wr_length _ _ _ _ Hes)|]. split; [done|].
    intros e Hl He4. rewrite (rd_wr_ne _ _ _ _ _ Hes); [by apply Hsame|]. by destruct e. }
  cbn [mbind outcome_bind activeBuffer at_active]. fold (at_active es' (Z.lxor a 1) o ready 5 c tm sa ba). rewrite buf_upd_active by done. cbn [mbind outcome_bind].
  destruct (agree_rd _ _ _ off_destAddress Hag3) as (dest & D1 & _); [unfold off_destAddress; lia|lia|]. destruct (agree_rd _ _ _ off_srcAddress Hag3) as (src & S1 & _); [unfold off_srcAddress; lia|lia|].
  destruct (getRxData_other es' (rb_set_index 0 (rb_set_state stReceive o)) p n c dest src (set_state Layer2.stPacketReady t1)) as (d & after & s' & K1 & K2 & K3); try done; [lia| |].
  { apply (agree_less (l2_index t + 1)); [exact Hag2|lia]. }
  exists (at_active es' (Z.lxor a 1) (rb_set_index 0 (rb_set_state stReceive o)) ready 0 c tm sa ba), (set_state Layer2.stPacketReady t1), dest, src, d, after, s'.
  assert (ready = mkRxBuffer p n stPacketReady) as -> by (unfold ready, r1; cbn; by rewrite Hn). by split_and!.
Qed.

End Step.

(** One byte. *)
Lemma handler_step s t b : tracks s t -> is_u8 b -> alike (lr_rxHandler b s) (rxHandler b t) \/ delivers (lr_rxHandler b s) (rxHandler b t).
Proof.
  intros [(a & r & o & crc & Ha & Es & Hr & Ho & Hp) Ht He Hsa Hba] Hb. generalize dependent (rxPacketState s). generalize dependent (errors s). intros es He st Es Hp.
  rewrite Es. clear Es. unfold lr_rxHandler, rxHandler. cbn [rxPacketState at_active]. fold (at_active es a r o st crc (rxTimeout s) (selfAddress s) (broadcastAddress s)).
  pose proof Hp as Hq. unfold in_place in Hq. destruct (l2_state t) eqn:Hst.
  - destruct Hq as [-> Hi]. left. by apply step_wait.
  - destruct Hq as [-> _]. left. by apply step_preamble2.
  - destruct Hq as [-> _]. left. by apply step_header.
  - destruct Hq as [-> _]. left. by apply step_crc0.
  - destruct Hq as [-> _]. left. by apply step_crc1.
  - destruct Hq as [-> _]. by apply step_data.
  - done.
Qed.

(** Any stream. *)
Lemma stream_tracks bs : forall s t, tracks s t -> bytes bs -> snd <$> lr_stream bs s = snd <$> rx_stream bs t.
Proof.
  induction bs as [|b bs IH]; intros s t Htr Hbs; [done|]. inversion Hbs as [|? ? Hb Hbs2]; subst. cbn [lr_stream rx_stream].
  destruct (handler_step s t b Htr Hb) as [[(s' & t' & rc & -> & -> & Hrc & Htr')|[-> ->]]|(s' & t' & dest & src & d & after & s2 & -> & -> & E1 & E2 & Htr')]; [|done|]; cbn [mbind outcome_bind].
  - rewrite bool_decide_false by done. cbn [mbind outcome_bind]. specialize (IH _ _ Htr' Hbs2).
    destruct (lr_stream bs s') as [[? ?]| |], (rx_stream bs t') as [[? ?]| |]; cbn in IH |- *; done.
  - rewrite bool_decide_true by done. rewrite E1, E2. cbn [mbind outcome_bind]. specialize (IH _ _ Htr' Hbs2). rewrite Nat2Z.id, take_app_length.
    destruct (lr_stream bs s2) as [[? ?]| |], (rx_stream bs (startRx t')) as [[? ?]| |]; cbn in IH |- *; try done. by injection IH as ->.
Qed.

Definition lr_start (mem0 mem1 : list Z) (crc tm0 a1 a2 sa ba tm : Z) : Lr2 := lr_configure sa ba tm (lr_DataIOLayer2 mem0 mem1 crc tm0 a1 a2).

(** C35: The older receiver, with its two buffers, and the newer one deliver the
    same packets from any bytes to a reader who reads each packet when it is
    complete; where one writes past its buffer (a packet that announces no
    data), so does the other. *)
Theorem receivers_agree bs mem0 mem1 mem crc tm0 a1 a2 crc' b1 b2 sa ba tm : bytes bs -> length mem0 = 254%nat -> length mem1 = 254%nat -> length mem = 254%nat ->
  snd <$> lr_stream bs (lr_start mem0 mem1 crc tm0 a1 a2 sa ba tm) = snd <$> rx_stream bs (configure sa ba (DataIOLayer2 mem crc' b1 b2)).
Proof.
  intros Hbs H0 H1 H2. apply stream_tracks; [|done]. split; [|done| |done|done].
  - exists 0, (mkRxBuffer mem0 0 stFree), (mkRxBuffer mem1 0 stFree), crc. split; [by left|]. by split_and!.
  - by split_and!.
Qed.

(** A packet, a broken header, and a packet behind a stray first byte of the
    preamble, which neither receiver gets. *)
Lemma receivers_agree_witness :
  let bs := frame 9 2 [1; 2; 3] ++ [0xAA; 0x55; 9; 2; 1; 0; 0; 0] ++ [7; 0xAA] ++ frame 9 3 [4] in
  snd <$> lr_stream bs (lr_start (replicate 254 1) (replicate 254 2) 0 0 0 0 9 255 100) = Ret [(9, 2, [1; 2; 3])].
Proof.
  intros bs. assert (bytes bs) as Hbs by (apply (bool_decide_unpack _); vm_compute; exact I).
  etrans; [apply (receivers_agree bs (replicate 254 1) (replicate 254 2) (replicate 254 3) 0 0 0 0 0 0 0 9 255 100 Hbs eq_refl eq_refl eq_refl)|]. vm_compute. reflexivity.
Defined.

(** ** Layer 3 and the newer one

    The messages are the same but for [MsgReadBlock], the buffer for received
    data is a copy. *)

Definition newer (s : Lr3) : Layer3 := mkLayer3 (txPacket s) (txIndex s) (rxData s) (rxIndex s) (rxSize s) MaxLayer2DataSize.
Definition older (s : Layer3) : Lr3 := mkLr3 (l3_txPacket s) (l3_txIndex s) (l3_rxData s) (l3_rxIndex s) (l3_rxSize s).

Lemma older_newer s : older (newer s) = s.
Proof. by destruct s. Qed.

Lemma fixed_sizes id : id <> MsgReadBlock -> lr_fixed_size id = fixed_size id.
Proof. intros Hid. unfold lr_fixed_size, fixed_size. by rewrite (bool_decide_false (id = MsgReadBlock)). Qed.

Lemma append_agrees src s : lr_append src s = (t ← tx_append src (newer s); Ret (older t)).
Proof. unfold lr_append, tx_append. cbn [l3_txPacket l3_txIndex newer]. by destruct (blit _ _ _). Qed.

Lemma append_newer src s t : tx_append src (newer s) = Ret t -> newer (older t) = t.
Proof. unfold tx_append. destruct (blit _ _ _); [|done]. cbn. by intros [= <-]. Qed.

Lemma addMessage_agrees msg data s : rd msg 0 <> Some MsgReadBlock ->
  lr_addMessage msg data s = ('(t, rc) ← addMessage msg data (newer s); Ret (older t, bool_decide (rc = 0))).
Proof.
  intros Hid. unfold lr_addMessage, addMessage. destruct (rd msg 0) as [id|]; [|done]. cbn [checked mbind outcome_bind]. change (getTxBufferFree (newer s)) with (lr_getTxBufferFree s).
  case_bool_decide.
  - destruct (rd16 msg _) as [n|]; [|done]. cbn [checked mbind outcome_bind]. case_bool_decide; [by rewrite <-(older_newer s) at 1|].
    destruct (slice msg _ _) as [hd|]; [|done]. cbn [checked mbind outcome_bind]. rewrite append_agrees. destruct (tx_append hd (newer s)) as [t| |] eqn:Et; [|done|done]. cbn [mbind outcome_bind].
    case_bool_decide; [|done]. destruct (slice data _ _) as [d|]; [|done]. cbn [checked mbind outcome_bind]. rewrite append_agrees, (append_newer _ _ _ Et). by destruct (tx_append d t).
  - rewrite fixed_sizes by congruence. destruct (fixed_size id) as [n|]; [|by rewrite <-(older_newer s) at 1]. case_bool_decide; [by rewrite <-(older_newer s) at 1|].
    destruct (slice msg _ _) as [m|]; [|done]. cbn [checked mbind outcome_bind]. rewrite append_agrees. by destruct (tx_append m (newer s)).
Qed.

(** The message that [getMessage] copies is the one that [getMessagePtr] points
    to. *)
Lemma getMessage_agrees s : 0 <= rxIndex s <= rxSize s -> rxSize s <= MaxLayer2DataSize -> length (rxData s) = 244%nat -> rd (rxData s) (rxIndex s) <> Some MsgReadBlock ->
  (forall t rc, getMessagePtr (newer s) = Ret (t, rc, None) -> exists id, lr_getMessage s = Ret (s, rc, id, [])) /\
  (forall t rc id rest, getMessagePtr (newer s) = Ret (t, rc, Some (id, rest)) ->
    exists m, lr_getMessage s = Ret (older t, rc, Some id, m) /\ take (length m) rest = m /\ rxIndex (older t) = rxIndex s + Z.of_nat (length m)).
Proof.
  unfold MaxLayer2DataSize. intros H1 H2 H3 Hid. unfold getMessagePtr, lr_getMessage.
  assert (lr_rxDataSize s = rxSize s - rxIndex s) as Hsz by (unfold lr_rxDataSize; apply u16_id; unw; lia).
  assert (rxDataSize (newer s) = lr_rxDataSize s) as ->.
  { rewrite Hsz. unfold rxDataSize. cbn. case_bool_decide; [apply u16_id; unw; lia|lia]. }
  case_bool_decide as Hz; [split; [intros t rc Hx; injection Hx as <- <-; by exists None|done]|]. cbn [l3_rxData l3_rxIndex newer].
  destruct (rd (rxData s) (rxIndex s)) as [id|]; [|done]. cbn [checked mbind outcome_bind]. rewrite (fixed_sizes id) by congruence.
  destruct (if bool_decide (id = MsgAppType) then _ else _) as [[size|]| |] eqn:Esz; cbn [mbind outcome_bind]; [|split; [intros t rc Hx; injection Hx as <- <-; by exists None|done]|done|done].
  assert (0 <= size) as Hpos.
  { case_bool_decide.
    - destruct (rd16 (rxData s) (rxIndex s + off_app_dataSize)) as [n|]; [|done]. cbn in Esz. injection Esz as <-. apply u16_range.
    - injection Esz as Esz. unfold fixed_size in Esz. repeat case_bool_decide; try done; by injection Esz as <-. }
  destruct (decide (size > lr_rxDataSize s)) as [Hgt|Hgt]; [rewrite !bool_decide_true by done; split; [intros t rc Hx; injection Hx as <- <-; by exists (Some id)|done]|rewrite !bool_decide_false by done].
  rewrite slice_ok by lia. cbn [checked mbind outcome_bind]. split; [done|]. intros t rc id' rest Hx. injection Hx as <- <- <- <-. eexists. split; [done|].
  assert (length (take (Z.to_nat size) (drop (Z.to_nat (rxIndex s)) (rxData s))) = Z.to_nat size) as Hl by (rewrite length_take, length_drop; lia).
  rewrite Hl. split; [done|]. cbn. rewrite u16_id by (unw; lia). lia.
Qed.

(** ** Sending *)

(** The packet is that of the newer layer, whose destination is set before. *)
Lemma finish_agrees dest p p' s t : wr p off_destAddress (u8 dest) = Some p' -> l2_selfAddress t = selfAddress s -> lr_finishTxPacket p' s = finishTxPacket dest p t.
Proof.
  intros Hw Hs. unfold lr_finishTxPacket, finishTxPacket. rewrite Hs. pose proof Hw as [Hr ->]%wr_Some.
  destruct p as [|h0 [|h1 [|h2 [|h3 p]]]]; try (cbn in Hr; unfold off_destAddress in Hr; lia).
  - cbn in *. done.
  - change (<[Z.to_nat off_destAddress := u8 dest]> (h0 :: h1 :: h2 :: h3 :: p)) with (h0 :: h1 :: u8 dest :: h3 :: p).
    rewrite (blit_at [] [h0; h1] (u8 dest :: h3 :: p)), (blit_at [] [h0; h1] (h2 :: h3 :: p)) by done. cbn [app checked mbind outcome_bind le2].
    set (p0 := Layer2Preamble mod 256). set (p1 := Layer2Preamble / 256 mod 256).
    rewrite (wr_at [p0; p1; u8 dest] h3 p), (wr_at [p0; p1; h2] h3 p) by done. cbn [app checked mbind outcome_bind].
    by rewrite (wr_at [p0; p1] h2 (selfAddress s :: p)) by done.
Qed.

Lemma rx_stream_feed bs : forall t t' rcs, rx_feed bs t = Ret (t', rcs ++ [2]) -> Forall (fun r => r <> 2) rcs ->
  rx_stream bs t = ('(n, r) ← getRxDataPtr t'; Ret (startRx t', match r with Some (dest, src, d) => [(dest, src, take (Z.to_nat n) d)] | None => [] end)).
Proof.
  induction bs as [|b bs IH]; intros t t' rcs Hf Hr; cbn [rx_feed rx_stream] in *; [by destruct rcs|].
  destruct (rxHandler b t) as [[t1 r]| |]; [|done|done]. cbn [mbind outcome_bind] in *. destruct (rx_feed bs t1) as [[t2 rs]| |] eqn:E; [|done|done]. cbn [mbind outcome_bind] in Hf. injection Hf as -> Hrs.
  destruct rcs as [|r' rcs]; cbn [app] in Hrs; injection Hrs as -> ->.
  - assert (bs = [] /\ t1 = t') as [-> ->].
    { destruct bs as [|c bs]; [cbn in E; by injection E as ->|]. cbn [rx_feed] in E. destruct (rxHandler c t1) as [[? ?]| |]; [|done|done]. cbn [mbind outcome_bind] in E. destruct (rx_feed bs _) as [[? ?]| |]; done. }
    rewrite bool_decide_true by done. destruct (getRxDataPtr t') as [[n [[[? ?] ?]|]]| |]; done.
  - apply Forall_cons in Hr as [Hr1 Hr]. rewrite bool_decide_false by done. cbn [mbind outcome_bind]. rewrite (IH _ _ _ E Hr). destruct (getRxDataPtr t') as [[n [[[? ?] ?]|]]| |]; done.
Qed.

Lemma frame_bytes dest src d : is_u8 dest -> is_u8 src -> bytes d -> bytes (frame dest src d).
Proof.
  intros Hd Hs Hb. unfold frame, frame_header, header6. repeat apply Forall_app_2; try apply le2_bytes; try done. by apply Forall_cons_2; [|apply Forall_cons_2; [|apply Forall_nil_2]].
Qed.

(** Messages that the older layer 3 has collected leave as one frame, and
    the older receiver, in any state between packets, delivers exactly their
    bytes with both addresses; if the driver does not take the frame, the
    messages stay and the error is counted. *)
Theorem older_roundtrip sendFrame dest l2 s d rest rx t : txIndex s = Z.of_nat (length d) -> (0 < length d <= 244)%nat -> drop 10 (txPacket s) = d ++ rest -> length (errors l2) = 5%nat ->
  is_u8 (selfAddress l2) -> tracks rx t -> rx_inv t -> l2_state t = stWait -> (u8 dest = selfAddress rx \/ u8 dest = broadcastAddress rx) -> bytes d ->
  let f := frame (u8 dest) (selfAddress l2) d in
  snd <$> lr_stream f rx = Ret [(u8 dest, selfAddress l2, d)] /\
  exists l2', lr3_sendPacket sendFrame dest l2 s = (if sendFrame f then Ret (l2, lr_set_tx (f ++ rest) 0 s, 0) else Ret (l2', lr_set_tx (f ++ rest) (txIndex s) s, -1)) /\
    lr_count errorTxFrame l2 = Ret l2'.
Proof.
  intros Hi Hl Hp He Hs Htr Hinv Hst Hdest Hd f. split.
  - rewrite (stream_tracks f rx t Htr) by (apply frame_bytes; [apply u8_range|done|done]). rewrite (tk_self _ _ Htr), (tk_broadcast _ _ Htr) in Hdest.
    destruct (rx_feed_frame t (u8 dest) (selfAddress l2) d Hinv Hst (u8_range dest) Hs Hl Hdest) as (t' & Hf & Hg & _).
    rewrite (rx_stream_feed f t t' (0 :: replicate (length d + 8) 1) Hf) by (constructor; [done|by apply Forall_replicate]). rewrite Hg. cbn. by rewrite Nat2Z.id, take_app_length.
  - destruct (txPacket s) as [|b0 [|b1 [|b2 [|b3 [|b4 [|b5 [|b6 [|b7 [|b8 [|b9 r]]]]]]]]]] eqn:Ep; try (exfalso; cbn in Hp; destruct d; [cbn in Hl; lia|done]).
    change (drop 10 _) with r in Hp. subst r. set (t0 := mkLayer2 [] [] stWait 0 0 (selfAddress l2) 0 false).
    assert (exists l2', lr_count errorTxFrame l2 = Ret l2') as [l2' Hc].
    { unfold lr_count. destruct (rd_total (errors l2) 4) as [n Hn]; [lia|]. change (error_index errorTxFrame) with 4. rewrite Hn. cbn [checked mbind outcome_bind].
      destruct (wr_total (errors l2) 4 (u16 (n + 1))) as [es Hes]; [lia|]. rewrite Hes. by eexists. }
    exists l2'. split; [|done]. unfold lr3_sendPacket. rewrite bool_decide_true by lia. rewrite Ep.
    assert (wr ([b0; b1; b2; b3] ++ [b4; b5] ++ [b6; b7; b8; b9] ++ d ++ rest) off_destAddress (u8 dest) = Some ([b0; b1; u8 dest; b3] ++ [b4; b5] ++ [b6; b7; b8; b9] ++ d ++ rest)) as Hw by (by apply (wr_at [b0; b1] b2)).
    change (b0 :: b1 :: b2 :: b3 :: b4 :: b5 :: b6 :: b7 :: b8 :: b9 :: d ++ rest) with ([b0; b1; b2; b3] ++ [b4; b5] ++ [b6; b7; b8; b9] ++ d ++ rest). rewrite Hw. cbn [checked mbind outcome_bind].
    rewrite (blit_here [b0; b1; u8 dest; b3] [b4; b5]) by done. cbn [checked mbind outcome_bind]. unfold lr_sendPacket. rewrite Hi.
    rewrite (finish_agrees dest ([b0; b1; b2; b3] ++ le2 (Z.of_nat (length d)) ++ [b6; b7; b8; b9] ++ d ++ rest) _ l2 t0), finishTxPacket_frame by (lia || done || by apply (wr_at [b0; b1] b2)).
    cbn [mbind outcome_bind]. change (l2_selfAddress t0) with (selfAddress l2). fold f.
    assert (length f = (10 + length d)%nat) as Lf by (unfold f, frame; rewrite !length_app, frame_header_length; done).
    assert (rd16 (f ++ rest) off_dataSize = Some (Z.of_nat (length d))) as ->.
    { unfold f, frame. rewrite <-app_assoc, rd16_app_l by done. unfold rd16, rd. simpl. by rewrite of_le2_le2 by (unw; lia). }
    cbn [checked mbind outcome_bind]. rewrite slice_ok by (rewrite ?length_app, ?Lf; unfold sizeof_LR2_HEADER; lia). cbn [checked mbind outcome_bind].
    replace (Z.to_nat (sizeof_LR2_HEADER + 2 + Z.of_nat (length d))) with (length f) by (rewrite Lf; unfold sizeof_LR2_HEADER; lia). change (drop (Z.to_nat 0) (f ++ rest)) with (f ++ rest). rewrite take_app_length.
    destruct (sendFrame f); [done|]. rewrite Hc. done.
Qed.

(** A driver that takes the frame, and a receiver after the start. *)
Lemma older_roundtrip_witness :
  let l2 := lr_start (replicate 254 0) (replicate 254 0) 0 0 0 0 2 255 100 in
  let rx := lr_start (replicate 254 0) (replicate 254 0) 0 0 0 0 9 255 100 in
  snd <$> lr_stream (frame 9 2 [0x11; 1; 5; 0]) rx = Ret [(9, 2, [0x11; 1; 5; 0])] /\
  exists s', lr3_sendPacket (fun f => bool_decide (f = frame 9 2 [0x11; 1; 5; 0])) 9 l2 (mkLr3 (replicate 10 0 ++ [0x11; 1; 5; 0; 7]) 4 [] 0 0) = Ret (l2, s', 0).
Proof.
  intros l2 rx.
  destruct (older_roundtrip (fun f => bool_decide (f = frame 9 2 [0x11; 1; 5; 0])) 9 l2 (mkLr3 (replicate 10 0 ++ [0x11; 1; 5; 0; 7]) 4 [] 0 0) [0x11; 1; 5; 0] [7] rx l2_initial)
    as (E1 & l2' & E2 & _); try reflexivity.
  - cbn. lia.
  - by apply (bool_decide_unpack _).
  - split; [|done|by split_and!|done|done]. exists 0, (mkRxBuffer (replicate 254 0) 0 stFree), (mkRxBuffer (replicate 254 0) 0 stFree), 0. split; [by left|]. by split_and!.
  - exact l2_initial_inv.
  - by left.
  - apply (bool_decide_unpack _). vm_compute. exact I.
  - split; [exact E1|]. rewrite bool_decide_true in E2 by reflexivity. eexists. exact E2.
Defined.
