(* ===== verification/DataIO2.v ===== *)
(** * The packet layers for a master ([inc/dataio/dataio2.h])

    The text of [inc/dataio/dataio.h] ([DataIO1]) without a driver below: the
    packet is made in a buffer of the caller, which sends it. *)

From S2P Require Import Prelude Crc16 Layer2 Layer3 DataIO1.

(** ** Layer 2 *)

(** [rxHandler] ends with [return true], whatever it received. *)
Definition m_rxHandler (b : Z) (s : Lr2) : outcome (Lr2 * bool) := '(s, _) ← lr_rxHandler b s; Ret (s, true).

Definition m_finishTxPacket (p2 : list Z) (s : Lr2) : outcome (list Z) := lr_finishTxPacket p2 s.
Definition m_getRxDataSize (s : Lr2) : outcome Z := lr_getRxDataSize s.
Definition m_getRxData (s : Lr2) : outcome (Lr2 * option (Z * Z * list Z)) := lr_getRxData s.

(** ** Layer 3

    [txPacket]: the buffer handed to [startTxPacket]. *)

Definition m_startTxPacket (destAddress : Z) (buffer : list Z) (s : Lr3) : outcome Lr3 :=
  p ← checked (wr buffer off_destAddress (u8 destAddress)); Ret (lr_set_tx p 0 s).

Definition m_addMessage (msg data : list Z) (s : Lr3) : outcome (Lr3 * bool) := lr_addMessage msg data s.

(** The size of the packet, or 0. *)
Definition m3_finishTxPacket (l2 : Lr2) (s : Lr3) : outcome (Lr3 * Z) :=
  if bool_decide (txIndex s <> 0) then
    p ← checked (blit (txPacket s) off_dataSize (le2 (txIndex s)));
    p ← m_finishTxPacket p l2;
    dataSize ← checked (rd16 p off_dataSize);
    Ret (lr_set_tx p 0 s, u16 (sizeof_LR2_HEADER + 2 + dataSize))
  else Ret (s, 0).

Definition m_readPacket (l2 : Lr2) (s : Lr3) : outcome (Lr2 * Lr3 * Z * option (Z * Z)) := lr_readPacket l2 s.
Definition m_getMessage (s : Lr3) : outcome (Lr3 * Z * option Z * list Z) := lr_getMessage s.

(** ** Theorems *)

(** The packet is that of the newer layer 3. *)
Lemma m_finish_agrees dest l2 s0 s buffer t : m_startTxPacket dest buffer s0 = Ret s -> l2_selfAddress t = selfAddress l2 -> forall i d rest,
  i = Z.of_nat (length d) -> (0 < length d <= 244)%nat -> drop 10 buffer = d ++ rest ->
  m3_finishTxPacket l2 (lr_set_tx (txPacket s) i s) = Ret (lr_set_tx (frame (u8 dest) (selfAddress l2) d ++ rest) 0 s, 10 + i).
Proof.
  intros Hs Ht i d rest -> Hl Hb. unfold m_startTxPacket in Hs. destruct (wr buffer off_destAddress (u8 dest)) as [p|] eqn:Hw; [|done]. injection Hs as <-.
  destruct buffer as [|b0 [|b1 [|b2 [|b3 [|b4 [|b5 [|b6 [|b7 [|b8 [|b9 r]]]]]]]]]]; try (exfalso; cbn in Hb; destruct d; [cbn in Hl; lia|done]).
  change (drop 10 _) with r in Hb. subst r. assert (p = [b0; b1; u8 dest; b3] ++ [b4; b5] ++ [b6; b7; b8; b9] ++ d ++ rest) as -> by (apply wr_Some in Hw as [_ ->]; done).
  unfold m3_finishTxPacket, m_finishTxPacket. cbn [txIndex txPacket lr_set_tx]. rewrite bool_decide_true by lia. rewrite (blit_here [b0; b1; u8 dest; b3] [b4; b5]) by done. cbn [checked mbind outcome_bind].
  rewrite (finish_agrees dest ([b0; b1; b2; b3] ++ le2 (Z.of_nat (length d)) ++ [b6; b7; b8; b9] ++ d ++ rest) _ l2 t), finishTxPacket_frame by (lia || done || by apply (wr_at [b0; b1] b2)).
  cbn [mbind outcome_bind]. rewrite Ht. assert (rd16 (frame (u8 dest) (selfAddress l2) d ++ rest) off_dataSize = Some (Z.of_nat (length d))) as ->.
  { unfold frame. rewrite <-app_assoc, rd16_app_l by done. unfold rd16, rd. simpl. by rewrite of_le2_le2 by (unw; lia). }
  cbn [checked mbind outcome_bind]. unfold sizeof_LR2_HEADER. rewrite u16_id by (unw; lia). done.
Qed.

(** The result of [rxHandler] says nothing: it is the same in the middle of a
    packet. *)
Lemma m_rxHandler_true b s s' r : m_rxHandler b s = Ret (s', r) -> r = true.
Proof. unfold m_rxHandler. destruct (lr_rxHandler b s) as [[? ?]| |]; [|done|done]. cbn. by intros [= _ <-]. Qed.
