(* ===== verification/MovAvg.v ===== *)
(** * Moving average ([inc/comm/tmavrgfilt.h])

    [TMovAvgFilter<T>]: the sum of the last values in a ring.  [cast]: the
    conversion of a [long] to [T]; [long] has 32 bits. *)

From S2P Require Import Prelude.

Section Filter.
Context (cast : Z -> Z).

Record TMovAvgFilter := mkMovAvg {
  ma_size : Z;                (* unsigned short *)
  ma_index : Z;               (* unsigned short *)
  ma_n : Z;                   (* unsigned short *)
  ma_data : list Z;           (* the buffer of the caller *)
  ma_sum : Z;                 (* long *)
}.

(** The loop of [reset]; [i] rounds from the end. *)
Fixpoint ma_clear (i : nat) (d : list Z) : outcome (list Z) :=
  match i with O => Ret d | S i => d ← ma_clear i d; checked (wr d (Z.of_nat i) 0) end.

Definition ma_reset (f : TMovAvgFilter) : outcome TMovAvgFilter :=
  d ← ma_clear (Z.to_nat (ma_size f)) (ma_data f);
  Ret (mkMovAvg (ma_size f) (u16 (ma_size f - 1)) 0 d 0).

Definition ma_TMovAvgFilter (sz : Z) (buffer : list Z) : outcome TMovAvgFilter := ma_reset (mkMovAvg (u16 sz) 0 0 buffer 0).

Definition ma_setSize (sz : Z) (f : TMovAvgFilter) : outcome TMovAvgFilter := ma_reset (mkMovAvg (u16 sz) (ma_index f) (ma_n f) (ma_data f) (ma_sum f)).
Definition ma_getSize (f : TMovAvgFilter) : Z := ma_size f.

(** [process]; the division by [n = 0] is undefined. *)
Definition ma_process (v : Z) (f : TMovAvgFilter) : outcome (TMovAvgFilter * Z) :=
  old ← checked (rd (ma_data f) (ma_index f));
  let sum := s32 (s32 (ma_sum f - old) + v) in
  d ← checked (wr (ma_data f) (ma_index f) v);
  let index := u16 (ma_index f + 1) in
  let index := if bool_decide (index >= ma_size f) then 0 else index in
  let n := if bool_decide (ma_n f < ma_size f) then u16 (ma_n f + 1) else ma_n f in
  if bool_decide (n = 0) then Fault
  else Ret (mkMovAvg (ma_size f) index n d sum, cast (Z.quot sum n)).

Fixpoint ma_run (vs : list Z) (f : TMovAvgFilter) : outcome (TMovAvgFilter * list Z) :=
  match vs with
  | [] => Ret (f, [])
  | v :: vs => '(f, y) ← ma_process v f; '(f, ys) ← ma_run vs f; Ret (f, y :: ys)
  end.

(** ** The mean of the last values *)

Definition lsum (l : list Z) : Z := foldr Z.add 0 l.

(** [h]: the values before, the last one first. *)
Fixpoint means (sz : nat) (h vs : list Z) : list Z :=
  match vs with
  | [] => []
  | v :: vs => let w := take sz (v :: h) in cast (Z.quot (lsum w) (Z.of_nat (length w))) :: means sz (v :: h) vs
  end.

(** The ring holds the last values, zeros before the first one. *)
Record ma_inv (sz : nat) (h : list Z) (f : TMovAvgFilter) : Prop := {
  mi_size : ma_size f = Z.of_nat sz /\ 0 < Z.of_nat sz < 65536;
  mi_data : Z.of_nat sz <= Z.of_nat (length (ma_data f));
  mi_index : 0 <= ma_index f < Z.of_nat sz;
  mi_n : ma_n f = Z.of_nat (length (take sz h));
  mi_ring : forall k, 0 <= k < Z.of_nat sz -> rd (ma_data f) ((ma_index f - 1 - k) mod Z.of_nat sz) = Some (default 0 (h !! Z.to_nat k));
  mi_sum : ma_sum f = lsum (take sz h);
}.

Lemma lsum_bound B l : 0 <= B -> Forall (fun v => - B <= v <= B) l -> - B * Z.of_nat (length l) <= lsum l <= B * Z.of_nat (length l).
Proof. intros HB. induction 1 as [|v l Hv Hl IH]; cbn [lsum foldr length]; [lia|]. fold (lsum l). nia. Qed.

Lemma take_last (sz : nat) h : lsum (take (S sz) h) = lsum (take sz h) + default 0 (h !! sz).
Proof.
  revert h. induction sz as [|sz IH]; intros [|v h]; [done|cbn; rewrite ?take_0; cbn; lia|done|].
  change (take (S (S sz)) (v :: h)) with (v :: take (S sz) h). change (take (S sz) (v :: h)) with (v :: take sz h). change ((v :: h) !! S sz) with (h !! sz).
  change (lsum (v :: take (S sz) h)) with (v + lsum (take (S sz) h)). rewrite IH. cbn. fold (lsum (take sz h)). lia.
Qed.

Lemma s32_add a b : s32 (s32 a + b) = s32 (a + b).
Proof. unfold s32. f_equal. replace ((a + 2147483648) mod 4294967296 - 2147483648 + b + 2147483648) with ((a + 2147483648) mod 4294967296 + b) by lia. rewrite Zplus_mod_idemp_l. f_equal. lia. Qed.

Lemma s32_small a : - 2147483648 <= a < 2147483648 -> s32 a = a.
Proof. intros Ha. unfold s32. rewrite Z.mod_small by lia. lia. Qed.

Lemma process_step sz h f v B : ma_inv sz h f -> 0 <= B -> B * Z.of_nat sz < 2147483648 -> Forall (fun v => - B <= v <= B) (v :: h) ->
  exists f', ma_process v f = Ret (f', cast (Z.quot (lsum (take sz (v :: h))) (Z.of_nat (length (take sz (v :: h)))))) /\ ma_inv sz (v :: h) f'.
Proof.
  intros [[Hs Hsz] Hd Hi Hn Hr Hsum] HB Hfit Hall. destruct sz as [|k]; [lia|]. set (m := Z.of_nat (S k)) in *.
  assert ((ma_index f - 1 - (m - 1)) mod m = ma_index f) as Hold.
  { replace (ma_index f - 1 - (m - 1)) with (ma_index f + (-1) * m) by lia. rewrite Z_mod_plus_full. by apply Z.mod_small. }
  pose proof (Hr (m - 1) ltac:(lia)) as Hro. rewrite Hold in Hro. replace (Z.to_nat (m - 1)) with k in Hro by lia.
  unfold ma_process. rewrite Hro. cbn [checked mbind outcome_bind]. destruct (wr_total (ma_data f) (ma_index f) v) as [d Hw]; [lia|]. rewrite Hw. cbn [checked mbind outcome_bind].
  assert (lsum (take (S k) (v :: h)) = ma_sum f - default 0 (h !! k) + v) as Hnew by (change (lsum (take (S k) (v :: h))) with (v + lsum (take k h)); rewrite Hsum, (take_last k h); lia).
  assert (length (take (S k) (v :: h)) = S (Nat.min k (length h))) as Hlen by (cbn; by rewrite length_take).
  assert (s32 (s32 (ma_sum f - default 0 (h !! k)) + v) = lsum (take (S k) (v :: h))) as ->.
  { rewrite s32_add, <-Hnew. apply s32_small. pose proof (lsum_bound B (take (S k) (v :: h)) HB (Forall_take _ _ _ Hall)). nia. }
  rewrite (u16_id (ma_index f + 1)) by (unw; lia). rewrite Hs. fold m.
  assert ((if bool_decide (ma_n f < m) then u16 (ma_n f + 1) else ma_n f) = Z.of_nat (length (take (S k) (v :: h)))) as ->.
  { rewrite Hn, Hlen, length_take. case_bool_decide; [rewrite u16_id by (unw; lia)|]; lia. }
  rewrite bool_decide_false by lia. eexists. split; [done|].
  assert ((if bool_decide (ma_index f + 1 >= m) then 0 else ma_index f + 1) = (ma_index f + 1) mod m) as ->.
  { destruct (decide (ma_index f + 1 >= m)); [rewrite bool_decide_true by done; replace (ma_index f + 1) with m by lia; symmetry; apply Z_mod_same_full|rewrite bool_decide_false by done; symmetry; apply Z.mod_small; lia]. }
  split; cbn [ma_size ma_data ma_index ma_n ma_sum]; try done; [by rewrite (wr_length _ _ _ _ Hw)|apply Z.mod_pos_bound; lia|].
  intros j Hj. fold m in Hj |- *. assert (((ma_index f + 1) mod m - 1 - j) mod m = (ma_index f - j) mod m) as ->.
  { replace ((ma_index f + 1) mod m - 1 - j) with ((ma_index f + 1) mod m - (1 + j)) by lia. rewrite Zminus_mod_idemp_l. f_equal. lia. }
  destruct (decide (j = 0)) as [->|Hne].
  - rewrite Z.sub_0_r, Z.mod_small by done. apply wr_Some in Hw as [_ ->]. unfold rd. rewrite bool_decide_true by lia. cbn. apply list_lookup_insert_eq. lia.
  - rewrite (rd_wr_ne _ _ _ _ _ Hw).
    + replace (ma_index f - j) with (ma_index f - 1 - (j - 1)) by lia. rewrite Hr by lia. replace (Z.to_nat j) with (S (Z.to_nat (j - 1))) by lia. done.
    + intros Hx. destruct (decide (j <= ma_index f)); [rewrite Z.mod_small in Hx by lia; lia|].
      replace (ma_index f - j) with (ma_index f - j + m + (-1) * m) in Hx by lia. rewrite Z_mod_plus_full, Z.mod_small in Hx by lia. lia.
Qed.

(** The outputs of a run. *)
Lemma run_means sz B vs : 0 <= B -> B * Z.of_nat sz < 2147483648 -> forall h f, ma_inv sz h f -> Forall (fun v => - B <= v <= B) (vs ++ h) ->
  exists f', ma_run vs f = Ret (f', means sz h vs) /\ ma_inv sz (rev vs ++ h) f'.
Proof.
  intros HB Hfit. induction vs as [|v vs IH]; intros h f Hinv Hall; [by exists f|]. cbn [ma_run means app] in *. apply Forall_cons in Hall as [Hv Hall]. pose proof Hall as [Hvs Hh]%Forall_app.
  destruct (process_step sz h f v B Hinv HB Hfit) as (f1 & -> & Hinv1); [by constructor|]. cbn [mbind outcome_bind].
  destruct (IH (v :: h) f1 Hinv1) as (f2 & -> & Hinv2); [apply Forall_app; split; [done|by constructor]|]. cbn [mbind outcome_bind]. exists f2. split; [done|].
  cbn [rev]. by rewrite <-app_assoc.
Qed.

Lemma clear_zeros i : forall d, (i <= length d)%nat -> exists d', ma_clear i d = Ret d' /\ length d' = length d /\ forall k, 0 <= k < Z.of_nat i -> rd d' k = Some 0.
Proof.
  induction i as [|i IH]; intros d Hi; cbn [ma_clear]; [exists d; split; [done|]; split; [done|lia]|]. destruct (IH d) as (d1 & -> & Hl & Hz); [lia|]. cbn [mbind outcome_bind].
  destruct (wr_total d1 (Z.of_nat i) 0) as [d2 Hw]; [lia|]. rewrite Hw. exists d2. split; [done|]. split; [by rewrite (wr_length _ _ _ _ Hw)|]. intros k Hk. destruct (decide (k = Z.of_nat i)) as [->|Hne].
  - apply wr_Some in Hw as [_ ->]. unfold rd. rewrite bool_decide_true by lia. apply list_lookup_insert_eq. lia.
  - rewrite (rd_wr_ne _ _ _ _ _ Hw) by done. apply Hz. lia.
Qed.

Lemma reset_inv sz f : ma_size f = Z.of_nat sz -> 0 < Z.of_nat sz < 65536 -> (sz <= length (ma_data f))%nat -> exists f', ma_reset f = Ret f' /\ ma_inv sz [] f'.
Proof.
  intros Hs Hsz Hl. unfold ma_reset. rewrite Hs, Nat2Z.id. destruct (clear_zeros sz (ma_data f) Hl) as (d & -> & Hld & Hz). cbn [mbind outcome_bind]. eexists. split; [done|].
  rewrite u16_id by (unw; lia). split; cbn [ma_size ma_data ma_index ma_n ma_sum]; try done; try lia; try (by destruct sz).
  intros k Hk. rewrite lookup_nil. cbn. apply Hz. apply Z.mod_pos_bound. lia.
Qed.

(** The filter of a size that its buffer holds returns for each value the
    mean of the last [size] values, or of all values so far, cut towards zero;
    whatever the buffer held before.  The sums of [size] values must fit the
    sum of the code. *)
Theorem filter_means sz buffer vs B : 0 < Z.of_nat sz < 65536 -> (sz <= length buffer)%nat -> 0 <= B -> B * Z.of_nat sz < 2147483648 -> Forall (fun v => - B <= v <= B) vs ->
  exists f f', ma_TMovAvgFilter (Z.of_nat sz) buffer = Ret f /\ ma_run vs f = Ret (f', means sz [] vs).
Proof.
  intros Hsz Hl HB Hfit Hall. unfold ma_TMovAvgFilter. rewrite u16_id by (unw; lia).
  destruct (reset_inv sz (mkMovAvg (Z.of_nat sz) 0 0 buffer 0) eq_refl Hsz Hl) as (f & E & Hinv). exists f.
  destruct (run_means sz B vs HB Hfit [] f Hinv) as (f' & E2 & _); [by rewrite app_nil_r|]. by exists f'.
Qed.

End Filter.

Lemma filter_means_witness : exists f f', ma_TMovAvgFilter 3 [7; 7; 7; 7] = Ret f /\ ma_run s16 [10; 20; -5; 100; 1] f = Ret (f', [10; 15; 8; 38; 32]).
Proof.
  apply (filter_means s16 3 [7; 7; 7; 7] [10; 20; -5; 100; 1] 100); [lia|cbn; lia|lia|lia|]. repeat (apply Forall_cons_2; [lia|]). apply Forall_nil_2.
Defined.
